(* ===== verification/_CoqProject ===== *)
-Q . S2P
Prelude.v
PyValue.v
Json.v
PyBuiltins.v
Driver.v
Encoding.v
ExecutionPolicy.v
StateRoot.v
Formatting.v
FeePolicy.v
Nonce.v
TxValidation.v
Proposal.v
AbciWire.v
Validators.v
Block.v
App.v
Engine.v
Processor.v
StatePatches.v
Rewards.v
FinalizeBlock.v
Query.v
SimulatorIpc.v
Simulator.v
StateExport.v
RuntimeFeatures.v
Genesis.v
StateSync.v
SnapshotRestore.v
BdsShielded.v
BdsStore.v
BdsQueue.v
BdsReindex.v
BdsHandover.v
ShieldedPreverify.v
BdsSnapshot.v
Toml.v
NodeConfig.v
RpcUrl.v
Startup.v
NodeAdmin.v
Logging.v
DashboardLimits.v
DashboardEvents.v
DashboardWs.v
DashboardApi.v
