(* ===== verification/Prelude.v ===== *)
(** * xian-abci: verification library

    xian-abci is the application half of a CometBFT chain.  CometBFT orders
    transactions and calls the application over a socket; the application
    validates, executes, keeps the state and answers with a hash of it that all
    validators must agree on.  This library models that application as executable
    functions and proves what the chain relies on.

    ** The program's parts and the files that model them

    Paths are below src/src/.

    - Foundations: this file (the error monad [result] for Python exceptions,
      the state monad [stM] whose state survives an exception as it does in
      Python, with [try_st] and [finally_st], lemmas on lists, dicts and strings, the hint databases);
      [PyValue] (dynamically typed values), [Json] (the standard library's json
      module), [PyBuiltins] (built-in functions; arithmetic on contract numbers
      behind the class [PyArith]).
    - [Driver]: the storage driver of the contracting package as an interface,
      class [DriverOps] with its laws [DriverLaws]; the in-memory instance
      [mem_driver] shows that the laws can hold.
    - [AbciWire]: abci/utils.py and abci/server.py, varints, framing and the
      connection handler.
    - [Encoding]: xian/utils/encoding.py, the transaction envelope and the
      canonical JSON of responses and leaves.
    - [Formatting], [FeePolicy], [Nonce], [TxValidation]: xian/formatting.py,
      fee_policy.py, nonce.py, utils/tx.py and methods/check_tx.py, what a
      transaction must satisfy to enter mempool, proposal or block.
    - [ExecutionPolicy]: execution_policy.py, the versions a chain pins.
    - [StateRoot]: state_root.py, the Merkle treap and its per-block cache.
    - [Proposal]: methods/prepare_proposal.py, process_proposal.py and the
      decoding loop of finalize_block.py.
    - [Validators]: validators.py.  [Block]: utils/block.py.
    - [App]: the state of the application object (xian_abci.py) that
      FinalizeBlock and Commit share, and methods/commit.py, info.py and
      init_chain.py.
    - [Engine]: execution_engine.py, the wrapper around the virtual machine;
      the machine is the class [Runtime]: a call changes the driver and may
      raise, and what the wrapper does against that, the snapshot and its
      restoration, is in the model.  [Processor]: processor.py, and the
      worker's half of parallel_executor.py.  [Rewards]: rewards.py.
    - [StatePatches]: utils/state_patches.py.
    - [FinalizeBlock]: methods/finalize_block.py and _evidence.py.
    - [Query]: methods/query.py and services/bds/candles.py.
    - [StateExport], [StateSync]: state_export.py, services/state_sync.py.
    - [RuntimeFeatures], [Genesis]: runtime_features.py and genesis_builder.py,
      the tool that builds the genesis file InitChain reads.
    - [SimulatorIpc], [Simulator]: simulator_ipc.py, simulator.py and
      simulator_worker.py, dry runs of transactions in worker processes.
    - [SnapshotRestore]: snapshot_restore.py, replacing a node's data by an
      archive without losing its identity.
    - [BdsShielded], [BdsStore], [BdsQueue], [BdsReindex]: services/bds, the block
      data service: the rows it derives from a block and the writes of its SQL
      statements (shielded.py, serializer.py, payloads.py, sql.py, bds.py), its
      spool, worker and catch-up as a step machine over the class [BlockStore],
      and rebuilding blocks from the RPC (reindex.py).
    - [BdsHandover]: what FinalizeBlock hands to the indexer, the format of a
      spool file, and the composition of the two with [BdsReindex].
    - [BdsSnapshot]: services/bds/snapshot.py, export and import of the tables.
    - [ShieldedPreverify]: shielded_preverify.py, against the class [ZkBridge] of
      the zero-knowledge package.
    - [Toml]: toml_utils.py with the parser of the standard library on the part
      of TOML it prints.
    - [NodeConfig]: node_setup.py and services/bds/config.py, rendering and
      reading a node's configuration.
    - [Startup]: the start of a node in xian_abci.py, and a machine of calls,
      crashes and restarts over the whole application.
    - [NodeAdmin]: node_admin.py, signed remote snapshots and reconfiguration.
    - [Logging]: log_retention.py and log_safety.py.
    - [DashboardLimits], [DashboardEvents], [DashboardWs], [DashboardApi]:
      dashboard/app.py, its limiters and middleware, its subscriptions and
      routing, its WebSocket clients as a machine of the event loop's steps, and
      its REST handlers as programs that ask the network; [RpcUrl]: the address
      helpers of utils/cometbft.py.
    ** How the model corresponds to the code

    A definition keeps the name of the function it translates; a loop body or a
    branch that needs a name of its own is a helper mapped to its lines.  A
    handler that changes state is an [stM] computation on the record of the
    object's attributes, so that what an exception leaves behind is part of the
    model.  Handlers of the application run under one lock and are single steps.
    A dict is the list of its entries in insertion order, a set or a dict used
    as a finite map is a [gmap].  Logging, metrics and profiling carry no state
    the handlers read and are left out.  A message of an exception that contains
    a [repr] is abbreviated; classes and literal messages are the code's.

    Code of other packages is a parameter: hashes and signatures, the driver,
    the virtual machine, protobuf, the clock, float and decimal arithmetic, the
    tar format, what PostgreSQL accepts as text.  What a theorem needs of one is a hypothesis or a law of its
    class ([DriverLaws], [RuntimeLaws], [StorageLaws], ...), and the witness of
    that theorem discharges it for a concrete implementation.  [RuntimeLaws] says
    of the machine that it commits nothing, that what it does depends on the
    entries it reports as read, and that restoring a snapshot undoes what was not
    committed.  Components meet
    at such interfaces too: the processor's theorems ask [handler_ok] of a reward
    handler, and [Rewards] proves it of the real one.

    ** What the theorems show

    - Consensus: FinalizeBlock followed by Commit makes durable exactly the state
      whose root was answered, and re-establishes what the next block starts from
      ([FinalizeBlock.finalize_commit_correct]), on top of the refinement of the
      root computed from scratch by the incremental cache, its binding and its
      rollback ([StateRoot]), the atomic commit ([App]), genesis ([App]), the
      validator updates ([Validators]) and an invariant over arbitrary sequences
      of calls ([FinalizeBlock.execution_policy_invariant]).
    - Transactions: what admission guarantees ([TxValidation], [Nonce],
      [FeePolicy]), that an honest proposal is accepted and an accepted one
      decodes ([Proposal]), that a receipt and the state agree, a failed
      transaction only pays its fee and speculation equals serial execution
      ([Processor]), that rewards reach balances exactly as they were split
      ([Rewards]), and that preparation of contracts terminates ([Engine]).
    - Governance: only approved patches are applied, once ([StatePatches]).
    - The outside: framing and dispatch answer in order ([AbciWire]), encodings
      round-trip ([Encoding]), queries change nothing and paging is complete
      ([Query]), export, import and state sync reproduce a state
      ([StateExport], [StateSync]).
    - Operation: a built genesis starts the chain it describes ([Genesis]), a
      restore is atomic and keeps the node's identity ([SnapshotRestore]), every
      simulation request is answered, as the node itself would
      ([Simulator], [SimulatorIpc]).
    - The index: a block is written as a whole and once, and the tables agree with
      each other ([BdsStore]); no block that was handed over is lost and a spool
      drains ([BdsQueue], against the interface that [BdsStore] implements);
      rebuilt blocks are the trusted ones ([BdsReindex]) and have the payloads
      FinalizeBlock hands over, and spool files round-trip ([BdsHandover]); a
      snapshot reproduces the tables, and an import that fails at any step leaves
      all of its rows or none ([BdsSnapshot]).  Warming the proof cache cannot fail a block
      ([ShieldedPreverify]).
    - A node's life: every run of a node with crashes and restarts is a run of a
      ledger that loses nothing but the block that waits, and a node that started
      once starts again after any such run ([Startup]); the configuration a node reads is
      the one it was given ([Toml], [NodeConfig]); a reconfigured home keeps its
      identity and a remote snapshot is restored only when it is authentic
      ([NodeAdmin]); the log directory keeps within its budget ([Logging]).
    - The dashboard: rates and concurrency are limited ([DashboardLimits]),
      requests reach only the node, its peers and where these redirect to
      ([DashboardApi], [RpcUrl]),
      subscribers are told of the state changes FinalizeBlock reports
      ([DashboardEvents]), and clients, queues and subscriptions stay consistent
      under every interleaving ([DashboardWs]).
    - Some theorems state where the code falls short of its intent, on a concrete
      input or in general: their comments say so.

    ** Bounds and fuel

    The recursion depth of contract preparation is an argument [fuel];
    [Engine.prepare_fuel_enough] shows that more depth than stored contracts
    changes nothing.  Parsers and scanners run on the length of their input
    (every step consumes a character), [encode_varint] on the bit length, the
    search for the next nonce on the number of reservations, the eviction of rate
    buckets on their number; the round-trip and
    correctness theorems hold for that fuel.

    ** Not modelled

    The scheduling loop of parallel execution and the native proof cache (other
    packages); of the block data service the read queries and the set-up of the
    schema (SQL text) and its connection pool; the discovery of seeds over HTTP;
    the static files of the dashboard; the command line; metrics, profiling and the set-up of
    logging beyond the settings they read; the worker processes a start may warm up;
    the generated protobuf bindings.  Within modelled functions: the native fast path
    of transaction decoding (an optional package), the checks for symbolic links of
    the snapshot restore and of the log sink, sets and exception objects among the
    values of the response encoder, and cancellation of a simulation request. *)

From stdpp Require Export base tactics list strings gmap sorting.
From Stdlib Require Export ZArith Lia.
#[global] Open Scope Z_scope.

(** ** Python exceptions and the error monad

    A call that may raise is a [result]; [Raise] carries the exception's class
    and its message. *)

Inductive exn_class :=
  | TransactionException | ValueError | TypeError | KeyError | AssertionError
  | RuntimeError | RecursionError | FileNotFoundError | EOFError | IndexError | AttributeError
  | OSError | FileExistsError | OtherError.

#[global] Instance exn_class_eq_dec : EqDecision exn_class.
Proof. solve_decision. Defined.

Record exn := Exn { exn_cls : exn_class; exn_msg : string }.

#[global] Instance exn_eq_dec : EqDecision exn.
Proof. solve_decision. Defined.

Inductive result (A : Type) :=
  | Ok (a : A)
  | Raise (e : exn).
Arguments Ok {_} _.
Arguments Raise {_} _.

#[global] Instance result_ret : MRet result := @Ok.
#[global] Instance result_bind : MBind result := λ A B f m,
  match m with Ok a => f a | Raise e => Raise e end.
#[global] Instance result_fmap : FMap result := λ A B f m,
  match m with Ok a => Ok (f a) | Raise e => Raise e end.

#[global] Instance result_eq_dec {A} `{EqDecision A} : EqDecision (result A).
Proof. solve_decision. Defined.

Definition raise {A} (c : exn_class) (m : string) : result A := Raise (Exn c m).

Definition is_ok {A} (r : result A) : bool :=
  match r with Ok _ => true | Raise _ => false end.

Definition ok_or {A} (d : A) (r : result A) : A :=
  match r with Ok a => a | Raise _ => d end.

(** [check_py b e]: [if not b: raise e]. *)
Definition check_py (b : bool) (c : exn_class) (m : string) : result unit :=
  if b then Ok tt else raise c m.

(** Sequencing a fallible operation over a list, left to right. *)
Fixpoint mapM_py {A B} (f : A -> result B) (l : list A) : result (list B) :=
  match l with
  | [] => Ok []
  | x :: l => y ← f x; ys ← mapM_py f l; Ok (y :: ys)
  end.

Fixpoint foldM_py {A S} (f : S -> A -> result S) (s : S) (l : list A) : result S :=
  match l with
  | [] => Ok s
  | x :: l => s' ← f s x; foldM_py f s' l
  end.

Lemma Ok_inj {A} (a b : A) : Ok a = Ok b -> a = b.
Proof. congruence. Qed.

Lemma result_bind_inv {A B} (m : result A) (f : A -> result B) b : m ≫= f = Ok b -> exists a, m = Ok a /\ f a = Ok b.
Proof. destruct m as [a|]; [by exists a|done]. Qed.

Lemma check_py_inv b c m u : check_py b c m = Ok u -> b = true.
Proof. by destruct b. Qed.

(** Case analysis on every [match]/[if] of a hypothesis or goal about results. *)
Ltac destruct_result :=
  repeat match goal with
  | H : Ok _ = Ok _ |- _ => apply Ok_inj in H; subst
  | H : Ok _ = Raise _ |- _ => discriminate H
  | H : Raise _ = Ok _ |- _ => discriminate H
  | H : raise _ _ = Ok _ |- _ => discriminate H
  | H : is_ok (Raise _) = true |- _ => discriminate H
  | H : is_ok (raise _ _) = true |- _ => discriminate H
  | H : mbind _ ?m = Ok _ |- _ =>
      let E := fresh "E" in destruct m eqn:E in H; cbn [mbind result_bind] in H; [| discriminate H]
  end.

(** Reduce a bind whose first computation is known, and nothing else. *)
Ltac bind_step := cbn [mbind result_bind].

Lemma mapM_py_length {A B} (f : A -> result B) l ys :
  mapM_py f l = Ok ys -> length ys = length l.
Proof.
  revert ys; induction l as [|x l IH]; simpl; intros ys H; [by destruct_result|].
  destruct_result. simpl. by erewrite IH.
Qed.

Lemma mapM_py_elem {A B} (f : A -> result B) l ys y :
  mapM_py f l = Ok ys -> y ∈ ys -> exists x, x ∈ l /\ f x = Ok y.
Proof.
  revert ys; induction l as [|x l IH]; simpl; intros ys H Hy.
  - destruct_result. by apply elem_of_nil in Hy.
  - destruct_result. apply elem_of_cons in Hy as [->|Hy].
    + exists x. split; [left | done].
    + destruct (IH _ E0 Hy) as (x' & Hx' & ?). exists x'. split; [by right | done].
Qed.

Lemma mapM_py_elem_fwd {A B} (f : A -> result B) l ys x :
  mapM_py f l = Ok ys -> x ∈ l -> exists y, y ∈ ys /\ f x = Ok y.
Proof.
  revert ys; induction l as [|z l IH]; simpl; intros ys H Hx; [by apply elem_of_nil in Hx|].
  destruct_result. apply elem_of_cons in Hx as [->|Hx].
  - exists a. split; [left | done].
  - destruct (IH _ E0 Hx) as (y & Hy & ?). exists y. split; [by right | done].
Qed.

Lemma mapM_py_const {A B} (f : A -> result B) l y :
  (forall x, x ∈ l -> f x = Ok y) -> mapM_py f l = Ok (replicate (length l) y).
Proof.
  induction l as [|x l IH]; intros Hf; [done|]. simpl. rewrite Hf by left. bind_step.
  rewrite IH; [done|]. intros z Hz. apply Hf. by right.
Qed.

Lemma foldM_py_app {A S} (f : S -> A -> result S) s l1 l2 :
  foldM_py f s (l1 ++ l2) = (s' ← foldM_py f s l1; foldM_py f s' l2).
Proof.
  revert s; induction l1 as [|x l1 IH]; simpl; intros s; [done|].
  destruct (f s x); simpl; [apply IH | done].
Qed.

(** An invariant of one step is an invariant of the loop. *)
Lemma foldM_py_inv {A S} (P : S -> Prop) (f : S -> A -> result S) s l s' :
  P s -> (forall t x t', P t -> x ∈ l -> f t x = Ok t' -> P t') ->
  foldM_py f s l = Ok s' -> P s'.
Proof.
  revert s; induction l as [|x l IH]; simpl; intros s Hs Hstep H.
  - by destruct_result.
  - destruct_result. eapply IH; [|intros; eapply Hstep; [done|by right|done]|done].
    eapply Hstep; [done|by left|done].
Qed.

(** ** Python [str]

    A [str] is represented by its UTF-8 encoding, so [encode("utf-8")] is the
    identity on the representation and code-point order is byte order. *)

Definition str_lt (a b : string) : Prop := String.ltb a b = true.

#[global] Instance str_lt_dec : RelDecision str_lt.
Proof. intros a b. unfold str_lt. apply _. Defined.

Lemma str_compare_refl s : String.compare s s = Eq.
Proof.
  induction s as [|c s IH]; simpl; [done|].
  unfold Ascii.compare. by rewrite N.compare_refl.
Qed.

Lemma str_lt_le a b : str_lt a b <-> String.le a b /\ a <> b.
Proof.
  unfold str_lt, String.ltb, String.le, String.leb.
  destruct (String.compare a b) eqn:E; simpl; split; try done.
  - apply String.compare_eq_iff in E as ->. by intros [_ ?].
  - intros _. split; [done|]. intros ->. by rewrite str_compare_refl in E.
  - intros [[] _].
Qed.

#[global] Instance str_lt_strict : StrictOrder str_lt.
Proof.
  split.
  - intros s [_ ?]%str_lt_le. done.
  - intros a b c [H1 N1]%str_lt_le [H2 N2]%str_lt_le. apply str_lt_le. split.
    + by etrans.
    + intros ->. apply N1. by apply (anti_symm String.le).
Qed.

Lemma str_lt_trichotomy a b : {str_lt a b} + {a = b} + {str_lt b a}.
Proof.
  destruct (decide (a = b)) as [->|Hne]; [left; by right|].
  destruct (decide (str_lt a b)) as [?|Hn]; [left; by left|right].
  apply str_lt_le. split; [|congruence].
  destruct (total String.le a b) as [Hl|?]; [|done].
  exfalso. apply Hn. by apply str_lt_le.
Defined.

Lemma str_lt_asym a b : str_lt a b -> str_lt b a -> False.
Proof. intros H1 H2. by apply (irreflexivity str_lt a); transitivity b. Qed.

Lemma str_lt_ne a b : str_lt a b -> a <> b.
Proof. by intros [_ ?]%str_lt_le. Qed.

Lemma str_not_lt_le a b : ~ str_lt a b -> String.le b a.
Proof.
  intros Hn. destruct (str_lt_trichotomy a b) as [[?|<-]|H]; [done|done|].
  by apply str_lt_le in H as [? _].
Qed.

(** [s.startswith(p)] and the suffix that remains. *)
Fixpoint strip_prefix (p s : string) : option string :=
  match p, s with
  | EmptyString, _ => Some s
  | String a p, String b s => if decide (a = b) then strip_prefix p s else None
  | String _ _, EmptyString => None
  end.

Definition startswith (p s : string) : bool :=
  match strip_prefix p s with Some _ => true | None => false end.

Lemma strip_prefix_app p s : strip_prefix p (p +:+ s) = Some s.
Proof.
  induction p as [|c p IH]; simpl; [done|].
  change ((String c p) +:+ s) with (String c (p +:+ s)). simpl.
  by rewrite decide_True.
Qed.

Lemma strip_prefix_Some p s r : strip_prefix p s = Some r -> s = p +:+ r.
Proof.
  revert s; induction p as [|c p IH]; intros s H; simpl in *; [by simplify_eq|].
  destruct s as [|d s]; [done|]. case_decide; [|done]. subst.
  by rewrite (IH _ H).
Qed.

Lemma startswith_app p s : startswith p (p +:+ s) = true.
Proof. unfold startswith. by rewrite strip_prefix_app. Qed.

Lemma strip_prefix_same g p s : strip_prefix (g +:+ p) (g +:+ s) = strip_prefix p s.
Proof.
  induction g as [|c g IH]; [done|].
  change (strip_prefix (String c (g +:+ p)) (String c (g +:+ s)) = strip_prefix p s).
  cbn [strip_prefix]. by rewrite decide_True.
Qed.

Lemma str_app_assoc (a b c : string) : a +:+ (b +:+ c) = (a +:+ b) +:+ c.
Proof.
  induction a as [|x a IH]; [done|].
  change (String x (a +:+ (b +:+ c)) = String x ((a +:+ b) +:+ c)). by rewrite IH.
Qed.

Lemma startswith_weaken p r s : startswith (p +:+ r) s = true -> startswith p s = true.
Proof.
  unfold startswith. destruct (strip_prefix (p +:+ r) s) as [x|] eqn:E; [|done]. intros _.
  apply strip_prefix_Some in E as ->. rewrite <- str_app_assoc. by rewrite strip_prefix_app.
Qed.

(** [s.endswith(p)]. *)
Definition endswith (p s : string) : bool :=
  startswith (String.rev p) (String.rev s).

Definition str_chars (s : string) : list Ascii.ascii := String.list_ascii_of_string s.
Definition str_len (s : string) : Z := Z.of_nat (String.length s).

Lemma str_chars_app a b : str_chars (a +:+ b) = str_chars a ++ str_chars b.
Proof. unfold str_chars. induction a as [|c a IH]; [done|]. cbn. by rewrite <- IH. Qed.

#[global] Instance str_chars_inj : Inj (=) (=) str_chars.
Proof.
  intros a b Hab. unfold str_chars in Hab. rewrite <- (String.string_of_list_ascii_of_string a), Hab.
  apply String.string_of_list_ascii_of_string.
Qed.

(** Suffixes of one length are determined by the whole. *)
Lemma str_app_inj_suffix a s b t :
  String.length s = String.length t -> a +:+ s = b +:+ t -> a = b /\ s = t.
Proof.
  intros Hlen Heq. apply (f_equal str_chars) in Heq. rewrite !str_chars_app in Heq.
  assert (Hl : forall x, length (str_chars x) = String.length x).
  { intros x. unfold str_chars. induction x as [|c x IH]; [done|]. cbn. by rewrite IH. }
  apply app_inj_2 in Heq as [H1 H2]; [|by rewrite !Hl]. split; by apply (inj str_chars).
Qed.

(** Bytes are integers in [0, 256). *)
Abbreviation bytes := (list Z).
Definition byte_of_ascii (c : Ascii.ascii) : Z := Z.of_N (Ascii.N_of_ascii c).
Definition ascii_of_byte (b : Z) : Ascii.ascii := Ascii.ascii_of_N (Z.to_N b).
Definition encode_utf8 (s : string) : bytes := byte_of_ascii <$> str_chars s.
Definition is_byte (b : Z) : Prop := 0 <= b < 256.

Lemma byte_of_ascii_bound c : is_byte (byte_of_ascii c).
Proof.
  unfold is_byte, byte_of_ascii. pose proof (Ascii.N_ascii_bounded c). lia.
Qed.

Lemma ascii_of_byte_of_ascii c : ascii_of_byte (byte_of_ascii c) = c.
Proof. unfold ascii_of_byte, byte_of_ascii. rewrite N2Z.id. apply Ascii.ascii_N_embedding. Qed.

Lemma byte_of_ascii_of_byte b : is_byte b -> byte_of_ascii (ascii_of_byte b) = b.
Proof.
  intros Hb. unfold ascii_of_byte, byte_of_ascii, is_byte in *.
  rewrite Ascii.N_ascii_embedding; lia.
Qed.

#[global] Instance byte_of_ascii_inj : Inj (=) (=) byte_of_ascii.
Proof. intros a b H. by rewrite <- (ascii_of_byte_of_ascii a), H, ascii_of_byte_of_ascii. Qed.

#[global] Instance encode_utf8_inj : Inj (=) (=) encode_utf8.
Proof.
  intros a b H. unfold encode_utf8, str_chars in H.
  apply (inj (fmap byte_of_ascii)) in H.
  rewrite <- (String.string_of_list_ascii_of_string a), H.
  apply String.string_of_list_ascii_of_string.
Qed.

(** ** Python [dict] with string keys, in insertion order *)

Section Dict.
Context {A : Type}.
Implicit Types (d : list (string * A)) (k : string) (v : A).

Fixpoint dict_get k d : option A :=
  match d with
  | [] => None
  | (k', v) :: d => if decide (k = k') then Some v else dict_get k d
  end.

(** [d[k] = v]: an existing key keeps its position. *)
Fixpoint dict_set k v d : list (string * A) :=
  match d with
  | [] => [(k, v)]
  | (k', v') :: d => if decide (k = k') then (k, v) :: d else (k', v') :: dict_set k v d
  end.

(** [d.pop(k, None)]. *)
Definition dict_pop k d : list (string * A) := filter (λ kv, kv.1 <> k) d.

Definition dict_keys d : list string := d.*1.
Definition dict_mem k d : bool := match dict_get k d with Some _ => true | None => false end.

(** [d.update(e)]. *)
Definition dict_update d (e : list (string * A)) : list (string * A) :=
  foldl (λ acc kv, dict_set kv.1 kv.2 acc) d e.

Lemma dict_get_set_eq k v d : dict_get k (dict_set k v d) = Some v.
Proof.
  induction d as [|[k' v'] d IH]; simpl; [by rewrite decide_True|].
  case_decide; simpl; [by rewrite decide_True|]. by rewrite decide_False.
Qed.

Lemma dict_get_set_ne k k' v d : k' <> k -> dict_get k' (dict_set k v d) = dict_get k' d.
Proof.
  intros Hne. induction d as [|[k2 v2] d IH]; simpl; [by rewrite decide_False|].
  case_decide; subst; simpl.
  - by rewrite !decide_False.
  - by rewrite IH.
Qed.

Lemma dict_get_set k k' v d :
  dict_get k' (dict_set k v d) = if decide (k' = k) then Some v else dict_get k' d.
Proof.
  case_decide; subst; [apply dict_get_set_eq | by apply dict_get_set_ne].
Qed.

Lemma dict_get_None k d : dict_get k d = None <-> k ∉ dict_keys d.
Proof.
  induction d as [|[k' v'] d IH]; simpl; [split; [intros _; apply not_elem_of_nil | done]|].
  rewrite not_elem_of_cons. case_decide as Hk; [by split; [|intros [? _]] | by rewrite IH; split; [|intros [_ ?]]].
Qed.

Lemma dict_get_Some_elem k v d : dict_get k d = Some v -> (k, v) ∈ d.
Proof.
  induction d as [|[k' v'] d IH]; simpl; [done|]. case_decide; intros Hv.
  - simplify_eq. left.
  - right. by apply IH.
Qed.

Lemma dict_get_elem k v d : NoDup (dict_keys d) -> (k, v) ∈ d -> dict_get k d = Some v.
Proof.
  induction d as [|[k' v'] d IH]; simpl; intros Hnd Hin; [by apply elem_of_nil in Hin|].
  apply NoDup_cons in Hnd as [Hk Hnd]. apply elem_of_cons in Hin as [Heq|Hin].
  - simplify_eq. by rewrite decide_True.
  - rewrite decide_False; [by apply IH|]. intros ->. apply Hk.
    by apply (list_elem_of_fmap_2 fst) in Hin.
Qed.

Lemma dict_keys_set k v d :
  dict_keys (dict_set k v d) = if dict_mem k d then dict_keys d else dict_keys d ++ [k].
Proof.
  unfold dict_mem, dict_keys. induction d as [|[k' v'] d IH]; simpl; [done|].
  case_decide; subst; csimpl; [done|]. rewrite IH. by destruct (dict_get k d).
Qed.

Lemma dict_set_nodup k v d : NoDup (dict_keys d) -> NoDup (dict_keys (dict_set k v d)).
Proof.
  intros Hnd. rewrite dict_keys_set. unfold dict_mem.
  destruct (dict_get k d) eqn:E; [done|].
  apply NoDup_app. split; [done|]. split; [|apply NoDup_singleton].
  intros x Hx ->%list_elem_of_singleton. by apply dict_get_None in E.
Qed.

Lemma dict_get_pop_eq k d : dict_get k (dict_pop k d) = None.
Proof.
  apply dict_get_None. unfold dict_pop, dict_keys. intros Hin.
  apply list_elem_of_fmap in Hin as ([k' v'] & -> & Hin).
  by apply list_elem_of_filter in Hin as [? _].
Qed.

Lemma dict_get_pop_ne k k' d : k' <> k -> dict_get k' (dict_pop k d) = dict_get k' d.
Proof.
  intros Hne. unfold dict_pop. induction d as [|[k2 v2] d IH]; [done|].
  rewrite filter_cons. simpl. case_decide; simpl; [by rewrite IH|].
  rewrite decide_False; [done|]. naive_solver.
Qed.

Lemma dict_pop_nodup k d : NoDup (dict_keys d) -> NoDup (dict_keys (dict_pop k d)).
Proof.
  unfold dict_pop, dict_keys. induction d as [|[k' v'] d IH]; [done|].
  rewrite filter_cons. simpl. intros [Hk Hnd]%NoDup_cons. case_decide; [|by apply IH].
  csimpl. apply NoDup_cons. split; [|by apply IH]. intros Hin. apply Hk.
  apply list_elem_of_fmap in Hin as (kv & -> & [_ Hin]%list_elem_of_filter).
  by apply (list_elem_of_fmap_2 fst).
Qed.

Lemma dict_set_keys k v d q : q ∈ dict_keys (dict_set k v d) <-> q = k \/ q ∈ dict_keys d.
Proof.
  induction d as [|[k' v'] d IH]; [cbn; by rewrite list_elem_of_singleton, elem_of_nil; intuition|].
  cbn [dict_set]. destruct (decide (k = k')) as [->|Hne]; unfold dict_keys in *; rewrite !fmap_cons, !elem_of_cons; cbn [fst].
  - tauto.
  - rewrite IH. tauto.
Qed.

Lemma dict_update_keys d e q : q ∈ dict_keys (dict_update d e) <-> q ∈ dict_keys d \/ q ∈ dict_keys e.
Proof.
  unfold dict_update. revert d. induction e as [|[k v] e IH]; intros d; cbn [foldl].
  - unfold dict_keys at 3. cbn. rewrite elem_of_nil. tauto.
  - rewrite IH, dict_set_keys. unfold dict_keys at 4. rewrite fmap_cons, elem_of_cons. unfold dict_keys. cbn [fst snd]. tauto.
Qed.

Lemma dict_get_update d e k :
  NoDup (dict_keys e) ->
  dict_get k (dict_update d e) = match dict_get k e with Some v => Some v | None => dict_get k d end.
Proof.
  unfold dict_update. revert d. induction e as [|[k' v'] e IH]; intros d; [done|].
  intros [Hk Hnd]%NoDup_cons. simpl. rewrite (IH _ Hnd). destruct (decide (k = k')) as [->|Hne].
  - rewrite (proj2 (dict_get_None k' e) Hk). apply dict_get_set_eq.
  - destruct (dict_get k e); [done|]. by apply dict_get_set_ne.
Qed.

Lemma dict_get_Permutation d1 d2 k :
  NoDup (dict_keys d1) -> d1 ≡ₚ d2 -> dict_get k d1 = dict_get k d2.
Proof.
  intros Hnd HP. assert (Hnd2 : NoDup (dict_keys d2)) by (unfold dict_keys in *; by rewrite <- HP).
  destruct (dict_get k d1) as [v|] eqn:E1.
  - symmetry. apply dict_get_elem; [done|]. rewrite <- HP. by apply dict_get_Some_elem.
  - symmetry. apply dict_get_None. apply dict_get_None in E1. unfold dict_keys in *. by rewrite <- HP.
Qed.

(** Two dicts that answer every lookup alike hold the same entries. *)
Lemma dict_get_perm d1 d2 :
  NoDup (dict_keys d1) -> NoDup (dict_keys d2) ->
  (forall k, dict_get k d1 = dict_get k d2) -> d1 ≡ₚ d2.
Proof.
  intros H1 H2 Heq. apply NoDup_Permutation.
  - by eapply NoDup_fmap_1.
  - by eapply NoDup_fmap_1.
  - intros [k v]. split; intros Hin.
    + apply dict_get_Some_elem. rewrite <- Heq. by apply dict_get_elem.
    + apply dict_get_Some_elem. rewrite Heq. by apply dict_get_elem.
Qed.
End Dict.

#[global] Instance dict_keys_perm {A} : Proper ((≡ₚ) ==> (≡ₚ)) (@dict_keys A).
Proof. intros d1 d2 HP. unfold dict_keys. by rewrite HP. Qed.

(** ** [sorted(l, key=...)] with string keys: a stable insertion sort *)

Section SortBy.
Context {A : Type} (key : A -> string).

Fixpoint insert_by (x : A) (l : list A) : list A :=
  match l with
  | [] => [x]
  | y :: l => if decide (str_lt (key y) (key x)) then y :: insert_by x l else x :: y :: l
  end.

Definition sort_by (l : list A) : list A := foldr insert_by [] l.

Definition key_le (x y : A) : Prop := String.le (key x) (key y).

#[global] Instance key_le_trans : Transitive key_le.
Proof. intros x y z. unfold key_le. by etrans. Qed.

Lemma insert_by_perm x l : insert_by x l ≡ₚ x :: l.
Proof.
  induction l as [|y l IH]; simpl; [done|]. case_decide; [|done].
  rewrite IH. apply Permutation_swap.
Qed.

Lemma sort_by_perm l : sort_by l ≡ₚ l.
Proof. induction l as [|x l IH]; simpl; [done|]. by rewrite insert_by_perm, IH. Qed.

Lemma insert_by_sorted x l :
  StronglySorted key_le l -> StronglySorted key_le (insert_by x l).
Proof.
  induction 1 as [|y l Hl IH Hall]; simpl; [repeat constructor|].
  case_decide as Hlt.
  - constructor; [done|]. rewrite insert_by_perm. constructor; [|done].
    by apply str_lt_le in Hlt as [? _].
  - apply str_not_lt_le in Hlt. constructor; [by constructor|]. constructor; [done|].
    eapply Forall_impl; [exact Hall|]. intros z Hz. unfold key_le in *. by etrans.
Qed.

Lemma sort_by_sorted l : StronglySorted key_le (sort_by l).
Proof. induction l; simpl; [constructor | by apply insert_by_sorted]. Qed.

Lemma sorted_by_unique l1 l2 :
  NoDup (key <$> l1) -> StronglySorted key_le l1 -> StronglySorted key_le l2 ->
  l1 ≡ₚ l2 -> l1 = l2.
Proof.
  intros Hnd S1 S2 HP. apply (StronglySorted_unique_strong key_le); try done.
  intros x1 x2 H1 H2 L1 L2. rewrite <- HP in H2.
  assert (Hk : key x1 = key x2) by by apply (anti_symm String.le).
  apply list_elem_of_lookup in H1 as [i Hi]. apply list_elem_of_lookup in H2 as [j Hj].
  assert (i = j) as ->.
  { eapply (NoDup_lookup (key <$> l1)); [done| |]; rewrite list_lookup_fmap.
    - by rewrite Hi.
    - rewrite Hj; simpl. by rewrite Hk. }
  congruence.
Qed.

(** Sorting forgets the order of the input when the keys are distinct. *)
Lemma sort_by_perm_eq l1 l2 :
  NoDup (key <$> l1) -> l1 ≡ₚ l2 -> sort_by l1 = sort_by l2.
Proof.
  intros Hnd HP. apply sorted_by_unique.
  - by rewrite sort_by_perm.
  - apply sort_by_sorted.
  - apply sort_by_sorted.
  - by rewrite !sort_by_perm.
Qed.

Lemma sort_by_id l : NoDup (key <$> l) -> StronglySorted key_le l -> sort_by l = l.
Proof.
  intros Hnd Hs. symmetry. apply sorted_by_unique; [done..|apply sort_by_sorted|].
  by rewrite sort_by_perm.
Qed.
End SortBy.

(** ** Objects with mutable state

    A method is a function from the object's state to its outcome and the state
    it leaves behind: as in Python, an exception does not undo the writes made
    before it. *)

Definition stM (S A : Type) : Type := S -> result A * S.

#[global] Instance stM_ret {S} : MRet (stM S) := λ A a s, (Ok a, s).
#[global] Instance stM_bind {S} : MBind (stM S) := λ A B f m s,
  match m s with
  | (Ok a, s') => f a s'
  | (Raise e, s') => (Raise e, s')
  end.

Definition get_st {S} : stM S S := λ s, (Ok s, s).
Definition put_st {S} (s : S) : stM S unit := λ _, (Ok tt, s).
Definition modify_st {S} (f : S -> S) : stM S unit := λ s, (Ok tt, f s).
Definition gets_st {S A} (f : S -> A) : stM S A := λ s, (Ok (f s), s).
Definition raise_st {S A} (c : exn_class) (m : string) : stM S A := λ s, (raise c m, s).
Definition lift_res {S A} (r : result A) : stM S A := λ s, (r, s).

(** [try: m except Exception as e]: the outcome as a value; [m] may have changed the state
    before it raised. *)
Definition try_st {S A} (m : stM S A) : stM S (result A) := λ s, let '(r, s) := m s in (Ok r, s).
(** [try: m finally: f] *)
Definition finally_st {S A} (m : stM S A) (f : S -> S) : stM S A := λ s, let '(r, s) := m s in (r, f s).

Fixpoint forM_st {S A} (l : list A) (f : A -> stM S unit) : stM S unit :=
  match l with
  | [] => mret tt
  | x :: l => f x ≫= λ _, forM_st l f
  end.

Lemma stM_bind_ok {S A B} (m : stM S A) (f : A -> stM S B) s a s' :
  m s = (Ok a, s') -> (m ≫= f) s = f a s'.
Proof. intros H. unfold mbind, stM_bind. by rewrite H. Qed.

Lemma stM_bind_raise {S A B} (m : stM S A) (f : A -> stM S B) s e s' :
  m s = (Raise e, s') -> (m ≫= f) s = (Raise e, s').
Proof. intros H. unfold mbind, stM_bind. by rewrite H. Qed.

Lemma stM_bind_inv {S A B} (m : stM S A) (f : A -> stM S B) s b s' :
  (m ≫= f) s = (Ok b, s') -> exists a s1, m s = (Ok a, s1) /\ f a s1 = (Ok b, s').
Proof.
  unfold mbind, stM_bind. destruct (m s) as [[a|e] s1]; [|done]. intros H. by exists a, s1.
Qed.

(** Split a successful run into the successful runs of its steps. *)
Ltac stM_inv :=
  repeat match goal with
  | H : (mbind _ _) _ = (Ok _, _) |- _ =>
      let a := fresh "a" in let s := fresh "s" in let E := fresh "E" in
      apply stM_bind_inv in H as (a & s & E & H)
  end.

(** A loop whose body only changes the state through [g] and never raises. *)
Lemma forM_st_total {S A} (l : list A) (f : A -> stM S unit) (g : S -> A -> S) s :
  (forall x t, x ∈ l -> f x t = (Ok tt, g t x)) ->
  forM_st l f s = (Ok tt, foldl g s l).
Proof.
  revert s; induction l as [|x l IH]; intros s Hf; simpl; [done|].
  rewrite (stM_bind_ok _ _ _ tt (g s x)); [|by apply Hf; left].
  apply IH. intros y t Hy. apply Hf. by right.
Qed.

Lemma forM_st_ext {S A} (l : list A) (f g : A -> stM S unit) s :
  (forall x t, x ∈ l -> f x t = g x t) -> forM_st l f s = forM_st l g s.
Proof.
  revert s; induction l as [|x l IH]; intros s Hfg; simpl; [done|].
  unfold mbind, stM_bind. rewrite (Hfg x s) by left. destruct (g x s) as [[]]; [|done].
  apply IH. intros y t Hy. apply Hfg. by right.
Qed.

(** An invariant of the body is an invariant of the loop, even when it raises. *)
Lemma forM_st_inv {S A} (P : S -> Prop) (l : list A) (f : A -> stM S unit) s :
  P s -> (forall x t, x ∈ l -> P t -> P (f x t).2) -> P (forM_st l f s).2.
Proof.
  revert s; induction l as [|x l IH]; intros s Hs Hf; simpl; [done|].
  unfold mbind, stM_bind. pose proof (Hf x s (list_elem_of_here _ _) Hs) as Hx.
  destruct (f x s) as [[[]|e] s']; simpl in *; [|done].
  apply IH; [done|]. intros y t Hy. apply Hf. by right.
Qed.

(** [mapM_st f l]: [[f(x) for x in l]] with [f] changing the state. *)
Fixpoint mapM_st {S A B} (f : A -> stM S B) (l : list A) : stM S (list B) :=
  match l with
  | [] => mret []
  | x :: l => y ← f x; ys ← mapM_st f l; mret (y :: ys)
  end.

Lemma mapM_st_length {S A B} (f : A -> stM S B) l s ys s' :
  mapM_st f l s = (Ok ys, s') -> length ys = length l.
Proof.
  revert s ys; induction l as [|x l IH]; intros s ys Hx; cbn in Hx; [by injection Hx as <- _|].
  apply stM_bind_inv in Hx as (y & s1 & _ & Hx). apply stM_bind_inv in Hx as (zs & s2 & Hl & [= <- <-]).
  cbn. by rewrite (IH _ _ Hl).
Qed.

(** ** Filters that keep nothing or everything *)

Lemma filter_none {A} (P : A -> Prop) `{!forall x, Decision (P x)} l : Forall (λ x, ~ P x) l -> filter P l = [].
Proof. induction 1 as [|x l Hx _ IH]; [done|]. by rewrite filter_cons_False. Qed.

Lemma filter_all {A} (P : A -> Prop) `{!forall x, Decision (P x)} l : Forall P l -> filter P l = l.
Proof. induction 1 as [|x l Hx _ IH]; [done|]. by rewrite filter_cons_True, IH. Qed.

(** ** What a method leaves alone

    [keeps R m]: the state [m] leaves behind is related to the one it was called on,
    whether it returns or raises.  One rule per construct. *)

Section Keeps.
Context {S : Type} (R : S -> S -> Prop) `{!PreOrder R}.

Definition keeps {A} (m : stM S A) : Prop := forall s, R s (m s).2.

Lemma keeps_ret {A} (a : A) : keeps (mret a).
Proof. intros s. reflexivity. Qed.

Lemma keeps_lift {A} (r : result A) : keeps (lift_res r).
Proof. intros s. reflexivity. Qed.

Lemma keeps_raise {A} c msg : keeps (raise_st (A := A) c msg).
Proof. intros s. reflexivity. Qed.

Lemma keeps_get : keeps get_st.
Proof. intros s. reflexivity. Qed.

Lemma keeps_gets {A} (f : S -> A) : keeps (gets_st f).
Proof. intros s. reflexivity. Qed.

Lemma keeps_modify f : (forall s, R s (f s)) -> keeps (modify_st f).
Proof. intros Hf s. apply Hf. Qed.

Lemma keeps_bind {A B} (m : stM S A) (f : A -> stM S B) :
  keeps m -> (forall a, keeps (f a)) -> keeps (m ≫= f).
Proof.
  intros Hm Hf s. unfold mbind, stM_bind. specialize (Hm s). destruct (m s) as [[a|e] s1]; [|done].
  cbn [snd] in Hm. by transitivity s1; [|apply Hf].
Qed.

Lemma keeps_forM {A} (l : list A) (f : A -> stM S unit) : (forall x, keeps (f x)) -> keeps (forM_st l f).
Proof.
  intros Hf. induction l as [|x l IH]; [apply keeps_ret|]. cbn [forM_st]. by apply keeps_bind.
Qed.

Lemma keeps_mapM {A B} (f : A -> stM S B) (l : list A) : (forall x, keeps (f x)) -> keeps (mapM_st f l).
Proof.
  intros Hf. induction l as [|x l IH]; [apply keeps_ret|]. cbn [mapM_st].
  apply keeps_bind; [done|]. intros y. apply keeps_bind; [done|]. intros ys. apply keeps_ret.
Qed.
End Keeps.

Create HintDb keeps.
#[export] Hint Resolve keeps_ret keeps_lift keeps_raise keeps_get keeps_gets keeps_modify : keeps.

(** Decompose a method by the rules above; the leaves are the hints of [keeps]. *)
Ltac keep :=
  repeat (intros; first
    [ solve [eauto 4 with keeps typeclass_instances]
    | apply keeps_bind; [apply _| |]
    | apply keeps_forM; [apply _|]
    | apply keeps_mapM; [apply _|]
    | match goal with |- keeps _ (match ?x with _ => _ end) => destruct x end ]).
