(* ===== verification/PyValue.v ===== *)
(** * Python values

    The dynamically typed values that flow through the node: transaction JSON,
    contract state, and what the handlers read from the storage driver.

    - a [float] is identified by its [repr], which is injective on floats;
    - a [Decimal] (also the one inside a [ContractingDecimal]) is a sign, a
      coefficient and an exponent;
    - a [Datetime] is identified by its [str];
    - a [dict] is the list of its entries in insertion order, with [str] keys. *)

From stdpp Require Import pretty countable.
From S2P Require Import Prelude.

Record dec := Dec { dec_neg : bool; dec_coef : N; dec_exp : Z }.

#[global] Instance dec_eq_dec : EqDecision dec.
Proof. solve_decision. Defined.

Unset Elimination Schemes.
Inductive value :=
  | VNone
  | VBool (b : bool)
  | VInt (z : Z)
  | VStr (s : string)
  | VFloat (repr : string)
  | VDec (d : dec)
  | VTime (text : string)
  | VBytes (b : bytes)
  | VList (l : list value)
  | VTuple (l : list value)
  | VDict (d : list (string * value)).
Set Elimination Schemes.

(** Induction through the nested lists of [VList], [VTuple] and [VDict]. *)
Section ValueInd.
Context (P : value -> Prop)
  (Hnone : P VNone) (Hbool : forall b, P (VBool b)) (Hint : forall z, P (VInt z))
  (Hstr : forall s, P (VStr s)) (Hfloat : forall r, P (VFloat r)) (Hdec : forall d, P (VDec d))
  (Htime : forall t, P (VTime t)) (Hbytes : forall b, P (VBytes b))
  (Hlist : forall l, Forall P l -> P (VList l))
  (Htuple : forall l, Forall P l -> P (VTuple l))
  (Hdict : forall d, Forall (λ kv, P kv.2) d -> P (VDict d)).

Fixpoint value_ind (v : value) : P v :=
  let fix go (l : list value) : Forall P l :=
    match l with
    | [] => Forall_nil_2 P
    | x :: l => Forall_cons_2 P x l (value_ind x) (go l)
    end in
  let fix god (d : list (string * value)) : Forall (λ kv, P kv.2) d :=
    match d with
    | [] => Forall_nil_2 _
    | kv :: d => Forall_cons_2 (λ kv, P kv.2) kv d (value_ind kv.2) (god d)
    end in
  match v with
  | VNone => Hnone
  | VBool b => Hbool b
  | VInt z => Hint z
  | VStr s => Hstr s
  | VFloat r => Hfloat r
  | VDec d => Hdec d
  | VTime t => Htime t
  | VBytes b => Hbytes b
  | VList l => Hlist l (go l)
  | VTuple l => Htuple l (go l)
  | VDict d => Hdict d (god d)
  end.
End ValueInd.

#[global] Instance value_eq_dec : EqDecision value.
Proof.
  refine (fix go (v w : value) : Decision (v = w) :=
    match v, w with
    | VNone, VNone => left eq_refl
    | VBool a, VBool b => cast_if (decide (a = b))
    | VInt a, VInt b => cast_if (decide (a = b))
    | VStr a, VStr b => cast_if (decide (a = b))
    | VFloat a, VFloat b => cast_if (decide (a = b))
    | VDec a, VDec b => cast_if (decide (a = b))
    | VTime a, VTime b => cast_if (decide (a = b))
    | VBytes a, VBytes b => cast_if (decide (a = b))
    | VList a, VList b => cast_if (@list_eq_dec _ go a b)
    | VTuple a, VTuple b => cast_if (@list_eq_dec _ go a b)
    | VDict a, VDict b => cast_if (@list_eq_dec _ (@prod_eq_dec _ String.eq_dec _ go) a b)
    | _, _ => right _
    end); clear go; abstract congruence.
Defined.

(** Values are countable: as trees over their scalars. *)
Fixpoint value_tree (v : value) : gen_tree (bool + Z + string + (bool * N * Z) + bytes) :=
  match v with
  | VNone => GenNode 0 []
  | VBool b => GenNode 1 [GenLeaf (inl (inl (inl (inl b))))]
  | VInt z => GenNode 2 [GenLeaf (inl (inl (inl (inr z))))]
  | VStr s => GenNode 3 [GenLeaf (inl (inl (inr s)))]
  | VFloat r => GenNode 4 [GenLeaf (inl (inl (inr r)))]
  | VDec d => GenNode 5 [GenLeaf (inl (inr (dec_neg d, dec_coef d, dec_exp d)))]
  | VTime t => GenNode 6 [GenLeaf (inl (inl (inr t)))]
  | VBytes b => GenNode 7 [GenLeaf (inr b)]
  | VList l => GenNode 8 (value_tree <$> l)
  | VTuple l => GenNode 9 (value_tree <$> l)
  | VDict d => GenNode 10 ((λ kv, GenNode 0 [GenLeaf (inl (inl (inr kv.1))); value_tree kv.2]) <$> d)
  end.

Fixpoint tree_value (t : gen_tree (bool + Z + string + (bool * N * Z) + bytes)) : value :=
  match t with
  | GenNode 1 [GenLeaf (inl (inl (inl (inl b))))] => VBool b
  | GenNode 2 [GenLeaf (inl (inl (inl (inr z))))] => VInt z
  | GenNode 3 [GenLeaf (inl (inl (inr s)))] => VStr s
  | GenNode 4 [GenLeaf (inl (inl (inr r)))] => VFloat r
  | GenNode 5 [GenLeaf (inl (inr (n, c, e)))] => VDec (Dec n c e)
  | GenNode 6 [GenLeaf (inl (inl (inr t)))] => VTime t
  | GenNode 7 [GenLeaf (inr b)] => VBytes b
  | GenNode 8 l => VList (tree_value <$> l)
  | GenNode 9 l => VTuple (tree_value <$> l)
  | GenNode 10 l => VDict ((λ t, match t with
                                 | GenNode _ [GenLeaf (inl (inl (inr k))); x] => (k, tree_value x)
                                 | _ => ("", VNone) end) <$> l)
  | _ => VNone
  end.

Lemma tree_value_tree v : tree_value (value_tree v) = v.
Proof.
  induction v as [| | | | |[]| | |l IH|l IH|d IH] using value_ind; try done; simpl; f_equal.
  - induction IH as [|x l Hx Hl IHl]; [done|]. csimpl. by rewrite Hx, IHl.
  - induction IH as [|x l Hx Hl IHl]; [done|]. csimpl. by rewrite Hx, IHl.
  - induction IH as [|[k x] d Hx Hd IHd]; [done|]. csimpl. simpl in Hx. by rewrite Hx, IHd.
Qed.

#[global] Instance value_countable : Countable value := inj_countable' value_tree tree_value tree_value_tree.

(** [bool(v)]. *)
Definition truthy (v : value) : bool :=
  match v with
  | VNone => false
  | VBool b => b
  | VInt z => negb (z =? 0)
  | VStr s => negb (bool_decide (s = ""))
  | VFloat r => negb (bool_decide (r = "0.0") || bool_decide (r = "-0.0"))
  | VDec d => negb (N.eqb (dec_coef d) 0)
  | VTime _ => true
  | VBytes b => negb (bool_decide (b = []))
  | VList l | VTuple l => negb (bool_decide (l = []))
  | VDict d => negb (bool_decide (d = []))
  end.

(** [v or w]. *)
Definition py_or (v w : value) : value := if truthy v then v else w.

Definition is_none (v : value) : bool := match v with VNone => true | _ => false end.
Definition is_str (v : value) : bool := match v with VStr _ => true | _ => false end.
Definition is_dict (v : value) : bool := match v with VDict _ => true | _ => false end.
Definition is_list (v : value) : bool := match v with VList _ => true | _ => false end.

(** [d.get(k, default)] on a dict. *)
Definition py_get (k : string) (d : list (string * value)) (default : value) : value :=
  match dict_get k d with Some v => v | None => default end.

(** [v[k]]: a missing key and a non-dict receiver raise. *)
Definition py_item (k : string) (v : value) : result value :=
  match v with
  | VDict d => match dict_get k d with Some x => Ok x | None => raise KeyError k end
  | _ => raise TypeError "value is not subscriptable"
  end.

(** [v.get(k, default)] on any object: only dicts have the method. *)
Definition py_dot_get (v : value) (k : string) (default : value) : result value :=
  match v with
  | VDict d => Ok (py_get k d default)
  | _ => raise AttributeError "object has no attribute 'get'"
  end.
