(* ===== verification/Json.v ===== *)
(** * The standard library's [json] module

    [json.dumps(v, separators=(",", ":"))] with [ensure_ascii] on or off, and
    [json.loads], as the node uses them, over the values of [PyValue].  The
    printer and the parser work on lists of characters (UTF-8 bytes).

    The nesting depth that CPython's own recursion limit allows is not modelled;
    the callers bound the depth themselves where it matters. *)

From Stdlib Require Import Ascii DecimalString DecimalZ.
From S2P Require Import Prelude PyValue.

Abbreviation chars := (list ascii).

(** [str(z)] for an [int]. *)
Definition py_int_str (z : Z) : string := NilZero.string_of_int (Z.to_int z).

Definition lit (s : string) : chars := str_chars s.

Definition hex_char (d : Z) : ascii :=
  ascii_of_byte (if d <? 10 then 48 + d else 87 + d).

(** [\uXXXX] with four lower-case hexadecimal digits. *)
Definition u_escape (cp : Z) : chars :=
  lit "\u" ++ [hex_char (cp / 4096 mod 16); hex_char (cp / 256 mod 16);
               hex_char (cp / 16 mod 16); hex_char (cp mod 16)].

(** The escapes [json.dumps] shares between its two modes. *)
Definition short_escape (c : Z) : option chars :=
  if c =? 34 then Some (lit "\" ++ [ascii_of_byte 34])
  else if c =? 92 then Some (lit "\\")
  else if c =? 10 then Some (lit "\n")
  else if c =? 13 then Some (lit "\r")
  else if c =? 9 then Some (lit "\t")
  else if c =? 8 then Some (lit "\b")
  else if c =? 12 then Some (lit "\f")
  else None.

(** [ensure_ascii=False]: only control characters, the quote and the backslash. *)
Definition escape_char (c : ascii) : chars :=
  let b := byte_of_ascii c in
  match short_escape b with
  | Some e => e
  | None => if b <? 32 then u_escape b else [c]
  end.

(** Strict UTF-8 decoding into code points, as [bytes.decode("utf-8")]. *)
Definition is_cont (b : Z) : bool := (128 <=? b) && (b <? 192).

Fixpoint utf8_decode (b : bytes) : option (list Z) :=
  match b with
  | [] => Some []
  | b0 :: r0 =>
    if b0 <? 128 then cons b0 <$> utf8_decode r0
    else match r0 with
    | [] => None
    | b1 :: r1 =>
      if negb (is_cont b1) then None
      else if (194 <=? b0) && (b0 <=? 223) then
        cons ((b0 - 192) * 64 + (b1 - 128)) <$> utf8_decode r1
      else match r1 with
      | [] => None
      | b2 :: r2 =>
        let cp3 := (b0 - 224) * 4096 + (b1 - 128) * 64 + (b2 - 128) in
        if negb (is_cont b2) then None
        else if (224 <=? b0) && (b0 <=? 239) then
          if (cp3 <? 2048) || ((55296 <=? cp3) && (cp3 <=? 57343)) then None
          else cons cp3 <$> utf8_decode r2
        else match r2 with
        | [] => None
        | b3 :: r3 =>
          let cp4 := (b0 - 240) * 262144 + (b1 - 128) * 4096 + (b2 - 128) * 64 + (b3 - 128) in
          if negb (is_cont b3) then None
          else if (240 <=? b0) && (b0 <=? 244) then
            if (cp4 <? 65536) || (1114111 <? cp4) then None
            else cons cp4 <$> utf8_decode r3
          else None
        end
      end
    end
  end.

Definition code_points (s : string) : list Z :=
  default (encode_utf8 s) (utf8_decode (encode_utf8 s)).

(** [ensure_ascii=True]: everything outside printable ASCII, with surrogate pairs
    above the basic plane. *)
Definition escape_code_point (cp : Z) : chars :=
  match short_escape cp with
  | Some e => e
  | None =>
    if (32 <=? cp) && (cp <=? 126) then [ascii_of_byte cp]
    else if cp <? 65536 then u_escape cp
    else u_escape (55296 + (cp - 65536) / 1024) ++ u_escape (56320 + (cp - 65536) mod 1024)
  end.

Definition quote_char : ascii := ascii_of_byte 34.

Definition json_string (ensure_ascii : bool) (s : string) : chars :=
  quote_char ::
    (if ensure_ascii then concat (escape_code_point <$> code_points s)
     else concat (escape_char <$> str_chars s)) ++ [quote_char].

(** A float prints as its [repr], except for the non-finite ones. *)
Definition json_float (repr : string) : chars :=
  if decide (repr = "nan") then lit "NaN"
  else if decide (repr = "inf") then lit "Infinity"
  else if decide (repr = "-inf") then lit "-Infinity"
  else lit repr.

Definition comma : ascii := ",".

Fixpoint join_chars (l : list chars) : chars :=
  match l with
  | [] => []
  | [x] => x
  | x :: l => x ++ comma :: join_chars l
  end.

Fixpoint json_dumps (ensure_ascii : bool) (v : value) : result chars :=
  match v with
  | VNone => Ok (lit "null")
  | VBool true => Ok (lit "true")
  | VBool false => Ok (lit "false")
  | VInt z => Ok (lit (py_int_str z))
  | VFloat r => Ok (json_float r)
  | VStr s => Ok (json_string ensure_ascii s)
  | VList l | VTuple l =>
      ss ← (fix go (l : list value) : result (list chars) :=
              match l with
              | [] => Ok []
              | x :: l => s ← json_dumps ensure_ascii x; ss ← go l; Ok (s :: ss)
              end) l;
      Ok (lit "[" ++ join_chars ss ++ lit "]")
  | VDict d =>
      ss ← (fix go (d : list (string * value)) : result (list chars) :=
              match d with
              | [] => Ok []
              | (k, x) :: d =>
                  s ← json_dumps ensure_ascii x; ss ← go d;
                  Ok ((json_string ensure_ascii k ++ lit ":" ++ s) :: ss)
              end) d;
      Ok (lit "{" ++ join_chars ss ++ lit "}")
  | VDec _ | VTime _ | VBytes _ => raise TypeError "Object is not JSON serializable"
  end.

(** Where an element of a sequence raised. *)
Ltac element_raises IH :=
  match goal with |- mbind _ ?g = _ -> _ => assert (Hg : forall c m, g = Raise (Exn c m) -> c = TypeError) end;
  [ induction IH as [|x l Hx Hl IHl]; [done|]; intros; destruct_result;
    repeat match goal with
    | H : context [let (_, _) := ?kv in _] |- _ => destruct kv; cbn [snd] in *
    | H : mbind _ ?r = Raise _ |- _ => let E := fresh "E" in destruct r as [|[]] eqn:E; cbn [mbind result_bind] in H; simplify_eq
    end; eauto
  | match goal with |- mbind _ ?g = _ -> _ => destruct g as [ss|[c' m']]; [done|]; intros [= <- <-]; by eauto end ].

(** What [json.dumps] raises. *)
Lemma json_dumps_raises ascii v c m : json_dumps ascii v = Raise (Exn c m) -> c = TypeError.
Proof.
  revert c m. induction v as [|b|z|s|r|d|t|b|l IH|l IH|d IH] using value_ind; intros c m; cbn [json_dumps];
    try (by destruct b); try done; try (by intros [= <- _]); element_raises IH.
Qed.

Definition dumps (ensure_ascii : bool) (v : value) : result string :=
  String.string_of_list_ascii <$> json_dumps ensure_ascii v.

(** [json.dumps(..., sort_keys=True)] sorts the entries of every dict. *)
Fixpoint sort_keys (v : value) : value :=
  match v with
  | VList l => VList (sort_keys <$> l)
  | VTuple l => VTuple (sort_keys <$> l)
  | VDict d => VDict (sort_by fst ((λ kv, (kv.1, sort_keys kv.2)) <$> d))
  | v => v
  end.

Example dumps_ex :
  dumps false (VDict [("a", VList [VInt (-12); VBool true; VNone]); ("b", VStr "x\y")])
  = Ok (String.string_of_list_ascii
     (str_chars "{" ++ quote_char :: str_chars "a" ++ quote_char :: str_chars ":[-12,true,null],"
      ++ quote_char :: str_chars "b" ++ quote_char :: ":"%char :: quote_char :: str_chars "x\\y"
      ++ quote_char :: str_chars "}")).
Proof. vm_compute. reflexivity. Qed.

(** ** [json.loads] *)

Definition is_ws (c : ascii) : bool :=
  let b := byte_of_ascii c in (b =? 32) || (b =? 9) || (b =? 10) || (b =? 13).

Fixpoint skip_ws (s : chars) : chars :=
  match s with
  | c :: s' => if is_ws c then skip_ws s' else s
  | [] => []
  end.

Definition is_digit (c : ascii) : bool :=
  let b := byte_of_ascii c in (48 <=? b) && (b <=? 57).

Fixpoint span_digits (s : chars) : chars * chars :=
  match s with
  | c :: s' => if is_digit c then let '(ds, r) := span_digits s' in (c :: ds, r) else ([], s)
  | [] => ([], [])
  end.

Definition hex_value (c : ascii) : option Z :=
  let b := byte_of_ascii c in
  if (48 <=? b) && (b <=? 57) then Some (b - 48)
  else if (97 <=? b) && (b <=? 102) then Some (b - 87)
  else if (65 <=? b) && (b <=? 70) then Some (b - 55)
  else None.

Definition hex4 (s : chars) : option (Z * chars) :=
  match s with
  | a :: b :: c :: d :: r =>
      ha ← hex_value a; hb ← hex_value b; hc ← hex_value c; hd ← hex_value d;
      Some (ha * 4096 + hb * 256 + hc * 16 + hd, r)
  | _ => None
  end.

(** The UTF-8 bytes of a code point below [0x110000]. *)
Definition utf8_encode_cp (cp : Z) : chars :=
  ascii_of_byte <$>
    (if cp <? 128 then [cp]
     else if cp <? 2048 then [192 + cp / 64; 128 + cp mod 64]
     else if cp <? 65536 then [224 + cp / 4096; 128 + cp / 64 mod 64; 128 + cp mod 64]
     else [240 + cp / 262144; 128 + cp / 4096 mod 64; 128 + cp / 64 mod 64; 128 + cp mod 64]).

Definition bad_json {A} : result A := raise ValueError "invalid JSON".

Definition unescape_simple (c : ascii) : option Z :=
  let b := byte_of_ascii c in
  if b =? 34 then Some 34
  else if b =? 92 then Some 92
  else if b =? 47 then Some 47
  else if b =? 98 then Some 8
  else if b =? 102 then Some 12
  else if b =? 110 then Some 10
  else if b =? 114 then Some 13
  else if b =? 116 then Some 9
  else None.

Definition is_high_surrogate (cp : Z) : bool := (55296 <=? cp) && (cp <=? 56319).
Definition is_low_surrogate (cp : Z) : bool := (56320 <=? cp) && (cp <=? 57343).

(** The body of a string literal, after its opening quote.  A [\u] escape that
    leaves a lone surrogate has no UTF-8 form and is refused here; Python keeps
    it, and the canonical-form check of the caller then refuses it.  [fuel]
    bounds the number of characters read. *)
Fixpoint parse_string_body (fuel : nat) (s : chars) : result (chars * chars) :=
  match fuel with
  | O => bad_json
  | S fuel =>
    match s with
    | [] => bad_json
    | c :: r =>
      let b := byte_of_ascii c in
      if b =? 34 then Ok ([], r)
      else if b <? 32 then bad_json
      else if b =? 92 then
        match r with
        | [] => bad_json
        | e :: r' =>
          if byte_of_ascii e =? 117 then
            match hex4 r' with
            | None => bad_json
            | Some (cp, r2) =>
              if is_low_surrogate cp then bad_json
              else if is_high_surrogate cp then
                match r2 with
                | b1 :: u1 :: r3 =>
                  if (byte_of_ascii b1 =? 92) && (byte_of_ascii u1 =? 117) then
                    match hex4 r3 with
                    | Some (cp2, r4) =>
                      if is_low_surrogate cp2 then
                        '(t, rest) ← parse_string_body fuel r4;
                        Ok (utf8_encode_cp (65536 + (cp - 55296) * 1024 + (cp2 - 56320)) ++ t, rest)
                      else bad_json
                    | None => bad_json
                    end
                  else bad_json
                | _ => bad_json
                end
              else
                '(t, rest) ← parse_string_body fuel r2;
                Ok (utf8_encode_cp cp ++ t, rest)
            end
          else match unescape_simple e with
          | Some x =>
              '(t, rest) ← parse_string_body fuel r';
              Ok (ascii_of_byte x :: t, rest)
          | None => bad_json
          end
        end
      else
        '(t, rest) ← parse_string_body fuel r;
        Ok (c :: t, rest)
    end
  end.

Definition parse_string (s : chars) : result (string * chars) :=
  '(t, rest) ← parse_string_body (S (length s)) s;
  Ok (String.string_of_list_ascii t, rest).

(** An optional sign, a digit string without a leading zero, an optional fraction
    and an optional exponent: an integer when neither a fraction nor an exponent
    follows, a float otherwise (identified by its literal). *)
Definition parse_frac (s : chars) : chars * chars :=
  match s with
  | c :: r =>
    if byte_of_ascii c =? 46 then
      match span_digits r with
      | ([], _) => ([], s)
      | (ds, r') => (c :: ds, r')
      end
    else ([], s)
  | [] => ([], s)
  end.

Definition parse_exp (s : chars) : chars * chars :=
  match s with
  | c :: r =>
    if (byte_of_ascii c =? 101) || (byte_of_ascii c =? 69) then
      let '(sg, r1) :=
        match r with
        | d :: r' => if (byte_of_ascii d =? 43) || (byte_of_ascii d =? 45) then ([d], r') else ([], r)
        | [] => ([], r)
        end in
      match span_digits r1 with
      | ([], _) => ([], s)
      | (ds, r') => (c :: sg ++ ds, r')
      end
    else ([], s)
  | [] => ([], s)
  end.

Definition int_of_digits (ds : chars) : result Z :=
  match NilZero.uint_of_string (String.string_of_list_ascii ds) with
  | Some u => Ok (Z.of_uint u)
  | None => bad_json
  end.

Definition parse_number (s : chars) : result (value * chars) :=
  let '(neg, s1) :=
    match s with
    | c :: r => if byte_of_ascii c =? 45 then (true, r) else (false, s)
    | [] => (false, s)
    end in
  let '(ds, s2) :=
    match s1 with
    | c :: r => if byte_of_ascii c =? 48 then ([c], r) else span_digits s1
    | [] => ([], s1)
    end in
  match ds with
  | [] => bad_json
  | _ =>
    let '(fr, s3) := parse_frac s2 in
    let '(ex, s4) := parse_exp s3 in
    match fr, ex with
    | [], [] => z ← int_of_digits ds; Ok (VInt (if neg then - z else z), s4)
    | _, _ =>
        Ok (VFloat (String.string_of_list_ascii
                      ((if neg then lit "-" else []) ++ ds ++ fr ++ ex)), s4)
    end
  end.

Fixpoint strip_chars (p s : chars) : option chars :=
  match p, s with
  | [], _ => Some s
  | a :: p, b :: s => if decide (a = b) then strip_chars p s else None
  | _ :: _, [] => None
  end.

(** [fuel] bounds the nesting plus the number of elements read. *)
Fixpoint parse_value (fuel : nat) (s : chars) {struct fuel} : result (value * chars) :=
  match fuel with
  | O => bad_json
  | S fuel =>
    match s with
    | [] => bad_json
    | c :: r =>
      let b := byte_of_ascii c in
      if b =? 34 then '(t, rest) ← parse_string r; Ok (VStr t, rest)
      else if b =? 123 then
        match skip_ws r with
        | c1 :: r1 =>
          if byte_of_ascii c1 =? 125 then Ok (VDict [], r1)
          else '(d, rest) ← parse_members fuel [] (c1 :: r1); Ok (VDict d, rest)
        | [] => bad_json
        end
      else if b =? 91 then
        match skip_ws r with
        | c1 :: r1 =>
          if byte_of_ascii c1 =? 93 then Ok (VList [], r1)
          else '(l, rest) ← parse_elements fuel (c1 :: r1); Ok (VList l, rest)
        | [] => bad_json
        end
      else match strip_chars (lit "null") s with
      | Some r => Ok (VNone, r)
      | None => match strip_chars (lit "true") s with
      | Some r => Ok (VBool true, r)
      | None => match strip_chars (lit "false") s with
      | Some r => Ok (VBool false, r)
      | None => match strip_chars (lit "NaN") s with
      | Some r => Ok (VFloat "nan", r)
      | None => match strip_chars (lit "Infinity") s with
      | Some r => Ok (VFloat "inf", r)
      | None => match strip_chars (lit "-Infinity") s with
      | Some r => Ok (VFloat "-inf", r)
      | None => parse_number s
      end end end end end end
    end
  end
(** The elements of a non-empty array, up to its closing bracket. *)
with parse_elements (fuel : nat) (s : chars) {struct fuel} : result (list value * chars) :=
  match fuel with
  | O => bad_json
  | S fuel =>
    '(v, r) ← parse_value fuel s;
    match skip_ws r with
    | c :: r1 =>
      if byte_of_ascii c =? 93 then Ok ([v], r1)
      else if byte_of_ascii c =? 44 then
        '(l, rest) ← parse_elements fuel (skip_ws r1); Ok (v :: l, rest)
      else bad_json
    | [] => bad_json
    end
  end
(** The members of a non-empty object; a repeated key keeps its place and takes
    the later value, as building a dict from the pairs does. *)
with parse_members (fuel : nat) (acc : list (string * value)) (s : chars) {struct fuel}
    : result (list (string * value) * chars) :=
  match fuel with
  | O => bad_json
  | S fuel =>
    match s with
    | q :: r0 =>
      if negb (byte_of_ascii q =? 34) then bad_json
      else
        '(k, r1) ← parse_string r0;
        match skip_ws r1 with
        | c :: r2 =>
          if negb (byte_of_ascii c =? 58) then bad_json
          else
            '(v, r3) ← parse_value fuel (skip_ws r2);
            let acc' := dict_set k v acc in
            match skip_ws r3 with
            | c' :: r4 =>
              if byte_of_ascii c' =? 125 then Ok (acc', r4)
              else if byte_of_ascii c' =? 44 then parse_members fuel acc' (skip_ws r4)
              else bad_json
            | [] => bad_json
            end
        | [] => bad_json
        end
    | [] => bad_json
    end
  end.

(** Every recursive call reads at least one character, so the length of the text
    is enough fuel. *)
Definition loads_chars (s : chars) : result value :=
  '(v, r) ← parse_value (S (length s)) (skip_ws s);
  match skip_ws r with
  | [] => Ok v
  | _ => bad_json
  end.

Definition loads (s : string) : result value := loads_chars (str_chars s).

(** ** The parser inverts the printer *)

(** The values [json.dumps] and [json.loads] exchange without loss. *)
Fixpoint json_plain (v : value) : bool :=
  match v with
  | VNone | VBool _ | VInt _ | VStr _ => true
  | VList l => forallb json_plain l
  | VDict d => bool_decide (NoDup (dict_keys d)) && forallb (λ kv, json_plain kv.2) d
  | _ => false
  end.

(** What may follow a number inside a document. *)
Definition delimits (rest : chars) : Prop :=
  match rest with
  | [] => True
  | c :: _ => c = ","%char \/ c = "]"%char \/ c = "}"%char
  end.

(** No value starts with white space or a closing bracket. *)
Definition opens (s : chars) : Prop :=
  match s with
  | [] => False
  | c :: _ => is_ws c = false /\ byte_of_ascii c <> 93 /\ byte_of_ascii c <> 125
  end.

Lemma escape_char_parse c fuel r :
  parse_string_body (S fuel) (escape_char c ++ r) =
    ('(t, rest) ← parse_string_body fuel r; Ok (c :: t, rest)).
Proof. destruct c as [[] [] [] [] [] [] [] []]; reflexivity. Qed.

Lemma parse_string_body_escape cs rest fuel :
  (length cs < fuel)%nat ->
  parse_string_body fuel (concat (escape_char <$> cs) ++ quote_char :: rest) = Ok (cs, rest).
Proof.
  revert fuel; induction cs as [|c cs IH]; intros [|fuel] Hf; simpl in Hf; [lia|done|lia|].
  rewrite fmap_cons. simpl concat. rewrite <- (assoc_L app), escape_char_parse, IH by lia.
  done.
Qed.

Lemma escape_char_length c : (1 <= length (escape_char c))%nat.
Proof. destruct c as [[] [] [] [] [] [] [] []]; simpl; lia. Qed.

Lemma escaped_length cs : (length cs <= length (concat (escape_char <$> cs)))%nat.
Proof.
  induction cs as [|c cs IH]; [done|]. rewrite fmap_cons. simpl.
  rewrite length_app. pose proof (escape_char_length c). lia.
Qed.

Lemma parse_string_roundtrip s rest :
  parse_string (concat (escape_char <$> str_chars s) ++ quote_char :: rest) = Ok (s, rest).
Proof.
  unfold parse_string. rewrite parse_string_body_escape.
  - simpl. by rewrite String.string_of_list_ascii_of_string.
  - rewrite length_app. pose proof (escaped_length (str_chars s)). simpl. lia.
Qed.

(** ** Escapes of code points *)

Lemma encode_utf8_bytes s : Forall is_byte (encode_utf8 s).
Proof. unfold encode_utf8. apply Forall_fmap, Forall_true. intros c. apply byte_of_ascii_bound. Qed.

(** The code points that have a UTF-8 form. *)
Definition is_scalar (cp : Z) : Prop := 0 <= cp < 1114112 /\ ~ (55296 <= cp <= 57343).

Lemma hex_char_value d : 0 <= d < 16 -> hex_value (hex_char d) = Some d.
Proof.
  intros Hd. assert (Hin : d ∈ seqZ 0 16) by (apply elem_of_seqZ; lia). clear Hd.
  cbn in Hin. repeat (apply elem_of_cons in Hin as [->|Hin]; [reflexivity|]). by apply not_elem_of_nil in Hin.
Qed.

Lemma hex4_u_escape cp r : 0 <= cp < 65536 -> hex4 (drop 2 (u_escape cp) ++ r) = Some (cp, r).
Proof.
  intros Hcp. unfold u_escape, lit. cbn [str_chars String.list_ascii_of_string app drop hex4].
  rewrite !hex_char_value by (apply Z.mod_pos_bound; lia). cbn [mbind option_bind]. do 2 f_equal.
  Z.to_euclidean_division_equations; lia.
Qed.

Lemma u_escape_app cp r : u_escape cp ++ r = "\"%char :: "u"%char :: drop 2 (u_escape cp) ++ r.
Proof. reflexivity. Qed.

Lemma short_escape_parse cp e fuel r :
  short_escape cp = Some e ->
  parse_string_body (S fuel) (e ++ r) = ('(t, rest) ← parse_string_body fuel r; Ok (utf8_encode_cp cp ++ t, rest)).
Proof.
  unfold short_escape. intros He.
  repeat match type of He with (if ?c =? ?k then _ else _) = _ => destruct (Z.eqb_spec c k); [subst; injection He as <-; reflexivity|] end.
  done.
Qed.

Lemma escape_code_point_parse cp fuel r :
  is_scalar cp ->
  parse_string_body (S fuel) (escape_code_point cp ++ r) =
    ('(t, rest) ← parse_string_body fuel r; Ok (utf8_encode_cp cp ++ t, rest)).
Proof.
  intros [Hcp Hs]. unfold escape_code_point. destruct (short_escape cp) as [e|] eqn:Ee; [by apply short_escape_parse|].
  destruct ((32 <=? cp) && (cp <=? 126)) eqn:Ep.
  - assert (Hin : cp ∈ seqZ 32 95) by (apply elem_of_seqZ; lia). clear Hcp Hs Ep. revert Ee.
    cbn in Hin. repeat (apply elem_of_cons in Hin as [->|Hin]; [try done; intros _; reflexivity|]). by apply not_elem_of_nil in Hin.
  - destruct (Z.ltb_spec cp 65536).
    + rewrite u_escape_app. cbn [parse_string_body]. change (byte_of_ascii "\" =? 34) with false.
      change (byte_of_ascii "\" <? 32) with false. change (byte_of_ascii "\" =? 92) with true.
      change (byte_of_ascii "u" =? 117) with true. cbv iota. rewrite hex4_u_escape by lia.
      unfold is_low_surrogate, is_high_surrogate.
      rewrite !(proj2 (andb_false_iff _ _)) by (rewrite !Z.leb_gt; lia). reflexivity.
    + set (hi := 55296 + (cp - 65536) / 1024). set (lo := 56320 + (cp - 65536) mod 1024).
      assert (Hhi : 55296 <= hi <= 56319) by (unfold hi; Z.to_euclidean_division_equations; lia).
      assert (Hlo : 56320 <= lo <= 57343) by (unfold lo; Z.to_euclidean_division_equations; lia).
      rewrite <- (assoc_L app), !u_escape_app. cbn [parse_string_body]. change (byte_of_ascii "\" =? 34) with false.
      change (byte_of_ascii "\" <? 32) with false. change (byte_of_ascii "\" =? 92) with true.
      change (byte_of_ascii "u" =? 117) with true. cbv iota. rewrite hex4_u_escape by lia.
      unfold is_low_surrogate, is_high_surrogate.
      rewrite (proj2 (andb_false_iff (56320 <=? hi) _)) by (rewrite !Z.leb_gt; lia).
      rewrite (proj2 (andb_true_iff (55296 <=? hi) _)) by (rewrite !Z.leb_le; lia). cbv iota beta.
      change (byte_of_ascii "\" =? 92) with true. change (byte_of_ascii "u" =? 117) with true. cbn [andb].
      rewrite hex4_u_escape by lia.
      rewrite (proj2 (andb_true_iff (56320 <=? lo) _)) by (rewrite !Z.leb_le; lia). cbv iota.
      replace (65536 + (hi - 55296) * 1024 + (lo - 56320)) with cp; [reflexivity|].
      unfold hi, lo. Z.to_euclidean_division_equations; lia.
Qed.

(** A step of the strict decoder: one code point and its bytes. *)
Lemma utf8_decode_step b cps :
  b <> [] -> Forall is_byte b -> utf8_decode b = Some cps ->
  exists cp cps' b', cps = cp :: cps' /\ utf8_decode b' = Some cps' /\ is_scalar cp /\
    ascii_of_byte <$> b = utf8_encode_cp cp ++ (ascii_of_byte <$> b') /\ (length b' < length b)%nat /\ Forall is_byte b'.
Proof.
  intros Hne Hb Hd. unfold is_scalar, utf8_encode_cp.
  destruct b as [|b0 r0]; [done|]. apply Forall_cons in Hb as [H0 Hb]. unfold is_byte in H0. cbn [utf8_decode] in Hd.
  destruct (Z.ltb_spec b0 128).
  { destruct (utf8_decode r0) as [l|] eqn:El; [|done]. injection Hd as <-. eexists b0, l, r0.
    split_and!; try done; try lia; try (cbn; lia). by rewrite (proj2 (Z.ltb_lt b0 128)). }
  destruct r0 as [|b1 r1]; [done|]. apply Forall_cons in Hb as [H1 Hb]. unfold is_byte in H1.
  unfold is_cont in Hd. destruct ((128 <=? b1) && (b1 <? 192)) eqn:C1; [|done]. cbn [negb] in Hd.
  destruct ((194 <=? b0) && (b0 <=? 223)) eqn:R2.
  { destruct (utf8_decode r1) as [l|] eqn:El; [|done]. injection Hd as <-.
    set (cp := (b0 - 192) * 64 + (b1 - 128)). assert (128 <= cp < 2048) by lia. exists cp, l, r1.
    split_and!; try done; try lia; try (cbn; lia).
    rewrite (proj2 (Z.ltb_ge cp 128)), (proj2 (Z.ltb_lt cp 2048)) by lia. cbn. do 2 f_equal; [|f_equal]; f_equal;
      unfold cp; Z.to_euclidean_division_equations; lia. }
  destruct r1 as [|b2 r2]; [done|]. apply Forall_cons in Hb as [H2 Hb]. unfold is_byte in H2. cbv zeta in Hd.
  set (cp3 := (b0 - 224) * 4096 + (b1 - 128) * 64 + (b2 - 128)) in *.
  destruct ((128 <=? b2) && (b2 <? 192)) eqn:C2; [|done]. cbn [negb] in Hd.
  destruct ((224 <=? b0) && (b0 <=? 239)) eqn:R3.
  { destruct ((cp3 <? 2048) || ((55296 <=? cp3) && (cp3 <=? 57343))) eqn:Eb; [done|].
    destruct (utf8_decode r2) as [l|] eqn:El; [|done]. injection Hd as <-. exists cp3, l, r2.
    assert (2048 <= cp3 < 65536) by lia. split_and!; try done; try lia; try (cbn; lia).
    rewrite (proj2 (Z.ltb_ge cp3 128)), (proj2 (Z.ltb_ge cp3 2048)), (proj2 (Z.ltb_lt cp3 65536)) by lia. cbn.
    f_equal; [|f_equal; [|f_equal]]; f_equal; unfold cp3; Z.to_euclidean_division_equations; lia. }
  destruct r2 as [|b3 r3]; [done|]. apply Forall_cons in Hb as [H3 Hb]. unfold is_byte in H3.
  set (cp4 := (b0 - 240) * 262144 + (b1 - 128) * 4096 + (b2 - 128) * 64 + (b3 - 128)) in *.
  destruct ((128 <=? b3) && (b3 <? 192)) eqn:C3; [|done]. cbn [negb] in Hd.
  destruct ((240 <=? b0) && (b0 <=? 244)) eqn:R4; [|done].
  destruct ((cp4 <? 65536) || (1114111 <? cp4)) eqn:Eb; [done|].
  destruct (utf8_decode r3) as [l|] eqn:El; [|done]. injection Hd as <-. exists cp4, l, r3.
  assert (65536 <= cp4 < 1114112) by lia. split_and!; try done; try lia; try (cbn; lia).
  rewrite (proj2 (Z.ltb_ge cp4 128)), (proj2 (Z.ltb_ge cp4 2048)), (proj2 (Z.ltb_ge cp4 65536)) by lia. cbn.
  f_equal; [|f_equal; [|f_equal; [|f_equal]]]; f_equal; unfold cp4; Z.to_euclidean_division_equations; lia.
Qed.

Lemma utf8_decode_encode b cps :
  Forall is_byte b -> utf8_decode b = Some cps ->
  Forall is_scalar cps /\ concat (utf8_encode_cp <$> cps) = ascii_of_byte <$> b.
Proof.
  remember (length b) as n eqn:Hn. revert b cps Hn. induction n as [n IH] using lt_wf_ind. intros b cps -> Hb Hd.
  destruct b as [|b0 r]; [by injection Hd as <-|].
  destruct (utf8_decode_step (b0 :: r) cps) as (cp & cps' & b' & -> & Hd' & Hs & He & Hl & Hb'); [done..|].
  destruct (IH (length b') Hl b' cps' eq_refl Hb' Hd') as [Hf Hc]. split; [by constructor|].
  rewrite He, fmap_cons. cbn [concat]. by rewrite Hc.
Qed.

(** A [str] is valid UTF-8 here, as far as escaping all of it needs that. *)
Definition text_ok (ensure_ascii : bool) (s : string) : bool :=
  if ensure_ascii then match utf8_decode (encode_utf8 s) with Some _ => true | None => false end else true.

(** The characters between the quotes. *)
Definition json_body (ensure_ascii : bool) (s : string) : chars :=
  if ensure_ascii then concat (escape_code_point <$> code_points s) else concat (escape_char <$> str_chars s).

Lemma json_string_body a s : json_string a s = quote_char :: json_body a s ++ [quote_char].
Proof. reflexivity. Qed.

Lemma escape_code_point_length cp : (1 <= length (escape_code_point cp))%nat.
Proof.
  unfold escape_code_point, short_escape.
  repeat match goal with |- context [if ?c =? ?k then _ else _] => destruct (c =? k) end; try (cbn; lia).
  destruct (_ && _); [cbn; lia|]. destruct (_ <? _); [cbn; lia|]. rewrite length_app. cbn. lia.
Qed.

Lemma parse_string_body_ascii cps rest fuel :
  Forall is_scalar cps -> (length cps < fuel)%nat ->
  parse_string_body fuel (concat (escape_code_point <$> cps) ++ quote_char :: rest) =
    Ok (concat (utf8_encode_cp <$> cps), rest).
Proof.
  intros Hs. revert fuel. induction Hs as [|cp cps Hcp Hs IH]; intros [|fuel] Hf; cbn [length] in Hf; [lia|done|lia|].
  rewrite !fmap_cons. cbn [concat]. rewrite <- (assoc_L app), (escape_code_point_parse cp fuel _ Hcp), IH by lia. done.
Qed.

Lemma parse_json_body a s rest :
  text_ok a s = true -> parse_string (json_body a s ++ quote_char :: rest) = Ok (s, rest).
Proof.
  destruct a; cbn [text_ok json_body]; intros Hok; [|apply parse_string_roundtrip].
  destruct (utf8_decode (encode_utf8 s)) as [cps|] eqn:Ed; [|done]. unfold code_points. rewrite Ed. change (default (encode_utf8 s) (Some cps)) with cps.
  destruct (utf8_decode_encode _ _ (encode_utf8_bytes s) Ed) as [Hs Hc].
  unfold parse_string. rewrite parse_string_body_ascii; [|done|].
  - cbn [mbind result_bind]. rewrite Hc. unfold encode_utf8. rewrite <- list_fmap_compose.
    assert (Hid : (ascii_of_byte ∘ byte_of_ascii) <$> str_chars s = str_chars s).
    { transitivity (id <$> str_chars s); [|apply list_fmap_id]. apply list_fmap_ext. intros i c _. apply ascii_of_byte_of_ascii. }
    rewrite Hid. unfold str_chars. by rewrite String.string_of_list_ascii_of_string.
  - rewrite length_app. cbn [length]. clear. induction cps as [|cp cps IH]; [cbn; lia|].
    rewrite fmap_cons. cbn [concat length]. rewrite length_app. pose proof (escape_code_point_length cp). lia.
Qed.

(** Decimal digits. *)
Definition all_digits (ds : chars) : Prop := Forall (λ c, is_digit c = true) ds.

Lemma string_of_uint_digits u : all_digits (str_chars (NilEmpty.string_of_uint u)).
Proof. induction u; simpl; constructor; done. Qed.

Lemma span_digits_app ds rest :
  all_digits ds -> match rest with [] => True | c :: _ => is_digit c = false end ->
  span_digits (ds ++ rest) = (ds, rest).
Proof.
  intros Hd Hr. induction Hd as [|c ds Hc _ IH]; simpl.
  - destruct rest as [|c r]; simpl; [done|]. by rewrite Hr.
  - by rewrite Hc, IH.
Qed.

Lemma delimits_not_digit rest :
  delimits rest -> match rest with [] => True | c :: _ => is_digit c = false end.
Proof. destruct rest; [done|]. by intros [->|[->| ->]]. Qed.

Lemma parse_frac_delim rest : delimits rest -> parse_frac rest = ([], rest).
Proof. destruct rest; [done|]. by intros [->|[->| ->]]. Qed.

Lemma parse_exp_delim rest : delimits rest -> parse_exp rest = ([], rest).
Proof. destruct rest; [done|]. by intros [->|[->| ->]]. Qed.

(** The digits of a positive number do not start with a zero. *)
#[global] Instance py_int_str_inj : Inj (=) (=) py_int_str.
Proof.
  assert (Hr : forall z, NilZero.int_of_string (py_int_str z) = Some (Z.to_int z)).
  { intros z. apply NilZero.isi; intros Hn; apply (f_equal Z.of_int) in Hn as Hz; rewrite of_to in Hz;
      cbn in Hz; subst z; discriminate Hn. }
  intros z z' Heq. apply to_int_inj. apply (f_equal NilZero.int_of_string) in Heq. rewrite !Hr in Heq. by injection Heq.
Qed.

Lemma pos_digits p :
  exists c ds, str_chars (NilZero.string_of_uint (Pos.to_uint p)) = c :: ds /\
    all_digits (c :: ds) /\ (byte_of_ascii c =? 48) = false /\
    NilZero.uint_of_string (String.string_of_list_ascii (c :: ds)) = Some (Pos.to_uint p) .
Proof.
  assert (Hn : Decimal.unorm (Pos.to_uint p) = Pos.to_uint p).
  { pose proof (DecimalN.Unsigned.to_of (Pos.to_uint p)) as H.
    unfold N.of_uint in H. rewrite DecimalPos.Unsigned.of_to in H. by rewrite <- H. }
  pose proof (DecimalPos.Unsigned.to_uint_nonnil p) as Hnil.
  pose proof (DecimalPos.Unsigned.to_uint_nonzero p) as Hz.
  pose proof (NilZero.usu _ Hnil) as Hu.
  pose proof (string_of_uint_digits (Pos.to_uint p)) as Hd.
  assert (Heq : NilZero.string_of_uint (Pos.to_uint p) = NilEmpty.string_of_uint (Pos.to_uint p)).
  { by destruct (Pos.to_uint p). }
  rewrite Heq in *.
  destruct (str_chars (NilEmpty.string_of_uint (Pos.to_uint p))) as [|c ds] eqn:E.
  - destruct (Pos.to_uint p); simpl in E; done.
  - exists c, ds. split; [done|]. split; [done|]. split.
    + destruct (Pos.to_uint p) as [|u| | | | | | | | |] eqn:Ep; simpl in E; simplify_eq; try done.
      exfalso. unfold Decimal.unorm in Hn. simpl in Hn.
      destruct (Decimal.nzhead u) eqn:En; try done.
      simplify_eq. by eapply (DecimalFacts.nzhead_nonzero u).
    + rewrite <- E. unfold str_chars. by rewrite String.string_of_list_ascii_of_string.
Qed.

Lemma int_of_pos_digits p c ds :
  NilZero.uint_of_string (String.string_of_list_ascii (c :: ds)) = Some (Pos.to_uint p) ->
  int_of_digits (c :: ds) = Ok (Zpos p).
Proof.
  intros H. unfold int_of_digits. rewrite H. f_equal. unfold Z.of_uint.
  by rewrite DecimalPos.Unsigned.of_to.
Qed.

Lemma parse_number_roundtrip z rest :
  delimits rest -> parse_number (lit (py_int_str z) ++ rest) = Ok (VInt z, rest).
Proof.
  intros Hr. destruct z as [|p|p]; unfold py_int_str.
  - change (lit _ ++ rest) with ("0"%char :: rest). unfold parse_number.
    change (byte_of_ascii "0") with 48. cbn -[parse_frac parse_exp].
    change (byte_of_ascii "0") with 48. cbn -[parse_frac parse_exp].
    by rewrite parse_frac_delim, parse_exp_delim.
  - destruct (pos_digits p) as (c & ds & E & Hd & H0 & Hu). cbn [Z.to_int NilZero.string_of_int].
    unfold lit. rewrite E. unfold parse_number. cbn [app].
    assert (Hneg : (byte_of_ascii c =? 45) = false).
    { apply Forall_inv in Hd. unfold is_digit in Hd. lia. }
    rewrite Hneg, H0.
    change (c :: ds ++ rest) with ((c :: ds) ++ rest).
    rewrite span_digits_app by (done || by apply delimits_not_digit).
    rewrite parse_frac_delim, parse_exp_delim by done.
    by rewrite (int_of_pos_digits p).
  - destruct (pos_digits p) as (c & ds & E & Hd & H0 & Hu). cbn [Z.to_int NilZero.string_of_int].
    unfold lit, str_chars in *. cbn [String.list_ascii_of_string]. rewrite E.
    unfold parse_number. cbn [app].
    assert (Hneg : (byte_of_ascii "-" =? 45) = true) by done. rewrite Hneg, H0.
    change (c :: ds ++ rest) with ((c :: ds) ++ rest).
    rewrite span_digits_app by (done || by apply delimits_not_digit).
    rewrite parse_frac_delim, parse_exp_delim by done.
    by rewrite (int_of_pos_digits p).
Qed.

#[global] Arguments json_string : simpl never.
#[global] Arguments lit : simpl never.

Lemma json_dumps_list a l :
  json_dumps a (VList l) =
    (ss ← mapM_py (json_dumps a) l; Ok (lit "[" ++ join_chars ss ++ lit "]")).
Proof.
  simpl. f_equal. induction l as [|x l IH]; simpl; [done|].
  destruct (json_dumps a x); simpl; [|done]. by rewrite IH.
Qed.

Definition dump_member (a : bool) (kv : string * value) : result chars :=
  s ← json_dumps a kv.2; Ok (json_string a kv.1 ++ lit ":" ++ s).

Lemma json_dumps_dict a d :
  json_dumps a (VDict d) =
    (ss ← mapM_py (dump_member a) d; Ok (lit "{" ++ join_chars ss ++ lit "}")).
Proof.
  simpl. f_equal. induction d as [|[k x] d IH]; simpl; [done|]. unfold dump_member. simpl.
  destruct (json_dumps a x); simpl; [|done]. rewrite IH. by destruct (mapM_py _ d).
Qed.

Lemma dump_member_inv a k v s :
  dump_member a (k, v) = Ok s ->
  exists t, json_dumps a v = Ok t /\ s = json_string a k ++ lit ":" ++ t.
Proof.
  unfold dump_member. cbn [fst snd]. intros H. destruct_result. eauto.
Qed.

Lemma skip_ws_opens s r : opens s -> skip_ws (s ++ r) = s ++ r.
Proof. destruct s as [|c s]; [done|]. intros (Hw & _). simpl. by rewrite Hw. Qed.

Section ReadsBack.
Context (mode : bool).

(** The property of one value that the induction carries. *)
Definition reads_back (v : value) : Prop :=
  forall s, json_dumps mode v = Ok s ->
    opens s /\
    forall rest fuel, delimits rest -> (length s < fuel)%nat ->
      parse_value fuel (s ++ rest) = Ok (v, rest).

Lemma join_chars_cons s s2 ss : join_chars (s :: s2 :: ss) = s ++ comma :: join_chars (s2 :: ss).
Proof. done. Qed.

Lemma opens_join s ss : opens s -> opens (join_chars (s :: ss)).
Proof. destruct s, ss; done. Qed.

Lemma parse_elements_step v r fuel s :
  parse_value fuel s = Ok (v, r) ->
  parse_elements (S fuel) s =
    match skip_ws r with
    | c :: r1 =>
      if byte_of_ascii c =? 93 then Ok ([v], r1)
      else if byte_of_ascii c =? 44 then
        '(l, rest) ← parse_elements fuel (skip_ws r1); Ok (v :: l, rest)
      else bad_json
    | [] => bad_json
    end.
Proof. intros H. simpl. by rewrite H. Qed.

Lemma parse_elements_roundtrip l ss rest fuel :
  l <> [] -> mapM_py (json_dumps mode) l = Ok ss -> Forall reads_back l ->
  (length (join_chars ss) + 1 < fuel)%nat ->
  parse_elements fuel (join_chars ss ++ "]"%char :: rest) = Ok (l, rest).
Proof.
  intros Hne Hss Hall. revert ss fuel Hss Hne.
  induction Hall as [|v l Hv Hall IH]; intros ss fuel Hss Hne Hf; [done|].
  simpl in Hss. destruct_result. clear Hne. destruct (Hv _ E) as [Ho Hp].
  destruct fuel as [|fuel]; [lia|]. destruct l as [|v2 l].
  - simpl in E0. destruct_result. simpl in Hf |- *.
    by rewrite Hp by ((by right; left) || lia).
  - destruct a0 as [|s2 ss2]; [apply mapM_py_length in E0; done|].
    assert (Ho2 : opens s2).
    { pose proof E0 as E1. simpl in E1. destruct_result. simplify_eq.
      apply Forall_inv in Hall. by destruct (Hall _ E2). }
    rewrite join_chars_cons, length_app in Hf. cbn [length] in Hf.
    rewrite join_chars_cons, <- (assoc_L app). cbn [app].
    erewrite parse_elements_step by (apply Hp; [by left | lia]).
    change (skip_ws (comma :: ?r)) with (comma :: r). cbv beta iota zeta.
    change (byte_of_ascii comma =? 93) with false. change (byte_of_ascii comma =? 44) with true.
    cbv iota. rewrite (skip_ws_opens _ _ (opens_join _ _ Ho2)).
    by rewrite IH by (done || lia).
Qed.

Lemma parse_members_step k v s r fuel acc :
  text_ok mode k = true -> delimits r -> opens s -> parse_value fuel (s ++ r) = Ok (v, r) ->
  parse_members (S fuel) acc (json_string mode k ++ lit ":" ++ s ++ r) =
    match skip_ws r with
    | c' :: r4 =>
      if byte_of_ascii c' =? 125 then Ok (dict_set k v acc, r4)
      else if byte_of_ascii c' =? 44 then parse_members fuel (dict_set k v acc) (skip_ws r4)
      else bad_json
    | [] => bad_json
    end.
Proof.
  intros Hk _ Ho H. rewrite json_string_body. cbn [app parse_members].
  change (negb (byte_of_ascii quote_char =? 34)) with false. cbv iota.
  rewrite <- (assoc_L app). cbn [app]. rewrite (parse_json_body mode k _ Hk). cbn [mbind result_bind].
  change (skip_ws (lit ":" ++ ?x)) with (":"%char :: x). cbv beta iota zeta.
  change (negb (byte_of_ascii ":" =? 58)) with false. cbv iota.
  by rewrite (skip_ws_opens _ _ Ho), H.
Qed.

Lemma parse_members_roundtrip d ss acc rest fuel :
  d <> [] -> mapM_py (dump_member mode) d = Ok ss ->
  Forall (λ kv, text_ok mode kv.1 = true) d -> Forall (λ kv, reads_back kv.2) d ->
  NoDup (dict_keys (acc ++ d)) ->
  (length (join_chars ss) + 1 < fuel)%nat ->
  parse_members fuel acc (join_chars ss ++ "}"%char :: rest) = Ok (acc ++ d, rest).
Proof.
  intros Hne Hss Hpl Hall. revert ss acc fuel Hss Hne Hpl.
  induction Hall as [|[k v] d Hv Hall IH]; intros ss acc fuel Hss Hne Hpl Hnd Hf; [done|].
  cbn [mapM_py] in Hss. destruct_result. clear Hne.
  apply dump_member_inv in E as (a1 & E1 & ->).
  simpl in Hv. destruct (Hv _ E1) as [Ho Hp]. apply Forall_cons in Hpl as [Hpv Hpl]. cbn [fst] in Hpv.
  assert (Hset : dict_set k v acc = acc ++ [(k, v)]).
  { clear -Hnd. induction acc as [|[k' v'] acc IH]; simpl; [done|].
    unfold dict_keys in Hnd. csimpl in Hnd. apply NoDup_cons in Hnd as [Hk Hnd].
    rewrite decide_False; [by rewrite IH|]. intros ->. apply Hk.
    rewrite fmap_app. apply elem_of_app. right. by left. }
  assert (Hlen : forall a, (length a + 2 < length (json_string mode k ++ lit ":" ++ a))%nat).
  { intros x. rewrite json_string_body. unfold lit. simpl. rewrite !length_app. simpl. lia. }
  pose proof (Hlen a1) as Hla.
  destruct fuel as [|fuel]; [lia|]. destruct d as [|kv2 d].
  - simpl in E0. destruct_result. cbn [join_chars] in *.
    rewrite <- !(assoc_L app).
    erewrite parse_members_step by (done || (by right; right) || (apply Hp; [by right; right | lia])).
    simpl. by rewrite Hset.
  - destruct a0 as [|s2 ss2]; [apply mapM_py_length in E0; done|].
    rewrite join_chars_cons, length_app in Hf. cbn [length] in Hf.
    rewrite join_chars_cons, <- !(assoc_L app). cbn [app].
    erewrite parse_members_step by (done || (by left) || (apply Hp; [by left | lia])).
    change (skip_ws (comma :: ?r)) with (comma :: r). cbv beta iota zeta.
    change (byte_of_ascii comma =? 125) with false. change (byte_of_ascii comma =? 44) with true.
    cbv iota.
    assert (Ho2 : opens (join_chars (s2 :: ss2))).
    { apply opens_join. pose proof E0 as E2. cbn [mapM_py] in E2. destruct_result.
      simplify_eq. destruct kv2 as [k2 v2]. by apply dump_member_inv in E as (t & _ & ->). }
    rewrite (skip_ws_opens _ _ Ho2), Hset.
    rewrite IH; [by rewrite <- (assoc_L app)|done..|by rewrite <- (assoc_L app)|lia].
Qed.

Lemma reads_back_list l : Forall reads_back l -> reads_back (VList l).
Proof.
  intros Hall s H. rewrite json_dumps_list in H. destruct_result. split; [done|].
  intros rest [|fuel] Hr Hf; [simpl in Hf; lia|].
  rewrite !length_app in Hf. change (length (lit _)) with 1%nat in Hf. destruct l as [|v l].
  - simpl in E. destruct_result. done.
  - assert (Ho : opens (join_chars a)).
    { destruct a as [|s0 a]; [by apply mapM_py_length in E|].
      cbn [mapM_py] in E. destruct_result. simplify_eq.
      apply opens_join. apply Forall_inv in Hall. by destruct (Hall _ E0). }
    pose proof (parse_elements_roundtrip (v :: l) a rest fuel ltac:(done) E Hall ltac:(lia)) as Hp.
    rewrite <- !(assoc_L app). cbn [app].
    change (lit "[" ++ ?r) with ("["%char :: r). cbn [parse_value].
    change (byte_of_ascii "[" =? 34) with false. change (byte_of_ascii "[" =? 123) with false.
    change (byte_of_ascii "[" =? 91) with true. cbv iota zeta.
    change (lit "]" ++ rest) with ("]"%char :: rest).
    rewrite (skip_ws_opens _ _ Ho).
    destruct (join_chars a) as [|c r] eqn:Ej; [done|]. cbn [app] in *.
    destruct Ho as (_ & H93 & _). apply Z.eqb_neq in H93. rewrite H93, Hp. done.
Qed.

Lemma reads_back_dict d :
  NoDup (dict_keys d) -> Forall (λ kv, text_ok mode kv.1 = true) d ->
  Forall (λ kv, reads_back kv.2) d -> reads_back (VDict d).
Proof.
  intros Hnd Hpl Hall s H. rewrite json_dumps_dict in H. destruct_result. split; [done|].
  intros rest [|fuel] Hr Hf; [simpl in Hf; lia|].
  rewrite !length_app in Hf. change (length (lit _)) with 1%nat in Hf. destruct d as [|[k v] d].
  - simpl in E. destruct_result. done.
  - assert (Ho : opens (join_chars a)).
    { destruct a as [|s0 a]; [by apply mapM_py_length in E|].
      cbn [mapM_py] in E. destruct_result. simplify_eq.
      apply opens_join. by apply dump_member_inv in E0 as (t & _ & ->). }
    pose proof (parse_members_roundtrip ((k, v) :: d) a [] rest fuel ltac:(done) E Hpl Hall Hnd
                  ltac:(lia)) as Hp.
    rewrite <- !(assoc_L app). cbn [app].
    change (lit "{" ++ ?r) with ("{"%char :: r). cbn [parse_value].
    change (byte_of_ascii "{" =? 34) with false. change (byte_of_ascii "{" =? 123) with true.
    cbv iota zeta.
    change (lit "}" ++ rest) with ("}"%char :: rest).
    rewrite (skip_ws_opens _ _ Ho).
    destruct (join_chars a) as [|c r] eqn:Ej; [done|]. cbn [app] in *.
    destruct Ho as (_ & _ & H125). apply Z.eqb_neq in H125. rewrite H125, Hp. done.
Qed.

(** The first character of a printed integer. *)
Lemma py_int_str_head z :
  exists c r, lit (py_int_str z) = c :: r /\
    ((is_digit c = true) \/ (c = "-"%char /\ exists c' r', r = c' :: r' /\ is_digit c' = true)).
Proof.
  unfold lit, py_int_str. destruct z as [|p|p].
  - exists "0"%char, []. split; [done|]. by left.
  - destruct (pos_digits p) as (c & ds & E & Hd & _). exists c, ds. split; [done|].
    left. by apply Forall_inv in Hd.
  - destruct (pos_digits p) as (c & ds & E & Hd & _). exists "-"%char, (c :: ds). split.
    + cbn [Z.to_int NilZero.string_of_int]. unfold str_chars in *.
      cbn [String.list_ascii_of_string]. by rewrite E.
    + right. split; [done|]. exists c, ds. split; [done|]. by apply Forall_inv in Hd.
Qed.

Lemma digit_range c : is_digit c = true -> 48 <= byte_of_ascii c <= 57.
Proof. unfold is_digit. lia. Qed.

(** A number is read by the last branch of [parse_value]. *)
Lemma parse_value_number c r fuel :
  is_digit c = true \/ (c = "-"%char /\ exists c' r', r = c' :: r' /\ is_digit c' = true) ->
  parse_value (S fuel) (c :: r) = parse_number (c :: r).
Proof.
  intros Hc. cbn [parse_value].
  assert (Hne : forall p ps, byte_of_ascii p <> byte_of_ascii c -> strip_chars (p :: ps) (c :: r) = None).
  { intros p ps Hp. simpl. rewrite decide_False; [done|]. congruence. }
  assert (Hb : 48 <= byte_of_ascii c <= 57 \/ byte_of_ascii c = 45).
  { destruct Hc as [?%digit_range|[-> _]]; [by left | by right]. }
  rewrite !(proj2 (Z.eqb_neq _ _)) by lia. unfold lit.
  cbn [str_chars String.list_ascii_of_string].
  rewrite !Hne by (change (byte_of_ascii "n") with 110 || change (byte_of_ascii "t") with 116
    || change (byte_of_ascii "f") with 102 || change (byte_of_ascii "N") with 78
    || change (byte_of_ascii "I") with 73; lia).
  destruct Hc as [Hd|[-> (c' & r' & -> & Hd)]].
  - apply digit_range in Hd. rewrite Hne; [done|]. change (byte_of_ascii "-") with 45. lia.
  - apply digit_range in Hd. cbn [strip_chars]. rewrite decide_True by done.
    rewrite decide_False; [done|]. intros <-. change (byte_of_ascii "I") with 73 in Hd. lia.
Qed.

(** The texts inside a value. *)
Fixpoint json_text (v : value) : bool :=
  match v with
  | VStr s => text_ok mode s
  | VList l => forallb json_text l
  | VDict d => forallb (λ kv, text_ok mode kv.1 && json_text kv.2) d
  | _ => true
  end.

Theorem json_plain_reads_back v : json_plain v = true -> json_text v = true -> reads_back v.
Proof.
  induction v as [|b|z|s|r|d|t|b|l IH|l IH|d IH] using value_ind; intros Hpl Htx; try done.
  - intros s H. simpl in H. destruct_result. split; [done|]. by intros rest [|fuel] Hr Hf; [simpl in Hf; lia|].
  - intros s H. destruct b; simpl in H; destruct_result; (split; [done|]);
      by intros rest [|fuel] Hr Hf; [simpl in Hf; lia|].
  - intros s H. simpl in H. destruct_result. destruct (py_int_str_head z) as (c & r & E & Hc).
    rewrite E. split.
    + destruct Hc as [Hd|[-> _]]; [|done]. apply digit_range in Hd. unfold opens, is_ws. lia.
    + intros rest [|fuel] Hr Hf; [lia|]. cbn [app]. rewrite parse_value_number.
      * change (c :: r ++ rest) with ((c :: r) ++ rest). rewrite <- E.
        by apply parse_number_roundtrip.
      * destruct Hc as [?|[-> (c' & r' & -> & ?)]]; [by left|]. right. split; [done|].
        exists c', (r' ++ rest). done.
  - intros t H. simpl in H. destruct_result. rewrite json_string_body. split; [done|].
    intros rest [|fuel] Hr Hf; [lia|]. cbn [app parse_value].
    change (byte_of_ascii quote_char =? 34) with true. cbv iota.
    rewrite <- (assoc_L app). cbn [app]. by rewrite parse_json_body.
  - apply reads_back_list. cbn in Hpl, Htx. rewrite forallb_forall in Hpl, Htx.
    rewrite Forall_forall in IH |- *. intros x Hx. apply list_elem_of_In in Hx as Hi. by apply IH; [|apply Hpl|apply Htx].
  - cbn in Hpl, Htx. apply andb_true_iff in Hpl as [Hnd Hpl]. apply bool_decide_eq_true in Hnd.
    rewrite forallb_forall in Hpl, Htx. rewrite Forall_forall in IH.
    apply reads_back_dict; [done|..]; apply Forall_forall; intros kv Hkv; apply list_elem_of_In in Hkv as Hi;
      destruct (andb_prop _ _ (Htx _ Hi)) as [Hk Hv]; [done|]. by apply IH; [|apply Hpl|].
Qed.

Lemma loads_dumps_mode v s : json_plain v = true -> json_text v = true -> dumps mode v = Ok s -> loads s = Ok v.
Proof.
  intros Hpl Htx H. unfold dumps in H. destruct (json_dumps mode v) as [cs|] eqn:E; [|done].
  apply Ok_inj in H as <-. destruct (json_plain_reads_back v Hpl Htx cs E) as [Ho Hp].
  unfold loads, loads_chars, str_chars. rewrite String.list_ascii_of_string_of_list_ascii.
  pose proof (skip_ws_opens cs [] Ho) as Hs. rewrite app_nil_r in Hs. rewrite Hs.
  specialize (Hp [] (S (length cs)) I ltac:(lia)). rewrite app_nil_r in Hp. by rewrite Hp.
Qed.
End ReadsBack.

Lemma json_text_raw v : json_text false v = true.
Proof.
  induction v as [|b|z|s|r|d|t|b|l IH|l IH|d IH] using value_ind; try done; cbn; apply forallb_forall; intros x Hx%list_elem_of_In;
    rewrite Forall_forall in IH; by apply IH.
Qed.

(** [json.loads(json.dumps(v, ensure_ascii=False, separators=(",", ":"))) == v]. *)
Lemma loads_dumps v s : json_plain v = true -> dumps false v = Ok s -> loads s = Ok v.
Proof. intros Hpl. apply (loads_dumps_mode false v s Hpl (json_text_raw v)). Qed.

(** ** What the parser returns *)

(** JSON values: no duplicate keys, and only the types JSON has. *)
Fixpoint json_wf (v : value) : bool :=
  match v with
  | VNone | VBool _ | VInt _ | VStr _ | VFloat _ => true
  | VList l => forallb json_wf l
  | VDict d => bool_decide (NoDup (dict_keys d)) && forallb (λ kv, json_wf kv.2) d
  | _ => false
  end.

Lemma parse_number_wf s v r : parse_number s = Ok (v, r) -> json_wf v = true.
Proof.
  unfold parse_number. intros H.
  repeat first [progress destruct_result | progress simplify_eq | case_match; try discriminate]; done.
Qed.

Lemma forallb_dict_set (f : value -> bool) k v d :
  f v = true -> forallb (λ kv : string * value, f kv.2) d = true ->
  forallb (λ kv, f kv.2) (dict_set k v d) = true.
Proof.
  intros Hv. induction d as [|[k' v'] d IH]; simpl; [by rewrite Hv|].
  intros [H1 H2]%andb_true_iff. case_decide; simpl; [by rewrite Hv, H2|]. by rewrite H1, IH.
Qed.

Lemma parse_wf fuel :
  (forall s v r, parse_value fuel s = Ok (v, r) -> json_wf v = true) /\
  (forall s l r, parse_elements fuel s = Ok (l, r) -> forallb json_wf l = true) /\
  (forall acc s d r, parse_members fuel acc s = Ok (d, r) ->
     NoDup (dict_keys acc) -> forallb (λ kv, json_wf kv.2) acc = true ->
     NoDup (dict_keys d) /\ forallb (λ kv, json_wf kv.2) d = true).
Proof.
  induction fuel as [|fuel (IHv & IHl & IHd)]; [by split_and!|]. split_and!.
  - intros [|c s] v r H; [done|]. cbn [parse_value] in H.
    destruct (_ =? 34); [destruct_result; by destruct a; simplify_eq|].
    destruct (_ =? 123).
    { destruct (skip_ws s) as [|c1 r1]; [done|]. destruct (_ =? 125); [by simplify_eq|].
      destruct_result. destruct a as [d rest]. simplify_eq.
      destruct (IHd _ _ _ _ E (NoDup_nil_2) eq_refl) as [H1 H2]. cbn [json_wf]. rewrite H2.
      by rewrite bool_decide_eq_true_2. }
    destruct (_ =? 91).
    { destruct (skip_ws s) as [|c1 r1]; [done|]. destruct (_ =? 93); [by simplify_eq|].
      destruct_result. destruct a as [d rest]. simplify_eq. by apply IHl in E. }
    repeat (destruct (strip_chars _ _); [by simplify_eq|]). by apply parse_number_wf in H.
  - intros s l r H. cbn [parse_elements] in H. destruct_result. destruct a as [v r0]. cbv beta iota in H.
    apply IHv in E. destruct (skip_ws r0) as [|c r1]; [done|].
    destruct (_ =? 93); [simplify_eq; simpl; by rewrite E|]. destruct (_ =? 44); [|done].
    destruct_result. destruct a as [l' rest]. simplify_eq. simpl. rewrite E. by apply IHl in E0.
  - intros acc [|q s] d r H Hnd Hwf; [done|]. cbn [parse_members] in H.
    destruct (negb _); [done|]. destruct_result. destruct a as [k r1]. cbv beta iota in H.
    destruct (skip_ws r1) as [|c r2]; [done|]. destruct (negb _); [done|]. destruct_result.
    destruct a as [v r3]. cbv beta iota in H. apply IHv in E0.
    assert (Hnd' : NoDup (dict_keys (dict_set k v acc))) by by apply dict_set_nodup.
    assert (Hwf' : forallb (λ kv, json_wf kv.2) (dict_set k v acc) = true) by by apply forallb_dict_set.
    destruct (skip_ws r3) as [|c' r4]; [done|]. cbv zeta in H.
    destruct (_ =? 125); [by simplify_eq|]. destruct (_ =? 44); [|done]. by eapply IHd.
Qed.

Lemma loads_wf s v : loads s = Ok v -> json_wf v = true.
Proof.
  unfold loads, loads_chars. intros H. destruct_result. destruct a as [v' r]. cbv beta iota in H.
  destruct (skip_ws r); [|done]. apply Ok_inj in H as <-. by apply parse_wf in E.
Qed.
