(* ===== verification/PyBuiltins.v ===== *)
(** * Built-in functions and operators

    [str.strip], [str.lower], [int()], [in], iteration, and arithmetic on the
    numbers that flow through the node, as the handlers use them.

    Arithmetic on contract numbers ([int] and the runtime's [ContractingDecimal])
    is the class [PyArith]: the decimal type belongs to another package, so the
    definitions that compute with it take its operations as a parameter, and the
    laws state what the [int] operations are. *)

From Stdlib Require Import Ascii.
From S2P Require Import Prelude PyValue Json.

(** The characters [str.strip] removes. *)
Definition is_unicode_space (cp : Z) : bool :=
  ((9 <=? cp) && (cp <=? 13)) || ((28 <=? cp) && (cp <=? 32)) || (cp =? 133) || (cp =? 160)
  || (cp =? 5760) || ((8192 <=? cp) && (cp <=? 8202)) || (cp =? 8232) || (cp =? 8233)
  || (cp =? 8239) || (cp =? 8287) || (cp =? 12288).

Fixpoint drop_spaces (s : list Z) : list Z :=
  match s with
  | c :: s' => if is_unicode_space c then drop_spaces s' else s
  | [] => []
  end.

Definition string_of_cps (s : list Z) : string :=
  String.string_of_list_ascii (concat (utf8_encode_cp <$> s)).

Definition py_strip (s : string) : string :=
  string_of_cps (reverse (drop_spaces (reverse (drop_spaces (code_points s))))).

(** [str.lower] on ASCII letters; no other code point lowers into the strings the
    code compares the result with. *)
Definition lower_cp (c : Z) : Z := if (65 <=? c) && (c <=? 90) then c + 32 else c.
Definition py_lower (s : string) : string := string_of_cps (lower_cp <$> code_points s).

(** [str.upper] of ASCII text *)
Definition upper_char (c : Ascii.ascii) : Ascii.ascii :=
  let b := byte_of_ascii c in if (97 <=? b) && (b <=? 122) then ascii_of_byte (b - 32) else c.
Definition py_upper (s : string) : string := String.string_of_list_ascii (upper_char <$> str_chars s).

(** [iter(v)]. *)
Definition py_iter (v : value) : result (list value) :=
  match v with
  | VList l | VTuple l => Ok l
  | VDict d => Ok (VStr <$> dict_keys d)
  | VStr s => Ok ((λ cp, VStr (string_of_cps [cp])) <$> code_points s)
  | VBytes b => Ok (VInt <$> b)
  | _ => raise TypeError "object is not iterable"
  end.

(** [key in v] for a [str] key. *)
Fixpoint has_substring (p s : chars) : bool :=
  match strip_chars p s with
  | Some _ => true
  | None => match s with _ :: s' => has_substring p s' | [] => false end
  end.

Definition py_in (key : string) (v : value) : result bool :=
  match v with
  | VDict d => Ok (dict_mem key d)
  | VList l | VTuple l => Ok (bool_decide (VStr key ∈ l))
  | VStr s => Ok (has_substring (str_chars key) (str_chars s))
  | _ => raise TypeError "argument is not a container"
  end.

(** [int(s)]: optional sign, digits, single underscores between digits. *)
Fixpoint int_digits (s : chars) (acc : Z) (need_digit : bool) : option Z :=
  match s with
  | [] => if need_digit then None else Some acc
  | c :: s =>
    if is_digit c then int_digits s (acc * 10 + (byte_of_ascii c - 48)) false
    else if decide (c = "_"%char) then if need_digit then None else int_digits s acc true
    else None
  end.

Definition int_of_str (s : string) : result Z :=
  let parsed := match str_chars (py_strip s) with
                | "-"%char :: r => Z.opp <$> int_digits r 0 true
                | "+"%char :: r => int_digits r 0 true
                | r => int_digits r 0 true
                end in
  match parsed with
  | Some z => Ok z
  | None => raise ValueError "invalid literal for int() with base 10"
  end.

(** [int(d)] truncates towards zero. *)
Definition int_of_dec (d : dec) : Z :=
  let m := if 0 <=? dec_exp d then Z.of_N (dec_coef d) * 10 ^ dec_exp d
           else Z.of_N (dec_coef d) / 10 ^ (- dec_exp d) in
  if dec_neg d then - m else m.

(** [int(v)]; [float_trunc r] is [int()] of the float whose [repr] is [r]. *)
Definition py_int (float_trunc : string -> result Z) (v : value) : result Z :=
  match v with
  | VInt z => Ok z
  | VBool b => Ok (if b then 1 else 0)
  | VStr s => int_of_str s
  | VDec d => Ok (int_of_dec d)
  | VFloat r => float_trunc r
  | _ => raise TypeError "int() argument must be a string or a number"
  end.

Example int_of_str_ex : int_of_str " -1_000 " = Ok (-1000) /\ is_ok (int_of_str "1__0") = false.
Proof. by vm_compute. Qed.

(** [str(v)]; [py_str] is [str()] of what is neither a [str] nor an [int]. *)
Definition to_str (py_str : value -> string) (v : value) : string :=
  match v with VStr s => s | VInt z => py_int_str z | _ => py_str v end.

(** ** Arithmetic on contract numbers *)

Class PyArith := {
  num_mul : value -> value -> result value;
  num_sub : value -> value -> result value;
  num_add : value -> value -> result value;
  (** [a / b < c] *)
  num_div_lt : value -> value -> value -> result bool;
  num_lt : value -> value -> result bool;
}.

(** What Python's [int] promises; [/] rounds to a float, which keeps the side of an
    integer bound the exact quotient is on as long as the quotient fits a float. *)
Class PyArithInt `(PyArith) := {
  num_mul_int a b : num_mul (VInt a) (VInt b) = Ok (VInt (a * b));
  num_sub_int a b : num_sub (VInt a) (VInt b) = Ok (VInt (a - b));
  num_add_int a b : num_add (VInt a) (VInt b) = Ok (VInt (a + b));
  num_div_lt_int a b c : 0 < b -> Z.abs a < 2 ^ 1000 ->
    num_div_lt (VInt a) (VInt b) (VInt c) = Ok (a <? c * b);
  num_lt_int a b : num_lt (VInt a) (VInt b) = Ok (a <? b);
}.

(** Integers only, for witnesses. *)
Definition int_op {A} (f : Z -> Z -> A) (a b : value) : result A :=
  match a, b with
  | VInt a, VInt b => Ok (f a b)
  | _, _ => raise TypeError "unsupported operand type(s)"
  end.

Definition int_arith : PyArith := {|
  num_mul := int_op (λ a b, VInt (a * b));
  num_sub := int_op (λ a b, VInt (a - b));
  num_add := int_op (λ a b, VInt (a + b));
  num_div_lt a b c := match a, b, c with
                      | VInt a, VInt b, VInt c => Ok (a <? c * b)
                      | _, _, _ => raise TypeError "unsupported operand type(s)" end;
  num_lt := int_op Z.ltb;
|}.

#[global] Instance int_arith_int : PyArithInt int_arith.
Proof. by split. Qed.
