(* ===== verification/Driver.v ===== *)
(** * The storage driver as an interface

    [raw_driver] is the storage driver of the contracting package.  The node uses
    it through the operations of [DriverOps]; [DriverLaws] states what those
    promise: reads see the pending writes over the durable ones, and [hard_apply]
    moves the pending writes to disk in one atomic step or, when it raises, leaves
    the disk as it was.

    Theorems about components that use the driver are proved against the
    interface.  [mem_driver] is an in-memory implementation that shows the laws
    are satisfiable; the witnesses run on it. *)

From S2P Require Import Prelude PyValue.

(** What a block's writes do to the state: a [None] deletes. *)
Definition apply_write (d : list (string * value)) (w : string * value) : list (string * value) :=
  if is_none w.2 then dict_pop w.1 d else dict_set w.1 w.2 d.
Definition apply_writes (items writes : list (string * value)) : list (string * value) :=
  foldl apply_write items writes.

Lemma apply_writes_get items writes q :
  NoDup (dict_keys writes) ->
  dict_get q (apply_writes items writes) =
    match dict_get q writes with
    | Some v => if is_none v then None else Some v
    | None => dict_get q items
    end.
Proof.
  revert items. induction writes as [|[k v] writes IH]; intros items Hnd; [done|].
  apply NoDup_cons in Hnd as [Hk Hnd]. simpl. rewrite (IH _ Hnd).
  case_decide as Hq; subst.
  - rewrite (proj2 (dict_get_None k writes) Hk). unfold apply_write. simpl.
    destruct (is_none v); [apply dict_get_pop_eq | apply dict_get_set_eq].
  - destruct (dict_get q writes); [done|]. unfold apply_write. simpl.
    destruct (is_none v); [by apply dict_get_pop_ne | by apply dict_get_set_ne].
Qed.

Lemma apply_writes_nodup items writes :
  NoDup (dict_keys items) -> NoDup (dict_keys (apply_writes items writes)).
Proof.
  revert items. induction writes as [|w writes IH]; intros items Hnd; [done|]. simpl. apply IH.
  unfold apply_write. destruct (is_none _); [by apply dict_pop_nodup | by apply dict_set_nodup].
Qed.

(** ** The interface *)

Class DriverOps (D : Type) := {
  (** [driver.get(key)] *)
  drv_get : D -> string -> value;
  (** [driver.set(key, value)]; a [None] value deletes *)
  drv_set : D -> string -> value -> D;
  (** [driver.apply_writes(writes)] *)
  drv_apply_writes : D -> list (string * value) -> D;
  (** the dict [driver.pending_writes] *)
  drv_pending_writes : D -> list (string * value);
  (** [driver.pending_writes = writes] *)
  drv_set_pending_writes : D -> list (string * value) -> D;
  (** [driver.value_from_disk(key)] *)
  drv_value_from_disk : D -> string -> value;
  (** [driver.items().items()] *)
  drv_items : D -> list (string * value);
  (** [driver.hard_apply(nanos)]; the outcome depends on the disk, so it is an input *)
  drv_hard_apply : bool -> D -> result unit * D;
  (** [driver.commit()]: the same transaction without the history entry *)
  drv_commit : bool -> D -> result unit * D;
  (** [driver.rollback(nanos)] *)
  drv_rollback : D -> D;
  (** [driver.flush_cache()]: drops what is pending *)
  drv_flush_cache : D -> D;
  (** [driver.flush_full()] *)
  drv_flush_full : D -> D;
  (** [driver.detach_pending_state()]: the pending writes, and the driver without them *)
  drv_detach : D -> list (string * value) * D;
  (** [driver.attach_pending_state(state)] on a driver without pending writes *)
  drv_attach : D -> list (string * value) -> D;
}.

Class DriverLaws (D : Type) `{DriverOps D} := {
  drv_get_spec d k :
    drv_get d k = match dict_get k (drv_pending_writes d) with
                  | Some v => v
                  | None => drv_value_from_disk d k
                  end;
  drv_set_pending d k v : drv_pending_writes (drv_set d k v) = dict_set k v (drv_pending_writes d);
  drv_set_disk d k v q : drv_value_from_disk (drv_set d k v) q = drv_value_from_disk d q;
  drv_apply_writes_pending d w :
    drv_pending_writes (drv_apply_writes d w) = dict_update (drv_pending_writes d) w;
  drv_apply_writes_disk d w q :
    drv_value_from_disk (drv_apply_writes d w) q = drv_value_from_disk d q;
  drv_set_pending_writes_pending d w : NoDup (dict_keys w) ->
    drv_pending_writes (drv_set_pending_writes d w) = w;
  drv_set_pending_writes_disk d w q :
    drv_value_from_disk (drv_set_pending_writes d w) q = drv_value_from_disk d q;
  drv_hard_apply_ok ok d d' : drv_hard_apply ok d = (Ok tt, d') ->
    drv_pending_writes d' = [] /\ forall q, drv_value_from_disk d' q = drv_get d q;
  drv_hard_apply_raise ok d e d' : drv_hard_apply ok d = (Raise e, d') ->
    forall q, drv_value_from_disk d' q = drv_value_from_disk d q;
  drv_commit_ok ok d d' : drv_commit ok d = (Ok tt, d') ->
    drv_pending_writes d' = [] /\ forall q, drv_value_from_disk d' q = drv_get d q;
  drv_commit_raise ok d e d' : drv_commit ok d = (Raise e, d') ->
    forall q, drv_value_from_disk d' q = drv_value_from_disk d q;
  drv_rollback_pending d : drv_pending_writes (drv_rollback d) = [];
  drv_rollback_disk d q : drv_value_from_disk (drv_rollback d) q = drv_value_from_disk d q;
  drv_flush_cache_pending d : drv_pending_writes (drv_flush_cache d) = [];
  drv_flush_cache_disk d q : drv_value_from_disk (drv_flush_cache d) q = drv_value_from_disk d q;
  drv_pending_nodup d : NoDup (dict_keys (drv_pending_writes d));
  (** With nothing pending, the items are the durable entries. *)
  drv_items_nodup d : NoDup (dict_keys (drv_items d));
  drv_items_spec d k : drv_pending_writes d = [] ->
    drv_value_from_disk d k = match dict_get k (drv_items d) with Some v => v | None => VNone end;
  drv_items_not_none d k v : (k, v) ∈ drv_items d -> v <> VNone;
  drv_flush_full_pending d : drv_pending_writes (drv_flush_full d) = [];
  drv_flush_full_disk d q : drv_value_from_disk (drv_flush_full d) q = VNone;
  drv_detach_spec d : (drv_detach d).1 = drv_pending_writes d /\
    drv_pending_writes (drv_detach d).2 = [] /\
    forall q, drv_value_from_disk (drv_detach d).2 q = drv_value_from_disk d q;
  drv_attach_pending d w : NoDup (dict_keys w) -> drv_pending_writes d = [] ->
    drv_pending_writes (drv_attach d w) = w;
  drv_attach_disk d w q : drv_value_from_disk (drv_attach d w) q = drv_value_from_disk d q;
}.

Section Derived.
Context {D : Type} `{DriverLaws D}.

Lemma drv_get_set_eq d k v : drv_get (drv_set d k v) k = v.
Proof. by rewrite drv_get_spec, drv_set_pending, dict_get_set_eq. Qed.

Lemma drv_get_set_ne d k q v : q <> k -> drv_get (drv_set d k v) q = drv_get d q.
Proof. intros Hne. by rewrite !drv_get_spec, drv_set_pending, dict_get_set_ne, drv_set_disk. Qed.
End Derived.

(** ** An in-memory driver *)

Record mem := Mem { mem_disk : list (string * value); mem_pending : list (string * value) }.

(** The representation invariant of [mem]: no repeated keys, no [None] on disk. *)
Definition mem_ok (m : mem) : Prop :=
  NoDup (dict_keys (mem_disk m)) /\ NoDup (dict_keys (mem_pending m)) /\
  Forall (λ kv, kv.2 <> VNone) (mem_disk m).

Definition mem_driver : Type := { m : mem | mem_ok m }.

Definition disk_get (m : mem) (k : string) : value :=
  match dict_get k (mem_disk m) with Some v => v | None => VNone end.

Lemma dict_update_nodup {A} (d e : list (string * A)) :
  NoDup (dict_keys d) -> NoDup (dict_keys (dict_update d e)).
Proof.
  unfold dict_update. revert d. induction e as [|kv e IH]; intros d Hd; simpl; [done|].
  apply IH. by apply dict_set_nodup.
Qed.

Lemma dict_update_nil {A} (d : list (string * A)) :
  NoDup (dict_keys (dict_update [] d)).
Proof. apply dict_update_nodup. constructor. Qed.

Lemma dict_pop_Forall {A} (P : string * A -> Prop) k d : Forall P d -> Forall P (dict_pop k d).
Proof.
  intros Hd. apply Forall_forall. intros kv [_ Hin]%list_elem_of_filter.
  rewrite Forall_forall in Hd. by apply Hd.
Qed.

Lemma dict_set_Forall {A} (P : string * A -> Prop) k v d :
  P (k, v) -> Forall P d -> Forall P (dict_set k v d).
Proof.
  intros Hv. induction 1 as [|[k' v'] d Hkv Hd IH]; simpl; [by constructor|].
  case_decide; by constructor.
Qed.

Lemma apply_write_disk d kv :
  NoDup (dict_keys d) -> Forall (λ kv : string * value, kv.2 <> VNone) d ->
  NoDup (dict_keys (apply_write d kv)) /\ Forall (λ kv, kv.2 <> VNone) (apply_write d kv).
Proof.
  intros Hn Hf. unfold apply_write. destruct kv as [k v]. simpl.
  destruct v; (split; [first [by apply dict_pop_nodup | by apply dict_set_nodup]|]);
    first [by apply dict_pop_Forall | by apply dict_set_Forall].
Qed.

Lemma mem_apply_disk w d :
  NoDup (dict_keys d) -> Forall (λ kv : string * value, kv.2 <> VNone) d ->
  NoDup (dict_keys (apply_writes d w)) /\ Forall (λ kv, kv.2 <> VNone) (apply_writes d w).
Proof.
  revert d. induction w as [|kv w IH]; intros d Hn Hf; simpl; [done|].
  destruct (apply_write_disk d kv Hn Hf). by apply IH.
Qed.

Program Definition mem_set (m : mem_driver) (k : string) (v : value) : mem_driver :=
  Mem (mem_disk (`m)) (dict_set k v (mem_pending (`m))).
Next Obligation. intros [m (?&?&?)] k v. simpl. split_and!; try done. by apply dict_set_nodup. Qed.

Program Definition mem_apply_writes (m : mem_driver) (w : list (string * value)) : mem_driver :=
  Mem (mem_disk (`m)) (dict_update (mem_pending (`m)) w).
Next Obligation. intros [m (?&?&?)] w. simpl. split_and!; try done. by apply dict_update_nodup. Qed.

Program Definition mem_rollback (m : mem_driver) : mem_driver := Mem (mem_disk (`m)) [].
Next Obligation. intros [m (?&?&?)]. simpl. split_and!; try done. constructor. Qed.

Program Definition mem_commit (m : mem_driver) : mem_driver :=
  Mem (apply_writes (mem_disk (`m)) (mem_pending (`m))) [].
Next Obligation.
  intros [m (Hd & Hp & Hn)]. simpl. destruct (mem_apply_disk (mem_pending m) _ Hd Hn).
  split_and!; try done. constructor.
Qed.

Program Definition mem_empty : mem_driver := Mem [] [].
Next Obligation. split_and!; constructor. Qed.

Lemma dict_set_app {A} k (v : A) d : k ∉ dict_keys d -> dict_set k v d = d ++ [(k, v)].
Proof.
  induction d as [|[k' v'] d IH]; simpl; [done|].
  intros [Hne Hin]%not_elem_of_cons. rewrite decide_False by done. by rewrite IH.
Qed.

Lemma dict_update_fresh {A} (d w : list (string * A)) :
  NoDup (dict_keys (d ++ w)) -> dict_update d w = d ++ w.
Proof.
  unfold dict_update. revert d. induction w as [|[k v] w IH]; intros d Hnd; simpl.
  - by rewrite app_nil_r.
  - rewrite dict_set_app.
    + rewrite IH; [by rewrite <- (assoc_L app)|]. by rewrite <- (assoc_L app).
    + unfold dict_keys in *. rewrite fmap_app in Hnd. csimpl in Hnd.
      apply NoDup_app in Hnd as (_ & Hd & _). intros Hin. apply (Hd _ Hin). left.
Qed.

Program Definition mem_set_pending (m : mem_driver) (w : list (string * value)) : mem_driver :=
  Mem (mem_disk (`m)) (dict_update [] w).
Next Obligation. intros [m (?&?&?)] w. simpl. split_and!; try done. apply dict_update_nil. Qed.

#[global] Instance mem_ops : DriverOps mem_driver := {|
  drv_get m k := match dict_get k (mem_pending (`m)) with Some v => v | None => disk_get (`m) k end;
  drv_set := mem_set;
  drv_apply_writes := mem_apply_writes;
  drv_pending_writes m := mem_pending (`m);
  drv_set_pending_writes := mem_set_pending;
  drv_value_from_disk m k := disk_get (`m) k;
  drv_items m := mem_disk (`m);
  drv_hard_apply ok m := if ok then (Ok tt, mem_commit m)
                         else (raise OSError "lmdb: write failed", mem_rollback m);
  drv_commit ok m := if ok then (Ok tt, mem_commit m)
                     else (raise OSError "lmdb: write failed", mem_rollback m);
  drv_rollback := mem_rollback;
  drv_flush_cache := mem_rollback;
  drv_flush_full _ := mem_empty;
  drv_detach m := (mem_pending (`m), mem_rollback m);
  drv_attach := mem_set_pending;
|}.

Lemma mem_commit_spec (d : mem_driver) q :
  disk_get (` (mem_commit d)) q =
    match dict_get q (mem_pending (`d)) with Some v => v | None => disk_get (`d) q end.
Proof.
  unfold disk_get. simpl. destruct d as [m (Hd & Hp & Hn)]. simpl. rewrite apply_writes_get by done.
  destruct (dict_get q (mem_pending m)) as [v|]; [|done]. by destruct v.
Qed.

#[global] Instance mem_laws : DriverLaws mem_driver.
Proof.
  split; try done.
  - intros d w Hw. simpl. by apply dict_update_fresh.
  - intros ok d d' H. unfold drv_hard_apply in H. simpl in H. destruct ok; [|done].
    injection H as <-. split; [done|]. apply mem_commit_spec.
  - intros ok d e d' H q. unfold drv_hard_apply in H. simpl in H. destruct ok; [done|].
    by injection H as _ <-.
  - intros ok d d' H. unfold drv_commit in H. simpl in H. destruct ok; [|done].
    injection H as <-. split; [done|]. apply mem_commit_spec.
  - intros ok d e d' H q. unfold drv_commit in H. simpl in H. destruct ok; [done|].
    by injection H as _ <-.
  - by intros [m (?&?&?)].
  - by intros [m (?&?&?)].
  - intros [m (Hd & Hp & Hn)] k v Hin. simpl in *. rewrite Forall_forall in Hn. by apply (Hn (k, v)).
  - intros d w Hw _. simpl. by apply dict_update_fresh.
Qed.
