(* ===== verification/Encoding.v ===== *)
(** * Transaction and state encodings (src/src/xian/utils/encoding.py)

    The hexadecimal JSON envelope of a transaction, the scanner that cuts the
    payload out of its text, and the canonical JSON used for ABCI responses and
    state-root leaves.  [hashlib.sha256] is a parameter of the definitions that
    use it. *)

From Stdlib Require Import Ascii.
From S2P Require Import Prelude PyValue Json.

Definition MIN_CANONICAL_JSON_INTEGER : Z := - 2 ^ 63.
Definition MAX_CANONICAL_JSON_INTEGER : Z := 2 ^ 64 - 1.
Definition MAX_CANONICAL_JSON_DEPTH : Z := 128.

Definition string_of_bytes (b : bytes) : string :=
  String.string_of_list_ascii (ascii_of_byte <$> b).

(** [b.decode("utf-8")]; [UnicodeDecodeError] is a [ValueError]. *)
Definition decode_utf8 (b : bytes) : result string :=
  match utf8_decode b with
  | Some _ => Ok (string_of_bytes b)
  | None => raise ValueError "invalid utf-8"
  end.

(** [bytes.hex()] / [binascii.hexlify]. *)
Definition hex_of_byte (b : Z) : chars := [hex_char (b / 16); hex_char (b mod 16)].
Definition bytes_hex (b : bytes) : string :=
  String.string_of_list_ascii (concat (hex_of_byte <$> b)).

(** [bytes.fromhex]: either case, ASCII white space allowed between bytes. *)
Definition is_ascii_space (c : ascii) : bool :=
  let b := byte_of_ascii c in ((9 <=? b) && (b <=? 13)) || (b =? 32).

Fixpoint fromhex_chars (s : chars) : option bytes :=
  match s with
  | [] => Some []
  | c :: s' =>
    if is_ascii_space c then fromhex_chars s'
    else match s' with
    | [] => None
    | d :: s'' =>
      hi ← hex_value c; lo ← hex_value d; r ← fromhex_chars s'';
      Some (hi * 16 + lo :: r)
    end
  end.

Definition fromhex (s : string) : result bytes :=
  match fromhex_chars (str_chars s) with
  | Some b => Ok b
  | None => raise ValueError "non-hexadecimal number found in fromhex() arg"
  end.

(** [_decimal_to_plain_string]: [format(value, "f")] without trailing zeros. *)
Definition digits_of (n : N) : chars := lit (py_int_str (Z.of_N n)).

Definition format_f (d : dec) : chars :=
  let ds := digits_of (dec_coef d) in
  let sign := if dec_neg d then lit "-" else [] in
  if 0 <=? dec_exp d then
    sign ++ (if (dec_coef d =? 0)%N then ds else ds ++ replicate (Z.to_nat (dec_exp d)) "0"%char)
  else
    let k := Z.to_nat (- dec_exp d) in
    let padded := replicate (S k - length ds) "0"%char ++ ds in
    sign ++ take (length padded - k) padded ++ lit "." ++ drop (length padded - k) padded.

Fixpoint rstrip_char (c : ascii) (s : chars) : chars :=
  match s with
  | [] => []
  | x :: s => match rstrip_char c s with
              | [] => if decide (x = c) then [] else [x]
              | r => x :: r
              end
  end.

Definition has_dot (s : chars) : bool := bool_decide ("."%char ∈ s).

Definition _decimal_to_plain_string (d : dec) : string :=
  let text := format_f d in
  let text := if has_dot text then rstrip_char "." (rstrip_char "0" text) else text in
  if decide (text = []) then "0" else
  if decide (text = lit "-0") then "0" else String.string_of_list_ascii text.

Example plain_1 : _decimal_to_plain_string (Dec false 1500 (-3)) = "1.5".
Proof. reflexivity. Qed.
Example plain_2 : _decimal_to_plain_string (Dec true 0 (-4)) = "0".
Proof. reflexivity. Qed.
Example plain_3 : _decimal_to_plain_string (Dec true 7 (-3)) = "-0.007".
Proof. reflexivity. Qed.

(** [canonical_json_value]. *)
Fixpoint canonical_json_value (depth : Z) (v : value) : result value :=
  if MAX_CANONICAL_JSON_DEPTH <? depth then raise ValueError "recursion limit exceeded"
  else match v with
  | VDict d =>
      items ← (fix go (d : list (string * value)) : result (list (string * value)) :=
                 match d with
                 | [] => Ok []
                 | (k, x) :: d =>
                     y ← canonical_json_value (depth + 1) x; ys ← go d; Ok ((k, y) :: ys)
                 end) d;
      Ok (VDict (sort_by fst items))
  | VList l =>
      items ← (fix go (l : list value) : result (list value) :=
                 match l with
                 | [] => Ok []
                 | x :: l => y ← canonical_json_value (depth + 1) x; ys ← go l; Ok (y :: ys)
                 end) l;
      Ok (VList items)
  | VInt z =>
      if (MIN_CANONICAL_JSON_INTEGER <=? z) && (z <=? MAX_CANONICAL_JSON_INTEGER) then Ok v
      else raise ValueError "Transaction bytes are not canonical"
  | VFloat _ => raise ValueError "Transaction bytes are not canonical"
  | _ => Ok v
  end.

Definition canonical_json_text (v : value) : result string :=
  c ← canonical_json_value 0 v; dumps false c.

(** [decode_transaction_bytes]. *)
Definition decode_transaction_bytes (raw : bytes) : result (value * string) :=
  tx_hex ← decode_utf8 raw;
  tx_decoded_bytes ← fromhex tx_hex;
  tx_str ← decode_utf8 tx_decoded_bytes;
  tx_json ← loads tx_str;
  canonical_tx_str ← canonical_json_text tx_json;
  if decide (tx_str = canonical_tx_str) then
    match py_item "payload" tx_json with
    | Ok payload => payload_str ← canonical_json_text payload; Ok (tx_json, payload_str)
    | Raise (Exn KeyError _) => raise ValueError "Invalid payload"
    | Raise e => Raise e
    end
  else raise ValueError "Transaction bytes are not canonical".

Definition encode_transaction_bytes (tx_str : string) : bytes :=
  encode_utf8 (bytes_hex (encode_utf8 tx_str)).

(** [_is_escaped]: an odd number of backslashes ends just before [index].  The
    scanner below keeps the characters before the index reversed. *)
Fixpoint slash_count (before : chars) : nat :=
  match before with
  | c :: before => if decide (c = "\"%char) then S (slash_count before) else 0
  | [] => 0
  end.

Definition _is_escaped (before : chars) : bool := Nat.odd (slash_count before).

(** [str.find]: the text before the first occurrence (reversed, in front of
    [before]) and the text from it on. *)
Fixpoint find_from (p before s : chars) : option (chars * chars) :=
  match strip_chars p s with
  | Some _ => Some (before, s)
  | None => match s with
            | c :: s' => find_from p (c :: before) s'
            | [] => None
            end
  end.

(** The loop of [extract_payload_string] from the opening brace on. *)
Fixpoint scan_braces (before s : chars) (brace_count : Z) (in_string : bool) : option chars :=
  match s with
  | [] => None
  | c :: s' =>
    let in_string := if decide (c = quote_char) then
                       (if _is_escaped before then in_string else negb in_string)
                     else in_string in
    let brace_count := if in_string then brace_count
                       else if decide (c = "{"%char) then brace_count + 1
                       else if decide (c = "}"%char) then brace_count - 1
                       else brace_count in
    if brace_count =? 0 then Some [c]
    else r ← scan_braces (c :: before) s' brace_count in_string; Some (c :: r)
  end.

Definition payload_marker : chars := quote_char :: lit "payload" ++ [quote_char; ":"%char].

(** [extract_payload_string] without the native scanner. *)
Definition extract_payload_string (json_str : string) : result string :=
  match find_from payload_marker [] (str_chars json_str) with
  | None => raise ValueError "No 'payload' found in the provided JSON string."
  | Some (before, rest) =>
    match find_from (lit "{") before rest with
    | None => raise ValueError "Malformed JSON: No opening brace for 'payload'."
    | Some (before, rest) =>
      match scan_braces before rest 0 false with
      | None => raise ValueError "Malformed JSON: No matching closing brace for 'payload'."
      | Some text => Ok (String.string_of_list_ascii text)
      end
    end
  end.

(** [convert_binary_to_hex]. *)
Definition convert_binary_to_hex (b : bytes) : string := bytes_hex b.

(** [hash_bytes]. *)
Definition hash_bytes (sha256 : bytes -> bytes) (b : bytes) : string := bytes_hex (sha256 b).

(** [str(b)] of a [bytes] object: its literal, with single quotes unless the
    bytes hold a single quote and no double quote. *)
Definition bytes_repr (b : bytes) : string :=
  let dq := bool_decide (39 ∈ b) && bool_decide (34 ∉ b) in
  let q := if dq then 34 else 39 in
  let esc := λ c : Z,
    if (c =? q) || (c =? 92) then lit "\" ++ [ascii_of_byte c]
    else if c =? 9 then lit "\t" else if c =? 10 then lit "\n" else if c =? 13 then lit "\r"
    else if (c <? 32) || (127 <=? c) then lit "\x" ++ hex_of_byte c
    else [ascii_of_byte c] in
  String.string_of_list_ascii
    (lit "b" ++ [ascii_of_byte q] ++ concat (esc <$> b) ++ [ascii_of_byte q]).

Definition decode_or_repr (b : bytes) : string :=
  match decode_utf8 b with Ok s => s | Raise _ => bytes_repr b end.

(** [stringify_decimals]. *)
Fixpoint stringify_decimals (v : value) : value :=
  match v with
  | VDec d => VStr (_decimal_to_plain_string d)
  | VDict d => VDict ((λ '(k, x), (k, stringify_decimals x)) <$> d)
  | VList l => VList (stringify_decimals <$> l)
  | VTime t => VStr t
  | VBytes b => VStr (decode_or_repr b)
  | _ => v
  end.

(** [normalize_for_abci_json] on the values of [PyValue]; wrapper sets and
    exception objects are not among them. *)
Fixpoint normalize_for_abci_json (v : value) : value :=
  match v with
  | VDec d => VStr (_decimal_to_plain_string d)
  | VTime t => VStr t
  | VBytes b => VStr (decode_or_repr b)
  | VDict d => VDict (sort_by fst ((λ '(k, x), (k, normalize_for_abci_json x)) <$> d))
  | VTuple l => VList (normalize_for_abci_json <$> l)
  | VList l => VList (normalize_for_abci_json <$> l)
  | _ => v
  end.

(** [encode_abci_json]. *)
Definition encode_abci_json (v : value) : result bytes :=
  encode_utf8 <$> dumps true (normalize_for_abci_json v).

(** It raises a [TypeError] or nothing. *)
Lemma encode_abci_json_raises v c m : encode_abci_json v = Raise (Exn c m) -> c = TypeError.
Proof.
  unfold encode_abci_json, dumps. intros Hx. destruct (json_dumps true (normalize_for_abci_json v)) as [cs|[c' m']] eqn:Ed; [done|].
  cbn in Hx. injection Hx as <- _. by eapply json_dumps_raises.
Qed.

(** ** Hexadecimal *)

Lemma hex_char_facts d :
  0 <= d < 16 -> hex_value (hex_char d) = Some d /\ is_ascii_space (hex_char d) = false
                 /\ byte_of_ascii (hex_char d) < 128.
Proof.
  intros Hd.
  assert (d = 0 \/ d = 1 \/ d = 2 \/ d = 3 \/ d = 4 \/ d = 5 \/ d = 6 \/ d = 7 \/ d = 8 \/ d = 9
     \/ d = 10 \/ d = 11 \/ d = 12 \/ d = 13 \/ d = 14 \/ d = 15) as H by lia.
  repeat (destruct H as [->|H]; [by vm_compute|]). subst d. by vm_compute.
Qed.

Lemma fromhex_chars_hex b :
  Forall is_byte b -> fromhex_chars (concat (hex_of_byte <$> b)) = Some b.
Proof.
  induction 1 as [|x b Hx Hb IH]; [done|]. unfold is_byte in Hx.
  destruct (hex_char_facts (x / 16)) as (H1 & H2 & _).
  { split; [apply Z.div_pos; lia | apply Z.div_lt_upper_bound; lia]. }
  destruct (hex_char_facts (x mod 16)) as (H3 & _ & _); [apply Z.mod_pos_bound; lia|].
  cbn. rewrite H2, H1, H3. cbn. rewrite IH. cbn. repeat f_equal.
  pose proof (Z.div_mod x 16). lia.
Qed.

Lemma str_chars_of_list l : str_chars (String.string_of_list_ascii l) = l.
Proof. apply String.list_ascii_of_string_of_list_ascii. Qed.

Lemma fromhex_bytes_hex b : Forall is_byte b -> fromhex (bytes_hex b) = Ok b.
Proof.
  intros Hb. unfold fromhex, bytes_hex. by rewrite str_chars_of_list, fromhex_chars_hex.
Qed.

Lemma string_of_bytes_encode s : string_of_bytes (encode_utf8 s) = s.
Proof.
  unfold string_of_bytes, encode_utf8. rewrite <- list_fmap_compose.
  rewrite (list_fmap_ext _ id) by (intros ? c _; apply ascii_of_byte_of_ascii).
  rewrite list_fmap_id. apply String.string_of_list_ascii_of_string.
Qed.

Lemma encode_string_of_bytes b : Forall is_byte b -> encode_utf8 (string_of_bytes b) = b.
Proof.
  intros Hb. unfold string_of_bytes, encode_utf8. rewrite str_chars_of_list.
  rewrite <- list_fmap_compose.
  induction Hb as [|x b Hx Hb IH]; [done|]. csimpl. rewrite IH. f_equal.
  by apply byte_of_ascii_of_byte.
Qed.

(** Text below 128 is its own UTF-8 encoding. *)
Lemma utf8_decode_ascii b : Forall (λ x, x < 128) b -> utf8_decode b = Some b.
Proof.
  induction 1 as [|x b Hx Hb IH]; [done|]. simpl.
  rewrite (proj2 (Z.ltb_lt x 128) Hx), IH. done.
Qed.

Lemma decode_utf8_hex b : Forall is_byte b -> decode_utf8 (encode_utf8 (bytes_hex b)) = Ok (bytes_hex b).
Proof.
  intros Hb. unfold decode_utf8. rewrite utf8_decode_ascii; [by rewrite string_of_bytes_encode|].
  unfold encode_utf8, bytes_hex. rewrite str_chars_of_list. apply Forall_fmap.
  induction Hb as [|x b Hx Hb IH]; [by constructor|]. unfold is_byte in Hx. cbn.
  constructor; [|constructor; [|done]]; simpl; apply hex_char_facts.
  - split; [apply Z.div_pos; lia | apply Z.div_lt_upper_bound; lia].
  - apply Z.mod_pos_bound; lia.
Qed.

(** A string the node holds is well-formed UTF-8. *)
Definition valid_str (s : string) : bool :=
  match utf8_decode (encode_utf8 s) with Some _ => true | None => false end.

Lemma decode_utf8_valid s : valid_str s = true -> decode_utf8 (encode_utf8 s) = Ok s.
Proof.
  unfold valid_str, decode_utf8. destruct (utf8_decode _); [|done].
  by rewrite string_of_bytes_encode.
Qed.

Lemma decode_utf8_inv b s : decode_utf8 b = Ok s -> s = string_of_bytes b.
Proof. unfold decode_utf8. destruct (utf8_decode b); unfold raise; congruence. Qed.

(** ** Canonical JSON *)

Lemma canonical_dict depth d :
  canonical_json_value depth (VDict d) =
    if MAX_CANONICAL_JSON_DEPTH <? depth then raise ValueError "recursion limit exceeded"
    else items ← mapM_py (λ kv, y ← canonical_json_value (depth + 1) kv.2; Ok (kv.1, y)) d;
         Ok (VDict (sort_by fst items)).
Proof.
  cbn [canonical_json_value]. destruct (_ <? _); [done|]. f_equal.
  induction d as [|[k x] d IH]; [done|]. cbn [mapM_py fst snd].
  destruct (canonical_json_value (depth + 1) x); cbn; [|done]. by rewrite IH.
Qed.

Lemma canonical_list depth l :
  canonical_json_value depth (VList l) =
    if MAX_CANONICAL_JSON_DEPTH <? depth then raise ValueError "recursion limit exceeded"
    else items ← mapM_py (canonical_json_value (depth + 1)) l; Ok (VList items).
Proof.
  cbn [canonical_json_value]. destruct (_ <? _); [done|]. f_equal.
  induction l as [|x l IH]; [done|]. cbn [mapM_py].
  destruct (canonical_json_value (depth + 1) x); cbn; [|done]. by rewrite IH.
Qed.

(** Every successful run respects the depth bound. *)
Lemma canonical_depth depth v w :
  canonical_json_value depth v = Ok w -> (MAX_CANONICAL_JSON_DEPTH <? depth) = false.
Proof. destruct v; cbn [canonical_json_value]; by destruct (_ <? _). Qed.

Lemma mapM_py_Forall2 {A B} (f : A -> result B) l ys :
  mapM_py f l = Ok ys <-> Forall2 (λ x y, f x = Ok y) l ys.
Proof.
  split.
  - revert ys; induction l as [|x l IH]; simpl; intros ys H; destruct_result; constructor; auto.
  - induction 1 as [|x y l ys H _ IH]; simpl; [done|]. by rewrite H, IH.
Qed.

Lemma mapM_py_perm {A B} (f : A -> result B) l1 l2 ys1 :
  l1 ≡ₚ l2 -> mapM_py f l1 = Ok ys1 -> exists ys2, mapM_py f l2 = Ok ys2 /\ ys1 ≡ₚ ys2.
Proof.
  intros HP. revert ys1. induction HP as [|x l1 l2 HP IH|x y l|l1 l2 l3 _ IH1 _ IH2]; intros ys1 H.
  - exists ys1. done.
  - cbn [mapM_py] in *. destruct_result. destruct (IH _ E0) as (ys2 & E2 & HP2).
    rewrite E. cbn. rewrite E2. cbn. eexists. split; [done|]. by rewrite HP2.
  - cbn [mapM_py] in *. destruct_result. rewrite E1, E, E2. cbn. eexists. split; [done|]. apply Permutation_swap.
  - destruct (IH1 _ H) as (ys2 & E2 & HP2). destruct (IH2 _ E2) as (ys3 & E3 & HP3).
    exists ys3. split; [done|]. by etrans.
Qed.

Lemma sort_by_sorted_id {A} (key : A -> string) l :
  StronglySorted (key_le key) l -> sort_by key l = l.
Proof.
  induction 1 as [|x l Hl IH Hx]; simpl; [done|]. rewrite IH.
  destruct l as [|y l]; simpl; [done|]. rewrite decide_False; [done|].
  apply Forall_cons in Hx as [Hxy _]. unfold key_le in Hxy.
  intros [Hyx Hne]%str_lt_le. apply Hne. by apply (anti_symm String.le).
Qed.

(** A less deep position accepts whatever a deeper one accepts. *)
Lemma canonical_shallower depth depth' v w :
  depth' <= depth -> canonical_json_value depth v = Ok w -> canonical_json_value depth' v = Ok w.
Proof.
  revert depth depth' w.
  induction v as [|b|z|s|r|d|t|b|l IH|l IH|d IH] using value_ind; intros depth depth' w Hle H;
    pose proof (canonical_depth _ _ _ H) as Hd;
    assert (Hd' : (MAX_CANONICAL_JSON_DEPTH <? depth') = false) by lia.
  all: try (cbn [canonical_json_value] in *; rewrite Hd in H; rewrite Hd'; exact H).
  - rewrite canonical_list in *. rewrite Hd in H. rewrite Hd'. destruct_result.
    apply mapM_py_Forall2 in E. rewrite (proj2 (mapM_py_Forall2 _ _ a)); [done|].
    clear Hd Hd'. induction E as [|x y l ys Hx _ IHl]; [constructor|].
    apply Forall_cons in IH as [IHx IH]. constructor; [|by apply IHl].
    eapply IHx; [|exact Hx]; lia.
  - rewrite canonical_dict in *. rewrite Hd in H. rewrite Hd'. destruct_result.
    apply mapM_py_Forall2 in E. rewrite (proj2 (mapM_py_Forall2 _ _ a)); [done|].
    clear Hd Hd'. induction E as [|x y l ys Hx _ IHl]; [constructor|].
    apply Forall_cons in IH as [IHx IH]. constructor; [|by apply IHl].
    destruct_result. erewrite IHx; [done| |exact E]; lia.
Qed.

Lemma canonical_fixed depth v w :
  canonical_json_value depth v = Ok w -> canonical_json_value depth w = Ok w.
Proof.
  revert depth w.
  induction v as [|b|z|s|r|d|t|b|l IH|l IH|d IH] using value_ind; intros depth w H;
    pose proof (canonical_depth _ _ _ H) as Hd.
  all: try (cbn [canonical_json_value] in H; rewrite Hd in H; destruct_result;
            cbn [canonical_json_value]; by rewrite Hd).
  - cbn [canonical_json_value] in H. rewrite Hd in H. destruct (_ && _) eqn:Hz; destruct_result.
    cbn [canonical_json_value]. by rewrite Hd, Hz.
  - rewrite canonical_list, Hd in H. destruct_result. rewrite canonical_list, Hd.
    apply mapM_py_Forall2 in E. rewrite (proj2 (mapM_py_Forall2 _ _ a)); [done|].
    induction E as [|x y l ys Hx _ IHl]; [constructor|].
    apply Forall_cons in IH as [IHx IH]. constructor; [by eapply IHx | by apply IHl].
  - rewrite canonical_dict, Hd in H. destruct_result. rewrite canonical_dict, Hd.
    rewrite (proj2 (mapM_py_Forall2 _ _ (sort_by fst a))).
    { cbn. by rewrite sort_by_sorted_id by apply sort_by_sorted. }
    apply mapM_py_Forall2 in E.
    assert (Hfix : Forall (λ kv, canonical_json_value (depth + 1) kv.2 = Ok kv.2) a).
    { induction E as [|x y l ys Hx _ IHl]; [constructor|]. apply Forall_cons in IH as [IHx IH].
      destruct_result. constructor; [by eapply IHx | by apply IHl]. }
    rewrite <- (sort_by_perm fst a) in Hfix.
    induction Hfix as [|[k x] ys Hx _ IHf]; constructor; [|done]. simpl in *. by rewrite Hx.
Qed.

(** Equality of JSON values up to the order of the entries of their dicts. *)
Unset Elimination Schemes.
Inductive value_sim : value -> value -> Prop :=
  | sim_refl v : value_sim v v
  | sim_list l1 l2 : Forall2 value_sim l1 l2 -> value_sim (VList l1) (VList l2)
  | sim_dict d1 d d2 :
      d1 ≡ₚ d -> Forall2 (λ a b, a.1 = b.1 /\ value_sim a.2 b.2) d d2 ->
      value_sim (VDict d1) (VDict d2).
Set Elimination Schemes.

(** Every dict inside has distinct keys, as Python's dicts do. *)
Fixpoint keys_distinct (v : value) : bool :=
  match v with
  | VList l | VTuple l => forallb keys_distinct l
  | VDict d => bool_decide (NoDup (dict_keys d)) && forallb (λ kv, keys_distinct kv.2) d
  | _ => true
  end.

Lemma keys_distinct_dict d :
  keys_distinct (VDict d) = true <->
  NoDup (dict_keys d) /\ Forall (λ kv, keys_distinct kv.2 = true) d.
Proof.
  cbn [keys_distinct]. rewrite andb_true_iff, bool_decide_eq_true, forallb_forall, Forall_forall.
  by setoid_rewrite list_elem_of_In.
Qed.

Lemma keys_distinct_list l :
  keys_distinct (VList l) = true <-> Forall (λ v, keys_distinct v = true) l.
Proof.
  cbn [keys_distinct]. rewrite forallb_forall, Forall_forall. by setoid_rewrite list_elem_of_In.
Qed.

Lemma canonical_keys depth d items :
  mapM_py (λ kv : string * value, y ← canonical_json_value depth kv.2; Ok (kv.1, y)) d = Ok items ->
  items.*1 = d.*1.
Proof.
  intros H%mapM_py_Forall2. induction H as [|x y d items Hx _ IH]; [done|].
  destruct_result. csimpl. by rewrite IH.
Qed.

Lemma canonical_sim_ok v1 : forall depth v2 w,
  keys_distinct v1 = true -> value_sim v1 v2 ->
  canonical_json_value depth v1 = Ok w -> canonical_json_value depth v2 = Ok w.
Proof.
  induction v1 as [|b|z|s|r|d|t|b|l IH|l IH|d IH] using value_ind;
    intros depth v2 w Hwf Hsim H; inversion Hsim as [|? l2 Hl|? d' d2 HP Hd2]; subst; try done;
    pose proof (canonical_depth _ _ _ H) as Hd.
  - rewrite canonical_list, Hd in *. destruct_result. apply mapM_py_Forall2 in E.
    apply keys_distinct_list in Hwf.
    rewrite (proj2 (mapM_py_Forall2 _ l2 a)); [done|]. clear Hsim Hd. revert l2 Hl.
    induction E as [|x y l ys Hx _ IHl]; intros l2 Hl; inversion Hl; subst; constructor;
      apply Forall_cons in IH as [IHx IH]; apply Forall_cons in Hwf as [? ?]; eauto.
  - rewrite canonical_dict, Hd in *. destruct_result.
    apply keys_distinct_dict in Hwf as [Hnd Hwf].
    destruct (mapM_py_perm _ _ _ _ HP E) as (a' & E' & HPa).
    rewrite HP in IH, Hwf.
    assert (E2 : mapM_py (λ kv, y ← canonical_json_value (depth + 1) kv.2; Ok (kv.1, y)) d2 = Ok a').
    { apply mapM_py_Forall2 in E'. apply mapM_py_Forall2. clear Hsim Hd HP HPa E. revert d2 Hd2.
      induction E' as [|x y l ys Hx _ IHl]; intros d2 Hl; inversion Hl as [|? kv2 ? ? [Hk Hs]]; subst;
        constructor; apply Forall_cons in IH as [IHx IH]; apply Forall_cons in Hwf as [? ?]; eauto.
      destruct_result. erewrite IHx by eauto. cbn. by rewrite Hk. }
    rewrite E2. cbn. do 2 f_equal. symmetry. apply sort_by_perm_eq; [|done].
    change (fst <$> a) with (a.*1). by rewrite (canonical_keys _ _ _ E).
Qed.

(** [canonical_json_value] only reorders: its result is the value it was given,
    up to the order of dict entries. *)
Lemma canonical_preserves v : forall depth w,
  canonical_json_value depth v = Ok w -> value_sim v w.
Proof.
  induction v as [|b|z|s|r|d|t|b|l IH|l IH|d IH] using value_ind; intros depth w H;
    pose proof (canonical_depth _ _ _ H) as Hd.
  all: try solve [cbn [canonical_json_value] in H; rewrite Hd in H; destruct_result; apply sim_refl].
  - cbn [canonical_json_value] in H. rewrite Hd in H. destruct (_ && _); destruct_result. constructor.
  - rewrite canonical_list, Hd in H. destruct_result. apply mapM_py_Forall2 in E. constructor.
    induction E as [|x y l ys Hx _ IHl]; [constructor|].
    apply Forall_cons in IH as [IHx IH]. constructor; eauto.
  - rewrite canonical_dict, Hd in H. destruct_result. apply mapM_py_Forall2 in E.
    assert (HF : Forall2 (λ x y : string * value, x.1 = y.1 /\ value_sim x.2 y.2) d a).
    { clear Hd. induction E as [|x y l ys Hx _ IHl]; [constructor|].
      apply Forall_cons in IH as [IHx IH]. destruct_result. constructor; eauto. }
    destruct (Permutation_Forall2 (symmetry (sort_by_perm fst a)) (proj2 (Forall2_flip _ _ _) HF))
      as (d' & HP & HF').
    econstructor; [exact HP|]. by apply Forall2_flip in HF'.
Qed.

Lemma canonical_plain v : forall depth w,
  canonical_json_value depth v = Ok w -> json_plain v = true -> json_plain w = true.
Proof.
  induction v as [|b|z|s|r|d|t|b|l IH|l IH|d IH] using value_ind; intros depth w H Hpl;
    pose proof (canonical_depth _ _ _ H) as Hd.
  all: try (cbn [canonical_json_value] in H; rewrite Hd in H; by destruct_result).
  - cbn [canonical_json_value] in H. rewrite Hd in H. by destruct (_ && _); destruct_result.
  - rewrite canonical_list, Hd in H. destruct_result. apply mapM_py_Forall2 in E.
    cbn [json_plain] in *. clear Hd. induction E as [|x y l ys Hx _ IHl]; [done|].
    apply Forall_cons in IH as [IHx IH]. cbn [forallb] in *.
    apply andb_true_iff in Hpl as [? ?]. apply andb_true_iff. eauto.
  - rewrite canonical_dict, Hd in H. destruct_result. pose proof (canonical_keys _ _ _ E) as Hk.
    apply mapM_py_Forall2 in E. cbn [json_plain] in *.
    apply andb_true_iff in Hpl as [Hnd Hpl]. apply bool_decide_eq_true in Hnd.
    apply andb_true_iff. split.
    { apply bool_decide_eq_true. unfold dict_keys in *. rewrite (sort_by_perm fst a).
      by rewrite Hk. }
    rewrite forallb_forall. setoid_rewrite <- list_elem_of_In. apply Forall_forall.
    rewrite (sort_by_perm fst a). clear Hd Hk Hnd.
    induction E as [|x y l ys Hx _ IHl]; [constructor|].
    apply Forall_cons in IH as [IHx IH]. cbn [forallb] in Hpl.
    apply andb_true_iff in Hpl as [? ?]. destruct_result. constructor; eauto.
Qed.

(** [canonical_json_value] is a canonical form: it changes nothing but the
    order of dict entries, it is idempotent, and two values with distinct keys that
    differ only in the order of their dict entries have the same canonical form. *)
Theorem canonical_json_value_normal_form depth v1 v2 w :
  keys_distinct v1 = true -> value_sim v1 v2 -> canonical_json_value depth v1 = Ok w ->
  canonical_json_value depth v2 = Ok w /\ canonical_json_value depth w = Ok w /\ value_sim v1 w.
Proof.
  intros Hwf Hsim H. split; [by eapply canonical_sim_ok|].
  split; [by eapply canonical_fixed | by eapply canonical_preserves].
Qed.

Lemma canonical_json_value_normal_form_witness :
  canonical_json_value 0 (VDict [("a", VInt 1); ("b", VList [VNone])])
  = Ok (VDict [("a", VInt 1); ("b", VList [VNone])]).
Proof.
  apply (canonical_json_value_normal_form 0 (VDict [("b", VList [VNone]); ("a", VInt 1)])).
  - vm_compute. reflexivity.
  - eapply sim_dict; [apply Permutation_swap|]. repeat constructor.
  - vm_compute. reflexivity.
Defined.

(** The entry [k] of a canonicalised dict is the canonicalised entry. *)
Lemma canonical_item depth v w k p :
  json_plain v = true -> canonical_json_value depth v = Ok w -> py_item k v = Ok p ->
  exists q, canonical_json_value (depth + 1) p = Ok q /\ py_item k w = Ok q.
Proof.
  intros Hpl H Hk. destruct v as [| | | | | | | | | |d]; try discriminate Hk.
  pose proof (canonical_depth _ _ _ H) as Hd. rewrite canonical_dict, Hd in H. destruct_result.
  pose proof (canonical_keys _ _ _ E) as Hkeys. cbn [py_item] in *.
  destruct (dict_get k d) as [p'|] eqn:Eg; [|done]. apply Ok_inj in Hk as ->.
  apply dict_get_Some_elem in Eg. apply mapM_py_Forall2 in E.
  apply list_elem_of_lookup in Eg as [i Hi].
  destruct (Forall2_lookup_l _ _ _ _ _ E Hi) as ([k' q] & Hq & Hf). destruct_result. simplify_eq.
  exists q. split; [done|]. erewrite dict_get_elem; [done| |].
  - unfold dict_keys. rewrite (sort_by_perm fst a), Hkeys. cbn in Hpl.
    apply andb_true_iff in Hpl as [Hpl _]. by apply bool_decide_eq_true in Hpl.
  - rewrite (sort_by_perm fst a). by eapply list_elem_of_lookup_2.
Qed.

Lemma dumps_total m v : json_plain v = true -> exists s, dumps m v = Ok s.
Proof.
  intros Hpl. cut (exists s, json_dumps m v = Ok s).
  { intros [s Hs]. unfold dumps. rewrite Hs. eexists. reflexivity. }
  induction v as [|b|z|s|r|d|t|b|l IH|l IH|d IH] using value_ind; try done.
  all: try solve [eexists; reflexivity].
  - destruct b; eexists; reflexivity.
  - rewrite json_dumps_list. cbn in Hpl. cut (exists ss, mapM_py (json_dumps m) l = Ok ss).
    { intros [ss ->]. eexists. reflexivity. }
    induction l as [|x l IHl]; [by eexists|]. cbn in Hpl. apply andb_true_iff in Hpl as [Hx Hl].
    apply Forall_cons in IH as [IHx IH]. destruct (IHx Hx) as [s Es], (IHl IH Hl) as [ss Ess].
    simpl. rewrite Es, Ess. by eexists.
  - rewrite json_dumps_dict. cbn in Hpl. apply andb_true_iff in Hpl as [_ Hpl].
    cut (exists ss, mapM_py (dump_member m) d = Ok ss).
    { intros [ss ->]. eexists. reflexivity. }
    induction d as [|[k x] d IHd]; [by eexists|]. cbn in Hpl. apply andb_true_iff in Hpl as [Hx Hl].
    apply Forall_cons in IH as [IHx IH]. destruct (IHx Hx) as [s Es], (IHd IH Hl) as [ss Ess].
    cbn [mapM_py]. rewrite Ess. unfold dump_member. cbn [fst snd] in *. rewrite Es. by eexists.
Qed.

(** What a wallet submits is what the node decodes: the canonical text of a
    transaction that carries a payload, encoded by [encode_transaction_bytes], is accepted by
    [decode_transaction_bytes], which returns the canonical transaction and the
    canonical text of its payload, the text the signature is checked over. *)
Theorem decode_encode_transaction v w p text :
  json_plain v = true -> canonical_json_value 0 v = Ok w -> canonical_json_text v = Ok text ->
  valid_str text = true -> py_item "payload" v = Ok p ->
  exists ptext, canonical_json_text p = Ok ptext /\
    decode_transaction_bytes (encode_transaction_bytes text) = Ok (w, ptext).
Proof.
  intros Hpl Hw Ht Hv Hp. unfold canonical_json_text in Ht. rewrite Hw in Ht. cbn in Ht.
  pose proof (canonical_plain _ _ _ Hw Hpl) as Hplw.
  destruct (canonical_item _ _ _ _ _ Hpl Hw Hp) as (q & Hq & Hpw).
  assert (Hq0 : canonical_json_value 0 p = Ok q) by (by eapply canonical_shallower; [|exact Hq]).
  assert (Hplp : json_plain p = true).
  { destruct v; try discriminate. cbn in Hp, Hpl. destruct (dict_get _ _) eqn:Eg; [|done].
    apply Ok_inj in Hp as ->. apply andb_true_iff in Hpl as [_ Hpl].
    rewrite forallb_forall in Hpl. apply (Hpl ("payload", p)). apply list_elem_of_In.
    by apply dict_get_Some_elem in Eg. }
  destruct (dumps_total false q (canonical_plain _ _ _ Hq0 Hplp)) as [ptext Hpt].
  exists ptext. unfold canonical_json_text. split; [by rewrite Hq0|].
  unfold decode_transaction_bytes, encode_transaction_bytes.
  rewrite decode_utf8_hex by apply encode_utf8_bytes. bind_step.
  rewrite fromhex_bytes_hex by apply encode_utf8_bytes. bind_step.
  rewrite decode_utf8_valid by done. bind_step. rewrite (loads_dumps _ _ Hplw Ht). bind_step.
  unfold canonical_json_text. rewrite (canonical_fixed _ _ _ Hw). bind_step. rewrite Ht. bind_step.
  rewrite decide_True by done. rewrite Hpw, (canonical_fixed _ _ _ Hq0). bind_step. by rewrite Hpt.
Qed.

Lemma decode_encode_transaction_witness :
  exists ptext, canonical_json_text (VDict [("x", VInt 3)]) = Ok ptext /\
    decode_transaction_bytes
      (encode_transaction_bytes
         (match canonical_json_text (VDict [("payload", VDict [("x", VInt 3)]); ("m", VNone)]) with
          | Ok t => t | Raise _ => "" end))
    = Ok (VDict [("m", VNone); ("payload", VDict [("x", VInt 3)])], ptext).
Proof.
  apply (decode_encode_transaction (VDict [("payload", VDict [("x", VInt 3)]); ("m", VNone)]));
    vm_compute; reflexivity.
Defined.

Lemma decode_transaction_inv raw tx p :
  decode_transaction_bytes raw = Ok (tx, p) ->
  exists b payload, fromhex (string_of_bytes raw) = Ok b /\ loads (string_of_bytes b) = Ok tx /\
    canonical_json_text tx = Ok (string_of_bytes b) /\
    py_item "payload" tx = Ok payload /\ canonical_json_text payload = Ok p.
Proof.
  intros H. unfold decode_transaction_bytes in H. destruct_result.
  apply decode_utf8_inv in E as ->. apply decode_utf8_inv in E1 as ->.
  case_decide as Hc; [|done].
  destruct (py_item _ _) as [payload|[[] ?]] eqn:Ep; try discriminate H.
  destruct_result. simplify_eq. by exists a0, payload.
Qed.

Lemma fromhex_chars_bytes n s b :
  (length s <= n)%nat -> fromhex_chars s = Some b -> Forall is_byte b.
Proof.
  revert s b. induction n as [|n IH]; intros [|c s] b Hn H; cbn in *; simplify_eq; try done; try lia.
  destruct (is_ascii_space c); [eapply IH; [|done]; lia|].
  destruct s as [|d s]; [done|].
  assert (Hh : forall c z, hex_value c = Some z -> 0 <= z < 16).
  { intros c' z. clear. unfold hex_value. intros Hz. repeat case_match; simplify_eq; lia. }
  destruct (hex_value c) eqn:E1; cbn in H; [|done].
  destruct (hex_value d) eqn:E2; cbn in H; [|done].
  destruct (fromhex_chars s) eqn:E3; cbn in H; [|done]. simplify_eq.
  apply Hh in E1, E2. constructor; [unfold is_byte; lia|]. eapply IH; [|done]. cbn in Hn; lia.
Qed.

Lemma fromhex_bytes s b : fromhex s = Ok b -> Forall is_byte b.
Proof.
  unfold fromhex. destruct (fromhex_chars _) eqn:E; intros; destruct_result.
  by eapply fromhex_chars_bytes in E.
Qed.

(** A decoded transaction determines the bytes it was decoded from, up to
    the spelling of the hexadecimal envelope: two raw transactions that decode to the
    same JSON carry the same bytes and the same payload text. *)
Theorem decode_transaction_unique raw1 raw2 tx p1 p2 :
  decode_transaction_bytes raw1 = Ok (tx, p1) -> decode_transaction_bytes raw2 = Ok (tx, p2) ->
  p1 = p2 /\ fromhex (string_of_bytes raw1) = fromhex (string_of_bytes raw2).
Proof.
  intros (b1 & q1 & F1 & _ & T1 & I1 & P1)%decode_transaction_inv
         (b2 & q2 & F2 & _ & T2 & I2 & P2)%decode_transaction_inv.
  split; [congruence|]. rewrite F1, F2. f_equal.
  assert (Hs : string_of_bytes b1 = string_of_bytes b2) by congruence.
  rewrite <- (encode_string_of_bytes b1), Hs by (by eapply fromhex_bytes).
  apply encode_string_of_bytes. by eapply fromhex_bytes.
Qed.

Definition sample_tx : value := VDict [("payload", VDict [("function", VStr "k")])].
Definition sample_raw : bytes :=
  match canonical_json_text sample_tx with
  | Ok t => encode_transaction_bytes t | Raise _ => [] end.

Lemma decode_transaction_unique_witness :
  fromhex (string_of_bytes sample_raw) = fromhex (string_of_bytes (sample_raw ++ [32])).
Proof.
  eapply (decode_transaction_unique sample_raw (sample_raw ++ [32]) sample_tx);
    vm_compute; reflexivity.
Defined.

(** One more ASCII character at the end keeps UTF-8 text valid. *)
Lemma utf8_decode_snoc n b l :
  utf8_decode b = Some l -> (length b <= n)%nat -> utf8_decode (b ++ [32]) = Some (l ++ [32]).
Proof.
  revert b l. induction n as [|n IH]; intros [|b0 r0] l H Hn; cbn [utf8_decode] in *;
    simplify_eq; try done; try (cbn in Hn; lia).
  cbn [app utf8_decode length] in *.
  destruct (b0 <? 128).
  { destruct (utf8_decode r0) eqn:E; cbn in H; simplify_eq. rewrite (IH _ _ E) by lia. done. }
  destruct r0 as [|b1 r1]; [done|]. cbn [app length] in *. destruct (negb _); [done|].
  destruct (_ && _).
  { destruct (utf8_decode r1) eqn:E; cbn in H; simplify_eq. rewrite (IH _ _ E) by lia. done. }
  destruct r1 as [|b2 r2]; [done|]. cbn [app length] in *. destruct (negb _); [done|].
  destruct (_ && _).
  { destruct (_ || _); [done|].
    destruct (utf8_decode r2) eqn:E; cbn in H; simplify_eq. rewrite (IH _ _ E) by lia. done. }
  destruct r2 as [|b3 r3]; [done|]. cbn [app length] in *. destruct (negb _); [done|].
  destruct (_ && _); [|done]. destruct (_ || _); [done|].
  destruct (utf8_decode r3) eqn:E; cbn in H; simplify_eq. rewrite (IH _ _ E) by lia. done.
Qed.

Lemma fromhex_chars_snoc n s b :
  fromhex_chars s = Some b -> (length s <= n)%nat -> fromhex_chars (s ++ [" "%char]) = Some b.
Proof.
  revert s b. induction n as [|n IH]; intros [|c s] b H Hn; cbn [fromhex_chars length app] in *;
    simplify_eq; try done; try lia.
  destruct (is_ascii_space c); [apply IH; [done|lia]|].
  destruct s as [|d s]; [done|]. cbn [app length] in *.
  destruct (hex_value c); [|done]. destruct (hex_value d); [|done]. cbn in H |- *.
  destruct (fromhex_chars s) eqn:E; [|done]. by rewrite (IH _ _ E) by lia.
Qed.

(** The canonicity check covers the JSON text and not its envelope: a raw
    transaction followed by a space decodes to the same transaction and payload, so
    one signed transaction has unboundedly many encodings, each with its own hash. *)
Theorem decode_transaction_malleable raw tx p :
  decode_transaction_bytes raw = Ok (tx, p) ->
  decode_transaction_bytes (raw ++ [32]) = Ok (tx, p).
Proof.
  unfold decode_transaction_bytes. intros H. destruct_result.
  assert (E' : decode_utf8 (raw ++ [32]) = Ok (String.append a " ")).
  { unfold decode_utf8 in *. destruct (utf8_decode raw) eqn:Eu; [|done]. apply Ok_inj in E as <-.
    rewrite (utf8_decode_snoc (length raw) _ _ Eu) by done. f_equal.
    unfold string_of_bytes. rewrite fmap_app. generalize (ascii_of_byte <$> raw).
    intros cs. induction cs as [|c cs IH]; [done|]. cbn in *. by rewrite IH. }
  rewrite E'. bind_step.
  replace (fromhex (String.append a " ")) with (Ok a0).
  { bind_step. rewrite E1. bind_step. rewrite E2. bind_step. by rewrite E3. }
  unfold fromhex in *. unfold str_chars in *.
  replace (String.list_ascii_of_string (String.append a " "))
    with (String.list_ascii_of_string a ++ [" "%char]).
  2: { clear. induction a as [|c a IH]; [done|]. cbn. by rewrite IH. }
  destruct (fromhex_chars (String.list_ascii_of_string a)) eqn:Ef; [|done].
  by rewrite (fromhex_chars_snoc _ _ _ Ef (le_n _)).
Qed.

Lemma decode_transaction_malleable_witness :
  sample_raw <> sample_raw ++ [32] /\
  exists p, decode_transaction_bytes (sample_raw ++ [32]) = Ok (sample_tx, p).
Proof.
  split; [by vm_compute|]. eexists. apply decode_transaction_malleable. vm_compute. reflexivity.
Defined.

(** ** Decoded transactions are plain and canonical *)

Lemma canonical_wf_plain v : forall depth w,
  canonical_json_value depth v = Ok w -> json_wf v = true -> json_plain v = true.
Proof.
  induction v as [|b|z|s|r|d|t|b|l IH|l IH|d IH] using value_ind; intros depth w H Hwf; try done;
    pose proof (canonical_depth _ _ _ H) as Hd.
  - cbn [canonical_json_value] in H. by rewrite Hd in H.
  - rewrite canonical_list, Hd in H. destruct_result. apply mapM_py_Forall2 in E.
    cbn [json_wf json_plain] in *. clear Hd. induction E as [|x y l ys Hx _ IHl]; [done|].
    apply Forall_cons in IH as [IHx IH]. cbn [forallb] in *.
    apply andb_true_iff in Hwf as [? ?]. apply andb_true_iff. eauto.
  - rewrite canonical_dict, Hd in H. destruct_result. apply mapM_py_Forall2 in E.
    cbn [json_wf json_plain] in *. apply andb_true_iff in Hwf as [Hnd Hwf].
    apply andb_true_iff. split; [done|]. clear Hd Hnd.
    induction E as [|x y l ys Hx _ IHl]; [done|].
    apply Forall_cons in IH as [IHx IH]. cbn [forallb] in *.
    apply andb_true_iff in Hwf as [? ?]. destruct_result. apply andb_true_iff. eauto.
Qed.

Lemma decode_transaction_canonical raw tx p :
  decode_transaction_bytes raw = Ok (tx, p) ->
  json_plain tx = true /\ canonical_json_value 0 tx = Ok tx.
Proof.
  intros (b & payload & _ & Hl & Ht & _ & _)%decode_transaction_inv.
  unfold canonical_json_text in Ht. destruct (canonical_json_value 0 tx) as [w|] eqn:Ew; [|done].
  cbn in Ht. pose proof (canonical_wf_plain _ _ _ Ew (loads_wf _ _ Hl)) as Hpl.
  split; [done|]. pose proof (loads_dumps w _ (canonical_plain _ _ _ Ew Hpl) Ht) as Hl'. congruence.
Qed.

(** ** Printable documents

    On printable ASCII the two modes of [json.dumps] agree, so [json.loads] inverts
    the escaping mode as well. *)

Definition printable (c : Ascii.ascii) : bool := (32 <=? byte_of_ascii c) && (byte_of_ascii c <=? 126).
Definition str_printable (s : string) : bool := forallb printable (str_chars s).

Fixpoint all_printable (v : value) : bool :=
  match v with
  | VStr s => str_printable s
  | VList l => forallb all_printable l
  | VDict d => forallb (λ kv, str_printable kv.1 && all_printable kv.2) d
  | VNone | VBool _ | VInt _ => true
  | _ => false
  end.

Lemma printable_bytes s : str_printable s = true -> Forall (λ x, x < 128) (encode_utf8 s).
Proof.
  unfold str_printable, encode_utf8. intros H. apply Forall_fmap, Forall_forall. intros c Hc.
  rewrite forallb_forall in H. apply list_elem_of_In, H in Hc. unfold printable in Hc. simpl. lia.
Qed.

Lemma hex_char_printable d : 0 <= d < 16 -> printable (hex_char d) = true.
Proof.
  intros Hd. assert (Hin : d ∈ seqZ 0 16) by (apply elem_of_seqZ; lia). clear Hd.
  cbn in Hin. repeat (apply elem_of_cons in Hin as [->|Hin]; [reflexivity|]). by apply not_elem_of_nil in Hin.
Qed.

Lemma u_escape_printable cp : Forall (λ x, printable x = true) (u_escape cp).
Proof.
  unfold u_escape. apply Forall_app. split; [by repeat constructor|].
  repeat first [apply Forall_nil_2 | apply Forall_cons_2]; apply hex_char_printable, Z.mod_pos_bound; lia.
Qed.

(** Escaped text is printable, whatever it stands for. *)
Lemma escape_code_point_printable cp : Forall (λ x, printable x = true) (escape_code_point cp).
Proof.
  unfold escape_code_point, short_escape.
  repeat match goal with |- context [if ?c =? ?k then _ else _] => destruct (c =? k); [by repeat constructor|] end.
  destruct (_ && _) eqn:Ep.
  - constructor; [|constructor]. unfold printable. rewrite byte_of_ascii_of_byte by (unfold is_byte; lia). lia.
  - destruct (_ <? _); [apply u_escape_printable|]. apply Forall_app. split; apply u_escape_printable.
Qed.

Lemma json_string_printable s : Forall (λ x, printable x = true) (json_string true s).
Proof.
  unfold json_string. constructor; [done|]. apply Forall_app. split; [|by repeat constructor].
  apply Forall_concat, Forall_fmap, Forall_true. intros cp. apply escape_code_point_printable.
Qed.

Lemma digits_printable l : all_digits l -> Forall (λ x, printable x = true) l.
Proof.
  intros Hl. eapply Forall_impl; [exact Hl|]. intros c Hc. unfold is_digit in Hc.
  unfold printable. lia.
Qed.

Lemma py_int_str_printable z : Forall (λ x, printable x = true) (lit (py_int_str z)).
Proof.
  unfold lit, py_int_str. destruct z as [|p|p]; [by repeat constructor| |];
    destruct (pos_digits p) as (c & ds & E & Hd & _); simpl.
  - rewrite E. by apply digits_printable.
  - constructor; [done|]. rewrite E. by apply digits_printable.
Qed.

Lemma join_printable l :
  Forall (Forall (λ x, printable x = true)) l -> Forall (λ x, printable x = true) (join_chars l).
Proof.
  induction 1 as [|x l Hx Hl IH]; [done|]. destruct l as [|y l]; [done|].
  cbn [join_chars]. apply Forall_app. split; [done|]. by constructor.
Qed.

Lemma json_dumps_printable v cs :
  json_plain v = true -> json_dumps true v = Ok cs -> Forall (λ x, printable x = true) cs.
Proof.
  revert cs. induction v as [| [] | | | | | | |l IH| |d IH] using value_ind; intros cs Hp Hd; try done;
    try (injection Hd as <-; first [by repeat constructor | apply py_int_str_printable | apply json_string_printable]).
  - rewrite json_dumps_list in Hd. simpl in Hp. destruct_result.
    apply Forall_app. split; [by repeat constructor|]. apply Forall_app. split; [|by repeat constructor]. apply join_printable.
    revert a E. induction IH as [|x l Hx Hl IHl]; intros a E; [by injection E as <-|].
    simpl in Hp. apply andb_true_iff in Hp as [Hp1 Hp2]. cbn [mapM_py] in E. destruct_result. by constructor; auto.
  - rewrite json_dumps_dict in Hd. simpl in Hp. apply andb_true_iff in Hp as [_ Hp]. destruct_result.
    apply Forall_app. split; [by repeat constructor|]. apply Forall_app. split; [|by repeat constructor]. apply join_printable.
    revert a E. induction IH as [|[k x] d Hx Hd IHd]; intros a E; [by injection E as <-|].
    simpl in Hp. apply andb_true_iff in Hp as [Hp1 Hp2]. cbn [mapM_py] in E. destruct_result. constructor; [|by auto].
    match goal with Hm : dump_member true (k, x) = Ok _ |- _ => apply dump_member_inv in Hm as (t & Ht & ->) end.
    apply Forall_app. split; [apply json_string_printable|]. constructor; [done|]. by apply (Hx t).
Qed.

(** [json.loads(json.dumps(v).encode("utf-8").decode("utf-8")) == v] *)
Lemma loads_dumps_ascii v text :
  json_plain v = true -> json_text true v = true -> dumps true v = Ok text ->
  (s ← decode_utf8 (encode_utf8 text); loads s) = Ok v.
Proof.
  intros Hp Ht Hd. rewrite decode_utf8_valid; [bind_step; by eapply loads_dumps_mode|].
  unfold dumps in Hd. destruct (json_dumps true v) as [cs|] eqn:Ed; [|done]. apply Ok_inj in Hd as <-.
  unfold valid_str. rewrite utf8_decode_ascii; [done|]. apply printable_bytes.
  unfold str_printable, str_chars. rewrite String.list_ascii_of_string_of_list_ascii.
  apply forallb_forall. intros c Hc. apply (json_dumps_printable v cs Hp) in Ed. rewrite Forall_forall in Ed.
  apply Ed. by apply list_elem_of_In.
Qed.

Lemma printable_text m s : str_printable s = true -> text_ok m s = true.
Proof. intros Hs. destruct m; [|done]. cbn. by rewrite utf8_decode_ascii by by apply printable_bytes. Qed.

Lemma all_printable_text v : all_printable v = true -> json_text true v = true.
Proof.
  induction v as [| [] | | | | | | |l IH| |d IH] using value_ind; try done; cbn.
  - exact (printable_text true s).
  - rewrite !forallb_forall. intros Hp x Hx. rewrite Forall_forall in IH. apply IH; [by apply list_elem_of_In|by apply Hp].
  - rewrite !forallb_forall. intros Hp x Hx. rewrite Forall_forall in IH. destruct (andb_prop _ _ (Hp _ Hx)) as [Hk Hv].
    apply andb_true_iff. split; [exact (printable_text true _ Hk)|]. apply IH; [by apply list_elem_of_In|done].
Qed.

Lemma bytes_hex_printable b : Forall is_byte b -> str_printable (bytes_hex b) = true.
Proof.
  intros Hb. unfold str_printable, str_chars, bytes_hex. rewrite String.list_ascii_of_string_of_list_ascii.
  induction Hb as [|x b Hx Hb IH]; [done|]. unfold is_byte in Hx. cbn [fmap list_fmap concat hex_of_byte app forallb].
  rewrite !hex_char_printable; [done|apply Z.mod_pos_bound; lia|].
  split; [apply Z.div_pos; lia|apply Z.div_lt_upper_bound; lia].
Qed.
