(* ===== verification/ExecutionPolicy.v ===== *)
(** * Execution policy (src/src/xian/execution_policy.py)

    The four version strings a chain pins, their check against genesis and
    against the persisted state, and the removed configuration options.

    The LMDB environment is the list of its entries in [lmdb_state]; [None] is a
    storage directory without a [data.mdb]. *)

From S2P Require Import Prelude PyValue Json PyBuiltins Encoding.

Definition VM_EXECUTION_MODE : string := "xian_vm_v1".
Definition VM_BYTECODE_VERSION : string := "xvm-1".
Definition VM_GAS_SCHEDULE : string := "xvm-gas-2".
Definition VM_EXECUTION_REVISION : string := "xvm-execution-5".
Definition SET_CODEC : string := "xian-set-1".
Definition EXECUTION_POLICY_KEY : string := "__execution_policy".

Definition current_execution_policy : list (string * value) :=
  [("execution_revision", VStr VM_EXECUTION_REVISION);
   ("gas_schedule", VStr VM_GAS_SCHEDULE);
   ("bytecode_version", VStr VM_BYTECODE_VERSION);
   ("set_codec", VStr SET_CODEC)].

(** [dict(value) == current_execution_policy()]: the order of entries does not
    count, and a [str] only equals the same [str]. *)
Definition dict_same (d e : list (string * value)) : bool :=
  (Z.of_nat (length d) =? Z.of_nat (length e))
  && forallb (λ kv, bool_decide (dict_get kv.1 d = Some kv.2)) e.

Definition validate_execution_policy (v : value) : result unit :=
  let ok := match v with VDict d => dict_same d current_execution_policy | _ => false end in
  check_py ok ValueError
    "incompatible or missing execution policy; use fresh current genesis or replay historical state with its pinned previous image".

Definition validate_genesis_execution_policy (genesis : list (string * value)) : result unit :=
  let state := py_get "abci_genesis" genesis (VDict genesis) in
  let entries := match state with
                 | VDict s => py_get "genesis" s (VList [])
                 | _ => VList [] end in
  entries ← py_iter entries;
  let policies := omap (λ e, match e with
                             | VDict d =>
                                 if decide (py_get "key" d VNone = VStr EXECUTION_POLICY_KEY)
                                 then Some (py_get "value" d VNone) else None
                             | _ => None end) entries in
  match policies with
  | [p] => validate_execution_policy p
  | _ => raise ValueError "genesis must contain exactly one execution policy"
  end.

Definition lmdb_state : Type := option (list (string * bytes)).

(** [validate_persisted_execution_policy]; [json.loads] of the raw value fails
    with a [ValueError] on invalid UTF-8 too. *)
Definition validate_persisted_execution_policy (st : lmdb_state) : result bool :=
  match st with
  | None => Ok false
  | Some entries =>
    if decide (entries = []) then Ok false
    else
      v ← match dict_get EXECUTION_POLICY_KEY entries with
          | None => Ok VNone
          | Some raw => match (s ← decode_utf8 raw; loads s) with
                        | Ok v => Ok v
                        | Raise (Exn ValueError _) | Raise (Exn TypeError _) =>
                            raise ValueError "invalid persisted execution policy"
                        | Raise e => Raise e
                        end
          end;
      _ ← validate_execution_policy v; Ok true
  end.

(** [initialize_execution_policy]: the store it leaves behind. *)
Definition initialize_execution_policy (st : lmdb_state) : result unit * lmdb_state :=
  match validate_persisted_execution_policy st with
  | Raise e => (Raise e, st)
  | Ok true => (Ok tt, st)
  | Ok false =>
    let entries := default [] st in
    if decide (entries = []) then
      match dumps true (VDict current_execution_policy) with
      | Ok text => (Ok tt, Some (dict_set EXECUTION_POLICY_KEY (encode_utf8 text) entries))
      | Raise e => (Raise e, Some entries)
      end
    else (raise ValueError "state changed during execution policy initialization", Some entries)
  end.

Definition validate_vm_execution_mode (mode : option string) : result unit :=
  let selected := py_strip (match mode with
                            | Some m => if decide (m = "") then VM_EXECUTION_MODE else m
                            | None => VM_EXECUTION_MODE end) in
  check_py (bool_decide (selected = VM_EXECUTION_MODE)) ValueError
    "xian_vm_v1 is the only supported execution mode".

Definition validate_vm_execution_config (xian_config : option (list (string * value))) : result unit :=
  let payload := default [] xian_config in
  if dict_mem "tracer_mode" payload then
    raise ValueError "xian.tracer_mode is no longer supported; Xian nodes only run xian_vm_v1"
  else if dict_mem "execution" payload then
    raise ValueError "xian.execution has been removed; Xian nodes only run xian_vm_v1"
  else validate_vm_execution_mode None.

(** A store that [initialize_execution_policy] accepts passes
    [validate_persisted_execution_policy] afterwards, and one that held entries is
    left untouched whether or not it is accepted. *)
Theorem initialize_execution_policy_correct st r st' :
  initialize_execution_policy st = (r, st') ->
  (r = Ok tt -> validate_persisted_execution_policy st' = Ok true) /\
  (default [] st <> [] -> st' = st).
Proof.
  unfold initialize_execution_policy.
  destruct (validate_persisted_execution_policy st) as [[]|e] eqn:E.
  - intros ?. by simplify_eq.
  - destruct (decide _) as [Hd|Hd].
    + destruct (dumps _ _) eqn:Ed; [|vm_compute in Ed; done]. intros ?. simplify_eq. split; [|done].
      intros _. rewrite Hd. vm_compute in Ed. apply Ok_inj in Ed as <-. vm_compute. reflexivity.
    + intros ?. simplify_eq. split; [done|]. by destruct st.
  - intros ?. by simplify_eq.
Qed.

Lemma initialize_execution_policy_correct_witness :
  validate_persisted_execution_policy (initialize_execution_policy None).2 = Ok true.
Proof.
  apply (initialize_execution_policy_correct None (initialize_execution_policy None).1);
    vm_compute; reflexivity.
Defined.
