(* ===== verification/StateRoot.v ===== *)
(** * The state root (src/src/xian/state_root.py)

    The application hash is the root of a Merkle treap over the consensus state:
    a binary search tree on the keys, a heap on priorities derived from the keys
    by hashing, so its shape is a function of its key set.  [StateRootCache]
    keeps the tree across blocks and stages one block's writes.

    [hashlib.sha256] is the parameter [sha256].  The nodes are mutated in place
    in the source; every node is reachable from one tree only, so an update
    returns the new tree here. *)

From S2P Require Import Prelude PyValue Json PyBuiltins Driver Encoding ExecutionPolicy.

Definition STATE_ROOT_VERSION : string := "xian-state-root-v2".
Definition LEAF_PREFIX : bytes := encode_utf8 (STATE_ROOT_VERSION +:+ ":leaf:").
Definition NODE_PREFIX : bytes := encode_utf8 (STATE_ROOT_VERSION +:+ ":node:").
Definition PRIORITY_PREFIX : bytes := encode_utf8 (STATE_ROOT_VERSION +:+ ":priority:").
Definition EMPTY_PREIMAGE : bytes := encode_utf8 (STATE_ROOT_VERSION +:+ ":empty").

(** [contracting.constants]. *)
Definition INDEX_SEPARATOR : string := ".".
Definition DELIMITER : string := ":".

Definition is_consensus_state_key (key : string) : bool :=
  bool_decide (key = EXECUTION_POLICY_KEY)
  || negb (startswith "__" key)
  || startswith ("__n" +:+ INDEX_SEPARATOR) key.

(** [n.to_bytes(8, "big")] and [int.from_bytes(b, "big")]. *)
Fixpoint to_bytes_big (w : nat) (n : Z) : bytes :=
  match w with
  | O => []
  | S w => to_bytes_big w (n / 256) ++ [n mod 256]
  end.
Definition from_bytes_big (b : bytes) : Z := foldl (λ acc x, acc * 256 + x) 0 b.

Definition _length_prefixed (payload : bytes) : bytes :=
  to_bytes_big 8 (Z.of_nat (length payload)) ++ payload.

(** [_TreapNode | None]. *)
Inductive treap :=
  | Leaf
  | Node (key : string) (priority : Z) (leaf_hash : bytes) (left right : treap) (root_hash : bytes).

Section StateRoot.
Context (sha256 : bytes -> bytes).

Definition EMPTY_STATE_ROOT : bytes := sha256 EMPTY_PREIMAGE.

Definition _hash_priority (key : string) : Z :=
  from_bytes_big (sha256 (PRIORITY_PREFIX ++ encode_utf8 key)).

Definition leaf_preimage (key : string) (value_bytes : bytes) : bytes :=
  LEAF_PREFIX ++ _length_prefixed (encode_utf8 key) ++ _length_prefixed value_bytes.

Definition _hash_leaf (key : string) (v : value) : result bytes :=
  value_bytes ← encode_abci_json v;
  Ok (sha256 (leaf_preimage key value_bytes)).

Definition _hash_node (left leaf_hash right : bytes) : bytes :=
  sha256 (NODE_PREFIX ++ left ++ leaf_hash ++ right).

Definition _subtree_hash (node : treap) : bytes :=
  match node with Leaf => EMPTY_STATE_ROOT | Node _ _ _ _ _ h => h end.

(** A node with its [root_hash] recomputed. *)
Definition _refresh (k : string) (p : Z) (lh : bytes) (l r : treap) : treap :=
  Node k p lh l r (_hash_node (_subtree_hash l) lh (_subtree_hash r)).

Definition _new_node (key : string) (leaf_hash : bytes) : treap :=
  _refresh key (_hash_priority key) leaf_hash Leaf Leaf.

Definition _rotate_right (k : string) (p : Z) (lh : bytes) (left right : treap) : treap :=
  match left with
  | Node lk lp llh ll lr _ => _refresh lk lp llh ll (_refresh k p lh lr right)
  | Leaf => Leaf (* [assert left is not None] *)
  end.

Definition _rotate_left (k : string) (p : Z) (lh : bytes) (left right : treap) : treap :=
  match right with
  | Node rk rp rlh rl rr _ => _refresh rk rp rlh (_refresh k p lh left rl) rr
  | Leaf => Leaf (* [assert right is not None] *)
  end.

Definition priority_below (t : treap) (p : Z) : bool :=
  match t with Leaf => false | Node _ tp _ _ _ _ => tp <? p end.

Fixpoint _insert_or_update (node : treap) (key : string) (leaf_hash : bytes) : treap :=
  match node with
  | Leaf => _new_node key leaf_hash
  | Node k p lh l r _ =>
    if decide (key = k) then _refresh k p leaf_hash l r
    else if decide (str_lt key k) then
      let l' := _insert_or_update l key leaf_hash in
      if priority_below l' p then _rotate_right k p lh l' r else _refresh k p lh l' r
    else
      let r' := _insert_or_update r key leaf_hash in
      if priority_below r' p then _rotate_left k p lh l r' else _refresh k p lh l r'
  end.

Fixpoint _merge (left : treap) : treap -> treap :=
  fix merge_right (right : treap) : treap :=
  match left, right with
  | Leaf, _ => right
  | _, Leaf => left
  | Node lk lp llh ll lr _, Node rk rp rlh rl rr _ =>
    if lp <? rp then _refresh lk lp llh ll (_merge lr right)
    else _refresh rk rp rlh (merge_right rl) rr
  end.

Fixpoint _delete (node : treap) (key : string) : treap :=
  match node with
  | Leaf => Leaf
  | Node k p lh l r _ =>
    if decide (key = k) then _merge l r
    else if decide (str_lt key k) then _refresh k p lh (_delete l key) r
    else _refresh k p lh l (_delete r key)
  end.

(** ** [StateRootCache] *)

Record cache := Cache {
  _root : treap;
  _leaf_hashes : list (string * bytes);
  _staged_old_leaf_hashes : list (string * option bytes);
}.

Definition root_hash (c : cache) : bytes := _subtree_hash (_root c).
Definition leaf_count (c : cache) : Z := Z.of_nat (length (_leaf_hashes c)).

Definition _set_leaf_hash (c : cache) (key : string) (leaf_hash : option bytes) : cache :=
  match leaf_hash with
  | None => Cache (_delete (_root c) key) (dict_pop key (_leaf_hashes c)) (_staged_old_leaf_hashes c)
  | Some h => Cache (_insert_or_update (_root c) key h) (dict_set key h (_leaf_hashes c))
                    (_staged_old_leaf_hashes c)
  end.

#[local] Arguments _set_leaf_hash : simpl never.

Definition commit (c : cache) : cache := Cache (_root c) (_leaf_hashes c) [].

Definition rollback (c : cache) : cache :=
  if decide (_staged_old_leaf_hashes c = []) then c
  else commit (foldl (λ c kv, _set_leaf_hash c kv.1 kv.2) c (reverse (_staged_old_leaf_hashes c))).

(** One item of [rebuild]'s loop. *)
Definition rebuild_item (item : string * value) : stM cache unit := λ c,
  let '(key, v) := item in
  if is_none v || negb (is_consensus_state_key key) then (Ok tt, c)
  else if dict_mem key (_leaf_hashes c) then
    (raise ValueError ("duplicate consensus state key: " +:+ key), c)
  else match _hash_leaf key v with
       | Ok h => (Ok tt, _set_leaf_hash c key (Some h))
       | Raise e => (Raise e, c)
       end.

Definition rebuild (items : list (string * value)) : stM cache bytes := λ c,
  let c := rollback c in
  let c := Cache Leaf [] (_staged_old_leaf_hashes c) in
  (forM_st items rebuild_item ≫= λ _, gets_st root_hash) c.

(** One write of [prepare]'s loop. *)
Definition prepare_write (write : string * value) : stM cache unit := λ c,
  let '(key, v) := write in
  if negb (is_consensus_state_key key) then (Ok tt, c)
  else match (if is_none v then Ok None else Some <$> _hash_leaf key v) with
  | Raise e => (Raise e, c)
  | Ok new_leaf_hash =>
    let old_leaf_hash := dict_get key (_leaf_hashes c) in
    if decide (old_leaf_hash = new_leaf_hash) then (Ok tt, c)
    else
      let c := Cache (_root c) (_leaf_hashes c)
                     (dict_set key old_leaf_hash (_staged_old_leaf_hashes c)) in
      (Ok tt, _set_leaf_hash c key new_leaf_hash)
  end.

Definition prepare (writes : list (string * value)) : stM cache bytes := λ c,
  (forM_st writes prepare_write ≫= λ _, gets_st root_hash) (rollback c).

Definition empty_cache : cache := Cache Leaf [] [].

(** [StateRootCache(items)]; an exception leaves no object behind. *)
Definition new_cache (items : list (string * value)) : result cache :=
  match rebuild items empty_cache with
  | (Ok _, c) => Ok c
  | (Raise e, _) => Raise e
  end.

Definition merkle_root_from_items (items : list (string * value)) : result bytes :=
  root_hash <$> new_cache items.

(** [compute_driver_state_root]: [items] is [driver.items()]. *)
Definition compute_driver_state_root (items : list (string * value)) : result bytes :=
  merkle_root_from_items items.

(** [nonce['key']] inside an f-string: a [str] stands for itself. *)
Definition export_entry (prefix : string) (entry : value) : result (string * value) :=
  k ← py_item "key" entry; v ← py_item "value" entry;
  match k with
  | VStr s => Ok (prefix +:+ s, v)
  | _ => raise TypeError "state root keys must be strings"
  end.

Definition exported_state_items (exported_state : list (string * value))
  : result (list (string * value)) :=
  genesis ← py_iter (py_get "genesis" exported_state (VList []));
  items ← mapM_py (export_entry "") genesis;
  nonces ← py_iter (py_get "nonces" exported_state (VList []));
  nitems ← mapM_py (export_entry ("__n" +:+ INDEX_SEPARATOR)) nonces;
  Ok (items ++ nitems).

Definition compute_exported_state_root (exported_state : list (string * value)) : result bytes :=
  items ← exported_state_items exported_state; merkle_root_from_items items.

(** ** The tree invariant *)

(** The leaves from left to right. *)
Fixpoint elements (t : treap) : list (string * bytes) :=
  match t with
  | Leaf => []
  | Node k _ lh l r _ => elements l ++ (k, lh) :: elements r
  end.

Definition tree_keys (t : treap) : list string := (elements t).*1.

Definition bst (t : treap) : Prop := StronglySorted str_lt (tree_keys t).

Fixpoint heap (t : treap) : Prop :=
  match t with
  | Leaf => True
  | Node k p _ l r _ =>
      p = _hash_priority k /\
      Forall (λ k', p <= _hash_priority k') (tree_keys l ++ tree_keys r) /\ heap l /\ heap r
  end.

(** Every stored hash is the hash of the subtree. *)
Fixpoint hashed (t : treap) : Prop :=
  match t with
  | Leaf => True
  | Node _ _ lh l r h =>
      h = _hash_node (_subtree_hash l) lh (_subtree_hash r) /\ hashed l /\ hashed r
  end.

Lemma tree_keys_node k p lh l r h :
  tree_keys (Node k p lh l r h) = tree_keys l ++ k :: tree_keys r.
Proof. unfold tree_keys. simpl. by rewrite fmap_app. Qed.

Lemma StronglySorted_mid {A} (R : A -> A -> Prop) l1 x l2 :
  StronglySorted R (l1 ++ x :: l2) <->
  StronglySorted R l1 /\ StronglySorted R l2 /\ Forall (λ y, R y x) l1 /\ Forall (R x) l2 /\
  (forall y z, y ∈ l1 -> z ∈ l2 -> R y z).
Proof.
  induction l1 as [|y l1 IH]; simpl.
  - split.
    + inversion 1; subst. split_and!; [constructor|done|constructor|done|].
      intros ? ? H1. by apply elem_of_nil in H1.
    + intros (_ & ? & _ & ? & _). by constructor.
  - split.
    + inversion 1 as [|? ? Hs Hf]; subst. apply IH in Hs as (? & ? & ? & ? & Hyz).
      apply Forall_app in Hf as [Hf1 Hf2]. apply Forall_cons in Hf2 as [Hyx Hf2].
      split_and!; [by constructor|done|by constructor|done|].
      intros a b [->|?]%elem_of_cons Hb; [|by apply Hyz].
      rewrite Forall_forall in Hf2. by apply Hf2.
    + intros (Hs & Hs2 & Hf & Hf2 & Hyz). inversion Hs; subst.
      apply Forall_cons in Hf as [? ?]. constructor.
      * apply IH. split_and!; try done. intros a b Ha. apply Hyz. by right.
      * apply Forall_app. split; [done|]. constructor; [done|].
        apply Forall_forall. intros z Hz. apply Hyz; [by left | done].
Qed.

Lemma bst_node k p lh l r h :
  bst (Node k p lh l r h) <->
  bst l /\ bst r /\ Forall (λ k', str_lt k' k) (tree_keys l) /\ Forall (str_lt k) (tree_keys r).
Proof.
  unfold bst. rewrite tree_keys_node, StronglySorted_mid. split; [by intros (?&?&?&?&?)|].
  intros (? & ? & Hl & Hr). split_and!; try done. intros y z Hy Hz.
  rewrite Forall_forall in Hl, Hr. transitivity k; [by apply Hl | by apply Hr].
Qed.

Lemma bst_nodup t : bst t -> NoDup (tree_keys t).
Proof.
  unfold bst. induction 1 as [|k ks _ IH Hk]; constructor; [|done].
  intros Hin. rewrite Forall_forall in Hk. by apply (irreflexivity str_lt k), Hk.
Qed.

(** Lookup in a search tree follows the comparisons. *)
Lemma dict_get_app {A} k (d1 d2 : list (string * A)) :
  dict_get k (d1 ++ d2) = match dict_get k d1 with Some v => Some v | None => dict_get k d2 end.
Proof. induction d1 as [|[k' v] d1 IH]; simpl; [done|]. by case_decide. Qed.

Lemma dict_get_lt k t : Forall (str_lt k) (tree_keys t) -> dict_get k (elements t) = None.
Proof.
  intros Hf. apply dict_get_None. intros Hin. rewrite Forall_forall in Hf.
  by apply (irreflexivity str_lt k), Hf.
Qed.
Lemma dict_get_gt k t : Forall (λ k', str_lt k' k) (tree_keys t) -> dict_get k (elements t) = None.
Proof.
  intros Hf. apply dict_get_None. intros Hin. rewrite Forall_forall in Hf.
  by apply (irreflexivity str_lt k), Hf.
Qed.

Lemma dict_get_node q k p lh l r h :
  bst (Node k p lh l r h) ->
  dict_get q (elements (Node k p lh l r h)) =
    if decide (q = k) then Some lh
    else if decide (str_lt q k) then dict_get q (elements l) else dict_get q (elements r).
Proof.
  intros (Hl & Hr & Fl & Fr)%bst_node. cbn [elements]. rewrite dict_get_app. simpl.
  destruct (decide (q = k)) as [->|Hne].
  - by rewrite (dict_get_gt k l).
  - case_decide as Hlt.
    + rewrite (dict_get_lt q r); [by destruct (dict_get q (elements l))|].
      eapply Forall_impl; [exact Fr|]. intros z Hz. by transitivity k.
    + rewrite (dict_get_gt q l); [done|]. eapply Forall_impl; [exact Fl|].
      intros z Hz. destruct (str_lt_trichotomy k q) as [[?| ->]|?]; [by transitivity k|done|done].
Qed.

Lemma rotate_right_elements k p lh l r :
  l <> Leaf -> elements (_rotate_right k p lh l r) = elements l ++ (k, lh) :: elements r.
Proof. destruct l; [done|]. intros _. simpl. by rewrite <- (assoc_L app). Qed.

Lemma rotate_left_elements k p lh l r :
  r <> Leaf -> elements (_rotate_left k p lh l r) = elements l ++ (k, lh) :: elements r.
Proof. destruct r; [done|]. intros _. simpl. by rewrite <- (assoc_L app). Qed.

(** Inserting, at the level of the ordered list of leaves. *)
Fixpoint put (k : string) (h : bytes) (l : list (string * bytes)) : list (string * bytes) :=
  match l with
  | [] => [(k, h)]
  | (k', h') :: l' =>
    if decide (k = k') then (k, h) :: l'
    else if decide (str_lt k k') then (k, h) :: l else (k', h') :: put k h l'
  end.

Lemma put_left k h l x r :
  str_lt k x.1 -> put k h (l ++ x :: r) = put k h l ++ x :: r.
Proof.
  intros Hlt. induction l as [|[k' h'] l IH]; simpl.
  - destruct x as [k2 h2]. simpl in *. rewrite decide_False by (by apply str_lt_ne).
    by rewrite decide_True.
  - case_decide; [done|]. case_decide; [done|]. simpl. by rewrite IH.
Qed.

Lemma put_right k h l x r :
  str_lt x.1 k -> Forall (λ k', str_lt k' k) l.*1 ->
  put k h (l ++ x :: r) = l ++ x :: put k h r.
Proof.
  assert (Hstep : forall y s, str_lt y.1 k -> put k h (y :: s) = y :: put k h s).
  { intros [ky hy] s Hy. simpl in *. rewrite decide_False by (intros <-; by apply (irreflexivity str_lt k)).
    rewrite decide_False; [done|]. intros H. by eapply str_lt_asym. }
  intros Hlt. induction l as [|y l IH]; intros Hf; simpl app; [by apply Hstep|].
  apply Forall_cons in Hf as [Hy Hf]. rewrite Hstep by done. by rewrite IH.
Qed.

Lemma put_keys k h l k' : k' ∈ (put k h l).*1 <-> k' = k \/ k' ∈ l.*1.
Proof.
  induction l as [|[k2 h2] l IH]; csimpl; [by rewrite list_elem_of_singleton, elem_of_nil; naive_solver|].
  case_decide; [subst; csimpl; rewrite !elem_of_cons; naive_solver|].
  case_decide; csimpl; rewrite !elem_of_cons; [naive_solver|]. rewrite IH. naive_solver.
Qed.

Lemma put_sorted k h l : StronglySorted str_lt l.*1 -> StronglySorted str_lt (put k h l).*1.
Proof.
  induction l as [|[k' h'] l IH]; csimpl; [repeat constructor|].
  intros Hs. inversion Hs as [|? ? Hs' Hf]; subst. case_decide as Hk; [subst; csimpl; by constructor|].
  case_decide as Hlt; csimpl.
  - constructor; [done|]. constructor; [done|].
    eapply Forall_impl; [exact Hf|]. intros z Hz. by transitivity k'.
  - constructor; [by apply IH|]. apply Forall_forall. intros z [->|Hz]%put_keys.
    + destruct (str_lt_trichotomy k k') as [[?|?]|?]; done.
    + rewrite Forall_forall in Hf. by apply Hf.
Qed.

Lemma dict_get_put k h l q :
  dict_get q (put k h l) = if decide (q = k) then Some h else dict_get q l.
Proof.
  induction l as [|[k' h'] l IH]; simpl; [by case_decide|].
  destruct (decide (k = k')) as [<-|Hk]; simpl; [by case_decide|].
  destruct (decide (str_lt k k')); simpl; [done|]. rewrite IH. repeat case_decide; congruence.
Qed.

Lemma priority_below_node t p : priority_below t p = true -> t <> Leaf.
Proof. by destruct t. Qed.

Lemma str_gt_of_not_lt a b : a <> b -> ~ str_lt a b -> str_lt b a.
Proof. intros. destruct (str_lt_trichotomy a b) as [[?|?]|?]; done. Qed.

Lemma insert_elements t k h :
  bst t -> elements (_insert_or_update t k h) = put k h (elements t).
Proof.
  induction t as [|k' p lh l IHl r IHr rh]; [done|].
  intros (Hl & Hr & Fl & Fr)%bst_node. cbn [_insert_or_update elements].
  destruct (decide (k = k')) as [->|Hne].
  - cbn. clear IHl IHr Hr Fr Hl. unfold tree_keys in Fl.
    induction (elements l) as [|[k2 h2] es IH]; cbn [app put]; [by rewrite decide_True|].
    apply Forall_cons in Fl as [Hlt Fl]. cbn in Hlt.
    rewrite decide_False by (intros <-; by apply (irreflexivity str_lt k')).
    rewrite decide_False by (intros ?; by eapply str_lt_asym). by rewrite <- IH.
  - case_decide as Hlt.
    + specialize (IHl Hl). rewrite put_left by done. rewrite <- IHl.
      destruct (priority_below _ p) eqn:Ep; [|done].
      by rewrite rotate_right_elements by (by eapply priority_below_node).
    + apply str_gt_of_not_lt in Hlt; [|done]. specialize (IHr Hr). rewrite put_right; [|done|].
      * rewrite <- IHr. destruct (priority_below _ p) eqn:Ep; [|done].
        by rewrite rotate_left_elements by (by eapply priority_below_node).
      * eapply Forall_impl; [exact Fl|]. intros z Hz. by transitivity k'.
Qed.

Lemma insert_bst t k h : bst t -> bst (_insert_or_update t k h).
Proof. intros Hb. unfold bst, tree_keys. rewrite insert_elements by done. by apply put_sorted. Qed.

Lemma insert_keys t k h q :
  bst t -> q ∈ tree_keys (_insert_or_update t k h) <-> q = k \/ q ∈ tree_keys t.
Proof. intros Hb. unfold tree_keys. rewrite insert_elements by done. apply put_keys. Qed.

Lemma heap_refresh k p lh l r :
  heap (_refresh k p lh l r) <->
  p = _hash_priority k /\ Forall (λ k', p <= _hash_priority k') (tree_keys l ++ tree_keys r) /\
  heap l /\ heap r.
Proof. done. Qed.

(** Only the inserted key can rise above the root it was inserted under, and the
    rotation then keeps the heap order. *)
Lemma rotate_right_heap k p lh l r :
  heap l -> heap r -> p = _hash_priority k -> priority_below l p = true ->
  Forall (λ k', p <= _hash_priority k') (tree_keys r) ->
  (forall k', k' ∈ tree_keys l -> p <= _hash_priority k' \/ exists lp llh ll lr h, l = Node k' lp llh ll lr h) ->
  NoDup (tree_keys l) -> heap (_rotate_right k p lh l r).
Proof.
  intros Hl Hr Hp Hb Fr Hin Hnd. destruct l as [|lk lp llh ll lr lhh]; [done|].
  apply Z.ltb_lt in Hb. destruct Hl as (Hlp & Hmin & Hll & Hlr).
  rewrite tree_keys_node in Hnd, Hin. apply Forall_app in Hmin as [Hm1 Hm2].
  assert (Flr : Forall (λ k', p <= _hash_priority k') (tree_keys lr)).
  { apply Forall_forall. intros z Hz. destruct (Hin z) as [?|(? & ? & ? & ? & ? & ?)]; [set_solver|done|].
    simplify_eq. apply NoDup_app in Hnd as (_ & _ & [? _]%NoDup_cons). done. }
  cbn [_rotate_right]. apply heap_refresh. split_and!; [done| |done|].
  - change (_refresh k p lh lr r) with (Node k p lh lr r (_hash_node (_subtree_hash lr) lh (_subtree_hash r))).
    rewrite tree_keys_node. apply Forall_app. split; [done|]. apply Forall_app. split; [done|].
    constructor; [lia|]. eapply Forall_impl; [exact Fr|]. simpl. lia.
  - apply heap_refresh. split_and!; try done. by apply Forall_app.
Qed.

Lemma rotate_left_heap k p lh l r :
  heap l -> heap r -> p = _hash_priority k -> priority_below r p = true ->
  Forall (λ k', p <= _hash_priority k') (tree_keys l) ->
  (forall k', k' ∈ tree_keys r -> p <= _hash_priority k' \/ exists rp rlh rl rr h, r = Node k' rp rlh rl rr h) ->
  NoDup (tree_keys r) -> heap (_rotate_left k p lh l r).
Proof.
  intros Hl Hr Hp Hb Fl Hin Hnd. destruct r as [|rk rp rlh rl rr rhh]; [done|].
  apply Z.ltb_lt in Hb. destruct Hr as (Hrp & Hmin & Hrl & Hrr).
  rewrite tree_keys_node in Hnd, Hin. apply Forall_app in Hmin as [Hm1 Hm2].
  assert (Frl : Forall (λ k', p <= _hash_priority k') (tree_keys rl)).
  { apply Forall_forall. intros z Hz. destruct (Hin z) as [?|(? & ? & ? & ? & ? & ?)]; [set_solver|done|].
    simplify_eq. apply NoDup_app in Hnd as (_ & Hdis & _). exfalso. apply (Hdis z); [done|left]. }
  cbn [_rotate_left]. apply heap_refresh. split_and!; [done| | |done].
  - change (_refresh k p lh l rl) with (Node k p lh l rl (_hash_node (_subtree_hash l) lh (_subtree_hash rl))).
    rewrite tree_keys_node. apply Forall_app. split; [|done]. apply Forall_app. split.
    + eapply Forall_impl; [exact Fl|]. simpl. lia.
    + constructor; [lia|done].
  - apply heap_refresh. split_and!; try done. by apply Forall_app.
Qed.

(** Below an old bound [p], the root of the tree after an insertion can only be
    the inserted key. *)
Lemma insert_root_new t k h p q :
  bst t -> Forall (λ k', p <= _hash_priority k') (tree_keys t) ->
  heap (_insert_or_update t k h) -> priority_below (_insert_or_update t k h) p = true ->
  q ∈ tree_keys (_insert_or_update t k h) ->
  p <= _hash_priority q \/
  exists lp llh ll lr hh, _insert_or_update t k h = Node q lp llh ll lr hh.
Proof.
  intros Hb Hf Hh Hp Hq. apply insert_keys in Hq as [->|Hq]; [|left; rewrite Forall_forall in Hf; by apply Hf|done].
  destruct (_insert_or_update t k h) as [|rk rp rlh rl rr rh] eqn:E; [done|]. right.
  assert (Hin : rk ∈ tree_keys (_insert_or_update t k h)).
  { rewrite E, tree_keys_node. set_solver. }
  apply insert_keys in Hin as [->|Hin]; [|exfalso|done].
  - by eexists _, _, _, _, _.
  - rewrite Forall_forall in Hf. apply Hf in Hin. apply Z.ltb_lt in Hp.
    destruct Hh as [? _]. lia.
Qed.

(** A root that is not below [p] bounds its whole tree. *)
Lemma heap_root_bound t p :
  heap t -> priority_below t p = false -> Forall (λ k, p <= _hash_priority k) (tree_keys t).
Proof.
  destruct t as [|k q lh l r h]; [by constructor|].
  intros (Hq & Hmin & _) Hp%Z.ltb_ge. rewrite tree_keys_node.
  rewrite Forall_app in Hmin. destruct Hmin as [Hl Hr].
  apply Forall_app. split; [eapply Forall_impl; [exact Hl|simpl; lia]|].
  constructor; [lia|]. eapply Forall_impl; [exact Hr|]. simpl; lia.
Qed.

Lemma insert_heap t k h : bst t -> heap t -> heap (_insert_or_update t k h).
Proof.
  induction t as [|k' p lh l IHl r IHr rh]; intros Hb Hh; [done|].
  destruct Hh as (Hp & Hmin & Hhl & Hhr). apply Forall_app in Hmin as [Hml Hmr].
  apply bst_node in Hb as (Hl & Hr & Fl & Fr). cbn [_insert_or_update].
  destruct (decide (k = k')) as [->|Hne]; [apply heap_refresh; split_and!; try done; by apply Forall_app|].
  case_decide as Hlt.
  - specialize (IHl Hl Hhl). destruct (priority_below _ p) eqn:Ep.
    + apply rotate_right_heap; try done; [|by apply bst_nodup, insert_bst].
      intros q Hq. by apply insert_root_new.
    + apply heap_refresh. split_and!; try done. apply Forall_app. split; [|done].
      by apply heap_root_bound.
  - specialize (IHr Hr Hhr). destruct (priority_below _ p) eqn:Ep.
    + apply rotate_left_heap; try done; [|by apply bst_nodup, insert_bst].
      intros q Hq. by apply insert_root_new.
    + apply heap_refresh. split_and!; try done. apply Forall_app. split; [done|].
      by apply heap_root_bound.
Qed.

Lemma merge_leaf_r t : _merge t Leaf = t.
Proof. by destruct t. Qed.

Lemma merge_node lk lp llh ll lr lh rk rp rlh rl rr rh :
  _merge (Node lk lp llh ll lr lh) (Node rk rp rlh rl rr rh) =
    if lp <? rp then _refresh lk lp llh ll (_merge lr (Node rk rp rlh rl rr rh))
    else _refresh rk rp rlh (_merge (Node lk lp llh ll lr lh) rl) rr.
Proof. done. Qed.

Lemma merge_elements l r : elements (_merge l r) = elements l ++ elements r.
Proof.
  revert r. induction l as [|lk lp llh ll _ lr IHl lh]; intros r; [by destruct r|].
  induction r as [|rk rp rlh rl IHr rr _ rh]; [by rewrite merge_leaf_r, app_nil_r|].
  rewrite merge_node. destruct (lp <? rp); cbn [elements _refresh].
  - rewrite IHl. by rewrite <- (assoc_L app).
  - rewrite IHr. cbn [elements]. by rewrite <- !(assoc_L app).
Qed.

Lemma merge_heap l r : heap l -> heap r -> heap (_merge l r).
Proof.
  revert r. induction l as [|lk lp llh ll _ lr IHl lh]; intros r Hl Hr; [by destruct r|].
  induction r as [|rk rp rlh rl IHr rr _ rh]; [done|].
  rewrite merge_node. destruct (lp <? rp) eqn:E; apply heap_refresh.
  - pose proof (heap_root_bound (Node rk rp rlh rl rr rh) lp Hr ltac:(cbn; lia)) as Hb.
    destruct Hl as (? & Hm & ? & ?). apply Forall_app in Hm as [? ?].
    split_and!; try done; [|by apply IHl]. unfold tree_keys in *. rewrite merge_elements, fmap_app.
    by rewrite !Forall_app.
  - pose proof (heap_root_bound (Node lk lp llh ll lr lh) rp Hl E) as Hb.
    destruct Hr as (? & Hm & ? & ?). apply Forall_app in Hm as [? ?].
    split_and!; try done; [|by apply IHr]. unfold tree_keys in *. rewrite merge_elements, fmap_app.
    by rewrite !Forall_app.
Qed.

Lemma dict_pop_app {A} k (d1 d2 : list (string * A)) :
  dict_pop k (d1 ++ d2) = dict_pop k d1 ++ dict_pop k d2.
Proof. unfold dict_pop. apply filter_app. Qed.

Lemma dict_pop_absent {A} k (d : list (string * A)) : k ∉ d.*1 -> dict_pop k d = d.
Proof.
  unfold dict_pop. induction d as [|[k' v] d IH]; [done|]. csimpl.
  intros [Hne Hin]%not_elem_of_cons. rewrite filter_cons_True by (simpl; congruence). by rewrite IH.
Qed.

Lemma dict_pop_cons_ne {A} k k' (v : A) d :
  k <> k' -> dict_pop k ((k', v) :: d) = (k', v) :: dict_pop k d.
Proof. intros Hne. unfold dict_pop. by rewrite filter_cons_True by (simpl; congruence). Qed.

Lemma delete_elements t k : bst t -> elements (_delete t k) = dict_pop k (elements t).
Proof.
  induction t as [|k' p lh l IHl r IHr rh]; [done|].
  intros (Hl & Hr & Fl & Fr)%bst_node. cbn [_delete elements]. rewrite dict_pop_app.
  rewrite Forall_forall in Fl, Fr.
  destruct (decide (k = k')) as [->|Hne].
  - rewrite merge_elements. f_equal.
    + symmetry. apply dict_pop_absent. intros ?. by apply (irreflexivity str_lt k'), Fl.
    + unfold dict_pop. rewrite filter_cons_False by (simpl; naive_solver). symmetry.
      apply dict_pop_absent. intros ?. by apply (irreflexivity str_lt k'), Fr.
  - rewrite dict_pop_cons_ne by done. case_decide as Hlt; cbn [elements _refresh].
    + rewrite IHl by done. f_equal. f_equal. symmetry. apply dict_pop_absent.
      intros Hin. apply (str_lt_asym k k'); [done|by apply Fr].
    + rewrite IHr by done. f_equal. symmetry. apply dict_pop_absent.
      intros Hin. apply Hlt. by apply Fl.
Qed.

Lemma dict_pop_keys {A} k (d : list (string * A)) q : q ∈ (dict_pop k d).*1 <-> q <> k /\ q ∈ d.*1.
Proof.
  unfold dict_pop. split.
  - intros (kv & -> & [Hn Hin]%list_elem_of_filter)%list_elem_of_fmap.
    split; [done|]. by apply list_elem_of_fmap_2.
  - intros [Hne (kv & -> & Hin)%list_elem_of_fmap]. apply list_elem_of_fmap_2.
    by apply list_elem_of_filter.
Qed.

Lemma delete_bst t k : bst t -> bst (_delete t k).
Proof.
  intros Hb. unfold bst, tree_keys in *. rewrite delete_elements by done.
  induction (elements t) as [|[k' v] es IH]; csimpl; [done|]. csimpl in Hb.
  inversion Hb as [|? ? Hs Hf]; subst. destruct (decide (k = k')) as [->|Hne].
  - unfold dict_pop. rewrite filter_cons_False by (simpl; naive_solver). by apply IH.
  - rewrite dict_pop_cons_ne by done. csimpl. constructor; [by apply IH|].
    apply Forall_forall. intros q [_ Hq]%dict_pop_keys. rewrite Forall_forall in Hf. by apply Hf.
Qed.

Lemma delete_keys t k q : bst t -> q ∈ tree_keys (_delete t k) -> q ∈ tree_keys t.
Proof. intros Hb. unfold tree_keys. rewrite delete_elements by done. by intros [_ ?]%dict_pop_keys. Qed.

Lemma delete_heap t k : bst t -> heap t -> heap (_delete t k).
Proof.
  induction t as [|k' p lh l IHl r IHr rh]; intros Hb Hh; [done|].
  destruct Hh as (Hp & Hmin & Hhl & Hhr). apply bst_node in Hb as (Hl & Hr & _ & _).
  cbn [_delete]. destruct (decide (k = k')); [by apply merge_heap|].
  apply Forall_app in Hmin as [Hml Hmr]. rewrite Forall_forall in Hml, Hmr.
  case_decide; apply heap_refresh; split_and!; try done; auto; apply Forall_forall;
    intros q [Hq|Hq]%elem_of_app; eauto using delete_keys.
Qed.

Lemma refresh_hashed k p lh l r : hashed l -> hashed r -> hashed (_refresh k p lh l r).
Proof. done. Qed.

Lemma insert_hashed t k h : hashed t -> hashed (_insert_or_update t k h).
Proof.
  induction t as [|k' p lh l IHl r IHr rh]; intros Hh; [done|]. destruct Hh as (_ & Hl & Hr).
  cbn [_insert_or_update]. case_decide; [done|]. case_decide.
  - specialize (IHl Hl). destruct (_insert_or_update l k h); [done|]. destruct IHl as (? & ? & ?).
    destruct (priority_below _ _); repeat apply refresh_hashed; done.
  - specialize (IHr Hr). destruct (_insert_or_update r k h); [done|]. destruct IHr as (? & ? & ?).
    destruct (priority_below _ _); repeat apply refresh_hashed; done.
Qed.

Lemma merge_hashed l r : hashed l -> hashed r -> hashed (_merge l r).
Proof.
  revert r. induction l as [|lk lp llh ll _ lr IHl lh]; intros r Hl Hr; [by destruct r|].
  induction r as [|rk rp rlh rl IHr rr _ rh]; [done|].
  rewrite merge_node. destruct Hl as (? & ? & ?), Hr as (? & ? & ?).
  destruct (lp <? rp); apply refresh_hashed; try done; [by apply IHl | by apply IHr].
Qed.

Lemma delete_hashed t k : hashed t -> hashed (_delete t k).
Proof.
  induction t as [|k' p lh l IHl r IHr rh]; intros Hh; [done|]. destruct Hh as (_ & Hl & Hr).
  cbn [_delete]. repeat case_decide; [by apply merge_hashed|apply refresh_hashed; auto..].
Qed.

(** ** The shape is a function of the leaves *)

Definition treap_ok (t : treap) : Prop := bst t /\ heap t /\ hashed t.

Lemma insert_ok t k h : treap_ok t -> treap_ok (_insert_or_update t k h).
Proof. intros (? & ? & ?). split_and!; [by apply insert_bst|by apply insert_heap|by apply insert_hashed]. Qed.

Lemma delete_ok t k : treap_ok t -> treap_ok (_delete t k).
Proof. intros (? & ? & ?). split_and!; [by apply delete_bst|by apply delete_heap|by apply delete_hashed]. Qed.

(** The priorities of the keys are pairwise distinct: no two keys collide under
    the priority hash. *)
Definition distinct_priorities (ks : list string) : Prop := NoDup (_hash_priority <$> ks).

Lemma distinct_priorities_inj ks k1 k2 :
  distinct_priorities ks -> k1 ∈ ks -> k2 ∈ ks -> _hash_priority k1 = _hash_priority k2 -> k1 = k2.
Proof.
  intros Hnd [i Hi]%list_elem_of_lookup [j Hj]%list_elem_of_lookup Heq.
  assert (i = j) as ->; [|congruence].
  eapply (NoDup_lookup (_hash_priority <$> ks)); [done| |]; rewrite list_lookup_fmap.
  - by rewrite Hi.
  - rewrite Hj. simpl. by rewrite Heq.
Qed.

Lemma split_unique {A} (k : string) (h1 h2 : A) l1 l2 r1 r2 :
  l1 ++ (k, h1) :: r1 = l2 ++ (k, h2) :: r2 -> k ∉ l1.*1 -> k ∉ l2.*1 ->
  l1 = l2 /\ h1 = h2 /\ r1 = r2.
Proof.
  revert l2. induction l1 as [|x l1 IH]; intros [|y l2] Heq H1 H2;
    injection Heq as Hx Hl; subst.
  - done.
  - exfalso. apply H2. left.
  - exfalso. apply H1. left.
  - apply not_elem_of_cons in H1 as [_ H1], H2 as [_ H2].
    destruct (IH _ Hl H1 H2) as (-> & ? & ?). done.
Qed.

Lemma heap_root_min k p lh l r h q :
  heap (Node k p lh l r h) -> q ∈ tree_keys (Node k p lh l r h) ->
  _hash_priority k <= _hash_priority q.
Proof.
  intros (-> & Hm & _ & _). rewrite tree_keys_node. rewrite Forall_forall in Hm.
  intros [Hq|[->|Hq]%elem_of_cons]%elem_of_app; [|done|]; apply Hm; set_solver.
Qed.

Lemma treap_unique t1 t2 :
  treap_ok t1 -> treap_ok t2 -> elements t1 = elements t2 ->
  distinct_priorities (tree_keys t1) -> t1 = t2.
Proof.
  revert t2. induction t1 as [|k1 p1 lh1 l1 IHl r1 IHr h1]; intros [|k2 p2 lh2 l2 r2 h2]
    (B1 & P1 & H1) (B2 & P2 & H2) Hel Hnd.
  - done.
  - cbn in Hel. by destruct (elements l2).
  - cbn in Hel. by destruct (elements l1).
  - assert (Hk : k1 = k2).
    { assert (Hks : tree_keys (Node k1 p1 lh1 l1 r1 h1) = tree_keys (Node k2 p2 lh2 l2 r2 h2)).
      { unfold tree_keys. by rewrite Hel. }
      assert (I1 : k1 ∈ tree_keys (Node k1 p1 lh1 l1 r1 h1)) by (rewrite tree_keys_node; set_solver).
      assert (I2 : k2 ∈ tree_keys (Node k1 p1 lh1 l1 r1 h1))
        by (rewrite Hks, tree_keys_node; set_solver).
      eapply (distinct_priorities_inj _ _ _ Hnd); [done|done|]. apply Z.le_antisymm.
      - by eapply heap_root_min in I2.
      - rewrite Hks in I1. by eapply heap_root_min in I1. }
    subst k2. apply bst_node in B1 as (B1l & B1r & F1l & _). apply bst_node in B2 as (B2l & B2r & F2l & _).
    cbn [elements] in Hel. apply split_unique in Hel as (El & -> & Er).
    2: { intros ?. rewrite Forall_forall in F1l. by eapply (irreflexivity str_lt k1), F1l. }
    2: { intros ?. rewrite Forall_forall in F2l. by eapply (irreflexivity str_lt k1), F2l. }
    destruct P1 as (-> & _ & ? & ?), P2 as (-> & _ & ? & ?), H1 as (-> & ? & ?), H2 as (-> & ? & ?).
    unfold distinct_priorities in Hnd. rewrite tree_keys_node, fmap_app in Hnd.
    apply NoDup_app in Hnd as (? & _ & [_ ?]%NoDup_cons).
    by rewrite (IHl l2), (IHr r2).
Qed.

Lemma sorted_lt_le (l : list (string * bytes)) :
  StronglySorted str_lt l.*1 -> StronglySorted (key_le fst) l.
Proof.
  induction l as [|x l IH]; csimpl; [constructor|]. inversion 1 as [|? ? Hs Hf]; subst.
  constructor; [by apply IH|]. apply Forall_forall. intros y Hy.
  rewrite Forall_forall in Hf. specialize (Hf y.1 (list_elem_of_fmap_2 _ _ _ Hy)).
  by apply str_lt_le in Hf as [? _].
Qed.

Lemma bst_lookup_eq t1 t2 :
  bst t1 -> bst t2 -> (forall q, dict_get q (elements t1) = dict_get q (elements t2)) ->
  elements t1 = elements t2.
Proof.
  intros B1 B2 Hq. apply (sorted_by_unique fst).
  - by apply bst_nodup.
  - by apply sorted_lt_le.
  - by apply sorted_lt_le.
  - apply dict_get_perm; [by apply bst_nodup..|done].
Qed.

(** ** The cache invariant *)

Definition leaf (c : cache) (q : string) : option bytes := dict_get q (_leaf_hashes c).

Record cache_ok (c : cache) : Prop := {
  ok_tree : treap_ok (_root c);
  ok_leaf : forall q, leaf c q = dict_get q (elements (_root c));
  ok_nodup : NoDup (dict_keys (_leaf_hashes c));
  ok_staged : NoDup (dict_keys (_staged_old_leaf_hashes c));
}.

(** Two caches that differ at most in the order of their dict of leaves. *)
Definition cache_eq (c1 c2 : cache) : Prop :=
  _root c1 = _root c2 /\ (forall q, leaf c1 q = leaf c2 q) /\
  _staged_old_leaf_hashes c1 = _staged_old_leaf_hashes c2.

#[global] Instance cache_eq_equiv : Equivalence cache_eq.
Proof.
  split.
  - done.
  - intros c1 c2 (? & ? & ?). done.
  - intros c1 c2 c3 (? & Hl & ?) (? & Hl' & ?). split_and!; [congruence| |congruence].
    intros q. by rewrite Hl.
Qed.

Lemma set_leaf_get c k oh q :
  leaf (_set_leaf_hash c k oh) q = if decide (q = k) then oh else leaf c q.
Proof.
  unfold leaf, _set_leaf_hash. destruct oh as [h|]; simpl.
  - apply dict_get_set.
  - case_decide; subst; [apply dict_get_pop_eq | by apply dict_get_pop_ne].
Qed.

Lemma set_leaf_staged c k oh :
  _staged_old_leaf_hashes (_set_leaf_hash c k oh) = _staged_old_leaf_hashes c.
Proof. by destruct oh. Qed.

Lemma set_leaf_ok c k oh : cache_ok c -> cache_ok (_set_leaf_hash c k oh).
Proof.
  intros [Ht Hl Hn Hs]. split.
  - unfold _set_leaf_hash. destruct oh; simpl; [by apply insert_ok | by apply delete_ok].
  - intros q. rewrite set_leaf_get. destruct Ht as (Hb & _ & _). unfold _set_leaf_hash. destruct oh as [h|]; simpl.
    + rewrite insert_elements by done. rewrite dict_get_put. by rewrite Hl.
    + rewrite delete_elements by done. case_decide; [subst; by rewrite dict_get_pop_eq|].
      by rewrite dict_get_pop_ne by done.
  - unfold _set_leaf_hash. destruct oh; simpl; [by apply dict_set_nodup | by apply dict_pop_nodup].
  - by rewrite set_leaf_staged.
Qed.

#[global] Instance set_leaf_proper : Proper (cache_eq ==> (=) ==> (=) ==> cache_eq) _set_leaf_hash.
Proof.
  intros c1 c2 (Hr & Hl & Hs) k ? <- oh ? <-. split_and!.
  - unfold _set_leaf_hash. destruct oh; simpl; by rewrite Hr.
  - intros q. by rewrite !set_leaf_get, Hl.
  - by rewrite !set_leaf_staged.
Qed.

(** Equal leaves, equal trees. *)
Lemma cache_ok_unique c1 c2 :
  cache_ok c1 -> cache_ok c2 -> (forall q, leaf c1 q = leaf c2 q) ->
  distinct_priorities (dict_keys (_leaf_hashes c1)) -> _root c1 = _root c2.
Proof.
  intros [T1 L1 N1 _] [T2 L2 _ _] Hq Hd. apply treap_unique; [done|done| |].
  - apply bst_lookup_eq; [apply T1|apply T2|]. intros q. by rewrite <- L1, <- L2.
  - unfold distinct_priorities, tree_keys in *.
    assert (HP : elements (_root c1) ≡ₚ _leaf_hashes c1).
    { apply dict_get_perm; [apply bst_nodup, T1|done|]. intros q. by rewrite <- L1. }
    by rewrite HP.
Qed.

(** ** Rolling back *)

Lemma dict_get_reverse {A} q (d : list (string * A)) :
  NoDup (dict_keys d) -> dict_get q (reverse d) = dict_get q d.
Proof.
  intros Hnd. assert (Hnd' : NoDup (dict_keys (reverse d))).
  { unfold dict_keys. by rewrite fmap_reverse, reverse_Permutation. }
  destruct (dict_get q d) as [v|] eqn:E.
  - apply dict_get_elem; [done|]. apply elem_of_reverse. by apply dict_get_Some_elem.
  - apply dict_get_None. apply dict_get_None in E. unfold dict_keys.
    by rewrite fmap_reverse, elem_of_reverse.
Qed.

Definition set_all (c : cache) (l : list (string * option bytes)) : cache :=
  foldl (λ c kv, _set_leaf_hash c kv.1 kv.2) c l.

Lemma set_all_ok c l : cache_ok c -> cache_ok (set_all c l).
Proof.
  revert c. induction l as [|x l IH]; intros c Hc; simpl; [done|].
  apply IH. by apply set_leaf_ok.
Qed.

Lemma set_all_get c l q :
  NoDup (dict_keys l) ->
  leaf (set_all c l) q = match dict_get q l with Some oh => oh | None => leaf c q end.
Proof.
  revert c. induction l as [|[k oh] l IH]; intros c Hnd; [done|].
  apply NoDup_cons in Hnd as [Hk Hnd]. cbn [set_all foldl fst snd dict_get].
  change (foldl _ ?c l) with (set_all c l). rewrite (IH _ Hnd), set_leaf_get.
  case_decide as Heq; [|done]. subst. by rewrite (proj2 (dict_get_None k l) Hk).
Qed.

(** The leaves before the staged writes. *)
Definition base_leaf (c : cache) (q : string) : option bytes :=
  match dict_get q (_staged_old_leaf_hashes c) with Some oh => oh | None => leaf c q end.

Lemma rollback_leaf c q : cache_ok c -> leaf (rollback c) q = base_leaf c q.
Proof.
  intros [_ _ _ Hs]. unfold rollback, base_leaf. case_decide as Hn; [by rewrite Hn|].
  change (foldl _ c ?l) with (set_all c l).
  change (leaf (commit ?x) q) with (leaf x q). rewrite set_all_get.
  - by rewrite dict_get_reverse.
  - unfold dict_keys. by rewrite fmap_reverse, reverse_Permutation.
Qed.

Lemma rollback_staged c : _staged_old_leaf_hashes (rollback c) = [].
Proof. unfold rollback. by case_decide. Qed.

Lemma commit_ok c : cache_ok c -> cache_ok (commit c).
Proof. intros [? ? ? ?]. split; try done. constructor. Qed.

Lemma rollback_ok c : cache_ok c -> cache_ok (rollback c).
Proof.
  intros Hc. unfold rollback. case_decide; [done|]. apply commit_ok.
  change (foldl _ c ?l) with (set_all c l). by apply set_all_ok.
Qed.

Lemma rollback_idle c : _staged_old_leaf_hashes c = [] -> rollback c = c.
Proof. intros Hs. unfold rollback. by rewrite decide_True. Qed.

(** ** Preparing a block *)

Lemma prepare_write_ok w c : cache_ok c -> cache_ok (prepare_write w c).2.
Proof.
  intros Hc. unfold prepare_write. destruct w as [k v]. destruct (negb _); [done|].
  destruct (if is_none v then _ else _) as [nh|e]; [|done]. case_decide; [done|]. simpl.
  apply set_leaf_ok. destruct Hc as [? ? ? ?]. split; try done. simpl. by apply dict_set_nodup.
Qed.

Lemma prepare_ok writes c : cache_ok c -> cache_ok (prepare writes c).2.
Proof.
  intros Hc. unfold prepare, mbind, stM_bind.
  pose proof (forM_st_inv cache_ok writes prepare_write (rollback c) (rollback_ok _ Hc)
                (λ x t _ Ht, prepare_write_ok x t Ht)) as H.
  by destruct (forM_st writes prepare_write (rollback c)) as [[[]|e] c'].
Qed.

(** Staging a write keeps the leaves the cache would roll back to, provided the
    key was not staged before. *)
Lemma prepare_write_base w c q :
  dict_get w.1 (_staged_old_leaf_hashes c) = None ->
  base_leaf (prepare_write w c).2 q = base_leaf c q.
Proof.
  intros Hs. unfold prepare_write. destruct w as [k v]. simpl in Hs. destruct (negb _); [done|].
  destruct (if is_none v then _ else _) as [nh|e]; [|done]. case_decide; [done|]. simpl.
  unfold base_leaf. rewrite set_leaf_staged, set_leaf_get. simpl. rewrite dict_get_set.
  case_decide; subst; [by rewrite Hs|]. done.
Qed.

Lemma prepare_write_staged_other w c q :
  q <> w.1 ->
  dict_get q (_staged_old_leaf_hashes (prepare_write w c).2) = dict_get q (_staged_old_leaf_hashes c).
Proof.
  intros Hne. unfold prepare_write. destruct w as [k v]. simpl in Hne. destruct (negb _); [done|].
  destruct (if is_none v then _ else _) as [nh|e]; [|done]. case_decide; [done|]. simpl.
  rewrite set_leaf_staged. simpl. by rewrite dict_get_set_ne.
Qed.

Lemma prepare_loop_base writes c q :
  NoDup (dict_keys writes) ->
  Forall (λ k, dict_get k (_staged_old_leaf_hashes c) = None) (dict_keys writes) ->
  base_leaf (forM_st writes prepare_write c).2 q = base_leaf c q.
Proof.
  revert c. induction writes as [|w writes IH]; intros c Hnd Hst; [done|]. simpl in *.
  apply NoDup_cons in Hnd as [Hw Hnd]. apply Forall_cons in Hst as [Hs Hst].
  unfold mbind, stM_bind. pose proof (prepare_write_base w c q Hs) as Hb.
  pose proof (prepare_write_staged_other w c) as Ho.
  destruct (prepare_write w c) as [[[]|e] c']; [|done]. simpl in *.
  rewrite IH; [done|done|]. apply Forall_forall. intros k Hk. rewrite Ho by (intros ->; done).
  rewrite Forall_forall in Hst. by apply Hst.
Qed.

(** Whatever a preparation does, and whether or not it raises, rolling back
    restores the leaves it started from. *)
Lemma prepare_base writes c q :
  cache_ok c -> NoDup (dict_keys writes) -> base_leaf (prepare writes c).2 q = base_leaf c q.
Proof.
  intros Hc Hnd. rewrite <- (rollback_leaf c q) by done. unfold prepare, mbind, stM_bind.
  pose proof (prepare_loop_base writes (rollback c) q Hnd) as H. unfold base_leaf at 2 in H.
  rewrite rollback_staged in H. simpl in H. rewrite <- H.
  - by destruct (forM_st writes prepare_write (rollback c)) as [[[]|e] c'].
  - by apply Forall_true.
Qed.

#[global] Instance prepare_write_proper w :
  Proper (cache_eq ==> (λ a b, a.1 = b.1 /\ cache_eq a.2 b.2)) (prepare_write w).
Proof.
  intros c1 c2 Hc. pose proof Hc as (Hr & Hl & Hs). unfold prepare_write. destruct w as [k v].
  destruct (negb _); [done|]. destruct (if is_none v then _ else _) as [nh|e]; [|done].
  change (dict_get k (_leaf_hashes ?c)) with (leaf c k). rewrite <- Hl.
  case_decide; [done|]. split; [done|]. simpl. apply set_leaf_proper; [|done|done].
  split_and!; [done|exact Hl|]. simpl. by rewrite Hs.
Qed.

Lemma prepare_loop_proper writes c1 c2 :
  cache_eq c1 c2 ->
  (forM_st writes prepare_write c1).1 = (forM_st writes prepare_write c2).1 /\
  cache_eq (forM_st writes prepare_write c1).2 (forM_st writes prepare_write c2).2.
Proof.
  revert c1 c2. induction writes as [|w writes IH]; intros c1 c2 Hc; [done|]. simpl.
  unfold mbind, stM_bind. destruct (prepare_write_proper w c1 c2 Hc) as [H1 H2].
  destruct (prepare_write w c1) as [[[]|e] c1'], (prepare_write w c2) as [[[]|e'] c2'];
    simpl in *; simplify_eq; [by apply IH|done].
Qed.

Lemma prepare_after_equal_rollback writes c1 c2 :
  cache_eq (rollback c1) (rollback c2) -> (prepare writes c1).1 = (prepare writes c2).1.
Proof.
  intros Hc. unfold prepare, mbind, stM_bind.
  destruct (prepare_loop_proper writes _ _ Hc) as [H1 (H2 & _)].
  destruct (forM_st writes prepare_write (rollback c1)) as [[[]|e] c1'],
    (forM_st writes prepare_write (rollback c2)) as [[[]|e'] c2']; simpl in *; simplify_eq; [|done].
  unfold root_hash. by rewrite H2.
Qed.

Lemma leaf_keys c1 c2 :
  cache_ok c1 -> cache_ok c2 -> (forall q, leaf c1 q = leaf c2 q) ->
  distinct_priorities (dict_keys (_leaf_hashes c1)) -> distinct_priorities (dict_keys (_leaf_hashes c2)).
Proof.
  intros [_ _ N1 _] [_ _ N2 _] Hq. unfold distinct_priorities, dict_keys.
  assert (HP : _leaf_hashes c1 ≡ₚ _leaf_hashes c2) by (apply dict_get_perm; [done..|exact Hq]).
  rewrite HP. done.
Qed.

Lemma rollback_prepare c writes :
  cache_ok c -> _staged_old_leaf_hashes c = [] -> NoDup (dict_keys writes) ->
  distinct_priorities (dict_keys (_leaf_hashes c)) ->
  cache_eq (rollback (prepare writes c).2) c.
Proof.
  intros Hc Hs Hnd Hd. pose proof (prepare_ok writes c Hc) as Hc'.
  assert (Hl : forall q, leaf c q = leaf (rollback (prepare writes c).2) q).
  { intros q. rewrite rollback_leaf by done. rewrite prepare_base by done.
    unfold base_leaf. by rewrite Hs. }
  split_and!; [|done|by rewrite rollback_staged].
  symmetry. apply cache_ok_unique; [done|by apply rollback_ok|done|done].
Qed.

(** Discarding a prepared block is exact: after [prepare writes], whether it
    returned a root or raised part-way, [rollback] restores the tree (hence the
    committed root hash) and every leaf, and preparing another block gives the root it
    would have given if the first had never been prepared. *)
Theorem rollback_restores c writes writes' :
  cache_ok c -> _staged_old_leaf_hashes c = [] -> NoDup (dict_keys writes) ->
  distinct_priorities (dict_keys (_leaf_hashes c)) ->
  cache_eq (rollback (prepare writes c).2) c /\
  (prepare writes' (prepare writes c).2).1 = (prepare writes' c).1.
Proof.
  intros Hc Hs Hnd Hd. pose proof (rollback_prepare c writes Hc Hs Hnd Hd) as H.
  split; [done|]. apply prepare_after_equal_rollback. rewrite H. by rewrite rollback_idle.
Qed.

(** ** The cache tracks the state *)

(** The leaf of an entry of the state, if it has one. *)
Definition leaf_of (k : string) (v : value) : option bytes :=
  if is_none v || negb (is_consensus_state_key k) then None
  else match _hash_leaf k v with Ok h => Some h | Raise _ => None end.

Definition encodable (kv : string * value) : bool :=
  is_none kv.2 || negb (is_consensus_state_key kv.1) || is_ok (_hash_leaf kv.1 kv.2).

Definition leaf_at (items : list (string * value)) (q : string) : option bytes :=
  v ← dict_get q items; leaf_of q v.

Definition put_leaf (c : cache) (kv : string * value) : cache :=
  match leaf_of kv.1 kv.2 with Some h => _set_leaf_hash c kv.1 (Some h) | None => c end.

Lemma rebuild_item_ok kv c c' :
  rebuild_item kv c = (Ok tt, c') -> encodable kv = true /\ c' = put_leaf c kv.
Proof.
  destruct kv as [k v]. unfold rebuild_item, put_leaf, leaf_of, encodable. simpl.
  destruct (is_none v || negb _); [intros; by simplify_eq|].
  destruct (dict_mem _ _); [done|]. destruct (_hash_leaf k v); intros; by simplify_eq.
Qed.

Lemma rebuild_item_run kv c :
  encodable kv = true -> leaf c kv.1 = None -> rebuild_item kv c = (Ok tt, put_leaf c kv).
Proof.
  destruct kv as [k v]. unfold rebuild_item, put_leaf, leaf_of, encodable, leaf, dict_mem. simpl.
  destruct (is_none v || negb _); [done|]. intros He ->. by destruct (_hash_leaf k v).
Qed.

Lemma put_leaf_ok c kv : cache_ok c -> cache_ok (put_leaf c kv).
Proof. intros Hc. unfold put_leaf. destruct (leaf_of _ _); [by apply set_leaf_ok|done]. Qed.

Lemma put_leaf_staged c kv : _staged_old_leaf_hashes (put_leaf c kv) = _staged_old_leaf_hashes c.
Proof. unfold put_leaf. destruct (leaf_of _ _); [apply set_leaf_staged|done]. Qed.

Lemma put_leaf_get c kv q :
  leaf (put_leaf c kv) q =
    if decide (q = kv.1) then match leaf_of q kv.2 with Some h => Some h | None => leaf c q end
    else leaf c q.
Proof.
  unfold put_leaf. case_decide; subst.
  - destruct (leaf_of _ _); [|done]. rewrite set_leaf_get. by rewrite decide_True.
  - destruct (leaf_of _ _); [|done]. rewrite set_leaf_get. by rewrite decide_False.
Qed.

Lemma rebuild_loop_ok items c c' :
  forM_st items rebuild_item c = (Ok tt, c') ->
  Forall (λ kv, encodable kv = true) items /\ c' = foldl put_leaf c items.
Proof.
  revert c. induction items as [|kv items IH]; intros c H; simpl in *.
  - unfold mret, stM_ret in H. simplify_eq. by split.
  - unfold mbind, stM_bind in H. destruct (rebuild_item kv c) as [[[]|e] c1] eqn:E; [|done].
    apply rebuild_item_ok in E as [He ->]. apply IH in H as [? ->]. split; [by constructor|done].
Qed.

Lemma rebuild_loop_run items c :
  Forall (λ kv, encodable kv = true) items -> NoDup (dict_keys items) ->
  (forall k, k ∈ dict_keys items -> leaf c k = None) ->
  forM_st items rebuild_item c = (Ok tt, foldl put_leaf c items).
Proof.
  revert c. induction items as [|kv items IH]; intros c He Hnd Hl; [done|]. simpl in *.
  apply Forall_cons in He as [He1 He]. apply NoDup_cons in Hnd as [Hk Hnd].
  rewrite (stM_bind_ok _ _ _ tt (put_leaf c kv)).
  - apply IH; [done|done|]. intros k Hin. rewrite put_leaf_get, decide_False.
    + apply Hl. by right.
    + intros ->. done.
  - apply rebuild_item_run; [done|]. apply Hl. left.
Qed.

Lemma put_leaves_get items c q :
  NoDup (dict_keys items) ->
  leaf (foldl put_leaf c items) q =
    match leaf_at items q with Some h => Some h | None => leaf c q end.
Proof.
  revert c. induction items as [|[k v] items IH]; intros c Hnd; [done|].
  apply NoDup_cons in Hnd as [Hk Hnd]. simpl. rewrite (IH _ Hnd), put_leaf_get. simpl.
  unfold leaf_at. simpl. case_decide as Hq; [|done]. subst.
  rewrite (proj2 (dict_get_None k items) Hk). done.
Qed.

Lemma put_leaves_ok items c :
  cache_ok c -> cache_ok (foldl put_leaf c items) /\
  _staged_old_leaf_hashes (foldl put_leaf c items) = _staged_old_leaf_hashes c.
Proof.
  revert c. induction items as [|kv items IH]; intros c Hc; [done|]. simpl.
  destruct (IH _ (put_leaf_ok c kv Hc)) as [? ->]. by rewrite put_leaf_staged.
Qed.

Lemma empty_cache_ok : cache_ok empty_cache.
Proof. split; [|done|constructor..]. split_and!; [constructor|done..]. Qed.

Record tracks (c : cache) (items : list (string * value)) : Prop := {
  tr_ok : cache_ok c;
  tr_nodup : NoDup (dict_keys items);
  tr_enc : Forall (λ kv, encodable kv = true) items;
  tr_leaf : forall q, leaf c q = leaf_at items q;
}.

Lemma new_cache_inv items c :
  new_cache items = Ok c ->
  Forall (λ kv, encodable kv = true) items /\ c = foldl put_leaf empty_cache items.
Proof.
  unfold new_cache, rebuild, mbind, stM_bind. rewrite rollback_idle by done. simpl.
  destruct (forM_st items rebuild_item _) as [[[]|e] c'] eqn:E; [|done].
  intros H. simpl in H. apply Ok_inj in H as <-. by apply rebuild_loop_ok in E.
Qed.

Lemma new_cache_tracks items c :
  NoDup (dict_keys items) -> new_cache items = Ok c ->
  tracks c items /\ _staged_old_leaf_hashes c = [].
Proof.
  intros Hnd [He ->]%new_cache_inv.
  destruct (put_leaves_ok items empty_cache empty_cache_ok) as [Hok Hst].
  split; [|done]. split; [done..|]. intros q. rewrite put_leaves_get by done.
  by destruct (leaf_at items q).
Qed.

Lemma tracks_new_cache items :
  NoDup (dict_keys items) -> Forall (λ kv, encodable kv = true) items ->
  exists c, new_cache items = Ok c.
Proof.
  intros Hnd He. unfold new_cache, rebuild, mbind, stM_bind. rewrite rollback_idle by done. simpl.
  rewrite rebuild_loop_run by done. by eexists.
Qed.

(** A root hash is a digest. *)
Lemma root_hash_bytes c :
  (forall b, Forall is_byte (sha256 b)) -> cache_ok c -> Forall is_byte (root_hash c).
Proof.
  intros Hsha [(_ & _ & Hhash) _ _ _]. unfold root_hash, _subtree_hash.
  destruct (_root c) as [|k p lh l r h]; [apply Hsha|]. destruct Hhash as (-> & _). apply Hsha.
Qed.

(** The value a state holds under a key, [None] when it holds none. *)
Definition value_at (items : list (string * value)) (q : string) : value :=
  match dict_get q items with Some v => v | None => VNone end.

Lemma leaf_at_value items q : leaf_at items q = leaf_of q (value_at items q).
Proof. unfold leaf_at, value_at. by destruct (dict_get q items). Qed.

(** Leaves of a tracked state, read off its values. *)
Lemma tracks_values c items' :
  cache_ok c -> NoDup (dict_keys items') ->
  Forall (λ kv, encodable kv = true) items' ->
  (forall q, leaf c q = leaf_of q (value_at items' q)) -> tracks c items'.
Proof. intros Hok Hnd He Hl. split; [done..|]. intros q. by rewrite leaf_at_value. Qed.

(** Two states with the same consensus values are tracked by the same caches. *)
Lemma tracks_same_values c items items' :
  tracks c items -> NoDup (dict_keys items') ->
  (forall q, is_consensus_state_key q = true -> value_at items' q = value_at items q) ->
  tracks c items'.
Proof.
  intros [Hok Hnd He Hl] Hnd' Hv. apply tracks_values; [done..| |].
  - apply Forall_forall. intros [k v] Hin. unfold encodable. cbn [fst snd].
    destruct (is_consensus_state_key k) eqn:Ek; [|by rewrite orb_true_r].
    specialize (Hv k Ek). unfold value_at in Hv. rewrite (dict_get_elem k v items' Hnd' Hin) in Hv.
    destruct (dict_get k items) as [v'|] eqn:Ei; [subst v'|by subst v].
    apply dict_get_Some_elem in Ei. rewrite Forall_forall in He. specialize (He _ Ei).
    unfold encodable in He. cbn [fst snd] in He. by rewrite Ek in He.
  - intros q. rewrite Hl, leaf_at_value. unfold leaf_of.
    destruct (is_consensus_state_key q) eqn:Ek; [by rewrite Hv|by rewrite !orb_true_r].
Qed.

(** A cache that tracks a state has the root a fresh cache computes from it. *)
Lemma tracks_root c items :
  tracks c items -> distinct_priorities (dict_keys (_leaf_hashes c)) ->
  merkle_root_from_items items = Ok (root_hash c).
Proof.
  intros [Hok Hnd He Hl] Hd. destruct (tracks_new_cache items Hnd He) as [c' Hc'].
  destruct (new_cache_tracks items c' Hnd Hc') as [[Hok' _ _ Hl'] _].
  unfold merkle_root_from_items. rewrite Hc'. simpl. f_equal. unfold root_hash.
  rewrite (cache_ok_unique c c'); [done..| |done]. intros q. by rewrite Hl, Hl'.
Qed.

Lemma prepare_write_run w c c' :
  prepare_write w c = (Ok tt, c') ->
  encodable w = true /\
  forall q, leaf c' q = if decide (q = w.1) then
                          if is_consensus_state_key q then leaf_of q w.2 else leaf c q
                        else leaf c q.
Proof.
  destruct w as [k v]. unfold prepare_write, encodable, leaf_of. simpl.
  destruct (is_consensus_state_key k) eqn:Hk; simpl; intros H.
  2: { simplify_eq. rewrite orb_true_r. split; [done|]. intros q. case_decide; subst; by rewrite ?Hk. }
  destruct (is_none v) eqn:Hn; simpl in *.
  - split; [done|]. intros q. case_decide as Hd; simplify_eq.
    + case_decide; subst; [by rewrite Hk|done].
    + rewrite (set_leaf_get _ k None). case_decide; [subst; by rewrite Hk|done].
  - destruct (_hash_leaf k v) as [h|] eqn:Eh; simpl in *; [|done]. split; [done|].
    intros q. case_decide as Hd; simplify_eq.
    + case_decide; subst; [by rewrite Hk, Eh|done].
    + rewrite (set_leaf_get _ k (Some h)). case_decide; [subst; by rewrite Hk, Eh|done].
Qed.

Lemma prepare_loop_run writes c c' :
  NoDup (dict_keys writes) -> forM_st writes prepare_write c = (Ok tt, c') ->
  Forall (λ kv, encodable kv = true) writes /\
  forall q, leaf c' q = match dict_get q writes with
                        | Some v => if is_consensus_state_key q then leaf_of q v else leaf c q
                        | None => leaf c q
                        end.
Proof.
  revert c. induction writes as [|[k v] writes IH]; intros c Hnd H; simpl in *.
  - unfold mret, stM_ret in H. by simplify_eq.
  - unfold mbind, stM_bind in H. destruct (prepare_write (k, v) c) as [[[]|e] c1] eqn:E; [|done].
    apply prepare_write_run in E as [He Hg]. apply NoDup_cons in Hnd as [Hk Hnd].
    destruct (IH _ Hnd H) as [Hes Hq]. split; [by constructor|]. intros q. rewrite Hq, Hg. simpl.
    case_decide as Heq; subst; [|done]. by rewrite (proj2 (dict_get_None k writes) Hk).
Qed.

Lemma apply_writes_encodable items writes :
  Forall (λ kv, encodable kv = true) items -> Forall (λ kv, encodable kv = true) writes ->
  Forall (λ kv, encodable kv = true) (apply_writes items writes).
Proof.
  revert items. induction writes as [|[k v] writes IH]; intros items Hi Hw; [done|].
  apply Forall_cons in Hw as [Hv Hw]. simpl. apply IH; [|done]. unfold apply_write. simpl.
  destruct (is_none v).
  - apply Forall_forall. intros kv [_ Hin]%list_elem_of_filter. rewrite Forall_forall in Hi. by apply Hi.
  - clear IH Hw. induction Hi as [|[k' v'] items Hkv Hi IH]; simpl; [by constructor|].
    case_decide; subst; by constructor.
Qed.

Lemma prepare_tracks c items writes h c' :
  tracks c items -> _staged_old_leaf_hashes c = [] -> NoDup (dict_keys writes) ->
  prepare writes c = (Ok h, c') ->
  tracks c' (apply_writes items writes) /\ h = root_hash c'.
Proof.
  intros [Hok Hnd He Hl] Hs Hw H. pose proof (prepare_ok writes c Hok) as Hok'. rewrite H in Hok'.
  unfold prepare, mbind, stM_bind in H. rewrite rollback_idle in H by done.
  destruct (forM_st writes prepare_write c) as [[[]|e] c1] eqn:E; [|done].
  unfold gets_st in H. simplify_eq. simpl in Hok'.
  apply prepare_loop_run in E as [Hew Hg]; [|done]. split; [|done]. split.
  - done.
  - by apply apply_writes_nodup.
  - by apply apply_writes_encodable.
  - intros q. rewrite Hg, Hl. unfold leaf_at. rewrite apply_writes_get by done.
    destruct (dict_get q writes) as [v|]; [|done].
    destruct (is_consensus_state_key q) eqn:Hk.
    + destruct (is_none v) eqn:Hv; simpl; [|done]. unfold leaf_of. by rewrite Hv.
    + assert (Hno : forall x, leaf_of q x = None) by (intros x; unfold leaf_of; by rewrite Hk, orb_true_r).
      destruct (is_none v), (dict_get q items); simpl; by rewrite ?Hno.
Qed.

Lemma commit_tracks c items : tracks c items -> tracks (commit c) items.
Proof. intros [? ? ? ?]. split; try done. by apply commit_ok. Qed.

(** The blocks of a chain, each prepared and committed on one cache. *)
Fixpoint run_blocks (c : cache) (blocks : list (list (string * value))) : result cache :=
  match blocks with
  | [] => Ok c
  | writes :: blocks =>
    match prepare writes c with
    | (Ok _, c') => run_blocks (commit c') blocks
    | (Raise e, _) => Raise e
    end
  end.

Lemma run_blocks_tracks blocks c items c' :
  tracks c items -> _staged_old_leaf_hashes c = [] ->
  Forall (λ w, NoDup (dict_keys w)) blocks -> run_blocks c blocks = Ok c' ->
  tracks c' (foldl apply_writes items blocks).
Proof.
  revert c items. induction blocks as [|w blocks IH]; intros c items Ht Hs Hb H; simpl in *.
  - by apply Ok_inj in H as <-.
  - apply Forall_cons in Hb as [Hw Hb]. destruct (prepare w c) as [[h|e] c1] eqn:E; [|done].
    destruct (prepare_tracks _ _ _ _ _ Ht Hs Hw E) as [Ht1 _].
    apply (IH (commit c1)); [by apply commit_tracks|done..].
Qed.

(** Claim C3. The incremental root is the root of the state: a cache built from a state
    and carried through any number of blocks by [prepare] and [commit] has exactly
    the root that [merkle_root_from_items] computes from scratch for the state those
    blocks produce, so a node that restarts agrees with one that did not. *)
Theorem incremental_root_correct items blocks c0 c :
  NoDup (dict_keys items) -> Forall (λ w, NoDup (dict_keys w)) blocks ->
  new_cache items = Ok c0 -> run_blocks c0 blocks = Ok c ->
  distinct_priorities (dict_keys (_leaf_hashes c)) ->
  merkle_root_from_items (foldl apply_writes items blocks) = Ok (root_hash c).
Proof.
  intros Hnd Hb Hn Hr Hd. destruct (new_cache_tracks _ _ Hnd Hn) as [Ht Hs].
  apply tracks_root; [by eapply run_blocks_tracks | done].
Qed.

(** The root does not depend on the order in which the state is read: two
    listings of one state have the same root, as LMDB iteration and an exported
    snapshot must. *)
Theorem root_order_independent items1 items2 h :
  NoDup (dict_keys items1) -> items1 ≡ₚ items2 ->
  (forall c, new_cache items1 = Ok c -> distinct_priorities (dict_keys (_leaf_hashes c))) ->
  merkle_root_from_items items1 = Ok h -> merkle_root_from_items items2 = Ok h.
Proof.
  intros Hnd HP Hd H. unfold merkle_root_from_items in H.
  destruct (new_cache items1) as [c|] eqn:E; [|done]. apply Ok_inj in H as <-.
  destruct (new_cache_tracks _ _ Hnd E) as [[Hok _ He Hl] _].
  apply tracks_root; [|by apply Hd]. split; [done|by rewrite <- HP|by rewrite <- HP|].
  intros q. rewrite Hl. unfold leaf_at.
  assert (Hq : dict_get q items1 = dict_get q items2); [|by rewrite Hq].
  assert (Hnd2 : NoDup (dict_keys items2)) by (by rewrite <- HP).
  destruct (dict_get q items1) as [v|] eqn:Eq; symmetry.
  - apply dict_get_elem; [done|]. rewrite <- HP. by apply dict_get_Some_elem.
  - apply dict_get_None. apply dict_get_None in Eq. by rewrite <- HP.
Qed.

(** ** The root binds the state *)

Definition collision : Prop := exists x y, x <> y /\ sha256 x = sha256 y.

Lemma hash_binds x y : sha256 x = sha256 y -> x = y \/ collision.
Proof. destruct (decide (x = y)); [by left|]. right. by exists x, y. Qed.

Lemma to_bytes_big_length w n : length (to_bytes_big w n) = w.
Proof. revert n. induction w as [|w IH]; intros n; simpl; [done|]. rewrite length_app, IH. simpl. lia. Qed.

Lemma to_bytes_big_inj w n m :
  0 <= n < 256 ^ Z.of_nat w -> 0 <= m < 256 ^ Z.of_nat w ->
  to_bytes_big w n = to_bytes_big w m -> n = m.
Proof.
  revert n m. induction w as [|w IH]; intros n m Hn Hm H; [simpl in Hn, Hm; lia|].
  cbn [to_bytes_big] in H. apply app_inj_2 in H as [H1 H2]; [|done].
  rewrite Nat2Z.inj_succ, Z.pow_succ_r in Hn, Hm by lia.
  apply IH in H1.
  - injection H2 as H2. rewrite (Z.div_mod n 256), (Z.div_mod m 256) by lia. by rewrite H1, H2.
  - split; [apply Z.div_pos; lia | apply Z.div_lt_upper_bound; lia].
  - split; [apply Z.div_pos; lia | apply Z.div_lt_upper_bound; lia].
Qed.

Definition small (b : bytes) : Prop := Z.of_nat (length b) < 2 ^ 64.

Lemma length_prefixed_inj b1 b2 r1 r2 :
  small b1 -> small b2 -> _length_prefixed b1 ++ r1 = _length_prefixed b2 ++ r2 ->
  b1 = b2 /\ r1 = r2.
Proof.
  unfold _length_prefixed, small. intros S1 S2 H. rewrite <- !(assoc_L app) in H.
  apply app_inj_1 in H as [Hlen H]; [|by rewrite !to_bytes_big_length].
  apply to_bytes_big_inj in Hlen; [|split; [lia|exact S1]|split; [lia|exact S2]].
  apply app_inj_1 in H as [-> ->]; [done|lia].
Qed.

Lemma leaf_preimage_inj k1 b1 k2 b2 :
  small (encode_utf8 k1) -> small (encode_utf8 k2) -> small b1 -> small b2 ->
  leaf_preimage k1 b1 = leaf_preimage k2 b2 -> k1 = k2 /\ b1 = b2.
Proof.
  intros K1 K2 B1 B2 H. unfold leaf_preimage in H. apply app_inv_head in H.
  apply length_prefixed_inj in H as [Hk Hb]; [|done..].
  rewrite <- (app_nil_r (_length_prefixed b1)), <- (app_nil_r (_length_prefixed b2)) in Hb.
  apply length_prefixed_inj in Hb as [Hb _]; [|done..]. split; [by apply (inj encode_utf8) | done].
Qed.

Context (sha_length : forall b, length (sha256 b) = 32%nat).

Lemma subtree_hash_length t : hashed t -> length (_subtree_hash t) = 32%nat.
Proof. destruct t; simpl; [intros _; apply sha_length|]. intros (-> & _ & _). apply sha_length. Qed.

Lemma tree_binds t1 t2 :
  hashed t1 -> hashed t2 ->
  Forall (λ kv, length kv.2 = 32%nat) (elements t1) ->
  Forall (λ kv, length kv.2 = 32%nat) (elements t2) ->
  _subtree_hash t1 = _subtree_hash t2 -> (elements t1).*2 = (elements t2).*2 \/ collision.
Proof.
  assert (Hempty : forall l h r, EMPTY_STATE_ROOT = _hash_node l h r -> collision).
  { intros l h r [Heq|?]%hash_binds; [|done]. exfalso.
    apply (f_equal (λ b, b !! 19%nat)) in Heq. rewrite lookup_app_l in Heq by (vm_compute; lia).
    vm_compute in Heq. congruence. }
  revert t2. induction t1 as [|k1 p1 lh1 l1 IHl r1 IHr h1]; intros [|k2 p2 lh2 l2 r2 h2] H1 H2 L1 L2 H.
  - by left.
  - destruct H2 as (-> & _ & _). right. by eapply Hempty.
  - destruct H1 as (-> & _ & _). right. by eapply Hempty.
  - destruct H1 as (-> & Hl1 & Hr1), H2 as (-> & Hl2 & Hr2). cbn [_subtree_hash] in H.
    apply hash_binds in H as [H|?]; [|by right]. apply app_inv_head in H.
    cbn [elements] in L1, L2. apply Forall_app in L1 as [L1l [L1h L1r]%Forall_cons].
    apply Forall_app in L2 as [L2l [L2h L2r]%Forall_cons]. simpl in L1h, L2h.
    apply app_inj_1 in H as [Hl H]; [|by rewrite !subtree_hash_length].
    apply app_inj_1 in H as [Hh Hr]; [|congruence].
    destruct (IHl l2 Hl1 Hl2 L1l L2l Hl) as [El|?]; [|by right].
    destruct (IHr r2 Hr1 Hr2 L1r L2r Hr) as [Er|?]; [|by right].
    left. cbn [elements]. rewrite !fmap_app. csimpl. by rewrite El, Er, Hh.
Qed.

(** The bytes a state holds under a consensus key. *)
Definition encoded_at (items : list (string * value)) (q : string) : option bytes :=
  v ← dict_get q items;
  if is_none v || negb (is_consensus_state_key q) then None
  else match encode_abci_json v with Ok b => Some b | Raise _ => None end.

Lemma leaf_at_encoded items q h :
  leaf_at items q = Some h <-> exists b, encoded_at items q = Some b /\ h = sha256 (leaf_preimage q b).
Proof.
  unfold leaf_at, encoded_at, leaf_of, _hash_leaf. destruct (dict_get q items) as [v|]; simpl; [|naive_solver].
  destruct (is_none v || _); [naive_solver|]. destruct (encode_abci_json v); simpl; naive_solver.
Qed.

Definition small_state (items : list (string * value)) : Prop :=
  forall q b, encoded_at items q = Some b -> small (encode_utf8 q) /\ small b.

Lemma tracks_elem c items k h :
  tracks c items -> (k, h) ∈ elements (_root c) ->
  exists b, encoded_at items k = Some b /\ h = sha256 (leaf_preimage k b).
Proof.
  intros [[Ht Hl _ _] _ _ Hq] Hin. apply leaf_at_encoded. rewrite <- Hq, Hl.
  apply dict_get_elem; [|done]. apply bst_nodup, Ht.
Qed.

Lemma elements_bind c1 c2 items1 items2 :
  tracks c1 items1 -> tracks c2 items2 -> small_state items1 -> small_state items2 ->
  (elements (_root c1)).*2 = (elements (_root c2)).*2 ->
  elements (_root c1) = elements (_root c2) \/ collision.
Proof.
  intros T1 T2 S1 S2 H.
  assert (P1 : forall kv, kv ∈ elements (_root c1) -> exists b, small (encode_utf8 kv.1) /\ small b /\
             kv.2 = sha256 (leaf_preimage kv.1 b)).
  { intros [k h] Hin. destruct (tracks_elem _ _ _ _ T1 Hin) as (b & Hb & ->).
    destruct (S1 _ _ Hb). by exists b. }
  assert (P2 : forall kv, kv ∈ elements (_root c2) -> exists b, small (encode_utf8 kv.1) /\ small b /\
             kv.2 = sha256 (leaf_preimage kv.1 b)).
  { intros [k h] Hin. destruct (tracks_elem _ _ _ _ T2 Hin) as (b & Hb & ->).
    destruct (S2 _ _ Hb). by exists b. }
  revert H P1 P2. generalize (elements (_root c2)). generalize (elements (_root c1)).
  induction l as [|[k1 h1] l IH]; intros [|[k2 h2] l2] H P1 P2; csimpl in H; simplify_eq; [by left|].
  destruct (P1 (k1, h2)) as (b1 & ? & ? & E1); [left|]. destruct (P2 (k2, h2)) as (b2 & ? & ? & E2); [left|].
  simpl in *. rewrite E1 in E2. apply hash_binds in E2 as [E2|?]; [|by right].
  apply leaf_preimage_inj in E2 as [-> _]; [|done..].
  destruct (IH l2) as [->|?]; [done| | |by left|by right]; intros kv Hkv; [apply P1|apply P2]; by right.
Qed.

(** Claim C16. The root commits to the state: two states with the same root hold, under
    every consensus key, the same encoded value, or else two inputs of [sha256] with
    equal digests exist. *)
Theorem root_binding items1 items2 h q :
  NoDup (dict_keys items1) -> NoDup (dict_keys items2) ->
  small_state items1 -> small_state items2 ->
  merkle_root_from_items items1 = Ok h -> merkle_root_from_items items2 = Ok h ->
  encoded_at items1 q = encoded_at items2 q \/ collision.
Proof.
  intros N1 N2 S1 S2 H1 H2. unfold merkle_root_from_items in H1, H2.
  destruct (new_cache items1) as [c1|] eqn:E1; [|done]. destruct (new_cache items2) as [c2|] eqn:E2; [|done].
  apply Ok_inj in H1 as <-. apply Ok_inj in H2.
  destruct (new_cache_tracks _ _ N1 E1) as [T1 _], (new_cache_tracks _ _ N2 E2) as [T2 _].
  assert (L : forall c items, tracks c items -> Forall (λ kv, length kv.2 = 32%nat) (elements (_root c))).
  { intros c items T. apply Forall_forall. intros [k hh] Hin.
    destruct (tracks_elem _ _ _ _ T Hin) as (b & _ & ->). apply sha_length. }
  destruct (tree_binds (_root c1) (_root c2)) as [He|?]; [apply T1|apply T2|eauto..| |by right].
  destruct (elements_bind _ _ _ _ T1 T2 S1 S2 He) as [Hel|?]; [|by right].
  assert (Hq : leaf_at items1 q = leaf_at items2 q).
  { rewrite <- (tr_leaf _ _ T1), <- (tr_leaf _ _ T2), (ok_leaf _ (tr_ok _ _ T1)), (ok_leaf _ (tr_ok _ _ T2)).
    by rewrite Hel. }
  destruct (encoded_at items1 q) as [b1|] eqn:B1, (encoded_at items2 q) as [b2|] eqn:B2; try by left.
  - rewrite (proj2 (leaf_at_encoded items1 q _) (ex_intro _ b1 (conj B1 eq_refl))) in Hq.
    rewrite (proj2 (leaf_at_encoded items2 q _) (ex_intro _ b2 (conj B2 eq_refl))) in Hq.
    injection Hq as Hq. apply hash_binds in Hq as [H|?]; [|by right].
    destruct (S1 _ _ B1), (S2 _ _ B2). apply leaf_preimage_inj in H as [_ ->]; [by left|done..].
  - rewrite (proj2 (leaf_at_encoded items1 q _) (ex_intro _ b1 (conj B1 eq_refl))) in Hq.
    symmetry in Hq. apply leaf_at_encoded in Hq as (b & ? & _). congruence.
  - rewrite (proj2 (leaf_at_encoded items2 q _) (ex_intro _ b2 (conj B2 eq_refl))) in Hq.
    apply leaf_at_encoded in Hq as (b & ? & _). congruence.
Qed.
End StateRoot.

(** ** Witnesses, with a polynomial hash in place of SHA-256 *)

Definition toy_sha (b : bytes) : bytes :=
  to_bytes_big 32 (foldl (λ a x, (a * 257 + x + 1) mod 16777213) 7 b).

Definition sample_items : list (string * value) :=
  [("currency.balances:alice", VInt 10); ("__n.alice:", VInt 4); ("__latest_block", VStr "x");
   ("currency.owner", VNone)].
Definition sample_writes : list (string * value) :=
  [("currency.balances:alice", VInt 7); ("currency.balances:bob", VInt 3); ("__n.alice:", VNone)].
Definition sample_cache : cache :=
  match new_cache toy_sha sample_items with Ok c => c | Raise _ => empty_cache end.

(** Decides a closed [NoDup] goal. *)
Ltac nodup_by_compute := apply (bool_decide_unpack _); vm_compute; exact I.

Lemma sample_cache_ok : cache_ok toy_sha sample_cache.
Proof.
  apply (new_cache_tracks toy_sha sample_items); [nodup_by_compute|vm_compute; reflexivity].
Qed.

Lemma rollback_restores_witness :
  cache_eq (rollback toy_sha (prepare toy_sha sample_writes sample_cache).2) sample_cache.
Proof.
  apply (rollback_restores toy_sha sample_cache sample_writes []).
  - exact sample_cache_ok.
  - vm_compute. reflexivity.
  - nodup_by_compute.
  - unfold distinct_priorities. nodup_by_compute.
Defined.

Lemma incremental_root_correct_witness :
  exists c, run_blocks toy_sha sample_cache [sample_writes; sample_writes] = Ok c /\
    merkle_root_from_items toy_sha (foldl apply_writes sample_items [sample_writes; sample_writes])
    = Ok (root_hash toy_sha c).
Proof.
  eexists. split; [vm_compute; reflexivity|].
  eapply (incremental_root_correct toy_sha sample_items [sample_writes; sample_writes]).
  - nodup_by_compute.
  - repeat constructor; nodup_by_compute.
  - vm_compute. reflexivity.
  - vm_compute. reflexivity.
  - unfold distinct_priorities. nodup_by_compute.
Defined.

Lemma root_order_independent_witness :
  merkle_root_from_items toy_sha (reverse sample_items) = merkle_root_from_items toy_sha sample_items.
Proof.
  transitivity (Ok (root_hash toy_sha sample_cache)); [|vm_compute; reflexivity].
  apply (root_order_independent toy_sha sample_items).
  - nodup_by_compute.
  - symmetry. apply reverse_Permutation.
  - intros c Hc. vm_compute in Hc. apply Ok_inj in Hc as <-. unfold distinct_priorities. nodup_by_compute.
  - vm_compute. reflexivity.
Defined.

Lemma sample_small : small_state sample_items.
Proof.
  intros q b H. destruct (dict_get q sample_items) as [v|] eqn:E.
  - apply dict_get_Some_elem in E. unfold sample_items in E.
    rewrite !elem_of_cons, elem_of_nil in E.
    destruct E as [E|[E|[E|[E|[]]]]]; injection E as -> ->; vm_compute in H;
      try discriminate H; injection H as <-; by vm_compute.
  - unfold encoded_at in H. by rewrite E in H.
Qed.

Lemma root_binding_witness :
  encoded_at sample_items "currency.owner" = encoded_at (reverse sample_items) "currency.owner"
  \/ collision toy_sha.
Proof.
  apply (root_binding toy_sha (λ b, to_bytes_big_length 32 _) sample_items (reverse sample_items)
           (root_hash toy_sha sample_cache)).
  - nodup_by_compute.
  - nodup_by_compute.
  - exact sample_small.
  - intros q b H. apply sample_small. rewrite <- H. unfold encoded_at.
    rewrite dict_get_reverse; [done|]. nodup_by_compute.
  - vm_compute. reflexivity.
  - vm_compute. reflexivity.
Defined.
