(* ===== verification/Formatting.v ===== *)
(** * Field formats (src/src/xian/formatting.py)

    The predicates a transaction's fields must satisfy and the rule tables
    [check_format] walks.  [is_safe_contract_name] belongs to the contracting
    package and is a parameter. *)

From Stdlib Require Import Ascii.
From S2P Require Import Prelude PyValue Json.

Definition MIN_JSON_INTEGER : Z := - 2 ^ 63.
Definition MAX_JSON_INTEGER : Z := 2 ^ 64 - 1.

Definition is_hex_digit (c : ascii) : bool := match hex_value c with Some _ => true | None => false end.
Definition is_alpha (c : ascii) : bool :=
  let b := byte_of_ascii c in ((65 <=? b) && (b <=? 90)) || ((97 <=? b) && (b <=? 122)).
Definition is_word (c : ascii) : bool := is_alpha c || is_digit c || bool_decide (c = "_"%char).

(** [[0-9a-fA-F]{n}] in full. *)
Definition hex_string (n : nat) (s : string) : bool :=
  Nat.eqb (String.length s) n && forallb is_hex_digit (str_chars s).

Definition vk_is_formatted (v : value) : bool :=
  match v with VStr s => hex_string 64 s | _ => false end.
Definition signature_is_formatted (v : value) : bool :=
  match v with VStr s => hex_string 128 s | _ => false end.

(** [[a-zA-Z][a-zA-Z0-9_]*] in full. *)
Definition identifier (s : string) : bool :=
  match str_chars s with c :: r => is_alpha c && forallb is_word r | [] => false end.
Definition identifier_is_formatted (v : value) : bool :=
  match v with VStr s => identifier s | _ => false end.

Fixpoint json_value_is_formatted (v : value) : bool :=
  match v with
  | VDict d => forallb (λ kv, json_value_is_formatted kv.2) d
  | VList l => forallb json_value_is_formatted l
  | VInt z => (MIN_JSON_INTEGER <=? z) && (z <=? MAX_JSON_INTEGER)
  | VFloat _ => false
  | _ => true
  end.

Definition kwargs_are_formatted (v : value) : bool :=
  match v with
  | VDict d => forallb (λ kv, identifier kv.1) d && json_value_is_formatted v
  | _ => false
  end.

Definition number_is_formatted (v : value) : bool :=
  match v with
  | VInt i => if i <? 0 then false else i <=? MAX_JSON_INTEGER
  | _ => false
  end.

Definition cid_id_formated (v : value) : bool := is_str v.

(** A rule is a predicate or a dict of rules. *)
Inductive rule :=
  | RCall (f : value -> bool)
  | RDict (rules : list (string * rule)).

Definition TRANSACTION_PAYLOAD_RULES : list (string * rule) :=
  [("sender", RCall vk_is_formatted);
   ("nonce", RCall number_is_formatted);
   ("chi_supplied", RCall number_is_formatted);
   ("contract", RCall identifier_is_formatted);
   ("function", RCall identifier_is_formatted);
   ("kwargs", RCall kwargs_are_formatted);
   ("chain_id", RCall cid_id_formated)].

Definition TRANSACTION_METADATA_RULES : list (string * rule) :=
  [("signature", RCall signature_is_formatted)].

Definition TRANSACTION_RULES : list (string * rule) :=
  [("metadata", RDict TRANSACTION_METADATA_RULES); ("payload", RDict TRANSACTION_PAYLOAD_RULES)].

Section ContractName.
Context (is_safe_contract_name : value -> bool).

(** [s.startswith] on a value that is not a [str] raises. *)
Definition contract_name_is_formatted (v : value) : result bool :=
  if is_safe_contract_name v then
    match v with
    | VStr s => Ok (startswith "con_" s)
    | _ => raise AttributeError "object has no attribute 'startswith'"
    end
  else Ok false.
End ContractName.

(** A number a transaction may carry fits 64 bits unsigned. *)
Lemma number_is_formatted_spec v :
  number_is_formatted v = true <-> exists z, v = VInt z /\ 0 <= z <= MAX_JSON_INTEGER.
Proof.
  split.
  - destruct v; try done. simpl. destruct (z <? 0) eqn:E; [done|]. intros H. exists z. split; [done|lia].
  - intros (z & -> & Hz). simpl. assert (E : (z <? 0) = false) by lia. rewrite E. lia.
Qed.
