(* ===== verification/FeePolicy.v ===== *)
(** * Fee policy (src/src/xian/fee_policy.py)

    Paid or free metering of user transactions, the chi limits of a transaction
    and of a block. *)

From S2P Require Import Prelude PyValue Json PyBuiltins.

Definition PAID_METERED : string := "paid_metered".
Definition FREE_METERED : string := "free_metered".
Definition SYSTEM_UNMETERED : string := "system_unmetered".
Definition DEFAULT_TX_FEE_MODE : string := PAID_METERED.
Definition DEFAULT_FREE_TX_MAX_CHI : Z := 1000000.
Definition DEFAULT_FREE_BLOCK_MAX_CHI : Z := 20000000.
Definition SUPPORTED_TX_FEE_MODES : list string := [PAID_METERED; FREE_METERED].

Record TxFeePolicy := {
  mode : string;
  meter_execution : bool;
  charge_fees : bool;
  distribute_fee_rewards : bool;
  require_chi_balance : bool;
  max_tx_chi : option Z;
  max_block_chi : option Z;
}.

(** [str(mode or DEFAULT).strip().lower()]: the text of a truthy value that is not a
    [str] is never a supported mode. *)
Definition normalize_tx_fee_mode (m : value) : result string :=
  let unsupported := raise ValueError "tx_fee_mode must be one of ['free_metered', 'paid_metered']" in
  match py_or m (VStr DEFAULT_TX_FEE_MODE) with
  | VStr s => let normalized := py_lower (py_strip s) in
              if bool_decide (normalized ∈ SUPPORTED_TX_FEE_MODES) then Ok normalized else unsupported
  | _ => unsupported
  end.

Section FeePolicy.
Context (float_trunc : string -> result Z).

(** [int(v)] with [TypeError] and [ValueError] turned into [e]. *)
Definition int_or (e : exn) (v : value) : result Z :=
  match py_int float_trunc v with
  | Ok z => Ok z
  | Raise (Exn TypeError _) | Raise (Exn ValueError _) => Raise e
  | Raise e' => Raise e'
  end.

Definition _positive_int (v : value) (name : string) : result Z :=
  let e := Exn ValueError (name +:+ " must be greater than zero") in
  normalized ← int_or e v;
  if normalized <=? 0 then Raise e else Ok normalized.

Definition paid_metered (tx block : option Z) : TxFeePolicy := {|
  mode := PAID_METERED; meter_execution := true; charge_fees := true;
  distribute_fee_rewards := true; require_chi_balance := true;
  max_tx_chi := tx; max_block_chi := block |}.

Definition free_metered (tx block : Z) : TxFeePolicy := {|
  mode := FREE_METERED; meter_execution := true; charge_fees := false;
  distribute_fee_rewards := false; require_chi_balance := false;
  max_tx_chi := Some tx; max_block_chi := Some block |}.

Definition system_unmetered : TxFeePolicy := {|
  mode := SYSTEM_UNMETERED; meter_execution := false; charge_fees := false;
  distribute_fee_rewards := false; require_chi_balance := false;
  max_tx_chi := None; max_block_chi := None |}.

Definition from_runtime_config (config : option (list (string * value))) : result TxFeePolicy :=
  let payload := default [] config in
  mode ← normalize_tx_fee_mode (py_get "tx_fee_mode" payload VNone);
  if decide (mode = PAID_METERED) then Ok (paid_metered None None)
  else
    tx ← _positive_int (py_get "free_tx_max_chi" payload (VInt DEFAULT_FREE_TX_MAX_CHI)) "free_tx_max_chi";
    block ← _positive_int (py_get "free_block_max_chi" payload (VInt DEFAULT_FREE_BLOCK_MAX_CHI)) "free_block_max_chi";
    Ok (free_metered tx block).

Definition tx_chi_supplied (tx : value) : result Z :=
  let payload := match tx with VDict d => py_get "payload" d VNone | _ => VNone end in
  match payload with
  | VDict p =>
    let invalid := Exn TransactionException "Transaction chi_supplied is invalid" in
    chi_supplied ← int_or invalid (py_or (py_get "chi_supplied" p VNone) (VInt 0));
    if chi_supplied <? 0 then Raise invalid else Ok chi_supplied
  | _ => raise TransactionException "Transaction payload is missing"
  end.

Definition validate_tx (self : TxFeePolicy) (tx : value) : result unit :=
  chi_supplied ← tx_chi_supplied tx;
  if meter_execution self && (chi_supplied <=? 0) then
    raise TransactionException "Transaction chi_supplied must be greater than zero"
  else match max_tx_chi self with
  | None => Ok tt
  | Some m => if m <? chi_supplied then
                raise TransactionException
                  ("Transaction chi_supplied exceeds maximum configured limit of " +:+ py_int_str m)
              else Ok tt
  end.

Definition validate_block_total (self : TxFeePolicy) (total_chi_supplied : Z) : result unit :=
  match max_block_chi self with
  | None => Ok tt
  | Some m => if m <? total_chi_supplied then
                raise TransactionException
                  ("Block chi_supplied exceeds maximum configured limit of " +:+ py_int_str m)
              else Ok tt
  end.

Lemma tx_chi_supplied_nonneg tx z : tx_chi_supplied tx = Ok z -> 0 <= z.
Proof.
  unfold tx_chi_supplied. intros H. destruct (match tx with VDict _ => _ | _ => _ end); try done. destruct_result.
  destruct (a <? 0) eqn:Ez; [done|]. destruct_result. lia.
Qed.

Lemma validate_block_total_spec p total :
  validate_block_total p total = Ok tt <-> (forall m, max_block_chi p = Some m -> total <= m).
Proof.
  unfold validate_block_total. destruct (max_block_chi p) as [m|]; [|naive_solver].
  destruct (m <? total) eqn:E; (split; [intros H|intros H]).
  - done.
  - specialize (H m eq_refl). lia.
  - intros m' [= <-]. lia.
  - done.
Qed.

Lemma positive_int_pos v name z : _positive_int v name = Ok z -> 0 < z.
Proof.
  unfold _positive_int. intros H. destruct_result. destruct (a <=? 0) eqn:E'; [done|].
  destruct_result. lia.
Qed.

(** Every policy a node can be configured with meters execution, so a user
    transaction it admits supplies a positive chi budget within the policy's
    per-transaction limit, and its limits are positive when it has any. *)
Theorem runtime_policy_budget config p tx :
  from_runtime_config config = Ok p -> validate_tx p tx = Ok tt ->
  exists chi, tx_chi_supplied tx = Ok chi /\ 0 < chi /\
    (forall m, max_tx_chi p = Some m -> chi <= m) /\
    (forall m, max_block_chi p = Some m -> 0 < m) /\
    (require_chi_balance p = true <-> charge_fees p = true).
Proof.
  intros Hp Hv. unfold validate_tx in Hv. destruct_result. exists a. split; [done|].
  assert (Hmcb : meter_execution p = true /\ (require_chi_balance p = true <-> charge_fees p = true) /\
               (forall m, max_block_chi p = Some m -> 0 < m)).
  { unfold from_runtime_config in Hp. destruct_result. case_decide; destruct_result; [done|].
    split_and!; [done|done|]. intros m [= <-]. by eapply positive_int_pos. }
  destruct Hmcb as (Hm & Hc & Hb). rewrite Hm in Hv. simpl in Hv. destruct (a <=? 0) eqn:Ea; [done|].
  split_and!; [lia| |done|apply Hc..].
  intros m Hmx. rewrite Hmx in Hv. destruct (m <? a) eqn:El; [done|]. lia.
Qed.
End FeePolicy.

Lemma runtime_policy_budget_witness :
  exists chi, tx_chi_supplied (λ _, raise ValueError "nan")
    (VDict [("payload", VDict [("chi_supplied", VInt 50)])]) = Ok chi /\ 0 < chi.
Proof.
  destruct (runtime_policy_budget (λ _, raise ValueError "nan")
    (Some [("tx_fee_mode", VStr " Free_Metered "); ("free_tx_max_chi", VStr "100")])
    (free_metered 100 DEFAULT_FREE_BLOCK_MAX_CHI)
    (VDict [("payload", VDict [("chi_supplied", VInt 50)])])) as (chi & H1 & H2 & _);
    [vm_compute; reflexivity|vm_compute; reflexivity|]. exists chi. by split.
Defined.
