(* ===== verification/Nonce.v ===== *)
(** * Nonces (src/src/xian/nonce.py)

    Committed nonces live in the storage driver under [__n.<sender>:]; the nonces
    reserved by transactions in the local mempool live in [pending_nonces], per
    sender, each with the hash of the transaction that holds it and the time it
    was reserved, and expire after a time to live.

    [time.monotonic] is the sequence [monotonic] of the readings it gives; the
    state counts how many were taken.  The float clock is read as an integer
    number of ticks, so the rounding of its subtraction is not modelled.  The
    re-entrant lock makes every method atomic. *)

From stdpp Require Import fin_maps fin_map_dom.
From S2P Require Import Prelude PyValue Json PyBuiltins Driver Encoding ExecutionPolicy StateRoot.

Record NonceReservation := Reservation { res_tx_hash : string; reserved_at : Z }.

(** The fields of a transaction the nonce checks read. *)
Definition tx_field (field : string) (tx : value) : result value :=
  payload ← py_item "payload" tx; py_item field payload.

Definition as_str (v : value) : result string :=
  match v with VStr s => Ok s | _ => raise TypeError "expected str" end.

Definition tx_sender (tx : value) : result string := v ← tx_field "sender" tx; as_str v.

Definition NONCE_FILENAME : string := "__n".

Definition nonce_key (sender : string) : string :=
  NONCE_FILENAME +:+ INDEX_SEPARATOR +:+ sender +:+ DELIMITER.

Definition nonce_mismatch {A} (expected : Z) (got : value) : result A :=
  raise TransactionException
    ("Transaction nonce is invalid. Expected " +:+ py_int_str expected +:+ ", got " +:+
     match got with VInt n => py_int_str n | _ => "another value" end).

Section Nonce.
Context {D : Type} `{DriverOps D}.
Context (monotonic : nat -> Z) (reservation_ttl_seconds : Z) (max_pending_config : Z).

(** [max(int(max_pending_nonces_per_sender), 1)]. *)
Definition max_pending_nonces_per_sender : Z := Z.max max_pending_config 1.

Record NonceStorage := MkNonceStorage {
  ns_driver : D;
  pending_nonces : gmap string (gmap Z NonceReservation);
  clock_reads : nat;
}.

Definition set_pending_map (s : NonceStorage) (p : gmap string (gmap Z NonceReservation)) : NonceStorage :=
  MkNonceStorage (ns_driver s) p (clock_reads s).

(** [self._now()]. *)
Definition _now : stM NonceStorage Z := λ s,
  (Ok (monotonic (clock_reads s)),
   MkNonceStorage (ns_driver s) (pending_nonces s) (S (clock_reads s))).

(** The reservations of a sender; [self.pending_nonces.get(sender, {})]. *)
Definition pend (s : NonceStorage) (sender : string) : gmap Z NonceReservation :=
  default ∅ (pending_nonces s !! sender).

Definition put_pend (s : NonceStorage) (sender : string) (m : gmap Z NonceReservation) : NonceStorage :=
  set_pending_map s (if decide (m = ∅) then delete sender (pending_nonces s)
                     else <[sender := m]> (pending_nonces s)).

Definition unexpired (expires_before : Z) (m : gmap Z NonceReservation) : gmap Z NonceReservation :=
  filter (λ nr, ~ reserved_at nr.2 < expires_before) m.

Definition _prune_pending_for_sender (sender : string) : stM NonceStorage unit := λ s,
  let sender_pending := pend s sender in
  if decide (sender_pending = ∅) then
    (Ok tt, set_pending_map s (delete sender (pending_nonces s)))
  else if reservation_ttl_seconds <=? 0 then (Ok tt, s)
  else
    (now ← _now;
     modify_st (λ s, put_pend s sender
                       (unexpired (now - reservation_ttl_seconds) (pend s sender)))) s.

Definition _prune_pending : stM NonceStorage unit := λ s,
  forM_st (map_to_list (pending_nonces s)).*1 _prune_pending_for_sender s.

(** A stored nonce is an [int] or absent. *)
Definition nonce_of_value (v : value) : result (option Z) :=
  match v with
  | VNone => Ok None
  | VInt z => Ok (Some z)
  | _ => raise TypeError "stored nonce is not an int"
  end.

Definition get_nonce (d : D) (sender : string) : result (option Z) :=
  nonce_of_value (drv_get d (nonce_key sender)).

Definition _get_committed_nonce (sender : string) : stM NonceStorage (option Z) := λ s,
  (get_nonce (ns_driver s) sender, s).

Definition set_nonce (sender : string) (v : value) : stM NonceStorage unit :=
  modify_st (λ s, MkNonceStorage (drv_set (ns_driver s) (nonce_key sender) v)
                                 (pending_nonces s) (clock_reads s)).

Definition set_nonce_by_tx (tx : value) : stM NonceStorage unit :=
  sender ← lift_res (tx_sender tx);
  nonce ← lift_res (tx_field "nonce" tx);
  set_nonce sender nonce.

(** [while (latest_nonce + 1) in sender_pending: latest_nonce += 1]; every turn
    consumes a key, so the number of reservations is fuel enough. *)
Fixpoint advance (fuel : nat) (latest_nonce : Z) (sender_pending : gmap Z NonceReservation) : Z :=
  match fuel with
  | O => latest_nonce
  | S fuel =>
    match sender_pending !! (latest_nonce + 1) with
    | Some _ => advance fuel (latest_nonce + 1) sender_pending
    | None => latest_nonce
    end
  end.

Definition get_pending_nonce (sender : string) : stM NonceStorage (option Z) :=
  _ ← _prune_pending_for_sender sender;
  sender_pending ← gets_st (λ s, pend s sender);
  if decide (sender_pending = ∅) then mret None
  else
    committed ← _get_committed_nonce sender;
    let current_nonce := default (-1) committed in
    let latest_nonce := advance (size sender_pending) current_nonce sender_pending in
    if latest_nonce =? current_nonce then mret None else mret (Some latest_nonce).

Definition get_latest_nonce (sender : string) : stM NonceStorage Z :=
  p ← get_pending_nonce sender;
  match p with
  | Some n => mret n
  | None => c ← _get_committed_nonce sender; mret (default 0 c)
  end.

Definition get_next_nonce (sender : string) : stM NonceStorage Z :=
  p ← get_pending_nonce sender;
  match p with
  | Some n => mret (n + 1)
  | None => c ← _get_committed_nonce sender;
            match c with None => mret 0 | Some n => mret (n + 1) end
  end.

(** [check_nonce].  [sender_pending] is the dict held in [pending_nonces], which
    [get_next_nonce] prunes in place, so the reservations counted and extended at
    the end are those left after it. *)
Definition reserve (sender : string) (n : Z) (tx_hash : string) : stM NonceStorage unit :=
  now ← _now;
  modify_st (λ s, put_pend s sender (<[n := Reservation tx_hash now]> (pend s sender))).

Definition existing_reservation (sender_pending : gmap Z NonceReservation) (tx_nonce : value)
  : option (Z * NonceReservation) :=
  match tx_nonce with
  | VInt n => r ← sender_pending !! n; Some (n, r)
  | _ => None
  end.

Definition check_nonce (tx : value) (tx_hash : string) : stM NonceStorage unit :=
  tx_nonce ← lift_res (tx_field "nonce" tx);
  tx_sender ← lift_res (tx_sender tx);
  _ ← _prune_pending_for_sender tx_sender;
  sender_pending ← gets_st (λ s, pend s tx_sender);
  let take_next :=
    expected_nonce ← get_next_nonce tx_sender;
    if decide (tx_nonce = VInt expected_nonce) then
      sender_pending ← gets_st (λ s, pend s tx_sender);
      if max_pending_nonces_per_sender <=? Z.of_nat (size sender_pending) then
        raise_st TransactionException "Too many pending transactions reserved for sender"
      else reserve tx_sender expected_nonce tx_hash
    else lift_res (nonce_mismatch expected_nonce tx_nonce) in
  match existing_reservation sender_pending tx_nonce with
  | Some (n, existing) =>
    if decide (res_tx_hash existing = tx_hash) then reserve tx_sender n tx_hash else take_next
  | None => take_next
  end.

Definition safe_set_nonce (sender : string) (v : Z) : stM NonceStorage unit :=
  c ← _get_committed_nonce sender;
  if default (-1) c <? v then set_nonce sender (VInt v) else mret tt.

Definition manual_hash (sender : string) (nonce : Z) : string :=
  "manual:" +:+ sender +:+ ":" +:+ py_int_str nonce.

Definition set_pending_nonce (sender : string) (v : Z) : stM NonceStorage unit :=
  c ← _get_committed_nonce sender;
  let current_nonce := default (-1) c in
  now ← _now;
  let sender_pending : gmap Z NonceReservation :=
    list_to_map ((λ n, (n, Reservation (manual_hash sender n) now)) <$>
                 seqZ (current_nonce + 1) (v - current_nonce)) in
  modify_st (λ s, put_pend s sender sender_pending).

Definition reconcile_sender (sender : string) : stM NonceStorage unit :=
  c ← _get_committed_nonce sender;
  match c with
  | None => mret tt
  | Some committed_nonce =>
      modify_st (λ s, put_pend s sender
                        (filter (λ nr, ~ nr.1 <= committed_nonce) (pend s sender)))
  end.

Definition reconcile_pending : stM NonceStorage unit :=
  _ ← _prune_pending;
  s ← get_st;
  forM_st (map_to_list (pending_nonces s)).*1 reconcile_sender.

Definition flush_pending : stM NonceStorage unit := modify_st (λ s, set_pending_map s ∅).

(** ** Lemmas *)

Lemma pend_put_eq s sender m : pend (put_pend s sender m) sender = m.
Proof.
  unfold pend, put_pend. simpl. case_decide; subst; [by rewrite lookup_delete_eq|].
  by rewrite lookup_insert_eq.
Qed.

Lemma pend_put_ne s sender sender' m :
  sender' <> sender -> pend (put_pend s sender m) sender' = pend s sender'.
Proof.
  intros Hne. unfold pend, put_pend. simpl.
  case_decide; [by rewrite lookup_delete_ne | by rewrite lookup_insert_ne].
Qed.

Lemma put_pend_driver s sender m :
  ns_driver (put_pend s sender m) = ns_driver s /\ clock_reads (put_pend s sender m) = clock_reads s.
Proof. done. Qed.

(** What a method that only prunes a sender's reservations may change. *)
Record pruned (sender : string) (s s' : NonceStorage) : Prop := {
  pr_driver : ns_driver s' = ns_driver s;
  pr_other sender' : sender' <> sender -> pend s' sender' = pend s sender';
  pr_sub : pend s' sender ⊆ pend s sender;
  pr_clock : (clock_reads s <= clock_reads s')%nat;
  pr_dropped n r : pend s sender !! n = Some r -> pend s' sender !! n = None ->
    exists i, (clock_reads s <= i < clock_reads s')%nat /\
              reserved_at r < monotonic i - reservation_ttl_seconds;
}.

Lemma pruned_refl sender s : pruned sender s s.
Proof. split; try done. intros n r E1 E2. congruence. Qed.

Lemma pruned_trans sender s1 s2 s3 : pruned sender s1 s2 -> pruned sender s2 s3 -> pruned sender s1 s3.
Proof.
  intros [D1 O1 S1 C1 X1] [D2 O2 S2 C2 X2]. split.
  - congruence.
  - intros s' Hne. by rewrite O2, O1.
  - by etrans.
  - lia.
  - intros n r E1 E3. destruct (pend s2 sender !! n) as [r2|] eqn:E2.
    + assert (r2 = r) as -> by (eapply lookup_weaken in E2; [|exact S1]; congruence).
      destruct (X2 _ _ E2 E3) as (i & Hi & ?). exists i. split; [lia|done].
    + destruct (X1 _ _ E1 E2) as (i & Hi & ?). exists i. split; [lia|done].
Qed.

Lemma prune_sender_spec sender s :
  exists s', _prune_pending_for_sender sender s = (Ok tt, s') /\ pruned sender s s'.
Proof.
  unfold _prune_pending_for_sender. case_decide as He.
  - eexists. split; [done|]. assert (Hd : pend (set_pending_map s (delete sender (pending_nonces s))) sender = ∅).
    { unfold pend. simpl. by rewrite lookup_delete_eq. }
    split; try done.
    + intros s' Hne. unfold pend. simpl. by rewrite lookup_delete_ne.
    + rewrite Hd. apply map_empty_subseteq.
    + intros n r E. rewrite He in E. by rewrite lookup_empty in E.
  - destruct (reservation_ttl_seconds <=? 0); [eexists; split; [done|apply pruned_refl]|].
    unfold mbind, stM_bind, _now, modify_st. simpl. eexists. split; [done|]. split.
    + done.
    + intros s' Hne. by rewrite pend_put_ne.
    + rewrite pend_put_eq. unfold pend. simpl. apply map_filter_subseteq.
    + simpl. lia.
    + intros n r E1. rewrite pend_put_eq. unfold unexpired. change (pend _ sender) with (pend s sender).
      rewrite map_lookup_filter_None. intros [E2|Hx]; [congruence|].
      exists (clock_reads s). split; [simpl; lia|]. specialize (Hx r E1). simpl in Hx. lia.
Qed.

(** The loop stops at the first gap: with as much fuel as there are reservations
    it never stops early. *)
Lemma advance_spec m fuel c :
  let n := advance fuel c m in
  c <= n /\ (forall i, c < i <= n -> is_Some (m !! i)) /\
  (m !! (n + 1) = None \/ n = c + Z.of_nat fuel).
Proof.
  revert c. induction fuel as [|fuel IH]; intros c; simpl.
  - split_and!; [lia| |right; lia]. intros i Hi. lia.
  - destruct (m !! (c + 1)) as [r|] eqn:E.
    + destruct (IH (c + 1)) as (H1 & H2 & H3). split_and!; [lia| |].
      * intros i Hi. destruct (decide (i = c + 1)) as [->|]; [by rewrite E|]. apply H2. lia.
      * destruct H3 as [?|H3]; [by left|right; lia].
    + split_and!; [lia| |by left]. intros i Hi. lia.
Qed.

Lemma consecutive_size (m : gmap Z NonceReservation) c k :
  (forall i, c < i <= c + Z.of_nat k -> is_Some (m !! i)) -> (k <= size m)%nat.
Proof.
  intros Hm. assert (Hsub : (list_to_set (seqZ (c + 1) (Z.of_nat k)) : gset Z) ⊆ dom m).
  { intros i Hi. apply elem_of_list_to_set, elem_of_seqZ in Hi. apply elem_of_dom, Hm. lia. }
  apply subseteq_size in Hsub. rewrite size_dom, size_list_to_set in Hsub by apply NoDup_seqZ.
  rewrite length_seqZ in Hsub. lia.
Qed.

Lemma advance_gap m c :
  let n := advance (size m) c m in
  c <= n /\ (forall i, c < i <= n -> is_Some (m !! i)) /\ m !! (n + 1) = None.
Proof.
  destruct (advance_spec m (size m) c) as (H1 & H2 & H3). split_and!; [done|done|].
  destruct H3 as [?|H3]; [done|]. destruct (m !! (advance (size m) c m + 1)) as [r|] eqn:E; [|done].
  exfalso. pose proof (consecutive_size m c (S (size m))) as Hs. cut (S (size m) <= size m)%nat; [lia|].
  apply Hs. intros i Hi. destruct (decide (i = c + Z.of_nat (size m) + 1)) as [->|].
  - rewrite <- H3. by rewrite E.
  - apply H2. lia.
Qed.

(** The first nonce after the committed one that no reservation holds. *)
Definition next_free (m : gmap Z NonceReservation) (committed : option Z) (n : Z) : Prop :=
  let c := default (-1) committed in
  c < n /\ (forall i, c < i < n -> is_Some (m !! i)) /\ m !! n = None.

Lemma get_next_nonce_spec sender s c :
  get_nonce (ns_driver s) sender = Ok c ->
  exists n s', get_next_nonce sender s = (Ok n, s') /\ pruned sender s s' /\
    next_free (pend s' sender) c n.
Proof.
  intros Hc. unfold get_next_nonce, get_pending_nonce.
  destruct (prune_sender_spec sender s) as (s1 & E1 & P1).
  unfold mbind, stM_bind. rewrite E1. unfold gets_st. cbn [mret stM_ret].
  assert (Hc1 : get_nonce (ns_driver s1) sender = Ok c) by (by rewrite (pr_driver _ _ _ P1)).
  unfold _get_committed_nonce.
  assert (Hnone : pend s1 sender !! (default (-1) c + 1) = None ->
            exists n s', ((match c with None => mret 0 | Some n => mret (n + 1) end) : stM NonceStorage Z) s1 = (Ok n, s') /\
              pruned sender s s' /\ next_free (pend s' sender) c n).
  { intros Hn. exists (default (-1) c + 1), s1. split_and!; [by destruct c|done|].
    unfold next_free. split_and!; [lia| |done]. intros i Hi. lia. }
  case_decide as He; cbn [mret stM_ret].
  - rewrite Hc1. apply Hnone. by rewrite He, lookup_empty.
  - rewrite Hc1. destruct (advance_gap (pend s1 sender) (default (-1) c)) as (H1 & H2 & H3).
    destruct (_ =? _) eqn:E; cbn [mret stM_ret].
    + rewrite Hc1. apply Hnone. apply Z.eqb_eq in E. by rewrite <- E.
    + eexists _, s1. split_and!; [done|done|]. unfold next_free. split_and!; [lia| |done].
      intros i Hi. apply H2. lia.
Qed.

Lemma get_nonce_error sender s e :
  get_nonce (ns_driver s) sender = Raise e ->
  exists s', get_next_nonce sender s = (Raise e, s') /\ pruned sender s s'.
Proof.
  intros Hc. unfold get_next_nonce, get_pending_nonce.
  destruct (prune_sender_spec sender s) as (s1 & E1 & P1).
  unfold mbind, stM_bind. rewrite E1. unfold gets_st. cbn [mret stM_ret].
  assert (Hc1 : get_nonce (ns_driver s1) sender = Raise e) by (by rewrite (pr_driver _ _ _ P1)).
  unfold _get_committed_nonce. exists s1. case_decide; cbn [mret stM_ret]; by rewrite Hc1.
Qed.

(** [get_next_nonce] hands out the least nonce after the committed one that no
    live reservation of the sender holds: everything between is reserved, it is itself
    free, and the search always ends. *)
Theorem get_next_nonce_correct sender s c :
  get_nonce (ns_driver s) sender = Ok c ->
  exists n s', get_next_nonce sender s = (Ok n, s') /\
    default (-1) c < n /\ pend s' sender !! n = None /\
    (forall i, default (-1) c < i < n -> is_Some (pend s' sender !! i)) /\
    ns_driver s' = ns_driver s /\ pend s' sender ⊆ pend s sender /\
    (forall other, other <> sender -> pend s' other = pend s other).
Proof.
  intros Hc. destruct (get_next_nonce_spec sender s c Hc) as (n & s' & E & [P1 P2 P3 _ _] & H1 & H2 & H3).
  by exists n, s'.
Qed.

(** The state after a reservation was made or renewed. *)
Lemma reserve_spec sender n h s :
  exists r, reserve sender n h s =
    (Ok tt, put_pend (MkNonceStorage (ns_driver s) (pending_nonces s) (S (clock_reads s))) sender
              (<[n := r]> (pend s sender))) /\ res_tx_hash r = h.
Proof. by eexists. Qed.

(** What an admitted transaction changed. *)
Record admitted (sender : string) (n : Z) (h : string) (s s' : NonceStorage) : Prop := {
  ad_driver : ns_driver s' = ns_driver s;
  ad_held : exists r, pend s' sender !! n = Some r /\ res_tx_hash r = h;
  ad_other_sender : forall q, q <> sender -> pend s' q = pend s q;
  ad_other_nonce : forall m r, m <> n -> pend s' sender !! m = Some r -> pend s sender !! m = Some r;
  ad_size : (size (pend s sender) <= Z.to_nat max_pending_nonces_per_sender)%nat ->
            (size (pend s' sender) <= Z.to_nat max_pending_nonces_per_sender)%nat;
  ad_replaced : forall r, pend s sender !! n = Some r -> res_tx_hash r <> h ->
    exists i : nat, (clock_reads s <= i < clock_reads s')%nat /\
                    reserved_at r < monotonic i - reservation_ttl_seconds;
}.

Lemma admit_renew sender n h s s1 r :
  pruned sender s s1 -> pend s1 sender !! n = Some r -> res_tx_hash r = h ->
  exists s', reserve sender n h s1 = (Ok tt, s') /\ admitted sender n h s s'.
Proof.
  intros P Hr Hh. destruct (reserve_spec sender n h s1) as (r' & E & Hr').
  eexists. split; [exact E|]. destruct P as [P1 P2 P3 P4 P5]. split; simpl.
  - done.
  - exists r'. by rewrite pend_put_eq, lookup_insert_eq.
  - intros q Hq. rewrite pend_put_ne by done. by apply P2.
  - intros m r2 Hm. rewrite pend_put_eq, lookup_insert_ne by done.
    intros Hl. by eapply lookup_weaken.
  - intros Hs. rewrite pend_put_eq, map_size_insert_Some by eauto.
    apply map_subseteq_size in P3. unfold pend in *. lia.
  - intros r2 Hr2 Hne. eapply lookup_weaken in Hr; [|exact P3]. congruence.
Qed.

Lemma admit_next sender n h c s s1 :
  pruned sender s s1 -> next_free (pend s1 sender) c n ->
  (max_pending_nonces_per_sender <=? Z.of_nat (size (pend s1 sender))) = false ->
  exists s', reserve sender n h s1 = (Ok tt, s') /\ admitted sender n h s s'.
Proof.
  intros P (Hn1 & Hn2 & Hn3) Hsz. destruct (reserve_spec sender n h s1) as (r' & E & Hr').
  eexists. split; [exact E|]. destruct P as [P1 P2 P3 P4 P5]. split; simpl.
  - done.
  - exists r'. by rewrite pend_put_eq, lookup_insert_eq.
  - intros q Hq. rewrite pend_put_ne by done. by apply P2.
  - intros m r2 Hm. rewrite pend_put_eq, lookup_insert_ne by done.
    intros Hl. by eapply lookup_weaken.
  - intros _. rewrite pend_put_eq, map_size_insert_None by done.
    apply Z.leb_gt in Hsz. unfold pend in *. lia.
  - intros r2 Hr2 Hne. destruct (P5 _ _ Hr2 Hn3) as (i & Hi & ?). exists i. split; [lia|done].
Qed.

(** Admission in sequence: the nonces between the committed one and [n] are held. *)
Definition in_sequence (sender : string) (n : Z) (s s' : NonceStorage) : Prop :=
  exists c, get_nonce (ns_driver s) sender = Ok c /\ default (-1) c < n /\
    forall i, default (-1) c < i < n -> is_Some (pend s' sender !! i).

Lemma take_next_spec sender v h s0 s :
  pruned sender s0 s ->
  exists r s', (expected_nonce ← get_next_nonce sender;
     if decide (v = VInt expected_nonce) then
       sender_pending ← gets_st (λ s, pend s sender);
       if max_pending_nonces_per_sender <=? Z.of_nat (size sender_pending) then
         raise_st TransactionException "Too many pending transactions reserved for sender"
       else reserve sender expected_nonce h
     else lift_res (nonce_mismatch expected_nonce v) : stM NonceStorage unit) s = (r, s') /\
  match r with
  | Ok _ => exists n, v = VInt n /\ admitted sender n h s0 s' /\ in_sequence sender n s0 s'
  | Raise _ => pruned sender s0 s'
  end.
Proof.
  intros P0. unfold mbind, stM_bind. destruct (get_nonce (ns_driver s) sender) as [c|e] eqn:Hc.
  2: { destruct (get_nonce_error _ _ _ Hc) as (s' & E & P). rewrite E.
       eexists _, s'. split; [done|]. by eapply pruned_trans. }
  destruct (get_next_nonce_spec _ _ _ Hc) as (n & s1 & E & P & Hn). rewrite E.
  assert (P1 : pruned sender s0 s1) by by eapply pruned_trans.
  destruct (decide (v = VInt n)) as [->|Hne].
  2: { eexists _, s1. split; [done|]. done. }
  unfold gets_st. cbn [mret stM_ret]. destruct (_ <=? _) eqn:Hsz.
  { eexists _, s1. split; [done|]. done. }
  destruct (admit_next sender n h c s0 s1 P1 Hn Hsz) as (s' & E' & A).
  rewrite E'. eexists _, s'. split; [done|]. exists n. split_and!; [done|done|].
  exists c. rewrite <- (pr_driver _ _ _ P0). split; [done|]. destruct Hn as (H1 & H2 & _).
  split; [done|]. intros i Hi. destruct (reserve_spec sender n h s1) as (r' & E2 & _).
  rewrite E2 in E'. injection E' as <-. rewrite pend_put_eq, lookup_insert_ne by lia. by apply H2.
Qed.

Lemma check_nonce_spec tx h s sender v :
  tx_field "nonce" tx = Ok v -> tx_sender tx = Ok sender ->
  exists r s', check_nonce tx h s = (r, s') /\
  match r with
  | Ok _ => exists n, v = VInt n /\ admitted sender n h s s' /\
      ((forall r, pend s sender !! n = Some r -> res_tx_hash r <> h) -> in_sequence sender n s s')
  | Raise _ => pruned sender s s'
  end.
Proof.
  intros Hv Hs. unfold check_nonce. unfold mbind at 1, stM_bind at 1, lift_res at 1. rewrite Hv.
  unfold mbind at 1, stM_bind at 1, lift_res at 1. rewrite Hs.
  destruct (prune_sender_spec sender s) as (s1 & E1 & P1).
  rewrite (stM_bind_ok _ _ _ _ _ E1).
  rewrite (stM_bind_ok (gets_st _) _ s1 (pend s1 sender) s1) by done.
  destruct (take_next_spec sender v h s s1 P1) as (r & s' & E & Hr).
  destruct (existing_reservation (pend s1 sender) v) as [[n ex]|] eqn:Eex.
  2: { eexists r, s'. split; [exact E|]. destruct r; [|done]. naive_solver. }
  case_decide as Hh.
  2: { eexists r, s'. split; [exact E|]. destruct r; [|done]. naive_solver. }
  unfold existing_reservation in Eex. destruct v; try done.
  destruct (pend s1 sender !! z) as [r0|] eqn:El; cbn in Eex; [|done]. injection Eex as <- <-.
  destruct (admit_renew sender z h s s1 r0 P1 El Hh) as (s2 & E2 & A2).
  eexists _, s2. split; [exact E2|]. simpl. exists z. split_and!; [done|done|].
  intros Hno. exfalso. eapply Hno; [|exact Hh]. eapply lookup_weaken; [exact El|]. apply P1.
Qed.

(** Mempool admission is exclusive and ordered.  When [check_nonce] accepts a
    transaction, its nonce is reserved under its hash; no other sender and no other
    nonce is affected except by expiry; a reservation another transaction held for
    that nonce had expired; a transaction that was not already admitted extends an
    unbroken run of reserved nonces from the committed one; and the number of a
    sender's reservations stays within the configured limit. *)
Theorem check_nonce_admits tx h s s' sender v :
  tx_field "nonce" tx = Ok v -> tx_sender tx = Ok sender ->
  check_nonce tx h s = (Ok tt, s') ->
  exists n, v = VInt n /\ admitted sender n h s s' /\
    ((forall r, pend s sender !! n = Some r -> res_tx_hash r <> h) -> in_sequence sender n s s').
Proof.
  intros Hv Hs Hcall. destruct (check_nonce_spec tx h s sender v Hv Hs) as (r & s2 & E & Hr).
  rewrite E in Hcall. by injection Hcall as -> ->.
Qed.

(** A rejected transaction reserves nothing: when [check_nonce] raises, the
    committed nonces and every other sender's reservations are unchanged, and the
    sender only lost reservations that had expired. *)
Theorem check_nonce_rejects tx h s s' e sender v :
  tx_field "nonce" tx = Ok v -> tx_sender tx = Ok sender ->
  check_nonce tx h s = (Raise e, s') -> pruned sender s s'.
Proof.
  intros Hv Hs Hcall. destruct (check_nonce_spec tx h s sender v Hv Hs) as (r & s2 & E & Hr).
  rewrite E in Hcall. by injection Hcall as -> ->.
Qed.

(** ** Reconciling after a commit *)

Lemma prune_all_spec senders s :
  exists s', forM_st senders _prune_pending_for_sender s = (Ok tt, s') /\
    ns_driver s' = ns_driver s /\ forall q, pend s' q ⊆ pend s q.
Proof.
  revert s. induction senders as [|q senders IH]; intros s; simpl.
  - exists s. by split_and!.
  - destruct (prune_sender_spec q s) as (s1 & E1 & P1). rewrite (stM_bind_ok _ _ _ _ _ E1).
    destruct (IH s1) as (s2 & E2 & D2 & H2). exists s2. split_and!; [done| |].
    + rewrite D2. apply P1.
    + intros q'. etrans; [apply H2|]. destruct (decide (q' = q)) as [->|]; [apply P1|].
      by rewrite (pr_other _ _ _ P1).
Qed.

(** The reservations of [q] above its committed nonce. *)
Definition above (committed : option Z) (m : gmap Z NonceReservation) : gmap Z NonceReservation :=
  match committed with
  | None => m
  | Some c => filter (λ nr, ~ nr.1 <= c) m
  end.

Lemma reconcile_sender_spec q c s :
  get_nonce (ns_driver s) q = Ok c ->
  exists s', reconcile_sender q s = (Ok tt, s') /\ ns_driver s' = ns_driver s /\
    pend s' q = above c (pend s q) /\ forall q', q' <> q -> pend s' q' = pend s q'.
Proof.
  intros Hc. unfold reconcile_sender, mbind, stM_bind, _get_committed_nonce. rewrite Hc.
  destruct c as [c|]; simpl; [|by exists s]. eexists. split; [done|]. split; [done|].
  split; [by rewrite pend_put_eq|]. intros q' Hne. by rewrite pend_put_ne.
Qed.

Lemma reconcile_loop_spec senders s :
  NoDup senders -> (forall q, exists c, get_nonce (ns_driver s) q = Ok c) ->
  exists s', forM_st senders reconcile_sender s = (Ok tt, s') /\ ns_driver s' = ns_driver s /\
    forall q c, get_nonce (ns_driver s) q = Ok c ->
      pend s' q = if decide (q ∈ senders) then above c (pend s q) else pend s q.
Proof.
  revert s. induction senders as [|q0 senders IH]; intros s Hnd Hg; simpl.
  - exists s. by split_and!.
  - apply NoDup_cons in Hnd as [Hq0 Hnd]. destruct (Hg q0) as [c0 Hc0].
    destruct (reconcile_sender_spec q0 c0 s Hc0) as (s1 & E1 & D1 & Hp1 & Ho1).
    rewrite (stM_bind_ok _ _ _ _ _ E1).
    destruct (IH s1 Hnd) as (s2 & E2 & D2 & H2); [by rewrite D1|].
    exists s2. split; [done|]. split; [congruence|]. intros q c Hc. rewrite D1 in H2.
    rewrite (H2 q c Hc). destruct (decide (q = q0)) as [->|Hne].
    + rewrite decide_False by done. rewrite decide_True by (left). congruence.
    + rewrite Ho1 by done. destruct (decide (q ∈ senders)).
      * by rewrite decide_True by (by right).
      * by rewrite decide_False by (by intros [?|?]%elem_of_cons).
Qed.

(** Whatever happens in it, reconciling never writes to the driver. *)
Lemma reconcile_pending_driver s : ns_driver (reconcile_pending s).2 = ns_driver s.
Proof.
  unfold reconcile_pending.
  destruct (prune_all_spec (map_to_list (pending_nonces s)).*1 s) as (s1 & E1 & D1 & _).
  rewrite (stM_bind_ok _prune_pending _ s tt s1 E1). rewrite (stM_bind_ok get_st _ s1 s1 s1) by done.
  rewrite <- D1. apply (forM_st_inv (λ t, ns_driver t = ns_driver s1)); [done|].
  intros q t _ Ht. unfold reconcile_sender, mbind, stM_bind, _get_committed_nonce.
  by destruct (get_nonce (ns_driver t) q) as [[c|]|e].
Qed.

(** After a commit, [reconcile_pending] leaves no reservation at or below a
    sender's committed nonce and changes no other; committed nonces are untouched, and
    the sweep always finishes. *)
Theorem reconcile_pending_correct s :
  (forall q, exists c, get_nonce (ns_driver s) q = Ok c) ->
  exists s', reconcile_pending s = (Ok tt, s') /\ ns_driver s' = ns_driver s /\
    forall q c n r, get_nonce (ns_driver s) q = Ok (Some c) -> pend s' q !! n = Some r ->
      c < n /\ pend s q !! n = Some r.
Proof.
  intros Hg. unfold reconcile_pending.
  destruct (prune_all_spec (map_to_list (pending_nonces s)).*1 s) as (s1 & E1 & D1 & H1).
  rewrite (stM_bind_ok _prune_pending _ s tt s1 E1). rewrite (stM_bind_ok get_st _ s1 s1 s1) by done.
  destruct (reconcile_loop_spec (map_to_list (pending_nonces s1)).*1 s1) as (s2 & E2 & D2 & H2).
  - apply NoDup_fst_map_to_list.
  - by rewrite D1.
  - exists s2. split; [done|]. split; [congruence|]. intros q c n r Hc Hn.
    rewrite D1 in H2. rewrite (H2 q _ Hc) in Hn. destruct (decide _) as [Hin|Hout].
    + simpl in Hn. apply map_lookup_filter_Some in Hn as [Hn Hgt]. simpl in Hgt.
      split; [lia|]. by eapply lookup_weaken.
    + exfalso. apply Hout. unfold pend in Hn. destruct (pending_nonces s1 !! q) as [m|] eqn:Em.
      * apply list_elem_of_fmap. exists (q, m). split; [done|]. by apply elem_of_map_to_list.
      * simpl in Hn. by rewrite lookup_empty in Hn.
Qed.
End Nonce.

(** ** Witnesses on the in-memory driver *)

Definition sample_nonce_tx (n : Z) : value :=
  VDict [("payload", VDict [("sender", VStr "alice"); ("nonce", VInt n)])].
Definition sample_driver : mem_driver := drv_set mem_empty (nonce_key "alice") (VInt 4).
Definition sample_storage : NonceStorage (D := mem_driver) :=
  MkNonceStorage sample_driver (<["alice" := {[5 := Reservation "h5" 100]}]> ∅) 0.
Definition ticks (n : nat) : Z := 110 + Z.of_nat n.

Lemma get_next_nonce_correct_witness :
  exists n s', get_next_nonce ticks 60 "alice" sample_storage = (Ok n, s') /\ 4 < n.
Proof.
  destruct (get_next_nonce_correct ticks 60 "alice" sample_storage (Some 4)) as (n & s' & E & Hn & _).
  - vm_compute. reflexivity.
  - exists n, s'. by split.
Defined.

Definition admitted_state : NonceStorage (D := mem_driver) :=
  (check_nonce ticks 60 128 (sample_nonce_tx 6) "h6" sample_storage).2.

Lemma check_nonce_admits_witness :
  exists r, pend admitted_state "alice" !! 6 = Some r /\ res_tx_hash r = "h6".
Proof.
  destruct (check_nonce_admits ticks 60 128 (sample_nonce_tx 6) "h6" sample_storage admitted_state
              "alice" (VInt 6)) as (n & [= <-] & A & _).
  - vm_compute. reflexivity.
  - vm_compute. reflexivity.
  - vm_compute. reflexivity.
  - apply A.
Defined.

Lemma check_nonce_rejects_witness :
  pruned ticks 60 "alice" sample_storage
    (check_nonce ticks 60 128 (sample_nonce_tx 9) "h9" sample_storage).2.
Proof.
  eapply (check_nonce_rejects ticks 60 128 (sample_nonce_tx 9) "h9"); vm_compute; reflexivity.
Defined.

Lemma reconcile_pending_correct_witness :
  exists s', reconcile_pending ticks 60 sample_storage = (Ok tt, s') /\
    ns_driver s' = ns_driver sample_storage.
Proof.
  destruct (reconcile_pending_correct ticks 60 sample_storage) as (s' & E & Hd & _).
  - intros q. unfold get_nonce. cbn [ns_driver sample_storage]. unfold sample_driver.
    destruct (decide (nonce_key q = nonce_key "alice")) as [->|Hne].
    + rewrite drv_get_set_eq. by eexists.
    + rewrite drv_get_set_ne by done. by eexists.
  - exists s'. by split.
Defined.
