(* ===== verification/TxValidation.v ===== *)
(** * Transaction validation (src/src/xian/utils/tx.py, src/src/xian/methods/check_tx.py)

    The stateless checks every transaction passes before it enters the mempool, a
    proposal or a block (shape, formats, signature, chain id, contract name), the
    mempool's balance and nonce checks, and the [CheckTx] handler.

    Parameters: the signature check [verify_message], the contracting package's
    [is_safe_contract_name], the runtime's [convert_dict], the client's [get_var],
    and [int()] of a float. *)

From Stdlib Require Import Ascii.
From S2P Require Import Prelude PyValue Json PyBuiltins Driver Encoding Formatting FeePolicy StateRoot Nonce.

(** [_format_value]: dicts sorted by key, at every level. *)
Fixpoint _format_value (v : value) : value :=
  match v with
  | VDict d => VDict (sort_by fst ((λ '(k, x), (k, _format_value x)) <$> d))
  | VList l => VList (_format_value <$> l)
  | _ => v
  end.

Definition format_dictionary (d : value) : value := _format_value d.

Definition canonical_json (v : value) : result string := dumps false (format_dictionary v).

(** [unpack_transaction]: the sender, the signature, and the text that was signed. *)
Definition unpack_transaction (tx : value) : result (value * value * string) :=
  metadata ← py_item "metadata" tx;
  _ ← py_dot_get metadata "timestamp" VNone;
  payload ← py_item "payload" tx;
  chain_id ← py_dot_get payload "chain_id" (VStr "");
  sender ← py_item "sender" payload;
  signature ← py_item "signature" metadata;
  contract ← py_item "contract" payload;
  function ← py_item "function" payload;
  kwargs ← py_item "kwargs" payload;
  nonce ← py_item "nonce" payload;
  chi_supplied ← py_item "chi_supplied" payload;
  text ← canonical_json (VDict
    [("chain_id", chain_id); ("contract", contract); ("function", function); ("kwargs", kwargs);
     ("nonce", nonce); ("sender", sender); ("chi_supplied", chi_supplied)]);
  Ok (sender, signature, text).

(** [recurse_rules]. *)
Fixpoint recurse_rules (r : rule) (d : value) : result bool :=
  match r with
  | RCall f => Ok (f d)
  | RDict rules =>
    (fix go (rules : list (string * rule)) : result bool :=
       match rules with
       | [] => Ok true
       | (key, subrule) :: rules =>
         present ← py_in key d;
         if negb present then Ok false
         else
           arg ← py_item key d;
           ok ← (match subrule with
                | RCall f => Ok (f arg)
                | RDict _ =>
                  match arg with
                  | VDict _ => recurse_rules subrule arg
                  | VList l =>
                    (fix all (l : list value) : result bool :=
                       match l with
                       | [] => Ok true
                       | a :: l => b ← recurse_rules subrule a; if (b : bool) then all l else Ok false
                       end) l
                  | _ => Ok false
                  end
                end : result bool);
           if (ok : bool) then go rules else Ok false
       end) rules
  end.

(** [set(d) == keys]. *)
Definition dict_has_keys (d : list (string * value)) (keys : list string) : bool :=
  forallb (λ k, bool_decide (k ∈ keys)) (dict_keys d) && forallb (λ k, dict_mem k d) keys.

Definition check_format (d : list (string * value)) (rules : list (string * rule)) : result unit :=
  if negb (dict_has_keys d rules.*1) then
    raise TransactionException "Transaction has unexpected or missing keys"
  else
    ok ← recurse_rules (RDict rules) (VDict d);
    check_py ok TransactionException "Transaction has wrongly formatted dictionary".

(** [payload[key] in (None, "")]. *)
Definition blank (v : value) : bool := bool_decide (v = VNone) || bool_decide (v = VStr "").

Definition required_payload_keys : list string := ["sender"; "contract"; "function"; "chi_supplied"].

Definition check_tx_keys (tx : list (string * value)) : result unit :=
  metadata ← match py_get "metadata" tx VNone with
             | VDict ((_ :: _) as m) => Ok m
             | _ => raise TransactionException "Metadata is missing"
             end;
  _ ← check_py (bool_decide (length metadata = 1%nat)) TransactionException
        "Wrong number of metadata entries";
  payload ← match py_get "payload" tx VNone with
            | VDict ((_ :: _) as p) => Ok p
            | _ => raise TransactionException "Payload is missing"
            end;
  _ ← check_py (forallb (λ k, bool_decide (k ∈ TRANSACTION_PAYLOAD_RULES.*1)) (dict_keys payload))
        TransactionException "Payload keys are not valid";
  foldM_py (λ _ key, match dict_get key payload with
                     | Some v => check_py (negb (blank v)) TransactionException
                                   ("Payload key '" +:+ key +:+ "' is missing")
                     | None => raise TransactionException ("Payload key '" +:+ key +:+ "' is missing")
                     end) tt required_payload_keys.

Definition check_tx_formatting (tx : list (string * value)) : result unit :=
  _ ← check_tx_keys tx; check_format tx TRANSACTION_RULES.

Section TxValidation.
Context (verify_message : string -> string -> string -> result bool)
        (is_safe_contract_name : value -> bool)
        (float_trunc : string -> result Z).

(** [verify]; both ends were checked to be hexadecimal strings before. *)
Definition verify (vk : value) (msg : string) (signature : value) : result bool :=
  vk ← as_str vk; signature ← as_str signature; verify_message vk msg signature.

Definition check_contract_name (contract function name : value) : result unit :=
  if bool_decide (contract = VStr "submission") && bool_decide (function = VStr "submit_contract") then
    ok ← contract_name_is_formatted is_safe_contract_name name;
    check_py ok TransactionException "Transaction contract name is invalid"
  else Ok tt.

Definition as_dict (v : value) : result (list (string * value)) :=
  match v with VDict d => Ok d | _ => raise AttributeError "object is not a dict" end.

Definition validate_transaction_static (tx : value) (chain_id : string) : result unit :=
  d ← as_dict tx;
  _ ← check_tx_formatting d;
  '(sender, signature, payload_text) ← unpack_transaction tx;
  ok ← verify sender payload_text signature;
  _ ← check_py ok TransactionException "Bad signature";
  payload ← py_item "payload" tx;
  tx_chain_id ← py_dot_get payload "chain_id" (VStr "");
  _ ← check_py (bool_decide (tx_chain_id = VStr chain_id)) TransactionException "Wrong chain_id";
  kwargs ← py_item "kwargs" payload;
  name ← py_dot_get kwargs "name" VNone;
  contract ← py_item "contract" payload;
  function ← py_item "function" payload;
  check_contract_name contract function name.

(** [decode_and_validate_transaction_static_bytes], the Python path. *)
Definition decode_and_validate_transaction_static_bytes
    (raw_tx : bytes) (chain_id : string) (max_raw_tx_bytes : option Z) : result value :=
  _ ← match max_raw_tx_bytes with
      | Some m => check_py (negb (m <? Z.of_nat (length raw_tx))) TransactionException
                    ("Transaction exceeds maximum configured size of " +:+ py_int_str m +:+ " bytes")
      | None => Ok tt
      end;
  '(tx, _) ← decode_transaction_bytes raw_tx;
  _ ← validate_transaction_static tx chain_id;
  Ok tx.

(** ** [SequentialNonceTracker] *)

Section Tracker.
Context (committed_nonce_getter : string -> result (option Z)).

(** [_latest_nonces]. *)
Definition tracker : Type := list (string * Z).

Definition expected_nonce (t : tracker) (sender : string) : result Z :=
  current_nonce ← match dict_get sender t with
                  | Some n => Ok (Some n)
                  | None => committed_nonce_getter sender
                  end;
  Ok (match current_nonce with None => 0 | Some n => n + 1 end).

Definition validate_and_advance (t : tracker) (tx : value) : result tracker :=
  sender ← tx_sender tx;
  tx_nonce ← tx_field "nonce" tx;
  expected ← expected_nonce t sender;
  if decide (tx_nonce = VInt expected) then Ok (dict_set sender expected t)
  else nonce_mismatch expected tx_nonce.

Definition validate_consensus_transaction_after_static (t : tracker) (tx : value) : result tracker :=
  validate_and_advance t tx.

Definition validate_consensus_transaction (t : tracker) (tx : value) (chain_id : string)
  : result tracker :=
  _ ← validate_transaction_static tx chain_id;
  validate_consensus_transaction_after_static t tx.
End Tracker.

(** ** Mempool admission *)

Section CheckTx.
Context {D : Type} `{DriverOps D} `{PyArith}.
Context (convert_dict : value -> result value)
        (get_var : D -> string -> string -> list value -> result value)
        (monotonic : nat -> Z) (reservation_ttl_seconds max_pending_config : Z).

Definition too_few {A} : result A :=
  raise TransactionException "Transaction sender has too few chi for this transaction".

Definition check_enough_chi (balance chi_per_tau chi_supplied contract function amount : value)
  : result unit :=
  p ← num_mul balance chi_per_tau;
  low ← num_lt p chi_supplied;
  if (low : bool) then too_few
  else if bool_decide (contract = VStr "currency") && bool_decide (function = VStr "transfer") then
    rest ← num_sub balance amount;
    q ← num_mul rest chi_per_tau;
    low ← num_div_lt q (VInt 6) (VInt 2);
    if (low : bool) then too_few else Ok tt
  else Ok tt.

(** [try: ... except Exception as e: raise TransactionException(prefix + str(e))]. *)
Definition wrap_exn {A} (prefix : string) (r : result A) : result A :=
  match r with
  | Ok a => Ok a
  | Raise e => raise TransactionException (prefix +:+ exn_msg e)
  end.

(** The balance check of [validate_transaction_after_static]. *)
Definition check_balance (d : D) (tx : value) : result unit :=
  balance ← wrap_exn "Failed to retrieve 'currency' balance for sender: "
              (sender ← tx_field "sender" tx; get_var d "currency" "balances" [sender]);
  chi_rate ← wrap_exn "Failed to get chi cost: " (get_var d "chi_cost" "S" [VStr "value"]);
  let chi_rate := if is_none chi_rate then VInt 20 else chi_rate in
  contract ← tx_field "contract" tx;
  func ← tx_field "function" tx;
  chi_supplied ← tx_field "chi_supplied" tx;
  let chi_supplied := if is_none chi_supplied then VInt 0 else chi_supplied in
  let balance := if is_none balance then VInt 0 else balance in
  kwargs ← tx_field "kwargs" tx;
  amount ← py_dot_get kwargs "amount" VNone;
  let amount := if is_none amount then VInt 0 else amount in
  amount ← (if is_dict amount then convert_dict amount else Ok amount);
  check_enough_chi balance chi_rate chi_supplied contract func amount.

Definition validate_transaction_after_static (tx : value) (tx_hash : string)
    (fee_policy : option TxFeePolicy) : stM (NonceStorage (D := D)) unit :=
  let nonce := check_nonce monotonic reservation_ttl_seconds max_pending_config tx tx_hash in
  let paid := s ← get_st; _ ← lift_res (check_balance (ns_driver s) tx); nonce in
  match fee_policy with
  | Some p => _ ← lift_res (validate_tx float_trunc p tx);
              if require_chi_balance p then paid else nonce
  | None => paid
  end.

Definition validate_transaction (tx : value) (tx_hash chain_id : string)
    (fee_policy : option TxFeePolicy) : stM (NonceStorage (D := D)) unit :=
  _ ← lift_res (validate_transaction_static tx chain_id);
  validate_transaction_after_static tx tx_hash fee_policy.

(** [check_tx]: the response code and the state it leaves; the copies of the
    driver's read sets that the handler restores do not show in [D]'s reads. *)
Definition OkCode : Z := 0.
Definition ErrorCode : Z := 1.

Definition check_tx (sha256 : bytes -> bytes) (raw_tx : bytes) (chain_id : string) (max_tx_bytes : Z)
    (fee_policy : TxFeePolicy) (s : NonceStorage (D := D)) : Z * NonceStorage (D := D) :=
  match decode_and_validate_transaction_static_bytes raw_tx chain_id (Some max_tx_bytes) with
  | Raise _ => (ErrorCode, s)
  | Ok tx =>
    match validate_transaction_after_static tx (hash_bytes sha256 raw_tx) (Some fee_policy) s with
    | (Ok _, s') => (OkCode, s')
    | (Raise _, s') => (ErrorCode, s')
    end
  end.
End CheckTx.

(** ** Static validation *)

Lemma recurse_rules_call rules d key f :
  recurse_rules (RDict rules) (VDict d) = Ok true -> (key, RCall f) ∈ rules ->
  exists v, dict_get key d = Some v /\ f v = true.
Proof.
  cbn [recurse_rules]. induction rules as [|[k sub] rules IH]; intros Hr Hin; [by apply elem_of_nil in Hin|].
  cbn [py_in mbind result_bind] in Hr. unfold dict_mem in Hr.
  destruct (dict_get k d) as [arg|] eqn:Eg; [|done]. cbn [negb py_item] in Hr. rewrite Eg in Hr.
  cbn [mbind result_bind] in Hr. destruct_result. destruct a; [|done].
  apply elem_of_cons in Hin as [Heq|Hin]; [|by apply IH]. simplify_eq. by exists arg.
Qed.

Lemma recurse_rules_sub rules d key sub p :
  recurse_rules (RDict rules) (VDict d) = Ok true -> (key, RDict sub) ∈ rules ->
  dict_get key d = Some (VDict p) -> recurse_rules (RDict sub) (VDict p) = Ok true.
Proof.
  intros Hr Hin Hg. cbn [recurse_rules] in Hr.
  induction rules as [|[k r] rules IH]; [by apply elem_of_nil in Hin|].
  cbn [py_in mbind result_bind] in Hr. unfold dict_mem in Hr.
  destruct (dict_get k d) as [arg|] eqn:Eg; [|done]. cbn [negb py_item] in Hr. rewrite Eg in Hr.
  cbn [mbind result_bind] in Hr. destruct_result. destruct a; [|done].
  apply elem_of_cons in Hin as [Heq|Hin]; [|by apply IH]. simplify_eq. done.
Qed.

(** The fields of a transaction that passed the format checks. *)
Record tx_shape (tx : value) (chain_id : string) (p : list (string * value))
    (sender signature : string) (nonce chi : Z) (kwargs : list (string * value)) : Prop := {
  sh_payload : py_item "payload" tx = Ok (VDict p);
  sh_metadata : tx_field "sender" tx = Ok (VStr sender) /\
                (exists m, py_item "metadata" tx = Ok (VDict m) /\ dict_get "signature" m = Some (VStr signature));
  sh_keys : forall k, is_Some (dict_get k p) <-> k ∈ TRANSACTION_PAYLOAD_RULES.*1;
  sh_sender : dict_get "sender" p = Some (VStr sender) /\ hex_string 64 sender = true;
  sh_signature : hex_string 128 signature = true;
  sh_nonce : dict_get "nonce" p = Some (VInt nonce) /\ 0 <= nonce < 2 ^ 64;
  sh_chi : dict_get "chi_supplied" p = Some (VInt chi) /\ 0 <= chi < 2 ^ 64;
  sh_kwargs : dict_get "kwargs" p = Some (VDict kwargs) /\ kwargs_are_formatted (VDict kwargs) = true;
  sh_chain : dict_get "chain_id" p = Some (VStr chain_id);
}.

Lemma check_tx_keys_inv tx :
  check_tx_keys tx = Ok tt ->
  exists m p, dict_get "metadata" tx = Some (VDict m) /\ dict_get "payload" tx = Some (VDict p) /\
    forall k, is_Some (dict_get k p) -> k ∈ TRANSACTION_PAYLOAD_RULES.*1.
Proof.
  unfold check_tx_keys, py_get. intros Hc. destruct_result.
  destruct (dict_get "metadata" tx) as [v|]; [|done]. destruct v; try done. destruct d; [done|].
  destruct (dict_get "payload" tx) as [v|]; [|done]. destruct v; try done. destruct d0; [done|].
  eexists _, _. split; [done|]. split; [done|]. intros k Hk.
  destruct_result. unfold check_py in E2. destruct (forallb _ _) eqn:Ef; [|done].
  rewrite forallb_forall in Ef. apply (bool_decide_eq_true_1 (k ∈ _)). apply Ef.
  apply list_elem_of_In. destruct (decide (k ∈ dict_keys (p0 :: d0))) as [?|Hn]; [done|].
  apply dict_get_None in Hn. rewrite Hn in Hk. by destruct Hk.
Qed.

Lemma check_format_inv d :
  check_format d TRANSACTION_RULES = Ok tt -> recurse_rules (RDict TRANSACTION_RULES) (VDict d) = Ok true.
Proof.
  unfold check_format. destruct (negb _); [done|]. intros Hf. destruct_result.
  unfold check_py in Hf. by destruct a.
Qed.

Lemma in_payload_rules key f :
  (key, RCall f) ∈ TRANSACTION_PAYLOAD_RULES -> key ∈ TRANSACTION_PAYLOAD_RULES.*1.
Proof. intros Hin. by apply (list_elem_of_fmap_2 fst) in Hin. Qed.

Lemma number_bound v : number_is_formatted v = true -> exists z, v = VInt z /\ 0 <= z < 2 ^ 64.
Proof. intros (z & -> & Hz)%number_is_formatted_spec. exists z. unfold MAX_JSON_INTEGER in Hz. split; [done|lia]. Qed.

Ltac rule_field Hp name f :=
  let v := fresh "v" in let Hg := fresh "Hg" in let Hf := fresh "Hf" in
  destruct (recurse_rules_call _ _ name f Hp ltac:(unfold TRANSACTION_PAYLOAD_RULES; set_solver))
    as (v & Hg & Hf).

Lemma payload_shape d m p :
  dict_get "metadata" d = Some (VDict m) -> dict_get "payload" d = Some (VDict p) ->
  (forall k, is_Some (dict_get k p) -> k ∈ TRANSACTION_PAYLOAD_RULES.*1) ->
  recurse_rules (RDict TRANSACTION_RULES) (VDict d) = Ok true ->
  exists chain_id sender signature nonce chi kwargs,
    tx_shape (VDict d) chain_id p sender signature nonce chi kwargs.
Proof.
  intros Hm Hp Hk Hr.
  pose proof (recurse_rules_sub _ _ "payload" TRANSACTION_PAYLOAD_RULES p Hr
                ltac:(unfold TRANSACTION_RULES; set_solver) Hp) as Rp.
  pose proof (recurse_rules_sub _ _ "metadata" TRANSACTION_METADATA_RULES m Hr
                ltac:(unfold TRANSACTION_RULES; set_solver) Hm) as Rm.
  destruct (recurse_rules_call _ _ "signature" signature_is_formatted Rm
              ltac:(unfold TRANSACTION_METADATA_RULES; set_solver)) as (vs & Gs & Fs).
  destruct vs as [| | |signature| | | | | | |]; try done.
  rule_field Rp "sender" vk_is_formatted. destruct v as [| | |sender| | | | | | |]; try done.
  rule_field Rp "nonce" number_is_formatted. apply number_bound in Hf0 as (nonce & -> & Hn).
  rule_field Rp "chi_supplied" number_is_formatted. apply number_bound in Hf0 as (chi & -> & Hc).
  rule_field Rp "kwargs" kwargs_are_formatted. destruct v as [| | | | | | | | | |kwargs]; try done.
  rule_field Rp "chain_id" cid_id_formated. destruct v as [| | |cid| | | | | | |]; try done.
  rule_field Rp "contract" identifier_is_formatted. rule_field Rp "function" identifier_is_formatted.
  exists cid, sender, signature, nonce, chi, kwargs. split; try done.
  - simpl. by rewrite Hp.
  - split; [unfold tx_field; simpl; rewrite Hp; simpl; by rewrite Hg|].
    exists m. simpl. by rewrite Hm.
  - intros k. split; [apply Hk|]. unfold TRANSACTION_PAYLOAD_RULES. csimpl.
    rewrite !elem_of_cons, elem_of_nil. naive_solver.
Qed.

Lemma static_shape tx chain_id :
  validate_transaction_static tx chain_id = Ok tt ->
  exists p sender signature nonce chi kwargs text,
    tx_shape tx chain_id p sender signature nonce chi kwargs /\
    unpack_transaction tx = Ok (VStr sender, VStr signature, text) /\
    verify_message sender text signature = Ok true.
Proof.
  intros Hv. unfold validate_transaction_static in Hv. destruct_result. destruct tx; try done.
  apply Ok_inj in E as ->. unfold check_tx_formatting in E0. destruct_result.
  destruct a0, a2. destruct (check_tx_keys_inv _ E) as (m & p & Hm & Hp & Hk).
  destruct (payload_shape _ m p Hm Hp Hk (check_format_inv _ E0)) as (cid & sender & sg & n & chi & kw & Sh).
  destruct a1 as [[vk sig] text]. cbv beta iota in Hv. destruct_result.
  unfold check_py in E3. destruct a0; [|done].
  assert (Hu : vk = VStr sender /\ sig = VStr sg).
  { unfold unpack_transaction in E1. destruct_result. simplify_eq.
    destruct Sh as [Sp [_ (m' & Sm & Ss)] _ [Se _] _ _ _ _ _].
    rewrite Sp in *. rewrite Sm in *. simplify_eq. simpl in *.
    rewrite Se in *. rewrite Ss in *. by simplify_eq. }
  destruct Hu as [-> ->]. unfold verify in E2. simpl in E2.
  exists p, sender, sg, n, chi, kw, text. split; [|done].
  assert (cid = chain_id) as <-; [|done].
  unfold check_py in E6. destruct (bool_decide _) eqn:Eb; [|done]. apply bool_decide_eq_true in Eb.
  rewrite (sh_payload _ _ _ _ _ _ _ _ Sh) in E4. apply Ok_inj in E4 as <-. simpl in E5.
  unfold py_get in E5. rewrite (sh_chain _ _ _ _ _ _ _ _ Sh) in E5. by simplify_eq.
Qed.

(** Where [canonical_json_value] succeeds it is [_format_value]. *)
Lemma canonical_format v : forall depth w,
  canonical_json_value depth v = Ok w -> w = _format_value v.
Proof.
  induction v as [|b|z|s|r|d|t|b|l IH|l IH|d IH] using value_ind; intros depth w Hc;
    pose proof (canonical_depth _ _ _ Hc) as Hd.
  all: try solve [cbn [canonical_json_value] in Hc; rewrite Hd in Hc; by destruct_result].
  - cbn [canonical_json_value] in Hc. rewrite Hd in Hc. by destruct (_ && _); destruct_result.
  - rewrite canonical_list, Hd in Hc. destruct_result. apply mapM_py_Forall2 in E.
    cbn [_format_value]. f_equal. clear Hd. induction E as [|x y l ys Hx _ IHl]; [done|].
    apply Forall_cons in IH as [IHx IH]. csimpl. by rewrite (IHx _ _ Hx), IHl.
  - rewrite canonical_dict, Hd in Hc. destruct_result. apply mapM_py_Forall2 in E.
    cbn [_format_value]. do 2 f_equal. clear Hd. induction E as [|[k x] y l ys Hx _ IHl]; [done|].
    apply Forall_cons in IH as [IHx IH]. destruct_result. csimpl. by rewrite (IHx _ _ E), IHl.
Qed.

(** The payload without its order of entries. *)
Lemma format_dict_perm d1 d2 :
  NoDup (dict_keys d1) -> d1 ≡ₚ d2 -> _format_value (VDict d1) = _format_value (VDict d2).
Proof.
  intros Hnd HP. cbn [_format_value]. f_equal. apply sort_by_perm_eq; [|by rewrite HP].
  rewrite <- list_fmap_compose. rewrite (list_fmap_ext _ fst); [done|]. by intros ? [].
Qed.

Lemma shape_signed_text tx chain_id p sender signature nonce chi kwargs vk sg text :
  tx_shape tx chain_id p sender signature nonce chi kwargs -> NoDup (dict_keys p) ->
  unpack_transaction tx = Ok (vk, sg, text) -> dumps false (_format_value (VDict p)) = Ok text.
Proof.
  intros Sh Hnd Hu. unfold unpack_transaction in Hu. destruct_result. simplify_eq.
  rewrite (sh_payload _ _ _ _ _ _ _ _ Sh) in E1. apply Ok_inj in E1 as <-.
  unfold canonical_json, format_dictionary in E10. rewrite <- E10. f_equal.
  apply format_dict_perm; [done|]. cbn [py_dot_get py_item] in *. unfold py_get in *.
  repeat match goal with
  | E : match dict_get ?k p with _ => _ end = Ok _ |- _ =>
      let G := fresh "G" in destruct (dict_get k p) eqn:G; [|done]; apply Ok_inj in E; subst
  end.
  rewrite (sh_chain _ _ _ _ _ _ _ _ Sh) in E2. apply Ok_inj in E2 as <-.
  apply dict_get_perm; [done| |].
  { apply (bool_decide_unpack _). vm_compute. exact I. }
  intros k. destruct (dict_get k p) as [v|] eqn:Gk.
  - pose proof (proj1 (sh_keys _ _ _ _ _ _ _ _ Sh k) ltac:(by rewrite Gk)) as Hk.
    unfold TRANSACTION_PAYLOAD_RULES in Hk. csimpl in Hk. rewrite !elem_of_cons, elem_of_nil in Hk.
    pose proof (sh_chain _ _ _ _ _ _ _ _ Sh).
    destruct Hk as [->|[->|[->|[->|[->|[->|[->|[]]]]]]]]; simpl; congruence.
  - symmetry. apply dict_get_None. intros Hin. csimpl in Hin. rewrite !elem_of_cons, elem_of_nil in Hin.
    pose proof (sh_keys _ _ _ _ _ _ _ _ Sh k) as [_ Hk]. rewrite Gk in Hk.
    cut (is_Some (@None value)); [by intros []|]. apply Hk. unfold TRANSACTION_PAYLOAD_RULES. csimpl.
    rewrite !elem_of_cons, elem_of_nil. tauto.
Qed.

Lemma plain_nodup d : json_plain (VDict d) = true -> NoDup (dict_keys d).
Proof. cbn [json_plain]. intros [Hb _]%andb_true_iff. by apply bool_decide_eq_true in Hb. Qed.

Lemma plain_item d k v : json_plain (VDict d) = true -> dict_get k d = Some v -> json_plain v = true.
Proof.
  cbn [json_plain]. intros [_ Hf]%andb_true_iff Hg. rewrite forallb_forall in Hf.
  apply (Hf (k, v)). apply list_elem_of_In. by apply dict_get_Some_elem.
Qed.

Lemma decode_static_inv raw chain_id m tx :
  decode_and_validate_transaction_static_bytes raw chain_id m = Ok tx ->
  exists ptext, decode_transaction_bytes raw = Ok (tx, ptext) /\
    validate_transaction_static tx chain_id = Ok tt /\
    (forall n, m = Some n -> Z.of_nat (length raw) <= n).
Proof.
  unfold decode_and_validate_transaction_static_bytes. intros Hd. destruct_result.
  destruct a0 as [tx' pt]. cbv beta iota in Hd. destruct_result. destruct a0. exists pt.
  split_and!; [done|done|]. intros n ->. unfold check_py in E.
  destruct (n <? _) eqn:El; [done|]. lia.
Qed.

(** Claim C13. The signature covers what executes: for every raw transaction that passes
    [decode_and_validate_transaction_static_bytes], the text its signature was
    verified over, under the key of its own sender, is the canonical text of its
    whole payload, the payload has exactly the expected keys, its nonce and chi are
    unsigned 64-bit integers, and it names this chain. *)
Theorem static_validation_sound raw chain_id m tx :
  decode_and_validate_transaction_static_bytes raw chain_id m = Ok tx ->
  exists p sender signature nonce chi kwargs ptext,
    tx_shape tx chain_id p sender signature nonce chi kwargs /\
    decode_transaction_bytes raw = Ok (tx, ptext) /\
    canonical_json_text (VDict p) = Ok ptext /\
    verify_message sender ptext signature = Ok true.
Proof.
  intros (ptext & Hdec & Hst & _)%decode_static_inv.
  destruct (static_shape tx chain_id Hst) as (p & sender & sg & n & chi & kw & text & Sh & Hu & Hv).
  destruct (decode_transaction_canonical _ _ _ Hdec) as [Hpl _].
  apply decode_transaction_inv in Hdec as Hinv. destruct Hinv as (b & payload & _ & _ & _ & Hp & Ht).
  rewrite (sh_payload _ _ _ _ _ _ _ _ Sh) in Hp. apply Ok_inj in Hp as <-.
  assert (Hnd : NoDup (dict_keys p)).
  { pose proof (sh_payload _ _ _ _ _ _ _ _ Sh) as Hp. destruct tx; try done. simpl in Hp.
    destruct (dict_get "payload" d) eqn:Eg; [|done]. apply Ok_inj in Hp as ->.
    by eapply plain_nodup, plain_item. }
  pose proof (shape_signed_text _ _ _ _ _ _ _ _ _ _ _ Sh Hnd Hu) as Htext.
  assert (text = ptext) as ->.
  { unfold canonical_json_text in Ht. destruct (canonical_json_value 0 (VDict p)) eqn:Ec; [|done].
    apply canonical_format in Ec as ->. cbn [mbind result_bind] in Ht. congruence. }
  exists p, sender, sg, n, chi, kw, ptext. done.
Qed.

(** ** Admission *)

Lemma shape_nonce tx chain_id p sender signature nonce chi kwargs :
  tx_shape tx chain_id p sender signature nonce chi kwargs ->
  tx_field "nonce" tx = Ok (VInt nonce) /\ tx_sender tx = Ok sender.
Proof.
  intros Sh. unfold tx_sender, tx_field. rewrite (sh_payload _ _ _ _ _ _ _ _ Sh). simpl.
  rewrite (proj1 (sh_nonce _ _ _ _ _ _ _ _ Sh)), (proj1 (sh_sender _ _ _ _ _ _ _ _ Sh)). done.
Qed.

Section Admission.
Context {D : Type} `{DriverOps D} `{PyArithInt}.
Context (convert_dict : value -> result value)
        (get_var : D -> string -> string -> list value -> result value)
        (monotonic : nat -> Z) (reservation_ttl_seconds max_pending_config : Z)
        (sha256 : bytes -> bytes).

(** [check_enough_chi] on integer balances: a transaction is refused exactly
    when the balance buys fewer chi than it supplies, or when it is a native transfer
    that would leave the sender with less than twelve chi. *)
Theorem check_enough_chi_int balance rate chi amount contract function :
  Z.abs ((balance - amount) * rate) < 2 ^ 1000 ->
  check_enough_chi (VInt balance) (VInt rate) (VInt chi) contract function (VInt amount) = Ok tt <->
  chi <= balance * rate /\
  (contract = VStr "currency" /\ function = VStr "transfer" -> 12 <= (balance - amount) * rate).
Proof.
  intros Hb. unfold check_enough_chi. rewrite num_mul_int. cbn [mbind result_bind].
  rewrite num_lt_int. cbn [mbind result_bind]. destruct (balance * rate <? chi) eqn:El.
  { split; [done|]. intros [? _]. lia. }
  rewrite num_sub_int. cbn [mbind result_bind]. rewrite num_mul_int. cbn [mbind result_bind].
  rewrite num_div_lt_int by (lia || done). cbn [mbind result_bind].
  destruct (bool_decide (contract = _)) eqn:Ec, (bool_decide (function = _)) eqn:Ef; cbn [andb];
    rewrite ?bool_decide_eq_true, ?bool_decide_eq_false in *.
  - destruct (_ <? 2 * 6) eqn:E2; (split; [|intros [? Ht]]); try done.
    + specialize (Ht (conj Ec Ef)). lia.
    + intros _. split; [lia|]. intros _. lia.
  - split; [|done]. intros _. split; [lia|]. by intros [_ ?].
  - split; [|done]. intros _. split; [lia|]. by intros [? _].
  - split; [|done]. intros _. split; [lia|]. by intros [? _].
Qed.

Lemma after_static_inv tx h policy s s' :
  validate_transaction_after_static convert_dict get_var monotonic reservation_ttl_seconds
    max_pending_config tx h (Some policy) s = (Ok tt, s') ->
  validate_tx float_trunc policy tx = Ok tt /\
  (require_chi_balance policy = true -> check_balance convert_dict get_var (ns_driver s) tx = Ok tt) /\
  check_nonce monotonic reservation_ttl_seconds max_pending_config tx h s = (Ok tt, s').
Proof.
  unfold validate_transaction_after_static, mbind, stM_bind, lift_res, get_st.
  destruct (validate_tx float_trunc policy tx) as [[]|]; [|done].
  destruct (require_chi_balance policy); [|done].
  destruct (check_balance _ _ _ _) as [[]|]; done.
Qed.

(** Claim C12. A transaction the [CheckTx] handler admits passed every static check, has
    a budget the fee policy allows, is covered by the sender's balance when the
    policy charges fees, and now holds the reservation of its nonce under the hash
    of its bytes; the handler changes nothing else. *)
Theorem check_tx_admits raw chain_id max_tx_bytes policy s s' :
  check_tx convert_dict get_var monotonic reservation_ttl_seconds max_pending_config sha256
    raw chain_id max_tx_bytes policy s = (OkCode, s') ->
  exists tx p sender signature nonce chi kwargs,
    decode_and_validate_transaction_static_bytes raw chain_id (Some max_tx_bytes) = Ok tx /\
    Z.of_nat (length raw) <= max_tx_bytes /\
    tx_shape tx chain_id p sender signature nonce chi kwargs /\
    validate_tx float_trunc policy tx = Ok tt /\
    (require_chi_balance policy = true -> check_balance convert_dict get_var (ns_driver s) tx = Ok tt) /\
    admitted monotonic reservation_ttl_seconds max_pending_config sender nonce
      (hash_bytes sha256 raw) s s'.
Proof.
  unfold check_tx.
  destruct (decode_and_validate_transaction_static_bytes raw chain_id (Some max_tx_bytes)) as [tx|] eqn:Ed; [|done].
  destruct (validate_transaction_after_static _ _ _ _ _ tx _ _ s) as [[[]|e] s2] eqn:Ev; [|done].
  intros [= <-]. apply after_static_inv in Ev as (Hp & Hb & Hn).
  destruct (decode_static_inv _ _ _ _ Ed) as (ptext & _ & Hst & Hlen).
  destruct (static_shape _ _ Hst) as (p & sender & sg & n & chi & kw & text & Sh & _ & _).
  destruct (shape_nonce _ _ _ _ _ _ _ _ Sh) as [Hf Hs].
  destruct (check_nonce_spec monotonic reservation_ttl_seconds max_pending_config tx
              (hash_bytes sha256 raw) s sender _ Hf Hs) as (r & s3 & E & Hr).
  rewrite Hn in E. injection E as <- <-. destruct Hr as (n' & [= <-] & A & _).
  exists tx, p, sender, sg, n, chi, kw. split_and!; try done. by apply Hlen.
Qed.

(** A transaction [CheckTx] refuses leaves every reservation and committed
    nonce in place, except reservations of its own sender that had expired. *)
Theorem check_tx_refuses raw chain_id max_tx_bytes policy s s' :
  check_tx convert_dict get_var monotonic reservation_ttl_seconds max_pending_config sha256
    raw chain_id max_tx_bytes policy s = (ErrorCode, s') ->
  s' = s \/ exists sender, pruned monotonic reservation_ttl_seconds sender s s'.
Proof.
  unfold check_tx.
  destruct (decode_and_validate_transaction_static_bytes raw chain_id (Some max_tx_bytes)) as [tx|] eqn:Ed;
    [|intros [= <-]; by left].
  destruct (decode_static_inv _ _ _ _ Ed) as (ptext & _ & Hst & _).
  destruct (static_shape _ _ Hst) as (p & sender & sg & n & chi & kw & text & Sh & _ & _).
  destruct (shape_nonce _ _ _ _ _ _ _ _ Sh) as [Hf Hs].
  destruct (check_nonce_spec monotonic reservation_ttl_seconds max_pending_config tx
              (hash_bytes sha256 raw) s sender _ Hf Hs) as (r & s3 & E & Hr).
  unfold validate_transaction_after_static, mbind, stM_bind, lift_res, get_st.
  destruct (validate_tx float_trunc policy tx) as [[]|]; [|intros [= <-]; by left].
  destruct (require_chi_balance policy).
  - destruct (check_balance _ _ _ _) as [[]|]; [|intros [= <-]; by left].
    rewrite E. destruct r; [done|]. intros [= <-]. right. by exists sender.
  - rewrite E. destruct r; [done|]. intros [= <-]. right. by exists sender.
Qed.
End Admission.
End TxValidation.

(** ** Witnesses *)

Definition toy_verify (vk msg signature : string) : result bool := Ok true.
Definition toy_safe (v : value) : bool := is_str v.
Definition no_floats (r : string) : result Z := raise ValueError "no float".
Definition hex_zeros (n : nat) : string := String.string_of_list_ascii (replicate n "0"%char).

Definition sample_payload (nonce chi : Z) : list (string * value) :=
  [("chain_id", VStr "xian-1"); ("chi_supplied", VInt chi); ("contract", VStr "currency");
   ("function", VStr "approve"); ("kwargs", VDict [("amount", VInt 3)]); ("nonce", VInt nonce);
   ("sender", VStr (hex_zeros 64))].
Definition sample_signed (nonce chi : Z) : value :=
  VDict [("metadata", VDict [("signature", VStr (hex_zeros 128))]);
         ("payload", VDict (sample_payload nonce chi))].
Definition raw_of (tx : value) : bytes :=
  match canonical_json_text tx with Ok t => encode_transaction_bytes t | Raise _ => [] end.

Lemma static_validation_sound_witness :
  exists p sender signature nonce chi kwargs ptext,
    tx_shape (sample_signed 5 50) "xian-1" p sender signature nonce chi kwargs /\
    canonical_json_text (VDict p) = Ok ptext.
Proof.
  destruct (static_validation_sound toy_verify toy_safe no_floats (raw_of (sample_signed 5 50)) "xian-1" None
              (sample_signed 5 50)) as (p & s & sg & n & c & k & t & Sh & _ & Ht & _).
  - vm_compute. reflexivity.
  - by exists p, s, sg, n, c, k, t.
Defined.

Lemma check_enough_chi_int_witness :
  check_enough_chi (H0 := int_arith) (VInt 100) (VInt 20) (VInt 50) (VStr "currency") (VStr "transfer") (VInt 99)
  = Ok tt.
Proof. apply (check_enough_chi_int 100 20 50 99); [vm_compute; reflexivity|]. split; lia. Defined.

Definition toy_get_var (d : mem_driver) (contract variable : string) (args : list value) : result value :=
  Ok (if decide (contract = "currency") then VInt 100 else VNone).
Definition sample_sender : string := hex_zeros 64.
Definition fresh_storage : NonceStorage (D := mem_driver) :=
  MkNonceStorage (drv_set mem_empty (nonce_key sample_sender) (VInt 4)) ∅ 0.

Definition sample_check (nonce : Z) : Z * NonceStorage (D := mem_driver) :=
  check_tx (H0 := int_arith) toy_verify toy_safe no_floats Ok toy_get_var ticks 60 128 toy_sha
    (raw_of (sample_signed nonce 50)) "xian-1" 4096 (paid_metered None None) fresh_storage.

Lemma check_tx_admits_witness :
  exists r, pend (sample_check 5).2 sample_sender !! 5 = Some r /\
            res_tx_hash r = hash_bytes toy_sha (raw_of (sample_signed 5 50)).
Proof.
  destruct (check_tx_admits (H0 := int_arith) toy_verify toy_safe no_floats Ok toy_get_var ticks 60 128 toy_sha
              (raw_of (sample_signed 5 50)) "xian-1" 4096 (paid_metered None None) fresh_storage
              (sample_check 5).2) as (tx & p & sender & sg & n & chi & kw & Hd & _ & Sh & _ & _ & A).
  - vm_compute. reflexivity.
  - vm_compute in Hd. apply Ok_inj in Hd as <-. pose proof (sh_payload _ _ _ _ _ _ _ _ Sh) as Hp.
    vm_compute in Hp. injection Hp as <-.
    pose proof (proj1 (sh_nonce _ _ _ _ _ _ _ _ Sh)) as Hn. vm_compute in Hn. injection Hn as <-.
    pose proof (proj1 (sh_sender _ _ _ _ _ _ _ _ Sh)) as Hs. vm_compute in Hs. injection Hs as <-.
    apply A.
Defined.

Lemma check_tx_refuses_witness :
  (sample_check 9).2 = fresh_storage \/
  exists sender, pruned ticks 60 sender fresh_storage (sample_check 9).2.
Proof.
  apply (check_tx_refuses (H0 := int_arith) toy_verify toy_safe no_floats Ok toy_get_var ticks 60 128 toy_sha
           (raw_of (sample_signed 9 50)) "xian-1" 4096 (paid_metered None None)).
  vm_compute. reflexivity.
Defined.
