(* ===== verification/Proposal.v ===== *)
(** * Proposals and block decoding

    [prepare_proposal] (src/src/xian/methods/prepare_proposal.py),
    [process_proposal] (src/src/xian/methods/process_proposal.py) and
    [_decode_block_transactions] (src/src/xian/methods/finalize_block.py): the
    three places where a list of raw transactions is validated in order, with the
    running chi total and the sequential nonce tracker.

    [committed] is [self.nonce_storage.get_nonce]; the handlers only read it. *)

From S2P Require Import Prelude PyValue Json PyBuiltins Driver Encoding Formatting FeePolicy StateRoot Nonce TxValidation.

Record app_config := AppConfig {
  cfg_chain_id : string;
  cfg_max_tx_bytes : Z;
  cfg_tx_fee_policy : TxFeePolicy;
}.

Section Proposal.
Context (verify_message : string -> string -> string -> result bool)
        (is_safe_contract_name : value -> bool)
        (float_trunc : string -> result Z)
        (self : app_config)
        (committed : string -> result (option Z)).

(** The nonce tracker and [block_chi_supplied]. *)
Record block_state := BlockState { bs_tracker : tracker; bs_chi : Z }.
Definition start : block_state := BlockState [] 0.

Definition decode (raw_tx : bytes) : result value :=
  decode_and_validate_transaction_static_bytes verify_message is_safe_contract_name
    raw_tx (cfg_chain_id self) (Some (cfg_max_tx_bytes self)).

(** The checks after decoding, in the order of the [try] blocks. *)
Definition check_decoded (st : block_state) (tx : value) : result block_state :=
  _ ← validate_tx float_trunc (cfg_tx_fee_policy self) tx;
  chi ← tx_chi_supplied float_trunc tx;
  let next_block_chi_supplied := bs_chi st + chi in
  _ ← validate_block_total (cfg_tx_fee_policy self) next_block_chi_supplied;
  t ← validate_consensus_transaction_after_static committed (bs_tracker st) tx;
  Ok (BlockState t next_block_chi_supplied).

Definition admit_tx (st : block_state) (raw_tx : bytes) : result block_state :=
  tx ← decode raw_tx; check_decoded st tx.

(** ** [prepare_proposal] *)

Record proposal_state := ProposalState {
  ps_block : block_state;
  ps_bytes : Z;                 (* [block_tx_bytes] *)
  ps_txs : list bytes;          (* [txs] *)
}.

Definition prepare_step (max_tx_bytes : Z) (st : proposal_state) (raw_tx : bytes) : proposal_state :=
  let next_block_tx_bytes := ps_bytes st + Z.of_nat (length raw_tx) in
  if max_tx_bytes <? next_block_tx_bytes then st
  else match admit_tx (ps_block st) raw_tx with
       | Raise _ => st
       | Ok b => ProposalState b next_block_tx_bytes (ps_txs st ++ [raw_tx])
       end.

Definition prepare_proposal (txs : list bytes) (max_tx_bytes : Z) : list bytes :=
  ps_txs (foldl (prepare_step max_tx_bytes) (ProposalState start 0 []) txs).

(** ** [process_proposal] *)

Inductive proposal_status := ACCEPT | REJECT.

Fixpoint process_loop (st : block_state) (txs : list bytes) : proposal_status :=
  match txs with
  | [] => ACCEPT
  | raw_tx :: txs =>
    match admit_tx st raw_tx with
    | Raise _ => REJECT
    | Ok st' => process_loop st' txs
    end
  end.

Definition process_proposal (txs : list bytes) : proposal_status := process_loop start txs.

(** ** [_decode_block_transactions] *)

Inductive decoded_entry :=
  | EntryTx (tx : value) (tx_bytes : bytes)
  | EntryError (message : string) (tx_bytes : bytes).

Definition attach_meta (current_block_meta : value) (tx : value) : value :=
  match tx with VDict d => VDict (dict_set "b_meta" current_block_meta d) | v => v end.

Definition decode_step (meta : value) (acc : block_state * list decoded_entry) (tx_bytes : bytes)
  : block_state * list decoded_entry :=
  let '(st, entries) := acc in
  match decode tx_bytes with
  | Raise e => (st, entries ++ [EntryError ("Error decoding transaction: " +:+ exn_msg e) tx_bytes])
  | Ok tx =>
    match check_decoded st tx with
    | Raise e => (st, entries ++ [EntryError ("Invalid transaction in block: " +:+ exn_msg e) tx_bytes])
    | Ok st' => (st', entries ++ [EntryTx (attach_meta meta tx) tx_bytes])
    end
  end.

Definition entry_tx (e : decoded_entry) : option value :=
  match e with EntryTx tx _ => Some tx | EntryError _ _ => None end.

Definition _decode_block_transactions (meta : value) (txs : list bytes)
  : list decoded_entry * list value :=
  let decoded_entries := (foldl (decode_step meta) (start, []) txs).2 in
  (decoded_entries, omap entry_tx decoded_entries).

(** ** Lemmas *)

(** The running state after a list of admitted transactions. *)
Definition run (txs : list bytes) : result block_state := foldM_py admit_tx start txs.

Lemma process_loop_run st txs :
  process_loop st txs = ACCEPT <-> exists st', foldM_py admit_tx st txs = Ok st'.
Proof.
  revert st. induction txs as [|raw txs IH]; intros st; simpl; [split; [by eexists|done]|].
  destruct (admit_tx st raw) as [st1|e]; simpl; [apply IH|]. split; [done|]. by intros [? ?].
Qed.

Definition total_bytes (txs : list bytes) : Z := foldr (λ raw n, Z.of_nat (length raw) + n) 0 txs.

Lemma total_bytes_app l1 l2 : total_bytes (l1 ++ l2) = total_bytes l1 + total_bytes l2.
Proof. induction l1 as [|x l1 IH]; simpl; [done|]. rewrite IH. lia. Qed.

Record prepared (max_tx_bytes : Z) (seen : list bytes) (st : proposal_state) : Prop := {
  pp_run : run (ps_txs st) = Ok (ps_block st);
  pp_bytes : ps_bytes st = total_bytes (ps_txs st);
  pp_bound : ps_txs st <> [] -> ps_bytes st <= max_tx_bytes;
  pp_sub : sublist (ps_txs st) seen;
}.

Lemma prepare_step_prepared m seen st raw :
  prepared m seen st -> prepared m (seen ++ [raw]) (prepare_step m st raw).
Proof.
  intros [Hr Hb Hm Hs]. unfold prepare_step.
  assert (Hskip : prepared m (seen ++ [raw]) st).
  { split; try done. by apply sublist_inserts_r. }
  destruct (m <? _) eqn:El; [done|]. destruct (admit_tx (ps_block st) raw) as [b|e] eqn:Ea; [|done].
  split; simpl.
  - unfold run. rewrite foldM_py_app. fold (run (ps_txs st)). rewrite Hr. simpl. by rewrite Ea.
  - rewrite total_bytes_app. simpl. lia.
  - intros _. lia.
  - by apply sublist_app.
Qed.

Lemma prepare_prepared m txs :
  prepared m txs (foldl (prepare_step m) (ProposalState start 0 []) txs).
Proof.
  assert (H0 : prepared m [] (ProposalState start 0 [])) by (split; simpl; try done; constructor).
  change txs with ([] ++ txs) at 1. revert H0. generalize (ProposalState start 0 []). generalize (@nil bytes).
  induction txs as [|raw txs IH]; intros seen st Hst; simpl; [by rewrite app_nil_r|].
  rewrite (cons_middle raw seen txs), (assoc_L app). apply IH. by apply prepare_step_prepared.
Qed.

(** Claim C10. An honest proposer is never refused: whatever transactions CometBFT offers,
    the list [prepare_proposal] returns is accepted by [process_proposal] on a node
    with the same committed state, is a subsequence of what was offered, and its
    total size stays within the limit of the request. *)
Theorem prepared_proposal_accepted txs max_tx_bytes :
  let proposal := prepare_proposal txs max_tx_bytes in
  process_proposal proposal = ACCEPT /\ sublist proposal txs /\
  (proposal <> [] -> total_bytes proposal <= max_tx_bytes).
Proof.
  destruct (prepare_prepared max_tx_bytes txs) as [Hr Hb Hm Hs].
  unfold prepare_proposal, process_proposal. split_and!.
  - apply process_loop_run. by eexists.
  - done.
  - rewrite <- Hb. done.
Qed.

(** ** What an accepted proposal holds *)

Lemma admit_inv st raw st' :
  admit_tx st raw = Ok st' ->
  exists tx chi, decode raw = Ok tx /\ validate_tx float_trunc (cfg_tx_fee_policy self) tx = Ok tt /\
    tx_chi_supplied float_trunc tx = Ok chi /\ bs_chi st' = bs_chi st + chi /\
    validate_block_total (cfg_tx_fee_policy self) (bs_chi st') = Ok tt /\
    validate_and_advance committed (bs_tracker st) tx = Ok (bs_tracker st').
Proof.
  unfold admit_tx, check_decoded. intros Ha. destruct_result. destruct a0, a2. exists a, a1.
  split_and!; done.
Qed.

Lemma advance_inv t tx t' :
  validate_and_advance committed t tx = Ok t' ->
  exists sender n, tx_sender tx = Ok sender /\ tx_field "nonce" tx = Ok (VInt n) /\
    expected_nonce committed t sender = Ok n /\ t' = dict_set sender n t.
Proof.
  unfold validate_and_advance. intros Ha. destruct_result. case_decide as Hn; [|done].
  subst. apply Ok_inj in Ha as <-. by exists a, a1.
Qed.

(** The nonces [sender] uses in a list of decoded transactions, in order. *)
Definition nonce_of_sender (sender : string) (tx : value) : option Z :=
  match tx_sender tx, tx_field "nonce" tx with
  | Ok s, Ok (VInt n) => if decide (s = sender) then Some n else None
  | _, _ => None
  end.
Definition sender_nonces (sender : string) (txs : list value) : list Z := omap (nonce_of_sender sender) txs.

Lemma expected_after_set t sender n q :
  expected_nonce committed (dict_set sender n t) q =
    if decide (q = sender) then Ok (n + 1) else expected_nonce committed t q.
Proof.
  unfold expected_nonce. rewrite dict_get_set. by destruct (decide (q = sender)).
Qed.

Lemma run_nonces txs st st' :
  foldM_py admit_tx st txs = Ok st' ->
  exists decoded, mapM_py decode txs = Ok decoded /\
    forall sender n, expected_nonce committed (bs_tracker st) sender = Ok n ->
      sender_nonces sender decoded = seqZ n (Z.of_nat (length (sender_nonces sender decoded))).
Proof.
  revert st. induction txs as [|raw txs IH]; intros st Hf; simpl in Hf.
  - exists []. split; [done|]. by intros.
  - destruct (admit_tx st raw) as [st1|] eqn:Ea; [|done]. simpl in Hf.
    destruct (IH st1 Hf) as (decoded & Hd & Hn).
    destruct (admit_inv _ _ _ Ea) as (tx & chi & Hdec & _ & _ & _ & _ & Hv).
    destruct (advance_inv _ _ _ Hv) as (q & m & Hq & Hm & He & Ht).
    exists (tx :: decoded). split; [simpl; by rewrite Hdec, Hd|]. intros sender n Hsn.
    unfold sender_nonces in *. csimpl.
    replace (nonce_of_sender sender tx) with (if decide (q = sender) then Some m else None)
      by (unfold nonce_of_sender; by rewrite Hq, Hm).
    specialize (Hn sender). rewrite Ht, expected_after_set in Hn.
    destruct (decide (q = sender)) as [->|Hne].
    + rewrite decide_True in Hn by done. specialize (Hn _ eq_refl).
      assert (n = m) as -> by congruence. simpl length.
      rewrite Nat2Z.inj_succ, seqZ_cons by lia. rewrite Z.pred_succ.
      f_equal. rewrite <- Z.add_1_r. exact Hn.
    + rewrite decide_False in Hn by done. by apply Hn.
Qed.

Lemma run_chi txs st st' :
  foldM_py admit_tx st txs = Ok st' -> txs <> [] ->
  validate_block_total (cfg_tx_fee_policy self) (bs_chi st') = Ok tt.
Proof.
  revert st. induction txs as [|raw txs IH]; intros st Hf Hne; [done|]. simpl in Hf.
  destruct (admit_tx st raw) as [st1|] eqn:Ea; [|done]. simpl in Hf.
  destruct txs as [|raw2 txs].
  - simpl in Hf. apply Ok_inj in Hf as <-. by destruct (admit_inv _ _ _ Ea) as (?&?&_&_&_&_&?&_).
  - by eapply IH.
Qed.

Lemma decode_loop meta txs st acc st' :
  foldM_py admit_tx st txs = Ok st' ->
  exists decoded, mapM_py decode txs = Ok decoded /\
    foldl (decode_step meta) (st, acc) txs =
      (st', acc ++ zip_with (λ tx raw, EntryTx (attach_meta meta tx) raw) decoded txs).
Proof.
  revert st acc. induction txs as [|raw txs IH]; intros st acc Hf; simpl in *.
  - apply Ok_inj in Hf as ->. exists []. by rewrite app_nil_r.
  - destruct (admit_tx st raw) as [st1|] eqn:Ea; [|done]. simpl in Hf.
    unfold admit_tx in Ea. destruct (decode raw) as [tx|] eqn:Ed; [|done]. simpl in Ea. rewrite Ea.
    destruct (IH st1 (acc ++ [EntryTx (attach_meta meta tx) raw]) Hf) as (decoded & Hd & Hl).
    exists (tx :: decoded). rewrite Hd. split; [done|]. rewrite Hl. simpl. by rewrite <- (assoc_L app).
Qed.

(** Claim C11. A proposal [process_proposal] accepts finalizes without a rejected
    transaction: [_decode_block_transactions] yields one decoded entry per raw
    transaction and no error entry, every sender's nonces run consecutively from
    the one after its committed nonce, and the chi supplied stays within the block
    limit. *)
Theorem accepted_proposal_decodes meta txs :
  process_proposal txs = ACCEPT ->
  exists decoded st,
    _decode_block_transactions meta txs =
      (zip_with (λ tx raw, EntryTx (attach_meta meta tx) raw) decoded txs,
       attach_meta meta <$> decoded) /\
    mapM_py decode txs = Ok decoded /\ run txs = Ok st /\
    (forall sender c, committed sender = Ok c ->
       sender_nonces sender decoded =
         seqZ (default (-1) c + 1) (Z.of_nat (length (sender_nonces sender decoded)))) /\
    (txs <> [] -> forall m, max_block_chi (cfg_tx_fee_policy self) = Some m -> bs_chi st <= m).
Proof.
  intros [st Hr]%process_loop_run.
  destruct (decode_loop meta txs start [] st Hr) as (decoded & Hd & Hl).
  destruct (run_nonces txs start st Hr) as (decoded' & Hd' & Hn).
  assert (decoded' = decoded) as -> by congruence.
  exists decoded, st. split_and!; [|done|done| |].
  - unfold _decode_block_transactions. rewrite Hl. simpl. f_equal.
    pose proof (mapM_py_length _ _ _ Hd) as Hlen. clear -Hlen.
    revert txs Hlen. induction decoded as [|tx decoded IH]; intros [|raw txs] Hlen; try done. csimpl.
    f_equal. apply IH. simpl in Hlen. lia.
  - intros sender c Hc. apply Hn. unfold expected_nonce. simpl. rewrite Hc. by destruct c.
  - intros Hne m Hm. pose proof (run_chi txs start st Hr Hne) as Hv.
    by eapply validate_block_total_spec in Hv.
Qed.

Definition entry_raw (e : decoded_entry) : bytes :=
  match e with EntryTx _ raw | EntryError _ raw => raw end.
Definition entry_ok (e : decoded_entry) : bool :=
  match e with EntryTx _ _ => true | EntryError _ _ => false end.

Lemma decode_step_spec meta st acc raw :
  exists st' e, decode_step meta (st, acc) raw = (st', acc ++ [e]) /\ entry_raw e = raw /\
    if entry_ok e then admit_tx st raw = Ok st' else st' = st /\ exists x, admit_tx st raw = Raise x.
Proof.
  unfold decode_step, admit_tx. destruct (decode raw) as [tx|x] eqn:Ed; simpl.
  - destruct (check_decoded st tx) as [st'|x] eqn:Ec.
    + by eexists _, _.
    + eexists _, _. split; [done|]. split; [done|]. simpl. split; [done|]. by eexists.
  - eexists _, _. split; [done|]. split; [done|]. simpl. split; [done|]. by eexists.
Qed.

(** Every raw transaction has one entry, in order. *)
Lemma decode_block_raws meta txs : entry_raw <$> (_decode_block_transactions meta txs).1 = txs.
Proof.
  unfold _decode_block_transactions. cbn [fst].
  assert (Hgen : forall st acc, entry_raw <$> (foldl (decode_step meta) (st, acc) txs).2 = (entry_raw <$> acc) ++ txs).
  { induction txs as [|raw l IH]; intros st acc; cbn [foldl]; [by rewrite app_nil_r|].
    destruct (decode_step_spec meta st acc raw) as (st' & e & -> & <- & _).
    rewrite IH, fmap_app, <- (assoc_L app). done. }
  apply Hgen.
Qed.

(** A block that reaches [FinalizeBlock] with invalid transactions in it is
    still decoded deterministically: every raw transaction gets exactly one entry, in
    order, and the entries that are not errors are exactly those the block would
    have if the invalid transactions were left out. *)
Theorem decode_block_skips_invalid meta txs :
  let entries := (_decode_block_transactions meta txs).1 in
  entry_raw <$> entries = txs /\
  exists st, run (entry_raw <$> filter (λ e, entry_ok e = true) entries) = Ok st.
Proof.
  unfold _decode_block_transactions. simpl.
  assert (Hgen : forall st acc txs, run (entry_raw <$> filter (λ e, entry_ok e = true) acc) = Ok st ->
     let r := foldl (decode_step meta) (st, acc) txs in
     entry_raw <$> r.2 = (entry_raw <$> acc) ++ txs /\
     run (entry_raw <$> filter (λ e, entry_ok e = true) r.2) = Ok r.1).
  { intros st acc l. revert st acc. induction l as [|raw l IH]; intros st acc Hacc.
    { simpl. by rewrite app_nil_r. }
    cbn [foldl]. destruct (decode_step_spec meta st acc raw) as (st' & e & -> & He & Hok).
    destruct (IH st' (acc ++ [e])) as [H1 H2].
    - rewrite filter_app, fmap_app. unfold run. rewrite foldM_py_app.
      fold (run (entry_raw <$> filter (λ e, entry_ok e = true) acc)). rewrite Hacc. bind_step.
      rewrite filter_cons, filter_nil. destruct (entry_ok e).
      + rewrite decide_True by done. simpl. by rewrite He, Hok.
      + rewrite decide_False by done. simpl. by destruct Hok as [-> _].
    - split; [|done]. rewrite H1, fmap_app, <- (assoc_L app). simpl. by rewrite He. }
  destruct (Hgen start [] txs eq_refl) as [H1 H2]. split; [done|]. by eexists.
Qed.
End Proposal.

(** ** Witnesses *)

Definition sample_app : app_config := AppConfig "xian-1" 4096 (free_metered 100 120).
Definition sample_committed (sender : string) : result (option Z) := Ok (Some 4).
Definition sample_block : list bytes := [raw_of (sample_signed 5 50); raw_of (sample_signed 6 50)].

Example prepare_filters :
  prepare_proposal toy_verify toy_safe no_floats sample_app sample_committed
    (raw_of (sample_signed 7 50) :: sample_block ++ [raw_of (sample_signed 7 50)]) 100000
  = sample_block.
Proof. vm_compute. reflexivity. Qed.

Lemma accepted_proposal_decodes_witness :
  exists decoded, mapM_py (decode toy_verify toy_safe sample_app) sample_block = Ok decoded /\
    sender_nonces sample_sender decoded =
      seqZ 5 (Z.of_nat (length (sender_nonces sample_sender decoded))).
Proof.
  destruct (accepted_proposal_decodes toy_verify toy_safe no_floats sample_app sample_committed VNone
              sample_block) as (decoded & st & _ & Hd & _ & Hn & _).
  - vm_compute. reflexivity.
  - exists decoded. split; [done|]. by apply (Hn sample_sender (Some 4)).
Defined.
