(* ===== verification/AbciWire.v ===== *)
(** * The ABCI socket (src/src/abci/utils.py, src/src/abci/server.py)

    Varint length prefixes, framing of protobuf messages on a byte stream, and the
    connection handler that reads the stream in chunks and answers every request
    in order.

    A [BytesIO] with a position is the list of the bytes from that position on.
    Protobuf parsing, serialization and the application's handlers are
    parameters. *)

From S2P Require Import Prelude.

(** ** Varints *)

(** [encode_varint]; each turn drops seven bits, so the bit length is fuel enough. *)
Fixpoint encode_varint_loop (fuel : nat) (number : Z) : bytes :=
  let towrite := Z.land number 127 in
  let number := Z.shiftr number 7 in
  if number =? 0 then [towrite]
  else match fuel with
       | O => [towrite]
       | S fuel => Z.lor towrite 128 :: encode_varint_loop fuel number
       end.

Definition encode_varint (number : Z) : bytes := encode_varint_loop (Z.to_nat (Z.log2 number)) number.

(** [_read_one] and [decode_varint]; [None] is [EOFError]. *)
Definition _read_one (stream : bytes) : option (Z * bytes) :=
  match stream with c :: r => Some (c, r) | [] => None end.

Fixpoint decode_varint_loop (stream : bytes) (shift result : Z) : option (Z * bytes) :=
  match stream with
  | [] => None
  | i :: r =>
    let result := Z.lor result (Z.shiftl (Z.land i 127) shift) in
    let shift := shift + 7 in
    if Z.land i 128 =? 0 then Some (result, r) else decode_varint_loop r shift result
  end.

Definition decode_varint (stream : bytes) : option (Z * bytes) := decode_varint_loop stream 0 0.

Section Messages.
Context {M : Type} (serialize : M -> bytes) (parse : bytes -> result M).

Definition write_message (message : M) : bytes :=
  let bz := serialize message in encode_varint (Z.of_nat (length bz)) ++ bz.

(** One turn of [read_messages]: the next complete frame and what follows it. *)
Definition read_frame (reader : bytes) : option (bytes * bytes) :=
  '(length_, r) ← decode_varint reader;
  let data := take (Z.to_nat length_) r in
  if Z.of_nat (length data) <? length_ then None else Some (data, drop (Z.to_nat length_) r).

(** [list(read_messages(reader, message_class))] and the bytes left; every frame
    takes at least one byte, so the length of the stream is fuel enough. *)
Fixpoint read_messages_loop (fuel : nat) (reader : bytes) : result (list M * bytes) :=
  match fuel with
  | O => Ok ([], reader)
  | S fuel =>
    match read_frame reader with
    | None => Ok ([], reader)
    | Some (data, rest) =>
      msg ← parse data;
      '(msgs, rest) ← read_messages_loop fuel rest;
      Ok (msg :: msgs, rest)
    end
  end.

Definition read_messages (reader : bytes) : result (list M * bytes) :=
  read_messages_loop (S (length reader)) reader.

(** ** The connection handler *)

Section Handler.
Context {A : Type} (process : M -> stM A bytes).

(** What a connection did: the application's state and the bytes written back. *)
Record conn := Conn { c_app : A; c_out : bytes }.

(** One message: an exception of its handler ends the connection. *)
Definition answer (c : conn) (m : M) : result conn :=
  match process m (c_app c) with
  | (Ok response, app) => Ok (Conn app (c_out c ++ response))
  | (Raise e, _) => Raise e
  end.

(** The parsing loop of [_handler] on the buffer: it reads all complete messages,
    answers them, and tries again until none is left. *)
Fixpoint drain (fuel : nat) (c : conn) (data : bytes) : result (conn * bytes) :=
  match fuel with
  | O => Ok (c, data)
  | S fuel =>
    '(messages, rest) ← read_messages data;
    match messages with
    | [] => Ok (c, rest)
    | _ => c ← foldM_py answer c messages; drain fuel c rest
    end
  end.

(** [_handler]: chunks as [reader.read] returns them, an empty one ends the
    connection. *)
Fixpoint _handler (c : conn) (data : bytes) (chunks : list bytes) : result (conn * bytes) :=
  match chunks with
  | [] => Ok (c, data)
  | bits :: chunks =>
    match bits with
    | [] => Ok (c, data)
    | _ =>
      let data := data ++ bits in
      '(c, data) ← drain (S (length data)) c data;
      _handler c data chunks
    end
  end.
End Handler.
End Messages.

(** ** The protocol handler

    The fields of the [value] oneof of a [Request]; [WhichOneof] returns [None]
    for a request that sets none of them. *)
Inductive req_type :=
  | echo | flush | info | init_chain | query | check_tx | commit | list_snapshots
  | offer_snapshot | load_snapshot_chunk | apply_snapshot_chunk
  | prepare_proposal | process_proposal | extend_vote | verify_vote_extension | finalize_block.

#[global] Instance req_type_eq_dec : EqDecision req_type.
Proof. solve_decision. Defined.

Inductive Response (Res : Type) :=
  | ResponseFlush
  | ResponseException (error : string)
  | ResponseOf (field : req_type) (result : Res).
Arguments ResponseFlush {_}.
Arguments ResponseException {_} _.
Arguments ResponseOf {_} _ _.

Section ProtocolHandler.
Context {A Req Res : Type} (call : req_type -> Req -> stM A Res) (write : Response Res -> bytes).

(** Each handler awaits the application's method of its own name and wraps the
    result in the field of that name. *)
Definition delegate (k : req_type) (req : Req) : stM A bytes :=
  r ← call k req; mret (write (ResponseOf k r)).

Definition process (request : option req_type * Req) : stM A bytes :=
  match request.1 with
  | None => raise_st TypeError "attribute name must be string, not 'NoneType'"
  | Some flush => mret (write ResponseFlush)
  | Some extend_vote | Some verify_vote_extension =>
      mret (write (ResponseException "ABCI request not found"))
  | Some k => delegate k request.2
  end.
End ProtocolHandler.

(** ** Varints round-trip *)

Lemma land_127 n : 0 <= n -> Z.land n 127 = n mod 128.
Proof. intros Hn. change 127 with (Z.ones 7). by rewrite Z.land_ones by lia. Qed.

Lemma shiftr_7 n : Z.shiftr n 7 = n / 128.
Proof. by rewrite Z.shiftr_div_pow2 by lia. Qed.

Lemma lor_128 x : 0 <= x < 128 -> Z.lor x 128 = x + 128.
Proof.
  intros Hx. rewrite <- Z.add_lor_land. replace (Z.land x 128) with 0; [lia|].
  symmetry. apply Z.bits_inj_0. intros i. rewrite Z.land_spec.
  destruct (decide (i = 7)) as [->|Hi].
  - replace (Z.testbit x 7) with false; [done|]. symmetry.
    destruct (decide (x = 0)) as [->|]; [done|]. apply Z.bits_above_log2; [lia|].
    apply Z.log2_lt_pow2; lia.
  - change 128 with (2 ^ 7). destruct (decide (0 <= i)).
    + rewrite Z.pow2_bits_false by lia. apply andb_false_r.
    + rewrite Z.testbit_neg_r by lia. done.
Qed.

Lemma land_128_small x : 0 <= x < 128 -> Z.land x 128 = 0.
Proof.
  intros Hx. pose proof (lor_128 x Hx) as Hl. rewrite <- Z.add_lor_land in Hl. lia.
Qed.

Lemma land_128_big x : 0 <= x < 128 -> Z.land (x + 128) 128 = 128 /\ Z.land (x + 128) 127 = x.
Proof.
  intros Hx. split.
  - rewrite <- lor_128 by done. rewrite Z.land_lor_distr_l, land_128_small by done. done.
  - rewrite land_127 by lia. rewrite Z.add_mod, Z.mod_same, Z.add_0_r, Z.mod_mod by lia.
    by apply Z.mod_small.
Qed.

Lemma lor_shift r x shift :
  0 <= r < 2 ^ shift -> 0 <= shift -> 0 <= x -> Z.lor r (Z.shiftl x shift) = r + x * 2 ^ shift.
Proof.
  intros Hr Hs Hx. rewrite Z.shiftl_mul_pow2 by done. rewrite <- Z.add_lor_land.
  replace (Z.land r (x * 2 ^ shift)) with 0; [lia|]. symmetry. apply Z.bits_inj_0. intros i.
  rewrite Z.land_spec. destruct (decide (i < 0)); [by rewrite Z.testbit_neg_r|].
  destruct (decide (i < shift)).
  - rewrite Z.mul_pow2_bits_low by lia. apply andb_false_r.
  - replace (Z.testbit r i) with false; [done|]. symmetry.
    destruct (decide (r = 0)) as [->|]; [apply Z.testbit_0_l|]. apply Z.bits_above_log2; [lia|].
    apply Z.lt_le_trans with shift; [|lia]. apply Z.log2_lt_pow2; lia.
Qed.

Lemma varint_loop_roundtrip fuel n shift acc rest :
  0 <= n < 2 ^ (7 * Z.of_nat (S fuel)) -> 0 <= shift -> 0 <= acc < 2 ^ shift ->
  decode_varint_loop (encode_varint_loop fuel n ++ rest) shift acc = Some (acc + n * 2 ^ shift, rest).
Proof.
  revert n shift acc. induction fuel as [|fuel IH]; intros n shift acc Hn Hs Ha;
    cbn [encode_varint_loop]; rewrite land_127, shiftr_7 by lia.
  - assert (Hq : n / 128 = 0) by (apply Z.div_small; simpl in Hn; lia). rewrite Hq. simpl app.
    assert (Hm : n mod 128 = n) by (apply Z.mod_small; simpl in Hn; lia). rewrite Hm.
    cbn [decode_varint_loop]. rewrite land_128_small by (simpl in Hn; lia). cbv zeta.
    rewrite land_127, Hm by lia. rewrite lor_shift by lia. done.
  - assert (Hb : 0 <= n mod 128 < 128) by (apply Z.mod_pos_bound; lia).
    destruct (n / 128 =? 0) eqn:Eq.
    + apply Z.eqb_eq in Eq. cbn [app decode_varint_loop]. rewrite land_128_small by lia. cbv zeta.
      rewrite land_127 by lia. rewrite Z.mod_mod by lia. rewrite lor_shift by lia. simpl.
      do 3 f_equal. pose proof (Z.div_mod n 128). lia.
    + cbn [app decode_varint_loop]. rewrite lor_128 by lia.
      destruct (land_128_big (n mod 128) Hb) as [-> ->]. cbv zeta. simpl.
      rewrite lor_shift by lia. rewrite IH.
      * do 2 f_equal. pose proof (Z.div_mod n 128). rewrite Z.pow_add_r by lia.
        change (2 ^ 7) with 128. nia.
      * split; [apply Z.div_pos; lia|]. apply Z.div_lt_upper_bound; [lia|].
        replace (7 * Z.of_nat (S (S fuel))) with (7 + 7 * Z.of_nat (S fuel)) in Hn by lia.
        rewrite Z.pow_add_r in Hn by lia. change (2 ^ 7) with 128 in Hn. lia.
      * lia.
      * rewrite Z.pow_add_r by lia. change (2 ^ 7) with 128.
        assert (n mod 128 * 2 ^ shift <= 127 * 2 ^ shift) by (apply Z.mul_le_mono_nonneg_r; lia). nia.
Qed.

Lemma varint_roundtrip n rest : 0 <= n -> decode_varint (encode_varint n ++ rest) = Some (n, rest).
Proof.
  intros Hn. unfold decode_varint, encode_varint. rewrite varint_loop_roundtrip; [f_equal; f_equal; lia| |lia|lia].
  split; [done|]. destruct (decide (n = 0)) as [->|]; [by apply Z.pow_pos_nonneg|].
  apply Z.log2_lt_pow2; [lia|]. pose proof (Z.log2_nonneg n). lia.
Qed.

(** ** Framing *)

Lemma decode_varint_app s t shift acc n r :
  decode_varint_loop s shift acc = Some (n, r) ->
  decode_varint_loop (s ++ t) shift acc = Some (n, r ++ t).
Proof.
  revert shift acc. induction s as [|i s IH]; intros shift acc Hd; [done|]. cbn [app decode_varint_loop] in *.
  cbv zeta in *. destruct (_ =? 0); [by simplify_eq|]. by apply IH.
Qed.

Lemma decode_varint_shorter s shift acc n r :
  decode_varint_loop s shift acc = Some (n, r) -> (length r < length s)%nat.
Proof.
  revert shift acc. induction s as [|i s IH]; intros shift acc Hd; [done|]. cbn [decode_varint_loop] in Hd.
  cbv zeta in Hd. destruct (_ =? 0); [simplify_eq; simpl; lia|]. apply IH in Hd. simpl. lia.
Qed.

Lemma read_frame_app s t d r : read_frame s = Some (d, r) -> read_frame (s ++ t) = Some (d, r ++ t).
Proof.
  unfold read_frame. destruct (decode_varint s) as [[n q]|] eqn:Ed; cbn; [|done].
  unfold decode_varint in *. rewrite (decode_varint_app _ t _ _ _ _ Ed). cbn.
  destruct (_ <? n) eqn:El; [done|]. intros [= <- <-].
  rewrite length_take in El. apply Z.ltb_ge in El as El2.
  assert (Hn : (Z.to_nat n <= length q)%nat) by (destruct (Nat.min_spec (Z.to_nat n) (length q)); lia).
  rewrite take_app_le, drop_app_le by done. rewrite length_take. by rewrite El.
Qed.

Lemma read_frame_shorter s d r : read_frame s = Some (d, r) -> (length r < length s)%nat.
Proof.
  unfold read_frame. destruct (decode_varint s) as [[n q]|] eqn:Ed; cbn; [|done].
  destruct (_ <? n); [done|]. intros [= _ <-]. apply decode_varint_shorter in Ed.
  rewrite length_drop. lia.
Qed.

Section MessageTheory.
Context {M : Type} (serialize : M -> bytes) (parse : bytes -> result M).

Lemma read_loop_fuel f1 f2 s :
  (length s < f1)%nat -> (length s < f2)%nat ->
  read_messages_loop parse f1 s = read_messages_loop parse f2 s.
Proof.
  revert f2 s. induction f1 as [|f1 IH]; intros [|f2] s H1 H2; try lia. cbn [read_messages_loop].
  destruct (read_frame s) as [[d r]|] eqn:Ef; [|done]. apply read_frame_shorter in Ef.
  destruct (parse d); cbn; [|done]. by rewrite (IH f2) by lia.
Qed.

Lemma read_messages_step s :
  read_messages parse s =
    match read_frame s with
    | None => Ok ([], s)
    | Some (d, r) => m ← parse d; '(ms, rest) ← read_messages parse r; Ok (m :: ms, rest)
    end.
Proof.
  unfold read_messages. cbn [read_messages_loop]. destruct (read_frame s) as [[d r]|] eqn:Ef; [|done].
  apply read_frame_shorter in Ef. destruct (parse d); cbn [mbind result_bind]; [|done].
  by rewrite (read_loop_fuel (length s) (S (length r))) by lia.
Qed.

(** What is left over holds no complete frame. *)
Lemma read_messages_rest s ms r : read_messages parse s = Ok (ms, r) -> read_frame r = None.
Proof.
  remember (length s) as n eqn:Hn. revert s ms Hn.
  induction (lt_wf n) as [n _ IH]; intros s ms -> Hr. rewrite read_messages_step in Hr.
  destruct (read_frame s) as [[d q]|] eqn:Ef; [|by simplify_eq].
  destruct_result. destruct a0 as [ms' r']. simplify_eq. eapply (IH (length q)); [|done|exact E0].
  by apply read_frame_shorter in Ef.
Qed.

(** Reading resumes where it stopped when more bytes arrive. *)
Lemma read_messages_app s t ms r :
  read_messages parse s = Ok (ms, r) ->
  read_messages parse (s ++ t) =
    ('(ms', r') ← read_messages parse (r ++ t); Ok (ms ++ ms', r')).
Proof.
  remember (length s) as n eqn:Hn. revert s ms Hn.
  induction (lt_wf n) as [n _ IH]; intros s ms -> Hr. rewrite read_messages_step in Hr.
  destruct (read_frame s) as [[d q]|] eqn:Ef.
  - destruct_result. destruct a0 as [ms' r']. simplify_eq.
    rewrite (read_messages_step (s ++ t)), (read_frame_app _ t _ _ Ef), E. cbn [mbind result_bind].
    rewrite (IH (length q) (read_frame_shorter _ _ _ Ef) q ms' eq_refl E0).
    by destruct (read_messages parse (r ++ t)) as [[? ?]|].
  - simplify_eq. by destruct (read_messages parse (r ++ t)) as [[? ?]|].
Qed.

(** A stream that parses has no prefix that does not. *)
Lemma read_messages_prefix s t x :
  read_messages parse (s ++ t) = Ok x -> exists y, read_messages parse s = Ok y.
Proof.
  remember (length s) as n eqn:Hn. revert s x Hn.
  induction (lt_wf n) as [n _ IH]; intros s x -> Hr. rewrite read_messages_step.
  destruct (read_frame s) as [[d q]|] eqn:Ef; [|by eexists].
  rewrite read_messages_step, (read_frame_app _ t _ _ Ef) in Hr. destruct_result. rewrite E.
  destruct (IH (length q) (read_frame_shorter _ _ _ Ef) q a0 eq_refl E0) as [[? ?] ->]. by eexists.
Qed.

Lemma read_messages_written ms t :
  (forall m, parse (serialize m) = Ok m) ->
  read_messages parse (concat (write_message serialize <$> ms) ++ t) =
    ('(ms', r) ← read_messages parse t; Ok (ms ++ ms', r)).
Proof.
  intros Hp. induction ms as [|m ms IH]; csimpl.
  - by destruct (read_messages parse t) as [[? ?]|].
  - rewrite <- (assoc_L app). rewrite read_messages_step.
    assert (Hf : read_frame (write_message serialize m ++ (concat (write_message serialize <$> ms) ++ t))
                 = Some (serialize m, concat (write_message serialize <$> ms) ++ t)).
    { unfold read_frame, write_message. rewrite <- (assoc_L app).
      rewrite varint_roundtrip by lia. cbn. rewrite Nat2Z.id.
      rewrite take_app_le, drop_app_le by lia. rewrite take_ge, drop_ge by lia.
      by rewrite Z.ltb_irrefl. }
    rewrite Hf, Hp. cbn [mbind result_bind]. rewrite IH.
    by destruct (read_messages parse t) as [[? ?]|].
Qed.

Context {A : Type} (process : M -> stM A bytes).

Lemma drain_spec c data ms rest fuel :
  read_messages parse data = Ok (ms, rest) -> (1 < fuel)%nat ->
  drain parse process fuel c data = (c' ← foldM_py (answer process) c ms; Ok (c', rest)).
Proof.
  intros Hr Hf. destruct fuel as [|[|fuel]]; [lia|lia|]. cbn [drain]. rewrite Hr. cbn [mbind result_bind].
  destruct ms as [|m ms]; [done|]. destruct (foldM_py _ _ _); [|done]. cbn [mbind result_bind].
  by rewrite read_messages_step, (read_messages_rest _ _ _ Hr).
Qed.

Lemma handler_spec chunks c data ms rest :
  Forall (λ b, b <> []) chunks -> read_frame data = None ->
  read_messages parse (data ++ concat chunks) = Ok (ms, rest) ->
  _handler parse process c data chunks = (c' ← foldM_py (answer process) c ms; Ok (c', rest)).
Proof.
  revert c data ms. induction chunks as [|bits chunks IH]; intros c data ms Hne Hd Hr; cbn [concat] in Hr; cbn [_handler].
  - rewrite app_nil_r, read_messages_step, Hd in Hr. by simplify_eq.
  - apply Forall_cons in Hne as [Hb Hne]. destruct bits as [|b bits]; [done|].
    rewrite (assoc_L app) in Hr.
    destruct (read_messages parse (data ++ b :: bits)) as [[ms1 r1]|e] eqn:E1.
    + rewrite (drain_spec c _ ms1 r1 _ E1) by (rewrite length_app; simpl; lia).
      rewrite (read_messages_app _ _ _ _ E1) in Hr. destruct_result.
      destruct a as [ms2 r2]. simplify_eq. rewrite foldM_py_app.
      destruct (foldM_py (answer process) c ms1) as [c1|]; [|done]. cbn [mbind result_bind].
      apply IH; [done|by eapply read_messages_rest|done].
    + destruct (read_messages_prefix _ _ _ Hr) as [y Hy]. congruence.
Qed.
End MessageTheory.

(** A length prefix survives the trip: decoding an encoded length returns it
    and leaves exactly the bytes that followed. *)
Theorem decode_encode_varint n rest :
  0 <= n -> decode_varint (encode_varint n ++ rest) = Some (n, rest).
Proof. apply varint_roundtrip. Qed.

Lemma decode_encode_varint_witness : decode_varint (encode_varint 300 ++ [7]) = Some (300, [7]).
Proof. apply (decode_encode_varint 300). lia. Defined.

(** Claim C37. The connection handler answers every request once, in order, however the
    socket splits the stream: for any chunks whose concatenation is a sequence of
    written messages and an incomplete tail, it processes exactly those messages in
    sequence, up to the first whose handler raises, and keeps the tail. *)
Theorem handler_answers_in_order {M A} (serialize : M -> bytes) (parse : bytes -> result M)
    (process : M -> stM A bytes) c chunks ms tail :
  (forall m, parse (serialize m) = Ok m) -> Forall (λ b, b <> []) chunks ->
  read_frame tail = None ->
  concat chunks = concat (write_message serialize <$> ms) ++ tail ->
  _handler parse process c [] chunks = (c' ← foldM_py (answer process) c ms; Ok (c', tail)).
Proof.
  intros Hp Hne Ht Hc. apply handler_spec; [done|done|]. simpl. rewrite Hc, read_messages_written by done.
  rewrite read_messages_step, Ht. cbn. by rewrite app_nil_r.
Qed.

Definition count_and_echo (m : bytes) : stM nat bytes := λ n, (Ok m, S n).

Lemma handler_answers_in_order_witness :
  _handler Ok count_and_echo (Conn 0%nat []) [] [[2; 10]; [11; 1]; [12; 5; 1]]
  = Ok (Conn 2%nat [10; 11; 12], [5; 1]).
Proof.
  apply (handler_answers_in_order (λ m : bytes, m) Ok count_and_echo
           (Conn 0%nat []) [[2; 10]; [11; 1]; [12; 5; 1]] [[10; 11]; [12]] [5; 1]).
  - done.
  - repeat constructor; done.
  - vm_compute. reflexivity.
  - vm_compute. reflexivity.
Defined.

(** The response a request gets, when its application method returns. *)
Definition response_to {Res} (k : req_type) (r : Res) : Response Res :=
  match k with
  | flush => ResponseFlush
  | extend_vote | verify_vote_extension => ResponseException "ABCI request not found"
  | _ => ResponseOf k r
  end.

(** A connection never mixes up its answers: when the application's methods
    return, the bytes written for a sequence of requests are the concatenation, in
    order, of one framed response per request, each of the request's own kind; kinds
    the node has no handler for get an error response and do not touch the
    application. *)
Theorem one_response_per_request {A Req Res} (call : req_type -> Req -> stM A Res)
    (write : Response Res -> bytes) (reqs : list (req_type * Req)) c :
  (forall k q a, exists r a', call k q a = (Ok r, a')) ->
  exists rs app, length rs = length reqs /\
    foldM_py (answer (process call write)) c ((λ '(k, q), (Some k, q)) <$> reqs) =
      Ok (Conn app (c_out c ++ concat (zip_with (λ kq r, write (response_to kq.1 r)) reqs rs))).
Proof.
  intros Hcall. revert c. induction reqs as [|[k q] reqs IH]; intros c.
  - exists [], (c_app c). split; [done|]. destruct c. simpl. by rewrite app_nil_r.
  - destruct (Hcall k q (c_app c)) as (r & a' & Hr). csimpl.
    assert (exists a1, answer (process call write) c (Some k, q) =
              Ok (Conn a1 (c_out c ++ write (response_to k r)))) as [a1 ->].
    { unfold answer, process, delegate. cbn [fst snd].
      destruct k; eexists; try reflexivity; unfold mbind, stM_bind; by rewrite Hr. }
    cbn [mbind result_bind]. destruct (IH (Conn a1 (c_out c ++ write (response_to k r)))) as (rs & x & Hl & ->).
    exists (r :: rs), x. split; [simpl; congruence|]. simpl. by rewrite (assoc_L app).
Qed.

Lemma one_response_per_request_witness :
  exists rs app, length rs = 2%nat /\
    foldM_py (answer (process (λ k (q : Z) n, (Ok (q + n), n + 1))
                        (λ r, match r with ResponseOf _ x => [x] | _ => [0] end)))
      (Conn 5 []) [(Some query, 10); (Some flush, 11)] = Ok (Conn app ([] ++ concat
        (zip_with (λ kq r, match response_to kq.1 r with ResponseOf _ x => [x] | _ => [0] end)
           [(query, 10); (flush, 11)] rs))).
Proof.
  apply (one_response_per_request (λ k (q : Z) n, (Ok (q + n), n + 1))
           (λ r, match r with ResponseOf _ x => [x] | _ => [0] end) [(query, 10); (flush, 11)] (Conn 5 [])).
  intros k q a. by eexists _, _.
Defined.
