(* ===== verification/Validators.v ===== *)
(** * Validator selection (src/src/xian/validators.py)

    Reads the validator contract's selection, normalises and de-duplicates it,
    compares it with the effective set of the last committed block and emits the
    updates CometBFT applies to its own set. *)

From Stdlib Require Import Ascii.
From S2P Require Import Prelude PyValue Json PyBuiltins Driver Encoding Formatting.

Definition CONSENSUS_VALIDATORS_KEY : string := "validators.__consensus__".
Definition DEFAULT_VALIDATOR_POWER : Z := 10.

(** [ValidatorUpdate]. *)
Record ValidatorUpdate := Update { pub_key : bytes; power : Z }.

Section Validators.
(** [int()] and [<= 0] of a float. *)
Context (float_trunc : string -> result Z) (float_le_zero : string -> bool).

(** [power <= 0]. *)
Definition le_zero (v : value) : result bool :=
  match v with
  | VInt z => Ok (z <=? 0)
  | VBool b => Ok (negb b)
  | VDec d => Ok (dec_neg d || (dec_coef d =? 0)%N)
  | VFloat r => Ok (float_le_zero r)
  | _ => raise TypeError "'<=' not supported"
  end.

Definition validator_power (v : value) : result Z :=
  if is_none v then Ok DEFAULT_VALIDATOR_POWER
  else
    low ← le_zero v;
    if (low : bool) then Ok DEFAULT_VALIDATOR_POWER else py_int float_trunc v.

Section Reads.
Context (read : string -> value).

(** One validator of the list: its consensus key and its power. *)
Definition read_validator (v : value) : result (option (string * Z)) :=
  match v with
  | VStr s =>
    if hex_string 64 s then
      p ← validator_power (read ("validators.powers:" +:+ s));
      Ok (Some (py_lower s, p))
    else Ok None
  | _ => Ok None
  end.

(** The loop; [None] is the early return on conflicting powers. *)
Fixpoint select_loop (validators : list value) (desired : list (string * Z))
  : result (option (list (string * Z))) :=
  match validators with
  | [] => Ok (Some desired)
  | v :: validators =>
    r ← read_validator v;
    match r with
    | None => select_loop validators desired
    | Some (key, p) =>
      match dict_get key desired with
      | Some q => if q =? p then select_loop validators (dict_set key p desired) else Ok None
      | None => select_loop validators (dict_set key p desired)
      end
    end
  end.

Definition get_validators_from_state : result (option (list (string * Z))) :=
  match py_or (read "validators.active_validators") (VList []) with
  | VList validators => select_loop validators []
  | _ => Ok None
  end.
End Reads.

Definition to_bytes (data : string) : result bytes := fromhex data.

Context {D : Type} `{DriverOps D}.

(** A stored validator set. *)
Definition set_value (vs : list (string * Z)) : value := VDict ((λ '(k, p), (k, VInt p)) <$> vs).

Definition set_of_value (v : value) : result (list (string * Z)) :=
  match v with
  | VDict d => mapM_py (λ kv, match kv.2 with
                              | VInt p => Ok (kv.1, p)
                              | _ => raise TypeError "validator power is not an int" end) d
  | _ => raise AttributeError "object has no attribute 'items'"
  end.

Definition committed_validators (d : D) : result (list (string * Z)) :=
  match drv_value_from_disk d CONSENSUS_VALIDATORS_KEY with
  | VNone => r ← get_validators_from_state (drv_value_from_disk d); Ok (default [] r)
  | v => set_of_value v
  end.

(** The updates by key, before the key is turned into bytes: changed or new powers
    in the order of the new set, then the removals in the order of the old one. *)
Definition validator_changes (validators_state validators_committed : list (string * Z))
  : list (string * Z) :=
  filter (λ kp, dict_get kp.1 validators_committed <> Some kp.2) validators_state
  ++ ((λ kp, (kp.1, 0)) <$> filter (λ kp, dict_get kp.1 validators_state = None) validators_committed).

Definition update_of (kp : string * Z) : result ValidatorUpdate :=
  b ← to_bytes kp.1; Ok (Update b kp.2).

(** The set that takes effect. *)
Definition effective_validators (state committed : list (string * Z)) : list (string * Z) :=
  if decide (state = []) then committed else state.

Definition build_validator_updates (d : D) : result (list ValidatorUpdate) * D :=
  match (s ← get_validators_from_state (drv_get d); c ← committed_validators d; Ok (default [] s, c)) with
  | Raise e => (Raise e, d)
  | Ok (state, committed) =>
    let effective := effective_validators state committed in
    let d := if decide (effective = []) then d
             else drv_set d CONSENSUS_VALIDATORS_KEY (set_value effective) in
    (mapM_py update_of (validator_changes effective committed), d)
  end.

(** ** Selection *)

(** The pairs a list of validators names. *)
Definition named (read : string -> value) (validators : list value) (kp : string * Z) : Prop :=
  exists v, v ∈ validators /\ read_validator read v = Ok (Some kp).

Lemma named_cons read v l kp :
  named read (v :: l) kp <-> read_validator read v = Ok (Some kp) \/ named read l kp.
Proof.
  unfold named. split.
  - intros (w & [->|Hw]%elem_of_cons & E); [by left|]. right. by exists w.
  - intros [E|(w & Hw & E)]; [exists v|exists w]; (split; [|done]); [left|by right].
Qed.

Lemma select_loop_some read l desired r :
  NoDup (dict_keys desired) -> select_loop read l desired = Ok (Some r) ->
  NoDup (dict_keys r) /\
  (forall kp, kp ∈ r <-> kp ∈ desired \/ named read l kp).
Proof.
  revert desired. induction l as [|v l IH]; intros desired Hnd Hs; cbn [select_loop] in Hs.
  - simplify_eq. split; [done|]. intros kp. split; [by left|]. intros [?|(v & Hv & _)]; [done|].
    by apply elem_of_nil in Hv.
  - destruct_result. destruct a as [[k p]|].
    + assert (Hstep : forall (Hk : dict_get k desired = None \/ dict_get k desired = Some p),
                select_loop read l (dict_set k p desired) = Ok (Some r) ->
                NoDup (dict_keys r) /\ (forall kp, kp ∈ r <-> kp ∈ desired \/ named read (v :: l) kp)).
      { intros Hk Hl. destruct (IH _ (dict_set_nodup k p _ Hnd) Hl) as [Hr Hin]. split; [done|].
        assert (Hset : forall kp, kp ∈ dict_set k p desired <-> kp = (k, p) \/ kp ∈ desired).
        { intros [k' p']. split.
          - intros Hin'. apply dict_get_elem in Hin'; [|by apply dict_set_nodup].
            rewrite dict_get_set in Hin'. case_decide; [left; congruence|right].
            by apply dict_get_Some_elem.
          - intros [[= -> ->]|Hin']; apply dict_get_Some_elem; rewrite dict_get_set.
            + by rewrite decide_True.
            + apply dict_get_elem in Hin'; [|done]. case_decide; [|done]. destruct Hk; congruence. }
        intros kp. rewrite Hin, Hset, named_cons, E.
        split; [intros [[->|?]|?]; auto|intros [?|[[= ->]|?]]; auto]. }
      destruct (dict_get k desired) as [q|] eqn:Eg; [|by apply Hstep; [left|]].
      destruct (q =? p) eqn:Eq; [|done]. apply Z.eqb_eq in Eq as ->. by apply Hstep; [right|].
    + destruct (IH _ Hnd Hs) as [Hr Hin]. split; [done|]. intros kp. rewrite Hin, named_cons, E.
      split; [intros [?|?]; auto|intros [?|[?|?]]; [auto|done|auto]].
Qed.

(** The early return is taken exactly when one consensus key is named with two
    powers. *)
Lemma select_loop_none read l desired :
  NoDup (dict_keys desired) -> select_loop read l desired = Ok None ->
  exists k p q, p <> q /\ ((k, p) ∈ desired \/ named read l (k, p)) /\
                ((k, q) ∈ desired \/ named read l (k, q)).
Proof.
  revert desired. induction l as [|v l IH]; intros desired Hnd Hs; cbn [select_loop] in Hs; [done|].
  destruct_result. assert (Hmono : forall kp, named read l kp -> named read (v :: l) kp).
  { intros kp Hkp. apply named_cons. by right. }
  destruct a as [[k p]|].
  - assert (Hv : named read (v :: l) (k, p)) by (exists v; split; [left|done]).
    assert (Hstep : select_loop read l (dict_set k p desired) = Ok None ->
              exists k p q, p <> q /\ ((k, p) ∈ desired \/ named read (v :: l) (k, p)) /\
                            ((k, q) ∈ desired \/ named read (v :: l) (k, q))).
    { intros Hl. destruct (IH _ (dict_set_nodup k p _ Hnd) Hl) as (k' & p' & q' & Hne & H1 & H2).
      assert (Hset : forall k' p', (k', p') ∈ dict_set k p desired ->
                       (k', p') ∈ desired \/ named read (v :: l) (k', p')).
      { intros k2 p2 Hin. apply dict_get_elem in Hin; [|by apply dict_set_nodup].
        rewrite dict_get_set in Hin. case_decide; [right; congruence|left]. by apply dict_get_Some_elem. }
      exists k', p', q'. split; [done|]. split; [destruct H1|destruct H2]; auto. }
    destruct (dict_get k desired) as [q|] eqn:Eg; [|by apply Hstep].
    destruct (q =? p) eqn:Eq; [by apply Hstep|]. exists k, q, p. apply Z.eqb_neq in Eq.
    split; [done|]. split; [left; by apply dict_get_Some_elem|by right].
  - destruct (IH _ Hnd Hs) as (k' & p' & q' & Hne & H1 & H2). exists k', p', q'.
    split; [done|]. split; [destruct H1|destruct H2]; auto.
Qed.

Lemma named_perm read l1 l2 kp : l1 ≡ₚ l2 -> named read l1 kp -> named read l2 kp.
Proof. intros HP (v & Hv & E). exists v. by rewrite <- HP. Qed.

Lemma select_consistent read l1 l2 d1 :
  l1 ≡ₚ l2 -> select_loop read l1 [] = Ok (Some d1) -> select_loop read l2 [] <> Ok None.
Proof.
  intros HP H1 H2. destruct (select_loop_some read l1 [] d1 ltac:(constructor) H1) as [Hnd Hin].
  destruct (select_loop_none read l2 [] ltac:(constructor) H2) as (k & p & q & Hne & Hp & Hq).
  assert (Hd : forall kp, kp ∈ [] \/ named read l2 kp -> kp ∈ d1).
  { intros kp [Hk|Hk]; [by apply elem_of_nil in Hk|]. apply Hin. right. by eapply named_perm. }
  apply Hd, dict_get_elem in Hp; [|done]. apply Hd, dict_get_elem in Hq; [|done]. congruence.
Qed.

(** The selection does not depend on the order of the active-validator list:
    permuting it can neither turn a valid selection into a rejected one (aliases
    of one key with conflicting powers) nor change any validator's power. *)
Theorem selection_order_independent read l1 l2 r1 r2 :
  l1 ≡ₚ l2 -> select_loop read l1 [] = Ok r1 -> select_loop read l2 [] = Ok r2 ->
  match r1, r2 with
  | None, None => True
  | Some d1, Some d2 => d1 ≡ₚ d2 /\ NoDup (dict_keys d1)
  | _, _ => False
  end.
Proof.
  intros HP H1 H2. destruct r1 as [d1|], r2 as [d2|]; [| | |done].
  - destruct (select_loop_some read l1 [] d1 ltac:(constructor) H1) as [N1 I1].
    destruct (select_loop_some read l2 [] d2 ltac:(constructor) H2) as [N2 I2].
    split; [|done]. apply NoDup_Permutation; [by eapply NoDup_fmap_1..|].
    intros kp. rewrite I1, I2. split; (intros [?|?]; [by left|right; by eapply named_perm]).
  - by eapply select_consistent.
  - symmetry in HP. by eapply select_consistent.
Qed.

(** ** Updates *)

(** How CometBFT applies updates: a power of zero removes. *)
Definition apply_change (vs : list (string * Z)) (kp : string * Z) : list (string * Z) :=
  if kp.2 =? 0 then dict_pop kp.1 vs else dict_set kp.1 kp.2 vs.
Definition apply_changes (vs changes : list (string * Z)) : list (string * Z) :=
  foldl apply_change vs changes.

Lemma apply_changes_get vs changes k :
  NoDup (dict_keys changes) ->
  dict_get k (apply_changes vs changes) =
    match dict_get k changes with
    | Some p => if p =? 0 then None else Some p
    | None => dict_get k vs
    end.
Proof.
  revert vs. induction changes as [|[k' p] changes IH]; intros vs Hnd; [done|].
  apply NoDup_cons in Hnd as [Hk Hnd]. cbn [apply_changes foldl].
  change (foldl apply_change ?v changes) with (apply_changes v changes). rewrite (IH _ Hnd).
  cbn [dict_get]. case_decide as Hq; subst.
  - rewrite (proj2 (dict_get_None k' changes) Hk). unfold apply_change. simpl.
    destruct (p =? 0); [apply dict_get_pop_eq | apply dict_get_set_eq].
  - destruct (dict_get k changes); [done|]. unfold apply_change. simpl.
    destruct (p =? 0); [by apply dict_get_pop_ne | by apply dict_get_set_ne].
Qed.

Lemma filter_keys (P : string * Z -> Prop) `{forall x, Decision (P x)} d :
  NoDup (dict_keys d) -> NoDup (dict_keys (filter P d)).
Proof.
  unfold dict_keys. induction d as [|x d IH]; [done|]. rewrite filter_cons. csimpl.
  intros [Hx Hnd]%NoDup_cons. case_decide; [|by apply IH]. csimpl. apply NoDup_cons.
  split; [|by apply IH]. intros (y & Hy & [_ Hin]%list_elem_of_filter)%list_elem_of_fmap.
  apply Hx. rewrite Hy. by apply list_elem_of_fmap_2.
Qed.

Lemma validator_changes_nodup state committed :
  NoDup (dict_keys state) -> NoDup (dict_keys committed) ->
  NoDup (dict_keys (validator_changes state committed)).
Proof.
  intros Hs Hc. unfold validator_changes. unfold dict_keys. rewrite fmap_app.
  rewrite <- list_fmap_compose. apply NoDup_app. split_and!.
  - by apply filter_keys.
  - intros k (x & -> & [_ Hx]%list_elem_of_filter)%list_elem_of_fmap
             (y & Hy & [Hn _]%list_elem_of_filter)%list_elem_of_fmap.
    simpl in Hy. apply dict_get_None in Hn. apply Hn. rewrite <- Hy. by apply list_elem_of_fmap_2.
  - by apply filter_keys.
Qed.

Lemma validator_changes_get state committed k :
  NoDup (dict_keys state) -> NoDup (dict_keys committed) ->
  dict_get k (validator_changes state committed) =
    match dict_get k state with
    | Some p => if decide (dict_get k committed = Some p) then None else Some p
    | None => match dict_get k committed with Some _ => Some 0 | None => None end
    end.
Proof.
  intros Hs Hc. pose proof (validator_changes_nodup _ _ Hs Hc) as Hnd.
  destruct (dict_get k state) as [p|] eqn:Es.
  - apply dict_get_Some_elem in Es as Hin. case_decide as Hd.
    + apply dict_get_None. unfold validator_changes, dict_keys. rewrite fmap_app.
      intros [Hk|Hk]%elem_of_app.
      * apply list_elem_of_fmap in Hk as ([k' p'] & -> & [Hn Hi]%list_elem_of_filter). simpl in *.
        apply dict_get_elem in Hi; [|done]. congruence.
      * rewrite <- list_fmap_compose in Hk.
        apply list_elem_of_fmap in Hk as ([k' p'] & -> & [Hn Hi]%list_elem_of_filter). simpl in *. congruence.
    + apply dict_get_elem; [done|]. unfold validator_changes. apply elem_of_app. left.
      by apply list_elem_of_filter.
  - destruct (dict_get k committed) as [q|] eqn:Ec.
    + apply dict_get_elem; [done|]. unfold validator_changes. apply elem_of_app. right.
      apply list_elem_of_fmap. exists (k, q). split; [done|]. apply list_elem_of_filter.
      split; [done|]. by apply dict_get_Some_elem.
    + apply dict_get_None. unfold validator_changes, dict_keys. rewrite fmap_app.
      apply dict_get_None in Es, Ec. intros [Hk|Hk]%elem_of_app.
      * apply list_elem_of_fmap in Hk as (x & -> & [_ Hi]%list_elem_of_filter).
        apply Es. by apply list_elem_of_fmap_2.
      * rewrite <- list_fmap_compose in Hk.
        apply list_elem_of_fmap in Hk as (x & -> & [_ Hi]%list_elem_of_filter).
        apply Ec. by apply list_elem_of_fmap_2.
Qed.

(** A set of validators CometBFT takes: each key once, with a positive power. *)
Definition valid_set (vs : list (string * Z)) : Prop := NoDup (dict_keys vs) /\ Forall (λ kp, 0 < kp.2) vs.

(** The powers the contract stored are absent or whole numbers. *)
Definition whole_powers (read : string -> value) : Prop :=
  forall s, read ("validators.powers:" +:+ s) = VNone \/ exists z, read ("validators.powers:" +:+ s) = VInt z.

Lemma read_validator_positive read v k p : whole_powers read -> read_validator read v = Ok (Some (k, p)) -> 0 < p.
Proof.
  intros Hw. unfold read_validator. destruct v as [| | |s| | | | | | |]; try done. destruct (hex_string 64 s); [|done].
  intros Hx. destruct_result. injection Hx as _ ->. unfold validator_power in *.
  destruct (Hw s) as [Hr|[z Hr]]; rewrite Hr in *; cbn in *; [by injection E as <-|].
  destruct (Z.leb_spec z 0); injection E as <-; [done|lia].
Qed.

Lemma selection_valid read selection :
  whole_powers read -> get_validators_from_state read = Ok selection -> valid_set (default [] selection).
Proof.
  intros Hw Hs. destruct selection as [r|]; [|split; constructor]. cbn [default].
  unfold get_validators_from_state in Hs. destruct (py_or _ _) as [| | | | | | | |l| |]; try done.
  destruct (select_loop_some read l [] r ltac:(constructor) Hs) as [Hnd Hin]. split; [done|].
  apply Forall_forall. intros [k p] Hkp. apply Hin in Hkp as [Hkp|(v & _ & Hv)]; [by apply elem_of_nil in Hkp|].
  by eapply read_validator_positive.
Qed.

(** Claim C35. The updates lead CometBFT to the selected set.  When the powers in the contract's
    state are whole numbers (or absent) and the committed set has each key once with a
    positive power, the changes [build_validator_updates] emits, applied to the committed
    set, give exactly the effective set; this set is recorded with the block's writes, has
    each key once with a positive power again, and is not empty unless the committed set is
    and nothing is selected: an empty or rejected selection retains the committed set. *)
Theorem validator_updates_correct `{!DriverLaws D} (d d' : D) updates committed :
  build_validator_updates d = (Ok updates, d') -> committed_validators d = Ok committed ->
  valid_set committed -> whole_powers (drv_get d) ->
  exists selection, get_validators_from_state (drv_get d) = Ok selection /\
    let effective := match selection with None | Some [] => committed | Some selected => selected end in
    mapM_py update_of (validator_changes effective committed) = Ok updates /\
    (forall k, dict_get k (apply_changes committed (validator_changes effective committed)) = dict_get k effective) /\
    (effective <> [] -> drv_get d' CONSENSUS_VALIDATORS_KEY = set_value effective) /\
    valid_set effective /\ (committed <> [] -> effective <> []).
Proof.
  intros Hb Hc [Hnd Hpos] Hw. unfold build_validator_updates in Hb. rewrite Hc in Hb.
  destruct (get_validators_from_state (drv_get d)) as [s|e] eqn:Es; cbn [mbind result_bind] in Hb; [|done].
  injection Hb as Hm Hd'. exists s. cbv zeta. split; [done|].
  assert (He : effective_validators (default [] s) committed = match s with None | Some [] => committed | Some selected => selected end)
    by (unfold effective_validators; destruct s as [[|kp l]|]; by case_decide).
  rewrite <- He.
  assert (Hv : valid_set (effective_validators (default [] s) committed)).
  { unfold effective_validators. destruct (decide (default [] s = [])); [by split|]. by eapply selection_valid. }
  destruct Hv as [Hns Hps]. split_and!; try done.
  - intros k. rewrite apply_changes_get by (by apply validator_changes_nodup).
    rewrite validator_changes_get by done.
    destruct (dict_get k (effective_validators (default [] s) committed)) as [p|] eqn:Ek.
    + destruct (decide (dict_get k committed = Some p)) as [Hd|Hd]; [done|]. apply dict_get_Some_elem in Ek. rewrite Forall_forall in Hps.
      specialize (Hps _ Ek). cbn in Hps. by rewrite (proj2 (Z.eqb_neq p 0)) by lia.
    + by destruct (dict_get k committed).
  - intros Hne. rewrite <- Hd', decide_False by done. apply drv_get_set_eq.
  - unfold effective_validators. destruct (decide (default [] s = [])); [done|by intros _].
Qed.
End Validators.

(** ** Witnesses and a boundary case *)

Definition vk_a : string := String.string_of_list_ascii (replicate 64 "a"%char).
Definition vk_A : string := String.string_of_list_ascii (replicate 64 "A"%char).
Definition vk_b : string := String.string_of_list_ascii (replicate 64 "b"%char).
Definition no_float (r : string) : result Z := raise ValueError "no float".

Definition power_table (k : string) : value :=
  if decide (k = "validators.powers:" +:+ vk_b) then VInt 25 else VNone.

Lemma selection_order_independent_witness :
  match select_loop no_float (λ _, false) power_table [VStr vk_a; VStr vk_b; VStr vk_A] [],
        select_loop no_float (λ _, false) power_table [VStr vk_b; VStr vk_a; VStr vk_A] [] with
  | Ok (Some d1), Ok (Some d2) => d1 ≡ₚ d2
  | _, _ => False
  end.
Proof.
  apply (selection_order_independent no_float (λ _, false) power_table
           [VStr vk_a; VStr vk_b; VStr vk_A] [VStr vk_b; VStr vk_a; VStr vk_A]
           (Some [(vk_a, 10); (vk_b, 25)]) (Some [(vk_b, 25); (vk_a, 10)])).
  - apply Permutation_swap.
  - vm_compute. reflexivity.
  - vm_compute. reflexivity.
Defined.

(** A driver in which [a] was committed with power 10 and the contract selects [b]. *)
Definition sample_validator_driver (p : value) : mem_driver :=
  let d := drv_set mem_empty CONSENSUS_VALIDATORS_KEY (set_value [(vk_a, 10)]) in
  let d := (drv_hard_apply true d).2 in
  let d := drv_set d "validators.active_validators" (VList [VStr vk_b]) in
  drv_set d ("validators.powers:" +:+ vk_b) p.

Lemma sample_whole_powers : whole_powers (drv_get (sample_validator_driver (VInt 25))).
Proof.
  intros s. unfold sample_validator_driver. rewrite drv_get_spec, !drv_set_pending.
  change (drv_pending_writes (drv_hard_apply true _).2) with (@nil (string * value)). cbn [dict_set dict_get].
  destruct (decide ("validators.powers:" +:+ s = "validators.active_validators")) as [Hx|_]; [discriminate Hx|].
  rewrite decide_False by (intros Hx; discriminate Hx). cbn [dict_get].
  destruct (decide ("validators.powers:" +:+ s = "validators.active_validators")) as [Hx|_]; [discriminate Hx|].
  destruct (decide _); [right; by eexists|]. left. rewrite !drv_set_disk. change (dict_get _ _) with (@None value). reflexivity.
Qed.

Lemma validator_updates_correct_witness :
  exists sel, get_validators_from_state no_float (λ _, false) (drv_get (sample_validator_driver (VInt 25))) = Ok sel /\
    valid_set (match sel with None | Some [] => [(vk_a, 10)] | Some selected => selected end).
Proof.
  destruct (validator_updates_correct no_float (λ _, false) (sample_validator_driver (VInt 25))
              (build_validator_updates no_float (λ _, false) (sample_validator_driver (VInt 25))).2
              [Update (replicate 32 187) 25; Update (replicate 32 170) 0] [(vk_a, 10)])
    as (sel & Hsel & _ & _ & _ & Hv & _).
  - vm_compute. reflexivity.
  - vm_compute. reflexivity.
  - split; [apply (bool_decide_unpack _); vm_compute; exact I|]. by repeat constructor.
  - exact sample_whole_powers.
  - by exists sel.
Defined.

(** A selected validator whose stored power is between zero and one is not
    given the default power, as a power that is not positive is: the integer
    conversion yields an update with power zero, which removes it from CometBFT's
    set while the recorded effective set keeps it. *)
Theorem fractional_power_removes :
  build_validator_updates no_float (λ _, false) (sample_validator_driver (VDec (Dec false 5 (-1))))
  = (Ok [Update (replicate 32 187) 0; Update (replicate 32 170) 0],
     drv_set (sample_validator_driver (VDec (Dec false 5 (-1)))) CONSENSUS_VALIDATORS_KEY
       (set_value [(vk_b, 0)])).
Proof. vm_compute. reflexivity. Qed.
