(* ===== verification/Block.v ===== *)
(** * Block metadata (src/src/xian/utils/block.py)

    The durable marker of the latest block in the storage driver, its JSON mirror
    on the file system, block times, and the genesis state changes.

    A mirror file is identified with what [json.load] makes of it; whether a file
    operation fails is an input.  [py_str] is [str()] of a value that is not a
    [str], [convert_dict] the runtime's decoder of encoded values. *)

From S2P Require Import Prelude PyValue Json PyBuiltins Driver Encoding ExecutionPolicy StateRoot Nonce.

Definition LATEST_BLOCK_KEY : string := "__latest_block".
Definition LATEST_BLOCK_READ_RETRIES : nat := 8.

(** A normalised latest-block mapping. *)
Record latest_block := LatestBlock { lb_hash : string; lb_height : Z; lb_nanos : Z }.

#[global] Instance latest_block_eq_dec : EqDecision latest_block.
Proof. solve_decision. Defined.

Definition LATEST_BLOCK_DEFAULT : latest_block := LatestBlock "" 0 0.

Definition latest_block_value (b : latest_block) : value :=
  VDict [("hash", VStr (lb_hash b)); ("height", VInt (lb_height b)); ("nanos", VInt (lb_nanos b))].

(** The mirror file: absent, or its text, which may not be JSON. *)
Inductive mirror := Missing | Text (parsed : option value).

(** [divmod(nanoseconds, 10**9)] and the microseconds within the second. *)
Definition nanoseconds_to_utc_datetime (nanoseconds : Z) : Z * Z :=
  (nanoseconds / 1000000000, nanoseconds mod 1000000000 / 1000).

Definition convert_cometbft_time_to_datetime (nanoseconds : Z) : Z * Z :=
  nanoseconds_to_utc_datetime nanoseconds.

Definition get_nanotime_from_block_time (seconds nanos : Z) : Z := seconds * 1000000000 + nanos.

Section Block.
Context (py_str : value -> string) (float_trunc : string -> result Z)
        (convert_dict : value -> result value).

Definition str_of (v : value) : string := match v with VStr s => s | _ => py_str v end.

Definition _normalize_latest_block (v : value) : result latest_block :=
  h ← py_dot_get v "hash" (VStr "");
  height ← py_dot_get v "height" (VInt 0);
  height ← py_int float_trunc (py_or height (VInt 0));
  nanos ← py_dot_get v "nanos" (VInt 0);
  nanos ← py_int float_trunc (py_or nanos (VInt 0));
  Ok (LatestBlock (str_of (py_or h (VStr ""))) height nanos).

(** [_write_latest_block_json]: the file is replaced whole or not at all. *)
Definition _write_latest_block_json (io_ok replace_existing : bool) (b : latest_block) (m : mirror)
  : result unit * mirror :=
  if io_ok then
    (Ok tt, match m with
            | Text _ => if replace_existing then Text (Some (latest_block_value b)) else m
            | Missing => Text (Some (latest_block_value b))
            end)
  else (raise OSError "write failed", m).

Definition create_latest_block_json_if_not_exists (io_ok : bool) (m : mirror) : result unit * mirror :=
  match m with
  | Missing => _write_latest_block_json io_ok false LATEST_BLOCK_DEFAULT m
  | Text _ => (Ok tt, m)
  end.

(** One attempt of [_load_latest_block]; [None] asks for a retry. *)
Definition load_attempt (io_ok : bool) (m : mirror) : result (option latest_block) * mirror :=
  match m with
  | Text (Some v) => (Some <$> _normalize_latest_block v, m)
  | Text None => (Ok None, m)
  | Missing => match create_latest_block_json_if_not_exists io_ok m with
               | (Ok _, m) => (Ok None, m)
               | (Raise e, m) => (Raise e, m)
               end
  end.

Fixpoint load_retry (retries : nat) (io_ok : bool) (m : mirror) : result latest_block * mirror :=
  match retries with
  | O => (raise OtherError (match m with Missing => "__latest_block.json not found"
                                       | Text _ => "Error decoding __latest_block.json" end), m)
  | S retries =>
    match load_attempt io_ok m with
    | (Raise e, m) => (Raise e, m)
    | (Ok (Some b), m) => (Ok b, m)
    | (Ok None, m) => load_retry retries io_ok m
    end
  end.

Definition _load_latest_block (io_ok : bool) : stM mirror latest_block :=
  _ ← create_latest_block_json_if_not_exists io_ok;
  load_retry LATEST_BLOCK_READ_RETRIES io_ok.

Definition get_latest_block_hash (io_ok : bool) : stM mirror bytes :=
  b ← _load_latest_block io_ok; lift_res (fromhex (lb_hash b)).
Definition get_latest_block_height (io_ok : bool) : stM mirror Z :=
  b ← _load_latest_block io_ok; mret (lb_height b).
Definition get_latest_block_nanos (io_ok : bool) : stM mirror Z :=
  b ← _load_latest_block io_ok; mret (lb_nanos b).

Definition set_latest_block (io_ok : bool) (block_hash : option bytes) (height nanos : option Z)
  : stM mirror unit :=
  b ← _load_latest_block io_ok;
  let b := LatestBlock (match block_hash with Some h => bytes_hex h | None => lb_hash b end)
                       (default (lb_height b) height) (default (lb_nanos b) nanos) in
  _write_latest_block_json io_ok true b.

Definition set_latest_block_hash (io_ok : bool) (h : bytes) : stM mirror unit :=
  set_latest_block io_ok (Some h) None None.
Definition set_latest_block_height (io_ok : bool) (h : Z) : stM mirror unit :=
  set_latest_block io_ok None (Some h) None.
Definition set_latest_block_nanos (io_ok : bool) (nanos : Z) : stM mirror unit :=
  set_latest_block io_ok None None (Some nanos).

Definition write_latest_block (io_ok : bool) (b : latest_block) : stM mirror unit :=
  _write_latest_block_json io_ok true b.

(** [try_write_latest_block]: only an [OSError] is swallowed, and no other can occur. *)
Definition try_write_latest_block (io_ok : bool) (b : latest_block) (m : mirror) : bool * mirror :=
  match write_latest_block io_ok b m with
  | (Ok _, m) => (true, m)
  | (Raise _, m) => (false, m)
  end.

Section WithDriver.
Context {D : Type} `{DriverOps D}.

Definition _load_committed_latest_block (d : D) : result (option latest_block) :=
  match drv_value_from_disk d LATEST_BLOCK_KEY with
  | VNone => Ok None
  | VDict l =>
    b ← _normalize_latest_block (VDict l);
    match fromhex (lb_hash b) with
    | Ok _ => Ok (Some b)
    | Raise _ => raise ValueError "committed latest-block marker has an invalid app hash"
    end
  | _ => raise ValueError "committed latest-block marker must be a mapping"
  end.

Definition stage_latest_block (d : D) (block_hash : bytes) (height nanos : Z) : latest_block * D :=
  let b := LatestBlock (bytes_hex block_hash) height nanos in
  (b, drv_apply_writes d [(LATEST_BLOCK_KEY, latest_block_value b)]).

Definition get_committed_latest_block (d : D) : result latest_block :=
  default LATEST_BLOCK_DEFAULT <$> _load_committed_latest_block d.

(** [reconcile_latest_block]: an unreadable mirror counts as different; other
    exceptions from normalising it are not caught. *)
Definition read_mirror (io_ok : bool) (m : mirror) : result (option latest_block) :=
  match m with
  | Text (Some v) =>
    if io_ok then
      match _normalize_latest_block v with
      | Ok b => Ok (Some b)
      | Raise (Exn TypeError _) | Raise (Exn ValueError _) | Raise (Exn OSError _) => Ok None
      | Raise e => Raise e
      end
    else Ok None
  | _ => Ok None
  end.

Definition reconcile_latest_block (io_ok : bool) (d : D) : stM mirror latest_block := λ m,
  match get_committed_latest_block d with
  | Raise e => (Raise e, m)
  | Ok committed =>
    match read_mirror io_ok m with
    | Raise e => (Raise e, m)
    | Ok mirrored =>
      (Ok committed, if decide (mirrored = Some committed) then m
                     else (try_write_latest_block io_ok committed m).2)
    end
  end.

(** ** Genesis *)

Fixpoint _convert_runtime_value (v : value) : result value :=
  match v with
  | VDict _ => convert_dict v
  | VList l =>
    items ← (fix go (l : list value) : result (list value) :=
               match l with
               | [] => Ok []
               | x :: l => y ← _convert_runtime_value x; ys ← go l; Ok (y :: ys)
               end) l;
    Ok (VList items)
  | _ => Ok v
  end.

Definition set_change (s : value) : stM (NonceStorage (D := D)) unit :=
  v ← lift_res (v ← py_item "value" s; _convert_runtime_value v);
  k ← lift_res (k ← py_item "key" s; as_str k);
  modify_st (λ ns, MkNonceStorage (drv_set (ns_driver ns) k v) (pending_nonces ns) (clock_reads ns)).

Definition set_nonce_entry (n : value) : stM (NonceStorage (D := D)) unit :=
  k ← lift_res (k ← py_item "key" n; as_str k);
  v ← lift_res (py_item "value" n);
  set_nonce k v.

Definition hard_apply (commit_ok : bool) : stM (NonceStorage (D := D)) unit := λ ns,
  let '(r, d) := drv_hard_apply commit_ok (ns_driver ns) in
  (r, MkNonceStorage d (pending_nonces ns) (clock_reads ns)).

Definition apply_state_changes_from_block (commit_ok : bool) (block : list (string * value))
  : stM (NonceStorage (D := D)) unit :=
  state_changes ← lift_res (py_iter (py_get "genesis" block (VList [])));
  _ ← forM_st state_changes set_change;
  nonces ← lift_res (py_iter (py_get "nonces" block (VList [])));
  _ ← forM_st nonces set_nonce_entry;
  rewards ← lift_res (py_iter (py_get "rewards" block (VList [])));
  _ ← forM_st rewards set_change;
  hard_apply commit_ok.

Definition store_genesis_block (commit_ok : bool) (genesis_block : option (list (string * value)))
  : stM (NonceStorage (D := D)) unit :=
  match genesis_block with
  | Some b => apply_state_changes_from_block commit_ok b
  | None => mret tt
  end.

(** ** The marker and its mirror *)

Lemma normalize_latest_block b : _normalize_latest_block (latest_block_value b) = Ok b.
Proof.
  destruct b as [h ht n]. unfold _normalize_latest_block, latest_block_value, py_dot_get, py_get. simpl.
  unfold py_or, truthy. destruct (ht =? 0) eqn:Eh; simpl; destruct (n =? 0) eqn:En; simpl;
    destruct (bool_decide (h = "")) eqn:Es; simpl;
    rewrite ?Z.eqb_eq in *; rewrite ?bool_decide_eq_true in *; by subst.
Qed.

Lemma load_written io_ok b :
  _load_latest_block io_ok (Text (Some (latest_block_value b))) =
    (Ok b, Text (Some (latest_block_value b))).
Proof.
  unfold _load_latest_block, LATEST_BLOCK_READ_RETRIES. unfold mbind, stM_bind. cbn [create_latest_block_json_if_not_exists].
  cbn [load_retry load_attempt]. by rewrite normalize_latest_block.
Qed.

(** The committed marker is the only authority: whatever the JSON mirror
    holds (missing, corrupt, stale or ahead of the database), reconciling returns
    the marker of the durable state and, when the file system works, leaves a mirror
    from which the offline readers load exactly that block. *)
Theorem reconcile_latest_block_correct io_ok (d : D) m b r m' :
  get_committed_latest_block d = Ok b -> reconcile_latest_block io_ok d m = (Ok r, m') ->
  r = b /\ (io_ok = true -> (_load_latest_block true m').1 = Ok b).
Proof.
  intros Hb Hr. unfold reconcile_latest_block in Hr. rewrite Hb in Hr.
  destruct (read_mirror io_ok m) as [mir|e] eqn:Em; [|done]. injection Hr as <- Hm'.
  split; [done|]. intros ->. destruct (decide (mir = Some b)) as [->|Hne].
  - subst m'. destruct m as [|[v|]]; try done. simpl in Em.
    destruct (_normalize_latest_block v) as [b'|[[] ?]] eqn:En; try done. injection Em as ->.
    unfold _load_latest_block, LATEST_BLOCK_READ_RETRIES, mbind, stM_bind.
    cbn [create_latest_block_json_if_not_exists load_retry load_attempt]. by rewrite En.
  - subst m'. unfold try_write_latest_block, write_latest_block, _write_latest_block_json.
    destruct m as [|[v|]]; simpl; by rewrite load_written.
Qed.

(** The staged marker is what a restart reads back. *)
Lemma committed_marker (d : D) b :
  is_ok (fromhex (lb_hash b)) = true ->
  drv_value_from_disk d LATEST_BLOCK_KEY = latest_block_value b ->
  get_committed_latest_block d = Ok b.
Proof.
  intros Hh Hd. unfold get_committed_latest_block, _load_committed_latest_block. rewrite Hd.
  unfold latest_block_value at 1. fold (latest_block_value b). rewrite normalize_latest_block.
  cbn [mbind result_bind]. by destruct (fromhex (lb_hash b)).
Qed.
End WithDriver.

(** Setting the latest block through the mirror and reading it back gives the
    values set, and leaves the others as they were. *)
Theorem set_latest_block_roundtrip b h ht n m m' :
  (_load_latest_block true m).1 = Ok b ->
  set_latest_block true h ht n m = (Ok tt, m') ->
  _load_latest_block true m' =
    (Ok (LatestBlock (match h with Some h => bytes_hex h | None => lb_hash b end)
                     (default (lb_height b) ht) (default (lb_nanos b) n)), m').
Proof.
  intros Hl Hs. unfold set_latest_block, mbind, stM_bind in Hs.
  destruct (_load_latest_block true m) as [r m1]. simpl in Hl. subst r.
  unfold _write_latest_block_json in Hs. injection Hs as Hm.
  assert (m' = Text (Some (latest_block_value (LatestBlock
     (match h with Some h => bytes_hex h | None => lb_hash b end)
     (default (lb_height b) ht) (default (lb_nanos b) n))))) as ->; [by destruct m1|].
  apply load_written.
Qed.
End Block.

(** Block times convert without loss down to the microsecond: a CometBFT
    timestamp becomes the second and microsecond it lies in. *)
Lemma block_time_conversion seconds nanos :
  0 <= nanos < 1000000000 ->
  let '(s, us) := convert_cometbft_time_to_datetime (get_nanotime_from_block_time seconds nanos) in
  s = seconds /\ 0 <= us < 1000000 /\ us * 1000 <= nanos < us * 1000 + 1000.
Proof.
  intros Hn. unfold convert_cometbft_time_to_datetime, nanoseconds_to_utc_datetime, get_nanotime_from_block_time.
  rewrite Z.add_comm, Z.div_add, Z.mod_add by lia.
  rewrite (Z.div_small nanos), (Z.mod_small nanos) by lia.
  pose proof (Z.div_mod nanos 1000). pose proof (Z.mod_pos_bound nanos 1000).
  split_and!; lia.
Qed.

(** ** Witnesses *)

Definition sample_str (v : value) : string := "?".
Definition sample_no_float (r : string) : result Z := raise ValueError "no float".

Lemma set_latest_block_roundtrip_witness :
  (_load_latest_block sample_str sample_no_float true
     (set_latest_block sample_str sample_no_float true (Some [255]) (Some 7) None Missing).2).1
  = Ok (LatestBlock "ff" 7 0).
Proof.
  rewrite (set_latest_block_roundtrip sample_str sample_no_float LATEST_BLOCK_DEFAULT (Some [255]) (Some 7) None Missing);
    reflexivity.
Defined.

Definition sample_marked : mem_driver :=
  (drv_hard_apply true (stage_latest_block mem_empty [171] 9 100).2).2.

Lemma reconcile_latest_block_correct_witness :
  (_load_latest_block sample_str sample_no_float true
     (reconcile_latest_block sample_str sample_no_float true sample_marked (Text None)).2).1
  = Ok (LatestBlock "ab" 9 100).
Proof.
  apply (reconcile_latest_block_correct sample_str sample_no_float true sample_marked (Text None)
           (LatestBlock "ab" 9 100) (LatestBlock "ab" 9 100)); vm_compute; reflexivity.
Defined.
