(* ===== verification/App.v ===== *)
(** * The application object and the commit boundary

    The state of [Xian] that FinalizeBlock and Commit share
    (src/src/xian/xian_abci.py), and the handlers [commit], [info] and
    [init_chain] of src/src/xian/methods.

    FinalizeBlock leaves the block's writes detached from the driver; Commit
    re-attaches them, adds the latest-block marker and makes all of it durable in
    one transaction.  Whether the transaction and the mirror file write succeed
    are inputs.  The asyncio lock serialises the handlers, so each is one step. *)

From S2P Require Import Prelude PyValue Json PyBuiltins Driver Encoding ExecutionPolicy StateRoot Nonce Block.

(** [current_block_meta]. *)
Record block_meta := BlockMeta { bm_nanos : Z; bm_height : Z; bm_hash : string; bm_chain_id : string }.

Definition meta_value (m : block_meta) : value :=
  VDict [("nanos", VInt (bm_nanos m)); ("height", VInt (bm_height m));
         ("hash", VStr (bm_hash m)); ("chain_id", VStr (bm_chain_id m))].

Section App.
Context {D : Type} `{DriverOps D}.
Context (sha256 : bytes -> bytes) (py_str : value -> string) (float_trunc : string -> result Z)
        (convert_dict : value -> result value)
        (monotonic : nat -> Z) (reservation_ttl_seconds : Z)
        (pruning_enabled : bool) (blocks_to_keep : Z).

Record app := App {
  nonce_storage : NonceStorage (D := D);      (* with [client.raw_driver] inside *)
  state_root_cache : cache;
  merkle_root_hash : option bytes;
  current_block_meta : option block_meta;
  _pending_commit_driver_state : option (list (string * value));
  latest_block_mirror : mirror;
}.

Definition raw_driver (a : app) : D := ns_driver (nonce_storage a).

Definition with_driver (d : D) (a : app) : app :=
  App (MkNonceStorage d (pending_nonces (nonce_storage a)) (clock_reads (nonce_storage a)))
      (state_root_cache a) (merkle_root_hash a) (current_block_meta a)
      (_pending_commit_driver_state a) (latest_block_mirror a).

Definition with_staged (s : option (list (string * value))) (a : app) : app :=
  App (nonce_storage a) (state_root_cache a) (merkle_root_hash a) (current_block_meta a) s
      (latest_block_mirror a).

Definition with_cache (c : cache) (a : app) : app :=
  App (nonce_storage a) c (merkle_root_hash a) (current_block_meta a)
      (_pending_commit_driver_state a) (latest_block_mirror a).

Definition with_mirror (m : mirror) (a : app) : app :=
  App (nonce_storage a) (state_root_cache a) (merkle_root_hash a) (current_block_meta a)
      (_pending_commit_driver_state a) m.

Definition with_nonces (ns : NonceStorage (D := D)) (a : app) : app :=
  App ns (state_root_cache a) (merkle_root_hash a) (current_block_meta a)
      (_pending_commit_driver_state a) (latest_block_mirror a).

(** Run a method of a part of the application. *)
Definition on_nonces {A} (m : stM (NonceStorage (D := D)) A) : stM app A := λ a,
  let '(r, ns) := m (nonce_storage a) in (r, with_nonces ns a).
Definition on_mirror {A} (m : stM mirror A) : stM app A := λ a,
  let '(r, x) := m (latest_block_mirror a) in (r, with_mirror x a).
Definition on_cache {A} (m : stM cache A) : stM app A := λ a,
  let '(r, c) := m (state_root_cache a) in (r, with_cache c a).

(** ** Staging *)

Definition _stage_pending_commit_driver_state : stM app unit := λ a,
  match _pending_commit_driver_state a with
  | Some _ => (raise RuntimeError "previous block has staged writes that were not committed", a)
  | None => let '(w, d) := drv_detach (raw_driver a) in
            (Ok tt, with_staged (Some w) (with_driver d a))
  end.

Definition _restore_pending_commit_driver_state (a : app) : app :=
  match _pending_commit_driver_state a with
  | None => a
  | Some w => with_staged None (with_driver (drv_attach (raw_driver a) w) a)
  end.

Definition _discard_pending_commit_driver_state (a : app) : app := with_staged None a.

(** ** [commit] *)

Definition commit (commit_ok io_ok : bool) : stM app Z := λ a,
  let a := _restore_pending_commit_driver_state a in
  match current_block_meta a, merkle_root_hash a with
  | None, _ => (raise TypeError "'NoneType' object is not subscriptable", a)
  | Some _, None => (raise AttributeError "'NoneType' object has no attribute 'hex'", a)
  | Some meta, Some root =>
    let '(latest, d) := stage_latest_block (raw_driver a) root (bm_height meta) (bm_nanos meta) in
    let pending_writes := drv_pending_writes d in
    match drv_hard_apply commit_ok d with
    | (Raise e, d) =>
        (Raise e, with_driver (drv_set_pending_writes (drv_rollback d) pending_writes) a)
    | (Ok _, d) =>
        let a := with_cache (StateRoot.commit (state_root_cache a)) (with_driver d a) in
        (_ ← on_nonces (reconcile_pending monotonic reservation_ttl_seconds);
         modify_st (λ a, with_mirror (try_write_latest_block io_ok latest (latest_block_mirror a)).2 a) ≫= λ _,
         modify_st (λ a, App (nonce_storage a) (state_root_cache a) None None
                             (_pending_commit_driver_state a) (latest_block_mirror a)) ≫= λ _,
         mret (if pruning_enabled && (blocks_to_keep <? bm_height meta)
               then bm_height meta - blocks_to_keep else 0)) a
    end
  end.

(** ** [info] *)

Record ResponseInfo := Info { last_block_height : Z; last_block_app_hash : bytes }.

Definition info (io_ok : bool) : stM app ResponseInfo := λ a,
  match reconcile_latest_block py_str float_trunc io_ok (raw_driver a) (latest_block_mirror a) with
  | (Raise e, m) => (Raise e, with_mirror m a)
  | (Ok b, m) =>
      ((h ← fromhex (lb_hash b); Ok (Info (lb_height b) h)), with_mirror m a)
  end.

(** ** [init_chain] *)

Definition init_chain (commit_ok io_ok : bool) (genesis : value) : stM app bytes :=
  state ← lift_res (py_item "abci_genesis" genesis ≫= λ v,
                    match v with VDict d => Ok d | _ => raise AttributeError "not a mapping" end);
  _ ← lift_res (validate_genesis_execution_policy state);
  _ ← modify_st (λ a, with_driver (drv_flush_full (raw_driver a)) a);
  _ ← on_nonces (store_genesis_block convert_dict commit_ok (Some state));
  items ← gets_st (λ a, drv_items (raw_driver a));
  state_root ← on_cache (rebuild sha256 items);
  _ ← lift_res (let expected := py_get "hash" state VNone in
                if truthy expected then
                  s ← as_str expected; b ← fromhex s;
                  check_py (bool_decide (b = state_root)) ValueError
                    "genesis state root does not match abci_genesis.hash"
                else Ok tt);
  number ← lift_res (py_int float_trunc (py_or (py_get "number" state (VInt 0)) (VInt 0)));
  _ ← on_mirror (set_latest_block py_str float_trunc io_ok (Some state_root) (Some number) None);
  mret state_root.

(** The driver and cache part of the wrapper around [finalize_block]: an exception
    discards what was staged for Commit and rolls the state root back. *)
Definition finalize_failed (a : app) : app :=
  with_cache (StateRoot.rollback sha256 (state_root_cache a)) (_discard_pending_commit_driver_state a).

(** The commit boundary of [_prepare_commit_boundary]: the root over the pending
    writes. *)
Definition prepare_root : stM app unit := λ a,
  match prepare sha256 (drv_pending_writes (raw_driver a)) (state_root_cache a) with
  | (Raise e, c) => (Raise e, with_cache c a)
  | (Ok h, c) => (Ok tt, App (nonce_storage a) c (Some h) (current_block_meta a)
                             (_pending_commit_driver_state a) (latest_block_mirror a))
  end.

(** ** Commit is all or nothing *)

Context `{!DriverLaws D}.

(** What the finalized but uncommitted block leaves under a key. *)
Definition view (a : app) (q : string) : value :=
  drv_get (raw_driver (_restore_pending_commit_driver_state a)) q.

Definition disk (a : app) (q : string) : value := drv_value_from_disk (raw_driver a) q.

Definition marker (h : bytes) (m : block_meta) : latest_block :=
  LatestBlock (bytes_hex h) (bm_height m) (bm_nanos m).

(** The durable state a commit aims at. *)
Definition target (a : app) (h : bytes) (m : block_meta) (q : string) : value :=
  if decide (q = LATEST_BLOCK_KEY) then latest_block_value (marker h m) else view a q.

Lemma restore_fields a :
  merkle_root_hash (_restore_pending_commit_driver_state a) = merkle_root_hash a /\
  current_block_meta (_restore_pending_commit_driver_state a) = current_block_meta a /\
  state_root_cache (_restore_pending_commit_driver_state a) = state_root_cache a /\
  _pending_commit_driver_state (_restore_pending_commit_driver_state a) = None.
Proof.
  unfold _restore_pending_commit_driver_state. by destruct (_pending_commit_driver_state a) eqn:E.
Qed.

Lemma restore_disk a q : disk (_restore_pending_commit_driver_state a) q = disk a q.
Proof.
  unfold _restore_pending_commit_driver_state, disk.
  destruct (_pending_commit_driver_state a); [|done]. apply drv_attach_disk.
Qed.

Lemma stage_get (d : D) h ht n q :
  drv_get (stage_latest_block d h ht n).2 q =
    if decide (q = LATEST_BLOCK_KEY) then latest_block_value (LatestBlock (bytes_hex h) ht n)
    else drv_get d q.
Proof.
  unfold stage_latest_block. simpl. rewrite !drv_get_spec, drv_apply_writes_pending, drv_apply_writes_disk.
  unfold dict_update. cbn [foldl fst snd]. rewrite dict_get_set. by destruct (decide (q = LATEST_BLOCK_KEY)).
Qed.

(** The last part of [commit], after the durable write. *)
Lemma commit_tail_driver (a : app) latest io_ok r x :
  (_ ← on_nonces (reconcile_pending monotonic reservation_ttl_seconds);
   modify_st (λ a, with_mirror (try_write_latest_block io_ok latest (latest_block_mirror a)).2 a) ≫= λ _,
   modify_st (λ a, App (nonce_storage a) (state_root_cache a) None None
                       (_pending_commit_driver_state a) (latest_block_mirror a)) ≫= λ _,
   mret x : stM app Z) a = r ->
  raw_driver r.2 = raw_driver a /\ state_root_cache r.2 = state_root_cache a /\
  _pending_commit_driver_state r.2 = _pending_commit_driver_state a.
Proof.
  intros <-. unfold mbind, stM_bind, on_nonces, modify_st.
  pose proof (reconcile_pending_driver monotonic reservation_ttl_seconds (nonce_storage a)) as Hd.
  destruct (reconcile_pending _ _ (nonce_storage a)) as [[[]|e] ns]; simpl in *; unfold raw_driver; simpl;
    by rewrite Hd.
Qed.

Lemma commit_spec commit_ok io_ok a m h r a' :
  current_block_meta a = Some m -> merkle_root_hash a = Some h ->
  commit commit_ok io_ok a = (r, a') ->
  (* committed *)
  ((forall q, disk a' q = target a h m q) /\ drv_pending_writes (raw_driver a') = [] /\
   state_root_cache a' = StateRoot.commit (state_root_cache a) /\
   _pending_commit_driver_state a' = None) \/
  (* refused by the database *)
  ((exists e, r = Raise e) /\ (forall q, disk a' q = disk a q) /\ (forall q, view a' q = target a h m q) /\
   current_block_meta a' = Some m /\ merkle_root_hash a' = Some h).
Proof.
  intros Hm Hh Hc. unfold commit in Hc. cbv zeta in Hc.
  destruct (restore_fields a) as (R1 & R2 & R3 & R4). rewrite R1, R2, Hm, Hh in Hc.
  set (a0 := _restore_pending_commit_driver_state a) in *.
  pose proof (stage_get (raw_driver a0) h (bm_height m) (bm_nanos m)) as Hg.
  assert (Hdisk : forall q, drv_value_from_disk (stage_latest_block (raw_driver a0) h (bm_height m) (bm_nanos m)).2 q
                            = disk a q).
  { intros q. unfold stage_latest_block. simpl. rewrite drv_apply_writes_disk. apply restore_disk. }
  destruct (stage_latest_block (raw_driver a0) h (bm_height m) (bm_nanos m)) as [latest d]. simpl in Hg, Hdisk.
  destruct (drv_hard_apply commit_ok d) as [[[]|e] d1] eqn:Ea.
  - left. apply drv_hard_apply_ok in Ea as [Hp Hd].
    apply commit_tail_driver in Hc as (H1 & H2 & H3). simpl in *.
    unfold disk. rewrite H1, H2, H3. unfold raw_driver at 1 2. simpl. split_and!; [|done|by rewrite R3|done].
    intros q. rewrite Hd, Hg. done.
  - right. injection Hc as <- <-. split; [by eexists|].
    assert (Hr : forall q, drv_value_from_disk d1 q = disk a q).
    { intros q. rewrite (drv_hard_apply_raise _ _ _ _ Ea). apply Hdisk. }
    split_and!; [| |simpl; congruence|simpl; congruence].
    + intros q. unfold disk, raw_driver. simpl. by rewrite drv_set_pending_writes_disk, drv_rollback_disk.
    + intros q. unfold view, _restore_pending_commit_driver_state. simpl. rewrite R4.
      unfold raw_driver. simpl. rewrite drv_get_spec.
      rewrite drv_set_pending_writes_pending by apply drv_pending_nodup.
      rewrite drv_set_pending_writes_disk, drv_rollback_disk, Hr, <- Hdisk, <- drv_get_spec, Hg. done.
Qed.

(** Claim C7. Commit is atomic and retryable.  If it succeeds, the durable state is the
    finalized block's view together with the block's own marker, nothing stays
    pending, and a restart reads exactly that marker.  If the database refuses the
    transaction, the durable state is unchanged and a later Commit of the same
    block still reaches the same durable state. *)
Theorem commit_atomic_retryable commit_ok io_ok a m h r a' :
  current_block_meta a = Some m -> merkle_root_hash a = Some h -> Forall is_byte h ->
  commit commit_ok io_ok a = (r, a') ->
  ((forall q, disk a' q = target a h m q) /\ drv_pending_writes (raw_driver a') = [] /\
   get_committed_latest_block py_str float_trunc (raw_driver a') = Ok (marker h m)) \/
  ((exists e, r = Raise e) /\ (forall q, disk a' q = disk a q) /\
   forall io2 x a2, commit true io2 a' = (Ok x, a2) -> forall q, disk a2 q = target a h m q).
Proof.
  intros Hm Hh Hb Hc.
  destruct (commit_spec _ _ _ _ _ _ _ Hm Hh Hc) as [(H1 & H2 & _)|(H1 & H2 & H3 & H4 & H5)]; [left|right].
  - split; [done|]. split; [done|]. apply committed_marker.
    + simpl. by rewrite fromhex_bytes_hex.
    + specialize (H1 LATEST_BLOCK_KEY). unfold target in H1. by rewrite decide_True in H1.
  - split; [done|]. split; [done|]. intros io2 x a2 Hc2 q.
    destruct (commit_spec _ _ _ _ _ _ _ H4 H5 Hc2) as [(G1 & _)|((e & [=]) & _)].
    rewrite G1. unfold target. destruct (decide (q = LATEST_BLOCK_KEY)) as [|Hne]; [done|].
    rewrite H3. unfold target. by rewrite decide_False.
Qed.

(** ** The reported hash is the root of the durable state *)

(** The state-root cache agrees with the durable state. *)
Record synced (a : app) : Prop := {
  sy_staged : _staged_old_leaf_hashes (state_root_cache a) = [];
  sy_tracks : exists items, tracks sha256 (state_root_cache a) items /\
    forall q, disk a q = value_at items q;
}.

Lemma marker_not_consensus : is_consensus_state_key LATEST_BLOCK_KEY = false.
Proof. reflexivity. Qed.

(** The root over the pending writes, and the leaves it leaves in the cache. *)
Lemma prepare_root_spec a0 a1 items :
  tracks sha256 (state_root_cache a0) items ->
  _staged_old_leaf_hashes (state_root_cache a0) = [] ->
  (forall q, disk a0 q = value_at items q) ->
  prepare_root a0 = (Ok tt, a1) ->
  let c1 := state_root_cache a1 in
  a1 = App (nonce_storage a0) c1 (Some (root_hash sha256 c1)) (current_block_meta a0)
           (_pending_commit_driver_state a0) (latest_block_mirror a0) /\
  cache_ok sha256 c1 /\
  Forall (λ kv, encodable sha256 kv = true) (drv_pending_writes (raw_driver a0)) /\
  (forall q, leaf c1 q = leaf_of sha256 q (drv_get (raw_driver a0) q)).
Proof.
  intros Ht Hst Hdisk Hp. pose proof (prepare_ok sha256 (drv_pending_writes (raw_driver a0)) _ (tr_ok _ _ _ Ht)) as Hok.
  unfold prepare_root in Hp. destruct (prepare sha256 _ _) as [[h0|e] c1] eqn:Epr; [|done].
  injection Hp as <-. cbn [state_root_cache] in *. simpl in Hok.
  unfold prepare, mbind, stM_bind in Epr. rewrite rollback_idle in Epr by done.
  destruct (forM_st _ _ _) as [[[]|e] c2] eqn:El; [|done]. unfold gets_st in Epr. injection Epr as <- <-.
  apply prepare_loop_run in El as [He Hl]; [|apply drv_pending_nodup]. split_and!; [done..|].
  intros q. rewrite Hl, drv_get_spec. change (drv_value_from_disk _ q) with (disk a0 q).
  rewrite Hdisk, (tr_leaf _ _ _ Ht), leaf_at_value.
  destruct (dict_get q (drv_pending_writes (raw_driver a0))) as [v|]; [|done].
  destruct (is_consensus_state_key q) eqn:Ek; [done|]. unfold leaf_of. by rewrite Ek, !orb_true_r.
Qed.

(** Staging hides the block's writes from the driver and keeps them for Commit. *)
Lemma stage_view a1 a2 :
  _stage_pending_commit_driver_state a1 = (Ok tt, a2) ->
  (forall q, view a2 q = drv_get (raw_driver a1) q) /\ (forall q, drv_get (raw_driver a2) q = disk a1 q) /\
  current_block_meta a2 = current_block_meta a1 /\ merkle_root_hash a2 = merkle_root_hash a1 /\
  state_root_cache a2 = state_root_cache a1.
Proof.
  intros Hs. unfold _stage_pending_commit_driver_state in Hs.
  destruct (_pending_commit_driver_state a1); [done|].
  destruct (drv_detach_spec (raw_driver a1)) as (D1 & D2 & D3).
  destruct (drv_detach (raw_driver a1)) as [w d]. simpl in D1, D2, D3. injection Hs as <-.
  split_and!; try done; intros q.
  - unfold view, _restore_pending_commit_driver_state. simpl.
    match goal with |- drv_get ?x q = _ => change x with (drv_attach d w) end.
    rewrite !drv_get_spec, drv_attach_pending, drv_attach_disk, D1, D3; [done| |done].
    rewrite D1. apply drv_pending_nodup.
  - change (raw_driver _) with d. by rewrite drv_get_spec, D2, D3.
Qed.

(** Every entry of the committed state can be hashed. *)
Lemma committed_encodable a0 items d :
  tracks sha256 (state_root_cache a0) items ->
  (forall q, disk a0 q = value_at items q) ->
  Forall (λ kv, encodable sha256 kv = true) (drv_pending_writes (raw_driver a0)) ->
  drv_pending_writes d = [] ->
  (forall q, is_consensus_state_key q = true -> drv_value_from_disk d q = drv_get (raw_driver a0) q) ->
  Forall (λ kv, encodable sha256 kv = true) (drv_items d).
Proof.
  intros Ht Hdisk Hew Hp Hd. apply Forall_forall. intros [k v] Hin. unfold encodable. cbn [fst snd].
  destruct (is_consensus_state_key k) eqn:Ek; [|by rewrite orb_true_r].
  assert (Hv : drv_get (raw_driver a0) k = v).
  { rewrite <- Hd by done. rewrite (drv_items_spec _ k Hp).
    by rewrite (dict_get_elem k v) by (done || apply drv_items_nodup). }
  assert (Hone : forall l, Forall (λ kv, encodable sha256 kv = true) l -> dict_get k l = Some v ->
                   is_none v || negb true || is_ok (_hash_leaf sha256 k v) = true).
  { intros l Hl Hg. apply dict_get_Some_elem in Hg. rewrite Forall_forall in Hl. specialize (Hl _ Hg).
    unfold encodable in Hl. simpl in Hl. by rewrite Ek in Hl. }
  rewrite drv_get_spec in Hv.
  destruct (dict_get k (drv_pending_writes (raw_driver a0))) as [v'|] eqn:Eg; [subst v'; by eapply Hone|].
  change (drv_value_from_disk _ k) with (disk a0 k) in Hv. rewrite Hdisk in Hv. unfold value_at in Hv.
  destruct (dict_get k items) as [v'|] eqn:Ei; [|by subst v]. subst v'. eapply Hone; [|done]. apply Ht.
Qed.

Lemma finalize_commit_synced a0 a1 a2 a3 commit_ok io_ok m h r :
  synced a0 -> _pending_commit_driver_state a0 = None -> current_block_meta a0 = Some m ->
  prepare_root a0 = (Ok tt, a1) -> _stage_pending_commit_driver_state a1 = (Ok tt, a2) ->
  merkle_root_hash a1 = Some h -> commit commit_ok io_ok a2 = (Ok r, a3) ->
  h = root_hash sha256 (state_root_cache a1) /\
  tracks sha256 (state_root_cache a3) (drv_items (raw_driver a3)) /\
  state_root_cache a3 = StateRoot.commit (state_root_cache a1) /\
  drv_pending_writes (raw_driver a3) = [] /\
  (forall q, disk a3 q = target a2 h m q).
Proof.
  intros [Hst (items & Ht & Hdisk)] Hn Hm Hp Hs Hh Hc.
  destruct (prepare_root_spec _ _ _ Ht Hst Hdisk Hp) as (Ha1 & Hok & Hew & Hleaf).
  destruct (stage_view _ _ Hs) as (Hview & _ & M2 & R2 & C2).
  set (c1 := state_root_cache a1) in *.
  assert (h = root_hash sha256 c1) as -> by (rewrite Ha1 in Hh; simpl in Hh; congruence).
  assert (Hd1 : raw_driver a1 = raw_driver a0) by (by rewrite Ha1). rewrite Hd1 in Hview.
  assert (Hm2 : current_block_meta a2 = Some m) by (rewrite M2, Ha1; done). rewrite Hh in R2.
  destruct (commit_spec _ _ _ _ _ _ _ Hm2 R2 Hc) as [(H1 & H2 & H3 & H4)|((e & [=]) & _)].
  rewrite C2 in H3.
  assert (Hcons : forall q, q <> LATEST_BLOCK_KEY -> disk a3 q = drv_get (raw_driver a0) q).
  { intros q Hq. rewrite H1. unfold target. rewrite decide_False by done. apply Hview. }
  split_and!; try done. rewrite H3. apply tracks_values.
  - by apply StateRoot.commit_ok.
  - apply drv_items_nodup.
  - eapply (committed_encodable a0 items); [done..|]. intros q Hq. apply Hcons.
    intros ->. by rewrite marker_not_consensus in Hq.
  - intros q. change (leaf (StateRoot.commit c1) q) with (leaf c1 q). rewrite Hleaf.
    unfold value_at. rewrite <- (drv_items_spec _ q H2). change (drv_value_from_disk _ q) with (disk a3 q).
    destruct (decide (q = LATEST_BLOCK_KEY)) as [->|Hq]; [|by rewrite Hcons].
    unfold leaf_of. by rewrite marker_not_consensus, !orb_true_r.
Qed.

(** What a node reports is what it stored: after a block is finalized and
    committed, the state root computed from scratch over the durable state is the
    app hash that FinalizeBlock returned, Info reports that hash with the block's
    height, and the cache again agrees with the durable state, so this holds for
    every following block. *)
Lemma committed_app_hash a0 a1 a2 a3 commit_ok io_ok io_ok' m h r :
  (forall b, Forall is_byte (sha256 b)) ->
  synced a0 -> _pending_commit_driver_state a0 = None -> current_block_meta a0 = Some m ->
  prepare_root a0 = (Ok tt, a1) -> _stage_pending_commit_driver_state a1 = (Ok tt, a2) ->
  merkle_root_hash a1 = Some h -> commit commit_ok io_ok a2 = (Ok r, a3) ->
  distinct_priorities sha256 (dict_keys (_leaf_hashes (state_root_cache a1))) ->
  merkle_root_from_items sha256 (drv_items (raw_driver a3)) = Ok h /\
  (is_ok (read_mirror py_str float_trunc io_ok' (latest_block_mirror a3)) = true ->
   (info io_ok' a3).1 = Ok (Info (bm_height m) h)) /\
  synced a3.
Proof.
  intros Hsha Hsy Hn Hm Hp Hs Hh Hc Hd.
  destruct (finalize_commit_synced _ _ _ _ _ _ _ _ _ Hsy Hn Hm Hp Hs Hh Hc) as (Hroot & Ht & Hcache & Hpend & Hdisk).
  assert (Hbytes : Forall is_byte h).
  { subst h. change (root_hash sha256 (state_root_cache a1))
      with (root_hash sha256 (StateRoot.commit (state_root_cache a1))).
    rewrite <- Hcache. apply root_hash_bytes; [done|apply Ht]. }
  split_and!.
  - rewrite (tracks_root sha256 _ _ Ht).
    + by rewrite Hcache, Hroot.
    + by rewrite Hcache.
  - intros Hmir. unfold info, reconcile_latest_block.
    rewrite (committed_marker py_str float_trunc (raw_driver a3) (marker h m)).
    + destruct (read_mirror _ _ _ _); [|done]. simpl. by rewrite fromhex_bytes_hex.
    + simpl. by rewrite fromhex_bytes_hex.
    + specialize (Hdisk LATEST_BLOCK_KEY). unfold target in Hdisk. by rewrite decide_True in Hdisk.
  - split; [by rewrite Hcache|]. exists (drv_items (raw_driver a3)). split; [done|].
    intros q. by apply drv_items_spec.
Qed.

(** Between FinalizeBlock and Commit the driver shows committed state only: once
    the block's writes are staged, every read (CheckTx, queries, proposals) returns
    the durable value, while Commit will see the block's; staging a second block over
    an uncommitted one is refused. *)
Theorem staged_block_invisible a a' r :
  _stage_pending_commit_driver_state a = (r, a') ->
  match _pending_commit_driver_state a with
  | Some _ => is_ok r = false /\ a' = a
  | None => r = Ok tt /\ (forall q, drv_get (raw_driver a') q = disk a q) /\
            (forall q, view a' q = drv_get (raw_driver a) q)
  end.
Proof.
  intros Hs. destruct (_pending_commit_driver_state a) as [w|] eqn:Ew.
  - unfold _stage_pending_commit_driver_state in Hs. rewrite Ew in Hs. by injection Hs as <- <-.
  - assert (r = Ok tt) as ->.
    { unfold _stage_pending_commit_driver_state in Hs. rewrite Ew in Hs.
      destruct (drv_detach (raw_driver a)). by injection Hs as <- _. }
    destruct (stage_view _ _ Hs) as (? & ? & _). done.
Qed.

Lemma apply_genesis_pending commit_ok block ns ns' :
  apply_state_changes_from_block convert_dict commit_ok block ns = (Ok tt, ns') ->
  drv_pending_writes (ns_driver ns') = [].
Proof.
  unfold apply_state_changes_from_block. intros Hg. stM_inv. unfold hard_apply in Hg.
  match type of Hg with context [drv_hard_apply commit_ok ?d] => destruct (drv_hard_apply commit_ok d) as [r d'] eqn:Ed end.
  injection Hg as -> <-. simpl. by destruct (drv_hard_apply_ok _ _ _ Ed).
Qed.

(** A chain that starts starts from its genesis state: when InitChain returns,
    the root it reports is the state root of exactly what it made durable, it equals
    the hash the genesis file declares when it declares one, and the state-root
    cache agrees with the durable state. *)
Theorem init_chain_correct commit_ok io_ok genesis a root a' :
  _staged_old_leaf_hashes (state_root_cache a) = [] ->
  init_chain commit_ok io_ok genesis a = (Ok root, a') ->
  merkle_root_from_items sha256 (drv_items (raw_driver a')) = Ok root /\ synced a' /\
  (forall g s, py_item "abci_genesis" genesis = Ok (VDict g) -> dict_get "hash" g = Some (VStr s) ->
     s <> "" -> fromhex s = Ok root).
Proof.
  intros Hst Hi. unfold init_chain in Hi. stM_inv.
  unfold on_nonces, store_genesis_block in E2. simpl in E1. injection E1 as _ Es1.
  destruct (apply_state_changes_from_block convert_dict commit_ok a0 (nonce_storage s1)) as [rg ns] eqn:Eg.
  injection E2 as -> Es2. destruct a3. apply apply_genesis_pending in Eg.
  unfold gets_st in E3. injection E3 as Ea4 Es3. subst s3.
  unfold on_cache in E4. destruct (rebuild sha256 a4 (state_root_cache s2)) as [rc c] eqn:Erb.
  injection E4 as -> Es4. unfold on_mirror in E7.
  destruct (set_latest_block _ _ _ _ _ _ _) as [rm m] eqn:Em. injection E7 as _ Es7.
  unfold lift_res in E0, E, E5, E6. injection E as E Es. injection E0 as _ Es0.
  injection E5 as E5 Es5. injection E6 as _ Es6. unfold mret, stM_ret in Hi. injection Hi as -> ->.
  subst s s0 s1 s2 s5 s6. simpl in *. subst s4 a'. simpl in *.
  assert (Hnew : new_cache sha256 (drv_items (ns_driver ns)) = Ok c).
  { unfold new_cache. unfold rebuild in *. cbv zeta in *. rewrite rollback_idle in Erb by done.
    rewrite rollback_idle by done. rewrite Hst in Erb. subst a4. unfold raw_driver in Erb. simpl in Erb.
    simpl. by rewrite Erb. }
  assert (Hroot : root = root_hash sha256 c).
  { unfold rebuild, mbind, stM_bind in Erb. destruct (forM_st a4 _ _) as [[[]|e] c2]; [|done].
    unfold gets_st in Erb. by injection Erb as <- <-. }
  destruct (new_cache_tracks sha256 _ _ (drv_items_nodup (ns_driver ns)) Hnew) as [Ht Hs].
  split_and!.
  - unfold merkle_root_from_items, raw_driver. simpl. by rewrite Hnew, Hroot.
  - split; [done|]. exists (drv_items (ns_driver ns)). split; [done|].
    intros q. unfold disk, raw_driver. simpl. by apply drv_items_spec.
  - intros g s Hg Hh Hne. rewrite Hg in E. simpl in E. injection E as ->.
    unfold py_get in E5. rewrite Hh in E5. cbn [truthy as_str] in E5.
    rewrite bool_decide_eq_false_2 in E5 by done. cbn [negb mbind result_bind] in E5.
    destruct (fromhex s) as [b|]; [|done]. cbn [mbind result_bind] in E5.
    unfold check_py in E5. destruct (bool_decide (b = root)) eqn:Eb; [|done].
    by apply bool_decide_eq_true in Eb as ->.
Qed.
End App.

(** ** Witnesses on the in-memory driver *)

Lemma to_bytes_big_bytes w n : Forall is_byte (to_bytes_big w n).
Proof.
  revert n. induction w as [|w IH]; intros n; [constructor|]. cbn [to_bytes_big].
  apply Forall_app. split; [apply IH|]. constructor; [|constructor].
  unfold is_byte. apply Z.mod_pos_bound. lia.
Qed.

Definition sample_meta : block_meta := BlockMeta 1000 3 "AB" "xian-1".

(** A node whose durable state is [sample_pairs], with one block's writes pending. *)
Definition sample_pairs : list (string * value) :=
  [("currency.balances:alice", VInt 10); ("__n.alice:", VInt 4)].
Definition sample_durable : mem_driver :=
  (drv_hard_apply true (drv_apply_writes mem_empty sample_pairs)).2.
Definition sample_app : app (D := mem_driver) :=
  App (MkNonceStorage (drv_apply_writes sample_durable sample_writes) ∅ 0)
      (match new_cache toy_sha sample_pairs with Ok c => c | Raise _ => empty_cache end)
      None (Some sample_meta) None Missing.
Definition sample_prepared : app (D := mem_driver) := (prepare_root toy_sha sample_app).2.
Definition sample_staged : app (D := mem_driver) := (_stage_pending_commit_driver_state sample_prepared).2.
Definition sample_root : bytes := default [] (merkle_root_hash sample_prepared).
Definition sample_commit (ok : bool) := commit ticks 60 true 2 ok true sample_staged.

Lemma sample_synced : synced toy_sha sample_app.
Proof.
  split; [vm_compute; reflexivity|]. exists sample_pairs. split.
  - apply (new_cache_tracks toy_sha sample_pairs); [nodup_by_compute|vm_compute; reflexivity].
  - intros q. unfold disk. change (drv_value_from_disk (raw_driver sample_app) q)
      with (disk_get (Mem sample_pairs []) q). done.
Qed.

Lemma commit_atomic_retryable_witness :
  (forall q, disk (sample_commit true).2 q = target sample_staged sample_root sample_meta q) /\
  (forall q, disk (sample_commit false).2 q = disk sample_staged q).
Proof.
  split.
  - destruct (commit_atomic_retryable sample_str sample_no_float ticks 60 true 2 true true sample_staged
      sample_meta sample_root (Ok 1) (sample_commit true).2) as [(G & _)|((e & [=]) & _)].
    + vm_compute. reflexivity.
    + vm_compute. reflexivity.
    + apply (bool_decide_unpack _). vm_compute. exact I.
    + vm_compute. reflexivity.
    + exact G.
  - destruct (commit_atomic_retryable sample_str sample_no_float ticks 60 true 2 false true sample_staged
      sample_meta sample_root (sample_commit false).1 (sample_commit false).2) as [(_ & G & _)|(_ & G & _)].
    + vm_compute. reflexivity.
    + vm_compute. reflexivity.
    + apply (bool_decide_unpack _). vm_compute. exact I.
    + vm_compute. reflexivity.
    + vm_compute in G. discriminate G.
    + exact G.
Defined.

Lemma committed_app_hash_sample :
  merkle_root_from_items toy_sha (drv_items (raw_driver (sample_commit true).2)) = Ok sample_root /\
  (info sample_str sample_no_float true (sample_commit true).2).1 = Ok (Info 3 sample_root).
Proof.
  destruct (committed_app_hash toy_sha sample_str sample_no_float ticks 60 true 2
    sample_app sample_prepared sample_staged (sample_commit true).2 true true true sample_meta sample_root 1)
    as (G1 & G2 & _).
  - intros b. apply to_bytes_big_bytes.
  - exact sample_synced.
  - reflexivity.
  - reflexivity.
  - vm_compute. reflexivity.
  - vm_compute. reflexivity.
  - vm_compute. reflexivity.
  - vm_compute. reflexivity.
  - unfold distinct_priorities. nodup_by_compute.
  - split; [exact G1|]. apply G2. vm_compute. reflexivity.
Defined.

Lemma staged_block_invisible_witness :
  drv_get (raw_driver sample_staged) "currency.balances:alice" = VInt 10 /\
  view sample_staged "currency.balances:alice" = VInt 7.
Proof.
  assert (Hs : _stage_pending_commit_driver_state sample_prepared = (Ok tt, sample_staged))
    by (vm_compute; reflexivity).
  pose proof (staged_block_invisible _ _ _ Hs) as G.
  change (_pending_commit_driver_state sample_prepared) with (@None (list (string * value))) in G.
  destruct G as (_ & G1 & G2). rewrite G1, G2. split; vm_compute; reflexivity.
Defined.

Definition sample_genesis_state (declared : string) : value :=
  VDict [("number", VStr "0"); ("hash", VStr declared);
         ("genesis", VList [VDict [("key", VStr EXECUTION_POLICY_KEY); ("value", VDict current_execution_policy)];
                            VDict [("key", VStr "currency.balances:alice"); ("value", VInt 10)]])].
Definition sample_init (declared : string) : result bytes * app (D := mem_driver) :=
  init_chain toy_sha sample_str sample_no_float Ok true true
    (VDict [("abci_genesis", sample_genesis_state declared)]) sample_app.
Definition sample_genesis_root : bytes :=
  match (sample_init "").1 with Ok b => b | Raise _ => [] end.

Definition sample_inited : app (D := mem_driver) := (sample_init (bytes_hex sample_genesis_root)).2.

Lemma sample_init_run :
  init_chain toy_sha sample_str sample_no_float Ok true true
    (VDict [("abci_genesis", sample_genesis_state (bytes_hex sample_genesis_root))]) sample_app
  = (Ok sample_genesis_root, sample_inited).
Proof. vm_compute. reflexivity. Qed.

Lemma init_chain_correct_witness :
  merkle_root_from_items toy_sha (drv_items (raw_driver sample_inited)) = Ok sample_genesis_root /\
  synced toy_sha sample_inited.
Proof.
  destruct (init_chain_correct toy_sha sample_str sample_no_float Ok true true _ sample_app
              sample_genesis_root sample_inited eq_refl sample_init_run) as (G & S & _).
  split; assumption.
Defined.
