(* ===== verification/Engine.v ===== *)
(** * Execution engine (src/src/xian/execution_engine.py)

    The wrapper around the native virtual machine: preparation of a contract and of
    what it imports, one metered execution, the checks on its effects and the fee.

    The native machine, the driver's accessors for stored modules and contract
    variables, and the runtime's types are the fields of the class [Runtime]: code of
    other packages, which the wrapper only calls.  The process-wide dict
    [_VM_PREPARED_CONTRACTS] is explicit state. *)

From S2P Require Import Prelude PyValue Json PyBuiltins Driver Encoding ExecutionPolicy.

(** What a contract returned: a value or the exception it raised. *)
Inductive vm_value := Returned (v : value) | Raised (e : exn).

Record VmExecutionResult := VmResult {
  status_code : Z; vm_result : vm_value; vm_writes : list (string * value); vm_events : list value;
  vm_chi_used : Z; vm_contract_costs : list (string * value) }.

Record VmTransactionResult := VmTxResult {
  tr_output : VmExecutionResult; tr_writes : list (string * value); tr_chi_used : Z;
  tr_contract_costs : list (string * value); tr_reads : list string; tr_prefix_reads : list string }.

(** The arguments of [execute_vm_contract]. *)
Record vm_args := VmArgs {
  a_sender : string; a_contract_name : string; a_function_name : string; a_kwargs : value;
  a_environment : list (string * value); a_meter : bool; a_chi_budget : value;
  a_transaction_size_bytes : Z }.

(** One call of the machine. *)
Record vm_call := VmCall {
  call_contract_name : string; call_function_name : string; call_kwargs : value;
  call_context : list (string * value); call_meter : bool; call_chi_budget_raw : Z;
  call_transaction_size_bytes : Z }.

Definition vm_requires_contract_source (contract_name function_name : string) (kwargs : value) : result bool :=
  if bool_decide (contract_name = "submission") && bool_decide (function_name = "submit_contract") then
    code ← py_dot_get kwargs "code" VNone;
    Ok (match code with VStr s => bool_decide (s = "") | _ => true end)
  else Ok false.

Definition vm_contract_source_error (contract_name function_name : string) : string :=
  "xian_vm_v1 requires source code for " +:+ contract_name +:+ "." +:+ function_name.

(** What the node calls in the contracting, runtime-types and vm-core packages. *)
Class Runtime (D : Type) := {
  (** [driver.make_key(contract, variable, arguments)] *)
  make_key : string -> string -> list string -> string;
  (** [client.get_var(contract, variable, arguments)] *)
  get_var : D -> string -> string -> list value -> result value;
  (** [driver.get_contract_ir(name, vm_profile=...)] and [driver.get_owner(name)] *)
  get_contract_ir : D -> string -> value;
  get_owner : D -> string -> value;
  (** [driver.items(prefix)], [driver.get_var] and [driver.set_var] of the raw driver *)
  raw_items : D -> string -> list (string * value);
  raw_get_var : D -> string -> string -> list string -> value;
  raw_set_var : D -> string -> string -> list string -> value -> D;
  (** [build_contract_artifacts(module_name, source, ...)]: the source and the module IR *)
  build_contract_artifacts : string -> value -> result (value * value);
  ContractingDecimal : value -> result value;
  (** [a / b] on contract numbers *)
  num_div : value -> value -> result value;
  convert_dict : value -> result value;
  validate_persistent_value : value -> result unit;
  safe_repr : vm_value -> value;
  encode_wire : value -> result string;
  (** [Datetime._from_datetime] of a UTC time given in seconds and microseconds *)
  datetime_of : Z * Z -> value;
  module_ir_uses_zk : value -> bool;
  runtime_feature_zk : D -> bool;
  (** the native bindings *)
  validate_module_ir : value -> result unit;
  (** the machine works on the driver it is given: what it leaves there is part of the result,
      also when it raises *)
  execute_contract : D -> vm_call -> result VmExecutionResult * D;
  (** the keys of [driver.transaction_reads] and [driver.transaction_read_prefixes], the log of
      an execution, which the processor empties before it *)
  transaction_reads : D -> list string * list string;
  (** [driver.snapshot_state()] and [driver.restore_state(state)] *)
  driver_snapshot : Type;
  snapshot_state : D -> driver_snapshot;
  restore_state : D -> driver_snapshot -> D;
  sha256_hex : string -> string;
  sha3_256_hex : string -> string;
}.

(** What the node relies on: a state key of a contract variable contains a dot, the
    machine reports its writes as a dict and leaves the disk alone, its log names everything
    of the state its result depends on, a snapshot restored over the same disk gives back the
    driver it was taken of, the check of values raises the exceptions its caller handles, the
    variables of a contract are entries of the state, and the items under a prefix are the
    entries whose keys have it. *)
Class RuntimeLaws (D : Type) `{DriverOps D} `{!Runtime D} := {
  make_key_not_policy c v args : make_key c v args <> EXECUTION_POLICY_KEY;
  make_key_spec c v a args :
    make_key c v (a :: args) = c +:+ "." +:+ v +:+ ":" +:+ String.concat ":" (a :: args);
  execute_contract_nodup d call out :
    (execute_contract d call).1 = Ok out -> NoDup (dict_keys (vm_writes out));
  execute_contract_disk d call q :
    drv_value_from_disk (execute_contract d call).2 q = drv_value_from_disk d q;
  execute_contract_local d1 d2 call :
    (forall k, k ∈ (transaction_reads (execute_contract d1 call).2).1 -> drv_get d2 k = drv_get d1 k) ->
    (forall p, p ∈ (transaction_reads (execute_contract d1 call).2).2 -> raw_items d2 p = raw_items d1 p) ->
    (execute_contract d2 call).1 = (execute_contract d1 call).1 /\
    transaction_reads (execute_contract d2 call).2 = transaction_reads (execute_contract d1 call).2;
  restore_snapshot d d' :
    (forall q, drv_value_from_disk d' q = drv_value_from_disk d q) -> restore_state d' (snapshot_state d) = d;
  validate_persistent_value_raises v c m :
    validate_persistent_value v = Raise (Exn c m) -> c ∈ [AssertionError; TypeError; ValueError; RecursionError];
  raw_get_var_spec d c v args : raw_get_var d c v args = drv_get d (make_key c v args);
  raw_set_var_spec d c v args x q :
    drv_get (raw_set_var d c v args x) q = if decide (q = make_key c v args) then x else drv_get d q;
  raw_set_var_disk d c v args x q : drv_value_from_disk (raw_set_var d c v args x) q = drv_value_from_disk d q;
  raw_items_spec d p k v :
    (k, v) ∈ raw_items d p <-> startswith p k = true /\ drv_get d k = v /\ v <> VNone;
}.

(** [build_vm_runtime]: the native runtime must report the node's execution policy. *)
Definition build_vm_runtime (runtime_info : list (string * value))
    (supports_execution_policy : string -> string -> bool) : result (list (string * value)) :=
  _ ← check_py (bool_decide (py_get "execution_revision" runtime_info VNone = VStr VM_EXECUTION_REVISION)
                && bool_decide (py_get "set_codec" runtime_info VNone = VStr SET_CODEC)) ValueError
        "native runtime execution policy does not match the node";
  _ ← check_py (bool_decide (py_get "vm_profile" runtime_info VNone = VStr VM_EXECUTION_MODE)) ValueError
        "xian_vm_v1 native runtime reported an unexpected vm_profile";
  _ ← check_py (supports_execution_policy VM_BYTECODE_VERSION VM_GAS_SCHEDULE) ValueError
        "xian_vm_v1 native runtime does not support execution policy";
  Ok runtime_info.

Lemma dot_not_policy a b : a +:+ "." +:+ b <> EXECUTION_POLICY_KEY.
Proof.
  intros Heq. assert (Hd : ascii_of_byte 46 ∈ str_chars EXECUTION_POLICY_KEY).
  { rewrite <- Heq. unfold str_chars. clear Heq. induction a as [|c a IH]; [left|]. right. apply IH. }
  apply (bool_decide_eq_true_2 _) in Hd. by vm_compute in Hd.
Qed.

Section Engine.
Context {D : Type} `{DriverOps D} `{PyArith} `{!Runtime D}.
Context (py_str : value -> string) (float_trunc : string -> result Z).

(** ** The fee *)

Definition metering_write_keys (sender currency_contract balances_hash : string) : list string :=
  [make_key currency_contract balances_hash [sender]].

(** A [VDec] is the runtime's decimal here: the state holds no other. *)
Definition _coerce_balance_value (balance : value) : result value :=
  match balance with
  | VDec _ => Ok balance
  | VDict d => ContractingDecimal (py_get "__fixed__" d VNone)
  | VNone => Ok (VInt 0)
  | VStr s => ContractingDecimal (VStr s)
  | VFloat r => ContractingDecimal (VStr r)
  | _ => Ok balance
  end.

(** [max(v, 0)] *)
Definition max_zero (v : value) : result value :=
  negative ← num_lt v (VInt 0); Ok (if (negative : bool) then VInt 0 else v).

Definition vm_metering_writes (d : D) (sender : string) (chi_used : Z) (chi_cost : value)
    (base_writes : list (string * value)) : result (list (string * value)) :=
  if chi_used <=? 0 then Ok []
  else
    let balances_key := make_key "currency" "balances" [sender] in
    balance ← _coerce_balance_value (match dict_get balances_key base_writes with
                                     | Some v => v
                                     | None => drv_get d balances_key end);
    used ← ContractingDecimal (VInt chi_used);
    cost ← ContractingDecimal chi_cost;
    to_deduct ← num_div used cost;
    balance ← num_sub balance to_deduct;
    balance ← max_zero balance;
    Ok [(balances_key, balance)].

(** ** Execution *)

Definition _validated_vm_result (output : VmExecutionResult) : result VmExecutionResult :=
  if negb (status_code output =? 0) then Ok output
  else
    let effects := VTuple [VDict (vm_writes output); VList (vm_events output)] in
    match (_ ← check_py (negb (dict_mem EXECUTION_POLICY_KEY (vm_writes output))) ValueError
                  "contract effects cannot change the protected execution policy";
           _ ← validate_persistent_value effects;
           _ ← encode_abci_json effects;
           check_py (forallb valid_str (dict_keys (vm_writes output))) ValueError
             "'utf-8' codec can't encode character: surrogates not allowed") with
    | Ok _ => Ok output
    | Raise (Exn AssertionError _) | Raise (Exn TypeError _) | Raise (Exn ValueError _)
    | Raise (Exn RecursionError _) =>
        Ok (VmResult 1 (Raised (Exn ValueError "Contract writes or events cannot be encoded for consensus."))
              [] [] (vm_chi_used output) (vm_contract_costs output))
    | Raise e => Raise e
    end.

Definition execution_context (d : D) (a : vm_args) : result (list (string * value)) :=
  submission_name ← (if decide (a_contract_name a = "submission")
                     then py_dot_get (a_kwargs a) "name" VNone else Ok VNone);
  let env k := py_get k (a_environment a) VNone in
  Ok [("signer", VStr (a_sender a)); ("caller", VStr (a_sender a)); ("this", VStr (a_contract_name a));
      ("entry", VTuple [VStr (a_contract_name a); VStr (a_function_name a)]);
      ("owner", get_owner d (a_contract_name a)); ("submission_name", submission_name);
      ("now", env "now"); ("block_num", env "block_num"); ("block_hash", env "block_hash");
      ("chain_id", env "chain_id"); ("__input_hash", env "__input_hash")].

Definition run_machine (call : vm_call) : stM D VmExecutionResult := λ d, execute_contract d call.

Definition execute_vm_contract (a : vm_args) : stM D VmExecutionResult :=
  missing ← lift_res (vm_requires_contract_source (a_contract_name a) (a_function_name a) (a_kwargs a));
  if (missing : bool) then
    mret (VmResult 1 (Raised (Exn ValueError (vm_contract_source_error (a_contract_name a) (a_function_name a))))
            [] [] 0 [])
  else
    d ← get_st;
    context ← lift_res (execution_context d a);
    output ← try_st
      (budget ← lift_res (py_int float_trunc (a_chi_budget a));
       run_machine (VmCall (a_contract_name a) (a_function_name a) (a_kwargs a) context (a_meter a)
                      (Z.max budget 0 * 1000) (Z.max (a_transaction_size_bytes a) 0)));
    match output with
    | Raise e => mret (VmResult 1 (Raised e) [] [] 0 [])
    | Ok output => lift_res (_validated_vm_result output)
    end.

(** [execute_vm_transaction]: the driver goes back to its snapshot once the effects of the
    execution and its log have been taken from it. *)
Definition execute_vm_transaction (a : vm_args) (chi_cost : value)
    (apply_metering_on_success_only apply_metering_writes : bool)
  : stM D VmTransactionResult :=
  base_driver_state ← gets_st snapshot_state;
  vm_output ← execute_vm_contract a;
  reads ← gets_st transaction_reads;
  let chi_used := vm_chi_used vm_output in
  _ ← modify_st (λ d, restore_state d base_driver_state);
  d ← get_st;
  metering ← lift_res
    (if apply_metering_writes && ((status_code vm_output =? 0) || negb apply_metering_on_success_only)
        && (a_meter a && (0 <? chi_used))
     then vm_metering_writes d (a_sender a) chi_used chi_cost (vm_writes vm_output)
     else Ok []);
  mret (VmTxResult vm_output (dict_update (vm_writes vm_output) metering) chi_used
          (vm_contract_costs vm_output) reads.1 reads.2).

(** ** Preparation *)

Record VmPreparedContract := Prepared {
  p_contract_name : string; p_artifact_hash : string; p_imported_contracts : list string }.

Definition prepared_cache : Type := list ((string * string) * VmPreparedContract).

Definition _load_vm_module_ir_json (d : D) (contract_name : string) : result (string * string) :=
  let missing := raise ValueError ("xian_vm_v1 requires persisted __xian_ir_v1__ for contract '" +:+ contract_name
                                   +:+ "'; stored source is inspection-only") in
  match get_contract_ir d contract_name with
  | VStr ir => if decide (ir = "") then missing else Ok (sha256_hex ir, ir)
  | _ => missing
  end.

(** [_reject_disabled_runtime_features] *)
Definition _reject_disabled_runtime_features (d : D) (contract_name : string) (module_ir : value) : result unit :=
  check_py (negb (module_ir_uses_zk module_ir && negb (runtime_feature_zk d))) ValueError
    ("contract '" +:+ contract_name +:+
     "' uses zk host syscalls, but the chain zk runtime feature is disabled").

(** The modules an [imports] list names, sorted and without repetitions. *)
Definition imported_modules (module_ir : value) : result (list string) :=
  specs ← (v ← py_dot_get module_ir "imports" (VList []); py_iter v);
  modules ← mapM_py (λ spec, v ← py_dot_get spec "module" VNone;
                             Ok (if truthy v then Some (match v with VStr s => s | _ => py_str v end)
                                 else None)) specs;
  Ok (sort_by id (remove_dups (omap id modules))).

Definition cached (key : string * string) (c : prepared_cache) : option VmPreparedContract :=
  snd <$> (snd <$> list_find (λ kv, kv.1 = key) c).

(** The recursion of [_prepare_vm_contract_bundle], [fuel] calls deep; [stop] is what happens
    below that.  The stack holds distinct names and a cycle raises, so the recursion is no
    deeper than there are contracts. *)
Fixpoint bundle_within (stop : stM prepared_cache VmPreparedContract) (fuel : nat) (d : D)
    (contract_name : string) (stack : list string) : stM prepared_cache VmPreparedContract :=
  match fuel with
  | O => stop
  | S fuel =>
    if decide (contract_name ∈ stack) then raise_st ValueError
      ("xian_vm_v1 import graph contains a cycle: " +:+ String.concat " -> " (stack ++ [contract_name]))
    else
      '(artifact_hash, ir) ← lift_res (_load_vm_module_ir_json d contract_name);
      module_ir ← lift_res (loads ir);
      _ ← lift_res (_reject_disabled_runtime_features d contract_name module_ir);
      c ← get_st;
      match cached (contract_name, artifact_hash) c with
      | Some p => mret p
      | None =>
        _ ← lift_res (validate_module_ir module_ir);
        imported_contracts ← lift_res (imported_modules module_ir);
        let p := Prepared contract_name artifact_hash imported_contracts in
        _ ← modify_st (cons ((contract_name, artifact_hash), p));
        _ ← forM_st imported_contracts (λ i, _ ← bundle_within stop fuel d i (stack ++ [contract_name]); mret tt);
        mret p
      end
  end.

(** Python raises at its recursion limit. *)
Definition _prepare_vm_contract_bundle (fuel : nat) (d : D) (contract_name : string) (stack : list string)
  : stM prepared_cache VmPreparedContract :=
  bundle_within (raise_st RecursionError "maximum recursion depth exceeded") fuel d contract_name stack.

Definition prepare_vm_contract (fuel : nat) (d : D) (contract_name : string)
  : stM prepared_cache VmPreparedContract :=
  _prepare_vm_contract_bundle fuel d contract_name [].

(** ** The effects of a successful execution *)

(** A result passes the checks as it is, or as a failure without effects. *)
Lemma validated_cases o out :
  _validated_vm_result o = Ok out ->
  out = o /\ (status_code o = 0 ->
    dict_mem EXECUTION_POLICY_KEY (vm_writes o) = false /\
    validate_persistent_value (VTuple [VDict (vm_writes o); VList (vm_events o)]) = Ok tt /\
    is_ok (encode_abci_json (VTuple [VDict (vm_writes o); VList (vm_events o)])) = true /\
    forallb valid_str (dict_keys (vm_writes o)) = true) \/
  status_code out = 1 /\ vm_writes out = [] /\ vm_events out = [].
Proof.
  unfold _validated_vm_result. intros Hx. destruct (status_code o =? 0) eqn:Es; cbn [negb] in Hx; cycle 1.
  { destruct_result. left. split; [done|]. intros Hs. by rewrite Hs in Es. }
  destruct (dict_mem EXECUTION_POLICY_KEY (vm_writes o)) eqn:Em; cbn [negb check_py raise mbind result_bind] in Hx.
  { destruct_result. by right. }
  destruct (validate_persistent_value _) as [[]|[c m]] eqn:Ev; cbn [mbind result_bind] in Hx;
    [|destruct c; destruct_result; by right].
  destruct (encode_abci_json _) as [b|[c m]] eqn:Ee; cbn [mbind result_bind] in Hx; [|destruct c; destruct_result; by right].
  destruct (forallb valid_str _) eqn:Ek; cbn [check_py raise] in Hx; destruct_result; [left|by right]. done.
Qed.

(** The checks raise nothing but what they handle. *)
Lemma validated_total `{!RuntimeLaws D} o : exists out, _validated_vm_result o = Ok out.
Proof.
  unfold _validated_vm_result. destruct (status_code o =? 0); cbn [negb]; [|by eexists].
  destruct (dict_mem EXECUTION_POLICY_KEY (vm_writes o)); cbn [negb check_py raise mbind result_bind]; [by eexists|].
  destruct (validate_persistent_value _) as [[]|[c m]] eqn:Ev; cbn [mbind result_bind]; cycle 1.
  { apply validate_persistent_value_raises in Ev. rewrite !elem_of_cons, elem_of_nil in Ev.
    destruct Ev as [->|[->|[->|[->|[]]]]]; by eexists. }
  destruct (encode_abci_json _) as [b|[c m]] eqn:Ee; cbn [mbind result_bind].
  - destruct (forallb valid_str _); by eexists.
  - apply encode_abci_json_raises in Ee as ->. by eexists.
Qed.

Definition machine_call (a : vm_args) (context : list (string * value)) (budget : Z) : vm_call :=
  VmCall (a_contract_name a) (a_function_name a) (a_kwargs a) context (a_meter a) (Z.max budget 0 * 1000)
    (Z.max (a_transaction_size_bytes a) 0).

(** [execute_vm_contract] step by step. *)
Lemma execute_vm_contract_eq a d :
  execute_vm_contract a d =
    match vm_requires_contract_source (a_contract_name a) (a_function_name a) (a_kwargs a) with
    | Raise e => (Raise e, d)
    | Ok true => (Ok (VmResult 1 (Raised (Exn ValueError (vm_contract_source_error (a_contract_name a) (a_function_name a))))
                        [] [] 0 []), d)
    | Ok false =>
      match execution_context d a, py_int float_trunc (a_chi_budget a) with
      | Raise e, _ => (Raise e, d)
      | Ok _, Raise e => (Ok (VmResult 1 (Raised e) [] [] 0 []), d)
      | Ok context, Ok budget =>
        let '(r, d1) := execute_contract d (machine_call a context budget) in
        (match r with Raise e => Ok (VmResult 1 (Raised e) [] [] 0 []) | Ok o => _validated_vm_result o end, d1)
      end
    end.
Proof.
  unfold execute_vm_contract, try_st, run_machine, mbind, stM_bind, lift_res, get_st.
  destruct (vm_requires_contract_source _ _ _) as [[]|]; [done| |done].
  destruct (execution_context d a) as [context|]; [|done]. destruct (py_int _ _) as [budget|]; [|done].
  fold (machine_call a context budget). by destruct (execute_contract d _) as [[] d1].
Qed.

(** How it returns: a failure before the machine was asked or by its exception, or what the
    machine said, checked. *)
Lemma execute_vm_contract_cases a d out d' :
  execute_vm_contract a d = (Ok out, d') ->
  (status_code out = 1 /\ vm_writes out = [] /\ vm_events out = []) \/
  exists call o, execute_contract d call = (Ok o, d') /\ _validated_vm_result o = Ok out.
Proof.
  rewrite execute_vm_contract_eq. intros Hx.
  destruct (vm_requires_contract_source _ _ _) as [[]|]; [injection Hx as <- _; by left| |done].
  destruct (execution_context d a) as [context|]; [|done].
  destruct (py_int _ _) as [budget|]; [|injection Hx as <- _; by left].
  destruct (execute_contract d _) as [[o|e] d1] eqn:Eo; injection Hx; [|intros <- <-; by left].
  intros -> Hv. right. by eexists _, o.
Qed.

(** What reaches the processor from an execution that succeeded was checked: it does
    not touch the execution policy and passed the runtime's check. *)
Lemma validated_success a d out d' :
  execute_vm_contract a d = (Ok out, d') -> status_code out = 0 ->
  dict_mem EXECUTION_POLICY_KEY (vm_writes out) = false /\
  validate_persistent_value (VTuple [VDict (vm_writes out); VList (vm_events out)]) = Ok tt /\
  is_ok (encode_abci_json (VTuple [VDict (vm_writes out); VList (vm_events out)])) = true.
Proof.
  intros Hx Hs. destruct (execute_vm_contract_cases _ _ _ _ Hx) as [[H1 _]|(call & o & _ & Hv)]; [congruence|].
  destruct (validated_cases _ _ Hv) as [[-> Hc]|[H1 _]]; [|congruence]. destruct (Hc Hs) as (? & ? & ? & _). done.
Qed.

(** The fee is at most one write, of the sender's balance. *)
Lemma metering_shape d sender used cost base w :
  vm_metering_writes d sender used cost base = Ok w ->
  (w = [] /\ used <= 0) \/ (exists balance, w = [(make_key "currency" "balances" [sender], balance)]).
Proof.
  unfold vm_metering_writes. destruct (used <=? 0) eqn:Eu; intros Hx; destruct_result; [left; split; [done|lia]|].
  right. by eexists.
Qed.

(** It only depends on the sender's balance, which it writes. *)
Lemma metering_frame d1 d2 sender used cost base w :
  vm_metering_writes d1 sender used cost base = Ok w ->
  (make_key "currency" "balances" [sender] ∈ dict_keys w ->
     drv_get d2 (make_key "currency" "balances" [sender]) = drv_get d1 (make_key "currency" "balances" [sender])) ->
  vm_metering_writes d2 sender used cost base = Ok w.
Proof.
  intros Hw Hb. destruct (metering_shape _ _ _ _ _ _ Hw) as [[-> Hu]|[b ->]].
  - unfold vm_metering_writes. by rewrite (proj2 (Z.leb_le _ _) Hu).
  - rewrite <- Hw. unfold vm_metering_writes. rewrite Hb by left. done.
Qed.

Lemma dict_mem_false k (w : list (string * value)) : dict_mem k w = false <-> k ∉ dict_keys w.
Proof.
  rewrite <- dict_get_None. unfold dict_mem. by destruct (dict_get k w); split.
Qed.

Lemma execute_vm_contract_nodup `{!RuntimeLaws D} a d out d' :
  execute_vm_contract a d = (Ok out, d') -> NoDup (dict_keys (vm_writes out)).
Proof.
  intros Hx. destruct (execute_vm_contract_cases _ _ _ _ Hx) as [(_ & -> & _)|(call & o & Ho & Hv)]; [constructor|].
  destruct (validated_cases _ _ Hv) as [[-> _]|(_ & -> & _)]; [|constructor].
  eapply execute_contract_nodup. by rewrite Ho.
Qed.

(** ** An execution leaves the driver as it was *)

(** When [execute_vm_contract] raises, the machine has not been asked. *)
Lemma execute_vm_contract_raise `{!RuntimeLaws D} a d e d' : execute_vm_contract a d = (Raise e, d') -> d' = d.
Proof.
  rewrite execute_vm_contract_eq. destruct (vm_requires_contract_source _ _ _) as [[]|]; [done| |by intros [= _ <-]].
  destruct (execution_context d a) as [context|]; [|by intros [= _ <-]]. destruct (py_int _ _) as [budget|]; [|done].
  destruct (execute_contract d _) as [[o|e'] d1]; [|done]. by destruct (validated_total o) as [out ->].
Qed.

Lemma execute_vm_contract_disk `{!RuntimeLaws D} a d q :
  drv_value_from_disk (execute_vm_contract a d).2 q = drv_value_from_disk d q.
Proof.
  rewrite execute_vm_contract_eq. destruct (vm_requires_contract_source _ _ _) as [[]|]; [done| |done].
  destruct (execution_context d a) as [context|]; [|done]. destruct (py_int _ _) as [budget|]; [|done].
  pose proof (execute_contract_disk d (machine_call a context budget) q) as Hd. by destruct (execute_contract d _) as [r d1].
Qed.

(** Whatever the execution did to the driver, and whether it returned or raised, the
    transaction ends on the driver it started with. *)
Lemma execute_vm_transaction_restores `{!RuntimeLaws D} a cost only fees d :
  (execute_vm_transaction a cost only fees d).2 = d.
Proof.
  unfold execute_vm_transaction. unfold mbind at 1 2. unfold stM_bind at 1 2, gets_st at 1.
  pose proof (execute_vm_contract_disk a d) as Hd. destruct (execute_vm_contract a d) as [[out|e] d1] eqn:Ex; cbn [snd] in *.
  - unfold mbind at 1 2 3 4. unfold stM_bind, gets_st, modify_st, get_st, lift_res. rewrite (restore_snapshot d d1 Hd).
    by repeat case_match.
  - by apply execute_vm_contract_raise in Ex.
Qed.

(** The parts of a transaction's result. *)
Lemma execute_vm_transaction_ok `{!RuntimeLaws D} a cost only fees d res d' :
  execute_vm_transaction a cost only fees d = (Ok res, d') ->
  exists out d1 metering, execute_vm_contract a d = (Ok out, d1) /\
    (if fees && ((status_code out =? 0) || negb only) && (a_meter a && (0 <? vm_chi_used out))
     then vm_metering_writes d (a_sender a) (vm_chi_used out) cost (vm_writes out) else Ok []) = Ok metering /\
    res = VmTxResult out (dict_update (vm_writes out) metering) (vm_chi_used out) (vm_contract_costs out)
            (transaction_reads d1).1 (transaction_reads d1).2.
Proof.
  unfold execute_vm_transaction. intros Hx. stM_inv. injection E as <- <-.
  pose proof (execute_vm_contract_disk a d) as Hd. rewrite E0 in Hd. cbn [snd] in Hd. injection E1 as <- <-.
  injection E2 as _ E2. rewrite (restore_snapshot d s0 Hd) in E2. subst s2. injection E3 as <- <-.
  unfold lift_res in E4. injection E4 as E4 <-. injection Hx as <- _. by eexists _, _, _.
Qed.

(** The writes of a transaction are a dict and do not touch the policy when it succeeds. *)
Lemma execute_vm_transaction_writes `{!RuntimeLaws D} a cost only fees d res d' :
  execute_vm_transaction a cost only fees d = (Ok res, d') ->
  NoDup (dict_keys (tr_writes res)) /\
  (status_code (tr_output res) = 0 -> EXECUTION_POLICY_KEY ∉ dict_keys (tr_writes res)).
Proof.
  intros (out & d1 & metering & Ho & Hm & ->)%execute_vm_transaction_ok. cbn [tr_writes tr_output].
  pose proof (execute_vm_contract_nodup _ _ _ _ Ho) as Hnd. split; [by apply dict_update_nodup|].
  intros Hs. destruct (validated_success _ _ _ _ Ho Hs) as (Hp & _). apply dict_mem_false in Hp.
  assert (Hw : metering = [] \/ exists b, metering = [(make_key "currency" "balances" [a_sender a], b)]).
  { destruct (_ && _) in Hm; [|destruct_result; by left].
    destruct (metering_shape _ _ _ _ _ _ Hm) as [[-> _]|?]; [by left|by right]. }
  apply dict_get_None in Hp. apply dict_get_None. destruct Hw as [->|[b ->]]; [done|].
  rewrite dict_get_update by apply NoDup_singleton. cbn [dict_get].
  rewrite decide_False; [done|]. intros Heq. by eapply make_key_not_policy.
Qed.

(** ** An execution depends on what it read *)

(** A driver that agrees with [d1] on what the log of the execution on [d1] names. *)
Definition agrees_on (reads prefixes : list string) (d1 d2 : D) : Prop :=
  (forall k, k ∈ reads -> drv_get d2 k = drv_get d1 k) /\ (forall p, p ∈ prefixes -> raw_items d2 p = raw_items d1 p).

Lemma execute_vm_contract_local `{!RuntimeLaws D} a d1 d2 out1 out2 d1' d2' budget :
  vm_requires_contract_source (a_contract_name a) (a_function_name a) (a_kwargs a) = Ok false ->
  py_int float_trunc (a_chi_budget a) = Ok budget ->
  get_owner d2 (a_contract_name a) = get_owner d1 (a_contract_name a) ->
  execute_vm_contract a d1 = (Ok out1, d1') -> execute_vm_contract a d2 = (Ok out2, d2') ->
  agrees_on (transaction_reads d1').1 (transaction_reads d1').2 d1 d2 ->
  out2 = out1 /\ transaction_reads d2' = transaction_reads d1'.
Proof.
  intros Hm Hb Ho. rewrite !execute_vm_contract_eq, Hm, Hb.
  assert (Hc : execution_context d2 a = execution_context d1 a) by (unfold execution_context; by rewrite Ho).
  rewrite Hc. destruct (execution_context d1 a) as [context|]; [|done].
  pose proof (execute_contract_local d1 d2 (machine_call a context budget)) as Hl.
  destruct (execute_contract d1 _) as [r1 e1], (execute_contract d2 _) as [r2 e2]. cbn [fst snd] in Hl.
  intros [= H1 <-] [= H2 <-] [Hk Hp]. destruct (Hl Hk Hp) as [-> Hlog]. split; [congruence|done].
Qed.

(** ** Preparation terminates *)

(** The stack holds distinct stored contracts, so it cannot outgrow their number. *)
Lemma stack_bound (names stack : list string) :
  NoDup stack -> stack ⊆ names -> (length stack <= length names)%nat.
Proof. intros Hnd Hsub. apply submseteq_length. by apply NoDup_submseteq. Qed.

Lemma bundle_fuel d names s1 s2 f1 : forall f2 n stack c,
  (forall m ir, get_contract_ir d m = VStr ir -> m ∈ names) -> NoDup stack -> stack ⊆ names ->
  (length names < f1 + length stack)%nat -> (length names < f2 + length stack)%nat ->
  bundle_within s1 f1 d n stack c = bundle_within s2 f2 d n stack c.
Proof.
  induction f1 as [|f1 IH]; intros f2 n stack c Hn Hnd Hsub H1 H2;
    [pose proof (stack_bound _ _ Hnd Hsub); lia|].
  destruct f2 as [|f2]; [pose proof (stack_bound _ _ Hnd Hsub); lia|].
  cbn [bundle_within]. destruct (decide (n ∈ stack)) as [|Hin]; [done|].
  unfold mbind, stM_bind, lift_res, get_st, modify_st.
  destruct (_load_vm_module_ir_json d n) as [[h ir]|e] eqn:El; [|done].
  assert (Hnames : n ∈ names).
  { unfold _load_vm_module_ir_json in El. destruct (get_contract_ir d n) eqn:Eg; try done. by eapply Hn. }
  destruct (loads ir) as [m|]; [|done]. destruct (_reject_disabled_runtime_features d n m); [|done].
  destruct (cached (n, h) c); [done|]. destruct (validate_module_ir m); [|done].
  destruct (imported_modules m) as [mods|]; [|done].
  erewrite forM_st_ext; [done|]. intros i t _. simpl. rewrite (IH f2 i (stack ++ [n]) t); [done|done| | | |].
  - apply NoDup_app. split_and!; [done| |apply NoDup_singleton]. by intros x Hx ->%list_elem_of_singleton.
  - intros x [Hx|Hx%list_elem_of_singleton]%elem_of_app; [by apply Hsub|by subst].
  - rewrite length_app. cbn. lia.
  - rewrite length_app. cbn. lia.
Qed.

(** Preparation terminates: its recursion through the imports is never deeper than
    the number of stored contracts, import cycles included.  With more depth than that the
    result depends neither on the depth nor on what would happen below it, so the bottom is
    never reached. *)
Theorem prepare_fuel_enough d names fuel stop contract_name c :
  (forall m ir, get_contract_ir d m = VStr ir -> m ∈ names) -> (length names < fuel)%nat ->
  prepare_vm_contract fuel d contract_name c = bundle_within stop (S (length names)) d contract_name [] c.
Proof.
  intros Hn Hf. unfold prepare_vm_contract, _prepare_vm_contract_bundle. apply (bundle_fuel d names); [done|constructor| |simpl; lia..].
  apply list_subseteq_nil.
Qed.

(** ** Preparation depends on what was prepared before *)

Lemma load_module d n ir :
  get_contract_ir d n = VStr ir -> ir <> "" -> _load_vm_module_ir_json d n = Ok (sha256_hex ir, ir).
Proof. intros E Hne. unfold _load_vm_module_ir_json. rewrite E. by rewrite decide_False. Qed.

(** Whether a contract can be prepared depends on the history of the process,
    not only on the state: a contract whose import is not stored is refused the first
    time, but it was entered in the cache before its imports were prepared, so every
    later attempt in the same process succeeds while a restarted node refuses it
    again. *)
Theorem prepare_depends_on_history fuel d a b ir module_ir c :
  get_contract_ir d a = VStr ir -> ir <> "" -> loads ir = Ok module_ir ->
  _reject_disabled_runtime_features d a module_ir = Ok tt -> validate_module_ir module_ir = Ok tt ->
  imported_modules module_ir = Ok [b] -> get_contract_ir d b = VNone -> b <> a ->
  cached (a, sha256_hex ir) c = None ->
  exists e c', prepare_vm_contract (S (S fuel)) d a c = (Raise e, c') /\
    exists p, prepare_vm_contract (S (S fuel)) d a c' = (Ok p, c').
Proof.
  intros Ha Hne Hl Hf Hv Hi Hb Hba Hc. unfold prepare_vm_contract, _prepare_vm_contract_bundle.
  pose proof (load_module _ _ _ Ha Hne) as Hload.
  assert (Hloadb : exists e, _load_vm_module_ir_json d b = Raise e)
    by (unfold _load_vm_module_ir_json; rewrite Hb; by eexists).
  destruct Hloadb as [e Hloadb]. set (p := Prepared a (sha256_hex ir) [b]).
  exists e, (((a, sha256_hex ir), p) :: c). split.
  - cbn [bundle_within _prepare_vm_contract_bundle]. rewrite decide_False by (by apply not_elem_of_nil).
    unfold mbind, stM_bind, lift_res, get_st, modify_st. rewrite Hload, Hl, Hf, Hc, Hv, Hi. cbn [forM_st Datatypes.app].
    unfold mbind, stM_bind. rewrite decide_False by (intros ->%list_elem_of_singleton; done). by rewrite Hloadb.
  - exists p. cbn [bundle_within _prepare_vm_contract_bundle]. rewrite decide_False by (by apply not_elem_of_nil).
    unfold mbind, stM_bind, lift_res, get_st, modify_st. rewrite Hload, Hl, Hf.
    unfold cached. cbn [list_find]. by rewrite decide_True.
Qed.
End Engine.

(** ** A runtime over the in-memory driver

    Contract modules are stored under ["ir:" ++ name]; [fail] costs [7] chi, every other
    function writes its [value] argument, or else the double of what is stored, under
    ["con:" ++ key] and costs [5].  The machine enters its write in the driver too, with the
    log of its reads, so that only a restored snapshot removes them. *)

Definition toy_log (keys : list string) : value := VList (VStr <$> keys).
Definition toy_reads (d : mem_driver) : list string :=
  match drv_get d "log" with VList l => omap (λ v, match v with VStr s => Some s | _ => None end) l | _ => [] end.

Lemma toy_reads_log (d : mem_driver) keys : toy_reads (mem_set d "log" (toy_log keys)) = keys.
Proof.
  unfold toy_reads. change (mem_set ?d ?k ?v) with (drv_set d k v). rewrite drv_get_set_eq. unfold toy_log.
  induction keys as [|k keys IH]; [done|]. cbn in *. by rewrite IH.
Qed.

Definition toy_double (v : value) : value := match v with VInt z => VInt (2 * z) | _ => VInt 1 end.

Definition toy_execute (d : mem_driver) (c : vm_call) : result VmExecutionResult * mem_driver :=
  let arg k := match call_kwargs c with VDict kw => py_get k kw VNone | _ => VNone end in
  let key := match arg "key" with VStr s => "con:" +:+ s | _ => "con:" end in
  if decide (call_function_name c = "fail") then
    (Ok (VmResult 1 (Raised (Exn AssertionError "failed")) [] [] 7 []), mem_set (mem_set d key VNone) "log" (toy_log []))
  else
    let v := py_or (arg "value") (toy_double (drv_get d key)) in
    (Ok (VmResult 0 (Returned VNone) [(key, v)] [] 5 []), mem_set (mem_set d key v) "log" (toy_log [key])).

Definition toy_key (c v : string) (args : list string) : string :=
  c +:+ "." +:+ v +:+ ":" +:+ String.concat ":" args.

Definition toy_items (d : mem_driver) (p : string) : list (string * value) :=
  filter (λ kv, startswith p kv.1 = true /\ kv.2 <> VNone)
    ((λ k, (k, drv_get d k)) <$> remove_dups (dict_keys (drv_pending_writes d) ++ dict_keys (drv_items d))).

(** A few numbers from their decimal text. *)
Definition toy_number (s : string) : result value :=
  match list_find (λ z, py_int_str z = s) (seqZ 0 100 ++ [10000]) with
  | Some (_, z) => Ok (VInt z)
  | None => raise ValueError "not a number"
  end.

#[global] Instance toy_runtime : Runtime mem_driver := {|
  make_key := toy_key;
  get_var d c v args := Ok (drv_get d (c +:+ "." +:+ v +:+ ":" +:+
                              String.concat ":" (omap (λ a, match a with VStr s => Some s | _ => None end) args)));
  get_contract_ir d n := drv_get d ("ir:" +:+ n);
  get_owner _ _ := VNone;
  raw_items := toy_items;
  raw_get_var d c v args := drv_get d (toy_key c v args);
  raw_set_var d c v args x := drv_set d (toy_key c v args) x;
  build_contract_artifacts name source := Ok (source, VTuple [VStr name; source]);
  ContractingDecimal v := match v with VStr s => toy_number s | _ => Ok v end;
  num_div a b := int_op (λ a b, VInt (a / b)) a b;
  convert_dict v := Ok v;
  validate_persistent_value _ := Ok tt;
  safe_repr v := match v with Returned v => v | Raised e => VStr (exn_msg e) end;
  encode_wire v := dumps true v;
  datetime_of t := VInt t.1;
  module_ir_uses_zk _ := false;
  runtime_feature_zk _ := true;
  validate_module_ir _ := Ok tt;
  execute_contract := toy_execute;
  transaction_reads d := (toy_reads d, []);
  driver_snapshot := mem_driver;
  snapshot_state d := d;
  restore_state _ s := s;
  sha256_hex s := s;
  sha3_256_hex s := s;
|}.

#[global] Instance toy_runtime_laws : RuntimeLaws mem_driver.
Proof.
  split.
  - intros c v args. apply dot_not_policy.
  - done.
  - intros d call out Hx. cbn in Hx. unfold toy_execute in Hx. case_decide; cbn [fst] in Hx; destruct_result; [constructor|apply NoDup_singleton].
  - intros d call q. cbn [execute_contract toy_runtime]. unfold toy_execute. by case_decide.
  - intros d1 d2 call Hk _. cbn [execute_contract toy_runtime transaction_reads] in *. unfold toy_execute in *.
    set (key := match _ with VStr _ => _ | _ => _ end) in *.
    destruct (decide (call_function_name call = "fail")); cbn [fst snd] in *; rewrite !toy_reads_log in *; [done|].
    by rewrite Hk by left.
  - done.
  - intros v c m Hx. discriminate Hx.
  - done.
  - intros d c v args x q. cbn [raw_set_var toy_runtime make_key]. destruct (decide (q = toy_key c v args)) as [->|Hne].
    + apply drv_get_set_eq.
    + by apply drv_get_set_ne.
  - intros d c v args x q. apply drv_set_disk.
  - intros d p k v. cbn [raw_items toy_runtime]. unfold toy_items. rewrite list_elem_of_filter. cbn [fst snd]. split.
    + intros [[Hp Hv] Hin]. apply list_elem_of_fmap in Hin as (k' & [= -> ->] & _). done.
    + intros (Hp & <- & Hv). split; [done|]. apply list_elem_of_fmap. exists k. split; [done|].
      apply elem_of_remove_dups, elem_of_app. rewrite drv_get_spec in Hv.
      destruct (dict_get k (drv_pending_writes d)) eqn:Ek.
      * left. by apply dict_get_Some_elem, (list_elem_of_fmap_2 fst) in Ek.
      * right. cbn in Hv. unfold disk_get in Hv. destruct (dict_get k (mem_disk (`d))) eqn:Ed; [|done].
        by apply dict_get_Some_elem, (list_elem_of_fmap_2 fst) in Ed.
Qed.

Definition toy_ir (imports : list string) : string :=
  ok_or "" (dumps true (VDict [("imports", VList ((λ i, VDict [("module", VStr i)]) <$> imports))])).

Definition toy_driver : mem_driver := mem_set mem_empty "ir:a" (VStr (toy_ir ["b"])).

Lemma prepare_depends_on_history_witness :
  exists e c', prepare_vm_contract (λ _, "") 2 toy_driver "a" [] = (Raise e, c') /\
    exists p, prepare_vm_contract (λ _, "") 2 toy_driver "a" c' = (Ok p, c').
Proof.
  apply (prepare_depends_on_history (λ _, "") 0 toy_driver "a" "b" (toy_ir ["b"])
           (VDict [("imports", VList [VDict [("module", VStr "b")]])]) []).
  - vm_compute. reflexivity.
  - vm_compute. discriminate.
  - vm_compute. reflexivity.
  - vm_compute. reflexivity.
  - vm_compute. reflexivity.
  - vm_compute. reflexivity.
  - vm_compute. reflexivity.
  - discriminate.
  - vm_compute. reflexivity.
Defined.

(** A cycle of two contracts is refused, whatever the fuel above two. *)
Definition cycle_driver : mem_driver :=
  mem_set (mem_set mem_empty "ir:a" (VStr (toy_ir ["b"]))) "ir:b" (VStr (toy_ir ["a"])).

Lemma prepare_fuel_enough_witness :
  prepare_vm_contract (λ _, "") 40 cycle_driver "a" [] =
    bundle_within (λ _, "") (raise_st RuntimeError "not reached") 3 cycle_driver "a" [] [].
Proof.
  apply (prepare_fuel_enough (λ _, "") cycle_driver ["a"; "b"] 40 (raise_st RuntimeError "not reached") "a" []); [|vm_compute; lia].
  intros m ir Hg.
  assert (Hp : drv_pending_writes cycle_driver = [("ir:a", VStr (toy_ir ["b"])); ("ir:b", VStr (toy_ir ["a"]))])
    by (vm_compute; reflexivity).
  unfold get_contract_ir, toy_runtime in Hg. rewrite drv_get_spec, Hp in Hg. cbn [dict_get] in Hg.
  destruct (decide ("ir:" +:+ m = "ir:a")) as [Ha|_].
  - apply (inj (String.append "ir:") m "a") in Ha as ->. left.
  - destruct (decide ("ir:" +:+ m = "ir:b")) as [Hb|_]; [|discriminate Hg].
    apply (inj (String.append "ir:") m "b") in Hb as ->. right. left.
Defined.

Example cycle_refused :
  (prepare_vm_contract (λ _, "") 3 cycle_driver "a" []).1 =
    raise ValueError "xian_vm_v1 import graph contains a cycle: a -> b -> a".
Proof. vm_compute. reflexivity. Qed.
