(* ===== verification/Processor.v ===== *)
(** * Transaction processor (src/src/xian/processor.py)

    One transaction from its decoded form to its receipt: environment and chi cost,
    execution by the engine, the fee of a failed execution, the reward shares, and the
    writes entered in the driver.  The speculative execution of
    src/src/xian/parallel_executor.py runs the same processor in a worker and applies
    its output later.

    The handler of rewards is an argument, as in the code.  [fuel] bounds the depth of a
    contract's imports. *)

From S2P Require Import Prelude PyValue Json PyBuiltins Driver Encoding ExecutionPolicy FeePolicy Nonce TxValidation Block Engine.

(** What [execute_tx] hands to [process_tx_output]. *)
Record executor_output := ExecutorOutput {
  o_status_code : Z; o_result : vm_value; o_writes : list (string * value); o_events : list value;
  o_chi_used : Z; o_reads : list string; o_prefix_reads : list string;
  o_contract_costs : list (string * value) }.

(** The receipt of a transaction; [r_state] holds its writes in order. *)
Record tx_receipt := TxReceipt {
  r_hash : string; r_status : Z; r_state : list (string * value); r_events : list value;
  r_chi_used : Z; r_result : value; r_rewards : value; r_reward_records : value }.

Definition receipt_value (r : tx_receipt) : value :=
  VDict [("hash", VStr (r_hash r)); ("status", VInt (r_status r));
         ("state", VList ((λ w, VDict [("key", VStr w.1); ("value", w.2)]) <$> r_state r));
         ("events", VList (r_events r)); ("chi_used", VInt (r_chi_used r)); ("result", r_result r);
         ("rewards", r_rewards r); ("reward_records", r_reward_records r)].

(** [ExecutionAccess] of the contracting package. *)
Record TransactionAccess := Access {
  acc_index : Z; acc_sender : value; acc_nonce : value; acc_reads : gset string;
  acc_prefix_reads : gset string; acc_writes : gset string; acc_additive_writes : gset string;
  acc_status : Z }.

(** What [process_tx_output] returns. *)
Record processed_output := ProcessedOutput {
  po_tx_result : tx_receipt; po_reads : gset string; po_prefix_reads : gset string;
  po_base_writes : list (string * value); po_reward_deltas : list (string * value) }.

(** What [process_tx] returns; the last three are absent unless access is tracked. *)
Record tx_response := TxResponse {
  tx_result : option tx_receipt; chi_rewards_amount : Z; chi_rewards_contract : value;
  base_writes : list (string * value); reward_deltas : list (string * value);
  access : option TransactionAccess }.

Definition no_tx_result : tx_response := TxResponse None 0 VNone [] [] None.

Section Processor.
Context {D : Type} `{DriverOps D} `{PyArith} `{!Runtime D}.
Context (py_str : value -> string) (float_trunc : string -> result Z) (fuel : nat).

Record processor := Processor {
  p_driver : D; cached_chi_cost : value; prepared_contracts : prepared_cache }.

(** [rewards_handler.build_tx_reward_outputs(total_chi_to_split, contract, contract_costs)] on
    the current state: the rewards, the balance deltas and the records. *)
Definition rewards_handler : Type :=
  D -> Z -> string -> list (string * value) -> result (value * list (string * value) * list value).

Definition with_driver (d : D) (p : processor) : processor :=
  Processor d (cached_chi_cost p) (prepared_contracts p).

Definition chi_cost_key : string := make_key (D := D) "chi_cost" "S" ["value"].

(** The proof cache it also clears holds no state of the chain. *)
Definition reset_block_cache (p : processor) : processor :=
  Processor (p_driver p) VNone (prepared_contracts p).

Definition get_chi_cost : stM processor value := λ p,
  match cached_chi_cost p with
  | VNone =>
    match get_var (p_driver p) "chi_cost" "S" [VStr "value"] with
    | Raise e => (Raise e, p)
    | Ok v => (Ok (py_or v (VInt 1)), Processor (p_driver p) (py_or v (VInt 1)) (prepared_contracts p))
    end
  | v => (Ok v, p)
  end.

Definition update_chi_cost_cache (writes : list (string * value)) (p : processor) : processor :=
  match dict_get chi_cost_key writes with
  | Some v => Processor (p_driver p) v (prepared_contracts p)
  | None => p
  end.

(** ** Environment *)

Definition str_of_value (v : value) : string :=
  match v with VStr s => s | VInt z => py_int_str z | _ => py_str v end.

Definition get_timestamp_hash_from_tx (nanos signature : value) : result string :=
  s ← as_str signature; Ok (sha3_256_hex (str_of_value nanos +:+ s)).

Definition get_now_from_nanos (nanos : value) : result value :=
  match nanos with
  | VInt n => Ok (datetime_of (nanoseconds_to_utc_datetime n))
  | _ => raise TypeError "unsupported operand type(s) for divmod()"
  end.

Definition get_environment (tx : value) : result (list (string * value)) :=
  block_meta ← py_item "b_meta" tx;
  nanos ← py_item "nanos" block_meta;
  metadata ← py_item "metadata" tx;
  signature ← py_item "signature" metadata;
  chain_id ← py_item "chain_id" block_meta;
  block_hash ← py_item "hash" block_meta;
  block_num ← py_item "height" block_meta;
  input_hash ← get_timestamp_hash_from_tx nanos signature;
  now ← get_now_from_nanos nanos;
  Ok [("block_hash", block_hash); ("block_num", block_num); ("__input_hash", VStr input_hash);
      ("__xian_execution_mode__", VStr VM_EXECUTION_MODE); ("now", now); ("chain_id", chain_id)].

(** ** Hash and size of a transaction (utils/tx.py) *)

Definition tx_hash_from_tx (tx : value) : result string :=
  encoded_tx ← encode_wire (format_dictionary tx);
  Ok (sha3_256_hex encoded_tx).

Definition canonical_transaction_size_bytes (tx : value) : result Z :=
  metadata ← py_dot_get tx "metadata" (VDict []);
  payload ← py_dot_get tx "payload" (VDict []);
  encoded ← encode_wire (format_dictionary (VDict [("metadata", metadata); ("payload", payload)]));
  Ok (Z.of_nat (length (encode_utf8 encoded))).

(** ** Execution *)

(** [transaction["payload"][k]] where the format checks established a [str]. *)
Definition payload_item (k : string) (tx : value) : result value := payload ← py_item "payload" tx; py_item k payload.
Definition payload_str (k : string) (tx : value) : result string := v ← payload_item k tx; as_str v.

(** The logs of the driver are emptied first: a driver outside of an execution has none here. *)
Definition _execute_vm_tx (transaction kwargs chi_cost : value) (environment : list (string * value))
    (metering charge_fees : bool) : stM D executor_output :=
  sender ← lift_res (payload_str "sender" transaction);
  contract ← lift_res (payload_str "contract" transaction);
  function ← lift_res (payload_str "function" transaction);
  chi_budget ← lift_res (payload_item "chi_supplied" transaction);
  size ← lift_res (canonical_transaction_size_bytes transaction);
  outcome ← execute_vm_transaction float_trunc
              (VmArgs sender contract function kwargs environment metering chi_budget size) chi_cost true charge_fees;
  mret (ExecutorOutput (status_code (tr_output outcome)) (vm_result (tr_output outcome)) (tr_writes outcome)
          (vm_events (tr_output outcome)) (tr_chi_used outcome) (tr_reads outcome) (tr_prefix_reads outcome)
          (tr_contract_costs outcome)).

(** A computation on the processor's driver. *)
Definition on_driver {A} (m : stM D A) : stM processor A := λ p,
  let '(r, d) := m (p_driver p) in (r, with_driver d p).

(** The body of [execute_tx]'s [try]. *)
Definition execute_tx_body (transaction chi_cost : value) (environment : list (string * value))
    (metering charge_fees : bool) : stM processor executor_output :=
  contract ← lift_res (payload_str "contract" transaction);
  _ ← (λ p, let '(r, c) := prepare_vm_contract py_str fuel (p_driver p) contract (prepared_contracts p) in
            (r, Processor (p_driver p) (cached_chi_cost p) c));
  converted_kwargs ← lift_res (kwargs ← payload_item "kwargs" transaction; convert_dict kwargs);
  function ← lift_res (payload_str "function" transaction);
  missing ← lift_res (vm_requires_contract_source contract function converted_kwargs);
  if (missing : bool) then
    mret (ExecutorOutput 1 (Raised (Exn ValueError (vm_contract_source_error contract function)))
            [] [] 0 [] [] [])
  else
    on_driver (_execute_vm_tx transaction converted_kwargs chi_cost environment metering charge_fees).

Definition execute_tx (transaction chi_cost : value) (environment : list (string * value))
    (metering charge_fees : bool) : stM processor (option executor_output) := λ p,
  match execute_tx_body transaction chi_cost environment metering charge_fees p with
  | (Ok output, p) => (Ok (Some output), p)
  | (Raise (Exn TypeError _), p) | (Raise (Exn ValueError _), p) => (Ok None, p)
  | (Raise e, p) => (Raise e, p)
  end.

(** ** Writes *)

Definition determine_writes_from_output (d : D) (status : Z) (output_writes : list (string * value))
    (chi_used : Z) (chi_cost : value) (tx_sender : string) (charge_fees : bool)
  : result (list (string * value)) :=
  if status =? 0 then Ok output_writes
  else if negb charge_fees then Ok []
  else vm_metering_writes d tx_sender chi_used chi_cost [].

(** The transaction's own write of a key, or the stored value. *)
Definition current_value (d : D) (writes_map : list (string * value)) (key : string) : value :=
  match dict_get key writes_map with
  | Some v => v
  | None => match drv_get d key with VNone => VInt 0 | v => v end
  end.

(** One reward delta. *)
Definition add_delta (d : D) (writes_map : list (string * value)) (kd : string * value)
  : result (list (string * value)) :=
  let '(key, delta) := kd in
  v ← num_add (current_value d writes_map key) delta;
  Ok (dict_set key v writes_map).

Definition materialize_writes (d : D) (base deltas : list (string * value)) : result (list (string * value)) :=
  writes_map ← foldM_py (add_delta d) base deltas;
  Ok (sort_by fst writes_map).

Definition set_writes (d : D) (writes : list (string * value)) : D :=
  foldl (λ d w, drv_set d w.1 w.2) d writes.

(** The rewards, balance deltas and records of a successful execution. *)
Definition reward_outputs (d : D) (output : executor_output) (transaction : value)
    (handler : option rewards_handler) (distribute_fee_rewards : bool)
  : result (value * list (string * value) * list value) :=
  match distribute_fee_rewards && (o_status_code output =? 0), handler with
  | true, Some build => contract ← payload_str "contract" transaction;
                        build d (o_chi_used output) contract (o_contract_costs output)
  | _, _ => Ok (VNone, [], [])
  end.

Definition process_tx_output (output : executor_output) (transaction chi_cost : value)
    (handler : option rewards_handler) (charge_fees distribute_fee_rewards track_access : bool)
  : stM processor processed_output :=
  tx_hash ← lift_res (tx_hash_from_tx transaction);
  d ← gets_st p_driver;
  '(rewards, deltas, records) ← lift_res (reward_outputs d output transaction handler distribute_fee_rewards);
  sender ← lift_res (payload_str "sender" transaction);
  base ← lift_res (determine_writes_from_output d (o_status_code output) (o_writes output)
                     (o_chi_used output) chi_cost sender charge_fees);
  writes ← lift_res (materialize_writes d base deltas);
  _ ← modify_st (λ p, with_driver (set_writes (p_driver p) writes) p);
  mret (ProcessedOutput
          (TxReceipt tx_hash (o_status_code output) writes (o_events output) (o_chi_used output)
             (safe_repr (o_result output)) (py_or rewards VNone) (py_or (VList records) VNone))
          (if (track_access : bool) then list_to_set (o_reads output) else ∅)
          (if (track_access : bool) then list_to_set (o_prefix_reads output) else ∅)
          base deltas).

Definition apply_tx_result (r : tx_receipt) (p : processor) : processor :=
  with_driver (set_writes (p_driver p) (r_state r)) p.

Definition build_access_record (tx : value) (status : Z) (reads prefix_reads : gset string)
    (base deltas : list (string * value)) : result TransactionAccess :=
  payload ← py_item "payload" tx;
  sender ← py_item "sender" payload;
  nonce ← py_dot_get payload "nonce" (VInt 0);
  Ok (Access (-1) sender nonce reads prefix_reads (list_to_set (dict_keys base))
        (list_to_set (dict_keys deltas)) status).

(** ** [process_tx] *)

Definition process_tx_body (tx chi_cost : value) (environment : list (string * value))
    (handler : option rewards_handler) (fee_policy : TxFeePolicy) (track_access : bool)
  : stM processor tx_response :=
  output ← execute_tx tx chi_cost environment (meter_execution fee_policy) (charge_fees fee_policy);
  match output with
  | None => mret no_tx_result
  | Some output =>
    processed ← process_tx_output output tx chi_cost handler (charge_fees fee_policy)
                  (distribute_fee_rewards fee_policy) track_access;
    _ ← modify_st (update_chi_cost_cache (po_base_writes processed));
    contract ← lift_res (payload_item "contract" tx);
    let response := TxResponse (Some (po_tx_result processed)) (o_chi_used output) contract in
    if track_access then
      a ← lift_res (build_access_record tx (o_status_code output) (po_reads processed)
                      (po_prefix_reads processed) (po_base_writes processed) (po_reward_deltas processed));
      mret (response (po_base_writes processed) (po_reward_deltas processed) (Some a))
    else mret (response [] [] None)
  end.

(** [except Exception]: the transaction has no result. *)
Definition or_no_result (m : stM processor tx_response) : stM processor tx_response := λ p,
  match m p with
  | (Ok r, p) => (Ok r, p)
  | (Raise _, p) => (Ok no_tx_result, p)
  end.

(** [process_tx]: only the environment and the chi cost are read outside the [try]. *)
Definition process_tx (tx : value) (handler : option rewards_handler) (fee_policy : option TxFeePolicy)
    (track_access : bool) : stM processor tx_response :=
  environment ← lift_res (get_environment tx);
  chi_cost ← get_chi_cost;
  or_no_result (process_tx_body tx chi_cost environment handler (default system_unmetered fee_policy) track_access).

(** ** Estimated access *)

Definition estimated (sender nonce : value) (reads writes : list string) : option TransactionAccess :=
  Some (Access (-1) sender nonce (list_to_set reads) ∅ (list_to_set writes) ∅ 0).

(** [estimate_access]: the keys the standard functions of a token contract touch; [None]
    for any other transaction. *)
Definition estimate_access (tx : list (string * value)) : option TransactionAccess :=
  match py_get "payload" tx VNone with
  | VDict payload =>
    match py_get "sender" payload VNone, py_get "contract" payload VNone,
          py_get "function" payload VNone, py_or (py_get "kwargs" payload VNone) (VDict []) with
    | VStr sender, VStr contract, VStr function, VDict kwargs =>
      let key := make_key contract in
      let access := estimated (VStr sender) (py_get "nonce" payload (VInt 0)) in
      if decide (function = "transfer") then
        match py_get "to" kwargs VNone with
        | VStr to => let keys := [key "balances" [sender]; key "balances" [to]] in access keys keys
        | _ => None
        end
      else if decide (function = "approve") then
        match py_get "to" kwargs VNone with
        | VStr to => access [] [key "approvals" [sender; to]]
        | _ => None
        end
      else if decide (function = "approve_from_authorizer") then
        match py_get "owner" kwargs VNone, py_get "spender" kwargs VNone with
        | VStr owner, VStr spender => access [key "metadata" ["permit_authorizer"]] [key "approvals" [owner; spender]]
        | _, _ => None
        end
      else if decide (function = "transfer_from") then
        match py_get "to" kwargs VNone, py_get "main_account" kwargs VNone with
        | VStr to, VStr main_account =>
          let keys := [key "approvals" [main_account; sender]; key "balances" [main_account]; key "balances" [to]] in
          access keys keys
        | _, _ => None
        end
      else if decide (function = "change_metadata") then
        match py_get "key" kwargs VNone with
        | VStr k => access [key "metadata" ["operator"]] [key "metadata" [k]]
        | _ => None
        end
      else if decide (function = "set_operator") then access [] [key "metadata" ["operator"]]
      else if decide (function = "set_permit_authorizer") then access [] [key "metadata" ["permit_authorizer"]]
      else if decide (function = "balance_of") then
        match py_get "address" kwargs VNone with
        | VStr address => access [key "balances" [address]] []
        | _ => None
        end
      else if bool_decide (contract ∈ ["chi_cost"; "rewards"]) && bool_decide (function = "current_value") then
        access [key "S" ["value"]] []
      else if bool_decide (contract ∈ ["chi_cost"; "rewards"]) && bool_decide (function = "set_value") then
        access [] [key "S" ["value"]]
      else None
    | _, _, _, _ => None
    end
  | _ => None
  end.

(** ** Speculative execution (parallel_executor.py)

    A worker has its own driver over the same durable state; the block's pending writes
    are applied to it before the transaction is processed. *)

Definition flushing_after {A} (m : stM processor A) : stM processor A := λ w,
  let '(r, w) := m w in (r, with_driver (drv_flush_cache (p_driver w)) w).

Definition worker_ready (base_pending_writes : list (string * value)) (w : processor) : processor :=
  let w := reset_block_cache (with_driver (drv_flush_cache (p_driver w)) w) in
  match base_pending_writes with
  | [] => w
  | _ => with_driver (drv_apply_writes (p_driver w) base_pending_writes) w
  end.

Definition _speculative_process_tx (base_pending_writes : list (string * value)) (tx : value)
    (handler : option rewards_handler) (fee_policy : TxFeePolicy) : stM processor tx_response :=
  _ ← modify_st (worker_ready base_pending_writes);
  flushing_after (process_tx tx handler (Some fee_policy) true).

(** [_apply_speculative_output]: the deltas are added to what is stored now. *)
Definition _apply_speculative_output (output : tx_response) : stM processor tx_response :=
  match tx_result output with
  | None => raise_st TypeError "'NoneType' object does not support item assignment"
  | Some r =>
    d ← gets_st p_driver;
    state ← lift_res (materialize_writes d (base_writes output) (reward_deltas output));
    let r := TxReceipt (r_hash r) (r_status r) state (r_events r) (r_chi_used r) (r_result r) (r_rewards r)
               (r_reward_records r) in
    _ ← modify_st (update_chi_cost_cache (base_writes output));
    _ ← modify_st (apply_tx_result r);
    mret (TxResponse (Some r) (chi_rewards_amount output) (chi_rewards_contract output)
            (base_writes output) (reward_deltas output) (access output))
  end.

Definition _execute_serial_request (fee_policy : TxFeePolicy) (handler : option rewards_handler) (request : value)
  : stM processor tx_response :=
  process_tx request handler (Some fee_policy) true.

Definition with_index (index : Z) (a : TransactionAccess) : TransactionAccess :=
  Access index (acc_sender a) (acc_nonce a) (acc_reads a) (acc_prefix_reads a) (acc_writes a)
    (acc_additive_writes a) (acc_status a).

Definition _normalize_access (index : Z) (output : option tx_response) : option TransactionAccess :=
  output ≫= λ o, with_index index <$> access o.

Definition _get_request_sender (request : list (string * value)) : option string :=
  match py_get "payload" request VNone with
  | VDict payload => match py_get "sender" payload VNone with VStr s => Some s | _ => None end
  | _ => None
  end.

Definition _estimate_access (index : Z) (request : list (string * value)) : option TransactionAccess :=
  with_index index <$> estimate_access request.

(** ** The writes of a transaction *)

Lemma add_delta_get d m k delta m' :
  add_delta d m (k, delta) = Ok m' ->
  exists v, num_add (current_value d m k) delta = Ok v /\ m' = dict_set k v m.
Proof. unfold add_delta. intros Hx. destruct_result. by eexists. Qed.

Lemma add_deltas_get d base deltas m q :
  NoDup (dict_keys deltas) -> foldM_py (add_delta d) base deltas = Ok m ->
  match dict_get q deltas with
  | None => dict_get q m = dict_get q base
  | Some delta => exists v, num_add (current_value d base q) delta = Ok v /\ dict_get q m = Some v
  end.
Proof.
  revert base. induction deltas as [|[k delta] deltas IH]; intros base Hnd Hx; simpl in Hx; [by destruct_result|].
  apply NoDup_cons in Hnd as [Hk Hnd].
  destruct (num_add (current_value d base k) delta) as [v|] eqn:Ev; [|done]. cbn [mbind result_bind] in Hx.
  specialize (IH _ Hnd Hx). cbn [dict_get]. destruct (decide (q = k)) as [->|Hne].
  - rewrite (proj2 (dict_get_None k deltas) Hk) in IH. exists v. by rewrite IH, dict_get_set_eq.
  - unfold current_value in *. by rewrite dict_get_set_ne in IH.
Qed.

Lemma add_deltas_nodup d base deltas m :
  NoDup (dict_keys base) -> foldM_py (add_delta d) base deltas = Ok m -> NoDup (dict_keys m).
Proof.
  intros Hb. apply (foldM_py_inv (λ m, NoDup (dict_keys m))); [done|]. intros t [k delta] t' Ht _ (v & _ & ->)%add_delta_get.
  by apply dict_set_nodup.
Qed.

(** The writes are the base writes with the deltas added, in the order of their keys. *)
Lemma materialize_spec d base deltas writes :
  NoDup (dict_keys base) -> NoDup (dict_keys deltas) -> materialize_writes d base deltas = Ok writes ->
  NoDup (dict_keys writes) /\ StronglySorted (key_le fst) writes /\
  forall q, match dict_get q deltas with
            | None => dict_get q writes = dict_get q base
            | Some delta => exists v, num_add (current_value d base q) delta = Ok v /\ dict_get q writes = Some v
            end.
Proof.
  intros Hb Hd Hx. unfold materialize_writes in Hx. destruct_result.
  pose proof (add_deltas_nodup _ _ _ _ Hb E) as Hnd.
  assert (Hnd' : NoDup (dict_keys (sort_by fst a))) by (by rewrite sort_by_perm).
  split_and!; [done|apply sort_by_sorted|]. intros q.
  rewrite (dict_get_Permutation (sort_by fst a) a) by (done || apply sort_by_perm).
  by apply add_deltas_get.
Qed.

Lemma set_writes_get `{!DriverLaws D} d w q :
  NoDup (dict_keys w) ->
  drv_get (set_writes d w) q = match dict_get q w with Some v => v | None => drv_get d q end.
Proof.
  unfold set_writes. revert d. induction w as [|[k v] w IH]; intros d Hnd; [done|].
  apply NoDup_cons in Hnd as [Hk Hnd]. cbn [foldl fst snd dict_get]. rewrite (IH _ Hnd).
  destruct (decide (q = k)) as [->|Hne].
  - rewrite (proj2 (dict_get_None k w) Hk). apply drv_get_set_eq.
  - destruct (dict_get q w); [done|]. by apply drv_get_set_ne.
Qed.

Lemma set_writes_disk `{!DriverLaws D} d w q : drv_value_from_disk (set_writes d w) q = drv_value_from_disk d q.
Proof.
  unfold set_writes. revert d. induction w as [|[k v] w IH]; intros d; [done|]. cbn [foldl]. by rewrite IH, drv_set_disk.
Qed.

(** ** Anatomy of [process_tx] *)

Lemma execute_vm_tx_restores `{!RuntimeLaws D} tx kwargs cost env m c d :
  (_execute_vm_tx tx kwargs cost env m c d).2 = d.
Proof.
  unfold _execute_vm_tx. unfold mbind, stM_bind, lift_res. repeat (case_match; simplify_eq; try done).
  all: match goal with H : execute_vm_transaction ?f ?a ?x ?o ?g ?d = (_, ?d1) |- _ =>
         pose proof (execute_vm_transaction_restores f a x o g d) as Hr; rewrite H in Hr; exact Hr end.
Qed.

(** Execution leaves the driver and the cached cost as they were. *)
Lemma execute_tx_frame `{!RuntimeLaws D} tx cost env m c p :
  p_driver (execute_tx tx cost env m c p).2 = p_driver p /\
  cached_chi_cost (execute_tx tx cost env m c p).2 = cached_chi_cost p.
Proof.
  assert (Hb : p_driver (execute_tx_body tx cost env m c p).2 = p_driver p /\
               cached_chi_cost (execute_tx_body tx cost env m c p).2 = cached_chi_cost p).
  { unfold execute_tx_body, on_driver, mbind, stM_bind, lift_res, gets_st. repeat (case_match; simplify_eq; try done).
    match goal with H : _execute_vm_tx ?t ?k ?x ?e ?m ?c ?d = _ |- _ =>
      pose proof (execute_vm_tx_restores t k x e m c d) as Hr; rewrite H in Hr; cbn [snd] in Hr; by subst end. }
  unfold execute_tx. destruct (execute_tx_body _ _ _ _ _ _) as [[o|[cl msg]] p']; [done|]. by destruct cl.
Qed.

(** [process_tx_output] as a function of the state it reads. *)
Definition tx_outcome (d : D) (out : executor_output) (tx cost : value) (handler : option rewards_handler)
    (c distribute track : bool) : result processed_output :=
  tx_hash ← tx_hash_from_tx tx;
  outputs ← reward_outputs d out tx handler distribute;
  sender ← payload_str "sender" tx;
  base ← determine_writes_from_output d (o_status_code out) (o_writes out) (o_chi_used out) cost sender c;
  writes ← materialize_writes d base outputs.1.2;
  Ok (ProcessedOutput
        (TxReceipt tx_hash (o_status_code out) writes (o_events out) (o_chi_used out) (safe_repr (o_result out))
           (py_or outputs.1.1 VNone) (py_or (VList outputs.2) VNone))
        (if track then list_to_set (o_reads out) else ∅)
        (if track then list_to_set (o_prefix_reads out) else ∅) base outputs.1.2).

(** It changes nothing when it raises, and enters the receipt's writes when it returns. *)
Lemma process_tx_output_eq out tx cost handler c distribute track p :
  process_tx_output out tx cost handler c distribute track p =
    match tx_outcome (p_driver p) out tx cost handler c distribute track with
    | Raise e => (Raise e, p)
    | Ok po => (Ok po, with_driver (set_writes (p_driver p) (r_state (po_tx_result po))) p)
    end.
Proof.
  unfold process_tx_output, tx_outcome. unfold mbind at 1 2 3 4 5 6 7. unfold stM_bind, lift_res, gets_st, modify_st.
  destruct (tx_hash_from_tx tx); [|done]. bind_step.
  destruct (reward_outputs _ _ _ _ _) as [[[rw dl] rc]|]; [|done]. bind_step.
  destruct (payload_str "sender" tx) as [sender|]; [|done]. bind_step. cbn [fst snd].
  destruct (determine_writes_from_output _ _ _ _ _ _ _) as [base|]; [|done]. bind_step.
  by destruct (materialize_writes _ _ _).
Qed.

(** What was executed. *)
Lemma execute_tx_some tx cost env m c p out p' :
  execute_tx tx cost env m c p = (Ok (Some out), p') ->
  exists con function kwargs missing,
    payload_str "contract" tx = Ok con /\ payload_str "function" tx = Ok function /\
    (kwargs ← payload_item "kwargs" tx; convert_dict kwargs) = Ok kwargs /\
    vm_requires_contract_source con function kwargs = Ok missing /\
    if missing : bool
    then out = ExecutorOutput 1 (Raised (Exn ValueError (vm_contract_source_error con function))) [] [] 0 [] [] []
    else exists d', _execute_vm_tx tx kwargs cost env m c (p_driver p) = (Ok out, d').
Proof.
  unfold execute_tx. destruct (execute_tx_body _ _ _ _ _ _) as [[o|[cl msg]] p1] eqn:Eb; [|by destruct cl].
  intros [= -> ->]. unfold execute_tx_body in Eb. stM_inv. unfold lift_res in *.
  injection E as E <-. injection E1 as E1 <-. injection E2 as E2 <-. injection E3 as E3 <-.
  exists a, a2, a1, a3. split_and!; try done. destruct a3; [by injection Eb as <- <-|].
  destruct (prepare_vm_contract _ _ _ _ _) as [? ?]. injection E0 as _ <-. unfold on_driver in Eb. cbn [p_driver] in Eb.
  destruct (_execute_vm_tx _ _ _ _ _ _ _) as [rr d2]. injection Eb as -> _. by exists d2.
Qed.

Lemma get_chi_cost_driver p : p_driver (get_chi_cost p).2 = p_driver p.
Proof. unfold get_chi_cost. repeat (case_match; simplify_eq; try done). Qed.

Lemma update_chi_cost_cache_driver w p : p_driver (update_chi_cost_cache w p) = p_driver p.
Proof. unfold update_chi_cost_cache. by destruct (dict_get chi_cost_key w). Qed.

(** The two ways [process_tx] ends: no receipt and an unchanged state, or the receipt of an
    outcome and its writes entered in the state. *)
Inductive processed (tx : value) (handler : option rewards_handler) (pol : TxFeePolicy) (track : bool)
    (p : processor) : result tx_response -> processor -> Prop :=
  | NoReceipt r p' :
      (forall resp, r = Ok resp -> resp = no_tx_result) -> p_driver p' = p_driver p ->
      processed tx handler pol track p r p'
  | Receipt env cost out c1 po a sender con :
      get_environment tx = Ok env -> (get_chi_cost p).1 = Ok cost ->
      (execute_tx tx cost env (meter_execution pol) (charge_fees pol) (get_chi_cost p).2).1 = Ok (Some out) ->
      tx_outcome (p_driver p) out tx cost handler (charge_fees pol) (distribute_fee_rewards pol) track = Ok po ->
      payload_item "contract" tx = Ok con -> payload_str "sender" tx = Ok sender ->
      build_access_record tx (o_status_code out) (po_reads po) (po_prefix_reads po) (po_base_writes po)
        (po_reward_deltas po) = Ok a ->
      processed tx handler pol track p
        (Ok (TxResponse (Some (po_tx_result po)) (o_chi_used out) con
               (if track then po_base_writes po else []) (if track then po_reward_deltas po else [])
               (if track then Some a else None)))
        (update_chi_cost_cache (po_base_writes po)
           (Processor (set_writes (p_driver p) (r_state (po_tx_result po))) (cached_chi_cost (get_chi_cost p).2) c1)).

(** What is looked up after the writes is there: nothing fails once they are entered. *)
Lemma access_record_total tx sender status reads prefix_reads base deltas :
  payload_str "sender" tx = Ok sender ->
  exists a, build_access_record tx status reads prefix_reads base deltas = Ok a.
Proof.
  unfold payload_str, payload_item, build_access_record. intros Hs. destruct_result. rewrite E0. bind_step.
  rewrite E. bind_step. destruct a0; try done. bind_step. by eexists.
Qed.

Lemma process_tx_processed `{!RuntimeLaws D} tx handler pol track p r p' :
  process_tx tx handler (Some pol) track p = (r, p') -> processed tx handler pol track p r p'.
Proof.
  unfold process_tx. unfold mbind at 1 2. unfold stM_bind, lift_res. cbn [default].
  destruct (get_environment tx) as [env|e] eqn:Ee; [|intros [= <- <-]; by apply NoReceipt].
  pose proof (get_chi_cost_driver p) as Hd0.
  destruct (get_chi_cost p) as [[cost|e] p0] eqn:Ec; cbn [snd] in Hd0; [|intros [= <- <-]; by apply NoReceipt].
  unfold or_no_result, process_tx_body. unfold mbind at 1. unfold stM_bind.
  destruct (execute_tx_frame tx cost env (meter_execution pol) (charge_fees pol) p0) as [Hd1 Hc1].
  destruct (execute_tx _ _ _ _ _ p0) as [[[out|]|e] p1] eqn:Ex; cbn [snd] in Hd1, Hc1;
    [|intros [= <- <-]; apply NoReceipt; [by intros ? [= <-]|congruence]..].
  unfold mbind at 1. unfold stM_bind. rewrite process_tx_output_eq.
  destruct (tx_outcome _ _ _ _ _ _ _ _) as [po|e] eqn:Eo;
    [|intros [= <- <-]; apply NoReceipt; [by intros ? [= <-]|congruence]].
  destruct (execute_tx_some _ _ _ _ _ _ _ _ Ex) as (con & ? & ? & ? & Hcon & _).
  assert (Hs : exists sender, payload_str "sender" tx = Ok sender).
  { unfold tx_outcome in Eo. destruct_result. by eexists. }
  destruct Hs as [sender Hs].
  destruct (access_record_total tx sender (o_status_code out) (po_reads po) (po_prefix_reads po)
              (po_base_writes po) (po_reward_deltas po) Hs) as [a Ha].
  assert (Hitem : exists v, payload_item "contract" tx = Ok v).
  { unfold payload_str in Hcon. destruct_result. by eexists. }
  destruct Hitem as [v Hitem]. unfold mbind at 1 2. unfold stM_bind, modify_st, lift_res. rewrite Hitem.
  destruct p1 as [d1 k1 c1]. cbn [p_driver cached_chi_cost] in *.
  intros Hr. rewrite Hd1, Hd0 in *.
  destruct track.
  - unfold mbind, stM_bind in Hr. rewrite Ha in Hr. injection Hr as <- <-. rewrite Hc1.
    pose proof (Receipt tx handler pol true p env cost out c1 po a sender v Ee) as Rc. rewrite Ec in Rc. cbn [fst snd] in Rc. rewrite Ex in Rc.
    by apply Rc.
  - injection Hr as <- <-. rewrite Hc1.
    pose proof (Receipt tx handler pol false p env cost out c1 po a sender v Ee) as Rc. rewrite Ec in Rc. cbn [fst snd] in Rc. rewrite Ex in Rc.
    by apply Rc.
Qed.

(** Everything a receipt tells about the execution behind it. *)
Lemma receipt_anatomy `{!RuntimeLaws D} tx handler pol track p resp p' rec :
  process_tx tx handler (Some pol) track p = (Ok resp, p') -> tx_result resp = Some rec ->
  exists env cost out sender rewards deltas records base,
    get_environment tx = Ok env /\ (get_chi_cost p).1 = Ok cost /\
    (execute_tx tx cost env (meter_execution pol) (charge_fees pol) (get_chi_cost p).2).1 = Ok (Some out) /\
    payload_str "sender" tx = Ok sender /\
    reward_outputs (p_driver p) out tx handler (distribute_fee_rewards pol) = Ok (rewards, deltas, records) /\
    determine_writes_from_output (p_driver p) (o_status_code out) (o_writes out) (o_chi_used out) cost sender
      (charge_fees pol) = Ok base /\
    materialize_writes (p_driver p) base deltas = Ok (r_state rec) /\
    r_status rec = o_status_code out /\ r_chi_used rec = o_chi_used out /\
    p_driver p' = set_writes (p_driver p) (r_state rec) /\
    (track = true -> base_writes resp = base /\ reward_deltas resp = deltas).
Proof.
  intros Hp Hr. pose proof (process_tx_processed _ _ _ _ _ _ _ Hp) as Hc. inversion Hc as [? ? Hn|env cost out c1 po a sender con He Hcost Hx Ho]; subst.
  { by rewrite (Hn _ eq_refl) in Hr. }
  cbn [tx_result] in Hr. injection Hr as <-. clear Hc Hp.
  unfold tx_outcome in Ho. destruct_result. destruct a1 as [[rewards deltas] records].
  exists env, cost, out, a2, rewards, deltas, records, a3. rewrite update_chi_cost_cache_driver.
  split_and!; try done. by intros ->.
Qed.

(** The receipt carries the hash of its transaction. *)
Lemma receipt_hash `{!RuntimeLaws D} tx handler pol track p resp p' rec :
  process_tx tx handler (Some pol) track p = (Ok resp, p') -> tx_result resp = Some rec ->
  tx_hash_from_tx tx = Ok (r_hash rec).
Proof.
  intros Hp Hr. pose proof (process_tx_processed _ _ _ _ _ _ _ Hp) as Hc.
  inversion Hc as [? ? Hn|env cost out c1 po a sender con He Hcost Hx Ho]; subst; [by rewrite (Hn _ eq_refl) in Hr|].
  cbn [tx_result] in Hr. injection Hr as <-. unfold tx_outcome in Ho. by destruct_result.
Qed.

(** What the machine's effects look like when it succeeded, and that a failed execution
    brings no writes of its own. *)
Lemma executed_writes `{!RuntimeLaws D} tx cost env m c p out :
  (execute_tx tx cost env m c p).1 = Ok (Some out) -> o_status_code out = 0 ->
  NoDup (dict_keys (o_writes out)) /\ EXECUTION_POLICY_KEY ∉ dict_keys (o_writes out).
Proof.
  intros Hx Hs. destruct (execute_tx tx cost env m c p) as [r p'] eqn:Ex. cbn [fst] in Hx. subst r.
  destruct (execute_tx_some _ _ _ _ _ _ _ _ Ex) as (con & fn & kwargs & missing & _ & _ & _ & _ & Hv).
  destruct missing; [by subst out|]. destruct Hv as [d' Hv]. unfold _execute_vm_tx in Hv. stM_inv. injection Hv as <- _.
  cbn [o_status_code o_writes] in *. destruct (execute_vm_transaction_writes _ _ _ _ _ _ _ _ E4). by split; [|auto].
Qed.

(** The base writes of a failed execution are at most the fee. *)
Lemma failed_base_shape d status writes used cost sender c base :
  (status =? 0) = false -> determine_writes_from_output d status writes used cost sender c = Ok base ->
  base = [] \/ exists b, base = [(make_key "currency" "balances" [sender], b)].
Proof.
  unfold determine_writes_from_output. intros -> Hb. destruct (negb c); [destruct_result; by left|].
  destruct (metering_shape _ _ _ _ _ _ Hb) as [[-> _]|?]; [by left|by right].
Qed.

(** Processing never touches the disk. *)
Lemma process_tx_disk `{!DriverLaws D} `{!RuntimeLaws D} tx handler pol track p q :
  drv_value_from_disk (p_driver (process_tx tx handler (Some pol) track p).2) q = drv_value_from_disk (p_driver p) q.
Proof.
  destruct (process_tx tx handler (Some pol) track p) as [r p'] eqn:Ep. cbn [snd].
  destruct (process_tx_processed _ _ _ _ _ _ _ Ep) as [r' p'' _ Hd|env cost out c1 po]; [by rewrite Hd|].
  rewrite update_chi_cost_cache_driver. apply set_writes_disk.
Qed.

(** ** Properties *)

(** Claim C4. A transaction is all or nothing: either [process_tx] reports no receipt and the
    state is exactly what it was, or it reports one and the state has the writes of the
    receipt, in their order, and no other.  This holds whichever step failed, exceptions
    of the machine, of the reward handler and of the codecs included. *)
Theorem process_tx_all_or_nothing `{!RuntimeLaws D} tx handler pol track p r p' :
  process_tx tx handler (Some pol) track p = (r, p') ->
  (p_driver p' = p_driver p /\ forall resp, r = Ok resp -> tx_result resp = None) \/
  (exists resp rec, r = Ok resp /\ tx_result resp = Some rec /\ p_driver p' = set_writes (p_driver p) (r_state rec)).
Proof.
  intros Hp. destruct (process_tx_processed _ _ _ _ _ _ _ Hp) as [r' p'' Hr Hd|env cost out c1 po].
  - left. split; [done|]. intros resp ->. by rewrite (Hr _ eq_refl).
  - right. eexists _, _. split; [done|]. split; [done|]. by rewrite update_chi_cost_cache_driver.
Qed.

(** Claim C18. A transaction whose execution failed changes nothing but the balance of its
    sender: its receipt holds exactly the fee for the chi it used, and no write at all
    under a policy that does not charge. *)
Theorem failed_tx_only_pays `{!DriverLaws D} `{!RuntimeLaws D} tx handler pol track p resp p' rec :
  process_tx tx handler (Some pol) track p = (Ok resp, p') -> tx_result resp = Some rec -> r_status rec <> 0 ->
  exists sender cost, payload_str "sender" tx = Ok sender /\ (get_chi_cost p).1 = Ok cost /\
    (if charge_fees pol then vm_metering_writes (p_driver p) sender (r_chi_used rec) cost [] else Ok [])
      = Ok (r_state rec) /\
    forall q, q <> make_key "currency" "balances" [sender] -> drv_get (p_driver p') q = drv_get (p_driver p) q.
Proof.
  intros Hp Hr Hs.
  destruct (receipt_anatomy _ _ _ _ _ _ _ _ Hp Hr) as
    (env & cost & out & sender & rewards & deltas & records & base & _ & Hcost & _ & Hsend & Hrew & Hb & Hm & Est & Eu & -> & _).
  exists sender, cost. rewrite Est in Hs. rewrite Eu. apply Z.eqb_neq in Hs.
  unfold reward_outputs in Hrew. rewrite Hs, andb_false_r in Hrew. injection Hrew as <- <- <-.
  unfold materialize_writes in Hm. cbn in Hm. 
  pose proof (failed_base_shape _ _ _ _ _ _ _ _ Hs Hb) as Hshape.
  assert (Hst : r_state rec = base) by (destruct Hshape as [->|[b ->]]; by injection Hm as <-).
  unfold determine_writes_from_output in Hb. rewrite Hs in Hb. rewrite Hst. split_and!; [done|done|by destruct (charge_fees pol)|]. intros q Hq.
  destruct Hshape as [->|[b ->]]; [done|]. cbn. by apply drv_get_set_ne.
Qed.

(** A reward handler that reports its deltas as a dict of balances. *)
Definition handler_ok (handler : option rewards_handler) : Prop :=
  forall build d chi con costs rewards deltas records,
    handler = Some build -> build d chi con costs = Ok (rewards, deltas, records) ->
    NoDup (dict_keys deltas) /\ EXECUTION_POLICY_KEY ∉ dict_keys deltas.

Lemma reward_deltas_ok d out tx handler distribute rewards deltas records :
  handler_ok handler -> reward_outputs d out tx handler distribute = Ok (rewards, deltas, records) ->
  NoDup (dict_keys deltas) /\ EXECUTION_POLICY_KEY ∉ dict_keys deltas.
Proof.
  intros Hh Hx. unfold reward_outputs in Hx.
  destruct (distribute && _); [|destruct_result; simplify_eq; split; [constructor|apply not_elem_of_nil]].
  destruct handler as [build|]; [|destruct_result; simplify_eq; split; [constructor|apply not_elem_of_nil]].
  destruct_result. by eapply Hh.
Qed.

(** The base writes of a receipt are a dict and leave the execution policy alone. *)
Lemma base_writes_ok `{!RuntimeLaws D} tx cost env m c p out d sender base :
  (execute_tx tx cost env m c p).1 = Ok (Some out) ->
  determine_writes_from_output d (o_status_code out) (o_writes out) (o_chi_used out) cost sender c = Ok base ->
  NoDup (dict_keys base) /\ EXECUTION_POLICY_KEY ∉ dict_keys base.
Proof.
  intros Hx Hb. destruct (o_status_code out =? 0) eqn:Es.
  - unfold determine_writes_from_output in Hb. rewrite Es in Hb. destruct_result. apply Z.eqb_eq in Es. by eapply executed_writes.
  - destruct (failed_base_shape _ _ _ _ _ _ _ _ Es Hb) as [->|[b ->]]; split; try constructor; try apply not_elem_of_nil; try apply NoDup_nil_2.
    intros Hin%list_elem_of_singleton. by eapply make_key_not_policy.
Qed.

(** Claim C5. The state after a transaction with a receipt, key by key: a key with a reward
    share holds the share added to the transaction's own write of it or to the stored
    value, every other written key holds the machine's write with the fee deducted, and
    no other key changed.  The receipt lists exactly these writes, the keys with a share and
    the written ones with the values they got, once each and in the order of their keys. *)
Theorem process_tx_state_correct `{!DriverLaws D} `{!RuntimeLaws D} tx handler pol track p resp p' rec :
  handler_ok handler -> process_tx tx handler (Some pol) track p = (Ok resp, p') -> tx_result resp = Some rec ->
  exists env cost out sender rewards deltas records base,
    get_environment tx = Ok env /\ (get_chi_cost p).1 = Ok cost /\
    (execute_tx tx cost env (meter_execution pol) (charge_fees pol) (get_chi_cost p).2).1 = Ok (Some out) /\
    payload_str "sender" tx = Ok sender /\
    reward_outputs (p_driver p) out tx handler (distribute_fee_rewards pol) = Ok (rewards, deltas, records) /\
    determine_writes_from_output (p_driver p) (o_status_code out) (o_writes out) (o_chi_used out) cost sender
      (charge_fees pol) = Ok base /\
    NoDup (dict_keys (r_state rec)) /\ StronglySorted (key_le fst) (r_state rec) /\
    forall q, match dict_get q deltas with
              | Some delta => exists v, num_add (current_value (p_driver p) base q) delta = Ok v /\
                                dict_get q (r_state rec) = Some v /\ drv_get (p_driver p') q = v
              | None => dict_get q (r_state rec) = dict_get q base /\
                        drv_get (p_driver p') q =
                          match dict_get q base with Some v => v | None => drv_get (p_driver p) q end
              end.
Proof.
  intros Hh Hp Hr.
  destruct (receipt_anatomy _ _ _ _ _ _ _ _ Hp Hr) as
    (env & cost & out & sender & rewards & deltas & records & base & He & Hcost & Hx & Hsend & Hrew & Hb & Hm & _ & _ & -> & _).
  destruct (reward_deltas_ok _ _ _ _ _ _ _ _ Hh Hrew) as [Hnd _].
  destruct (base_writes_ok _ _ _ _ _ _ _ _ _ _ Hx Hb) as [Hnb _].
  destruct (materialize_spec _ _ _ _ Hnb Hnd Hm) as (Hns & Hsort & Hget).
  exists env, cost, out, sender, rewards, deltas, records, base. split_and!; try done.
  intros q. specialize (Hget q). rewrite set_writes_get by done.
  destruct (dict_get q deltas) as [delta|]; [|by rewrite Hget].
  destruct Hget as (v & Hv & Hw). exists v. by rewrite Hw.
Qed.

(** No transaction changes the execution policy of the chain, whatever its
    contract writes. *)
Lemma process_tx_policy `{!DriverLaws D} `{!RuntimeLaws D} tx handler pol track p r p' :
  handler_ok handler -> process_tx tx handler (Some pol) track p = (r, p') ->
  drv_get (p_driver p') EXECUTION_POLICY_KEY = drv_get (p_driver p) EXECUTION_POLICY_KEY.
Proof.
  intros Hh Hp. pose proof (process_tx_processed _ _ _ _ _ _ _ Hp) as Hc.
  destruct Hc as [r p' Hn Hd|env cost out c1 po a sender con]; [by rewrite Hd|].
  destruct (receipt_anatomy _ _ _ _ _ _ _ _ Hp eq_refl) as
    (env' & cost' & out' & sender' & rewards & deltas & records & base & _ & _ & Hx & _ & Hrew & Hb & Hm & _ & _ & -> & _).
  destruct (reward_deltas_ok _ _ _ _ _ _ _ _ Hh Hrew) as [Hnd Hpd].
  destruct (base_writes_ok _ _ _ _ _ _ _ _ _ _ Hx Hb) as [Hnb Hpb].
  destruct (materialize_spec _ _ _ _ Hnb Hnd Hm) as (Hns & _ & Hget).
  specialize (Hget EXECUTION_POLICY_KEY). apply dict_get_None in Hpd, Hpb. rewrite Hpd, Hpb in Hget.
  rewrite set_writes_get by done. by rewrite Hget.
Qed.

(** ** Speculation *)

Definition sender_balance_key (sender : string) : string := make_key (D := D) "currency" "balances" [sender].

(** The base writes only depend on the sender's balance, which they then hold. *)
Lemma determine_writes_frame d1 d2 out cost sender c base :
  determine_writes_from_output d1 (o_status_code out) (o_writes out) (o_chi_used out) cost sender c = Ok base ->
  (sender_balance_key sender ∈ dict_keys base -> drv_get d2 (sender_balance_key sender) = drv_get d1 (sender_balance_key sender)) ->
  determine_writes_from_output d2 (o_status_code out) (o_writes out) (o_chi_used out) cost sender c = Ok base.
Proof.
  unfold determine_writes_from_output. destruct (_ =? 0); [done|]. destruct (negb c); [done|]. apply metering_frame.
Qed.

(** An outcome computed on a state that agrees on what was executed, on the sender's balance if
    it is written and on the reward shares differs at most in the materialised writes. *)
Lemma tx_outcome_frame d1 d2 out tx cost handler c distribute po1 po2 :
  reward_outputs d1 out tx handler distribute = reward_outputs d2 out tx handler distribute ->
  (forall sender, payload_str "sender" tx = Ok sender -> sender_balance_key sender ∈ dict_keys (po_base_writes po1) ->
     drv_get d2 (sender_balance_key sender) = drv_get d1 (sender_balance_key sender)) ->
  tx_outcome d1 out tx cost handler c distribute true = Ok po1 ->
  tx_outcome d2 out tx cost handler c distribute true = Ok po2 ->
  exists writes, materialize_writes d2 (po_base_writes po1) (po_reward_deltas po1) = Ok writes /\
    let r := po_tx_result po1 in
    po2 = ProcessedOutput (TxReceipt (r_hash r) (r_status r) writes (r_events r) (r_chi_used r) (r_result r)
                             (r_rewards r) (r_reward_records r))
            (po_reads po1) (po_prefix_reads po1) (po_base_writes po1) (po_reward_deltas po1).
Proof.
  intros Hrew Hbal H1 H2. unfold tx_outcome in H1, H2. rewrite Hrew in H1.
  destruct (tx_hash_from_tx tx); [|done]. cbn [mbind result_bind] in H1, H2.
  destruct (reward_outputs d2 _ _ _ _) as [o|]; [|done]. cbn [mbind result_bind] in H1, H2.
  destruct (payload_str "sender" tx) as [sender|] eqn:Es; [|done]. cbn [mbind result_bind] in H1, H2.
  destruct (determine_writes_from_output d1 _ _ _ _ _ _) as [base|] eqn:Eb; [|done]. cbn [mbind result_bind] in H1.
  destruct (materialize_writes d1 _ _) as [w1|]; [|done]. injection H1 as <-. cbn [po_base_writes po_reward_deltas] in *.
  rewrite (determine_writes_frame _ _ _ _ _ _ _ Eb (Hbal _ eq_refl)) in H2. cbn [mbind result_bind] in H2.
  destruct_result. by eexists.
Qed.

(** The call of a transaction. *)
Definition vm_tx_args (tx kwargs : value) (env : list (string * value)) (m : bool) : result vm_args :=
  sender ← payload_str "sender" tx;
  contract ← payload_str "contract" tx;
  function ← payload_str "function" tx;
  chi_budget ← payload_item "chi_supplied" tx;
  size ← canonical_transaction_size_bytes tx;
  Ok (VmArgs sender contract function kwargs env m chi_budget size).

Lemma execute_vm_tx_ok `{!RuntimeLaws D} tx kwargs cost env m c d o d' :
  _execute_vm_tx tx kwargs cost env m c d = (Ok o, d') ->
  exists a out d1 metering, vm_tx_args tx kwargs env m = Ok a /\ execute_vm_contract float_trunc a d = (Ok out, d1) /\
    (if c && (status_code out =? 0) && (m && (0 <? vm_chi_used out))
     then vm_metering_writes d (a_sender a) (vm_chi_used out) cost (vm_writes out) else Ok []) = Ok metering /\
    o = ExecutorOutput (status_code out) (vm_result out) (dict_update (vm_writes out) metering) (vm_events out)
          (vm_chi_used out) (transaction_reads d1).1 (transaction_reads d1).2 (vm_contract_costs out).
Proof.
  unfold _execute_vm_tx, vm_tx_args. intros Hx. stM_inv. unfold lift_res in *.
  injection E as -> <-. injection E0 as -> <-. injection E1 as -> <-. injection E2 as -> <-. injection E3 as -> <-.
  destruct (execute_vm_transaction_ok _ _ _ _ _ _ _ _ E4) as (out & d1 & w & Ho & Hm & ->). injection Hx as <- _.
  rewrite orb_false_r in Hm. by eexists _, out, d1, w.
Qed.

(** The machine's effects on two drivers that agree on what it read and on the balance it
    charged. *)
Lemma execute_vm_tx_local `{!RuntimeLaws D} tx kwargs cost env m c d1 d2 o1 o2 d1' d2' con function budget :
  payload_str "contract" tx = Ok con -> payload_str "function" tx = Ok function ->
  vm_requires_contract_source con function kwargs = Ok false -> payload_item "chi_supplied" tx = Ok (VInt budget) ->
  get_owner d2 con = get_owner d1 con -> agrees_on (o_reads o1) (o_prefix_reads o1) d1 d2 ->
  (forall sender, o_status_code o1 = 0 -> sender_balance_key sender ∈ dict_keys (o_writes o1) ->
     drv_get d2 (sender_balance_key sender) = drv_get d1 (sender_balance_key sender)) ->
  _execute_vm_tx tx kwargs cost env m c d1 = (Ok o1, d1') -> _execute_vm_tx tx kwargs cost env m c d2 = (Ok o2, d2') ->
  o2 = o1.
Proof.
  intros Hcon Hfn Hm Hchi Ho Hagree Hbal H1 H2.
  destruct (execute_vm_tx_ok _ _ _ _ _ _ _ _ _ H1) as (a & out & e1 & m1 & Ha & X1 & M1 & ->).
  destruct (execute_vm_tx_ok _ _ _ _ _ _ _ _ _ H2) as (a2 & out2 & e2 & m2 & Ha2 & X2 & M2 & ->).
  rewrite Ha in Ha2. injection Ha2 as <-. unfold vm_tx_args in Ha. rewrite Hcon, Hfn, Hchi in Ha. destruct_result.
  cbn [o_reads o_prefix_reads o_status_code o_writes a_sender] in *.
  destruct (execute_vm_contract_local float_trunc (VmArgs a0 con function kwargs env m (VInt budget) a1) d1 d2 out out2
              e1 e2 budget) as [-> ->]; [done..|].
  assert (Hmm : m2 = m1); [|by subst]. destruct (c && _ && _) eqn:Eb; [|congruence].
  assert (Hs : status_code out = 0) by (destruct (Z.eqb_spec (status_code out) 0); [done|by rewrite andb_false_r in Eb]).
  rewrite (metering_frame _ d2 _ _ _ _ _ M1) in M2; [congruence|]. intros Hin. apply Hbal; [done|].
  apply dict_update_keys. by right.
Qed.

(** The same, from [execute_tx]: both executions passed their preparation. *)
Lemma executed_same `{!RuntimeLaws D} tx cost env m c p1 p2 out1 out2 budget :
  payload_item "chi_supplied" tx = Ok (VInt budget) ->
  (execute_tx tx cost env m c p1).1 = Ok (Some out1) -> (execute_tx tx cost env m c p2).1 = Ok (Some out2) ->
  (forall con, payload_str "contract" tx = Ok con -> get_owner (p_driver p2) con = get_owner (p_driver p1) con) ->
  agrees_on (o_reads out1) (o_prefix_reads out1) (p_driver p1) (p_driver p2) ->
  (forall sender, o_status_code out1 = 0 -> sender_balance_key sender ∈ dict_keys (o_writes out1) ->
     drv_get (p_driver p2) (sender_balance_key sender) = drv_get (p_driver p1) (sender_balance_key sender)) ->
  out2 = out1.
Proof.
  intros Hchi H1 H2 Howner Hagree Hbal.
  destruct (execute_tx tx cost env m c p1) as [r1 p1'] eqn:X1, (execute_tx tx cost env m c p2) as [r2 p2'] eqn:X2.
  cbn [fst] in *. subst r1 r2.
  destruct (execute_tx_some _ _ _ _ _ _ _ _ X1) as (con & fn & kw & missing & Hcon & Hfn & Hkw & Hm & V1).
  destruct (execute_tx_some _ _ _ _ _ _ _ _ X2) as (con2 & fn2 & kw2 & missing2 & Hcon2 & Hfn2 & Hkw2 & Hm2 & V2).
  assert (con2 = con) as -> by congruence. assert (fn2 = fn) as -> by congruence. assert (kw2 = kw) as -> by congruence.
  rewrite Hm in Hm2. injection Hm2 as <-. destruct missing; [congruence|]. destruct V1 as [d1 V1], V2 as [d2 V2].
  apply (execute_vm_tx_local tx kw cost env m c (p_driver p1) (p_driver p2) out1 out2 d1 d2 con fn budget); auto.
Qed.

(** What the access record holds. *)
Lemma access_record_sets tx status reads prefix_reads base deltas a :
  build_access_record tx status reads prefix_reads base deltas = Ok a ->
  acc_reads a = reads /\ acc_prefix_reads a = prefix_reads /\ acc_writes a = list_to_set (dict_keys base).
Proof. unfold build_access_record. intros Hx. by destruct_result. Qed.

Lemma outcome_sets d out tx cost handler c distribute po :
  tx_outcome d out tx cost handler c distribute true = Ok po ->
  po_reads po = list_to_set (o_reads out) /\ po_prefix_reads po = list_to_set (o_prefix_reads out) /\
  (o_status_code out = 0 -> po_base_writes po = o_writes out).
Proof.
  unfold tx_outcome. intros Hx. destruct_result. split_and!; [done..|]. intros Hs. cbn [po_base_writes].
  unfold determine_writes_from_output in *. rewrite Hs in *. cbn in *. by destruct_result.
Qed.

(** Claim C9. Speculative execution agrees with serial execution: the output a worker made on
    the state before the batch is applied to a state that agrees with it on every key the
    output's access record names as read or written and on the entries under every prefix it
    names as read, and then [_apply_speculative_output] gives the receipt and the state of
    [process_tx] run there.  Three things the record does not name must agree as well: the chi
    cost, the owner of the contract and the reward shares.  The balances the shares are
    added to need not agree: the deltas are added to what is stored when the output is
    applied. *)
Theorem speculation_equals_serial `{!RuntimeLaws D} tx handler pol pending w p resp w' resp2 p2 rec rec2 acc budget :
  _speculative_process_tx pending tx handler pol w = (Ok resp, w') -> tx_result resp = Some rec -> access resp = Some acc ->
  process_tx tx handler (Some pol) true p = (Ok resp2, p2) -> tx_result resp2 = Some rec2 ->
  payload_item "chi_supplied" tx = Ok (VInt budget) ->
  let ws := worker_ready pending w in
  (forall k, k ∈ acc_reads acc ∪ acc_writes acc -> drv_get (p_driver p) k = drv_get (p_driver ws) k) ->
  (forall q, q ∈ acc_prefix_reads acc -> raw_items (p_driver p) q = raw_items (p_driver ws) q) ->
  (get_chi_cost ws).1 = (get_chi_cost p).1 ->
  (forall con, payload_str "contract" tx = Ok con -> get_owner (p_driver p) con = get_owner (p_driver ws) con) ->
  (forall out, reward_outputs (p_driver ws) out tx handler (distribute_fee_rewards pol) =
               reward_outputs (p_driver p) out tx handler (distribute_fee_rewards pol)) ->
  exists p3, _apply_speculative_output resp p = (Ok resp2, p3) /\ p_driver p3 = p_driver p2.
Proof.
  intros Hspec Hr Hacc Hser Hr2 Hchi ws Hkeys Hprefix Hcost Howner Hrew.
  unfold _speculative_process_tx in Hspec. stM_inv. injection E as <- <-. fold ws in Hspec.
  unfold flushing_after in Hspec. destruct (process_tx tx handler (Some pol) true ws) as [r w1] eqn:Ep.
  injection Hspec as -> <-. apply process_tx_processed in Ep, Hser.
  inversion Ep as [? ? Hn|env cost out c1 po a sender con He Hc Hx Ho Hcon Hsend Ha]; subst;
    [by rewrite (Hn _ eq_refl) in Hr|].
  inversion Hser as [? ? Hn|env2 cost2 out2 c2 po2 a2 sender2 con2 He2 Hc2 Hx2 Ho2 Hcon2 Hsend2 Ha2]; subst;
    [by rewrite (Hn _ eq_refl) in Hr2|].
  cbn [access] in Hacc. injection Hacc as ->.
  assert (env2 = env) as -> by congruence. rewrite Hcost, Hc2 in Hc. injection Hc as ->.
  assert (con2 = con) as -> by congruence.
  destruct (access_record_sets _ _ _ _ _ _ _ Ha) as (Hreads & Hprefixes & Hwrites).
  destruct (outcome_sets _ _ _ _ _ _ _ _ Ho) as (Hpr & Hpp & Hpb).
  assert (Hbal : forall s, sender_balance_key s ∈ dict_keys (po_base_writes po) ->
                   drv_get (p_driver p) (sender_balance_key s) = drv_get (p_driver ws) (sender_balance_key s)).
  { intros s Hin. apply Hkeys. rewrite Hwrites. set_solver. }
  assert (out2 = out) as ->.
  { apply (executed_same tx cost env (meter_execution pol) (charge_fees pol) _ _ _ _ budget Hchi Hx Hx2); rewrite !get_chi_cost_driver.
    - done.
    - rewrite Hreads, Hprefixes, Hpr, Hpp in *. split; intros k Hk; [apply Hkeys|apply Hprefix]; set_solver.
    - intros s Hs Hin. apply Hbal. by rewrite Hpb. }
  destruct (tx_outcome_frame _ _ _ _ _ _ _ _ _ _ (Hrew out) (λ s _, Hbal s) Ho Ho2) as (writes & Hm & ->).
  cbn [po_reads po_prefix_reads po_base_writes po_reward_deltas po_tx_result r_state] in *.
  assert (a2 = acc) as -> by congruence. eexists. split.
  - unfold _apply_speculative_output. cbn [tx_result base_writes reward_deltas].
    unfold mbind, stM_bind, gets_st, lift_res, modify_st. rewrite Hm. reflexivity.
  - unfold apply_tx_result, with_driver. cbn [p_driver r_state]. by rewrite !update_chi_cost_cache_driver.
Qed.
End Processor.

(** ** Sample runs on the in-memory driver *)

Definition toy_tx (function : string) : value :=
  VDict [("payload", VDict [("sender", VStr "alice"); ("contract", VStr "a"); ("function", VStr function);
                            ("kwargs", VDict [("key", VStr "k"); ("value", VInt 9)]);
                            ("chi_supplied", VInt 50); ("nonce", VInt 0)]);
         ("metadata", VDict [("signature", VStr "sig")]);
         ("b_meta", VDict [("nanos", VInt 7); ("height", VInt 2); ("hash", VStr "h"); ("chain_id", VStr "c")])].

Definition toy_store (chi_cost : Z) : mem_driver :=
  mem_set (mem_set (mem_set (mem_set mem_empty "ir:a" (VStr (toy_ir []))) "currency.balances:alice" (VInt 100))
             "currency.balances:bob" (VInt 3)) "chi_cost.S:value" (VInt chi_cost).

Definition toy_processor (chi_cost : Z) : processor (D := mem_driver) :=
  Processor (toy_store chi_cost) VNone [].

(** Bob gets two units per successful transaction. *)
Definition toy_handler : rewards_handler (D := mem_driver) := λ _ _ _ _,
  Ok (VStr "rewards", [("currency.balances:bob", VInt 2)], []).

#[local] Existing Instance int_arith.

Definition toy_process (function : string) (p : processor (D := mem_driver)) : result tx_response * processor :=
  process_tx (λ _, "") (λ _, raise ValueError "nan") 3 (toy_tx function) (Some toy_handler)
    (Some (paid_metered None None)) true p.

Lemma toy_handler_ok : handler_ok (Some toy_handler).
Proof.
  intros build d chi con costs rewards deltas records [= <-] [= <- <- <-]. split; [apply NoDup_singleton|].
  intros Heq%list_elem_of_singleton. discriminate.
Qed.

Lemma toy_process_eta function p : toy_process function p = ((toy_process function p).1, (toy_process function p).2).
Proof. by destruct (toy_process function p). Qed.

Definition toy_response (function : string) : tx_response :=
  ok_or no_tx_result (toy_process function (toy_processor 1)).1.
Definition toy_receipt (function : string) : tx_receipt :=
  default (TxReceipt "" 0 [] [] 0 VNone VNone VNone) (tx_result (toy_response function)).
Definition toy_after (function : string) : processor := (toy_process function (toy_processor 1)).2.

Example toy_set_state :
  r_state (toy_receipt "set") =
    [("con:k", VInt 9); ("currency.balances:alice", VInt 95); ("currency.balances:bob", VInt 5)].
Proof. vm_compute. reflexivity. Qed.

Lemma process_tx_all_or_nothing_witness :
  exists resp rec, (toy_process "set" (toy_processor 1)).1 = Ok resp /\ tx_result resp = Some rec /\
    p_driver (toy_after "set") = set_writes (toy_store 1) (r_state rec).
Proof.
  destruct (process_tx_all_or_nothing (λ _, "") (λ _, raise ValueError "nan") 3 (toy_tx "set") (Some toy_handler)
              (paid_metered None None) true (toy_processor 1) _ _ (toy_process_eta "set" (toy_processor 1)))
    as [[_ Hn]|Hs]; [|exact Hs].
  exfalso. assert (Hr : (toy_process "set" (toy_processor 1)).1 = Ok (toy_response "set")) by (vm_compute; reflexivity).
  specialize (Hn _ Hr). vm_compute in Hn. discriminate Hn.
Defined.

Lemma failed_tx_only_pays_witness :
  r_state (toy_receipt "fail") = [("currency.balances:alice", VInt 93)] /\
  drv_get (p_driver (toy_after "fail")) "con:k" = drv_get (toy_store 1) "con:k".
Proof.
  split; [vm_compute; reflexivity|].
  destruct (failed_tx_only_pays (λ _, "") (λ _, raise ValueError "nan") 3 (toy_tx "fail") (Some toy_handler)
              (paid_metered None None) true (toy_processor 1) (toy_response "fail") (toy_after "fail")
              (toy_receipt "fail")) as (sender & cost & Hs & _ & _ & Hq).
  - vm_compute. reflexivity.
  - vm_compute. reflexivity.
  - vm_compute. discriminate.
  - apply Hq. vm_compute in Hs. injection Hs as <-. vm_compute. discriminate.
Defined.

Lemma process_tx_state_correct_witness :
  NoDup (dict_keys (r_state (toy_receipt "set"))) /\ StronglySorted (key_le fst) (r_state (toy_receipt "set")).
Proof.
  destruct (process_tx_state_correct (λ _, "") (λ _, raise ValueError "nan") 3 (toy_tx "set") (Some toy_handler)
              (paid_metered None None) true (toy_processor 1) (toy_response "set") (toy_after "set")
              (toy_receipt "set") toy_handler_ok)
    as (env & cost & out & sender & rewards & deltas & records & base & _ & _ & _ & _ & _ & _ & Hn & Hs & _);
    [vm_compute; reflexivity|vm_compute; reflexivity|].
  by split.
Defined.

(** A worker over the same store; the output is applied to a state where bob earned more. *)
Definition toy_speculated : result tx_response * processor :=
  _speculative_process_tx (λ _, "") (λ _, raise ValueError "nan") 3 (drv_pending_writes (toy_store 1)) (toy_tx "set")
    (Some toy_handler) (paid_metered None None) (Processor mem_empty VNone []).
Definition toy_later : processor :=
  Processor (mem_set (toy_store 1) "currency.balances:bob" (VInt 40)) VNone [].
Definition toy_later_response : tx_response := ok_or no_tx_result (toy_process "set" toy_later).1.

Definition toy_access : TransactionAccess :=
  default (Access 0 VNone VNone ∅ ∅ ∅ ∅ 0) (access (ok_or no_tx_result toy_speculated.1)).

Lemma speculation_equals_serial_witness :
  exists p3, _apply_speculative_output (ok_or no_tx_result toy_speculated.1) toy_later = (Ok toy_later_response, p3) /\
    p_driver p3 = p_driver (toy_process "set" toy_later).2.
Proof.
  apply (speculation_equals_serial (λ _, "") (λ _, raise ValueError "nan") 3 (toy_tx "set") (Some toy_handler)
           (paid_metered None None) (drv_pending_writes (toy_store 1)) (Processor mem_empty VNone []) toy_later
           (ok_or no_tx_result toy_speculated.1) toy_speculated.2 toy_later_response
           (toy_process "set" toy_later).2
           (default (toy_receipt "set") (tx_result (ok_or no_tx_result toy_speculated.1)))
           (default (toy_receipt "set") (tx_result toy_later_response)) toy_access 50).
  - vm_compute. reflexivity.
  - vm_compute. reflexivity.
  - vm_compute. reflexivity.
  - vm_compute. reflexivity.
  - vm_compute. reflexivity.
  - vm_compute. reflexivity.
  - intros k Hk. apply elem_of_elements in Hk.
    assert (Hl : elements (acc_reads toy_access ∪ acc_writes toy_access) ⊆ ["con:k"; "currency.balances:alice"])
      by (apply (bool_decide_eq_true_1 _); vm_compute; reflexivity).
    apply Hl in Hk. apply elem_of_cons in Hk as [->|Hk%list_elem_of_singleton]; [|subst k]; vm_compute; reflexivity.
  - intros q Hq. apply elem_of_elements in Hq. replace (elements (acc_prefix_reads toy_access)) with (@nil string) in Hq
      by (vm_compute; reflexivity). by apply not_elem_of_nil in Hq.
  - vm_compute. reflexivity.
  - intros con _. reflexivity.
  - intros out. unfold reward_outputs. reflexivity.
Defined.

(** A machine that leaves its writes in the driver: the failed execution's are gone. *)
Example toy_fail_restored :
  drv_pending_writes (p_driver (toy_after "fail")) =
    dict_set "currency.balances:alice" (VInt 93) (drv_pending_writes (toy_store 1)).
Proof. vm_compute. reflexivity. Qed.

(** The access record of a transaction does not tell that its fee depends on the
    chi cost: two states that differ in the chi cost only give the same record, which does
    not name that key, and different receipts.  A scheduler that compares access records
    cannot see that a transaction which changes the cost conflicts with the ones after it,
    while serial execution charges them the new cost. *)
Theorem access_record_misses_chi_cost :
  let p2 := Processor (drv_set (toy_store 1) chi_cost_key (VInt 5)) VNone [] in
  exists r1 r2 a,
    (toy_process "set" (toy_processor 1)).1 = Ok r1 /\ (toy_process "set" p2).1 = Ok r2 /\
    access r1 = Some a /\ access r2 = Some a /\
    chi_cost_key (D := mem_driver) ∉ acc_reads a ∪ acc_writes a ∪ acc_additive_writes a /\
    option_map r_state (tx_result r1) <> option_map r_state (tx_result r2).
Proof.
  exists (toy_response "set"),
    (ok_or no_tx_result (toy_process "set" (Processor (drv_set (toy_store 1) chi_cost_key (VInt 5)) VNone [])).1).
  exists (default (Access 0 VNone VNone ∅ ∅ ∅ ∅ 0) (access (toy_response "set"))). split_and!.
  - vm_compute. reflexivity.
  - vm_compute. reflexivity.
  - vm_compute. reflexivity.
  - vm_compute. reflexivity.
  - intros Hin. apply (bool_decide_eq_true_2 _) in Hin. by vm_compute in Hin.
  - vm_compute. discriminate.
Qed.
