(* ===== verification/StatePatches.v ===== *)
(** * Governed state patches (src/src/xian/utils/state_patches.py)

    A patch bundle is a JSON file every operator installs; governance approves its hash
    and an activation height.  At that height the block applies the bundle's changes and
    records the patch as applied.

    A bundle's changes are the list of its entries in file order.  The directory is the
    list of its [*.json] files with their text; [None] is a path that does not exist. *)

From Stdlib Require Import Ascii.
From S2P Require Import Prelude PyValue Json PyBuiltins Driver Encoding ExecutionPolicy Engine.

Definition STATE_PATCH_BUNDLE_VERSION : Z := 1.
Definition DEFAULT_GOVERNANCE_CONTRACT : string := "governance".
Definition XIAN_VM_V1_IR_KEY : string := "__xian_ir_v1__".

(** [[a-z0-9][a-z0-9_-]{2,127}] in full. *)
Definition patch_start (c : ascii) : bool :=
  let b := byte_of_ascii c in ((97 <=? b) && (b <=? 122)) || ((48 <=? b) && (b <=? 57)).
Definition patch_char (c : ascii) : bool :=
  patch_start c || bool_decide (c = "_"%char) || bool_decide (c = "-"%char).
Definition PATCH_ID_PATTERN (s : string) : bool :=
  match str_chars s with
  | c :: r => patch_start c && forallb patch_char r && Nat.leb 2 (length r) && Nat.leb (length r) 127
  | [] => false
  end.

(** [isinstance(v, int)] holds of a [bool] too, which then counts as [0] or [1]. *)
Definition as_int (v : value) : option Z :=
  match v with VInt z => Some z | VBool b => Some (Z.b2z b) | _ => None end.

(** [v == z] for a JSON or state value. *)
Definition equals_int (v : value) (z : Z) : bool :=
  match v with
  | VInt _ | VBool _ => bool_decide (as_int v = Some z)
  | VFloat r => bool_decide (r = py_int_str z +:+ ".0")
  | _ => false
  end.

Record change := Change { ch_key : string; ch_value : value; ch_comment : value }.

Definition change_value (c : change) : value :=
  VDict [("key", VStr (ch_key c)); ("value", ch_value c); ("comment", ch_comment c)].

Record StatePatchBundle := Bundle {
  b_patch_id : string; b_activation_height : value; b_governance_contract : string; b_bundle_hash : string;
  b_summary : value; b_uri : value; b_chain_id : option string; b_changes : list change; b_file_path : string }.

Record ScheduledPatchRecord := ScheduledPatch {
  s_patch_id : string; s_proposal_id : value; s_bundle_hash : string; s_activation_height : value;
  s_governance_contract : string; s_summary : value; s_uri : value; s_emergency : bool; s_status : string }.

Record PatchExecution := Execution {
  e_record : ScheduledPatchRecord; e_bundle : StatePatchBundle; e_execution_hash : string;
  e_applied_changes : list change }.

Definition to_inventory_record (b : StatePatchBundle) : value :=
  VDict [("patch_id", VStr (b_patch_id b)); ("activation_height", b_activation_height b);
         ("governance_contract", VStr (b_governance_contract b)); ("bundle_hash", VStr (b_bundle_hash b));
         ("summary", b_summary b); ("uri", b_uri b);
         ("chain_id", match b_chain_id b with Some c => VStr c | None => VNone end);
         ("change_count", VInt (Z.of_nat (length (b_changes b)))); ("file_path", VStr (b_file_path b))].

Definition to_dict (r : ScheduledPatchRecord) (local_bundle : option StatePatchBundle) : value :=
  VDict [("patch_id", VStr (s_patch_id r)); ("proposal_id", s_proposal_id r);
         ("bundle_hash", VStr (s_bundle_hash r)); ("activation_height", s_activation_height r);
         ("governance_contract", VStr (s_governance_contract r)); ("summary", s_summary r); ("uri", s_uri r);
         ("emergency", VBool (s_emergency r)); ("status", VStr (s_status r));
         ("local_bundle_available", VBool (match local_bundle with Some _ => true | None => false end));
         ("local_file_path", match local_bundle with Some b => VStr (b_file_path b) | None => VNone end)].

Definition to_payload_dict (e : PatchExecution) : value :=
  let r := e_record e in
  VDict [("patch_id", VStr (s_patch_id r)); ("proposal_id", s_proposal_id r);
         ("bundle_hash", VStr (s_bundle_hash r)); ("execution_hash", VStr (e_execution_hash e));
         ("activation_height", s_activation_height r); ("governance_contract", VStr (s_governance_contract r));
         ("summary", s_summary r); ("uri", s_uri r); ("emergency", VBool (s_emergency r));
         ("changes", VList (change_value <$> e_applied_changes e))].

(** [key.split(".")]. *)
Fixpoint split_dots (s : string) : list string :=
  match s with
  | EmptyString => [""]
  | String c s => if decide (c = "."%char) then "" :: split_dots s
                  else match split_dots s with
                       | p :: ps => String c p :: ps
                       | [] => [String c ""]
                       end
  end.

(** The contract whose source a key holds. *)
Definition source_of (key : string) : option string :=
  match split_dots key with
  | contract :: second :: _ => if decide (second = "__source__") then Some contract else None
  | _ => None
  end.

Definition ir_key (contract : string) : string := contract +:+ "." +:+ XIAN_VM_V1_IR_KEY.

Section StatePatches.
Context {D : Type} `{DriverOps D} `{!Runtime D}.
Context (sha256 : bytes -> bytes) (py_str : value -> string).

Definition str_value (v : value) : string :=
  match v with VStr s => s | VInt z => py_int_str z | _ => py_str v end.

(** ** Hashes *)

Definition _canonical_json (v : value) : result string := dumps true (sort_keys v).
Definition _hash_text (s : string) : string := hash_bytes sha256 (encode_utf8 s).

Definition _canonical_change (c : change) : value :=
  VDict [("comment", ch_comment c); ("key", VStr (ch_key c)); ("value", ch_value c)].

Definition sorted_changes (changes : list change) : value :=
  VList (_canonical_change <$> sort_by ch_key changes).

Definition bundle_payload (version : value) (patch_id : string) (activation_height : value)
    (governance_contract : string) (chain_id summary uri : value) (changes : list change) : value :=
  VDict [("activation_height", activation_height); ("chain_id", chain_id); ("changes", sorted_changes changes);
         ("governance_contract", VStr governance_contract); ("patch_id", VStr patch_id);
         ("summary", summary); ("uri", uri); ("version", version)].

Definition _hash_from_bundle_payload (version : value) (patch_id : string) (activation_height : value)
    (governance_contract : string) (chain_id summary uri : value) (changes : list change) : result string :=
  _hash_text <$> _canonical_json (bundle_payload version patch_id activation_height governance_contract
                                    chain_id summary uri changes).

Definition _hash_from_execution_payload (r : ScheduledPatchRecord) (changes : list change) : result string :=
  _hash_text <$> _canonical_json
    (VDict [("activation_height", s_activation_height r); ("bundle_hash", VStr (s_bundle_hash r));
            ("changes", sorted_changes changes); ("emergency", VBool (s_emergency r));
            ("governance_contract", VStr (s_governance_contract r)); ("patch_id", VStr (s_patch_id r));
            ("proposal_id", s_proposal_id r)]).

(** ** Loading bundles *)

Record StatePatchManager := PatchManager {
  pm_chain_id : option string; pm_governance_contract : string;
  local_bundles : list (string * StatePatchBundle); loaded : bool }.

Definition bad_bundle {A} (file problem : string) : result A := raise ValueError (file +:+ problem).

(** One entry of the [changes] list; [seen] are the keys of the entries before it. *)
Definition load_change (file : string) (acc : list change) (raw_change : value) : result (list change) :=
  match raw_change with
  | VDict d =>
    match py_get "key" d VNone with
    | VStr key =>
      if decide (key = "") then bad_bundle file " contains a patch change with no key"
      else if decide (key ∈ (ch_key <$> acc)) then bad_bundle file " contains duplicate key"
      else if decide (key = EXECUTION_POLICY_KEY) then bad_bundle file " cannot patch the protected execution policy"
      else if endswith ".__code__" key then bad_bundle file " cannot patch __code__ directly; use __source__"
      else if endswith ("." +:+ XIAN_VM_V1_IR_KEY) key then bad_bundle file " cannot patch __xian_ir_v1__ directly; use __source__"
      else Ok (acc ++ [Change key (py_get "value" d VNone) (py_get "comment" d (VStr ""))])
    | _ => bad_bundle file " contains a patch change with no key"
    end
  | _ => bad_bundle file " contains a non-object patch change"
  end.

Definition _load_bundle_file (m : StatePatchManager) (file text : string) : result StatePatchBundle :=
  payload ← loads text;
  version ← py_dot_get payload "version" VNone;
  _ ← check_py (equals_int version STATE_PATCH_BUNDLE_VERSION) ValueError
        (file +:+ " has unsupported state patch bundle version");
  let get k default := match payload with VDict d => py_get k d default | _ => default end in
  patch_id ← match get "patch_id" VNone with
             | VStr s => if PATCH_ID_PATTERN s then Ok s else bad_bundle file " has invalid patch_id"
             | _ => bad_bundle file " has invalid patch_id"
             end;
  let activation_height := get "activation_height" VNone in
  _ ← match as_int activation_height with
      | Some h => check_py (0 <? h) ValueError (file +:+ " must set a positive activation_height")
      | None => bad_bundle file " must set a positive activation_height"
      end;
  governance_contract ← match get "governance_contract" (VStr (pm_governance_contract m)) with
                        | VStr s => if decide (s = "") then bad_bundle file " has invalid governance_contract" else Ok s
                        | _ => bad_bundle file " has invalid governance_contract"
                        end;
  chain_id ← match get "chain_id" VNone with
             | VNone => Ok None
             | VStr s => if decide (s = "") then bad_bundle file " has invalid chain_id" else Ok (Some s)
             | _ => bad_bundle file " has invalid chain_id"
             end;
  raw_changes ← match get "changes" VNone with
                | VList [] => bad_bundle file " must define a non-empty changes list"
                | VList l => Ok l
                | _ => bad_bundle file " must define a non-empty changes list"
                end;
  changes ← foldM_py (load_change file) [] raw_changes;
  let summary := get "summary" (VStr "") in
  let uri := get "uri" (VStr "") in
  bundle_hash ← _hash_from_bundle_payload version patch_id activation_height governance_contract
                  (match chain_id with Some c => VStr c | None => VNone end) summary uri changes;
  Ok (Bundle patch_id activation_height governance_contract bundle_hash summary uri chain_id changes file).

Definition add_bundle (m : StatePatchManager) (bundles : list (string * StatePatchBundle)) (file : string * string)
  : result (list (string * StatePatchBundle)) :=
  bundle ← _load_bundle_file m file.1 file.2;
  if dict_mem (b_patch_id bundle) bundles
  then raise ValueError ("duplicate patch_id '" +:+ b_patch_id bundle +:+ "' in bundle inventory")
  else Ok (dict_set (b_patch_id bundle) bundle bundles).

Definition with_bundles (bundles : list (string * StatePatchBundle)) (l : bool) (m : StatePatchManager)
  : StatePatchManager := PatchManager (pm_chain_id m) (pm_governance_contract m) bundles l.

Definition load_patches (files : option (list (string * string))) : stM StatePatchManager unit := λ m,
  match files with
  | None => (Ok tt, with_bundles [] true m)
  | Some files =>
    match foldM_py (add_bundle m) [] (sort_by fst files) with
    | Ok bundles => (Ok tt, with_bundles bundles true m)
    | Raise e => (Raise e, with_bundles [] false m)
    end
  end.

Definition _require_loaded (m : StatePatchManager) : result unit :=
  check_py (loaded m) RuntimeError "State patch bundle inventory is not loaded".

Definition get_local_bundle_inventory (m : StatePatchManager) : result (list value) :=
  _ ← _require_loaded m;
  Ok (to_inventory_record <$> sort_by b_patch_id ((local_bundles m).*2)).

(** ** The governed schedule *)

Definition scheduled_prefix (m : StatePatchManager) (height : Z) : string :=
  pm_governance_contract m +:+ ".scheduled_patches:" +:+ py_int_str height +:+ ":".

Definition patch_var (m : StatePatchManager) (d : D) (patch_id field : string) : value :=
  raw_get_var d (pm_governance_contract m) "patches" [patch_id; field].

(** One scheduled item: skipped, or the record of an approved (or applied) patch. *)
Definition read_record (m : StatePatchManager) (d : D) (height : Z) (include_applied : bool)
    (item : string * value) : result (option ScheduledPatchRecord) :=
  let '(key, scheduled) := item in
  if negb (truthy scheduled) then Ok None
  else
    let patch_id := default "" (strip_prefix (scheduled_prefix m height) key) in
    let var := patch_var m d patch_id in
    match var "status" with
    | VStr status =>
      if negb (bool_decide (status ∈ ["approved"; "applied"])) then Ok None
      else if bool_decide (status = "applied") && negb include_applied then Ok None
      else
        _ ← match as_int (var "proposal_id") with
            | Some _ => Ok tt
            | None => raise ValueError ("missing proposal_id for governed state patch " +:+ patch_id)
            end;
        bundle_hash ← match var "bundle_hash" with
                      | VStr s => if decide (s = "") then raise ValueError ("missing bundle_hash for governed state patch " +:+ patch_id)
                                  else Ok s
                      | _ => raise ValueError ("missing bundle_hash for governed state patch " +:+ patch_id)
                      end;
        _ ← check_py (equals_int (var "activation_height") height) ValueError
              ("governed state patch " +:+ patch_id +:+ " has inconsistent activation height");
        Ok (Some (ScheduledPatch patch_id (var "proposal_id") bundle_hash (var "activation_height")
                    (pm_governance_contract m) (py_or (var "summary") (VStr "")) (py_or (var "uri") (VStr ""))
                    (truthy (var "emergency")) status))
    | VList _ | VDict _ => raise TypeError "unhashable type"
    | _ => Ok None
    end.

Definition _read_scheduled_patch_records (m : StatePatchManager) (d : D) (height : Z) (include_applied : bool)
  : result (list ScheduledPatchRecord) :=
  records ← mapM_py (read_record m d height include_applied) (raw_items d (scheduled_prefix m height));
  Ok (sort_by s_patch_id (omap id records)).

Definition get_scheduled_patch_inventory (m : StatePatchManager) (d : D) (height : Z) : result (list value) :=
  _ ← _require_loaded m;
  records ← _read_scheduled_patch_records m d height true;
  Ok (map (λ r, to_dict r (dict_get (s_patch_id r) (local_bundles m))) records).

(** ** Executions *)

Definition same_height (a b : value) : bool :=
  match as_int b with Some z => equals_int a z | None => bool_decide (a = b) end.

Definition _validate_bundle_against_record (m : StatePatchManager) (b : StatePatchBundle) (r : ScheduledPatchRecord)
  : result unit :=
  _ ← check_py (bool_decide (b_bundle_hash b = s_bundle_hash r)) ValueError
        ("state patch bundle hash mismatch for " +:+ s_patch_id r +:+ ": local=" +:+ b_bundle_hash b
         +:+ " governed=" +:+ s_bundle_hash r);
  _ ← check_py (same_height (b_activation_height b) (s_activation_height r)) ValueError
        ("state patch activation height mismatch for " +:+ s_patch_id r);
  _ ← check_py (bool_decide (b_governance_contract b = s_governance_contract r)) ValueError
        ("state patch governance contract mismatch for " +:+ s_patch_id r);
  check_py (match b_chain_id b with None => true | Some c => bool_decide (pm_chain_id m = Some c) end) ValueError
    ("state patch " +:+ s_patch_id r +:+ " targets another chain_id").

Definition build_contract_artifacts_from_source (c : change) : result (value * value) :=
  build_contract_artifacts (default "" (head (split_dots (ch_key c)))) (ch_value c).

Definition applied_change (c : change) : result (list change) :=
  match source_of (ch_key c) with
  | Some contract =>
    '(source, ir) ← build_contract_artifacts_from_source c;
    Ok [Change (ch_key c) source (ch_comment c);
        Change (ir_key contract) ir (VStr ("Persisted VM IR for " +:+ str_value (ch_comment c)))]
  | None => Ok [c]
  end.

Definition _build_applied_changes (b : StatePatchBundle) : result (list change) :=
  changes ← mapM_py applied_change (b_changes b);
  Ok (sort_by ch_key (concat changes)).

Definition build_execution (m : StatePatchManager) (r : ScheduledPatchRecord) : result PatchExecution :=
  match dict_get (s_patch_id r) (local_bundles m) with
  | None => raise FileNotFoundError ("missing local state patch bundle for approved patch " +:+ s_patch_id r)
  | Some b =>
    _ ← _validate_bundle_against_record m b r;
    changes ← _build_applied_changes b;
    execution_hash ← _hash_from_execution_payload r changes;
    Ok (Execution r b execution_hash changes)
  end.

Definition _build_executions (m : StatePatchManager) (d : D) (height : Z) (include_applied : bool)
  : result (list PatchExecution) :=
  _ ← _require_loaded m;
  records ← _read_scheduled_patch_records m d height include_applied;
  mapM_py (build_execution m) records.

Definition aggregate_hash (executions : list PatchExecution) : result string :=
  _hash_text <$> _canonical_json (VList (VStr <$> (e_execution_hash <$> executions))).

Definition build_applied_patches_for_block (m : StatePatchManager) (d : D) (height : Z)
  : result (option string * list value) :=
  executions ← _build_executions m d height true;
  match executions with
  | [] => Ok (None, [])
  | _ => h ← aggregate_hash executions; Ok (Some h, to_payload_dict <$> executions)
  end.

(** ** Application *)

(** The entries one change writes. *)
Definition change_writes (c : change) : result (list (string * value)) :=
  match source_of (ch_key c) with
  | Some contract =>
    '(source, ir) ← build_contract_artifacts_from_source c;
    Ok [(ch_key c, source); (ir_key contract, ir)]
  | None =>
    v ← match ch_value c with VDict _ => convert_dict (ch_value c) | v => Ok v end;
    Ok [(ch_key c, v)]
  end.

Definition apply_change (c : change) : stM D unit :=
  writes ← lift_res (change_writes c);
  modify_st (λ d, foldl (λ d w, drv_set d w.1 w.2) d writes).

Definition _apply_single_bundle (e : PatchExecution) : stM D unit :=
  forM_st (b_changes (e_bundle e)) apply_change.

(** What the contract records about an applied patch. *)
Definition applied_fields (e : PatchExecution) (height nanos : Z) (block_hash : value) : list (string * value) :=
  [("status", VStr "applied"); ("applied_block_height", VInt height); ("applied_block_hash", block_hash);
   ("applied_at_nanos", VInt nanos); ("execution_hash", VStr (e_execution_hash e))].

Definition _mark_patch_applied (m : StatePatchManager) (e : PatchExecution) (height nanos : Z) (block_hash : value)
    (d : D) : D :=
  foldl (λ d kv, raw_set_var d (pm_governance_contract m) "patches" [s_patch_id (e_record e); kv.1] kv.2)
    d (applied_fields e height nanos block_hash).

Definition apply_execution (m : StatePatchManager) (height nanos : Z) (block_hash : value) (e : PatchExecution)
  : stM D unit :=
  _ ← _apply_single_bundle e;
  modify_st (_mark_patch_applied m e height nanos block_hash).

Definition apply_patches_for_block (m : StatePatchManager) (height nanos : Z) (block_hash : value)
  : stM D (option string * list value) :=
  d ← get_st;
  executions ← lift_res (_build_executions m d height false);
  match executions with
  | [] => mret (None, [])
  | _ =>
    _ ← forM_st executions (apply_execution m height nanos block_hash);
    h ← lift_res (aggregate_hash executions);
    mret (Some h, to_payload_dict <$> executions)
  end.

(** ** What a patch may write *)

Definition change_keys (c : change) : list string :=
  ch_key c :: match source_of (ch_key c) with Some contract => [ir_key contract] | None => [] end.

Definition bundle_keys (b : StatePatchBundle) : list string := concat (change_keys <$> b_changes b).

Context `{!DriverLaws D} `{!RuntimeLaws D}.

Lemma sets_frame (d : D) writes q :
  q ∉ dict_keys writes -> drv_get (foldl (λ d w, drv_set d w.1 w.2) d writes) q = drv_get d q.
Proof.
  revert d. induction writes as [|[k v] writes IH]; intros d; [done|].
  cbn [foldl fst snd]. change (dict_keys ((k, v) :: writes)) with (k :: dict_keys writes).
  intros [Hk Hq]%not_elem_of_cons. rewrite IH by done. by apply drv_get_set_ne.
Qed.

Lemma change_writes_keys c w : change_writes c = Ok w -> dict_keys w = change_keys c.
Proof.
  unfold change_writes, change_keys. destruct (source_of (ch_key c)) as [contract|]; intros Hx; destruct_result.
  - by destruct a; destruct_result.
  - done.
Qed.

Lemma apply_change_frame c d q : q ∉ change_keys c -> drv_get (apply_change c d).2 q = drv_get d q.
Proof.
  intros Hq. unfold apply_change, mbind, stM_bind, lift_res, modify_st.
  destruct (change_writes c) as [w|] eqn:Ew; [|done]. cbn [snd]. apply sets_frame.
  by rewrite (change_writes_keys _ _ Ew).
Qed.

Lemma bundle_frame e d q : q ∉ bundle_keys (e_bundle e) -> drv_get (_apply_single_bundle e d).2 q = drv_get d q.
Proof.
  intros Hq. unfold _apply_single_bundle. apply (forM_st_inv (λ t, drv_get t q = drv_get d q)); [done|].
  intros c t Hc Ht. rewrite apply_change_frame; [done|]. intros Hin. apply Hq. unfold bundle_keys.
  apply list_elem_of_In, in_concat. exists (change_keys c). split; [|by apply list_elem_of_In].
  apply list_elem_of_In. by apply list_elem_of_fmap_2.
Qed.

(** The keys under which the contract records what happened to a patch. *)
Definition mark_key (m : StatePatchManager) (patch_id field : string) : string :=
  make_key (pm_governance_contract m) "patches" [patch_id; field].

Definition mark_keys (m : StatePatchManager) (patch_id : string) : list string :=
  mark_key m patch_id <$> ["status"; "applied_block_height"; "applied_block_hash"; "applied_at_nanos"; "execution_hash"].

(** Everything an execution may write. *)
Definition execution_keys (m : StatePatchManager) (e : PatchExecution) : list string :=
  bundle_keys (e_bundle e) ++ mark_keys m (s_patch_id (e_record e)).

Lemma marks_get m pid fields d q :
  drv_get (foldl (λ d kv, raw_set_var d (pm_governance_contract m) "patches" [pid; kv.1] kv.2) d fields) q =
    match dict_get q (reverse ((λ kv, (mark_key m pid kv.1, kv.2)) <$> fields)) with
    | Some v => v
    | None => drv_get d q
    end.
Proof.
  revert d. induction fields as [|[f v] fields IH] using rev_ind; intros d; [done|].
  rewrite foldl_snoc, fmap_app, reverse_app. cbn. rewrite raw_set_var_spec. fold (mark_key m pid f).
  destruct (decide (q = mark_key m pid f)); [done|]. apply IH.
Qed.

Lemma mark_frame m e height nanos bh d q :
  q ∉ mark_keys m (s_patch_id (e_record e)) ->
  drv_get (_mark_patch_applied m e height nanos bh d) q = drv_get d q.
Proof.
  intros Hq. unfold _mark_patch_applied. rewrite marks_get.
  destruct (dict_get q _) as [v|] eqn:Eg; [|done]. exfalso. apply Hq.
  apply dict_get_Some_elem, elem_of_reverse, list_elem_of_fmap in Eg as (kv & [= -> _] & Hin).
  unfold mark_keys. apply list_elem_of_fmap_2. apply (list_elem_of_fmap_2 fst) in Hin. exact Hin.
Qed.

(** ** Where an execution comes from *)

Lemma read_record_some m d height incl item r :
  read_record m d height incl item = Ok (Some r) ->
  let pid := s_patch_id r in
  pid = default "" (strip_prefix (scheduled_prefix m height) item.1) /\ truthy item.2 = true /\
  patch_var m d pid "status" = VStr (s_status r) /\ (s_status r = "approved" \/ s_status r = "applied" /\ incl = true) /\
  patch_var m d pid "bundle_hash" = VStr (s_bundle_hash r) /\
  equals_int (patch_var m d pid "activation_height") height = true /\
  s_activation_height r = patch_var m d pid "activation_height" /\
  s_governance_contract r = pm_governance_contract m.
Proof.
  destruct item as [key sched]. unfold read_record. destruct (truthy sched) eqn:Et; cbn [negb]; [|done].
  set (pid := default "" (strip_prefix (scheduled_prefix m height) key)).
  destruct (patch_var m d pid "status") as [| | |status| | | | | | |] eqn:Es; try done.
  destruct (bool_decide (status ∈ _)) eqn:Ei; cbn [negb]; [|done].
  destruct (bool_decide (status = "applied") && negb incl) eqn:Ea; [done|].
  destruct (as_int _) ; cbn [mbind result_bind]; [|done].
  destruct (patch_var m d pid "bundle_hash") as [| | |h| | | | | | |] eqn:Eh; try done.
  destruct (decide (h = "")); [done|]. cbn [mbind result_bind]. unfold check_py.
  destruct (equals_int _ _) eqn:Eh2; cbn [mbind result_bind raise]; [|done]. intros [= <-]. cbn.
  split_and!; try done. apply bool_decide_eq_true in Ei. apply andb_false_iff in Ea.
  apply elem_of_cons in Ei as [->| ->%list_elem_of_singleton]; [by left|]. right. split; [done|].
  destruct Ea as [Ea|Ea]; [by apply bool_decide_eq_false in Ea|by apply negb_false_iff in Ea].
Qed.

Lemma executions_elem m d height incl es e :
  _build_executions m d height incl = Ok es -> e ∈ es ->
  exists item, item ∈ raw_items d (scheduled_prefix m height) /\
    read_record m d height incl item = Ok (Some (e_record e)) /\ build_execution m (e_record e) = Ok e.
Proof.
  unfold _build_executions, _read_scheduled_patch_records. intros Hx Hin. destruct_result.
  match goal with Hm : mapM_py (build_execution m) _ = Ok es |- _ =>
    destruct (mapM_py_elem _ _ _ _ Hm Hin) as (r & Hr & Hb) end.
  rewrite sort_by_perm in Hr. apply list_elem_of_omap in Hr as (o & Ho & Hid). cbn in Hid. subst o.
  match goal with Hm : mapM_py (read_record _ _ _ _) _ = Ok _ |- _ =>
    destruct (mapM_py_elem _ _ _ _ Hm Ho) as (item & Hi & Hrd) end.
  assert (e_record e = r) as ->.
  { unfold build_execution in Hb. destruct (dict_get _ _); [|done]. by destruct_result. }
  by exists item.
Qed.

Lemma build_execution_ok m r e :
  build_execution m r = Ok e ->
  dict_get (s_patch_id r) (local_bundles m) = Some (e_bundle e) /\ e_record e = r /\
  b_bundle_hash (e_bundle e) = s_bundle_hash r /\ b_governance_contract (e_bundle e) = s_governance_contract r /\
  (b_chain_id (e_bundle e) = None \/ b_chain_id (e_bundle e) = pm_chain_id m).
Proof.
  unfold build_execution. destruct (dict_get _ _) as [b|]; [|done]. intros Hx. destruct_result. cbn [e_bundle e_record].
  unfold _validate_bundle_against_record, check_py in *.
  destruct (bool_decide (b_bundle_hash b = _)) eqn:V1; [|done]. cbn [mbind result_bind] in *.
  destruct (same_height _ _); [|done]. cbn [mbind result_bind] in *.
  destruct (bool_decide (b_governance_contract b = _)) eqn:V2; [|done]. cbn [mbind result_bind] in *.
  apply bool_decide_eq_true in V1, V2. split_and!; try done.
  destruct (b_chain_id b) as [c|]; [|by left]. right.
  destruct (bool_decide (pm_chain_id m = Some c)) eqn:V3; [|done]. apply bool_decide_eq_true in V3. congruence.
Qed.

(** Only the executions' own keys change, however far the application got. *)
Lemma apply_execution_frame m height nanos bh e d q :
  q ∉ execution_keys m e -> drv_get (apply_execution m height nanos bh e d).2 q = drv_get d q.
Proof.
  intros [Hb Hm]%not_elem_of_app. unfold apply_execution, mbind, stM_bind, modify_st.
  pose proof (bundle_frame e d q Hb) as Hf.
  destruct (_apply_single_bundle e d) as [[[]|] d1]; [|done]. cbn [snd] in *. by rewrite mark_frame.
Qed.

Lemma apply_patches_change m height nanos bh d q :
  drv_get (apply_patches_for_block m height nanos bh d).2 q <> drv_get d q ->
  exists es e, _build_executions m d height false = Ok es /\ e ∈ es /\ q ∈ execution_keys m e.
Proof.
  intros Hq. unfold apply_patches_for_block, mbind, stM_bind, get_st, lift_res in Hq.
  destruct (_build_executions m d height false) as [es|] eqn:Ee; [|done]. exists es.
  destruct (decide (Exists (λ e, q ∈ execution_keys m e) es)) as [He|Hn].
  - apply Exists_exists in He as (e & Hin & Hk). by exists e.
  - exfalso. apply Hq.
    assert (Hl : drv_get (forM_st es (apply_execution m height nanos bh) d).2 q = drv_get d q).
    { apply (forM_st_inv (λ t, drv_get t q = drv_get d q)); [done|]. intros e t He Ht.
      rewrite apply_execution_frame; [done|]. intros Hin. apply Hn, Exists_exists. by exists e. }
    destruct es as [|e es]; [done|]. destruct (forM_st _ _ d) as [[[]|] d1]; [|done].
    by destruct (aggregate_hash _).
Qed.

(** Claim C15. A block's patches write nothing governance did not approve: whatever the
    outcome, a key whose value changed belongs to an installed bundle that is scheduled at
    this height, whose status is approved and whose hash is the approved one, and is a key of
    one of its changes, the module derived from a patched source, or a field the contract
    records about the patch. *)
Theorem patch_writes_authorised m height nanos bh d r d' q :
  apply_patches_for_block m height nanos bh d = (r, d') -> drv_get d' q <> drv_get d q ->
  exists pid b,
    truthy (drv_get d (scheduled_prefix m height +:+ pid)) = true /\
    patch_var m d pid "status" = VStr "approved" /\
    equals_int (patch_var m d pid "activation_height") height = true /\
    patch_var m d pid "bundle_hash" = VStr (b_bundle_hash b) /\
    dict_get pid (local_bundles m) = Some b /\ b_governance_contract b = pm_governance_contract m /\
    (b_chain_id b = None \/ b_chain_id b = pm_chain_id m) /\
    (q ∈ bundle_keys b \/ q ∈ mark_keys m pid).
Proof.
  intros Ha Hq. assert (d' = (apply_patches_for_block m height nanos bh d).2) as Hd by (by rewrite Ha).
  rewrite Hd in Hq. destruct (apply_patches_change _ _ _ _ _ _ Hq) as (es & e & Hb & Hin & Hk). clear Ha Hd.
  destruct (executions_elem _ _ _ _ _ _ Hb Hin) as ([key sched] & Hit & Hr & Hx).
  destruct (read_record_some _ _ _ _ _ _ Hr) as (Hpid & Ht & Hs & Hst & Hh & Hact & _ & Hg).
  destruct (build_execution_ok _ _ _ Hx) as (Hl & _ & Hbh & Hbg & Hc). cbn [fst snd] in *.
  apply raw_items_spec in Hit as (Hp & Hv & _). unfold startswith in Hp.
  destruct (strip_prefix _ key) as [rest|] eqn:Ep; [|done]. cbn in Hpid. apply strip_prefix_Some in Ep as ->.
  exists (s_patch_id (e_record e)), (e_bundle e). rewrite <- Hpid in Hv. rewrite Hv.
  destruct Hst as [Hst|[_ [=]]]. rewrite Hst in Hs. split_and!; try done; try congruence.
  by apply elem_of_app in Hk.
Qed.

(** ** Protected keys *)

Definition policy_free (b : StatePatchBundle) : Prop := EXECUTION_POLICY_KEY ∉ bundle_keys b.

Lemma load_change_free file acc raw acc' :
  load_change file acc raw = Ok acc' -> EXECUTION_POLICY_KEY ∉ (ch_key <$> acc) ->
  EXECUTION_POLICY_KEY ∉ (ch_key <$> acc').
Proof.
  unfold load_change. intros Hx Hacc.
  repeat (case_match; try discriminate Hx). injection Hx as <-. rewrite fmap_app.
  apply not_elem_of_app. split; [done|]. cbn. intros Heq%list_elem_of_singleton. congruence.
Qed.

Lemma load_bundle_free m file text b : _load_bundle_file m file text = Ok b -> policy_free b.
Proof.
  unfold _load_bundle_file. intros Hx. destruct_result. cbn.
  assert (Hk : EXECUTION_POLICY_KEY ∉ (ch_key <$> a7)).
  { match goal with Hf : foldM_py (load_change file) [] _ = Ok a7 |- _ => revert Hf end.
    apply (foldM_py_inv (λ acc, EXECUTION_POLICY_KEY ∉ (ch_key <$> acc))); [apply not_elem_of_nil|].
    intros t x t' Ht _ Hstep. by eapply load_change_free. }
  unfold policy_free, bundle_keys. cbn [b_changes]. intros Hin.
  apply list_elem_of_In, in_concat in Hin as (ks & Hks & Hin).
  apply list_elem_of_In, list_elem_of_fmap in Hks as (c & -> & Hc). apply list_elem_of_In in Hin.
  apply elem_of_cons in Hin as [Heq|Hin].
  - apply Hk. rewrite Heq. by apply list_elem_of_fmap_2.
  - destruct (source_of (ch_key c)) as [con|]; [|by apply elem_of_nil in Hin].
    apply list_elem_of_singleton in Hin. symmetry in Hin. by apply dot_not_policy in Hin.
Qed.

Lemma load_patches_free files m0 m :
  load_patches files m0 = (Ok tt, m) -> forall pid b, dict_get pid (local_bundles m) = Some b -> policy_free b.
Proof.
  unfold load_patches. destruct files as [files|]; [|by intros [= <-] ? ?].
  destruct (foldM_py _ _ _) as [bundles|] eqn:Ef; [|done]. intros [= <-]. cbn [local_bundles with_bundles].
  revert Ef. apply (foldM_py_inv (λ bs, forall pid b, dict_get pid bs = Some b -> policy_free b)); [done|].
  intros t [file text] t' Ht _ Hs. unfold add_bundle in Hs. destruct_result. destruct (dict_mem _ _); [done|].
  destruct_result. intros pid b. rewrite dict_get_set. destruct (decide _); [intros [= <-]|by apply Ht].
  by eapply load_bundle_free.
Qed.

(** Whatever bundles an operator installs, no block's patches change the execution
    policy of the chain, even when their application fails half-way. *)
Lemma patches_policy files m0 m height nanos bh d r d' :
  load_patches files m0 = (Ok tt, m) -> apply_patches_for_block m height nanos bh d = (r, d') ->
  drv_get d' EXECUTION_POLICY_KEY = drv_get d EXECUTION_POLICY_KEY.
Proof.
  intros Hl Ha. assert (d' = (apply_patches_for_block m height nanos bh d).2) as -> by (by rewrite Ha).
  apply dec_stable. intros (es & e & Hb & Hin & Hk)%apply_patches_change.
  destruct (executions_elem _ _ _ _ _ _ Hb Hin) as (item & _ & _ & Hx).
  destruct (build_execution_ok _ _ _ Hx) as (Hloc & _).
  apply elem_of_app in Hk as [Hk|Hk]; [by eapply load_patches_free|].
  unfold mark_keys in Hk. apply list_elem_of_fmap in Hk as (f & Hf & _). symmetry in Hf. by apply make_key_not_policy in Hf.
Qed.

(** Patches are pending writes like any other: the disk is not touched. *)
Definition disk_eq (d d' : D) : Prop := forall q, drv_value_from_disk d' q = drv_value_from_disk d q.

#[global] Instance disk_eq_preorder : PreOrder disk_eq.
Proof. split; [done|]. intros a b c H1 H2 q. by rewrite H2. Qed.

Lemma sets_disk (d : D) writes : disk_eq d (foldl (λ d w, drv_set d w.1 w.2) d writes).
Proof.
  revert d. induction writes as [|[k v] writes IH]; intros d q; [done|]. cbn [foldl]. by rewrite IH, drv_set_disk.
Qed.

Lemma marks_disk m e height nanos bh d : disk_eq d (_mark_patch_applied m e height nanos bh d).
Proof.
  unfold _mark_patch_applied. generalize (applied_fields e height nanos bh) as fields. intros fields. revert d.
  induction fields as [|[k v] fields IH]; intros d q; [done|]. cbn [foldl]. by rewrite IH, raw_set_var_disk.
Qed.

Lemma keeps_patches_disk m height nanos bh : keeps disk_eq (apply_patches_for_block m height nanos bh).
Proof.
  unfold apply_patches_for_block, apply_execution, _apply_single_bundle, apply_change.
  pose proof sets_disk. pose proof marks_disk. keep.
Qed.

(** ** A patch is applied once *)

(** The keys a patch is governed by are its contract's. *)
Definition governance_free (m : StatePatchManager) : Prop :=
  forall pid b k, dict_get pid (local_bundles m) = Some b -> k ∈ bundle_keys b ->
    startswith (pm_governance_contract m +:+ ".") k = false.

Lemma mark_key_form m pid f :
  mark_key m pid f = pm_governance_contract m +:+ (".patches:" +:+ (pid +:+ (":" +:+ f))).
Proof. unfold mark_key. by rewrite make_key_spec. Qed.

Lemma status_key_inj m p1 p2 : mark_key m p1 "status" = mark_key m p2 "status" -> p1 = p2.
Proof.
  rewrite !mark_key_form. intros Heq%(inj (String.append _))%(inj (String.append _)).
  by apply str_app_inj_suffix in Heq as [? _].
Qed.

Lemma status_key_other m p1 p2 pre suf :
  String.length suf = 2%nat -> suf <> "us" -> mark_key m p1 "status" <> mark_key m p2 (pre +:+ suf).
Proof.
  intros Hlen Hsuf. rewrite !mark_key_form. intros Heq%(inj (String.append _))%(inj (String.append _)).
  change (":" +:+ "status") with (":stat" +:+ "us") in Heq. rewrite (str_app_assoc ":" pre suf), !str_app_assoc in Heq.
  apply str_app_inj_suffix in Heq as [_ Heq]; [by apply Hsuf|done].
Qed.

Lemma marked_status m e height nanos bh d pid :
  drv_get (_mark_patch_applied m e height nanos bh d) (mark_key m pid "status") =
    if decide (pid = s_patch_id (e_record e)) then VStr "applied" else drv_get d (mark_key m pid "status").
Proof.
  unfold _mark_patch_applied. rewrite marks_get. unfold applied_fields. set (p := s_patch_id (e_record e)).
  change (reverse _) with
    [(mark_key m p "execution_hash", VStr (e_execution_hash e)); (mark_key m p "applied_at_nanos", VInt nanos);
     (mark_key m p "applied_block_hash", bh); (mark_key m p "applied_block_height", VInt height);
     (mark_key m p "status", VStr "applied")].
  cbn [dict_get].
  rewrite (decide_False (P := mark_key m pid "status" = mark_key m p "execution_hash"))
    by (by apply (status_key_other m pid p "execution_ha" "sh")).
  rewrite (decide_False (P := mark_key m pid "status" = mark_key m p "applied_at_nanos"))
    by (by apply (status_key_other m pid p "applied_at_nan" "os")).
  rewrite (decide_False (P := mark_key m pid "status" = mark_key m p "applied_block_hash"))
    by (by apply (status_key_other m pid p "applied_block_ha" "sh")).
  rewrite (decide_False (P := mark_key m pid "status" = mark_key m p "applied_block_height"))
    by (by apply (status_key_other m pid p "applied_block_heig" "ht")).
  destruct (decide (pid = p)) as [->|Hne]; [by rewrite decide_True|].
  rewrite decide_False; [done|]. by intros ?%status_key_inj.
Qed.

Lemma scheduled_not_mark m height k pid :
  startswith (scheduled_prefix m height) k = true -> k ∉ mark_keys m pid.
Proof.
  intros Hk Hin. unfold mark_keys in Hin. apply list_elem_of_fmap in Hin as (f & -> & _).
  rewrite mark_key_form in Hk. unfold startswith, scheduled_prefix in Hk. by rewrite strip_prefix_same in Hk.
Qed.

Lemma scheduled_governed m height k :
  startswith (scheduled_prefix m height) k = true -> startswith (pm_governance_contract m +:+ ".") k = true.
Proof.
  unfold scheduled_prefix. change (".scheduled_patches:" +:+ py_int_str height +:+ ":") with
    ("." +:+ ("scheduled_patches:" +:+ py_int_str height +:+ ":")). rewrite str_app_assoc. apply startswith_weaken.
Qed.

Lemma status_governed m pid : startswith (pm_governance_contract m +:+ ".") (mark_key m pid "status") = true.
Proof.
  rewrite mark_key_form. change (".patches:" +:+ _) with ("." +:+ ("patches:" +:+ (pid +:+ (":" +:+ "status")))).
  rewrite str_app_assoc. apply startswith_app.
Qed.

Lemma governed_not_patched m e es height d incl k :
  governance_free m -> _build_executions m d height incl = Ok es -> e ∈ es ->
  startswith (pm_governance_contract m +:+ ".") k = true -> k ∉ bundle_keys (e_bundle e).
Proof.
  intros Hf Hb Hin Hk Hke. destruct (executions_elem _ _ _ _ _ _ Hb Hin) as (item & _ & _ & Hx).
  destruct (build_execution_ok _ _ _ Hx) as (Hl & _). rewrite (Hf _ _ _ Hl Hke) in Hk. done.
Qed.

(** What a successful run does to the schedule. *)
Lemma run_executions m height nanos bh es d d' :
  (forall e k, e ∈ es -> startswith (pm_governance_contract m +:+ ".") k = true -> k ∉ bundle_keys (e_bundle e)) ->
  forM_st es (apply_execution m height nanos bh) d = (Ok tt, d') ->
  (forall k, startswith (scheduled_prefix m height) k = true -> drv_get d' k = drv_get d k) /\
  (forall pid, drv_get d' (mark_key m pid "status") =
     if decide (pid ∈ (λ e, s_patch_id (e_record e)) <$> es) then VStr "applied"
     else drv_get d (mark_key m pid "status")).
Proof.
  revert d. induction es as [|e es IH]; intros d Hfree Hrun.
  - injection Hrun as <-. split; [done|]. intros pid. rewrite decide_False; [done|apply not_elem_of_nil].
  - cbn [forM_st] in Hrun. apply stM_bind_inv in Hrun as ([] & d1 & He & Hrest).
    destruct (IH d1 (λ e' k He', Hfree e' k (list_elem_of_further _ _ _ He')) Hrest) as [IHk IHs]. clear IH.
    assert (Hk1 : forall k, startswith (scheduled_prefix m height) k = true -> drv_get d1 k = drv_get d k).
    { intros k Hk. assert (d1 = (apply_execution m height nanos bh e d).2) as -> by (by rewrite He).
      apply apply_execution_frame, not_elem_of_app. split; [|by eapply scheduled_not_mark].
      apply Hfree; [left|by eapply scheduled_governed]. }
    split; [intros k Hk; by rewrite IHk, Hk1|]. intros pid. rewrite IHs.
    assert (Hs1 : drv_get d1 (mark_key m pid "status") =
      if decide (pid = s_patch_id (e_record e)) then VStr "applied" else drv_get d (mark_key m pid "status")).
    { unfold apply_execution in He. apply stM_bind_inv in He as ([] & d2 & Hb & Hm). injection Hm as <-.
      rewrite marked_status. destruct (decide _); [done|].
      assert (d2 = (_apply_single_bundle e d).2) as -> by (by rewrite Hb).
      apply bundle_frame, Hfree; [left|apply status_governed]. }
    rewrite Hs1. csimpl. destruct (decide (pid = s_patch_id (e_record e))) as [->|Hne].
    + rewrite (decide_True (P := _ ∈ _ :: _)) by left. by destruct (decide _).
    + destruct (decide (pid ∈ (λ e, s_patch_id (e_record e)) <$> es)) as [Hin|Hn].
      * rewrite decide_True; [done|by right].
      * rewrite decide_False; [done|]. intros [|]%elem_of_cons; done.
Qed.

Lemma patch_status m d pid : patch_var m d pid "status" = drv_get d (mark_key m pid "status").
Proof. apply raw_get_var_spec. Qed.

(** A skipped item stays skipped while its status is the same; an applied one is skipped. *)
Lemma read_record_none m d d' height item :
  let pid := default "" (strip_prefix (scheduled_prefix m height) item.1) in
  read_record m d height false item = Ok None -> patch_var m d' pid "status" = patch_var m d pid "status" ->
  read_record m d' height false item = Ok None.
Proof.
  destruct item as [key sched]. unfold read_record. cbn [fst]. destruct (truthy sched); cbn [negb]; [|done].
  intros Hx ->. destruct (patch_var m d _ "status"); try done.
  destruct (negb (bool_decide _)); [done|]. destruct (_ && _); [done|]. by destruct_result.
Qed.

Lemma read_record_applied m d height item :
  patch_var m d (default "" (strip_prefix (scheduled_prefix m height) item.1)) "status" = VStr "applied" ->
  read_record m d height false item = Ok None.
Proof. destruct item as [key sched]. unfold read_record. cbn [fst]. intros ->. by destruct (truthy sched). Qed.

Lemma executions_records m d height es items r :
  _build_executions m d height false = Ok es -> items ∈ raw_items d (scheduled_prefix m height) ->
  read_record m d height false items = Ok (Some r) -> s_patch_id r ∈ (λ e, s_patch_id (e_record e)) <$> es.
Proof.
  unfold _build_executions, _read_scheduled_patch_records. intros Hx Hin Hr. destruct_result.
  match goal with Hm : mapM_py (read_record _ _ _ _) _ = Ok _ |- _ =>
    destruct (mapM_py_elem_fwd _ _ _ _ Hm Hin) as (o & Ho & Hread) end.
  rewrite Hr in Hread. injection Hread as <-.
  match goal with Hm : mapM_py (build_execution m) _ = Ok es |- _ =>
    destruct (mapM_py_elem_fwd _ _ _ r Hm) as (e & He & Hb) end.
  { rewrite sort_by_perm. apply list_elem_of_omap. by exists (Some r). }
  destruct (build_execution_ok _ _ _ Hb) as (_ & <- & _). by apply (list_elem_of_fmap_2 (λ e, s_patch_id (e_record e))).
Qed.

Lemma executions_read m d height incl es :
  _build_executions m d height incl = Ok es ->
  exists rs, mapM_py (read_record m d height incl) (raw_items d (scheduled_prefix m height)) = Ok rs.
Proof. unfold _build_executions, _read_scheduled_patch_records. intros Hx. destruct_result. by eexists. Qed.

Lemma no_executions m d height :
  loaded m = true ->
  (forall item, item ∈ raw_items d (scheduled_prefix m height) -> read_record m d height false item = Ok None) ->
  _build_executions m d height false = Ok [].
Proof.
  intros Hl Hn. unfold _build_executions, _require_loaded, _read_scheduled_patch_records. rewrite Hl.
  rewrite (mapM_py_const _ _ None) by done. cbn [check_py mbind result_bind].
  assert (omap id (replicate (length (raw_items d (scheduled_prefix m height))) (None : option ScheduledPatchRecord)) = []) as ->.
  { by induction (length _) as [|n IH]. }
  done.
Qed.

(** A patch is applied at most once: when the patches of a height have been applied
    and none of them rewrote the schedule itself, applying that height again finds nothing to
    do and leaves the state as it is. *)
Theorem patches_applied_once m height nanos bh nanos2 bh2 d res d' :
  governance_free m -> apply_patches_for_block m height nanos bh d = (Ok res, d') ->
  apply_patches_for_block m height nanos2 bh2 d' = (Ok (None, []), d').
Proof.
  intros Hf Ha. unfold apply_patches_for_block in Ha. apply stM_bind_inv in Ha as (d0 & d1 & [= <- <-] & Ha).
  apply stM_bind_inv in Ha as (es & d1 & [= Hes <-] & Ha).
  assert (Hrun : forM_st es (apply_execution m height nanos bh) d = (Ok tt, d')).
  { destruct es as [|e es]; [by injection Ha as _ <-|].
    apply stM_bind_inv in Ha as ([] & d2 & Hrun & Ha). apply stM_bind_inv in Ha as (h & d3 & [= _ <-] & [= _ <-]). done. }
  clear Ha. destruct (run_executions _ _ _ _ _ _ _ (λ e k He, governed_not_patched _ _ _ _ _ _ k Hf Hes He) Hrun) as [Hk Hs].
  assert (Hl : loaded m = true).
  { unfold _build_executions, _require_loaded in Hes. by destruct (loaded m). }
  assert (Hn : _build_executions m d' height false = Ok []).
  { apply no_executions; [done|]. intros [k v] (Hp & Hv & Hne)%raw_items_spec.
    assert (Hin : (k, v) ∈ raw_items d (scheduled_prefix m height)) by (apply raw_items_spec; by rewrite <- Hk).
    assert (Hst := Hs (default "" (strip_prefix (scheduled_prefix m height) k))). rewrite <- !patch_status in Hst.
    destruct (decide (_ ∈ _)) as [Hin2|Hn]; [by apply read_record_applied|].
    apply (read_record_none m d); [|done]. destruct (executions_read _ _ _ _ _ Hes) as [rs Hm].
    destruct (mapM_py_elem_fwd _ _ _ _ Hm Hin) as ([r|] & _ & Hread); [|done].
    exfalso. apply Hn. destruct (read_record_some _ _ _ _ _ _ Hread) as (Hpid & _). cbn [fst] in Hpid. rewrite <- Hpid.
    by eapply executions_records. }
  unfold apply_patches_for_block, mbind, stM_bind, get_st, lift_res. by rewrite Hn.
Qed.
End StatePatches.

(** ** A sample patch *)

Definition sample_hash (b : bytes) : bytes := [Z.of_nat (length b) mod 256; foldl (λ acc x, (acc * 31 + x) mod 251) 7 b].

Definition sample_text (changes : list (string * value)) : string :=
  ok_or "" (dumps true (VDict [("version", VInt 1); ("patch_id", VStr "fix-1"); ("activation_height", VInt 5);
    ("changes", VList ((λ kv, VDict [("key", VStr kv.1); ("value", kv.2)]) <$> changes))])).

Definition empty_manager : StatePatchManager := PatchManager (Some "c") DEFAULT_GOVERNANCE_CONTRACT [] false.

Definition sample_files : option (list (string * string)) :=
  Some [("fix.json", sample_text [("con.x", VInt 2); ("con.__source__", VStr "code")])].

Definition sample_manager : StatePatchManager :=
  (load_patches sample_hash sample_files empty_manager).2.

Definition sample_bundle_hash : string :=
  default "" (b_bundle_hash <$> dict_get "fix-1" (local_bundles sample_manager)).

Definition sample_governed : mem_driver :=
  mem_apply_writes mem_empty
    [("governance.scheduled_patches:5:fix-1", VBool true);
     ("governance.patches:fix-1:status", VStr "approved"); ("governance.patches:fix-1:proposal_id", VInt 1);
     ("governance.patches:fix-1:bundle_hash", VStr sample_bundle_hash);
     ("governance.patches:fix-1:activation_height", VInt 5); ("con.x", VInt 1)].

Definition sample_apply (d : mem_driver) : result (option string * list value) * mem_driver :=
  apply_patches_for_block sample_hash (λ _, "") sample_manager 5 99 (VStr "bh") d.

Lemma sample_apply_eta d : sample_apply d = ((sample_apply d).1, (sample_apply d).2).
Proof. by destruct (sample_apply d). Qed.

Definition sample_patched : mem_driver := (sample_apply sample_governed).2.

Example sample_patched_ir : drv_get sample_patched "con.__xian_ir_v1__" = VTuple [VStr "con"; VStr "code"].
Proof. vm_compute. reflexivity. Qed.

Lemma patch_writes_authorised_witness :
  exists pid b, dict_get pid (local_bundles sample_manager) = Some b /\
    patch_var sample_manager sample_governed pid "bundle_hash" = VStr (b_bundle_hash b).
Proof.
  destruct (patch_writes_authorised sample_hash (λ _, "") sample_manager 5 99 (VStr "bh") sample_governed _ _ "con.x"
              (sample_apply_eta sample_governed)) as (pid & b & _ & _ & _ & Hh & Hb & _).
  - vm_compute. discriminate.
  - by exists pid, b.
Defined.

Lemma sample_governance_free : governance_free sample_manager.
Proof.
  intros pid b k Hb Hk. apply dict_get_Some_elem in Hb. vm_compute in Hb.
  apply list_elem_of_singleton in Hb. injection Hb as -> ->. vm_compute in Hk.
  repeat (apply elem_of_cons in Hk as [->|Hk]; [vm_compute; reflexivity|]). by apply elem_of_nil in Hk.
Qed.

Lemma patches_applied_once_witness :
  apply_patches_for_block sample_hash (λ _, "") sample_manager 5 100 (VStr "other") sample_patched =
    (Ok (None, []), sample_patched).
Proof.
  apply (patches_applied_once sample_hash (λ _, "") sample_manager 5 99 (VStr "bh") 100 (VStr "other") sample_governed
           (ok_or (None, []) (sample_apply sample_governed).1) sample_patched sample_governance_free).
  vm_compute. reflexivity.
Defined.

(** The approved hash does not bind the order of the changes, but the order decides
    what is written: two files with the same bundle hash that patch one contract's source
    under two keys leave different modules for it. *)
Theorem patch_order_not_bound (sha256 : bytes -> bytes) :
  let one := [("con.__source__", VStr "new"); ("con.__source__.old", VStr "old")] in
  let two := [("con.__source__.old", VStr "old"); ("con.__source__", VStr "new")] in
  let load := _load_bundle_file sha256 empty_manager "fix.json" in
  exists b1 b2 r,
    load (sample_text one) = Ok b1 /\ load (sample_text two) = Ok b2 /\ b_bundle_hash b1 = b_bundle_hash b2 /\
    drv_get (_apply_single_bundle (Execution r b1 "" []) mem_empty).2 (ir_key "con") <>
    drv_get (_apply_single_bundle (Execution r b2 "" []) mem_empty).2 (ir_key "con").
Proof.
  eexists _, _, (ScheduledPatch "fix-1" (VInt 1) "" (VInt 5) "governance" VNone VNone false "approved").
  split; [vm_compute; reflexivity|]. split; [vm_compute; reflexivity|]. split; [vm_compute; reflexivity|].
  vm_compute. discriminate.
Qed.
