(* ===== verification/Rewards.v ===== *)
(** * Rewards (src/src/xian/rewards.py)

    How the chi a transaction used is shared out: validators by their power and, within a
    validator, operator and delegators by their stake; the foundation; and the developers of
    the contracts that ran.  [build_tx_reward_outputs] is the handler the transaction
    processor calls.

    The operators of [decimal.Decimal] work in the ambient context, whose precision and
    rounding the runtime package installs, and [ContractingDecimal] belongs to that package:
    both are parameters.  Reward keys are the strings the contracts store. *)

From S2P Require Import Prelude PyValue Json PyBuiltins Driver Encoding ExecutionPolicy Nonce TxValidation Engine Processor.

Local Open Scope Z_scope.

Definition DUST_EXPONENT : Z := 8.

(** Arithmetic of [decimal.Decimal] in the ambient context; the operands are decimals or
    [int]s.  [num_round] is [round] of a contract number. *)
Class DecimalOps := {
  Decimal : string -> result value;
  dec_add : value -> value -> result value;
  dec_sub : value -> value -> result value;
  dec_mul : value -> value -> result value;
  dec_div : value -> value -> result value;
  dec_lt : value -> value -> result bool;
  dec_round : value -> Z -> result value;
  num_round : value -> Z -> result value;
}.

(** An entry of the reward records. *)
Record reward_record := RewardRecord {
  rr_type : string; rr_recipient_key : string; rr_source_contract : option string;
  rr_validator_key : option string; rr_delegator_key : option string; rr_value : value }.

Definition opt_str (s : option string) : value := match s with Some s => VStr s | None => VNone end.

Definition record_value (r : reward_record) : value :=
  VDict ([("type", VStr (rr_type r)); ("recipient_key", VStr (rr_recipient_key r));
          ("source_contract", opt_str (rr_source_contract r)); ("value", rr_value r)]
         ++ match rr_validator_key r with Some k => [("validator_key", VStr k)] | None => [] end
         ++ match rr_delegator_key r with Some k => [("delegator_key", VStr k)] | None => [] end).

Definition with_value (v : value) (r : reward_record) : reward_record :=
  RewardRecord (rr_type r) (rr_recipient_key r) (rr_source_contract r) (rr_validator_key r) (rr_delegator_key r) v.

(** Rewards by recipient, with the records they come from. *)
Definition reward_acc : Type := list (string * value) * list reward_record.

Section Rewards.
Context {D : Type} `{DriverOps D} `{PyArith} `{!Runtime D} `{DecimalOps}.
Context (py_str : value -> string).

(** [ContractingDecimal(str(v))] *)
Definition contracting (v : value) : result value := ContractingDecimal (VStr (py_str v)).

(** [m[k] += v] on a [defaultdict(lambda: ContractingDecimal("0"))]. *)
Definition bump (k : string) (v : value) (m : list (string * value)) : result (list (string * value)) :=
  old ← match dict_get k m with Some old => Ok old | None => ContractingDecimal (VStr "0") end;
  new ← num_add old v;
  Ok (dict_set k new m).

(** A [VDec] is a decimal, or the one a [ContractingDecimal] prints. *)
Definition _as_decimal (v : value) : result value :=
  v ← match v with VDict _ => py_item "__fixed__" v | _ => Ok v end;
  match v with VDec _ => Ok v | _ => Decimal (py_str v) end.

Definition dec_le (a b : value) : result bool := lt ← dec_lt b a; Ok (negb lt).

(** [calculate_participant_reward]: any failure counts as no reward. *)
Definition participant_reward (ratio : value) (participants : Z) (total_chi : value) : result value :=
  ratio ← match ratio with VDict _ => py_item "__fixed__" ratio | _ => Ok ratio end;
  ratio ← Decimal (py_str ratio);
  part ← dec_div ratio (VInt participants);
  total ← Decimal (py_str total_chi);
  reward ← dec_mul part total;
  dec_round reward DUST_EXPONENT.

Definition calculate_participant_reward (ratio : value) (participants : Z) (total_chi : value) : result value :=
  let participants := if participants =? 0 then 1 else participants in
  contracting (match participant_reward ratio participants total_chi with Ok r => r | Raise _ => VInt 0 end).

(** ** What the validators contract stores *)

Definition validators_var (d : D) (variable : string) (arguments : list string) : result value :=
  get_var d "validators" variable (VStr <$> arguments).

Definition _get_validator_power (d : D) (validator : string) : result value :=
  power ← validators_var d "powers" [validator];
  match power with
  | VNone => Decimal "1"
  | _ => normalized ← _as_decimal power;
         low ← dec_le normalized (VInt 0);
         if (low : bool) then Decimal "1" else Ok normalized
  end.

(** A stored key, or [default] when there is none. *)
Definition key_or (default : string) (v : value) : result string :=
  match v with VNone => Ok default | _ => s ← as_str v; Ok (if decide (s = "") then default else s) end.

Definition _get_validator_reward_key (d : D) (validator : string) : result string :=
  reward_key ← validators_var d "reward_keys" [validator]; key_or validator reward_key.

(** A commission between 0 and 10000 basis points. *)
Definition clamp_bps (normalized : value) : result value :=
  low ← dec_lt normalized (VInt 0);
  if (low : bool) then Decimal "0"
  else
    most ← Decimal "10000";
    high ← dec_lt most normalized;
    if (high : bool) then Decimal "10000" else Ok normalized.

Definition _get_validator_commission_bps (d : D) (validator : string) : result value :=
  commission ← validators_var d "commission_bps" [validator];
  match commission with
  | VNone => Decimal "0"
  | _ => normalized ← _as_decimal commission; clamp_bps normalized
  end.

(** A stored amount; absent and negative ones count as zero. *)
Definition stored_amount (v : value) : result value :=
  match v with
  | VNone => Decimal "0"
  | _ => normalized ← _as_decimal v;
         low ← dec_lt normalized (VInt 0);
         if (low : bool) then Decimal "0" else Ok normalized
  end.

Definition _get_validator_self_bond (d : D) (validator : string) : result value :=
  v ← validators_var d "self_bond" [validator]; stored_amount v.

Definition _get_validator_delegators (d : D) (validator : string) : result (list value) :=
  delegators ← validators_var d "delegator_lists" [validator];
  if negb (truthy delegators) then Ok [] else py_iter delegators.

Definition _get_validator_delegation (d : D) (delegator validator : string) : result value :=
  amount ← validators_var d "delegations" [delegator; validator]; stored_amount amount.

Definition _get_delegator_reward_key (d : D) (delegator validator : string) : result string :=
  reward_key ← validators_var d "delegator_reward_keys" [delegator; validator]; key_or delegator reward_key.

(** ** Splitting an amount *)

(** The loops over weights: every item but the last gets [part] of its weight, the last one
    what is left of [total]. *)
Fixpoint share_loop {A S} (part : value -> result value) (total : value) (body : A -> value -> S -> result S)
    (allocated : value) (items : list (A * value)) (s : S) : result S :=
  match items with
  | [] => Ok s
  | (a, w) :: rest =>
    match rest with
    | [] => share ← dec_sub total allocated; body a share s
    | _ => share ← part w;
           allocated ← dec_add allocated share;
           s ← body a share s;
           share_loop part total body allocated rest s
    end
  end.

(** [amount * weight / whole] *)
Definition proportion (amount whole weight : value) : result value := p ← dec_mul amount weight; dec_div p whole.

(** One reward: the amount for the recipient and its record. *)
Definition pay (r : reward_record) (share : value) (acc : reward_acc) : result reward_acc :=
  amount ← contracting share;
  mapping ← bump (rr_recipient_key r) amount acc.1;
  Ok (mapping, acc.2 ++ [with_value amount r]).

Definition validator_record (validator recipient : string) : reward_record :=
  RewardRecord "validator_reward" recipient None (Some validator) None VNone.
Definition delegator_record (validator delegator recipient : string) : reward_record :=
  RewardRecord "delegator_reward" recipient None (Some validator) (Some delegator) VNone.

(** The delegators with a stake, their reward keys and the total of the stakes. *)
Definition weigh_delegator (d : D) (validator : string) (acc : value * list ((string * string) * value)) (delegator : value)
  : result (value * list ((string * string) * value)) :=
  delegator ← as_str delegator;
  delegation ← _get_validator_delegation d delegator validator;
  none ← dec_le delegation (VInt 0);
  if (none : bool) then Ok acc
  else total ← dec_add acc.1 delegation;
       key ← _get_delegator_reward_key d delegator validator;
       Ok (total, acc.2 ++ [((delegator, key), delegation)]).

Definition pay_operator (validator operator_key : string) (operator_total : value) : result reward_acc :=
  pays ← dec_lt (VInt 0) operator_total;
  if (pays : bool) then pay (validator_record validator operator_key) operator_total ([], []) else Ok ([], []).

Definition operator_share (commission remainder self_bond stake_base : value) : result value :=
  bonded ← dec_lt (VInt 0) self_bond;
  if (bonded : bool) then part ← proportion remainder stake_base self_bond; dec_add commission part else Ok commission.

Definition build_single_validator_reward_outputs (d : D) (validator : string) (total_reward : value)
  : result reward_acc :=
  total_reward ← _as_decimal total_reward;
  operator_reward_key ← _get_validator_reward_key d validator;
  commission_bps ← _get_validator_commission_bps d validator;
  self_bond ← _get_validator_self_bond d validator;
  delegators ← _get_validator_delegators d validator;
  zero ← Decimal "0";
  '(total_delegated, delegator_weights) ← foldM_py (weigh_delegator d validator) (zero, []) delegators;
  stake_base ← dec_add self_bond total_delegated;
  none ← dec_le stake_base (VInt 0);
  if (none : bool) then
    amount ← contracting total_reward;
    Ok ([(operator_reward_key, amount)], [with_value amount (validator_record validator operator_reward_key)])
  else
    p ← dec_mul total_reward commission_bps;
    whole ← Decimal "10000";
    commission ← dec_div p whole;
    remainder ← dec_sub total_reward commission;
    operator_total ← operator_share commission remainder self_bond stake_base;
    acc ← pay_operator validator operator_reward_key operator_total;
    share_loop (proportion remainder stake_base) total_reward
      (λ dk share acc, pay (delegator_record validator dk.1 dk.2) share acc) operator_total delegator_weights acc.

(** A validator's part of the total. *)
Definition pay_validator (d : D) (validator : string) (share : value) (acc : reward_acc) : result reward_acc :=
  '(share_mapping, share_records) ← build_single_validator_reward_outputs d validator share;
  mapping ← foldM_py (λ m kv, bump kv.1 kv.2 m) acc.1 share_mapping;
  Ok (mapping, acc.2 ++ share_records).

Definition build_validator_set_reward_outputs (d : D) (total_chi_to_split participant_ratio : value)
    (validators : list value) (additional_chi_to_split : value) : result reward_acc :=
  total ← _as_decimal total_chi_to_split;
  ratio ← _as_decimal participant_ratio;
  p ← dec_mul total ratio;
  extra ← _as_decimal additional_chi_to_split;
  validator_total ← dec_add p extra;
  weighted_nodes ← mapM_py (λ v, s ← as_str v; power ← _get_validator_power d s; Ok (s, power)) validators;
  match weighted_nodes with
  | [] => Ok ([], [])
  | _ =>
    zero ← Decimal "0";
    total_weight ← foldM_py (λ t (n : string * value), dec_add t n.2) zero weighted_nodes;
    allocated ← Decimal "0";
    share_loop (proportion validator_total total_weight) validator_total (pay_validator d) allocated weighted_nodes ([], [])
  end.

(** ** Developers *)

Definition developer_record (source recipient : string) : reward_record :=
  RewardRecord "developer_reward" recipient (Some source) None None VNone.

Definition weigh_contract (acc : list (string * value)) (cw : string * value) : result (list (string * value)) :=
  weight ← _as_decimal cw.2;
  positive ← dec_lt (VInt 0) weight;
  Ok (if (positive : bool) then acc ++ [(cw.1, weight)] else acc).

(** A contract's part: to its developer, or redirected to the validators. *)
Definition pay_developer (d : D) (source_contract : string) (share : value) (acc : reward_acc * value)
  : result (reward_acc * value) :=
  recipient ← get_var d source_contract "__developer__" [];
  if negb (truthy recipient) || bool_decide (recipient = VStr "sys") then
    redirected ← dec_add acc.2 share;
    Ok (acc.1, redirected)
  else
    recipient ← as_str recipient;
    paid ← pay (developer_record source_contract recipient) share acc.1;
    Ok (paid, acc.2).

Definition find_developer_and_reward (d : D) (total_chi_to_split : value) (contract : string) (developer_ratio : value)
    (contract_costs : option (list (string * value))) : result (reward_acc * value) :=
  developer_ratio ← _as_decimal developer_ratio;
  total ← _as_decimal total_chi_to_split;
  developer_total ← dec_mul total developer_ratio;
  zero ← Decimal "0";
  weights ← foldM_py weigh_contract [] (sort_by fst (default [] contract_costs));
  one ← Decimal "1";
  let weights := match weights with [] => [(contract, one)] | _ => weights end in
  total_weight ← foldM_py (λ t (cw : string * value), dec_add t cw.2) (VInt 0) weights;
  allocated ← Decimal "0";
  share_loop (proportion developer_total total_weight) developer_total (pay_developer d) allocated weights (([], []), zero).

(** ** All parts of a transaction's reward *)

Record tx_rewards := TxRewards {
  tw_validator_mapping : list (string * value); tw_validator_records : list reward_record;
  tw_foundation_reward : value;
  tw_developer_mapping : list (string * value); tw_developer_records : list reward_record }.

Definition rewards_split (d : D) : result value := get_var d "rewards" "S" [VStr "value"].

(** The four ratios; a value that cannot be iterated counts as not set up. *)
Definition reward_ratios (v : value) : result (value * value * value * value) :=
  match py_iter v with
  | Ok [validator; burn; foundation; developer] => Ok (validator, burn, foundation, developer)
  | Ok _ => raise ValueError "wrong number of values to unpack (expected 4)"
  | Raise (Exn TypeError _) => raise OtherError
      "Driver could not get value for key rewards.S:value. Try setting up rewards."
  | Raise e => Raise e
  end.

(** [calculate_tx_output_rewards]; [None] is the tuple of four it returns when no split is
    stored, which no caller can unpack. *)
Definition calculate_tx_output_rewards (d : D) (total_chi_to_split : value) (contract : string)
    (contract_costs : option (list (string * value))) : result (option tx_rewards) :=
  split ← rewards_split d;
  if negb (truthy split) then Ok None
  else
    '(validator_ratio, _, foundation_ratio, developer_ratio) ← reward_ratios split;
    foundation_reward ← calculate_participant_reward foundation_ratio 1 total_chi_to_split;
    '((developer_mapping, developer_records), redirected) ←
      find_developer_and_reward d total_chi_to_split contract developer_ratio contract_costs;
    validators ← get_var d "validators" "active_validators" [];
    validators ← (if truthy validators then py_iter validators else Ok []);
    '(validator_mapping, validator_records) ←
      build_validator_set_reward_outputs d total_chi_to_split validator_ratio validators redirected;
    Ok (Some (TxRewards validator_mapping validator_records foundation_reward developer_mapping developer_records)).

Definition unpack_rewards (r : option tx_rewards) : result tx_rewards :=
  match r with
  | Some r => Ok r
  | None => raise ValueError "not enough values to unpack (expected 5, got 4)"
  end.

Definition balance_key (k : string) : string := "currency.balances:" +:+ k.

(** [rewards[bucket][k]] gets [v] added. *)
Definition add_to_bucket (k : string) (v : value) (bucket : list (string * value)) : result (list (string * value)) :=
  match dict_get k bucket with
  | None => Ok (dict_set k v bucket)
  | Some old => new ← num_add old v; Ok (dict_set k new bucket)
  end.

(** [ContractingDecimal(str(v / chi_rate))] *)
Definition in_currency (chi_rate v : value) : result value := q ← num_div v chi_rate; contracting q.

(** What [build_tx_reward_outputs] accumulates: the four buckets, the balance deltas and the
    records. *)
Record outputs := Outputs {
  ou_validator : list (string * value); ou_delegator : list (string * value);
  ou_foundation : list (string * value); ou_developer : list (string * value);
  ou_deltas : list (string * value); ou_records : list reward_record }.

Definition add_foundation (chi_rate : value) (owner : string) (foundation_reward : value) (o : outputs) : result outputs :=
  if negb (truthy foundation_reward) then Ok o
  else
    amount ← in_currency chi_rate foundation_reward;
    deltas ← bump (balance_key owner) amount (ou_deltas o);
    Ok (Outputs (ou_validator o) (ou_delegator o) (dict_set owner amount (ou_foundation o)) (ou_developer o) deltas
          (ou_records o ++ [RewardRecord "foundation_reward" owner None None None amount])).

Definition add_validator_record (chi_rate : value) (o : outputs) (r : reward_record) : result outputs :=
  amount ← in_currency chi_rate (rr_value r);
  let recipient := rr_recipient_key r in
  if decide (rr_type r = "delegator_reward") then
    bucket ← add_to_bucket recipient amount (ou_delegator o);
    deltas ← bump (balance_key recipient) amount (ou_deltas o);
    Ok (Outputs (ou_validator o) bucket (ou_foundation o) (ou_developer o) deltas (ou_records o ++ [with_value amount r]))
  else
    bucket ← add_to_bucket recipient amount (ou_validator o);
    deltas ← bump (balance_key recipient) amount (ou_deltas o);
    Ok (Outputs bucket (ou_delegator o) (ou_foundation o) (ou_developer o) deltas (ou_records o ++ [with_value amount r])).

Definition add_developer (chi_rate : value) (o : outputs) (kv : string * value) : result outputs :=
  amount ← in_currency chi_rate kv.2;
  bucket ← add_to_bucket kv.1 amount (ou_developer o);
  deltas ← bump (balance_key kv.1) amount (ou_deltas o);
  Ok (Outputs (ou_validator o) (ou_delegator o) (ou_foundation o) bucket deltas (ou_records o)).

Definition add_developer_record (chi_rate : value) (o : outputs) (r : reward_record) : result outputs :=
  amount ← in_currency chi_rate (rr_value r);
  Ok (Outputs (ou_validator o) (ou_delegator o) (ou_foundation o) (ou_developer o) (ou_deltas o)
        (ou_records o ++ [with_value amount r])).

Definition rewards_value (o : outputs) : value :=
  VDict [("validator_reward", VDict (ou_validator o)); ("delegator_reward", VDict (ou_delegator o));
         ("foundation_reward", VDict (ou_foundation o)); ("developer_reward", VDict (ou_developer o))].

Definition no_rewards (o : outputs) : bool :=
  bool_decide (ou_validator o = [] /\ ou_delegator o = [] /\ ou_foundation o = [] /\ ou_developer o = []).

(** [v in (None, 0)] *)
Definition none_or_zero (v : value) : bool :=
  match v with VNone => true | VInt _ | VBool _ | VFloat _ | VDec _ => negb (truthy v) | _ => false end.

Definition collect_outputs (chi_rate : value) (owner : string) (r : tx_rewards) : result outputs :=
  o ← add_foundation chi_rate owner (tw_foundation_reward r) (Outputs [] [] [] [] [] []);
  o ← foldM_py (add_validator_record chi_rate) o (tw_validator_records r);
  o ← foldM_py (add_developer chi_rate) o (tw_developer_mapping r);
  foldM_py (add_developer_record chi_rate) o (tw_developer_records r).

(** [build_tx_reward_outputs], as the processor calls it. *)
Definition build_tx_reward_outputs : rewards_handler (D := D) := λ d total_chi_to_split contract contract_costs,
  reward_split ← rewards_split d;
  if negb (truthy reward_split) || (total_chi_to_split <=? 0) then Ok (VNone, [], [])
  else
    chi_rate ← get_var d "chi_cost" "S" [VStr "value"];
    foundation_owner ← get_var d "foundation" "owner" [];
    if none_or_zero chi_rate || is_none foundation_owner then Ok (VNone, [], [])
    else
      r ← calculate_tx_output_rewards d (VInt total_chi_to_split) contract (Some contract_costs);
      r ← unpack_rewards r;
      owner ← as_str foundation_owner;
      o ← collect_outputs chi_rate owner r;
      Ok (if no_rewards o then (VNone, [], record_value <$> ou_records o)
          else (rewards_value o, ou_deltas o, record_value <$> ou_records o)).

(** ** Direct distribution

    [distribute_rewards] pays at once instead of reporting deltas. *)

(** [driver.get(key) or 0] *)
Definition balance_or_zero (d : D) (key : string) : value := py_or (drv_get d key) (VInt 0).

Definition pay_now (recipient : string) (amount : value) : stM D unit :=
  d ← get_st;
  sum ← lift_res (num_add (balance_or_zero d (balance_key recipient)) amount);
  after ← lift_res (num_round sum DUST_EXPONENT);
  modify_st (λ d, drv_set d (balance_key recipient) after).

Definition _distribute_validator_rewards (mapping : list (string * value)) (chi_cost : value) : stM D unit :=
  forM_st mapping (λ kv, q ← lift_res (num_div kv.2 chi_cost); pay_now kv.1 q).

Definition _distribute_foundation_reward (foundation_reward : value) : stM D unit :=
  d ← get_st;
  owner ← lift_res (as_str (drv_get d "foundation.owner"));
  pay_now owner foundation_reward.

Definition _distribute_developer_rewards (mapping : list (string * value)) (chi_cost : value) : stM D unit :=
  forM_st mapping (λ kv, q ← lift_res (num_div kv.2 chi_cost); q ← lift_res (num_round q DUST_EXPONENT); pay_now kv.1 q).

Definition distribute_rewards (chi_rewards_amount : Z) (chi_rewards_contract : string) : stM D unit :=
  d ← get_st;
  split ← lift_res (rewards_split d);
  if negb (truthy split) || (chi_rewards_amount <=? 0) then mret tt
  else
    r ← lift_res (calculate_tx_output_rewards d (VInt chi_rewards_amount) chi_rewards_contract None);
    r ← lift_res (unpack_rewards r);
    let chi_cost := drv_get d "chi_cost.S:value" in
    foundation_reward ← lift_res (num_div (tw_foundation_reward r) chi_cost);
    _ ← _distribute_validator_rewards (tw_validator_mapping r) chi_cost;
    _ ← _distribute_foundation_reward foundation_reward;
    _distribute_developer_rewards (tw_developer_mapping r) chi_cost.

(** ** The balance deltas *)

(** A dict of balances. *)
Definition balances (m : list (string * value)) : Prop :=
  NoDup (dict_keys m) /\ Forall (λ kv, exists k, kv.1 = balance_key k) m.

(** Payments added up by balance. *)
Definition add_up (m : list (string * value)) (payments : list (string * value)) : result (list (string * value)) :=
  foldM_py (λ m p, bump (balance_key p.1) p.2 m) m payments.

Definition payment (r : reward_record) : string * value := (rr_recipient_key r, rr_value r).

Lemma add_up_balances payments m m' : balances m -> add_up m payments = Ok m' -> balances m'.
Proof.
  intros Hm. apply foldM_py_inv; [done|]. intros t [k v] t' [Hn Hf] _ Hx. unfold bump in Hx. destruct_result.
  split; [by apply dict_set_nodup|]. apply dict_set_Forall; [by exists k|done].
Qed.

Lemma add_up_app m p1 p2 m1 m2 : add_up m p1 = Ok m1 -> add_up m1 p2 = Ok m2 -> add_up m (p1 ++ p2) = Ok m2.
Proof. intros H1' H2'. unfold add_up in *. by rewrite foldM_py_app, H1'. Qed.

Lemma add_up_one m k v m' : bump (balance_key k) v m = Ok m' -> add_up m [(k, v)] = Ok m'.
Proof. intros Hb. unfold add_up. cbn [foldM_py fst snd]. by rewrite Hb. Qed.

(** A record with its value converted at the chi rate, and the foundation's. *)
Definition priced (chi_rate : value) (r : reward_record) : result reward_record :=
  amount ← in_currency chi_rate (rr_value r); Ok (with_value amount r).
Definition foundation_record (chi_rate : value) (owner : string) (foundation_reward : value) : result (list reward_record) :=
  if truthy foundation_reward
  then amount ← in_currency chi_rate foundation_reward; Ok [RewardRecord "foundation_reward" owner None None None amount]
  else Ok [].

(** The records [l] were added, and each of them was paid. *)
Definition recorded (l : list reward_record) (o o' : outputs) : Prop :=
  ou_records o' = ou_records o ++ l /\ add_up (ou_deltas o) (payment <$> l) = Ok (ou_deltas o').

Lemma recorded_app l1 l2 o1 o2 o3 : recorded l1 o1 o2 -> recorded l2 o2 o3 -> recorded (l1 ++ l2) o1 o3.
Proof.
  intros (Hr1 & Hd1) (Hr2 & Hd2). split; [by rewrite Hr2, Hr1, <- (assoc_L (++))|]. rewrite fmap_app. by eapply add_up_app.
Qed.

Lemma foundation_recorded chi_rate owner f o o' :
  add_foundation chi_rate owner f o = Ok o' -> exists l, foundation_record chi_rate owner f = Ok l /\ recorded l o o'.
Proof.
  unfold add_foundation, foundation_record. destruct (truthy f); cbn [negb]; intros Hx.
  - destruct (in_currency chi_rate f) as [a|]; [|done]. cbn [mbind result_bind] in *. destruct_result.
    eexists. split; [done|]. split; [done|]. by apply add_up_one.
  - destruct_result. eexists. split; [done|]. split; [by rewrite app_nil_r|done].
Qed.

Lemma validator_recorded chi_rate o r o' :
  add_validator_record chi_rate o r = Ok o' -> exists r', priced chi_rate r = Ok r' /\ recorded [r'] o o'.
Proof.
  unfold add_validator_record, priced. intros Hx. destruct (in_currency chi_rate (rr_value r)) as [a|]; [|done].
  cbn [mbind result_bind] in *. eexists. split; [done|].
  case_decide; destruct_result; (split; [done|]); by apply add_up_one.
Qed.

Lemma validators_recorded chi_rate records o o' :
  foldM_py (add_validator_record chi_rate) o records = Ok o' ->
  exists l, mapM_py (priced chi_rate) records = Ok l /\ recorded l o o'.
Proof.
  revert o. induction records as [|r records IH]; intros o Hx; cbn [foldM_py mapM_py] in *.
  - injection Hx as <-. exists []. split; [done|]. split; [by rewrite app_nil_r|done].
  - destruct (add_validator_record chi_rate o r) as [o1|] eqn:Ea; [|done]. cbn [mbind result_bind] in Hx.
    destruct (validator_recorded _ _ _ _ Ea) as (r' & -> & Hr). destruct (IH _ Hx) as (l & -> & Hl). exists (r' :: l).
    split; [done|]. by apply (recorded_app [r'] l _ _ _ Hr Hl).
Qed.

(** The developers' stage pays by recipient. *)
Definition priced_entry (chi_rate : value) (kv : string * value) : result (string * value) :=
  amount ← in_currency chi_rate kv.2; Ok (kv.1, amount).

Lemma developers_paid chi_rate mapping o o' :
  foldM_py (add_developer chi_rate) o mapping = Ok o' ->
  exists paid, mapM_py (priced_entry chi_rate) mapping = Ok paid /\
    add_up (ou_deltas o) paid = Ok (ou_deltas o') /\ ou_records o' = ou_records o.
Proof.
  revert o. induction mapping as [|[k v] mapping IH]; intros o Hx; cbn [foldM_py mapM_py] in *.
  - injection Hx as <-. by exists [].
  - destruct (add_developer chi_rate o (k, v)) as [o1|] eqn:Ea; [|done]. cbn [mbind result_bind] in Hx.
    destruct (IH _ Hx) as (paid & Hm & Hd & Hr). unfold add_developer in Ea. change (priced_entry chi_rate (k, v)) with (a ← in_currency chi_rate v; Ok (k, a)). cbn [fst snd] in *.
    destruct (in_currency chi_rate v) as [a|]; [|done]. cbn [mbind result_bind] in Ea |- *.
    destruct (add_to_bucket k a _) as [b|]; [|done]. cbn [mbind result_bind] in Ea.
    destruct (bump _ a _) as [m|] eqn:Eb; [|done]. injection Ea as <-. cbn [ou_deltas ou_records] in *.
    exists ((k, a) :: paid). rewrite Hm. split_and!; [done| |done]. apply (add_up_app _ [(k, a)] paid _ _ (add_up_one _ _ _ _ Eb) Hd).
Qed.

Lemma developer_records_kept chi_rate records o o' :
  foldM_py (add_developer_record chi_rate) o records = Ok o' ->
  ou_deltas o' = ou_deltas o /\ exists l, mapM_py (priced chi_rate) records = Ok l /\ ou_records o' = ou_records o ++ l.
Proof.
  revert o. induction records as [|r records IH]; intros o Hx; cbn [foldM_py mapM_py] in *.
  - injection Hx as <-. split; [done|]. exists []. by rewrite app_nil_r.
  - destruct (add_developer_record chi_rate o r) as [o1|] eqn:Ea; [|done]. cbn [mbind result_bind] in Hx.
    destruct (IH _ Hx) as (Hd & l & Hl & Hr). unfold add_developer_record in Ea.
    change (priced chi_rate r) with (a ← in_currency chi_rate (rr_value r); Ok (with_value a r)).
    destruct (in_currency chi_rate (rr_value r)) as [a|]; [|done]. injection Ea as <-. cbn [ou_deltas ou_records] in *. split; [done|].
    exists (with_value a r :: l). rewrite Hl, Hr, <- (assoc_L (++)). done.
Qed.

(** What the payments of [r] are at the chi rate: the records that are paid one by one, the
    developers' records and the developers' totals. *)
Definition priced_rewards (chi_rate : value) (owner : string) (r : tx_rewards)
    (paid_records developer_records : list reward_record) (developer_totals : list (string * value)) : Prop :=
  exists foundation validators, foundation_record chi_rate owner (tw_foundation_reward r) = Ok foundation /\
    mapM_py (priced chi_rate) (tw_validator_records r) = Ok validators /\ paid_records = foundation ++ validators /\
    mapM_py (priced chi_rate) (tw_developer_records r) = Ok developer_records /\
    mapM_py (priced_entry chi_rate) (tw_developer_mapping r) = Ok developer_totals.

Lemma collect_paid chi_rate owner r o :
  collect_outputs chi_rate owner r = Ok o ->
  exists l1 l2 paid, priced_rewards chi_rate owner r l1 l2 paid /\ ou_records o = l1 ++ l2 /\
    add_up [] ((payment <$> l1) ++ paid) = Ok (ou_deltas o).
Proof.
  unfold collect_outputs. set (o0 := Outputs [] [] [] [] [] []). intros Hx.
  destruct (add_foundation _ _ _ o0) as [o1|] eqn:E1; [|done]. cbn [mbind result_bind] in Hx.
  destruct (foldM_py _ o1 _) as [o2|] eqn:E2; [|done]. cbn [mbind result_bind] in Hx.
  destruct (foldM_py _ o2 _) as [o3|] eqn:E3; [|done]. cbn [mbind result_bind] in Hx.
  destruct (foundation_recorded _ _ _ _ _ E1) as (lf & Hf & Rf). destruct (validators_recorded _ _ _ _ E2) as (lv & Hv & Rv).
  destruct (recorded_app _ _ _ _ _ Rf Rv) as [Hr1 Hd1]. destruct (developers_paid _ _ _ _ E3) as (paid & Hp & Hd2 & Hr2).
  destruct (developer_records_kept _ _ _ _ Hx) as (Hd3 & l2 & Hl2 & Hr3). exists (lf ++ lv), l2, paid. split_and!.
  - by exists lf, lv.
  - by rewrite Hr3, Hr2, Hr1.
  - rewrite Hd3. by eapply add_up_app.
Qed.

Lemma balances_policy m : balances m -> EXECUTION_POLICY_KEY ∉ dict_keys m.
Proof.
  intros [_ Hf] Hin. apply list_elem_of_fmap in Hin as ([k v] & Hk & Hin). rewrite Forall_forall in Hf.
  destruct (Hf _ Hin) as [k' Hk']. cbn in *. rewrite Hk' in Hk. unfold balance_key in Hk. discriminate Hk.
Qed.

Lemma outputs_balances chi_rate owner r o : collect_outputs chi_rate owner r = Ok o -> balances (ou_deltas o).
Proof. intros (l1 & l2 & paid & _ & _ & Hd)%collect_paid. eapply add_up_balances; [|done]. split; constructor. Qed.

Lemma build_outputs_inv d chi contract costs rewards deltas records :
  build_tx_reward_outputs d chi contract costs = Ok (rewards, deltas, records) ->
  deltas = [] \/
  exists r o chi_rate owner, 0 < chi /\ calculate_tx_output_rewards d (VInt chi) contract (Some costs) = Ok (Some r) /\
    get_var d "chi_cost" "S" [VStr "value"] = Ok chi_rate /\ get_var d "foundation" "owner" [] = Ok (VStr owner) /\
    collect_outputs chi_rate owner r = Ok o /\ deltas = ou_deltas o /\ records = record_value <$> ou_records o.
Proof.
  unfold build_tx_reward_outputs. intros Hx. destruct (rewards_split d) as [sp|]; [|done]. cbn [mbind result_bind] in Hx.
  destruct (_ || _) eqn:Eg; [injection Hx as <- <- <-; by left|]. apply orb_false_iff in Eg as [_ Hpos].
  destruct (get_var d "chi_cost" _ _) as [rate|]; [|done]. cbn [mbind result_bind] in Hx.
  destruct (get_var d "foundation" _ _) as [fo|] eqn:Ef; [|done]. cbn [mbind result_bind] in Hx.
  destruct (_ || _); [injection Hx as <- <- <-; by left|].
  destruct (calculate_tx_output_rewards _ _ _ _) as [[r|]|]; [|done..]. cbn [mbind result_bind unpack_rewards] in Hx.
  destruct (as_str fo) as [owner|] eqn:Es; [|done]. cbn [mbind result_bind] in Hx.
  assert (fo = VStr owner) as -> by (by destruct fo; simplify_eq/=).
  destruct (collect_outputs rate owner r) as [o|] eqn:Eo; [|done]. cbn [mbind result_bind] in Hx.
  destruct (no_rewards o); injection Hx as <- <- <-; [by left|]. right. exists r, o, rate, owner. split_and!; try done. lia.
Qed.

(** The handler keeps the promise the transaction processor relies on. *)
Lemma reward_handler_ok : handler_ok (Some (build_tx_reward_outputs)).
Proof.
  intros build d chi con costs rewards deltas records [= <-] Hx.
  destruct (build_outputs_inv _ _ _ _ _ _ _ Hx) as [->|(r & o & rate & owner & _ & _ & _ & _ & Ho & -> & _)].
  - split; [constructor|apply not_elem_of_nil].
  - pose proof (outputs_balances _ _ _ _ Ho) as Hb. split; [apply Hb|by apply balances_policy].
Qed.

(** Claim C22. The rewards of a transaction reach balances exactly as they were split: when the handler
    returns balance deltas, they are a dict of balances, each the sum in order of the
    foundation's reward, of every validator's and delegator's record and of every developer's
    total for that recipient, each divided by the chi rate; the records it reports are these
    rewards, one by one, at the same rate; and a transaction that used no chi gives none. *)
Theorem reward_deltas_correct d chi contract costs rewards deltas records :
  build_tx_reward_outputs d chi contract costs = Ok (rewards, deltas, records) -> deltas <> [] ->
  0 < chi /\ NoDup (dict_keys deltas) /\ (forall k, k ∈ dict_keys deltas -> exists recipient, k = balance_key recipient) /\
  exists r chi_rate owner paid_records developer_records developer_totals,
    calculate_tx_output_rewards d (VInt chi) contract (Some costs) = Ok (Some r) /\
    get_var d "chi_cost" "S" [VStr "value"] = Ok chi_rate /\ get_var d "foundation" "owner" [] = Ok (VStr owner) /\
    priced_rewards chi_rate owner r paid_records developer_records developer_totals /\
    records = record_value <$> paid_records ++ developer_records /\
    add_up [] ((payment <$> paid_records) ++ developer_totals) = Ok deltas.
Proof.
  intros Hx Hne.
  destruct (build_outputs_inv _ _ _ _ _ _ _ Hx) as [->|(r & o & rate & owner & Hpos & Hr & Hrate & Hown & Ho & -> & ->)]; [done|].
  destruct (outputs_balances _ _ _ _ Ho) as [Hn Hf]. split_and!; [done|done| |].
  - intros k Hk. apply list_elem_of_fmap in Hk as ([k' v] & -> & Hin). rewrite Forall_forall in Hf. by apply (Hf _ Hin).
  - destruct (collect_paid _ _ _ _ Ho) as (l1 & l2 & paid & Hp & Hrec & Hd). exists r, rate, owner, l1, l2, paid. by rewrite Hrec.
Qed.
End Rewards.

(** ** Integer arithmetic, for witnesses *)

#[local] Existing Instance int_arith.

#[global] Instance toy_decimals : DecimalOps := {|
  Decimal := toy_number;
  dec_add := int_op (λ a b, VInt (a + b)%Z);
  dec_sub := int_op (λ a b, VInt (a - b)%Z);
  dec_mul := int_op (λ a b, VInt (a * b)%Z);
  dec_div a b := match a, b with
                 | VInt a, VInt b => if decide (b = 0%Z) then raise OtherError "division by zero" else Ok (VInt (a / b)%Z)
                 | _, _ => raise TypeError "unsupported operand type(s)"
                 end;
  dec_lt := int_op Z.ltb;
  dec_round v _ := Ok v;
  num_round v _ := Ok v;
|}.

Definition toy_str (v : value) : string := match v with VInt z => py_int_str z | _ => "?" end.

Definition reward_state : mem_driver :=
  mem_apply_writes mem_empty
    [("rewards.S:value", VList [VInt 2; VInt 0; VInt 1; VInt 3]); ("chi_cost.S:value", VInt 1);
     ("foundation.owner:", VStr "foundation"); ("validators.active_validators:", VList [VStr "v1"; VStr "v2"]);
     ("validators.powers:v2", VInt 2); ("validators.self_bond:v2", VInt 1);
     ("validators.commission_bps:v2", VInt 0);
     ("validators.delegator_lists:v2", VList [VStr "alice"]); ("validators.delegations:alice:v2", VInt 2);
     ("con_a.__developer__:", VStr "dev"); ("con_b.__developer__:", VStr "sys")].

Definition sample_costs : list (string * value) := [("con_b", VInt 3); ("con_a", VInt 4)].

Definition sample_rewards : tx_rewards :=
  match calculate_tx_output_rewards toy_str reward_state (VInt 7) "con_a" (Some sample_costs) with
  | Ok (Some r) => r
  | _ => TxRewards [] [] VNone [] []
  end.

Example sample_reward_values :
  ((λ r, (rr_recipient_key r, rr_value r)) <$> tw_validator_records sample_rewards) =
    [("v1", VInt 7); ("v2", VInt 5); ("alice", VInt 11)] /\
  tw_developer_mapping sample_rewards = [("dev", VInt 12)] /\ tw_foundation_reward sample_rewards = VInt 7.
Proof. vm_compute. done. Qed.

Definition sample_outputs : value * list (string * value) * list value :=
  ok_or (VNone, [], []) (build_tx_reward_outputs toy_str reward_state 7%Z "con_a" sample_costs).

Example sample_deltas :
  sample_outputs.1.2 = [("currency.balances:foundation", VInt 7); ("currency.balances:v1", VInt 7);
                        ("currency.balances:v2", VInt 5); ("currency.balances:alice", VInt 11);
                        ("currency.balances:dev", VInt 12)].
Proof. vm_compute. reflexivity. Qed.

Lemma reward_deltas_correct_witness :
  exists r paid_records developer_records developer_totals,
    priced_rewards toy_str (VInt 1) "foundation" r paid_records developer_records developer_totals /\
    add_up [] ((payment <$> paid_records) ++ developer_totals) = Ok sample_outputs.1.2.
Proof.
  destruct (reward_deltas_correct toy_str reward_state 7%Z "con_a" sample_costs sample_outputs.1.1 sample_outputs.1.2
              sample_outputs.2) as (_ & _ & _ & r & rate & owner & l1 & l2 & paid & _ & Hrate & Hown & Hp & _ & Hd);
    [vm_compute; reflexivity|vm_compute; discriminate|].
  vm_compute in Hrate, Hown. injection Hrate as <-. injection Hown as <-. by exists r, l1, l2, paid.
Defined.
