(* ===== verification/FinalizeBlock.v ===== *)
(** * FinalizeBlock (src/src/xian/methods/finalize_block.py and _evidence.py)

    One block from the request to the response: decoding, execution, receipts and events,
    evidence penalties, the validator epoch, the commit boundary and the staging of the
    block's writes for Commit.

    The state is the application object together with the processor's cached chi cost and
    the prepared contracts; the processor works on the application's own driver.

    The scheduler of parallel execution and the native proof cache belong to other packages:
    the results of the former are the argument [parallel], the latter holds no state of the
    chain.  The payloads of the block data service are not consensus data: BdsHandover.v has them. *)

From S2P Require Import Prelude PyValue Json PyBuiltins Driver Encoding ExecutionPolicy FeePolicy StateRoot Nonce TxValidation Proposal Validators Block App Engine Processor StatePatches Rewards.

Definition SYSTEM_REBALANCE_SENDER : string := "__validator_epoch_driver__".
Definition SYSTEM_EVIDENCE_SENDER : string := "__evidence_penalty_driver__".

Record EventAttribute := Attribute { at_key : string; at_value : string; at_index : bool }.
Record Event := MkEvent { ev_type : string; ev_attributes : list EventAttribute }.
Record ExecTxResult := TxResult { tx_code : Z; tx_data : bytes; tx_events : list Event }.

(** [Misbehavior] of the request. *)
Record Misbehavior := MkMisbehavior {
  mb_type : Z; mb_address : bytes; mb_height : Z; mb_seconds : Z; mb_nanos : Z; mb_total_voting_power : Z }.

Record RequestFinalizeBlock := FinalizeRequest {
  rq_seconds : Z; rq_nanos : Z; rq_hash : bytes; rq_height : Z; rq_txs : list bytes;
  rq_misbehavior : list Misbehavior }.

Record ResponseFinalizeBlock := FinalizeResponse {
  rs_validator_updates : list ValidatorUpdate; rs_tx_results : list ExecTxResult; rs_app_hash : bytes }.

(** ** Results and events *)

Definition quoted (s : string) : string := String.string_of_list_ascii (json_string true s).

Definition _error_tx_result (message : string) : ExecTxResult :=
  TxResult ErrorCode (encode_utf8 ("{" +:+ quoted "error" +:+ ": " +:+ quoted message +:+ "}")) [].

(** [key.translate(STATE_CHANGE_TRANSLATION_TABLE)] *)
Fixpoint translate_key (s : string) : string :=
  match s with
  | EmptyString => ""
  | String c s => if decide (c = ascii_of_byte 46) then "_" +:+ translate_key s
                  else if decide (c = ascii_of_byte 58) then "__" +:+ translate_key s
                  else String c (translate_key s)
  end.

Section FinalizeBlock.
Context {D : Type} `{DriverOps D} `{PyArith} `{!Runtime D}.
Context (sha256 : bytes -> bytes) (py_str : value -> string) (float_trunc : string -> result Z)
        (float_le_zero : string -> bool)
        (verify_message : string -> string -> string -> result bool) (is_safe_contract_name : value -> bool)
        (fuel : nat) (config : app_config) (patches : StatePatchManager)
        (handler : option (rewards_handler (D := D))).

Definition _state_change_event (r : tx_receipt) : option Event :=
  match r_state r with
  | [] => None
  | state => Some (MkEvent "StateChange"
                     ((λ w, Attribute (translate_key w.1) (str_of_value py_str w.2) false) <$> state))
  end.

(** [(contract_event.get(k, {})).items()] *)
Definition event_items (contract_event : value) (k : string) : result (list (string * value)) :=
  v ← py_dot_get contract_event k (VDict []);
  match v with VDict d => Ok d | _ => raise AttributeError "object has no attribute 'items'" end.

Definition _contract_event_attributes (contract_event : value) : result (list EventAttribute) :=
  let field k := v ← py_dot_get contract_event k (VStr "");
                 Ok (Attribute k (str_of_value py_str v) true) in
  contract ← field "contract"; signer ← field "signer"; caller ← field "caller";
  indexed ← event_items contract_event "data_indexed";
  data ← event_items contract_event "data";
  let attribute index kv := Attribute kv.1 (str_of_value py_str (stringify_decimals kv.2)) index in
  Ok ([contract; signer; caller] ++ map (attribute true) indexed ++ map (attribute false) data).

Definition _build_tx_events (r : tx_receipt) : result (list Event) :=
  if negb (r_status r =? 0) then Ok []
  else
    contract_events ← mapM_py (λ e, type ← py_dot_get e "event" (VStr "ContractEvent");
                                    attributes ← _contract_event_attributes e;
                                    Ok (MkEvent (str_of_value py_str type) attributes)) (r_events r);
    Ok (match _state_change_event r with Some e => [e] | None => [] end ++ contract_events).

(** ** State *)

Record node := Node { n_app : app (D := D); n_chi_cost : value; n_prepared : prepared_cache }.

Definition on_app {A} (m : stM (app (D := D)) A) : stM node A := λ n,
  let '(r, a) := m (n_app n) in (r, Node a (n_chi_cost n) (n_prepared n)).

Definition on_driver {A} (m : stM D A) : stM node A := λ n,
  let '(r, d) := m (raw_driver (n_app n)) in
  (r, Node (App.with_driver d (n_app n)) (n_chi_cost n) (n_prepared n)).

Definition on_processor {A} (m : stM (processor (D := D)) A) : stM node A := λ n,
  let '(r, p) := m (Processor (raw_driver (n_app n)) (n_chi_cost n) (n_prepared n)) in
  (r, Node (App.with_driver (p_driver p) (n_app n)) (cached_chi_cost p) (prepared_contracts p)).

(** [self.tx_processor.process_tx] *)
Definition process (tx : value) (h : option (rewards_handler (D := D))) (policy : TxFeePolicy) : stM node tx_response :=
  on_processor (process_tx py_str float_trunc fuel tx h (Some policy) false).

(** ** Epochs and evidence *)

Definition _safe_positive_int (v : value) (default_value : Z) : result Z :=
  match py_int float_trunc v with
  | Ok z => Ok (if z <=? 0 then default_value else z)
  | Raise (Exn TypeError _) | Raise (Exn ValueError _) => Ok default_value
  | Raise e => Raise e
  end.

(** A transaction the node sends itself. *)
Definition system_tx (sender function : string) (kwargs : list (string * value)) (signature : string)
    (meta : block_meta) : value :=
  VDict [("payload", VDict [("sender", VStr sender); ("contract", VStr "validators"); ("function", VStr function);
                            ("kwargs", VDict kwargs); ("chi_supplied", VInt 0)]);
         ("metadata", VDict [("signature", VStr signature)]); ("b_meta", meta_value meta)].

Definition block_meta_of (n : node) : result block_meta :=
  match current_block_meta (n_app n) with
  | Some m => Ok m
  | None => raise TypeError "'NoneType' object is not subscriptable"
  end.

Definition epoch_due (d : D) (height : Z) : result bool :=
  match drv_get d "validators.config:selection_mode" with
  | VNone => Ok false
  | mode =>
    if decide (mode = VStr "manual") then Ok false
    else
      interval ← _safe_positive_int (drv_get d "validators.config:rebalance_interval") 1;
      match drv_get d "validators.last_rebalance_epoch" with
      | VNone => Ok true
      | last => num_lt last (VInt (height / interval))
      end
  end.

(** [_maybe_run_validator_epoch_rebalance]; the second component tells whether state changed. *)
Definition _maybe_run_validator_epoch_rebalance (height : Z) : stM node (option tx_receipt * bool) :=
  n ← get_st;
  due ← lift_res (epoch_due (raw_driver (n_app n)) height);
  if negb (due : bool) then mret (None, false)
  else
    meta ← lift_res (block_meta_of n);
    result ← process (system_tx SYSTEM_REBALANCE_SENDER "rebalance" []
                        ("validator-epoch-rebalance:" +:+ py_int_str height) meta) None system_unmetered;
    mret (tx_result result,
          match tx_result result with
          | Some r => (r_status r =? 0) && negb (bool_decide (r_state r = []))
          | None => false
          end).

(** [_validator_consensus_address]: [None] when the key is not hexadecimal. *)
Definition _validator_consensus_address (pubkey : value) : result (option bytes) :=
  s ← as_str pubkey;
  Ok (match fromhex s with Ok b => Some (take 20 (sha256 b)) | Raise _ => None end).

Fixpoint find_validator (validator_address : bytes) (known_validators : list value) : result (option value) :=
  match known_validators with
  | [] => Ok None
  | v :: l =>
    consensus_address ← _validator_consensus_address v;
    if decide (consensus_address = Some validator_address) then Ok (Some v) else find_validator validator_address l
  end.

Definition _resolve_misbehaving_validator_key (d : D) (validator_address : bytes) : result (option value) :=
  match validator_address with
  | [] => Ok None
  | _ =>
    known ← py_iter (py_or (drv_get d "validators.validator_registry")
                       (py_or (drv_get d "validators.active_validators") (VList [])));
    find_validator validator_address known
  end.

Definition _misbehavior_type_name (raw_type : Z) : option string :=
  if raw_type =? 1 then Some "DUPLICATE_VOTE"
  else if raw_type =? 2 then Some "LIGHT_CLIENT_ATTACK"
  else None.

Definition _misbehavior_evidence_id (m : Misbehavior) (type_name validator_key : string) : string :=
  sha256_hex (type_name +:+ ":" +:+ validator_key +:+ ":" +:+ bytes_hex (mb_address m) +:+ ":"
              +:+ py_int_str (mb_height m) +:+ ":" +:+ py_int_str (mb_seconds m) +:+ ":"
              +:+ py_int_str (mb_nanos m) +:+ ":" +:+ py_int_str (mb_total_voting_power m)).

Definition penalty_tx (m : Misbehavior) (type_name : string) (validator_key : value) (meta : block_meta) : value :=
  let evidence_id := _misbehavior_evidence_id m type_name (str_of_value py_str validator_key) in
  system_tx SYSTEM_EVIDENCE_SENDER "apply_evidence_penalty"
    [("member", validator_key); ("infraction_type", VStr type_name); ("evidence_id", VStr evidence_id);
     ("evidence_height", VInt (mb_height m))] ("evidence-penalty:" +:+ evidence_id) meta.

(** One entry of the evidence: whether its penalty wrote state. *)
Definition apply_penalty (m : Misbehavior) : stM node bool :=
  match _misbehavior_type_name (mb_type m) with
  | None => mret false
  | Some infraction_type =>
    n ← get_st;
    validator_key ← lift_res (_resolve_misbehaving_validator_key (raw_driver (n_app n)) (mb_address m));
    match validator_key with
    | None => mret false
    | Some key =>
      meta ← lift_res (block_meta_of n);
      result ← process (penalty_tx m infraction_type key meta) None system_unmetered;
      mret (match tx_result result with
            | Some r => (r_status r =? 0) && negb (bool_decide (r_state r = []))
            | None => false
            end)
    end
  end.

Definition maybe_apply_evidence_penalties (req : RequestFinalizeBlock) : stM node bool :=
  applied ← mapM_st apply_penalty (rq_misbehavior req);
  mret (existsb id applied).

Definition _apply_evidence_and_epoch_rebalance (req : RequestFinalizeBlock) (height : Z) : stM node unit :=
  _ ← maybe_apply_evidence_penalties req;
  _ ← _maybe_run_validator_epoch_rebalance height;
  mret tt.

(** ** The block *)

Definition _initialize_block (req : RequestFinalizeBlock) (n : node) : (Z * string) * node :=
  let nanos := get_nanotime_from_block_time (rq_seconds req) (rq_nanos req) in
  let block_hash := convert_binary_to_hex (rq_hash req) in
  let a := n_app n in
  let meta := BlockMeta nanos (rq_height req) block_hash (cfg_chain_id config) in
  ((nanos, block_hash),
   Node (App (nonce_storage a) (state_root_cache a) (merkle_root_hash a) (Some meta)
             (_pending_commit_driver_state a) (latest_block_mirror a))
        VNone (n_prepared n)).

Inductive processed_entry :=
  | ProcessedError (result : ExecTxResult)
  | ProcessedTx (block_tx_index : Z) (tx : value) (tx_bytes : bytes) (receipt : tx_receipt).

(** The response for one decoded transaction: the next of the parallel results, or the
    processor's; [None] when it raised. *)
Definition entry_of (block_tx_index : Z) (tx : value) (tx_bytes : bytes) (response : result tx_response)
  : processed_entry :=
  match response with
  | Raise e => ProcessedError (_error_tx_result ("Error processing tx: " +:+ exn_msg e))
  | Ok r => match tx_result r with
            | None => ProcessedError (_error_tx_result "Transaction processor returned no tx_result")
            | Some receipt => ProcessedTx block_tx_index tx tx_bytes receipt
            end
  end.

(** [except Exception]: the exception as a value. *)
Definition catching {A} (m : stM node A) : stM node (result A) := λ n,
  let '(r, n) := m n in (Ok r, n).

(** The loop of [_execute_block_transactions]; [processed] are the parallel results that are
    left, if there are any. *)
Fixpoint execute_entries (index : Z) (processed : option (list tx_response)) (entries : list decoded_entry)
  : stM node (list processed_entry) :=
  match entries with
  | [] => mret []
  | EntryError message _ :: entries =>
    rest ← execute_entries (index + 1) processed entries;
    mret (ProcessedError (_error_tx_result message) :: rest)
  | EntryTx tx tx_bytes :: entries =>
    response ← match processed with
               | Some [] => mret (raise OtherError "")
               | Some (r :: _) => mret (Ok r)
               | None => catching (process tx handler (cfg_tx_fee_policy config))
               end;
    rest ← execute_entries (index + 1) (match processed with Some l => Some (tail l) | None => None end) entries;
    mret (entry_of index tx tx_bytes response :: rest)
  end.

Definition _execute_block_transactions (entries : list decoded_entry) (processed : option (list tx_response))
  : stM node (list processed_entry) := execute_entries 0 processed entries.

(** One receipt: the nonce is taken, the receipt encoded. *)
Definition assemble_entry (e : processed_entry) : stM node ExecTxResult :=
  match e with
  | ProcessedError r => mret r
  | ProcessedTx _ tx _ receipt =>
    if decide (r_hash receipt = "") then mret (_error_tx_result "Transaction processor returned no tx hash")
    else
      _ ← on_app (on_nonces (set_nonce_by_tx tx));
      parsed_tx_result ← lift_res (encode_abci_json (receipt_value receipt));
      events ← lift_res (_build_tx_events receipt);
      mret (TxResult (r_status receipt) parsed_tx_result events)
  end.

Definition _assemble_tx_results (entries : list processed_entry) : stM node (list ExecTxResult) :=
  mapM_st assemble_entry entries.

Definition _prepare_commit_boundary (height nanos : Z) (block_hash : string) : stM node (list ValidatorUpdate) :=
  validator_updates ← on_driver (build_validator_updates float_trunc float_le_zero);
  _ ← on_driver (apply_patches_for_block sha256 py_str patches height nanos (VStr block_hash));
  _ ← on_app (prepare_root sha256);
  mret validator_updates.

(** What happens between decoding and the commit boundary. *)
Definition execute_block (req : RequestFinalizeBlock) (meta : block_meta)
    (parallel : list value -> stM node (option (list tx_response))) : stM node (list ExecTxResult) :=
  n ← get_st;
  let '(decoded_entries, decoded_txs) :=
    _decode_block_transactions verify_message is_safe_contract_name float_trunc config
      (get_nonce (raw_driver (n_app n))) (meta_value meta) (rq_txs req) in
  processed_results ← parallel decoded_txs;
  processed_entries ← _execute_block_transactions decoded_entries processed_results;
  tx_results ← _assemble_tx_results processed_entries;
  _ ← _apply_evidence_and_epoch_rebalance req (rq_height req);
  mret tx_results.

(** Everything before the block's writes are staged. *)
Definition finalize_prefix (parallel : list value -> stM node (option (list tx_response)))
    (req : RequestFinalizeBlock) (nanos : Z) (block_hash : string)
  : stM node (list ExecTxResult * list ValidatorUpdate) :=
  n ← get_st;
  meta ← lift_res (block_meta_of n);
  tx_results ← execute_block req meta parallel;
  validator_updates ← _prepare_commit_boundary (rq_height req) nanos block_hash;
  mret (tx_results, validator_updates).

Definition finalize_block_body (parallel : list value -> stM node (option (list tx_response)))
    (req : RequestFinalizeBlock) (nanos : Z) (block_hash : string) : stM node ResponseFinalizeBlock :=
  '(tx_results, validator_updates) ← finalize_prefix parallel req nanos block_hash;
  _ ← on_app _stage_pending_commit_driver_state;
  n ← get_st;
  mret (FinalizeResponse validator_updates tx_results (default [] (merkle_root_hash (n_app n)))).

(** [finalize_block] *)
Definition finalize_block (parallel : list value -> stM node (option (list tx_response)))
    (req : RequestFinalizeBlock) : stM node ResponseFinalizeBlock := λ n,
  let '((nanos, block_hash), n) := _initialize_block req n in
  finalize_block_body parallel req nanos block_hash n.

(** [Xian.finalize_block] (xian_abci.py): an exception discards what was staged. *)
Definition finalize_block_method (parallel : list value -> stM node (option (list tx_response)))
    (req : RequestFinalizeBlock) : stM node ResponseFinalizeBlock := λ n,
  match finalize_block parallel req n with
  | (Ok r, n) => (Ok r, n)
  | (Raise e, n) => (Raise e, Node (finalize_failed sha256 (n_app n)) (n_chi_cost n) (n_prepared n))
  end.

(** ** What the steps of a block leave alone *)

Context `{!DriverLaws D} `{!RuntimeLaws D}.

(** The disk and everything of the application but the pending writes, the nonces and the root. *)
Record base_eq (n n' : node) : Prop := {
  be_disk q : disk (n_app n') q = disk (n_app n) q;
  be_cache : state_root_cache (n_app n') = state_root_cache (n_app n);
  be_staged : _pending_commit_driver_state (n_app n') = _pending_commit_driver_state (n_app n);
  be_meta : current_block_meta (n_app n') = current_block_meta (n_app n);
}.

#[global] Instance base_eq_preorder : PreOrder base_eq.
Proof.
  split; [by split|]. intros a b c [H1 H2 H3 H4] [G1 G2 G3 G4].
  split; [intros q; by rewrite G1|congruence..].
Qed.

(** The entry of the execution policy. *)
Definition policy_eq (n n' : node) : Prop :=
  drv_get (raw_driver (n_app n')) EXECUTION_POLICY_KEY = drv_get (raw_driver (n_app n)) EXECUTION_POLICY_KEY.

#[global] Instance policy_eq_preorder : PreOrder policy_eq.
Proof. split; [done|]. intros a b c H1 H2. unfold policy_eq in *. by rewrite H2. Qed.

Definition frame (n n' : node) : Prop := base_eq n n' /\ policy_eq n n'.

#[global] Instance frame_preorder : PreOrder frame.
Proof.
  split; [by split|]. intros a b c [H1 H2] [G1 G2]. split; [by transitivity b|]. unfold policy_eq in *. congruence.
Qed.

(** A method of the driver that keeps its disk and its policy entry. *)
Lemma keeps_on_driver {A} (m : stM D A) :
  (forall d q, drv_value_from_disk (m d).2 q = drv_value_from_disk d q) ->
  (forall d, drv_get (m d).2 EXECUTION_POLICY_KEY = drv_get d EXECUTION_POLICY_KEY) ->
  keeps frame (on_driver m).
Proof.
  intros Hd Hp [a k c]. unfold on_driver. cbn [n_app].
  specialize (Hd (raw_driver a)). specialize (Hp (raw_driver a)). destruct (m (raw_driver a)) as [r d]. cbn [snd] in *.
  split; [split; try done; intros q; apply Hd|exact Hp].
Qed.

Context (handler_fine : handler_ok handler).

Lemma handler_none_ok : handler_ok (D := D) None.
Proof. by intros ? ? ? ? ? ? ? ?. Qed.

Lemma keeps_process tx h policy : handler_ok h -> keeps frame (process tx h policy).
Proof.
  intros Hh [a k c]. unfold process, on_processor. cbn [n_app n_chi_cost n_prepared].
  set (p := Processor (raw_driver a) k c).
  pose proof (process_tx_disk py_str float_trunc fuel tx h policy false p) as Hd.
  pose proof (process_tx_policy py_str float_trunc fuel tx h policy false p) as Hp.
  destruct (process_tx py_str float_trunc fuel tx h (Some policy) false p) as [r p']. cbn [snd] in Hd.
  specialize (Hp r p' Hh eq_refl).
  split; [split; try done; intros q; apply Hd|exact Hp].
Qed.

Lemma keeps_system tx policy : keeps frame (process tx None policy).
Proof. apply keeps_process, handler_none_ok. Qed.

Lemma keeps_catching {A} (m : stM node A) : keeps frame m -> keeps frame (catching m).
Proof. intros Hm n. specialize (Hm n). unfold catching. by destruct (m n) as [r n']. Qed.

Lemma nonce_key_not_policy sender : nonce_key sender <> EXECUTION_POLICY_KEY.
Proof. unfold nonce_key. intros Heq. discriminate Heq. Qed.

Lemma keeps_set_nonce tx : keeps frame (on_app (on_nonces (set_nonce_by_tx tx))).
Proof.
  intros [a k c]. unfold on_app, on_nonces, set_nonce_by_tx, mbind, stM_bind, lift_res, set_nonce, modify_st.
  cbn [n_app n_chi_cost n_prepared]. destruct (tx_sender tx) as [sender|]; [|by repeat split].
  destruct (tx_field "nonce" tx) as [v|]; [|by repeat split].
  split; [split; try done|].
  - intros q. apply drv_set_disk.
  - apply drv_get_set_ne. intros Heq. symmetry in Heq. by apply nonce_key_not_policy in Heq.
Qed.

#[local] Hint Resolve keeps_process keeps_system keeps_catching keeps_set_nonce : keeps.

Lemma keeps_rebalance height : keeps frame (_maybe_run_validator_epoch_rebalance height).
Proof. unfold _maybe_run_validator_epoch_rebalance. keep. Qed.

Lemma keeps_penalty m : keeps frame (apply_penalty m).
Proof. unfold apply_penalty. keep. Qed.

Lemma keeps_evidence req height : keeps frame (_apply_evidence_and_epoch_rebalance req height).
Proof.
  unfold _apply_evidence_and_epoch_rebalance, maybe_apply_evidence_penalties.
  pose proof keeps_rebalance. pose proof keeps_penalty. keep.
Qed.

Lemma keeps_execute index processed entries : keeps frame (execute_entries index processed entries).
Proof.
  revert index processed. induction entries as [|[tx b|msg b] entries IH]; intros index processed; cbn [execute_entries];
    keep.
Qed.

Lemma keeps_assemble entries : keeps frame (_assemble_tx_results entries).
Proof.
  unfold _assemble_tx_results, assemble_entry. keep.
Qed.

Lemma keeps_execute_block req meta parallel :
  (forall txs, keeps frame (parallel txs)) -> keeps frame (execute_block req meta parallel).
Proof.
  intros Hp. unfold execute_block. pose proof keeps_execute. pose proof keeps_assemble. pose proof keeps_evidence.
  apply keeps_bind; [apply _|apply keeps_get; apply _|]. intros n.
  destruct (_decode_block_transactions _ _ _ _ _ _ _) as [entries txs]. unfold _execute_block_transactions. keep.
Qed.

Context (patches_loaded : exists files m0, load_patches sha256 files m0 = (Ok tt, patches)).

Lemma validators_disk d q :
  drv_value_from_disk (build_validator_updates float_trunc float_le_zero d).2 q = drv_value_from_disk d q.
Proof.
  unfold build_validator_updates. destruct (_ ← get_validators_from_state _ _ _; _) as [[state committed]|]; [|done].
  cbn [snd]. destruct (decide _); [done|]. apply drv_set_disk.
Qed.

Lemma validators_policy d :
  drv_get (build_validator_updates float_trunc float_le_zero d).2 EXECUTION_POLICY_KEY = drv_get d EXECUTION_POLICY_KEY.
Proof.
  unfold build_validator_updates. destruct (_ ← get_validators_from_state _ _ _; _) as [[state committed]|]; [|done].
  cbn [snd]. destruct (decide _); [done|]. by apply drv_get_set_ne.
Qed.

Lemma keeps_validators : keeps frame (on_driver (build_validator_updates float_trunc float_le_zero)).
Proof. apply keeps_on_driver; [apply validators_disk|apply validators_policy]. Qed.

Lemma keeps_patches height nanos bh : keeps frame (on_driver (apply_patches_for_block sha256 py_str patches height nanos bh)).
Proof.
  destruct patches_loaded as (files & m0 & Hl). apply keeps_on_driver.
  - intros d q. by apply keeps_patches_disk.
  - intros d. destruct (apply_patches_for_block _ _ _ _ _ _ d) as [r d'] eqn:Ea. cbn [snd]. by eapply patches_policy.
Qed.

(** A successful run up to the commit boundary, step by step. *)
Lemma finalize_run parallel req n resp n' :
  (forall txs, keeps frame (parallel txs)) -> finalize_block parallel req n = (Ok resp, n') ->
  exists n1 n2 n3 meta,
    let n0 := (_initialize_block req n).2 in
    execute_block req meta parallel n0 = (Ok (rs_tx_results resp), n1) /\ frame n0 n1 /\ frame n0 n2 /\
    meta = BlockMeta (get_nanotime_from_block_time (rq_seconds req) (rq_nanos req)) (rq_height req)
             (convert_binary_to_hex (rq_hash req)) (cfg_chain_id config) /\
    current_block_meta (n_app n2) = Some meta /\
    prepare_root sha256 (n_app n2) = (Ok tt, n_app n3) /\
    _stage_pending_commit_driver_state (n_app n3) = (Ok tt, n_app n') /\
    rs_app_hash resp = default [] (merkle_root_hash (n_app n')).
Proof.
  intros Hpar Hf. unfold finalize_block in Hf. set (n0 := (_initialize_block req n).2) in *.
  change (_initialize_block req n) with ((_initialize_block req n).1, n0) in Hf.
  destruct (_initialize_block req n).1 as [nanos bh]. unfold finalize_block_body in Hf.
  apply stM_bind_inv in Hf as ([txs ups] & nb & Hpre & Hf).
  apply stM_bind_inv in Hf as ([] & n5 & Hs & Hf). apply stM_bind_inv in Hf as (x & y & [= <- <-] & [= <- <-]).
  unfold finalize_prefix in Hpre.
  apply stM_bind_inv in Hpre as (x & y & [= <- <-] & Hf). apply stM_bind_inv in Hf as (meta & y & [= Hm <-] & Hf).
  apply stM_bind_inv in Hf as (txs' & n1 & Hx & Hf). apply stM_bind_inv in Hf as (ups' & nb' & Hb & [= <- <- <-]).
  unfold _prepare_commit_boundary in Hb. apply stM_bind_inv in Hb as (vu & na & Hv & Hb).
  apply stM_bind_inv in Hb as (pt & n2 & Hp & Hb). apply stM_bind_inv in Hb as ([] & n3 & Hr & [= <- <-]).
  exists n1, n2, n3, meta. cbv zeta. fold n0.
  assert (F1 : frame n0 n1) by (pose proof (keeps_execute_block req meta parallel Hpar n0) as F; by rewrite Hx in F).
  assert (Fa : frame n1 na) by (pose proof (keeps_validators n1) as F; by rewrite Hv in F).
  assert (F2 : frame na n2) by (pose proof (keeps_patches (rq_height req) nanos (VStr bh) na) as F; by rewrite Hp in F).
  assert (F02 : frame n0 n2) by (etransitivity; [exact F1|]; etransitivity; [exact Fa|exact F2]).
  assert (meta = BlockMeta (get_nanotime_from_block_time (rq_seconds req) (rq_nanos req)) (rq_height req)
             (convert_binary_to_hex (rq_hash req)) (cfg_chain_id config)) as Hmeta by (apply Ok_inj; rewrite <- Hm; reflexivity).
  split_and!; try done.
  - rewrite (be_meta _ _ (proj1 F02)), Hmeta. done.
  - unfold on_app in Hr. by destruct (prepare_root sha256 (n_app n2)) as [r a]; injection Hr as -> <-.
  - unfold on_app in Hs. by destruct (_stage_pending_commit_driver_state (n_app n3)) as [r a]; injection Hs as -> <-.
Qed.

(** ** The reported hash *)

Context (monotonic : nat -> Z) (reservation_ttl_seconds : Z) (pruning_enabled : bool) (blocks_to_keep : Z).

(** Claim C2. A block, end to end: on a node whose state-root cache agrees with its durable
    state, FinalizeBlock followed by Commit makes durable exactly a state whose root,
    computed from scratch, is the app hash FinalizeBlock answered; Info reports that hash
    with the block's height; and the cache agrees with the durable state again, with nothing
    staged, so the next block starts from the same situation.  The block may contain any
    transactions, evidence, validator epochs and governed patches. *)
Theorem finalize_commit_correct parallel req n resp n' commit_ok io_ok io_ok' r a3 :
  (forall b, Forall is_byte (sha256 b)) -> (forall txs, keeps frame (parallel txs)) ->
  synced sha256 (n_app n) -> _pending_commit_driver_state (n_app n) = None ->
  finalize_block parallel req n = (Ok resp, n') ->
  App.commit monotonic reservation_ttl_seconds pruning_enabled blocks_to_keep commit_ok io_ok (n_app n') = (Ok r, a3) ->
  distinct_priorities sha256 (dict_keys (_leaf_hashes (state_root_cache (n_app n')))) ->
  merkle_root_from_items sha256 (drv_items (raw_driver a3)) = Ok (rs_app_hash resp) /\
  (is_ok (read_mirror py_str float_trunc io_ok' (latest_block_mirror a3)) = true ->
   (info py_str float_trunc io_ok' a3).1 = Ok (Info (rq_height req) (rs_app_hash resp))) /\
  synced sha256 a3 /\ _pending_commit_driver_state a3 = None.
Proof.
  intros Hsha Hpar Hsy Hst Hf Hc Hd.
  destruct (finalize_run _ _ _ _ _ Hpar Hf) as (n1 & n2 & n3 & meta & _ & _ & [B2 _] & Hmeta & Hm & Hr & Hs & Hh).
  destruct B2 as [Bd Bc Bs _]. destruct Hsy as [Hy1 (items & Ht & Hdisk)].
  assert (Hsy2 : synced sha256 (n_app n2)).
  { split; [by rewrite Bc|]. exists items. split; [by rewrite Bc|]. intros q. rewrite Bd. apply Hdisk. }
  destruct (stage_view _ _ Hs) as (_ & _ & M3 & R3 & C3).
  assert (Hroot : exists h, merkle_root_hash (n_app n3) = Some h).
  { unfold prepare_root in Hr. destruct (prepare sha256 _ _) as [[h|] c]; [|done]. injection Hr as <-. by exists h. }
  destruct Hroot as [h Hroot]. rewrite R3, Hroot in Hh. cbn in Hh. rewrite Hh.
  assert (Hst2 : _pending_commit_driver_state (n_app n2) = None) by (by rewrite Bs).
  rewrite C3 in Hd.
  destruct (committed_app_hash sha256 py_str float_trunc monotonic reservation_ttl_seconds pruning_enabled blocks_to_keep
              _ _ _ _ commit_ok io_ok io_ok' meta h r Hsha Hsy2 Hst2 Hm Hr Hs Hroot Hc Hd) as (H1 & H2 & H3).
  rewrite Hmeta in H2. cbn [bm_height] in H2. split_and!; try done.
  assert (Hm' : current_block_meta (n_app n') = Some meta).
  { rewrite M3. unfold prepare_root in Hr. destruct (prepare sha256 _ _) as [[h'|] c]; [|done]. by injection Hr as <-. }
  rewrite Hroot in R3.
  by destruct (commit_spec monotonic reservation_ttl_seconds pruning_enabled blocks_to_keep _ _ _ _ _ _ _ Hm' R3 Hc)
    as [(_ & _ & _ & ?)|([e [=]] & _)].
Qed.

(** ** One result per transaction *)

(** What a processed transaction is answered with: an error result when the processor raised or
    has no receipt, or else its own receipt, encoded, under its status and with its events. *)
Definition tx_answer (tx : value) (out : result tx_response) (r : ExecTxResult) : Prop :=
  match out with
  | Raise e => r = _error_tx_result ("Error processing tx: " +:+ exn_msg e)
  | Ok resp =>
    match tx_result resp with
    | None => r = _error_tx_result "Transaction processor returned no tx_result"
    | Some receipt =>
        tx_hash_from_tx tx = Ok (r_hash receipt) /\
        if decide (r_hash receipt = "") then r = _error_tx_result "Transaction processor returned no tx hash"
        else tx_code r = r_status receipt /\ encode_abci_json (receipt_value receipt) = Ok (tx_data r) /\
             _build_tx_events receipt = Ok (tx_events r)
    end
  end.

(** The entries of a block processed one after the other, each on the state the ones before it
    left, with a result for each. *)
Inductive entry_runs : node -> list decoded_entry -> list ExecTxResult -> Prop :=
  | runs_nil n : entry_runs n [] []
  | runs_error n message raw entries results :
      entry_runs n entries results -> entry_runs n (EntryError message raw :: entries) (_error_tx_result message :: results)
  | runs_tx n tx raw out n1 r entries results :
      process tx handler (cfg_tx_fee_policy config) n = (out, n1) -> tx_answer tx out r ->
      entry_runs n1 entries results -> entry_runs n (EntryTx tx raw :: entries) (r :: results).

Lemma process_hash tx h policy n resp n' rec :
  process tx h policy n = (Ok resp, n') -> tx_result resp = Some rec -> tx_hash_from_tx tx = Ok (r_hash rec).
Proof.
  unfold process, on_processor. destruct (process_tx _ _ _ _ _ _ _ _) as [r p] eqn:Ep. intros [= -> _] Hr.
  by eapply receipt_hash.
Qed.

(** One entry assembled after its processing. *)
Lemma assemble_answer index tx raw n out n1 m r m' :
  process tx handler (cfg_tx_fee_policy config) n = (out, n1) ->
  assemble_entry (entry_of index tx raw out) m = (Ok r, m') -> tx_answer tx out r.
Proof.
  intros Hp Ha. unfold entry_of, tx_answer in *. destruct out as [resp|e]; [|by injection Ha as <- _].
  destruct (tx_result resp) as [receipt|] eqn:Er; [|by injection Ha as <- _].
  split; [by eapply process_hash|]. cbn [assemble_entry] in Ha. destruct (decide _) as [|_]; [by injection Ha as <- _|].
  apply stM_bind_inv in Ha as (u & n3 & _ & Ha). apply stM_bind_inv in Ha as (data & n4 & [= Hd _] & Ha).
  apply stM_bind_inv in Ha as (evs & n5 & [= He _] & [= <- _]). done.
Qed.

Lemma entries_run index entries n ps n' m rs m' :
  execute_entries index None entries n = (Ok ps, n') -> _assemble_tx_results ps m = (Ok rs, m') -> entry_runs n entries rs.
Proof.
  unfold _assemble_tx_results. revert index n ps m rs.
  induction entries as [|[tx b|msg b] entries IH]; intros index n ps m rs Hx Ha; cbn [execute_entries] in Hx.
  - injection Hx as <- _. injection Ha as <- _. constructor.
  - apply stM_bind_inv in Hx as (out & n1 & Hp & Hx). apply stM_bind_inv in Hx as (rest & n2 & Hr & [= <- <-]).
    cbn [mapM_st] in Ha. apply stM_bind_inv in Ha as (r & m1 & He & Ha). apply stM_bind_inv in Ha as (rs' & m2 & Hrs & [= <- <-]).
    unfold catching in Hp. destruct (process _ _ _ n) as [o n3] eqn:Ep. injection Hp as <- <-.
    eapply runs_tx; [done|by eapply assemble_answer|by eapply IH].
  - apply stM_bind_inv in Hx as (rest & n1 & Hr & [= <- <-]). cbn [mapM_st] in Ha.
    apply stM_bind_inv in Ha as (r & m1 & [= <- <-] & Ha). apply stM_bind_inv in Ha as (rs' & m2 & Hrs & [= <- <-]).
    constructor. by eapply IH.
Qed.

(** Block execution without the parallel scheduler. *)
Definition serial (txs : list value) : stM node (option (list tx_response)) := mret None.

Lemma keeps_serial txs : keeps frame (serial txs).
Proof. apply keeps_ret, _. Qed.

(** The transactions of a request as FinalizeBlock decodes them: a function of the request and
    of the nonces in the state. *)
Definition block_entries (req : RequestFinalizeBlock) (n : node) : list decoded_entry :=
  (_decode_block_transactions verify_message is_safe_contract_name float_trunc config (get_nonce (raw_driver (n_app n)))
     (meta_value (BlockMeta (get_nanotime_from_block_time (rq_seconds req) (rq_nanos req)) (rq_height req)
                    (convert_binary_to_hex (rq_hash req)) (cfg_chain_id config))) (rq_txs req)).1.

(** Claim C34. FinalizeBlock (without the parallel scheduler) answers with one result per raw
    transaction, in the order of the block, whatever is in it.  The block's transactions are
    decoded in their order; an entry that does not decode or is not valid in its place has the
    error result of its message; every other is processed on the state the entries before it
    left, and its result is the encoded receipt of this processing, with its hash, status
    and events, or the error result that tells why there is none. *)
Theorem one_result_per_tx req n resp n' :
  finalize_block serial req n = (Ok resp, n') ->
  entry_raw <$> block_entries req n = rq_txs req /\
  entry_runs (_initialize_block req n).2 (block_entries req n) (rs_tx_results resp).
Proof.
  intros Hf. destruct (finalize_run _ _ _ _ _ keeps_serial Hf) as (n1 & n2 & n3 & meta & Hx & _ & _ & -> & _).
  unfold execute_block in Hx. apply stM_bind_inv in Hx as (x & y & [= <- <-] & Hx).
  split; [apply decode_block_raws|].
  change (raw_driver (n_app (_initialize_block req n).2)) with (raw_driver (n_app n)) in Hx.
  unfold block_entries. destruct (_decode_block_transactions _ _ _ _ _ _ _) as [entries txs]. cbn [fst].
  apply stM_bind_inv in Hx as (pr & y & [= <- <-] & Hx). apply stM_bind_inv in Hx as (ps & y2 & Hps & Hx).
  apply stM_bind_inv in Hx as (rs & y3 & Hrs & Hx). apply stM_bind_inv in Hx as (u & y4 & _ & [= -> _]).
  by eapply entries_run.
Qed.

(** ** The chain as a state machine *)

(** A call of a handler that moves the chain, whatever its outcome. *)
Inductive step : node -> node -> Prop :=
  | step_finalize req n r n' :
      finalize_block_method serial req n = (r, n') -> step n n'
  | step_commit commit_ok io_ok n r a :
      App.commit monotonic reservation_ttl_seconds pruning_enabled blocks_to_keep commit_ok io_ok (n_app n) = (r, a) ->
      step n (Node a (n_chi_cost n) (n_prepared n)).

(** The policy [v] as every reader sees it: on disk, through the driver, and in the block that
    waits for Commit. *)
Record policy_is (v : value) (n : node) : Prop := {
  pi_disk : disk (n_app n) EXECUTION_POLICY_KEY = v;
  pi_driver : drv_get (raw_driver (n_app n)) EXECUTION_POLICY_KEY = v;
  pi_view : view (n_app n) EXECUTION_POLICY_KEY = v;
}.

(** What every method keeps of the policy until the block is staged. *)
Definition policy_frame (n n' : node) : Prop :=
  disk (n_app n') EXECUTION_POLICY_KEY = disk (n_app n) EXECUTION_POLICY_KEY /\ policy_eq n n'.

#[global] Instance policy_frame_preorder : PreOrder policy_frame.
Proof. split; [by split|]. intros a b c [H1 H2] [G1 G2]. unfold policy_frame, policy_eq in *. split; congruence. Qed.

Lemma keeps_policy {A} (m : stM node A) : keeps frame m -> keeps policy_frame m.
Proof. intros Hm n. destruct (Hm n) as [Hb Hp]. split; [apply Hb|done]. Qed.

Lemma keeps_prepare_root : keeps policy_frame (on_app (prepare_root sha256)).
Proof. intros [a k c]. unfold on_app, prepare_root. cbn [n_app]. by destruct (prepare sha256 _ _) as [[h|] c']. Qed.

#[local] Hint Resolve keeps_policy keeps_prepare_root keeps_validators keeps_patches : keeps.

Lemma keeps_prefix req nanos bh : keeps policy_frame (finalize_prefix serial req nanos bh).
Proof.
  unfold finalize_prefix, _prepare_commit_boundary.
  pose proof (λ meta, keeps_policy _ (keeps_execute_block req meta serial keeps_serial)). keep.
Qed.

Lemma finalize_policy v req n r n' :
  policy_is v n -> finalize_block_method serial req n = (r, n') -> policy_is v n'.
Proof.
  intros [Pd Pg Pv] Hf. unfold finalize_block_method, finalize_block in Hf.
  set (n0 := (_initialize_block req n).2) in *.
  change (_initialize_block req n) with ((_initialize_block req n).1, n0) in Hf.
  destruct (_initialize_block req n).1 as [nanos bh].
  pose proof (keeps_prefix req nanos bh n0) as [Fd Fg].
  change (disk (n_app n0) EXECUTION_POLICY_KEY) with (disk (n_app n) EXECUTION_POLICY_KEY) in Fd.
  unfold policy_eq in Fg.
  change (drv_get (raw_driver (n_app n0)) EXECUTION_POLICY_KEY) with (drv_get (raw_driver (n_app n)) EXECUTION_POLICY_KEY) in Fg.
  unfold finalize_block_body in Hf. unfold mbind at 1 in Hf. unfold stM_bind at 1 in Hf.
  destruct (finalize_prefix serial req nanos bh n0) as [[[txs ups]|e] n1]; cbn [snd] in Fd, Fg; cycle 1.
  { injection Hf as <- <-. split; cbn [n_app]; [etransitivity; [exact Fd|done]|etransitivity; [exact Fg|done]|].
    etransitivity; [exact Fg|done]. }
  unfold mbind at 1 in Hf. unfold stM_bind at 1 in Hf. unfold on_app in Hf.
  destruct (_stage_pending_commit_driver_state (n_app n1)) as [[[]|e] a] eqn:Es.
  - cbn in Hf. injection Hf as <- <-. destruct (stage_view _ _ Es) as (Sv & Sd & _). cbn [n_app].
    assert (Hdisk : disk a EXECUTION_POLICY_KEY = disk (n_app n1) EXECUTION_POLICY_KEY).
    { unfold _stage_pending_commit_driver_state in Es. destruct (_pending_commit_driver_state (n_app n1)); [done|].
      destruct (drv_detach_spec (raw_driver (n_app n1))) as (_ & _ & D3).
      destruct (drv_detach (raw_driver (n_app n1))) as [w d]. injection Es as <-. apply D3. }
    split; cbn [n_app]; [congruence| |].
    + rewrite Sd. congruence.
    + rewrite Sv. congruence.
  - unfold _stage_pending_commit_driver_state in Es. destruct (_pending_commit_driver_state (n_app n1)); cycle 1.
    { by destruct (drv_detach (raw_driver (n_app n1))). }
    injection Es as _ <-. injection Hf as <- <-.
    split; cbn [n_app]; [etransitivity; [exact Fd|done]|etransitivity; [exact Fg|done]|etransitivity; [exact Fg|done]].
Qed.

Lemma view_unstaged (a : app (D := D)) q : _pending_commit_driver_state a = None -> view a q = drv_get (raw_driver a) q.
Proof. intros Ha. unfold view, _restore_pending_commit_driver_state. by rewrite Ha. Qed.

Lemma commit_policy v commit_ok io_ok n r a :
  policy_is v n ->
  App.commit monotonic reservation_ttl_seconds pruning_enabled blocks_to_keep commit_ok io_ok (n_app n) = (r, a) ->
  policy_is v (Node a (n_chi_cost n) (n_prepared n)).
Proof.
  intros [Pd Pg Pv] Hc. pose proof (restore_fields (n_app n)) as (R1 & R2 & R3 & R4).
  destruct (current_block_meta (n_app n)) as [m|] eqn:Em; [destruct (merkle_root_hash (n_app n)) as [h|] eqn:Eh|].
  - destruct (commit_spec monotonic reservation_ttl_seconds pruning_enabled blocks_to_keep _ _ _ _ _ _ _ Em Eh Hc)
      as [(H1 & H2 & _ & H4)|(_ & H2 & H3 & _)].
    + assert (Hd : disk a EXECUTION_POLICY_KEY = v) by (rewrite H1; unfold target; by rewrite decide_False).
      assert (Hg : drv_get (raw_driver a) EXECUTION_POLICY_KEY = v) by (by rewrite drv_get_spec, H2).
      split; [done|done|]. cbn [n_app]. by rewrite view_unstaged.
    + assert (Hv : view a EXECUTION_POLICY_KEY = v) by (rewrite H3; unfold target; by rewrite decide_False).
      assert (Hst : _pending_commit_driver_state a = None).
      { unfold App.commit in Hc. cbv zeta in Hc. rewrite R2, R1 in Hc.
        destruct (stage_latest_block _ _ _ _) as [latest d]. destruct (drv_hard_apply commit_ok d) as [[[]|e] d1].
        - apply commit_tail_driver in Hc as (_ & _ & Hp). cbn [snd] in Hp. rewrite Hp. done.
        - injection Hc as _ <-. done. }
      split; [cbn [n_app]; congruence| |done]. cbn [n_app]. by rewrite <- view_unstaged.
  - unfold App.commit in Hc. cbv zeta in Hc. rewrite R2, R1 in Hc. injection Hc as <- <-.
    split; cbn [n_app]; [by rewrite restore_disk|done|]. by rewrite view_unstaged.
  - unfold App.commit in Hc. cbv zeta in Hc. rewrite R2 in Hc. injection Hc as <- <-.
    split; cbn [n_app]; [by rewrite restore_disk|done|]. by rewrite view_unstaged.
Qed.

(** Claim C6. The execution policy of a chain never changes: over any sequence of FinalizeBlock
    and Commit calls, whatever the blocks contain and wherever a call fails, the policy on
    disk, the policy the driver shows and the policy of the block that waits for Commit stay
    what they were. *)
Theorem execution_policy_invariant v n n' : policy_is v n -> rtc step n n' -> policy_is v n'.
Proof.
  intros Hv Hr. induction Hr as [n|n1 n2 n3 Hs _ IH]; [done|]. apply IH.
  destruct Hs as [req n1 r n2 Hf|commit_ok io_ok n1 r a Hc]; [by eapply finalize_policy|by eapply commit_policy].
Qed.
End FinalizeBlock.

(** ** A sample chain on the in-memory driver

    One contract, one validator and the reward handler; a block with a valid transaction and
    one that is not a transaction. *)

#[local] Existing Instance int_arith.

Definition chain_pairs : list (string * value) :=
  [(EXECUTION_POLICY_KEY, VDict current_execution_policy); ("ir:currency", VStr (toy_ir []));
   ("currency.balances:" +:+ sample_sender, VInt 1000); ("chi_cost.S:value", VInt 1);
   (nonce_key sample_sender, VInt 4); ("rewards.S:value", VList [VInt 1; VInt 0; VInt 1; VInt 1]);
   ("foundation.owner:", VStr "foundation"); ("validators.active_validators:", VList [VStr "v1"])].

Definition chain_node : node (D := mem_driver) :=
  Node (App (MkNonceStorage (drv_hard_apply true (drv_apply_writes mem_empty chain_pairs)).2 ∅ 0)
          (match new_cache toy_sha chain_pairs with Ok c => c | Raise _ => empty_cache end)
          None None None Missing) VNone [].

Definition chain_config : app_config := AppConfig "xian-1" 4096 (paid_metered None None).
Definition chain_handler : option (rewards_handler (D := mem_driver)) := Some (build_tx_reward_outputs toy_str).
Definition chain_patches : StatePatchManager := (load_patches toy_sha None empty_manager).2.
Definition chain_request : RequestFinalizeBlock :=
  FinalizeRequest 10 5 [1; 2] 7 [raw_of (sample_signed 5 50); [1; 2; 3]] [].

Definition chain_finalize (req : RequestFinalizeBlock) : stM (node (D := mem_driver)) ResponseFinalizeBlock :=
  finalize_block toy_sha (λ _, "") no_floats (λ _, false) toy_verify toy_safe 3 chain_config chain_patches
    chain_handler serial req.

Definition chain_finalized : node := (chain_finalize chain_request chain_node).2.
Definition chain_response : ResponseFinalizeBlock :=
  ok_or (FinalizeResponse [] [] []) (chain_finalize chain_request chain_node).1.
Definition chain_committed : app := (App.commit ticks 60 true 2 true true (n_app chain_finalized)).2.

Lemma chain_run :
  finalize_block toy_sha (λ _, "") no_floats (λ _, false) toy_verify toy_safe 3 chain_config chain_patches
    chain_handler serial chain_request chain_node = (Ok chain_response, chain_finalized).
Proof. vm_compute. reflexivity. Qed.

Lemma chain_commit_run :
  App.commit ticks 60 true 2 true true (n_app chain_finalized) = (Ok 5, chain_committed).
Proof. vm_compute. reflexivity. Qed.

Lemma chain_loaded : exists files m0, load_patches toy_sha files m0 = (Ok tt, chain_patches).
Proof. exists None, empty_manager. reflexivity. Qed.

Lemma chain_synced : synced toy_sha (n_app chain_node).
Proof.
  split; [vm_compute; reflexivity|]. exists chain_pairs. split.
  - apply (new_cache_tracks toy_sha chain_pairs); [nodup_by_compute|vm_compute; reflexivity].
  - intros q. unfold disk. change (drv_value_from_disk (raw_driver (n_app chain_node)) q)
      with (disk_get (Mem chain_pairs []) q). done.
Qed.

(** The block pays the sender's fee and the reward, and writes what the contract wrote. *)
Example chain_paid :
  drv_get (raw_driver chain_committed) ("currency.balances:" +:+ sample_sender) = VInt 995 /\
  drv_get (raw_driver chain_committed) "con:" = VInt 1 /\
  drv_get (raw_driver chain_committed) "currency.balances:foundation" = VInt 5 /\
  drv_get (raw_driver chain_committed) "currency.balances:v1" = VInt 10 /\ (tx_code <$> rs_tx_results chain_response) = [0; 1].
Proof. vm_compute. done. Qed.

Lemma finalize_commit_correct_witness :
  merkle_root_from_items toy_sha (drv_items (raw_driver chain_committed)) = Ok (rs_app_hash chain_response) /\
  (info (λ _, "") no_floats true chain_committed).1 = Ok (Info 7 (rs_app_hash chain_response)).
Proof.
  destruct (finalize_commit_correct toy_sha (λ _, "") no_floats (λ _, false) toy_verify toy_safe 3 chain_config
              chain_patches chain_handler (reward_handler_ok toy_str) chain_loaded ticks 60 true 2 serial chain_request
              chain_node chain_response chain_finalized true true true 5 chain_committed) as (G1 & G2 & _).
  - intros b. apply to_bytes_big_bytes.
  - intros txs. apply keeps_serial.
  - exact chain_synced.
  - reflexivity.
  - exact chain_run.
  - exact chain_commit_run.
  - unfold distinct_priorities. nodup_by_compute.
  - split; [exact G1|]. apply G2. vm_compute. reflexivity.
Defined.

Lemma entry_runs_length {D : Type} `{DriverOps D} `{PyArith} `{!Runtime D} py_str float_trunc fuel config handler (n : node (D := D)) entries results :
  entry_runs py_str float_trunc fuel config handler n entries results -> length results = length entries.
Proof. induction 1; cbn; congruence. Qed.

Lemma one_result_per_tx_witness : length (rs_tx_results chain_response) = 2%nat.
Proof.
  destruct (one_result_per_tx toy_sha (λ _, "") no_floats (λ _, false) toy_verify toy_safe 3 chain_config
              chain_patches chain_handler (reward_handler_ok toy_str) chain_loaded chain_request chain_node chain_response
              chain_finalized chain_run) as [Hr Hf].
  rewrite (entry_runs_length _ _ _ _ _ _ _ _ Hf), <- (length_fmap entry_raw), Hr. reflexivity.
Defined.

Lemma execution_policy_invariant_witness :
  policy_is (VDict current_execution_policy) (Node chain_committed (n_chi_cost chain_finalized) (n_prepared chain_finalized)).
Proof.
  apply (execution_policy_invariant toy_sha (λ _, "") no_floats (λ _, false) toy_verify toy_safe 3 chain_config
           chain_patches chain_handler (reward_handler_ok toy_str) chain_loaded ticks 60 true 2 _ chain_node).
  - split; vm_compute; reflexivity.
  - apply rtc_l with chain_finalized; [|apply rtc_once].
    + apply (step_finalize _ _ _ _ _ _ _ _ _ _ _ _ _ _ chain_request _ (Ok chain_response)).
      unfold finalize_block_method. by rewrite chain_run.
    + apply (step_commit _ _ _ _ _ _ _ _ _ _ _ _ _ _ true true chain_finalized (Ok 5) chain_committed).
      exact chain_commit_run.
Defined.

(** A FinalizeBlock that fails does not undo the block: here the governance schedules
    a patch at this height that the node has no file for, the call raises after the
    transactions ran, and the driver still shows the fee as paid and the nonce as taken,
    although the disk does not and nothing is staged for Commit.  Every reader of the
    driver, CheckTx among them, sees the writes of a block that was not accepted. *)
Theorem failed_finalize_keeps_writes :
  let pairs := chain_pairs ++
    [("governance.scheduled_patches:7:fix-9", VBool true); ("governance.patches:fix-9:status", VStr "approved");
     ("governance.patches:fix-9:proposal_id", VInt 1); ("governance.patches:fix-9:bundle_hash", VStr "00");
     ("governance.patches:fix-9:activation_height", VInt 7)] in
  let n := Node (App (MkNonceStorage (drv_hard_apply true (drv_apply_writes mem_empty pairs)).2 ∅ 0)
                   empty_cache None None None Missing) VNone [] in
  exists e n',
    finalize_block_method toy_sha (λ _, "") no_floats (λ _, false) toy_verify toy_safe 3 chain_config chain_patches
      chain_handler serial chain_request n = (Raise e, n') /\
    _pending_commit_driver_state (n_app n') = None /\
    disk (n_app n') ("currency.balances:" +:+ sample_sender) = VInt 1000 /\
    drv_get (raw_driver (n_app n')) ("currency.balances:" +:+ sample_sender) = VInt 995 /\
    get_nonce (raw_driver (n_app n')) sample_sender = Ok (Some 5).
Proof. eexists _, _. split; [vm_compute; reflexivity|]. vm_compute. done. Qed.
