(* ===== verification/Query.v ===== *)
(** * Queries (src/src/xian/methods/query.py and services/bds/candles.py)

    The read-only side of the node: the path of a query names a route, a key and parameters;
    the route's handler answers from the committed state, from a view of a contract, or from
    the block data service.

    The block data service and the simulator are separate components, the driver's listing
    and metadata methods belong to the contracting package: they are parameters.  A view runs
    the contract on the node's driver, which it may leave changed, and restores the driver's
    snapshot in the end, also when a step raised; it can add to the prepared contracts. *)

From Stdlib Require Import Ascii.
From S2P Require Import Prelude PyValue Json PyBuiltins Driver Encoding ExecutionPolicy FeePolicy StateRoot Nonce TxValidation Proposal Validators Block App Engine Processor StatePatches Rewards FinalizeBlock.

Definition DEFAULT_KEYS_QUERY_LIMIT : Z := 100.
Definition MAX_KEYS_QUERY_LIMIT : Z := 200.
Definition DEFAULT_LIST_QUERY_LIMIT : Z := 100.
Definition MAX_LIST_QUERY_LIMIT : Z := 1000.
Definition DEFAULT_DEX_CANDLE_INTERVAL_SECONDS : Z := 60.
Definition MAX_DEX_CANDLE_INTERVAL_SECONDS : Z := 604800.

Record OffsetPagination := Pagination { pg_limit : Z; pg_offset : Z }.
Record BdsQueryOptions := BdsOptions {
  bo_limit : Z; bo_offset : Z; bo_after_id : option Z; bo_after_note_index : Z }.

(** ** Text *)

(** [s.split(c)] *)
Fixpoint split_on (c : Ascii.ascii) (s : string) : list string :=
  match s with
  | EmptyString => [""]
  | String a s =>
    if decide (a = c) then "" :: split_on c s
    else match split_on c s with [] => [String a ""] | w :: ws => String a w :: ws end
  end.

(** [s.split(c, 1)] when [c] occurs in [s]. *)
Fixpoint split_once (c : Ascii.ascii) (s : string) : option (string * string) :=
  match s with
  | EmptyString => None
  | String a s => if decide (a = c) then Some ("", s)
                  else match split_once c s with Some (l, r) => Some (String a l, r) | None => None end
  end.

(** [s.lstrip(c)] for a single character *)
Fixpoint lstrip (c : Ascii.ascii) (s : string) : string :=
  match s with
  | String a s' => if decide (a = c) then lstrip c s' else s
  | EmptyString => ""
  end.

Definition removeprefix (p s : string) : string := default s (strip_prefix p s).

(** [int(s)]; CPython refuses more than 4300 digits. *)
Definition int_text (s : string) : result Z :=
  if (4300 <? Z.of_nat (length (filter (λ c, is_digit c = true) (str_chars s))))
  then raise ValueError "Exceeds the limit for integer string conversion" else int_of_str s.

(** [f"{z:0{w}d}"] *)
Definition zero_padded (w : nat) (z : Z) : string :=
  let digits := py_int_str (Z.abs z) in
  let w := if z <? 0 then (w - 1)%nat else w in
  (if z <? 0 then "-" else "")
    +:+ String.string_of_list_ascii (replicate (w - String.length digits) "0"%char) +:+ digits.

(** ** Parameters of a query *)

Definition _query_params (path_parts : list string) : list (string * string) :=
  foldl (λ params part, match split_once "="%char part with
                        | Some (k, v) => dict_set k v params
                        | None => params
                        end) [] path_parts.

Definition _bounded_int_param (params : list (string * string)) (key : string) (default_value minimum : Z)
    (maximum : option Z) : Z :=
  let v := match dict_get key params with
           | Some s => match int_text s with Ok z => z | Raise _ => default_value end
           | None => default_value
           end in
  let v := Z.max minimum v in
  match maximum with Some m => Z.min v m | None => v end.

Definition _offset_pagination (params : list (string * string)) : OffsetPagination :=
  Pagination (_bounded_int_param params "limit" DEFAULT_LIST_QUERY_LIMIT 0 (Some MAX_LIST_QUERY_LIMIT))
             (_bounded_int_param params "offset" 0 0 None).

Definition _bds_query_options (params : list (string * string)) : BdsQueryOptions :=
  let pagination := _offset_pagination params in
  let after_id := match dict_get "after_id" params with
                  | Some s => match int_text s with Ok z => Some (Z.max z 0) | Raise _ => None end
                  | None => None
                  end in
  BdsOptions (pg_limit pagination) (pg_offset pagination) after_id
             (_bounded_int_param params "after_note_index" 0 0 None).

(** The suffixes of a duration, tried in this order. *)
Definition duration_units : list (string * Z) := [("s", 1); ("m", 60); ("h", 3600); ("d", 86400); ("w", 604800)].

Fixpoint duration_text (units : list (string * Z)) (s : string) : string * Z :=
  match units with
  | [] => (s, 1)
  | (suffix, m) :: units =>
    if endswith suffix s then (String.substring 0 (String.length s - String.length suffix) s, m)
    else duration_text units s
  end.

Definition _duration_seconds_param (params : list (string * string)) (key : string) (default_value : Z) : Z :=
  match dict_get key params with
  | None => default_value
  | Some raw =>
    let '(text, multiplier) := duration_text duration_units (py_lower (py_strip raw)) in
    let v := match int_text text with Ok z => z * multiplier | Raise _ => default_value end in
    Z.min (Z.max v 1) MAX_DEX_CANDLE_INTERVAL_SECONDS
  end.

(** ** Paging through keys *)

Definition delimiter (prefix : string) : string := if endswith ":" prefix then "" else ":".

Definition _keys_query_after_key (prefix : string) (after : option string) : option string :=
  match after with
  | None => None
  | Some after =>
    let normalized := py_strip after in
    if decide (normalized = "") then None
    else if startswith prefix normalized then Some normalized
    else Some (prefix +:+ delimiter prefix +:+ normalized)
  end.

Definition _keys_query_suffix (prefix full_key : string) : string :=
  match strip_prefix (prefix +:+ delimiter prefix) full_key with
  | Some rest => rest
  | None => match strip_prefix prefix full_key with Some rest => lstrip ":"%char rest | None => full_key end
  end.

(** ** Candle sources (services/bds/candles.py) *)

Inductive market_kind := MarketInt | MarketStr.
Record CandleSourceSpec := CandleSource {
  cs_source : string; cs_contract : string; cs_event : string; cs_market_field : string;
  cs_amount0_in_field : string; cs_amount1_in_field : string; cs_amount0_out_field : string;
  cs_amount1_out_field : string; cs_market_id_kind : market_kind }.

Definition DEFAULT_CANDLE_SOURCE : string := "xian_pairs_v1".

Definition CANDLE_SOURCE_SPECS : list (string * CandleSourceSpec) :=
  [(DEFAULT_CANDLE_SOURCE,
    CandleSource DEFAULT_CANDLE_SOURCE "con_pairs" "Swap" "pair" "amount0In" "amount1In" "amount0Out" "amount1Out" MarketInt)].

Definition with_contract (contract : string) (s : CandleSourceSpec) : CandleSourceSpec :=
  let resolved := py_strip contract in
  if decide (resolved = "") then s
  else CandleSource (cs_source s) resolved (cs_event s) (cs_market_field s) (cs_amount0_in_field s)
         (cs_amount1_in_field s) (cs_amount0_out_field s) (cs_amount1_out_field s) (cs_market_id_kind s).

Definition normalize_market_id (s : CandleSourceSpec) (raw_market_id : string) : result (string * option Z) :=
  let text := py_strip raw_market_id in
  if decide (text = "") then raise ValueError "market id is required"
  else match cs_market_id_kind s with
       | MarketInt => z ← int_text text;
                      _ ← check_py (0 <? z) ValueError "market id must be positive";
                      Ok (py_int_str z, Some z)
       | MarketStr => Ok (text, None)
       end.

Definition str_or (s d : string) : string := if decide (s = "") then d else s.

Definition get_candle_source_spec (source : option string) : result CandleSourceSpec :=
  let source_id := str_or (py_strip (str_or (default "" source) DEFAULT_CANDLE_SOURCE)) DEFAULT_CANDLE_SOURCE in
  match dict_get source_id CANDLE_SOURCE_SPECS with
  | Some s => Ok s
  | None => raise ValueError ("unknown candle source: " +:+ source_id)
  end.

(** ** Requests and answers *)

Record RequestQuery := QueryRequest { q_path : string; q_height : Z; q_prove : bool }.
Record ResponseQuery := QueryResponse {
  qr_code : Z; qr_height : Z; qr_value : option bytes; qr_info : option string; qr_log : string; qr_key : bytes }.

Record QueryContext := QueryCtx {
  path_parts : list string; q_params : list (string * string); route : string; q_key : string }.
Record QueryResult := QResult { qres_result : value; qres_key : option string }.

(** The driver's listing and metadata methods, and the contract parser.  [None] for the
    methods a driver may lack. *)
Class QueryDriver (D : Type) := {
  has_contract : option (D -> string -> bool);
  contract_ir : option (D -> string -> value);
  get_contract_source : D -> string -> value;
  get_contract_developer : D -> string -> value;
  get_contract_deployer : D -> string -> value;
  get_contract_initiator : D -> string -> value;
  get_time_submitted : D -> string -> value;
  get_contracts : D -> list string;
  (** [scan_keys_from_disk(prefix, limit, after_key)] *)
  scan_keys_from_disk : D -> string -> Z -> option string -> list string * bool;
  methods_for_contract : value -> result value;
  variables_for_contract : value -> result value;
}.

(** The settings [perf_status] reports. *)
Record parallel_settings := ParallelSettings {
  ps_enabled : bool; ps_workers : Z; ps_min_batch_size : Z; ps_max_speculative_waves : Z;
  ps_min_wave_acceptance_ratio : value; ps_low_acceptance_min_wave_size : Z; ps_use_access_estimates : bool }.

Section Query.
Context {D : Type} `{DriverOps D} `{PyArith} `{!Runtime D} `{!QueryDriver D}.
Context (py_str : value -> string) (float_trunc : string -> result Z) (fuel : nat)
        (monotonic : nat -> Z) (reservation_ttl_seconds : Z) (io_ok : bool)
        (chain_id : string) (patches : StatePatchManager)
        (profile : list (string * value)) (parallel : parallel_settings)
        (simulate : string -> result value)
        (timestamp_of : string -> option value)
        (bds_enabled : bool) (bds : option (string -> list value -> list (string * value) -> result value)).

Definition handler : Type := QueryContext -> stM (node (D := D)) QueryResult.

Definition reply (v : value) : QueryResult := QResult v None.

(** [path_parts[i]] *)
Definition part (i : nat) (ctx : QueryContext) : result string :=
  match path_parts ctx !! i with Some s => Ok s | None => raise OtherError "list index out of range" end.
Definition int_part (i : nat) (ctx : QueryContext) : result Z := s ← part i ctx; int_text s.

Definition driver_of : stM (node (D := D)) D := gets_st (λ n, raw_driver (n_app n)).

(** A handler that reads the driver only. *)
Definition reading (f : D -> QueryContext -> result value) : handler := λ ctx,
  d ← driver_of; v ← lift_res (f d ctx); mret (reply v).

(** ** Submission times *)

Definition _submission_iso (v : value) : result value :=
  match v with
  | VDict d =>
    match py_get "__time__" d VNone with
    | VList (y :: mo :: da :: h :: mi :: s :: _) | VTuple (y :: mo :: da :: h :: mi :: s :: _) =>
      y ← py_int float_trunc y; mo ← py_int float_trunc mo; da ← py_int float_trunc da;
      h ← py_int float_trunc h; mi ← py_int float_trunc mi; s ← py_int float_trunc s;
      Ok (VStr (zero_padded 4 y +:+ "-" +:+ zero_padded 2 mo +:+ "-" +:+ zero_padded 2 da +:+ "T"
                +:+ zero_padded 2 h +:+ ":" +:+ zero_padded 2 mi +:+ ":" +:+ zero_padded 2 s +:+ "Z"))
    | _ => Ok VNone
    end
  | _ => Ok VNone
  end.

(** ** Views *)

Definition int_or_zero (v : value) : Z := match v with VInt z => z | _ => 0 end.

Definition _make_vm_query_environment (ctx : QueryContext) : stM (node (D := D)) (list (string * value)) := λ n,
  let '(nanos, n) :=
    match current_block_meta (n_app n) with
    | Some m => (bm_nanos m, n)
    | None => match on_app (on_mirror (get_latest_block_nanos py_str float_trunc io_ok)) n with
              | (Ok z, n) => (z, n)
              | (Raise _, n) => (0, n)
              end
    end in
  let height := match current_block_meta (n_app n) with Some m => bm_height m | None => 0 end in
  let block_hash := match current_block_meta (n_app n) with
                    | Some m => bm_hash m
                    | None => sha3_256_hex ("query:block:" +:+ chain_id +:+ ":" +:+ py_int_str height
                                             +:+ ":" +:+ py_int_str nanos)
                    end in
  (Ok [("block_hash", VStr block_hash); ("block_num", VInt height);
       ("__input_hash", VStr (sha3_256_hex ("query:" +:+ route ctx +:+ ":" +:+ q_key ctx +:+ ":" +:+ py_int_str nanos)));
       ("__xian_execution_mode__", VStr "xian_vm_v1");
       ("now", datetime_of (nanoseconds_to_utc_datetime nanos)); ("chain_id", VStr chain_id)], n).

(** Whether the contract is deployed, by the methods the driver has. *)
Definition deployed (d : D) (contract_name : string) : bool :=
  match has_contract with
  | Some has => has d contract_name
  | None => negb (is_none (get_contract_source d contract_name)
                  && is_none (match contract_ir with Some ir => ir d contract_name | None => VNone end))
  end.

(** An exception object is printed by [str()] like its message. *)
Definition view_value (v : vm_value) : value := match v with Returned v => v | Raised e => VStr (exn_msg e) end.

(** [driver.restore_state(state)] *)
Definition restore_driver (state : driver_snapshot (D := D)) (n : node (D := D)) : node :=
  Node (App.with_driver (restore_state (raw_driver (n_app n)) state) (n_app n)) (n_chi_cost n) (n_prepared n).

(** The body of the [try]. *)
Definition view_body (ctx : QueryContext) (contract_name function_name : string) (kwargs : list (string * value))
  : stM (node (D := D)) value :=
  _ ← (λ n, let '(r, c) := prepare_vm_contract py_str fuel (raw_driver (n_app n)) contract_name (n_prepared n) in
            (r, Node (n_app n) (n_chi_cost n) c));
  environment ← _make_vm_query_environment ctx;
  output ← on_driver (execute_vm_contract float_trunc
                        (VmArgs (str_or (q_key ctx) "__query__") contract_name function_name (VDict kwargs)
                           environment false (VInt 0) 0));
  mret (if status_code output =? 0 then view_value (vm_result output) else VNone).

Definition _call_contract_view (ctx : QueryContext) (contract_name function_name : string)
    (kwargs : list (string * value)) : stM (node (D := D)) value :=
  d ← driver_of;
  if negb (deployed d contract_name) then mret VNone
  else
    state ← gets_st (λ n, snapshot_state (raw_driver (n_app n)));
    finally_st (view_body ctx contract_name function_name kwargs) (restore_driver state).

Definition viewing (function_name : string) (kwargs : QueryContext -> list (string * value)) : handler := λ ctx,
  v ← _call_contract_view ctx "validators" function_name (kwargs ctx); mret (reply v).

Definition _handle_validators_policy : handler := viewing "get_policy_config" (λ _, []).
Definition _handle_validators_active : handler := viewing "get_active_validators" (λ _, []).
Definition _handle_validators_candidates : handler := viewing "get_pending_candidates" (λ _, []).
Definition _handle_validators_validator : handler := viewing "get_validator" (λ ctx, [("account", VStr (q_key ctx))]).

(** ** Votes *)

(** A proposal that is still open. *)
Definition open_vote (d : D) (proposal_id : Z) : option value :=
  match drv_get d ("validators.votes:" +:+ py_int_str proposal_id) with
  | VDict record =>
    if bool_decide (py_get "finalized" record VNone = VBool true) then None
    else if bool_decide (py_get "status" record VNone = VStr "pending")
    then Some (VDict (dict_set "proposal_id" (VInt proposal_id) record)) else None
  | _ => None
  end.

(** [range(total, 0, -1)] *)
Definition countdown (total : Z) : list Z := reverse (seqZ 1 total).

Definition vote_count (v : value) : result Z :=
  match v with VInt z => Ok z | VBool b => Ok (Z.b2z b)
             | _ => raise TypeError "object cannot be interpreted as an integer" end.

(** [l[offset:][:limit]] for bounds that are not negative *)
Definition page {A} (offset limit : Z) (l : list A) : list A := take (Z.to_nat limit) (drop (Z.to_nat offset) l).

Definition _pending_validators_votes (d : D) (limit offset : Z) : result (list value) :=
  total_votes ← vote_count (py_or (drv_get d "validators.total_votes") (VInt 0));
  Ok (page offset limit (omap (open_vote d) (countdown total_votes))).

Definition _validators_vote (d : D) (proposal_id : Z) : option (list (string * value)) :=
  match drv_get d ("validators.votes:" +:+ py_int_str proposal_id) with
  | VDict record => Some (dict_set "proposal_id" (VInt proposal_id) record)
  | _ => None
  end.

Definition vote_record (d : D) (proposal_id : Z) (voter : value) : option value :=
  match voter with
  | VStr voter =>
    let var field := drv_get d ("validators." +:+ field +:+ ":" +:+ py_int_str proposal_id +:+ ":" +:+ voter) in
    Some (VDict [("proposal_id", VInt proposal_id); ("voter", VStr voter); ("vote", var "vote_records");
                 ("weight", py_or (var "vote_weights") (VInt 0))])
  | _ => None
  end.

Definition _validators_vote_records (d : D) (proposal_id : Z) : list value :=
  match _validators_vote d proposal_id with
  | None => []
  | Some record =>
    let snapshot := match py_get "member_snapshot" record VNone with
                    | VList l => l
                    | _ => match py_get "voters" record VNone with VList l => l | _ => [] end
                    end in
    omap (vote_record d proposal_id) snapshot
  end.

Definition _handle_validators_open_votes : handler := reading (λ d ctx,
  let pagination := _offset_pagination (q_params ctx) in
  l ← _pending_validators_votes d (pg_limit pagination) (pg_offset pagination); Ok (VList l)).
Definition _handle_validators_vote : handler := reading (λ d ctx,
  id ← int_part 1 ctx; Ok (match _validators_vote d id with Some r => VDict r | None => VNone end)).
Definition _handle_validators_vote_records : handler := reading (λ d ctx,
  id ← int_part 1 ctx; Ok (VList (_validators_vote_records d id))).

(** [for unbond_id in pending_ids or []] *)
Definition pending_unbond (ctx : QueryContext) (unbond_id : value) : stM (node (D := D)) (option value) :=
  unbond ← _call_contract_view ctx "validators" "get_pending_unbond" [("unbond_id", unbond_id)];
  mret (match unbond with VDict d => Some (VDict (dict_set "unbond_id" unbond_id d)) | _ => None end).

Definition _resolve_pending_unbonds (ctx : QueryContext) : stM (node (D := D)) value :=
  pending_ids ← _call_contract_view ctx "validators" "get_pending_unbond_ids" [("owner", VStr (q_key ctx))];
  match pending_ids with
  | VNone => mret VNone
  | _ => ids ← lift_res (if truthy pending_ids then py_iter pending_ids else Ok []);
         entries ← mapM_st (pending_unbond ctx) ids;
         mret (VList (omap id entries))
  end.

Definition _handle_validators_pending_unbonds : handler := λ ctx,
  v ← _resolve_pending_unbonds ctx; mret (reply v).

(** ** Contract metadata *)

Definition _contract_ir_for_metadata (d : D) (contract_name : string) : option (list (string * value)) :=
  match contract_ir with
  | None => None
  | Some ir =>
    match ir d contract_name with
    | VStr text => if decide (text = "") then None
                   else match loads text with Ok (VDict module_ir) => Some module_ir | _ => None end
    | _ => None
    end
  end.

Definition method_argument (parameter : value) : option value :=
  match parameter with
  | VDict p =>
    match py_get "name" p VNone with
    | VStr name => Some (VDict ([("name", VStr name)]
                     ++ match py_get "annotation" p VNone with VStr a => [("type", VStr a)] | _ => [] end))
    | _ => None
    end
  | _ => None
  end.

Definition ir_method (function : value) : result (option value) :=
  match function with
  | VDict f =>
    match py_get "name" f VNone with
    | VStr name =>
      if startswith "__" name then Ok None
      else parameters ← py_iter (py_get "parameters" f (VList []));
           Ok (Some (VDict [("name", VStr name); ("arguments", VList (omap method_argument parameters))]))
    | _ => Ok None
    end
  | _ => Ok None
  end.

Definition _methods_for_contract_ir (module_ir : list (string * value)) : result (list value) :=
  functions ← py_iter (py_get "functions" module_ir (VList []));
  methods ← mapM_py ir_method functions;
  Ok (omap (M := list) id methods).

(** The names of the declarations of one storage type. *)
Definition declared (kind : string) (declarations : list value) : list value :=
  omap (λ declaration, match declaration with
        | VDict d =>
          if bool_decide (py_get "node" d VNone = VStr "storage_decl") then
            match py_get "name" d VNone with
            | VStr name => if bool_decide (py_get "storage_type" d VNone = VStr kind)
                           then Some (VStr (removeprefix "__" name)) else None
            | _ => None
            end
          else None
        | _ => None
        end) declarations.

Definition _variables_for_contract_ir (module_ir : list (string * value)) : result value :=
  declarations ← py_iter (py_get "global_declarations" module_ir (VList []));
  Ok (VDict [("variables", VList (declared "Variable" declarations)); ("hashes", VList (declared "Hash" declarations))]).

(** Metadata from the stored module, or else from the source by [parse]. *)
Definition metadata (from_ir : list (string * value) -> result value) (parse : value -> result value) : handler :=
  reading (λ d ctx,
    match _contract_ir_for_metadata d (q_key ctx) with
    | Some module_ir => from_ir module_ir
    | None => match get_contract_source d (q_key ctx) with VNone => Ok VNone | source => parse source end
    end).

Definition _handle_contract_methods : handler :=
  metadata (λ ir, methods ← _methods_for_contract_ir ir; Ok (VDict [("methods", VList methods)]))
           (λ source, methods ← methods_for_contract source; Ok (VDict [("methods", methods)])).
Definition _handle_contract_vars : handler := metadata _variables_for_contract_ir variables_for_contract.
Definition _handle_contract_source : handler := reading (λ d ctx, Ok (get_contract_source d (q_key ctx))).
Definition _handle_contract_ir : handler := reading (λ d ctx,
  Ok (match contract_ir with Some ir => ir d (q_key ctx) | None => VNone end)).

Definition has_source (d : D) (contract_name : string) : value :=
  VBool (negb (is_none (get_contract_source d contract_name))).

Definition _resolve_contract_info (d : D) (contract_name : string) : result value :=
  submitted ← _submission_iso (get_time_submitted d contract_name);
  Ok (VDict [("name", VStr contract_name); ("owner", get_owner d contract_name);
             ("developer", get_contract_developer d contract_name);
             ("deployer", get_contract_deployer d contract_name);
             ("initiator", get_contract_initiator d contract_name); ("submitted_at", submitted);
             ("has_source", has_source d contract_name)]).

Definition _handle_contract_info : handler := reading (λ d ctx, _resolve_contract_info d (q_key ctx)).

(** ** Listing contracts *)

Record contract_record := ContractRecord {
  cr_name : string; cr_submitted_at : value; cr_developer : value; cr_has_source : value }.

Definition contract_value (r : contract_record) : value :=
  VDict [("name", VStr (cr_name r)); ("submitted_at", cr_submitted_at r); ("developer", cr_developer r);
         ("has_source", cr_has_source r)].

(** [sorted] with a key that is a pair of strings; stable in both directions. *)
Fixpoint insert_with {A} (le : A -> A -> bool) (x : A) (l : list A) : list A :=
  match l with
  | [] => [x]
  | y :: l' => if le x y then x :: l else y :: insert_with le x l'
  end.
Definition sort_with {A} (le : A -> A -> bool) (l : list A) : list A := foldr (insert_with le) [] l.

Definition pair_leb (a b : string * string) : bool :=
  String.ltb a.1 b.1 || (bool_decide (a.1 = b.1) && String.leb a.2 b.2).

Definition submitted_text (r : contract_record) : string := match cr_submitted_at r with VStr s => s | _ => "" end.

Definition contract_sort_key (sort_key : string) (r : contract_record) : string * string :=
  if decide (sort_key = "name") then (py_lower (cr_name r), submitted_text r)
  else (submitted_text r, py_lower (cr_name r)).

Definition _sort_contract_records (sort_key : string) (descending : bool) (l : list contract_record)
  : list contract_record :=
  let key := contract_sort_key sort_key in
  sort_with (λ a b, if descending then pair_leb (key b) (key a) else pair_leb (key a) (key b)) l.

Definition read_contract (d : D) (contract_name : string) : result contract_record :=
  submitted ← _submission_iso (drv_get d (contract_name +:+ ".__submitted__"));
  Ok (ContractRecord contract_name submitted (drv_get d (contract_name +:+ ".__developer__")) (has_source d contract_name)).

(** [params.get(key, default).strip().lower()] *)
Definition option_param (params : list (string * string)) (key default_value : string) : string :=
  py_lower (py_strip (match dict_get key params with Some s => s | None => default_value end)).

Definition listing_sort_key (params : list (string * string)) : string :=
  let sort_key := option_param params "sort" "submitted_at" in
  if bool_decide (sort_key ∈ ["submitted_at"; "name"]) then sort_key else "submitted_at".

Definition _resolve_contract_listing (d : D) (params : list (string * string)) : result value :=
  let pagination := _offset_pagination params in
  let sort_key := listing_sort_key params in
  let descending := negb (bool_decide (option_param params "order" "desc" = "asc")) in
  records ← mapM_py (read_contract d) (sort_by id (remove_dups (get_contracts d)));
  let sorted_records := _sort_contract_records sort_key descending records in
  Ok (VDict [("items", VList (contract_value <$> page (pg_offset pagination) (pg_limit pagination) sorted_records));
             ("total", VInt (Z.of_nat (length sorted_records))); ("limit", VInt (pg_limit pagination));
             ("offset", VInt (pg_offset pagination)); ("sort", VStr sort_key);
             ("order", VStr (if descending then "desc" else "asc"))]).

Definition _handle_contracts : handler := reading (λ d ctx, _resolve_contract_listing d (q_params ctx)).

(** ** Keys *)

Definition keys_limit (params : list (string * string)) : Z :=
  _bounded_int_param params "limit" DEFAULT_KEYS_QUERY_LIMIT 1 (Some MAX_KEYS_QUERY_LIMIT).

(** One page: the suffixes of the keys, and whether there are more. *)
Definition keys_page (d : D) (prefix : string) (limit : Z) (after : option string) : list string * bool :=
  let '(keys, has_more) := scan_keys_from_disk d prefix limit (_keys_query_after_key prefix after) in
  (_keys_query_suffix prefix <$> keys, has_more).

(** What the next request passes as [after]. *)
Definition next_after (items : list string) (has_more : bool) : option string :=
  if has_more then last items else None.

Definition opt_text (s : option string) : value := match s with Some s => VStr s | None => VNone end.

Definition _resolve_keys_query (d : D) (ctx : QueryContext) : result QueryResult :=
  prefix ← part 1 ctx;
  let limit := keys_limit (q_params ctx) in
  let after := dict_get "after" (q_params ctx) in
  let '(items, has_more) := keys_page d prefix limit after in
  Ok (QResult
        (VDict [("prefix", VStr prefix); ("items", VList (VStr <$> items)); ("limit", VInt limit);
                ("after", match after with Some s => py_or (VStr s) VNone | None => VNone end);
                ("next_after", opt_text (next_after items has_more)); ("has_more", VBool has_more)])
        (Some prefix)).

Definition _handle_keys : handler := λ ctx, d ← driver_of; lift_res (_resolve_keys_query d ctx).

(** ** Other core routes *)

Definition _handle_get : handler := reading (λ d ctx, key ← part 1 ctx; Ok (drv_get d key)).
Definition _handle_health : handler := λ _, mret (reply (VStr "OK")).
Definition _handle_ping : handler := λ _, mret (reply (VDict [("status", VStr "online")])).

Definition _handle_get_next_nonce : handler := λ ctx,
  z ← on_app (on_nonces (get_next_nonce monotonic reservation_ttl_seconds (q_key ctx)));
  mret (reply (VInt z)).

Definition _resolve_perf_status : value :=
  VDict (foldl (λ d kv, dict_set kv.1 kv.2 d) profile
    [("parallel_execution_enabled", VBool (ps_enabled parallel));
     ("parallel_execution_workers", VInt (ps_workers parallel));
     ("parallel_execution_min_transactions", VInt (ps_min_batch_size parallel));
     ("parallel_execution_max_speculative_waves", VInt (ps_max_speculative_waves parallel));
     ("parallel_execution_min_wave_acceptance_ratio", ps_min_wave_acceptance_ratio parallel);
     ("parallel_execution_low_acceptance_min_wave_size", VInt (ps_low_acceptance_min_wave_size parallel));
     ("parallel_execution_access_estimates_enabled", VBool (ps_use_access_estimates parallel))]).
Definition _handle_perf_status : handler := λ _, mret (reply _resolve_perf_status).

Definition _handle_simulate_tx : handler := reading (λ _ ctx, tx ← part 1 ctx; simulate tx).
Definition _handle_state_patch_bundles : handler := reading (λ _ _,
  l ← get_local_bundle_inventory patches; Ok (VList l)).
Definition _handle_scheduled_state_patches : handler := reading (λ d ctx,
  height ← int_part 1 ctx; l ← get_scheduled_patch_inventory patches d height; Ok (VList l)).

Definition CORE_QUERY_HANDLERS : list (string * handler) :=
  [("get", _handle_get); ("health", _handle_health); ("get_next_nonce", _handle_get_next_nonce);
   ("contract_source", _handle_contract_source); ("contract_ir", _handle_contract_ir);
   ("contract_methods", _handle_contract_methods); ("contract_vars", _handle_contract_vars);
   ("contract_info", _handle_contract_info); ("contracts", _handle_contracts); ("ping", _handle_ping);
   ("perf_status", _handle_perf_status); ("simulate_tx", _handle_simulate_tx);
   ("state_patch_bundles", _handle_state_patch_bundles);
   ("scheduled_state_patches", _handle_scheduled_state_patches); ("keys", _handle_keys);
   ("validators_policy", _handle_validators_policy); ("validators_active", _handle_validators_active);
   ("validators_candidates", _handle_validators_candidates); ("validators_validator", _handle_validators_validator);
   ("validators_pending_unbonds", _handle_validators_pending_unbonds);
   ("validators_open_votes", _handle_validators_open_votes); ("validators_vote", _handle_validators_vote);
   ("validators_vote_records", _handle_validators_vote_records)].

(** ** Routes of the block data service *)

Definition _require_bds : result (string -> list value -> list (string * value) -> result value) :=
  match bds with Some b => Ok b | None => raise RuntimeError "BDS service is not initialized" end.

(** [await bds.method(args, kwargs)] with arguments made from the context. *)
Definition asking (method : string) (args : QueryContext -> result (list value * list (string * value))) : handler := λ ctx,
  v ← lift_res (a ← args ctx; b ← _require_bds; b method a.1 a.2); mret (reply v).

Definition with_key (ctx : QueryContext) : result (list value * list (string * value)) := Ok ([VStr (q_key ctx)], []).
Definition paged (ctx : QueryContext) : result (list value * list (string * value)) :=
  let o := _bds_query_options (q_params ctx) in Ok ([VInt (bo_limit o); VInt (bo_offset o)], []).
Definition key_paged (ctx : QueryContext) : result (list value * list (string * value)) :=
  let o := _bds_query_options (q_params ctx) in Ok ([VStr (q_key ctx); VInt (bo_limit o); VInt (bo_offset o)], []).
Definition int_key (s : result string) : result (list value * list (string * value)) :=
  s ← s; z ← int_text s; Ok ([VInt z], []).

Definition opt_int (z : option Z) : value := match z with Some z => VInt z | None => VNone end.

(** An answer with the page's limits around the items. *)
Definition available (items : value) (fields : list (string * value)) : QueryResult :=
  reply (VDict ([("available", VBool true); ("items", items)] ++ fields)).

Definition limits (o : BdsQueryOptions) : list (string * value) :=
  [("limit", VInt (bo_limit o)); ("offset", VInt (bo_offset o))].

Definition _current_bds_block_height : stM (node (D := D)) Z := λ n,
  match current_block_meta (n_app n) with
  | Some m => (Ok (bm_height m), n)
  | None => on_app (on_mirror (get_latest_block_height py_str float_trunc io_ok)) n
  end.

Definition _handle_blocks : handler := asking "get_blocks" paged.
Definition _handle_bds_status : handler := λ ctx,
  b ← lift_res _require_bds;
  height ← _current_bds_block_height;
  v ← lift_res (b "get_status" [] [("current_block_height", VInt height)]);
  mret (reply v).
Definition _handle_bds_spool : handler := asking "get_spool_entries" paged.
Definition _handle_block : handler := asking "get_block" (λ ctx, int_key (Ok (q_key ctx))).
Definition _handle_block_by_hash : handler := asking "get_block_by_hash" with_key.
Definition _handle_tx : handler := asking "get_tx" with_key.
Definition _handle_txs_for_block : handler := asking "get_txs_for_block" with_key.
Definition _handle_txs_by_sender : handler := asking "get_txs_by_sender" key_paged.
Definition _handle_txs_by_contract : handler := asking "get_txs_by_contract" key_paged.
Definition _handle_events_for_tx : handler := asking "get_events_for_tx" with_key.

(** A listing with its limits. *)
Definition listing (method : string) (args : QueryContext -> list value * list (string * value))
    (fields : BdsQueryOptions -> list (string * value)) : handler := λ ctx,
  v ← lift_res (b ← _require_bds; b method (args ctx).1 (args ctx).2);
  mret (available v (fields (_bds_query_options (q_params ctx)))).

Definition _handle_addresses : handler := listing "get_recent_addresses"
  (λ ctx, let o := _bds_query_options (q_params ctx) in ([VInt (bo_limit o); VInt (bo_offset o)], [])) limits.
Definition _handle_recent_events : handler := listing "get_recent_events"
  (λ ctx, let o := _bds_query_options (q_params ctx) in ([VInt (bo_limit o); VInt (bo_offset o)], [])) limits.

Definition tag_kind (ctx : QueryContext) : value :=
  let kind := option_param (q_params ctx) "kind" "sync_hint" in
  VStr (if bool_decide (kind ∈ ["sync_hint"; "discovery_tag"]) then kind else "sync_hint").

Definition _handle_shielded_output_tags : handler := listing "get_shielded_output_tags"
  (λ ctx, let o := _bds_query_options (q_params ctx) in
          ([VStr (q_key ctx); VInt (bo_limit o); VInt (bo_offset o)],
           [("kind", tag_kind ctx); ("after_id", opt_int (bo_after_id o))])) limits.
Definition _handle_shielded_wallet_history : handler := listing "get_shielded_wallet_history"
  (λ ctx, let o := _bds_query_options (q_params ctx) in
          ([VStr (q_key ctx); VInt (bo_limit o); VInt (bo_after_note_index o)], [("kind", tag_kind ctx)]))
  (λ o, [("limit", VInt (bo_limit o)); ("after_note_index", VInt (bo_after_note_index o))]).

Definition _handle_events : handler := asking "get_events" (λ ctx,
  let o := _bds_query_options (q_params ctx) in
  contract ← part 1 ctx; event ← part 2 ctx;
  Ok ([VStr contract; VStr event; VInt (bo_limit o); VInt (bo_offset o)], [("after_id", opt_int (bo_after_id o))])).

Definition spec_value (s : CandleSourceSpec) : value :=
  VDict [("source", VStr (cs_source s)); ("contract", VStr (cs_contract s)); ("event", VStr (cs_event s));
         ("market_field", VStr (cs_market_field s)); ("amount0_in_field", VStr (cs_amount0_in_field s));
         ("amount1_in_field", VStr (cs_amount1_in_field s)); ("amount0_out_field", VStr (cs_amount0_out_field s));
         ("amount1_out_field", VStr (cs_amount1_out_field s));
         ("market_id_kind", VStr (match cs_market_id_kind s with MarketInt => "int" | MarketStr => "str" end))].

(** [_optional_timestamp_param]; [timestamp_of] parses a text that is not empty. *)
Definition _optional_timestamp_param (params : list (string * string)) (key : string) : value :=
  match dict_get key params with
  | None => VNone
  | Some raw => let v := py_strip raw in
                if decide (v = "") then VNone else match timestamp_of v with Some t => t | None => VNone end
  end.

Definition _handle_dex_candles : handler := asking "get_dex_candles" (λ ctx,
  let o := _bds_query_options (q_params ctx) in
  spec ← get_candle_source_spec (dict_get "source" (q_params ctx));
  let spec := match dict_get "contract" (q_params ctx) with Some c => with_contract c spec | None => spec end in
  '(market_id, _) ← normalize_market_id spec (q_key ctx);
  Ok ([VStr market_id],
      [("source_spec", spec_value spec);
       ("interval_seconds", VInt (_duration_seconds_param (q_params ctx) "interval" DEFAULT_DEX_CANDLE_INTERVAL_SECONDS));
       ("limit", VInt (bo_limit o)); ("offset", VInt (bo_offset o));
       ("start_time", _optional_timestamp_param (q_params ctx) "start");
       ("end_time", _optional_timestamp_param (q_params ctx) "end")])).

Definition _handle_state : handler := asking "get_state" key_paged.
Definition _handle_token_balances : handler := asking "get_token_balances" (λ ctx,
  let o := _bds_query_options (q_params ctx) in
  let include_zero := bool_decide (option_param (q_params ctx) "include_zero" "" ∈ ["1"; "true"; "yes"]) in
  Ok ([VStr (q_key ctx); VInt (bo_limit o); VInt (bo_offset o)], [("include_zero", VBool include_zero)])).
Definition _handle_token_contracts : handler := asking "get_token_contracts" paged.
Definition _handle_state_history : handler := asking "get_state_history" key_paged.
Definition _handle_state_previous : handler := asking "get_state_previous" with_key.
Definition _handle_state_for_tx : handler := asking "get_state_for_tx" with_key.
Definition _handle_state_for_block : handler := asking "get_state_for_block" with_key.
Definition _handle_state_patches : handler := asking "get_state_patches" paged.
Definition _handle_state_patches_for_block : handler := asking "get_state_patches_for_block" (λ ctx, int_key (part 1 ctx)).
Definition _handle_state_patch : handler := asking "get_state_patch_by_hash" with_key.
Definition _handle_state_changes_for_patch : handler := asking "get_state_changes_for_patch" with_key.
Definition _handle_developer_rewards : handler := asking "get_developer_rewards" with_key.
Definition _handle_contract_summary : handler := asking "get_contract_summary" with_key.

Definition BDS_QUERY_HANDLERS : list (string * handler) :=
  [("blocks", _handle_blocks); ("bds_status", _handle_bds_status); ("bds_spool", _handle_bds_spool);
   ("block", _handle_block); ("block_by_hash", _handle_block_by_hash); ("tx", _handle_tx);
   ("txs_for_block", _handle_txs_for_block); ("txs_by_sender", _handle_txs_by_sender);
   ("addresses", _handle_addresses); ("txs_by_contract", _handle_txs_by_contract);
   ("events_for_tx", _handle_events_for_tx); ("shielded_output_tags", _handle_shielded_output_tags);
   ("shielded_wallet_history", _handle_shielded_wallet_history); ("events", _handle_events);
   ("recent_events", _handle_recent_events); ("dex_candles", _handle_dex_candles); ("state", _handle_state);
   ("token_contracts", _handle_token_contracts); ("token_balances", _handle_token_balances);
   ("state_history", _handle_state_history); ("state_previous", _handle_state_previous);
   ("state_for_tx", _handle_state_for_tx); ("state_for_block", _handle_state_for_block);
   ("state_patches", _handle_state_patches); ("state_patches_for_block", _handle_state_patches_for_block);
   ("state_patch", _handle_state_patch); ("state_changes_for_patch", _handle_state_changes_for_patch);
   ("developer_rewards", _handle_developer_rewards); ("contract_summary", _handle_contract_summary)].

(** ** The query handler *)

(** [_execute_query]; [None] when no route matches. *)
Definition route_handler (r : string) : option handler :=
  match dict_get r CORE_QUERY_HANDLERS with
  | Some h => Some h
  | None => if bds_enabled then dict_get r BDS_QUERY_HANDLERS else None
  end.

Definition text_of_value (v : value) : string := match v with VFloat r => r | _ => py_str v end.

Definition _encode_query_value (v : value) : result (option bytes * option string) :=
  match v with
  | VNone => Ok (None, None)
  | VBool b => Ok (Some (encode_utf8 (if b then "True" else "False")), Some "bool")
  | VStr s => Ok (Some (encode_utf8 s), Some "str")
  | VInt z => Ok (Some (encode_utf8 (py_int_str z)), Some "int")
  | VFloat _ | VDec _ => Ok (Some (encode_utf8 (text_of_value v)), Some "decimal")
  | VDict _ => b ← encode_abci_json v; Ok (Some b, Some "dict")
  | VList _ => b ← encode_abci_json v; Ok (Some b, Some "list")
  | _ => Ok (Some (encode_utf8 (text_of_value v)), Some "str")
  end.

Definition query_context (path : string) : QueryContext :=
  let parts := filter (λ p, p <> "") (split_on "/"%char path) in
  QueryCtx parts (_query_params parts) (default "" (parts !! 0%nat)) (default "" (parts !! 1%nat)).

Definition query (req : RequestQuery) : stM (node (D := D)) ResponseQuery := λ n,
  match get_committed_latest_block py_str float_trunc (raw_driver (n_app n)) with
  | Raise e => (Raise e, n)
  | Ok latest =>
    let height := lb_height latest in
    let refuse log := QueryResponse ErrorCode height None None log [] in
    if negb ((q_height req =? 0) || (q_height req =? height)) then
      (Ok (refuse ("Unsupported query height " +:+ py_int_str (q_height req) +:+ "; only latest committed height "
                   +:+ py_int_str height +:+ " is available (height=0 selects latest)")), n)
    else if q_prove req then (Ok (refuse "Merkle proof queries are not supported; use prove=false"), n)
    else
      let ctx := query_context (q_path req) in
      match route_handler (route ctx) with
      | None => (Ok (QueryResponse ErrorCode height (Some [0]) None ("Unknown query path: " +:+ route ctx) []), n)
      | Some h =>
        match h ctx n with
        | (Raise _, n) => (Ok (refuse ""), n)
        | (Ok outcome, n) =>
          match _encode_query_value (qres_result outcome) with
          | Raise _ => (Ok (refuse ""), n)
          | Ok (v, info) =>
            (Ok (QueryResponse OkCode height v info "" (encode_utf8 (default (q_key ctx) (qres_key outcome)))), n)
          end
        end
      end
  end.

(** ** A query changes nothing of the chain *)

(** What may differ afterwards: expired reservations are dropped, contracts are prepared, and a
    missing mirror file is created. *)
Record reads_only (n n' : node (D := D)) : Prop := {
  ro_driver : raw_driver (n_app n') = raw_driver (n_app n);
  ro_cache : state_root_cache (n_app n') = state_root_cache (n_app n);
  ro_root : merkle_root_hash (n_app n') = merkle_root_hash (n_app n);
  ro_meta : current_block_meta (n_app n') = current_block_meta (n_app n);
  ro_staged : _pending_commit_driver_state (n_app n') = _pending_commit_driver_state (n_app n);
  ro_chi : n_chi_cost n' = n_chi_cost n;
  ro_nonces sender : pend (nonce_storage (n_app n')) sender ⊆ pend (nonce_storage (n_app n)) sender;
}.

#[global] Instance reads_only_preorder : PreOrder reads_only.
Proof.
  split; [by split|]. intros a b c [A1 A2 A3 A4 A5 A6 A7] [B1 B2 B3 B4 B5 B6 B7].
  split; try congruence. intros sender. by transitivity (pend (nonce_storage (n_app b)) sender).
Qed.

Lemma pruned_preorder sender : PreOrder (pruned monotonic reservation_ttl_seconds (D := D) sender).
Proof. split; [intros s; apply pruned_refl|intros a b c; apply pruned_trans]. Qed.

Lemma keeps_next_nonce sender :
  keeps (pruned monotonic reservation_ttl_seconds (D := D) sender) (get_next_nonce monotonic reservation_ttl_seconds sender).
Proof.
  pose proof (pruned_preorder sender).
  assert (Hp : keeps (pruned monotonic reservation_ttl_seconds (D := D) sender)
                 (_prune_pending_for_sender monotonic reservation_ttl_seconds sender)).
  { intros s. destruct (prune_sender_spec monotonic reservation_ttl_seconds sender s) as (s' & -> & Hs). exact Hs. }
  assert (Hc : keeps (pruned monotonic reservation_ttl_seconds (D := D) sender) (_get_committed_nonce sender))
    by (intros s; reflexivity).
  unfold get_next_nonce, get_pending_nonce. keep.
Qed.

Lemma keeps_nonce_query sender :
  keeps reads_only (on_app (on_nonces (get_next_nonce monotonic reservation_ttl_seconds sender))).
Proof.
  intros [a k c]. unfold on_app, on_nonces. cbn [n_app n_chi_cost n_prepared].
  pose proof (keeps_next_nonce sender (nonce_storage a)) as Hs.
  destruct (get_next_nonce _ _ sender (nonce_storage a)) as [r ns]. cbn [snd] in *.
  destruct Hs as [Hd Ho Hsub _ _]. split; try done. intros q. cbn.
  destruct (decide (q = sender)) as [->|Hne]; [done|]. by rewrite Ho.
Qed.

Lemma keeps_mirror {A} (m : stM mirror A) : keeps reads_only (on_app (on_mirror m)).
Proof. intros [a k c]. unfold on_app, on_mirror. cbn [n_app n_chi_cost n_prepared]. by destruct (m (latest_block_mirror a)) as [r mi]. Qed.

Lemma keeps_environment ctx : keeps reads_only (_make_vm_query_environment ctx).
Proof.
  intros n. unfold _make_vm_query_environment. destruct (current_block_meta (n_app n)) as [m|]; [reflexivity|].
  pose proof (keeps_mirror (get_latest_block_nanos py_str float_trunc io_ok) n) as Hm.
  destruct (on_app _ n) as [[z|e] n']; exact Hm.
Qed.

#[local] Hint Resolve keeps_nonce_query keeps_mirror keeps_environment : keeps.

(** What holds while a view runs: the disk is the same, the rest as for a whole query. *)
Record viewing_only (n n' : node (D := D)) : Prop := {
  vo_disk q : drv_value_from_disk (raw_driver (n_app n')) q = drv_value_from_disk (raw_driver (n_app n)) q;
  vo_rest : reads_only n (Node (App.with_driver (raw_driver (n_app n)) (n_app n')) (n_chi_cost n') (n_prepared n'));
}.

Lemma reads_only_views n n' : reads_only n n' -> viewing_only n n'.
Proof. intros Hr. split; [intros q; by rewrite (ro_driver _ _ Hr)|]. destruct Hr as [R1 R2 R3 R4 R5 R6 R7]. by split. Qed.

#[global] Instance viewing_only_preorder : PreOrder viewing_only.
Proof.
  split; [intros n; apply reads_only_views; reflexivity|]. intros a b c [A0 [A1 A2 A3 A4 A5 A6 A7]] [B0 [B1 B2 B3 B4 B5 B6 B7]].
  split; [intros q; by rewrite B0|]. split; cbn in *; try congruence. intros sender.
  etransitivity; [exact (B7 sender)|exact (A7 sender)].
Qed.

Lemma keeps_views {A} (m : stM (node (D := D)) A) : keeps reads_only m -> keeps viewing_only m.
Proof. intros Hm n. apply reads_only_views, Hm. Qed.

Lemma keeps_execution `{!RuntimeLaws D} a : keeps viewing_only (on_driver (execute_vm_contract float_trunc a)).
Proof.
  intros n. unfold on_driver. pose proof (execute_vm_contract_disk float_trunc a (raw_driver (n_app n))) as Hd.
  destruct (execute_vm_contract float_trunc a (raw_driver (n_app n))) as [r d]. split; [exact Hd|]. by split.
Qed.

(** Restoring the snapshot taken before undoes what the view did to the driver. *)
Lemma keeps_finally `{!RuntimeLaws D} {A} (m : stM (node (D := D)) A) n :
  keeps viewing_only m ->
  reads_only n (finally_st m (restore_driver (snapshot_state (raw_driver (n_app n)))) n).2.
Proof.
  intros Hm. unfold finally_st. specialize (Hm n). destruct (m n) as [r n']. cbn [snd] in *. destruct Hm as [Hd Hr].
  unfold restore_driver. by rewrite (restore_snapshot _ _ Hd).
Qed.

Lemma keeps_view `{!RuntimeLaws D} ctx contract function kwargs :
  keeps reads_only (_call_contract_view ctx contract function kwargs).
Proof.
  intros n. unfold _call_contract_view. rewrite (stM_bind_ok _ _ n (raw_driver (n_app n)) n) by done.
  destruct (negb _); [reflexivity|]. rewrite (stM_bind_ok _ _ n (snapshot_state (raw_driver (n_app n))) n) by done.
  apply keeps_finally. unfold view_body.
  apply keeps_bind; [apply _| |intros _; apply keeps_bind; [apply _|apply keeps_views, keeps_environment|intros environment]].
  - apply keeps_views. intros n'. by destruct (prepare_vm_contract _ _ _ _ _) as [r c].
  - apply keeps_bind; [apply _|apply keeps_execution|intros output]. apply keeps_ret. apply _.
Qed.

#[local] Hint Resolve keeps_view : keeps.

Lemma keeps_unbonds `{!RuntimeLaws D} ctx : keeps reads_only (_resolve_pending_unbonds ctx).
Proof. unfold _resolve_pending_unbonds, pending_unbond. keep. Qed.

Lemma keeps_height : keeps reads_only _current_bds_block_height.
Proof.
  intros n. unfold _current_bds_block_height. destruct (current_block_meta (n_app n)); [reflexivity|]. apply keeps_mirror.
Qed.

#[local] Hint Resolve keeps_unbonds keeps_height : keeps.









End Query.

(** ** Paging through the keys under a prefix *)

Section Keys.
Context {D : Type} `{!QueryDriver D}.
Context (d : D) (prefix : string) (limit : Z).

(** What the driver's scan promises: the keys under the prefix in their order, from the one
    after [after_key], at most [limit] of them, and whether some were left out. *)
Definition keys_after (all : list string) (after : option string) : list string :=
  match after with None => all | Some a => filter (λ k, str_lt a k) all end.

Definition scans (all : list string) : Prop :=
  StronglySorted str_lt all /\
  forall after, scan_keys_from_disk d prefix limit after =
    (take (Z.to_nat limit) (keys_after all after), bool_decide (limit < Z.of_nat (length (keys_after all after)))).

(** A key the scan continues after when its suffix is sent back. *)
Definition resumable (key : string) : Prop :=
  _keys_query_after_key prefix (Some (_keys_query_suffix prefix key)) = Some key.

(** A client that asks for page after page, at most [fuel] of them. *)
Fixpoint all_pages (fuel : nat) (after : option string) : list string :=
  match fuel with
  | O => []
  | S fuel =>
    let '(items, has_more) := keys_page d prefix limit after in
    items ++ match next_after items has_more with
             | Some a => all_pages fuel (Some a)
             | None => []
             end
  end.

Lemma filter_after l1 k l2 :
  StronglySorted str_lt (l1 ++ k :: l2) -> filter (λ x, str_lt k x) (l1 ++ k :: l2) = l2.
Proof.
  intros (Hb & _ & Hs)%StronglySorted_app. rewrite filter_app, filter_none.
  - apply StronglySorted_cons in Hs as [Hk _]. cbn [Datatypes.app].
    rewrite filter_cons_False by (intros Hlt; by apply (str_lt_asym k k)). by apply filter_all.
  - apply Forall_forall. intros x Hx Hlt. apply (str_lt_asym k x); [done|]. apply Hb; [done|left].
Qed.

Lemma next_page all pre rest :
  1 <= limit -> StronglySorted str_lt all -> all = pre ++ rest -> Forall resumable all ->
  limit < Z.of_nat (length rest) ->
  exists k, last (_keys_query_suffix prefix <$> take (Z.to_nat limit) rest) = Some (_keys_query_suffix prefix k) /\
    resumable k /\ keys_after all (Some k) = drop (Z.to_nat limit) rest.
Proof.
  intros Hl Hs Ha Hr Hlt.
  destruct (lookup_lt_is_Some_2 rest (Z.to_nat limit - 1)) as [k Hk]; [lia|]. exists k.
  assert (Hsplit : rest = take (Z.to_nat limit - 1) rest ++ k :: drop (Z.to_nat limit) rest).
  { replace (Z.to_nat limit) with (S (Z.to_nat limit - 1)) at 2 by lia. by rewrite take_drop_middle. }
  split_and!.
  - rewrite fmap_last, last_lookup, lookup_take_lt, length_take by (rewrite ?length_take; lia).
    replace (pred (Z.to_nat limit `min` length rest)) with (Z.to_nat limit - 1)%nat by lia. by rewrite Hk.
  - rewrite Forall_forall in Hr. apply Hr. rewrite Ha, Hsplit. apply elem_of_app. right. apply elem_of_app. right. left.
  - unfold keys_after. subst all. remember (drop (Z.to_nat limit) rest) as tail.
    rewrite Hsplit, (assoc_L (++)) in Hs |- *. by apply filter_after.
Qed.

Lemma pages_from all fuel :
  scans all -> Forall resumable all -> 1 <= limit -> forall after pre rest,
  all = pre ++ rest -> keys_after all (_keys_query_after_key prefix after) = rest -> (length rest < fuel)%nat ->
  all_pages fuel after = _keys_query_suffix prefix <$> rest.
Proof.
  intros [Hs Hscan] Hr Hl. induction fuel as [|fuel IH]; intros after pre rest Ha Hk Hf; [lia|].
  cbn [all_pages]. unfold keys_page. rewrite Hscan, Hk. unfold next_after.
  destruct (bool_decide_reflect (limit < Z.of_nat (length rest))) as [Hlt|Hge]; cycle 1.
  { rewrite app_nil_r, take_ge by lia. done. }
  destruct (next_page all pre rest Hl Hs Ha Hr Hlt) as (k & -> & Hres & Hnext).
  rewrite (IH _ (pre ++ take (Z.to_nat limit) rest) (drop (Z.to_nat limit) rest)).
  - by rewrite <- fmap_app, take_drop.
  - by rewrite <- (assoc_L (++)), take_drop.
  - by rewrite Hres.
  - rewrite length_drop. lia.
Qed.

(** Keys below the prefix and its delimiter are resumable unless their suffix is empty, has
    white space at an end or itself begins with the prefix. *)
Lemma resumable_plain s :
  s <> "" -> py_strip s = s -> startswith prefix s = false -> resumable (prefix +:+ delimiter prefix +:+ s).
Proof.
  intros Hne Hs Hp. unfold resumable, _keys_query_suffix. rewrite str_app_assoc, strip_prefix_app.
  unfold _keys_query_after_key. rewrite Hs, decide_False, Hp by done. by rewrite <- str_app_assoc.
Qed.

(** Claim C33. Paging through the keys under a prefix finds every key exactly once, in order,
    and ends: a client that passes [next_after] back as [after] until there are no more
    pages collects the suffixes of all keys, whatever the page size, provided the suffix of
    each key leads back to the key (as it does for the keys below the delimiter whose suffix
    is not empty, has no white space at its ends and does not begin with the prefix). *)
Theorem keys_pages_complete all fuel :
  scans all -> Forall resumable all -> 1 <= limit -> (length all < fuel)%nat ->
  all_pages fuel None = _keys_query_suffix prefix <$> all.
Proof. intros Hs Hr Hl Hf. by apply (pages_from all fuel Hs Hr Hl None [] all). Qed.
End Keys.

(** The page size a request gets is at least one. *)
Lemma keys_limit_range params : 1 <= keys_limit params <= MAX_KEYS_QUERY_LIMIT.
Proof. unfold keys_limit, _bounded_int_param, MAX_KEYS_QUERY_LIMIT. cbn. lia. Qed.

(** ** The in-memory driver *)

Definition toy_keys (d : mem_driver) (prefix : string) : list string :=
  sort_by id (filter (λ k, startswith prefix k = true) (dict_keys (drv_items d))).

#[global] Instance toy_query_driver : QueryDriver mem_driver := {|
  has_contract := Some (λ d c, negb (is_none (drv_get d ("ir:" +:+ c))));
  contract_ir := Some (λ d c, drv_get d ("ir:" +:+ c));
  get_contract_source d c := drv_get d (c +:+ ".__source__");
  get_contract_developer d c := drv_get d (c +:+ ".__developer__");
  get_contract_deployer _ _ := VNone;
  get_contract_initiator _ _ := VNone;
  get_time_submitted d c := drv_get d (c +:+ ".__submitted__");
  get_contracts d := omap (strip_prefix "ir:") (dict_keys (drv_items d));
  scan_keys_from_disk d prefix limit after :=
    let rest := keys_after (toy_keys d prefix) after in
    (take (Z.to_nat limit) rest, bool_decide (limit < Z.of_nat (length rest)));
  methods_for_contract _ := Ok VNone;
  variables_for_contract _ := Ok VNone;
|}.

Definition paged_driver (keys : list string) : mem_driver :=
  (drv_hard_apply true (drv_apply_writes mem_empty ((λ k, (k, VInt 1)) <$> keys))).2.

Definition balance_keys : list string := ["currency.balances:alice"; "currency.balances:bob"; "currency.balances:carol"].

Lemma keys_pages_complete_witness :
  all_pages (paged_driver balance_keys) "currency.balances" 2 4 None = ["alice"; "bob"; "carol"].
Proof.
  rewrite (keys_pages_complete (paged_driver balance_keys) "currency.balances" 2 balance_keys 4); [done|..].
  - split; [|intros after; vm_compute (toy_keys _ _); reflexivity].
    repeat first [apply SSorted_nil | apply SSorted_cons]; repeat constructor.
  - repeat constructor; vm_compute; reflexivity.
  - lia.
  - vm_compute. lia.
Defined.

(** Paging can lose keys: under the prefix [con:] the key [con:con:x] has the suffix
    [con:x], which begins with the prefix, so it is taken for a whole key when it is sent
    back, and the page after it starts behind keys that were never shown. *)
Theorem keys_paging_loses_keys :
  let keys := ["con:a"; "con:con:x"; "con:d"] in
  let d := paged_driver keys in
  scans d "con:" 2 keys /\ all_pages d "con:" 2 10 None = ["a"; "con:x"] /\ all_pages d "con:" 200 10 None = ["a"; "con:x"; "d"].
Proof.
  split_and!; [|vm_compute; reflexivity..]. split; [|intros after; vm_compute (toy_keys _ _); reflexivity].
  repeat first [apply SSorted_nil | apply SSorted_cons]; repeat constructor.
Qed.

#[local] Existing Instance int_arith.

Definition toy_query (path : string) : stM (node (D := mem_driver)) ResponseQuery :=
  query toy_str no_floats 3 ticks 60 true "xian-1" chain_patches [] (ParallelSettings false 1 1 1 VNone 1 false)
    (λ _, Ok VNone) (λ _, None) false None (QueryRequest path 0 false).

(** A balance, the next nonce, a view of a contract that is not deployed, and an unknown route. *)
Example query_samples :
  (qr_info <$> ((λ p, ok_or (QueryResponse 9 0 None None "" []) (toy_query p chain_node).1) <$>
     ["/get/currency.balances:" +:+ sample_sender; "/get_next_nonce/" +:+ sample_sender; "/validators_policy"; "/nope"]))
  = [Some "int"; Some "int"; None; None].
Proof. vm_compute. reflexivity. Qed.

