(* ===== verification/SimulatorIpc.v ===== *)
(** * The transport of the simulator (src/src/xian/simulator_ipc.py)

    The node and the process that simulates a transaction exchange Python values as JSON;
    values JSON does not have (decimals, times, bytes, tuples, sets, dicts with other keys)
    travel as tagged objects, and data that looks like a tagged object is escaped.

    An object of a scalar class is identified by its [str].  A set is the list of its
    elements and a dict the list of its entries, in iteration order; [py_set] and [py_dict]
    are what the constructors make of an iterable ([decode_scalar] for the scalar classes),
    where unhashable or malformed items raise. *)

From S2P Require Import Prelude PyValue Json PyBuiltins Encoding.

Definition _TYPE_KEY : string := "__xian_ipc_type__".

Inductive scalar_type := SContractingDecimal | SDecimal | SDatetime.
Inductive coll_type := CDecimalTuple | CContractingFrozenSet | CContractingSet | CFrozenset | CSet | CTuple.

Definition scalar_tag (k : scalar_type) : string :=
  match k with SContractingDecimal => "contracting_decimal" | SDecimal => "decimal" | SDatetime => "datetime" end.
Definition coll_tag (k : coll_type) : string :=
  match k with
  | CDecimalTuple => "decimal_tuple" | CContractingFrozenSet => "contracting_frozenset"
  | CContractingSet => "contracting_set" | CFrozenset => "frozenset" | CSet => "set" | CTuple => "tuple"
  end.

Unset Elimination Schemes.
Inductive pyobj :=
  | PNone | PBool (b : bool) | PInt (z : Z) | PFloat (repr : string) | PStr (s : string)
  | PScalar (k : scalar_type) (text : string)
  | PBytes (b : bytes)
  | PColl (k : coll_type) (items : list pyobj)
  | PList (items : list pyobj)
  | PDict (entries : list (pyobj * pyobj)).
Set Elimination Schemes.

Section PyobjInd.
Context (P : pyobj -> Prop)
  (Hnone : P PNone) (Hbool : forall b, P (PBool b)) (Hint : forall z, P (PInt z)) (Hfloat : forall r, P (PFloat r))
  (Hstr : forall s, P (PStr s)) (Hscalar : forall k t, P (PScalar k t)) (Hbytes : forall b, P (PBytes b))
  (Hcoll : forall k l, Forall P l -> P (PColl k l)) (Hlist : forall l, Forall P l -> P (PList l))
  (Hdict : forall d, Forall (λ kv, P kv.1 /\ P kv.2) d -> P (PDict d)).

Fixpoint pyobj_ind (v : pyobj) : P v :=
  let fix go (l : list pyobj) : Forall P l :=
    match l with [] => Forall_nil_2 P | x :: l => Forall_cons_2 P x l (pyobj_ind x) (go l) end in
  let fix god (d : list (pyobj * pyobj)) : Forall (λ kv, P kv.1 /\ P kv.2) d :=
    match d with
    | [] => Forall_nil_2 _
    | kv :: d => Forall_cons_2 (λ kv, P kv.1 /\ P kv.2) kv d (conj (pyobj_ind kv.1) (pyobj_ind kv.2)) (god d)
    end in
  match v with
  | PNone => Hnone | PBool b => Hbool b | PInt z => Hint z | PFloat r => Hfloat r | PStr s => Hstr s
  | PScalar k t => Hscalar k t | PBytes b => Hbytes b
  | PColl k l => Hcoll k l (go l) | PList l => Hlist l (go l) | PDict d => Hdict d (god d)
  end.
End PyobjInd.

#[global] Instance scalar_type_eq_dec : EqDecision scalar_type.
Proof. solve_decision. Defined.
#[global] Instance coll_type_eq_dec : EqDecision coll_type.
Proof. solve_decision. Defined.
#[global] Instance pyobj_eq_dec : EqDecision pyobj.
Proof.
  refine (fix go (v w : pyobj) : Decision (v = w) :=
    match v, w with
    | PNone, PNone => left eq_refl
    | PBool a, PBool b => cast_if (decide (a = b))
    | PInt a, PInt b => cast_if (decide (a = b))
    | PFloat a, PFloat b => cast_if (decide (a = b))
    | PStr a, PStr b => cast_if (decide (a = b))
    | PScalar k a, PScalar k' b => cast_if_and (decide (k = k')) (decide (a = b))
    | PBytes a, PBytes b => cast_if (decide (a = b))
    | PColl k a, PColl k' b => cast_if_and (decide (k = k')) (@list_eq_dec _ go a b)
    | PList a, PList b => cast_if (@list_eq_dec _ go a b)
    | PDict a, PDict b => cast_if (@list_eq_dec _ (@prod_eq_dec _ go _ go) a b)
    | _, _ => right _
    end); clear go; abstract congruence.
Defined.

(** ** Encoding *)

(** [_TYPE_KEY not in value and all(isinstance(key, str) for key in value)] *)
Definition plain_key (k : pyobj) : bool := match k with PStr s => negb (bool_decide (s = _TYPE_KEY)) | _ => false end.
Definition key_text (k : pyobj) : string := match k with PStr s => s | _ => "" end.

Definition tagged (tag : string) (field : string) (v : value) : value := VDict [(_TYPE_KEY, VStr tag); (field, v)].

Fixpoint _encode_value (v : pyobj) : value :=
  match v with
  | PNone => VNone | PBool b => VBool b | PInt z => VInt z | PFloat r => VFloat r | PStr s => VStr s
  | PScalar k t => tagged (scalar_tag k) "value" (VStr t)
  | PBytes b => tagged "bytes" "value" (VStr (bytes_hex b))
  | PColl k l => tagged (coll_tag k) "items" (VList (_encode_value <$> l))
  | PList l => VList (_encode_value <$> l)
  | PDict d => (* [_encode_mapping] *)
    if forallb (λ kv, plain_key kv.1) d then VDict ((λ kv, (key_text kv.1, _encode_value kv.2)) <$> d)
    else tagged "dict" "items" (VList ((λ kv, VList [_encode_value kv.1; _encode_value kv.2]) <$> d))
  end.

(** ** Decoding *)

Definition scalar_of_tag (tag : string) : option scalar_type :=
  snd <$> (snd <$> list_find (λ kv, kv.1 = tag) ((λ k, (scalar_tag k, k)) <$> [SContractingDecimal; SDecimal; SDatetime])).
Definition coll_of_tag (tag : string) : option coll_type :=
  snd <$> (snd <$> list_find (λ kv, kv.1 = tag)
    ((λ k, (coll_tag k, k)) <$> [CDecimalTuple; CContractingFrozenSet; CContractingSet; CFrozenset; CSet; CTuple])).

Section Decode.
Context (decode_scalar : scalar_type -> value -> result string).
Context (py_set : list pyobj -> result (list pyobj)) (py_dict : list (pyobj * pyobj) -> result (list (pyobj * pyobj))).

(** The items of the iterable [dict()] takes are pairs. *)
Definition pair_of (item : pyobj) : result (pyobj * pyobj) :=
  let two l := match l with [k; x] => Ok (k, x) | _ => raise ValueError "dictionary update sequence element" end in
  match item with
  | PList l | PColl _ l => two l
  | PDict d => two d.*1
  | PStr s => two ((λ c, PStr (String.String c "")) <$> str_chars s)
  | _ => raise TypeError "cannot convert dictionary update sequence element"
  end.

Definition collect (k : coll_type) (items : list pyobj) : result pyobj :=
  match k with
  | CTuple => Ok (PColl CTuple items)
  | CDecimalTuple => if decide (length items = 3%nat) then Ok (PColl CDecimalTuple items)
                     else raise TypeError "DecimalTuple() takes 3 arguments"
  | _ => elements ← py_set items; Ok (PColl k elements)
  end.

Definition build_dict (items : list pyobj) : result pyobj :=
  pairs ← mapM_py pair_of items; entries ← py_dict pairs; Ok (PDict entries).

Definition has_exactly (field : string) (d : list (string * value)) : bool :=
  (Z.of_nat (length d) =? 2) && dict_mem _TYPE_KEY d && dict_mem field d.

Definition scalar_object (tag : string) (d : list (string * value)) : option (result pyobj) :=
  if negb (has_exactly "value" d) then None
  else match scalar_of_tag tag with
       | Some k => Some (t ← decode_scalar k (py_get "value" d VNone); Ok (PScalar k t))
       | None => if decide (tag = "bytes")
                 then Some (match py_get "value" d VNone with
                            | VStr s => b ← fromhex s; Ok (PBytes b)
                            | _ => raise TypeError "fromhex() argument must be str" end)
                 else None
       end.

(** What becomes of the decoded items of an object with this tag. *)
Definition collection_object (tag : string) (d : list (string * value)) : option (list pyobj -> result pyobj) :=
  if negb (has_exactly "items" d) then None
  else match coll_of_tag tag with
       | Some k => Some (collect k)
       | None => if decide (tag = "dict") then Some build_dict else None
       end.

(** Iterating over a JSON value that is not a list: only texts come out of it. *)
Definition text_items (v : value) : result (list pyobj) :=
  l ← py_iter v; mapM_py (λ x, match x with VStr s => Ok (PStr s) | _ => raise TypeError "unreachable" end) l.

Fixpoint _decode_value (v : value) : result pyobj :=
  let fix go (l : list value) : result (list pyobj) :=
    match l with [] => Ok [] | x :: l => y ← _decode_value x; ys ← go l; Ok (y :: ys) end in
  let fix entries (d : list (string * value)) : result (list (pyobj * pyobj)) :=
    match d with [] => Ok [] | (k, x) :: d => y ← _decode_value x; ys ← entries d; Ok ((PStr k, y) :: ys) end in
  let fix items_of (d : list (string * value)) : result (list pyobj) :=
    match d with
    | [] => raise KeyError "items"
    | (k, x) :: d => if decide (k = "items") then match x with VList l => go l | _ => text_items x end else items_of d
    end in
  match v with
  | VNone => Ok PNone | VBool b => Ok (PBool b) | VInt z => Ok (PInt z) | VFloat r => Ok (PFloat r) | VStr s => Ok (PStr s)
  | VList l => l ← go l; Ok (PList l)
  | VDict d =>
    let plain := d ← entries d; Ok (PDict d) in
    match py_get _TYPE_KEY d VNone with
    | VStr tag =>
      match scalar_object tag d with
      | Some r => r
      | None => match collection_object tag d with
                | Some make => l ← items_of d; make l
                | None => plain
                end
      end
    | _ => plain
    end
  | _ => raise TypeError "not JSON"
  end.

Definition ipc_dumps (v : pyobj) : result bytes := encode_utf8 <$> dumps true (_encode_value v).
Definition ipc_loads (b : bytes) : result pyobj := s ← decode_utf8 b; v ← loads s; _decode_value v.

(** ** The round trip *)

(** An object of the interpreter: the class of a scalar reads its own [str] back, a set holds
    its elements once, a dict its keys once, a [DecimalTuple] has its three fields. *)
Fixpoint well_formed (v : pyobj) : Prop :=
  match v with
  | PScalar k t => decode_scalar k (VStr t) = Ok t
  | PBytes b => Forall is_byte b
  | PColl k l => collect k l = Ok (PColl k l) /\ foldr (λ x p, well_formed x /\ p) True l
  | PList l => foldr (λ x p, well_formed x /\ p) True l
  | PDict d => py_dict d = Ok d /\ NoDup d.*1 /\ foldr (λ kv p, (well_formed kv.1 /\ well_formed kv.2) /\ p) True d
  | _ => True
  end.

Lemma foldr_and {A} (P : A -> Prop) l : foldr (λ x p, P x /\ p) True l <-> Forall P l.
Proof. induction l as [|x l IH]; cbn; [by split|]. rewrite IH. split; [intros []; by constructor|by inversion 1]. Qed.

Lemma decode_list l : _decode_value (VList l) = (l ← mapM_py _decode_value l; Ok (PList l)).
Proof. cbn [_decode_value]. f_equal. induction l as [|x l IH]; [done|]. cbn [mapM_py]. by rewrite <- IH. Qed.

Lemma mapM_decode l :
  Forall (λ v, _decode_value (_encode_value v) = Ok v) l -> mapM_py _decode_value (_encode_value <$> l) = Ok l.
Proof. induction 1 as [|v l Hv Hl IH]; [done|]. rewrite fmap_cons. cbn [mapM_py]. by rewrite Hv, IH. Qed.

(** The fixpoint over the entries of a plain dict. *)
Definition decode_entry (kv : string * value) : result (pyobj * pyobj) := y ← _decode_value kv.2; Ok (PStr kv.1, y).

Lemma decode_plain d :
  (forall tag, py_get _TYPE_KEY d VNone <> VStr tag) -> _decode_value (VDict d) = (d ← mapM_py decode_entry d; Ok (PDict d)).
Proof.
  intros Ht. cbn [_decode_value]. destruct (py_get _TYPE_KEY d VNone) as [| | |s| | | | | | |]; try (by destruct (Ht s));
    f_equal; clear Ht; (induction d as [|[k x] d IH]; [done|]); cbn [mapM_py];
    change (decode_entry (k, x)) with (y ← _decode_value x; Ok (PStr k, y)); destruct (_decode_value x); try done; cbn [mbind result_bind]; by rewrite IH.
Qed.

Lemma decode_items tag make l :
  scalar_object tag [(_TYPE_KEY, VStr tag); ("items", VList l)] = None ->
  collection_object tag [(_TYPE_KEY, VStr tag); ("items", VList l)] = Some make ->
  _decode_value (tagged tag "items" (VList l)) = (l ← mapM_py _decode_value l; make l).
Proof.
  intros Hs Hc. unfold tagged. cbn [_decode_value].
  change (py_get _TYPE_KEY [(_TYPE_KEY, VStr tag); ("items", VList l)] VNone) with (VStr tag). cbv beta iota. rewrite Hs, Hc.
  rewrite decide_False by done. rewrite decide_True by done. f_equal.
  induction l as [|x l IH]; [done|]. cbn [mapM_py]. by rewrite <- IH.
Qed.

Lemma plain_entries d :
  forallb (λ kv, plain_key kv.1) d = true -> Forall (λ kv, _decode_value (_encode_value kv.2) = Ok kv.2) d ->
  mapM_py decode_entry ((λ kv, (key_text kv.1, _encode_value kv.2)) <$> d) = Ok d.
Proof.
  intros Hp. induction 1 as [|[k v] d Hv Hd IH]; [done|]. cbn in Hp. apply andb_true_iff in Hp as [Hk Hp].
  rewrite fmap_cons. cbn [mapM_py fst snd] in *.
  change (decode_entry (key_text k, _encode_value v)) with (y ← _decode_value (_encode_value v); Ok (PStr (key_text k), y)).
  rewrite Hv. cbn [mbind result_bind].
  rewrite (IH Hp). destruct k; done.
Qed.

Lemma plain_no_tag d tag :
  forallb (λ kv, plain_key kv.1) d = true ->
  py_get _TYPE_KEY ((λ kv, (key_text kv.1, _encode_value kv.2)) <$> d) VNone <> VStr tag.
Proof.
  intros Hp. assert (dict_get _TYPE_KEY ((λ kv, (key_text kv.1, _encode_value kv.2)) <$> d) = None) as Hn; [|unfold py_get; by rewrite Hn].
  induction d as [|[k v] d IH]; [done|]. cbn in Hp. apply andb_true_iff in Hp as [Hk Hp]. rewrite fmap_cons. cbn [dict_get fst].
  rewrite decide_False; [by apply IH|]. destruct k as [| | | |s| | | | |]; try done. cbn in Hk. cbn [key_text].
  apply negb_true_iff, bool_decide_eq_false in Hk. congruence.
Qed.

Lemma pairs_of d : mapM_py pair_of ((λ kv : pyobj * pyobj, PList [kv.1; kv.2]) <$> d) = Ok d.
Proof. induction d as [|[k v] d IH]; [done|]. rewrite fmap_cons. cbn [mapM_py]. by rewrite IH. Qed.

Lemma mapM_pairs d :
  Forall (λ kv, _decode_value (_encode_value kv.1) = Ok kv.1 /\ _decode_value (_encode_value kv.2) = Ok kv.2) d ->
  mapM_py _decode_value ((λ kv, VList [_encode_value kv.1; _encode_value kv.2]) <$> d) =
    Ok ((λ kv, PList [kv.1; kv.2]) <$> d).
Proof.
  induction 1 as [|[k v] d [Hk Hv] Hd IH]; [done|]. rewrite !fmap_cons. cbn [mapM_py]. rewrite decode_list. cbn [mapM_py fst snd] in *.
  by rewrite Hk, Hv, IH.
Qed.

Lemma decode_tagged_scalar k v :
  _decode_value (tagged (scalar_tag k) "value" v) = (t ← decode_scalar k v; Ok (PScalar k t)).
Proof. destruct k; reflexivity. Qed.
Lemma decode_tagged_bytes s : _decode_value (tagged "bytes" "value" (VStr s)) = (b ← fromhex s; Ok (PBytes b)).
Proof. reflexivity. Qed.

Lemma decode_encode v : well_formed v -> _decode_value (_encode_value v) = Ok v.
Proof.
  induction v as [|b|z|r|s|k t|b|k l IH|l IH|d IH] using pyobj_ind; intros Hw; try done.
  - cbn [_encode_value]. rewrite decode_tagged_scalar. cbn [well_formed] in Hw. by rewrite Hw.
  - cbn [_encode_value]. by rewrite decode_tagged_bytes, fromhex_bytes_hex.
  - cbn [well_formed] in Hw. destruct Hw as [Hc Hl]. apply foldr_and in Hl. cbn [_encode_value].
    rewrite (decode_items _ (collect k)) by by destruct k. rewrite mapM_decode; [exact Hc|].
    by apply Forall_forall; intros x Hx; rewrite Forall_forall in IH, Hl; auto.
  - cbn [well_formed] in Hw. apply foldr_and in Hw. cbn [_encode_value]. rewrite decode_list, mapM_decode; [done|].
    by apply Forall_forall; intros x Hx; rewrite Forall_forall in IH, Hw; auto.
  - cbn [well_formed] in Hw. destruct Hw as (Hd & _ & Hl).
    apply (foldr_and (λ kv, well_formed kv.1 /\ well_formed kv.2)) in Hl.
    assert (Hall : Forall (λ kv, _decode_value (_encode_value kv.1) = Ok kv.1 /\ _decode_value (_encode_value kv.2) = Ok kv.2) d).
    { apply Forall_forall. intros kv Hkv. rewrite Forall_forall in IH, Hl. destruct (IH _ Hkv), (Hl _ Hkv). auto. }
    cbn [_encode_value]. destruct (forallb _ d) eqn:Ep.
    + rewrite decode_plain by (intros tag; by apply plain_no_tag). rewrite plain_entries; [done..|].
      eapply Forall_impl; [exact Hall|]. by intros kv [].
    + rewrite (decode_items "dict" build_dict) by done. rewrite (mapM_pairs d Hall). cbn [mbind result_bind].
      unfold build_dict. rewrite pairs_of. cbn [mbind result_bind]. by rewrite Hd.
Qed.

(** What survives the JSON text: no floats, and texts that are valid UTF-8. *)
Fixpoint portable (v : pyobj) : bool :=
  match v with
  | PFloat _ => false
  | PStr s | PScalar _ s => text_ok true s
  | PColl _ l | PList l => forallb portable l
  | PDict d => forallb (λ kv, portable kv.1 && portable kv.2) d
  | _ => true
  end.

Lemma hex_text b : Forall is_byte b -> text_ok true (bytes_hex b) = true.
Proof. intros Hb. apply printable_text. by apply bytes_hex_printable. Qed.

Lemma plain_keys_nodup (d : list (pyobj * pyobj)) :
  forallb (λ kv, plain_key kv.1) d = true -> NoDup d.*1 -> NoDup ((key_text ∘ fst) <$> d).
Proof.
  induction d as [|[k v] d IH]; intros Hp Hnd; [constructor|]. cbn in Hp. apply andb_true_iff in Hp as [Hk Hp].
  apply NoDup_cons in Hnd as [Hin Hnd]. rewrite fmap_cons. apply NoDup_cons. split; [|by apply IH].
  intros ([k' v'] & Heq & Hin')%list_elem_of_fmap. apply Hin. cbn in Heq. rewrite forallb_forall in Hp.
  pose proof Hin' as Hin2. apply list_elem_of_In, Hp in Hin2. apply list_elem_of_fmap. exists (k', v'). split; [|done].
  destruct k; try done. destruct k'; try done. cbn in Heq. by subst.
Qed.

Lemma encoded_json v :
  well_formed v -> portable v = true -> json_plain (_encode_value v) = true /\ json_text true (_encode_value v) = true.
Proof.
  assert (Hlist : forall l, Forall (λ v, well_formed v -> portable v = true ->
      json_plain (_encode_value v) = true /\ json_text true (_encode_value v) = true) l ->
      Forall well_formed l -> forallb portable l = true ->
      forallb json_plain (_encode_value <$> l) = true /\ forallb (json_text true) (_encode_value <$> l) = true).
  { clear v. induction 1 as [|v l Hv Hl IH]; [done|]. intros [Hw Hws]%Forall_cons [Hp Hps]%andb_prop. rewrite fmap_cons. cbn [forallb].
    destruct (Hv Hw Hp) as [-> ->], (IH Hws Hps) as [-> ->]. done. }
  induction v as [|b|z|r|s|k t|b|k l IH|l IH|d IH] using pyobj_ind; intros Hw Hp; try done.
  - cbn [portable] in Hp. cbn [_encode_value]. unfold tagged. destruct k; cbn [json_plain json_text forallb fst snd]; by rewrite Hp.
  - cbn [_encode_value]. unfold tagged. cbn [json_plain json_text forallb fst snd]. by rewrite hex_text.
  - destruct Hw as [_ Hw%foldr_and]. destruct (Hlist l IH Hw Hp) as [H1 H2]. cbn [_encode_value]. unfold tagged.
    destruct k; cbn [json_plain json_text forallb fst snd]; by rewrite H1, H2.
  - cbn [well_formed] in Hw. apply foldr_and in Hw. exact (Hlist l IH Hw Hp).
  - destruct Hw as (_ & Hnd & Hw). apply (foldr_and (λ kv, well_formed kv.1 /\ well_formed kv.2)) in Hw.
    assert (Hall : Forall (λ kv, (json_plain (_encode_value kv.1) = true /\ json_text true (_encode_value kv.1) = true) /\
                                 (json_plain (_encode_value kv.2) = true /\ json_text true (_encode_value kv.2) = true) /\
                                 portable kv.1 = true) d).
    { cbn [portable] in Hp. rewrite forallb_forall in Hp. apply Forall_forall. intros kv Hkv. rewrite Forall_forall in IH, Hw.
      destruct (andb_prop _ _ (Hp kv (proj1 (list_elem_of_In _ _) Hkv))), (IH _ Hkv), (Hw _ Hkv). auto. }
    clear IH Hw Hp. cbn [_encode_value]. destruct (forallb _ d) eqn:Ep.
    + cbn [json_plain json_text]. rewrite bool_decide_eq_true_2.
      2:{ unfold dict_keys. rewrite <- list_fmap_compose. by apply plain_keys_nodup. }
      cbn [andb]. clear Hnd. induction Hall as [|[k v] d (_ & [H1 H2] & Hk) Hall IHd]; [done|].
      cbn in Ep. apply andb_true_iff in Ep as [Epk Ep]. rewrite fmap_cons. cbn [forallb fst snd] in *.
      rewrite H1, H2. destruct (IHd Ep) as [-> ->]. destruct k; try done. cbn [key_text portable] in *. by rewrite Hk.
    + unfold tagged. cbn [json_plain json_text forallb fst snd].
      assert (Hf : forallb json_plain ((λ kv, VList [_encode_value kv.1; _encode_value kv.2]) <$> d) = true /\
                   forallb (json_text true) ((λ kv, VList [_encode_value kv.1; _encode_value kv.2]) <$> d) = true).
      { clear Hnd Ep. induction Hall as [|[k v] d ([K1 K2] & [V1 V2] & _) Hall IHd]; [done|]. rewrite fmap_cons.
        cbn [forallb json_plain json_text fst snd] in *. rewrite K1, K2, V1, V2. exact IHd. }
      destruct Hf as [-> ->]. done.
Qed.

Lemma ipc_roundtrip_text v :
  well_formed v -> portable v = true -> exists b, ipc_dumps v = Ok b /\ ipc_loads b = Ok v.
Proof.
  intros Hw Hp. destruct (encoded_json v Hw Hp) as [Hj Ht].
  destruct (dumps_total true (_encode_value v) Hj) as [text Hd]. exists (encode_utf8 text).
  unfold ipc_dumps, ipc_loads. rewrite Hd. split; [done|].
  pose proof (loads_dumps_ascii _ _ Hj Ht Hd) as Hl. destruct (decode_utf8 (encode_utf8 text)) as [s|]; [|done].
  cbn [mbind result_bind] in *. rewrite Hl. by apply decode_encode.
Qed.

(** A task reaches the worker, and its result the node, unchanged: every portable
    Python value survives the transport, tagged classes, nested collections, dicts with keys that
    are not strings and data that itself looks like a tagged object included. *)
Theorem ipc_roundtrip v :
  well_formed v -> portable v = true -> exists b, ipc_dumps v = Ok b /\ ipc_loads b = Ok v.
Proof. apply ipc_roundtrip_text. Qed.
End Decode.

(** Data shaped like a tagged object, inside a tuple that is a key of a dict. *)
Definition sample_object : pyobj :=
  PDict [(PColl CTuple [PInt 1; PStr "a"], PDict [(PStr _TYPE_KEY, PStr "tuple"); (PStr "items", PList [])]);
         (PNone, PScalar SDecimal "1.50"); (PStr "raw", PBytes [0; 255])].

Definition toy_scalar (k : scalar_type) (v : value) : result string :=
  match v with VStr s => Ok s | _ => raise TypeError "expected str" end.

Lemma ipc_roundtrip_witness :
  exists b, ipc_dumps sample_object = Ok b /\ ipc_loads toy_scalar Ok Ok b = Ok sample_object.
Proof.
  apply (ipc_roundtrip toy_scalar Ok Ok sample_object); [|vm_compute; reflexivity].
  cbn. split_and!; try done; try (apply (bool_decide_unpack _); vm_compute; exact I).
Defined.
