(* ===== verification/Simulator.v ===== *)
(** * Simulation of transactions (src/src/xian/simulator.py and simulator_worker.py)

    A query may ask what a transaction would do.  [TransactionSimulator] executes it and
    drops its effects; [QuerySimulationService] admits a bounded number of requests and runs
    each in a process of its own (simulator_worker.py), which gets the node's pending state
    over the transport of [SimulatorIpc].

    An execution restores the driver's snapshot, so here it reads the driver and leaves it
    alone; what may change is the cache of prepared contracts and a missing mirror file.
    The service's coroutines interleave at [await]: its state counts the admitted requests,
    and a worker that exits, fails to start or times out is an input. *)

From S2P Require Import Prelude PyValue Json PyBuiltins Driver Encoding StateRoot TxValidation Block Engine Processor SimulatorIpc.

Section Simulator.
Context {D : Type} `{DriverOps D} `{PyArith} `{!Runtime D}.
Context (py_str : value -> string) (float_trunc : string -> result Z) (fuel : nat) (io_ok : bool).

(** ** Results *)

(** [json.dumps(v, allow_nan=False)] refuses the non-finite floats. *)
Fixpoint json_finite (v : value) : bool :=
  match v with
  | VFloat r => negb (bool_decide (r ∈ ["nan"; "inf"; "-inf"]))
  | VList l | VTuple l => forallb json_finite l
  | VDict d => forallb (λ kv, json_finite kv.2) d
  | _ => true
  end.

Definition _simulation_result (v : vm_value) : result value :=
  let normalized := match v with
                    | Returned v => normalize_for_abci_json v
                    | Raised e => py_or (safe_repr (Raised e)) (VStr (exn_msg e)) end in
  match (_ ← check_py (json_finite normalized) ValueError "Out of range float values are not JSON compliant";
         dumps true normalized) with
  | Ok _ => Ok normalized
  | Raise (Exn AssertionError _) | Raise (Exn TypeError _) | Raise (Exn ValueError _) => Ok (safe_repr v)
  | Raise e => Raise e
  end.

Definition _simulation_error_result (payload : value) (message : string) : value :=
  VDict [("payload", payload); ("status", VInt 1); ("state", VList []); ("chi_used", VInt 0); ("result", VStr message)].

(** [max(int(max_chi or 1_000_000), 1)] *)
Definition chi_budget_of (max_chi : value) : result Z :=
  z ← py_int float_trunc (py_or max_chi (VInt 1000000)); Ok (Z.max z 1).

Definition _estimated_transaction_size (payload : list (string * value)) (chain_id max_chi : value) : result Z :=
  budget ← chi_budget_of max_chi;
  canonical_transaction_size_bytes
    (VDict [("metadata", VDict [("signature", VStr (String.string_of_list_ascii (repeat (ascii_of_byte 48) 128)))]);
            ("payload", VDict (dict_update payload
               [("chain_id", py_or chain_id (VStr "")); ("nonce", VInt 0); ("chi_supplied", VInt budget)]))]).

(** ** The simulator *)

Definition payload_field (normalized : list (string * value)) (field : string) : result string :=
  match py_get field normalized VNone with
  | VStr s => if decide (s = "") then raise ValueError ("simulation payload missing " +:+ field) else Ok s
  | _ => raise ValueError ("simulation payload missing " +:+ field)
  end.

Record sim_payload := SimPayload { sp_sender : string; sp_contract : string; sp_function : string; sp_kwargs : list (string * value) }.

Definition payload_dict (p : sim_payload) : list (string * value) :=
  [("sender", VStr (sp_sender p)); ("contract", VStr (sp_contract p)); ("function", VStr (sp_function p));
   ("kwargs", VDict (sp_kwargs p))].

Definition _normalize_payload (payload : value) : result sim_payload :=
  p ← match payload with VDict p => Ok p | _ => raise ValueError "simulation payload must be a JSON object" end;
  n ← match py_get "payload" p (VDict p) with
      | VDict n => Ok n | _ => raise ValueError "simulation payload must resolve to a JSON object" end;
  kwargs ← match py_get "kwargs" n (VDict []) with
           | VNone => Ok [] | VDict k => Ok k
           | _ => raise ValueError "simulation payload kwargs must be a JSON object" end;
  sender ← payload_field n "sender";
  contract ← payload_field n "contract";
  function ← payload_field n "function";
  Ok (SimPayload sender contract function kwargs).

Definition _payload_hash (payload : value) : result string :=
  text ← dumps true (sort_keys payload); Ok (sha3_256_hex text).

(** What a simulator is made with. *)
Record simulator := MkSimulator { sim_chain_id : value; sim_charge_fees : bool; sim_block_meta : value }.

(** What a simulation works on: the driver, the cache of prepared contracts and the mirror
    file. *)
Record sim_state := SimState { sim_driver : D; sim_prepared : prepared_cache; sim_mirror : mirror }.

Definition block_nanos (block_meta : list (string * value)) : stM sim_state value := λ s,
  match py_get "nanos" block_meta VNone with
  | VNone => let '(r, m) := get_latest_block_nanos py_str float_trunc io_ok (sim_mirror s) in
             (VInt <$> r, SimState (sim_driver s) (sim_prepared s) m)
  | v => (Ok v, s)
  end.

Definition _make_environment (sm : simulator) (payload : list (string * value)) (block_meta : value)
  : stM sim_state (list (string * value)) :=
  meta ← lift_res (match py_or block_meta (py_or (sim_block_meta sm) (VDict [])) with
                   | VDict m => Ok m | _ => raise AttributeError "get" end);
  nanos ← block_nanos meta;
  payload_hash ← lift_res (_payload_hash (VDict payload));
  let chain_id := py_or (py_get "chain_id" meta VNone) (sim_chain_id sm) in
  let height := py_get "height" meta (VInt 1) in
  nanos ← lift_res (py_int float_trunc (py_or nanos (VInt 0)));
  let block_hash := match py_get "hash" meta VNone with
    | VNone => VStr (sha3_256_hex ("simulate:block:" +:+ (if truthy chain_id then to_str py_str chain_id else "") +:+ ":"
                                   +:+ to_str py_str height +:+ ":" +:+ py_int_str nanos))
    | v => v end in
  mret [("block_hash", block_hash); ("block_num", height);
        ("__input_hash", VStr (sha3_256_hex (py_int_str nanos +:+ ":" +:+ payload_hash)));
        ("__xian_execution_mode__", VStr "xian_vm_v1");
        ("now", datetime_of (nanoseconds_to_utc_datetime nanos)); ("chain_id", chain_id)].

(** A computation on the simulator's driver. *)
Definition on_sim_driver {A} (m : stM D A) : stM sim_state A := λ s,
  let '(r, d) := m (sim_driver s) in (r, SimState d (sim_prepared s) (sim_mirror s)).

Definition _execute_vm_simulation (sm : simulator) (p : sim_payload) (kwargs : value)
    (environment : list (string * value)) (max_chi : value) (chi_cost : Z) : stM D value :=
  budget ← lift_res (chi_budget_of max_chi);
  size ← lift_res (_estimated_transaction_size (payload_dict p) (py_get "chain_id" environment VNone) max_chi);
  outcome ← execute_vm_transaction float_trunc
    (VmArgs (sp_sender p) (sp_contract p) (sp_function p) kwargs environment true (VInt budget) size)
    (VInt chi_cost) false (sim_charge_fees sm);
  res ← lift_res (_simulation_result (vm_result (tr_output outcome)));
  mret (stringify_decimals (format_dictionary
       (VDict [("payload", VDict (payload_dict p)); ("status", VInt (status_code (tr_output outcome)));
               ("state", VList ((λ kv, VDict [("key", VStr kv.1); ("value", kv.2)]) <$> tr_writes outcome));
               ("chi_used", VInt (tr_chi_used outcome)); ("result", res)]))).

Definition simulation_chi_cost (d : D) : Z :=
  ok_or 20 (v ← get_var d "chi_cost" "S" [VStr "value"]; py_int float_trunc v).

Definition prepare_for_simulation (contract : string) : stM sim_state unit := λ s,
  let '(r, c) := prepare_vm_contract py_str fuel (sim_driver s) contract (sim_prepared s) in
  (_ ← r; Ok tt, SimState (sim_driver s) c (sim_mirror s)).

(** The body of the [try] of [_execute]. *)
Definition execute_body (sm : simulator) (p : sim_payload) (block_meta max_chi : value) (chi_cost : Z) : stM sim_state value :=
  _ ← prepare_for_simulation (sp_contract p);
  kwargs ← lift_res (convert_dict (VDict (sp_kwargs p)));
  missing ← lift_res (vm_requires_contract_source (sp_contract p) (sp_function p) kwargs);
  if (missing : bool) then
    mret (_simulation_error_result (VDict (payload_dict p)) (vm_contract_source_error (sp_contract p) (sp_function p)))
  else
    environment ← _make_environment sm (payload_dict p) block_meta;
    on_sim_driver (_execute_vm_simulation sm p kwargs environment max_chi chi_cost).

Definition _restore_driver_state (state_snapshot : driver_snapshot (D := D)) (s : sim_state) : sim_state :=
  SimState (restore_state (sim_driver s) state_snapshot) (sim_prepared s) (sim_mirror s).

Definition _execute (sm : simulator) (p : sim_payload) (block_meta max_chi : value) : stM sim_state value :=
  state_snapshot ← gets_st (λ s, snapshot_state (sim_driver s));
  chi_cost ← gets_st (λ s, simulation_chi_cost (sim_driver s));
  finally_st (execute_body sm p block_meta max_chi chi_cost) (_restore_driver_state state_snapshot).

(** The [except] clause of [simulate]. *)
Definition report_error (p : sim_payload) (m : stM sim_state value) : stM sim_state value := λ s,
  match m s with
  | (Raise e, s) => (Ok (_simulation_error_result (VDict (payload_dict p)) ("Simulation error: " +:+ exn_msg e)), s)
  | ok => ok
  end.

Definition simulate (sm : simulator) (payload block_meta max_chi : value) : stM sim_state value :=
  p ← lift_res (_normalize_payload payload);
  report_error p (_execute sm p block_meta max_chi).

(** [json.loads(bytes.fromhex(raw_payload_hex).decode("utf-8"))] *)
Definition decode_raw (raw_payload_hex : string) : result value :=
  b ← fromhex raw_payload_hex; s ← decode_utf8 b; loads s.

Definition simulate_encoded_transaction (sm : simulator) (raw_payload_hex : string) (block_meta max_chi : value)
  : stM sim_state value :=
  decoded ← lift_res (decode_raw raw_payload_hex); simulate sm decoded block_meta max_chi.

(** ** Values on the wire

    [dec_text] is the [str] of a runtime decimal, [text_dec] reads it back. *)

Context (dec_text : dec -> string) (text_dec : string -> option dec).

Fixpoint embed (v : value) : pyobj :=
  match v with
  | VNone => PNone | VBool b => PBool b | VInt z => PInt z | VStr s => PStr s | VFloat r => PFloat r
  | VDec d => PScalar SContractingDecimal (dec_text d)
  | VTime t => PScalar SDatetime t
  | VBytes b => PBytes b
  | VList l => PList (embed <$> l)
  | VTuple l => PColl CTuple (embed <$> l)
  | VDict d => PDict ((λ kv, (PStr kv.1, embed kv.2)) <$> d)
  end.

Fixpoint project (v : pyobj) : result value :=
  match v with
  | PNone => Ok VNone | PBool b => Ok (VBool b) | PInt z => Ok (VInt z) | PStr s => Ok (VStr s) | PFloat r => Ok (VFloat r)
  | PScalar SContractingDecimal t => match text_dec t with Some d => Ok (VDec d) | None => raise ValueError "not a decimal" end
  | PScalar SDatetime t => Ok (VTime t)
  | PBytes b => Ok (VBytes b)
  | PList l => VList <$> mapM_py project l
  | PColl CTuple l => VTuple <$> mapM_py project l
  | PDict d => VDict <$> mapM_py (λ kv, match kv.1 with
                                        | PStr k => x ← project kv.2; Ok (k, x)
                                        | _ => raise TypeError "not a string key" end) d
  | _ => raise TypeError "not a runtime value"
  end.

(** ** The worker process *)

Context (decode_scalar : scalar_type -> value -> result string) (py_set : list pyobj -> result (list pyobj))
        (py_dict : list (pyobj * pyobj) -> result (list (pyobj * pyobj))).
(** [Driver(storage_home)] over the shared database, a snapshot as the value a task carries and
    [driver.restore_state] of such a value, and the mirror file in the directory *)
Context (open_driver : string -> D) (snapshot_value : driver_snapshot (D := D) -> value)
        (restore_state_value : D -> value -> result D) (mirror_in : string -> mirror).

Definition task_dict (storage_home : string) (runtime_info payload block_meta chain_id max_chi : value) (charge_fees : bool)
    (driver_state : value) : value :=
  VDict [("storage_home", VStr storage_home); ("runtime_info", runtime_info); ("payload", payload);
         ("block_meta", block_meta); ("chain_id", chain_id); ("max_chi", max_chi); ("charge_fees", VBool charge_fees);
         ("driver_state", driver_state)].

(** The body of [main]'s [try]: from the task to the result. *)
Definition worker_result (task : value) : result value :=
  t ← match task with VDict t => Ok t | _ => raise ValueError "simulation task must be a JSON object" end;
  storage_home ← (v ← py_item "storage_home" task; match v with VStr s => Ok s | _ => raise TypeError "path" end);
  d ← restore_state_value (open_driver storage_home) (py_get "driver_state" t VNone);
  payload ← py_item "payload" task;
  max_chi ← py_item "max_chi" task;
  (simulate (MkSimulator (py_get "chain_id" t VNone) (truthy (py_get "charge_fees" t (VBool true))) VNone)
     payload (py_get "block_meta" t VNone) max_chi (SimState d [] (mirror_in storage_home))).1.

(** The exit status and what was written to the standard output; a traceback goes to the
    standard error. *)
Definition worker_main (stdin : bytes) : Z * bytes :=
  match (task ← ipc_loads decode_scalar py_set py_dict stdin; task ← project task;
         res ← worker_result task; ipc_dumps (embed res)) with
  | Ok out => (0, out)
  | Raise _ => (1, [])
  end.

(** ** The service *)

Context (enabled : bool) (max_concurrency timeout_ms : Z).

(** How the worker of a request ended; [stderr] is the text it left, stripped. *)
Inductive worker_outcome :=
  | NotStarted (e : exn)
  | Exited (returncode : Z) (stdout : bytes) (stderr : string)
  | TimedOut.

Definition _wait_for_task_result (returncode : Z) (stdout : bytes) (stderr : string) : result pyobj :=
  if negb (returncode =? 0) then
    raise RuntimeError (if decide (stderr = "") then "Simulation worker exited with code " +:+ py_int_str returncode else stderr)
  else
    match (r ← ipc_loads decode_scalar py_set py_dict stdout;
           match r with PDict _ => Ok r | _ => raise ValueError "simulation worker response must be a JSON object" end) with
    | Ok r => Ok r
    | Raise e => raise RuntimeError ((if decide (stderr = "") then "Simulation worker returned invalid data" else stderr)
                                     +:+ ": " +:+ exn_msg e)
    end.

Definition _run_task (payload : value) (outcome : worker_outcome) : pyobj :=
  let failed e := embed (_simulation_error_result payload ("Simulation error: " +:+ exn_msg e)) in
  match outcome with
  | TimedOut => embed (_simulation_error_result payload
                  ("Simulation timed out on this node after " +:+ py_int_str timeout_ms +:+ " ms"))
  | NotStarted e => failed e
  | Exited code out err => match _wait_for_task_result code out err with Ok r => r | Raise e => failed e end
  end.

(** The first half of [simulate_encoded_transaction]: a refusal, or the payload to run. *)
Definition admit_request (active : Z) (raw_payload_hex : string) : value + sim_payload :=
  match (v ← decode_raw raw_payload_hex; _normalize_payload v) with
  | Raise e => inl (_simulation_error_result VNone ("Simulation error: " +:+ exn_msg e))
  | Ok p =>
    if negb enabled then inl (_simulation_error_result (VDict (payload_dict p)) "Simulation is disabled on this node")
    else if max_concurrency <=? active then
      inl (_simulation_error_result (VDict (payload_dict p)) "Simulation capacity exceeded on this node; retry later")
    else inr p
  end.

(** The service: [_active_requests], the suspended coroutines by request number, and the number
    of the next request. *)
Record service := Service { _active_requests : Z; in_flight : list (nat * sim_payload); next_request : nat }.

Inductive service_input := Arrives (raw_payload_hex : string) | WorkerEnds (request : nat) (outcome : worker_outcome).

Definition service_step (s : service) (i : service_input) : service * list (nat * pyobj) :=
  match i with
  | Arrives raw =>
    let n := next_request s in
    match admit_request (_active_requests s) raw with
    | inl answer => (Service (_active_requests s) (in_flight s) (S n), [(n, embed answer)])
    | inr p => (Service (_active_requests s + 1) ((n, p) :: in_flight s) (S n), [])
    end
  | WorkerEnds n outcome =>
    match list_find (λ r, r.1 = n) (in_flight s) with
    | None => (s, [])
    | Some (_, (_, p)) =>
      (Service (_active_requests s - 1) (filter (λ r, r.1 <> n) (in_flight s)) (next_request s),
       [(n, _run_task (VDict (payload_dict p)) outcome)])
    end
  end.

Definition idle_service : service := Service 0 [] 0.

Fixpoint run_service (s : service) (inputs : list service_input) : service * list (nat * pyobj) :=
  match inputs with
  | [] => (s, [])
  | i :: inputs => let '(s, answers) := service_step s i in
                   let '(s, rest) := run_service s inputs in (s, answers ++ rest)
  end.

(** ** The service admits no more than it may, and answers every request once *)

Record service_ok (s : service) (answered : list nat) : Prop := {
  so_active : _active_requests s = Z.of_nat (length (in_flight s));
  so_capacity : _active_requests s <= max_concurrency;
  so_requests : answered ++ (in_flight s).*1 ≡ₚ seq 0 (next_request s);
}.

Lemma service_nodup s answered : service_ok s answered -> NoDup (in_flight s).*1.
Proof. intros [_ _ Hr]. assert (Hn : NoDup (answered ++ (in_flight s).*1)) by (rewrite Hr; apply NoDup_seq). by apply NoDup_app in Hn as (_ & _ & ?). Qed.

Lemma find_request n l i m p :
  list_find (λ r : nat * sim_payload, r.1 = n) l = Some (i, (m, p)) -> NoDup l.*1 ->
  m = n /\ l.*1 ≡ₚ n :: (filter (λ r, r.1 <> n) l).*1 /\ length l = S (length (filter (λ r, r.1 <> n) l)).
Proof.
  revert i. induction l as [|[k q] l IH]; intros i Hf Hnd; [done|]. apply NoDup_cons in Hnd as [Hk Hnd].
  cbn [list_find] in Hf. rewrite filter_cons. cbn [fst] in *. destruct (decide (k = n)) as [->|Hne].
  - injection Hf as <- <- <-. rewrite decide_False by (intros Hx; by apply Hx).
    assert (Hall : filter (λ r, r.1 <> n) l = l).
    { clear IH Hnd. induction l as [|[k2 q2] l IH]; [done|]. apply not_elem_of_cons in Hk as [Hx Hk]. rewrite filter_cons.
      cbn [fst] in *. rewrite decide_True by done. f_equal. by apply IH. }
    by rewrite Hall.
  - rewrite decide_True by done. destruct (list_find _ l) as [[j [m' p']]|] eqn:Ef; [|done]. injection Hf as <- <- <-.
    destruct (IH j eq_refl Hnd) as (-> & Hp & Hl). split_and!; [done| |cbn; by rewrite Hl].
    rewrite !fmap_cons. cbn [fst]. rewrite Hp. by constructor.
Qed.

Lemma service_step_ok s answered i :
  service_ok s answered -> service_ok (service_step s i).1 (answered ++ (service_step s i).2.*1).
Proof.
  intros Hok. pose proof (service_nodup _ _ Hok) as Hnd. destruct Hok as [Ha Hc Hr]. destruct i as [raw|n o]; cbn [service_step].
  - unfold admit_request. assert (Hnext : seq 0 (S (next_request s)) = seq 0 (next_request s) ++ [next_request s]) by apply seq_S.
    destruct (decode_raw raw ≫= _normalize_payload) as [p|e]; [destruct (negb enabled); [|destruct (Z.leb_spec max_concurrency (_active_requests s))]|];
      split; cbn [fst snd _active_requests in_flight next_request fmap list_fmap length]; try lia; rewrite Hnext, <- Hr;
      rewrite ?app_nil_r, <- ?(assoc_L (++)); try (apply Permutation_app_head, Permutation_app_comm).
    by rewrite <- Permutation_cons_append.
  - destruct (list_find _ (in_flight s)) as [[j [m p]]|] eqn:Ef; cbn [fst snd]; [|split; [done..|]; by rewrite app_nil_r].
    destruct (find_request _ _ _ _ _ Ef Hnd) as (-> & Hp & Hl). split; cbn [_active_requests in_flight next_request fmap list_fmap]; [lia|lia|].
    rewrite <- Hr, <- (assoc_L (++)). by rewrite Hp.
Qed.

Lemma run_service_ok s answered inputs :
  service_ok s answered -> service_ok (run_service s inputs).1 (answered ++ (run_service s inputs).2.*1).
Proof.
  revert s answered. induction inputs as [|i inputs IH]; intros s answered Hok; cbn [run_service]; [by rewrite app_nil_r|].
  apply (service_step_ok _ _ i) in Hok. destruct (service_step s i) as [s1 a1]. cbn [fst snd] in Hok.
  apply IH in Hok. destruct (run_service s1 inputs) as [s2 a2]. cbn [fst snd] in *. by rewrite fmap_app, (assoc_L (++)).
Qed.

Definition arrivals (inputs : list service_input) : nat := 
  length (omap (λ i, match i with Arrives raw => Some raw | WorkerEnds _ _ => None end) inputs).

Lemma run_service_next s inputs : next_request (run_service s inputs).1 = (next_request s + arrivals inputs)%nat.
Proof.
  revert s. induction inputs as [|i inputs IH]; intros s; cbn [run_service]; [unfold arrivals; cbn; lia|].
  assert (Hs : next_request (service_step s i).1 = (next_request s + arrivals [i])%nat).
  { destruct i as [raw|n o]; cbn [service_step]; [destruct (admit_request _ _)|destruct (list_find _ _) as [[? []]|]]; unfold arrivals; cbn; lia. }
  destruct (service_step s i) as [s1 a1]. specialize (IH s1). destruct (run_service s1 inputs) as [s2 a2]. cbn [fst] in *.
  rewrite IH, Hs. unfold arrivals. destruct i; cbn; lia.
Qed.

(** Claim C29. Whatever requests arrive and however their workers end, in any interleaving, the
    service never runs more simulations than it may, its counter is the number of requests in
    flight, and every request that arrived is in flight or was answered, exactly once. *)
Theorem service_invariant inputs :
  1 <= max_concurrency ->
  let '(s, answers) := run_service idle_service inputs in
  _active_requests s = Z.of_nat (length (in_flight s)) /\ _active_requests s <= max_concurrency /\
  answers.*1 ++ (in_flight s).*1 ≡ₚ seq 0 (arrivals inputs).
Proof.
  intros Hm. assert (Hok : service_ok idle_service []) by (split; cbn; [done|lia|done]).
  apply (run_service_ok _ _ inputs) in Hok. pose proof (run_service_next idle_service inputs) as Hn.
  destruct (run_service idle_service inputs) as [s answers]. cbn [fst snd] in *. destruct Hok as [? ? Hr]. rewrite Hn in Hr. done.
Qed.

Lemma in_flight_or_answered s i n :
  n ∈ (in_flight s).*1 -> n ∈ (service_step s i).2.*1 \/ n ∈ (in_flight (service_step s i).1).*1.
Proof.
  intros Hin. destruct i as [raw|m o]; cbn [service_step].
  - destruct (admit_request _ _); cbn [fst snd in_flight]; right; [done|by right].
  - destruct (list_find _ _) as [[j [m' p]]|] eqn:Ef; cbn [fst snd in_flight]; [|by right].
    destruct (decide (n = m)) as [->|Hne]; [by left; left|right].
    apply list_elem_of_fmap in Hin as (r & -> & Hr). by apply list_elem_of_fmap_2, list_elem_of_filter.
Qed.

Lemma worker_end_answers s n o :
  n ∈ (in_flight s).*1 -> n ∈ (service_step s (WorkerEnds n o)).2.*1.
Proof.
  intros Hin. cbn [service_step]. destruct (list_find _ _) as [[j [m p]]|] eqn:Ef; [by left|].
  apply list_find_None in Ef. apply list_elem_of_fmap in Hin as (r & -> & Hr). rewrite Forall_forall in Ef. by destruct (Ef r Hr).
Qed.

(** No request is lost: a request in flight is answered once its worker ends, which the
    time limit makes happen, whatever other requests arrive and end in between. *)
Theorem service_answers inputs more n o :
  let s := (run_service idle_service inputs).1 in
  n ∈ (in_flight s).*1 -> WorkerEnds n o ∈ more -> n ∈ (run_service s more).2.*1.
Proof.
  intros s. generalize s. clear s inputs. induction more as [|i more IH]; intros s Hin Hm; [by apply not_elem_of_nil in Hm|].
  cbn [run_service]. assert (Ha : n ∈ (service_step s i).2.*1 \/ (n ∈ (in_flight (service_step s i).1).*1 /\ WorkerEnds n o ∈ more)).
  { apply elem_of_cons in Hm as [<-|Hm]; [left; by apply worker_end_answers|].
    destruct (in_flight_or_answered s i n Hin); [by left|by right]. }
  destruct (service_step s i) as [s1 a1]. cbn [fst snd] in Ha. specialize (IH s1).
  destruct (run_service s1 more) as [s2 a2]. cbn [fst snd] in *. rewrite fmap_app. apply elem_of_app.
  destruct Ha as [Ha|[Ha Hm']]; [by left|right; by apply IH].
Qed.

(** ** The worker computes what the node would *)

Lemma mapM_py_fmap {A B C} (f : B -> result C) (g : A -> B) (h : A -> C) l :
  Forall (λ x, f (g x) = Ok (h x)) l -> mapM_py f (g <$> l) = Ok (h <$> l).
Proof. induction 1 as [|x l Hx Hl IH]; [done|]. rewrite !fmap_cons. cbn [mapM_py]. by rewrite Hx, IH. Qed.

Lemma project_embed v : (forall x, text_dec (dec_text x) = Some x) -> project (embed v) = Ok v.
Proof.
  intros Hdec. induction v as [|b|z|s|r|d|t|b|l IH|l IH|d IH] using value_ind; try done; cbn [embed project].
  - by rewrite Hdec.
  - rewrite (mapM_py_fmap project embed id l IH). by rewrite list_fmap_id.
  - rewrite (mapM_py_fmap project embed id l IH). by rewrite list_fmap_id.
  - rewrite (mapM_py_fmap _ _ id); [by rewrite list_fmap_id|]. eapply Forall_impl; [exact IH|].
    intros [k v] Hv. cbn [fst snd] in *. by rewrite Hv.
Qed.

Lemma simulation_restores `{!RuntimeLaws D} sm p kwargs environment max_chi cost d :
  (_execute_vm_simulation sm p kwargs environment max_chi cost d).2 = d.
Proof.
  unfold _execute_vm_simulation, mbind, stM_bind, lift_res. destruct (chi_budget_of max_chi) as [budget|]; [|done].
  destruct (_estimated_transaction_size _ _ _) as [size|]; [|done].
  set (args := VmArgs _ _ _ _ _ _ _ _). pose proof (execute_vm_transaction_restores float_trunc args (VInt cost) false (sim_charge_fees sm) d) as Hr.
  destruct (execute_vm_transaction _ _ _ _ _ _) as [[outcome|e] d']; [|done]. by destruct (_simulation_result _).
Qed.

Lemma simulate_dict sm payload block_meta max_chi s res s' :
  simulate sm payload block_meta max_chi s = (Ok res, s') -> exists r, res = VDict r.
Proof.
  unfold simulate. intros Hs. apply stM_bind_inv in Hs as (p & s1 & _ & Hs). unfold report_error in Hs.
  destruct (_execute sm p block_meta max_chi s1) as [[v|e] s2] eqn:Ee; injection Hs as <- <-; [|by eexists].
  unfold _execute in Ee. stM_inv. unfold finally_st in Ee.
  destruct (execute_body sm p block_meta max_chi _ _) as [rr sb] eqn:Eb. injection Ee as -> _. unfold execute_body in Eb. stM_inv.
  destruct a3; [injection Eb as <- _; by eexists|]. stM_inv. unfold on_sim_driver in Eb.
  destruct (_execute_vm_simulation _ _ _ _ _ _ _) as [rv dv] eqn:Ev. injection Eb as -> _.
  unfold _execute_vm_simulation in Ev. stM_inv. injection Ev as <- _. by eexists.
Qed.

(** A simulation leaves the driver as it was, however it ends. *)
Lemma simulate_restores `{!RuntimeLaws D} sm payload block_meta max_chi s :
  sim_driver (simulate sm payload block_meta max_chi s).2 = sim_driver s.
Proof.
  assert (Hb : forall p cost s, sim_driver (execute_body sm p block_meta max_chi cost s).2 = sim_driver s).
  { clear s. intros p cost s. set (R := λ s s' : sim_state, sim_driver s' = sim_driver s).
    assert (HR : PreOrder R) by (split; unfold R; [by intros|by intros ? ? ? -> ->]).
    assert (Hk : keeps R (execute_body sm p block_meta max_chi cost)); [|exact (Hk s)].
    unfold execute_body, prepare_for_simulation, _make_environment, block_nanos. keep.
    - intros s'. by destruct (prepare_vm_contract _ _ _ _ _).
    - intros s'. destruct (py_get "nanos" _ _); try done. by destruct (get_latest_block_nanos _ _ _ _).
    - intros environment s'. unfold R, on_sim_driver. destruct (_execute_vm_simulation _ _ _ _ _ _ _) as [r d] eqn:Ev. cbn.
      replace d with (_execute_vm_simulation sm p a0 environment max_chi cost (sim_driver s')).2 by (by rewrite Ev).
      apply simulation_restores. }
  unfold simulate, mbind, stM_bind, lift_res. destruct (_normalize_payload payload) as [p|]; [|done].
  unfold report_error, _execute, mbind, stM_bind, gets_st, finally_st.
  specialize (Hb p (simulation_chi_cost (sim_driver s)) s). destruct (execute_body _ _ _ _ _ _) as [r s']. cbn [snd] in Hb.
  assert (Hr : sim_driver (_restore_driver_state (snapshot_state (sim_driver s)) s') = sim_driver s).
  { unfold _restore_driver_state. cbn. rewrite Hb. by apply restore_snapshot. }
  by destruct r.
Qed.

(** Claim C30. The simulation a worker process performs is the node's own: the task carries the
    node's pending state, so the answer the service gives for it is the result of simulating
    on the node's driver, with a fresh cache of prepared contracts. *)
Theorem worker_answers sm d storage_home runtime_info p block_meta max_chi stderr s' res :
  let task := task_dict storage_home runtime_info (VDict (payload_dict p)) block_meta (sim_chain_id sm) max_chi
                (sim_charge_fees sm) (snapshot_value (snapshot_state d)) in
  restore_state_value (open_driver storage_home) (snapshot_value (snapshot_state d)) = Ok d ->
  (forall x, text_dec (dec_text x) = Some x) -> sim_block_meta sm = VNone ->
  well_formed decode_scalar py_set py_dict (embed task) -> portable (embed task) = true ->
  simulate sm (VDict (payload_dict p)) block_meta max_chi (SimState d [] (mirror_in storage_home)) = (Ok res, s') ->
  well_formed decode_scalar py_set py_dict (embed res) -> portable (embed res) = true ->
  exists stdin code stdout, ipc_dumps (embed task) = Ok stdin /\ worker_main stdin = (code, stdout) /\
    _run_task (VDict (payload_dict p)) (Exited code stdout stderr) = embed res.
Proof.
  intros task Hrestore Hdec Hmeta Hwt Hpt Hsim Hwr Hpr.
  destruct (ipc_roundtrip_text decode_scalar py_set py_dict (embed task) Hwt Hpt) as (stdin & Hin & Hload).
  destruct (ipc_roundtrip_text decode_scalar py_set py_dict (embed res) Hwr Hpr) as (stdout & Hout & Hback).
  exists stdin, 0, stdout. split; [done|].
  assert (Hres : worker_result task = Ok res).
  { unfold worker_result, task, task_dict. cbn [mbind result_bind].
    change (py_item "storage_home" _) with (Ok (VStr storage_home)). cbn [mbind result_bind].
    change (py_get "driver_state" _ VNone) with (snapshot_value (snapshot_state d)). rewrite Hrestore. cbn [mbind result_bind].
    change (py_item "payload" _) with (Ok (VDict (payload_dict p))). change (py_item "max_chi" _) with (Ok max_chi).
    cbn [mbind result_bind].
    change (py_get "chain_id" _ VNone) with (sim_chain_id sm). change (py_get "block_meta" _ VNone) with block_meta.
    change (truthy (py_get "charge_fees" _ (VBool true))) with (sim_charge_fees sm).
    replace (MkSimulator _ _ _) with sm; [by rewrite Hsim|]. destruct sm. cbn in *. by subst. }
  assert (Hmain : worker_main stdin = (0, stdout)).
  { unfold worker_main. rewrite Hload. cbn [mbind result_bind]. rewrite (project_embed task Hdec). cbn [mbind result_bind].
    rewrite Hres. cbn [mbind result_bind]. by rewrite Hout. }
  split; [done|]. destruct (simulate_dict _ _ _ _ _ _ _ Hsim) as [r ->].
  unfold _run_task, _wait_for_task_result. cbn [Z.eqb negb]. rewrite Hback. done.
Qed.
End Simulator.

(** ** A node and its worker over the in-memory driver *)

Fixpoint pos_text (p : positive) : string :=
  match p with xH => "" | xO p => String.String (ascii_of_byte 48) (pos_text p) | xI p => String.String (ascii_of_byte 49) (pos_text p) end.
Fixpoint text_pos (s : string) : positive :=
  match s with
  | String.EmptyString => xH
  | String.String c s => if decide (c = ascii_of_byte 48) then xO (text_pos s) else xI (text_pos s)
  end.
Lemma text_pos_text p : text_pos (pos_text p) = p.
Proof. induction p as [p IH|p IH|]; cbn; [by rewrite IH..|done]. Qed.

#[global] Instance dec_countable : Countable dec.
Proof. by apply (inj_countable' (λ d, (dec_neg d, dec_coef d, dec_exp d)) (λ t, Dec t.1.1 t.1.2 t.2)); intros []. Defined.

Definition toy_dec_text (d : dec) : string := pos_text (countable.encode d).
Definition toy_text_dec (s : string) : option dec := countable.decode (text_pos s).

Definition toy_snapshot (d : driver_snapshot (D := mem_driver)) : value := VDict (drv_pending_writes (d : mem_driver)).
Definition toy_restore (d : mem_driver) (v : value) : result mem_driver :=
  match v with VDict w => Ok (drv_set_pending_writes d w) | _ => raise TypeError "snapshot" end.

Definition node_driver : mem_driver := drv_set_pending_writes mem_empty [("ir:con", VStr (toy_ir []))].
Definition sample_simulation : sim_payload := SimPayload "alice" "con" "f" [("key", VStr "k"); ("value", VInt 3)].

#[local] Existing Instance int_arith.

Definition toy_simulator : simulator := MkSimulator (VStr "xian-1") true VNone.
Definition toy_simulate : result value * sim_state :=
  simulate (λ _, "") sample_no_float 3 true toy_simulator (VDict (payload_dict sample_simulation))
    (VDict [("nanos", VInt 5)]) (VInt 1000) (SimState node_driver [] Missing).
Definition toy_result : value := match toy_simulate.1 with Ok v => v | Raise _ => VNone end.

Lemma worker_answers_witness :
  exists stdin code stdout,
    ipc_dumps (embed toy_dec_text (task_dict "/data" VNone (VDict (payload_dict sample_simulation)) (VDict [("nanos", VInt 5)])
      (VStr "xian-1") (VInt 1000) true (toy_snapshot node_driver))) = Ok stdin /\
    worker_main (λ _, "") sample_no_float 3 true toy_dec_text toy_text_dec toy_scalar Ok Ok (λ _, mem_empty) toy_restore
      (λ _, Missing) stdin = (code, stdout) /\
    _run_task toy_dec_text toy_scalar Ok Ok 3000 (VDict (payload_dict sample_simulation)) (Exited code stdout "") =
      embed toy_dec_text toy_result.
Proof.
  apply (worker_answers (λ _, "") sample_no_float 3 true toy_dec_text toy_text_dec toy_scalar Ok Ok (λ _, mem_empty) toy_snapshot
           toy_restore (λ _, Missing) 3000 toy_simulator node_driver "/data" VNone sample_simulation (VDict [("nanos", VInt 5)])
           (VInt 1000) "" toy_simulate.2 toy_result).
  - reflexivity.
  - intros x. unfold toy_text_dec, toy_dec_text. by rewrite text_pos_text, countable.decode_encode.
  - reflexivity.
  - cbn. split_and!; try done; nodup_by_compute.
  - vm_compute. reflexivity.
  - vm_compute. reflexivity.
  - vm_compute. split_and!; try done; nodup_by_compute.
  - vm_compute. reflexivity.
Defined.

Definition sample_raw : string :=
  match dumps true (VDict (payload_dict sample_simulation)) with Ok t => bytes_hex (encode_utf8 t) | Raise _ => "" end.
Definition sample_inputs : list service_input :=
  [Arrives sample_raw; Arrives "zz"; Arrives sample_raw; Arrives sample_raw; WorkerEnds 2 TimedOut].
Definition toy_service (inputs : list service_input) : service * list (nat * pyobj) :=
  run_service toy_dec_text toy_scalar Ok Ok true 2 3000 idle_service inputs.

Lemma service_invariant_witness :
  _active_requests (toy_service sample_inputs).1 = 1 /\ (toy_service sample_inputs).2.*1 = [1; 3; 2]%nat.
Proof.
  pose proof (service_invariant toy_dec_text toy_scalar Ok Ok true 2 3000 sample_inputs) as Hi.
  change (run_service _ _ _ _ _ _ _ _ sample_inputs) with (toy_service sample_inputs) in Hi.
  destruct (toy_service sample_inputs) as [s answers] eqn:Es. destruct (Hi ltac:(lia)) as (Ha & _ & _).
  cbn [fst snd]. rewrite Ha. vm_compute in Es. injection Es as <- <-. vm_compute. split; reflexivity.
Defined.

Lemma service_answers_witness :
  0%nat ∈ (run_service toy_dec_text toy_scalar Ok Ok true 2 3000 (toy_service sample_inputs).1
             [Arrives sample_raw; WorkerEnds 0 (Exited 1 [] "boom")]).2.*1.
Proof.
  apply (service_answers toy_dec_text toy_scalar Ok Ok true 2 3000 sample_inputs _ 0%nat (Exited 1 [] "boom")).
  - apply (bool_decide_unpack _). vm_compute. exact I.
  - right. left.
Defined.
