(* ===== verification/StateExport.v ===== *)
(** * State export and import (src/src/xian/state_export.py)

    The exported state that snapshots carry, and its import into a store.

    [contract_state] and [run_state] are what the storage driver returns for the
    contract keys and for the keys that start with two underscores.  [sign] is the
    founder's signature over the genesis entries, present when a key is given. *)

From S2P Require Import Prelude PyValue Json PyBuiltins Driver Encoding ExecutionPolicy StateRoot Nonce Block App.

Definition entry_value (kv : string * value) : value :=
  VDict [("key", VStr kv.1); ("value", kv.2)].

Section StateExport.
Context (sha256 : bytes -> bytes) (py_str : value -> string) (float_trunc : string -> result Z).

Definition nonce_prefix : string := "__n" +:+ INDEX_SEPARATOR.

(** The nonces of the run state, without their prefix. *)
Definition nonce_entry (kv : string * value) : option (string * value) :=
  match strip_prefix nonce_prefix kv.1 with Some k => Some (k, kv.2) | None => None end.
Definition exported_nonces (run_state : list (string * value)) : list (string * value) :=
  sort_by fst (omap nonce_entry run_state).

Definition exported_genesis (contract_state : list (string * value)) (execution_policy : value)
  : list (string * value) :=
  sort_by fst (filter (λ kv, is_none kv.2 = false) contract_state
               ++ [(EXECUTION_POLICY_KEY, execution_policy)]).

Definition exported_with (state_hash : string) (number nanos : Z) (origin : string * string)
    (genesis nonces : list (string * value)) : list (string * value) :=
  [("hash", VStr state_hash); ("number", VInt number); ("nanos", VInt nanos);
   ("origin", VDict [("signature", VStr origin.1); ("sender", VStr origin.2)]);
   ("genesis", VList (entry_value <$> genesis)); ("nonces", VList (entry_value <$> nonces))].

Definition build_exported_state (io_ok : bool)
    (sign : option (value -> result (string * string)))
    (contract_state run_state : list (string * value))
    (latest_block_hash : option bytes) (latest_block_height latest_block_nanos : option Z)
  : stM mirror (list (string * value)) :=
  let execution_policy := py_get EXECUTION_POLICY_KEY run_state VNone in
  _ ← lift_res (validate_execution_policy execution_policy);
  latest_app_hash ← match latest_block_hash with
                    | Some h => mret h
                    | None => get_latest_block_hash py_str float_trunc io_ok end;
  block_height ← match latest_block_height with
                 | Some h => mret h
                 | None => get_latest_block_height py_str float_trunc io_ok end;
  block_nanos ← match latest_block_nanos with
                | Some n => mret n
                | None => get_latest_block_nanos py_str float_trunc io_ok end;
  let nonces := exported_nonces run_state in
  let genesis := exported_genesis contract_state execution_policy in
  state_root ← lift_res (compute_exported_state_root sha256
                 (exported_with "" block_height block_nanos ("", "") genesis nonces));
  _ ← lift_res (check_py (bool_decide (latest_app_hash = []) || bool_decide (latest_app_hash = state_root))
                 ValueError "exported state root does not match latest block app hash");
  origin ← lift_res (match sign with
                     | Some f => f (VList (entry_value <$> genesis))
                     | None => Ok ("", "") end);
  mret (exported_with (bytes_hex state_root) block_height block_nanos origin genesis nonces).

(** ** [import_state] *)

Section Import.
Context {D : Type} `{DriverOps D}.

(** A storage directory: the database and the latest-block mirror. *)
Record store := Store { st_driver : D; st_mirror : mirror }.

Record import_result := ImportResult { ir_height : Z; ir_app_hash : string; ir_nanos : Z; ir_keys : nat }.

(** The dict [writes], as its assignments build it. *)
Definition import_writes (exported_state : list (string * value)) : result (list (string * value)) :=
  items ← exported_state_items exported_state; Ok (dict_update [] items).

Definition import_state (commit_ok io_ok : bool) (persisted : lmdb_state)
    (exported_state : list (string * value)) : stM store import_result := λ s,
  match (_ ← validate_genesis_execution_policy exported_state;
         _ ← validate_persisted_execution_policy persisted;
         state_root ← compute_exported_state_root sha256 exported_state;
         advertised ← (h ← as_str (py_get "hash" exported_state (VStr "")); fromhex h);
         _ ← check_py (bool_decide (advertised = state_root)) ValueError "exported state root mismatch";
         Ok state_root) with
  | Raise e => (Raise e, s)
  | Ok state_root =>
    let d := drv_flush_full (st_driver s) in
    match (writes ← import_writes exported_state;
           height ← py_int float_trunc (py_get "number" exported_state (VInt 0));
           nanos ← py_int float_trunc (py_get "nanos" exported_state (VInt 0));
           Ok (writes, height, nanos)) with
    | Raise e => (Raise e, Store d (st_mirror s))
    | Ok (writes, height, nanos) =>
      let '(latest, d) := stage_latest_block d state_root height nanos in
      match drv_commit commit_ok (drv_apply_writes d writes) with
      | (Raise e, d) => (Raise e, Store d (st_mirror s))
      | (Ok _, d) =>
        match (root ← compute_driver_state_root sha256 (drv_items d);
               check_py (bool_decide (root = state_root)) ValueError "imported state root mismatch") with
        | Raise e => (Raise e, Store d (st_mirror s))
        | Ok _ =>
          (Ok (ImportResult height (bytes_hex state_root) nanos (length writes)),
           Store d (try_write_latest_block io_ok latest (st_mirror s)).2)
        end
      end
    end
  end.

(** ** What the exported entries stand for *)

Definition restored (kv : string * value) : string * value := (nonce_prefix +:+ kv.1, kv.2).

Definition exported_items (contract_state run_state : list (string * value)) : list (string * value) :=
  exported_genesis contract_state (py_get EXECUTION_POLICY_KEY run_state VNone)
  ++ (restored <$> exported_nonces run_state).

Lemma export_entries prefix l :
  mapM_py (export_entry prefix) (entry_value <$> l) = Ok ((λ kv, (prefix +:+ kv.1, kv.2)) <$> l).
Proof. induction l as [|[k v] l IH]; [done|]. csimpl. by rewrite IH. Qed.

Lemma exported_with_items h n ns o genesis nonces :
  exported_state_items (exported_with h n ns o genesis nonces) = Ok (genesis ++ (restored <$> nonces)).
Proof.
  unfold exported_state_items.
  change (py_get "genesis" (exported_with h n ns o genesis nonces) (VList []))
    with (VList (entry_value <$> genesis)).
  change (py_get "nonces" (exported_with h n ns o genesis nonces) (VList []))
    with (VList (entry_value <$> nonces)).
  cbn [py_iter mbind result_bind]. rewrite !export_entries. bind_step. do 2 f_equal.
  transitivity (id <$> genesis); [|apply list_fmap_id]. by apply list_fmap_ext; intros ? [].
Qed.

Lemma exported_nonces_perm run_state :
  restored <$> exported_nonces run_state ≡ₚ filter (λ kv, startswith nonce_prefix kv.1 = true) run_state.
Proof.
  unfold exported_nonces. rewrite sort_by_perm. clear.
  induction run_state as [|[k v] l IH]; [done|]. rewrite filter_cons. simpl.
  destruct (strip_prefix nonce_prefix k) as [r|] eqn:E; unfold nonce_entry at 1; cbn [fst snd]; rewrite E.
  - rewrite decide_True by (unfold startswith; by rewrite E). rewrite fmap_cons. unfold restored at 1. cbn [fst snd].
    rewrite <- (strip_prefix_Some _ _ _ E). by rewrite <- IH.
  - rewrite decide_False by (unfold startswith; by rewrite E). apply IH.
Qed.

(** Contract keys do not start with two underscores; the keys of the run state do. *)
Record split_state (contract_state run_state : list (string * value)) : Prop := {
  ss_nodup : NoDup (dict_keys (contract_state ++ run_state));
  ss_contract : Forall (λ kv, startswith "__" kv.1 = false) contract_state;
  ss_run : Forall (λ kv, startswith "__" kv.1 = true) run_state;
}.

Section Exported.
Context (contract_state run_state : list (string * value)).
Context (Hsplit : split_state contract_state run_state).
Context (Hpolicy : validate_execution_policy (py_get EXECUTION_POLICY_KEY run_state VNone) = Ok tt).

Let policy := py_get EXECUTION_POLICY_KEY run_state VNone.

Lemma policy_in_run : (EXECUTION_POLICY_KEY, policy) ∈ run_state.
Proof.
  unfold policy, py_get in *. destruct (dict_get EXECUTION_POLICY_KEY run_state) eqn:E; [|done].
  by apply dict_get_Some_elem.
Qed.

Lemma policy_not_none : is_none policy = false.
Proof. unfold policy. destruct (py_get _ _ _); done. Qed.

Lemma genesis_perm :
  exported_genesis contract_state policy ≡ₚ
    filter (λ kv, is_none kv.2 = false) contract_state ++ [(EXECUTION_POLICY_KEY, policy)].
Proof. apply sort_by_perm. Qed.

(** The exported entries, by membership. *)
Lemma exported_elem k v :
  (k, v) ∈ exported_items contract_state run_state <->
    ((k, v) ∈ contract_state /\ is_none v = false) \/ (k, v) = (EXECUTION_POLICY_KEY, policy) \/
    ((k, v) ∈ run_state /\ startswith nonce_prefix k = true).
Proof.
  unfold exported_items. fold policy. rewrite elem_of_app, exported_nonces_perm, genesis_perm, elem_of_app.
  rewrite !list_elem_of_filter, list_elem_of_singleton. simpl. tauto.
Qed.

Lemma contract_key k v : (k, v) ∈ contract_state -> startswith "__" k = false.
Proof. intros Hin. pose proof (ss_contract _ _ Hsplit) as Hc. rewrite Forall_forall in Hc. by apply (Hc (k, v)). Qed.
Lemma run_key k v : (k, v) ∈ run_state -> startswith "__" k = true.
Proof. intros Hin. pose proof (ss_run _ _ Hsplit) as Hr. rewrite Forall_forall in Hr. by apply (Hr (k, v)). Qed.

(** The exported entries are entries of the state: their keys stay distinct. *)
Lemma exported_items_sub :
  exported_items contract_state run_state ≡ₚ
    filter (λ kv, is_none kv.2 = false) contract_state
    ++ ((EXECUTION_POLICY_KEY, policy) :: filter (λ kv, startswith nonce_prefix kv.1 = true) run_state).
Proof.
  unfold exported_items. fold policy. rewrite exported_nonces_perm, genesis_perm, <- (assoc_L (++)). done.
Qed.

Lemma exported_items_nodup : NoDup (dict_keys (exported_items contract_state run_state)).
Proof.
  pose proof (ss_nodup _ _ Hsplit) as Hnd. unfold dict_keys in *. rewrite fmap_app in Hnd.
  apply NoDup_app in Hnd as (Hc & Hd & Hr).
  assert (Hsub : forall P `{!forall x, Decision (P x)} (l : list (string * value)),
            NoDup l.*1 -> NoDup (filter P l).*1).
  { intros P ? l. induction l as [|x l IH]; [done|]. rewrite filter_cons. csimpl.
    intros [Hx Hl]%NoDup_cons. case_decide; [|by apply IH]. csimpl. apply NoDup_cons. split; [|by apply IH].
    intros Hin. apply Hx. apply list_elem_of_fmap in Hin as (y & -> & [_ Hy]%list_elem_of_filter).
    by apply list_elem_of_fmap_2. }
  rewrite exported_items_sub, fmap_app. csimpl. apply NoDup_app. split; [by apply Hsub|]. split.
  - intros k ([k' v] & -> & [_ Hin]%list_elem_of_filter)%list_elem_of_fmap. simpl.
    apply contract_key in Hin as Hk. intros [->|([k2 v2] & Hk2 & [_ Hin2]%list_elem_of_filter)%list_elem_of_fmap]%elem_of_cons;
      [done|]. simpl in Hk2. subst. apply run_key in Hin2. congruence.
  - apply NoDup_cons. split; [|by apply Hsub].
    intros ([k v] & Hk & [Hs _]%list_elem_of_filter)%list_elem_of_fmap. simpl in *. by subst.
Qed.

Lemma exported_values q :
  is_consensus_state_key q = true ->
  value_at (exported_items contract_state run_state) q = value_at (contract_state ++ run_state) q.
Proof.
  intros Hq. pose proof (ss_nodup _ _ Hsplit) as Hnd.
  assert (Hin : forall v, is_none v = false ->
     (q, v) ∈ exported_items contract_state run_state <-> (q, v) ∈ contract_state ++ run_state).
  { intros v Hv. rewrite exported_elem, elem_of_app. split.
    - intros [[? _]|[[= -> ->]|[? _]]]; [by left|right; apply policy_in_run|by right].
    - intros [Hc|Hr]; [by left|right]. apply run_key in Hr as Hk. unfold is_consensus_state_key in Hq.
      rewrite Hk in Hq. rewrite orb_false_r in Hq. apply orb_true_iff in Hq as [He|Hn]; [left|by right].
      apply bool_decide_eq_true in He. subst q. f_equal. unfold policy, py_get.
      rewrite (dict_get_elem EXECUTION_POLICY_KEY v run_state); [done| |done].
      unfold dict_keys in *. rewrite fmap_app in Hnd. by apply NoDup_app in Hnd as (_ & _ & ?). }
  unfold value_at. destruct (dict_get q (contract_state ++ run_state)) as [v|] eqn:E1.
  - apply dict_get_Some_elem in E1 as I1. destruct (is_none v) eqn:Ev.
    + destruct v; try done. destruct (dict_get q (exported_items contract_state run_state)) as [w|] eqn:E2; [|done].
      destruct (is_none w) eqn:Ew; [by destruct w|]. apply dict_get_Some_elem, Hin in E2; [|done].
      apply (dict_get_elem _ _ _ Hnd) in E2. congruence.
    + apply Hin in I1; [|done]. by rewrite (dict_get_elem q v _ exported_items_nodup I1).
  - destruct (dict_get q (exported_items contract_state run_state)) as [w|] eqn:E2; [|done].
    destruct (is_none w) eqn:Ew; [by destruct w|]. apply dict_get_Some_elem, Hin in E2; [|done].
    apply (dict_get_elem _ _ _ Hnd) in E2. congruence.
Qed.
End Exported.

(** ** Import *)

Context `{!DriverLaws D}.

(** What the committed import leaves under a key: the marker is staged first, so an
    entry of the same name would replace it. *)
Definition imported_value (writes : list (string * value)) (marker : latest_block) (q : string) : value :=
  match dict_get q writes with
  | Some v => v
  | None => if decide (q = LATEST_BLOCK_KEY) then latest_block_value marker else VNone
  end.

Lemma import_commit (d d' : D) root height nanos writes ok :
  NoDup (dict_keys writes) ->
  drv_commit ok (drv_apply_writes (stage_latest_block (drv_flush_full d) root height nanos).2 writes) = (Ok tt, d') ->
  drv_pending_writes d' = [] /\
  forall q, drv_value_from_disk d' q = imported_value writes (LatestBlock (bytes_hex root) height nanos) q.
Proof.
  intros Hnd Hc. destruct (drv_commit_ok _ _ _ Hc) as [Hp Hd]. split; [done|]. intros q. rewrite Hd.
  unfold stage_latest_block. cbn [snd]. rewrite drv_get_spec, !drv_apply_writes_pending, !drv_apply_writes_disk.
  rewrite drv_flush_full_pending, drv_flush_full_disk, dict_get_update by done. unfold imported_value.
  destruct (dict_get q writes); [done|]. simpl. by destruct (decide (q = LATEST_BLOCK_KEY)).
Qed.

Lemma import_writes_nodup ex writes : import_writes ex = Ok writes -> NoDup (dict_keys writes).
Proof. unfold import_writes. intros Hw. destruct_result. apply dict_update_nil. Qed.

(** A successful import, for any exported state. *)
Lemma import_state_inv commit_ok io_ok persisted ex s r s' :
  import_state commit_ok io_ok persisted ex s = (Ok r, s') ->
  exists root writes, compute_exported_state_root sha256 ex = Ok root /\ import_writes ex = Ok writes /\
    ir_app_hash r = bytes_hex root /\
    merkle_root_from_items sha256 (drv_items (st_driver s')) = Ok root /\
    drv_pending_writes (st_driver s') = [] /\
    forall q, drv_value_from_disk (st_driver s') q =
      imported_value writes (LatestBlock (bytes_hex root) (ir_height r) (ir_nanos r)) q.
Proof.
  unfold import_state. destruct (mbind _ _) as [root|] eqn:E1; [|done]. destruct_result.
  match goal with E : check_py _ _ _ = Ok _ |- _ => clear E end.
  match goal with |- context [ (import_writes ex ≫= ?f) ] => destruct (import_writes ex ≫= f) as [[[writes height] nanos]|] eqn:E5 end; [|done].
  destruct_result. injection E5 as -> -> ->. cbn [stage_latest_block].
  match goal with |- context [drv_commit commit_ok ?d] => destruct (drv_commit commit_ok d) as [[[]|] d'] eqn:Ec end; [|done].
  match goal with |- context [compute_driver_state_root sha256 (drv_items d') ≫= ?f] =>
    destruct (compute_driver_state_root sha256 (drv_items d') ≫= f) as [[]|] eqn:Efin end; [|done].
  intros [= <- <-]. destruct_result. unfold check_py in Efin. destruct (bool_decide _) eqn:Eb; [|done].
  apply bool_decide_eq_true in Eb as ->.
  match goal with E : import_writes ex = Ok _ |- _ => pose proof (import_writes_nodup _ _ E) as Hnd end.
  destruct (import_commit _ _ _ _ _ _ _ Hnd Ec) as [Hp Hd]. eexists _, _. split_and!; try done.
Qed.

Lemma exported_policy_valid contract_state run_state h n ns o nonces :
  split_state contract_state run_state ->
  let policy := py_get EXECUTION_POLICY_KEY run_state VNone in
  validate_execution_policy policy = Ok tt ->
  validate_genesis_execution_policy
    (exported_with h n ns o (exported_genesis contract_state policy) nonces) = Ok tt.
Proof.
  intros Hs policy Hp. unfold validate_genesis_execution_policy.
  change (py_get "abci_genesis" ?d ?v) with v. cbv beta iota zeta.
  change (py_get "genesis" (exported_with h n ns o ?g nonces) (VList [])) with (VList (entry_value <$> g)).
  cbn [py_iter mbind result_bind].
  set (f := λ e : value, _).
  assert (Hperm : omap f (entry_value <$> exported_genesis contract_state policy) ≡ₚ [policy]).
  { unfold policy. rewrite (genesis_perm contract_state run_state). rewrite fmap_app, omap_app.
    assert (omap f (entry_value <$> filter (λ kv, is_none kv.2 = false) contract_state) = []) as ->; [|done].
    pose proof (ss_contract _ _ Hs) as Hc. clear -Hc.
    induction contract_state as [|[k v] l IH]; [done|]. apply Forall_cons in Hc as [Hk Hc].
    rewrite filter_cons. destruct (decide _); [|by apply IH]. rewrite fmap_cons. cbn [omap list_omap].
    assert (f (entry_value (k, v)) = None) as ->; [|by apply IH].
    unfold f, entry_value. change (py_get "key" [("key", VStr (k, v).1); ("value", (k, v).2)] VNone) with (VStr k).
    rewrite decide_False; [done|]. intros [= ->]. done. }
  apply Permutation_singleton_r in Hperm. by rewrite Hperm.
Qed.

Lemma build_exported_inv io_ok sign contract_state run_state lh lht ln m ex m' :
  build_exported_state io_ok sign contract_state run_state lh lht ln m = (Ok ex, m') ->
  let policy := py_get EXECUTION_POLICY_KEY run_state VNone in
  validate_execution_policy policy = Ok tt /\
  exists root h n o, merkle_root_from_items sha256 (exported_items contract_state run_state) = Ok root /\
    ex = exported_with (bytes_hex root) h n o (exported_genesis contract_state policy) (exported_nonces run_state) /\
    (lh = Some root \/ lh = Some [] \/ lh = None) /\
    (forall x, lht = Some x -> h = x) /\ (forall x, ln = Some x -> n = x).
Proof.
  intros Hb policy. unfold build_exported_state in Hb. stM_inv.
  unfold mret, stM_ret in Hb. injection Hb as <- _.
  unfold lift_res in E, E3, E4. injection E as Hp _. injection E3 as Hr _. injection E4 as Hc _.
  split; [by destruct a|]. exists a3, a1, a2, a5.
  unfold compute_exported_state_root in Hr. rewrite exported_with_items in Hr. split_and!; try done.
  - unfold check_py in Hc. destruct (_ || _) eqn:Eo; [|done].
    destruct lh as [lh|]; [|by do 2 right]. unfold mret, stM_ret in E0. injection E0 as -> _.
    apply orb_true_iff in Eo as [Eo|Eo]; apply bool_decide_eq_true in Eo as ->; [by right; left|by left].
  - intros x ->. unfold mret, stM_ret in E1. by injection E1.
  - intros x ->. unfold mret, stM_ret in E2. by injection E2.
Qed.

(** Importing the state a node exported. *)
Lemma import_exported contract_state run_state root h n o io_ok persisted b s :
  (forall x, Forall is_byte (sha256 x)) -> (forall d : D, exists d', drv_commit true d = (Ok tt, d')) ->
  split_state contract_state run_state ->
  (forall c, new_cache sha256 (exported_items contract_state run_state) = Ok c ->
     distinct_priorities sha256 (dict_keys (_leaf_hashes c))) ->
  let policy := py_get EXECUTION_POLICY_KEY run_state VNone in
  validate_execution_policy policy = Ok tt ->
  merkle_root_from_items sha256 (exported_items contract_state run_state) = Ok root ->
  validate_persisted_execution_policy persisted = Ok b ->
  exists s', import_state true io_ok persisted
      (exported_with (bytes_hex root) h n o (exported_genesis contract_state policy) (exported_nonces run_state)) s =
      (Ok (ImportResult h (bytes_hex root) n (length (exported_items contract_state run_state))), s') /\
    (forall q, is_consensus_state_key q = true ->
       drv_value_from_disk (st_driver s') q = value_at (contract_state ++ run_state) q) /\
    merkle_root_from_items sha256 (drv_items (st_driver s')) = Ok root /\
    get_committed_latest_block py_str float_trunc (st_driver s') = Ok (LatestBlock (bytes_hex root) h n).
Proof.
  intros Hsha Hcommit Hs Hd policy Hp Hr Hpv.
  set (ex := exported_with _ _ _ _ _ _). set (items := exported_items contract_state run_state) in *.
  pose proof (exported_items_nodup _ _ Hs) as Hnd. fold items in Hnd.
  destruct (new_cache sha256 items) as [c|] eqn:Hc; [|unfold merkle_root_from_items in Hr; by rewrite Hc in Hr].
  destruct (new_cache_tracks sha256 items c Hnd Hc) as [Ht _]. specialize (Hd c eq_refl).
  assert (root = root_hash sha256 c) as Hroot.
  { unfold merkle_root_from_items in Hr. rewrite Hc in Hr. simpl in Hr. congruence. }
  assert (Hbytes : Forall is_byte root) by (subst root; by eapply root_hash_bytes; [|apply Ht]).
  assert (Hitems : exported_state_items ex = Ok items) by apply exported_with_items.
  assert (Hw : import_writes ex = Ok items).
  { unfold import_writes. rewrite Hitems. bind_step. f_equal. by apply dict_update_fresh. }
  assert (Hcr : compute_exported_state_root sha256 ex = Ok root)
    by (unfold compute_exported_state_root; by rewrite Hitems).
  set (d0 := drv_flush_full (st_driver s)).
  destruct (Hcommit (drv_apply_writes (stage_latest_block d0 root h n).2 items)) as [d' Hd'].
  destruct (import_commit _ _ _ _ _ _ _ Hnd Hd') as [Hpend Hdisk].
  assert (Hvals : forall q, is_consensus_state_key q = true -> drv_value_from_disk d' q = value_at items q).
  { intros q Hq. rewrite Hdisk. unfold imported_value, value_at. destruct (dict_get q items); [done|].
    rewrite decide_False; [done|]. by intros ->. }
  assert (Hfin : merkle_root_from_items sha256 (drv_items d') = Ok root).
  { rewrite Hroot. apply tracks_root; [|done]. eapply (tracks_same_values sha256 c items); [done|apply drv_items_nodup|].
    intros q Hq. rewrite <- Hvals by done. symmetry. by apply drv_items_spec. }
  exists (Store d' (try_write_latest_block io_ok (LatestBlock (bytes_hex root) h n) (st_mirror s)).2).
  split_and!.
  - unfold import_state. rewrite (exported_policy_valid _ _ _ _ _ _ _ Hs Hp : validate_genesis_execution_policy ex = Ok tt), Hpv, Hcr. bind_step.
    change (py_get "hash" ex (VStr "")) with (VStr (bytes_hex root)). cbn [as_str mbind result_bind].
    rewrite fromhex_bytes_hex by done. bind_step. unfold check_py at 1. rewrite bool_decide_eq_true_2 by done. bind_step.
    rewrite Hw. bind_step. change (py_get "number" ex (VInt 0)) with (VInt h).
    change (py_get "nanos" ex (VInt 0)) with (VInt n). cbn [py_int mbind result_bind stage_latest_block].
    fold d0. unfold stage_latest_block in Hd'. cbn [snd] in Hd'. rewrite Hd'. unfold compute_driver_state_root.
    rewrite Hfin. bind_step. unfold check_py. by rewrite bool_decide_eq_true_2.
  - intros q Hq. simpl. rewrite Hvals by done. by apply (exported_values _ _ Hs Hp).
  - done.
  - apply committed_marker; simpl; [by rewrite fromhex_bytes_hex|]. rewrite Hdisk. unfold imported_value.
    destruct (dict_get LATEST_BLOCK_KEY items) as [v|] eqn:El; [|by rewrite decide_True].
    exfalso. apply dict_get_Some_elem, exported_elem in El as [[Hin _]|[[=]|[Hin Hx]]]; [|done].
    by apply (contract_key _ _ Hs) in Hin.
Qed.

(** A snapshot restores the state it was taken from: exporting a node's state
    and importing the result into any store succeeds, every consensus key of the
    imported store holds the value it had, the state root is the exported one, and a
    restart reads the exported block from the marker. *)
Theorem export_import_roundtrip io_ok io_ok' sign contract_state run_state lh lht ln m ex m' persisted b s :
  (forall x, Forall is_byte (sha256 x)) -> (forall d : D, exists d', drv_commit true d = (Ok tt, d')) ->
  split_state contract_state run_state ->
  (forall c, new_cache sha256 (exported_items contract_state run_state) = Ok c ->
     distinct_priorities sha256 (dict_keys (_leaf_hashes c))) ->
  build_exported_state io_ok sign contract_state run_state lh lht ln m = (Ok ex, m') ->
  validate_persisted_execution_policy persisted = Ok b ->
  exists r s', import_state true io_ok' persisted ex s = (Ok r, s') /\
    (forall q, is_consensus_state_key q = true ->
       drv_value_from_disk (st_driver s') q = value_at (contract_state ++ run_state) q) /\
    (exists root, merkle_root_from_items sha256 (drv_items (st_driver s')) = Ok root /\
       ir_app_hash r = bytes_hex root /\ (forall h, lh = Some h -> h <> [] -> h = root)) /\
    get_committed_latest_block py_str float_trunc (st_driver s') =
      Ok (LatestBlock (ir_app_hash r) (ir_height r) (ir_nanos r)).
Proof.
  intros Hsha Hcommit Hs Hd Hb Hpv.
  destruct (build_exported_inv _ _ _ _ _ _ _ _ _ _ Hb) as (Hp & root & h & n & o & Hr & -> & Hlh & _).
  destruct (import_exported contract_state run_state root h n o io_ok' persisted b s) as (s' & E & Hv & Hr' & Hm); try done.
  eexists _, s'. split; [exact E|]. split_and!; [done| |done].
  exists root. split_and!; [done..|]. intros x -> Hne. destruct Hlh as [?|[?|?]]; congruence.
Qed.

(** The marker an import leaves is not always its own: an exported entry named
    like the latest-block marker is not covered by the state root and is written after
    the marker was staged, so a restart reports the block that entry names instead of
    the one that was imported. *)
Theorem import_marker_replaced commit_ok io_ok persisted ex s r s' writes b :
  import_state commit_ok io_ok persisted ex s = (Ok r, s') ->
  import_writes ex = Ok writes -> dict_get LATEST_BLOCK_KEY writes = Some (latest_block_value b) ->
  is_ok (fromhex (lb_hash b)) = true ->
  get_committed_latest_block py_str float_trunc (st_driver s') = Ok b.
Proof.
  intros Hi Hw Hg Hh. destruct (import_state_inv _ _ _ _ _ _ _ Hi) as (root & w & _ & Hw' & _ & _ & _ & Hd).
  apply committed_marker; [done|]. rewrite Hd. unfold imported_value.
  assert (w = writes) as -> by congruence. by rewrite Hg.
Qed.
End Import.
End StateExport.

(** ** Witnesses *)

Definition sample_contract_state : list (string * value) :=
  [("currency.balances:alice", VInt 10); ("currency.owner", VNone)].
Definition sample_run_state (nonces : list (string * value)) : list (string * value) :=
  [("__latest_block", VNone); (EXECUTION_POLICY_KEY, VDict current_execution_policy)] ++ nonces.
Definition sample_export (nonces : list (string * value)) : result (list (string * value)) * mirror :=
  build_exported_state toy_sha sample_str sample_no_float true None sample_contract_state
    (sample_run_state nonces) (Some []) (Some 7) (Some 100) Missing.
Definition sample_exported (nonces : list (string * value)) : list (string * value) :=
  match (sample_export nonces).1 with Ok ex => ex | Raise _ => [] end.
Definition sample_import (ex : list (string * value)) :=
  import_state toy_sha sample_no_float (D := mem_driver) true true None ex (Store mem_empty Missing).

Lemma export_import_roundtrip_witness :
  exists r s', sample_import (sample_exported [("__n.alice:", VInt 4)]) = (Ok r, s') /\
    drv_value_from_disk (st_driver s') "__n.alice:" = VInt 4.
Proof.
  destruct (export_import_roundtrip (D := mem_driver) toy_sha sample_str sample_no_float true true None
    sample_contract_state (sample_run_state [("__n.alice:", VInt 4)]) (Some []) (Some 7) (Some 100) Missing
    (sample_exported [("__n.alice:", VInt 4)]) Missing None false (Store mem_empty Missing))
    as (r & s' & E & Hv & _).
  - intros x. apply to_bytes_big_bytes.
  - intros d. by eexists.
  - split; [nodup_by_compute|repeat constructor..].
  - intros c Hc. vm_compute in Hc. apply Ok_inj in Hc as <-. unfold distinct_priorities. nodup_by_compute.
  - vm_compute. reflexivity.
  - reflexivity.
  - exists r, s'. split; [exact E|]. rewrite (Hv "__n.alice:" eq_refl). vm_compute. reflexivity.
Defined.

(** An exported state with an entry named like the marker. *)
Definition sample_forged : list (string * value) :=
  dict_set "genesis" (VList ((entry_value (LATEST_BLOCK_KEY, latest_block_value (LatestBlock "00" 999 0)))
      :: match dict_get "genesis" (sample_exported []) with Some (VList l) => l | _ => [] end))
    (sample_exported []).

Lemma import_marker_replaced_witness :
  get_committed_latest_block sample_str sample_no_float (st_driver (sample_import sample_forged).2)
  = Ok (LatestBlock "00" 999 0).
Proof.
  set (s' := (sample_import sample_forged).2).
  assert (Hi : import_state toy_sha sample_no_float true true None sample_forged (Store mem_empty Missing) =
    (Ok (ImportResult 7 (match dict_get "hash" sample_forged with Some (VStr h) => h | _ => "" end) 100 3), s'))
    by (vm_compute; reflexivity).
  apply (import_marker_replaced toy_sha sample_str sample_no_float true true None sample_forged _ _ s'
           (match import_writes sample_forged with Ok w => w | Raise _ => [] end) _ Hi);
    vm_compute; reflexivity.
Defined.

(** A genesis file built from an exported state starts a chain only when no
    account has a nonce: the import and the state root put an exported nonce back under
    its own key, while the genesis loader appends the delimiter a second time, and
    InitChain refuses the root. *)
Theorem exported_nonces_break_genesis :
  let start nonces := (init_chain toy_sha sample_str sample_no_float Ok true true
        (VDict [("abci_genesis", VDict (sample_exported nonces))]) sample_app).1 in
  is_ok (start []) = true /\
  start [("__n.alice:", VInt 4)] =
    raise ValueError "genesis state root does not match abci_genesis.hash".
Proof. vm_compute. split; reflexivity. Qed.
