(* ===== verification/RuntimeFeatures.v ===== *)
(** * Runtime features (src/src/xian/runtime_features.py)

    The optional capabilities a chain switches on (zero-knowledge proofs) are entries of
    its state; before the chain has a state they are read from the genesis file.

    The table of features, their normalisation and their state keys belong to the
    contracting package: the class [FeatureOps], with what the node relies on as
    [FeatureLaws]. *)

From S2P Require Import Prelude PyValue Json PyBuiltins Driver ExecutionPolicy StateRoot Block StateExport.

Class FeatureOps (D : Type) := {
  DEFAULT_CHAIN_RUNTIME_FEATURES : list (string * value);
  normalize_runtime_features : option (list (string * value)) -> result (list (string * value));
  runtime_feature_state_key : string -> string;
  (** the installed features, and the driver that carries them *)
  set_driver_runtime_features : D -> list (string * value) -> list (string * value) * D;
}.

(** Normalisation gives every feature of the table a boolean and leaves a normalised mapping
    as it is; state keys are distinct contract keys; installing features changes no entry. *)
Class FeatureLaws (D : Type) `{DriverOps D} `{!FeatureOps D} := {
  defaults_known : DEFAULT_CHAIN_RUNTIME_FEATURES <> [] /\ NoDup (dict_keys DEFAULT_CHAIN_RUNTIME_FEATURES);
  normalize_shape m f : normalize_runtime_features m = Ok f ->
    dict_keys f = dict_keys DEFAULT_CHAIN_RUNTIME_FEATURES /\
    Forall (λ kv, exists b, kv.2 = VBool b) f;
  normalize_normal m f g : normalize_runtime_features m = Ok f -> dict_keys g ≡ₚ dict_keys f ->
    (forall k, dict_get k g = dict_get k f) -> normalize_runtime_features (Some g) = Ok f;
  feature_key_inj :: Inj (=) (=) runtime_feature_state_key;
  feature_key_contract k : startswith "__" (runtime_feature_state_key k) = false;
  install_pending d f : drv_pending_writes (set_driver_runtime_features d f).2 = drv_pending_writes d;
  install_disk d f q : drv_value_from_disk (set_driver_runtime_features d f).2 q = drv_value_from_disk d q;
}.

Section RuntimeFeatures.
Context {D : Type} `{DriverOps D} `{!FeatureOps D}.

Record RuntimeFeatureResolution := Resolution { rf_features : list (string * value); rf_source : string }.

Definition install_driver_runtime_features (d : D) (resolution : RuntimeFeatureResolution)
  : list (string * value) * D := set_driver_runtime_features d (rf_features resolution).

(** The dict a loop over the table fills, [None] when it stays empty. *)
Definition normalize_explicit (features : list (string * value)) : result (option (list (string * value))) :=
  if decide (features = []) then Ok None else Some <$> normalize_runtime_features (Some features).

Definition stored_feature (d : D) (features : list (string * value)) (feature : string) : list (string * value) :=
  let v := drv_get d (runtime_feature_state_key feature) in
  if is_none v then features else dict_set feature v features.

Definition _explicit_features_from_driver (driver : option D) : result (option (list (string * value))) :=
  match driver with
  | None => Ok None
  | Some d => normalize_explicit (foldl (stored_feature d) [] (dict_keys DEFAULT_CHAIN_RUNTIME_FEATURES))
  end.

Definition _abci_genesis_state (genesis : option value) : list value :=
  match genesis with
  | Some (VDict g) =>
    match py_get "abci_genesis" g (VDict g) with
    | VDict a => match py_get "genesis" a VNone with VList l => l | _ => [] end
    | _ => []
    end
  | _ => []
  end.

Definition genesis_feature (features : list (string * value)) (entry : value) : list (string * value) :=
  match entry with
  | VDict e =>
    match py_get "key" e VNone with
    | VStr key => foldl (λ features feature,
                    if decide (key = runtime_feature_state_key feature)
                    then dict_set feature (py_get "value" e VNone) features else features)
                  features (dict_keys DEFAULT_CHAIN_RUNTIME_FEATURES)
    | _ => features
    end
  | _ => features
  end.

Definition _explicit_features_from_genesis (genesis : option value) : result (option (list (string * value))) :=
  normalize_explicit (foldl genesis_feature [] (_abci_genesis_state genesis)).

Definition resolve_runtime_features (driver : option D) (genesis : option value) : result RuntimeFeatureResolution :=
  explicit ← _explicit_features_from_driver driver;
  '(explicit, source) ← match explicit with
                        | Some f => Ok (Some f, "state")
                        | None => f ← _explicit_features_from_genesis genesis; Ok (f, "genesis")
                        end;
  match explicit with
  | None => f ← normalize_runtime_features (Some DEFAULT_CHAIN_RUNTIME_FEATURES); Ok (Resolution f "default")
  | Some f => f ← normalize_runtime_features (Some f); Ok (Resolution f source)
  end.

Definition genesis_runtime_feature_entries (features : option (list (string * value)))
  : result (list (string * value)) :=
  resolved ← normalize_runtime_features features;
  Ok ((λ kv, (runtime_feature_state_key kv.1, kv.2)) <$> sort_by fst resolved).

(** ** Resolution finds the features it is given *)

Context `{!FeatureLaws D}.

(** The features [f] are what a store, or a list of genesis entries, says. *)
Definition says (lookup : string -> value) (f : list (string * value)) : Prop :=
  forall k v, dict_get k f = Some v -> lookup (runtime_feature_state_key k) = v.

Lemma normal_dict_keys m f : normalize_runtime_features m = Ok f -> NoDup (dict_keys f) /\ f <> [].
Proof.
  intros Hn. destruct (normalize_shape _ _ Hn) as [Hk _]. destruct defaults_known as [Hne Hnd]. rewrite Hk.
  split; [done|]. intros ->. destruct DEFAULT_CHAIN_RUNTIME_FEATURES; [done|discriminate Hk].
Qed.

Lemma normal_value m f k v : normalize_runtime_features m = Ok f -> dict_get k f = Some v -> exists b, v = VBool b.
Proof.
  intros Hn Hg. destruct (normalize_shape _ _ Hn) as [_ Hf]. rewrite Forall_forall in Hf.
  apply dict_get_Some_elem in Hg. exact (Hf _ Hg).
Qed.

(** Filling a dict key by key. *)
Lemma collect_features (f : list (string * value)) (step : list (string * value) -> string -> list (string * value)) ks acc :
  (forall acc k, k ∈ ks -> exists v, dict_get k f = Some v /\ step acc k = dict_set k v acc) ->
  NoDup ks -> (forall k, k ∈ ks -> k ∉ dict_keys acc) ->
  foldl step acc ks = acc ++ omap (λ k, (λ v, (k, v)) <$> dict_get k f) ks.
Proof.
  revert acc. induction ks as [|k ks IH]; intros acc Hs Hnd Hk; [by rewrite app_nil_r|].
  apply NoDup_cons in Hnd as [Hin Hnd]. cbn [foldl omap list_omap].
  destruct (Hs acc k) as (v & Hv & ->); [left|]. rewrite Hv. cbn [fmap option_fmap option_map].
  assert (Hset : dict_set k v acc = acc ++ [(k, v)]) by (apply dict_set_app, Hk; left).
  rewrite Hset, IH; [by rewrite <- (assoc_L (++))| |done|].
  - intros acc' q Hq. apply Hs. by right.
  - intros q Hq. unfold dict_keys. rewrite fmap_app. intros [Ha|Ha]%elem_of_app.
    + apply (Hk q); [by right|done].
    + apply list_elem_of_singleton in Ha as ->. done.
Qed.

Lemma features_by_key (f : list (string * value)) :
  NoDup (dict_keys f) -> omap (λ k, (λ v, (k, v)) <$> dict_get k f) (dict_keys f) = f.
Proof.
  intros Hnd. assert (Hall : forall l, l ⊆ f -> omap (λ k, (λ v, (k, v)) <$> dict_get k f) (dict_keys l) = l).
  { induction l as [|[k v] l IH]; intros Hl; [done|]. cbn [dict_keys fmap list_fmap omap list_omap fst].
    rewrite (dict_get_elem k v f Hnd) by (apply Hl; left). cbn. f_equal. apply IH. intros x Hx. apply Hl. by right. }
  by apply Hall.
Qed.

Lemma explicit_normal m f : normalize_runtime_features m = Ok f -> normalize_explicit f = Ok (Some f).
Proof.
  intros Hn. destruct (normal_dict_keys _ _ Hn) as [Hnd Hne]. unfold normalize_explicit.
  rewrite decide_False by done. by rewrite (normalize_normal m f f).
Qed.

Lemma features_from_driver m f (d : D) :
  normalize_runtime_features m = Ok f -> says (drv_get d) f -> _explicit_features_from_driver (Some d) = Ok (Some f).
Proof.
  intros Hn Hs. destruct (normal_dict_keys _ _ Hn) as [Hnd _]. destruct (normalize_shape _ _ Hn) as [Hk _].
  unfold _explicit_features_from_driver. rewrite <- Hk, (collect_features f).
  - rewrite (features_by_key f Hnd). by eapply explicit_normal.
  - intros acc k [[k' v] [-> Hin]]%list_elem_of_fmap. apply (dict_get_elem k' v f Hnd) in Hin. exists v. split; [done|].
    unfold stored_feature. cbn [fst]. rewrite (Hs _ _ Hin). by destruct (normal_value _ _ _ _ Hn Hin) as [b ->].
  - done.
  - intros k _. apply not_elem_of_nil.
Qed.

(** What the entries of a genesis file leave in the dict of features: the value of the entry
    with the feature's key. *)
Definition of_entries (entries : list (string * value)) (features : list (string * value)) : list (string * value) :=
  foldl genesis_feature features (entry_value <$> entries).

Lemma genesis_feature_entry k v features :
  genesis_feature features (entry_value (k, v)) =
    match list_find (λ feature, k = runtime_feature_state_key feature) (dict_keys DEFAULT_CHAIN_RUNTIME_FEATURES) with
    | Some (_, feature) => dict_set feature v features
    | None => features
    end.
Proof.
  unfold genesis_feature, entry_value. change (py_get "key" _ VNone) with (VStr k). change (py_get "value" _ VNone) with v.
  destruct defaults_known as [_ Hnd]. induction (dict_keys DEFAULT_CHAIN_RUNTIME_FEATURES) as [|x l IH] in features, Hnd |- *; [done|].
  apply NoDup_cons in Hnd as [Hx Hl]. cbn [foldl list_find].
  destruct (decide (k = runtime_feature_state_key x)) as [->|Hne].
  - cbn [fmap option_fmap option_map]. clear IH Hl. set (fs := dict_set x v features). clearbody fs.
    induction l as [|y l IH]; [done|]. apply not_elem_of_cons in Hx as [Hxy Hx]. cbn [foldl].
    rewrite decide_False; [by apply IH|]. by intros ?%(inj runtime_feature_state_key).
  - rewrite (IH features Hl). by destruct (list_find _ l) as [[]|].
Qed.

Lemma of_entries_get entries features k :
  NoDup (dict_keys entries) -> k ∈ dict_keys DEFAULT_CHAIN_RUNTIME_FEATURES ->
  dict_get k (of_entries entries features) =
    match dict_get (runtime_feature_state_key k) entries with Some v => Some v | None => dict_get k features end.
Proof.
  intros Hnd Hk. revert features. induction entries as [|[q v] entries IH]; intros features; [done|].
  apply NoDup_cons in Hnd as [Hq Hnd]. unfold of_entries. rewrite fmap_cons. cbn [foldl].
  change (dict_get k (of_entries entries (genesis_feature features (entry_value (q, v)))) =
    match dict_get (runtime_feature_state_key k) ((q, v) :: entries) with Some v => Some v | None => dict_get k features end).
  rewrite (IH Hnd), genesis_feature_entry. cbn [dict_get].
  destruct (decide (runtime_feature_state_key k = q)) as [<-|Hne].
  - rewrite (proj2 (dict_get_None (runtime_feature_state_key k) entries) Hq).
    destruct (list_find _ _) as [[i x]|] eqn:Ef.
    + apply list_find_Some in Ef as (_ & ->%(inj runtime_feature_state_key) & _). apply dict_get_set_eq.
    + apply list_find_None in Ef. rewrite Forall_forall in Ef. by destruct (Ef k Hk).
  - destruct (dict_get _ entries); [done|]. destruct (list_find _ _) as [[i x]|] eqn:Ef; [|done].
    apply list_find_Some in Ef as (_ & -> & _). apply dict_get_set_ne. by intros ->.
Qed.

Lemma of_entries_keys entries features :
  NoDup (dict_keys features) -> dict_keys features ⊆ dict_keys DEFAULT_CHAIN_RUNTIME_FEATURES ->
  NoDup (dict_keys (of_entries entries features)) /\
  dict_keys (of_entries entries features) ⊆ dict_keys DEFAULT_CHAIN_RUNTIME_FEATURES.
Proof.
  revert features. induction entries as [|[q v] entries IH]; intros features Hnd Hs; [done|].
  unfold of_entries. rewrite fmap_cons. cbn [foldl]. apply IH.
  - rewrite genesis_feature_entry. destruct (list_find _ _) as [[]|]; [by apply dict_set_nodup|done].
  - rewrite genesis_feature_entry. destruct (list_find _ _) as [[i x]|] eqn:Ef; [|done].
    intros k Hk. rewrite dict_keys_set in Hk. assert (Hin : k ∈ dict_keys features \/ k = x).
    { destruct (dict_mem x features); [by left|]. by apply elem_of_app in Hk as [?| ?%list_elem_of_singleton]; [left|right]. }
    destruct Hin as [Hin| ->]; [by apply Hs|].
    apply list_find_Some in Ef as (Hi & _). by eapply list_elem_of_lookup_2.
Qed.

Lemma features_from_entries m f entries :
  normalize_runtime_features m = Ok f -> NoDup (dict_keys entries) ->
  says (value_at entries) f -> normalize_explicit (of_entries entries []) = Ok (Some f).
Proof.
  intros Hn Hnd Hs. destruct (normalize_shape _ _ Hn) as [Hk _]. destruct (normal_dict_keys _ _ Hn) as [Hfd Hne].
  assert (Hget : forall k, dict_get k (of_entries entries []) = dict_get k f).
  { intros k. destruct (dict_get k f) as [v|] eqn:Ef.
    - rewrite of_entries_get; [|done|]. 2:{ rewrite <- Hk. apply dict_get_Some_elem in Ef. by apply (list_elem_of_fmap_2 fst) in Ef. }
      pose proof (Hs _ _ Ef) as Hv. unfold value_at in Hv. destruct (normal_value _ _ _ _ Hn Ef) as [b ->].
      destruct (dict_get _ entries); [by rewrite Hv|discriminate Hv].
    - apply dict_get_None. intros Hin. apply dict_get_None in Ef.
      destruct (of_entries_keys entries []) as [_ Hsub]; [constructor|apply list_subseteq_nil|]. apply Ef. rewrite Hk. by apply Hsub. }
  destruct (of_entries_keys entries []) as [Hod Hsub]; [constructor|apply list_subseteq_nil|].
  unfold normalize_explicit. rewrite decide_False.
  - rewrite (normalize_normal m f); [done|done| |done]. apply NoDup_Permutation; [done..|].
    intros k. assert (Hd : forall d : list (string * value), k ∈ dict_keys d <-> dict_get k d <> None).
    { intros d. rewrite dict_get_None. destruct (decide (k ∈ dict_keys d)); tauto. }
    by rewrite !Hd, Hget.
  - intros Hnil. apply Hne. destruct f as [|[k v] f]; [done|]. specialize (Hget k). rewrite Hnil in Hget. cbn in Hget.
    by rewrite decide_True in Hget.
Qed.

(** A state that records the features decides, whatever the genesis file says. *)
Lemma resolve_from_state m f (d : D) genesis :
  normalize_runtime_features m = Ok f -> says (drv_get d) f ->
  resolve_runtime_features (Some d) genesis = Ok (Resolution f "state").
Proof.
  intros Hn Hs. unfold resolve_runtime_features. rewrite (features_from_driver m f d Hn Hs). bind_step.
  by rewrite (normalize_normal m f f).
Qed.

(** Without a state the genesis file decides. *)
Lemma resolve_from_genesis m f (d : D) g entries :
  normalize_runtime_features m = Ok f -> _explicit_features_from_driver (Some d) = Ok None ->
  _abci_genesis_state (Some g) = entry_value <$> entries -> NoDup (dict_keys entries) -> says (value_at entries) f ->
  resolve_runtime_features (Some d) (Some g) = Ok (Resolution f "genesis").
Proof.
  intros Hn Hd Hg Hnd Hs. unfold resolve_runtime_features. rewrite Hd. bind_step.
  unfold _explicit_features_from_genesis. rewrite Hg. fold (of_entries entries []).
  rewrite (features_from_entries m f entries Hn Hnd Hs). bind_step. by rewrite (normalize_normal m f f).
Qed.
End RuntimeFeatures.

(** ** One feature over the in-memory driver *)

#[global] Instance toy_features : FeatureOps mem_driver := {|
  DEFAULT_CHAIN_RUNTIME_FEATURES := [("zk", VBool false)];
  normalize_runtime_features m :=
    match py_get "zk" (default [] m) (VBool false) with
    | VBool b => Ok [("zk", VBool b)]
    | _ => raise ValueError "runtime feature must be a bool"
    end;
  runtime_feature_state_key k := "features." +:+ k;
  set_driver_runtime_features d f := (f, d);
|}.

#[global] Instance toy_feature_laws : FeatureLaws mem_driver.
Proof.
  split; cbn.
  - split; [done|apply NoDup_singleton].
  - intros m f Hm. destruct (py_get _ _ _); try done. injection Hm as <-. split; [done|]. repeat constructor. by eexists.
  - intros m f g Hm _ Hg. unfold py_get in *. destruct (dict_get "zk" (default [] m)) as [[]|]; try done; injection Hm as <-;
      specialize (Hg "zk"); cbn in Hg; by rewrite Hg.
  - intros x y Heq. by apply (inj (String.append "features.")) in Heq.
  - done.
  - done.
  - done.
Qed.
