(* ===== verification/Genesis.v ===== *)
(** * Building a genesis (src/src/xian/genesis_builder.py)

    The tool that deploys a bundle of contracts into an empty store and renders the result as
    the genesis file of a chain: its entries, their state root, the founder's signature and
    CometBFT's own fields.

    The storage driver is the state.  The compiler and the virtual machine are those of
    [Engine]; the driver's contract methods, the signing account, the directory of contract
    sources, and the parsing of ISO timestamps are parameters. *)

From S2P Require Import Prelude PyValue Json PyBuiltins Driver Encoding ExecutionPolicy StateRoot Nonce Block App StateExport Engine RuntimeFeatures.

(** ** Templates *)

(** The pattern [%%(.*?)%%]: the text after the opening marks up to the next ones, within a line. *)
Fixpoint template_name (s : chars) : option chars :=
  match s with
  | [] => None
  | c :: r => if strip_chars (lit "%%") s then Some []
              else if decide (c = ascii_of_byte 10) then None
              else (c ::.) <$> template_name r
  end.

(** [TEMPLATE_ARG_PATTERN.search(value)] *)
Fixpoint template_search (s : chars) : option chars :=
  match s with
  | [] => None
  | _ :: r => match strip_chars (lit "%%") s with
              | Some rest => match template_name rest with Some n => Some n | None => template_search r end
              | None => template_search r
              end
  end.

(** [str.replace] of a non-empty text; [skip] characters of a match remain to be dropped. *)
Fixpoint replace_from (old new : chars) (skip : nat) (s : chars) : chars :=
  match s with
  | [] => []
  | c :: r =>
    match skip with
    | S k => replace_from old new k r
    | O => if strip_chars old s then new ++ replace_from old new (length old - 1) r
           else c :: replace_from old new 0 r
    end
  end.

Definition render_text (substitutions : list (string * string)) (s : string) : result string :=
  match template_search (str_chars s) with
  | None => Ok s
  | Some name =>
    match dict_get (String.string_of_list_ascii name) substitutions with
    | None => raise KeyError (String.string_of_list_ascii name)
    | Some replacement =>
      Ok (String.string_of_list_ascii
            (replace_from (lit "%%" ++ name ++ lit "%%") (str_chars replacement) 0 (str_chars s)))
    end
  end.

Fixpoint render_template_values (substitutions : list (string * string)) (v : value) : result value :=
  match v with
  | VStr s => VStr <$> render_text substitutions s
  | VList l =>
    items ← (fix go (l : list value) : result (list value) :=
               match l with
               | [] => Ok []
               | x :: l => y ← render_template_values substitutions x; ys ← go l; Ok (y :: ys)
               end) l;
    Ok (VList items)
  | VDict d =>
    items ← (fix go (d : list (string * value)) : result (list (string * value)) :=
               match d with
               | [] => Ok []
               | (k, x) :: d => y ← render_template_values substitutions x; ys ← go d; Ok ((k, y) :: ys)
               end) d;
    Ok (VDict items)
  | _ => Ok v
  end.

(** ** Base64 and keys *)

Definition b64_char (n : Z) : Ascii.ascii :=
  ascii_of_byte (if n <? 26 then 65 + n else if n <? 52 then 71 + n else if n <? 62 then n - 4
                 else if n =? 62 then 43 else 47).

Fixpoint b64encode (b : bytes) : chars :=
  match b with
  | [] => []
  | [x] => [b64_char (Z.shiftr x 2); b64_char (Z.shiftl (Z.land x 3) 4)] ++ lit "=="
  | [x; y] => [b64_char (Z.shiftr x 2); b64_char (Z.lor (Z.shiftl (Z.land x 3) 4) (Z.shiftr y 4));
               b64_char (Z.shiftl (Z.land y 15) 2)] ++ lit "="
  | x :: y :: z :: r =>
    [b64_char (Z.shiftr x 2); b64_char (Z.lor (Z.shiftl (Z.land x 3) 4) (Z.shiftr y 4));
     b64_char (Z.lor (Z.shiftl (Z.land y 15) 2) (Z.shiftr z 6)); b64_char (Z.land z 63)] ++ b64encode r
  end.

(** [.hex().upper()] *)
Definition upper_hex (b : bytes) : string := py_upper (bytes_hex b).

Definition DEFAULT_CONSENSUS_PARAMS : value :=
  VDict [("block", VDict [("max_bytes", VStr "22020096"); ("max_gas", VStr "-1"); ("time_iota_ms", VStr "1000")]);
         ("evidence", VDict [("max_age_num_blocks", VStr "100000"); ("max_age_duration", VStr "172800000000000");
                             ("max_bytes", VStr "1048576")]);
         ("validator", VDict [("pub_key_types", VList [VStr "ed25519"])]); ("version", VDict [])].

Definition DEFAULT_PRESET_GENESIS_PRIVATE_KEY : string :=
  "1111111111111111111111111111111111111111111111111111111111111111".

Section Genesis.
Context {D : Type} `{DriverOps D} `{PyArith} `{!Runtime D} `{!FeatureOps D}.
Context (sha256 : bytes -> bytes) (py_str : value -> string) (float_trunc : string -> result Z).
(** [driver.set_contract(name, source, vm_ir_json, timestamp)] and [driver.has_contract(name)] *)
Context (set_contract : D -> string -> value -> value -> value -> D) (has_contract : D -> string -> bool).
(** [Ed25519Account(key).public_key], [.sign_msg(text)], and the runtime's [encode] *)
Context (public_key : string -> result string) (sign_msg : string -> string -> string)
        (encode : value -> result string).
(** What [build_vm_runtime] finds, and the source of the submission contract *)
Context (runtime_info : list (string * value)) (supports_execution_policy : string -> string -> bool)
        (submission_source : string).
(** [json.load] of [contracts_<network>.json] and the text of a contract file *)
Context (load_contract_bundle_config : string -> result value) (read_text : string -> result string).
(** [normalize_genesis_time] and [parse_genesis_time] *)
Context (normalize_genesis_time : option string -> result string) (parse_genesis_time : option string -> result value).

Definition hash_state_changes (state_changes : list (string * value)) : result string :=
  text ← encode (VList (entry_value <$> sort_by fst state_changes)); Ok (sha3_256_hex text).

Definition _stage_native_submission_contract (submission_time : value) : stM D unit :=
  artifacts ← lift_res (build_contract_artifacts "submission" (VStr submission_source));
  modify_st (λ d, set_contract d "submission" artifacts.1 artifacts.2 submission_time).

Definition _deploy_native_genesis_contract (contract_name source : string) (owner : value)
    (constructor_args : value) (submission_time : value) : stM D unit :=
  output ← execute_vm_contract float_trunc
             (VmArgs "sys" "submission" "submit_contract"
                (VDict [("name", VStr contract_name); ("code", VStr source); ("owner", owner);
                        ("constructor_args", py_or constructor_args (VDict []))])
                [("now", submission_time)] false (VInt 0) 0);
  if negb (status_code output =? 0) then raise_st ValueError ("Failed to deploy genesis contract " +:+ contract_name)
  else modify_st (λ d, drv_apply_writes d (vm_writes output)).

Definition _find_validators_contract (contract_config : value) : result value :=
  contracts ← (v ← py_item "contracts" contract_config; py_iter v);
  found ← foldM_py (λ found contract, match found with
                                      | Some _ => Ok found
                                      | None => name ← py_dot_get contract "name" VNone;
                                                Ok (if decide (name = VStr "validators") then Some contract else None)
                                      end) None contracts;
  match found with
  | Some contract => Ok contract
  | None => raise ValueError "contract bundle does not define validators seed data"
  end.

Definition _genesis_contract_name (contract : value) (substitutions : list (string * string)) : result value :=
  name ← (v ← py_item "name" contract; render_template_values substitutions v);
  submit_as ← py_dot_get contract "submit_as" VNone;
  if is_none submit_as then Ok name else render_template_values substitutions submit_as.

(** The arguments of the constructor, with what the caller overrides. *)
Definition constructor_arguments (constructor_args : value) (override_args : value) : result value :=
  if negb (truthy override_args) then Ok constructor_args
  else
    args ← match constructor_args with
           | VNone => Ok [] | VDict args => Ok args
           | _ => raise AttributeError "update" end;
    overrides ← match override_args with VDict o => Ok o | _ => raise TypeError "not a mapping" end;
    Ok (VDict (dict_update args overrides)).

Definition override_for (constructor_overrides : option (list (string * value))) (contract_name : string)
    (contract : value) : result value :=
  match constructor_overrides with
  | None => Ok VNone
  | Some o =>
    let v := py_get contract_name o VNone in
    if truthy v then Ok v
    else name ← (v ← py_item "name" contract; as_str v); Ok (py_get name o VNone)
  end.

Definition deploy_contract (substitutions : list (string * string)) (extension : string)
    (constructor_overrides : option (list (string * value))) (submission_time : value) (contract : value) : stM D unit :=
  contract_name ← lift_res (v ← _genesis_contract_name contract substitutions; as_str v);
  code ← lift_res (file ← (v ← py_item "name" contract; v ← render_template_values substitutions v; as_str v);
                   read_text (file +:+ extension));
  owner ← lift_res (v ← py_dot_get contract "owner" VNone; render_template_values substitutions v);
  args ← lift_res (v ← py_dot_get contract "constructor_args" VNone; render_template_values substitutions v);
  override_args ← lift_res (override_for constructor_overrides contract_name contract);
  args ← lift_res (constructor_arguments args override_args);
  d ← get_st;
  if has_contract d contract_name then mret tt
  else _deploy_native_genesis_contract contract_name code owner args submission_time.

Definition deploy_bundle_contracts (founder_private_key network : string)
    (constructor_overrides : option (list (string * value))) (runtime_features : option (list (string * value)))
    (submission_time : option value) : stM D unit :=
  features ← lift_res (normalize_runtime_features runtime_features);
  _ ← modify_st (λ d, (install_driver_runtime_features d (Resolution features "genesis_builder")).2);
  _ ← lift_res (build_vm_runtime runtime_info supports_execution_policy);
  submission_time ← lift_res (match submission_time with Some t => Ok t | None => parse_genesis_time None end);
  _ ← _stage_native_submission_contract submission_time;
  contract_config ← lift_res (load_contract_bundle_config network);
  founder ← lift_res (public_key founder_private_key);
  let substitutions := [("founder_privkey", founder_private_key); ("founder_private_key", founder_private_key);
                        ("founder_public_key", founder)] in
  extension ← lift_res (v ← py_item "extension" contract_config; as_str v);
  contracts ← lift_res (v ← py_item "contracts" contract_config; py_iter v);
  _ ← forM_st contracts (deploy_contract substitutions extension constructor_overrides submission_time);
  entries ← lift_res (genesis_runtime_feature_entries (Some features));
  forM_st entries (λ e, modify_st (λ d, drv_set d e.1 e.2)).

Definition origin_of (founder_private_key : option string) (entries : list (string * value)) : result (string * string) :=
  match founder_private_key with
  | Some key =>
    if decide (key = "") then Ok ("", "")
    else sender ← public_key key; text ← hash_state_changes entries; Ok (sign_msg key text, sender)
  | None => Ok ("", "")
  end.

(** The dict of a genesis block. *)
Definition genesis_block (hash : string) (number : string) (entries : list (string * value)) (origin : string * string)
  : list (string * value) :=
  [("hash", VStr hash); ("number", VStr number); ("genesis", VList (entry_value <$> entries));
   ("origin", VDict [("signature", VStr origin.1); ("sender", VStr origin.2)])].

Definition finalize_genesis_block (commit_ok : bool) (founder_private_key : option string) (number : value)
  : stM D (list (string * value)) :=
  previous_policy ← gets_st (λ d, drv_get d EXECUTION_POLICY_KEY);
  _ ← lift_res (if is_none previous_policy then Ok tt else validate_execution_policy previous_policy);
  _ ← modify_st (λ d, drv_set d EXECUTION_POLICY_KEY (VDict current_execution_policy));
  _ ← drv_hard_apply commit_ok;
  _ ← modify_st drv_flush_cache;
  items ← gets_st drv_items;
  let entries := sort_by fst items in
  root ← lift_res (compute_driver_state_root sha256 items);
  origin ← lift_res (origin_of founder_private_key entries);
  mret (genesis_block (bytes_hex root) (to_str py_str number) entries origin).

Definition _build_genesis_block (commit_ok : bool) (founder_private_key network : string)
    (constructor_overrides runtime_features : option (list (string * value))) (genesis_time : option string)
  : stM D (list (string * value)) :=
  submission_time ← lift_res (parse_genesis_time genesis_time);
  _ ← deploy_bundle_contracts founder_private_key network constructor_overrides runtime_features (Some submission_time);
  finalize_genesis_block commit_ok (Some founder_private_key) (VStr "0").

(** [build_genesis_block] on the driver over its storage directory, a temporary one or not. *)
Definition build_genesis_block (commit_ok : bool) (founder_private_key network : string)
    (constructor_overrides runtime_features : option (list (string * value))) (genesis_time : option string) (d : D)
  : result (list (string * value)) :=
  (_build_genesis_block commit_ok founder_private_key network constructor_overrides runtime_features genesis_time d).1.

(** ** CometBFT's genesis *)

Definition build_validator_genesis_entry (priv_validator_key power : value) (name : value) : result value :=
  address ← py_item "address" priv_validator_key;
  pub_key ← py_item "pub_key" priv_validator_key;
  Ok (VDict [("address", address); ("pub_key", pub_key); ("power", VStr (to_str py_str power)); ("name", name)]).

Definition build_validator_genesis_entry_from_public_key (public_key_hex : value) (power : value) : result value :=
  key ← (s ← as_str public_key_hex; fromhex s);
  Ok (VDict [("address", VStr (upper_hex (take 20 (sha256 key))));
             ("pub_key", VDict [("type", VStr "tendermint/PubKeyEd25519");
                                ("value", VStr (String.string_of_list_ascii (b64encode key)))]);
             ("power", VStr (to_str py_str power)); ("name", VStr "")]).

Definition derive_genesis_validators_from_bundle (network : string) (validator_power : option value)
  : result (list value) :=
  contract_config ← load_contract_bundle_config network;
  validators_contract ← _find_validators_contract contract_config;
  args ← (v ← py_dot_get validators_contract "constructor_args" VNone; Ok (py_or v (VDict [])));
  genesis_nodes ← py_dot_get args "genesis_nodes" VNone;
  nodes ← match genesis_nodes with
          | VList ((_ :: _) as nodes) => Ok nodes
          | _ => raise ValueError "contract bundle validators seed data must define genesis_nodes" end;
  powers ← (v ← py_dot_get args "genesis_powers" VNone; Ok (py_or v (VDict [])));
  default_node_power ← py_dot_get args "default_node_power" (VInt 10);
  mapM_py (λ node,
    power ← match validator_power with
            | Some p => Ok p
            | None => k ← as_str node; py_dot_get powers k default_node_power end;
    build_validator_genesis_entry_from_public_key node power) nodes.

Definition build_cometbft_genesis (chain_id : string) (abci_genesis : list (string * value)) (validators : list value)
    (genesis_time : option string) : result (list (string * value)) :=
  time ← normalize_genesis_time genesis_time;
  Ok [("genesis_time", VStr time); ("chain_id", VStr chain_id);
      ("initial_height", VStr (to_str py_str (py_get "number" abci_genesis (VStr "0"))));
      ("consensus_params", DEFAULT_CONSENSUS_PARAMS); ("validators", VList validators);
      ("app_hash", VStr (to_str py_str (py_get "hash" abci_genesis (VStr "")))); ("abci_genesis", VDict abci_genesis)].

(** What the validators contract is constructed with. *)
Definition validator_overrides (seeded_validator_args : value) (validators : list value) (registration_fee : Z)
    (validator_constructor_overrides : list (string * value)) : result (list (string * value)) :=
  let account v := k ← py_item "account_public_key" v; as_str k in
  genesis_nodes ← mapM_py (py_item "account_public_key") validators;
  genesis_powers ← foldM_py (λ d v, k ← account v; power ← py_dot_get v "power" (VInt 10); Ok (dict_set k power d)) [] validators;
  genesis_reward_keys ← foldM_py (λ d v, k ← account v; r ← py_dot_get v "reward_key" VNone;
                                         Ok (dict_set k (py_or r (VStr k)) d)) [] validators;
  seeds_powers ← py_in "genesis_powers" seeded_validator_args;
  seeds_rewards ← py_in "genesis_reward_keys" seeded_validator_args;
  Ok (dict_update
        ([("genesis_nodes", VList genesis_nodes); ("genesis_registration_fee", VInt registration_fee)]
         ++ (if (seeds_powers : bool) then [("genesis_powers", VDict genesis_powers)] else [])
         ++ (if (seeds_rewards : bool) then [("genesis_reward_keys", VDict genesis_reward_keys)] else []))
        validator_constructor_overrides).

Definition build_local_network_genesis (commit_ok : bool) (chain_id founder_private_key : string) (validators : list value)
    (network : string) (registration_fee : Z) (runtime_features : option (list (string * value)))
    (validator_constructor_overrides : list (string * value)) (genesis_time : option string) (d : D)
  : result (list (string * value)) :=
  _ ← check_py (negb (bool_decide (validators = []))) ValueError "at least one validator is required";
  time ← normalize_genesis_time genesis_time;
  contract_config ← load_contract_bundle_config network;
  validators_contract ← _find_validators_contract contract_config;
  seeded ← (v ← py_dot_get validators_contract "constructor_args" VNone; Ok (py_or v (VDict [])));
  founder ← public_key founder_private_key;
  overrides ← validator_overrides seeded validators registration_fee validator_constructor_overrides;
  abci_genesis ← build_genesis_block commit_ok founder_private_key network
    (Some [("currency", VDict [("vk", VStr founder)]); ("foundation", VDict [("vk", VStr founder)]);
           ("validators", VDict overrides)]) runtime_features (Some time) d;
  entries ← mapM_py (λ v, key ← py_item "priv_validator_key" v; power ← py_dot_get v "power" (VInt 10);
                          name ← py_dot_get v "name" (VStr ""); build_validator_genesis_entry key power name) validators;
  build_cometbft_genesis chain_id abci_genesis entries (Some time).

Definition build_single_validator_genesis (commit_ok : bool) (chain_id : string) (priv_validator_key : value)
    (founder_private_key network : string) (validator_name : string) (validator_power : value) (registration_fee : Z)
    (runtime_features : option (list (string * value))) (genesis_time : option string) (d : D)
  : result (list (string * value)) :=
  founder ← public_key founder_private_key;
  build_local_network_genesis commit_ok chain_id founder_private_key
    [VDict [("account_public_key", VStr founder); ("name", VStr validator_name); ("power", validator_power);
            ("priv_validator_key", priv_validator_key)]]
    network registration_fee runtime_features [] genesis_time d.

Definition build_bundle_network_genesis (commit_ok : bool) (chain_id network : string) (genesis_time : option string)
    (runtime_features : option (list (string * value))) (d : D) : result (list (string * value)) :=
  time ← normalize_genesis_time genesis_time;
  abci_genesis ← build_genesis_block commit_ok DEFAULT_PRESET_GENESIS_PRIVATE_KEY network None runtime_features (Some time) d;
  let abci_genesis := dict_set "origin" (VDict [("sender", VStr ""); ("signature", VStr "")]) abci_genesis in
  validators ← derive_genesis_validators_from_bundle network None;
  build_cometbft_genesis chain_id abci_genesis validators (Some time).

Definition write_genesis_block (genesis_block : list (string * value)) : result string := encode_wire (VDict genesis_block).

(** [update_cometbft_genesis]: from the text of the file to its new text. *)
Definition update_cometbft_genesis (file : string) (abci_genesis : list (string * value)) : result string :=
  g ← (v ← loads file; match v with VDict g => Ok g | _ => raise TypeError "not a mapping" end);
  number ← py_item "number" (VDict abci_genesis);
  encode_wire (VDict (dict_set "app_hash" (VStr (to_str py_str (py_get "hash" abci_genesis (VStr ""))))
                        (dict_set "initial_height" (VStr (to_str py_str number))
                           (dict_set "abci_genesis" (VDict abci_genesis) g)))).

(** ** What is read back from a genesis file

    [encode_wire] writes a value as JSON: lists and dicts as they are, everything else as
    [leaf] says (a [str] and a [bool] stand for themselves). *)

Context (leaf : value -> value).

Fixpoint wire_form (v : value) : value :=
  match v with
  | VList l => VList ((fix go (l : list value) := match l with [] => [] | x :: l => wire_form x :: go l end) l)
  | VDict d => VDict ((fix go (d : list (string * value)) :=
                         match d with [] => [] | (k, x) :: d => (k, wire_form x) :: go d end) d)
  | _ => leaf v
  end.

Lemma wire_list l : wire_form (VList l) = VList (wire_form <$> l).
Proof. reflexivity. Qed.
Lemma wire_dict d : wire_form (VDict d) = VDict ((λ kv, (kv.1, wire_form kv.2)) <$> d).
Proof. cbn [wire_form]. f_equal. induction d as [|[k x] d IH]; [done|]. by rewrite fmap_cons, <- IH. Qed.

Definition wired (kv : string * value) : string * value := (kv.1, wire_form kv.2).

Lemma wired_keys l : dict_keys (wired <$> l) = dict_keys l.
Proof. unfold dict_keys. rewrite <- list_fmap_compose. by apply list_fmap_ext. Qed.

Lemma wired_value l k v : NoDup (dict_keys l) -> (k, v) ∈ l -> value_at (wired <$> l) k = wire_form v.
Proof.
  intros Hnd Hin. unfold value_at. rewrite (dict_get_elem k (wire_form v)); [done|by rewrite wired_keys|].
  by apply (list_elem_of_fmap_2 wired) in Hin.
Qed.

Context `{!DriverLaws D}.
Context (leaf_str : forall s, leaf (VStr s) = VStr s) (leaf_bool : forall b, leaf (VBool b) = VBool b).

Lemma wire_entries l : wire_form (VList (entry_value <$> l)) = VList (entry_value <$> (wired <$> l)).
Proof.
  rewrite wire_list. f_equal. rewrite <- !list_fmap_compose. apply list_fmap_ext. intros i [k v] _.
  unfold compose, entry_value, wired. cbn [wire_form fst snd]. by rewrite leaf_str.
Qed.

(** The state part of the file, as InitChain finds it. *)
Definition wire_block (hash number : string) (entries : list (string * value)) (origin : string * string)
  : list (string * value) := genesis_block hash number (wired <$> entries) origin.

Lemma wire_genesis_block h n entries o :
  wire_form (VDict (genesis_block h n entries o)) = VDict (wire_block h n entries o).
Proof.
  rewrite wire_dict. unfold wire_block, genesis_block. rewrite !fmap_cons, fmap_nil. cbn [fst snd].
  rewrite wire_entries. cbn [wire_form]. by rewrite !leaf_str.
Qed.

(** ** Loading the entries *)

Lemma foldl_set_pending (d : D) l :
  drv_pending_writes (foldl (λ d kv, drv_set d kv.1 kv.2) d l) = dict_update (drv_pending_writes d) l.
Proof.
  unfold dict_update. revert d. induction l as [|kv l IH]; intros d; [done|]. cbn [foldl].
  by rewrite IH, drv_set_pending.
Qed.
Lemma foldl_set_disk (d : D) l q :
  drv_value_from_disk (foldl (λ d kv, drv_set d kv.1 kv.2) d l) q = drv_value_from_disk d q.
Proof. revert d. induction l as [|kv l IH]; intros d; [done|]. cbn [foldl]. by rewrite IH, drv_set_disk. Qed.

Definition reads_back (v : value) : Prop := _convert_runtime_value convert_dict (wire_form v) = Ok v.

Lemma load_entries l ns :
  Forall (λ kv, reads_back kv.2) l ->
  forM_st (entry_value <$> (wired <$> l)) (set_change convert_dict) ns =
    (Ok tt, MkNonceStorage (foldl (λ d kv, drv_set d kv.1 kv.2) (ns_driver ns) l) (pending_nonces ns) (clock_reads ns)).
Proof.
  intros Hl. revert ns. induction Hl as [|[k v] l Hv Hl IH]; intros ns; [by destruct ns|].
  rewrite !fmap_cons. cbn [forM_st]. rewrite (stM_bind_ok _ _ _ tt
    (MkNonceStorage (drv_set (ns_driver ns) k v) (pending_nonces ns) (clock_reads ns))); [cbv beta; by rewrite IH|].
  unfold set_change, entry_value, wired, mbind, stM_bind, lift_res. cbn [fst snd].
  change (py_item "value" (VDict [("key", VStr k); ("value", wire_form v)])) with (Ok (wire_form v)).
  change (py_item "key" (VDict [("key", VStr k); ("value", wire_form v)])) with (Ok (VStr k)).
  cbn [mbind result_bind]. unfold reads_back in Hv. cbn [snd] in Hv. by rewrite Hv.
Qed.

(** Storing a genesis block makes its entries, and nothing else, durable. *)
Lemma store_block h n entries o ns :
  (forall d : D, exists d', drv_hard_apply true d = (Ok tt, d')) ->
  drv_pending_writes (ns_driver ns) = [] -> (forall q, drv_value_from_disk (ns_driver ns) q = VNone) ->
  NoDup (dict_keys entries) -> Forall (λ kv, reads_back kv.2) entries ->
  exists ns', store_genesis_block convert_dict true (Some (wire_block h n entries o)) ns = (Ok tt, ns') /\
    drv_pending_writes (ns_driver ns') = [] /\ forall q, drv_value_from_disk (ns_driver ns') q = value_at entries q.
Proof.
  intros Hcommit Hp Hd Hnd Hback. unfold store_genesis_block, apply_state_changes_from_block.
  change (py_get "genesis" (wire_block h n entries o) (VList [])) with (VList (entry_value <$> (wired <$> entries))).
  change (py_get "nonces" (wire_block h n entries o) (VList [])) with (VList []).
  change (py_get "rewards" (wire_block h n entries o) (VList [])) with (VList []).
  unfold lift_res, mbind at 1, stM_bind. cbn [py_iter].
  rewrite (stM_bind_ok _ _ _ _ _ (load_entries entries ns Hback)).
  unfold mbind, stM_bind. cbn [forM_st]. unfold mret, stM_ret, hard_apply. cbn [ns_driver].
  match goal with |- context [drv_hard_apply true ?d] => set (d1 := d) end. destruct (Hcommit d1) as [d2 Hd2]. rewrite Hd2.
  eexists. split; [reflexivity|]. cbn [ns_driver]. destruct (drv_hard_apply_ok _ _ _ Hd2) as [Hp2 Hv2]. split; [done|].
  intros q. rewrite Hv2, drv_get_spec. unfold d1. rewrite foldl_set_pending, foldl_set_disk, Hp, Hd.
  rewrite dict_get_update by done. unfold value_at. by destruct (dict_get q entries).
Qed.

Lemma one_policy l v :
  NoDup (dict_keys l) -> (EXECUTION_POLICY_KEY, v) ∈ l ->
  omap (λ e, match e with
             | VDict d => if decide (py_get "key" d VNone = VStr EXECUTION_POLICY_KEY)
                          then Some (py_get "value" d VNone) else None
             | _ => None end) (entry_value <$> l) = [v].
Proof.
  induction l as [|[k w] l IH]; intros Hnd Hin; [by apply not_elem_of_nil in Hin|].
  apply NoDup_cons in Hnd as [Hk Hnd]. rewrite fmap_cons. unfold entry_value at 1. cbn [omap list_omap].
  change (py_get "key" [("key", VStr (k, w).1); ("value", (k, w).2)] VNone) with (VStr k).
  change (py_get "value" [("key", VStr (k, w).1); ("value", (k, w).2)] VNone) with w.
  apply elem_of_cons in Hin as [[= <- <-]|Hin].
  - rewrite decide_True by done. f_equal. clear IH Hnd.
    induction l as [|[k2 w2] l IH]; [done|]. apply not_elem_of_cons in Hk as [Hne Hk]. cbn [fst] in Hne.
    rewrite fmap_cons. unfold entry_value at 1. cbn [omap list_omap].
    change (py_get "key" [("key", VStr (k2, w2).1); ("value", (k2, w2).2)] VNone) with (VStr k2).
    rewrite decide_False; [by apply IH|congruence].
  - rewrite decide_False; [by apply IH|]. intros [= ->]. apply Hk. by apply (list_elem_of_fmap_2 fst) in Hin.
Qed.

Lemma wire_policy : wire_form (VDict current_execution_policy) = VDict current_execution_policy.
Proof. rewrite wire_dict. cbn. by rewrite !leaf_str. Qed.

Lemma wire_block_policy h n entries o :
  NoDup (dict_keys entries) -> (EXECUTION_POLICY_KEY, VDict current_execution_policy) ∈ entries ->
  validate_genesis_execution_policy (wire_block h n entries o) = Ok tt.
Proof.
  intros Hnd Hin. unfold validate_genesis_execution_policy.
  change (py_get "abci_genesis" (wire_block h n entries o) ?v) with v. cbv beta iota zeta.
  change (py_get "genesis" (wire_block h n entries o) (VList [])) with (VList (entry_value <$> (wired <$> entries))).
  cbn [py_iter mbind result_bind]. rewrite (one_policy _ (VDict current_execution_policy)).
  - reflexivity.
  - by rewrite wired_keys.
  - apply (list_elem_of_fmap_2 wired) in Hin. unfold wired at 1 in Hin. cbn [fst snd] in Hin. by rewrite wire_policy in Hin.
Qed.

(** Rebuilding an idle cache gives the root computed from scratch. *)
Lemma rebuild_idle items c root :
  _staged_old_leaf_hashes c = [] -> merkle_root_from_items sha256 items = Ok root ->
  exists c', rebuild sha256 items c = (Ok root, c').
Proof.
  intros Hst Hm. unfold merkle_root_from_items, new_cache in Hm. unfold rebuild in *. cbv zeta in *.
  rewrite (rollback_idle sha256 c Hst), Hst. rewrite (rollback_idle sha256 empty_cache eq_refl) in Hm.
  change (_staged_old_leaf_hashes empty_cache) with (@nil (string * option bytes)) in Hm.
  unfold mbind, stM_bind in *. destruct (forM_st items _ _) as [[[]|] c2]; [|done].
  cbn in Hm. unfold gets_st in *. injection Hm as <-. by eexists.
Qed.

(** ** The builder's store *)

Lemma finalize_inv key number d block d' :
  finalize_genesis_block true key number d = (Ok block, d') ->
  exists root origin,
    block = genesis_block (bytes_hex root) (to_str py_str number) (sort_by fst (drv_items d')) origin /\
    merkle_root_from_items sha256 (drv_items d') = Ok root /\ drv_pending_writes d' = [] /\
    forall q, drv_value_from_disk d' q =
      if decide (q = EXECUTION_POLICY_KEY) then VDict current_execution_policy else drv_get d q.
Proof.
  intros Hf. unfold finalize_genesis_block in Hf. stM_inv.
  unfold gets_st, lift_res, modify_st, mret, stM_ret in *. simplify_eq.
  eexists _, _. split_and!; [reflexivity|done|apply drv_flush_cache_pending|].
  intros q. rewrite drv_flush_cache_disk. destruct a2. rewrite (proj2 (drv_hard_apply_ok _ _ _ E2)).
  destruct (decide (q = EXECUTION_POLICY_KEY)) as [->|Hne]; [apply drv_get_set_eq|by apply drv_get_set_ne].
Qed.

(** The entries of the block are the durable items, sorted by key. *)
Lemma entries_nodup (d : D) : NoDup (dict_keys (sort_by fst (drv_items d))).
Proof. unfold dict_keys. rewrite sort_by_perm. apply drv_items_nodup. Qed.

Lemma entries_value (d : D) q :
  drv_pending_writes d = [] -> value_at (sort_by fst (drv_items d)) q = drv_value_from_disk d q.
Proof.
  intros Hp. rewrite (drv_items_spec d q Hp). unfold value_at.
  by rewrite (dict_get_Permutation (sort_by fst (drv_items d)) (drv_items d) q (entries_nodup d) (sort_by_perm _ _)).
Qed.

Lemma entries_elem (d : D) q v :
  drv_pending_writes d = [] -> drv_value_from_disk d q = v -> v <> VNone -> (q, v) ∈ sort_by fst (drv_items d).
Proof.
  intros Hp Hv Hne. rewrite <- (entries_value d q Hp) in Hv. unfold value_at in Hv.
  destruct (dict_get q _) eqn:Eq; [|congruence]. subst. by apply dict_get_Some_elem.
Qed.

Lemma wire_cometbft chain_id block validators time genesis h n entries o :
  build_cometbft_genesis chain_id block validators time = Ok genesis -> block = genesis_block h n entries o ->
  dict_get "app_hash" genesis = Some (VStr h) /\
  py_item "abci_genesis" (wire_form (VDict genesis)) = Ok (VDict (wire_block h n entries o)).
Proof.
  intros Hb ->. unfold build_cometbft_genesis in Hb. destruct (normalize_genesis_time time); [|done].
  cbn [mbind result_bind] in Hb. injection Hb as <-. split; [done|].
  rewrite wire_dict. rewrite <- wire_genesis_block. reflexivity.
Qed.

Lemma set_latest_block_total h n m :
  is_ok (_load_latest_block py_str float_trunc true m).1 = true ->
  exists m', set_latest_block py_str float_trunc true (Some h) (Some n) None m = (Ok tt, m').
Proof.
  intros Hm. unfold set_latest_block, mbind, stM_bind. destruct (_load_latest_block _ _ true m) as [[b|] m1]; [|done].
  unfold _write_latest_block_json. destruct m1 as [|[]]; by eexists.
Qed.

Lemma merkle_root_bytes items root :
  (forall x, Forall is_byte (sha256 x)) -> NoDup (dict_keys items) ->
  merkle_root_from_items sha256 items = Ok root -> fromhex (bytes_hex root) = Ok root.
Proof.
  intros Hsha Hnd Hroot. apply fromhex_bytes_hex. unfold merkle_root_from_items in Hroot.
  destruct (new_cache sha256 items) as [c|] eqn:Hc; [|done]. cbn in Hroot. injection Hroot as <-.
  apply root_hash_bytes; [done|]. apply (new_cache_tracks sha256 _ c Hnd Hc).
Qed.

(** Two stores with the same durable values have one root. *)
Lemma same_store_root (d1 d2 : D) root :
  drv_pending_writes d1 = [] -> drv_pending_writes d2 = [] ->
  (forall q, drv_value_from_disk d2 q = drv_value_from_disk d1 q) ->
  (forall c, new_cache sha256 (drv_items d1) = Ok c -> distinct_priorities sha256 (dict_keys (_leaf_hashes c))) ->
  merkle_root_from_items sha256 (drv_items d1) = Ok root -> merkle_root_from_items sha256 (drv_items d2) = Ok root.
Proof.
  intros Hp1 Hp2 Hsame Hprio Hroot. unfold merkle_root_from_items in Hroot.
  destruct (new_cache sha256 (drv_items d1)) as [c|] eqn:Hc; [|done]. cbn in Hroot. injection Hroot as <-.
  destruct (new_cache_tracks sha256 _ c (drv_items_nodup d1) Hc) as [Ht _].
  apply tracks_root; [|by apply Hprio]. eapply tracks_same_values; [done|apply drv_items_nodup|].
  intros q _. unfold value_at. by rewrite <- (drv_items_spec _ q Hp1), <- (drv_items_spec _ q Hp2).
Qed.

(** InitChain on a file whose state part is a block of the builder. *)
Lemma init_chain_block root number height entries o file a ns :
  py_item "abci_genesis" file = Ok (VDict (wire_block (bytes_hex root) number entries o)) ->
  NoDup (dict_keys entries) -> (EXECUTION_POLICY_KEY, VDict current_execution_policy) ∈ entries ->
  py_int float_trunc (VStr number) = Ok height -> fromhex (bytes_hex root) = Ok root ->
  store_genesis_block convert_dict true (Some (wire_block (bytes_hex root) number entries o))
    (nonce_storage (App.with_driver (drv_flush_full (raw_driver a)) a)) = (Ok tt, ns) ->
  merkle_root_from_items sha256 (drv_items (ns_driver ns)) = Ok root ->
  _staged_old_leaf_hashes (state_root_cache a) = [] ->
  is_ok (_load_latest_block py_str float_trunc true (latest_block_mirror a)).1 = true ->
  exists a', init_chain sha256 py_str float_trunc convert_dict true true file a = (Ok root, a') /\ raw_driver a' = ns_driver ns.
Proof.
  intros Hstate Hnd Hpol Hnum Hbytes Hst Hroot Hidle Hmirror.
  destruct (rebuild_idle (drv_items (ns_driver ns)) (state_root_cache a) root Hidle Hroot) as [c Hreb].
  destruct (set_latest_block_total root height (latest_block_mirror a) Hmirror) as [m Hm].
  exists (with_mirror m (with_cache c (with_nonces ns (App.with_driver (drv_flush_full (raw_driver a)) a)))). split; [|done].
  unfold init_chain, lift_res, gets_st, modify_st, mbind, stM_bind, on_nonces, on_cache, on_mirror.
  rewrite Hstate. cbn [result_bind]. rewrite (wire_block_policy _ _ entries o Hnd Hpol), Hst.
  unfold raw_driver. cbn [with_nonces nonce_storage state_root_cache App.with_driver]. rewrite Hreb.
  set (state := wire_block _ _ _ _).
  change (py_get "hash" state VNone) with (VStr (bytes_hex root)).
  change (py_get "number" state (VInt 0)) with (VStr number).
  assert (Hn : py_or (VStr number) (VInt 0) = VStr number).
  { unfold py_or. cbn [truthy]. destruct (decide (number = "")) as [He|Hne]; [|by rewrite bool_decide_eq_false_2].
    exfalso. rewrite He in Hnum. by vm_compute in Hnum. }
  rewrite Hn, Hnum. cbn [latest_block_mirror with_cache with_nonces App.with_driver]. rewrite Hm.
  destruct (truthy (VStr (bytes_hex root))); [|done]. cbn [as_str result_bind]. rewrite Hbytes. cbn [result_bind].
  unfold check_py. by rewrite bool_decide_eq_true_2.
Qed.

(** Claim C17. A genesis the tool builds starts the chain it describes: whatever was deployed into
    the builder's store, InitChain on the file the tool writes succeeds on any fresh node,
    answers with the root the file declares to CometBFT as its [app_hash], and makes durable
    exactly the builder's entries, the execution policy among them. *)
Theorem genesis_starts_chain key number height d block d' chain_id validators time genesis text a :
  (forall x, Forall is_byte (sha256 x)) -> (forall d : D, exists d', drv_hard_apply true d = (Ok tt, d')) ->
  finalize_genesis_block true key number d = (Ok block, d') ->
  py_int float_trunc (VStr (to_str py_str number)) = Ok height ->
  Forall (λ kv, reads_back kv.2) (drv_items d') ->
  (forall c, new_cache sha256 (drv_items d') = Ok c -> distinct_priorities sha256 (dict_keys (_leaf_hashes c))) ->
  build_cometbft_genesis chain_id block validators time = Ok genesis ->
  write_genesis_block genesis = Ok text -> loads text = Ok (wire_form (VDict genesis)) ->
  _staged_old_leaf_hashes (state_root_cache a) = [] ->
  is_ok (_load_latest_block py_str float_trunc true (latest_block_mirror a)).1 = true ->
  exists file root a', loads text = Ok file /\
    init_chain sha256 py_str float_trunc convert_dict true true file a = (Ok root, a') /\
    dict_get "app_hash" genesis = Some (VStr (bytes_hex root)) /\
    drv_value_from_disk d' EXECUTION_POLICY_KEY = VDict current_execution_policy /\
    forall q, drv_value_from_disk (raw_driver a') q = drv_value_from_disk d' q.
Proof.
  intros Hsha Hcommit Hf Hnum Hback Hprio Hb _ Htext Hidle Hmirror.
  destruct (finalize_inv _ _ _ _ _ Hf) as (root & o & Hblock & Hroot & Hp & Hdisk).
  destruct (wire_cometbft _ _ _ _ _ _ _ _ _ Hb Hblock) as [Happ Hstate].
  set (entries := sort_by fst (drv_items d')) in *.
  assert (Hpol : drv_value_from_disk d' EXECUTION_POLICY_KEY = VDict current_execution_policy)
    by (rewrite Hdisk; by rewrite decide_True).
  destruct (store_block (bytes_hex root) (to_str py_str number) entries o
              (nonce_storage (App.with_driver (drv_flush_full (raw_driver a)) a))) as (ns & Hst & Hnp & Hnv);
    [done|apply drv_flush_full_pending|apply drv_flush_full_disk|apply entries_nodup|unfold entries; by rewrite sort_by_perm|].
  assert (Hsame : forall q, drv_value_from_disk (ns_driver ns) q = drv_value_from_disk d' q)
    by (intros q; rewrite Hnv; by apply entries_value).
  destruct (init_chain_block root (to_str py_str number) height entries o (wire_form (VDict genesis)) a ns) as (a' & Hi & Hd);
    [done|apply entries_nodup|by apply entries_elem|done|by eapply merkle_root_bytes, Hroot; [|apply drv_items_nodup]
    |done|by eapply same_store_root; [..|exact Hroot]|done..|].
  exists (wire_form (VDict genesis)), root, a'. split_and!; [done..|]. intros q. by rewrite Hd.
Qed.

(** ** Runtime features *)

Context `{!FeatureLaws D}.

Lemma feature_key_not_policy k : runtime_feature_state_key k <> EXECUTION_POLICY_KEY.
Proof. intros Heq. pose proof (feature_key_contract k) as Hk. by rewrite Heq in Hk. Qed.

Lemma deploy_features key network overrides features time d d' :
  deploy_bundle_contracts key network overrides features time d = (Ok tt, d') ->
  exists f, normalize_runtime_features features = Ok f /\ says (drv_get d') f.
Proof.
  intros Hd. unfold deploy_bundle_contracts in Hd. stM_inv. unfold lift_res in E. injection E as Hf _.
  exists a. split; [done|]. unfold lift_res in E9. injection E9 as He _.
  unfold genesis_runtime_feature_entries in He.
  rewrite (normalize_normal features a a Hf) in He by done. cbn [mbind result_bind] in He. injection He as <-.
  rewrite (forM_st_total _ _ (λ d e, drv_set d e.1 e.2)) in Hd by done. injection Hd as <-.
  destruct (normal_dict_keys _ _ Hf) as [Hnd _]. intros k v Hk. rewrite drv_get_spec, foldl_set_pending, dict_get_update; cycle 1.
  { unfold dict_keys. rewrite <- list_fmap_compose. change (NoDup ((runtime_feature_state_key ∘ fst) <$> sort_by fst a)).
    rewrite (list_fmap_compose fst), sort_by_perm. by apply NoDup_fmap_2; [apply feature_key_inj|]. }
  rewrite (dict_get_elem (runtime_feature_state_key k) v); [done| |].
  - unfold dict_keys. rewrite <- list_fmap_compose. change (NoDup ((runtime_feature_state_key ∘ fst) <$> sort_by fst a)).
    rewrite (list_fmap_compose fst), sort_by_perm. by apply NoDup_fmap_2; [apply feature_key_inj|].
  - apply (list_elem_of_fmap_2' (λ kv, (runtime_feature_state_key kv.1, kv.2)) _ (k, v)); [|done].
    rewrite sort_by_perm. by apply dict_get_Some_elem.
Qed.

(** The node runs with the runtime features the genesis was built with: a fresh node
    resolves them from the genesis file, and a node whose store holds the state InitChain
    makes durable resolves the same ones from its state, whatever file it is given. *)
Theorem genesis_features_agree key network overrides features time d0 d number block d' chain_id validators gtime genesis :
  deploy_bundle_contracts key network overrides features time d0 = (Ok tt, d) ->
  finalize_genesis_block true (Some key) number d = (Ok block, d') ->
  build_cometbft_genesis chain_id block validators gtime = Ok genesis ->
  exists f, normalize_runtime_features features = Ok f /\
    (forall fresh : D, (forall k, drv_get fresh (runtime_feature_state_key k) = VNone) ->
       resolve_runtime_features (Some fresh) (Some (wire_form (VDict genesis))) = Ok (Resolution f "genesis")) /\
    (forall (started : D) file, drv_pending_writes started = [] ->
       (forall q, drv_value_from_disk started q = drv_value_from_disk d' q) ->
       resolve_runtime_features (Some started) file = Ok (Resolution f "state")).
Proof.
  intros Hd Hf Hb. destruct (deploy_features _ _ _ _ _ _ _ Hd) as (f & Hn & Hs).
  destruct (finalize_inv _ _ _ _ _ Hf) as (root & o & Hblock & _ & Hp & Hdisk).
  destruct (wire_cometbft _ _ _ _ _ _ _ _ _ Hb Hblock) as [_ Hstate].
  assert (Hsd : says (drv_value_from_disk d') f).
  { intros k v Hk. rewrite Hdisk, decide_False by apply feature_key_not_policy. by apply Hs. }
  exists f. split_and!; [done| |].
  - intros fresh Hfresh. apply (resolve_from_genesis features f fresh _ (wired <$> sort_by fst (drv_items d'))); [done| | | |].
    + unfold _explicit_features_from_driver. assert (Hnil : forall ks, foldl (stored_feature fresh) [] ks = []).
      { induction ks as [|k ks IH]; [done|]. cbn [foldl]. unfold stored_feature at 2. by rewrite Hfresh. }
      by rewrite Hnil.
    + unfold _abci_genesis_state. rewrite wire_dict in *. unfold py_item in Hstate. unfold py_get.
      destruct (dict_get "abci_genesis" _); [|done]. injection Hstate as ->. reflexivity.
    + rewrite wired_keys. apply entries_nodup.
    + intros k v Hk. destruct (normal_value _ _ _ _ Hn Hk) as [b ->].
      rewrite (wired_value _ _ (VBool b)); [apply leaf_bool|apply entries_nodup|]. apply entries_elem; [done|by apply Hsd|done].
  - intros started file Hps Hsame. apply (resolve_from_state features); [done|].
    intros k v Hk. rewrite drv_get_spec, Hps, Hsame. by apply Hsd.
Qed.
End Genesis.

(** ** A bundle of one contract *)

Definition toy_bundle (network : string) : result value :=
  Ok (VDict [("extension", VStr ".s.py");
             ("contracts", VList [VDict [("name", VStr "currency"); ("owner", VNone);
                                         ("constructor_args", VDict [("vk", VStr "%%founder_public_key%%")])]])]).
Definition toy_set_contract (d : mem_driver) (name : string) (source ir timestamp : value) : mem_driver :=
  drv_set d (name +:+ ".__source__") source.
Definition toy_has_contract (d : mem_driver) (name : string) : bool := negb (is_none (drv_get d (name +:+ ".__source__"))).
Definition toy_public_key (key : string) : result string := Ok ("pub-" +:+ key).
Definition toy_info : list (string * value) :=
  [("execution_revision", VStr VM_EXECUTION_REVISION); ("set_codec", VStr SET_CODEC); ("vm_profile", VStr VM_EXECUTION_MODE)].
Definition toy_time (t : option string) : result string := Ok (default "now" t).

Example rendered :
  render_template_values [("founder_public_key", "abc")] (VDict [("vk", VStr "<%%founder_public_key%%>"); ("n", VInt 1)])
    = Ok (VDict [("vk", VStr "<abc>"); ("n", VInt 1)]) /\
  render_template_values [] (VStr "%%x%%") = raise KeyError "x" /\
  String.string_of_list_ascii (b64encode (encode_utf8 "Xian!")) = "WGlhbiE=".
Proof. vm_compute. done. Qed.

#[local] Existing Instance int_arith.

Definition toy_deploy : stM mem_driver unit :=
  deploy_bundle_contracts sample_no_float toy_set_contract toy_has_contract toy_public_key toy_info (λ _ _, true)
    "def submit_contract(): ..." toy_bundle (λ f, Ok ("source of " +:+ f)) (λ _, Ok (VInt 0))
    "key" "local" None (Some [("zk", VBool true)]) (Some (VInt 0)).
Definition toy_deployed : mem_driver := (toy_deploy mem_empty).2.
Definition toy_finalize : stM mem_driver (list (string * value)) :=
  finalize_genesis_block toy_sha (λ _, "") toy_public_key (λ key text, key +:+ "-signed") (dumps true) true (Some "key") (VStr "0").
Definition toy_block : list (string * value) := ok_or [] (toy_finalize toy_deployed).1.
Definition toy_built : mem_driver := (toy_finalize toy_deployed).2.
Definition toy_genesis : list (string * value) :=
  ok_or [] (build_cometbft_genesis (λ _, "") toy_time "xian-1" toy_block [] None).
Definition toy_text : string := ok_or "" (write_genesis_block (D := mem_driver) toy_genesis).

Lemma genesis_starts_chain_witness :
  exists file root a', loads toy_text = Ok file /\
    init_chain toy_sha (λ _, "") sample_no_float convert_dict true true file sample_app = (Ok root, a') /\
    drv_value_from_disk (raw_driver a') "submission.__source__" = VStr "def submit_contract(): ...".
Proof.
  destruct (genesis_starts_chain (D := mem_driver) toy_sha (λ _, "") sample_no_float toy_public_key (λ key text, key +:+ "-signed")
    (dumps true) toy_time id (λ s, eq_refl) (Some "key") (VStr "0") 0 toy_deployed toy_block toy_built
    "xian-1" [] None toy_genesis toy_text sample_app) as (file & root & a' & Hl & Hi & _ & _ & Hv).
  - intros x. apply to_bytes_big_bytes.
  - intros d. by eexists.
  - vm_compute. reflexivity.
  - vm_compute. reflexivity.
  - assert (Hi : drv_items toy_built = ltac:(let l := eval vm_compute in (drv_items toy_built) in exact l)) by (vm_compute; reflexivity).
    rewrite Hi. repeat first [apply Forall_nil_2 | apply Forall_cons_2]; vm_compute; reflexivity.
  - intros c Hc. vm_compute in Hc. apply Ok_inj in Hc as <-. unfold distinct_priorities. nodup_by_compute.
  - vm_compute. reflexivity.
  - vm_compute. reflexivity.
  - vm_compute. reflexivity.
  - reflexivity.
  - vm_compute. reflexivity.
  - exists file, root, a'. split_and!; [exact Hl|exact Hi|]. rewrite Hv. vm_compute. reflexivity.
Defined.

Lemma genesis_features_agree_witness :
  resolve_runtime_features (Some mem_empty) (Some (wire_form id (VDict toy_genesis))) =
    Ok (Resolution [("zk", VBool true)] "genesis") /\
  resolve_runtime_features (Some toy_built) None = Ok (Resolution [("zk", VBool true)] "state").
Proof.
  destruct (genesis_features_agree (D := mem_driver) toy_sha (λ _, "") sample_no_float toy_set_contract toy_has_contract toy_public_key
    (λ key text, key +:+ "-signed") (dumps true) toy_info (λ _ _, true) "def submit_contract(): ..." toy_bundle
    (λ f, Ok ("source of " +:+ f)) toy_time (λ _, Ok (VInt 0)) id (λ s, eq_refl) (λ b, eq_refl)
    "key" "local" None (Some [("zk", VBool true)]) (Some (VInt 0)) mem_empty toy_deployed (VStr "0") toy_block toy_built
    "xian-1" [] None toy_genesis) as (f & Hn & Hg & Hs).
  - vm_compute. reflexivity.
  - vm_compute. reflexivity.
  - vm_compute. reflexivity.
  - vm_compute in Hn. apply Ok_inj in Hn as <-. split; [by apply Hg|]. apply Hs; [vm_compute; reflexivity|done].
Defined.
