(* ===== verification/StateSync.v ===== *)
(** * State sync (src/src/xian/services/state_sync.py)

    Snapshots of the exported state: the archives a node keeps and serves in chunks,
    and the session that assembles the chunks of an offered snapshot, checks the
    archive and imports it.

    The snapshot directory is the list of its manifests, by archive name, with the
    bytes of the archives; a manifest is identified with the record that is read back
    from it.  The tar format and the runtime's encoding of the exported state are the
    parameters [write_archive] and [read_archive]; the time of day is an argument. *)

From S2P Require Import Prelude PyValue Json PyBuiltins Driver Encoding ExecutionPolicy StateRoot Nonce Block App StateExport.

Definition SNAPSHOT_FORMAT_VERSION : Z := 2.
Definition DEFAULT_CHUNK_SIZE : Z := 4 * 1024 * 1024.

Definition _json_bytes (payload : value) : result bytes :=
  encode_utf8 <$> dumps true (sort_keys payload).

Record Snapshot := MkSnapshot {
  sn_height : Z; sn_format : Z; sn_chunks : Z; sn_hash : bytes; sn_metadata : bytes }.

Record SnapshotRecord := MkRecord {
  r_path : string; r_height : Z; r_format : Z; r_chunks : Z; r_app_hash_hex : string;
  r_snapshot_hash_hex : string; r_chunk_size : Z; r_metadata_bytes : bytes; r_created_at : string }.

Definition to_proto (r : SnapshotRecord) : result Snapshot :=
  h ← fromhex (r_snapshot_hash_hex r);
  Ok (MkSnapshot (r_height r) (r_format r) (r_chunks r) h (r_metadata_bytes r)).

(** The session; [archive] is the content of its file. *)
Record IncomingSnapshotSession := MkSession {
  expected_height : Z; expected_format : Z; expected_chunks : Z; expected_chunk_size : Z;
  expected_app_hash_hex : string; expected_snapshot_hash_hex : string;
  next_index : Z; archive : bytes }.

(** What an archive holds: its metadata, the exported state and the file it is in. *)
Record snapshot_content := MkContent {
  sc_metadata : value; sc_exported : list (string * value); sc_exported_file : bytes }.

Inductive offer_result := OFFER_ACCEPT | OFFER_REJECT | OFFER_REJECT_FORMAT.
Inductive apply_result := APPLY_ACCEPT | APPLY_RETRY | APPLY_RETRY_SNAPSHOT | APPLY_REJECT_SNAPSHOT.

#[global] Instance apply_result_eq_dec : EqDecision apply_result.
Proof. solve_decision. Defined.

Definition default_snapshot_output_path (height : Z) (app_hash now : string) : string :=
  let short_hash := if decide (app_hash = "") then "empty" else String.substring 0 12 app_hash in
  "xian-state-snapshot-h" +:+ py_int_str height +:+ "-" +:+ short_hash +:+ "-" +:+ now +:+ ".tar.gz".

(** [records.sort(key=lambda r: (r.height, r.created_at), reverse=True)]: stable. *)
Definition newer (r1 r2 : SnapshotRecord) : bool :=
  (r_height r2 <? r_height r1)
  || ((r_height r1 =? r_height r2) && bool_decide (str_lt (r_created_at r2) (r_created_at r1))).
Fixpoint insert_newest (r : SnapshotRecord) (l : list SnapshotRecord) : list SnapshotRecord :=
  match l with
  | [] => [r]
  | x :: l => if newer x r then x :: insert_newest r l else r :: x :: l
  end.
Definition newest_first (l : list SnapshotRecord) : list SnapshotRecord := foldr insert_newest [] l.

(** [v == n] for an [int] [n]. *)
Definition eq_int (float_eq : string -> Z -> bool) (v : value) (n : Z) : bool :=
  match v with
  | VInt z => z =? n
  | VBool b => (if b then 1 else 0) =? n
  | VFloat r => float_eq r n
  | _ => false
  end.

Section StateSync.
Context (sha256 : bytes -> bytes) (py_str : value -> string) (float_trunc : string -> result Z)
        (float_eq : string -> Z -> bool)
        (write_archive : value -> list (string * value) -> bytes)
        (read_archive : bytes -> result snapshot_content)
        (exported_file : list (string * value) -> bytes)
        (chain_id : string) (chunk_size : Z).
Context {D : Type} `{DriverOps D}.

Record StateSnapshotManager := Manager {
  mg_store : store (D := D);
  mg_manifests : list (string * SnapshotRecord);
  mg_archives : list (string * bytes);
  _incoming_session : option IncomingSnapshotSession }.

Definition _sha256_file (content : bytes) : string := bytes_hex (sha256 content).

Definition list_snapshot_records (m : StateSnapshotManager) : list SnapshotRecord :=
  newest_first (snd <$> filter (λ nr, is_Some (dict_get nr.1 (mg_archives m)))
                          (reverse (sort_by fst (mg_manifests m)))).

Definition list_snapshots_response (m : StateSnapshotManager) : result (list Snapshot) :=
  mapM_py to_proto (list_snapshot_records m).

Definition _cleanup_existing_height (height format_version : Z) (m : StateSnapshotManager)
  : StateSnapshotManager :=
  foldl (λ m r, if (r_height r =? height) && (r_format r =? format_version)
                then Manager (mg_store m) (dict_pop (r_path r) (mg_manifests m))
                             (dict_pop (r_path r) (mg_archives m)) (_incoming_session m)
                else m)
        m (list_snapshot_records m).

Definition offer_metadata (height : Z) (app_hash_hex exported_state_sha256 archive_sha256 : string) : value :=
  VDict [("snapshot_format_version", VInt SNAPSHOT_FORMAT_VERSION);
         ("execution_policy", VDict current_execution_policy);
         ("chain_id", VStr chain_id); ("height", VInt height); ("app_hash", VStr app_hash_hex);
         ("chunk_size", VInt chunk_size); ("archive_sha256", VStr archive_sha256);
         ("exported_state_sha256", VStr exported_state_sha256)].

Definition _build_offer_metadata (height : Z)
    (app_hash_hex exported_state_sha256 archive_sha256 : string) : result bytes :=
  _json_bytes (offer_metadata height app_hash_hex exported_state_sha256 archive_sha256).

(** [max(1, math.ceil(archive_size / chunk_size))]; the quotient is exact below
    [2 ** 53]. *)
Definition chunk_count (archive_size : Z) : Z := Z.max 1 (- (- archive_size / chunk_size)).

Definition _write_manifest (archive_name : string) (content : bytes) (height : Z)
    (app_hash_hex archive_sha256 exported_state_sha256 created_at : string)
  : stM StateSnapshotManager SnapshotRecord := λ m,
  match _build_offer_metadata height app_hash_hex exported_state_sha256 archive_sha256 with
  | Raise e => (Raise e, m)
  | Ok metadata =>
    let r := MkRecord archive_name height SNAPSHOT_FORMAT_VERSION
               (chunk_count (Z.of_nat (length content))) app_hash_hex archive_sha256 chunk_size
               metadata created_at in
    (Ok r, Manager (mg_store m) (dict_set archive_name r (mg_manifests m)) (mg_archives m)
                   (_incoming_session m))
  end.

(** ** Export and import of an archive *)

Definition export_snapshot (io_ok : bool) (contract_state run_state : list (string * value))
    (now created_at : string) : stM StateSnapshotManager SnapshotRecord := λ m,
  match build_exported_state sha256 py_str float_trunc io_ok None contract_state run_state
          None None None (st_mirror (mg_store m)) with
  | (Raise e, mir) => (Raise e, Manager (Store (st_driver (mg_store m)) mir) (mg_manifests m)
                                        (mg_archives m) (_incoming_session m))
  | (Ok exported, mir) =>
    let m := Manager (Store (st_driver (mg_store m)) mir) (mg_manifests m) (mg_archives m)
                     (_incoming_session m) in
    (height ← lift_res (v ← py_item "number" (VDict exported); py_int float_trunc v);
     app_hash ← lift_res (str_of py_str <$> py_item "hash" (VDict exported));
     _ ← modify_st (_cleanup_existing_height height SNAPSHOT_FORMAT_VERSION);
     let name := default_snapshot_output_path height app_hash now in
     m ← get_st;
     _ ← lift_res (check_py (negb (dict_mem name (mg_archives m))) FileExistsError
                     "snapshot already exists");
     let metadata := VDict [("snapshot_format_version", VInt SNAPSHOT_FORMAT_VERSION);
                            ("execution_policy", VDict current_execution_policy);
                            ("chain_id", VStr chain_id); ("height", VInt height);
                            ("app_hash", VStr app_hash); ("created_at", VStr created_at)] in
     let content := write_archive metadata exported in
     _ ← modify_st (λ m, Manager (mg_store m) (mg_manifests m)
                           (dict_set name content (mg_archives m)) (_incoming_session m));
     _write_manifest name content height app_hash (_sha256_file content)
       (_sha256_file (exported_file exported)) created_at) m
  end.

Definition import_checks (content : snapshot_content) : result (Z * string) :=
  policy ← py_dot_get (sc_metadata content) "execution_policy" VNone;
  _ ← validate_execution_policy policy;
  version ← (v ← py_item "snapshot_format_version" (sc_metadata content); py_int float_trunc v);
  _ ← check_py (version =? SNAPSHOT_FORMAT_VERSION) ValueError "unsupported snapshot format version";
  chain ← py_item "chain_id" (sc_metadata content);
  _ ← check_py (bool_decide (str_of py_str chain = chain_id)) ValueError "snapshot chain_id mismatch";
  mheight ← (v ← py_item "height" (sc_metadata content); py_int float_trunc v);
  number ← (v ← py_item "number" (VDict (sc_exported content)); py_int float_trunc v);
  _ ← check_py (mheight =? number) ValueError "snapshot height metadata mismatch";
  mhash ← py_item "app_hash" (sc_metadata content);
  ehash ← py_item "hash" (VDict (sc_exported content));
  _ ← check_py (bool_decide (str_of py_str mhash = str_of py_str ehash)) ValueError
        "snapshot app hash metadata mismatch";
  root ← compute_exported_state_root sha256 (sc_exported content);
  _ ← check_py (bool_decide (bytes_hex root = str_of py_str ehash)) ValueError "snapshot state root mismatch";
  Ok (number, str_of py_str ehash).

Definition on_store {A} (x : stM (store (D := D)) A) : stM StateSnapshotManager A := λ m,
  let '(r, s) := x (mg_store m) in (r, Manager s (mg_manifests m) (mg_archives m) (_incoming_session m)).

(** [import_snapshot_archive]: the result's [app_hash], which [**result] overwrites with
    the one [import_state] returns. *)
Definition import_snapshot_archive (commit_ok io_ok copy_ok : bool) (persisted : lmdb_state)
    (now created_at : string) (content : bytes) : stM StateSnapshotManager import_result :=
  c ← lift_res (read_archive content);
  '(height, app_hash) ← lift_res (import_checks c);
  result ← on_store (import_state sha256 float_trunc commit_ok io_ok persisted (sc_exported c));
  _ ← modify_st (_cleanup_existing_height height SNAPSHOT_FORMAT_VERSION);
  let name := default_snapshot_output_path height app_hash now in
  _ ← lift_res (check_py copy_ok OSError "copy failed");
  _ ← modify_st (λ m, Manager (mg_store m) (mg_manifests m)
                        (dict_set name content (mg_archives m)) (_incoming_session m));
  _ ← _write_manifest name content height app_hash (_sha256_file content)
        (_sha256_file (sc_exported_file c)) created_at;
  mret result.

(** ** The ABCI handlers *)

Definition with_session (s : option IncomingSnapshotSession) (m : StateSnapshotManager) : StateSnapshotManager :=
  Manager (mg_store m) (mg_manifests m) (mg_archives m) s.

Definition _reset_incoming_session (m : StateSnapshotManager) : StateSnapshotManager := with_session None m.

Definition offer_checks (req : Snapshot) (app_hash : bytes) : result Z :=
  metadata ← (text ← decode_utf8 (sn_metadata req); loads text);
  policy ← match metadata with
           | VDict d => Ok (py_get "execution_policy" d VNone)
           | _ => raise ValueError "snapshot metadata must be an object" end;
  _ ← validate_execution_policy policy;
  metadata_height ← (v ← py_dot_get metadata "height" (VInt (-1)); py_int float_trunc v);
  metadata_chunk_size ← (v ← py_dot_get metadata "chunk_size" (VInt 0); py_int float_trunc v);
  let field k := match metadata with VDict d => py_get k d VNone | _ => VNone end in
  _ ← check_py (eq_int float_eq (field "snapshot_format_version") SNAPSHOT_FORMAT_VERSION
                && bool_decide (field "chain_id" = VStr chain_id)
                && (metadata_height =? sn_height req)
                && negb ((metadata_chunk_size <=? 0) || (chunk_size <? metadata_chunk_size))
                && bool_decide (field "archive_sha256" = VStr (bytes_hex (sn_hash req)))
                && bool_decide (field "app_hash" = VStr (bytes_hex app_hash))) ValueError "rejected";
  Ok metadata_chunk_size.

Definition offer_snapshot_response (req : Snapshot) (app_hash : bytes) (current_height : Z)
    (m : StateSnapshotManager) : offer_result * StateSnapshotManager :=
  if negb (sn_format req =? SNAPSHOT_FORMAT_VERSION) then (OFFER_REJECT_FORMAT, m)
  else if (sn_height req <=? current_height) || (sn_chunks req <=? 0)
          || negb (Z.of_nat (length (sn_hash req)) =? 32) then (OFFER_REJECT, m)
  else match offer_checks req app_hash with
       | Raise _ => (OFFER_REJECT, m)
       | Ok size =>
         (OFFER_ACCEPT,
          with_session (Some (MkSession (sn_height req) (sn_format req) (sn_chunks req) size
                                (bytes_hex app_hash) (bytes_hex (sn_hash req)) 0 []))
            (_reset_incoming_session m))
       end.

Definition load_snapshot_chunk_response (height format_version chunk_index : Z)
    (m : StateSnapshotManager) : bytes :=
  match list_find (λ r, r_height r = height /\ r_format r = format_version) (list_snapshot_records m) with
  | None => []
  | Some (_, r) =>
    if (chunk_index <? 0) || (r_chunks r <=? chunk_index) then []
    else match dict_get (r_path r) (mg_archives m) with
         | None => []
         | Some content => take (Z.to_nat (r_chunk_size r))
                             (drop (Z.to_nat (chunk_index * r_chunk_size r)) content)
         end
  end.

(** What the last chunk triggers. *)
Definition finish_session (commit_ok io_ok copy_ok : bool) (persisted : lmdb_state)
    (now created_at : string) (session : IncomingSnapshotSession) : stM StateSnapshotManager unit :=
  _ ← lift_res (check_py (bool_decide (_sha256_file (archive session) = expected_snapshot_hash_hex session))
                  ValueError "snapshot archive hash mismatch");
  result ← import_snapshot_archive commit_ok io_ok copy_ok persisted now created_at (archive session);
  lift_res (check_py (bool_decide (ir_app_hash result = expected_app_hash_hex session))
              ValueError "snapshot app hash mismatch").

Definition apply_snapshot_chunk_response (commit_ok io_ok copy_ok : bool) (persisted : lmdb_state)
    (now created_at : string) (index : Z) (chunk : bytes) (m : StateSnapshotManager)
  : apply_result * StateSnapshotManager :=
  match _incoming_session m with
  | None => (APPLY_RETRY_SNAPSHOT, m)
  | Some session =>
    if negb (index =? next_index session) then (APPLY_RETRY, m)
    else if (index <? 0) || (expected_chunks session <=? index) then (APPLY_REJECT_SNAPSHOT, m)
    else if expected_chunk_size session <? Z.of_nat (length chunk) then
      (APPLY_REJECT_SNAPSHOT, _reset_incoming_session m)
    else
      let session := MkSession (expected_height session) (expected_format session)
                       (expected_chunks session) (expected_chunk_size session)
                       (expected_app_hash_hex session) (expected_snapshot_hash_hex session)
                       (next_index session + 1) (archive session ++ chunk) in
      let m := with_session (Some session) m in
      if next_index session <? expected_chunks session then (APPLY_ACCEPT, m)
      else match finish_session commit_ok io_ok copy_ok persisted now created_at session m with
           | (Raise _, m) => (APPLY_REJECT_SNAPSHOT, _reset_incoming_session m)
           | (Ok _, m) => (APPLY_ACCEPT, _reset_incoming_session m)
           end
  end.

(** A run of chunks, as CometBFT applies them. *)
Fixpoint apply_chunks (commit_ok io_ok copy_ok : bool) (persisted : lmdb_state) (now created_at : string)
    (index : Z) (chunks : list bytes) (m : StateSnapshotManager) : list apply_result * StateSnapshotManager :=
  match chunks with
  | [] => ([], m)
  | chunk :: chunks =>
    let '(r, m) := apply_snapshot_chunk_response commit_ok io_ok copy_ok persisted now created_at index chunk m in
    let '(rs, m) := apply_chunks commit_ok io_ok copy_ok persisted now created_at (index + 1) chunks m in
    (r :: rs, m)
  end.

(** ** Assembling the archive *)

Lemma chunks_concat (cs : nat) (a : bytes) n :
  concat ((λ i, take cs (drop (i * cs) a)) <$> seq 0 n) = take (n * cs) a.
Proof.
  induction n as [|n IH]; [done|]. rewrite seq_S, fmap_app, concat_app, IH. csimpl.
  rewrite app_nil_r, take_take_drop. f_equal. lia.
Qed.

Lemma chunk_count_covers size : 0 < chunk_size -> 0 <= size -> size <= chunk_count size * chunk_size.
Proof.
  intros Hc Hs. unfold chunk_count.
  pose proof (Z.div_mod (- size) chunk_size). pose proof (Z.mod_pos_bound (- size) chunk_size). nia.
Qed.

Definition add_chunks (s : IncomingSnapshotSession) (chunks : list bytes) : IncomingSnapshotSession :=
  MkSession (expected_height s) (expected_format s) (expected_chunks s) (expected_chunk_size s)
    (expected_app_hash_hex s) (expected_snapshot_hash_hex s)
    (next_index s + Z.of_nat (length chunks)) (archive s ++ concat chunks).

Lemma add_chunk s c :
  add_chunks s [c] = MkSession (expected_height s) (expected_format s) (expected_chunks s)
    (expected_chunk_size s) (expected_app_hash_hex s) (expected_snapshot_hash_hex s) (next_index s + 1)
    (archive s ++ c).
Proof. unfold add_chunks. simpl. by rewrite app_nil_r. Qed.

(** All chunks but the last are only collected. *)
Lemma collect_chunks commit_ok io_ok copy_ok persisted now created_at chunks s m :
  _incoming_session m = Some s -> 0 <= next_index s ->
  next_index s + Z.of_nat (length chunks) < expected_chunks s ->
  Forall (λ c, Z.of_nat (length c) <= expected_chunk_size s) chunks ->
  apply_chunks commit_ok io_ok copy_ok persisted now created_at (next_index s) chunks m =
    (replicate (length chunks) APPLY_ACCEPT, with_session (Some (add_chunks s chunks)) m).
Proof.
  revert s m. induction chunks as [|c chunks IH]; intros s m Hs Hi Hn Hall.
  - unfold add_chunks. simpl. rewrite Z.add_0_r, app_nil_r. destruct m, s. simpl in Hs. by subst.
  - apply Forall_cons in Hall as [Hc Hall]. cbn [length] in Hn. cbn [apply_chunks].
    unfold apply_snapshot_chunk_response. rewrite Hs. rewrite Z.eqb_refl. cbn [negb].
    rewrite (proj2 (Z.ltb_ge _ 0)), (proj2 (Z.leb_gt _ _)), (proj2 (Z.ltb_ge _ _)) by lia. cbn [orb].
    cbv zeta. cbn [next_index expected_chunks]. rewrite (proj2 (Z.ltb_lt _ _)) by lia.
    rewrite <- add_chunk. change (next_index s + 1) with (next_index (add_chunks s [c])).
    rewrite (IH (add_chunks s [c]) (with_session (Some (add_chunks s [c])) m)); simpl; try done; try lia.
    unfold add_chunks, with_session. simpl. rewrite app_nil_r, <- (assoc_L (++)).
    do 4 f_equal. lia.
Qed.

(** ** The final chunk *)

Lemma cleanup_store h f m : mg_store (_cleanup_existing_height h f m) = mg_store m.
Proof.
  unfold _cleanup_existing_height. generalize (list_snapshot_records m) as l.
  intros l. revert m. induction l as [|r l IH]; intros m; [done|]. simpl. rewrite IH. by destruct (_ && _).
Qed.

Lemma write_manifest_store a c h x y z t m r m' :
  _write_manifest a c h x y z t m = (r, m') -> mg_store m' = mg_store m.
Proof. unfold _write_manifest. destruct (_build_offer_metadata _ _ _ _); intros [= _ <-]; done. Qed.

Lemma import_archive_inv commit_ok io_ok copy_ok persisted now created_at content m r m' :
  import_snapshot_archive commit_ok io_ok copy_ok persisted now created_at content m = (Ok r, m') ->
  exists c, read_archive content = Ok c /\ is_ok (import_checks c) = true /\
    import_state sha256 float_trunc commit_ok io_ok persisted (sc_exported c) (mg_store m) = (Ok r, mg_store m').
Proof.
  unfold import_snapshot_archive. intros Hi. stM_inv. destruct a0 as [height app_hash]. stM_inv.
  unfold lift_res in E, E0, E3. injection E as Er <-. injection E0 as Ec <-. injection E3 as _ <-.
  unfold on_store in E1. destruct (import_state _ _ _ _ _ _ _) as [ri si] eqn:Ei. injection E1 as -> <-.
  unfold modify_st in E2, E4. injection E2 as _ <-. injection E4 as _ <-.
  apply write_manifest_store in E5. unfold mret, stM_ret in Hi. injection Hi as -> <-.
  exists a. rewrite Ec. split_and!; [done..|]. rewrite Ei, E5. simpl. by rewrite cleanup_store.
Qed.

(** The last chunk of a session. *)
Lemma last_chunk commit_ok io_ok copy_ok persisted now created_at chunk m s :
  _incoming_session m = Some s -> next_index s + 1 = expected_chunks s -> 0 <= next_index s ->
  Z.of_nat (length chunk) <= expected_chunk_size s ->
  apply_snapshot_chunk_response commit_ok io_ok copy_ok persisted now created_at (next_index s) chunk m =
    match finish_session commit_ok io_ok copy_ok persisted now created_at (add_chunks s [chunk])
            (with_session (Some (add_chunks s [chunk])) m) with
    | (Raise _, m) => (APPLY_REJECT_SNAPSHOT, _reset_incoming_session m)
    | (Ok _, m) => (APPLY_ACCEPT, _reset_incoming_session m)
    end.
Proof.
  intros Hs Hn Hi Hc. unfold apply_snapshot_chunk_response. rewrite Hs, Z.eqb_refl. cbn [negb].
  rewrite (proj2 (Z.ltb_ge _ 0)), (proj2 (Z.leb_gt _ _)), (proj2 (Z.ltb_ge _ (Z.of_nat _))) by lia. cbn [orb].
  cbv zeta. cbn [next_index expected_chunks]. rewrite (proj2 (Z.ltb_ge _ _)) by lia. by rewrite add_chunk.
Qed.

Lemma finish_session_run commit_ok io_ok copy_ok persisted now created_at s m r m1 :
  _sha256_file (archive s) = expected_snapshot_hash_hex s ->
  import_snapshot_archive commit_ok io_ok copy_ok persisted now created_at (archive s) m = (Ok r, m1) ->
  finish_session commit_ok io_ok copy_ok persisted now created_at s m =
    (check_py (bool_decide (ir_app_hash r = expected_app_hash_hex s)) ValueError "snapshot app hash mismatch", m1).
Proof.
  intros Hh Hi. unfold finish_session. rewrite bool_decide_eq_true_2 by done.
  rewrite (stM_bind_ok _ _ _ tt m) by done. by rewrite (stM_bind_ok _ _ _ _ _ Hi).
Qed.

Context `{!DriverLaws D}.

(** A snapshot a node accepts is the state the light client vouched for: when
    the last chunk is answered with ACCEPT, the assembled archive has the offered hash,
    the durable state's root, computed from the database, is the trusted app hash, and
    the session is closed. *)
Theorem accepted_snapshot_correct commit_ok io_ok copy_ok persisted now created_at index chunk m m' s :
  _incoming_session m = Some s -> next_index s + 1 = expected_chunks s ->
  apply_snapshot_chunk_response commit_ok io_ok copy_ok persisted now created_at index chunk m = (APPLY_ACCEPT, m') ->
  index = next_index s /\ _sha256_file (archive s ++ chunk) = expected_snapshot_hash_hex s /\
  _incoming_session m' = None /\
  exists root, bytes_hex root = expected_app_hash_hex s /\
    merkle_root_from_items sha256 (drv_items (st_driver (mg_store m'))) = Ok root /\
    drv_pending_writes (st_driver (mg_store m')) = [].
Proof.
  intros Hs Hn Ha. assert (index = next_index s /\ 0 <= next_index s /\ Z.of_nat (length chunk) <= expected_chunk_size s)
    as (-> & Hi & Hc).
  { unfold apply_snapshot_chunk_response in Ha. rewrite Hs in Ha.
    destruct (index =? next_index s) eqn:Ei; [|done]. apply Z.eqb_eq in Ei. cbn [negb] in Ha.
    destruct (_ || _) eqn:Eo; [done|]. apply orb_false_iff in Eo as [Eo _].
    destruct (expected_chunk_size s <? _) eqn:El; [done|]. lia. }
  rewrite (last_chunk _ _ _ _ _ _ _ _ _ Hs Hn Hi Hc) in Ha.
  destruct (finish_session _ _ _ _ _ _ _ _) as [[[]|e] m1] eqn:Ef; [|done]. injection Ha as <-.
  unfold finish_session in Ef. stM_inv. unfold lift_res in *. injection E as E <-. injection Ef as Eh <-.
  apply import_archive_inv in E0 as (c & _ & _ & E0).
  destruct (import_state_inv _ _ _ _ _ _ _ _ _ E0) as (root & w & _ & _ & Hh & Hr & Hp & _).
  rewrite add_chunk in *. cbn [archive expected_snapshot_hash_hex expected_app_hash_hex] in *. unfold check_py in *.
  destruct (bool_decide (_sha256_file _ = _)) eqn:B1; [|done]. destruct (bool_decide (ir_app_hash _ = _)) eqn:B2; [|done].
  apply bool_decide_eq_true in B1, B2. rewrite ?app_nil_r in B1. split_and!; [done..|].
  exists root. split_and!; [congruence|done..].
Qed.

(** The check against the trusted app hash comes after the import: an offered
    archive whose own state is consistent but is not the trusted one is answered with
    REJECT_SNAPSHOT, and yet the node's durable state is already the archive's. *)
Theorem rejected_snapshot_replaces_state commit_ok io_ok copy_ok persisted now created_at chunk m s r m1 :
  _incoming_session m = Some s -> next_index s + 1 = expected_chunks s -> 0 <= next_index s ->
  Z.of_nat (length chunk) <= expected_chunk_size s ->
  _sha256_file (archive s ++ chunk) = expected_snapshot_hash_hex s ->
  import_snapshot_archive commit_ok io_ok copy_ok persisted now created_at (archive s ++ chunk)
    (with_session (Some (add_chunks s [chunk])) m) = (Ok r, m1) ->
  ir_app_hash r <> expected_app_hash_hex s ->
  exists m' root,
    apply_snapshot_chunk_response commit_ok io_ok copy_ok persisted now created_at (next_index s) chunk m
      = (APPLY_REJECT_SNAPSHOT, m') /\
    merkle_root_from_items sha256 (drv_items (st_driver (mg_store m'))) = Ok root /\
    bytes_hex root <> expected_app_hash_hex s.
Proof.
  intros Hs Hn Hi Hc Hh Him Hne. rewrite (last_chunk _ _ _ _ _ _ _ _ _ Hs Hn Hi Hc).
  assert (Ha : archive (add_chunks s [chunk]) = archive s ++ chunk) by (by rewrite add_chunk).
  rewrite (finish_session_run _ _ _ _ _ _ _ _ r m1) by by rewrite Ha.
  rewrite bool_decide_eq_false_2 by (by rewrite add_chunk). cbn [check_py].
  apply import_archive_inv in Him as (c & _ & _ & E0).
  destruct (import_state_inv _ _ _ _ _ _ _ _ _ E0) as (root & w & _ & _ & Hh' & Hr & _).
  exists (_reset_incoming_session m1), root. split_and!; [done..|]. by rewrite <- Hh'.
Qed.

(** ** The snapshot directory *)

Lemma insert_newest_perm r l : insert_newest r l ≡ₚ r :: l.
Proof.
  induction l as [|x l IH]; [done|]. cbn [insert_newest]. destruct (newer x r); [|done].
  rewrite IH. apply Permutation_swap.
Qed.

Lemma newest_first_perm l : newest_first l ≡ₚ l.
Proof. induction l as [|r l IH]; [done|]. cbn [newest_first foldr]. rewrite insert_newest_perm. by f_equiv. Qed.

Lemma records_elem m r :
  r ∈ list_snapshot_records m <->
    exists n, (n, r) ∈ mg_manifests m /\ is_Some (dict_get n (mg_archives m)).
Proof.
  unfold list_snapshot_records. rewrite newest_first_perm, list_elem_of_fmap. split.
  - intros ([n r'] & -> & [Ha Hin]%list_elem_of_filter). rewrite reverse_Permutation, sort_by_perm in Hin. eauto.
  - intros (n & Hin & Ha). exists (n, r). split; [done|]. apply list_elem_of_filter. split; [done|].
    by rewrite reverse_Permutation, sort_by_perm.
Qed.

(** Manifest files have distinct names and name their own archive. *)
Record directory_ok (m : StateSnapshotManager) : Prop := {
  do_nodup : NoDup (dict_keys (mg_manifests m));
  do_named : Forall (λ nr, r_path nr.2 = nr.1) (mg_manifests m);
}.

Lemma cleanup_sub h f l m :
  let m' := foldl (λ m r, if (r_height r =? h) && (r_format r =? f)
                then Manager (mg_store m) (dict_pop (r_path r) (mg_manifests m))
                             (dict_pop (r_path r) (mg_archives m)) (_incoming_session m)
                else m) m l in
  (forall n r, (n, r) ∈ mg_manifests m' -> (n, r) ∈ mg_manifests m /\
     forall r0, r0 ∈ l -> r_height r0 = h -> r_format r0 = f -> r_path r0 <> n) /\
  (forall n, is_Some (dict_get n (mg_archives m')) -> is_Some (dict_get n (mg_archives m))) /\
  (directory_ok m -> directory_ok m').
Proof.
  revert m. induction l as [|r l IH]; intros m; cbv zeta; cbn [foldl].
  - split_and!; [|done..]. intros n r Hin. split; [done|]. intros r0 Hr0. by apply not_elem_of_nil in Hr0.
  - destruct (IH (if (r_height r =? h) && (r_format r =? f)
                then Manager (mg_store m) (dict_pop (r_path r) (mg_manifests m))
                             (dict_pop (r_path r) (mg_archives m)) (_incoming_session m) else m)) as (H1 & H2 & H3).
    destruct ((r_height r =? h) && (r_format r =? f)) eqn:Er; cbn [mg_manifests mg_archives] in *.
    + split_and!.
      * intros n r' Hin. destruct (H1 _ _ Hin) as [Hm Hl]. apply list_elem_of_filter in Hm as [Hn Hm].
        split; [done|]. intros r0 [->|Hr0]%elem_of_cons; [|by apply Hl]. intros _ _. simpl in Hn. congruence.
      * intros n Hn. destruct (H2 _ Hn) as [b Hb]. destruct (decide (n = r_path r)) as [->|Hne].
        -- by rewrite dict_get_pop_eq in Hb.
        -- rewrite dict_get_pop_ne in Hb by done. by eexists.
      * intros [Hnd Hnm]. apply H3. split; cbn; [by apply dict_pop_nodup|by apply dict_pop_Forall].
    + split_and!; try done. intros n r' Hin. destruct (H1 _ _ Hin) as [Hm Hl]. split; [done|].
      intros r0 [->|Hr0]%elem_of_cons Eh Ef; [|by apply Hl].
      rewrite Eh, Ef, !Z.eqb_refl in Er. done.
Qed.

(** After the cleanup no served snapshot of that height and format is left. *)
Lemma cleanup_none h f m r :
  directory_ok m -> r ∈ list_snapshot_records (_cleanup_existing_height h f m) ->
  ~ (r_height r = h /\ r_format r = f).
Proof.
  intros [Hnd Hnm] (n & Hin & Ha)%records_elem [Hh Hf].
  destruct (cleanup_sub h f (list_snapshot_records m) m) as (H1 & H2 & _).
  destruct (H1 _ _ Hin) as [Hm Hl]. apply (Hl r); try done.
  - apply records_elem. exists n. split; [done|]. by apply H2.
  - rewrite Forall_forall in Hnm. by apply (Hnm (n, r)).
Qed.

Definition add_snapshot (name : string) (content : bytes) (r : SnapshotRecord) (m : StateSnapshotManager)
  : StateSnapshotManager :=
  Manager (mg_store m) (dict_set name r (mg_manifests m)) (dict_set name content (mg_archives m))
    (_incoming_session m).

(** A freshly written snapshot is the one its height and format select. *)
Lemma new_snapshot_found m name content r :
  directory_ok m ->
  (forall x, x ∈ list_snapshot_records m -> ~ (r_height x = r_height r /\ r_format x = r_format r)) ->
  exists i, list_find (λ x, r_height x = r_height r /\ r_format x = r_format r)
              (list_snapshot_records (add_snapshot name content r m)) = Some (i, r).
Proof.
  intros [Hnd _] Hno. set (m' := add_snapshot name content r m).
  assert (Hset : forall n x, (n, x) ∈ mg_manifests m' -> n = name /\ x = r \/ n <> name /\ (n, x) ∈ mg_manifests m).
  { intros n x Hin. apply (dict_get_elem _ _ _ (dict_set_nodup _ _ _ Hnd)) in Hin. simpl in Hin.
    rewrite dict_get_set in Hin. destruct (decide (n = name)); [left; by simplify_eq|right].
    split; [done|]. by apply dict_get_Some_elem. }
  assert (Hin : r ∈ list_snapshot_records m').
  { apply records_elem. exists name. simpl. rewrite dict_get_set_eq. split; [|by eexists].
    apply dict_get_Some_elem. apply dict_get_set_eq. }
  destruct (list_find _ (list_snapshot_records m')) as [[i x]|] eqn:E.
  - exists i. do 2 f_equal. apply list_find_Some in E as (Hx & Hp & _). apply list_elem_of_lookup_2 in Hx.
    apply records_elem in Hx as (n & Hn & Ha). destruct (Hset _ _ Hn) as [[_ ->]|[Hne Hm]]; [done|].
    exfalso. apply (Hno x); [|done]. apply records_elem. exists n. split; [done|].
    simpl in Ha. by rewrite dict_get_set_ne in Ha.
  - apply list_find_None in E. rewrite Forall_forall in E. destruct (E r Hin). by split.
Qed.

(** ** From one node to another *)

(** The metadata in the order [sort_keys] gives it. *)
Definition sorted_metadata (height : Z) (app_hash exported_sha archive_sha : string) : value :=
  VDict [("app_hash", VStr app_hash); ("archive_sha256", VStr archive_sha); ("chain_id", VStr chain_id);
         ("chunk_size", VInt chunk_size);
         ("execution_policy", VDict [("bytecode_version", VStr VM_BYTECODE_VERSION);
            ("execution_revision", VStr VM_EXECUTION_REVISION); ("gas_schedule", VStr VM_GAS_SCHEDULE);
            ("set_codec", VStr SET_CODEC)]);
         ("exported_state_sha256", VStr exported_sha); ("height", VInt height);
         ("snapshot_format_version", VInt SNAPSHOT_FORMAT_VERSION)].

Lemma sort_metadata h a e x : sort_keys (offer_metadata h a e x) = sorted_metadata h a e x.
Proof. reflexivity. Qed.

Lemma metadata_readable h a e x :
  str_printable chain_id = true -> str_printable a = true -> str_printable e = true -> str_printable x = true ->
  exists b, _build_offer_metadata h a e x = Ok b /\
    (text ← decode_utf8 b; loads text) = Ok (sorted_metadata h a e x).
Proof.
  intros Hc Ha He Hx. unfold _build_offer_metadata, _json_bytes. rewrite sort_metadata.
  assert (Hpl : json_plain (sorted_metadata h a e x) = true) by (vm_compute; reflexivity).
  assert (Hpr : all_printable (sorted_metadata h a e x) = true).
  { unfold sorted_metadata. cbn [all_printable forallb fst snd]. by rewrite Hc, Ha, He, Hx. }
  destruct (dumps_total true _ Hpl) as [t Ht]. rewrite Ht. exists (encode_utf8 t). split; [done|].
  by apply loads_dumps_ascii; [|apply all_printable_text|].
Qed.

Lemma offer_accepts h a e x meta chunks app_hash file_hash current_height m :
  (text ← decode_utf8 meta; loads text) = Ok (sorted_metadata h a e x) ->
  a = bytes_hex app_hash -> x = bytes_hex file_hash -> 0 < chunk_size -> 0 < chunks ->
  length file_hash = 32%nat -> current_height < h ->
  offer_snapshot_response (MkSnapshot h SNAPSHOT_FORMAT_VERSION chunks file_hash meta) app_hash current_height m =
    (OFFER_ACCEPT, with_session (Some (MkSession h SNAPSHOT_FORMAT_VERSION chunks chunk_size a x 0 [])) m).
Proof.
  intros Hm -> -> Hcs Hch Hl Hh. unfold offer_snapshot_response. cbn [sn_format sn_height sn_chunks sn_hash].
  rewrite Z.eqb_refl, Hl, (proj2 (Z.leb_gt _ _)), (proj2 (Z.leb_gt _ 0)) by lia. cbn [negb orb].
  change (Z.of_nat 32 =? 32) with true. cbn [negb].
  assert (offer_checks (MkSnapshot h SNAPSHOT_FORMAT_VERSION chunks file_hash meta) app_hash = Ok chunk_size) as ->; [|done].
  unfold offer_checks. cbn [sn_metadata sn_height sn_hash]. rewrite Hm. bind_step. unfold sorted_metadata.
  match goal with |- context [py_get "execution_policy" ?d VNone] =>
    change (py_get "execution_policy" d VNone) with
      (VDict [("bytecode_version", VStr VM_BYTECODE_VERSION);
            ("execution_revision", VStr VM_EXECUTION_REVISION); ("gas_schedule", VStr VM_GAS_SCHEDULE);
            ("set_codec", VStr SET_CODEC)]) end.
  change (validate_execution_policy (VDict [("bytecode_version", VStr VM_BYTECODE_VERSION);
            ("execution_revision", VStr VM_EXECUTION_REVISION); ("gas_schedule", VStr VM_GAS_SCHEDULE);
            ("set_codec", VStr SET_CODEC)])) with (@Ok unit tt). bind_step.
  repeat match goal with |- context [py_dot_get (VDict ?d) "height" ?v] =>
    change (py_dot_get (VDict d) "height" v) with (Ok (VInt h)) end.
  repeat match goal with |- context [py_dot_get (VDict ?d) "chunk_size" ?v] =>
    change (py_dot_get (VDict d) "chunk_size" v) with (Ok (VInt chunk_size)) end.
  cbn [mbind result_bind py_int]. cbv zeta.
  unfold py_get. cbn [dict_get]. rewrite !decide_False by done. rewrite !decide_True by done.
  cbn [eq_int]. rewrite Z.eqb_refl, !bool_decide_eq_true_2 by done. rewrite Z.eqb_refl.
  rewrite (proj2 (Z.leb_gt _ 0)), Z.ltb_irrefl by lia. done.
Qed.

(** An archive this version exports. *)
Definition archive_metadata (height : Z) (app_hash created_at : string) : value :=
  VDict [("snapshot_format_version", VInt SNAPSHOT_FORMAT_VERSION);
         ("execution_policy", VDict current_execution_policy); ("chain_id", VStr chain_id);
         ("height", VInt height); ("app_hash", VStr app_hash); ("created_at", VStr created_at)].

Lemma export_snapshot_inv io_ok contract_state run_state now created_at m r m' :
  export_snapshot io_ok contract_state run_state now created_at m = (Ok r, m') ->
  let policy := py_get EXECUTION_POLICY_KEY run_state VNone in
  validate_execution_policy policy = Ok tt /\
  exists root h n o mir metadata,
    let ex := exported_with (bytes_hex root) h n o (exported_genesis contract_state policy) (exported_nonces run_state) in
    let content := write_archive (archive_metadata h (bytes_hex root) created_at) ex in
    let name := default_snapshot_output_path h (bytes_hex root) now in
    merkle_root_from_items sha256 (exported_items contract_state run_state) = Ok root /\
    _build_offer_metadata h (bytes_hex root) (_sha256_file (exported_file ex)) (_sha256_file content) = Ok metadata /\
    r = MkRecord name h SNAPSHOT_FORMAT_VERSION (chunk_count (Z.of_nat (length content))) (bytes_hex root)
          (_sha256_file content) chunk_size metadata created_at /\
    m' = add_snapshot name content r (_cleanup_existing_height h SNAPSHOT_FORMAT_VERSION
           (Manager (Store (st_driver (mg_store m)) mir) (mg_manifests m) (mg_archives m) (_incoming_session m))).
Proof.
  intros Hx policy. unfold export_snapshot in Hx.
  destruct (build_exported_state _ _ _ _ _ _ _ _ _ _ _) as [[ex|] mir] eqn:Eb; [|done].
  destruct (build_exported_inv _ _ _ _ _ _ _ _ _ _ _ _ _ Eb) as (Hp & root & h & n & o & Hr & -> & _).
  fold policy in Hp. split; [done|]. stM_inv.
  unfold lift_res in E, E0, E3. injection E as Eh <-. injection E0 as Ea <-. injection E3 as _ <-.
  unfold modify_st in E1, E4. injection E1 as _ <-. injection E4 as _ <-. unfold get_st in E2. injection E2 as _ <-.
  assert (a = h) as -> by (vm_compute in Eh; congruence). clear Eh.
  cbn in Ea. subst a0.
  unfold _write_manifest in Hx. fold policy in Hx.
  destruct (_build_offer_metadata _ _ _ _) as [metadata|] eqn:Em; [|done].
  injection Hx as <- <-. exists root, h, n, o, mir, metadata. cbv zeta. split_and!; [done..|]. done.
Qed.

Lemma import_checks_exported h n o root created_at ex_file genesis nonces :
  compute_exported_state_root sha256 (exported_with (bytes_hex root) h n o genesis nonces) = Ok root ->
  import_checks (MkContent (archive_metadata h (bytes_hex root) created_at)
      (exported_with (bytes_hex root) h n o genesis nonces) ex_file) = Ok (h, bytes_hex root).
Proof.
  intros Hr. unfold import_checks. cbn [sc_metadata sc_exported].
  repeat match goal with |- context [py_dot_get ?d "execution_policy" VNone] =>
    change (py_dot_get d "execution_policy" VNone) with (Ok (VDict current_execution_policy)) end. bind_step.
  change (validate_execution_policy (VDict current_execution_policy)) with (@Ok unit tt). bind_step.
  change (py_item "snapshot_format_version" (archive_metadata h (bytes_hex root) created_at)) with (Ok (VInt SNAPSHOT_FORMAT_VERSION)).
  change (py_item "chain_id" (archive_metadata h (bytes_hex root) created_at)) with (Ok (VStr chain_id)).
  change (py_item "height" (archive_metadata h (bytes_hex root) created_at)) with (Ok (VInt h)).
  change (py_item "app_hash" (archive_metadata h (bytes_hex root) created_at)) with (Ok (VStr (bytes_hex root))).
  change (py_item "number" (VDict (exported_with (bytes_hex root) h n o genesis nonces))) with (Ok (VInt h)).
  change (py_item "hash" (VDict (exported_with (bytes_hex root) h n o genesis nonces))) with (Ok (VStr (bytes_hex root))).
  cbn [mbind result_bind py_int str_of]. unfold check_py. rewrite !bool_decide_eq_true_2 by done.
  rewrite !Z.eqb_refl. bind_step. rewrite Hr. bind_step. by rewrite bool_decide_eq_true_2.
Qed.

Lemma import_archive_run io_ok persisted now created_at content m c h a res s' meta :
  read_archive content = Ok c -> import_checks c = Ok (h, a) ->
  import_state sha256 float_trunc true io_ok persisted (sc_exported c) (mg_store m) = (Ok res, s') ->
  _build_offer_metadata h a (_sha256_file (sc_exported_file c)) (_sha256_file content) = Ok meta ->
  exists m', import_snapshot_archive true io_ok true persisted now created_at content m = (Ok res, m') /\
    mg_store m' = s'.
Proof.
  intros Hr Hc Hi Hm. eexists. unfold import_snapshot_archive.
  rewrite (stM_bind_ok _ _ _ c m) by (unfold lift_res; by rewrite Hr).
  rewrite (stM_bind_ok _ _ _ (h, a) m) by (unfold lift_res; by rewrite Hc).
  rewrite (stM_bind_ok _ _ _ res (Manager s' (mg_manifests m) (mg_archives m) (_incoming_session m)))
    by (unfold on_store; by rewrite Hi).
  unfold modify_st, lift_res, check_py, mret, stM_ret, mbind, stM_bind, _write_manifest. rewrite Hm.
  split; [reflexivity|]. cbn [mg_store]. by rewrite cleanup_store.
Qed.

(** The chunks a peer downloads for a snapshot. *)
Definition served_chunks (m : StateSnapshotManager) (r : SnapshotRecord) : list bytes :=
  (λ i, load_snapshot_chunk_response (r_height r) (r_format r) (Z.of_nat i) m)
    <$> seq 0 (Z.to_nat (r_chunks r)).

Lemma served_chunks_spec m name content r :
  directory_ok m -> 0 < chunk_size ->
  (forall x, x ∈ list_snapshot_records m -> ~ (r_height x = r_height r /\ r_format x = r_format r)) ->
  r_path r = name -> r_chunk_size r = chunk_size -> r_chunks r = chunk_count (Z.of_nat (length content)) ->
  let chunks := served_chunks (add_snapshot name content r m) r in
  concat chunks = content /\ Forall (λ c, Z.of_nat (length c) <= chunk_size) chunks.
Proof.
  intros Hok Hcs Hno Hp Hrs Hrc chunks.
  destruct (new_snapshot_found m name content r Hok Hno) as [i Hf].
  assert (Hchunks : chunks = (λ j, take (Z.to_nat chunk_size) (drop (j * Z.to_nat chunk_size) content))
                              <$> seq 0 (Z.to_nat (r_chunks r))).
  { apply list_fmap_ext. intros k j Hj. apply list_elem_of_lookup_2, elem_of_seq in Hj.
    unfold load_snapshot_chunk_response. rewrite Hf.
    rewrite (proj2 (Z.ltb_ge _ 0)), (proj2 (Z.leb_gt _ _)) by lia. cbn [orb]. rewrite Hp. cbn [add_snapshot mg_archives].
    rewrite dict_get_set_eq, Hrs. do 2 f_equal. lia. }
  rewrite Hchunks. split.
  - rewrite chunks_concat. apply take_ge. pose proof (chunk_count_covers (Z.of_nat (length content)) Hcs).
    rewrite Hrc. nia.
  - apply Forall_fmap, Forall_forall. intros j _. cbn. rewrite length_take. lia.
Qed.

(** A session that gets exactly the chunks of its archive. *)
Lemma apply_all_chunks io_ok persisted now created_at chunks s m res m1 :
  _incoming_session m = Some s -> next_index s = 0 -> archive s = [] ->
  expected_chunks s = Z.of_nat (length chunks) -> chunks <> [] ->
  Forall (λ c, Z.of_nat (length c) <= expected_chunk_size s) chunks ->
  _sha256_file (concat chunks) = expected_snapshot_hash_hex s ->
  (forall s', import_snapshot_archive true io_ok true persisted now created_at (concat chunks) (with_session s' m) = (Ok res, m1 s')) ->
  ir_app_hash res = expected_app_hash_hex s ->
  exists s', apply_chunks true io_ok true persisted now created_at 0 chunks m =
    (replicate (length chunks) APPLY_ACCEPT, _reset_incoming_session (m1 s')).
Proof.
  intros Hs Hi Ha He Hne Hall Hsha Him Hres.
  destruct (exists_last Hne) as (init & lst & ->). rewrite length_app in *. cbn [length] in *.
  apply Forall_app in Hall as [Hall Hlst]. apply Forall_inv in Hlst. rewrite concat_app in *. cbn [concat] in *.
  rewrite app_nil_r in *.
  assert (Happ : forall i l1 l2 m, apply_chunks true io_ok true persisted now created_at i (l1 ++ l2) m =
     let '(r1, m) := apply_chunks true io_ok true persisted now created_at i l1 m in
     let '(r2, m) := apply_chunks true io_ok true persisted now created_at (i + Z.of_nat (length l1)) l2 m in
     (r1 ++ r2, m)).
  { intros i l1. revert i. induction l1 as [|c l1 IH]; intros i l2 m0.
    - simpl. rewrite Z.add_0_r. by destruct (apply_chunks _ _ _ _ _ _ _ _ _).
    - cbn [apply_chunks Datatypes.app length]. destruct (apply_snapshot_chunk_response _ _ _ _ _ _ _ _ _) as [r0 m2]. rewrite IH.
      destruct (apply_chunks _ _ _ _ _ _ _ l1 _) as [r1 m3].
      replace (i + 1 + Z.of_nat (length l1)) with (i + Z.of_nat (S (length l1))) by lia.
      by destruct (apply_chunks _ _ _ _ _ _ _ l2 _). }
  pose proof (collect_chunks true io_ok true persisted now created_at init s m Hs) as Hcol.
  rewrite Hi in Hcol. rewrite Happ, Hcol by (done || lia).
  set (s1 := add_chunks s init). cbn [apply_chunks].
  replace (0 + Z.of_nat (length init)) with (next_index s1) by (unfold s1, add_chunks; cbn; lia).
  rewrite (last_chunk _ _ _ _ _ _ lst _ s1); [|done|unfold s1, add_chunks; cbn; lia..|done].
  assert (Har : archive (add_chunks s1 [lst]) = concat init ++ lst)
    by (rewrite add_chunk; unfold s1, add_chunks; cbn; by rewrite Ha).
  exists (Some (add_chunks s1 [lst])).
  rewrite (finish_session_run _ _ _ _ _ _ _ _ res (m1 (Some (add_chunks s1 [lst])))).
  - rewrite bool_decide_eq_true_2 by (rewrite add_chunk; done). cbn [check_py].
    by rewrite replicate_add.
  - rewrite Har. rewrite add_chunk. done.
  - rewrite Har. rewrite <- Him. done.
Qed.

(** The root of an exported state is a digest. *)
Lemma exported_root_bytes contract_state run_state root :
  (forall x, Forall is_byte (sha256 x)) -> split_state contract_state run_state ->
  merkle_root_from_items sha256 (exported_items contract_state run_state) = Ok root -> Forall is_byte root.
Proof.
  intros Hsha Hs Hr. unfold merkle_root_from_items in Hr.
  destruct (new_cache sha256 _) as [c|] eqn:Hc; [|done]. apply Ok_inj in Hr as <-.
  destruct (new_cache_tracks sha256 _ _ (exported_items_nodup _ _ Hs) Hc) as [[Hok _ _ _] _].
  by apply root_hash_bytes.
Qed.

(** What a node serves after an export. *)
Lemma exported_chunks m mir h name content metadata created_at app_hash :
  directory_ok m -> 0 < chunk_size ->
  let r := MkRecord name h SNAPSHOT_FORMAT_VERSION (chunk_count (Z.of_nat (length content))) app_hash
             (_sha256_file content) chunk_size metadata created_at in
  let chunks := served_chunks (add_snapshot name content r (_cleanup_existing_height h SNAPSHOT_FORMAT_VERSION
     (Manager (Store (st_driver (mg_store m)) mir) (mg_manifests m) (mg_archives m) (_incoming_session m)))) r in
  concat chunks = content /\ Forall (λ c, Z.of_nat (length c) <= chunk_size) chunks /\
  r_chunks r = Z.of_nat (length chunks) /\ chunks <> [].
Proof.
  intros Hdir Hcs r chunks.
  set (m0 := Manager (Store (st_driver (mg_store m)) mir) (mg_manifests m) (mg_archives m) (_incoming_session m)) in *.
  assert (Hok : directory_ok m0) by (destruct Hdir; by split).
  destruct (served_chunks_spec (_cleanup_existing_height h SNAPSHOT_FORMAT_VERSION m0) name content r) as [Hcat Hsmall]; try done.
  { by apply cleanup_sub. }
  { intros x. by apply cleanup_none. }
  split_and!; [done..| |].
  - unfold chunks, served_chunks. rewrite length_fmap, length_seq. unfold r. cbn. unfold chunk_count. lia.
  - intros Hnil. apply (f_equal length) in Hnil. unfold chunks, served_chunks in Hnil. rewrite length_fmap, length_seq in Hnil.
    unfold r in Hnil. cbn in Hnil. unfold chunk_count in Hnil. lia.
Qed.

(** Claim C14. State sync carries a state from one node to another: when a node exports a
    snapshot and a peer that is behind offers it to itself with the trusted app hash
    and applies the chunks the first node serves, the offer and every chunk are
    accepted, and the peer's database ends with the exported value under every
    consensus key and with the trusted state root. *)
Theorem state_sync_end_to_end io_ok io_ok' contract_state run_state now created_at now' created_at'
    mA r mA' mB trusted current_height persisted b :
  (forall x, Forall is_byte (sha256 x) /\ length (sha256 x) = 32%nat) ->
  (forall d : D, exists d', drv_commit true d = (Ok tt, d')) ->
  (forall md ex, read_archive (write_archive md ex) = Ok (MkContent md ex (exported_file ex))) ->
  str_printable chain_id = true -> 0 < chunk_size -> directory_ok mA ->
  split_state contract_state run_state ->
  (forall c, new_cache sha256 (exported_items contract_state run_state) = Ok c ->
     distinct_priorities sha256 (dict_keys (_leaf_hashes c))) ->
  export_snapshot io_ok contract_state run_state now created_at mA = (Ok r, mA') ->
  validate_persisted_execution_policy persisted = Ok b ->
  r_app_hash_hex r = bytes_hex trusted -> Forall is_byte trusted -> current_height < r_height r ->
  exists sn mB1 mB2, to_proto r = Ok sn /\
    offer_snapshot_response sn trusted current_height mB = (OFFER_ACCEPT, mB1) /\
    apply_chunks true io_ok' true persisted now' created_at' 0 (served_chunks mA' r) mB1 =
      (replicate (length (served_chunks mA' r)) APPLY_ACCEPT, mB2) /\
    (forall q, is_consensus_state_key q = true ->
       drv_value_from_disk (st_driver (mg_store mB2)) q = value_at (contract_state ++ run_state) q) /\
    merkle_root_from_items sha256 (drv_items (st_driver (mg_store mB2))) = Ok trusted.
Proof.
  intros Hsha Hcommit Harch Hchain Hcs Hdir Hsplit Hpri Hexp Hpers Htrust Htb Hheight.
  assert (Hshab : forall x, Forall is_byte (sha256 x)) by (intros x; apply Hsha).
  assert (Hprint : forall x, str_printable (_sha256_file x) = true) by (intros x; by apply bytes_hex_printable).
  destruct (export_snapshot_inv _ _ _ _ _ _ _ _ Hexp) as (Hpol & root & h & n & o & mir & metadata & Hex).
  cbv zeta in Hex. destruct Hex as (Hroot & Hmeta & Hr & Hm).
  set (ex := exported_with _ _ _ _ _ _) in *. set (content := write_archive _ ex) in *.
  assert (root = trusted) as <-.
  { rewrite Hr in Htrust. apply (f_equal fromhex) in Htrust. cbn [r_app_hash_hex] in Htrust.
    rewrite !fromhex_bytes_hex in Htrust by (done || by eapply exported_root_bytes). congruence. }
  destruct (metadata_readable h (bytes_hex root) (_sha256_file (exported_file ex)) (_sha256_file content))
    as (mb & Hmb & Hread); [done|by apply bytes_hex_printable|done|done|].
  assert (mb = metadata) as -> by congruence.
  destruct (exported_chunks mA mir h (default_snapshot_output_path h (bytes_hex root) now) content metadata
              created_at (bytes_hex root) Hdir Hcs) as (Hcat & Hsmall & Hcount & Hne).
  cbv zeta in Hcat, Hsmall, Hcount, Hne. rewrite <- Hr, <- Hm in Hcat, Hsmall, Hcount, Hne.
  set (chunks := served_chunks mA' r) in *.
  set (session := MkSession h SNAPSHOT_FORMAT_VERSION (r_chunks r) chunk_size (bytes_hex root) (_sha256_file content) 0 []).
  assert (Hoff : offer_snapshot_response
      (MkSnapshot h SNAPSHOT_FORMAT_VERSION (r_chunks r) (sha256 content) metadata) root current_height mB =
    (OFFER_ACCEPT, with_session (Some session) mB)).
  { eapply offer_accepts; [exact Hread|done|done|done| |apply Hsha|by rewrite Hr in Hheight].
    rewrite Hcount. destruct chunks; [done|]. cbn. lia. }
  set (mB1 := with_session _ mB) in Hoff.
  destruct (import_exported sha256 py_str float_trunc contract_state run_state root h n o io_ok' persisted b (mg_store mB))
    as (s' & Hi & Hv & Hr' & _); try done.
  fold ex in Hi. set (res := ImportResult _ _ _ _) in Hi.
  assert (Hrun : forall sess, exists m', import_snapshot_archive true io_ok' true persisted now' created_at'
      (concat chunks) (with_session sess mB1) = (Ok res, m') /\ mg_store m' = s').
  { intros sess. rewrite Hcat. eapply import_archive_run; [apply Harch| |exact Hi|exact Hmeta].
    apply import_checks_exported. unfold compute_exported_state_root. by rewrite exported_with_items. }
  destruct (apply_all_chunks io_ok' persisted now' created_at' chunks session mB1 res
    (λ sess, (import_snapshot_archive true io_ok' true persisted now' created_at' (concat chunks) (with_session sess mB1)).2))
    as [sess Happ]; try done; [by rewrite Hcat|intros sess; by destruct (Hrun sess) as (m' & -> & _)|].
  destruct (Hrun sess) as (m' & Hm' & Hst). rewrite Hm' in Happ. cbn [snd] in Happ.
  eexists _, mB1, _. split_and!; [|exact Hoff|exact Happ| |].
  - unfold to_proto. rewrite Hr. cbn. unfold _sha256_file. by rewrite fromhex_bytes_hex.
  - intros q Hq. cbn. rewrite Hst. by apply Hv.
  - cbn. by rewrite Hst.
Qed.
End StateSync.

(** ** Witnesses: archives that list the nodes of their content, with small chunks *)

Definition toy_file (ex : list (string * value)) : bytes := [7].
Definition toy_write (md : value) (ex : list (string * value)) : bytes :=
  (λ x, Z.pos (encode x)) <$> gen_tree_to_list (value_tree (VList [md; VDict ex])).
Definition toy_node (z : Z) : option (nat * nat + (bool + Z + string + (bool * N * Z) + bytes)) :=
  match z with Z.pos p => decode p | _ => None end.
Definition toy_read (b : bytes) : result snapshot_content :=
  match (nodes ← mapM toy_node b; gen_tree_of_list [] nodes) with
  | Some t => match tree_value t with
              | VList [md; VDict ex] => Ok (MkContent md ex (toy_file ex))
              | _ => raise ValueError "not a snapshot" end
  | None => raise ValueError "not a snapshot"
  end.

Lemma toy_archive md ex : toy_read (toy_write md ex) = Ok (MkContent md ex (toy_file ex)).
Proof.
  unfold toy_read, toy_write. set (v := VList [md; VDict ex]).
  assert (mapM toy_node ((λ x, Z.pos (encode x)) <$> gen_tree_to_list (value_tree v)) = Some (gen_tree_to_list (value_tree v))) as ->.
  { apply mapM_Some_2. generalize (gen_tree_to_list (value_tree v)) as l. intros l.
    induction l as [|x l IH]; csimpl; constructor; [apply decode_encode|done]. }
  cbn [mbind option_bind]. rewrite <- (app_nil_r (gen_tree_to_list _)), gen_tree_of_to_list. cbn [gen_tree_of_list].
  change (head [value_tree v]) with (Some (value_tree v)). cbv iota. by rewrite tree_value_tree.
Qed.

Definition no_float_eq (r : string) (n : Z) : bool := false.
Definition empty_manager : StateSnapshotManager (D := mem_driver) :=
  Manager (Store mem_empty (Text (Some (latest_block_value (LatestBlock "" 7 100))))) [] [] None.
Definition toy_export :=
  export_snapshot toy_sha sample_str sample_no_float toy_write toy_file "xian-1" 16 true sample_contract_state
    (sample_run_state [("__n.alice:", VInt 4)]) "20250101T000000Z" "2025-01-01" empty_manager.
Definition toy_record : SnapshotRecord :=
  ok_or (MkRecord "" 0 0 0 "" "" 0 [] "") toy_export.1.
Definition toy_trusted : bytes := ok_or [] (fromhex (r_app_hash_hex toy_record)).

Lemma toy_export_run : toy_export = (Ok toy_record, toy_export.2).
Proof. vm_compute. reflexivity. Qed.

Lemma state_sync_end_to_end_witness :
  exists m2, drv_value_from_disk (st_driver (mg_store (D := mem_driver) m2)) "__n.alice:" = VInt 4 /\
    merkle_root_from_items toy_sha (drv_items (st_driver (mg_store m2))) = Ok toy_trusted.
Proof.
  destruct (state_sync_end_to_end toy_sha sample_str sample_no_float no_float_eq toy_write toy_read toy_file "xian-1" 16
    true true sample_contract_state (sample_run_state [("__n.alice:", VInt 4)]) "20250101T000000Z" "2025-01-01"
    "20250102T000000Z" "2025-01-02" empty_manager toy_record toy_export.2 empty_manager toy_trusted 3 None false)
    as (sn & m1 & m2 & _ & _ & _ & Hv & Hr).
  - intros x. split; [apply to_bytes_big_bytes|apply to_bytes_big_length].
  - intros d. by eexists.
  - apply toy_archive.
  - reflexivity.
  - lia.
  - split; constructor.
  - split; [nodup_by_compute|repeat constructor..].
  - intros c Hc. vm_compute in Hc. apply Ok_inj in Hc as <-. unfold distinct_priorities. nodup_by_compute.
  - exact toy_export_run.
  - reflexivity.
  - vm_compute. reflexivity.
  - apply (bool_decide_unpack _). vm_compute. exact I.
  - vm_compute. reflexivity.
  - exists m2. split; [|exact Hr]. rewrite (Hv "__n.alice:" eq_refl). vm_compute. reflexivity.
Defined.

(** A session before its last chunk. *)
Definition toy_archive_bytes : bytes :=
  default [] (dict_get (r_path toy_record) (mg_archives toy_export.2)).
Definition toy_session (app_hash : string) : IncomingSnapshotSession :=
  MkSession 7 2 2 500 app_hash (bytes_hex (toy_sha toy_archive_bytes)) 1 (take 2 toy_archive_bytes).
Definition toy_pending (app_hash : string) : StateSnapshotManager (D := mem_driver) :=
  with_session (Some (toy_session app_hash)) empty_manager.
Definition toy_last (app_hash : string) :=
  apply_snapshot_chunk_response toy_sha sample_str sample_no_float toy_read "xian-1" 16 true true true None
    "20250102T000000Z" "2025-01-02" 1 (drop 2 toy_archive_bytes) (toy_pending app_hash).

Lemma accepted_snapshot_correct_witness :
  exists root, bytes_hex root = r_app_hash_hex toy_record /\
    merkle_root_from_items toy_sha (drv_items (st_driver (mg_store (toy_last (r_app_hash_hex toy_record)).2))) = Ok root.
Proof.
  set (m' := (toy_last (r_app_hash_hex toy_record)).2).
  assert (Ha : apply_snapshot_chunk_response toy_sha sample_str sample_no_float toy_read "xian-1" 16 true true true None
    "20250102T000000Z" "2025-01-02" 1 (drop 2 toy_archive_bytes) (toy_pending (r_app_hash_hex toy_record))
    = (APPLY_ACCEPT, m')) by (vm_compute; reflexivity).
  destruct (accepted_snapshot_correct toy_sha sample_str sample_no_float toy_read "xian-1" 16 true true true None
    "20250102T000000Z" "2025-01-02" 1 (drop 2 toy_archive_bytes) (toy_pending (r_app_hash_hex toy_record)) m'
    (toy_session (r_app_hash_hex toy_record)) eq_refl eq_refl Ha) as (_ & _ & _ & root & G1 & G2 & _).
  exists root. split; assumption.
Defined.

Definition toy_import :=
  import_snapshot_archive toy_sha sample_str sample_no_float toy_read "xian-1" 16 true true true None
    "20250102T000000Z" "2025-01-02" (archive (toy_session "00") ++ drop 2 toy_archive_bytes)
    (with_session (Some (add_chunks (toy_session "00") [drop 2 toy_archive_bytes])) (toy_pending "00")).

Lemma rejected_snapshot_replaces_state_witness :
  (toy_last "00").1 = APPLY_REJECT_SNAPSHOT /\
  drv_value_from_disk (st_driver (mg_store (toy_pending "00"))) "currency.balances:alice" = VNone /\
  drv_value_from_disk (st_driver (mg_store (toy_last "00").2)) "currency.balances:alice" = VInt 10.
Proof.
  set (r := ok_or (ImportResult 0 "" 0 0) toy_import.1).
  set (m1 := toy_import.2).
  assert (Hi : import_snapshot_archive toy_sha sample_str sample_no_float toy_read "xian-1" 16 true true true None
    "20250102T000000Z" "2025-01-02" (archive (toy_session "00") ++ drop 2 toy_archive_bytes)
    (with_session (Some (add_chunks (toy_session "00") [drop 2 toy_archive_bytes])) (toy_pending "00")) = (Ok r, m1))
    by (vm_compute; reflexivity).
  destruct (rejected_snapshot_replaces_state toy_sha sample_str sample_no_float toy_read "xian-1" 16 true true true None
    "20250102T000000Z" "2025-01-02" (drop 2 toy_archive_bytes) (toy_pending "00") (toy_session "00") r m1)
    as (m' & root & G & _).
  - reflexivity.
  - reflexivity.
  - vm_compute. discriminate.
  - vm_compute. discriminate.
  - vm_compute. reflexivity.
  - exact Hi.
  - vm_compute. discriminate.
  - split; [change (next_index (toy_session "00")) with 1 in G; unfold toy_last; by rewrite G|]. split; vm_compute; reflexivity.
Defined.
