(* ===== verification/SnapshotRestore.v ===== *)
(** * Restoring application snapshots (src/src/xian/snapshot_restore.py)

    An operator replaces the application data of a stopped node ([data] and [xian] below its
    home) by an archive: the archive is extracted to a staging directory, the node's own keys
    are put over it, and the staged directories are renamed into place, the old ones into a
    backup that a failed publication renames back.

    A directory tree is the map from relative paths to its entries.  Every operation on the
    file system may succeed, fail with an [OSError], or be the last thing that happens
    (power loss, kill): the sequence [io] decides, and also what an interrupted [rmtree]
    or copy leaves.  Symbolic links are left out; [protected] are the identity paths below the
    application roots that [_protected_paths] resolves, and [fold_name] is NFC
    normalisation with case folding, which works on each component of a path. *)

From S2P Require Import Prelude PyValue Json PyBuiltins Encoding ExecutionPolicy.

Notation path := (list string).
Inductive entry := EDir | EFile (content : bytes).
#[global] Instance entry_eq_dec : EqDecision entry.
Proof. solve_decision. Defined.
Notation tree := (gmap path entry).

Definition _ROOTS : list string := ["data"; "xian"].

(** ** Operations on a tree *)

Fixpoint prefixes (p : path) : list path :=
  match p with [] => [[]] | x :: p => [] :: (cons x <$> prefixes p) end.

(** [mkdir(parents=True, exist_ok=True)] *)
Definition mkdir_one (t : tree) (p : path) : result tree :=
  match t !! p with
  | None => Ok (<[p := EDir]> t)
  | Some EDir => Ok t
  | Some (EFile _) => raise FileExistsError "not a directory"
  end.
Definition mkdir_p (p : path) (t : tree) : result tree := foldM_py mkdir_one t (prefixes p).

(** A new file, opened with mode [xb]. *)
Definition write_new (p : path) (content : bytes) (t : tree) : result tree :=
  t ← mkdir_p (removelast p) t;
  match t !! p with
  | Some _ => raise FileExistsError "file exists"
  | None => Ok (<[p := EFile content]> t)
  end.

(** [shutil.copy2]: into the destination when it is a directory. *)
Definition copy_over (p : path) (content : bytes) (t : tree) : result tree :=
  t ← mkdir_p (removelast p) t;
  match t !! p with
  | Some EDir => Ok (<[p ++ [List.last p ""] := EFile content]> t)
  | _ => Ok (<[p := EFile content]> t)
  end.

Lemma elem_of_prefixes p x : x ∈ prefixes p <-> x `prefix_of` p.
Proof.
  revert x. induction p as [|y p IH]; intros x; cbn [prefixes].
  - rewrite list_elem_of_singleton. split; [by intros ->|by intros ?%prefix_nil_inv].
  - rewrite elem_of_cons, list_elem_of_fmap. split.
    + intros [->|(z & -> & Hz)]; [apply prefix_nil|]. by apply prefix_cons, IH.
    + intros Hx. destruct x as [|z x]; [by left|right]. exists x.
      pose proof (prefix_cons_inv_1 _ _ _ _ Hx) as ->. split; [done|]. by apply IH, (prefix_cons_inv_2 y y).
Qed.

Lemma removelast_prefix (p : path) : removelast p `prefix_of` p.
Proof. destruct p as [|x p]; [done|]. eexists. by apply (app_removelast_last ""). Qed.

Lemma removelast_not_prefix (p : path) : p <> [] -> ~ p `prefix_of` removelast p.
Proof.
  intros Hp Hpre%prefix_length. assert (Hl : length p = length (removelast p ++ [List.last p ""])) by
    (f_equal; by apply app_removelast_last).
  rewrite length_app in Hl. cbn in Hl. lia.
Qed.

(** Making directories changes nothing outside the path made. *)
Lemma mkdir_p_frame p t t' x : mkdir_p p t = Ok t' -> ~ x `prefix_of` p -> t' !! x = t !! x.
Proof.
  unfold mkdir_p. intros Hm Hx. rewrite <- elem_of_prefixes in Hx. revert t Hm Hx.
  generalize (prefixes p) as l. intros l. induction l as [|y l IH]; intros t Hm Hx; cbn in Hm; [by destruct_result|].
  destruct (mkdir_one t y) as [t1|] eqn:E; [|done]. cbn in Hm.
  apply not_elem_of_cons in Hx as [Hxy Hx]. rewrite (IH t1 Hm Hx). unfold mkdir_one in E.
  destruct (t !! y) as [[]|]; destruct_result; [done|]. by apply lookup_insert_ne.
Qed.

Lemma write_new_frame p content t t' x : write_new p content t = Ok t' -> ~ x `prefix_of` p -> t' !! x = t !! x.
Proof.
  unfold write_new. intros Hw Hx. destruct_result. destruct (a !! p); [done|]. destruct_result.
  rewrite lookup_insert_ne by (by intros ->). apply (mkdir_p_frame _ _ _ _ E). intros Hpre. apply Hx.
  etransitivity; [exact Hpre|apply removelast_prefix].
Qed.

(** Copying a file over a path that is no directory puts it there. *)
Lemma copy_over_frame p content t t' :
  p <> [] -> copy_over p content t = Ok t' -> t !! p <> Some EDir ->
  t' !! p = Some (EFile content) /\ forall x, ~ x `prefix_of` p -> t' !! x = t !! x.
Proof.
  unfold copy_over. intros Hp Hc Hd. destruct_result.
  rewrite (mkdir_p_frame _ _ _ _ E (removelast_not_prefix p Hp)) in Hc.
  assert (t' = <[p := EFile content]> a) as -> by (destruct (t !! p) as [[]|]; congruence).
  split; [apply lookup_insert_eq|]. intros x Hx.
  rewrite lookup_insert_ne by (by intros ->). apply (mkdir_p_frame _ _ _ _ E). intros Hpre. apply Hx.
  etransitivity; [exact Hpre|apply removelast_prefix].
Qed.

(** ** The archive *)

Inductive member_kind := MFile (content : bytes) | MDir | MOther.
Record member := Member { m_name : string; m_kind : member_kind }.

Definition is_dir (m : member) : bool := match m_kind m with MDir => true | _ => false end.
Definition is_file (m : member) : bool := match m_kind m with MFile _ => true | _ => false end.

(** The components of a [PurePosixPath]. *)
Fixpoint split_slash (s : chars) (acc : chars) : list string :=
  match s with
  | [] => [String.string_of_list_ascii (rev acc)]
  | c :: r => if decide (c = ascii_of_byte 47) then String.string_of_list_ascii (rev acc) :: split_slash r []
              else split_slash r (c :: acc)
  end.
Definition path_parts (name : string) : path := filter (λ x, x <> "" /\ x <> ".") (split_slash (str_chars name) []).

(** ** The identity paths *)

Definition _IDENTITY_PATHS : list (string * string) :=
  [("priv_validator_state_file", "data/priv_validator_state.json");
   ("priv_validator_key_file", "config/priv_validator_key.json");
   ("node_key_file", "config/node_key.json")].

(** [home / value] *)
Definition join_path (home : path) (name : string) : path :=
  if startswith "/" name then path_parts name else home ++ path_parts name.

Definition _resolve_identity_path (p : path) : path :=
  fold_left (λ current part, if decide (part = "..") then removelast current else current ++ [part]) p [].

Definition _home_relative_path (p home : path) : option path :=
  if decide (home `prefix_of` p /\ home <> p) then Some (drop (length home) p) else None.

Definition _application_root (name : string) : option string :=
  if decide (name ∈ _ROOTS) then Some name else None.

Section Protected.
Context (home_path : path) (path_is_dir : path -> bool).

Definition _protected_relative_path (v : value) : result (option path) :=
  match v with
  | VStr name =>
    let p := _resolve_identity_path (join_path home_path name) in
    if path_is_dir p then raise ValueError "configured identity path must be a file"
    else match _home_relative_path p home_path with
         | None | Some [] => Ok None
         | Some (part :: rest) =>
           match _application_root part with
           | None => Ok None
           | Some root => if decide (rest = []) then raise ValueError "configured identity path must be a file"
                          else Ok (Some (root :: rest))
           end
         end
  | _ => raise TypeError "unsupported identity path"
  end.

Definition _protected_paths (config : result (list (string * value))) : result (list path) :=
  config ← config;
  let configured := (λ kd, py_get kd.1 config (VStr kd.2)) <$> _IDENTITY_PATHS in
  found ← mapM_py _protected_relative_path (configured ++ (VStr <$> _IDENTITY_PATHS.*2));
  Ok (remove_dups (omap id found)).

Definition deep (p : path) : Prop := (2 <= length p)%nat.

Lemma protected_path_inside v p :
  _protected_relative_path v = Ok (Some p) -> exists root rest, p = root :: rest /\ root ∈ _ROOTS /\ deep p.
Proof.
  unfold _protected_relative_path. intros Hp. destruct v; try done. destruct (path_is_dir _); [done|].
  destruct (_home_relative_path _ _) as [[|part rest]|]; [done| |done]. unfold _application_root in Hp.
  case_decide; [|done]. case_decide; [done|]. simplify_eq. eexists _, _. split; [done|]. split; [done|].
  unfold deep. destruct rest; [done|]. cbn. lia.
Qed.

Lemma protected_paths_inside config protected p :
  _protected_paths config = Ok protected -> p ∈ protected -> exists root rest, p = root :: rest /\ root ∈ _ROOTS /\ deep p.
Proof.
  unfold _protected_paths. intros Hc Hp. destruct_result. apply elem_of_remove_dups, list_elem_of_omap in Hp as ([q|] & Hin & [= ->]).
  destruct (mapM_py_elem _ _ _ _ E0 Hin) as (v & _ & Hv). by eapply protected_path_inside.
Qed.
End Protected.

Section Restore.
Context (fold_name : string -> string).

Definition _path_key (p : path) : list string := fold_name <$> p.

Definition _member_path (m : member) : result path :=
  let parts := path_parts (m_name m) in
  if startswith "/" (m_name m) || bool_decide (".." ∈ parts) || bool_decide (ascii_of_byte 92 ∈ str_chars (m_name m)) then
    raise ValueError ("snapshot archive contains invalid path: " +:+ m_name m)
  else match m_kind m with
       | MOther => raise ValueError ("snapshot archive contains unsupported member: " +:+ m_name m)
       | _ => Ok parts
       end.

(** [local] and [key] relate as paths: [key.startswith(local + "/")] *)
Definition inside (local key : list string) : bool := bool_decide (local `prefix_of` key /\ local <> key).

Definition _is_protected_member (p : path) (m : member) (protected : list (list string)) : result bool :=
  let key := _path_key p in
  if decide (key ∈ protected) then
    if is_dir m then raise ValueError "snapshot directory conflicts with local identity" else Ok true
  else if existsb (λ local, inside local key) protected then
    raise ValueError "snapshot path is inside a local identity file"
  else if existsb (λ local, inside key local) protected && negb (is_dir m) then
    raise ValueError "snapshot file conflicts with local identity directory"
  else Ok false.

Definition _new_member (p : path) (m : member) (seen : list (list string * member)) : result (option (list (list string * member))) :=
  match list_find (λ km, km.1 = _path_key p) seen with
  | Some (_, (_, old)) => if is_dir m && is_dir old then Ok None
                          else raise ValueError "snapshot archive contains duplicate path"
  | None => Ok (Some (seen ++ [(_path_key p, m)]))
  end.

Definition selection : Type := list (list string * member) * list (member * path).

Definition select_member (protected : list (list string)) (acc : selection) (m : member) : result selection :=
  p ← _member_path m;
  match p with
  | [] => Ok acc
  | root :: rest =>
    if negb (bool_decide (root ∈ _ROOTS)) then Ok acc
    else if bool_decide (rest = []) && negb (is_dir m) then
      raise ValueError "snapshot application root must be a directory"
    else
      skip ← _is_protected_member p m protected;
      if (skip : bool) then Ok acc
      else fresh ← _new_member p m acc.1;
           match fresh with Some seen => Ok (seen, acc.2 ++ [(m, p)]) | None => Ok acc end
  end.

Definition _application_members (archive : list member) (protected : list path) : result (list (member * path)) :=
  acc ← foldM_py (select_member (_path_key <$> protected)) ([], []) archive;
  if negb (existsb (λ mp, is_file mp.1) acc.2) then raise ValueError "snapshot archive contains no application data"
  else Ok acc.2.

(** ** The file system *)

(** What happens at an operation; [keep] is what an interrupted removal or copy leaves of a tree. *)
Inductive io_event := Succeeds | Fails (keep : string -> tree -> option tree) | Crashes (keep : string -> tree -> option tree).

Record workspace := Workspace { staged : gmap string tree; backup : gmap string tree }.

(** The application roots below the home and the working directories, newest first. *)
Record world := World { home : gmap string tree; workspaces : list workspace; ops : nat }.

Inductive outcome (A : Type) := Done (a : A) | Failed (e : exn) | Crashed.
Arguments Done {_}. Arguments Failed {_}. Arguments Crashed {_}.
Definition ioM (A : Type) : Type := world -> outcome A * world.

#[local] Instance ioM_ret : MRet ioM := λ A a w, (Done a, w).
#[local] Instance ioM_bind : MBind ioM := λ A B f m w,
  match m w with (Done a, w) => f a w | (Failed e, w) => (Failed e, w) | (Crashed, w) => (Crashed, w) end.

(** [try: m except BaseException: h]; nothing runs after a crash. *)
Definition try_io {A} (m : ioM A) (h : exn -> ioM A) : ioM A := λ w,
  match m w with (Failed e, w) => h e w | r => r end.
Definition fail_io {A} (e : exn) : ioM A := λ w, (Failed e, w).
Definition of_result {A} (r : result A) : ioM A := λ w, match r with Ok a => (Done a, w) | Raise e => (Failed e, w) end.
Definition reads {A} (f : world -> A) : ioM A := λ w, (Done (f w), w).

Context (home_path : path) (path_is_dir : path -> bool) (io : nat -> io_event).

Definition tick (w : world) : world := World (home w) (workspaces w) (S (ops w)).

(** One operation: [f] when it succeeds, [g] of what remains otherwise. *)
Definition os_op (f : world -> world) (g : (string -> tree -> option tree) -> world -> world) : ioM unit := λ w,
  match io (ops w) with
  | Succeeds => (Done tt, f (tick w))
  | Fails keep => (Failed (Exn OSError "input/output error"), g keep (tick w))
  | Crashes keep => (Crashed, g keep (tick w))
  end.
(** An operation that happens or does not: [rename], [mkdir], opening a file. *)
Definition atomic (f : world -> world) : ioM unit := os_op f (λ _ w, w).

Definition with_home (h : gmap string tree) (w : world) : world := World h (workspaces w) (ops w).
Definition with_workspaces (l : list workspace) (w : world) : world := World (home w) l (ops w).
Definition current (w : world) : workspace := match workspaces w with ws :: _ => ws | [] => Workspace ∅ ∅ end.
Definition with_current (ws : workspace) (w : world) : world :=
  World (home w) (ws :: tail (workspaces w)) (ops w).

Definition partly (keep : string -> tree -> option tree) (m : gmap string tree) : gmap string tree := map_imap keep m.

(** [shutil.rmtree(home / name)] *)
Definition rmtree_home (name : string) : ioM unit :=
  os_op (λ w, with_home (delete name (home w)) w)
        (λ keep w, with_home (partial_alter (λ o, o ≫= keep name) name (home w)) w).

(** [shutil.rmtree(workspace)] *)
Definition rmtree_workspace : ioM unit :=
  os_op (λ w, with_workspaces (tail (workspaces w)) w)
        (λ keep w, with_current (Workspace (partly keep (staged (current w))) (partly keep (backup (current w)))) w).

(** [(home / name).rename(backup / name)] and [(staged / name).rename(home / name)] *)
Definition move_aside (name : string) : ioM unit :=
  atomic (λ w, match home w !! name with
               | Some t => with_current (Workspace (staged (current w)) (<[name := t]> (backup (current w))))
                             (with_home (delete name (home w)) w)
               | None => w end).
Definition move_in (name : string) : ioM unit :=
  atomic (λ w, match staged (current w) !! name with
               | Some t => with_current (Workspace (delete name (staged (current w))) (backup (current w)))
                             (with_home (<[name := t]> (home w)) w)
               | None => w end).
(** [original.rename(destination)] in [_rollback] *)
Definition move_back (name : string) : ioM unit :=
  atomic (λ w, match backup (current w) !! name with
               | Some t => with_current (Workspace (staged (current w)) (delete name (backup (current w))))
                             (with_home (<[name := t]> (home w)) w)
               | None => w end).

Fixpoint forM_io {A} (l : list A) (f : A -> ioM unit) : ioM unit :=
  match l with [] => mret tt | x :: l => f x ≫= λ _, forM_io l f end.

(** ** Extraction *)

Definition stage (root : string) (f : tree -> result tree) : ioM unit :=
  t ← reads (λ w, default ∅ (staged (current w) !! root));
  t ← of_result (f t);
  os_op (λ w, with_current (Workspace (<[root := t]> (staged (current w))) (backup (current w))) w)
        (λ keep w, with_current (Workspace (partial_alter (λ _, keep root t) root (staged (current w))) (backup (current w))) w).

Definition extract_member (mp : member * path) : ioM unit :=
  match mp.2 with
  | [] => mret tt
  | root :: rest => stage root (match m_kind mp.1 with
                                | MFile content => write_new rest content
                                | _ => mkdir_p rest end)
  end.

Definition _extract_application_data (archive : list member) (protected : list path) : ioM unit :=
  members ← of_result (_application_members archive protected);
  forM_io members extract_member.

Definition preserve_one (p : path) : ioM unit :=
  match p with
  | [] => mret tt
  | root :: rest =>
    source ← reads (λ w, home w !! root ≫= λ t, t !! rest);
    match source with
    | Some (EFile content) => stage root (copy_over rest content)
    | Some EDir => fail_io (Exn OSError "is a directory")
    | None => mret tt
    end
  end.

Definition _preserve_identity (protected : list path) : ioM unit := forM_io protected preserve_one.

(** ** Publication *)

Definition rollback_root (published : list string) (name : string) : ioM unit :=
  (if decide (name ∈ published) then rmtree_home name else mret tt) ≫= λ _,
  original ← reads (λ w, backup (current w) !! name);
  match original with Some _ => move_back name | None => mret tt end.

Definition _rollback (published : list string) : ioM unit := forM_io (reverse _ROOTS) (rollback_root published).

Definition publish_root (name : string) : ioM unit :=
  destination ← reads (λ w, home w !! name);
  match destination with Some _ => move_aside name | None => mret tt end ≫= λ _, move_in name.

(** The loop of [_publish] with its handler; [published] are the names already in place. *)
Fixpoint publish_loop (names published : list string) : ioM unit :=
  match names with
  | [] => mret tt
  | name :: names =>
    try_io (publish_root name)
      (λ e, try_io (_rollback published)
              (λ _, fail_io (Exn RuntimeError "snapshot rollback failed; recover original data from the backup")) ≫= λ _,
            fail_io e) ≫= λ _,
    publish_loop names (published ++ [name])
  end.
Definition _publish : ioM unit := publish_loop _ROOTS [].

(** ** The restore *)

Context (read_lmdb : tree -> lmdb_state).

Definition check_home_result (w : world) : result unit :=
  if existsb (λ ws, negb (bool_decide (backup ws = ∅))) (workspaces w) then
    raise ValueError "incomplete snapshot restore requires recovery"
  else if existsb (λ name, match home w !! name with
                           | Some t => negb (bool_decide (t !! [] = Some EDir)) | None => false end) _ROOTS then
    raise ValueError "snapshot application root must be a directory"
  else Ok tt.
Definition _check_home : ioM unit := λ w, of_result (check_home_result w) w.

Definition persisted_policy (t : option tree) : result bool :=
  validate_persisted_execution_policy (t ≫= read_lmdb).

Definition empty_root : tree := {[ [] := EDir ]}.

Definition restore_body (archive : list member) (protected : list path) : ioM unit :=
  _extract_application_data archive protected ≫= λ _,
  t ← reads (λ w, staged (current w) !! "xian");
  valid ← of_result (persisted_policy t);
  (if (valid : bool) then mret tt else fail_io (Exn ValueError "snapshot is missing its execution policy")) ≫= λ _,
  _preserve_identity protected ≫= λ _,
  _publish.

(** [config] is what loading the configuration file gives. *)
Definition _restore_application_archive (archive : list member) (config : result (list (string * value))) : ioM unit :=
  _check_home ≫= λ _,
  t ← reads (λ w, home w !! "xian");
  _ ← of_result (persisted_policy t);
  protected ← of_result (_protected_paths home_path path_is_dir config);
  atomic (λ w, with_workspaces (Workspace ∅ ∅ :: workspaces w) w) ≫= λ _,
  atomic id ≫= λ _,
  forM_io _ROOTS (λ name, stage name (λ _, Ok empty_root)) ≫= λ _,
  try_io (restore_body archive protected)
    (λ e, b ← reads (λ w, backup (current w));
          (if decide (b = ∅) then rmtree_workspace else mret tt) ≫= λ _, fail_io e) ≫= λ _,
  rmtree_workspace.

(** [locked]: another restore holds the lock file. *)
Definition restore_application_archive (locked : bool) (archive : list member)
    (config : result (list (string * value))) : ioM unit :=
  if locked then fail_io (Exn ValueError "another snapshot restore is already running")
  else _restore_application_archive archive config.

(** ** What a restore is meant to do *)

(** The staged roots, without the file system: what the archive extracts to, with the
    identity files of [home] over it. *)
Definition stage_pure (root : string) (f : tree -> result tree) (s : gmap string tree) : result (gmap string tree) :=
  t ← f (default ∅ (s !! root)); Ok (<[root := t]> s).

Definition extract_pure (s : gmap string tree) (mp : member * path) : result (gmap string tree) :=
  match mp.2 with
  | [] => Ok s
  | root :: rest => stage_pure root (match m_kind mp.1 with
                                     | MFile content => write_new rest content
                                     | _ => mkdir_p rest end) s
  end.

Definition preserve_pure (h : gmap string tree) (s : gmap string tree) (p : path) : result (gmap string tree) :=
  match p with
  | [] => Ok s
  | root :: rest => match h !! root ≫= (λ t, t !! rest) with
                    | Some (EFile content) => stage_pure root (copy_over rest content) s
                    | Some EDir => Raise (Exn OSError "is a directory")
                    | None => Ok s
                    end
  end.

Definition empty_roots : gmap string tree := <["xian" := empty_root]> (<["data" := empty_root]> ∅).

Definition new_roots (archive : list member) (protected : list path) (h : gmap string tree) : result (gmap string tree) :=
  members ← _application_members archive protected;
  s ← foldM_py extract_pure empty_roots members;
  valid ← persisted_policy (s !! "xian");
  if (valid : bool) then foldM_py (preserve_pure h) s protected
  else raise ValueError "snapshot is missing its execution policy".

Definition restore_spec (archive : list member) (config : result (list (string * value))) (w : world) :
    result (gmap string tree) :=
  _ ← check_home_result w;
  _ ← persisted_policy (home w !! "xian");
  protected ← _protected_paths home_path path_is_dir config;
  new_roots archive protected (home w).

(** The home once [new] is published over [h]. *)
Definition published_over (h new h' : gmap string tree) : Prop :=
  forall name, h' !! name = if decide (name ∈ _ROOTS) then new !! name else h !! name.

(** ** Reasoning about sequences of operations *)

(** The postconditions of the three ways a computation ends. *)
Definition wp {A} (m : ioM A) (Q : A -> world -> Prop) (F : exn -> world -> Prop) (C : world -> Prop) (w : world) : Prop :=
  match m w with
  | (Done a, w) => Q a w
  | (Failed e, w) => F e w
  | (Crashed, w) => C w
  end.

Lemma wp_bind {A B} (m : ioM A) (f : A -> ioM B) Q F C w :
  wp m (λ a, wp (f a) Q F C) F C w -> wp (m ≫= f) Q F C w.
Proof. unfold wp, mbind, ioM_bind. destruct (m w) as [[a|e|] w']; done. Qed.

Lemma wp_try {A} (m : ioM A) h Q F C w :
  wp m Q (λ e, wp (h e) Q F C) C w -> wp (try_io m h) Q F C w.
Proof. unfold wp, try_io. destruct (m w) as [[a|e|] w']; done. Qed.

Lemma wp_mono {A} (m : ioM A) (Q Q' : A -> world -> Prop) (F F' : exn -> world -> Prop) (C C' : world -> Prop) w :
  wp m Q F C w ->
  (forall a w', Q a w' -> Q' a w') -> (forall e w', F e w' -> F' e w') -> (forall w', C w' -> C' w') ->
  wp m Q' F' C' w.
Proof. unfold wp. destruct (m w) as [[a|e|] w']; eauto. Qed.

Lemma wp_result {A} (r : result A) (Q : A -> world -> Prop) (F : exn -> world -> Prop) C w :
  (forall a, r = Ok a -> Q a w) -> (forall e, r = Raise e -> F e w) -> wp (of_result r) Q F C w.
Proof. unfold wp, of_result. destruct r; eauto. Qed.

(** No operation fails. *)
Definition healthy : Prop := forall n, io n = Succeeds.

Lemma wp_os_op f g (Q : unit -> world -> Prop) (F : exn -> world -> Prop) (C : world -> Prop) w :
  Q tt (f (tick w)) ->
  (forall keep e, ~ healthy -> F e (g keep (tick w))) ->
  (forall keep, ~ healthy -> C (g keep (tick w))) ->
  wp (os_op f g) Q F C w.
Proof.
  intros HQ HF HC. unfold wp, os_op. destruct (io (ops w)) as [|keep|keep] eqn:E; [done|apply HF|apply HC];
    intros Hio; by rewrite Hio in E.
Qed.

(** A loop that establishes [I] of the rest of the list. *)
Lemma wp_for {A} (f : A -> ioM unit) (I : list A -> world -> Prop) F C l w :
  (forall x l w, I (x :: l) w -> wp (f x) (λ _, I l) F C w) ->
  I l w -> wp (forM_io l f) (λ _, I []) F C w.
Proof.
  intros Hstep. revert w. induction l as [|x l IH]; intros w HI; [done|].
  cbn [forM_io]. apply wp_bind. eapply wp_mono; [by apply Hstep| |done|done]. auto.
Qed.

(** ** Staging *)

Section From.
Context (h0 : gmap string tree) (ws0 : list workspace).

Definition staging (s : gmap string tree) (w : world) : Prop :=
  home w = h0 /\ workspaces w = Workspace s ∅ :: ws0.
Definition idle (w : world) : Prop := exists s, staging s w.

(** [m] stages what [r] says, or leaves the home as it is. *)
Definition stages (m : ioM unit) (r : result (gmap string tree)) : world -> Prop :=
  wp m (λ _ w, exists s, r = Ok s /\ staging s w)
       (λ e w, idle w /\ (healthy -> r = Raise e)) (λ w, idle w /\ ~ healthy).

Lemma stage_stages root f s w : staging s w -> stages (stage root f) (stage_pure root f s) w.
Proof.
  intros [Hh Hws]. unfold stage, stages, stage_pure. apply wp_bind. unfold reads, wp at 1.
  unfold current. rewrite Hws. cbn [staged]. apply wp_bind, wp_result.
  - intros t Ht. rewrite Ht. apply wp_os_op.
    + eexists. split; [done|]. split; [done|]. unfold current; cbn; by rewrite Hws.
    + intros keep e Hio. split; [|done]. eexists. split; [done|]. unfold current; cbn; by rewrite Hws.
    + intros keep Hio. split; [|done]. eexists. split; [done|]. unfold current; cbn; by rewrite Hws.
  - intros e ->. split; [|done]. by exists s.
Qed.

Lemma extract_stages mp s w : staging s w -> stages (extract_member mp) (extract_pure s mp) w.
Proof.
  intros Hs. unfold extract_member, extract_pure. destruct (mp.2); [by eexists|]. by apply stage_stages.
Qed.

Lemma preserve_stages p s w : staging s w -> stages (preserve_one p) (preserve_pure h0 s p) w.
Proof.
  intros Hs. unfold preserve_one, preserve_pure. destruct p as [|root rest]; [by eexists|].
  unfold stages. apply wp_bind. unfold reads, wp at 1. rewrite (proj1 Hs).
  destruct (h0 !! root ≫= _) as [[|content]|]; [|by apply stage_stages|by eexists].
  unfold fail_io, wp. split; [by exists s|done].
Qed.

Lemma stages_for {A} (f : A -> ioM unit) (g : gmap string tree -> A -> result (gmap string tree)) l s w :
  (forall x s w, staging s w -> stages (f x) (g s x) w) ->
  staging s w -> stages (forM_io l f) (foldM_py g s l) w.
Proof.
  intros Hstep. revert s w. induction l as [|x l IH]; intros s w Hs; [by eexists|].
  cbn [forM_io foldM_py]. apply wp_bind. eapply wp_mono; [by apply Hstep| |intros e w' [Hi He]|done].
  - intros [] w' (s' & -> & Hs'). by apply IH.
  - split; [done|]. intros Hio. by rewrite (He Hio).
Qed.

(** ** Publication *)

(** Every original root is in place, or in the backup. *)
Definition root_safe (w : world) (name : string) : Prop :=
  (home w !! name = h0 !! name /\ backup (current w) !! name = None) \/ backup (current w) !! name = h0 !! name.
Definition safe (w : world) : Prop := workspaces w = current w :: ws0 /\ forall name, root_safe w name.

(** The roots [done] are published, the others wait. *)
Definition publishing (new : gmap string tree) (done : list string) (w : world) : Prop :=
  workspaces w = current w :: ws0 /\
  forall name, if decide (name ∈ done) then home w !! name = new !! name /\ backup (current w) !! name = h0 !! name
               else home w !! name = h0 !! name /\ backup (current w) !! name = None /\
                    (staged (current w) !! name = new !! name).

(** A rollback may remove [published]: their originals are in the backup. *)
Definition rolling (published : list string) (w : world) : Prop :=
  safe w /\ forall name, name ∈ published -> backup (current w) !! name = h0 !! name.

Lemma publishing_rolling new done w : publishing new done w -> rolling done w.
Proof.
  intros [Hws Hn]. split; [split; [done|]|].
  - intros name. specialize (Hn name). unfold root_safe. case_decide; naive_solver.
  - intros name Hin. specialize (Hn name). rewrite decide_True in Hn by done. by destruct Hn.
Qed.

Lemma publish_root_step new done name w :
  name ∉ done -> is_Some (new !! name) -> publishing new done w ->
  wp (publish_root name) (λ _, publishing new (done ++ [name]))
     (λ e w, ~ healthy /\ rolling done w) (λ w, ~ healthy /\ safe w) w.
Proof.
  intros Hnd [t Ht] [Hws Hn]. pose proof (Hn name) as Hname. rewrite decide_False in Hname by done.
  destruct Hname as (Hh & Hb & Hst).
  assert (Hin : forall w', (home w' !! name = None \/ home w' !! name = h0 !! name) ->
            workspaces w' = current w' :: ws0 -> backup (current w') !! name = h0 !! name ->
            staged (current w') = staged (current w) ->
            (forall x, x <> name -> home w' !! x = home w !! x /\ backup (current w') !! x = backup (current w) !! x) ->
            wp (move_in name) (λ _, publishing new (done ++ [name]))
               (λ e w, ~ healthy /\ rolling done w) (λ w, ~ healthy /\ safe w) w').
  { intros w' Hh' Hws' Hb' Hst' Hrest.
    assert (Hroll : rolling done (tick w')).
    { split; [split; [done|]|].
      - intros x. unfold root_safe. destruct (decide (x = name)) as [-> | Hx]; [by right|].
        destruct (Hrest x Hx) as [E1 E2]. specialize (Hn x). change (current (tick w')) with (current w').
        change (home (tick w')) with (home w'). rewrite E1, E2. case_decide; naive_solver.
      - intros x Hx. assert (x <> name) as Hne by congruence. destruct (Hrest x Hne) as [_ E2].
        change (current (tick w')) with (current w'). rewrite E2. specialize (Hn x).
        rewrite decide_True in Hn by done. by destruct Hn. }
    apply wp_os_op; [|by intros; split|by intros ? ?; split; [|apply Hroll]].
    change (current (tick w')) with (current w'). rewrite Hst', Hst, Ht.
    split; [cbn; by rewrite Hws'|]. intros x. cbn. destruct (decide (x = name)) as [-> | Hx].
    - rewrite decide_True; [|apply elem_of_app; right; by left]. rewrite lookup_insert_eq. split; [done|]. exact Hb'.
    - destruct (Hrest x Hx) as [E1 E2]. specialize (Hn x). rewrite lookup_insert_ne; [|done].
      rewrite lookup_delete_ne; [|done]. rewrite E1, E2. destruct (decide (x ∈ done)) as [Hd|Hd].
      + rewrite decide_True; [done|]. apply elem_of_app. by left.
      + rewrite decide_False; [done|]. rewrite elem_of_app, list_elem_of_singleton. naive_solver. }
  unfold publish_root. apply wp_bind. unfold reads, wp at 1. apply wp_bind.
  destruct (home w !! name) as [old|] eqn:Hold.
  - apply wp_os_op.
    + cbn. rewrite Hold. apply Hin; cbn.
      * left. apply lookup_delete_eq.
      * by rewrite Hws.
      * by rewrite lookup_insert_eq.
      * done.
      * intros x Hx. rewrite lookup_delete_ne; [|done]. by rewrite lookup_insert_ne.
    + intros _ e Hio. split; [done|]. by apply (publishing_rolling new).
    + intros _ Hio. split; [done|]. apply (publishing_rolling new done). done.
  - apply Hin; [by left|done| |done|done]. by rewrite Hb.
Qed.

Lemma move_back_step name w :
  safe w -> is_Some (backup (current w) !! name) ->
  wp (move_back name)
     (λ _ w', safe w' /\ forall x, x <> name -> backup (current w') !! x = backup (current w) !! x)
     (λ _, safe) safe w.
Proof.
  intros [Hws Hs] [t Ht]. apply wp_os_op; [|by intros; split|by intros; split].
  change (current (tick w)) with (current w). rewrite Ht. cbn. split; [split|].
  - cbn. by rewrite Hws.
  - intros x. unfold root_safe. cbn. specialize (Hs x). destruct (decide (x = name)) as [-> | Hx].
    + left. rewrite lookup_insert_eq, lookup_delete_eq. split; [|done]. destruct Hs as [[_ Hb]|Hb]; congruence.
    + rewrite lookup_insert_ne by done. rewrite lookup_delete_ne by done. exact Hs.
  - intros x Hx. by rewrite lookup_delete_ne.
Qed.

Lemma rmtree_home_step name w :
  safe w -> backup (current w) !! name = h0 !! name ->
  wp (rmtree_home name) (λ _ w', safe w' /\ current w' = current w) (λ _, safe) safe w.
Proof.
  intros [Hws Hs] Hb.
  assert (Hframe : forall f, safe (with_home (partial_alter f name (home w)) (tick w))).
  { intros f. split; [done|]. intros x. unfold root_safe.
    change (current (with_home _ _)) with (current w). cbn.
    destruct (decide (x = name)) as [-> | Hx]; [by right|]. rewrite lookup_partial_alter_ne by done. apply Hs. }
  apply wp_os_op; [|intros; apply Hframe|intros; apply Hframe]. split; [apply Hframe|done].
Qed.

Lemma rollback_root_step published name l w :
  NoDup (name :: l) -> safe w ->
  (forall x, x ∈ published -> x ∈ name :: l -> backup (current w) !! x = h0 !! x) ->
  wp (rollback_root published name)
     (λ _ w', safe w' /\ forall x, x ∈ published -> x ∈ l -> backup (current w') !! x = h0 !! x)
     (λ _, safe) safe w.
Proof.
  intros [Hnl _]%NoDup_cons Hs Hp. unfold rollback_root. apply wp_bind.
  apply (wp_mono _ (λ _ w', safe w' /\ current w' = current w) _ (λ _, safe) _ safe);
    [|intros [] w' [Hs' Hc]|done|done].
  - case_decide as Hin; [|by split]. apply rmtree_home_step; [done|]. apply Hp; [done|by left].
  - apply wp_bind. unfold reads, wp at 1. destruct (backup (current w') !! name) eqn:Hb.
    + eapply wp_mono; [apply move_back_step; [done|by rewrite Hb]| |done|done].
      intros [] w2 [Hs2 Hrest]. split; [done|]. intros x Hx Hl.
      rewrite Hrest by congruence. rewrite Hc. apply Hp; [done|by right].
    + split; [done|]. intros x Hx Hl. rewrite Hc. apply Hp; [done|by right].
Qed.

Lemma rollback_safe published w :
  rolling published w -> wp (_rollback published) (λ _, safe) (λ _, safe) safe w.
Proof.
  intros [Hs Hp]. unfold _rollback.
  eapply wp_mono; [apply (wp_for _ (λ l w', NoDup l /\ safe w' /\
    forall x, x ∈ published -> x ∈ l -> backup (current w') !! x = h0 !! x) (λ _, safe) safe)| |done|done].
  - intros x l w' (Hnd & Hs' & Hp'). eapply wp_mono; [by apply (rollback_root_step published x l)| |done|done].
    intros [] w2 [Hs2 Hp2]. apply NoDup_cons in Hnd as [_ Hnd]. done.
  - split; [|by split; [|auto]]. apply (bool_decide_unpack _). by vm_compute.
  - intros ? ? Hx. apply Hx.
Qed.

Lemma publish_loop_step new names done w :
  NoDup (done ++ names) -> (forall name, name ∈ names -> is_Some (new !! name)) -> publishing new done w ->
  wp (publish_loop names done) (λ _, publishing new (done ++ names))
     (λ e w, ~ healthy /\ safe w) (λ w, ~ healthy /\ safe w) w.
Proof.
  revert done w. induction names as [|name names IH]; intros done w Hnd Hnew Hp.
  { cbn. unfold wp, mret, ioM_ret. by rewrite app_nil_r. }
  cbn [publish_loop]. apply wp_bind, wp_try.
  eapply wp_mono; [apply publish_root_step; [|apply Hnew; by left|done]| | |done].
  - apply NoDup_app in Hnd as (_ & Hd & _). intros Hin. apply (Hd _ Hin). by left.
  - intros [] w' Hp'. rewrite (cons_middle name done names), (assoc_L (++) done [name] names) in Hnd |- *.
    apply IH; [done| |done].
    intros x Hx. apply Hnew. by right.
  - intros e w' [Hio Hr]. apply wp_bind, wp_try.
    eapply wp_mono; [by apply rollback_safe| | |]; cbn; intros; by split.
Qed.

Lemma idle_safe w : idle w -> safe w.
Proof.
  intros (s & Hh & Hws). unfold safe, root_safe, current. rewrite Hws, Hh. cbn. split; [done|].
  intros name. left. split; [done|apply lookup_empty].
Qed.

Lemma staging_publishing s w : staging s w -> publishing s [] w.
Proof.
  intros [Hh Hws]. unfold publishing, current. rewrite Hws, Hh. cbn. split; [done|].
  intros name. rewrite decide_False by (by intros ?%elem_of_nil). rewrite lookup_empty. done.
Qed.

(** The staged roots exist whatever is staged. *)
Definition has_roots (s : gmap string tree) : Prop := forall name, name ∈ _ROOTS -> is_Some (s !! name).

Lemma stage_pure_roots root f s s' : stage_pure root f s = Ok s' -> has_roots s -> has_roots s'.
Proof.
  unfold stage_pure. intros Hs Hr name Hin. destruct_result.
  destruct (decide (name = root)) as [-> | Hne]; [by rewrite lookup_insert_eq|].
  rewrite lookup_insert_ne by done. by apply Hr.
Qed.

Lemma foldM_roots {A} (g : gmap string tree -> A -> result (gmap string tree)) l s s' :
  (forall x s s', g s x = Ok s' -> has_roots s -> has_roots s') ->
  foldM_py g s l = Ok s' -> has_roots s -> has_roots s'.
Proof.
  intros Hg. revert s. induction l as [|x l IH]; intros s Hs Hr; cbn in Hs; [by simplify_eq|].
  destruct (g s x) as [s1|] eqn:E; [|done]. cbn in Hs. eauto.
Qed.

Lemma empty_roots_roots : has_roots empty_roots.
Proof. intros name Hin. apply list_elem_of_In in Hin. cbn in Hin. destruct Hin as [<-|[<-|[]]]; by eexists. Qed.

Lemma extract_pure_roots mp s s' : extract_pure s mp = Ok s' -> has_roots s -> has_roots s'.
Proof. unfold extract_pure. destruct (mp.2); [by intros [= ->]|]. apply stage_pure_roots. Qed.

Lemma preserve_pure_roots h p s s' : preserve_pure h s p = Ok s' -> has_roots s -> has_roots s'.
Proof.
  unfold preserve_pure. destruct p as [|root rest]; [by intros [= ->]|].
  destruct (h !! root ≫= _) as [[]|]; [done|apply stage_pure_roots|by intros [= ->]].
Qed.

Lemma new_roots_roots archive protected h new : new_roots archive protected h = Ok new -> has_roots new.
Proof.
  unfold new_roots. intros Hn. destruct_result.
  destruct a1; [|done]. eapply foldM_roots; [apply preserve_pure_roots|done|].
  eapply foldM_roots; [apply extract_pure_roots|done|apply empty_roots_roots].
Qed.

Lemma stages_mono m r (Q : unit -> world -> Prop) (F : exn -> world -> Prop) (C : world -> Prop) w :
  stages m r w -> (forall s w', r = Ok s -> staging s w' -> Q tt w') ->
  (forall e w', idle w' -> (healthy -> r = Raise e) -> F e w') -> (forall w', idle w' -> ~ healthy -> C w') ->
  wp m Q F C w.
Proof.
  intros Hm HQ HF HC. eapply wp_mono; [exact Hm|intros [] w' (s & Hr & Hs); eauto|intros e w' []; eauto|intros w' []; eauto].
Qed.

Lemma restore_body_step archive protected w :
  staging empty_roots w ->
  wp (restore_body archive protected)
     (λ _ w', exists new, new_roots archive protected h0 = Ok new /\ publishing new _ROOTS w')
     (λ e w', safe w' /\ (healthy -> idle w' /\ new_roots archive protected h0 = Raise e))
     (λ w', safe w' /\ ~ healthy) w.
Proof.
  intros Hst. unfold restore_body, _extract_application_data. apply wp_bind, wp_bind.
  remember (new_roots archive protected h0) as spec eqn:Hspec. unfold new_roots in Hspec.
  apply wp_result; [intros members Em|intros e Ee].
  2: { rewrite Ee in Hspec. split; [apply idle_safe; by eexists|]. intros _. split; [by eexists|done]. }
  rewrite Em in Hspec. cbn [mbind result_bind] in Hspec.
  eapply stages_mono; [by apply (stages_for _ extract_pure); [intros; by apply extract_stages|]| | |].
  2: { intros e w' Hi He. split; [by apply idle_safe|]. intros Hio. rewrite (He Hio) in Hspec. done. }
  2: { intros w' Hi Hio. split; [by apply idle_safe|done]. }
  intros s w1 Es Hs1. rewrite Es in Hspec. cbn [mbind result_bind] in Hspec.
  apply wp_bind. unfold reads, wp at 1. unfold current. rewrite (proj2 Hs1). cbn [staged].
  apply wp_bind, wp_result; [intros valid Ev|intros e Ee].
  2: { rewrite Ee in Hspec. split; [apply idle_safe; by eexists|]. intros _. split; [by eexists|done]. }
  rewrite Ev in Hspec. cbn [mbind result_bind] in Hspec. apply wp_bind. destruct valid.
  2: { split; [apply idle_safe; by eexists|]. intros _. split; [by eexists|done]. }
  unfold mret, ioM_ret, wp at 1. apply wp_bind.
  eapply stages_mono; [by apply (stages_for _ (preserve_pure h0)); [intros; by apply preserve_stages|]| | |].
  2: { intros e w' Hi He. split; [by apply idle_safe|]. intros Hio. by rewrite Hspec, (He Hio). }
  2: { intros w' Hi Hio. split; [by apply idle_safe|done]. }
  intros new w2 En Hs2. rewrite En in Hspec.
  assert (Hroots : has_roots new).
  { apply (new_roots_roots archive protected h0). unfold new_roots. rewrite Em. cbn [mbind result_bind].
    rewrite Es. cbn [mbind result_bind]. by rewrite Ev. }
  eapply wp_mono; [apply (publish_loop_step new _ROOTS []); [|done|by apply staging_publishing]| | |].
  - apply (bool_decide_unpack _). by vm_compute.
  - intros [] w3 Hp. by exists new.
  - intros e w3 [Hio Hsafe]. split; [done|]. by intros ?.
  - intros w3 [Hio Hsafe]. by split.
Qed.

(** Every original root is at its place or in a backup. *)
Definition recoverable (w : world) : Prop :=
  forall name t, h0 !! name = Some t ->
    home w !! name = Some t \/ exists ws, ws ∈ workspaces w /\ backup ws !! name = Some t.

Lemma safe_recoverable w : safe w -> recoverable w.
Proof.
  intros [Hws Hs] name t Ht. destruct (Hs name) as [[Hh _]|Hb]; [left; congruence|right].
  exists (current w). rewrite Hws. split; [by left|congruence].
Qed.

(** The handler of a failed restore removes the working directory only when nothing is in
    the backup. *)
Lemma cleanup_recoverable w :
  safe w ->
  wp (if decide (backup (current w) = ∅) then rmtree_workspace else mret tt)
     (λ _ w', recoverable w' /\ (idle w -> home w' = h0 /\ workspaces w' = ws0))
     (λ _ w', recoverable w' /\ ~ healthy) (λ w', recoverable w' /\ ~ healthy) w.
Proof.
  intros Hsafe. case_decide as Hb.
  - assert (Hrec : forall w', home w' = home w -> recoverable w').
    { intros w' Hw' name t Ht. left. rewrite Hw'. destruct (proj2 Hsafe name) as [[Hh _]|Hb']; [congruence|].
      by rewrite Hb, lookup_empty, Ht in Hb'. }
    apply wp_os_op; [|intros; split; [by apply Hrec|done]|intros; split; [by apply Hrec|done]].
    split; [by apply Hrec|]. intros (s & Hh & Hws). split; [done|]. cbn. by rewrite Hws.
  - split; [by apply safe_recoverable|]. intros (s & Hh & Hws). unfold current in Hb. by rewrite Hws in Hb.
Qed.
End From.

Definition published (archive : list member) (config : result (list (string * value))) (w w' : world) : Prop :=
  exists new, restore_spec archive config w = Ok new /\ published_over (home w) new (home w').

Lemma publishing_published archive config ws0 new w w' :
  restore_spec archive config w = Ok new -> publishing (home w) ws0 new _ROOTS w' -> published archive config w w'.
Proof.
  intros Hspec [_ Hp]. exists new. split; [done|]. intros name. specialize (Hp name). case_decide; naive_solver.
Qed.

Lemma restore_outcome archive config w :
  wp (_restore_application_archive archive config)
     (λ _ w', published archive config w w' /\ workspaces w' = workspaces w)
     (λ e w', (published archive config w w' \/ recoverable (home w) w') /\
              (healthy -> restore_spec archive config w = Raise e /\ home w' = home w /\ workspaces w' = workspaces w))
     (λ w', (published archive config w w' \/ recoverable (home w) w') /\ ~ healthy) w.
Proof.
  set (F := λ e w', (published archive config w w' \/ recoverable (home w) w') /\
              (healthy -> restore_spec archive config w = Raise e /\ home w' = home w /\ workspaces w' = workspaces w)).
  set (C := λ w', (published archive config w w' \/ recoverable (home w) w') /\ ~ healthy).
  assert (Hrefl : forall w', home w' = home w -> recoverable (home w) w') by (intros w' E name t; rewrite E; auto).
  assert (HF : forall e w', recoverable (home w) w' -> ~ healthy -> F e w') by (split; [by right|done]).
  assert (HC : forall w', recoverable (home w) w' -> ~ healthy -> C w') by (split; [by right|done]).
  remember (restore_spec archive config w) as spec eqn:Hdef. pose proof Hdef as Hspec. unfold restore_spec in Hspec.
  unfold _restore_application_archive. apply wp_bind. unfold _check_home, wp at 1, of_result at 1.
  destruct (check_home_result w) as [[]|e]; cbn [mbind result_bind] in Hspec; [|by split; [right; apply Hrefl|rewrite Hspec]].
  apply wp_bind. unfold reads, wp at 1. apply wp_bind, wp_result; [intros b Eb|intros e Ee].
  2: { rewrite Ee in Hspec. split; [right; by apply Hrefl|]. by rewrite Hspec. }
  rewrite Eb in Hspec. cbn [mbind result_bind] in Hspec.
  apply wp_bind, wp_result; [intros protected Ep|intros e Ee].
  2: { rewrite Ee in Hspec. split; [right; by apply Hrefl|]. by rewrite Hspec. }
  rewrite Ep in Hspec. cbn [mbind result_bind] in Hspec.
  apply wp_bind, wp_os_op; [|by intros; apply HF; [apply Hrefl|]|by intros; apply HC; [apply Hrefl|]].
  apply wp_bind, wp_os_op; [|by intros; apply HF; [apply Hrefl|]|by intros; apply HC; [apply Hrefl|]].
  apply wp_bind. eapply (stages_mono (home w) (workspaces w)).
  - apply (stages_for _ _ _ (λ s name, stage_pure name (λ _, Ok empty_root) s)); [intros; by apply stage_stages|done].
  - intros s w1 [= <-] Hs1. apply wp_bind, wp_try.
    eapply wp_mono; [by apply (restore_body_step (home w) (workspaces w))| | |].
    + intros [] w2 (new & En & Hp). rewrite En in Hspec.
      assert (Hpub : published archive config w w2).
      { eapply publishing_published; [by rewrite <- Hdef|done]. }
      apply wp_os_op.
      * split; [exact Hpub|]. cbn. by rewrite (proj1 Hp).
      * intros keep e Hio. split; [by left|done].
      * intros keep Hio. split; [by left|done].
    + intros e w2 [Hsafe He]. pose proof (cleanup_recoverable (home w) (workspaces w) w2 Hsafe) as Hc.
      apply wp_bind. unfold wp at 1. apply wp_bind. eapply wp_mono; [exact Hc| | |].
      * intros [] w3 [Hr Hi]. split; [by right|]. intros Hio. destruct (He Hio) as [Hidle En].
        split; [by rewrite Hspec|]. by apply Hi.
      * intros e' w3 []. by apply HF.
      * intros w3 []. by apply HC.
    + intros w2 [Hsafe Hio]. apply HC; [by eapply safe_recoverable|done].
  - intros e w1 (s & Hh & _) He. apply HF; [by apply Hrefl|]. intros Hio. by specialize (He Hio).
  - intros w1 (s & Hh & _) Hio. apply HC; [by apply Hrefl|done].
Qed.

(** ** The identity files *)

(** What stands at a path below the home. *)
Definition at_path (s : gmap string tree) (p : path) : option entry :=
  match p with [] => None | root :: rest => s !! root ≫= λ t, t !! rest end.

Lemma stage_pure_at root f s s' r x :
  stage_pure root f s = Ok s' -> x <> [] ->
  (r = root -> forall t t', f t = Ok t' -> t' !! x = t !! x) ->
  at_path s' (r :: x) = at_path s (r :: x).
Proof.
  unfold stage_pure, at_path. intros Hs Hx Hf. destruct_result. destruct (decide (r = root)) as [-> | Hr].
  - rewrite lookup_insert_eq. cbn. rewrite (Hf eq_refl _ _ E). destruct (s !! root); cbn; [done|apply lookup_empty].
  - by rewrite lookup_insert_ne.
Qed.

(** The archive's members keep off the protected paths. *)
Lemma is_protected_member_off p q m protected :
  q ∈ protected -> _is_protected_member p m (_path_key <$> protected) = Ok false -> ~ q `prefix_of` p.
Proof.
  unfold _is_protected_member. intros Hq Hp Hpre.
  assert (Hkey : _path_key q ∈ _path_key <$> protected) by by apply list_elem_of_fmap_2.
  assert (Hkpre : _path_key q `prefix_of` _path_key p).
  { destruct Hpre as [k ->]. unfold _path_key. rewrite fmap_app. by eexists. }
  case_decide as Hin; [by destruct (is_dir m)|].
  assert (Hex : existsb (λ local, inside local (_path_key p)) (_path_key <$> protected) = true).
  { apply existsb_exists. exists (_path_key q). split; [by apply list_elem_of_In|].
    unfold inside. apply bool_decide_eq_true_2. split; [done|]. by intros E; rewrite E in Hkey. }
  by rewrite Hex in Hp.
Qed.

Lemma application_members_off archive protected members q m p :
  _application_members archive protected = Ok members -> q ∈ protected -> (m, p) ∈ members -> ~ q `prefix_of` p.
Proof.
  unfold _application_members. intros Hm Hq. destruct_result. destruct (negb _); [done|]. destruct_result.
  revert m p. eapply (foldM_py_inv (λ acc : selection, forall m p, (m, p) ∈ acc.2 -> ~ q `prefix_of` p)); [..|exact E].
  - intros m p Hin. by apply elem_of_nil in Hin.
  - intros acc x acc' Hacc _ Hsel m p Hin. unfold select_member in Hsel. destruct_result.
    destruct a0 as [|root rest]; destruct_result; [eauto|]. destruct (negb _); destruct_result; [eauto|].
    destruct (_ && _); destruct_result. destruct a0; destruct_result; [eauto|]. destruct a0; destruct_result; [|eauto].
    cbn in Hin. apply elem_of_app in Hin as [Hin|Hin]; [by eapply Hacc|].
    apply list_elem_of_singleton in Hin. simplify_eq. by eapply is_protected_member_off.
Qed.

Lemma extract_pure_at s s' m p q :
  extract_pure s (m, p) = Ok s' -> deep q -> ~ q `prefix_of` p -> at_path s' q = at_path s q.
Proof.
  unfold extract_pure, deep. cbn. intros Hs Hq Hpre. destruct p as [|root rest]; [by destruct_result|].
  destruct q as [|r x]; [done|]. eapply stage_pure_at; [done|by destruct x; cbn in Hq; [lia|]|].
  intros -> t t' Ht. assert (~ x `prefix_of` rest) by (intros ?; by apply Hpre, prefix_cons).
  destruct (m_kind m); [by eapply write_new_frame|by eapply mkdir_p_frame..].
Qed.

(** What has entries below it is a directory. *)
Definition tree_ok (t : tree) : Prop :=
  forall p q e, t !! p = Some e -> q `prefix_of` p -> q <> p -> t !! q = Some EDir.

Lemma at_path_dir h p q e :
  map_Forall (λ _, tree_ok) h -> at_path h q = Some e -> p <> [] -> p `prefix_of` q -> p <> q -> at_path h p = Some EDir.
Proof.
  intros Hok Hq Hp Hpre Hne. destruct p as [|r x]; [done|]. destruct q as [|r' y]; [by apply prefix_nil_inv in Hpre|].
  pose proof (prefix_cons_inv_1 _ _ _ _ Hpre) as ->. apply prefix_cons_inv_2 in Hpre. cbn in Hq |- *.
  destruct (h !! r') as [t|] eqn:Et; [|done]. cbn in Hq |- *. apply (Hok _ _ Et y x e); [done..|congruence].
Qed.

Lemma preserve_pure_at h s s' p q c :
  map_Forall (λ _, tree_ok) h -> deep p -> deep q -> at_path h p = Some (EFile c) ->
  (forall c', at_path h q = Some (EFile c') -> at_path s q <> Some EDir) ->
  preserve_pure h s q = Ok s' -> at_path s' p = if decide (p = q) then Some (EFile c) else at_path s p.
Proof.
  intros Hok Hp Hq Hfile Hdir Hs. destruct q as [|root y]; [unfold deep in Hq; cbn in Hq; lia|].
  assert (Hy : y <> []) by (intros ->; unfold deep in Hq; cbn in Hq; lia). cbn in Hs.
  change (h !! root ≫= λ t, t !! y) with (at_path h (root :: y)) in Hs.
  destruct (at_path h (root :: y)) as [[|content]|] eqn:Eq; [done| |].
  2: { destruct_result. case_decide as E; [|done]. subst. congruence. }
  unfold stage_pure in Hs. destruct_result.
  assert (Hd : default ∅ (s !! root) !! y <> Some EDir).
  { specialize (Hdir _ eq_refl). cbn in Hdir. destruct (s !! root); cbn in *; [done|]. by rewrite lookup_empty. }
  destruct (copy_over_frame _ _ _ _ Hy E Hd) as [Hset Hframe].
  destruct p as [|r x]; [by unfold deep in Hp; cbn in Hp; lia|]. case_decide as Epq.
  - simplify_eq. cbn. by rewrite lookup_insert_eq.
  - cbn. destruct (decide (r = root)) as [-> | Hr]; [|by rewrite lookup_insert_ne].
    rewrite lookup_insert_eq. cbn. rewrite Hframe.
    + destruct (s !! root); cbn; [done|apply lookup_empty].
    + intros Hpre. assert (at_path h (root :: x) = Some EDir) as Hx; [|congruence].
      eapply at_path_dir; [done|done|done|by apply prefix_cons|done].
Qed.

Lemma preserve_fold h protected l s s' p c :
  map_Forall (λ _, tree_ok) h -> Forall deep protected -> l ⊆ protected ->
  (forall q c, q ∈ protected -> at_path h q = Some (EFile c) -> at_path s q <> Some EDir) ->
  foldM_py (preserve_pure h) s l = Ok s' ->
  p ∈ protected -> at_path h p = Some (EFile c) -> p ∈ l \/ at_path s p = Some (EFile c) ->
  at_path s' p = Some (EFile c).
Proof.
  intros Hok Hdeep Hincl. rewrite Forall_forall in Hdeep. revert s.
  induction l as [|q l IH]; intros s Hs Hfold Hp Hfile Hor; cbn in Hfold.
  { destruct_result. by destruct Hor as [?%elem_of_nil|]. }
  destruct (preserve_pure h s q) as [s1|] eqn:E; [|done]. cbn in Hfold.
  assert (Hq : q ∈ protected) by (apply Hincl; by left).
  assert (Hstep : forall p c, p ∈ protected -> at_path h p = Some (EFile c) ->
            at_path s1 p = if decide (p = q) then Some (EFile c) else at_path s p).
  { intros p' c' Hp' Hc'. apply (preserve_pure_at h s s1 p' q c'); [done|by apply Hdeep..|done|intros; by eapply Hs|done]. }
  apply (IH ltac:(intros x Hx; apply Hincl; by right) s1); [|done..|].
  - intros x c' Hx Hc'. rewrite (Hstep _ _ Hx Hc'). case_decide; [done|]. by eapply Hs.
  - destruct (decide (p = q)) as [-> | Hne].
    + right. rewrite (Hstep _ _ Hp Hfile). by rewrite decide_True.
    + destruct Hor as [Hor|Hor]; [left; by apply elem_of_cons in Hor as [|]|right].
      rewrite (Hstep _ _ Hp Hfile). by rewrite decide_False.
Qed.

(** The staged identity files are the node's own. *)
Lemma new_roots_identity archive protected h new p c :
  map_Forall (λ _, tree_ok) h -> Forall deep protected ->
  new_roots archive protected h = Ok new -> p ∈ protected -> at_path h p = Some (EFile c) ->
  at_path new p = Some (EFile c).
Proof.
  unfold new_roots. intros Hok Hdeep Hn Hp Hfile. destruct_result. destruct a1; [|done].
  eapply (preserve_fold h protected protected); [done|done|done| |exact Hn|done|done|by left].
  intros q _ Hq _ Hdir. rewrite Forall_forall in Hdeep.
  assert (at_path a0 q = None) as Hnone; [|congruence].
  revert E0. eapply (foldM_py_inv (λ s, at_path s q = None)).
  - specialize (Hdeep q Hq). destruct q as [|r x]; [done|]. unfold deep in Hdeep. cbn in Hdeep. cbn.
    destruct x as [|y x]; [cbn in Hdeep; lia|]. unfold empty_roots.
    assert (Hroot : empty_root !! (y :: x) = None) by by apply lookup_singleton_ne.
    destruct (decide (r = "xian")) as [-> | ?]; [by rewrite lookup_insert_eq|]. rewrite lookup_insert_ne by done.
    destruct (decide (r = "data")) as [-> | ?]; [by rewrite lookup_insert_eq|]. by rewrite lookup_insert_ne.
  - intros s [m x] s' Hs Hin Hx. rewrite <- Hs. eapply extract_pure_at; [done|by apply Hdeep|].
    by eapply application_members_off.
Qed.

(** A backup left behind refuses the next restore. *)
Lemma backup_refused w ws name t :
  ws ∈ workspaces w -> backup ws !! name = Some t ->
  check_home_result w = raise ValueError "incomplete snapshot restore requires recovery".
Proof.
  intros Hin Ht. unfold check_home_result.
  assert (existsb (λ ws, negb (bool_decide (backup ws = ∅))) (workspaces w) = true) as ->; [|done].
  apply existsb_exists. exists ws. split; [by apply list_elem_of_In|]. rewrite bool_decide_eq_false_2; [done|].
  intros E. by rewrite E in Ht.
Qed.

(** Claim C19. Whatever the file system does, and wherever it stops, a restore leaves the
    new application data published whole, or every application root the node had: at its
    place, or in a backup that makes the next restore refuse to run.  A restore that
    returns has published and left no working directory. *)
Theorem restore_atomic locked archive config w :
  match restore_application_archive locked archive config w with
  | (Done _, w') => published archive config w w' /\ workspaces w' = workspaces w
  | (_, w') => published archive config w w' \/
      forall name t, home w !! name = Some t ->
        home w' !! name = Some t \/
        (exists ws, ws ∈ workspaces w' /\ backup ws !! name = Some t) /\
        check_home_result w' = raise ValueError "incomplete snapshot restore requires recovery"
  end.
Proof.
  assert (Hrec : forall w', recoverable (home w) w' -> forall name t, home w !! name = Some t ->
            home w' !! name = Some t \/ (exists ws, ws ∈ workspaces w' /\ backup ws !! name = Some t) /\
            check_home_result w' = raise ValueError "incomplete snapshot restore requires recovery").
  { intros w' Hr name t Ht. destruct (Hr name t Ht) as [?|(ws & Hin & Hb)]; [by left|right].
    split; [by exists ws|]. by eapply backup_refused. }
  destruct locked; [by right; left|]. pose proof (restore_outcome archive config w) as Ho. unfold wp in Ho.
  cbn [restore_application_archive]. destruct (_restore_application_archive archive config w) as [[[]|e|] w']; [done|..].
  - destruct Ho as [[?|?] _]; [by left|right]. by apply Hrec.
  - destruct Ho as [[?|?] _]; [by left|right]. by apply Hrec.
Qed.

(** When no operation of the file system fails, a restore does what its
    specification says: it fails with the error of the first check that fails and leaves
    the home and the working directories as they were, or the home has the staged roots
    and every identity file below them has the content it had before, whatever the archive
    holds at its path. *)
Theorem restore_correct archive config w :
  healthy -> map_Forall (λ _, tree_ok) (home w) ->
  let '(r, w') := restore_application_archive false archive config w in
  match restore_spec archive config w with
  | Raise e => r = Failed e /\ home w' = home w /\ workspaces w' = workspaces w
  | Ok new => r = Done tt /\ workspaces w' = workspaces w /\ published_over (home w) new (home w') /\
      forall protected p content,
        _protected_paths home_path path_is_dir config = Ok protected -> p ∈ protected ->
        at_path (home w) p = Some (EFile content) -> at_path (home w') p = Some (EFile content)
  end.
Proof.
  intros Hio Hok. pose proof (restore_outcome archive config w) as Ho. unfold wp in Ho. cbn [restore_application_archive].
  destruct (_restore_application_archive archive config w) as [[[]|e|] w'].
  - destruct Ho as [(new & Hspec & Hpub) Hws]. rewrite Hspec. split; [done|]. split; [done|]. split; [done|].
    intros protected p content Hprot Hp Hfile. unfold restore_spec in Hspec. destruct_result.
    rewrite Hprot in E1. apply Ok_inj in E1 as <-.
    assert (Hnew : at_path new p = Some (EFile content)).
    { eapply new_roots_identity; [exact Hok| |exact Hspec|exact Hp|exact Hfile]. apply Forall_forall. intros q Hq.
      by destruct (protected_paths_inside _ _ _ _ _ Hprot Hq) as (? & ? & _ & _ & ?). }
    destruct (protected_paths_inside _ _ _ _ _ Hprot Hp) as (root & rest & -> & Hroot & _).
    cbn in Hnew |- *. rewrite (Hpub root). by rewrite decide_True.
  - destruct Ho as [_ Ho]. destruct (Ho Hio) as (-> & ? & ?). done.
  - by destruct Ho as [_ Ho].
Qed.
End Restore.

Arguments Done {_}.
Arguments Failed {_}.
Arguments Crashed {_}.

(** ** A restore over a node with keys *)

Definition policy_bytes : bytes :=
  match dumps true (VDict current_execution_policy) with Ok s => encode_utf8 s | Raise _ => [] end.
Definition toy_lmdb (t : tree) : lmdb_state :=
  match t !! ["data.mdb"] with Some (EFile c) => Some [(EXECUTION_POLICY_KEY, c)] | _ => None end.
Definition node_tree : tree :=
  <[["priv_validator_state.json"] := EFile [7]]> (<[["blocks.db"] := EFile [1]]> (<[[] := EDir]> ∅)).
Definition node_world : world := World (<["data" := node_tree]> ∅) [] 0.
Definition node_archive : list member :=
  [Member "data" MDir; Member "data/blocks.db" (MFile [2]);
   Member "data/priv_validator_state.json" (MFile [9]); Member "xian/data.mdb" (MFile policy_bytes)].

Lemma node_tree_ok : tree_ok node_tree.
Proof.
  intros p q e Hp Hpre Hne. unfold node_tree in Hp.
  assert (Hl : length p <> 0%nat) by (intros ->%nil_length_inv; apply prefix_nil_inv in Hpre; congruence).
  assert (Hone : length p = 1%nat).
  { rewrite !lookup_insert in Hp. repeat case_decide; subst; cbn in *; try done. }
  destruct p as [|x [|]]; [done| |done]. destruct q as [|y q]; [reflexivity|].
  destruct Hpre as [k Hk]. cbn in Hk. injection Hk as -> Hq. symmetry in Hq. by apply app_eq_nil in Hq as [-> _].
Qed.

Lemma restore_correct_witness :
  let '(r, w') := restore_application_archive (λ s, s) ["srv"; "node"] (λ _, false) (λ _, Succeeds) toy_lmdb
                    false node_archive (Ok []) node_world in
  r = Done tt /\ at_path (home w') ["data"; "priv_validator_state.json"] = Some (EFile [7]).
Proof.
  pose proof (restore_correct (λ s, s) ["srv"; "node"] (λ _, false) (λ _, Succeeds) toy_lmdb
    node_archive (Ok []) node_world (λ _, eq_refl)) as Hr.
  assert (Hok : map_Forall (λ _, tree_ok) (home node_world)).
  { intros name t Ht. cbn in Ht. apply lookup_insert_Some in Ht as [[_ <-]|[_ Ht]]; [apply node_tree_ok|].
    by rewrite lookup_empty in Ht. }
  specialize (Hr Hok).
  assert (Hs : is_ok (restore_spec (λ s, s) ["srv"; "node"] (λ _, false) toy_lmdb node_archive (Ok []) node_world) = true)
    by (vm_compute; reflexivity).
  destruct (restore_spec (λ s, s) ["srv"; "node"] (λ _, false) toy_lmdb node_archive (Ok []) node_world) as [new|e]; [|discriminate Hs].
  destruct (restore_application_archive _ _ _ _ _ _ _ _ _) as [r w']. destruct Hr as (-> & _ & _ & Hid). split; [done|].
  apply (Hid [["data"; "priv_validator_state.json"]]); [vm_compute; reflexivity|by left|reflexivity].
Defined.
