(* ===== verification/BdsShielded.v ===== *)
(** * Shielded outputs in the block data service (src/src/xian/services/bds/shielded.py)

    The rows that the indexer derives from the events of a transaction and from the
    output payloads it was called with, and the tags inside a payload. *)

From S2P Require Import Prelude PyValue Json PyBuiltins Encoding.

(** ** Tags *)

Definition _normalize_hex_bytes (s : string) : result bytes :=
  fromhex (if startswith "0x" s then String.substring 2 (String.length s - 2) s else s).

Definition _payload_ciphertexts (payload_hex : option string) : list (list (string * value)) :=
  match payload_hex with
  | None => []
  | Some hex =>
    if decide (hex = "") then []
    else match (b ← _normalize_hex_bytes hex; s ← decode_utf8 b; loads s) with
         | Ok (VDict decoded) =>
           match py_get "ciphertexts" decoded VNone with
           | VList items => omap (λ v, match v with VDict d => Some d | _ => None end) items
           | _ => []
           end
         | _ => []
         end
  end.

Record payload_tag := Tag { tag_kind : string; tag_value : string }.
#[global] Instance payload_tag_eq_dec : EqDecision payload_tag.
Proof. solve_decision. Defined.

Definition add_tag (item : list (string * value)) (rows : list payload_tag) (kind : string) : list payload_tag :=
  match py_get kind item VNone with
  | VStr tag => if decide (tag = "" \/ Tag kind tag ∈ rows) then rows else rows ++ [Tag kind tag]
  | _ => rows
  end.

(** The rows double as the set of tags already seen. *)
Definition extract_payload_tags (payload_hex : option string) : list payload_tag :=
  fold_left (λ rows item, fold_left (add_tag item) ["sync_hint"; "discovery_tag"] rows)
    (_payload_ciphertexts payload_hex) [].

(** ** Outputs *)

(** [blob.split("|")] without the empty parts *)
Fixpoint split_bar (s : chars) (acc : chars) : list string :=
  match s with
  | [] => [String.string_of_list_ascii (rev acc)]
  | c :: r => if decide (c = ascii_of_byte 124) then String.string_of_list_ascii (rev acc) :: split_bar r []
              else split_bar r (c :: acc)
  end.
Definition _unpack_blob (blob : value) : list string :=
  match blob with
  | VStr s => if decide (s = "") then [] else filter (λ x, x <> "") (split_bar (str_chars s) [])
  | _ => []
  end.

Record output_spec := OutputSpec {
  os_output_index : Z; os_note_index : option Z; os_payload_hash : string; os_commitment : string }.

Record shielded_output := ShieldedOutput {
  so_tx_hash : string; so_block_height : Z; so_tx_index : Z; so_contract : string; so_function : string;
  so_action : string; so_output_index : Z; so_note_index : option Z; so_commitment : string;
  so_new_root : string; so_payload_hash : string; so_payload : value }.

Definition str_or (s : string) (v : value) : string := match v with VStr t => t | _ => s end.
(** [isinstance(v, int)]: a [bool] is one. *)
Definition int_of (v : value) : option Z :=
  match v with VInt z => Some z | VBool b => Some (Z.b2z b) | _ => None end.
(** [d.get(k)] of what [event.get(field) or {}] gives *)
Definition data_field (event : list (string * value)) (field k : string) : result value :=
  py_dot_get (py_or (py_get field event VNone) (VDict [])) k VNone.

Definition committed_output (event : list (string * value)) : result (list output_spec) :=
  output_index ← data_field event "data" "output_index";
  note_index ← data_field event "data" "note_index";
  payload_hash ← data_field event "data" "payload_hash";
  commitment ← data_field event "data_indexed" "commitment";
  Ok (match int_of output_index with
      | None => []
      | Some i => [OutputSpec i (int_of note_index) (str_or "" payload_hash) (str_or "" commitment)]
      end).

Definition committed_outputs (event : list (string * value)) : result (list output_spec) :=
  note_index_start ← data_field event "data" "note_index_start";
  output_count ← data_field event "data" "output_count";
  commitments ← (v ← data_field event "data" "commitments_blob"; Ok (_unpack_blob v));
  payload_hashes ← (v ← data_field event "data" "payload_hashes_blob"; Ok (_unpack_blob v));
  Ok (match int_of note_index_start with
      | None => []
      | Some start =>
        let count := match int_of output_count with Some n => n | None => Z.of_nat (length commitments) end in
        if (Z.of_nat (length commitments) <? count) || (Z.of_nat (length payload_hashes) <? count) then []
        else (λ i, OutputSpec (Z.of_nat i) (Some (start + Z.of_nat i)) (nth i payload_hashes "") (nth i commitments ""))
               <$> seq 0 (Z.to_nat count)
      end).

Section Outputs.
Context (contract function tx_hash : string) (block_height tx_index : Z).

Definition output_row (output_payloads : list value) (action new_root : value) (spec : output_spec) : option shielded_output :=
  if (os_output_index spec <? 0) then None
  else p ← output_payloads !! Z.to_nat (os_output_index spec);
       Some (ShieldedOutput tx_hash block_height tx_index contract function (str_or function action)
               (os_output_index spec) (os_note_index spec) (os_commitment spec) (str_or "" new_root)
               (os_payload_hash spec) p).

Definition event_outputs (output_payloads : list value) (event : value) : result (list shielded_output) :=
  match event with
  | VDict e =>
    if negb (bool_decide (py_get "contract" e VNone = VStr contract)) then Ok []
    else
      action ← data_field e "data" "action";
      new_root ← data_field e "data_indexed" "new_root";
      let event_name := py_get "event" e VNone in
      specs ← (if decide (event_name = VStr "ShieldedOutputCommitted") then committed_output e
               else if decide (event_name = VStr "ShieldedOutputsCommitted") then committed_outputs e
               else Ok []);
      Ok (omap (output_row output_payloads action new_root) (specs : list output_spec))
  | _ => Ok []
  end.

Definition collect_shielded_outputs (tx_result_events : list value) (kwargs : list (string * value))
  : result (list shielded_output) :=
  match py_get "output_payloads" kwargs VNone with
  | VList ((_ :: _) as output_payloads) => rows ← mapM_py (event_outputs output_payloads) tx_result_events; Ok (concat rows)
  | _ => Ok []
  end.

Definition payload_text (v : value) : option string := match v with VStr s => Some s | _ => None end.

Definition collect_shielded_output_tags (tx_result_events : list value) (kwargs : list (string * value))
  : result (list (shielded_output * payload_tag)) :=
  outputs ← collect_shielded_outputs tx_result_events kwargs;
  Ok (o ← outputs; (o,.) <$> extract_payload_tags (payload_text (so_payload o))).
End Outputs.

(** ** Properties *)

Lemma add_tag_nodup item rows kind : NoDup rows -> NoDup (add_tag item rows kind).
Proof.
  intros Hn. unfold add_tag. destruct (py_get kind item VNone); try done. case_decide as E; [done|].
  apply NoDup_app. split; [done|]. split; [|apply NoDup_singleton].
  intros x Hx ->%list_elem_of_singleton. naive_solver.
Qed.

(** A payload names no tag twice, so no row of its tags is refused as a duplicate. *)
Lemma extract_payload_tags_nodup payload_hex : NoDup (extract_payload_tags payload_hex).
Proof.
  unfold extract_payload_tags. generalize (_payload_ciphertexts payload_hex) as l. intros l.
  assert (Hgen : forall rows, NoDup rows ->
    NoDup (fold_left (λ rows item, fold_left (add_tag item) ["sync_hint"; "discovery_tag"] rows) l rows)).
  { induction l as [|item l IH]; intros rows Hr; [done|]. cbn [fold_left]. apply IH. by do 2 apply add_tag_nodup. }
  apply Hgen, NoDup_nil_2.
Qed.

(** Every row is of one of the output payloads, and carries that payload. *)
Lemma collect_shielded_outputs_payload contract function tx_hash height index events kwargs rows o :
  collect_shielded_outputs contract function tx_hash height index events kwargs = Ok rows -> o ∈ rows ->
  exists payloads, py_get "output_payloads" kwargs VNone = VList payloads /\
    0 <= so_output_index o /\ payloads !! Z.to_nat (so_output_index o) = Some (so_payload o).
Proof.
  unfold collect_shielded_outputs. intros Hc Ho.
  destruct (py_get "output_payloads" kwargs VNone) as [| | | | | | | |[|p ps]| |]; destruct_result; try by apply elem_of_nil in Ho.
  eexists. split; [done|].
  apply list_elem_of_In, in_concat in Ho as (row & Hrow & Hin).
  apply list_elem_of_In in Hrow. destruct (mapM_py_elem _ _ _ _ E Hrow) as (ev & _ & Hev).
  unfold event_outputs in Hev. destruct ev; destruct_result; try by destruct Hin.
  destruct (negb _); destruct_result; [by destruct Hin|].
  apply list_elem_of_In, list_elem_of_omap in Hin as (spec & _ & Hs). unfold output_row in Hs.
  destruct (os_output_index spec <? 0) eqn:El; [done|]. apply Z.ltb_ge in El.
  destruct ((p :: ps) !! _) eqn:Ep; [|done]. cbn in Hs. simplify_eq. done.
Qed.
