(* ===== verification/BdsStore.v ===== *)
(** * The index of the block data service (src/src/xian/services/bds/bds.py, sql.py, serializer.py)

    What the indexer writes into its database for genesis and for a block: the tables of
    [sql.py] with their keys and constraints, the statements that insert into them, and the
    methods of [BDS] that run the statements in one database transaction.

    A table with a generated identity is the list of its rows with their numbers; a number
    once drawn stays drawn, also when the row is not inserted or the transaction is rolled
    back.  A parameter of a statement must fit its column.  PostgreSQL's input functions
    for text and [jsonb], Python's parser and the constructor of [datetime] are arguments,
    like the runtime's [encode]. *)

From S2P Require Import Prelude PyValue Json PyBuiltins Encoding ExecutionPolicy StatePatches BdsShielded.

(** ** Payloads (payloads.py) *)

Record BdsTransactionPayload := BdsTransaction {
  bt_tx_index : value; bt_envelope : value; bt_payload : value; bt_tx_result : value }.

Record BdsBlockPayload := BdsBlock {
  bp_block_meta : value; bp_block_time : value; bp_app_hash : string;
  bp_transactions : list BdsTransactionPayload; bp_state_patches : list value;
  bp_state_patch_hash : option string; bp_execution_policy : value }.

(** ** Tables *)

Record block_row := BlockRow {
  br_height : Z; br_hash : string; br_time : Z; br_time_iso : value; br_tx_count : Z; br_app_hash : string }.
Record tx_row := TxRow {
  tr_hash : string; tr_block_height : Z; tr_block_hash : string; tr_block_time : Z; tr_tx_index : Z;
  tr_sender : string; tr_nonce : Z; tr_contract : string; tr_function : string; tr_success : bool;
  tr_status : Z; tr_chi_used : Z; tr_result : option string; tr_payload : string; tr_envelope : string }.
Record address_row := AddressRow {
  ar_tx_count : Z; ar_first_height : Z; ar_first_seen : value; ar_last_height : Z; ar_last_tx_index : Z;
  ar_last_seen : value; ar_last_tx_hash : string; ar_last_contract : string; ar_last_function : string;
  ar_updated_at : value }.
Record change_row := ChangeRow {
  cr_block_height : Z; cr_block_hash : string; cr_block_time : Z; cr_tx_hash : string; cr_tx_index : Z;
  cr_write_index : Z; cr_key : string; cr_new_value : string; cr_previous_change_id : option Z;
  cr_previous_tx_hash : option string; cr_origin_type : string }.
Record state_row := StateRow {
  sr_value : string; sr_last_change_id : Z; sr_last_tx_hash : string; sr_last_block_height : Z; sr_updated_at : value }.
Record event_row := EventRow {
  er_block_height : Z; er_tx_hash : string; er_tx_index : Z; er_event_index : Z; er_contract : string;
  er_event : string; er_signer : string; er_caller : string; er_data_indexed : string; er_data : string }.
Record reward_row := RewardRow {
  rr_block_height : Z; rr_tx_hash : string; rr_tx_index : Z; rr_reward_index : Z; rr_type : string;
  rr_recipient_key : option string; rr_source_contract : option string; rr_value : value }.
Record contract_row := ContractRow {
  kr_last_tx_hash : string; kr_submitted_at_block : Z; kr_submitted_at : value; kr_source : string; kr_xsc001 : bool }.
Record patch_row := PatchRow {
  pr_hash : string; pr_block_height : Z; pr_block_hash : string; pr_block_time : Z; pr_patch_count : Z; pr_patches : string }.

(** A table whose rows are numbered. *)
Record table (R : Type) := Table { rows : list (Z * R); last_id : Z }.
Arguments Table {_}. Arguments rows {_}. Arguments last_id {_}.

Record database := Database {
  t_blocks : list block_row; t_transactions : list tx_row; t_addresses : gmap string address_row;
  t_state_changes : table change_row; t_state : gmap string state_row; t_events : table event_row;
  t_rewards : table reward_row; t_shielded_outputs : table shielded_output;
  t_shielded_output_tags : table (shielded_output * payload_tag); t_contracts : gmap string contract_row;
  t_state_patches : list patch_row; t_schema_version : option string; t_execution_policy : option string }.

Definition with_blocks l d := Database l (t_transactions d) (t_addresses d) (t_state_changes d) (t_state d) (t_events d) (t_rewards d) (t_shielded_outputs d) (t_shielded_output_tags d) (t_contracts d) (t_state_patches d) (t_schema_version d) (t_execution_policy d).
Definition with_transactions l d := Database (t_blocks d) l (t_addresses d) (t_state_changes d) (t_state d) (t_events d) (t_rewards d) (t_shielded_outputs d) (t_shielded_output_tags d) (t_contracts d) (t_state_patches d) (t_schema_version d) (t_execution_policy d).
Definition with_addresses l d := Database (t_blocks d) (t_transactions d) l (t_state_changes d) (t_state d) (t_events d) (t_rewards d) (t_shielded_outputs d) (t_shielded_output_tags d) (t_contracts d) (t_state_patches d) (t_schema_version d) (t_execution_policy d).
Definition with_state_changes l d := Database (t_blocks d) (t_transactions d) (t_addresses d) l (t_state d) (t_events d) (t_rewards d) (t_shielded_outputs d) (t_shielded_output_tags d) (t_contracts d) (t_state_patches d) (t_schema_version d) (t_execution_policy d).
Definition with_state l d := Database (t_blocks d) (t_transactions d) (t_addresses d) (t_state_changes d) l (t_events d) (t_rewards d) (t_shielded_outputs d) (t_shielded_output_tags d) (t_contracts d) (t_state_patches d) (t_schema_version d) (t_execution_policy d).
Definition with_events l d := Database (t_blocks d) (t_transactions d) (t_addresses d) (t_state_changes d) (t_state d) l (t_rewards d) (t_shielded_outputs d) (t_shielded_output_tags d) (t_contracts d) (t_state_patches d) (t_schema_version d) (t_execution_policy d).
Definition with_rewards l d := Database (t_blocks d) (t_transactions d) (t_addresses d) (t_state_changes d) (t_state d) (t_events d) l (t_shielded_outputs d) (t_shielded_output_tags d) (t_contracts d) (t_state_patches d) (t_schema_version d) (t_execution_policy d).
Definition with_outputs l d := Database (t_blocks d) (t_transactions d) (t_addresses d) (t_state_changes d) (t_state d) (t_events d) (t_rewards d) l (t_shielded_output_tags d) (t_contracts d) (t_state_patches d) (t_schema_version d) (t_execution_policy d).
Definition with_tags l d := Database (t_blocks d) (t_transactions d) (t_addresses d) (t_state_changes d) (t_state d) (t_events d) (t_rewards d) (t_shielded_outputs d) l (t_contracts d) (t_state_patches d) (t_schema_version d) (t_execution_policy d).
Definition with_contracts l d := Database (t_blocks d) (t_transactions d) (t_addresses d) (t_state_changes d) (t_state d) (t_events d) (t_rewards d) (t_shielded_outputs d) (t_shielded_output_tags d) l (t_state_patches d) (t_schema_version d) (t_execution_policy d).
Definition with_state_patches l d := Database (t_blocks d) (t_transactions d) (t_addresses d) (t_state_changes d) (t_state d) (t_events d) (t_rewards d) (t_shielded_outputs d) (t_shielded_output_tags d) (t_contracts d) l (t_schema_version d) (t_execution_policy d).
Definition with_meta v p d := Database (t_blocks d) (t_transactions d) (t_addresses d) (t_state_changes d) (t_state d) (t_events d) (t_rewards d) (t_shielded_outputs d) (t_shielded_output_tags d) (t_contracts d) (t_state_patches d) v p.

(** What a rolled back transaction leaves: the tables of [d], the numbers drawn in [d']. *)
Definition keep_numbers {R} (t t' : table R) : table R := Table (rows t) (last_id t').
Definition rolled_back (d d' : database) : database :=
  with_state_changes (keep_numbers (t_state_changes d) (t_state_changes d'))
    (with_events (keep_numbers (t_events d) (t_events d'))
       (with_rewards (keep_numbers (t_rewards d) (t_rewards d'))
          (with_outputs (keep_numbers (t_shielded_outputs d) (t_shielded_outputs d'))
             (with_tags (keep_numbers (t_shielded_output_tags d) (t_shielded_output_tags d')) d)))).

(** ** Statements (sql.py) *)

Definition violation {A} (constraint : string) : stM database A := raise_st OtherError ("violates " +:+ constraint).

Definition require (b : bool) (constraint : string) : stM database unit :=
  if b then mret tt else violation constraint.

(** Is a row of the list conflicting? *)
Definition taken {R} (P : R -> Prop) `{!forall r, Decision (P r)} (l : list R) : bool := existsb (λ r, bool_decide (P r)) l.

Definition block_exists (height : Z) (d : database) : bool := taken (λ r, br_height r = height) (t_blocks d).
Definition tx_exists (hash : string) (d : database) : bool := taken (λ r, tr_hash r = hash) (t_transactions d).

Definition insert_block (r : block_row) : stM database unit :=
  d ← get_st;
  if block_exists (br_height r) d then mret tt
  else if taken (λ r', br_hash r' = br_hash r) (t_blocks d) then violation "blocks_block_hash_key"
  else modify_st (λ d, with_blocks (t_blocks d ++ [r]) d).

Definition insert_transaction (r : tx_row) : stM database unit :=
  d ← get_st;
  if tx_exists (tr_hash r) d then mret tt
  else if taken (λ r', tr_block_height r' = tr_block_height r /\ tr_tx_index r' = tr_tx_index r) (t_transactions d) then
    violation "transactions_block_height_tx_index_key"
  else if negb (block_exists (tr_block_height r) d) then violation "transactions_block_height_fkey"
  else modify_st (λ d, with_transactions (t_transactions d ++ [r]) d).

Definition insert_state_change (r : change_row) : stM database Z :=
  d ← get_st;
  let t := t_state_changes d in
  let change_id := last_id t + 1 in
  modify_st (λ d, with_state_changes (Table (rows t) change_id) d) ≫= λ _,
  require (negb (taken (λ r', cr_block_height r' = cr_block_height r /\ cr_tx_index r' = cr_tx_index r /\
                              cr_write_index r' = cr_write_index r) (rows t).*2)) "state_changes_key" ≫= λ _,
  require (block_exists (cr_block_height r) d && tx_exists (cr_tx_hash r) d) "state_changes_fkey" ≫= λ _,
  modify_st (λ d, with_state_changes (Table (rows t ++ [(change_id, r)]) change_id) d) ≫= λ _,
  mret change_id.

Definition upsert_state (key : string) (r : state_row) : stM database unit :=
  modify_st (λ d, with_state (<[key := r]> (t_state d)) d).

(** An insert that does nothing on a conflict, into a numbered table. *)
Definition insert_numbered {R} (conflict : R -> bool) (t : table R) (r : R) : table R :=
  Table (if existsb conflict (rows t).*2 then rows t else rows t ++ [(last_id t + 1, r)]) (last_id t + 1).

Definition insert_event (r : event_row) : stM database unit :=
  modify_st (λ d, with_events (insert_numbered (λ r', bool_decide (er_tx_hash r' = er_tx_hash r /\ er_event_index r' = er_event_index r))
                                 (t_events d) r) d).
Definition insert_reward (r : reward_row) : stM database unit :=
  modify_st (λ d, with_rewards (insert_numbered (λ r', bool_decide (rr_block_height r' = rr_block_height r /\ rr_tx_index r' = rr_tx_index r /\
                                                                   rr_reward_index r' = rr_reward_index r)) (t_rewards d) r) d).
Definition insert_shielded_output (r : shielded_output) : stM database unit :=
  modify_st (λ d, with_outputs (insert_numbered (λ r', bool_decide (so_tx_hash r' = so_tx_hash r /\ so_output_index r' = so_output_index r))
                                  (t_shielded_outputs d) r) d).
Definition insert_shielded_output_tag (r : shielded_output * payload_tag) : stM database unit :=
  modify_st (λ d, with_tags (insert_numbered (λ r', bool_decide (so_tx_hash r'.1 = so_tx_hash r.1 /\ so_output_index r'.1 = so_output_index r.1 /\
                                                                r'.2 = r.2)) (t_shielded_output_tags d) r) d).
Definition upsert_contract (name : string) (r : contract_row) : stM database unit :=
  modify_st (λ d, with_contracts (<[name := r]> (t_contracts d)) d).
Definition insert_state_patch_record (r : patch_row) : stM database unit :=
  modify_st (λ d, if taken (λ r', pr_hash r' = pr_hash r) (t_state_patches d) then d
                  else with_state_patches (t_state_patches d ++ [r]) d).

(** [LEAST] of two timestamps is an argument of the merge. *)
Definition later (h i h' i' : Z) : bool := (h' <? h) || ((h' =? h) && (i' <=? i)).
Definition merge_address (least : value -> value -> value) (old new : address_row) : address_row :=
  let newest := later (ar_last_height new) (ar_last_tx_index new) (ar_last_height old) (ar_last_tx_index old) in
  AddressRow (ar_tx_count old + 1) (Z.min (ar_first_height old) (ar_first_height new))
    (least (ar_first_seen old) (ar_first_seen new))
    (if newest then ar_last_height new else ar_last_height old)
    (if newest then ar_last_tx_index new else ar_last_tx_index old)
    (if newest then ar_last_seen new else ar_last_seen old)
    (if newest then ar_last_tx_hash new else ar_last_tx_hash old)
    (if newest then ar_last_contract new else ar_last_contract old)
    (if newest then ar_last_function new else ar_last_function old) (ar_updated_at new).

(** ** Token contracts: the surface of a source text *)

Inductive py_expr := EName (id : string) | ECall (func : py_expr) | EOther.
Inductive py_node :=
  | NAssign (targets : list py_expr) (v : py_expr)
  | NAnnAssign (target : py_expr) (v : option py_expr)
  | NFunction (name : string) (decorators : list py_expr) (args : list string)
  | NOther.

Definition XSC001_REQUIRED_EXPORTS : list (string * list string) :=
  [("change_metadata", ["key"; "value"]); ("transfer", ["amount"; "to"]); ("approve", ["amount"; "to"]);
   ("transfer_from", ["amount"; "to"; "main_account"]); ("balance_of", ["address"])].

Definition _is_name_call (e : py_expr) (name : string) : bool :=
  match e with ECall (EName id) => bool_decide (id = name) | _ => false end.
Definition is_name (e : py_expr) (name : string) : bool := match e with EName id => bool_decide (id = name) | _ => false end.
Definition _has_export_decorator (decorators : list py_expr) : bool :=
  existsb (λ e, is_name e "export" || _is_name_call e "export") decorators.
Definition _assigns_balances_hash (n : py_node) : bool :=
  match n with
  | NAssign targets v => _is_name_call v "Hash" && existsb (λ t, is_name t "balances") targets
  | NAnnAssign t (Some v) => _is_name_call v "Hash" && is_name t "balances"
  | _ => false
  end.

Definition exported (acc : list (string * list string)) (n : py_node) : list (string * list string) :=
  match n with
  | NFunction name decorators args => if _has_export_decorator decorators then dict_set name args acc else acc
  | _ => acc
  end.

Section Store.
(** [ast.parse]: [None] is a [SyntaxError] *)
Context (ast_parse : string -> option (list py_node)).
(** the runtime's [encode] and [convert_dict], [str] of other values, [int] of a float, [Decimal(str)] *)
Context (encode : value -> result string) (convert_dict : value -> result value)
        (py_str : value -> string) (float_trunc : string -> result Z) (Decimal : string -> result value).
(** what PostgreSQL accepts as text and as [jsonb] *)
Context (accepts_text accepts_jsonb : string -> bool).
(** the [datetime] of its fields, in UTC, the fields of a [Datetime], the earlier of two times, and GENESIS_CREATED_AT *)
Context (datetime_of : list value -> result value) (datetime_fields : string -> list value)
        (least : value -> value -> value) (GENESIS_CREATED_AT : value).

Definition _source_has_xsc001_surface (source : string) : bool :=
  match ast_parse source with
  | None => false
  | Some body =>
    let functions := fold_left exported (filter (λ n, _assigns_balances_hash n = false) body) [] in
    existsb _assigns_balances_hash body
    && forallb (λ required, bool_decide (dict_get required.1 functions = Some required.2)) XSC001_REQUIRED_EXPORTS
  end.

(** ** Parameters of statements *)

Definition text_col (v : value) : result string :=
  match v with
  | VStr s => if accepts_text s then Ok s else raise OtherError "invalid byte sequence"
  | _ => raise TypeError "expected str"
  end.
Definition nullable_text (v : value) : result (option string) :=
  match v with VNone => Ok None | _ => Some <$> text_col v end.
Definition int_col (bits : Z) (v : value) : result Z :=
  match int_of v with
  | Some z => if (- 2 ^ (bits - 1) <=? z) && (z <? 2 ^ (bits - 1)) then Ok z else raise OtherError "value out of range"
  | None => raise TypeError "expected int"
  end.
Definition bigint_col : value -> result Z := int_col 64.
Definition integer_col : value -> result Z := int_col 32.
Definition jsonb_col (s : string) : result string :=
  if accepts_jsonb s then Ok s else raise OtherError "invalid input for jsonb".

(** [canonical_json_value], [canonical_json_text] and [canonical_decimal] of serializer.py *)
Definition bds_json_value (v : value) : result value := s ← encode v; loads s.
Definition bds_json_text (v : value) : result string := v ← bds_json_value v; dumps true v.
Definition _jsonb_param (v : value) : result string := s ← bds_json_text v; jsonb_col s.
Definition _nullable_jsonb_param (v : value) : result (option string) :=
  match v with VNone => Ok None | _ => Some <$> _jsonb_param v end.
Definition json_param (v : value) : result string := s ← dumps true v; jsonb_col s.
Definition canonical_decimal (v : value) : result value :=
  match v with VDec _ => Ok v | _ => Decimal (to_str py_str v) end.

Definition py_dict (v : value) : result (list (string * value)) :=
  match v with VDict d => Ok d | _ => raise AttributeError "get" end.

(** ** Contract records *)

Definition _submission_time_from_state_value (v : value) : result (option value) :=
  match v with
  | VDict d => match py_get "__time__" d VNone with
               | VList l | VTuple l => if (6 <=? Z.of_nat (length l)) then Some <$> datetime_of (take 6 l) else Ok None
               | _ => Ok None
               end
  | VTime t => Some <$> datetime_of (take 6 (datetime_fields t))
  | _ => Ok None
  end.

Record contract_record := ContractRecord { cr_source : value; cr_submitted_at : option value }.

(** [key.split(".", 1)] of a key with a dot *)
Fixpoint split_dot (s : chars) (acc : chars) : option (string * string) :=
  match s with
  | [] => None
  | c :: r => if decide (c = ascii_of_byte 46) then Some (String.string_of_list_ascii (rev acc), String.string_of_list_ascii r)
              else split_dot r (c :: acc)
  end.

Definition collect_record (contracts : list (string * contract_record)) (state_change : value)
  : result (list (string * contract_record)) :=
  match state_change with
  | VDict sc =>
    match py_get "key" sc VNone with
    | VStr key =>
      match split_dot (str_chars key) [] with
      | Some (contract_name, variable) =>
        let record := default (ContractRecord VNone None) (dict_get contract_name contracts) in
        if decide (variable = "__source__") then
          Ok (dict_set contract_name (ContractRecord (py_get "value" sc VNone) (cr_submitted_at record)) contracts)
        else if decide (variable = "__submitted__") then
          t ← _submission_time_from_state_value (py_get "value" sc VNone);
          Ok (dict_set contract_name (ContractRecord (cr_source record) t) contracts)
        else Ok contracts
      | None => Ok contracts
      end
    | _ => Ok contracts
    end
  | _ => Ok contracts
  end.

Definition _collect_contract_records (state_changes : list value) : result (list (string * contract_record)) :=
  foldM_py collect_record [] state_changes.

Definition get_submission_time (genesis_state : list value) (contract_name : string) : result value :=
  if decide (genesis_state = []) then Ok GENESIS_CREATED_AT
  else if negb (has_substring (lit "con_") (str_chars contract_name)) then
    if decide (contract_name = "submission") then Ok GENESIS_CREATED_AT
    else datetime_of [VInt 1970; VInt 1; VInt 1; VInt 1; VInt 0; VInt 0]
  else
    let submitted item := match item with
                          | VDict d => bool_decide (py_get "key" d VNone = VStr (contract_name +:+ ".__submitted__"))
                          | _ => false end in
    match list_find (λ item, submitted item = true) genesis_state with
    | Some (_, item) => v ← py_item "value" item; t ← py_dot_get v "__time__" VNone; l ← py_iter t; datetime_of l
    | None => Ok GENESIS_CREATED_AT
    end.

(** ** Writing a block *)

(** The database inside a transaction and [current_index]. *)
Record session := Session { ses_db : database; ses_index : gmap string (Z * string) }.
Definition on_db {A} (m : stM database A) : stM session A := λ s,
  let '(r, d) := m (ses_db s) in (r, Session d (ses_index s)).

(** The columns that identify the block. *)
Record block_cols := BlockCols { bc_height : Z; bc_hash : string; bc_nanos : Z }.
Definition block_columns (block_meta : value) : result block_cols :=
  height ← (v ← py_item "height" block_meta; bigint_col v);
  hash ← (v ← py_item "hash" block_meta; text_col v);
  nanos ← (v ← py_item "nanos" block_meta; bigint_col v);
  Ok (BlockCols height hash nanos).

(** One write of the state: the change, [current_index] and the current value. *)
Definition record_change (b : block_cols) (block_time : value) (tx_hash : string) (tx_index : Z) (origin : string)
    (write_index : nat) (change : value) : stM session unit :=
  key ← lift_res (v ← py_item "key" change; text_col v);
  new_value ← lift_res (v ← py_item "value" change; _jsonb_param v);
  previous ← gets_st (λ s, ses_index s !! key);
  change_id ← on_db (insert_state_change
    (ChangeRow (bc_height b) (bc_hash b) (bc_nanos b) tx_hash tx_index (Z.of_nat write_index) key new_value
       (fst <$> previous) (snd <$> previous) origin));
  modify_st (λ s, Session (ses_db s) (<[key := (change_id, tx_hash)]> (ses_index s))) ≫= λ _,
  on_db (upsert_state key (StateRow new_value change_id tx_hash (bc_height b) block_time)).

(** [for index, item in enumerate(items)] *)
Definition for_enumerate {S A} (f : nat -> A -> stM S unit) (items : list A) : stM S unit :=
  forM_st (zip (seq 0 (length items)) items) (λ ix, f ix.1 ix.2).

Definition upsert_address_activity (address : value) (b : block_cols) (block_time : value) (tx_index : Z)
    (tx_hash : string) (contract function : value) : stM database unit :=
  address ← lift_res (text_col address);
  contract ← lift_res (text_col contract);
  function ← lift_res (text_col function);
  let new := AddressRow 1 (bc_height b) block_time (bc_height b) tx_index block_time tx_hash contract function block_time in
  modify_st (λ d, with_addresses (partial_alter (λ o, Some (match o with Some old => merge_address least old new | None => new end))
                                    address (t_addresses d)) d).

Definition persist_reward (b : block_cols) (tx_hash : string) (tx_index : Z) (reward_index : nat)
    (type recipient_key source_contract amount : value) : stM database unit :=
  type ← lift_res (text_col type);
  recipient_key ← lift_res (nullable_text recipient_key);
  source_contract ← lift_res (nullable_text source_contract);
  amount ← lift_res (canonical_decimal amount);
  insert_reward (RewardRow (bc_height b) tx_hash tx_index (Z.of_nat reward_index) type recipient_key source_contract amount).

Definition persist_rewards (b : block_cols) (tx_hash : string) (tx_index : Z) (tx_result : list (string * value))
  : stM database unit :=
  let reward_records := py_or (py_get "reward_records" tx_result VNone) (VList []) in
  if truthy reward_records then
    records ← lift_res (py_iter reward_records);
    for_enumerate (λ i record,
      record ← lift_res (py_dict record);
      persist_reward b tx_hash tx_index i (VStr (to_str py_str (py_get "type" record (VStr ""))))
        (py_get "recipient_key" record VNone) (py_get "source_contract" record VNone) (py_get "value" record (VInt 0))) records
  else
    groups ← lift_res (py_dict (py_or (py_get "rewards" tx_result VNone) (VDict [])));
    rewards ← lift_res (mapM_py (λ g, d ← py_dict g.2; Ok (map (λ kv, (g.1, kv.1, kv.2)) d)) groups);
    for_enumerate (λ i r, persist_reward b tx_hash tx_index i (VStr r.1.1) (VStr r.1.2) VNone r.2) (concat rewards).

Definition persist_event (b : block_cols) (tx_hash : string) (tx_index : Z) (event_index : nat) (event : value) : stM database unit :=
  event ← lift_res (py_dict event);
  let text k default := text_col (VStr (to_str py_str (py_get k event (VStr default)))) in
  contract ← lift_res (text "contract" "");
  name ← lift_res (text "event" "ContractEvent");
  signer ← lift_res (text "signer" "");
  caller ← lift_res (text "caller" "");
  data_indexed ← lift_res (_jsonb_param (py_get "data_indexed" event (VDict [])));
  data ← lift_res (_jsonb_param (py_get "data" event (VDict [])));
  insert_event (EventRow (bc_height b) tx_hash tx_index (Z.of_nat event_index) contract name signer caller data_indexed data).

Definition persist_output (row : shielded_output) : stM database unit :=
  insert_shielded_output row ≫= λ _,
  forM_st (extract_payload_tags (payload_text (so_payload row))) (λ tag, insert_shielded_output_tag (row, tag)).

Definition persist_outputs (b : block_cols) (tx_hash : string) (tx_index : Z) (payload tx_result : list (string * value))
  : stM database unit :=
  match py_get "kwargs" payload VNone with
  | VDict kwargs =>
    events ← lift_res (py_iter (py_get "events" tx_result (VList [])));
    outputs ← lift_res (collect_shielded_outputs (to_str py_str (py_get "contract" payload (VStr "")))
                          (to_str py_str (py_get "function" payload (VStr ""))) tx_hash (bc_height b) tx_index events kwargs);
    forM_st outputs persist_output
  | _ => mret tt
  end.

Definition persist_contract (tx_hash : string) (height : Z) (submitted_at : result value) (name : string) (record : contract_record)
  : stM database unit :=
  match cr_source record with
  | VNone => mret tt
  | VStr source =>
    submission_time ← lift_res (match cr_submitted_at record with Some t => Ok t | None => submitted_at end);
    name ← lift_res (text_col (VStr name));
    source ← lift_res (text_col (VStr source));
    upsert_contract name (ContractRow tx_hash height submission_time source (_source_has_xsc001_surface source))
  | _ => raise_st TypeError "expected str"
  end.

Definition persist_contracts (b : block_cols) (block_time : value) (tx_hash : string) (tx_result : list (string * value))
    (changes : list value) : stM database unit :=
  if decide (int_of (py_get "status" tx_result VNone) = Some 0) then
    records ← lift_res (_collect_contract_records changes);
    forM_st records (λ nr, persist_contract tx_hash (bc_height b) (Ok block_time) nr.1 nr.2)
  else mret tt.

Definition persist_tx_row (b : block_cols) (tx : BdsTransactionPayload) (tx_hash : string) (tx_index : Z)
    (payload tx_result : list (string * value)) : stM database unit :=
  let item k := py_item k (VDict payload) in
  sender ← lift_res (v ← item "sender"; text_col v);
  nonce ← lift_res (v ← item "nonce"; bigint_col v);
  contract ← lift_res (v ← item "contract"; text_col v);
  function ← lift_res (v ← item "function"; text_col v);
  status ← lift_res (v ← py_item "status" (VDict tx_result); integer_col v);
  chi_used ← lift_res (v ← py_item "chi_used" (VDict tx_result); bigint_col v);
  outcome ← lift_res (let v := py_get "result" tx_result VNone in
                      _nullable_jsonb_param (if decide (v = VStr "None") then VNone else v));
  payload_text ← lift_res (json_param (VDict payload));
  envelope ← lift_res (json_param (bt_envelope tx));
  insert_transaction (TxRow tx_hash (bc_height b) (bc_hash b) (bc_nanos b) tx_index sender nonce contract function
    (status =? 0) status chi_used outcome payload_text envelope).

Definition _persist_transaction (b : block_cols) (block_time : value) (tx : BdsTransactionPayload) : stM session unit :=
  tx_result ← lift_res (py_dict (bt_tx_result tx));
  payload ← lift_res (py_dict (bt_payload tx));
  tx_hash ← lift_res (v ← py_item "hash" (VDict tx_result); text_col v);
  tx_index ← lift_res (i ← py_int float_trunc (bt_tx_index tx); integer_col (VInt i));
  on_db (persist_tx_row b tx tx_hash tx_index payload tx_result) ≫= λ _,
  on_db (upsert_address_activity (py_get "sender" payload VNone) b block_time tx_index tx_hash
           (py_get "contract" payload VNone) (py_get "function" payload VNone)) ≫= λ _,
  changes ← lift_res (v ← py_item "state" (VDict tx_result); py_iter v);
  for_enumerate (record_change b block_time tx_hash tx_index "transaction") changes ≫= λ _,
  on_db (persist_rewards b tx_hash tx_index tx_result) ≫= λ _,
  events ← lift_res (py_iter (py_get "events" tx_result (VList [])));
  on_db (for_enumerate (persist_event b tx_hash tx_index) events) ≫= λ _,
  on_db (persist_outputs b tx_hash tx_index payload tx_result) ≫= λ _,
  on_db (persist_contracts b block_time tx_hash tx_result changes).

Definition patch_changes (execution : value) : result (list value) :=
  d ← py_dict execution; py_iter (py_get "changes" d (VList [])).

Definition _persist_state_patches (b : block_cols) (block_time : value) (state_patches : list value) (state_patch_hash : string)
    (tx_index : Z) : stM session unit :=
  changes ← lift_res (l ← mapM_py patch_changes state_patches; Ok (concat l));
  hash ← lift_res (text_col (VStr state_patch_hash));
  outcome ← lift_res (_jsonb_param (VDict [("bundle_count", VInt (Z.of_nat (length state_patches)));
                                           ("patch_count", VInt (Z.of_nat (length changes)));
                                           ("comment", VStr "Governed state patch pseudo-transaction")]));
  payload ← lift_res (_jsonb_param (VDict [("kind", VStr "state_patch")]));
  envelope ← lift_res (_jsonb_param (VDict [("kind", VStr "state_patch"); ("executions", VList state_patches)]));
  on_db (insert_transaction (TxRow hash (bc_height b) (bc_hash b) (bc_nanos b) tx_index "sys" 0 "STATE_PATCHER" "STATE_PATCH"
           true 0 0 (Some outcome) payload envelope)) ≫= λ _,
  on_db (upsert_address_activity (VStr "sys") b block_time tx_index hash (VStr "STATE_PATCHER") (VStr "STATE_PATCH")) ≫= λ _,
  for_enumerate (record_change b block_time hash tx_index "state_patch") changes ≫= λ _,
  patches ← lift_res (_jsonb_param (VList state_patches));
  on_db (insert_state_patch_record (PatchRow hash (bc_height b) (bc_hash b) (bc_nanos b) (Z.of_nat (length changes)) patches)).

(** [_load_current_state_index] *)
Definition _load_current_state_index (d : database) (keys : list string) : gmap string (Z * string) :=
  (λ r, (sr_last_change_id r, sr_last_tx_hash r)) <$> filter (λ kr, kr.1 ∈ keys) (t_state d).

Definition tx_keys (tx : BdsTransactionPayload) : result (list string) :=
  changes ← (v ← py_item "state" (bt_tx_result tx); py_iter v);
  mapM_py (λ c, v ← py_item "key" c; text_col v) changes.

(** [patch["key"] for patch in state_patches if "key" in patch] *)
Definition patch_keys (state_patches : list value) : result (list string) :=
  l ← mapM_py (λ p, has ← py_in "key" p;
                    if (has : bool) then v ← py_item "key" p; s ← text_col v; Ok [s] else Ok []) state_patches;
  Ok (concat l).

(** The statements of [persist_block] inside the database transaction. *)
Definition write_block (p : BdsBlockPayload) : stM session unit :=
  b ← lift_res (block_columns (bp_block_meta p));
  app_hash ← lift_res (text_col (VStr (bp_app_hash p)));
  on_db (insert_block (BlockRow (bc_height b) (bc_hash b) (bc_nanos b) (bp_block_time p)
           (Z.of_nat (length (bp_transactions p))) app_hash)) ≫= λ _,
  keys ← lift_res (l ← mapM_py tx_keys (bp_transactions p); k ← patch_keys (bp_state_patches p); Ok (concat l ++ k));
  modify_st (λ s, Session (ses_db s) (_load_current_state_index (ses_db s) keys)) ≫= λ _,
  forM_st (bp_transactions p) (_persist_transaction b (bp_block_time p)) ≫= λ _,
  if decide (bp_state_patches p = []) then mret tt
  else
    height ← lift_res (py_item "height" (bp_block_meta p));
    let hash := match bp_state_patch_hash p with
                | Some h => if decide (h = "") then "STATE_PATCH_" +:+ to_str py_str height else h
                | None => "STATE_PATCH_" +:+ to_str py_str height end in
    _persist_state_patches b (bp_block_time p) (bp_state_patches p) hash (Z.of_nat (length (bp_transactions p))).

(** [async with connection.transaction()]: the writes of a failed body are undone. *)
Definition transaction {A} (m : stM session A) : stM database A := λ d,
  match m (Session d ∅) with
  | (Ok a, s) => (Ok a, ses_db s)
  | (Raise e, s) => (Raise e, rolled_back d (ses_db s))
  end.

Definition validate_storage_policy (d : database) : result unit :=
  policy ← match t_execution_policy d with
           | None => Ok VNone
           | Some raw => match loads raw with
                         | Ok v => Ok v
                         | Raise (Exn ValueError _) | Raise (Exn TypeError _) => raise ValueError "invalid BDS execution policy"
                         | Raise e => Raise e end
           end;
  validate_execution_policy policy.

(** [select_block_identity] *)
Definition block_identity (height : Z) (d : database) : option (string * string) :=
  match list_find (λ r, br_height r = height) (t_blocks d) with
  | Some (_, r) => Some (br_hash r, br_app_hash r)
  | None => None
  end.

Definition height_col (p : BdsBlockPayload) : result Z := v ← py_item "height" (bp_block_meta p); bigint_col v.

(** The body of the [try]: what [persist_block] answers when nothing raises. *)
Definition persist_checked (p : BdsBlockPayload) : stM database bool :=
  height ← lift_res (height_col p);
  existing ← gets_st (block_identity height);
  match existing with
  | Some (block_hash, app_hash) =>
    expected ← lift_res (py_item "hash" (bp_block_meta p));
    mret (bool_decide (VStr block_hash = expected /\ app_hash = bp_app_hash p))
  | None => transaction (write_block p) ≫= λ _, mret true
  end.

Definition persist_block (p : BdsBlockPayload) : stM database bool := λ d,
  match (_ ← validate_execution_policy (bp_execution_policy p); validate_storage_policy d) with
  | Raise e => (Raise e, d)
  | Ok _ => match persist_checked p d with
            | (Ok answer, d') => (Ok answer, d')
            | (Raise _, d') => (Ok false, d')
            end
  end.

Definition GENESIS_BLOCK_HASH : string := "GENESIS".
Definition GENESIS_TX_HASH : string := "GENESIS".

Definition write_genesis (genesis_state : list value) : stM session unit :=
  let b := BlockCols 0 GENESIS_BLOCK_HASH 0 in
  let t := GENESIS_CREATED_AT in
  on_db (insert_block (BlockRow 0 GENESIS_BLOCK_HASH 0 t 1 GENESIS_BLOCK_HASH)) ≫= λ _,
  outcome ← lift_res (_jsonb_param (VDict [("status", VStr "ok"); ("genesis_entries", VInt (Z.of_nat (length genesis_state)))]));
  payload ← lift_res (_jsonb_param (VDict [("kind", VStr "genesis")]));
  envelope ← lift_res (_jsonb_param (VDict [("kind", VStr "genesis"); ("genesis", VList genesis_state)]));
  on_db (insert_transaction (TxRow GENESIS_TX_HASH 0 GENESIS_BLOCK_HASH 0 0 "sys" 0 "GENESIS_SUBMISSION" "process_genesis_block"
           true 0 0 (Some outcome) payload envelope)) ≫= λ _,
  on_db (upsert_address_activity (VStr "sys") b t 0 GENESIS_TX_HASH (VStr "GENESIS_SUBMISSION") (VStr "process_genesis_block")) ≫= λ _,
  for_enumerate (record_change b t GENESIS_TX_HASH 0 "genesis") genesis_state ≫= λ _,
  records ← lift_res (_collect_contract_records genesis_state);
  on_db (forM_st records (λ nr, persist_contract GENESIS_TX_HASH 0 (get_submission_time genesis_state nr.1) nr.1 nr.2)).

Definition process_genesis_block (cometbft_genesis : list (string * value)) : stM database unit :=
  lift_res (validate_genesis_execution_policy cometbft_genesis) ≫= λ _,
  d ← get_st;
  lift_res (validate_storage_policy d) ≫= λ _,
  genesis_state ← lift_res (g ← py_item "abci_genesis" (VDict cometbft_genesis); l ← py_item "genesis" g;
                            l ← convert_dict l; py_iter l);
  transaction (write_genesis genesis_state).

(** ** What a statement leaves alone *)

Definition aside (d d' : database) : Prop :=
  t_state_changes d' = t_state_changes d /\ t_state d' = t_state d /\ t_blocks d' = t_blocks d /\
  t_execution_policy d' = t_execution_policy d.

#[local] Instance aside_preorder : PreOrder aside.
Proof. split; [by intros ?|]. intros d1 d2 d3 (? & ? & ? & ?) (? & ? & ? & ?). repeat split; congruence. Qed.

Lemma for_enumerate_keeps {S A} (R : S -> S -> Prop) `{!PreOrder R} (f : nat -> A -> stM S unit) items :
  (forall i x, keeps R (f i x)) -> keeps R (for_enumerate f items).
Proof. intros Hf. apply keeps_forM; [done|]. intros x. apply Hf. Qed.

Ltac frame := unfold insert_transaction, insert_event, insert_reward, insert_shielded_output,
  insert_shielded_output_tag, upsert_contract, insert_state_patch_record, violation, require;
  repeat first [ progress cbn zeta | match goal with |- forall _, keeps _ _ => intro end | apply for_enumerate_keeps; [apply _|] | progress keep
               | apply keeps_modify; intros; solve [done | by destruct (taken _ _)] ].

Lemma insert_transaction_aside r : keeps aside (insert_transaction r).
Proof. frame. Qed.
Lemma insert_patch_aside r : keeps aside (insert_state_patch_record r).
Proof. frame. Qed.
Lemma upsert_address_aside a b t i h c f : keeps aside (upsert_address_activity a b t i h c f).
Proof. unfold upsert_address_activity. frame. Qed.
Lemma persist_rewards_aside b h i r : keeps aside (persist_rewards b h i r).
Proof. unfold persist_rewards, persist_reward. frame. Qed.
Lemma persist_event_aside b h i n e : keeps aside (persist_event b h i n e).
Proof. unfold persist_event. frame. Qed.
Lemma persist_outputs_aside b h i p r : keeps aside (persist_outputs b h i p r).
Proof. unfold persist_outputs, persist_output. frame. Qed.
Lemma persist_contract_aside h n t k r : keeps aside (persist_contract h n t k r).
Proof. unfold persist_contract. frame. Qed.
Lemma persist_contracts_aside b t h r cs : keeps aside (persist_contracts b t h r cs).
Proof. unfold persist_contracts. frame. apply persist_contract_aside. Qed.
Lemma persist_tx_row_aside b tx h i p r : keeps aside (persist_tx_row b tx h i p r).
Proof. unfold persist_tx_row. frame. Qed.

(** ** The history of a key *)

Definition last_change (k : string) (l : list (Z * change_row)) : option (Z * change_row) :=
  last (filter (λ ic, cr_key ic.2 = k) l).

Lemma last_change_snoc k l ic :
  last_change k (l ++ [ic]) = if decide (cr_key ic.2 = k) then Some ic else last_change k l.
Proof.
  unfold last_change. rewrite filter_app. case_decide as E; [by rewrite filter_cons_True, filter_nil, last_snoc|].
  by rewrite filter_cons_False, filter_nil, app_nil_r.
Qed.

Definition changes_of (d : database) : list (Z * change_row) := rows (t_state_changes d).

(** The table of current values holds the last change of every key, and numbers identify changes. *)
Definition state_ok (d : database) : Prop :=
  forall k, (λ r, (sr_value r, sr_last_change_id r, sr_last_tx_hash r)) <$> t_state d !! k =
            (λ ic, (cr_new_value ic.2, ic.1, cr_tx_hash ic.2)) <$> last_change k (changes_of d).
Definition ids_ok (d : database) : Prop :=
  NoDup (changes_of d).*1 /\ Forall (λ i, i <= last_id (t_state_changes d)) (changes_of d).*1.
Record store_ok (d : database) : Prop := { so_state : state_ok d; so_ids : ids_ok d }.

(** Every change points at the change of its key before it. *)
Inductive linked : list (Z * change_row) -> Prop :=
  | linked_nil : linked []
  | linked_snoc l ic :
      linked l -> cr_previous_change_id ic.2 = fst <$> last_change (cr_key ic.2) l ->
      cr_previous_tx_hash ic.2 = (λ ic', cr_tx_hash ic'.2) <$> last_change (cr_key ic.2) l -> linked (l ++ [ic]).

(** [current_index] is right about the keys [K]. *)
Definition covers (K : list string) (s : session) : Prop :=
  forall k, k ∈ K -> ses_index s !! k = (λ ic, (ic.1, cr_tx_hash ic.2)) <$> last_change k (changes_of (ses_db s)).

(** A write as it is stored. *)
Definition change_write (c : value) : result (string * string) :=
  key ← (v ← py_item "key" c; text_col v); new_value ← (v ← py_item "value" c; _jsonb_param v); Ok (key, new_value).

Definition write_of (r : change_row) : string * string := (cr_key r, cr_new_value r).

(** From [s] to [s'] the changes [ws] were recorded, and nothing else happened to the history or to the blocks. *)
Record adds (ws : list (string * string)) (s s' : session) : Prop := {
  adds_ok : store_ok (ses_db s) -> store_ok (ses_db s');
  adds_blocks : t_blocks (ses_db s') = t_blocks (ses_db s);
  adds_changes : exists new, changes_of (ses_db s') = changes_of (ses_db s) ++ new /\ write_of <$> new.*2 = ws;
  adds_linked K : ws.*1 ⊆ K -> linked (changes_of (ses_db s)) -> covers K s ->
    linked (changes_of (ses_db s')) /\ covers K s' }.

Lemma adds_trans ws ws' s1 s2 s3 : adds ws s1 s2 -> adds ws' s2 s3 -> adds (ws ++ ws') s1 s3.
Proof.
  intros [A1 B1 (n1 & C1 & W1) L1] [A2 B2 (n2 & C2 & W2) L2]. split; [auto|congruence| |].
  - exists (n1 ++ n2). rewrite C2, C1, (assoc_L (++)). split; [done|]. by rewrite !fmap_app, W1, W2.
  - intros K HK Hl Hc. rewrite fmap_app in HK. destruct (L1 K) as [Hl2 Hc2]; [intros x Hx; apply HK, elem_of_app; by left|done|done|].
    apply L2; [intros x Hx; apply HK, elem_of_app; by right|done|done].
Qed.

Lemma aside_adds {A} (m : stM database A) s a s' : keeps aside m -> on_db m s = (Ok a, s') -> adds [] s s'.
Proof.
  unfold on_db. intros Hk Hm. specialize (Hk (ses_db s)). destruct (m (ses_db s)) as [r d]. simplify_eq.
  cbn in Hk. destruct Hk as (Hc & Hs & Hb & _).
  assert (Hch : changes_of d = changes_of (ses_db s)) by (unfold changes_of; by rewrite Hc).
  split; cbn.
  - intros [Ho1 Ho2]. split; [intros k; rewrite Hs, Hch; apply Ho1|]. unfold ids_ok. rewrite Hch, Hc. done.
  - done.
  - exists []. by rewrite Hch, app_nil_r.
  - intros K _ Hl Hcov. split; [by rewrite Hch|]. intros k Hk. cbn. rewrite Hch. by apply Hcov.
Qed.

Lemma insert_state_change_inv r d id d' :
  insert_state_change r d = (Ok id, d') ->
  id = last_id (t_state_changes d) + 1 /\
  d' = with_state_changes (Table (changes_of d ++ [(id, r)]) id) d.
Proof.
  unfold insert_state_change. intros Hi. stM_inv. unfold get_st in E. simplify_eq. cbn in *.
  unfold modify_st in E0. simplify_eq. unfold require in *. 
  destruct (negb _); [|done]. unfold mret, stM_ret in *. simplify_eq.
  destruct (_ && _); [|done]. simplify_eq. unfold modify_st in *. simplify_eq. done.
Qed.

(** A recorded change with the value it makes current. *)
Definition changed (d : database) (id : Z) (r : change_row) (t : value) : database :=
  with_state (<[cr_key r := StateRow (cr_new_value r) id (cr_tx_hash r) (cr_block_height r) t]> (t_state d))
    (with_state_changes (Table (changes_of d ++ [(id, r)]) id) d).

Lemma changes_of_changed d id r t : changes_of (changed d id r t) = changes_of d ++ [(id, r)].
Proof. done. Qed.

Lemma changed_ok d r t : store_ok d -> store_ok (changed d (last_id (t_state_changes d) + 1) r t).
Proof.
  intros [Hs [Hn Hb]]. split.
  - intros k. rewrite changes_of_changed, last_change_snoc. cbn.
    destruct (decide (cr_key r = k)) as [-> | Hk]; [by rewrite lookup_insert_eq|].
    rewrite lookup_insert_ne by done. apply Hs.
  - unfold ids_ok. rewrite changes_of_changed, fmap_app. cbn. split.
    + apply NoDup_app. split; [done|]. split; [|apply NoDup_singleton].
      intros i Hi ->%list_elem_of_singleton. rewrite Forall_forall in Hb. specialize (Hb _ Hi). cbn in Hb. lia.
    + apply Forall_app. split; [|by apply Forall_singleton]. eapply Forall_impl; [exact Hb|]. cbn. lia.
Qed.

Lemma record_change_adds b t tx_hash tx_index origin n c s s' :
  record_change b t tx_hash tx_index origin n c s = (Ok tt, s') ->
  exists w, change_write c = Ok w /\ adds [w] s s'.
Proof.
  unfold record_change. intros Hr.
  apply stM_bind_inv in Hr as (key & s1 & Hkey & Hr). injection Hkey as Hkey <-.
  apply stM_bind_inv in Hr as (new & s1 & Hnew & Hr). injection Hnew as Hnew <-.
  apply stM_bind_inv in Hr as (prev & s1 & Hprev & Hr). injection Hprev as <- <-.
  apply stM_bind_inv in Hr as (id & s2 & Hins & Hr). unfold on_db in Hins.
  destruct (insert_state_change _ (ses_db s)) as [r d] eqn:Ei. injection Hins as -> <-.
  apply insert_state_change_inv in Ei as [-> ->]. set (id := last_id (t_state_changes (ses_db s)) + 1) in *.
  apply stM_bind_inv in Hr as ([] & s3 & Hmod & Hr). injection Hmod as <-. injection Hr as <-.
  exists (key, new). split; [unfold change_write; by rewrite Hkey, Hnew|].
  set (row := ChangeRow _ _ _ _ _ _ _ _ _ _ _).
  change (with_state _ _) with (changed (ses_db s) id row t). split; cbn [ses_db ses_index].
  - intros Hok. by apply changed_ok.
  - done.
  - by exists [(id, row)].
  - intros K HK Hl Hc. assert (Hin : key ∈ K) by (apply HK; cbn; by left). split.
    + rewrite changes_of_changed. apply linked_snoc; [done|..]; cbn; rewrite (Hc key Hin); by destruct (last_change _ _).
    + intros k Hk. cbn [ses_db ses_index]. rewrite changes_of_changed, last_change_snoc. cbn.
      destruct (decide (key = k)) as [-> | Hne]; [by rewrite lookup_insert_eq|]. rewrite lookup_insert_ne by done. by apply Hc.
Qed.

Lemma adds_refl s : adds [] s s.
Proof. split; [done|done| |done]. exists []. by rewrite app_nil_r. Qed.

(** The body of a loop decides what the loop adds. *)
Lemma forM_adds {A} (f : A -> stM session unit) (g : A -> result (list (string * string))) l s s' :
  (forall x s s', f x s = (Ok tt, s') -> exists ws, g x = Ok ws /\ adds ws s s') ->
  forM_st l f s = (Ok tt, s') -> exists wss, mapM_py g l = Ok wss /\ adds (concat wss) s s'.
Proof.
  intros Hf. revert s. induction l as [|x l IH]; intros s Hl; cbn in Hl.
  { injection Hl as <-. exists []. split; [done|apply adds_refl]. }
  apply stM_bind_inv in Hl as ([] & s1 & Hx & Hl). destruct (Hf _ _ _ Hx) as (ws & Hg & Ha).
  destruct (IH _ Hl) as (wss & Hgs & Has). exists (ws :: wss). split; [cbn; by rewrite Hg, Hgs|].
  by eapply adds_trans.
Qed.

Lemma mapM_py_zip {A B} (g : A -> result B) (l : list A) n : mapM_py (λ ix, g ix.2) (zip (seq n (length l)) l) = mapM_py g l.
Proof. revert n. induction l as [|x l IH]; intros n; [done|]. cbn. destruct (g x); [|done]. cbn. by rewrite IH. Qed.

Lemma mapM_py_single {A B} (g : A -> result B) l wss :
  mapM_py (λ x, y ← g x; Ok [y]) l = Ok wss -> mapM_py g l = Ok (concat wss).
Proof.
  revert wss. induction l as [|x l IH]; intros wss Hm; cbn in Hm |- *; [by destruct_result|].
  destruct (g x) as [y|]; [|done]. cbn in Hm |- *. destruct (mapM_py _ l) as [r|] eqn:E; [|done].
  cbn in Hm. destruct_result. by rewrite (IH _ eq_refl).
Qed.

Lemma record_changes_adds b t tx_hash tx_index origin cs s s' :
  for_enumerate (record_change b t tx_hash tx_index origin) cs s = (Ok tt, s') ->
  exists ws, mapM_py change_write cs = Ok ws /\ adds ws s s'.
Proof.
  intros Hf. apply (forM_adds _ (λ ix, w ← change_write ix.2; Ok [w])) in Hf as (wss & Hm & Ha).
  - rewrite (mapM_py_zip (λ c, w ← change_write c; Ok [w])) in Hm. exists (concat wss). split; [|done].
    by apply mapM_py_single.
  - intros [n c] s1 s2 Hr. apply record_change_adds in Hr as (w & Hw & Ha). exists [w].
    cbn [snd] in Hw |- *. by rewrite Hw.
Qed.

(** ** The writes of a block *)

Definition tx_writes (tx : BdsTransactionPayload) : result (list (string * string)) :=
  cs ← (v ← py_item "state" (bt_tx_result tx); py_iter v); mapM_py change_write cs.

Definition patch_writes (state_patches : list value) : result (list (string * string)) :=
  cs ← (l ← mapM_py patch_changes state_patches; Ok (concat l)); mapM_py change_write cs.

(** What the block does to the state: the writes of its transactions, then those of its patches. *)
Definition block_writes (p : BdsBlockPayload) : result (list (string * string)) :=
  txs ← mapM_py tx_writes (bp_transactions p);
  patches ← patch_writes (bp_state_patches p);
  Ok (concat txs ++ patches).

Lemma lift_inv {S A} (r : result A) (s : S) a s' : lift_res r s = (Ok a, s') -> r = Ok a /\ s' = s.
Proof. unfold lift_res. by intros [= -> ->]. Qed.

(** Steps through a run: pure steps are substituted, steps aside add nothing. *)
Ltac step H :=
  let x := fresh "x" in let s := fresh "s" in let E := fresh "E" in
  apply stM_bind_inv in H as (x & s & E & H);
  try (apply lift_inv in E as [E ->]).

Lemma adds_nil_l ws s1 s2 s3 : adds [] s1 s2 -> adds ws s2 s3 -> adds ws s1 s3.
Proof. apply (adds_trans []). Qed.
Lemma adds_nil_r ws s1 s2 s3 : adds ws s1 s2 -> adds [] s2 s3 -> adds ws s1 s3.
Proof. intros H1 H2. rewrite <- (app_nil_r ws). by eapply adds_trans. Qed.
Ltac adds_chain := repeat first [eassumption | eapply adds_nil_l; [eassumption|] | eapply adds_nil_r; [eassumption|]].

Lemma persist_transaction_adds b t tx s s' :
  _persist_transaction b t tx s = (Ok tt, s') -> exists ws, tx_writes tx = Ok ws /\ adds ws s s'.
Proof.
  unfold _persist_transaction. intros Hp. do 5 step Hp. apply aside_adds in E3; [|apply persist_tx_row_aside].
  step Hp. apply aside_adds in E4; [|apply upsert_address_aside].
  do 2 step Hp. destruct x6. apply record_changes_adds in E6 as (ws & Hw & Ha).
  step Hp. apply aside_adds in E6; [|apply persist_rewards_aside].
  do 2 step Hp. apply aside_adds in E8; [|apply for_enumerate_keeps; [apply _|intros; apply persist_event_aside]].
  step Hp. apply aside_adds in E9; [|apply persist_outputs_aside].
  apply aside_adds in Hp; [|apply persist_contracts_aside].
  exists ws. split; [|adds_chain].
  unfold tx_writes. destruct (bt_tx_result tx); try done. injection E as ->. by rewrite E5.
Qed.

Lemma persist_state_patches_adds b t patches h i s s' :
  _persist_state_patches b t patches h i s = (Ok tt, s') -> exists ws, patch_writes patches = Ok ws /\ adds ws s s'.
Proof.
  unfold _persist_state_patches. intros Hp. do 6 step Hp. apply aside_adds in E4; [|apply insert_transaction_aside].
  step Hp. apply aside_adds in E5; [|apply upsert_address_aside].
  step Hp. destruct x6. apply record_changes_adds in E6 as (ws & Hw & Ha).
  step Hp. apply aside_adds in Hp; [|apply insert_patch_aside].
  exists ws. split; [|adds_chain]. unfold patch_writes. rewrite E. done.
Qed.

Lemma mapM_py_map {A B C} (f : A -> result B) (g : A -> result C) (h : B -> C) l ys :
  (forall x y, f x = Ok y -> g x = Ok (h y)) -> mapM_py f l = Ok ys -> mapM_py g l = Ok (h <$> ys).
Proof.
  intros Hfg. revert ys. induction l as [|x l IH]; intros ys Hm; cbn in Hm |- *; [by destruct_result|].
  destruct (f x) as [y|] eqn:Ex; [|done]. cbn in Hm. destruct (mapM_py f l) as [zs|] eqn:El; [|done]. cbn in Hm.
  destruct_result. by rewrite (Hfg _ _ Ex), (IH _ eq_refl).
Qed.

Lemma tx_writes_keys tx ws : tx_writes tx = Ok ws -> tx_keys tx = Ok ws.*1.
Proof.
  unfold tx_writes, tx_keys. intros Hw. destruct (py_item "state" (bt_tx_result tx) ≫= _) as [cs|] eqn:E; [|done].
  cbn [mbind result_bind] in Hw |- *. eapply mapM_py_map; [|exact Hw]. intros c w Hc. unfold change_write in Hc.
  destruct (py_item "key" c ≫= _) as [k|]; [|done]. cbn in Hc. by destruct_result.
Qed.

Lemma fst_concat {A B} (l : list (list (A * B))) : (concat l).*1 = concat ((λ x : list (A * B), x.*1) <$> l).
Proof. induction l as [|x l IH]; [done|]. cbn. by rewrite fmap_app, IH. Qed.

Lemma load_index_covers d keys : store_ok d -> covers keys (Session d (_load_current_state_index d keys)).
Proof.
  intros [Hs _] k Hk. cbn. unfold _load_current_state_index. rewrite lookup_fmap, map_lookup_filter.
  specialize (Hs k). destruct (t_state d !! k) as [r|]; cbn in Hs |- *.
  - rewrite option_guard_True by done. destruct (last_change k _); [|done]. cbn in Hs |- *. congruence.
  - by destruct (last_change k _).
Qed.

Lemma block_identity_none height d : block_identity height d = None -> block_exists height d = false.
Proof.
  unfold block_identity, block_exists, taken. destruct (list_find _ _) as [[]|] eqn:E; [done|]. intros _.
  apply list_find_None in E. apply not_true_is_false. intros (r & Hin & Hr%bool_decide_eq_true)%existsb_exists.
  rewrite Forall_forall in E. apply (E r); [by apply list_elem_of_In|done].
Qed.

Lemma insert_block_fresh r d d' :
  block_exists (br_height r) d = false -> insert_block r d = (Ok tt, d') -> d' = with_blocks (t_blocks d ++ [r]) d.
Proof.
  unfold insert_block. intros Hb Hi. apply stM_bind_inv in Hi as (? & ? & [= <- <-] & Hi). rewrite Hb in Hi.
  destruct (taken _ _); [done|]. by injection Hi.
Qed.

Definition new_block (p : BdsBlockPayload) (b : block_cols) : block_row :=
  BlockRow (bc_height b) (bc_hash b) (bc_nanos b) (bp_block_time p) (Z.of_nat (length (bp_transactions p))) (bp_app_hash p).

Lemma write_block_adds p b d s' :
  block_columns (bp_block_meta p) = Ok b -> block_exists (bc_height b) d = false -> store_ok d ->
  write_block p (Session d ∅) = (Ok tt, s') ->
  exists ws, block_writes p = Ok ws /\ t_blocks (ses_db s') = t_blocks d ++ [new_block p b] /\ store_ok (ses_db s') /\
    (exists new, changes_of (ses_db s') = changes_of d ++ new /\ write_of <$> new.*2 = ws) /\
    (bp_state_patches p = [] -> linked (changes_of d) -> linked (changes_of (ses_db s'))).
Proof.
  intros Hb Hfresh Hok Hw. unfold write_block in Hw.
  apply stM_bind_inv in Hw as (b' & ? & [E ->]%lift_inv & Hw). rewrite Hb in E. apply Ok_inj in E as <-.
  apply stM_bind_inv in Hw as (app_hash & ? & [E ->]%lift_inv & Hw).
  assert (app_hash = bp_app_hash p) as -> by (cbn in E; destruct (accepts_text _); by destruct_result).
  apply stM_bind_inv in Hw as ([] & ? & Eb & Hw). unfold on_db in Eb.
  destruct (insert_block _ _) as [r d1] eqn:Ei. injection Eb as -> <-.
  apply insert_block_fresh in Ei; [|done]. cbn [ses_db] in Ei, Hw.
  apply stM_bind_inv in Hw as (keys & ? & [E0 ->]%lift_inv & Hw).
  apply stM_bind_inv in Hw as ([] & ? & [= <-] & Hw). cbn [ses_db] in Hw.
  apply stM_bind_inv in Hw as ([] & s2 & Etx & Hw).
  apply (forM_adds _ tx_writes) in Etx as (wss & Htx & Ha); [|intros; by eapply persist_transaction_adds].
  set (s0 := Session d1 (_load_current_state_index d1 keys)) in *.
  assert (Hch : changes_of d1 = changes_of d) by by subst d1.
  assert (Hok1 : store_ok d1) by (subst d1; destruct Hok; by split).
  assert (Hpat : exists pws, patch_writes (bp_state_patches p) = Ok pws /\ adds pws s2 s' /\ (bp_state_patches p = [] -> pws = [])).
  { case_decide as Hp.
    - injection Hw as <-. exists []. rewrite Hp. split; [done|]. split; [apply adds_refl|done].
    - step Hw. apply persist_state_patches_adds in Hw as (pws & Hpw & Hpa). exists pws. by split; [|split]. }
  destruct Hpat as (pws & Hpw & Hpa & Hnil). pose proof (adds_trans _ _ _ _ _ Ha Hpa) as [A B C L].
  exists (concat wss ++ pws). split; [unfold block_writes; by rewrite Htx, Hpw|]. cbn in B. 
  split; [rewrite B; by subst d1|]. split; [by apply A|]. split; [by rewrite <- Hch|].
  intros Hp Hl. apply (L keys); [|cbn; by rewrite Hch|by apply load_index_covers].
  rewrite (Hnil Hp), app_nil_r. intros k Hk. rewrite fst_concat in Hk.
  rewrite (mapM_py_map tx_writes tx_keys (λ x : list (string * string), x.*1) _ wss tx_writes_keys Htx) in E0. cbn in E0.
  destruct_result. apply elem_of_app. by left.
Qed.

(** ** What [persist_block] does *)

Definition value_of (d : database) (k : string) : option string := sr_value <$> t_state d !! k.

(** The value of [k] after the writes [ws]. *)
Definition after_writes (ws : list (string * string)) (old : option string) (k : string) : option string :=
  match last (filter (λ w, w.1 = k) ws) with Some w => Some w.2 | None => old end.

Lemma value_of_last d k : store_ok d -> value_of d k = (λ ic, cr_new_value ic.2) <$> last_change k (changes_of d).
Proof.
  intros [Hs _]. specialize (Hs k). unfold value_of. destruct (t_state d !! k), (last_change k _); cbn in Hs |- *; congruence.
Qed.

Lemma last_change_app k l new :
  (λ ic, cr_new_value ic.2) <$> last_change k (l ++ new) =
  after_writes (write_of <$> new.*2) ((λ ic, cr_new_value ic.2) <$> last_change k l) k.
Proof.
  induction new as [|ic new IH] using rev_ind; [by rewrite app_nil_r|].
  rewrite (assoc_L (++)), last_change_snoc, !fmap_app. change (write_of <$> [ic].*2) with [write_of ic.2].
  unfold after_writes. rewrite filter_app.
  case_decide as E.
  - rewrite filter_cons_True by done. by rewrite filter_nil, last_snoc.
  - rewrite filter_cons_False by done. rewrite filter_nil, app_nil_r. apply IH.
Qed.

(** The same rows in every table; numbers may have been drawn. *)
Record same_tables (d d' : database) : Prop := {
  st_blocks : t_blocks d' = t_blocks d; st_transactions : t_transactions d' = t_transactions d;
  st_addresses : t_addresses d' = t_addresses d; st_changes : rows (t_state_changes d') = rows (t_state_changes d);
  st_state : t_state d' = t_state d; st_events : rows (t_events d') = rows (t_events d);
  st_rewards : rows (t_rewards d') = rows (t_rewards d);
  st_outputs : rows (t_shielded_outputs d') = rows (t_shielded_outputs d);
  st_tags : rows (t_shielded_output_tags d') = rows (t_shielded_output_tags d);
  st_contracts : t_contracts d' = t_contracts d; st_patches : t_state_patches d' = t_state_patches d;
  st_policy : t_execution_policy d' = t_execution_policy d }.

Lemma transaction_inv {A} (m : stM session A) d r d' :
  transaction m d = (r, d') ->
  (exists a s, r = Ok a /\ m (Session d ∅) = (Ok a, s) /\ d' = ses_db s) \/ (is_ok r = false /\ same_tables d d').
Proof.
  unfold transaction. destruct (m _) as [[a|e] s]; intros [= <- <-]; [left; by eexists _, _|right].
  split; [done|]. by split.
Qed.

Lemma block_columns_height p b : block_columns (bp_block_meta p) = Ok b -> height_col p = Ok (bc_height b).
Proof.
  unfold block_columns, height_col. intros Hb.
  destruct (py_item "height" (bp_block_meta p) ≫= λ v, bigint_col v) as [h|]; [|done]. cbn [mbind result_bind] in Hb.
  by destruct_result.
Qed.

Lemma lift_bind {S A B} (r : result A) (f : A -> stM S B) s :
  (lift_res r ≫= f) s = match r with Ok a => f a s | Raise e => (Raise e, s) end.
Proof. by destruct r. Qed.

(** A call of [persist_block] writes the block, or answers without touching a row; it answers
    [True] then only when the block is there with the same hashes. *)
Lemma persist_block_inv p d r d' :
  persist_block p d = (r, d') ->
  (exists b s, r = Ok true /\ block_columns (bp_block_meta p) = Ok b /\ block_identity (bc_height b) d = None /\
               write_block p (Session d ∅) = (Ok tt, s) /\ d' = ses_db s) \/
  (same_tables d d' /\
   (r = Ok true -> exists height hash, height_col p = Ok height /\ py_item "hash" (bp_block_meta p) = Ok (VStr hash) /\
                                       block_identity height d = Some (hash, bp_app_hash p))).
Proof.
  unfold persist_block.
  destruct (_ ← validate_execution_policy (bp_execution_policy p); validate_storage_policy d) as [[]|e]; [|intros [= <- <-]; right; by split; [split|]].
  unfold persist_checked. rewrite lift_bind.
  destruct (height_col p) as [height|e] eqn:Eh; [|intros [= <- <-]; right; by split; [split|]].
  rewrite (stM_bind_ok (gets_st (block_identity height)) _ d (block_identity height d) d eq_refl).
  destruct (block_identity height d) as [[hash app]|] eqn:Eid.
  - rewrite lift_bind. destruct (py_item "hash" (bp_block_meta p)) as [v|e] eqn:Ev;
      [|intros [= <- <-]; right; by split; [split|]].
    unfold mret, stM_ret. intros [= <- <-]. right. split; [by split|]. intros [= [<- ->]%bool_decide_eq_true].
    by exists height, hash.
  - destruct (transaction (write_block p) d) as [r1 d1] eqn:Et.
    apply transaction_inv in Et as Ht. destruct Ht as [(a & s & -> & Hw & ->)|[Hr Hs]].
    + rewrite (stM_bind_ok _ _ _ _ _ Et). intros [= <- <-]. left. destruct a. pose proof Hw as Hb. unfold write_block in Hb.
      apply stM_bind_inv in Hb as (b & ? & [E ->]%lift_inv & _). exists b, s.
      pose proof (block_columns_height _ _ E) as Eh'. rewrite Eh in Eh'. apply Ok_inj in Eh' as ->. done.
    + destruct r1; [done|]. rewrite (stM_bind_raise _ _ _ _ _ Et). intros [= <- <-]. right. by split.
Qed.

(** ** Numbers only grow *)

Definition grows (d d' : database) : Prop :=
  last_id (t_state_changes d) <= last_id (t_state_changes d') /\ t_execution_policy d' = t_execution_policy d.
Definition session_grows (s s' : session) : Prop := grows (ses_db s) (ses_db s').

#[local] Instance grows_preorder : PreOrder grows.
Proof. split; unfold grows; [by intros ?|]. intros ??? [] []. split; [lia|congruence]. Qed.
#[local] Instance session_grows_preorder : PreOrder session_grows.
Proof. split; unfold session_grows; [intros ?; reflexivity|intros ???; apply grows_preorder]. Qed.

Lemma aside_grows {A} (m : stM database A) : keeps aside m -> keeps grows m.
Proof. intros Hm d. destruct (Hm d) as (Hc & _ & _ & Hp). unfold grows. rewrite Hc. by split; [lia|]. Qed.

Lemma on_db_grows {A} (m : stM database A) : keeps grows m -> keeps session_grows (on_db m).
Proof. intros Hm s. specialize (Hm (ses_db s)). unfold session_grows, on_db. by destruct (m (ses_db s)). Qed.

Lemma on_db_aside {A} (m : stM database A) : keeps aside m -> keeps session_grows (on_db m).
Proof. intros Hm. by apply on_db_grows, aside_grows. Qed.

Lemma insert_state_change_grows r : keeps grows (insert_state_change r).
Proof.
  unfold insert_state_change, require, violation. intros d. unfold get_st, modify_st, mbind, stM_bind. cbn.
  destruct (negb _); [|unfold grows; cbn; split; [lia|done]]. cbn.
  destruct (_ && _); unfold grows; cbn; (split; [lia|done]).
Qed.

Lemma insert_block_grows r : keeps grows (insert_block r).
Proof.
  unfold insert_block, violation. keep. apply keeps_modify. intros d. by split; [cbn; lia|].
Qed.

Ltac grow := repeat first
  [ match goal with |- forall _, keeps _ _ => intro end
  | progress keep
  | apply for_enumerate_keeps; [apply _|]
  | apply on_db_aside; solve [apply insert_transaction_aside | apply insert_patch_aside | apply upsert_address_aside
      | apply persist_rewards_aside | apply persist_outputs_aside | apply persist_contracts_aside | apply persist_tx_row_aside
      | apply for_enumerate_keeps; [apply _|]; intros; apply persist_event_aside]
  | apply on_db_grows; solve [apply insert_state_change_grows | apply insert_block_grows
      | unfold upsert_state; apply keeps_modify; intros d; split; [cbn; lia|done]]
  | apply keeps_modify; intros s; split; [cbn; lia|done] ].

Lemma write_block_grows p : keeps session_grows (write_block p).
Proof. unfold write_block, _persist_state_patches, _persist_transaction, record_change. grow. Qed.

Lemma persist_block_grows p : keeps grows (persist_block p).
Proof.
  intros d. destruct (persist_block p d) as [r d'] eqn:E. cbn. revert E. unfold persist_block.
  destruct (_ ← validate_execution_policy (bp_execution_policy p); validate_storage_policy d) as [[]|e];
    [|intros [= <- <-]; reflexivity].
  assert (Hk : keeps grows (persist_checked p)).
  { unfold persist_checked. keep. intros d1. unfold transaction. pose proof (write_block_grows p (Session d1 ∅)) as Hw.
    destruct (write_block p (Session d1 ∅)) as [[] s]; [exact Hw|]. split; [apply Hw|done]. }
  specialize (Hk d). by destruct (persist_checked p d) as [[] d1]; intros [= <- <-].
Qed.

Lemma same_tables_ok d d' : same_tables d d' -> grows d d' -> store_ok d -> store_ok d'.
Proof.
  intros Ht Hg [Hs [Hn Hb]]. assert (Hc : changes_of d' = changes_of d) by apply Ht. split.
  - intros k. rewrite Hc, (st_state _ _ Ht). apply Hs.
  - unfold ids_ok. rewrite Hc. split; [done|]. eapply Forall_impl; [exact Hb|]. destruct Hg. cbn. lia.
Qed.

Lemma block_identity_snoc d d' r h :
  t_blocks d' = t_blocks d ++ [r] -> block_identity (br_height r) d = None ->
  block_identity h d' = if decide (h = br_height r) then Some (br_hash r, br_app_hash r) else block_identity h d.
Proof.
  unfold block_identity. intros -> Hn. case_decide as E.
  - subst h. destruct (list_find (λ r', br_height r' = br_height r) (t_blocks d)) as [[]|] eqn:Ef; [done|].
    erewrite list_find_app_r; [|done]. cbn. by rewrite decide_True.
  - destruct (list_find (λ r', br_height r' = h) (t_blocks d)) as [[i r']|] eqn:Ef.
    + by erewrite list_find_app_l.
    + erewrite list_find_app_r; [|done]. cbn. by rewrite decide_False.
Qed.

(** Claim C20. A block that is not indexed yet and that [persist_block] accepts is indexed under its
    height with its hashes and no other block changes; the current value of every key is
    its last write by the block, or what it was; the index keeps its own account (every
    key's current row is its last recorded change); and as long as blocks carry no state
    patch, every change stays linked to the change of the same key before it. *)
Theorem persist_block_correct p b d d' :
  store_ok d -> block_columns (bp_block_meta p) = Ok b -> block_identity (bc_height b) d = None ->
  persist_block p d = (Ok true, d') ->
  store_ok d' /\
  (forall h, block_identity h d' = if decide (h = bc_height b) then Some (bc_hash b, bp_app_hash p) else block_identity h d) /\
  (exists ws, block_writes p = Ok ws /\ forall k, value_of d' k = after_writes ws (value_of d k) k) /\
  (bp_state_patches p = [] -> linked (changes_of d) -> linked (changes_of d')).
Proof.
  intros Hok Hb Hn Hp. destruct (persist_block_inv _ _ _ _ Hp) as [(b' & s & _ & Hb' & _ & Hw & ->)|[_ He]].
  2: { destruct (He eq_refl) as (h & hash & Hh & _ & Hid). rewrite (block_columns_height _ _ Hb) in Hh. congruence. }
  rewrite Hb in Hb'. apply Ok_inj in Hb' as <-.
  apply write_block_adds with (b := b) in Hw as (ws & Hws & Hbl & Hok' & (new & Hnew & Hww) & Hl);
    [|done|by apply block_identity_none|done].
  split; [done|]. split; [intros h; by rewrite (block_identity_snoc d _ (new_block p b) h Hbl Hn)|]. split; [|done].
  exists ws. split; [done|]. intros k. rewrite !value_of_last by done. rewrite Hnew, last_change_app. by rewrite Hww.
Qed.

Lemma block_columns_hash p b : block_columns (bp_block_meta p) = Ok b -> py_item "hash" (bp_block_meta p) = Ok (VStr (bc_hash b)).
Proof.
  unfold block_columns. intros Hb. destruct_result. cbn. unfold text_col in *.
  repeat match goal with H : match ?v with _ => _ end = Ok _ |- _ => destruct v; try done end.
  by destruct_result.
Qed.

(** A block that is there with the same hashes is answered without a change. *)
Lemma persist_block_known p d1 d r d' height hash :
  persist_block p d1 = (Ok r, d') -> t_execution_policy d = t_execution_policy d1 ->
  height_col p = Ok height -> py_item "hash" (bp_block_meta p) = Ok (VStr hash) ->
  block_identity height d = Some (hash, bp_app_hash p) -> persist_block p d = (Ok true, d).
Proof.
  intros Hp Hpol Hh Hhash Hid. unfold persist_block in Hp |- *.
  assert (validate_storage_policy d = validate_storage_policy d1) as -> by (unfold validate_storage_policy; by rewrite Hpol).
  destruct (_ ← validate_execution_policy (bp_execution_policy p); validate_storage_policy d1) as [[]|e]; [|done].
  unfold persist_checked. rewrite lift_bind, Hh.
  rewrite (stM_bind_ok (gets_st (block_identity height)) _ d (block_identity height d) d eq_refl), Hid.
  rewrite lift_bind, Hhash. unfold mret, stM_ret. by rewrite bool_decide_eq_true_2.
Qed.

(** A block of another identity at its height is refused, without a change. *)
Lemma persist_block_mismatch p d height v hash app :
  validate_execution_policy (bp_execution_policy p) = Ok tt -> validate_storage_policy d = Ok tt ->
  height_col p = Ok height -> py_item "hash" (bp_block_meta p) = Ok v ->
  block_identity height d = Some (hash, app) -> (VStr hash, app) <> (v, bp_app_hash p) ->
  persist_block p d = (Ok false, d).
Proof.
  intros Hpol Hstore Hh Hv Hid Hne. unfold persist_block. rewrite Hpol. cbn [mbind result_bind]. rewrite Hstore.
  unfold persist_checked. rewrite lift_bind, Hh.
  rewrite (stM_bind_ok (gets_st (block_identity height)) _ d (block_identity height d) d eq_refl), Hid.
  rewrite lift_bind, Hv. unfold mret, stM_ret. rewrite bool_decide_eq_false_2; [done|]. intros [E1 E2]. apply Hne. by rewrite E1, E2.
Qed.

(** Persisting is atomic and can be repeated: an answer other than [True] leaves every row
    as it was, so does a block whose height is already indexed, and a block that was
    answered with [True] is answered with [True] again, without a change. *)
Theorem persist_block_atomic p d r d' :
  persist_block p d = (r, d') ->
  (r <> Ok true -> same_tables d d') /\
  (forall height, height_col p = Ok height -> block_identity height d <> None -> same_tables d d') /\
  (store_ok d -> store_ok d') /\
  (store_ok d -> r = Ok true -> persist_block p d' = (Ok true, d')).
Proof.
  intros Hp. pose proof (persist_block_grows p d) as Hg. rewrite Hp in Hg. cbn in Hg.
  destruct (persist_block_inv _ _ _ _ Hp) as [(b & s & -> & Hb & Hn & Hw & ->)|[Ht He]].
  - split; [done|]. split; [intros h Hh; rewrite (block_columns_height _ _ Hb) in Hh; congruence|].
    assert (Hadds : store_ok d -> store_ok (ses_db s) /\ t_blocks (ses_db s) = t_blocks d ++ [new_block p b]).
    { intros Hok. apply write_block_adds with (b := b) in Hw as (ws & _ & Hbl & Hok' & _);
        [done|done|by apply block_identity_none|done]. }
    split; [apply Hadds|]. intros Hok _. destruct (Hadds Hok) as [_ Hbl].
    eapply persist_block_known; [exact Hp|apply Hg|by apply block_columns_height|by apply block_columns_hash|].
    rewrite (block_identity_snoc d _ (new_block p b) _ Hbl Hn). by rewrite decide_True.
  - split; [done|]. split; [done|]. split; [by intros; eapply same_tables_ok|].
    intros _ ->. destruct (He eq_refl) as (h & hash & Hh & Hhash & Hid).
    eapply persist_block_known; [exact Hp|apply Hg|exact Hh|exact Hhash|].
    unfold block_identity in *. by rewrite (st_blocks _ _ Ht).
Qed.

(** ** Genesis *)

Lemma write_genesis_adds entries d s :
  t_blocks d = [] -> changes_of d = [] -> store_ok d -> write_genesis entries (Session d ∅) = (Ok tt, s) ->
  exists ws, mapM_py change_write entries = Ok ws /\
    t_blocks (ses_db s) = [BlockRow 0 GENESIS_BLOCK_HASH 0 GENESIS_CREATED_AT 1 GENESIS_BLOCK_HASH] /\
    store_ok (ses_db s) /\ linked (changes_of (ses_db s)) /\
    exists new, changes_of (ses_db s) = new /\ write_of <$> new.*2 = ws.
Proof.
  intros Hb Hc Hok Hw. unfold write_genesis in Hw.
  apply stM_bind_inv in Hw as ([] & ? & Eb & Hw). unfold on_db in Eb.
  destruct (insert_block _ _) as [r d1] eqn:Ei. injection Eb as -> <-.
  apply insert_block_fresh in Ei; [|unfold block_exists; cbn; by rewrite Hb]. cbn [ses_db] in Ei, Hw.
  do 4 step Hw. apply aside_adds in E2; [|apply insert_transaction_aside].
  step Hw. apply aside_adds in E3; [|apply upsert_address_aside].
  step Hw. destruct x4. apply record_changes_adds in E4 as (ws & Hws & Ha).
  step Hw. apply aside_adds in Hw; [|apply keeps_forM; [apply _|intros; apply persist_contract_aside]].
  assert (Hall : adds ws (Session d1 ∅) s) by adds_chain.
  assert (Hch : changes_of d1 = []) by by subst d1. destruct Hall as [A B (new & C & W) L].
  exists ws. split; [done|]. split; [rewrite B; subst d1; cbn; by rewrite Hb|].
  split; [apply A; subst d1; destruct Hok; by split|]. split.
  - apply (L ws.*1); [done|cbn; rewrite Hch; constructor|]. intros k _. cbn. by rewrite Hch.
  - exists new. split; [|done]. rewrite C. cbn. by rewrite Hch.
Qed.

(** An empty database that takes in genesis holds block 0, the genesis entries as current
    values, and a history that is linked from the start. *)
Lemma genesis_indexed cometbft_genesis d d' :
  t_blocks d = [] -> changes_of d = [] -> t_state d = ∅ -> process_genesis_block cometbft_genesis d = (Ok tt, d') ->
  store_ok d' /\ linked (changes_of d') /\
  (forall h, block_identity h d' = if decide (h = 0) then Some (GENESIS_BLOCK_HASH, GENESIS_BLOCK_HASH) else None) /\
  exists entries ws, mapM_py change_write entries = Ok ws /\ forall k, value_of d' k = after_writes ws None k.
Proof.
  intros Hb Hc Hs Hg. unfold process_genesis_block in Hg.
  apply stM_bind_inv in Hg as (? & ? & [_ ->]%lift_inv & Hg).
  apply stM_bind_inv in Hg as (? & ? & [= <- <-] & Hg).
  apply stM_bind_inv in Hg as (? & ? & [_ ->]%lift_inv & Hg).
  apply stM_bind_inv in Hg as (entries & ? & [_ ->]%lift_inv & Hg).
  apply transaction_inv in Hg as [([] & s & _ & Hw & ->)|[]]; [|done].
  assert (Hok : store_ok d).
  { split; [intros k; by rewrite Hs, Hc, lookup_empty|]. unfold ids_ok. rewrite Hc. split; constructor. }
  apply write_genesis_adds in Hw as (ws & Hws & Hbl & Hok' & Hl & new & Hnew & Hww); [|done..].
  split; [done|]. split; [done|]. split.
  - intros h. unfold block_identity. rewrite Hbl. cbn. destruct (decide (0 = h)) as [<-|Hne]; [by rewrite decide_True|].
    by rewrite decide_False.
  - exists entries, ws. split; [done|]. intros k. rewrite value_of_last by done. rewrite Hnew.
    pose proof (last_change_app k [] new) as Hl'. rewrite app_nil_l, Hww in Hl'. exact Hl'.
Qed.
End Store.

(** ** A small chain *)

Definition toy_policy : string := ok_or "" (dumps true (VDict current_execution_policy)).
Definition empty_db : database :=
  Database [] [] ∅ (Table [] 0) ∅ (Table [] 0) (Table [] 0) (Table [] 0) (Table [] 0) ∅ [] (Some "7") (Some toy_policy).
Definition toy_persist : BdsBlockPayload -> stM database bool :=
  persist_block (λ _, None) (dumps true) (λ _, "") (λ _, raise ValueError "float") (λ s, Ok (VStr s))
    (λ _, true) (λ _, true) (λ l, Ok (VTuple l)) (λ _, []) (λ a _, a).
Definition toy_genesis_doc : list (string * value) :=
  [("abci_genesis", VDict [("genesis", VList [VDict [("key", VStr EXECUTION_POLICY_KEY); ("value", VDict current_execution_policy)];
                                              VDict [("key", VStr "currency.balances:alice"); ("value", VInt 100)]])])].
Definition toy_genesis_run : result unit * database :=
  process_genesis_block (λ _, None) (dumps true) Ok (λ _, true) (λ _, true) (λ l, Ok (VTuple l)) (λ _, []) (λ a _, a)
    (VTime "1970-01-01 00:00:00") toy_genesis_doc empty_db.
Definition db0 : database := toy_genesis_run.2.

Definition toy_tx (index : Z) (hash key : string) (v : value) : BdsTransactionPayload :=
  BdsTransaction (VInt index) (VDict []) (VDict [("sender", VStr "alice"); ("nonce", VInt 0); ("contract", VStr "con"); ("function", VStr "f")])
    (VDict [("hash", VStr hash); ("status", VInt 0); ("chi_used", VInt 7);
            ("state", VList [VDict [("key", VStr key); ("value", v)]])]).
Definition toy_execution (key : string) (v : value) : PatchExecution :=
  Execution (ScheduledPatch "p1" VNone "b1" (VInt 1) "gov" VNone VNone false "approved")
    (Bundle "p1" (VInt 1) "gov" "b1" VNone VNone None [] "p1.json") "e1" [Change key v (VStr "")].
Definition toy_block (height : Z) (txs : list BdsTransactionPayload) (patches : list PatchExecution) : BdsBlockPayload :=
  BdsBlock (VDict [("height", VInt height); ("hash", VStr ("H" +:+ py_int_str height)); ("nanos", VInt height)]) (VTime "t")
    ("A" +:+ py_int_str height) txs (to_payload_dict <$> patches) None (VDict current_execution_policy).
Definition alice : string := "currency.balances:alice".
Definition block1 : BdsBlockPayload := toy_block 1 [toy_tx 0 "T" alice (VInt 90)] [].

Lemma db0_ok : store_ok db0 /\ linked (changes_of db0).
Proof.
  destruct (genesis_indexed (λ _, None) (dumps true) Ok (λ _, true) (λ _, true) (λ l, Ok (VTuple l)) (λ _, []) (λ a _, a)
    (VTime "1970-01-01 00:00:00") toy_genesis_doc empty_db db0) as (? & ? & _); [reflexivity..|vm_compute; reflexivity|done].
Qed.

Lemma persist_block_correct_witness :
  value_of db0 alice = Some "100" /\ value_of (toy_persist block1 db0).2 alice = Some "90".
Proof.
  split; [vm_compute; reflexivity|].
  destruct (persist_block_correct (λ _, None) (dumps true) (λ _, "") (λ _, raise ValueError "float") (λ s, Ok (VStr s))
    (λ _, true) (λ _, true) (λ l, Ok (VTuple l)) (λ _, []) (λ a _, a) block1 (BlockCols 1 "H1" 1) db0 (toy_persist block1 db0).2
    (proj1 db0_ok)) as (_ & _ & (ws & Hws & Hv) & _); [vm_compute; reflexivity..|].
  rewrite Hv. vm_compute in Hws. apply Ok_inj in Hws as <-. vm_compute. reflexivity.
Defined.

Lemma persist_block_atomic_witness : persist_block (λ _, None) (dumps true) (λ _, "") (λ _, raise ValueError "float")
    (λ s, Ok (VStr s)) (λ _, true) (λ _, true) (λ l, Ok (VTuple l)) (λ _, []) (λ a _, a) block1 (toy_persist block1 db0).2
    = (Ok true, (toy_persist block1 db0).2).
Proof.
  apply (persist_block_atomic (λ _, None) (dumps true) (λ _, "") (λ _, raise ValueError "float") (λ s, Ok (VStr s))
    (λ _, true) (λ _, true) (λ l, Ok (VTuple l)) (λ _, []) (λ a _, a) block1 db0 (Ok true));
    [vm_compute; reflexivity|apply db0_ok|reflexivity].
Defined.

Lemma patch_keys_none accepts es : patch_keys accepts (to_payload_dict <$> es) = Ok [].
Proof.
  unfold patch_keys. assert (Hm : mapM_py (λ p, has ← py_in "key" p;
    if (has : bool) then v ← py_item "key" p; s ← text_col accepts v; Ok [s] else Ok []) (to_payload_dict <$> es)
    = Ok ((λ _, []) <$> es)).
  { induction es as [|e es IH]; [done|]. cbn. by rewrite IH. }
  rewrite Hm. cbn. f_equal. clear Hm. by induction es.
Qed.

(** The keys that a state patch changes are never looked up before it is recorded: what
    [persist_block] collects as the keys of patches is empty for every patch the node
    applies.  So the change that a patch records has no link to the change before it: here
    genesis set a balance, a patch changes it, and the patch's change claims to be the
    first of its key. *)
Theorem patch_loses_history :
  (forall accepts es, patch_keys accepts (to_payload_dict <$> es) = Ok []) /\
  let '(answer, d) := toy_persist (toy_block 1 [] [toy_execution alice (VInt 50)]) db0 in
  answer = Ok true /\ is_Some (last_change alice (changes_of db0)) /\
  exists id r, last_change alice (changes_of d) = Some (id, r) /\ cr_new_value r = "50" /\
               cr_previous_change_id r = None /\ cr_previous_tx_hash r = None.
Proof.
  split; [apply patch_keys_none|]. vm_compute. split; [reflexivity|]. split; [by eexists|].
  eexists _, _. repeat split; reflexivity.
Qed.

(** A state patch is recorded as a transaction behind the last one that is indexed, but
    transactions carry their index in the block, and one that fails to decode is not
    indexed.  When the first of two transactions is such a one, the second has index 1 and
    so has the patch: the database refuses it and the block is never indexed.  With the
    same transaction at index 0 it is. *)
Theorem patch_index_clash :
  (toy_persist (toy_block 1 [toy_tx 1 "T" alice (VInt 90)] [toy_execution "con.x" (VInt 50)]) db0).1 = Ok false /\
  (toy_persist (toy_block 1 [toy_tx 0 "T" alice (VInt 90)] [toy_execution "con.x" (VInt 50)]) db0).1 = Ok true.
Proof. split; vm_compute; reflexivity. Qed.
