(* ===== verification/BdsQueue.v ===== *)
(** * The queue of the block data service (src/src/xian/services/bds/bds.py)

    FinalizeBlock hands every block to the indexer, which writes it to a spool directory and
    keeps it in a bounded buffer; one worker takes the next height from the buffer and
    persists it; a catch-up task fetches heights that are missing from the node's RPC.

    The tasks run on one event loop, so what happens between two [await]s is one step; an
    input says which task goes on, and with what result of the outside: a block of the
    chain, an attempt to persist, an answer of the RPC, a status query, a restart after a
    crash or a stop at any point.  A spool file is written under a temporary name and
    renamed, so it is there whole or not at all; its name starts with the height padded to
    twenty digits, so files sort by height. *)

From S2P Require Import Prelude PyValue Json PyBuiltins Encoding ExecutionPolicy BdsShielded BdsStore.

(** ** What the queue asks of the database *)

Class BlockStore (P DB : Type) := {
  height : P -> Z;
  hash : P -> string;
  app_hash : P -> string;
  policy_ok : P -> bool;
  persist : P -> stM DB bool;
  block_at : DB -> Z -> option (string * string);
  max_height : DB -> option Z }.

Class BlockStoreLaws (P DB : Type) `{BlockStore P DB} := {
  store_inv : DB -> Prop;
  persist_inv p d r d' : persist p d = (r, d') -> store_inv d -> store_inv d';
  persist_true p d d' h : persist p d = (Ok true, d') -> store_inv d ->
    block_at d' h = if decide (h = height p /\ block_at d h = None) then Some (hash p, app_hash p) else block_at d h;
  persist_other p d r d' h : persist p d = (r, d') -> r <> Ok true -> block_at d' h = block_at d h;
  max_height_some d m : max_height d = Some m <-> (is_Some (block_at d m) /\ forall h, is_Some (block_at d h) -> h <= m);
  max_height_none d : max_height d = None <-> forall h, block_at d h = None }.

Section Queue.
Context {P DB : Type} `{BlockStore P DB}.
(** [config.queue_max_size] *)
Context (queue_max_size : Z).

Definition queue_capacity : nat := Z.to_nat (Z.max queue_max_size 1).

Inductive worker := Waiting | Persisting (p : P).

Record BDS := MkBDS {
  _pending_payloads : gmap Z P;
  _pending_event : bool;
  _worker_task : worker;
  (** the height a running catch-up is fetching, and its target *)
  _catchup_task : option (Z * Z);
  _indexed_height : option Z;
  _last_enqueue_error : bool;
  spool : gmap (Z * string) P;
  db : DB }.

Definition with_pending pend e s := MkBDS pend e (_worker_task s) (_catchup_task s) (_indexed_height s) (_last_enqueue_error s) (spool s) (db s).
Definition with_spool f s := MkBDS (_pending_payloads s) (_pending_event s) (_worker_task s) (_catchup_task s) (_indexed_height s) (_last_enqueue_error s) f (db s).
Definition with_worker w s := MkBDS (_pending_payloads s) (_pending_event s) w (_catchup_task s) (_indexed_height s) (_last_enqueue_error s) (spool s) (db s).
Definition with_catchup c s := MkBDS (_pending_payloads s) (_pending_event s) (_worker_task s) c (_indexed_height s) (_last_enqueue_error s) (spool s) (db s).
Definition with_indexed i s := MkBDS (_pending_payloads s) (_pending_event s) (_worker_task s) (_catchup_task s) i (_last_enqueue_error s) (spool s) (db s).
Definition with_error e s := MkBDS (_pending_payloads s) (_pending_event s) (_worker_task s) (_catchup_task s) (_indexed_height s) e (spool s) (db s).
Definition with_db d s := MkBDS (_pending_payloads s) (_pending_event s) (_worker_task s) (_catchup_task s) (_indexed_height s) (_last_enqueue_error s) (spool s) d.

Definition _spool_file_path (p : P) : Z * string := (height p, hash p).
Definition stale (s : BDS) (h : Z) : bool := match _indexed_height s with Some i => h <=? i | None => false end.
Definition _is_stale_payload (s : BDS) (p : P) : bool := stale s (height p).
Definition _write_spool_file (p : P) (s : BDS) : BDS := with_spool (<[_spool_file_path p := p]> (spool s)) s.
Definition _remove_spool_file (p : P) (s : BDS) : BDS := with_spool (delete (_spool_file_path p) (spool s)) s.

Definition _enqueue_pending_payload (p : P) (s : BDS) : bool * BDS :=
  if _is_stale_payload s p then (true, s)
  else if decide (is_Some (_pending_payloads s !! height p)) then (true, s)
  else if (queue_capacity <=? size (_pending_payloads s))%nat then (false, s)
  else (true, with_error false (with_pending (<[height p := p]> (_pending_payloads s)) true s)).

Definition _prune_stale_pending_payloads (s : BDS) : BDS :=
  with_pending (filter (λ hp, stale s hp.1 = false) (_pending_payloads s)) (_pending_event s) s.

Definition _next_expected_height (s : BDS) : Z := match _indexed_height s with Some i => i + 1 | None => 0 end.
Definition _has_next_pending_payload (s : BDS) : bool := bool_decide (is_Some (_pending_payloads s !! _next_expected_height s)).

(** Spool files in the order of their names. *)
Definition file_le (f g : (Z * string) * P) : Prop := f.1.1 <= g.1.1.
#[local] Instance file_le_dec f g : Decision (file_le f g).
Proof. unfold file_le. apply _. Defined.
Definition _pending_spool_files (s : BDS) : list ((Z * string) * P) := merge_sort file_le (map_to_list (spool s)).

Definition replay_file (s : BDS) (f : (Z * string) * P) : BDS :=
  if _is_stale_payload s f.2 then with_spool (delete f.1 (spool s)) s
  else (_enqueue_pending_payload f.2 s).2.
Definition _replay_spool (s : BDS) : BDS := fold_left replay_file (_pending_spool_files s) s.

(** Of a service that was started: without a worker the call raises and changes nothing. *)
Definition enqueue_block (p : P) (s : BDS) : BDS :=
  if negb (policy_ok p) then s
  else if _is_stale_payload s p then s
  else let '(queued, s) := _enqueue_pending_payload p (_write_spool_file p s) in
       if queued then s else with_error true s.

(** The [finally] of a round of the worker. *)
Definition end_of_round (s : BDS) : BDS :=
  let s := if (size (_pending_payloads s) <? queue_capacity)%nat then _replay_spool s else s in
  with_pending (_pending_payloads s) (_has_next_pending_payload s) s.

(** The worker wakes up: it takes the next payload, or goes back to sleep. *)
Definition worker_wakes (s : BDS) : BDS :=
  match _worker_task s with
  | Waiting =>
    if negb (_pending_event s) then s
    else match _pending_payloads s !! _next_expected_height s with
         | Some p => with_worker (Persisting p) (with_pending (delete (_next_expected_height s) (_pending_payloads s)) true s)
         | None => end_of_round (with_pending (_pending_payloads s) false s)
         end
  | Persisting _ => s
  end.

(** One attempt to persist what the worker holds; [reachable]: the database answers. *)
Definition worker_tries (reachable : bool) (s : BDS) : BDS :=
  match _worker_task s with
  | Persisting p =>
    if negb reachable then s
    else match persist p (db s) with
         | (Ok true, d) =>
           end_of_round (with_worker Waiting (_prune_stale_pending_payloads (_remove_spool_file p (with_indexed (Some (height p)) (with_db d s)))))
         | (_, d) => with_db d s
         end
  | Waiting => s
  end.

(** The loop of [_catch_up_once] up to the next block it fetches. *)
Fixpoint catchup_scan (fuel : nat) (s : BDS) (next_height target_height : Z) : option (Z * Z) :=
  match fuel with
  | O => None
  | S fuel =>
    if (target_height <? next_height) || (queue_capacity <=? size (_pending_payloads s))%nat then None
    else if decide (is_Some (_pending_payloads s !! next_height)) then catchup_scan fuel s (next_height + 1) target_height
    else Some (next_height, target_height)
  end.
Definition catchup_goes_on (next_height target_height : Z) (s : BDS) : BDS :=
  with_catchup (catchup_scan (Z.to_nat (target_height - next_height + 1)) s next_height target_height) s.

Definition highest (l : list Z) (default : Z) : Z := match l with [] => default | h :: l => fold_left Z.max l h end.

(** [_catch_up_once] when the RPC has answered with its latest height. *)
Definition catchup_starts (latest_height : Z) (s : BDS) : BDS :=
  match _catchup_task s with
  | Some _ => s
  | None =>
    let indexed := default 0 (_indexed_height s) in
    catchup_goes_on (indexed + 1) (Z.max latest_height (highest (map_to_list (_pending_payloads s)).*1 indexed)) s
  end.

(** The block it waits for has been fetched, or fetching it failed. *)
Definition catchup_fetched (fetched : option P) (s : BDS) : BDS :=
  match _catchup_task s, fetched with
  | Some (next_height, target_height), Some p =>
    if negb (policy_ok p) then with_catchup None s
    else let '(queued, s) := _enqueue_pending_payload p s in
         if queued then catchup_goes_on (next_height + 1) target_height s else with_catchup None s
  | Some _, None => with_catchup None s
  | None, _ => s
  end.

(** [get_status] as far as it changes the queue *)
Definition get_status (s : BDS) : BDS :=
  _prune_stale_pending_payloads
    (match max_height (db s), _indexed_height s with
     | Some m, Some i => if i <? m then with_indexed (Some m) s else s
     | Some m, None => with_indexed (Some m) s
     | None, _ => s
     end).

(** [start] on what a stop or a crash leaves: the spool and the database *)
Definition start (s : BDS) : BDS :=
  _replay_spool (MkBDS ∅ false Waiting None (max_height (db s)) false (spool s) (db s)).

(** [compact_spool] *)
Definition compact_spool (s : BDS) : BDS :=
  match max_height (db s) with
  | None => s
  | Some m => with_spool (filter (λ f, m < height f.2) (spool s)) s
  end.

Inductive input :=
  | Block (p : P) | WorkerWakes | WorkerTries (reachable : bool)
  | CatchupStarts (latest_height : Z) | CatchupFetched (fetched : option P) | Status | Compact | Restart.

Definition step (s : BDS) (i : input) : BDS :=
  match i with
  | Block p => enqueue_block p s
  | WorkerWakes => worker_wakes s
  | WorkerTries reachable => worker_tries reachable s
  | CatchupStarts latest => catchup_starts latest s
  | CatchupFetched fetched => catchup_fetched fetched s
  | Status => get_status s
  | Compact => compact_spool s
  | Restart => start s
  end.
Definition run (s : BDS) (inputs : list input) : BDS := fold_left step inputs s.

(** ** The invariant *)

Context `{!BlockStoreLaws P DB}.

Record queue_ok (s : BDS) : Prop := {
  q_store : store_inv (db s);
  q_indexed : _indexed_height s = max_height (db s);
  q_contiguous h : 0 <= h -> stale s h = true -> is_Some (block_at (db s) h);
  q_size : (size (_pending_payloads s) <= queue_capacity)%nat;
  q_pending h p : _pending_payloads s !! h = Some p -> height p = h /\ stale s h = false;
  q_spool k p : spool s !! k = Some p -> k = _spool_file_path p;
  q_worker p : _worker_task s = Persisting p -> height p = _next_expected_height s }.

(** [s'] has the database, index and worker of [s], and lost no file of a block that is not indexed. *)
Record calm (s s' : BDS) : Prop := {
  c_db : db s' = db s; c_indexed : _indexed_height s' = _indexed_height s; c_worker : _worker_task s' = _worker_task s;
  c_spool k p : spool s !! k = Some p -> spool s' !! k = Some p \/ stale s (height p) = true;
  c_ok : queue_ok s -> queue_ok s' }.

#[local] Instance calm_preorder : PreOrder calm.
Proof.
  split; [by split; auto|]. intros s1 s2 s3 [D1 I1 W1 S1 O1] [D2 I2 W2 S2 O2]. split; [congruence..| |auto].
  intros k p Hk. destruct (S1 k p Hk) as [Hk2|?]; [|by right]. destruct (S2 k p Hk2) as [?|Hst]; [by left|right].
  unfold stale in Hst |- *. by rewrite I1 in Hst.
Qed.

Lemma queue_capacity_pos : (1 <= queue_capacity)%nat.
Proof. unfold queue_capacity. lia. Qed.

Lemma enqueue_pending_calm p s : calm s (_enqueue_pending_payload p s).2.
Proof.
  unfold _enqueue_pending_payload. destruct (_is_stale_payload s p) eqn:Est; [reflexivity|].
  case_decide as Hin; [reflexivity|]. destruct (queue_capacity <=? _)%nat eqn:Esz; [reflexivity|].
  apply Nat.leb_gt in Esz. split; [done..|by left|]. intros [Q1 Q2 Q3 Q4 Q5 Q6 Q7]. split; [done|done|done| | |done|done].
  - cbn. rewrite map_size_insert_None; [lia|]. destruct (_pending_payloads s !! height p) eqn:E; [|done]. by destruct Hin.
  - cbn. intros h q Hq. apply lookup_insert_Some in Hq as [[<- <-]|[_ Hq]]; [done|]. by apply Q5.
Qed.

Lemma enqueue_pending_spool p s : spool (_enqueue_pending_payload p s).2 = spool s.
Proof. unfold _enqueue_pending_payload. by repeat (case_decide || case_match). Qed.

Lemma replay_file_calm s f : spool s !! f.1 = Some f.2 -> calm s (replay_file s f).
Proof.
  intros Hf. unfold replay_file. destruct (_is_stale_payload s f.2) eqn:Est; [|apply enqueue_pending_calm].
  split; [done..| |].
  - cbn. intros k p Hk. destruct (decide (k = f.1)) as [-> | Hne]; [right|left; by rewrite lookup_delete_ne].
    rewrite Hk in Hf. injection Hf as ->. exact Est.
  - intros [Q1 Q2 Q3 Q4 Q5 Q6 Q7]. split; [done..| |done]. cbn. intros k p Hk. apply lookup_delete_Some in Hk as [_ Hk]. by apply Q6.
Qed.

Lemma replay_file_spool s f k : k <> f.1 -> spool (replay_file s f) !! k = spool s !! k.
Proof.
  intros Hk. unfold replay_file. case_match; [by apply lookup_delete_ne|]. by rewrite enqueue_pending_spool.
Qed.

(** A list of distinct files of the spool. *)
Definition files_of (s : BDS) (l : list ((Z * string) * P)) : Prop :=
  NoDup l.*1 /\ forall f, f ∈ l -> spool s !! f.1 = Some f.2.

Lemma files_of_cons s f l : files_of s (f :: l) -> spool s !! f.1 = Some f.2 /\ files_of (replay_file s f) l.
Proof.
  intros [[Hnf Hn]%NoDup_cons Hl]. split; [apply Hl; by left|]. split; [done|]. intros g Hg.
  rewrite replay_file_spool; [apply Hl; by right|]. intros E. apply Hnf. rewrite <- E. by apply list_elem_of_fmap_2.
Qed.

Lemma replay_fold_calm l s : files_of s l -> calm s (fold_left replay_file l s).
Proof.
  revert s. induction l as [|f l IH]; intros s Hl; [reflexivity|]. apply files_of_cons in Hl as [Hf Hl].
  cbn [fold_left]. etransitivity; [by apply replay_file_calm|by apply IH].
Qed.

Lemma spool_files_of s : files_of s (_pending_spool_files s).
Proof.
  unfold _pending_spool_files. split.
  - rewrite (merge_sort_Permutation file_le). apply NoDup_fst_map_to_list.
  - intros [k p] Hf. rewrite (merge_sort_Permutation file_le) in Hf. by apply elem_of_map_to_list in Hf.
Qed.

Lemma replay_calm s : calm s (_replay_spool s).
Proof. apply replay_fold_calm, spool_files_of. Qed.

Lemma end_of_round_calm s : calm s (end_of_round s).
Proof.
  unfold end_of_round. set (s1 := if (size (_pending_payloads s) <? queue_capacity)%nat then _replay_spool s else s).
  assert (H1 : calm s s1) by (unfold s1; case_match; [apply replay_calm|reflexivity]).
  etransitivity; [exact H1|]. split; [done..|by left|]. intros [Q1 Q2 Q3 Q4 Q5 Q6 Q7]. by split.
Qed.

Lemma prune_calm s : calm s (_prune_stale_pending_payloads s).
Proof.
  split; [done..|by left|]. intros [Q1 Q2 Q3 Q4 Q5 Q6 Q7]. split; [done..| | |done|done].
  - cbn. etransitivity; [|exact Q4]. apply map_size_filter.
  - cbn. intros h p [Hp _]%map_lookup_filter_Some. by apply Q5.
Qed.

(** A block is safe once it is indexed or its file is in the spool. *)
Definition safe (s : BDS) (k : Z * string) : Prop := is_Some (spool s !! k) \/ stale s k.1 = true.

(** What every step guarantees. *)
Record good_step (s s' : BDS) : Prop := {
  g_ok : queue_ok s -> queue_ok s';
  g_safe k : queue_ok s -> safe s k -> safe s' k;
  g_stale h : queue_ok s -> stale s h = true -> stale s' h = true }.

#[local] Instance good_step_trans : Transitive good_step.
Proof. intros s1 s2 s3 [O1 S1 T1] [O2 S2 T2]. split; auto. Qed.

Lemma calm_good s s' : calm s s' -> good_step s s'.
Proof.
  intros [D I W S O]. assert (Hst : forall h, stale s' h = stale s h) by (intros h; unfold stale; by rewrite I).
  split; [done| |intros h _; by rewrite Hst]. intros k Hq [[p Hp]|Hk]; [|right; by rewrite Hst].
  destruct (S k p Hp) as [?|Hs]; [by left|right]. rewrite Hst. by rewrite (q_spool s Hq k p Hp).
Qed.

Lemma write_spool_good p s : good_step s (_write_spool_file p s).
Proof.
  split; [|intros k _ [Hk|?]; [left|by right]|done].
  - intros [Q1 Q2 Q3 Q4 Q5 Q6 Q7]. split; [done..| |done]. cbn. intros k q Hq.
    apply lookup_insert_Some in Hq as [[<- <-]|[_ Hq]]; [done|by apply Q6].
  - cbn. destruct (decide (k = _spool_file_path p)) as [-> | ?]; [by rewrite lookup_insert_eq|by rewrite lookup_insert_ne].
Qed.

Lemma with_error_calm e s : calm s (with_error e s).
Proof. split; [done..|by left|]. intros [Q1 Q2 Q3 Q4 Q5 Q6 Q7]. by split. Qed.
Lemma with_catchup_calm c s : calm s (with_catchup c s).
Proof. split; [done..|by left|]. intros [Q1 Q2 Q3 Q4 Q5 Q6 Q7]. by split. Qed.
Lemma with_event_calm e s : calm s (with_pending (_pending_payloads s) e s).
Proof. split; [done..|by left|]. intros [Q1 Q2 Q3 Q4 Q5 Q6 Q7]. by split. Qed.

Lemma enqueue_block_good p s : good_step s (enqueue_block p s).
Proof.
  unfold enqueue_block. destruct (negb _); [apply calm_good; reflexivity|].
  destruct (_is_stale_payload s p); [apply calm_good; reflexivity|].
  transitivity (_write_spool_file p s); [apply write_spool_good|].
  pose proof (enqueue_pending_calm p (_write_spool_file p s)) as Hc.
  destruct (_enqueue_pending_payload p _) as [queued s1]. cbn in Hc. destruct queued; [by apply calm_good|].
  transitivity s1; apply calm_good; [done|apply with_error_calm].
Qed.

Lemma worker_wakes_good s : good_step s (worker_wakes s).
Proof.
  unfold worker_wakes. destruct (_worker_task s) eqn:Ew; [|apply calm_good; reflexivity].
  destruct (negb _); [apply calm_good; reflexivity|].
  destruct (_pending_payloads s !! _next_expected_height s) as [p|] eqn:Ep.
  - split; [|by intros k _|done]. intros [Q1 Q2 Q3 Q4 Q5 Q6 Q7]. split; [done..| | |done|].
    + cbn. etransitivity; [|exact Q4]. by rewrite map_size_delete, Ep; lia.
    + cbn. intros h q [_ Hq]%lookup_delete_Some. by apply Q5.
    + cbn. intros q [= <-]. by apply (Q5 _ _ Ep).
  - etransitivity; apply calm_good; [apply with_event_calm|apply end_of_round_calm].
Qed.

Lemma catchup_starts_calm n s : calm s (catchup_starts n s).
Proof. unfold catchup_starts. destruct (_catchup_task s); [reflexivity|apply with_catchup_calm]. Qed.

Lemma catchup_fetched_calm o s : calm s (catchup_fetched o s).
Proof.
  unfold catchup_fetched. destruct (_catchup_task s) as [[n t]|]; [|reflexivity]. destruct o as [p|]; [|apply with_catchup_calm].
  destruct (negb _); [apply with_catchup_calm|]. pose proof (enqueue_pending_calm p s) as Hc.
  destruct (_enqueue_pending_payload p s) as [queued s1]. cbn in Hc.
  destruct queued; (etransitivity; [exact Hc|apply with_catchup_calm]).
Qed.

Lemma get_status_good s : good_step s (get_status s).
Proof.
  destruct (decide (_indexed_height s = max_height (db s))) as [Hi|Hi]; [|split; intros; by destruct Hi; apply q_indexed].
  unfold get_status. rewrite <- Hi. apply calm_good.
  destruct (_indexed_height s) as [i|]; [rewrite Z.ltb_irrefl|]; apply prune_calm.
Qed.

Lemma compact_spool_good s : good_step s (compact_spool s).
Proof.
  unfold compact_spool. destruct (max_height (db s)) as [m|] eqn:Em; [|apply calm_good; reflexivity].
  split; [| |done].
  - intros [Q1 Q2 Q3 Q4 Q5 Q6 Q7]. split; [done..| |done]. cbn. intros k p [Hk _]%map_lookup_filter_Some. by apply Q6.
  - intros k Hq [[p Hp]|?]; [|by right]. destruct (decide (m < height p)) as [Hlt|Hge].
    + left. exists p. by apply map_lookup_filter_Some.
    + right. cbn. unfold stale. cbn. rewrite (q_indexed s Hq), Em, (q_spool s Hq k p Hp). cbn. lia.
Qed.

Lemma start_good s : good_step s (start s).
Proof.
  unfold start. set (s0 := MkBDS _ _ _ _ _ _ _ _).
  transitivity s0; [|apply calm_good, replay_calm].
  assert (Hst : forall h, queue_ok s -> stale s0 h = stale s h) by (intros h [_ Q _ _ _ _ _]; unfold stale; cbn; by rewrite Q).
  split.
  - intros Hq. pose proof Hq as [Q1 Q2 Q3 Q4 Q5 Q6 Q7]. split; [done|done| | |done|done|done].
    + intros h Hh Hs. rewrite (Hst h Hq) in Hs. by apply Q3.
    + cbn. rewrite map_size_empty. lia.
  - intros k Hq [?|Hk]; [by left|right]. by rewrite (Hst _ Hq).
  - intros h Hq Hh. by rewrite (Hst h Hq).
Qed.

Lemma stale_next s h : h < _next_expected_height s -> 0 <= h -> stale s h = true.
Proof. unfold stale, _next_expected_height. destruct (_indexed_height s); lia. Qed.

Lemma next_not_indexed s : queue_ok s -> block_at (db s) (_next_expected_height s) = None.
Proof.
  intros Hq. unfold _next_expected_height. rewrite (q_indexed s Hq). destruct (max_height (db s)) as [m|] eqn:Em.
  - apply max_height_some in Em as [_ Hm]. destruct (block_at (db s) (m + 1)) eqn:E; [|done].
    specialize (Hm (m + 1) ltac:(by rewrite E)). lia.
  - by apply max_height_none.
Qed.

(** Persisting the next block moves the index by one. *)
Lemma persist_next p s d :
  queue_ok s -> height p = _next_expected_height s -> persist p (db s) = (Ok true, d) ->
  (forall h, block_at d h = if decide (h = height p) then Some (hash p, app_hash p) else block_at (db s) h) /\
  max_height d = Some (height p).
Proof.
  intros Hq Hp Hd. assert (Hb : forall h, block_at d h = if decide (h = height p) then Some (hash p, app_hash p) else block_at (db s) h).
  { intros h. rewrite (persist_true p _ _ h Hd (q_store s Hq)). destruct (decide (h = height p)) as [-> | Hne].
    - rewrite decide_True; [done|]. split; [done|]. rewrite Hp. by apply next_not_indexed.
    - rewrite decide_False; [done|naive_solver]. }
  split; [done|]. apply max_height_some. split; [rewrite Hb; by rewrite decide_True|]. intros h Hh. rewrite Hb in Hh.
  destruct (decide (h = height p)); [lia|]. rewrite Hp. unfold _next_expected_height. rewrite (q_indexed s Hq).
  destruct (max_height (db s)) as [m|] eqn:Em.
  - apply max_height_some in Em as [_ Hm]. specialize (Hm h Hh). lia.
  - rewrite (proj1 (max_height_none (db s)) Em) in Hh. by destruct Hh.
Qed.

Definition persisted (p : P) (d : DB) (s : BDS) : BDS :=
  with_worker Waiting (_prune_stale_pending_payloads (_remove_spool_file p (with_indexed (Some (height p)) (with_db d s)))).

Lemma persisted_good p d s :
  height p = _next_expected_height s -> persist p (db s) = (Ok true, d) -> good_step s (persisted p d s).
Proof.
  intros Hp Hd.
  assert (Hmono : forall h, stale s h = true -> stale (persisted p d s) h = true).
  { intros h. unfold stale. cbn. rewrite Hp. unfold _next_expected_height. destruct (_indexed_height s); [lia|done]. }
  split; [|intros k _ [[q Hq]|Hk]|auto].
  - intros Hq. destruct (persist_next p s d Hq Hp Hd) as [Hb Hm]. pose proof Hq as [Q1 Q2 Q3 Q4 Q5 Q6 Q7]. split; [| | | | | |done].
    + cbn. by eapply persist_inv.
    + cbn. by rewrite Hm.
    + intros h Hh Hs. cbn. rewrite Hb. destruct (decide (h = height p)); [done|]. apply Q3; [done|].
      apply stale_next; [|done]. rewrite <- Hp. unfold stale in Hs. cbn in Hs. lia.
    + cbn. etransitivity; [apply map_size_filter|done].
    + cbn. intros h q [Hl Hs]%map_lookup_filter_Some. split; [by apply (Q5 h q)|exact Hs].
    + cbn. intros k q [_ Hk]%lookup_delete_Some. by apply Q6.
  - destruct (decide (k = _spool_file_path p)) as [-> | Hne].
    + right. unfold stale. cbn. lia.
    + left. exists q. cbn. by rewrite lookup_delete_ne.
  - right. by apply Hmono.
Qed.

Lemma worker_tries_good r s : queue_ok s -> good_step s (worker_tries r s).
Proof.
  intros Hq. unfold worker_tries. destruct (_worker_task s) as [|p] eqn:Ew; [apply calm_good; reflexivity|].
  destruct (negb r); [apply calm_good; reflexivity|].
  destruct (persist p (db s)) as [o d] eqn:Ed.
  assert (Hother : o <> Ok true -> good_step s (with_db d s)).
  { intros Ho. pose proof (λ h, persist_other p _ _ _ h Ed Ho) as Hb. split; [|by intros k _|done].
    intros [Q1 Q2 Q3 Q4 Q5 Q6 Q7]. split; [cbn; by eapply persist_inv| | |done..].
    - cbn. rewrite Q2. destruct (max_height (db s)) as [m|] eqn:Em.
      + symmetry. apply max_height_some in Em as [H1 H2]. apply max_height_some. rewrite Hb. split; [done|].
        intros h. rewrite Hb. apply H2.
      + symmetry. apply max_height_none. intros h. rewrite Hb. by apply max_height_none.
    - intros h Hh Hs. cbn. rewrite Hb. by apply Q3. }
  destruct o as [[]|]; [|by apply Hother..].
  transitivity (persisted p d s); [|apply calm_good, end_of_round_calm].
  apply persisted_good; [|done]. by apply q_worker.
Qed.

Lemma step_good s i : queue_ok s -> good_step s (step s i).
Proof.
  intros Hq. destruct i; cbn [step].
  - apply enqueue_block_good.
  - apply worker_wakes_good.
  - by apply worker_tries_good.
  - apply calm_good, catchup_starts_calm.
  - apply calm_good, catchup_fetched_calm.
  - apply get_status_good.
  - apply compact_spool_good.
  - apply start_good.
Qed.

Lemma enqueue_block_safe p s : policy_ok p = true -> safe (enqueue_block p s) (_spool_file_path p).
Proof.
  intros Hp. unfold enqueue_block. rewrite Hp. cbn [negb]. destruct (_is_stale_payload s p) eqn:Est; [by right|left].
  pose proof (enqueue_pending_spool p (_write_spool_file p s)) as Hs. destruct (_enqueue_pending_payload p _) as [queued s1].
  cbn in Hs. destruct queued; cbn; rewrite Hs; by rewrite lookup_insert_eq.
Qed.

Lemma run_good inputs s : queue_ok s -> good_step s (run s inputs).
Proof.
  revert s. induction inputs as [|i inputs IH]; intros s Hq; [apply calm_good; reflexivity|].
  unfold run. cbn [fold_left]. pose proof (step_good s i Hq) as Hg. transitivity (step s i); [done|]. by apply IH, Hg.
Qed.

(** Claim C21. Whatever the tasks do and whenever the process stops and starts again: the buffer stays
    within its capacity, the index holds every height up to the one it has reached, which
    is the highest of the database, and every block that was handed over is indexed at its
    height or waits in the spool. *)
Theorem queue_invariant inputs s :
  queue_ok s ->
  (size (_pending_payloads (run s inputs)) <= queue_capacity)%nat /\
  _indexed_height (run s inputs) = max_height (db (run s inputs)) /\
  (forall h, 0 <= h -> stale (run s inputs) h = true -> is_Some (block_at (db (run s inputs)) h)) /\
  (forall p, Block p ∈ inputs -> policy_ok p = true ->
     stale (run s inputs) (height p) = true \/ is_Some (spool (run s inputs) !! (height p, hash p))).
Proof.
  intros Hq. pose proof (g_ok _ _ (run_good inputs s Hq) Hq) as [Q1 Q2 Q3 Q4 Q5 Q6 Q7]. split; [done|]. split; [done|]. split; [done|].
  intros p Hin Hp. apply list_elem_of_split in Hin as (before & after & ->).
  unfold run. rewrite fold_left_app. cbn [fold_left]. change (fold_left step before s) with (run s before).
  set (s1 := run s before). assert (Hq1 : queue_ok s1) by by apply run_good.
  pose proof (step_good s1 (Block p) Hq1) as Hg. destruct (run_good after (step s1 (Block p)) (g_ok _ _ Hg Hq1)) as [_ Hsafe _].
  destruct (Hsafe (height p, hash p) (g_ok _ _ Hg Hq1) (enqueue_block_safe p s1 Hp)) as [?|?]; [by right|by left].
Qed.

(** ** Draining the spool *)

Lemma enqueue_pending_mono p s h : is_Some (_pending_payloads s !! h) -> is_Some (_pending_payloads (_enqueue_pending_payload p s).2 !! h).
Proof.
  unfold _enqueue_pending_payload. intros Hh. repeat (case_decide || case_match); try done. cbn.
  destruct (decide (h = height p)) as [-> | ?]; [by rewrite lookup_insert_eq|by rewrite lookup_insert_ne].
Qed.

Lemma enqueue_pending_room p s :
  _is_stale_payload s p = false -> (size (_pending_payloads s) < queue_capacity)%nat ->
  is_Some (_pending_payloads (_enqueue_pending_payload p s).2 !! height p).
Proof.
  intros Hst Hsz. unfold _enqueue_pending_payload. rewrite Hst. case_decide; [done|].
  apply Nat.leb_gt in Hsz. rewrite Hsz. cbn. by rewrite lookup_insert_eq.
Qed.

Lemma replay_fold_mono l s h :
  is_Some (_pending_payloads s !! h) -> is_Some (_pending_payloads (fold_left replay_file l s) !! h).
Proof.
  revert s. induction l as [|f l IH]; intros s Hh; [done|]. cbn [fold_left]. apply IH. unfold replay_file.
  case_match; [done|]. by apply enqueue_pending_mono.
Qed.

(** Files are replayed by height, so the next block comes before everything later. *)
Lemma replay_fold_next l s i :
  files_of s l -> queue_ok s -> StronglySorted file_le l -> _indexed_height s = Some i ->
  (size (_pending_payloads s) < queue_capacity)%nat -> (exists f, f ∈ l /\ height f.2 = i + 1) ->
  is_Some (_pending_payloads (fold_left replay_file l s) !! (i + 1)).
Proof.
  revert s. induction l as [|f l IH]; intros s Hl Hq Hsort Hi Hsz (g & Hg & Hgh); [by apply elem_of_nil in Hg|].
  apply StronglySorted_inv in Hsort as [Hsort Hle]. pose proof (files_of_cons _ _ _ Hl) as [Hf Hl'].
  pose proof (replay_file_calm s f Hf) as Hc. cbn [fold_left].
  assert (Hgk : g.1.1 = height g.2) by (destruct Hl as [_ Hl]; specialize (Hl g Hg); by rewrite (q_spool s Hq _ _ Hl)).
  assert (Hfk : f.1.1 = height f.2) by by rewrite (q_spool s Hq _ _ Hf).
  destruct (Z.lt_trichotomy (height f.2) (i + 1)) as [Hlt|[Heq|Hgt]].
  - assert (Hst : _is_stale_payload s f.2 = true) by (unfold _is_stale_payload, stale; rewrite Hi; lia).
    assert (Hr : replay_file s f = with_spool (delete f.1 (spool s)) s) by (unfold replay_file; by rewrite Hst).
    rewrite Hr in Hl', Hc |- *. apply IH; [done|by apply Hc|done|done|done|]. exists g. split; [|done].
    apply elem_of_cons in Hg as [->|]; [lia|done].
  - apply replay_fold_mono. unfold replay_file.
    assert (Hst : _is_stale_payload s f.2 = false) by (unfold _is_stale_payload, stale; rewrite Hi; lia).
    rewrite Hst. rewrite <- Heq. by apply enqueue_pending_room.
  - exfalso. apply elem_of_cons in Hg as [->|Hg]; [lia|]. rewrite Forall_forall in Hle. specialize (Hle g Hg).
    unfold file_le in Hle. lia.
Qed.

#[local] Instance file_le_total : Total file_le.
Proof. intros f g. unfold file_le. lia. Qed.
#[local] Instance file_le_trans : Transitive file_le.
Proof. intros f g h. unfold file_le. lia. Qed.

Lemma replay_next s i k p :
  queue_ok s -> _indexed_height s = Some i -> (size (_pending_payloads s) < queue_capacity)%nat ->
  spool s !! k = Some p -> k.1 = i + 1 -> is_Some (_pending_payloads (_replay_spool s) !! (i + 1)).
Proof.
  intros Hq Hi Hsz Hk Hk1. apply replay_fold_next; [apply spool_files_of|done| |done|done|].
  - apply Sorted_StronglySorted; [apply _|]. apply (Sorted_merge_sort _).
  - exists (k, p). split; [|cbn; by rewrite <- Hk1, (q_spool s Hq k p Hk)].
    unfold _pending_spool_files. rewrite (merge_sort_Permutation file_le). by apply elem_of_map_to_list.
Qed.

(** The worker waits with the next block before it. *)
Record ready (s : BDS) (i : Z) : Prop := {
  r_ok : queue_ok s; r_indexed : _indexed_height s = Some i; r_waiting : _worker_task s = Waiting;
  r_event : _pending_event s = true; r_next : is_Some (_pending_payloads s !! (i + 1)) }.

Definition work (s : BDS) : BDS := worker_tries true (worker_wakes s).

(** The worker persists the next block, and finds the one after it if the spool has it. *)
Lemma work_advances s i :
  (forall p d, store_inv d -> block_at d (height p) = None -> (persist p d).1 = Ok true) ->
  ready s i ->
  queue_ok (work s) /\ _indexed_height (work s) = Some (i + 1) /\ _worker_task (work s) = Waiting /\
  (forall k, i + 1 < k.1 -> is_Some (spool s !! k) -> is_Some (spool (work s) !! k)) /\
  (forall k, k.1 = i + 1 + 1 -> is_Some (spool s !! k) -> ready (work s) (i + 1)).
Proof.
  intros Htakes [Hq Hi Hw He [p Hp]]. assert (Hn : _next_expected_height s = i + 1) by (unfold _next_expected_height; by rewrite Hi).
  destruct (q_pending s Hq _ _ Hp) as [Hph _].
  set (s1 := with_worker (Persisting p) (with_pending (delete (i + 1) (_pending_payloads s)) true s)).
  assert (Hs1 : worker_wakes s = s1) by (unfold worker_wakes; by rewrite Hw, He, Hn, Hp).
  assert (Hq1 : queue_ok s1) by (rewrite <- Hs1; by apply worker_wakes_good).
  assert (Hn1 : height p = _next_expected_height s1) by (unfold _next_expected_height; cbn; by rewrite Hi).
  assert (Ht : (persist p (db s1)).1 = Ok true).
  { apply Htakes; [apply Hq1|]. rewrite Hn1. by apply next_not_indexed. }
  destruct (persist p (db s1)) as [o d] eqn:Ed. cbn in Ht. subst o.
  set (s2 := persisted p d s1). assert (Hs2 : work s = end_of_round s2) by (unfold work; rewrite Hs1; cbn; cbn in Ed; by rewrite Ed).
  assert (Hq2 : queue_ok s2) by by apply persisted_good.
  assert (Hi2 : _indexed_height s2 = Some (i + 1)) by (cbn; congruence).
  assert (Hsz : (size (_pending_payloads s2) < queue_capacity)%nat).
  { cbn. eapply Nat.le_lt_trans; [apply map_size_filter|]. cbn. rewrite map_size_delete, Hp.
    pose proof (q_size s Hq). assert (size (_pending_payloads s) <> 0%nat) by (apply (map_size_ne_0_lookup_2 _ (i + 1)); by rewrite Hp).
    lia. }
  assert (Hsp : forall k, i + 1 < k.1 -> is_Some (spool s !! k) -> is_Some (spool s2 !! k)).
  { intros k Hk Hs. cbn. rewrite lookup_delete_ne; [done|]. intros <-. cbn in Hk. lia. }
  pose proof (end_of_round_calm s2) as Hc. rewrite Hs2.
  assert (Hq3 : queue_ok (end_of_round s2)) by by apply Hc.
  assert (Hi3 : _indexed_height (end_of_round s2) = Some (i + 1)) by (rewrite (c_indexed _ _ Hc); done).
  assert (Hw3 : _worker_task (end_of_round s2) = Waiting) by (rewrite (c_worker _ _ Hc); done).
  split; [done|]. split; [done|]. split; [done|]. split.
  - intros k Hk Hs. destruct (Hsp k Hk Hs) as [q Hkq]. destruct (c_spool _ _ Hc k q Hkq) as [?|Hst]; [by eexists|].
    rewrite (q_spool s2 Hq2 k q Hkq) in Hk. unfold stale in Hst. rewrite Hi2 in Hst. cbn in Hk. lia.
  - intros k Hk Hs. destruct (Hsp k ltac:(lia) Hs) as [q Hkq].
    pose proof (replay_next s2 (i + 1) k q Hq2 Hi2 Hsz Hkq Hk) as Hnext.
    assert (Hpend : _pending_payloads (end_of_round s2) = _pending_payloads (_replay_spool s2)).
    { unfold end_of_round. apply Nat.ltb_lt in Hsz. by rewrite Hsz. }
    split; [done|done|done| |by rewrite Hpend].
    unfold end_of_round. apply Nat.ltb_lt in Hsz. rewrite Hsz. cbn. unfold _has_next_pending_payload, _next_expected_height.
    rewrite (c_indexed _ _ (replay_calm s2)), Hi2. by apply bool_decide_eq_true_2.
Qed.

Lemma replay_fold_event l s :
  (_pending_payloads s = ∅ \/ _pending_event s = true) ->
  _pending_payloads (fold_left replay_file l s) = ∅ \/ _pending_event (fold_left replay_file l s) = true.
Proof.
  revert s. induction l as [|f l IH]; intros s Hs; [done|]. cbn [fold_left]. apply IH. unfold replay_file.
  case_match; [done|]. unfold _enqueue_pending_payload. repeat (case_decide || case_match); try done. by right.
Qed.

Lemma start_ready s i k :
  queue_ok s -> _indexed_height s = Some i -> is_Some (spool s !! k) -> k.1 = i + 1 -> ready (start s) i.
Proof.
  intros Hq Hi [p Hk] Hk1. pose proof (start_good s) as Hg. unfold start in *. set (s0 := MkBDS _ _ _ _ _ _ _ _) in *.
  assert (Hi0 : _indexed_height s0 = Some i) by (cbn; rewrite <- Hi; symmetry; apply (q_indexed s Hq)).
  assert (Hq0 : queue_ok s0).
  { pose proof Hq as [Q1 Q2 Q3 Q4 Q5 Q6 Q7]. split; [done|done| | |done|done|done].
    - intros h Hh Hs. apply Q3; [done|]. unfold stale in *. by rewrite Hi0 in Hs; rewrite Hi.
    - cbn. rewrite map_size_empty. lia. }
  assert (Hn : is_Some (_pending_payloads (_replay_spool s0) !! (i + 1))).
  { apply (replay_next s0 i k p); [done|done| |done|done]. cbn. rewrite map_size_empty. pose proof queue_capacity_pos. lia. }
  pose proof (replay_calm s0) as Hc. split; [by apply Hc|by rewrite (c_indexed _ _ Hc)|by rewrite (c_worker _ _ Hc)| |done].
  destruct (replay_fold_event (_pending_spool_files s0) s0 (or_introl eq_refl)) as [He|He]; [|exact He].
  change (fold_left _ _ _) with (_replay_spool s0) in He. rewrite He in Hn. by destruct Hn.
Qed.

Lemma work_drains n s i :
  (forall p d, store_inv d -> block_at d (height p) = None -> (persist p d).1 = Ok true) ->
  queue_ok s -> _indexed_height s = Some i -> (n = 0%nat \/ ready s i) ->
  (forall h, i < h <= i + Z.of_nat n -> exists x, is_Some (spool s !! (h, x))) ->
  _indexed_height (run s (concat (replicate n [WorkerWakes; WorkerTries true]))) = Some (i + Z.of_nat n).
Proof.
  intros Htakes. revert s i. induction n as [|n IH]; intros s i Hq Hi Hr Hfiles.
  { cbn. rewrite Hi. f_equal. lia. }
  destruct Hr as [?|Hr]; [done|]. destruct (work_advances s i Htakes Hr) as (Hq' & Hi' & Hw' & Hsp & Hready).
  cbn [replicate concat app]. unfold run. cbn [fold_left step]. change (worker_tries true (worker_wakes s)) with (work s).
  replace (i + Z.of_nat (S n)) with (i + 1 + Z.of_nat n) by lia. apply IH; [done|done| |].
  - destruct n as [|n]; [by left|right]. destruct (Hfiles (i + 1 + 1)) as (x & Hx); [lia|]. by apply (Hready (i + 1 + 1, x)).
  - intros h Hh. destruct (Hfiles h) as (x & Hx); [lia|]. exists x. apply Hsp; [cbn; lia|done].
Qed.

(** When the database takes the blocks, a restart drains the spool: with a file for each of
    the next [n] heights, [n] rounds of the worker index all of them, however small the
    buffer is and whatever else the spool holds. *)
Theorem spool_drains n s i :
  (forall p d, store_inv d -> block_at d (height p) = None -> (persist p d).1 = Ok true) ->
  queue_ok s -> _indexed_height s = Some i ->
  (forall h, i < h <= i + Z.of_nat n -> exists x, is_Some (spool s !! (h, x))) ->
  _indexed_height (run s (Restart :: concat (replicate n [WorkerWakes; WorkerTries true]))) = Some (i + Z.of_nat n).
Proof.
  intros Htakes Hq Hi Hfiles. unfold run. cbn [fold_left step]. pose proof (start_good s) as [Hok Hsafe _].
  apply work_drains; [done|by apply Hok| | |].
  - unfold start. rewrite (c_indexed _ _ (replay_calm _)). cbn. rewrite <- Hi. symmetry. apply (q_indexed s Hq).
  - destruct n as [|n]; [by left|right]. destruct (Hfiles (i + 1)) as (x & Hx); [lia|]. by apply (start_ready s i (i + 1, x)).
  - intros h Hh. destruct (Hfiles h Hh) as (x & Hx). exists x. destruct (Hsafe (h, x) Hq) as [?|Hst]; [by left|done|].
    unfold stale, start in Hst. rewrite (c_indexed _ _ (replay_calm _)) in Hst. cbn in Hst. rewrite <- (q_indexed s Hq), Hi in Hst. lia.
Qed.

(** ** A gap that is never closed *)

Record stalled (s : BDS) (i : Z) : Prop := {
  x_ok : queue_ok s; x_indexed : _indexed_height s = Some i; x_waiting : _worker_task s = Waiting;
  x_catchup : _catchup_task s = None;
  (** the next block is nowhere, and blocks behind the gap fill the buffer *)
  x_next : _pending_payloads s !! (i + 1) = None;
  x_full : (queue_capacity <= size (_pending_payloads s))%nat;
  x_gap k : is_Some (spool s !! k) -> k.1 <> i + 1;
  x_far : exists hs : gset Z, (queue_capacity <= size hs)%nat /\ forall h, h ∈ hs -> i + 1 < h /\ exists x, is_Some (spool s !! (h, x)) }.

Lemma replay_fold_full l s :
  (queue_capacity <= size (_pending_payloads (fold_left replay_file l s)))%nat \/
  forall f, f ∈ l -> _is_stale_payload s f.2 = false -> is_Some (_pending_payloads (fold_left replay_file l s) !! height f.2).
Proof.
  revert s. induction l as [|f l IH]; intros s; [right; by intros f Hf%elem_of_nil|]. cbn [fold_left].
  destruct (IH (replay_file s f)) as [?|Hall]; [by left|].
  assert (Hi : _indexed_height (replay_file s f) = _indexed_height s).
  { unfold replay_file, _enqueue_pending_payload. by repeat (case_decide || case_match). }
  destruct (_is_stale_payload s f.2) eqn:Est.
  - right. intros g [-> | Hg]%elem_of_cons Hst; [congruence|]. apply Hall; [done|].
    unfold _is_stale_payload, stale in *. by rewrite Hi.
  - destruct (decide (size (_pending_payloads s) < queue_capacity)%nat) as [Hsz|Hsz].
    + right. intros g [-> | Hg]%elem_of_cons Hst.
      * apply replay_fold_mono. unfold replay_file. rewrite Est. by apply enqueue_pending_room.
      * apply Hall; [done|]. unfold _is_stale_payload, stale in *. by rewrite Hi.
    + left. assert (Hsub : forall h, is_Some (_pending_payloads s !! h) -> is_Some (_pending_payloads (fold_left replay_file l (replay_file s f)) !! h)).
      { intros h Hh. apply (replay_fold_mono (f :: l) s h Hh). }
      rewrite <- size_dom. etransitivity; [|apply subseteq_size with (X := dom (_pending_payloads s))].
      * rewrite size_dom. lia.
      * intros h. rewrite !elem_of_dom. apply Hsub.
Qed.

Lemma replay_fold_from l s h :
  is_Some (_pending_payloads (fold_left replay_file l s) !! h) ->
  is_Some (_pending_payloads s !! h) \/ exists f, f ∈ l /\ height f.2 = h.
Proof.
  revert s. induction l as [|f l IH]; intros s Hh; [by left|]. cbn [fold_left] in Hh.
  destruct (IH _ Hh) as [Hs|(g & Hg & Hgh)]; [|right; exists g; split; [by right|done]].
  unfold replay_file in Hs. destruct (_is_stale_payload s f.2); [by left|]. unfold _enqueue_pending_payload in Hs.
  repeat (case_decide || case_match); try by left. cbn in Hs. destruct (decide (height f.2 = h)) as [E|E].
  - right. exists f. split; [by left|done].
  - left. by rewrite lookup_insert_ne in Hs.
Qed.

Lemma replay_fold_spool_sub l s k : is_Some (spool (fold_left replay_file l s) !! k) -> is_Some (spool s !! k).
Proof.
  revert s. induction l as [|f l IH]; intros s Hk; [done|]. cbn [fold_left] in Hk. specialize (IH _ Hk).
  destruct (decide (k = f.1)) as [-> | Hne]; [|by rewrite replay_file_spool in IH].
  unfold replay_file in IH. case_match; [cbn in IH; rewrite lookup_delete_eq in IH; by destruct IH|].
  by rewrite enqueue_pending_spool in IH.
Qed.

Lemma stalled_restart s i : stalled s i -> stalled (start s) i.
Proof.
  intros [Hq Hi Hw Hc Hn Hf Hg (hs & Hsz & Hfar)]. pose proof (start_good s) as [Hok Hsafe _].
  unfold start in *. set (s0 := MkBDS _ _ _ _ _ _ _ _) in *.
  assert (Hi0 : _indexed_height s0 = Some i) by (cbn; rewrite <- Hi; symmetry; apply (q_indexed s Hq)).
  pose proof (replay_calm s0) as Hcalm.
  assert (Hfile : forall f, f ∈ _pending_spool_files s0 -> spool s !! f.1 = Some f.2) by apply (spool_files_of s0).
  assert (Hfar' : forall h, h ∈ hs -> i + 1 < h /\ exists x, is_Some (spool (_replay_spool s0) !! (h, x))).
  { intros h Hh. destruct (Hfar h Hh) as (Hlt & x & p & Hx). split; [done|]. exists x.
    destruct (c_spool _ _ Hcalm (h, x) p Hx) as [?|Hst]; [by eexists|].
    unfold stale in Hst. rewrite Hi0 in Hst. apply (q_spool s Hq) in Hx. injection Hx as -> _. lia. }
  split; [by apply Hok|by rewrite (c_indexed _ _ Hcalm)|by rewrite (c_worker _ _ Hcalm)| | | | |by exists hs].
  - unfold _replay_spool. assert (Hgen : forall l s, _catchup_task (fold_left replay_file l s) = _catchup_task s).
    { induction l as [|f l IH]; intros s1; [done|]. cbn [fold_left]. rewrite IH. unfold replay_file, _enqueue_pending_payload.
      by repeat (case_decide || case_match). }
    by rewrite Hgen.
  - destruct (_pending_payloads (_replay_spool s0) !! (i + 1)) eqn:E; [|done]. exfalso.
    destruct (replay_fold_from (_pending_spool_files s0) s0 (i + 1)) as [Hx|(f & Hin & Hh)];
      [unfold _replay_spool in E; by rewrite E|by cbn in Hx; destruct Hx|].
    specialize (Hfile f Hin). apply (Hg f.1); [by rewrite Hfile|]. by rewrite (q_spool s Hq _ _ Hfile).
  - destruct (replay_fold_full (_pending_spool_files s0) s0) as [?|Hall]; [done|].
    etransitivity; [exact Hsz|]. rewrite <- size_dom. apply subseteq_size. intros h Hh. apply elem_of_dom.
    destruct (Hfar h Hh) as (Hlt & x & p & Hx). pose proof (q_spool s Hq _ _ Hx) as Hk. injection Hk as -> _.
    apply (Hall ((height p, x), p)).
    + unfold _pending_spool_files. rewrite (merge_sort_Permutation file_le). by apply elem_of_map_to_list.
    + cbn. unfold _is_stale_payload, stale. rewrite Hi0. lia.
  - intros k Hk. apply Hg. by apply (replay_fold_spool_sub (_pending_spool_files s0) s0).
Qed.

(** A step of a stalled queue, apart from a restart: the buffer and the index stay. *)
Lemma stalled_calm s s' i :
  stalled s i -> queue_ok s' -> _indexed_height s' = _indexed_height s -> _worker_task s' = _worker_task s -> _catchup_task s' = None ->
  _pending_payloads s' = _pending_payloads s ->
  (forall k, is_Some (spool s' !! k) -> is_Some (spool s !! k) \/ k.1 <> i + 1) ->
  (forall k, i + 1 < k.1 -> is_Some (spool s !! k) -> is_Some (spool s' !! k)) -> stalled s' i.
Proof.
  intros [Hq Hi Hw Hc Hn Hf Hg (hs & Hsz & Hfar)] Hq' Hi' Hw' Hc' Hp' Hs1 Hs2.
  split; [done|congruence|congruence|done|congruence|by rewrite Hp'| |].
  - intros k Hk. destruct (Hs1 k Hk) as [?|?]; [by apply Hg|done].
  - exists hs. split; [done|]. intros h Hh. destruct (Hfar h Hh) as (Hlt & x & Hx). split; [done|]. exists x. by apply Hs2.
Qed.

Lemma full_enqueue p s :
  (queue_capacity <= size (_pending_payloads s))%nat -> exists b, _enqueue_pending_payload p s = (b, s).
Proof.
  intros Hf. unfold _enqueue_pending_payload. case_match; [by eexists|]. case_decide; [by eexists|].
  apply Nat.leb_le in Hf. rewrite Hf. by eexists.
Qed.

Lemma end_of_round_full s :
  (queue_capacity <= size (_pending_payloads s))%nat -> end_of_round s = with_pending (_pending_payloads s) (_has_next_pending_payload s) s.
Proof. intros Hf. unfold end_of_round. apply Nat.ltb_ge in Hf. by rewrite Hf. Qed.

Lemma stalled_step s i j : stalled s i -> (forall p, j = Block p -> i + 1 < height p) -> stalled (step s j) i.
Proof.
  intros Hs Hlive. pose proof Hs as [Hq Hi Hw Hc Hn Hf Hg _]. pose proof (g_ok _ _ (step_good s j Hq) Hq) as Hq'.
  destruct j as [p| | |latest|fetched| | |]; cbn [step] in *.
  - specialize (Hlive p eq_refl). unfold enqueue_block in Hq' |- *. destruct (negb _); [done|]. destruct (_is_stale_payload s p); [done|].
    destruct (full_enqueue p (_write_spool_file p s) Hf) as [b Eb]. rewrite Eb in Hq' |- *.
    assert (Hst : forall s', queue_ok s' -> _indexed_height s' = _indexed_height s -> _worker_task s' = _worker_task s ->
      _catchup_task s' = _catchup_task s -> _pending_payloads s' = _pending_payloads s ->
      spool s' = <[_spool_file_path p := p]> (spool s) -> stalled s' i).
    { intros s' ????? Hsp. apply (stalled_calm s); [done..|congruence|done| |]; rewrite Hsp; intros k.
      - intros Hk. destruct (decide (k = _spool_file_path p)) as [-> | Hne]; [right; cbn; lia|left]. by rewrite lookup_insert_ne in Hk.
      - intros _ Hk. destruct (decide (k = _spool_file_path p)) as [-> | Hne]; [by rewrite lookup_insert_eq|by rewrite lookup_insert_ne]. }
    destruct b; by apply Hst.
  - unfold worker_wakes, _next_expected_height in Hq' |- *. rewrite Hw, Hi, Hn in Hq' |- *. destruct (negb _); [done|].
    rewrite end_of_round_full in Hq' |- * by done.
    apply (stalled_calm s); [done..|by left|done].
  - unfold worker_tries. by rewrite Hw.
  - unfold catchup_starts in Hq' |- *. rewrite Hc in Hq' |- *. apply (stalled_calm s); [done..| |done|by left|done].
    cbn. destruct (Z.to_nat _); [done|]. cbn. apply Nat.leb_le in Hf. rewrite Hf. by rewrite orb_true_r.
  - unfold catchup_fetched. by rewrite Hc.
  - unfold get_status in Hq' |- *. rewrite <- (q_indexed s Hq), Hi, Z.ltb_irrefl in Hq' |- *. apply (stalled_calm s); [done..| |by left|done].
    cbn. apply map_filter_id. intros h p Hp. cbn. by apply (q_pending s Hq _ _ Hp).
  - unfold compact_spool in Hq' |- *. rewrite <- (q_indexed s Hq), Hi in Hq' |- *. apply (stalled_calm s); [done..| |]; cbn.
    + intros k [p [Hk _]%map_lookup_filter_Some]. left. by eexists.
    + intros k Hk [p Hp]. exists p. apply map_lookup_filter_Some. split; [done|]. cbn. rewrite (q_spool s Hq _ _ Hp) in Hk. cbn in Hk. lia.
  - by apply stalled_restart.
Qed.

Lemma stalled_forever inputs s i :
  stalled s i -> (forall p, Block p ∈ inputs -> i + 1 < height p) -> stalled (run s inputs) i.
Proof.
  revert s. induction inputs as [|j inputs IH]; intros s Hs Hlive; [done|]. unfold run. cbn [fold_left]. apply IH.
  - apply stalled_step; [done|]. intros p ->. apply Hlive. by left.
  - intros p Hp. apply Hlive. by right.
Qed.
End Queue.

(** ** The index keeps what the queue asks of it *)

Section Index.
Context (ast_parse : string -> option (list py_node)) (encode : value -> result string)
        (py_str : value -> string) (float_trunc : string -> result Z) (Decimal : string -> result value)
        (accepts_text accepts_jsonb : string -> bool)
        (datetime_of : list value -> result value) (datetime_fields : string -> list value)
        (least : value -> value -> value).

Definition heights (d : database) : list Z := br_height <$> t_blocks d.

#[global] Instance index_store : BlockStore BdsBlockPayload database := {|
  height p := ok_or (-1) (height_col p);
  hash p := match py_item "hash" (bp_block_meta p) with Ok (VStr h) => h | _ => "" end;
  app_hash := bp_app_hash;
  policy_ok p := is_ok (validate_execution_policy (bp_execution_policy p));
  persist := persist_block ast_parse encode py_str float_trunc Decimal accepts_text accepts_jsonb datetime_of datetime_fields least;
  block_at d h := block_identity h d;
  max_height d := match heights d with [] => None | h :: l => Some (fold_left Z.max l h) end |}.

Lemma block_identity_some h d : is_Some (block_identity h d) <-> h ∈ heights d.
Proof.
  unfold block_identity, heights. rewrite list_elem_of_fmap. split.
  - destruct (list_find _ _) as [[i r]|] eqn:E; [|by intros []]. intros _. apply list_find_Some in E as (Hl & Hr & _).
    exists r. split; [done|]. by eapply list_elem_of_lookup_2.
  - intros (r & -> & Hr). destruct (list_find (λ r', br_height r' = br_height r) (t_blocks d)) as [[]|] eqn:E; [done|].
    apply list_find_None in E. rewrite Forall_forall in E. by destruct (E r Hr).
Qed.

Lemma fold_max_spec l h : fold_left Z.max l h ∈ h :: l /\ forall x, x ∈ h :: l -> x <= fold_left Z.max l h.
Proof.
  revert h. induction l as [|y l IH]; intros h; cbn [fold_left].
  { split; [by left|]. intros x ->%list_elem_of_singleton. done. }
  destruct (IH (Z.max h y)) as [Hin Hmax]. split.
  - apply elem_of_cons in Hin as [Hin|Hin]; [|by do 2 right]. rewrite Hin.
    destruct (Z.max_spec h y) as [[_ ->]|[_ ->]]; [by right; left|by left].
  - assert (Z.max h y <= fold_left Z.max l (Z.max h y)) by (apply Hmax; by left).
    intros x [-> | [-> | Hx]%elem_of_cons]%elem_of_cons; [lia|lia|]. apply Hmax. by right.
Qed.

#[global] Instance index_store_laws : BlockStoreLaws BdsBlockPayload database.
Proof.
  refine {| store_inv := store_ok |}; cbn.
  - intros p d r d' Hp Hok. pose proof (persist_block_grows ast_parse encode py_str float_trunc Decimal accepts_text accepts_jsonb
      datetime_of datetime_fields least p d) as Hg. rewrite Hp in Hg.
    destruct (persist_block_inv _ _ _ _ _ _ _ _ _ _ _ _ _ _ Hp) as [(b & s & -> & Hb & Hn & Hw & ->)|[Ht _]].
    + apply write_block_adds with (b := b) in Hw as (ws & _ & _ & Hok' & _); [done|done|by apply block_identity_none|done].
    + by eapply same_tables_ok.
  - intros p d d' h Hp Hok.
    destruct (persist_block_inv _ _ _ _ _ _ _ _ _ _ _ _ _ _ Hp) as [(b & s & _ & Hb & Hn & Hw & ->)|[Ht He]].
    + apply write_block_adds with (b := b) in Hw as (ws & _ & Hbl & _ & _); [|done|by apply block_identity_none|done].
      rewrite (block_columns_height _ _ _ Hb), (block_columns_hash _ _ _ Hb). cbn.
      rewrite (block_identity_snoc d _ (new_block p b) h Hbl Hn). cbn.
      destruct (decide (h = bc_height b)) as [-> | Hne]; [by rewrite decide_True|]. by rewrite decide_False by naive_solver.
    + destruct (He eq_refl) as (h' & x & Hh & _ & Hid). rewrite Hh. cbn.
      assert (block_identity h d' = block_identity h d) as -> by (unfold block_identity; by rewrite (st_blocks _ _ Ht)).
      rewrite decide_False; [done|]. intros [-> E]. congruence.
  - intros p d r d' h Hp Hr. destruct (persist_block_inv _ _ _ _ _ _ _ _ _ _ _ _ _ _ Hp) as [(b & s & -> & _)|[Ht _]]; [done|].
    unfold block_identity. by rewrite (st_blocks _ _ Ht).
  - intros d m. setoid_rewrite block_identity_some. destruct (heights d) as [|h l] eqn:E.
    + split; [done|]. intros [Hm _]. by apply elem_of_nil in Hm.
    + destruct (fold_max_spec l h) as [Hin Hmax]. split; [by intros [= <-]|]. intros [Hm Hle]. f_equal.
      specialize (Hmax m Hm). specialize (Hle _ Hin). lia.
  - intros d. assert (Hnone : (forall h, block_identity h d = None) <-> forall h, h ∉ heights d).
    { split; intros Hx h; specialize (Hx h).
      - intros Hh%block_identity_some. rewrite Hx in Hh. by destruct Hh.
      - destruct (block_identity h d) eqn:E; [|done]. destruct Hx. apply block_identity_some. by rewrite E. }
    rewrite Hnone. destruct (heights d) as [|h l]; [split; [|done]; intros _ h ?%elem_of_nil; done|].
    split; [done|]. intros Hx. destruct (Hx h). by left.
Defined.
End Index.

(** ** A store that takes every block *)

Record toy_payload := ToyPayload { tp_height : Z; tp_hash : string }.
#[global] Instance toy_store : BlockStore toy_payload (gmap Z (string * string)) := {|
  height := tp_height; hash := tp_hash; app_hash _ := "A"; policy_ok _ := true;
  persist p d := (Ok true, if decide (is_Some (d !! tp_height p)) then d else <[tp_height p := (tp_hash p, "A")]> d);
  block_at d h := d !! h;
  max_height d := match (map_to_list d).*1 with [] => None | h :: l => Some (fold_left Z.max l h) end |}.

#[global] Instance toy_store_laws : BlockStoreLaws toy_payload (gmap Z (string * string)).
Proof.
  assert (Hdom : forall (d : gmap Z (string * string)) h, is_Some (d !! h) <-> h ∈ (map_to_list d).*1).
  { intros d h. rewrite list_elem_of_fmap. split.
    - intros [x Hx]. exists (h, x). split; [done|]. by apply elem_of_map_to_list.
    - intros ([h' x] & -> & Hx%elem_of_map_to_list). by exists x. }
  refine {| store_inv _ := True |}; cbn.
  - done.
  - intros p d d' h [= <-] _. destruct (decide (h = tp_height p)) as [-> | Hne].
    + destruct (d !! tp_height p) eqn:E.
      * rewrite decide_True by done. rewrite decide_False by naive_solver. exact E.
      * rewrite decide_False by (by intros []). rewrite decide_True by done. apply lookup_insert_eq.
    + rewrite (decide_False (P := h = tp_height p /\ _)) by naive_solver.
      destruct (decide (is_Some (d !! tp_height p))); [done|by rewrite lookup_insert_ne].
  - intros p d r d' h [= <- <-] Hr. done.
  - intros d m. setoid_rewrite Hdom. destruct ((map_to_list d).*1) as [|h l].
    + split; [done|]. intros [Hm _]. by apply elem_of_nil in Hm.
    + destruct (fold_max_spec l h) as [Hin Hmax]. split; [by intros [= <-]|]. intros [Hm Hle]. f_equal.
      specialize (Hmax m Hm). specialize (Hle _ Hin). lia.
  - intros d. assert (Hnone : (forall h, d !! h = None) <-> forall h, h ∉ (map_to_list d).*1).
    { split; intros Hx h; specialize (Hx h).
      - intros Hh%Hdom. rewrite Hx in Hh. by destruct Hh.
      - destruct (d !! h) eqn:E; [|done]. destruct Hx. apply Hdom. by rewrite E. }
    rewrite Hnone. destruct ((map_to_list d).*1) as [|h l]; [split; [|done]; intros _ h ?%elem_of_nil; done|].
    split; [done|]. intros Hx. destruct (Hx h). by left.
Defined.

Definition toy_bds : Type := BDS (P := toy_payload) (DB := gmap Z (string * string)).
(** An index that holds genesis. *)
Definition fresh_index : toy_bds := MkBDS ∅ false Waiting None (Some 0) false ∅ (<[0 := ("G", "A")]> ∅).
Definition block (h : Z) : toy_payload := ToyPayload h ("H" +:+ py_int_str h).

Lemma fresh_index_ok n : queue_ok n fresh_index.
Proof.
  split; try done.
  - intros h Hh Hs. unfold stale in Hs. cbn in Hs. assert (h = 0) as -> by lia. by eexists.
  - cbn. rewrite map_size_empty. lia.
Qed.

Definition sample_run : list (input (P := toy_payload)) :=
  [Block (block 1); Block (block 2); Block (block 3); WorkerWakes; WorkerTries false; Restart; Block (block 4)].

Lemma queue_invariant_witness :
  queue_ok 2 fresh_index /\ is_Some (spool (run 2 fresh_index sample_run) !! (3, "H3")).
Proof.
  split; [apply fresh_index_ok|].
  destruct (queue_invariant 2 sample_run fresh_index (fresh_index_ok 2)) as (_ & _ & _ & Hsafe).
  destruct (Hsafe (block 3)) as [Hs|Hs]; [unfold sample_run; do 2 right; left|reflexivity| |exact Hs].
  vm_compute in Hs. discriminate Hs.
Defined.

Lemma spool_drains_witness :
  let s := run 1 fresh_index [Block (block 1); Block (block 2); Block (block 3)] in
  _indexed_height (run 1 s (Restart :: concat (replicate 3 [WorkerWakes; WorkerTries true]))) = Some 3.
Proof.
  apply (spool_drains 1 3 (run 1 fresh_index [Block (block 1); Block (block 2); Block (block 3)]) 0).
  - intros p d _ _. reflexivity.
  - apply run_good, fresh_index_ok. apply fresh_index_ok.
  - vm_compute. reflexivity.
  - intros h Hh. assert (h = 1 \/ h = 2 \/ h = 3) as [->|[->| ->]] by lia;
      [exists "H1"|exists "H2"|exists "H3"]; vm_compute; by eexists.
Defined.

(** The index holds genesis and the chain has reached height 10.  Catch-up fetches blocks 1
    and 2, which fill the buffer; two new blocks arrive and go to the spool; the worker
    persists 1 and 2, and its rounds refill the buffer from the spool. *)
Definition late_start : list (input (P := toy_payload)) :=
  [CatchupStarts 10; CatchupFetched (Some (block 1)); CatchupFetched (Some (block 2)); Block (block 11); Block (block 12);
   WorkerWakes; WorkerTries true; WorkerWakes; WorkerTries true].

Lemma late_start_stalled : stalled 2 (run 2 fresh_index late_start) 2.
Proof.
  assert (Hsp : spool (run 2 fresh_index late_start) = <[(11, "H11") := block 11]> (<[(12, "H12") := block 12]> ∅))
    by (vm_compute; reflexivity).
  split; [apply run_good, fresh_index_ok; apply fresh_index_ok|vm_compute; reflexivity..| | |].
  - vm_compute. lia.
  - rewrite Hsp. intros k [p Hk]. apply lookup_insert_Some in Hk as [[<- _]|[_ Hk]]; [done|].
    apply lookup_insert_Some in Hk as [[<- _]|[_ Hk]]; done.
  - exists {[11; 12]}. split; [vm_compute; lia|]. rewrite Hsp. intros h [->%elem_of_singleton| ->%elem_of_singleton]%elem_of_union.
    + split; [done|]. exists "H11". by rewrite lookup_insert_eq.
    + split; [done|]. exists "H12". by rewrite lookup_insert_ne, lookup_insert_eq.
Qed.

(** Catch-up can close the gap only while the buffer has room, and blocks behind the gap,
    once in the buffer, stay in it.  Here the index stops at height 2: block 3 is never
    fetched although the RPC has it, and no sequence of new blocks, rounds of the worker,
    catch-ups, status queries, compactions and restarts moves the index again. *)
Theorem catchup_stalls inputs :
  (forall p, Block p ∈ inputs -> 3 < height p) ->
  _indexed_height (run 2 (run 2 fresh_index late_start) inputs) = Some 2 /\
  block_at (db (run 2 (run 2 fresh_index late_start) inputs)) 3 = None.
Proof.
  intros Hlive. pose proof (stalled_forever 2 inputs _ 2 late_start_stalled Hlive) as Hs.
  split; [apply (x_indexed _ _ _ Hs)|]. pose proof (next_not_indexed 2 _ (x_ok _ _ _ Hs)) as Hn.
  unfold _next_expected_height in Hn. by rewrite (x_indexed _ _ _ Hs) in Hn.
Qed.

Lemma catchup_stalls_witness :
  (forall p, Block p ∈ [CatchupStarts 12; Block (block 13); Restart; CatchupStarts 13; WorkerWakes; WorkerTries true] ->
     3 < height p) /\
  _indexed_height (run 2 (run 2 fresh_index late_start)
    [CatchupStarts 12; Block (block 13); Restart; CatchupStarts 13; WorkerWakes; WorkerTries true]) = Some 2.
Proof.
  assert (Hlive : forall p, Block p ∈ [CatchupStarts 12; Block (block 13); Restart; CatchupStarts 13; WorkerWakes; WorkerTries true] ->
    3 < height p).
  { intros p Hp. repeat (apply elem_of_cons in Hp as [Hp|Hp]; [try discriminate Hp; injection Hp as ->; vm_compute; reflexivity|]).
    by apply elem_of_nil in Hp. }
  split; [exact Hlive|]. apply (catchup_stalls _ Hlive).
Defined.
