(* ===== verification/BdsReindex.v ===== *)
(** * Reindexing and catch-up (src/src/xian/services/bds/reindex.py)

    The payload of a block as the indexer rebuilds it from the RPC of a node, the plan of a
    reindex and its run.  The RPC source and the trusted source are functions from heights
    to the JSON they answer with; Base64 decoding, the hash of a transaction, the runtime's
    [convert_dict] and the parser of ISO times are arguments. *)

From S2P Require Import Prelude PyValue Json PyBuiltins Encoding ExecutionPolicy Nonce BdsShielded BdsStore.

(** ** Times *)

(** The text before and after the first [c]. *)
Fixpoint cut_at (c : Ascii.ascii) (s : chars) : option (chars * chars) :=
  match s with
  | [] => None
  | x :: r => if decide (x = c) then Some ([], r) else (λ '(a, b), (x :: a, b)) <$> cut_at c r
  end.

Definition ljust0 (n : nat) (s : chars) : chars := s ++ replicate (n - length s) (ascii_of_byte 48).

(** What [parse_rfc3339_nano] hands to [datetime.fromisoformat]. *)
Definition normalize_rfc3339 (s : string) : string :=
  let cs := str_chars s in
  let cs := match List.rev cs with
            | z :: r => if decide (z = ascii_of_byte 90) then List.rev r ++ lit "+00:00" else cs
            | [] => cs end in
  match cut_at (ascii_of_byte 46) cs with
  | None => String.string_of_list_ascii cs
  | Some (head, tail) =>
    let '(fraction, offset) :=
      match cut_at (ascii_of_byte 43) tail with
      | Some (f, o) => (f, ascii_of_byte 43 :: o)
      | None => match cut_at (ascii_of_byte 45) tail with
                | Some (f, o) => (f, ascii_of_byte 45 :: o)
                | None => (tail, []) end
      end in
    String.string_of_list_ascii (head ++ [ascii_of_byte 46] ++ ljust0 6 (take 6 fraction) ++ offset)
  end.

Section Reindex.
Context (sha256 : bytes -> bytes) (b64decode : string -> result bytes) (convert_dict : value -> result value)
        (fromisoformat : string -> result value) (datetime_to_nanos : value -> result Z)
        (py_str : value -> string) (float_trunc : string -> result Z).
(** the RPC: [block], [block_results], [latest_height] and the execution policy *)
Record source := Source {
  src_block : Z -> result value; src_results : Z -> result value; src_latest : result Z; src_policy : result value }.
Context (block_source : source) (trusted_block_source : option source).
(** [state_patch_manager.build_applied_patches_for_block] *)
Context (build_applied_patches_for_block : Z -> result (option string * list value)).
(** what the index is made of (BdsStore.v) *)
Context (ast_parse : string -> option (list py_node)) (encode : value -> result string) (Decimal : string -> result value)
        (accepts_text accepts_jsonb : string -> bool) (datetime_of : list value -> result value)
        (datetime_fields : string -> list value) (least : value -> value -> value).

Definition parse_rfc3339_nano (s : string) : result value := fromisoformat (normalize_rfc3339 s).

Definition _validate_source_policies : result unit :=
  policy ← src_policy block_source;
  _ ← validate_execution_policy policy;
  match trusted_block_source with
  | Some t => policy ← src_policy t; validate_execution_policy policy
  | None => Ok tt
  end.

Definition upper_str (v : value) : string := py_upper (to_str py_str v).

Definition block_hash_of (response : value) : result string :=
  id ← py_item "block_id" response; h ← py_item "hash" id; Ok (upper_str h).
Definition app_hash_of (response : value) : result string :=
  block ← py_item "block" response; header ← py_item "header" block; h ← py_item "app_hash" header; Ok (upper_str h).

Definition _verify_block_against_trusted_source (height : Z) (response : value) : result unit :=
  match trusted_block_source with
  | None => Ok tt
  | Some t =>
    trusted ← src_block t height;
    source_hash ← block_hash_of response;
    trusted_hash ← block_hash_of trusted;
    _ ← check_py (bool_decide (source_hash = trusted_hash)) ValueError "block hash mismatch";
    source_app ← app_hash_of response;
    trusted_app ← app_hash_of trusted;
    check_py (bool_decide (source_app = trusted_app)) ValueError "block app hash mismatch"
  end.

Definition _extract_block_txs (block : value) : result (list value) :=
  data ← py_dot_get block "data" (VDict []);
  match data with
  | VDict d => py_iter (py_or (py_get "txs" d VNone) (VList []))
  | VList l => Ok l
  | _ => Ok []
  end.

Definition _decode_tx_result_data (data_b64 : value) : result (option (list (string * value))) :=
  if negb (truthy data_b64) then Ok None
  else b ← (s ← as_str data_b64; b64decode s);
       parsed ← (s ← decode_utf8 b; v ← loads s; convert_dict v);
       Ok (match parsed with VDict d => Some d | _ => None end).

Definition _is_indexable_tx_result (tx_result : option (list (string * value))) : bool :=
  match tx_result with
  | Some d => dict_mem "status" d && dict_mem "state" d && dict_mem "chi_used" d
  | None => false
  end.

Definition setdefault (k : string) (v : value) (d : list (string * value)) : list (string * value) :=
  if dict_mem k d then d else dict_set k v d.

Definition _build_transaction_payload (tx_b64 : value) (tx_index : nat) (tx_result_rpc : value)
  : result (option BdsTransactionPayload) :=
  raw_tx ← (s ← as_str tx_b64; b64decode s);
  envelope ← (decoded ← decode_transaction_bytes raw_tx; Ok decoded.1);
  rpc ← py_dict tx_result_rpc;
  decoded_result ← _decode_tx_result_data (py_get "data" rpc VNone);
  match decoded_result with
  | Some d =>
    if negb (_is_indexable_tx_result decoded_result) then Ok None
    else
      let tx_result := dict_set "hash" (VStr (py_upper (hash_bytes sha256 raw_tx))) d in
      code ← py_item "code" tx_result_rpc;
      status ← py_int float_trunc (py_get "status" tx_result code);
      let tx_result := dict_set "status" (VInt status) tx_result in
      chi_used ← py_int float_trunc (py_get "chi_used" tx_result (py_get "gas_used" rpc (VInt 0)));
      let tx_result := dict_set "chi_used" (VInt chi_used) tx_result in
      let tx_result := setdefault "rewards" (VDict []) (setdefault "events" (VList []) (setdefault "state" (VList []) tx_result)) in
      payload ← py_item "payload" envelope;
      Ok (Some (BdsTransaction (VInt (Z.of_nat tx_index)) envelope payload (VDict tx_result)))
  | None => Ok None
  end.

Definition build_payload (height : Z) : result BdsBlockPayload :=
  _ ← _validate_source_policies;
  block_response ← src_block block_source height;
  _ ← _verify_block_against_trusted_source height block_response;
  block_results ← src_results block_source height;
  block ← py_item "block" block_response;
  header ← py_item "header" block;
  block_time ← (v ← py_item "time" header; s ← as_str v; parse_rfc3339_nano s);
  txs ← _extract_block_txs block;
  tx_results ← (d ← py_dict block_results; py_iter (py_or (py_get "txs_results" d VNone) (VList [])));
  _ ← check_py (bool_decide (length txs = length tx_results)) ValueError "tx/result count mismatch";
  transactions ← mapM_py (λ ir, _build_transaction_payload ir.2.1 ir.1 ir.2.2) (zip (seq 0 (length txs)) (zip txs tx_results));
  patches ← build_applied_patches_for_block height;
  header_height ← (v ← py_item "height" header; py_int float_trunc v);
  block_hash ← block_hash_of block_response;
  nanos ← datetime_to_nanos block_time;
  app_hash ← app_hash_of block_response;
  Ok (BdsBlock (VDict [("height", VInt header_height); ("hash", VStr block_hash); ("nanos", VInt nanos)]) block_time
        app_hash (omap id transactions) patches.2 patches.1 (VDict current_execution_policy)).

(** ** Plans *)

Record ReindexPlan := Plan { latest_height : Z; indexed_height : option Z; start_height : Z; end_height : Z }.
Definition total_blocks (p : ReindexPlan) : Z :=
  if end_height p <? start_height p then 0 else end_height p - start_height p + 1.

Definition build_plan (indexed : option Z) (start finish : option Z) : result ReindexPlan :=
  _ ← _validate_source_policies;
  latest ← src_latest block_source;
  (** [max(start_height or 1, 1)] *)
  let resolved_start := match start, indexed with
                        | None, Some i => Z.max (i + 1) 1
                        | Some s, _ => Z.max (if decide (s = 0) then 1 else s) 1
                        | None, None => 1
                        end in
  Ok (Plan latest indexed resolved_start (Z.min (default latest finish) latest)).

Section Range.
Context {D : Type} (persist : BdsBlockPayload -> stM D bool).

(** [reindex_range]: how many blocks were answered with [True] *)
Definition reindex_one (persisted : Z) (height : Z) : stM D Z :=
  payload ← lift_res (build_payload height);
  ok ← persist payload;
  mret (if (ok : bool) then persisted + 1 else persisted).

Fixpoint reindex_from (n : nat) (height : Z) (persisted : Z) : stM D Z :=
  match n with
  | O => mret persisted
  | S n => reindex_one persisted height ≫= λ persisted, reindex_from n (height + 1) persisted
  end.
Definition reindex_range (p : ReindexPlan) : stM D Z := reindex_from (Z.to_nat (end_height p + 1 - start_height p)) (start_height p) 0.
End Range.

(** ** What a rebuilt payload says *)

Lemma build_payload_inv height p :
  build_payload height = Ok p ->
  exists response, src_block block_source height = Ok response /\
    _verify_block_against_trusted_source height response = Ok tt /\
    app_hash_of response = Ok (bp_app_hash p) /\
    (exists hash, block_hash_of response = Ok hash /\ py_item "hash" (bp_block_meta p) = Ok (VStr hash)) /\
    bp_execution_policy p = VDict current_execution_policy.
Proof.
  unfold build_payload. intros Hb.
  destruct _validate_source_policies as [[]|]; [|done]. cbn [mbind result_bind] in Hb.
  destruct (src_block block_source height) as [response|]; [|done]. cbn [mbind result_bind] in Hb.
  destruct (_verify_block_against_trusted_source height response) as [[]|] eqn:Ev; [|done]. cbn [mbind result_bind] in Hb.
  exists response. repeat lazymatch type of Hb with
    | mbind _ ?m = Ok _ => let E := fresh "E" in destruct m eqn:E; [|discriminate Hb]; cbn [mbind result_bind] in Hb end.
  apply Ok_inj in Hb as <-. cbn. split; [done|]. split; [done|]. split; [done|]. split; [|done]. by eexists.
Qed.

(** With a trusted source, a rebuilt block carries the hashes of the trusted one: a source
    that answers with another block is refused. *)
Theorem reindex_trusted height t p :
  trusted_block_source = Some t -> build_payload height = Ok p ->
  exists trusted hash, src_block t height = Ok trusted /\
    block_hash_of trusted = Ok hash /\ py_item "hash" (bp_block_meta p) = Ok (VStr hash) /\
    app_hash_of trusted = Ok (bp_app_hash p).
Proof.
  intros Ht Hb. destruct (build_payload_inv _ _ Hb) as (response & _ & Hv & Ha & (hash & Hh & Hm) & _).
  unfold _verify_block_against_trusted_source in Hv. rewrite Ht in Hv.
  destruct (src_block t height) as [trusted|]; [|done]. cbn [mbind result_bind] in Hv. rewrite Hh in Hv. cbn [mbind result_bind] in Hv.
  destruct (block_hash_of trusted) as [th|] eqn:Eth; [|done]. cbn [mbind result_bind] in Hv. unfold check_py in Hv.
  destruct (bool_decide (hash = th)) eqn:E; [|done]. apply bool_decide_eq_true in E as ->. cbn [mbind result_bind] in Hv.
  rewrite Ha in Hv. cbn [mbind result_bind] in Hv.
  destruct (app_hash_of trusted) as [ta|] eqn:Eta; [|done]. cbn [mbind result_bind] in Hv.
  destruct (bool_decide (bp_app_hash p = ta)) eqn:E2; [|done]. apply bool_decide_eq_true in E2 as <-. by exists trusted, th.
Qed.

(** FinalizeBlock hands over a block with the root of the state after it; a block rebuilt
    from the RPC has the root of its header, which is the one after the block before.  So
    where a block changed the state, an index that holds it from FinalizeBlock refuses the
    rebuilt one as another block. *)
Theorem reindex_refuses_live_block height p d hash root_before root_after response :
  build_payload height = Ok p -> height_col p = Ok height ->
  src_block block_source height = Ok response -> app_hash_of response = Ok root_before ->
  validate_storage_policy d = Ok tt -> block_identity height d = Some (hash, root_after) -> root_after <> root_before ->
  persist_block ast_parse encode py_str float_trunc Decimal accepts_text accepts_jsonb datetime_of datetime_fields least p d
  = (Ok false, d).
Proof.
  intros Hb Hh Hr Ha Hs Hid Hne. destruct (build_payload_inv _ _ Hb) as (response' & Hr' & _ & Ha' & (h & _ & Hm) & Hp).
  apply (persist_block_mismatch _ _ _ _ _ _ _ _ _ _ p d height (VStr h) hash root_after);
    [rewrite Hp; by vm_compute|done|done|done|done|]. intros [= _ E]. congruence.
Qed.
End Reindex.

(** ** A node that indexed its last block and rebuilds it *)

Definition toy_header (app : string) : value :=
  VDict [("height", VStr "1"); ("time", VStr "2024-01-01T00:00:00.123456789Z"); ("app_hash", VStr app)].
Definition toy_response (app : string) : value :=
  VDict [("block_id", VDict [("hash", VStr "h1")]); ("block", VDict [("header", toy_header app); ("data", VDict [("txs", VNone)])])].
Definition toy_source (app : string) : source :=
  Source (λ _, Ok (toy_response app)) (λ _, Ok (VDict [("txs_results", VNone)])) (Ok 1) (Ok (VDict current_execution_policy)).
Definition toy_payload_of (trusted : option source) : result BdsBlockPayload :=
  build_payload (λ b, b) (λ _, raise ValueError "base64") Ok (λ s, Ok (VTime s)) (λ _, Ok 5) (λ _, "")
    (λ _, raise ValueError "float") (toy_source "a0") trusted (λ _, Ok (None, [])) 1.
Definition rebuilt : BdsBlockPayload :=
  ok_or (BdsBlock VNone VNone "" [] [] None VNone) (toy_payload_of (Some (toy_source "a0"))).

Lemma reindex_trusted_witness :
  bp_app_hash rebuilt = "A0" /\ py_item "hash" (bp_block_meta rebuilt) = Ok (VStr "H1") /\
  is_ok (toy_payload_of (Some (toy_source "b0"))) = false.
Proof.
  destruct (reindex_trusted (λ b, b) (λ _, raise ValueError "base64") Ok (λ s, Ok (VTime s)) (λ _, Ok 5) (λ _, "")
    (λ _, raise ValueError "float") (toy_source "a0") (Some (toy_source "a0")) (λ _, Ok (None, [])) 1 (toy_source "a0") rebuilt
    eq_refl) as (t & h & [= <-] & Hh & Hm & Ha); [vm_compute; reflexivity|].
  vm_compute in Ha. vm_compute in Hh. apply Ok_inj in Hh as <-. split; [by apply Ok_inj in Ha|]. split; [exact Hm|].
  vm_compute. reflexivity.
Defined.

(** The index has block 1 with the root [A1] that FinalizeBlock computed. *)
Definition live_db : database :=
  with_blocks [BlockRow 1 "H1" 5 VNone 0 "A1"] empty_db.

Lemma reindex_refuses_live_block_witness :
  (toy_persist rebuilt live_db).1 = Ok false.
Proof.
  assert (Hp : persist_block (λ _, None) (dumps true) (λ _, "") (λ _, raise ValueError "float") (λ s, Ok (VStr s))
    (λ _, true) (λ _, true) (λ l, Ok (VTuple l)) (λ _, []) (λ a _, a) rebuilt live_db = (Ok false, live_db)).
  { apply (reindex_refuses_live_block (λ b, b) (λ _, raise ValueError "base64") Ok (λ s, Ok (VTime s)) (λ _, Ok 5) (λ _, "")
      (λ _, raise ValueError "float") (toy_source "a0") (Some (toy_source "a0")) (λ _, Ok (None, []))
      (λ _, None) (dumps true) (λ s, Ok (VStr s)) (λ _, true) (λ _, true) (λ l, Ok (VTuple l)) (λ _, []) (λ a _, a)
      1 rebuilt live_db "H1" "A0" "A1" (toy_response "a0")); first [vm_compute; reflexivity | done]. }
  unfold toy_persist. by rewrite Hp.
Defined.
