(* ===== verification/BdsHandover.v ===== *)
(** * From FinalizeBlock to the index (finalize_block.py, services/bds/payloads.py)

    The payloads FinalizeBlock hands to the block data service, their spool files, and what
    happens when the same block comes from the RPC instead. *)

From S2P Require Import Prelude PyValue Json PyBuiltins Driver Encoding ExecutionPolicy StateRoot FeePolicy Nonce TxValidation Proposal App Engine Processor StatePatches Rewards FinalizeBlock BdsShielded BdsStore BdsReindex.

(** Evaluates the lookups in literal dicts. *)
Ltac get_items := repeat match goal with
  | |- context [py_item ?k (VDict (?e :: ?d))] =>
      let v := eval lazy in (py_item k (VDict (e :: d))) in change (py_item k (VDict (e :: d))) with v
  | |- context [py_get ?k (?e :: ?d) ?x] =>
      let v := eval lazy in (py_get k (e :: d) x) in change (py_get k (e :: d) x) with v
  end.

(** ** What FinalizeBlock hands over *)

(** The payload that [_assemble_tx_results] builds next to a result. *)
Definition bds_transaction (sha256 : bytes -> bytes) (e : processed_entry) : result (option BdsTransactionPayload) :=
  match e with
  | ProcessedError _ => Ok None
  | ProcessedTx block_tx_index tx tx_bytes receipt =>
    if decide (r_hash receipt = "") then Ok None
    else
      envelope ← (d ← py_dict tx; Ok (dict_pop "b_meta" d));
      payload ← py_item "payload" tx;
      tx_result ← py_dict (receipt_value receipt);
      Ok (Some (BdsTransaction (VInt block_tx_index) (VDict envelope) payload
                  (VDict (dict_set "hash" (VStr (py_upper (hash_bytes sha256 tx_bytes))) tx_result))))
  end.

(** The block that [_enqueue_bds_block] hands to [enqueue_block]. *)
Definition live_block (meta : block_meta) (block_datetime : value) (merkle_root_hash : bytes)
    (bds_transactions : list BdsTransactionPayload) (applied_patches : list PatchExecution) (patch_hash : option string)
  : BdsBlockPayload :=
  BdsBlock (meta_value meta) block_datetime (py_upper (bytes_hex merkle_root_hash)) bds_transactions
    (to_payload_dict <$> applied_patches) patch_hash (VDict current_execution_policy).

(** ** Spool files *)

Section Spool.
(** the runtime's [encode] and [convert_dict], and the ISO form of a time in UTC *)
Context (encode : value -> result string) (convert_dict : value -> result value)
        (isoformat : value -> result string) (fromisoformat : string -> result value).

(** [json.loads(json.dumps(v))]; the separators do not matter to [loads] *)
Definition reparse (v : value) : result value := s ← dumps true v; loads s.

Definition spool_tx (tx : BdsTransactionPayload) : result value :=
  envelope ← reparse (bt_envelope tx);
  payload ← reparse (bt_payload tx);
  tx_result ← bds_json_value encode (bt_tx_result tx);
  Ok (VDict [("tx_index", bt_tx_index tx); ("envelope", envelope); ("payload", payload); ("tx_result", tx_result)]).

Definition or_none (s : option string) : value := match s with Some s => VStr s | None => VNone end.

Definition to_spool_dict (p : BdsBlockPayload) : result value :=
  _ ← validate_execution_policy (bp_execution_policy p);
  policy ← py_dict (bp_execution_policy p);
  block_meta ← bds_json_value encode (bp_block_meta p);
  block_time ← isoformat (bp_block_time p);
  transactions ← mapM_py spool_tx (bp_transactions p);
  state_patches ← bds_json_value encode (VList (bp_state_patches p));
  Ok (VDict [("version", VInt 2); ("execution_policy", VDict policy); ("block_meta", block_meta);
             ("block_time", VStr block_time); ("app_hash", VStr (bp_app_hash p)); ("transactions", VList transactions);
             ("state_patches", state_patches); ("state_patch_hash", or_none (bp_state_patch_hash p))]).

Definition unspool_tx (tx : value) : result BdsTransactionPayload :=
  tx_index ← py_item "tx_index" tx;
  envelope ← py_item "envelope" tx;
  payload ← py_item "payload" tx;
  tx_result ← (v ← py_item "tx_result" tx; convert_dict v);
  Ok (BdsTransaction tx_index envelope payload tx_result).

(** [version != 2], where a float can be equal to an integer *)
Definition is_version_2 (v : value) : bool :=
  match v with VInt z => z =? 2 | VFloat r => bool_decide (r = "2.0") | _ => false end.

(** [app_hash] and [state_patch_hash] are text in every file that [to_spool_dict] wrote. *)
Definition from_spool_dict (data : value) : result BdsBlockPayload :=
  d ← py_dict data;
  _ ← check_py (is_version_2 (py_get "version" d VNone)) ValueError "unsupported BDS spool format version";
  _ ← validate_execution_policy (py_get "execution_policy" d VNone);
  policy ← (v ← py_item "execution_policy" data; py_dict v);
  block_meta ← py_item "block_meta" data;
  block_time ← (v ← py_item "block_time" data; s ← as_str v; fromisoformat s);
  app_hash ← (v ← py_item "app_hash" data; as_str v);
  transactions ← (l ← py_iter (py_get "transactions" d (VList [])); mapM_py unspool_tx l);
  state_patches ← (v ← convert_dict (py_get "state_patches" d (VList [])); py_iter v);
  state_patch_hash ← match py_get "state_patch_hash" d VNone with VNone => Ok None | v => Some <$> as_str v end;
  Ok (BdsBlock block_meta block_time app_hash transactions state_patches state_patch_hash (VDict policy)).

(** What [_write_spool_file] writes and [_read_spool_file] reads. *)
Definition spool_bytes (p : BdsBlockPayload) : result bytes :=
  v ← to_spool_dict p; s ← dumps true v; Ok (encode_utf8 s).
Definition _read_spool_file (b : bytes) : result BdsBlockPayload :=
  v ← (s ← decode_utf8 b; loads s); from_spool_dict v.

(** A value that the runtime's [encode] writes as JSON and [convert_dict] reads back. *)
Definition carried (v : value) : Prop :=
  exists w, bds_json_value encode v = Ok w /\ json_plain w = true /\ json_text true w = true /\ convert_dict w = Ok v.

Definition sendable (v : value) : bool := json_plain v && json_text true v.

Record spoolable (p : BdsBlockPayload) : Prop := {
  sp_policy : bp_execution_policy p = VDict current_execution_policy;
  sp_meta : bds_json_value encode (bp_block_meta p) = Ok (bp_block_meta p) /\ sendable (bp_block_meta p) = true;
  sp_time : exists s, isoformat (bp_block_time p) = Ok s /\ text_ok true s = true /\ fromisoformat s = Ok (bp_block_time p);
  sp_hashes : text_ok true (bp_app_hash p) = true /\ match bp_state_patch_hash p with Some s => text_ok true s = true | None => True end;
  sp_txs : Forall (λ tx, (exists i, bt_tx_index tx = VInt i) /\ sendable (bt_envelope tx) = true /\
                         sendable (bt_payload tx) = true /\ carried (bt_tx_result tx)) (bp_transactions p);
  sp_patches : carried (VList (bp_state_patches p)) }.

Lemma reparse_sendable v : sendable v = true -> reparse v = Ok v.
Proof.
  unfold sendable, reparse. intros [Hp Ht]%andb_true_iff. destruct (dumps_total true v Hp) as [s Hs].
  rewrite Hs. cbn [mbind result_bind]. by eapply loads_dumps_mode.
Qed.

Lemma sendable_dict d :
  bool_decide (NoDup (dict_keys d)) && forallb (text_ok true) (dict_keys d) = true ->
  Forall (λ v, sendable v = true) d.*2 -> sendable (VDict d) = true.
Proof.
  intros [Hn Hk]%andb_true_iff Hv. unfold sendable. cbn [json_plain json_text]. rewrite Hn. clear Hn.
  induction d as [|[k v] d IH]; [done|]. cbn [dict_keys fmap list_fmap forallb fst snd] in *.
  apply andb_true_iff in Hk as [Hk1 Hk2]. apply Forall_cons in Hv as [Hv1 Hv2]. specialize (IH Hk2 Hv2).
  unfold sendable in *. apply andb_true_iff in Hv1 as [A1 A2], IH as [B1 B2].
  rewrite A1, A2, Hk1. cbn in *. by rewrite B1, B2.
Qed.

Lemma spool_tx_roundtrip tx :
  (exists i, bt_tx_index tx = VInt i) /\ sendable (bt_envelope tx) = true /\ sendable (bt_payload tx) = true /\ carried (bt_tx_result tx) ->
  exists v, spool_tx tx = Ok v /\ sendable v = true /\ unspool_tx v = Ok tx.
Proof.
  intros ([i Hi] & He & Hp & w & Hw & Hwp & Hwt & Hc). unfold spool_tx. rewrite (reparse_sendable _ He), (reparse_sendable _ Hp), Hw, Hi.
  cbn [mbind result_bind]. eexists. split; [done|]. split.
  - apply sendable_dict; [by vm_compute|]. repeat constructor; [done..|]. cbn [snd]. unfold sendable. by rewrite Hwp, Hwt.
  - unfold unspool_tx. get_items. cbn [mbind result_bind]. rewrite Hc. cbn [mbind result_bind]. destruct tx; cbn in *. by rewrite Hi.
Qed.

Lemma spool_txs_roundtrip txs :
  Forall (λ tx, (exists i, bt_tx_index tx = VInt i) /\ sendable (bt_envelope tx) = true /\
                sendable (bt_payload tx) = true /\ carried (bt_tx_result tx)) txs ->
  exists vs, mapM_py spool_tx txs = Ok vs /\ sendable (VList vs) = true /\ mapM_py unspool_tx vs = Ok txs.
Proof.
  induction 1 as [|tx txs Htx _ (vs & H1 & H2 & H3)]; [by exists []|].
  destruct (spool_tx_roundtrip tx Htx) as (v & E1 & E2 & E3). exists (v :: vs). cbn [mapM_py]. rewrite E1, H1, E3, H3.
  split; [done|]. split; [|done]. unfold sendable in *. cbn [json_plain json_text forallb] in *.
  apply andb_true_iff in H2 as [A1 A2], E2 as [B1 B2]. by rewrite A1, A2, B1, B2.
Qed.

(** What is spooled is what was handed over: a block read back from its spool file, after a
    restart or when the buffer has room again, is the block that was written, decimals and
    times included. *)
Theorem spool_roundtrip p :
  spoolable p -> exists b, spool_bytes p = Ok b /\ _read_spool_file b = Ok p.
Proof.
  intros [Hpol [Hm Hms] (t & Ht & Htt & Hft) [Ha Hh] Htxs (w & Hw & Hwp & Hwt & Hc)].
  destruct (spool_txs_roundtrip _ Htxs) as (vs & Hvs & Hvs' & Hback).
  unfold spool_bytes, to_spool_dict. rewrite Hpol, Hm, Ht, Hvs, Hw. cbn [mbind result_bind py_dict].
  replace (validate_execution_policy (VDict current_execution_policy)) with (Ok tt : result unit) by (by vm_compute).
  cbn [mbind result_bind]. set (v := VDict (_ :: _)).
  assert (sendable v = true) as [Hvp Hvt]%andb_true_iff.
  { apply sendable_dict; [by vm_compute|]. repeat constructor; cbn [snd]; try assumption.
    - unfold sendable. by rewrite Hwp, Hwt.
    - unfold or_none. by destruct (bp_state_patch_hash p). }
  destruct (dumps_total true v Hvp) as [s Hs]. rewrite Hs. cbn [mbind result_bind]. eexists. split; [done|].
  unfold _read_spool_file. rewrite (loads_dumps_ascii _ _ Hvp Hvt Hs). cbn [mbind result_bind]. unfold v, from_spool_dict.
  cbn [py_dict mbind result_bind]. get_items. cbn [is_version_2 check_py mbind result_bind].
  replace (validate_execution_policy (VDict current_execution_policy)) with (Ok tt : result unit) by (by vm_compute).
  cbn [Z.eqb Pos.eqb check_py mbind result_bind py_dict as_str py_iter]. rewrite Hft, Hback, Hc. cbn [mbind result_bind py_iter].
  destruct p as [m t' a txs ps h pol]; cbn [bp_block_meta bp_block_time bp_app_hash bp_transactions bp_state_patches bp_state_patch_hash bp_execution_policy] in *.
  rewrite Hpol. destruct h; reflexivity.
Qed.
End Spool.

(** ** The same block from the RPC *)

Section Rebuild.
Context (sha256 : bytes -> bytes) (b64encode : bytes -> string) (b64decode : string -> result bytes)
        (convert_dict : value -> result value) (float_trunc : string -> result Z)
        (verify_message : string -> string -> string -> result bool) (is_safe_contract_name : value -> bool) (chain_id : string).
(** Base64 is invertible, and a dict without a tag is kept by [convert_dict] *)
Context (b64_roundtrip : forall b, b64decode (b64encode b) = Ok b) (b64_nonempty : forall b, b <> [] -> b64encode b <> "")
        (error_untagged : forall m, convert_dict (VDict [("error", VStr m)]) = Ok (VDict [("error", VStr m)])).

(** A transaction of a block and its result as the RPC reports them. *)
Definition rpc_tx (raw : bytes) : value := VStr (b64encode raw).
Definition rpc_result (r : ExecTxResult) : value :=
  VDict [("code", VInt (tx_code r)); ("data", VStr (b64encode (tx_data r))); ("gas_used", VStr "0")].

(** What is left of a payload when its result went through the JSON of the ABCI response. *)
Definition rpc_view (tx : BdsTransactionPayload) : BdsTransactionPayload :=
  BdsTransaction (bt_tx_index tx) (bt_envelope tx) (bt_payload tx) (normalize_for_abci_json (bt_tx_result tx)).

(** The result of an entry, as [_assemble_tx_results] answers it. *)
Definition answered (e : processed_entry) (r : ExecTxResult) : Prop :=
  match e with
  | ProcessedError e => r = e
  | ProcessedTx _ _ _ receipt =>
      if decide (r_hash receipt = "") then r = _error_tx_result "Transaction processor returned no tx hash"
      else tx_code r = r_status receipt /\ encode_abci_json (receipt_value receipt) = Ok (tx_data r)
  end.

(** What the RPC's JSON can carry: text of messages, and receipts without runtime tags. *)
Definition reportable (e : processed_entry) : Prop :=
  match e with
  | ProcessedError r => exists message, r = _error_tx_result message /\ text_ok true message = true
  | ProcessedTx _ _ _ receipt =>
      let v := normalize_for_abci_json (receipt_value receipt) in sendable v = true /\ convert_dict v = Ok v
  end.

(** Entry number [i] of a block, made from a raw transaction that passes validation. *)
Definition entry_at (meta : value) (i : nat) (raw : bytes) (e : processed_entry) : Prop :=
  exists tx, decode_and_validate_transaction_static_bytes verify_message is_safe_contract_name raw chain_id None = Ok tx /\
    match e with
    | ProcessedError _ => True
    | ProcessedTx j tx' raw' _ => j = Z.of_nat i /\ tx' = attach_meta meta tx /\ raw' = raw
    end.

Lemma receipt_normal r :
  normalize_for_abci_json (receipt_value r) =
  VDict [("chi_used", VInt (r_chi_used r)); ("events", normalize_for_abci_json (VList (r_events r))); ("hash", VStr (r_hash r));
         ("result", normalize_for_abci_json (r_result r)); ("reward_records", normalize_for_abci_json (r_reward_records r));
         ("rewards", normalize_for_abci_json (r_rewards r));
         ("state", normalize_for_abci_json (VList ((λ w, VDict [("key", VStr w.1); ("value", w.2)]) <$> r_state r)));
         ("status", VInt (r_status r))].
Proof. reflexivity. Qed.

Lemma validated_tx raw tx :
  decode_and_validate_transaction_static_bytes verify_message is_safe_contract_name raw chain_id None = Ok tx ->
  exists d payload ptext, tx = VDict d /\ decode_transaction_bytes raw = Ok (tx, ptext) /\
    py_item "payload" tx = Ok payload /\ "b_meta" ∉ dict_keys d.
Proof.
  intros (ptext & Hdec & Hst & _)%decode_static_inv. unfold validate_transaction_static in Hst. destruct_result. destruct tx; try done.
  apply Ok_inj in E as ->. unfold check_tx_formatting in E0. destruct_result.
  destruct a0, a2. destruct (check_tx_keys_inv _ E) as (m & p & Hm & Hp & Hk).
  exists a, (VDict p), ptext. split; [done|]. split; [done|]. split; [cbn; by rewrite Hp|].
  unfold check_format in E0. destruct (negb _) eqn:Ek; [done|]. apply negb_false_iff in Ek. unfold dict_has_keys in Ek.
  apply andb_true_iff in Ek as [Ek _]. rewrite forallb_forall in Ek. intros Hin%list_elem_of_In%Ek.
  apply bool_decide_eq_true in Hin. by vm_compute in Hin; inversion Hin as [|? ? ? Hin']; inversion Hin' as [|? ? ? Hin'']; inversion Hin''.
Qed.

Lemma without_meta meta d : "b_meta" ∉ dict_keys d -> dict_pop "b_meta" (dict_set "b_meta" (meta : value) d) = d.
Proof.
  unfold dict_pop. induction d as [|[k v] d IH]; intros Hn; [done|]. cbn [dict_keys fmap list_fmap fst] in Hn. apply not_elem_of_cons in Hn as [Hk Hn].
  cbn [dict_set]. rewrite decide_False by congruence. rewrite filter_cons_True by (cbn; congruence). by rewrite IH.
Qed.

(** The result of an error: JSON without the fields of a receipt. *)
Lemma error_data message :
  text_ok true message = true ->
  (s ← decode_utf8 (tx_data (_error_tx_result message)); loads s) = Ok (VDict [("error", VStr message)]).
Proof.
  intros Ht. unfold _error_tx_result. cbn [tx_data]. set (text := "{" +:+ _).
  assert (Hcs : str_chars text = lit "{" ++ json_string true "error" ++ lit ": " ++ json_string true message ++ lit "}").
  { unfold text, quoted. rewrite !str_chars_app. unfold str_chars. by rewrite !String.list_ascii_of_string_of_list_ascii. }
  rewrite decode_utf8_valid.
  - cbn [mbind result_bind]. unfold loads, loads_chars. rewrite Hcs.
    assert (Hf : exists f, S (length (lit "{" ++ json_string true "error" ++ lit ": " ++ json_string true message ++ lit "}")) = S (S (S f))).
    { eexists. rewrite !length_app. cbn [length lit]. reflexivity. }
    destruct Hf as [f ->].
    assert (Hm : parse_members (S (S f)) [] (json_string true "error" ++ lit ": " ++ json_string true message ++ lit "}")
                 = Ok ([("error", VStr message)], [])).
    { rewrite !json_string_body. cbn [List.app parse_members]. change (negb (byte_of_ascii quote_char =? 34)) with false. cbv iota.
      rewrite <- (assoc_L (++)). cbn [List.app]. rewrite (parse_json_body true "error") by (by vm_compute). cbn [mbind result_bind].
      change (skip_ws (lit ": " ++ ?x)) with (ascii_of_byte 58 :: lit " " ++ x). cbv beta iota zeta.
      change (negb (byte_of_ascii (ascii_of_byte 58) =? 58)) with false. cbv iota.
      change (skip_ws (lit " " ++ quote_char :: ?x)) with (quote_char :: x). rewrite <- (assoc_L (++)). cbn [List.app parse_value].
      change (byte_of_ascii quote_char =? 34) with true. cbv beta iota zeta.
      rewrite (parse_json_body true message _ Ht). reflexivity. }
    change (skip_ws (lit "{" ++ ?x)) with (lit "{" ++ x). change (lit "{" ++ ?x) with (ascii_of_byte 123 :: x).
    cbn [parse_value]. change (byte_of_ascii (ascii_of_byte 123) =? 34) with false.
    change (byte_of_ascii (ascii_of_byte 123) =? 123) with true. cbv beta iota zeta.
    set (rest := lit ": " ++ _) in *. rewrite json_string_body in *. cbn [List.app] in *.
    change (skip_ws (quote_char :: ?x)) with (quote_char :: x). cbv iota.
    change (byte_of_ascii quote_char =? 125) with false. cbv iota. by rewrite Hm.
  - unfold valid_str. rewrite utf8_decode_ascii; [done|]. apply printable_bytes. unfold str_printable. rewrite Hcs.
    apply forallb_forall. intros c Hc%list_elem_of_In. revert c Hc. apply Forall_forall.
    repeat (apply Forall_app; split); try apply json_string_printable; by repeat constructor.
Qed.

Lemma decode_data b v d :
  (s ← decode_utf8 b; loads s) = Ok v -> convert_dict v = Ok (VDict d) ->
  _decode_tx_result_data b64decode convert_dict (VStr (b64encode b)) = Ok (Some d).
Proof.
  intros Hl Hc. assert (Hb : b <> []) by (intros ->; by vm_compute in Hl). unfold _decode_tx_result_data. cbn [truthy as_str mbind result_bind].
  rewrite bool_decide_eq_false_2 by by apply b64_nonempty. cbn [negb]. rewrite b64_roundtrip. cbn [mbind result_bind].
  destruct (decode_utf8 b) as [s|]; [|done]. cbn [mbind result_bind] in *. rewrite Hl. cbn [mbind result_bind]. by rewrite Hc.
Qed.

Lemma rebuilt_tx meta i raw tx receipt r :
  entry_at meta i raw (ProcessedTx (Z.of_nat i) tx raw receipt) ->
  reportable (ProcessedTx (Z.of_nat i) tx raw receipt) -> r_hash receipt <> "" ->
  answered (ProcessedTx (Z.of_nat i) tx raw receipt) r ->
  exists live, bds_transaction sha256 (ProcessedTx (Z.of_nat i) tx raw receipt) = Ok (Some live) /\
    _build_transaction_payload sha256 b64decode convert_dict float_trunc (rpc_tx raw) i (rpc_result r) = Ok (Some (rpc_view live)).
Proof.
  intros (tx0 & Hval & _ & Htx & _) Hrep Hhash Hans. destruct (validated_tx _ _ Hval) as (d & payload & ptext & -> & Hdec & Hp & Hb).
  cbn [attach_meta] in Htx. subst tx. cbn [answered reportable] in *. rewrite decide_False in Hans by done.
  destruct Hans as [Hcode Hdata], Hrep as [[Hjp Hjt]%andb_true_iff Hconv].
  cbn [bds_transaction]. rewrite decide_False by done. cbn [py_dict mbind result_bind].
  assert (py_item "payload" (VDict (dict_set "b_meta" meta d)) = Ok payload) as Hp'.
  { cbn in *. by rewrite dict_get_set_ne. }
  rewrite Hp', without_meta by done. cbn [mbind result_bind py_dict receipt_value]. eexists. split; [done|].
  unfold _build_transaction_payload, rpc_tx, rpc_result. cbn [as_str mbind result_bind py_dict]. rewrite b64_roundtrip.
  cbn [mbind result_bind]. rewrite Hdec. cbn [mbind result_bind]. get_items.
  change (let (_, data, _) := r in data) with (tx_data r). change (let (code, _, _) := r in code) with (tx_code r).
  unfold encode_abci_json in Hdata. destruct (dumps true _) as [text|] eqn:Ed; [|done]. apply Ok_inj in Hdata as Hdata.
  pose proof (loads_dumps_ascii _ _ Hjp Hjt Ed) as Hl. rewrite Hdata in Hl. rewrite (receipt_normal receipt) in Hconv at 2.
  rewrite (decode_data _ _ _ Hl Hconv). cbn [fst]. rewrite Hp. cbn [mbind result_bind _is_indexable_tx_result]. reflexivity.
Qed.
Lemma rebuilt_error i raw tx message :
  decode_and_validate_transaction_static_bytes verify_message is_safe_contract_name raw chain_id None = Ok tx ->
  text_ok true message = true ->
  _build_transaction_payload sha256 b64decode convert_dict float_trunc (rpc_tx raw) i (rpc_result (_error_tx_result message)) = Ok None.
Proof.
  intros (d & payload & ptext & -> & Hdec & _)%validated_tx Ht. pose proof (error_data message Ht) as Hl.
  generalize dependent (_error_tx_result message). intros r Hl. unfold _build_transaction_payload, rpc_tx, rpc_result. cbn [as_str mbind result_bind py_dict]. rewrite b64_roundtrip.
  cbn [mbind result_bind]. rewrite Hdec. cbn [mbind result_bind]. get_items.
  change (let (_, data, _) := r in data) with (tx_data r). by rewrite (decode_data _ _ _ Hl (error_untagged message)).
Qed.

Lemma rebuilt_entry meta i raw e r :
  entry_at meta i raw e -> reportable e -> answered e r ->
  exists live, bds_transaction sha256 e = Ok live /\
    _build_transaction_payload sha256 b64decode convert_dict float_trunc (rpc_tx raw) i (rpc_result r) = Ok (option_map rpc_view live).
Proof.
  intros He Hrep Hans. destruct e as [r'|j tx raw' receipt].
  - destruct He as (tx & Hval & _), Hrep as (message & -> & Ht). cbn in Hans. subst r. exists None. split; [done|]. by eapply rebuilt_error.
  - pose proof He as (tx0 & Hval & -> & _ & ->). destruct (decide (r_hash receipt = "")) as [Eh|Eh].
    + cbn [answered] in Hans. rewrite decide_True in Hans by done. subst r. exists None. cbn [bds_transaction].
      rewrite decide_True by done. split; [done|]. eapply rebuilt_error; [done|by vm_compute].
    + destruct (rebuilt_tx meta i raw tx receipt r He Hrep Eh Hans) as (live & H1 & H2). by exists (Some live).
Qed.

Inductive block_entries (meta : value) : nat -> list bytes -> list processed_entry -> Prop :=
  | block_nil i : block_entries meta i [] []
  | block_cons i raw e raws es : entry_at meta i raw e -> block_entries meta (S i) raws es -> block_entries meta i (raw :: raws) (e :: es).

Lemma rebuilt_block meta i raws es rs :
  block_entries meta i raws es -> Forall reportable es -> Forall2 answered es rs ->
  exists live, mapM_py (bds_transaction sha256) es = Ok live /\
    mapM_py (λ ir, _build_transaction_payload sha256 b64decode convert_dict float_trunc ir.2.1 ir.1 ir.2.2)
      (zip (seq i (length raws)) (zip (map rpc_tx raws) (map rpc_result rs))) = Ok (map (option_map rpc_view) live).
Proof.
  intros Hb. revert rs. induction Hb as [i|i raw e raws es He _ IH]; intros rs Hrep Hans.
  - inversion Hans; subst. by exists [].
  - inversion Hans as [|? r ? rs' Hr Hrs]; subst. apply Forall_cons in Hrep as [Hr1 Hr2].
    destruct (IH _ Hr2 Hrs) as (live & H1 & H2), (rebuilt_entry _ _ _ _ _ He Hr1 Hr) as (l & E1 & E2).
    exists (l :: live).
    change (zip (seq i (length (raw :: raws))) (zip (map rpc_tx (raw :: raws)) (map rpc_result (r :: rs'))))
      with ((i, (rpc_tx raw, rpc_result r)) :: zip (seq (S i) (length raws)) (zip (map rpc_tx raws) (map rpc_result rs'))).
    cbn [mapM_py map fst snd]. by rewrite E1, H1, E2, H2.
Qed.

Section Live.
Context {D : Type} `{DriverOps D} `{PyArith} `{!Runtime D}.
Context (py_str : value -> string) (fuel : nat) (config : app_config) (handler : option (rewards_handler (D := D))).

Lemma executed_entries meta i txs raws processed n es n' :
  Forall2 (λ tx raw, decode_and_validate_transaction_static_bytes verify_message is_safe_contract_name raw chain_id None = Ok tx) txs raws ->
  execute_entries py_str float_trunc fuel config handler (Z.of_nat i) processed
    (zip_with (λ tx raw, EntryTx (attach_meta meta tx) raw) txs raws) n = (Ok es, n') ->
  block_entries meta i raws es.
Proof.
  intros Hv. revert i processed n es n'. induction Hv as [|tx raw txs raws Htx _ IH]; intros i processed n es n' Hx; cbn [zip_with execute_entries] in Hx.
  - injection Hx as <- _. constructor.
  - apply stM_bind_inv in Hx as (resp & n1 & _ & Hx). apply stM_bind_inv in Hx as (rest & n2 & Hr & [= <- _]).
    replace (Z.of_nat i + 1) with (Z.of_nat (S i)) in Hr by lia. constructor; [|by eapply IH].
    exists tx. split; [done|]. unfold entry_of. destruct resp as [r|]; [|done]. by destruct (tx_result r).
Qed.

Lemma assembled es n rs n' : _assemble_tx_results py_str es n = (Ok rs, n') -> Forall2 answered es rs.
Proof.
  unfold _assemble_tx_results. revert n rs. induction es as [|e es IH]; intros n rs Hx; cbn [mapM_st] in Hx.
  - injection Hx as <- _. constructor.
  - apply stM_bind_inv in Hx as (r & n1 & He & Hx). apply stM_bind_inv in Hx as (rest & n2 & Hr & [= <- <-]).
    constructor; [|by eapply IH]. destruct e as [r'|i tx b receipt]; cbn [assemble_entry answered] in *; [by injection He as <-|].
    destruct (decide _) as [|_]; [by injection He as <-|].
    apply stM_bind_inv in He as (u & n3 & _ & He). apply stM_bind_inv in He as (data & n4 & [= Hd _] & He).
    by apply stM_bind_inv in He as (evs & n5 & _ & [= <- _]).
Qed.

(** Claim C32. Catch-up and reindexing index what FinalizeBlock would have handed over: for a block of
    valid transactions, the payloads rebuilt from the block and its results as the RPC
    reports them are, one by one, those of FinalizeBlock, with the same position, envelope,
    payload and hash, and with the receipt in the form of the ABCI response. *)
Theorem reindex_matches_live meta txs raws processed n es n1 n2 rs n3 :
  Forall2 (λ tx raw, decode_and_validate_transaction_static_bytes verify_message is_safe_contract_name raw chain_id None = Ok tx) txs raws ->
  _execute_block_transactions py_str float_trunc fuel config handler
    (zip_with (λ tx raw, EntryTx (attach_meta meta tx) raw) txs raws) processed n = (Ok es, n1) ->
  _assemble_tx_results py_str es n2 = (Ok rs, n3) -> Forall reportable es ->
  exists live, mapM_py (bds_transaction sha256) es = Ok live /\
    mapM_py (λ ir, _build_transaction_payload sha256 b64decode convert_dict float_trunc ir.2.1 ir.1 ir.2.2)
      (zip (seq 0 (length raws)) (zip (map rpc_tx raws) (map rpc_result rs))) = Ok (map (option_map rpc_view) live).
Proof.
  intros Hv Hx Ha Hrep. eapply rebuilt_block; [|done|by eapply assembled].
  by apply (executed_entries meta 0 txs raws processed n es n1).
Qed.
End Live.
End Rebuild.

(** ** A block on the sample chain *)

#[local] Existing Instance int_arith.

(** A stand-in for Base64: the list of the bytes. *)
Definition toy_b64 (b : bytes) : string := ok_or "" (dumps true (VList (VInt <$> b))).
Definition toy_unb64 (s : string) : result bytes :=
  v ← loads s;
  match v with
  | VList l => mapM_py (λ x, match x with VInt z => Ok z | _ => raise ValueError "" end) l
  | _ => raise ValueError ""
  end.

Lemma toy_b64_dumps b : dumps true (VList (VInt <$> b)) = Ok (toy_b64 b).
Proof.
  unfold toy_b64. destruct (dumps_total true (VList (VInt <$> b))) as [s Hs]; [|by rewrite Hs].
  cbn. induction b; [done|]. by cbn.
Qed.

Lemma toy_b64_roundtrip b : toy_unb64 (toy_b64 b) = Ok b.
Proof.
  unfold toy_unb64. rewrite (loads_dumps_mode true (VList (VInt <$> b)) (toy_b64 b)); [|by induction b..|apply toy_b64_dumps].
  cbn [mbind result_bind]. induction b as [|z b IH]; [done|]. cbn [fmap list_fmap mapM_py mbind result_bind]. by rewrite IH.
Qed.

Lemma toy_b64_nonempty b : b <> [] -> toy_b64 b <> "".
Proof. intros _ E. pose proof (toy_b64_roundtrip b) as Hr. by rewrite E in Hr. Qed.

Definition chain_meta : value := meta_value (BlockMeta 10 7 "0102" "xian-1").
Definition chain_entries : list processed_entry :=
  ok_or [] (_execute_block_transactions (λ _, "") no_floats 3 chain_config chain_handler
              [EntryTx (attach_meta chain_meta (sample_signed 5 50)) (raw_of (sample_signed 5 50))] None chain_node).1.
Definition chain_results : list ExecTxResult :=
  ok_or [] (_assemble_tx_results (λ _, "") chain_entries chain_node).1.

Lemma reindex_matches_live_witness :
  exists live, mapM_py (bds_transaction toy_sha) chain_entries = Ok [Some live] /\
    bt_payload live = VDict (sample_payload 5 50) /\
    mapM_py (λ ir, _build_transaction_payload toy_sha toy_unb64 Ok no_floats ir.2.1 ir.1 ir.2.2)
      (zip (seq 0 1) (zip (map (rpc_tx toy_b64) [raw_of (sample_signed 5 50)]) (map (rpc_result toy_b64) chain_results)))
    = Ok [Some (rpc_view live)].
Proof.
  destruct (reindex_matches_live toy_sha toy_b64 toy_unb64 Ok no_floats toy_verify toy_safe "xian-1" toy_b64_roundtrip
    toy_b64_nonempty (λ m, eq_refl) (λ _, "") 3 chain_config chain_handler chain_meta [sample_signed 5 50]
    [raw_of (sample_signed 5 50)] None chain_node chain_entries
    (_execute_block_transactions (λ _, "") no_floats 3 chain_config chain_handler
       [EntryTx (attach_meta chain_meta (sample_signed 5 50)) (raw_of (sample_signed 5 50))] None chain_node).2
    chain_node chain_results (_assemble_tx_results (λ _, "") chain_entries chain_node).2) as (live & Hl & Hr).
  - constructor; [|constructor]. vm_compute. reflexivity.
  - vm_compute. reflexivity.
  - vm_compute. reflexivity.
  - assert (He : chain_entries = [nth 0 chain_entries (ProcessedError (_error_tx_result ""))]) by (vm_compute; reflexivity).
    rewrite He. constructor; [|constructor]. vm_compute. split; reflexivity.
  - destruct live as [|[live|] [|? ?]]; [vm_compute in Hl; discriminate Hl| | |vm_compute in Hl; discriminate Hl..].
    + exists live. split; [exact Hl|]. split; [|exact Hr]. vm_compute in Hl. injection Hl as <-. reflexivity.
    + vm_compute in Hl; discriminate Hl.
Defined.

(** ** A character PostgreSQL refuses *)

Fixpoint has_nul (v : value) : bool :=
  match v with
  | VStr s => bool_decide (ascii_of_byte 0 ∈ str_chars s)
  | VList l => existsb has_nul l
  | VDict d => existsb (λ kv, bool_decide (ascii_of_byte 0 ∈ str_chars kv.1) || has_nul kv.2) d
  | _ => false
  end.

Section Nul.
Context (ast_parse : string -> option (list py_node)) (encode : value -> result string) (py_str : value -> string)
        (float_trunc : string -> result Z) (Decimal : string -> result value) (accepts_text accepts_jsonb : string -> bool)
        (datetime_of : list value -> result value) (datetime_fields : string -> list value) (least : value -> value -> value).
(** PostgreSQL's documentation: [jsonb] rejects the escape of the character NUL. *)
Context (jsonb_no_nul : forall v s, sendable v = true -> dumps true v = Ok s -> has_nul v = true -> accepts_jsonb s = false).

Lemma forM_st_each {S A} (l : list A) (f : A -> stM S unit) s s' x :
  forM_st l f s = (Ok tt, s') -> x ∈ l -> exists t t', f x t = (Ok tt, t').
Proof.
  revert s. induction l as [|y l IH]; intros s Hf Hin; [by apply not_elem_of_nil in Hin|]. cbn [forM_st] in Hf.
  apply stM_bind_inv in Hf as ([] & t & Hy & Hf). apply elem_of_cons in Hin as [->|Hin]; [by eexists _, _|by eapply IH].
Qed.

Lemma persist_transaction_payload b t tx s s' :
  _persist_transaction ast_parse encode py_str float_trunc Decimal accepts_text accepts_jsonb datetime_of datetime_fields least b t tx s
    = (Ok tt, s') -> exists text, json_param accepts_jsonb (bt_payload tx) = Ok text.
Proof.
  unfold _persist_transaction. intros Hp. apply stM_bind_inv in Hp as (tx_result & s1 & _ & Hp).
  apply stM_bind_inv in Hp as (payload & s2 & Hpl & Hp). apply lift_inv in Hpl as [Hpl _].
  apply stM_bind_inv in Hp as (tx_hash & s3 & _ & Hp). apply stM_bind_inv in Hp as (tx_index & s4 & _ & Hp).
  apply stM_bind_inv in Hp as ([] & s5 & Hrow & _). unfold on_db in Hrow.
  destruct (persist_tx_row _ _ _ _ _ _ _ _ _ _) as [[[]|] d'] eqn:Er; [|done]. clear Hrow. unfold persist_tx_row in Er.
  destruct (bt_payload tx); try done. apply Ok_inj in Hpl as <-.
  repeat match type of Er with mbind _ _ _ = _ => let a := fresh "a" in let E := fresh "E" in apply stM_bind_inv in Er as (a & ? & E & Er) end.
  exists a6. by apply lift_inv in E6 as [? _].
Qed.

(** A transaction with a NUL character in a string of its arguments passes every check of
    the node (it is valid JSON), but its payload is refused by the index: a block that holds
    such a transaction is never answered with [True], so the worker tries it for ever and
    no later block is indexed. *)
Theorem nul_stops_index p d tx height :
  tx ∈ bp_transactions p -> sendable (bt_payload tx) = true -> has_nul (bt_payload tx) = true -> height_col p = Ok height -> block_identity height d = None ->
  (persist_block ast_parse encode py_str float_trunc Decimal accepts_text accepts_jsonb datetime_of datetime_fields least p d).1 <> Ok true.
Proof.
  intros Hin Hsend Hnul Hh Hid Hp. destruct (persist_block _ _ _ _ _ _ _ _ _ _ p d) as [r d'] eqn:Ep. cbn in Hp. subst r.
  destruct (persist_block_inv _ _ _ _ _ _ _ _ _ _ _ _ _ _ Ep) as [(b & s & _ & _ & _ & Hw & _)|[_ He]].
  2: { destruct (He eq_refl) as (h & hash & Hh' & _ & Hid'). congruence. }
  unfold write_block in Hw.
  repeat match type of Hw with
  | mbind _ (forM_st _ _) _ = _ => fail 1
  | mbind _ _ _ = _ => apply stM_bind_inv in Hw as (? & ? & _ & Hw)
  end.
  apply stM_bind_inv in Hw as ([] & s2 & Hf & _). destruct (forM_st_each _ _ _ _ _ Hf Hin) as (t & t' & Ht).
  destruct (persist_transaction_payload _ _ _ _ _ Ht) as [text Hj]. unfold json_param, jsonb_col in Hj.
  destruct (dumps true (bt_payload tx)) as [s'|] eqn:Ed; [|done]. cbn [mbind result_bind] in Hj.
  by rewrite (jsonb_no_nul _ _ Hsend Ed Hnul) in Hj.
Qed.
End Nul.

(** An argument that is the character NUL. *)
Definition nul_tx : value :=
  VDict [("metadata", VDict [("signature", VStr (hex_zeros 128))]);
         ("payload", VDict [("chain_id", VStr "xian-1"); ("chi_supplied", VInt 50); ("contract", VStr "currency");
            ("function", VStr "approve"); ("kwargs", VDict [("to", VStr (String (ascii_of_byte 0) EmptyString))]); ("nonce", VInt 5);
            ("sender", VStr (hex_zeros 64))])].
Definition nul_payload : value := match nul_tx with VDict (_ :: (_, p) :: _) => p | v => v end.

(** A stand-in for [jsonb]: accepts the text of JSON without NUL. *)
Definition toy_jsonb (s : string) : bool := match loads s with Ok v => negb (has_nul v) | Raise _ => false end.

Lemma toy_jsonb_no_nul v s : sendable v = true -> dumps true v = Ok s -> has_nul v = true -> toy_jsonb s = false.
Proof. intros [Hp Ht]%andb_true_iff Hd Hn. unfold toy_jsonb. by rewrite (loads_dumps_mode true v s Hp Ht Hd), Hn. Qed.

Definition nul_block : BdsBlockPayload :=
  toy_block 1 [BdsTransaction (VInt 0) nul_tx nul_payload
                 (VDict [("hash", VStr "T"); ("status", VInt 0); ("state", VList []); ("chi_used", VInt 5); ("result", VNone)])] [].
Definition plain_block : BdsBlockPayload := toy_block 1 [toy_tx 0 "T" alice (VInt 90)] [].
Definition nul_persist : BdsBlockPayload -> stM database bool :=
  persist_block (λ _, None) (dumps true) (λ _, "") no_floats (λ s, Ok (VStr s)) (λ _, true) toy_jsonb (λ l, Ok (VTuple l)) (λ _, []) (λ a _, a).

Lemma nul_stops_index_witness :
  decode_and_validate_transaction_static_bytes toy_verify toy_safe (raw_of nul_tx) "xian-1" None = Ok nul_tx /\
  (nul_persist nul_block db0).1 <> Ok true /\ (nul_persist plain_block db0).1 = Ok true.
Proof.
  split; [vm_compute; reflexivity|]. split; [|vm_compute; reflexivity].
  apply (nul_stops_index (λ _, None) (dumps true) (λ _, "") no_floats (λ s, Ok (VStr s)) (λ _, true) toy_jsonb (λ l, Ok (VTuple l))
           (λ _, []) (λ a _, a) toy_jsonb_no_nul nul_block db0
           (BdsTransaction (VInt 0) nul_tx nul_payload
              (VDict [("hash", VStr "T"); ("status", VInt 0); ("state", VList []); ("chi_used", VInt 5); ("result", VNone)])) 1);
    [by left|vm_compute; reflexivity..].
Defined.

(** A runtime that tags decimals. *)
Fixpoint toy_tag (v : value) : value :=
  match v with
  | VDec d => VDict [("__fixed__", VStr (_decimal_to_plain_string d))]
  | VList l => VList (toy_tag <$> l)
  | VDict d => VDict ((λ '(k, x), (k, toy_tag x)) <$> d)
  | _ => v
  end.
Definition half : value := VDec (Dec false 5 (-1)).
Fixpoint toy_untag (v : value) : value :=
  match v with
  | VDict [("__fixed__", VStr "0.5")] => half
  | VList l => VList (toy_untag <$> l)
  | VDict d => VDict ((λ '(k, x), (k, toy_untag x)) <$> d)
  | _ => v
  end.
Definition half_block : BdsBlockPayload := toy_block 1 [toy_tx 0 "T" alice half] [toy_execution "con.x" half].

Lemma spool_roundtrip_witness :
  exists b, spool_bytes (λ v, dumps true (toy_tag v)) (λ _, Ok "2024-01-01T00:00:00+00:00") half_block = Ok b /\
    _read_spool_file (λ v, Ok (toy_untag v)) (λ _, Ok (bp_block_time half_block)) b = Ok half_block.
Proof.
  apply (spool_roundtrip (λ v, dumps true (toy_tag v)) (λ v, Ok (toy_untag v)) (λ _, Ok "2024-01-01T00:00:00+00:00")
           (λ _, Ok (bp_block_time half_block)) half_block).
  split; [reflexivity|split; vm_compute; reflexivity| |split; [vm_compute; reflexivity|exact I]| |].
  - eexists. split; [reflexivity|]. split; vm_compute; reflexivity.
  - constructor; [|constructor]. split; [by eexists|]. split; [vm_compute; reflexivity|]. split; [vm_compute; reflexivity|].
    eexists. split; [vm_compute; reflexivity|]. split; [vm_compute; reflexivity|]. split; vm_compute; reflexivity.
  - eexists. split; [vm_compute; reflexivity|]. split; [vm_compute; reflexivity|]. split; vm_compute; reflexivity.
Defined.

(** What a rebuilt block records for a decimal is the text of it, not the tagged number that
    the same block records when FinalizeBlock hands it over. *)
Example rebuilt_decimal_differs :
  let param := _jsonb_param (λ v, dumps true (toy_tag v)) (λ _, true) in
  param half = dumps true (VDict [("__fixed__", VStr "0.5")]) /\ param (normalize_for_abci_json half) = dumps true (VStr "0.5").
Proof. vm_compute. split; reflexivity. Qed.
