(* ===== verification/ShieldedPreverify.v ===== *)
(** * Shielded pre-verification (src/src/xian/shielded_preverify.py)

    Before a block is executed serially, the proofs of its shielded transactions are
    verified in one batch, which warms the cache of the zero-knowledge bridge.  The bridge
    belongs to another package: the class [ZkBridge] has the functions this module calls,
    each of which may raise; what it does to its cache is arbitrary. *)

From S2P Require Import Prelude PyValue Json PyBuiltins Encoding.

(** [D] is the driver, [C] the state of the bridge. *)
Class ZkBridge (D C : Type) := {
  is_available : C -> bool;
  shielded_output_payload_hashes : list value -> result (list value);
  shielded_deposit_public_inputs : string -> value -> value -> value -> list value -> result value;
  shielded_transfer_public_inputs : string -> value -> value -> value -> list value -> result value;
  shielded_withdraw_public_inputs : string -> value -> value -> value -> value -> value -> list value -> result value;
  shielded_command_nullifier_digest : value -> result value;
  (** digest, target, payload, sender, expiry, chain, interaction, domain, fee, amount *)
  shielded_command_binding : list value -> result value;
  shielded_command_execution_tag : value -> value -> result value;
  (** root, binding, tag, fee, amount, nullifiers, commitments *)
  shielded_command_public_inputs : string -> list value -> list value -> result value;
  (** verifies requests with the keys of the driver in [rt.env] *)
  warm_verified_proofs : option D -> list value -> stM C (list value) }.

Record ShieldedPreverifyStats := Stats { candidate_count : Z; verified_count : Z; failed_count : Z }.
Definition no_stats : ShieldedPreverifyStats := Stats 0 0 0.

Section Preverify.
Context {D C : Type} `{ZkBridge D C}.
(** [driver.get_var], [str] of other values, and [canonicalize_command_payload] of the zk
    package, which is missing when its extras are not installed *)
Context (get_var : D -> string -> string -> list value -> result value) (py_str : value -> string)
        (_canonicalize_command_payload : option (value -> result value)).

Definition _vk_id_for (driver : D) (contract action : string) : result (option string) :=
  vk_id ← get_var driver contract "vk_ids" [VStr action];
  Ok (match vk_id with VStr s => if decide (s = "") then None else Some s | _ => None end).

(** [v in (None, "")] *)
Definition is_blank (v : value) : bool := match v with VNone => true | VStr s => bool_decide (s = "") | _ => false end.

Definition py_len (v : value) : result nat :=
  match v with
  | VList l | VTuple l => Ok (length l)
  | VDict d => Ok (length d)
  | VStr s => Ok (length (code_points s))
  | VBytes b => Ok (length b)
  | _ => raise TypeError "object has no len()"
  end.

Definition _normalize_output_payloads (output_payloads : value) (expected_count : nat) : result (list value) :=
  match output_payloads with
  | VNone => Ok (replicate expected_count (VStr ""))
  | VList l =>
    if decide (length l = expected_count) then Ok ((λ p, if is_blank p then VStr "" else p) <$> l)
    else raise AssertionError "output_payloads length must match output commitments"
  | _ => raise AssertionError "output_payloads length must match output commitments"
  end.

Definition _payload_hashes (output_payloads : list value) : result (list value) := shielded_output_payload_hashes output_payloads.

Definition _text_field_hash (v : value) : result value :=
  match v with
  | VStr s =>
    hashes ← _payload_hashes [VStr ("0x" +:+ bytes_hex (encode_utf8 s))];
    match hashes with h :: _ => Ok h | [] => raise IndexError "list index out of range" end
  | _ => raise AttributeError "object has no attribute 'encode'"
  end.

Definition zero_field : value := VStr ("0x" +:+ String.string_of_list_ascii (replicate 64 (ascii_of_byte 48))).
Definition _expiry_field (expires_at : value) : result value :=
  if is_blank expires_at then Ok zero_field else _text_field_hash (VStr (to_str py_str expires_at)).

Definition _command_payload_digest (payload : value) : result value :=
  match _canonicalize_command_payload with
  | None => raise AssertionError "xian_zk command payload canonicalizer is unavailable"
  | Some canonicalize =>
    match payload with
    | VNone => canonical ← canonicalize (VDict []); _text_field_hash canonical
    | VDict d => canonical ← canonicalize (VDict d); _text_field_hash canonical
    | _ => raise AssertionError "payload must be a dict"
    end
  end.

Definition _entry_inputs (driver : D) (contract action : string) (kwargs : list (string * value))
  : result (option (string * value * list value)) :=
  vk_id ← _vk_id_for driver contract action;
  match vk_id with
  | None => Ok None
  | Some vk_id =>
    commitments ← py_item "output_commitments" (VDict kwargs);
    expected_count ← py_len commitments;
    output_payloads ← _normalize_output_payloads (py_get "output_payloads" kwargs VNone) expected_count;
    payload_hashes ← _payload_hashes output_payloads;
    Ok (Some (vk_id, commitments, payload_hashes))
  end.

Definition request (vk_id : string) (proof_hex public_inputs : value) : value :=
  VDict [("vk_id", VStr vk_id); ("proof_hex", proof_hex); ("public_inputs", public_inputs)].

Definition _deposit_entry (driver : D) (contract : string) (kwargs : list (string * value)) : result (option value) :=
  inputs ← _entry_inputs driver contract "deposit" kwargs;
  match inputs with
  | None => Ok None
  | Some (vk_id, commitments, payload_hashes) =>
    let item k := py_item k (VDict kwargs) in
    proof_hex ← item "proof_hex"; old_root ← item "old_root"; amount ← item "amount";
    public_inputs ← shielded_deposit_public_inputs contract old_root amount commitments payload_hashes;
    Ok (Some (request vk_id proof_hex public_inputs))
  end.

Definition _transfer_entry (driver : D) (contract : string) (kwargs : list (string * value)) : result (option value) :=
  inputs ← _entry_inputs driver contract "transfer" kwargs;
  match inputs with
  | None => Ok None
  | Some (vk_id, commitments, payload_hashes) =>
    let item k := py_item k (VDict kwargs) in
    proof_hex ← item "proof_hex"; old_root ← item "old_root"; nullifiers ← item "input_nullifiers";
    public_inputs ← shielded_transfer_public_inputs contract old_root nullifiers commitments payload_hashes;
    Ok (Some (request vk_id proof_hex public_inputs))
  end.

Definition _withdraw_entry (driver : D) (contract : string) (kwargs : list (string * value)) : result (option value) :=
  inputs ← _entry_inputs driver contract "withdraw" kwargs;
  match inputs with
  | None => Ok None
  | Some (vk_id, commitments, payload_hashes) =>
    let item k := py_item k (VDict kwargs) in
    proof_hex ← item "proof_hex"; old_root ← item "old_root"; amount ← item "amount"; to ← item "to";
    nullifiers ← item "input_nullifiers";
    public_inputs ← shielded_withdraw_public_inputs contract old_root amount to nullifiers commitments payload_hashes;
    Ok (Some (request vk_id proof_hex public_inputs))
  end.

Definition _command_request (contract sender : string) (chain_id : value) (kwargs : list (string * value)) (vk_id : string)
    (commitments : value) (payload_hashes : list value) (target_hash payload_digest : value) (interaction domain : string)
    (public_amount : value) : result value :=
  input_nullifiers ← py_item "input_nullifiers" (VDict kwargs);
  let fee := py_get "relayer_fee" kwargs (VInt 0) in
  nullifier_digest ← shielded_command_nullifier_digest input_nullifiers;
  sender_hash ← _text_field_hash (VStr sender);
  expiry ← _expiry_field (py_get "expires_at" kwargs VNone);
  chain_hash ← _text_field_hash chain_id;
  interaction_hash ← _text_field_hash (VStr interaction);
  domain_hash ← _text_field_hash (VStr domain);
  binding ← shielded_command_binding
    [nullifier_digest; target_hash; payload_digest; sender_hash; expiry; chain_hash; interaction_hash; domain_hash; fee; public_amount];
  execution_tag ← shielded_command_execution_tag nullifier_digest binding;
  proof_hex ← py_item "proof_hex" (VDict kwargs);
  old_root ← py_item "old_root" (VDict kwargs);
  public_inputs ← shielded_command_public_inputs contract
    [old_root; binding; execution_tag; fee; public_amount; input_nullifiers; commitments] payload_hashes;
  Ok (request vk_id proof_hex public_inputs).

(** [tx["b_meta"]["chain_id"]] *)
Definition chain_id_of (tx : list (string * value)) : result value :=
  meta ← py_item "b_meta" (VDict tx); py_item "chain_id" meta.

Definition _relay_transfer_entry (driver : D) (tx : list (string * value)) (contract sender : string) (kwargs : list (string * value))
  : result (option value) :=
  inputs ← _entry_inputs driver contract "relay_transfer" kwargs;
  match inputs with
  | None => Ok None
  | Some (vk_id, commitments, payload_hashes) =>
    chain_id ← chain_id_of tx;
    target_hash ← _text_field_hash (VStr "shielded-note-relay-transfer");
    payload_digest ← _text_field_hash (VStr "transfer");
    Some <$> _command_request contract sender chain_id kwargs vk_id commitments payload_hashes target_hash payload_digest
               "relay_transfer_shielded" "shielded-note-relay-v1" (VInt 0)
  end.

Definition _execute_command_entry (driver : D) (tx : list (string * value)) (contract sender : string) (kwargs : list (string * value))
  : result (option value) :=
  inputs ← _entry_inputs driver contract "command" kwargs;
  match inputs with
  | None => Ok None
  | Some (vk_id, commitments, payload_hashes) =>
    chain_id ← chain_id_of tx;
    target_hash ← (v ← py_item "target_contract" (VDict kwargs); _text_field_hash v);
    payload_digest ← _command_payload_digest (py_get "payload" kwargs VNone);
    Some <$> _command_request contract sender chain_id kwargs vk_id commitments payload_hashes target_hash payload_digest
               "interact" "shielded-command-v4" (py_get "public_amount" kwargs (VInt 0))
  end.

Definition build_verification_request (driver : D) (tx : list (string * value)) : result (option value) :=
  match py_get "payload" tx VNone with
  | VDict payload =>
    match py_get "kwargs" payload VNone with
    | VDict kwargs =>
      if negb (dict_mem "proof_hex" kwargs) then Ok None
      else match py_get "contract" payload VNone, py_get "function" payload VNone, py_get "sender" payload VNone with
           | VStr contract, VStr function, VStr sender =>
             if decide (sender = "") then Ok None
             else if decide (function = "deposit_shielded") then _deposit_entry driver contract kwargs
             else if decide (function = "transfer_shielded") then _transfer_entry driver contract kwargs
             else if decide (function = "relay_transfer_shielded") then _relay_transfer_entry driver tx contract sender kwargs
             else if decide (function = "withdraw_shielded") then _withdraw_entry driver contract kwargs
             else if decide (function = "execute_command") then _execute_command_entry driver tx contract sender kwargs
             else Ok None
           | _, _, _ => Ok None
           end
    | _ => Ok None
    end
  | _ => Ok None
  end.

(** ** Warming the cache *)

(** [rt.env["__Driver"]], if it is set, and the bridge. *)
Record preverify_state := PreverifyState { env_driver : option D; bridge : C }.

Definition warm (requests : list value) : stM preverify_state (list value) := λ s,
  let '(r, c) := warm_verified_proofs (env_driver s) requests (bridge s) in (r, PreverifyState (env_driver s) c).

(** One request after the other, when the batch raised. *)
Fixpoint warm_each (requests : list value) : stM preverify_state (list value) := λ s,
  match requests with
  | [] => (Ok [], s)
  | request :: requests =>
    let '(r, s) := warm [request] s in
    let '(rest, s) := warm_each requests s in
    (rest ← rest; Ok (match r with Ok l => l | Raise _ => [VBool false] end ++ rest), s)
  end.

Definition _warm_verified_proofs (requests : list value) : stM preverify_state (list value) := λ s,
  match warm requests s with
  | (Ok l, s) => (Ok l, s)
  | (Raise _, s) => warm_each requests s
  end.

(** The requests of a block; a transaction whose request raises is left out. *)
Definition block_requests (driver : D) (txs : list (list (string * value))) : list value :=
  omap (λ tx, match build_verification_request driver tx with Ok (Some r) => Some r | _ => None end) txs.

Definition is_true (v : value) : bool := match v with VBool b => b | _ => false end.
Definition stats_of (results : list value) : ShieldedPreverifyStats :=
  let verified_count := Z.of_nat (length (filter (λ v, is_true v = true) results)) in
  Stats (Z.of_nat (length results)) verified_count (Z.of_nat (length results) - verified_count).

Definition warm_shielded_proof_cache (driver : D) (txs : list (list (string * value))) : stM preverify_state ShieldedPreverifyStats := λ s,
  if negb (is_available (bridge s)) then (Ok no_stats, s)
  else match block_requests driver txs with
       | [] => (Ok no_stats, s)
       | requests =>
         let previous_driver := env_driver s in
         let '(results, s) := _warm_verified_proofs requests (PreverifyState (Some driver) (bridge s)) in
         let s := PreverifyState previous_driver (bridge s) in
         (l ← results; Ok (stats_of l), s)
       end.

(** ** What it guarantees *)

(** The bridge answers with one result per request, or raises. *)
Definition one_per_request : Prop := forall env rs c,
  match (warm_verified_proofs env rs c).1 with Ok l => length l = length rs | Raise _ => True end.

Lemma warm_each_total requests s :
  exists l c, warm_each requests s = (Ok l, PreverifyState (env_driver s) c) /\ (one_per_request -> length l = length requests).
Proof.
  revert s. induction requests as [|r requests IH]; intros s; cbn [warm_each]; [destruct s; by eexists _, _|].
  unfold warm. destruct (warm_verified_proofs _ [r] _) as [x c] eqn:Ew.
  destruct (IH (PreverifyState (env_driver s) c)) as (l & c' & -> & Hl). eexists _, _. split; [reflexivity|]. intros Hone.
  rewrite length_app, (Hl Hone). pose proof (Hone (env_driver s) [r] (bridge s)) as Hr. rewrite Ew in Hr. cbn [fst] in Hr.
  destruct x; [by rewrite Hr|done].
Qed.

Lemma warm_proofs_total requests s :
  exists l c, _warm_verified_proofs requests s = (Ok l, PreverifyState (env_driver s) c) /\ (one_per_request -> length l = length requests).
Proof.
  unfold _warm_verified_proofs, warm. destruct (warm_verified_proofs _ _ _) as [[l|e] c] eqn:Ew.
  - eexists _, _. split; [done|]. intros Hone. pose proof (Hone (env_driver s) requests (bridge s)) as Hr. by rewrite Ew in Hr.
  - apply (warm_each_total requests (PreverifyState (env_driver s) c)).
Qed.

(** Pre-verification cannot fail a block: whatever transactions the block holds and whatever
    the bridge does with them, raising included, it returns, the driver of the runtime's
    environment is the one from before, and every result counts as verified or failed.
    When the bridge answers each request, every request of the block is counted. *)
Theorem preverify_harmless driver txs s :
  exists stats c, warm_shielded_proof_cache driver txs s = (Ok stats, PreverifyState (env_driver s) c) /\
    candidate_count stats = verified_count stats + failed_count stats /\
    0 <= verified_count stats <= candidate_count stats /\
    (one_per_request -> is_available (bridge s) = true -> candidate_count stats = Z.of_nat (length (block_requests driver txs))).
Proof.
  unfold warm_shielded_proof_cache. destruct s as [env c0]. cbn [bridge env_driver].
  destruct (is_available c0); cbn [negb]; [|by exists no_stats, c0].
  destruct (block_requests driver txs) as [|r rs]; [by exists no_stats, c0|].
  destruct (warm_proofs_total (r :: rs) (PreverifyState (Some driver) c0)) as (l & c & -> & Hl). cbn [mbind result_bind].
  exists (stats_of l), c. split; [done|]. unfold stats_of. cbn [candidate_count verified_count failed_count].
  pose proof (length_filter (λ v, is_true v = true) l). split; [lia|]. split; [lia|]. intros Hone _. by rewrite (Hl Hone).
Qed.

(** ** What a request asks for *)

(** The functions with a proof, and the action whose key verifies it. *)
Definition proof_action (function : string) : option string :=
  dict_get function [("deposit_shielded", "deposit"); ("transfer_shielded", "transfer"); ("relay_transfer_shielded", "relay_transfer");
                     ("withdraw_shielded", "withdraw"); ("execute_command", "command")].

Lemma entry_inputs_vk driver contract action kwargs vk_id commitments hashes :
  _entry_inputs driver contract action kwargs = Ok (Some (vk_id, commitments, hashes)) ->
  vk_id <> "" /\ get_var driver contract "vk_ids" [VStr action] = Ok (VStr vk_id).
Proof.
  unfold _entry_inputs, _vk_id_for. intros Hi. destruct (get_var _ _ _ _) as [v|]; [|done]. cbn [mbind result_bind] in Hi.
  destruct v; try done. destruct (decide (s = "")) as [|Hs]; [done|]. destruct_result. by simplify_eq.
Qed.

(** A request in the form every entry point builds it. *)
Definition asks (driver : D) (contract action : string) (kwargs : list (string * value)) (r : value) : Prop :=
  exists vk_id proof_hex public_inputs, r = request vk_id proof_hex public_inputs /\ vk_id <> "" /\
    get_var driver contract "vk_ids" [VStr action] = Ok (VStr vk_id) /\ dict_get "proof_hex" kwargs = Some proof_hex.

Lemma item_some k d v : py_item k (VDict d) = Ok v -> dict_get k d = Some v.
Proof. cbn. destruct (dict_get k d); [|done]. by intros [= ->]. Qed.

Lemma plain_entry_asks driver contract kwargs r :
  (_deposit_entry driver contract kwargs = Ok (Some r) -> asks driver contract "deposit" kwargs r) /\
  (_transfer_entry driver contract kwargs = Ok (Some r) -> asks driver contract "transfer" kwargs r) /\
  (_withdraw_entry driver contract kwargs = Ok (Some r) -> asks driver contract "withdraw" kwargs r).
Proof.
  split_and!; [unfold _deposit_entry|unfold _transfer_entry|unfold _withdraw_entry]; intros Hr; destruct_result;
    match goal with E : _entry_inputs _ _ _ _ = Ok ?a |- _ => destruct a as [[[vk c] h]|]; [|done]; apply entry_inputs_vk in E as [? ?] end;
    destruct_result; simplify_eq; eexists _, _, _; (split; [done|split; [done|split; [done|by apply item_some]]]).
Qed.

Lemma command_asks driver contract action kwargs vk_id sender chain c h t p i dm am r :
  vk_id <> "" -> get_var driver contract "vk_ids" [VStr action] = Ok (VStr vk_id) ->
  _command_request contract sender chain kwargs vk_id c h t p i dm am = Ok r -> asks driver contract action kwargs r.
Proof.
  intros Hv Hg Hr. unfold _command_request in Hr. destruct_result. simplify_eq. eexists _, _, _.
  split; [done|]. split; [done|]. split; [done|]. by apply item_some.
Qed.

Lemma command_entry_asks driver tx contract sender kwargs r :
  (_relay_transfer_entry driver tx contract sender kwargs = Ok (Some r) -> asks driver contract "relay_transfer" kwargs r) /\
  (_execute_command_entry driver tx contract sender kwargs = Ok (Some r) -> asks driver contract "command" kwargs r).
Proof.
  split; [unfold _relay_transfer_entry|unfold _execute_command_entry]; intros Hr; destruct_result;
    match goal with E : _entry_inputs _ _ _ _ = Ok ?a |- _ => destruct a as [[[vk c] h]|]; [|done]; apply entry_inputs_vk in E as [? ?] end;
    destruct_result;
    match type of Hr with Some <$> ?m = _ => destruct m eqn:Em; [|done] end; cbn in Hr; simplify_eq; by eapply command_asks.
Qed.

(** A request is made only for a transaction that calls one of the five entry points of a
    shielded contract that has registered a key for the action, and it asks to verify the
    transaction's own proof under that key. *)
Theorem request_correct driver tx r :
  build_verification_request driver tx = Ok (Some r) ->
  exists payload kwargs contract function sender action,
    dict_get "payload" tx = Some (VDict payload) /\ dict_get "kwargs" payload = Some (VDict kwargs) /\
    dict_get "contract" payload = Some (VStr contract) /\ dict_get "function" payload = Some (VStr function) /\
    dict_get "sender" payload = Some (VStr sender) /\ sender <> "" /\
    proof_action function = Some action /\ asks driver contract action kwargs r.
Proof.
  unfold build_verification_request, py_get. intros Hb.
  destruct (dict_get "payload" tx) as [p|] eqn:Ep; [|done]. destruct p; try done.
  destruct (dict_get "kwargs" d) as [k|] eqn:Ek; [|done]. destruct k; try done. destruct (negb _); [done|].
  destruct (dict_get "contract" d) as [c|] eqn:Ec; [|done]. destruct c as [| | |contract| | | | | | |]; try done.
  destruct (dict_get "function" d) as [f|] eqn:Ef; [|done]. destruct f as [| | |function| | | | | | |]; try done.
  destruct (dict_get "sender" d) as [sd|] eqn:Es; [|done]. destruct sd as [| | |sender| | | | | | |]; try done.
  destruct (decide (sender = "")) as [|Hs]; [done|].
  exists d, d0, contract, function, sender.
  destruct (plain_entry_asks driver contract d0 r) as (Hd & Ht & Hw), (command_entry_asks driver tx contract sender d0 r) as [Hl Hx].
  repeat case_decide; subst; try done; eexists; (split_and!; [done..|reflexivity|auto]).
Qed.
End Preverify.

(** ** A bridge that refuses batches *)

#[local] Instance toy_bridge : ZkBridge unit (list value) := {|
  is_available _ := true;
  shielded_output_payload_hashes l := Ok l;
  shielded_deposit_public_inputs c root amount _ _ := Ok (VList [VStr c; root; amount]);
  shielded_transfer_public_inputs c root n _ _ := Ok (VList [VStr c; root; n]);
  shielded_withdraw_public_inputs c root amount to n _ _ := Ok (VList [VStr c; root; amount; to; n]);
  shielded_command_nullifier_digest n := Ok n;
  shielded_command_binding l := Ok (VList l);
  shielded_command_execution_tag a b := Ok (VList [a; b]);
  shielded_command_public_inputs c l _ := Ok (VList l);
  warm_verified_proofs _ l c := match l with [r] => (Ok [VBool true], r :: c) | _ => (raise ValueError "batch", c) end |}.

Definition toy_var (_ : unit) (contract variable : string) (args : list value) : result value :=
  if decide (contract = "con_pool") then Ok (VStr "vk-1") else raise ValueError "no such contract".
Definition shielded_tx (contract function : string) : list (string * value) :=
  [("payload", VDict [("contract", VStr contract); ("function", VStr function); ("sender", VStr "alice");
     ("kwargs", VDict [("proof_hex", VStr "00"); ("old_root", VStr "r"); ("amount", VInt 5); ("output_commitments", VList [VStr "c"])])])].

Lemma request_correct_witness :
  exists r, build_verification_request toy_var (λ _, "") None tt (shielded_tx "con_pool" "deposit_shielded") = Ok (Some r) /\
    asks toy_var tt "con_pool" "deposit" [("proof_hex", VStr "00"); ("old_root", VStr "r"); ("amount", VInt 5); ("output_commitments", VList [VStr "c"])] r.
Proof.
  eexists. split; [vm_compute; reflexivity|].
  destruct (request_correct toy_var (λ _, "") None tt (shielded_tx "con_pool" "deposit_shielded")
    (request "vk-1" (VStr "00") (VList [VStr "con_pool"; VStr "r"; VInt 5]))) as (p & k & c & f & sd & a & [= <-] & [= <-] & [= <-] & [= <-] & [= <-] & _ & [= <-] & Ha);
    [vm_compute; reflexivity|exact Ha].
Defined.

(** Two deposits and a transaction of another contract: the batch is refused, each is verified alone. *)
Example preverify_runs :
  (warm_shielded_proof_cache toy_var (λ _, "") None tt
     [shielded_tx "con_pool" "deposit_shielded"; shielded_tx "con_pool" "deposit_shielded"; shielded_tx "con_dex" "deposit_shielded"]
     (PreverifyState None [])).1 = Ok (Stats 2 2 0).
Proof. vm_compute. reflexivity. Qed.

Lemma preverify_harmless_witness :
  exists stats c, warm_shielded_proof_cache toy_var (λ _, "") None tt
      [shielded_tx "con_pool" "deposit_shielded"; shielded_tx "con_pool" "deposit_shielded"; shielded_tx "con_dex" "deposit_shielded"]
      (PreverifyState None []) = (Ok stats, PreverifyState None c) /\ candidate_count stats = 2.
Proof.
  destruct (preverify_harmless toy_var (λ _, "") None tt
      [shielded_tx "con_pool" "deposit_shielded"; shielded_tx "con_pool" "deposit_shielded"; shielded_tx "con_dex" "deposit_shielded"]
      (PreverifyState None [])) as (stats & c & Hw & _ & _ & Hall).
  exists stats, c. split; [exact Hw|]. apply Hall; [|reflexivity]. intros env [|r [|r' rs]] cs; reflexivity.
Defined.
