(* ===== verification/BdsSnapshot.v ===== *)
(** * Snapshots of the index (src/src/xian/services/bds/snapshot.py)

    Exporting the tables of the index as one JSON line per row, and importing such an
    archive into an empty schema.

    Here a table is the list of its rows and a row the dict that the database driver returns
    for it, with the columns of the table's specification as keys.  What PostgreSQL decides
    is a parameter: the order of [ORDER BY], whether a row violates a constraint of the
    schema ([accepts]), and at which step of an import the connection fails, if at all
    ([fails]).  The archive is the list of its members. *)

From S2P Require Import Prelude PyValue Json PyBuiltins Encoding ExecutionPolicy Nonce BdsShielded BdsStore BdsReindex.

Definition SNAPSHOT_FORMAT_VERSION : Z := 2.
Definition SCHEMA_VERSION : Z := 7.

(** ** Tables *)

Record TableSpec := MkTableSpec {
  ts_name : string; ts_columns : list string; ts_order_by : list string; ts_datetime_columns : list string;
  ts_decimal_columns : list string; ts_overriding_system_value : bool;
  (** [import_query] is the statement that replaces a row with the same [key] *)
  ts_upsert : bool }.

Definition output_columns : list string :=
  ["id"; "block_height"; "tx_hash"; "tx_index"; "contract"; "function"; "action"; "output_index"; "note_index"; "commitment";
   "new_root"; "payload_hash"].

Definition TABLE_SPECS : list TableSpec :=
  [MkTableSpec "bds_meta" ["key"; "value"; "updated_at"] ["key"] ["updated_at"] [] false true;
   MkTableSpec "blocks" ["height"; "block_hash"; "block_time"; "block_time_iso"; "tx_count"; "app_hash"; "created_at"]
     ["height"] ["block_time_iso"; "created_at"] [] false false;
   MkTableSpec "transactions" ["hash"; "block_height"; "block_hash"; "block_time"; "tx_index"; "sender"; "nonce"; "contract";
       "function"; "success"; "status_code"; "chi_used"; "result"; "payload"; "envelope"; "created_at"]
     ["block_height"; "tx_index"] ["created_at"] [] false false;
   MkTableSpec "addresses" ["address"; "tx_count"; "first_block_height"; "first_seen"; "last_block_height"; "last_tx_index";
       "last_seen"; "last_tx_hash"; "last_contract"; "last_function"; "updated_at"]
     ["address"] ["first_seen"; "last_seen"; "updated_at"] [] false false;
   MkTableSpec "state_changes" ["change_id"; "block_height"; "block_hash"; "block_time"; "tx_hash"; "tx_index"; "write_index"; "key";
       "new_value"; "previous_change_id"; "previous_tx_hash"; "origin_type"; "created_at"]
     ["change_id"] ["created_at"] [] true false;
   MkTableSpec "state" ["key"; "value"; "last_change_id"; "last_tx_hash"; "last_block_height"; "updated_at"]
     ["key"] ["updated_at"] [] false false;
   MkTableSpec "events" ["id"; "block_height"; "tx_hash"; "tx_index"; "event_index"; "contract"; "event"; "signer"; "caller";
       "data_indexed"; "data"; "created_at"]
     ["id"] ["created_at"] [] true false;
   MkTableSpec "rewards" ["id"; "block_height"; "tx_hash"; "tx_index"; "reward_index"; "type"; "recipient_key"; "source_contract";
       "value"; "created_at"]
     ["id"] ["created_at"] ["value"] true false;
   MkTableSpec "shielded_outputs" (output_columns ++ ["created_at"]) ["id"] ["created_at"] [] true false;
   MkTableSpec "shielded_output_tags" (output_columns ++ ["tag_kind"; "tag_value"; "created_at"]) ["id"] ["created_at"] [] true false;
   MkTableSpec "contracts" ["name"; "last_tx_hash"; "submitted_at_block"; "submitted_at"; "source"; "xsc001"]
     ["name"] ["submitted_at"] [] false false;
   MkTableSpec "state_patches" ["hash"; "block_height"; "block_hash"; "block_time"; "patch_count"; "patches"; "created_at"]
     ["block_height"] ["created_at"] [] false false].

Definition _RUNTIME_JSON_COLUMNS : list (string * list string) :=
  [("transactions", ["result"]); ("state", ["value"]); ("state_changes", ["new_value"]);
   ("events", ["data"; "data_indexed"]); ("state_patches", ["patches"])].

(** Where an import asks the database: [DROP TABLE], the transaction of [_prepare_schema], the
    transaction that loads the rows, [SELECT MAX(height)], and the status at the end. *)
Inductive db_step := DropTables | PrepareSchema | LoadRows | ReadHeight | ReadStatus.

#[local] Notation row := (list (string * value)).
#[local] Notation tables := (gmap string (list row)).

Section Snapshot.
(** the runtime's [encode] and [convert_dict], times and decimals as text, [str] of other values *)
Context (encode : value -> result string) (convert_dict : value -> result value)
        (isoformat : value -> result string) (fromisoformat : string -> result value)
        (Decimal : string -> result value) (py_str : value -> string) (float_trunc : string -> result Z).
(** [ORDER BY] of a table, and whether a row can be inserted *)
Context (ordered : TableSpec -> list row -> list row) (accepts : tables -> string -> row -> bool).
(** the exception of the database at a step of an import *)
Context (fails : db_step -> option exn).

Definition db_check (step : db_step) : result unit := match fails step with Some e => Raise e | None => Ok tt end.

(** ** Rows *)

Definition _encode_row_value (spec : TableSpec) (column : string) (v : value) : result value :=
  match v with
  | VNone => Ok VNone
  | _ => if decide (column ∈ ts_datetime_columns spec) then VStr <$> isoformat v
         else if decide (column ∈ ts_decimal_columns spec) then Ok (VStr (to_str py_str v))
         else Ok v
  end.

Definition _decode_row_value (spec : TableSpec) (column : string) (v : value) : result value :=
  match v with
  | VNone => Ok VNone
  | _ => if decide (column ∈ ts_datetime_columns spec) then fromisoformat (to_str py_str v)
         else if decide (column ∈ ts_decimal_columns spec) then Decimal (to_str py_str v)
         else Ok v
  end.

Definition serialize_snapshot_row (spec : TableSpec) (r : row) : result row :=
  mapM_py (λ column, v ← py_item column (VDict r); w ← _encode_row_value spec column v; Ok (column, w)) (ts_columns spec).

(** The tuple of parameters, here with the columns' names. *)
Definition deserialize_snapshot_row (spec : TableSpec) (payload : value) : result row :=
  keys ← py_iter payload;
  _ ← check_py (forallb (λ k, bool_decide (k ∈ VStr <$> ts_columns spec)) keys
                && forallb (λ c, bool_decide (VStr c ∈ keys)) (ts_columns spec))
        ValueError "invalid BDS snapshot row columns";
  mapM_py (λ column, v ← py_item column payload; w ← _decode_row_value spec column v; Ok (column, w)) (ts_columns spec).

Definition _validate_snapshot_column (spec : TableSpec) (r : value) (column : string) : result unit :=
  v ← py_item column r;
  wire ← match v with VStr s => loads s | _ => Ok v end;
  typed ← convert_dict wire;
  _ ← bds_json_text encode typed;
  if decide (ts_name spec ∈ ["state"; "state_changes"]) then
    key ← py_item "key" r;
    if decide (key = VStr EXECUTION_POLICY_KEY) then validate_execution_policy typed else Ok tt
  else Ok tt.

Definition _validate_snapshot_value (spec : TableSpec) (r : value) : result unit :=
  foldM_py (λ _, _validate_snapshot_column spec r) tt (default [] (dict_get (ts_name spec) _RUNTIME_JSON_COLUMNS)).

(** ** Files *)

Definition is_newline (c : Ascii.ascii) : bool := (byte_of_ascii c =? 10) || (byte_of_ascii c =? 13).
Definition newline : Ascii.ascii := ascii_of_byte 10.

(** The lines of a text file, without their ends. *)
Fixpoint lines_from (s acc : chars) : list string :=
  match s with
  | [] => [String.string_of_list_ascii (List.rev acc)]
  | c :: s => if is_newline c then String.string_of_list_ascii (List.rev acc) :: lines_from s [] else lines_from s (c :: acc)
  end.
Definition file_lines (s : string) : list string := lines_from (str_chars s) [].

Definition is_blank_line (s : string) : bool := bool_decide (py_strip s = "").

(** The rows that [_snapshot_rows] yields, folded as they are read. *)
Definition fold_rows {S} (f : S -> value -> result S) (s : S) (files : list (string * string)) (name : string) : result S :=
  match dict_get name files with
  | None => raise FileNotFoundError ("snapshot table file missing: " +:+ name)
  | Some text => foldM_py (λ s line, if is_blank_line line then Ok s else v ← loads line; f s v) s (file_lines text)
  end.

Definition table_file (name : string) : string := name +:+ ".jsonl".

Definition _snapshot_meta_values (files : list (string * string)) : result (list (value * value)) :=
  fold_rows (λ values r,
    key ← py_item "key" r;
    _ ← check_py (negb (bool_decide (key ∈ values.*1))) ValueError "duplicate BDS snapshot metadata key";
    v ← py_item "value" r; Ok (values ++ [(key, v)])) [] files (table_file "bds_meta").

Definition meta_get (k : string) (values : list (value * value)) : value :=
  match list_find (λ kv, kv.1 = VStr k) values with Some (_, kv) => kv.2 | None => VNone end.

(** [v == z] *)
Definition equals_int (v : value) (z : Z) : bool :=
  match v with
  | VInt y => y =? z
  | VBool b => Z.b2z b =? z
  | VFloat r => bool_decide (r = py_int_str z +:+ ".0")
  | _ => false
  end.

Definition preflight_row (spec : TableSpec) (count : Z) (r : value) : result Z :=
  _ ← deserialize_snapshot_row spec r; _ ← _validate_snapshot_value spec r; Ok (count + 1).

Definition preflight_table (files : list (string * string)) (metadata : value) (spec : TableSpec) : result unit :=
  count ← fold_rows (preflight_row spec) 0 files (table_file (ts_name spec));
  row_count ← (t ← py_dot_get metadata "tables" (VDict []); t ← py_dot_get t (ts_name spec) (VDict []); py_dot_get t "row_count" VNone);
  check_py (equals_int row_count count) ValueError ("BDS snapshot row count mismatch: " +:+ ts_name spec).

Definition _preflight_snapshot (files : list (string * string)) (metadata : value) : result unit :=
  _ ← (p ← py_dot_get metadata "execution_policy" VNone; validate_execution_policy p);
  _ ← foldM_py (λ _, preflight_table files metadata) tt TABLE_SPECS;
  meta_rows ← _snapshot_meta_values files;
  _ ← check_py (bool_decide (meta_get "schema_version" meta_rows = VStr (py_int_str SCHEMA_VERSION))) ValueError
        "BDS snapshot schema metadata mismatch";
  policy ← match meta_get "execution_policy" meta_rows with VNone => Ok VNone | raw => s ← as_str raw; loads s end;
  validate_execution_policy policy.

(** [(destination / name).resolve()], as parts below the root. *)
Fixpoint split_slash (s : chars) (acc : chars) : list string :=
  match s with
  | [] => [String.string_of_list_ascii (List.rev acc)]
  | c :: s => if byte_of_ascii c =? 47 then String.string_of_list_ascii (List.rev acc) :: split_slash s [] else split_slash s (c :: acc)
  end.
Definition resolve_part (path : list string) (part : string) : list string :=
  if decide (part = "" \/ part = ".") then path else if decide (part = "..") then removelast path else path ++ [part].
Definition member_path (destination : list string) (name : string) : list string :=
  let parts := split_slash (str_chars name) [] in
  fold_left resolve_part parts (match parts with "" :: _ :: _ => [] | _ => destination end).

Definition inside (destination path : list string) : bool := bool_decide (take (length destination) path = destination).

(** The files of the temporary directory after extraction; a later member replaces an earlier one. *)
Definition _safe_extract_snapshot (destination : list string) (archive : list (string * string)) : result (list (string * string)) :=
  _ ← check_py (forallb (λ m, inside destination (member_path destination m.1)) archive) ValueError "unsafe snapshot member path";
  Ok (fold_left (λ files m, match drop (length destination) (member_path destination m.1) with
                            | [name] => dict_set name m.2 files
                            | _ => files end) archive []).

(** ** Export *)

Definition table (name : string) (d : tables) : list row := default [] (d !! name).

Definition int_field (c : string) (r : row) : Z := match dict_get c r with Some (VInt z) => z | _ => 0 end.

(** [ORDER BY height DESC LIMIT 1] *)
Definition last_block (d : tables) : option row :=
  fold_left (λ o r, match o with
                    | None => Some r
                    | Some b => if int_field "height" b <=? int_field "height" r then Some r else o
                    end) (table "blocks" d) None.
Definition max_indexed (d : tables) : option Z := int_field "height" <$> last_block d.

(** The row of [select_index_status]; [get_status] returns it as it is. *)
Definition indexed_status (d : tables) : value :=
  let last c := match last_block d with Some r => py_get c r VNone | None => VNone end in
  VDict [("indexed_block_count", VInt (Z.of_nat (length (table "blocks" d)))); ("indexed_height", last "height");
         ("indexed_block_hash", last "block_hash"); ("indexed_block_time", last "block_time");
         ("indexed_block_time_iso", last "block_time_iso"); ("indexed_tx_count", VInt (Z.of_nat (length (table "transactions" d))));
         ("indexed_app_hash", last "app_hash")].

(** [json.dumps(row, separators=(",", ":"), sort_keys=True)] and a newline *)
Definition row_line (spec : TableSpec) (r : row) : result chars :=
  r ← serialize_snapshot_row spec r; s ← dumps true (sort_keys (VDict r)); Ok (str_chars s ++ [newline]).

Definition export_table (d : tables) (spec : TableSpec) : result (string * string) :=
  lines ← mapM_py (row_line spec) (ordered spec (table (ts_name spec) d));
  Ok (table_file (ts_name spec), String.string_of_list_ascii (concat lines)).

Definition export_metadata (d : tables) (exported_at : string) (spool_pending_count : Z) : value :=
  VDict [("snapshot_format_version", VInt SNAPSHOT_FORMAT_VERSION); ("schema_version", VInt SCHEMA_VERSION);
         ("execution_policy", VDict current_execution_policy); ("exported_at", VStr exported_at); ("indexed", indexed_status d);
         ("spool_pending_count", VInt spool_pending_count);
         ("tables", VDict ((λ spec, (ts_name spec, VDict [("row_count", VInt (Z.of_nat (length (table (ts_name spec) d))))])) <$> TABLE_SPECS))].

(** The archive that is written; [json.dumps(metadata, indent=2, sort_keys=True)] differs from
    this text in white space only. *)
Definition export_bds_snapshot (output_exists force : bool) (d : tables) (exported_at : string) (spool_pending_count : Z)
  : result (list (string * string)) :=
  _ ← check_py (negb (output_exists && negb force)) FileExistsError "snapshot already exists";
  files ← mapM_py (export_table d) TABLE_SPECS;
  let metadata := export_metadata d exported_at spool_pending_count in
  _ ← _preflight_snapshot files metadata;
  text ← dumps true (sort_keys metadata);
  Ok (("metadata.json", text) :: files).

(** ** Import *)

(** The index a snapshot is imported into: its tables, the last numbers of its identity columns,
    and the spool: per file what reading it gives, the height of its block or the exception for
    a file that is damaged or of another execution policy. *)
Record index := Index { ix_tables : tables; ix_sequences : gmap string Z; ix_spool : list (result Z * string) }.

(** [reset_schema]: empty tables and the rows that [_prepare_schema] writes at [now] *)
Definition fresh_tables (now : value) : result tables :=
  policy ← dumps true (sort_keys (VDict current_execution_policy));
  Ok (<["bds_meta" := [[("key", VStr "schema_version"); ("value", VStr (py_int_str SCHEMA_VERSION)); ("updated_at", now)];
                       [("key", VStr "execution_policy"); ("value", VStr policy); ("updated_at", now)]]]>
      (list_to_map ((λ spec, (ts_name spec, [])) <$> TABLE_SPECS))).

Definition same_key (r r' : row) : Prop := dict_get "key" r = dict_get "key" r'.
#[local] Instance same_key_dec r r' : Decision (same_key r r').
Proof. unfold same_key. apply _. Defined.

(** [ON CONFLICT (key) DO UPDATE] *)
Definition upsert_row (rows : list row) (r : row) : list row :=
  if decide (Exists (same_key r) rows) then (λ r', if decide (same_key r r') then r else r') <$> rows else rows ++ [r].

(** The insert statement of a table. *)
Definition insert_row (spec : TableSpec) (d : tables) (r : row) : result tables :=
  let rows := table (ts_name spec) d in
  if ts_upsert spec then Ok (<[ts_name spec := upsert_row rows r]> d)
  else if accepts d (ts_name spec) r then Ok (<[ts_name spec := rows ++ [r]]> d)
  else raise OtherError ("violates a constraint of " +:+ ts_name spec).

(** The rows of a file in batches of 1000 statements inside one database transaction. *)
Definition import_table (files : list (string * string)) (d : tables) (spec : TableSpec) : result tables :=
  fold_rows (λ d v, r ← deserialize_snapshot_row spec v; insert_row spec d r) d files (table_file (ts_name spec)).

(** [setval(..., COALESCE(MAX(id), 1), true)] *)
Definition identity_columns : list (string * string) :=
  [("state_changes", "change_id"); ("events", "id"); ("rewards", "id"); ("shielded_outputs", "id"); ("shielded_output_tags", "id")].
Definition max_id (column : string) (rows : list row) : Z :=
  match int_field column <$> rows with [] => 1 | i :: l => fold_left Z.max l i end.
Definition set_sequences (d : tables) : gmap string Z :=
  fold_left (λ m tc, <[tc.1 := max_id tc.2 (table tc.1 d)]> m) identity_columns ∅.

Definition _verify_snapshot_indexed_chain_state (metadata : value) (trusted_block_source : option source) : result unit :=
  indexed ← py_dot_get metadata "indexed" VNone;
  match indexed with
  | VDict d =>
    match py_get "indexed_height" d VNone with
    | VNone => Ok tt
    | indexed_height =>
      match py_get "indexed_block_hash" d VNone with
      | VStr block_hash =>
        _ ← check_py (negb (bool_decide (block_hash = ""))) ValueError "BDS snapshot indexed block hash missing";
        match py_get "indexed_app_hash" d VNone with
        | VStr app_hash =>
          _ ← check_py (negb (bool_decide (app_hash = ""))) ValueError "BDS snapshot indexed app hash missing";
          match trusted_block_source with
          | None => Ok tt
          | Some t =>
            h ← py_int float_trunc indexed_height;
            trusted_block ← src_block t h;
            trusted_block_hash ← block_hash_of py_str trusted_block;
            trusted_app_hash ← app_hash_of py_str trusted_block;
            _ ← check_py (bool_decide (trusted_block_hash = py_upper block_hash)) ValueError "BDS snapshot indexed block hash mismatch";
            check_py (bool_decide (trusted_app_hash = py_upper app_hash)) ValueError "BDS snapshot indexed app hash mismatch"
          end
        | _ => raise ValueError "BDS snapshot indexed app hash missing"
        end
      | _ => raise ValueError "BDS snapshot indexed block hash missing"
      end
    end
  | _ => raise ValueError "BDS snapshot indexed metadata missing"
  end.

(** Everything before the index is touched. *)
Definition import_checks (destination : list string) (snapshot : option (list (string * string))) (trusted_block_source : option source)
  : result (list (string * string)) :=
  archive ← match snapshot with Some a => Ok a | None => raise FileNotFoundError "snapshot not found" end;
  files ← _safe_extract_snapshot destination archive;
  metadata ← match dict_get "metadata.json" files with Some s => loads s | None => raise FileNotFoundError "metadata.json" end;
  version ← py_dot_get metadata "snapshot_format_version" VNone;
  _ ← check_py (equals_int version SNAPSHOT_FORMAT_VERSION) ValueError "unsupported BDS snapshot format version";
  schema ← py_dot_get metadata "schema_version" VNone;
  _ ← check_py (equals_int schema SCHEMA_VERSION) ValueError "BDS snapshot schema version mismatch";
  _ ← (p ← py_dot_get metadata "execution_policy" VNone; validate_execution_policy p);
  _ ← _verify_snapshot_indexed_chain_state metadata trusted_block_source;
  _ ← _preflight_snapshot files metadata;
  Ok files.

(** [DROP TABLE] is one statement, [_prepare_schema] one transaction. *)
Definition reset_schema (now : value) : stM index unit :=
  _ ← lift_res (db_check DropTables);
  _ ← modify_st (λ ix, Index ∅ ∅ (ix_spool ix));
  _ ← lift_res (db_check PrepareSchema);
  fresh ← lift_res (fresh_tables now);
  modify_st (λ ix, Index fresh ∅ (ix_spool ix)).

Definition clear_spool_files (clear_spool : bool) : stM index unit :=
  modify_st (λ ix, Index (ix_tables ix) (ix_sequences ix) (if clear_spool then [] else ix_spool ix)).

(** One transaction; the sequences are set at its end. *)
Definition load_rows (files : list (string * string)) : stM index unit := λ ix,
  match (_ ← db_check LoadRows; foldM_py (import_table files) (ix_tables ix) TABLE_SPECS) with
  | Raise e => (Raise e, ix)
  | Ok d => (Ok tt, Index d (set_sequences d) (ix_spool ix))
  end.

Definition above (m : Z) (f : result Z * string) : bool := match f.1 with Ok h => m <? h | Raise _ => true end.

(** The files of indexed heights are removed; [_validated_spool_files] reads every file first. *)
Definition compact (d : tables) (spool : list (result Z * string)) : result (list (result Z * string)) :=
  _ ← mapM_py fst spool;
  _ ← db_check ReadHeight;
  Ok (match max_indexed d with
      | Some m => filter (λ f, above m f = true) spool
      | None => spool
      end).

Definition run_compact_spool : stM index unit := λ ix,
  match compact (ix_tables ix) (ix_spool ix) with
  | Raise e => (Raise e, ix)
  | Ok spool => (Ok tt, Index (ix_tables ix) (ix_sequences ix) spool)
  end.

Definition import_bds_snapshot (destination : list string) (snapshot : option (list (string * string))) (clear_spool : bool)
    (trusted_block_source : option source) (now : value) : stM index (option Z) :=
  files ← lift_res (import_checks destination snapshot trusted_block_source);
  _ ← reset_schema now;
  _ ← clear_spool_files clear_spool;
  _ ← load_rows files;
  _ ← run_compact_spool;
  _ ← lift_res (db_check ReadStatus);
  gets_st (λ ix, max_indexed (ix_tables ix)).

(** ** Rows survive the file *)

(** A value of a column as the database driver returns it: text, a number or a flag, a time
    or a decimal that its text gives back, or NULL. *)
Definition scalar (v : value) : Prop := match v with VBool _ | VInt _ => True | VStr s => text_ok true s = true | _ => False end.

Definition column_ok (spec : TableSpec) (c : string) (v : value) : Prop :=
  v = VNone \/
  if decide (c ∈ ts_datetime_columns spec) then exists s, isoformat v = Ok s /\ text_ok true s = true /\ fromisoformat s = Ok v
  else if decide (c ∈ ts_decimal_columns spec) then text_ok true (to_str py_str v) = true /\ Decimal (to_str py_str v) = Ok v
  else scalar v.

Definition row_ok (spec : TableSpec) (r : row) : Prop :=
  dict_keys r = ts_columns spec /\ Forall (λ cv, column_ok spec cv.1 cv.2) r.

(** What the file holds for a value. *)
Definition wire (v : value) : Prop := v = VNone \/ scalar v.

Lemma column_roundtrip spec c v :
  column_ok spec c v -> exists w, _encode_row_value spec c v = Ok w /\ wire w /\ _decode_row_value spec c w = Ok v.
Proof.
  intros [->|Hc]; [by exists VNone; split; [|split; [left|]]|]. unfold _encode_row_value, _decode_row_value.
  destruct (decide (c ∈ ts_datetime_columns spec)).
  - destruct Hc as (s & Hi & Ht & Hf). destruct v; try (exists VNone; by split; [|split; [left|]]);
      exists (VStr s); rewrite Hi; cbn; (split; [done|split; [by right|done]]).
  - destruct (decide (c ∈ ts_decimal_columns spec)).
    + destruct Hc as [Ht Hd]. destruct v; try (exists VNone; by split; [|split; [left|]]);
        eexists (VStr _); (split; [done|split; [by right|done]]).
    + destruct v; try done; eexists; (split; [done|split; [by right|done]]).
Qed.

Lemma wire_plain w : wire w -> json_plain w = true /\ json_text true w = true /\ sort_keys w = w.
Proof. intros [->|Hs]; [done|]. by destruct w. Qed.

Lemma row_serialized spec r :
  row_ok spec r -> NoDup (ts_columns spec) ->
  exists w, serialize_snapshot_row spec r = Ok w /\ dict_keys w = ts_columns spec /\ Forall (λ cv, wire cv.2) w /\
    Forall (λ cv, exists x, dict_get cv.1 w = Some x /\ _decode_row_value spec cv.1 x = Ok cv.2) r.
Proof.
  intros [Hk Hc] Hnd. unfold serialize_snapshot_row. rewrite <- Hk in Hnd |- *.
  assert (Hw : exists w, Forall2 (λ cv cw, cw.1 = cv.1 /\ wire cw.2 /\ _encode_row_value spec cv.1 cv.2 = Ok cw.2 /\
                                  _decode_row_value spec cv.1 cw.2 = Ok cv.2) r w).
  { clear Hk Hnd. induction Hc as [|[c v] r Hv _ [w IH]]; [by exists []|].
    destruct (column_roundtrip _ _ _ Hv) as (x & H1 & H2 & H3). exists ((c, x) :: w). by constructor. }
  destruct Hw as [w Hw]. exists w.
  assert (Hkw : dict_keys w = dict_keys r).
  { clear -Hw. unfold dict_keys. induction Hw as [|cv cw r w [H1 _] _ IH]; [done|]. rewrite !fmap_cons. congruence. }
  split_and!.
  - apply mapM_py_Forall2. rewrite Forall2_lookup. intros i. unfold dict_keys. rewrite list_lookup_fmap.
    rewrite Forall2_lookup in Hw. pose proof (Hw i) as Hi.
    destruct (r !! i) as [[c v]|] eqn:Er, (w !! i) as [[c' x]|] eqn:Ew; inversion Hi as [? ? (E1 & _ & E2 & _)|]; cbn [fst snd] in *; [|constructor].
    constructor. subst c'. cbn [fst py_item]. rewrite (dict_get_elem c v r) by (done || by eapply list_elem_of_lookup_2).
    cbn [mbind result_bind]. by rewrite E2.
  - done.
  - clear -Hw. induction Hw as [|cv cw r w (_ & H2 & _) _ IH]; by constructor.
  - apply Forall_forall. intros [c v] Hin. apply list_elem_of_lookup in Hin as [i Hi]. rewrite Forall2_lookup in Hw.
    specialize (Hw i). rewrite Hi in Hw. inversion Hw as [? [c' x] (E1 & _ & _ & E3) Hx Hy|]; subst. cbn in *. subst c'.
    exists x. split; [|done]. apply dict_get_elem; [by rewrite Hkw|]. by eapply list_elem_of_lookup_2.
Qed.

Definition spec_ok (spec : TableSpec) : bool :=
  bool_decide (NoDup (ts_columns spec)) && forallb (text_ok true) (ts_columns spec).

Lemma wire_row_sent w :
  NoDup (dict_keys w) -> forallb (text_ok true) (dict_keys w) = true -> Forall (λ cv, wire cv.2) w ->
  sort_keys (VDict w) = VDict (sort_by fst w) /\ json_plain (VDict (sort_by fst w)) = true /\
  json_text true (VDict (sort_by fst w)) = true.
Proof.
  intros Hnd Hk Hw.
  assert (Hs : (λ kv : string * value, (kv.1, sort_keys kv.2)) <$> w = w).
  { clear Hnd Hk. induction Hw as [|[c x] w Hx _ IH]; [done|]. rewrite fmap_cons, IH. cbn [fst snd] in *. by rewrite (proj2 (proj2 (wire_plain _ Hx))). }
  split; [cbn [sort_keys]; by rewrite Hs|].
  assert (Hw' : Forall (λ cv, wire cv.2) (sort_by fst w)) by by rewrite sort_by_perm.
  cbn [json_plain json_text]. rewrite bool_decide_eq_true_2.
  2: { unfold dict_keys in *. by rewrite sort_by_perm. }
  split.
  - cbn [andb]. apply forallb_forall. intros kv Hin%list_elem_of_In. rewrite Forall_forall in Hw'. by apply wire_plain, Hw'.
  - apply forallb_forall. intros kv Hin%list_elem_of_In. rewrite Forall_forall in Hw'. apply andb_true_iff. split; [|by apply wire_plain, Hw'].
    rewrite forallb_forall in Hk. apply Hk. apply list_elem_of_In. unfold dict_keys. rewrite <- (sort_by_perm fst w).
    by apply list_elem_of_fmap_2.
Qed.

Lemma sorted_get (w : row) c : NoDup (dict_keys w) -> dict_get c (sort_by fst w) = dict_get c w.
Proof.
  intros Hnd. destruct (dict_get c w) as [v|] eqn:E.
  - apply dict_get_elem; [unfold dict_keys in *; by rewrite sort_by_perm|]. rewrite sort_by_perm. by apply dict_get_Some_elem.
  - apply dict_get_None in E. apply dict_get_None. unfold dict_keys in *. by rewrite sort_by_perm.
Qed.

Lemma row_deserialized spec r w :
  dict_keys r = ts_columns spec -> dict_keys w = ts_columns spec -> NoDup (ts_columns spec) ->
  Forall (λ cv, exists x, dict_get cv.1 w = Some x /\ _decode_row_value spec cv.1 x = Ok cv.2) r ->
  deserialize_snapshot_row spec (VDict (sort_by fst w)) = Ok r.
Proof.
  intros Hk Hkw Hnd Hd. unfold deserialize_snapshot_row. cbn [py_iter mbind result_bind].
  assert (Hperm : dict_keys (sort_by fst w) ≡ₚ ts_columns spec) by (unfold dict_keys in *; by rewrite sort_by_perm, Hkw).
  assert (forallb (λ k, bool_decide (k ∈ VStr <$> ts_columns spec)) (VStr <$> dict_keys (sort_by fst w)) = true) as ->.
  { apply forallb_forall. intros k Hin%list_elem_of_In. apply bool_decide_eq_true. by rewrite <- Hperm. }
  assert (forallb (λ c, bool_decide (VStr c ∈ VStr <$> dict_keys (sort_by fst w))) (ts_columns spec) = true) as ->.
  { apply forallb_forall. intros k Hin%list_elem_of_In. apply bool_decide_eq_true. apply list_elem_of_fmap_2. by rewrite Hperm. }
  cbn [andb check_py mbind result_bind]. rewrite <- Hk. apply mapM_py_Forall2. unfold dict_keys. rewrite Forall2_fmap_l.
  apply Forall_Forall2_diag. eapply Forall_impl; [exact Hd|]. intros [c v] (x & Hx & Hdec). unfold compose. cbn [fst snd py_item] in *.
  rewrite sorted_get by by rewrite Hkw. rewrite Hx. cbn [mbind result_bind]. rewrite Hdec. done.
Qed.

(** A line of a file: the text of an object. *)
Record line_of (v : value) (s : string) : Prop := {
  lo_loads : loads s = Ok v;
  lo_printable : Forall (λ c, printable c = true) (str_chars s);
  lo_opens : exists rest, str_chars s = ascii_of_byte 123 :: rest }.

Lemma dumps_line v d s : v = VDict d -> json_plain v = true -> json_text true v = true -> dumps true v = Ok s -> line_of v s.
Proof.
  intros -> Hp Ht Hd. split.
  - by eapply loads_dumps_mode.
  - unfold dumps in Hd. destruct (json_dumps true _) as [cs|] eqn:Ec; [|done]. apply Ok_inj in Hd as <-. unfold str_chars.
    rewrite String.list_ascii_of_string_of_list_ascii. by eapply json_dumps_printable.
  - unfold dumps in Hd. rewrite json_dumps_dict in Hd. destruct_result. unfold str_chars.
    destruct (mapM_py _ _) as [ss|]; [|done]. cbn in Hd. apply Ok_inj in Hd as <-.
    rewrite String.list_ascii_of_string_of_list_ascii. eexists. reflexivity.
Qed.

Lemma printable_not_newline c : printable c = true -> is_newline c = false.
Proof. unfold printable, is_newline. intros [H1 H2]%andb_true_iff. lia. Qed.

Lemma lines_from_printable cs acc rest :
  Forall (λ c, printable c = true) cs ->
  lines_from (cs ++ newline :: rest) acc = String.string_of_list_ascii (List.rev acc ++ cs) :: lines_from rest [].
Proof.
  intros Hc. revert acc. induction Hc as [|c cs Hc _ IH]; intros acc; cbn [List.app lines_from].
  - change (is_newline newline) with true. cbv iota. by rewrite app_nil_r.
  - rewrite (printable_not_newline c Hc), IH. cbn [List.rev]. by rewrite <- (assoc_L (++)).
Qed.

Lemma file_lines_of (texts : list string) :
  Forall (λ s, Forall (λ c, printable c = true) (str_chars s)) texts ->
  file_lines (String.string_of_list_ascii (concat ((λ s, str_chars s ++ [newline]) <$> texts))) = texts ++ [""].
Proof.
  intros Ht. unfold file_lines. unfold str_chars at 1. rewrite String.list_ascii_of_string_of_list_ascii.
  induction Ht as [|s texts Hs _ IH]; [done|]. rewrite fmap_cons. cbn [concat List.app]. rewrite <- (assoc_L (++)). cbn [List.app].
  rewrite lines_from_printable by done. rewrite IH. cbn [List.rev List.app]. unfold str_chars. by rewrite String.string_of_list_ascii_of_string.
Qed.

Lemma drop_spaces_last l c : is_unicode_space c = false -> exists x r, drop_spaces (l ++ [c]) = x :: r.
Proof.
  intros Hc. induction l as [|y l [x [r IH]]]; cbn [List.app drop_spaces]; [rewrite Hc; by eexists _, _|].
  destruct (is_unicode_space y); [by rewrite IH; eexists _, _|by eexists _, _].
Qed.

Lemma line_not_blank v s : line_of v s -> is_blank_line s = false.
Proof.
  intros [_ Hp (rest & Hs)]. apply bool_decide_eq_false. unfold py_strip, code_points.
  rewrite utf8_decode_ascii.
  2: { apply printable_bytes. unfold str_printable. apply forallb_forall. intros c Hc%list_elem_of_In. rewrite Forall_forall in Hp. by apply Hp. }
  unfold encode_utf8. rewrite Hs, fmap_cons. change (default ?y (Some ?x)) with x. change (byte_of_ascii (ascii_of_byte 123)) with 123.
  cbn [drop_spaces]. change (is_unicode_space 123) with false. cbv iota. rewrite reverse_cons.
  destruct (drop_spaces_last (reverse (byte_of_ascii <$> rest)) 123 eq_refl) as (x & r & ->).
  rewrite reverse_cons. unfold string_of_cps. rewrite fmap_app, concat_app. intros E. apply (f_equal String.list_ascii_of_string) in E.
  rewrite String.list_ascii_of_string_of_list_ascii in E. apply app_nil in E as [_ E]. cbn [fmap list_fmap concat] in E. rewrite app_nil_r in E.
  unfold utf8_encode_cp in E. by repeat case_match.
Qed.

Lemma fold_rows_of {S} (f : S -> value -> result S) s files name vs texts :
  dict_get name files = Some (String.string_of_list_ascii (concat ((λ s, str_chars s ++ [newline]) <$> texts))) ->
  Forall2 line_of vs texts -> fold_rows f s files name = foldM_py f s vs.
Proof.
  intros Hg Hl. unfold fold_rows. rewrite Hg, file_lines_of.
  2: { clear Hg. induction Hl as [|v t vs texts Ht _ IH]; constructor; [apply (lo_printable _ _ Ht)|done]. }
  rewrite foldM_py_app. clear Hg. revert s. induction Hl as [|v t vs texts Ht _ IH]; intros s; [done|].
  cbn [foldM_py]. rewrite (line_not_blank _ _ Ht), (lo_loads _ _ Ht). cbn [mbind result_bind].
  destruct (f s v) as [s'|]; [|done]. cbn [mbind result_bind]. apply IH.
Qed.

(** [v] is what the file holds for the row [r]. *)
Definition row_value (spec : TableSpec) (r : row) (v : value) : Prop :=
  exists w, serialize_snapshot_row spec r = Ok w /\ v = VDict (sort_by fst w) /\ deserialize_snapshot_row spec v = Ok r.

Lemma row_line_ok spec r :
  spec_ok spec = true -> row_ok spec r ->
  exists v s, row_line spec r = Ok (str_chars s ++ [newline]) /\ row_value spec r v /\ line_of v s.
Proof.
  intros [Hnd%bool_decide_eq_true Ht]%andb_true_iff Hr. destruct (row_serialized spec r Hr Hnd) as (w & Hs & Hk & Hw & Hd).
  destruct (wire_row_sent w) as (E1 & E2 & E3); [by rewrite Hk..|done|].
  unfold row_line. rewrite Hs. cbn [mbind result_bind]. rewrite E1. destruct (dumps_total true _ E2) as [s Ed]. rewrite Ed. cbn [mbind result_bind].
  exists (VDict (sort_by fst w)), s. split; [done|]. split; [|by eapply dumps_line].
  exists w. split; [done|]. split; [done|]. apply row_deserialized; [apply Hr|done..].
Qed.

Lemma export_table_ok d spec :
  spec_ok spec = true -> Forall (row_ok spec) (ordered spec (table (ts_name spec) d)) ->
  exists vs texts, Forall2 (row_value spec) (ordered spec (table (ts_name spec) d)) vs /\ Forall2 line_of vs texts /\
    export_table d spec = Ok (table_file (ts_name spec), String.string_of_list_ascii (concat ((λ s, str_chars s ++ [newline]) <$> texts))).
Proof.
  intros Hspec Hrows. unfold export_table.
  assert (Hl : exists vs texts, Forall2 (row_value spec) (ordered spec (table (ts_name spec) d)) vs /\ Forall2 line_of vs texts /\
            mapM_py (row_line spec) (ordered spec (table (ts_name spec) d)) = Ok ((λ s, str_chars s ++ [newline]) <$> texts)).
  { induction Hrows as [|r rows Hr _ (vs & texts & H1 & H2 & H3)]; [by exists [], []|].
    destruct (row_line_ok spec r Hspec Hr) as (v & s & E1 & E2 & E3). exists (v :: vs), (s :: texts).
    split; [by constructor|]. split; [by constructor|]. cbn [mapM_py]. by rewrite E1, H3. }
  destruct Hl as (vs & texts & H1 & H2 & H3). exists vs, texts. split; [done|]. split; [done|]. by rewrite H3.
Qed.

Lemma import_rows_ok {S} (f : S -> row -> result S) spec rows vs s :
  Forall2 (row_value spec) rows vs ->
  foldM_py (λ s v, r ← deserialize_snapshot_row spec v; f s r) s vs = foldM_py f s rows.
Proof.
  intros Hv. revert s. induction Hv as [|r v rows vs (w & _ & _ & Hd) _ IH]; intros s; [done|]. cbn [foldM_py]. rewrite Hd.
  cbn [mbind result_bind]. destruct (f s r) as [s'|]; [|done]. cbn [mbind result_bind]. apply IH.
Qed.

(** The runtime reads the values that the index holds. *)
Definition row_valid (spec : TableSpec) (r : row) : Prop :=
  forall v, row_value spec r v -> _validate_snapshot_value spec v = Ok tt.

Lemma preflight_rows_ok spec rows vs n :
  Forall2 (row_value spec) rows vs -> Forall (row_valid spec) rows ->
  foldM_py (preflight_row spec) n vs = Ok (n + Z.of_nat (length rows)).
Proof.
  intros Hv Hr. revert n. induction Hv as [|r v rows vs Hv _ IH]; intros n; [cbn; f_equal; lia|].
  apply Forall_cons in Hr as [Hr1 Hr2]. cbn [foldM_py]. pose proof Hv as (w & _ & _ & Hd).
  assert (preflight_row spec n v = Ok (n + 1)) as -> by (unfold preflight_row; by rewrite Hd, (Hr1 v Hv)).
  cbn [mbind result_bind]. rewrite (IH Hr2). cbn [length]. f_equal. lia.
Qed.

(** ** The tables after an import *)

Definition rows_of (d : tables) (spec : TableSpec) : list row := ordered spec (table (ts_name spec) d).

Definition load_table (d t : tables) (spec : TableSpec) : tables :=
  <[ts_name spec := if ts_upsert spec then fold_left upsert_row (rows_of d spec) (table (ts_name spec) t) else rows_of d spec]> t.

(** No row of [d] violates a constraint when the tables are filled in order. *)
Definition admissible (d fresh : tables) : Prop :=
  forall l1 spec l2, TABLE_SPECS = l1 ++ spec :: l2 -> ts_upsert spec = false ->
  forall done r rest, rows_of d spec = done ++ r :: rest ->
  accepts (<[ts_name spec := done]> (fold_left (load_table d) l1 fresh)) (ts_name spec) r = true.

Lemma insert_rows_upsert spec t rows rows0 :
  ts_upsert spec = true -> t !! ts_name spec = Some rows0 ->
  foldM_py (insert_row spec) t rows = Ok (<[ts_name spec := fold_left upsert_row rows rows0]> t).
Proof.
  intros Hu. revert t rows0. induction rows as [|r rows IH]; intros t rows0 Ht; cbn [foldM_py fold_left]; [by rewrite insert_id|].
  assert (insert_row spec t r = Ok (<[ts_name spec := upsert_row rows0 r]> t)) as ->.
  { unfold insert_row, table. by rewrite Hu, Ht. }
  cbn [mbind result_bind]. rewrite (IH _ (upsert_row rows0 r)) by apply lookup_insert_eq. by rewrite insert_insert_eq.
Qed.

Lemma insert_rows_plain spec t done rows :
  ts_upsert spec = false -> t !! ts_name spec = Some done ->
  (forall before r rest, rows = before ++ r :: rest -> accepts (<[ts_name spec := done ++ before]> t) (ts_name spec) r = true) ->
  foldM_py (insert_row spec) t rows = Ok (<[ts_name spec := done ++ rows]> t).
Proof.
  intros Hu. revert t done. induction rows as [|r rows IH]; intros t done Ht Ha; cbn [foldM_py]; [by rewrite app_nil_r, insert_id|].
  assert (insert_row spec t r = Ok (<[ts_name spec := done ++ [r]]> t)) as ->.
  { unfold insert_row, table. pose proof (Ha [] r rows eq_refl) as Ha0. rewrite app_nil_r, insert_id in Ha0 by done. by rewrite Hu, Ha0, Ht. }
  cbn [mbind result_bind]. rewrite (IH _ (done ++ [r])); [by rewrite insert_insert_eq, <- (assoc_L (++))|apply lookup_insert_eq|].
  intros before r' rest E. specialize (Ha (r :: before) r' rest). rewrite insert_insert_eq, <- (assoc_L (++)). apply Ha. by rewrite E.
Qed.

Lemma loaded_other d fresh specs name :
  name ∉ ts_name <$> specs -> fold_left (load_table d) specs fresh !! name = fresh !! name.
Proof.
  revert fresh. induction specs as [|spec specs IH]; intros fresh Hn; [done|]. rewrite fmap_cons, not_elem_of_cons in Hn.
  cbn [fold_left]. rewrite IH by apply Hn. unfold load_table. rewrite lookup_insert_ne; [done|]. destruct Hn as [Hn _]. congruence.
Qed.

(** What an exported table is in its file. *)
Definition file_holds (files : list (string * string)) (d : tables) (spec : TableSpec) : Prop :=
  exists vs texts, Forall2 (row_value spec) (rows_of d spec) vs /\ Forall2 line_of vs texts /\
    dict_get (table_file (ts_name spec)) files = Some (String.string_of_list_ascii (concat ((λ s, str_chars s ++ [newline]) <$> texts))).

Lemma import_table_ok files d fresh l1 spec l2 :
  TABLE_SPECS = l1 ++ spec :: l2 -> NoDup (ts_name <$> TABLE_SPECS) -> file_holds files d spec -> admissible d fresh ->
  (exists rows0, fresh !! ts_name spec = Some rows0 /\ (ts_upsert spec = false -> rows0 = [])) ->
  import_table files (fold_left (load_table d) l1 fresh) spec = Ok (load_table d (fold_left (load_table d) l1 fresh) spec).
Proof.
  intros Es Hnd (vs & texts & Hv & Hl & Hg) Ha (rows0 & Hf & Hr0). unfold import_table.
  rewrite (fold_rows_of _ _ _ _ vs texts Hg Hl), (import_rows_ok (insert_row spec) spec (rows_of d spec) vs _ Hv).
  assert (Ht : fold_left (load_table d) l1 fresh !! ts_name spec = Some rows0).
  { rewrite loaded_other; [done|]. rewrite Es, fmap_app, fmap_cons in Hnd. apply NoDup_app in Hnd as (_ & Hd & _).
    intros Hin. apply (Hd _ Hin). by left. }
  pose proof (Ha l1 spec l2 Es) as Hadm. clear Ha. generalize dependent (fold_left (load_table d) l1 fresh). intros t Ht Hadm.
  unfold load_table, table. rewrite Ht. cbn [default]. destruct (ts_upsert spec) eqn:Eu.
  - by apply insert_rows_upsert.
  - rewrite (Hr0 eq_refl) in *. by rewrite (insert_rows_plain spec t [] (rows_of d spec) Eu Ht (Hadm eq_refl)).
Qed.

Lemma import_tables_ok files d fresh :
  NoDup (ts_name <$> TABLE_SPECS) -> Forall (file_holds files d) TABLE_SPECS -> admissible d fresh ->
  Forall (λ spec, exists rows0, fresh !! ts_name spec = Some rows0 /\ (ts_upsert spec = false -> rows0 = [])) TABLE_SPECS ->
  foldM_py (import_table files) fresh TABLE_SPECS = Ok (fold_left (load_table d) TABLE_SPECS fresh).
Proof.
  intros Hnd Hfiles Ha Hfresh.
  assert (Hgen : forall l2 l1, TABLE_SPECS = l1 ++ l2 ->
    foldM_py (import_table files) (fold_left (load_table d) l1 fresh) l2 = Ok (fold_left (load_table d) l2 (fold_left (load_table d) l1 fresh))).
  { induction l2 as [|spec l2 IH]; intros l1 E; [done|]. cbn [foldM_py fold_left].
    assert (Hin : spec ∈ TABLE_SPECS) by (rewrite E; apply elem_of_app; right; by left).
    rewrite Forall_forall in Hfiles, Hfresh. rewrite (import_table_ok files d fresh l1 spec l2) by auto. cbn [mbind result_bind].
    specialize (IH (l1 ++ [spec])). rewrite fold_left_app in IH. cbn [fold_left] in IH. apply IH. by rewrite <- (assoc_L (++)). }
  apply (Hgen TABLE_SPECS []). done.
Qed.

(** ** The files of an export *)

Definition meta_spec : TableSpec := MkTableSpec "bds_meta" ["key"; "value"; "updated_at"] ["key"] ["updated_at"] [] false true.

Definition meta_row (k : string) (rows : list row) : option row := List.find (λ r, bool_decide (dict_get "key" r = Some (VStr k))) rows.

(** An index that can be exported: every row in the form of its table, with values the runtime
    reads; distinct keys in [bds_meta], among them the schema's version and the policy. *)
Record exportable (d : tables) : Prop := {
  ex_rows : Forall (λ spec, Forall (row_ok spec) (rows_of d spec) /\ Forall (row_valid spec) (rows_of d spec) /\
                            length (rows_of d spec) = length (table (ts_name spec) d)) TABLE_SPECS;
  ex_keys : NoDup ((λ r, py_get "key" r VNone) <$> rows_of d meta_spec);
  ex_schema : exists t, meta_row "schema_version" (rows_of d meta_spec) =
                        Some [("key", VStr "schema_version"); ("value", VStr (py_int_str SCHEMA_VERSION)); ("updated_at", t)];
  ex_policy : exists t s p, meta_row "execution_policy" (rows_of d meta_spec) =
                            Some [("key", VStr "execution_policy"); ("value", VStr s); ("updated_at", t)] /\
                            loads s = Ok p /\ validate_execution_policy p = Ok tt }.

Lemma specs_ok : Forall (λ spec, spec_ok spec = true) TABLE_SPECS.
Proof. apply Forall_forall. intros spec Hin. apply (proj1 (forallb_forall spec_ok TABLE_SPECS)); [by vm_compute|by apply list_elem_of_In]. Qed.

Lemma specs_nodup : NoDup (ts_name <$> TABLE_SPECS).
Proof. apply (bool_decide_unpack _). by vm_compute. Qed.

Lemma table_files_nodup : NoDup ((λ spec, table_file (ts_name spec)) <$> TABLE_SPECS).
Proof. apply (bool_decide_unpack _). by vm_compute. Qed.

Lemma export_files d :
  exportable d -> exists files, mapM_py (export_table d) TABLE_SPECS = Ok files /\
    dict_keys files = (λ spec, table_file (ts_name spec)) <$> TABLE_SPECS /\
    forall extra, dict_keys extra ## dict_keys files -> Forall (file_holds (extra ++ files) d) TABLE_SPECS.
Proof.
  intros Hex. pose proof (ex_rows d Hex) as Hrows. pose proof specs_ok as Hok.
  assert (Hgen : forall specs, Forall (λ spec, spec_ok spec = true) specs ->
    Forall (λ spec, Forall (row_ok spec) (rows_of d spec) /\ Forall (row_valid spec) (rows_of d spec) /\
                            length (rows_of d spec) = length (table (ts_name spec) d)) specs ->
    exists files, mapM_py (export_table d) specs = Ok files /\
      Forall2 (λ spec f, f.1 = table_file (ts_name spec) /\ exists vs texts, Forall2 (row_value spec) (rows_of d spec) vs /\ Forall2 line_of vs texts /\
        f.2 = String.string_of_list_ascii (concat ((λ s, str_chars s ++ [newline]) <$> texts))) specs files).
  { clear. intros specs Hok. induction Hok as [|spec specs Hs _ IH]; intros Hr; [by exists []|].
    apply Forall_cons in Hr as [(Hr & _) Hrs]. destruct (IH Hrs) as (files & H1 & H2).
    destruct (export_table_ok d spec Hs Hr) as (vs & texts & E1 & E2 & E3). eexists (_ :: files). cbn [mapM_py]. rewrite E3, H1. split; [done|].
    constructor; [|done]. split; [done|]. by exists vs, texts. }
  destruct (Hgen TABLE_SPECS Hok Hrows) as (files & H1 & H2). exists files. split; [done|].
  assert (Hk : dict_keys files = (λ spec, table_file (ts_name spec)) <$> TABLE_SPECS).
  { clear -H2. unfold dict_keys. induction H2 as [|spec f specs files [E _] _ IH]; [done|]. rewrite !fmap_cons. congruence. }
  split; [done|]. intros extra Hdis. apply Forall_forall. intros spec Hin. apply list_elem_of_lookup in Hin as [i Hi].
  pose proof (Forall2_lookup_l _ _ _ _ _ H2 Hi) as (f & Hf & Ef & vs & texts & E1 & E2 & E3).
  exists vs, texts. split; [done|]. split; [done|]. rewrite <- E3, <- Ef.
  assert (Hin : (f.1, f.2) ∈ files) by (rewrite <- surjective_pairing; by eapply list_elem_of_lookup_2).
  assert (Hg : dict_get f.1 files = Some f.2) by (apply dict_get_elem; [rewrite Hk; apply table_files_nodup|done]).
  assert (Hn : f.1 ∉ dict_keys extra).
  { intros Hx. apply (Hdis _ Hx). unfold dict_keys. by apply (list_elem_of_fmap_2 fst _ (f.1, f.2)). }
  clear -Hg Hn. induction extra as [|[k x] extra IH]; [done|]. cbn [dict_keys fmap list_fmap fst List.app dict_get] in *.
  apply not_elem_of_cons in Hn as [Hk Hn]. rewrite decide_False by done. by apply IH.
Qed.

(** What [metadata.json] says of the tables. *)
Definition describes (metadata : value) (d : tables) : Prop :=
  exists m t, metadata = VDict m /\ dict_get "snapshot_format_version" m = Some (VInt SNAPSHOT_FORMAT_VERSION) /\
    dict_get "schema_version" m = Some (VInt SCHEMA_VERSION) /\ (exists p, dict_get "execution_policy" m = Some p /\ validate_execution_policy p = Ok tt) /\
    _verify_snapshot_indexed_chain_state metadata None = Ok tt /\ dict_get "tables" m = Some (VDict t) /\
    Forall (λ spec, dict_get (ts_name spec) t = Some (VDict [("row_count", VInt (Z.of_nat (length (table (ts_name spec) d))))])) TABLE_SPECS.

Lemma meta_row_value r v :
  row_value meta_spec r v ->
  exists k x t, r = [("key", k); ("value", x); ("updated_at", t)] /\ py_item "key" v = Ok k /\ py_item "value" v = Ok x.
Proof.
  intros (w & _ & _ & Hd). unfold deserialize_snapshot_row in Hd. destruct_result. cbn [meta_spec ts_columns mapM_py] in Hd.
  destruct_result. unfold _decode_row_value in *.
  repeat match goal with
  | E : context [decide (?c ∈ ts_datetime_columns meta_spec)] |- _ =>
      first [rewrite (decide_False (P := c ∈ ts_datetime_columns meta_spec)) in E by (by apply (bool_decide_unpack _); vm_compute)
            |rewrite (decide_True (P := c ∈ ts_datetime_columns meta_spec)) in E by (by apply (bool_decide_unpack _); vm_compute)]
  | E : context [decide (?c ∈ ts_decimal_columns meta_spec)] |- _ =>
      rewrite (decide_False (P := c ∈ ts_decimal_columns meta_spec)) in E by (by apply (bool_decide_unpack _); vm_compute)
  end.
  assert (a7 = a3) as -> by (destruct a3; by apply Ok_inj in E7). assert (a6 = a2) as -> by (destruct a2; by apply Ok_inj in E6).
  by exists a3, a2, a5.
Qed.

Definition key_value (r : row) : value * value := (py_get "key" r VNone, py_get "value" r VNone).

Lemma meta_values_ok files d :
  file_holds files d meta_spec -> NoDup ((λ r, py_get "key" r VNone) <$> rows_of d meta_spec) ->
  _snapshot_meta_values files = Ok (key_value <$> rows_of d meta_spec).
Proof.
  intros (vs & texts & Hv & Hl & Hg) Hnd. unfold _snapshot_meta_values. rewrite (fold_rows_of _ _ _ _ vs texts Hg Hl).
  set (f := λ (values : list (value * value)) r, _).
  assert (Hgen : forall acc, NoDup (acc.*1 ++ (key_value <$> rows_of d meta_spec).*1) -> foldM_py f acc vs = Ok (acc ++ (key_value <$> rows_of d meta_spec))).
  { clear Hg Hl Hnd. induction Hv as [|r v rows vs Hr _ IH]; intros acc Hnd; [by rewrite app_nil_r|].
    destruct (meta_row_value r v Hr) as (k & x & t & -> & Ek & Ex). rewrite !fmap_cons in Hnd |- *. cbn [fst] in Hnd.
    assert (Ef : f acc v = Ok (acc ++ [(k, x)])).
    { unfold f. rewrite Ek. cbn [mbind result_bind]. rewrite bool_decide_eq_false_2.
      - cbn [negb check_py mbind result_bind]. by rewrite Ex.
      - apply NoDup_app in Hnd as (_ & Hd & _). intros Hin. apply (Hd _ Hin). by left. }
    cbn [foldM_py]. rewrite Ef. cbn [mbind result_bind].
    change (key_value [("key", k); ("value", x); ("updated_at", t)]) with (k, x) in *. rewrite IH.
    - by rewrite <- (assoc_L (++)).
    - rewrite fmap_app. cbn [fmap list_fmap fst]. by rewrite <- (assoc_L (++)). }
  apply (Hgen []). cbn [fmap list_fmap List.app]. by rewrite <- list_fmap_compose.
Qed.

Lemma meta_get_row k d :
  meta_get k (key_value <$> rows_of d meta_spec) =
  match meta_row k (rows_of d meta_spec) with Some r => (key_value r).2 | None => VNone end.
Proof.
  unfold meta_get, meta_row. generalize (rows_of d meta_spec). intros rows. induction rows as [|r rows IH]; [done|].
  assert (Hk : (key_value r).1 = VStr k <-> dict_get "key" r = Some (VStr k)).
  { unfold key_value, py_get. cbn [fst]. destruct (dict_get "key" r); split; congruence. }
  rewrite fmap_cons. cbn [list_find List.find]. case_decide as E.
  - rewrite bool_decide_eq_true_2 by by apply Hk. done.
  - rewrite bool_decide_eq_false_2 by (by rewrite <- Hk). rewrite <- IH. by destruct (list_find _ _) as [[]|].
Qed.

(** The checks of [_preflight_snapshot] pass for what was exported. *)
Lemma preflight_ok files metadata d :
  exportable d -> Forall (file_holds files d) TABLE_SPECS -> describes metadata d -> _preflight_snapshot files metadata = Ok tt.
Proof.
  intros Hex Hf (m & t & -> & _ & _ & (p0 & Hpol & Hval0) & _ & Ht & Hcounts). unfold _preflight_snapshot. cbn [py_dot_get]. unfold py_get at 1. rewrite Hpol.
  cbn [mbind result_bind]. rewrite Hval0. cbn [mbind result_bind].
  assert (Hpre : foldM_py (λ _, preflight_table files (VDict m)) tt TABLE_SPECS = Ok tt).
  { pose proof (ex_rows d Hex) as Hrows. revert Hf Hcounts Hrows. generalize TABLE_SPECS. intros specs Hf.
    induction Hf as [|spec specs (vs & texts & Hv & Hl & Hg) _ IH]; intros Hc Hr; [done|].
    apply Forall_cons in Hc as [Hc1 Hc2], Hr as [(_ & Hval & Hlen) Hr2]. cbn [foldM_py].
    assert (preflight_table files (VDict m) spec = Ok tt) as ->; [|by apply IH].
    unfold preflight_table. rewrite (fold_rows_of _ _ _ _ vs texts Hg Hl), (preflight_rows_ok spec (rows_of d spec) vs 0 Hv Hval), Hlen.
    cbn [mbind result_bind py_dot_get]. unfold py_get. rewrite Ht. cbn [mbind result_bind py_dot_get]. unfold py_get. rewrite Hc1.
    cbn [mbind result_bind py_dot_get]. change (py_get "row_count" [("row_count", ?x)] VNone) with x. cbn [equals_int].
    unfold check_py. by rewrite Z.add_0_l, Z.eqb_refl. }
  rewrite Hpre. cbn [mbind result_bind].
  assert (Hmeta : file_holds files d meta_spec) by (rewrite Forall_forall in Hf; apply Hf; by left).
  rewrite (meta_values_ok files d Hmeta (ex_keys d Hex)). cbn [mbind result_bind]. rewrite !meta_get_row.
  destruct (ex_schema d Hex) as (t1 & Es), (ex_policy d Hex) as (t2 & s & p & Ep & Hl & Hv). rewrite Es, Ep.
  change (key_value [("key", ?a); ("value", ?x); ("updated_at", ?c)]) with (a, x). cbn [snd].
  rewrite bool_decide_eq_true_2 by done. cbn [check_py mbind result_bind as_str]. rewrite Hl. cbn [mbind result_bind]. done.
Qed.

Lemma dict_set_all {A} (l acc : list (string * A)) :
  NoDup (dict_keys (acc ++ l)) -> fold_left (λ files m, dict_set m.1 m.2 files) l acc = acc ++ l.
Proof.
  revert acc. induction l as [|[k x] l IH]; intros acc Hnd; [by rewrite app_nil_r|]. cbn [fold_left fst snd].
  assert (Hs : dict_set k x acc = acc ++ [(k, x)]).
  { assert (Hk : k ∉ dict_keys acc).
    { unfold dict_keys in Hnd. rewrite fmap_app, fmap_cons in Hnd. apply NoDup_app in Hnd as (_ & Hd & _). intros Hin. apply (Hd _ Hin). by left. }
    clear -Hk. induction acc as [|[k' x'] acc IH]; [done|]. cbn [dict_keys fmap list_fmap fst dict_set List.app] in *.
    apply not_elem_of_cons in Hk as [H1 H2]. rewrite decide_False by congruence. by rewrite IH. }
  rewrite Hs, IH; [by rewrite <- (assoc_L (++))|by rewrite <- (assoc_L (++))].
Qed.

(** The archive of an export is extracted as it is. *)
Lemma extract_ok destination archive :
  Forall (λ m : string * string, forall dest, member_path dest m.1 = dest ++ [m.1]) archive -> NoDup (dict_keys archive) ->
  _safe_extract_snapshot destination archive = Ok archive.
Proof.
  intros Hp Hnd. unfold _safe_extract_snapshot. unfold check_py.
  assert (forallb (λ m, inside destination (member_path destination m.1)) archive = true) as ->.
  { apply forallb_forall. intros m Hin%list_elem_of_In. rewrite Forall_forall in Hp. rewrite (Hp m Hin). unfold inside.
    apply bool_decide_eq_true. by rewrite take_app_length. }
  cbn [mbind result_bind]. f_equal. rewrite <- (dict_set_all archive []) at 2 by done.
  clear Hnd. generalize (@nil (string * string)) at 1 2. induction Hp as [|m archive Hm _ IH]; intros acc; [done|]. cbn [fold_left].
  rewrite Hm, drop_app_length. apply IH.
Qed.

Lemma export_names : Forall (λ name, forall dest, member_path dest name = dest ++ [name]) ("metadata.json" :: ((λ spec, table_file (ts_name spec)) <$> TABLE_SPECS)).
Proof. repeat (constructor; [intros dest; reflexivity|]). constructor. Qed.

Lemma meta_row_upsert k r rows :
  meta_row k (upsert_row rows r) = if bool_decide (dict_get "key" r = Some (VStr k)) then Some r else meta_row k rows.
Proof.
  unfold upsert_row, meta_row. case_decide as He.
  - induction rows as [|r' rows IH]; [by apply Exists_nil in He|]. rewrite fmap_cons. cbn [List.find].
    destruct (decide (same_key r r')) as [Hs|Hs].
    + rewrite <- Hs. destruct (bool_decide (dict_get "key" r = Some (VStr k))) eqn:Eb; [done|].
      destruct (decide (Exists (same_key r) rows)) as [Hx|Hx]; [by apply IH|].
      f_equal. clear -Hx. induction rows as [|y rows IH]; [done|]. rewrite fmap_cons, Exists_cons in *.
      rewrite decide_False by tauto. f_equal. apply IH. tauto.
    + destruct (bool_decide (dict_get "key" r' = Some (VStr k))) eqn:E'.
      * apply bool_decide_eq_true in E'. rewrite bool_decide_eq_false_2; [done|]. intros E. apply Hs. unfold same_key. congruence.
      * apply IH. apply Exists_cons in He as [?|?]; done.
  - induction rows as [|r' rows IH]; cbn [List.app List.find].
    + by destruct (bool_decide _).
    + rewrite Exists_cons in He. destruct (bool_decide (dict_get "key" r' = Some (VStr k))) eqn:E'.
      * apply bool_decide_eq_true in E'. rewrite bool_decide_eq_false_2; [done|]. intros E. apply He. left. unfold same_key. congruence.
      * apply IH. tauto.
Qed.

Lemma meta_row_upserts k rows rows0 :
  NoDup ((λ r, py_get "key" r VNone) <$> rows) ->
  meta_row k (fold_left upsert_row rows rows0) = match meta_row k rows with Some r => Some r | None => meta_row k rows0 end.
Proof.
  revert rows0. induction rows as [|r rows IH]; intros rows0 Hnd; [done|]. rewrite fmap_cons in Hnd. apply NoDup_cons in Hnd as [Hn Hnd].
  cbn [fold_left]. rewrite IH, meta_row_upsert by done. unfold meta_row at 3. cbn [List.find].
  destruct (bool_decide (dict_get "key" r = Some (VStr k))) eqn:E; [|done]. apply bool_decide_eq_true in E.
  destruct (meta_row k rows) as [r'|] eqn:Er; [|done]. exfalso. apply Hn. unfold meta_row in Er.
  apply List.find_some in Er as [Hin E']. apply bool_decide_eq_true in E'. apply list_elem_of_fmap. exists r'.
  split; [unfold py_get; by rewrite E, E'|by apply list_elem_of_In].
Qed.

Lemma loaded_table d fresh spec :
  spec ∈ TABLE_SPECS ->
  exists t, fold_left (load_table d) TABLE_SPECS fresh !! ts_name spec = load_table d t spec !! ts_name spec /\
    t !! ts_name spec = fresh !! ts_name spec.
Proof.
  intros Hin. apply list_elem_of_split in Hin as (l1 & l2 & E). pose proof specs_nodup as Hnd. rewrite E, fmap_app, fmap_cons in Hnd.
  apply NoDup_app in Hnd as (_ & Hd & [Hn _]%NoDup_cons). exists (fold_left (load_table d) l1 fresh). rewrite E, fold_left_app. cbn [fold_left].
  split; [by apply loaded_other|]. apply loaded_other. intros Hin. apply (Hd _ Hin). by left.
Qed.

Lemma fresh_tables_ok now :
  exists fresh, fresh_tables now = Ok fresh /\
    Forall (λ spec, exists rows0, fresh !! ts_name spec = Some rows0 /\ (ts_upsert spec = false -> rows0 = [])) TABLE_SPECS /\
    forall k, is_Some (meta_row k (table "bds_meta" fresh)) -> k = "schema_version" \/ k = "execution_policy".
Proof.
  unfold fresh_tables. destruct (dumps true _) as [policy|] eqn:Ep; [|by vm_compute in Ep]. cbn [mbind result_bind]. eexists. split; [done|].
  split.
  - apply Forall_cons. split; [eexists; split; [by rewrite lookup_insert_eq|discriminate]|].
    repeat (apply Forall_cons; split; [exists []; split; [rewrite lookup_insert_ne by discriminate; vm_compute; reflexivity|reflexivity]|]).
    constructor.
  - intros k. unfold table. rewrite lookup_insert_eq. unfold meta_row. cbn [default id List.find]. intros [r Hr].
    change (dict_get "key" (("key", VStr ?x) :: _)) with (Some (VStr x)) in Hr.
    destruct (bool_decide (Some (VStr "schema_version") = Some (VStr k))) eqn:E1 in Hr; [apply bool_decide_eq_true in E1; left; congruence|].
    destruct (bool_decide (Some (VStr "execution_policy") = Some (VStr k))) eqn:E2 in Hr; [apply bool_decide_eq_true in E2; right; congruence|done].
Qed.

Lemma max_id_le c rows r : r ∈ rows -> int_field c r <= max_id c rows.
Proof.
  intros Hin. unfold max_id. destruct rows as [|r0 rows]; [by apply not_elem_of_nil in Hin|]. rewrite fmap_cons.
  assert (Hmax : forall l a, a <= fold_left Z.max l a /\ forall x, x ∈ l -> x <= fold_left Z.max l a).
  { clear. induction l as [|y l IH]; intros a; cbn [fold_left]; [split; [lia|]; intros x Hx; by apply not_elem_of_nil in Hx|].
    destruct (IH (Z.max a y)) as [H1 H2]. split; [lia|]. intros x [->|Hx]%elem_of_cons; [lia|by apply H2]. }
  destruct (Hmax (int_field c <$> rows) (int_field c r0)) as [H1 H2]. apply elem_of_cons in Hin as [->|Hin]; [done|].
  apply H2. by apply list_elem_of_fmap_2.
Qed.

(** What an import does once its checks passed. *)
Lemma import_run destination snapshot clear_spool trusted now ix files fresh d' :
  (forall step, fails step = None) -> import_checks destination snapshot trusted = Ok files -> fresh_tables now = Ok fresh ->
  foldM_py (import_table files) fresh TABLE_SPECS = Ok d' ->
  import_bds_snapshot destination snapshot clear_spool trusted now ix =
    (match compact d' (if clear_spool then [] else ix_spool ix) with
     | Ok spool => (Ok (max_indexed d'), Index d' (set_sequences d') spool)
     | Raise e => (Raise e, Index d' (set_sequences d') (if clear_spool then [] else ix_spool ix))
     end).
Proof.
  intros Hf Hc Hfresh Hl. unfold import_bds_snapshot, reset_schema, clear_spool_files, load_rows, run_compact_spool, db_check.
  unfold mbind at 1. unfold stM_bind at 1, lift_res at 1. rewrite Hc. rewrite !Hf.
  unfold mbind, stM_bind, lift_res, modify_st, gets_st. rewrite Hfresh. cbn [ix_tables ix_sequences ix_spool].
  cbn [result_bind]. rewrite Hl. cbn [ix_tables ix_sequences ix_spool]. by destruct (compact d' _).
Qed.

(** The spool is compacted when all of its files can be read. *)
Definition readable (f : result Z * string) : Prop := is_ok f.1 = true.
Definition compacted (d : tables) (spool : list (result Z * string)) : list (result Z * string) :=
  match max_indexed d with
  | Some m => filter (λ f, above m f = true) spool
  | None => spool
  end.

Lemma compact_readable d spool : (forall step, fails step = None) -> Forall readable spool -> compact d spool = Ok (compacted d spool).
Proof.
  intros Hf Hs. unfold compact, db_check. rewrite Hf. assert (Hm : exists hs, mapM_py fst spool = Ok hs).
  { induction Hs as [|[[h|e] name] spool Hr Hs [hs IH]]; [by eexists| |done]. cbn [mapM_py fst mbind result_bind]. rewrite IH. by eexists. }
  destruct Hm as [hs ->]. done.
Qed.

(** Claim C36. The table files of a snapshot reproduce the tables.  Let every row of an index have
    the form of its table ([exportable]) and violate no constraint in the empty schema
    ([admissible]).  Then every table is written as a file, an archive that the exporter
    returns has exactly these files behind its metadata, and importing the files into any
    other index, with metadata that has the versions, the policy and the row counts
    ([describes]), succeeds on a spool whose files can be read: every table has exactly the
    exported rows, [bds_meta] the exported entry under every key, and the numbering of new
    rows continues above the imported ones. *)
Theorem snapshot_roundtrip d destination clear_spool now ix :
  exportable d -> (forall fresh, fresh_tables now = Ok fresh -> admissible d fresh) ->
  (forall step, fails step = None) -> Forall readable (ix_spool ix) ->
  exists files, mapM_py (export_table d) TABLE_SPECS = Ok files /\
    (forall output_exists force exported_at pending archive,
       export_bds_snapshot output_exists force d exported_at pending = Ok archive ->
       exists text, archive = ("metadata.json", text) :: files) /\
    forall metadata text, loads text = Ok metadata -> describes metadata d ->
    exists d', import_bds_snapshot destination (Some (("metadata.json", text) :: files)) clear_spool None now ix
        = (Ok (max_indexed d'), Index d' (set_sequences d') (compacted d' (if clear_spool then [] else ix_spool ix))) /\
      (forall spec, spec ∈ TABLE_SPECS -> ts_upsert spec = false -> table (ts_name spec) d' = rows_of d spec) /\
      (forall k, meta_row k (table "bds_meta" d') = meta_row k (rows_of d meta_spec)) /\
      (forall name c, (name, c) ∈ identity_columns ->
         exists m, set_sequences d' !! name = Some m /\ forall r, r ∈ table name d' -> int_field c r <= m).
Proof.
  intros Hex Hadm Hdb Hspool. destruct (export_files d Hex) as (files & Hfiles & Hkeys & Hholds). exists files. split; [done|]. split.
  { intros output_exists force exported_at pending archive Hx. unfold export_bds_snapshot in Hx. rewrite Hfiles in Hx. destruct_result. by eexists. }
  intros metadata text Hload Hdesc. destruct (fresh_tables_ok now) as (fresh & Hfresh & Hempty & Hmeta).
  exists (fold_left (load_table d) TABLE_SPECS fresh).
  assert (Hh : Forall (file_holds (("metadata.json", text) :: files) d) TABLE_SPECS).
  { apply (Hholds [("metadata.json", text)]). intros k Hk%list_elem_of_singleton Hin. rewrite Hkeys in Hin. subst k.
    revert Hin. apply (bool_decide_unpack _). by vm_compute. }
  assert (Hextract : _safe_extract_snapshot destination (("metadata.json", text) :: files) = Ok (("metadata.json", text) :: files)).
  { apply extract_ok.
    - pose proof export_names as Hn. rewrite <- Hkeys in Hn. apply Forall_cons in Hn as [H1 H2]. constructor; [done|].
      unfold dict_keys in H2. by rewrite Forall_fmap in H2.
    - cbn [dict_keys fmap list_fmap fst]. change (NoDup ("metadata.json" :: dict_keys files)). rewrite Hkeys.
      apply (bool_decide_unpack _). by vm_compute. }
  split.
  { assert (Hchecks : import_checks destination (Some (("metadata.json", text) :: files)) None = Ok (("metadata.json", text) :: files)).
    { unfold import_checks. cbn [mbind result_bind]. rewrite Hextract. cbn [mbind result_bind].
      change (dict_get "metadata.json" (("metadata.json", text) :: files)) with (Some text). cbv beta iota. rewrite Hload. cbn [mbind result_bind].
      pose proof (preflight_ok _ _ _ Hex Hh Hdesc) as Hpre. pose proof Hdesc as (m & t & -> & Hv & Hs & (p & Hp & Hval) & Hvf & _).
      cbn [py_dot_get]. unfold py_get. rewrite Hv, Hs, Hp. cbn [mbind result_bind equals_int check_py].
      rewrite !Z.eqb_refl. cbn [mbind result_bind check_py]. rewrite Hval. cbn [mbind result_bind]. rewrite Hvf. cbn [mbind result_bind]. by rewrite Hpre. }
    rewrite (import_run _ _ _ _ _ _ _ _ _ Hdb Hchecks Hfresh (import_tables_ok _ d fresh specs_nodup Hh (Hadm _ Hfresh) Hempty)).
    rewrite (compact_readable _ _ Hdb) by (destruct clear_spool; [constructor|done]). done. }
  split.
  { intros spec Hin Hu. destruct (loaded_table d fresh spec Hin) as (t & Et & _). unfold table at 1. rewrite Et. unfold load_table. by rewrite lookup_insert_eq, Hu. }
  split.
  { intros k. destruct (loaded_table d fresh meta_spec) as (t & Et & Et'); [by left|]. cbn [meta_spec ts_name] in Et, Et'.
    unfold table at 1. rewrite Et. unfold load_table. cbn [ts_name ts_upsert meta_spec]. rewrite lookup_insert_eq. cbn [default id].
    change (MkTableSpec "bds_meta" _ _ _ _ _ _) with meta_spec.
    rewrite meta_row_upserts by apply (ex_keys d Hex). destruct (meta_row k (rows_of d meta_spec)) as [r|] eqn:Er; [done|].
    unfold table. rewrite Et'. change (default [] (fresh !! "bds_meta")) with (table "bds_meta" fresh).
    destruct (meta_row k (table "bds_meta" fresh)) as [r|] eqn:Ef; [|done]. exfalso.
    destruct (Hmeta k ltac:(by rewrite Ef)) as [->| ->].
    - destruct (ex_schema d Hex) as [? E]. congruence.
    - destruct (ex_policy d Hex) as (? & ? & ? & E & _). congruence. }
  intros name c Hin. exists (max_id c (table name (fold_left (load_table d) TABLE_SPECS fresh))). split; [|intros r; apply max_id_le].
  unfold set_sequences. generalize (fold_left (load_table d) TABLE_SPECS fresh). intros d'. unfold identity_columns in *.
  cbn [fold_left fst snd].
  repeat (apply elem_of_cons in Hin as [[= -> ->]|Hin]; [by rewrite ?lookup_insert_ne, lookup_insert_eq by done|]).
  by apply not_elem_of_nil in Hin.
Qed.

(** ** What the checks promise *)

(** [g] repeats on every row what [f] did: it succeeds and keeps the relation. *)
Lemma fold_rows_sim {S T} (f : S -> value -> result S) (g : T -> value -> result T) (R : S -> T -> Prop) files name s t s' :
  (forall s t v s', f s v = Ok s' -> R s t -> exists t', g t v = Ok t' /\ R s' t') ->
  R s t -> fold_rows f s files name = Ok s' -> exists t', fold_rows g t files name = Ok t' /\ R s' t'.
Proof.
  intros Hsim HR. unfold fold_rows. destruct (dict_get name files) as [text|]; [|done].
  generalize (file_lines text). clear text. intros l. revert s t HR. induction l as [|line l IH]; intros s t HR; cbn [foldM_py].
  { intros [= <-]. eauto. }
  destruct (is_blank_line line); [cbn [mbind result_bind]; by apply IH|].
  destruct (loads line) as [v|]; cbn [mbind result_bind]; [|done].
  destruct (f s v) as [s1|] eqn:E; cbn [mbind result_bind]; [|done].
  destruct (Hsim s t v s1 E HR) as (t1 & -> & HR1). cbn [mbind result_bind]. by apply IH.
Qed.

Lemma preflight_imports files metadata spec d :
  (forall d n r, accepts d n r = true) -> preflight_table files metadata spec = Ok tt ->
  exists d', import_table files d spec = Ok d' /\ (forall n, n <> ts_name spec -> d' !! n = d !! n).
Proof.
  intros Hacc. unfold preflight_table. destruct (fold_rows _ _ _ _) as [n|] eqn:E; [|done]. intros _.
  eapply (fold_rows_sim _ _ (λ _ d', forall n, n <> ts_name spec -> d' !! n = d !! n)) in E as (d' & Hd' & H); [by exists d'| |done].
  clear -Hacc. intros s t v s' Hf HR. unfold preflight_row in Hf. destruct (deserialize_snapshot_row spec v) as [r|] eqn:Er; [|done].
  rewrite Er. cbn [mbind result_bind]. unfold insert_row. destruct (ts_upsert spec); [|rewrite Hacc].
  all: eexists; (split; [done|]); intros n Hn; by rewrite lookup_insert_ne; [apply HR|].
Qed.

Lemma preflight_imports_all files metadata specs d :
  (forall d n r, accepts d n r = true) -> foldM_py (λ _, preflight_table files metadata) tt specs = Ok tt ->
  exists d', foldM_py (import_table files) d specs = Ok d'.
Proof.
  intros Hacc. revert d. induction specs as [|spec specs IH]; intros d; cbn [foldM_py]; [eauto|].
  destruct (preflight_table files metadata spec) as [[]|] eqn:E; [|done]. cbn [mbind result_bind].
  destruct (preflight_imports _ _ _ d Hacc E) as (d1 & -> & _). by apply IH.
Qed.

Lemma checks_preflight destination snapshot trusted files :
  import_checks destination snapshot trusted = Ok files -> exists metadata, _preflight_snapshot files metadata = Ok tt.
Proof.
  unfold import_checks. intros H.
  repeat (apply result_bind_inv in H as (? & ? & H)). injection H as <-.
  match goal with H : _preflight_snapshot _ _ = Ok ?u |- _ => destruct u; eauto end.
Qed.

(** The tables that are left by a call that raised before the rows were loaded. *)
Lemma mapM_fst_raise (spool : list (result Z * string)) e : mapM_py fst spool = Raise e -> exists f, f ∈ spool /\ f.1 = Raise e.
Proof.
  induction spool as [|f spool IH]; [done|]. cbn [mapM_py]. destruct (f.1) as [h|e'] eqn:Ef; cbn [mbind result_bind].
  - destruct (mapM_py fst spool) as [hs|e''] eqn:Es; [done|]. intros [= ->]. destruct (IH eq_refl) as (f' & Hin & Hf'). exists f'.
    split; [by right|done].
  - intros [= ->]. exists f. split; [left|done].
Qed.

Lemma mapM_fst_ok (spool : list (result Z * string)) hs f : mapM_py fst spool = Ok hs -> f ∈ spool -> exists h, f.1 = Ok h.
Proof.
  revert hs. induction spool as [|x spool IH]; intros hs Hs Hin; [by apply not_elem_of_nil in Hin|]. cbn [mapM_py] in Hs.
  destruct (x.1) as [h|] eqn:Ex; [|done]. cbn [mbind result_bind] in Hs. destruct (mapM_py fst spool) as [hs'|]; [|done].
  apply elem_of_cons in Hin as [->|Hin]; [by exists h|by eapply IH].
Qed.

Lemma compacted_bound d spool hs m :
  mapM_py fst spool = Ok hs -> max_indexed d = Some m -> Forall (λ f, exists h, f.1 = Ok h /\ m < h) (compacted d spool).
Proof.
  intros Hs Hm. unfold compacted. rewrite Hm. apply Forall_forall. intros [r name] [Hf Hin]%list_elem_of_filter. cbn [fst] in *.
  destruct (mapM_fst_ok _ _ _ Hs Hin) as [h Hh]. cbn in Hh. subst r. exists h. split; [done|by apply Z.ltb_lt].
Qed.

Lemma import_tables_left destination snapshot clear_spool trusted now ix r ix' files :
  import_checks destination snapshot trusted = Ok files ->
  import_bds_snapshot destination snapshot clear_spool trusted now ix = (r, ix') ->
  ix_tables ix' = ix_tables ix \/ (ix_tables ix' = ∅ /\ fails PrepareSchema <> None) \/
  (fresh_tables now = Ok (ix_tables ix') /\ (fails LoadRows <> None \/ ~ forall d n row, accepts d n row = true)) \/
  (exists files fresh, import_checks destination snapshot trusted = Ok files /\ fresh_tables now = Ok fresh /\
     foldM_py (import_table files) fresh TABLE_SPECS = Ok (ix_tables ix')).
Proof.
  intros Hc Hx. destruct (fresh_tables_ok now) as (fresh & Hfresh & _).
  unfold import_bds_snapshot, reset_schema, clear_spool_files, load_rows, run_compact_spool in Hx.
  unfold mbind, stM_bind, lift_res, modify_st, gets_st in Hx. rewrite Hc, Hfresh in Hx.
  unfold db_check in Hx. destruct (fails DropTables); [injection Hx as _ <-; by left|].
  destruct (fails PrepareSchema) eqn:Ep; [injection Hx as _ <-; right; left; split; [done|congruence]|].
  cbn [ix_tables ix_sequences ix_spool] in Hx.
  destruct (fails LoadRows) eqn:El; cbn [result_bind] in Hx.
  { injection Hx as _ <-. right. right. left. split; [done|left; congruence]. }
  destruct (foldM_py (import_table files) fresh TABLE_SPECS) as [d|e] eqn:Ef.
  2: { injection Hx as _ <-. right. right. left. split; [done|]. right. intros Hacc.
       destruct (checks_preflight _ _ _ _ Hc) as (metadata & Hp). unfold _preflight_snapshot in Hp.
       apply result_bind_inv in Hp as (? & ? & Hp). apply result_bind_inv in Hp as ([] & Hp & _).
       destruct (preflight_imports_all _ _ _ fresh Hacc Hp) as (d' & Hd'). congruence. }
  right. right. right. exists files, fresh. split; [done|]. split; [done|].
  cbn [ix_tables ix_sequences ix_spool] in Hx. rewrite Ef. f_equal.
  destruct (compact d _) as [sp|]; [|by injection Hx as _ <-]. by destruct (fails ReadStatus); injection Hx as _ <-.
Qed.

(** Claim C31. What an import leaves behind.  When a check of the archive fails, nothing of the
    index has changed.  However the call ends, the tables are the ones from before, or none
    (only when the database failed while the schema was made), or those of a new schema
    without rows (only when the database failed or refused a row), or hold every row of
    the archive's files: never a part of them.  Once the checks passed, a database that
    neither fails nor refuses a row loads all of them, and the call either returns the
    indexed height and leaves in the spool only files above it, or raises because a spool
    file cannot be read, with the rows loaded and the spool as it was. *)
Theorem import_all_or_nothing destination snapshot clear_spool trusted now ix r ix' :
  import_bds_snapshot destination snapshot clear_spool trusted now ix = (r, ix') ->
  let spool := if clear_spool then [] else ix_spool ix in
  let loaded d := exists files fresh, import_checks destination snapshot trusted = Ok files /\ fresh_tables now = Ok fresh /\
                    foldM_py (import_table files) fresh TABLE_SPECS = Ok d in
  (forall e, import_checks destination snapshot trusted = Raise e -> r = Raise e /\ ix' = ix) /\
  (ix_tables ix' = ix_tables ix \/ (ix_tables ix' = ∅ /\ fails PrepareSchema <> None) \/
   (fresh_tables now = Ok (ix_tables ix') /\ (fails LoadRows <> None \/ ~ forall d n row, accepts d n row = true)) \/
   loaded (ix_tables ix')) /\
  (is_ok (import_checks destination snapshot trusted) = true -> (forall step, fails step = None) ->
   (forall d n row, accepts d n row = true) ->
   loaded (ix_tables ix') /\
   ((r = Ok (max_indexed (ix_tables ix')) /\ ix_spool ix' = compacted (ix_tables ix') spool /\
     forall m, max_indexed (ix_tables ix') = Some m -> Forall (λ f, exists h, f.1 = Ok h /\ m < h) (ix_spool ix')) \/
    (exists e f, r = Raise e /\ f ∈ spool /\ f.1 = Raise e /\ ix_spool ix' = spool))).
Proof.
  intros Hx spool loaded. assert (Hc : exists c, import_checks destination snapshot trusted = c) by (by eexists). destruct Hc as [c Hc].
  split_and!.
  - intros e He. unfold import_bds_snapshot in Hx. unfold mbind at 1 in Hx. unfold stM_bind at 1, lift_res at 1 in Hx. rewrite He in Hx.
    by injection Hx as <- <-.
  - destruct c as [files|e].
    2: { unfold import_bds_snapshot in Hx. unfold mbind at 1 in Hx. unfold stM_bind at 1, lift_res at 1 in Hx. rewrite Hc in Hx.
         injection Hx as _ <-. by left. }
    by eapply import_tables_left.
  - intros Hok Hdb Hacc. destruct c as [files|e]; [|by rewrite Hc in Hok].
    destruct (fresh_tables_ok now) as (fresh & Hfresh & _).
    destruct (checks_preflight _ _ _ _ Hc) as (metadata & Hp). unfold _preflight_snapshot in Hp.
    apply result_bind_inv in Hp as (? & ? & Hp). apply result_bind_inv in Hp as ([] & Hp & _).
    destruct (preflight_imports_all _ _ _ fresh Hacc Hp) as (d' & Hd').
    rewrite (import_run _ _ _ _ _ _ _ _ _ Hdb Hc Hfresh Hd') in Hx. fold spool in Hx.
    assert (Hl : loaded d') by (by exists files, fresh). unfold compact, db_check in Hx. rewrite Hdb in Hx.
    destruct (mapM_py fst spool) as [hs|e] eqn:Es; cbn [mbind result_bind] in Hx; injection Hx as <- <-; cbn [ix_tables ix_spool].
    + split; [done|]. left. split; [done|]. split; [done|]. intros m Hm. by eapply compacted_bound.
    + split; [done|]. right. destruct (mapM_fst_raise _ _ Es) as (f & Hin & Hf). by exists e, f.
Qed.

(** ** The metadata of an index with blocks *)

Lemma dumps_entry b d k x s : json_dumps b (VDict d) = Ok s -> (k, x) ∈ d -> exists t, json_dumps b x = Ok t.
Proof.
  cbn [json_dumps]. intros H Hin. apply result_bind_inv in H as (ss & H & _). revert ss H.
  induction d as [|[k' x'] d IH]; [by apply not_elem_of_nil in Hin|]. intros ss H. apply result_bind_inv in H as (t & Ht & H).
  apply elem_of_cons in Hin as [[= -> ->]|Hin]; [eauto|]. apply result_bind_inv in H as (ss' & H & _). by eapply IH.
Qed.

Lemma sorted_entry d k x : (k, x) ∈ d -> (k, sort_keys x) ∈ sort_by fst ((λ kv, (kv.1, sort_keys kv.2)) <$> d).
Proof. intros Hin. rewrite sort_by_perm. apply list_elem_of_fmap. by exists (k, x). Qed.

(** No archive is ever written for an index with a block: the time of the last block, which
    the driver returns as a [datetime], is part of the metadata, and [json.dumps] refuses it. *)
Theorem export_of_blocks_fails output_exists force d exported_at pending b t archive :
  last_block d = Some b -> dict_get "block_time_iso" b = Some (VTime t) ->
  export_bds_snapshot output_exists force d exported_at pending <> Ok archive.
Proof.
  intros Hl Ht H. unfold export_bds_snapshot in H. repeat (apply result_bind_inv in H as (? & ? & H)).
  match goal with H : dumps true (sort_keys ?m) = Ok ?s |- _ =>
    unfold dumps in H; destruct (json_dumps true (sort_keys m)) as [u|] eqn:E; [|done] end.
  unfold export_metadata in E. cbn [sort_keys] in E.
  eapply dumps_entry in E as (u1 & E); [|apply (sorted_entry _ "indexed" (indexed_status d)); do 4 right; left].
  unfold indexed_status in E. cbn [sort_keys] in E. rewrite Hl in E.
  eapply dumps_entry in E as (u2 & E); [|apply (sorted_entry _ "indexed_block_time_iso" (VTime t))]; [done|].
  do 4 right. apply elem_of_cons. left. unfold py_get. by rewrite Ht.
Qed.
(** ** Deciding the form of a row *)

Definition scalarb (v : value) : bool := match v with VBool _ | VInt _ => true | VStr s => text_ok true s | _ => false end.

Definition column_okb (spec : TableSpec) (cv : string * value) : bool :=
  bool_decide (cv.2 = VNone) ||
  if decide (cv.1 ∈ ts_datetime_columns spec) then
    match isoformat cv.2 with Ok s => text_ok true s && bool_decide (fromisoformat s = Ok cv.2) | Raise _ => false end
  else if decide (cv.1 ∈ ts_decimal_columns spec) then text_ok true (to_str py_str cv.2) && bool_decide (Decimal (to_str py_str cv.2) = Ok cv.2)
  else scalarb cv.2.

Definition row_okb (spec : TableSpec) (r : row) : bool := bool_decide (dict_keys r = ts_columns spec) && forallb (column_okb spec) r.

Lemma row_ok_check spec r : row_okb spec r = true -> row_ok spec r.
Proof.
  intros [Hk%bool_decide_eq_true Hc]%andb_true_iff. split; [done|]. apply Forall_forall. intros [c v] Hin.
  rewrite forallb_forall in Hc. apply list_elem_of_In, Hc in Hin. unfold column_okb in Hin. cbn [fst snd] in *.
  apply orb_true_iff in Hin as [Hv%bool_decide_eq_true|Hin]; [by left|right].
  destruct (decide (c ∈ ts_datetime_columns spec)).
  { destruct (isoformat v) as [s|]; [|done]. apply andb_true_iff in Hin as [Ht Hf%bool_decide_eq_true]. by exists s. }
  destruct (decide (c ∈ ts_decimal_columns spec)); [by apply andb_true_iff in Hin as [Ht Hf%bool_decide_eq_true]|].
  by destruct v.
Qed.

Definition row_validb (spec : TableSpec) (r : row) : bool :=
  match serialize_snapshot_row spec r with
  | Ok w => bool_decide (_validate_snapshot_value spec (VDict (sort_by fst w)) = Ok tt)
  | Raise _ => true
  end.

Lemma row_valid_check spec r : row_validb spec r = true -> row_valid spec r.
Proof. unfold row_validb. intros H v (w & Hs & -> & _). rewrite Hs in H. by apply bool_decide_eq_true in H. Qed.
End Snapshot.

(** ** A small index *)

Definition toy_iso (v : value) : result string := match v with VTime t => Ok t | _ => raise AttributeError "isoformat" end.
Definition toy_fromiso (s : string) : result value := Ok (VTime s).
Definition toy_decimal (s : string) : result value :=
  if decide (s = "1.5") then Ok (VDec (Dec false 15 (-1))) else raise ValueError "decimal".
Definition toy_py_str (v : value) : string := match v with VDec (Dec false 15 (-1)) => "1.5" | _ => "" end.
Definition toy_encode (v : value) : result string := dumps false v.
Definition toy_order (spec : TableSpec) (rows : list (list (string * value))) := rows.

Definition sample_policy : string := ok_or "" (dumps true (VDict current_execution_policy)).
Definition sample_time : value := VTime "2026-01-01T00:00:10+00:00".
Definition sample_tables : gmap string (list (list (string * value))) :=
  list_to_map
    [("bds_meta", [[("key", VStr "schema_version"); ("value", VStr "7"); ("updated_at", sample_time)];
                   [("key", VStr "execution_policy"); ("value", VStr sample_policy); ("updated_at", sample_time)]]);
     ("blocks", [[("height", VInt 12); ("block_hash", VStr "BB"); ("block_time", VInt 5); ("block_time_iso", sample_time);
                  ("tx_count", VInt 1); ("app_hash", VStr "AA"); ("created_at", sample_time)]]);
     ("state", [[("key", VStr "con.x"); ("value", VStr "[1,2]"); ("last_change_id", VInt 3); ("last_tx_hash", VStr "T");
                 ("last_block_height", VInt 12); ("updated_at", sample_time)]]);
     ("rewards", [[("id", VInt 4); ("block_height", VInt 12); ("tx_hash", VStr "T"); ("tx_index", VInt 0); ("reward_index", VInt 0);
                   ("type", VStr "developer"); ("recipient_key", VStr "k"); ("source_contract", VNone); ("value", VDec (Dec false 15 (-1)));
                   ("created_at", sample_time)]])].

Definition sample_metadata : value :=
  let metadata := export_metadata sample_tables "2026-01-02T00:00:00+00:00" 0 in
  match metadata with
  | VDict m => VDict (dict_set "indexed" (VDict [("indexed_height", VInt 12); ("indexed_block_hash", VStr "BB");
                                                 ("indexed_app_hash", VStr "AA")]) m)
  | _ => metadata
  end.
Definition sample_text : string := ok_or "" (dumps true (sort_keys sample_metadata)).
Definition sample_destination : list string := ["tmp"; "snap"].
Definition old_spool : list (result Z * string) := [(Ok 11, "a.json"); (Ok 12, "b.json"); (Ok 13, "c.json")].
Definition old_index : index := Index ∅ ∅ old_spool.
Definition no_fault (step : db_step) : option exn := None.

Lemma sample_exportable :
  exportable toy_encode Ok toy_iso toy_fromiso toy_decimal toy_py_str toy_order sample_tables.
Proof.
  split.
  - assert (Hok : forallb (λ spec, forallb (λ r, row_okb toy_iso toy_fromiso toy_decimal toy_py_str spec r
        && row_validb toy_encode Ok toy_iso toy_py_str spec r) (rows_of toy_order sample_tables spec)) TABLE_SPECS = true)
      by (vm_compute; reflexivity).
    rewrite forallb_forall in Hok. apply Forall_forall. intros spec Hin%list_elem_of_In%Hok. rewrite forallb_forall in Hin.
    split; [|split; [|reflexivity]]; apply Forall_forall; intros r Hr%list_elem_of_In%Hin; apply andb_true_iff in Hr as [H1 H2].
    + by apply row_ok_check.
    + by apply row_valid_check.
  - apply (bool_decide_unpack _). vm_compute. exact I.
  - eexists. vm_compute. reflexivity.
  - eexists _, _, _. split; [vm_compute; reflexivity|split; vm_compute; reflexivity].
Qed.

Definition sample_sent : value := ok_or VNone (loads sample_text).

Lemma sample_described : loads sample_text = Ok sample_sent /\ describes toy_py_str (λ _, Ok 0) sample_sent sample_tables.
Proof.
  split; [vm_compute; reflexivity|]. eexists _, _. split; [vm_compute; reflexivity|].
  do 2 (split; [vm_compute; reflexivity|]). split; [eexists; split; vm_compute; reflexivity|].
  do 2 (split; [vm_compute; reflexivity|]).
  repeat (apply Forall_cons; split; [vm_compute; reflexivity|]). constructor.
Qed.

Lemma snapshot_roundtrip_witness :
  exists files d', mapM_py (export_table toy_iso toy_py_str toy_order sample_tables) TABLE_SPECS = Ok files /\
    import_bds_snapshot toy_encode Ok toy_fromiso toy_decimal toy_py_str (λ _, Ok 0) (λ _ _ _, true) no_fault sample_destination
      (Some (("metadata.json", sample_text) :: files)) false None sample_time old_index
    = (Ok (max_indexed d'), Index d' (set_sequences d') (compacted d' old_spool)) /\
    table "blocks" d' = table "blocks" sample_tables /\ table "rewards" d' = table "rewards" sample_tables.
Proof.
  destruct (snapshot_roundtrip toy_encode Ok toy_iso toy_fromiso toy_decimal toy_py_str (λ _, Ok 0) toy_order (λ _ _ _, true) no_fault
              sample_tables sample_destination false sample_time old_index sample_exportable) as (files & Hf & _ & H).
  - intros fresh _ l1 spec l2 _ _ done r rest _. reflexivity.
  - reflexivity.
  - repeat constructor.
  - destruct (H sample_sent sample_text (proj1 sample_described) (proj2 sample_described)) as (d' & Hi & Hr & _).
    exists files, d'. split; [exact Hf|]. split; [exact Hi|]. split.
    + apply (Hr (nth 1 TABLE_SPECS meta_spec)); [right; left|reflexivity].
    + apply (Hr (nth 7 TABLE_SPECS meta_spec)); [do 7 right; left|reflexivity].
Defined.

(** A snapshot whose metadata names another schema is refused and the index stays. *)
Definition refused_archive : list (string * string) :=
  [("metadata.json", ok_or "" (dumps true (VDict [("snapshot_format_version", VInt 2); ("schema_version", VInt 6)])))].

Lemma import_all_or_nothing_witness :
  (import_bds_snapshot toy_encode Ok toy_fromiso toy_decimal toy_py_str (λ _, Ok 0) (λ _ _ _, true) no_fault sample_destination
     (Some refused_archive) true None sample_time old_index).2 = old_index.
Proof.
  destruct (import_all_or_nothing toy_encode Ok toy_fromiso toy_decimal toy_py_str (λ _, Ok 0) (λ _ _ _, true) no_fault sample_destination
    (Some refused_archive) true None sample_time old_index _ _ (surjective_pairing _)) as (H & _).
  destruct (import_checks toy_encode Ok toy_fromiso toy_decimal toy_py_str (λ _, Ok 0) sample_destination (Some refused_archive) None)
    as [files|e] eqn:E; [vm_compute in E; discriminate E|]. by destruct (H e eq_refl).
Defined.

Definition sample_files : list (string * string) :=
  ok_or [] (mapM_py (export_table toy_iso toy_py_str toy_order sample_tables) TABLE_SPECS).

(** A damaged spool file makes the import raise although every row has been loaded. *)
Theorem damaged_spool_fails_import :
  let ix := Index ∅ ∅ [(raise ValueError "Expecting value", "a.json")] in
  let out := import_bds_snapshot toy_encode Ok toy_fromiso toy_decimal toy_py_str (λ _, Ok 0) (λ _ _ _, true) no_fault
               sample_destination (Some (("metadata.json", sample_text) :: sample_files)) false None sample_time ix in
  out.1 = raise ValueError "Expecting value" /\ table "state" (ix_tables out.2) = table "state" sample_tables.
Proof. split; vm_compute; reflexivity. Qed.

Lemma export_of_blocks_fails_witness :
  export_bds_snapshot toy_encode Ok toy_iso toy_fromiso toy_decimal toy_py_str toy_order false false sample_tables "now" 0 <> Ok [].
Proof.
  eapply (export_of_blocks_fails toy_encode Ok toy_iso toy_fromiso toy_decimal toy_py_str toy_order false false sample_tables "now" 0);
    vm_compute; reflexivity.
Defined.
