(* ===== verification/Toml.v ===== *)
(** * Configuration files (src/src/xian/toml_utils.py)

    The printer of the configuration files, and [tomllib.loads] of the standard library on
    the part of TOML these files use: comments, table headers, bare keys, one-line basic
    strings, booleans, decimal numbers and arrays.  Quoted and dotted keys, literal and
    multi-line strings, inline tables, dates, other number notations and arrays of tables are
    left out of the parser, which refuses them, and lines end with a newline.  As in [Json], a float is its literal. *)

From S2P Require Import Prelude PyValue Json.

#[local] Notation dict := (list (string * value)).

(** ** Printing *)

(** [sep.join(l)] *)
Fixpoint join_sep (sep : chars) (l : list chars) : chars :=
  match l with
  | [] => []
  | [x] => x
  | x :: l => x ++ sep ++ join_sep sep l
  end.

Fixpoint _format_value (v : value) : result chars :=
  match v with
  | VBool b => Ok (lit (if b then "true" else "false"))
  | VInt z => Ok (lit (py_int_str z))
  | VFloat r => if decide (r ∈ ["nan"; "inf"; "-inf"]) then raise TypeError "non-finite floats are not supported in TOML" else Ok (lit r)
  | VStr s => Ok (json_string true s)
  | VList l =>
      rendered ← (fix go (l : list value) : result (list chars) :=
                    match l with [] => Ok [] | x :: l => s ← _format_value x; ss ← go l; Ok (s :: ss) end) l;
      Ok (lit "[" ++ join_sep (lit ", ") rendered ++ lit "]")
  | _ => raise TypeError "unsupported TOML value type"
  end.

Definition is_table (v : value) : bool := match v with VDict _ => true | _ => false end.
Definition scalar_items (table : dict) : dict := filter (λ kv, is_table kv.2 = false) table.
Definition nested_items (table : dict) : dict := filter (λ kv, is_table kv.2 = true) table.

Definition item_line (kv : string * value) : result chars :=
  text ← _format_value kv.2; Ok (lit kv.1 ++ lit " = " ++ text).

Definition header_line (prefix : list string) : chars := lit "[" ++ join_sep (lit ".") (lit <$> prefix) ++ lit "]".

(** The lines of the nested tables, each after an empty line unless nothing precedes it. *)
Fixpoint with_blanks (lines : list chars) (tables : list (list chars)) : list chars :=
  match tables with
  | [] => lines
  | t :: tables => with_blanks (match lines with [] => t | _ => lines ++ [] :: t end) tables
  end.

Fixpoint dump_table (prefix : list string) (table : value) : result (list chars) :=
  match table with
  | VDict d =>
      items ← mapM_py item_line (scalar_items d);
      tables ← (fix go (d : dict) : result (list (list chars)) :=
                  match d with
                  | [] => Ok []
                  | (k, x) :: d =>
                      match x with
                      | VDict _ => ls ← dump_table (prefix ++ [k]) x; rest ← go d; Ok (ls :: rest)
                      | _ => go d
                      end
                  end) d;
      Ok (with_blanks (match prefix with [] => [] | _ => [header_line prefix] end ++ items) tables)
  | _ => raise AttributeError "object has no attribute 'items'"
  end.
Definition _dump_table (table : dict) (prefix : list string) : result (list chars) := dump_table prefix (VDict table).

Definition newline : chars := [ascii_of_byte 10].

Definition dumps (payload : dict) : result chars :=
  lines ← _dump_table payload []; Ok (join_sep newline lines ++ newline).

(** ** [tomllib.loads] *)

Definition bad_toml {A} : result A := raise ValueError "invalid TOML".

Definition is_blank_char (c : Ascii.ascii) : bool := let b := byte_of_ascii c in (b =? 32) || (b =? 9).
Definition is_eol (c : Ascii.ascii) : bool := byte_of_ascii c =? 10.
(** control characters other than the tab *)
Definition is_illegal (c : Ascii.ascii) : bool :=
  let b := byte_of_ascii c in ((b <? 32) && negb (b =? 9)) || (b =? 127).
Definition is_bare (c : Ascii.ascii) : bool :=
  let b := byte_of_ascii c in
  is_digit c || ((65 <=? b) && (b <=? 90)) || ((97 <=? b) && (b <=? 122)) || (b =? 95) || (b =? 45).

Fixpoint span (p : Ascii.ascii -> bool) (s : chars) : chars * chars :=
  match s with
  | c :: s' => if p c then let '(a, r) := span p s' in (c :: a, r) else ([], s)
  | [] => ([], [])
  end.
Definition skip_blanks (s : chars) : chars := (span is_blank_char s).2.

Fixpoint skip_to_eol (s : chars) : result chars :=
  match s with
  | [] => Ok []
  | c :: s' => if is_eol c then Ok s else if is_illegal c then bad_toml else skip_to_eol s'
  end.
Definition skip_comment (s : chars) : result chars :=
  match s with c :: s' => if byte_of_ascii c =? 35 then skip_to_eol s' else Ok s | [] => Ok [] end.

(** After a statement: blanks, a comment and the end of the line. *)
Definition end_of_line (s : chars) : result chars :=
  s ← skip_comment (skip_blanks s);
  match s with
  | [] => Ok []
  | c :: s' => if is_eol c then Ok s' else bad_toml
  end.

Definition is_surrogate (cp : Z) : bool := (55296 <=? cp) && (cp <=? 57343).

Definition toml_escape (c : Ascii.ascii) : option Z :=
  let b := byte_of_ascii c in
  if b =? 34 then Some 34
  else if b =? 92 then Some 92
  else if b =? 98 then Some 8
  else if b =? 102 then Some 12
  else if b =? 110 then Some 10
  else if b =? 114 then Some 13
  else if b =? 116 then Some 9
  else None.

Definition hex8 (s : chars) : option (Z * chars) :=
  '(hi, s) ← hex4 s; '(lo, s) ← hex4 s; Some (hi * 65536 + lo, s).

(** An escaped code point must be a Unicode scalar value. *)
Definition scalar_escape (h : option (Z * chars)) : result (chars * chars) :=
  match h with
  | None => bad_toml
  | Some (cp, r) => if is_surrogate cp || (1114111 <? cp) then bad_toml else Ok (utf8_encode_cp cp, r)
  end.

(** One character of a basic string, escaped or not. *)
Definition string_char (c : Ascii.ascii) (r : chars) : result (chars * chars) :=
  let b := byte_of_ascii c in
  if b =? 92 then
    match r with
    | [] => bad_toml
    | e :: r' =>
      if byte_of_ascii e =? 117 then scalar_escape (hex4 r')
      else if byte_of_ascii e =? 85 then scalar_escape (hex8 r')
      else match toml_escape e with Some x => Ok ([ascii_of_byte x], r') | None => bad_toml end
    end
  else if is_illegal c then bad_toml
  else Ok ([c], r).

Fixpoint string_body (fuel : nat) (s : chars) : result (chars * chars) :=
  match fuel, s with
  | S fuel, c :: r =>
      if byte_of_ascii c =? 34 then Ok ([], r)
      else '(x, r) ← string_char c r; '(t, rest) ← string_body fuel r; Ok (x ++ t, rest)
  | _, _ => bad_toml
  end.

Definition basic_string (s : chars) : result (string * chars) :=
  '(t, rest) ← string_body (S (length s)) s; Ok (String.string_of_list_ascii t, rest).

(** Blanks, ends of lines and comments inside an array. *)
Fixpoint array_space (fuel : nat) (s : chars) : result chars :=
  match fuel with
  | O => bad_toml
  | S fuel =>
    match s with
    | [] => Ok []
    | c :: s' => if is_blank_char c || is_eol c then array_space fuel s'
                 else if byte_of_ascii c =? 35 then s ← skip_to_eol s'; array_space fuel s
                 else Ok s
    end
  end.
Definition skip_array_space (s : chars) : result chars := array_space (S (length s)) s.

(** A string of three quotes opens a multi-line string. *)
Definition opens_multiline (r : chars) : bool :=
  match r with a :: b :: _ => (byte_of_ascii a =? 34) && (byte_of_ascii b =? 34) | _ => false end.

Fixpoint toml_value (fuel : nat) (s : chars) : result (value * chars) :=
  match fuel with
  | O => bad_toml
  | S fuel =>
    match s with
    | [] => bad_toml
    | c :: r =>
      if byte_of_ascii c =? 34 then
        if opens_multiline r then bad_toml else '(t, rest) ← basic_string r; Ok (VStr t, rest)
      else if byte_of_ascii c =? 91 then
        s ← skip_array_space r;
        match s with
        | c1 :: r1 => if byte_of_ascii c1 =? 93 then Ok (VList [], r1) else '(l, rest) ← toml_elements fuel s; Ok (VList l, rest)
        | [] => bad_toml
        end
      else match strip_chars (lit "true") s with
      | Some r => Ok (VBool true, r)
      | None => match strip_chars (lit "false") s with
      | Some r => Ok (VBool false, r)
      | None => parse_number s
      end end
    end
  end
with toml_elements (fuel : nat) (s : chars) : result (list value * chars) :=
  match fuel with
  | O => bad_toml
  | S fuel =>
    '(v, r) ← toml_value fuel s;
    r ← skip_array_space r;
    match r with
    | [] => bad_toml
    | c :: r1 =>
      if byte_of_ascii c =? 93 then Ok ([v], r1)
      else if byte_of_ascii c =? 44 then
        r2 ← skip_array_space r1;
        match r2 with
        | c2 :: r3 => if byte_of_ascii c2 =? 93 then Ok ([v], r3) else '(l, rest) ← toml_elements fuel r2; Ok (v :: l, rest)
        | [] => bad_toml
        end
      else bad_toml
    end
  end.

Definition bare_key (s : chars) : result (string * chars) :=
  match span is_bare s with
  | ([], _) => bad_toml
  | (k, r) => Ok (String.string_of_list_ascii k, r)
  end.

(** The names of a table header, up to its closing bracket. *)
Fixpoint header_keys (fuel : nat) (s : chars) : result (list string * chars) :=
  match fuel with
  | O => bad_toml
  | S fuel =>
    '(k, r) ← bare_key (skip_blanks s);
    match skip_blanks r with
    | c :: r1 =>
      if byte_of_ascii c =? 93 then Ok ([k], r1)
      else if byte_of_ascii c =? 46 then '(ks, rest) ← header_keys fuel r1; Ok (k :: ks, rest)
      else bad_toml
    | [] => bad_toml
    end
  end.

(** Change the table at a path, creating the tables on the way. *)
Fixpoint at_path (path : list string) (f : dict -> result dict) (d : dict) : result dict :=
  match path with
  | [] => f d
  | k :: path =>
    match dict_get k d with
    | None => t ← at_path path f []; Ok (dict_set k (VDict t) d)
    | Some (VDict t) => t ← at_path path f t; Ok (dict_set k (VDict t) d)
    | Some _ => raise ValueError "Cannot overwrite a value"
    end
  end.

Definition add_key (k : string) (v : value) (d : dict) : result dict :=
  if dict_mem k d then raise ValueError "Cannot overwrite a value" else Ok (dict_set k v d).

(** Statement by statement: the current header, the headers declared so far and the data. *)
Fixpoint statements (fuel : nat) (s : chars) (header : list string) (declared : list (list string)) (data : dict) : result dict :=
  match fuel with
  | O => bad_toml
  | S fuel =>
    match skip_blanks s with
    | [] => Ok data
    | c :: r =>
      if is_eol c then statements fuel r header declared data
      else if byte_of_ascii c =? 35 then r ← end_of_line (c :: r); statements fuel r header declared data
      else if byte_of_ascii c =? 91 then
        '(path, r) ← header_keys (S (length r)) r;
        if decide (path ∈ declared) then raise ValueError "Cannot declare a table twice"
        else data ← at_path path Ok data; r ← end_of_line r; statements fuel r path (path :: declared) data
      else
        '(k, r) ← bare_key (c :: r);
        match skip_blanks r with
        | e :: r1 =>
          if byte_of_ascii e =? 61 then
            '(v, r) ← toml_value (S (length r1)) (skip_blanks r1);
            data ← at_path header (add_key k v) data; r ← end_of_line r; statements fuel r header declared data
          else bad_toml
        | [] => bad_toml
        end
    end
  end.

Definition loads (payload : chars) : result dict := statements (S (length payload)) payload [] [] [].

(** ** Reading back what was printed *)

(** What may follow a printed value. *)
Definition ends (rest : chars) : Prop :=
  match rest with [] => True | c :: _ => byte_of_ascii c = 10 \/ byte_of_ascii c = 44 \/ byte_of_ascii c = 93 end.

Lemma ends_number rest :
  ends rest -> match rest with
               | [] => True
               | c :: _ => is_digit c = false /\ (byte_of_ascii c =? 46) = false /\ (byte_of_ascii c =? 101) = false /\ (byte_of_ascii c =? 69) = false
               end.
Proof. destruct rest as [|c r]; [done|]. unfold is_digit. intros [H|[H|H]]; rewrite H; done. Qed.

Lemma span_digits_rest s ds r rest :
  span_digits s = (ds, r) -> (r = [] -> ends rest) -> span_digits (s ++ rest) = (ds, r ++ rest).
Proof.
  revert ds r. induction s as [|c s IH]; intros ds r; cbn [span_digits app].
  - intros [= <- <-] Hr. specialize (Hr eq_refl). destruct rest as [|c rest]; [done|]. apply ends_number in Hr as (Hd & _).
    cbn. by rewrite Hd.
  - destruct (is_digit c); [|by intros [= <- <-]]. destruct (span_digits s) as [ds' r'] eqn:E. intros [= <- <-] Hr.
    by rewrite (IH ds' r' eq_refl Hr).
Qed.

Lemma parse_frac_rest s fr r rest : parse_frac s = (fr, r) -> ends rest -> parse_frac (s ++ rest) = (fr, r ++ rest).
Proof.
  destruct s as [|c s]; cbn [parse_frac app].
  - intros [= <- <-] Hr. destruct rest as [|c rest]; [done|]. apply ends_number in Hr as (_ & Hd & _).
    cbn. by rewrite Hd.
  - destruct (_ =? 46); [|by intros [= <- <-]]. destruct (span_digits s) as [ds r'] eqn:E. destruct ds as [|d ds].
    + intros [= <- <-] Hr. by rewrite (span_digits_rest _ _ _ _ E (λ _, Hr)).
    + intros [= <- <-] Hr. by rewrite (span_digits_rest _ _ _ _ E (λ _, Hr)).
Qed.

Lemma parse_exp_rest s ex rest : parse_exp s = (ex, []) -> ends rest -> parse_exp (s ++ rest) = (ex, rest).
Proof.
  intros Hs Hr. destruct s as [|c s]; cbn [parse_exp app] in *.
  - injection Hs as <-. destruct rest as [|c rest]; [done|]. apply ends_number in Hr as (_ & _ & H1 & H2). cbn. by rewrite H1, H2.
  - destruct (_ || _); [|done].
    destruct s as [|d s]; [done|]. cbn [app].
    destruct ((byte_of_ascii d =? 43) || (byte_of_ascii d =? 45)).
    + destruct (span_digits s) as [[|x ds] r] eqn:E; [done|]. injection Hs as <- ->.
      by rewrite (span_digits_rest _ _ _ _ E (λ _, Hr)).
    + change (d :: s ++ rest) with ((d :: s) ++ rest).
      destruct (span_digits (d :: s)) as [[|x ds] r] eqn:E; [done|]. injection Hs as <- ->.
      by rewrite (span_digits_rest _ _ _ _ E (λ _, Hr)).
Qed.

(** The digits before the fraction. *)
Definition number_digits (s : chars) : chars * chars :=
  match s with c :: r => if byte_of_ascii c =? 48 then ([c], r) else span_digits s | [] => ([], s) end.

Lemma number_digits_rest s d ds r rest :
  number_digits s = (d :: ds, r) -> (r = [] -> ends rest) -> number_digits (s ++ rest) = (d :: ds, r ++ rest).
Proof.
  destruct s as [|c s]; [done|]. unfold number_digits. cbn [app]. destruct (_ =? 48); [by intros [= <- <- <-]|].
  intros E Hr. change (c :: s ++ rest) with ((c :: s) ++ rest). by apply span_digits_rest.
Qed.

(** A number after its sign. *)
Definition unsigned_number (neg : bool) (s : chars) : result (value * chars) :=
  let '(ds, s) := number_digits s in
  match ds with
  | [] => bad_json
  | _ =>
    let '(fr, s) := parse_frac s in
    let '(ex, s) := parse_exp s in
    match fr, ex with
    | [], [] => z ← int_of_digits ds; Ok (VInt (if neg then - z else z), s)
    | _, _ => Ok (VFloat (String.string_of_list_ascii ((if neg then lit "-" else []) ++ ds ++ fr ++ ex)), s)
    end
  end.

Lemma unsigned_number_rest neg s v rest : unsigned_number neg s = Ok (v, []) -> ends rest -> unsigned_number neg (s ++ rest) = Ok (v, rest).
Proof.
  unfold unsigned_number. intros Hs Hr. destruct (number_digits s) as [[|d ds] s2] eqn:Ed; [done|].
  destruct (parse_frac s2) as [fr s3] eqn:Ef. destruct (parse_exp s3) as [ex s4] eqn:Ee.
  assert (s4 = []) as -> by (destruct fr, ex; [destruct (int_of_digits _); cbn in Hs|..]; congruence).
  rewrite (number_digits_rest _ _ _ _ _ Ed (λ _, Hr)), (parse_frac_rest _ _ _ _ Ef Hr), (parse_exp_rest _ _ _ Ee Hr).
  destruct fr, ex; [destruct (int_of_digits _); cbn in *|..]; congruence.
Qed.

Lemma parse_number_rest s v rest : parse_number s = Ok (v, []) -> ends rest -> parse_number (s ++ rest) = Ok (v, rest).
Proof.
  intros Hs Hr. destruct s as [|c s]; [done|]. unfold parse_number in *. cbn [app]. destruct (byte_of_ascii c =? 45).
  - by apply (unsigned_number_rest true s v).
  - by apply (unsigned_number_rest false (c :: s) v).
Qed.

(** A string whose characters all lie in the basic plane. *)
Definition toml_text (s : string) : bool := text_ok true s && forallb (λ cp, cp <? 65536) (code_points s).

Lemma code_point_reads cp fuel r :
  is_scalar cp -> cp < 65536 ->
  string_body (S fuel) (escape_code_point cp ++ r) = ('(t, rest) ← string_body fuel r; Ok (utf8_encode_cp cp ++ t, rest)).
Proof.
  intros [Hcp Hs] Hlt. unfold escape_code_point. destruct (short_escape cp) as [e|] eqn:Ee.
  { unfold short_escape in Ee.
    repeat match type of Ee with (if ?c =? ?k then _ else _) = _ => destruct (Z.eqb_spec c k); [subst; injection Ee as <-; reflexivity|] end.
    done. }
  destruct ((32 <=? cp) && (cp <=? 126)) eqn:Ep.
  - assert (Hin : cp ∈ seqZ 32 95) by (apply elem_of_seqZ; lia). clear Hcp Hs Ep Hlt. revert Ee.
    cbn in Hin. repeat (apply elem_of_cons in Hin as [->|Hin]; [try done; intros _; reflexivity|]). by apply not_elem_of_nil in Hin.
  - destruct (Z.ltb_spec cp 65536); [|lia]. rewrite u_escape_app. cbn [string_body]. unfold string_char.
    match goal with |- context [hex4 ?x] => replace (hex4 x) with (Some (cp, r)) by (symmetry; apply hex4_u_escape; lia) end.
    unfold scalar_escape, is_surrogate. rewrite (proj2 (andb_false_iff _ _)) by (rewrite !Z.leb_gt; lia).
    rewrite (proj2 (Z.ltb_ge _ _)) by lia. reflexivity.
Qed.

Lemma string_reads s rest : toml_text s = true -> basic_string (json_body true s ++ quote_char :: rest) = Ok (s, rest).
Proof.
  intros [Hok Hp]%andb_true_iff. cbn [text_ok] in Hok. unfold json_body, code_points in *.
  destruct (utf8_decode (encode_utf8 s)) as [cps|] eqn:Ed; [|done].
  change (default (encode_utf8 s) (Some cps)) with cps in *.
  destruct (utf8_decode_encode _ _ (encode_utf8_bytes s) Ed) as [Hs Hc]. rewrite forallb_forall in Hp.
  assert (Hb : forall cps fuel, Forall is_scalar cps -> (forall cp, cp ∈ cps -> cp < 65536) -> (length cps < fuel)%nat ->
    string_body fuel (concat (escape_code_point <$> cps) ++ quote_char :: rest) = Ok (concat (utf8_encode_cp <$> cps), rest)).
  { clear. induction cps as [|cp cps IH]; intros [|fuel] Hs Hp Hf; cbn [length] in Hf; [lia|done|lia|].
    apply Forall_cons in Hs as [H1 H2]. rewrite fmap_cons. cbn [concat]. rewrite <- (assoc_L (++)), code_point_reads by (done || apply Hp; left).
    rewrite IH by (done || (intros; apply Hp; by right) || lia). done. }
  unfold basic_string. rewrite Hb.
  - rewrite Hc. cbn [mbind result_bind]. do 2 f_equal. unfold encode_utf8. rewrite <- list_fmap_compose.
    assert (Hid : (ascii_of_byte ∘ byte_of_ascii) <$> str_chars s = str_chars s).
    { transitivity (id <$> str_chars s); [|apply list_fmap_id]. apply list_fmap_ext. intros i c _. apply ascii_of_byte_of_ascii. }
    rewrite Hid. unfold str_chars. by rewrite String.string_of_list_ascii_of_string.
  - done.
  - intros cp Hin. apply Z.ltb_lt, Hp. by apply list_elem_of_In.
  - rewrite length_app. assert (Hl : (length cps <= length (concat (escape_code_point <$> cps)))%nat).
    { clear. induction cps as [|cp cps IH]; [done|]. rewrite fmap_cons. cbn [concat length]. rewrite length_app.
      pose proof (escape_code_point_length cp). lia. }
    cbn [length]. lia.
Qed.

(** The values that can be written and read back. *)
Fixpoint toml_ok (v : value) : bool :=
  match v with
  | VBool _ | VInt _ => true
  | VFloat r => bool_decide (parse_number (lit r) = Ok (VFloat r, []))
  | VStr s => toml_text s
  | VList l => forallb toml_ok l
  | _ => false
  end.

(** The first character of a printed value. *)
Definition value_start (s : chars) : Prop :=
  match s with
  | [] => False
  | c :: _ => is_blank_char c = false /\ is_eol c = false /\ (byte_of_ascii c =? 35) = false /\ (byte_of_ascii c =? 93) = false
  end.

Definition reads_as (v : value) (s : chars) : Prop :=
  value_start s /\ forall rest fuel, ends rest -> (length s < fuel)%nat -> toml_value fuel (s ++ rest) = Ok (v, rest).

Lemma number_start c s x : parse_number (c :: s) = Ok x -> byte_of_ascii c = 45 \/ is_digit c = true.
Proof.
  unfold parse_number. destruct (Z.eqb_spec (byte_of_ascii c) 45); [by left|]. right.
  destruct (Z.eqb_spec (byte_of_ascii c) 48) as [E|E]; [unfold is_digit; by rewrite E|].
  cbn [span_digits] in *. by destruct (is_digit c).
Qed.

Lemma number_reads s v : parse_number s = Ok (v, []) -> reads_as v s.
Proof.
  intros Hn. destruct s as [|c s]; [done|].
  assert (Hc : byte_of_ascii c = 45 \/ 48 <= byte_of_ascii c <= 57).
  { destruct (number_start _ _ _ Hn) as [?|Hd]; [by left|right]. unfold is_digit in Hd. lia. }
  split; [unfold value_start, is_blank_char, is_eol; lia|]. intros rest [|fuel] Hr Hf; [cbn in Hf; lia|].
  cbn [app toml_value]. rewrite (proj2 (Z.eqb_neq _ 34)), (proj2 (Z.eqb_neq _ 91)) by lia.
  assert (Hs : forall w x, byte_of_ascii w <> byte_of_ascii c -> strip_chars (w :: x) (c :: s ++ rest) = None).
  { intros w x Hw. cbn. rewrite decide_False; [done|]. congruence. }
  change (lit "true") with (ascii_of_byte 116 :: lit "rue"). change (lit "false") with (ascii_of_byte 102 :: lit "alse").
  rewrite !Hs by (rewrite byte_of_ascii_of_byte by (unfold is_byte; lia); lia). by apply (parse_number_rest (c :: s)).
Qed.

Lemma escape_start cp : is_scalar cp -> exists c t, escape_code_point cp = c :: t /\ (byte_of_ascii c =? 34) = false.
Proof.
  intros _. unfold escape_code_point. destruct (short_escape cp) as [e|] eqn:Ee.
  { unfold short_escape in Ee.
    repeat match type of Ee with (if ?c =? ?k then _ else _) = _ => destruct (Z.eqb_spec c k); [injection Ee as <-; by eexists _, _|] end.
    done. }
  destruct ((32 <=? cp) && (cp <=? 126)) eqn:Ep.
  - eexists _, _. split; [done|]. rewrite byte_of_ascii_of_byte by (unfold is_byte; lia).
    destruct (Z.eqb_spec cp 34) as [->|]; [done|done].
  - destruct (cp <? 65536); by eexists _, _.
Qed.

Lemma one_line s rest : toml_text s = true -> ends rest -> opens_multiline (json_body true s ++ quote_char :: rest) = false.
Proof.
  intros [Hok _]%andb_true_iff Hr. cbn [text_ok] in Hok. unfold json_body, code_points.
  destruct (utf8_decode (encode_utf8 s)) as [cps|] eqn:Ed; [|done]. change (default (encode_utf8 s) (Some cps)) with cps.
  destruct (utf8_decode_encode _ _ (encode_utf8_bytes s) Ed) as [Hs _]. destruct Hs as [|cp cps Hcp _].
  - destruct rest as [|c rest]; [done|]. cbn. destruct Hr as [E|[E|E]]; by rewrite E.
  - destruct (escape_start cp Hcp) as (c & t & E & Hc). rewrite fmap_cons, E. cbn [concat app opens_multiline].
    destruct (_ ++ _); [done|]. by rewrite Hc.
Qed.

Lemma array_space_idle s : value_start s -> skip_array_space s = Ok s.
Proof.
  destruct s as [|c s]; [done|]. intros (H1 & H2 & H3 & _). unfold skip_array_space. cbn [array_space length]. by rewrite H1, H2, H3.
Qed.

Lemma elements_read l ss rest fuel :
  l <> [] -> Forall2 reads_as l ss -> (length (join_sep (lit ", ") ss) + 1 < fuel)%nat ->
  toml_elements fuel (join_sep (lit ", ") ss ++ lit "]" ++ rest) = Ok (l, rest).
Proof.
  intros Hne Hall. revert fuel Hne. induction Hall as [|v s l ss [Hst Hv] Hall IH]; intros fuel Hne Hf; [done|].
  destruct fuel as [|fuel]; [lia|]. destruct Hall as [|v2 s2 l ss Hv2 Hall].
  - cbn [join_sep] in *. cbn [toml_elements]. rewrite Hv; [reflexivity|by right; right|lia].
  - change (join_sep (lit ", ") (s :: s2 :: ss)) with (s ++ lit ", " ++ join_sep (lit ", ") (s2 :: ss)) in *.
    rewrite !length_app in Hf. change (length (lit ", ")) with 2%nat in Hf.
    rewrite <- !(assoc_L (++)). cbn [toml_elements]. rewrite Hv; [|by right; left|lia]. cbn [mbind result_bind].
    remember (join_sep (lit ", ") (s2 :: ss) ++ lit "]" ++ rest) as tail eqn:Et.
    assert (Hts : value_start tail).
    { rewrite Et. destruct Hv2 as [Hst2 _]. destruct s2 as [|c s2]; [done|]. by destruct ss. }
    change (skip_array_space (lit ", " ++ tail)) with (Ok (lit ", " ++ tail)). cbn [mbind result_bind].
    change (lit ", " ++ tail) with (ascii_of_byte 44 :: ascii_of_byte 32 :: tail).
    change (byte_of_ascii (ascii_of_byte 44) =? 93) with false. change (byte_of_ascii (ascii_of_byte 44) =? 44) with true. cbv iota.
    change (skip_array_space (ascii_of_byte 32 :: tail)) with (array_space (S (length tail)) tail).
    pose proof (array_space_idle tail Hts) as Hid. unfold skip_array_space in Hid. rewrite Hid. cbn [mbind result_bind].
    destruct tail as [|c tail]; [done|]. pose proof Hts as (_ & _ & _ & H93). rewrite H93, IH; [done|done|lia].
Qed.

Lemma value_reads v : toml_ok v = true -> exists s, _format_value v = Ok s /\ reads_as v s.
Proof.
  induction v as [| b | z | s | r | | | |l IH| |] using value_ind; intros Hok; try done.
  - exists (lit (if b then "true" else "false")). split; [done|]. split; [by destruct b|].
    intros rest [|fuel] _ Hf; [lia|]. by destruct b.
  - exists (lit (py_int_str z)). split; [done|]. apply number_reads.
    rewrite <- (app_nil_r (lit (py_int_str z))). by apply parse_number_roundtrip.
  - exists (json_string true s). split; [done|]. rewrite json_string_body. split; [done|].
    intros rest [|fuel] Hr Hf; [lia|]. cbn [toml_value app]. change (byte_of_ascii quote_char =? 34) with true. cbv iota.
    rewrite <- (assoc_L (++)). cbn [app]. cbn [toml_ok] in Hok. by rewrite one_line, string_reads.
  - cbn [toml_ok] in Hok. apply bool_decide_eq_true in Hok. exists (lit r). split; [|by apply number_reads].
    cbn [_format_value]. rewrite decide_False; [done|]. intros Hin.
    repeat (apply elem_of_cons in Hin as [->|Hin]; [by vm_compute in Hok|]). by apply not_elem_of_nil in Hin.
  - cbn [toml_ok] in Hok. rewrite forallb_forall in Hok.
    assert (Hss : exists ss, (fix go (l : list value) : result (list chars) :=
      match l with [] => Ok [] | x :: l => s ← _format_value x; ss ← go l; Ok (s :: ss) end) l = Ok ss /\ Forall2 reads_as l ss).
    { induction IH as [|v l Hv _ IHl]; [by exists []; split; [|constructor]|].
      destruct Hv as (s & Hs & Hr); [apply Hok; by left|]. destruct IHl as (ss & Hss & Hrs); [intros x Hx; apply Hok; by right|].
      exists (s :: ss). rewrite Hs. cbn [mbind result_bind]. rewrite Hss. by split; [|constructor]. }
    destruct Hss as (ss & Hss & Hrs). exists (lit "[" ++ join_sep (lit ", ") ss ++ lit "]").
    split; [cbn [_format_value]; by rewrite Hss|]. split; [done|]. intros rest [|fuel] Hr Hf; [lia|].
    rewrite !length_app in Hf. change (length (lit "[")) with 1%nat in Hf. change (length (lit "]")) with 1%nat in Hf.
    rewrite <- !(assoc_L (++)). change (lit "[" ++ ?x) with (ascii_of_byte 91 :: x). cbn [toml_value].
    change (byte_of_ascii (ascii_of_byte 91) =? 34) with false. change (byte_of_ascii (ascii_of_byte 91) =? 91) with true. cbv iota.
    destruct Hrs as [|v s l ss Hv Hrs]; [reflexivity|].
    assert (Hst : value_start (join_sep (lit ", ") (s :: ss) ++ lit "]" ++ rest)).
    { destruct Hv as [Hst _]. destruct s as [|c s]; [done|]. by destruct ss. }
    rewrite array_space_idle by done. cbn [mbind result_bind].
    remember (join_sep (lit ", ") (s :: ss) ++ lit "]" ++ rest) as tail eqn:Et. destruct tail as [|c tail]; [done|].
    pose proof Hst as (_ & _ & _ & H93). rewrite H93, Et. rewrite (elements_read (v :: l)); [done|done|by constructor|lia].
Qed.

(** ** Statements *)

Record scan := Scan { sc_header : list string; sc_declared : list (list string); sc_data : dict }.
Definition resume (fuel : nat) (s : chars) (x : scan) : result dict := statements fuel s (sc_header x) (sc_declared x) (sc_data x).

Definition text_of (lines : list chars) : chars := concat ((λ l, l ++ newline) <$> lines).

(** Reading the lines leads from one state to the other, one unit of fuel per line. *)
Definition runs (lines : list chars) (x y : scan) : Prop :=
  forall rest fuel, resume (length lines + fuel) (text_of lines ++ rest) x = resume fuel rest y.

Lemma runs_nil x : runs [] x x.
Proof. by intros rest fuel. Qed.

Lemma runs_app l1 l2 x y z : runs l1 x y -> runs l2 y z -> runs (l1 ++ l2) x z.
Proof.
  intros H1 H2 rest fuel. unfold text_of. rewrite fmap_app, concat_app, length_app, <- (assoc_L (++)), <- Nat.add_assoc.
  by rewrite (H1 _ (length l2 + fuel)%nat), (H2 rest).
Qed.

Lemma runs_blank x : runs [[]] x x.
Proof. by intros rest fuel. Qed.

Fixpoint runs_all (tables : list (list chars)) (x y : scan) : Prop :=
  match tables with [] => x = y | t :: tables => exists z, runs t x z /\ runs_all tables z y end.

Lemma runs_with_blanks lines tables x y z : runs lines x y -> runs_all tables y z -> runs (with_blanks lines tables) x z.
Proof.
  revert lines y. induction tables as [|t tables IH]; intros lines y Hl; cbn [runs_all with_blanks]; [by intros <-|].
  intros (w & Ht & Hr). apply (IH _ w); [|done]. destruct lines as [|l lines].
  - exact (runs_app [] t x y w Hl Ht).
  - apply (runs_app (l :: lines) _ x y w Hl). apply (runs_app [[]] t y y w); [apply runs_blank|done].
Qed.

Definition bare_ok (k : string) : bool := negb (bool_decide (k = "")) && forallb is_bare (str_chars k).

Lemma span_all p s c r : forallb p s = true -> p c = false -> span p (s ++ c :: r) = (s, c :: r).
Proof.
  intros Hs Hc. induction s as [|d s IH]; cbn [app span forallb] in *; [by rewrite Hc|].
  apply andb_true_iff in Hs as [Hd Hs]. by rewrite Hd, IH.
Qed.

Lemma bare_chars k : bare_ok k = true -> exists c s, str_chars k = c :: s /\ is_bare c = true /\ forallb is_bare (c :: s) = true.
Proof.
  intros [Hne Hb]%andb_true_iff. destruct k as [|c k]; [done|]. cbn [str_chars String.list_ascii_of_string] in *.
  exists c, (str_chars k). split; [done|]. split; [|done]. cbn in Hb. by apply andb_true_iff in Hb as [? _].
Qed.

Lemma bare_not c : is_bare c = true ->
  is_blank_char c = false /\ is_eol c = false /\ (byte_of_ascii c =? 35) = false /\ (byte_of_ascii c =? 91) = false /\
  (byte_of_ascii c =? 93) = false /\ (byte_of_ascii c =? 46) = false.
Proof. unfold is_bare, is_blank_char, is_eol, is_digit. lia. Qed.

Lemma bare_key_reads k c r : bare_ok k = true -> is_bare c = false -> bare_key (lit k ++ c :: r) = Ok (k, c :: r).
Proof.
  intros Hk Hc. destruct (bare_chars k Hk) as (d & s & E & _ & Hall). unfold bare_key, lit. rewrite E, (span_all is_bare (d :: s)) by done.
  rewrite <- E. unfold str_chars. by rewrite String.string_of_list_ascii_of_string.
Qed.

Lemma skip_blanks_bare k r : bare_ok k = true -> skip_blanks (lit k ++ r) = lit k ++ r.
Proof.
  intros Hk. destruct (bare_chars k Hk) as (d & s & E & Hd & _). apply bare_not in Hd as (Hd & _). unfold skip_blanks, lit.
  rewrite E. cbn [app span]. by rewrite Hd.
Qed.

Lemma skip_blanks_start s r : value_start s -> skip_blanks (s ++ r) = s ++ r.
Proof. destruct s as [|c s]; [done|]. intros (Hc & _). unfold skip_blanks. cbn [app span]. by rewrite Hc. Qed.

Lemma skip_blanks_cons c r : is_blank_char c = true -> skip_blanks (c :: r) = skip_blanks r.
Proof. intros Hc. unfold skip_blanks. cbn [span]. rewrite Hc. by destruct (span is_blank_char r). Qed.

(** An entry of the current table. *)
Lemma item_runs k v s x data :
  bare_ok k = true -> reads_as v s -> at_path (sc_header x) (add_key k v) (sc_data x) = Ok data ->
  runs [lit k ++ lit " = " ++ s] x (Scan (sc_header x) (sc_declared x) data).
Proof.
  intros Hk [Hst Hv] Hd rest fuel. unfold text_of. cbn [fmap list_fmap concat app length]. rewrite app_nil_r, <- !(assoc_L (++)).
  unfold resume. cbn [statements sc_header sc_declared sc_data Nat.add].
  rewrite skip_blanks_bare by done. destruct (bare_chars k Hk) as (c & t & E & Hc & _).
  pose proof (bare_not c Hc) as (_ & H2 & H3 & H4 & _).
  remember (lit k ++ lit " = " ++ s ++ newline ++ rest) as all eqn:Ea. destruct all as [|c' all]; [unfold lit in Ea at 1; by rewrite E in Ea|].
  assert (c' = c) as -> by (unfold lit in Ea at 1; rewrite E in Ea; cbn [app] in Ea; congruence).
  rewrite H2, H3, H4. cbv iota. rewrite Ea. change (lit " = " ++ s ++ newline ++ rest) with (ascii_of_byte 32 :: (lit "= " ++ s ++ newline ++ rest)).
  rewrite bare_key_reads by done. cbn [mbind result_bind].
  change (skip_blanks (ascii_of_byte 32 :: lit "= " ++ s ++ newline ++ rest)) with (ascii_of_byte 61 :: ascii_of_byte 32 :: s ++ newline ++ rest).
  change (byte_of_ascii (ascii_of_byte 61) =? 61) with true. cbv iota.
  rewrite skip_blanks_cons, skip_blanks_start by done. rewrite Hv; [|by left|cbn [length]; rewrite length_app; lia]. cbn [mbind result_bind].
  rewrite Hd. cbn [mbind result_bind]. reflexivity.
Qed.

Lemma header_keys_read p rest fuel :
  p <> [] -> Forall (λ k, bare_ok k = true) p -> (length p < fuel)%nat ->
  header_keys fuel (join_sep (lit ".") (lit <$> p) ++ lit "]" ++ rest) = Ok (p, rest).
Proof.
  intros Hne Hp. revert fuel Hne. induction Hp as [|k p Hk Hp IH]; intros fuel Hne Hf; [done|]. destruct fuel as [|fuel]; [lia|].
  destruct Hp as [|k2 p Hk2 Hp].
  - cbn [fmap list_fmap join_sep header_keys]. rewrite skip_blanks_bare by done.
    change (lit "]" ++ rest) with (ascii_of_byte 93 :: rest). by rewrite bare_key_reads.
  - change (join_sep (lit ".") (lit <$> k :: k2 :: p)) with (lit k ++ lit "." ++ join_sep (lit ".") (lit <$> k2 :: p)).
    rewrite <- !(assoc_L (++)). cbn [header_keys]. rewrite skip_blanks_bare by done.
    change (lit "." ++ ?x) with (ascii_of_byte 46 :: x). rewrite bare_key_reads by done. cbn [mbind result_bind].
    remember (join_sep (lit ".") (lit <$> k2 :: p) ++ lit "]" ++ rest) as tail.
    change (skip_blanks (ascii_of_byte 46 :: tail)) with (ascii_of_byte 46 :: tail).
    change (byte_of_ascii (ascii_of_byte 46) =? 93) with false. change (byte_of_ascii (ascii_of_byte 46) =? 46) with true. cbv iota.
    rewrite IH; [done|done|cbn [length] in *; lia].
Qed.

Lemma header_runs p x data :
  p <> [] -> Forall (λ k, bare_ok k = true) p -> p ∉ sc_declared x -> at_path p Ok (sc_data x) = Ok data ->
  runs [header_line p] x (Scan p (p :: sc_declared x) data).
Proof.
  intros Hne Hp Hn Hd rest fuel. unfold text_of, header_line. cbn [fmap list_fmap concat app length]. rewrite app_nil_r, <- !(assoc_L (++)).
  unfold resume. cbn [statements sc_header sc_declared sc_data Nat.add].
  remember (join_sep (lit ".") (lit <$> p) ++ lit "]" ++ newline ++ rest) as tail eqn:Et.
  change (lit "[" ++ tail) with (ascii_of_byte 91 :: tail). change (skip_blanks (ascii_of_byte 91 :: tail)) with (ascii_of_byte 91 :: tail).
  change (is_eol (ascii_of_byte 91)) with false. change (byte_of_ascii (ascii_of_byte 91) =? 35) with false.
  change (byte_of_ascii (ascii_of_byte 91) =? 91) with true. cbv iota.
  assert (Hlen : (length p < S (length tail))%nat).
  { rewrite Et. rewrite length_app. clear -Hp. assert (Hl : (length p <= length (join_sep (lit ".") (lit <$> p)) + 1)%nat).
    { induction Hp as [|k p Hk Hp IH]; [cbn; lia|]. destruct (bare_chars k Hk) as (c & s & E & _).
      destruct p as [|k2 p]; [cbn; lia|]. change (join_sep (lit ".") (lit <$> k :: k2 :: p)) with (lit k ++ lit "." ++ join_sep (lit ".") (lit <$> k2 :: p)).
      rewrite !length_app. change (length (lit ".")) with 1%nat. cbn [length] in *. lia. }
    rewrite length_app. change (length (lit "]")) with 1%nat. lia. }
  assert (Hk : forall n, (length p < n)%nat -> header_keys n tail = Ok (p, newline ++ rest)) by (intros n Hn'; rewrite Et; by apply header_keys_read).
  rewrite Hk by done. cbn [mbind result_bind]. rewrite decide_False by done. rewrite Hd. reflexivity.
Qed.

(** ** Tables *)

Definition put (p : list string) (t d : dict) : result dict := at_path p (λ _, Ok t) d.

Fixpoint fresh (p : list string) (d : dict) : Prop :=
  match p with
  | [] => False
  | k :: p => match p with [] => dict_get k d = None | _ => exists t, dict_get k d = Some (VDict t) /\ fresh p t end
  end.

Lemma dict_set_set {A} k (v w : A) d : dict_set k v (dict_set k w d) = dict_set k v d.
Proof.
  induction d as [|[k' x] d IH]; cbn; [by rewrite decide_True|].
  destruct (decide (k = k')) as [->|Hne]; cbn; [by rewrite decide_True|]. by rewrite decide_False, IH.
Qed.

Lemma dict_set_snoc {A} k (v : A) d : dict_get k d = None -> dict_set k v d = d ++ [(k, v)].
Proof. induction d as [|[k' x] d IH]; cbn; [done|]. destruct (decide (k = k')); [done|]. intros Hd. by rewrite IH. Qed.

Lemma at_path_app p q f d : at_path (p ++ q) f d = at_path p (at_path q f) d.
Proof.
  revert d. induction p as [|k p IH]; intros d; [done|]. cbn [app at_path].
  destruct (dict_get k d) as [[]|]; try done; by rewrite IH.
Qed.

Lemma at_path_put p t d D f : put p t d = Ok D -> at_path p f D = (t' ← f t; put p t' d).
Proof.
  unfold put. revert d D. induction p as [|k p IH]; intros d D; cbn [at_path]; [intros [= <-]; by destruct (f t)|].
  assert (Hstep : forall d0 e, at_path p (λ _, Ok t) d0 = Ok e -> Ok (dict_set k (VDict e) d) = Ok D ->
    match dict_get k D with
    | Some (VDict t0) => t1 ← at_path p f t0; Ok (dict_set k (VDict t1) D)
    | Some _ => raise ValueError "Cannot overwrite a value"
    | None => t1 ← at_path p f []; Ok (dict_set k (VDict t1) D)
    end = (t' ← f t; t1 ← at_path p (λ _, Ok t') d0; Ok (dict_set k (VDict t1) d))).
  { intros d0 e He [= <-]. rewrite dict_get_set_eq, (IH _ _ He). destruct (f t) as [t'|]; [|done]. cbn [mbind result_bind].
    destruct (at_path p (λ _, Ok t') d0); [|done]. cbn [mbind result_bind]. by rewrite dict_set_set. }
  destruct (dict_get k d) as [[]|]; try done; intros H.
  - destruct (at_path p (λ _, Ok t) d0) as [e|] eqn:E; [|done]. by apply (Hstep d0 e).
  - destruct (at_path p (λ _, Ok t) []) as [e|] eqn:E; [|done]. by apply (Hstep [] e).
Qed.

Lemma put_any p t t' d D : put p t d = Ok D -> exists D', put p t' d = Ok D'.
Proof.
  unfold put. revert d D. induction p as [|k p IH]; intros d D; cbn [at_path]; [by eexists|].
  destruct (dict_get k d) as [[]|]; try done; intros H; destruct_result;
    match goal with E : at_path p _ _ = Ok _ |- _ => apply IH in E as (D' & ->) end; by eexists.
Qed.

Lemma put_fresh p d : fresh p d -> exists D, at_path p Ok d = Ok D /\ put p [] d = Ok D.
Proof.
  unfold put. revert d. induction p as [|k p IH]; intros d; cbn [fresh at_path]; [done|]. destruct p as [|k2 p].
  - intros ->. by eexists.
  - intros (t & -> & Hf). destruct (IH t Hf) as (D & H1 & H2). rewrite H1, H2. by eexists.
Qed.

Lemma fresh_child p k t d D : put p t d = Ok D -> dict_get k t = None -> fresh (p ++ [k]) D.
Proof.
  unfold put. revert d D. induction p as [|k' p IH]; intros d D; cbn [at_path app fresh]; [by intros [= <-]|].
  destruct (dict_get k' d) as [[]|]; try done; intros H Hk; destruct_result;
    match goal with E : at_path p _ _ = Ok ?e |- _ => apply IH in E; [|done]; destruct (p ++ [k]) eqn:Ep; [by destruct p|];
      exists e; by rewrite dict_get_set_eq end.
Qed.

Fixpoint table_ok (v : value) : bool :=
  match v with
  | VDict d => bool_decide (NoDup (dict_keys d)) && forallb (λ kv, bare_ok kv.1 && (toml_ok kv.2 || table_ok kv.2)) d
  | _ => false
  end.

(** A table with its tables behind its other entries, as it is written. *)
Fixpoint scalars_first (v : value) : value :=
  match v with
  | VDict d => let d := (λ kv, (kv.1, scalars_first kv.2)) <$> d in VDict (scalar_items d ++ nested_items d)
  | v => v
  end.
Definition ordered (d : dict) : dict :=
  let d := (λ kv, (kv.1, scalars_first kv.2)) <$> d in scalar_items d ++ nested_items d.

Lemma scalars_first_kind v : is_table (scalars_first v) = is_table v.
Proof. by destruct v. Qed.

Lemma toml_ok_kind v : toml_ok v = true -> is_table v = false.
Proof. by destruct v. Qed.

Lemma toml_ok_first v : toml_ok v = true -> scalars_first v = v.
Proof. by destruct v. Qed.

Lemma ordered_items d :
  forallb (λ kv, bare_ok kv.1 && (toml_ok kv.2 || table_ok kv.2)) d = true ->
  ordered d = scalar_items d ++ ((λ kv, (kv.1, scalars_first kv.2)) <$> nested_items d).
Proof.
  intros Hall. unfold ordered. f_equal.
  - induction d as [|[k v] d IH]; [done|]. cbn [forallb fst snd] in Hall. apply andb_true_iff in Hall as [[_ Hv]%andb_true_iff Hall].
    rewrite fmap_cons. unfold scalar_items in *. rewrite !filter_cons. cbn [fst snd]. rewrite scalars_first_kind.
    destruct (decide (is_table v = false)) as [Hk|]; [|by apply IH]. f_equal; [|by apply IH].
    apply orb_true_iff in Hv as [Hv|Hv]; [by rewrite toml_ok_first|by destruct v].
  - clear. induction d as [|[k v] d IH]; [done|]. rewrite fmap_cons. unfold nested_items in *. rewrite !filter_cons. cbn [fst snd].
    rewrite scalars_first_kind. destruct (decide (is_table v = true)); [|done]. rewrite fmap_cons. by f_equal.
Qed.

Lemma dump_tables prefix d :
  (fix go (d : dict) : result (list (list chars)) :=
     match d with
     | [] => Ok []
     | (k, x) :: d =>
         match x with
         | VDict _ => ls ← dump_table (prefix ++ [k]) x; rest ← go d; Ok (ls :: rest)
         | _ => go d
         end
     end) d = mapM_py (λ kv, dump_table (prefix ++ [kv.1]) kv.2) (nested_items d).
Proof.
  induction d as [|[k v] d IH]; [done|]. unfold nested_items in *. rewrite filter_cons. cbn [snd].
  destruct v; cbn [is_table]; try (rewrite decide_False by done; exact IH). rewrite decide_True by done.
  cbn [mapM_py fst snd]. by rewrite IH.
Qed.

(** A path that is not the given one but leads through it. *)
Definition below (p q : list string) : Prop := exists k r, q = p ++ k :: r.

(** A whole table, with its header. *)
Definition table_reads (v : value) : Prop :=
  forall d, v = VDict d -> table_ok v = true -> forall p data x,
  p <> [] -> Forall (λ k, bare_ok k = true) p -> sc_data x = data -> fresh p data ->
  p ∉ sc_declared x -> (forall q, q ∈ sc_declared x -> ~ below p q) ->
  exists lines y, dump_table p v = Ok lines /\ runs lines x y /\ put p (ordered d) data = Ok (sc_data y) /\
    (forall q, q ∈ sc_declared y -> q ∈ sc_declared x \/ q = p \/ below p q).

Lemma items_read items p t data x :
  Forall (λ kv, bare_ok kv.1 = true /\ toml_ok kv.2 = true) items -> NoDup (dict_keys (t ++ items)) ->
  sc_header x = p -> put p t data = Ok (sc_data x) ->
  exists lines y, mapM_py item_line items = Ok lines /\ runs lines x y /\ sc_header y = p /\
    sc_declared y = sc_declared x /\ put p (t ++ items) data = Ok (sc_data y).
Proof.
  intros Hall. revert t x. induction Hall as [|[k v] items [Hk Hv] Hall IH]; intros t x Hnd Hp Hput.
  { exists [], x. rewrite app_nil_r. by split_and!. }
  cbn [fst snd] in *. destruct (value_reads v Hv) as (s & Hs & Hr).
  assert (Hk' : dict_get k t = None).
  { apply dict_get_None. unfold dict_keys in *. rewrite fmap_app, fmap_cons in Hnd. apply NoDup_app in Hnd as (_ & Hd & _).
    intros Hin. apply (Hd _ Hin). by left. }
  destruct (put_any p t (t ++ [(k, v)]) data _ Hput) as (D & HD).
  destruct (IH (t ++ [(k, v)]) (Scan p (sc_declared x) D)) as (lines & y & Hl & Hrun & Hh & Hdec & Hy); [by rewrite <- (assoc_L (++))|done|done|].
  exists ((lit k ++ lit " = " ++ s) :: lines), y. rewrite <- (assoc_L (++)) in Hy. split_and!; [| |done..].
  - assert (Hi : item_line (k, v) = Ok (lit k ++ lit " = " ++ s)) by (unfold item_line; cbn [fst snd]; by rewrite Hs).
    cbn [mapM_py]. rewrite Hi. cbn [mbind result_bind]. by rewrite Hl.
  - eapply (runs_app [_] lines); [|exact Hrun]. subst p. apply (item_runs k v s x D Hk Hr).
    erewrite at_path_put by done. unfold add_key, dict_mem. rewrite Hk'. cbn [mbind result_bind]. by rewrite dict_set_snoc.
Qed.

Lemma tables_read ns p t data x :
  Forall (λ kv, table_reads kv.2) ns -> Forall (λ kv, bare_ok kv.1 = true /\ is_table kv.2 = true /\ table_ok kv.2 = true) ns ->
  NoDup (dict_keys (t ++ ns)) -> Forall (λ k, bare_ok k = true) p -> put p t data = Ok (sc_data x) ->
  (forall q k r, q ∈ sc_declared x -> k ∈ dict_keys ns -> q <> p ++ k :: r) ->
  exists tables y, mapM_py (λ kv, dump_table (p ++ [kv.1]) kv.2) ns = Ok tables /\ runs_all tables x y /\
    put p (t ++ ((λ kv, (kv.1, scalars_first kv.2)) <$> ns)) data = Ok (sc_data y) /\
    (forall q, q ∈ sc_declared y -> q ∈ sc_declared x \/ below p q).
Proof.
  intros Hre Hall. revert t x. induction Hre as [|[k v] ns Hv _ IH]; intros t x Hnd Hp Hput Hdec.
  { exists [], x. rewrite app_nil_r. split_and!; try done. by left. }
  apply Forall_cons in Hall as [(Hk & Ht & Hok) Hall]. cbn [fst snd] in *. destruct v as [| | | | | | | | | |d]; try done.
  assert (Hkt : k ∉ dict_keys t /\ k ∉ dict_keys ns /\ NoDup (dict_keys (t ++ ns))).
  { unfold dict_keys in *. rewrite fmap_app, fmap_cons in Hnd. cbn [fst] in Hnd.
    apply NoDup_app in Hnd as (N1 & N2 & [N3 N4]%NoDup_cons). split_and!; [intros Hin; apply (N2 _ Hin); by left|done|].
    rewrite fmap_app. apply NoDup_app. split_and!; [done| |done]. intros q Hq Hin. apply (N2 _ Hq). by right. }
  destruct Hkt as (Hkt & Hkn & Hnd').
  destruct (Hv d eq_refl Hok (p ++ [k]) (sc_data x) x) as (lines & y & Hl & Hrun & Hy & Hdy).
  { by destruct p. }
  { apply Forall_app. split; [done|]. by constructor. }
  { done. }
  { eapply fresh_child; [done|]. by apply dict_get_None. }
  { intros Hin. eapply (Hdec _ k []); [done|by left|]. done. }
  { intros q Hin (k' & r & ->). eapply (Hdec _ k (k' :: r)); [done|by left|]. by rewrite <- (assoc_L (++)). }
  assert (Hput' : put p (t ++ [(k, VDict (ordered d))]) data = Ok (sc_data y)).
  { rewrite <- Hy. unfold put at 2. rewrite at_path_app. erewrite at_path_put by done. cbn [at_path].
    rewrite (proj2 (dict_get_None k t)) by done. cbn [mbind result_bind]. by rewrite dict_set_snoc by (by apply dict_get_None). }
  destruct (IH Hall (t ++ [(k, VDict (ordered d))]) y) as (tables & z & Ht2 & Hrun2 & Hz & Hdz); [|done|done| |].
  { unfold dict_keys in *. rewrite !fmap_app in *. cbn [fmap list_fmap fst]. rewrite fmap_cons in Hnd. cbn [fst] in Hnd.
    by rewrite <- (assoc_L (++)). }
  { intros q k' r Hin Hk' ->. destruct (Hdy _ Hin) as [Hold|[E|(k2 & r2 & E)]].
    - eapply Hdec; [done|by right|done].
    - apply (inj (app p)) in E. injection E as -> _. done.
    - rewrite <- (assoc_L (++)) in E. apply (inj (app p)) in E. injection E as -> _. done. }
  exists (lines :: tables), z. split_and!.
  - cbn [mapM_py fst snd]. rewrite Hl. cbn [mbind result_bind]. by rewrite Ht2.
  - by exists y.
  - rewrite fmap_cons. cbn [fst snd]. by rewrite <- (assoc_L (++)) in Hz.
  - intros q Hin. destruct (Hdz q Hin) as [Hy'|Hb]; [|by right]. destruct (Hdy q Hy') as [?|[->|(k2 & r2 & ->)]]; [by left|right|right].
    + by exists k, [].
    + exists k, (k2 :: r2). by rewrite <- (assoc_L (++)).
Qed.

Lemma items_partition d : scalar_items d ++ nested_items d ≡ₚ d.
Proof.
  induction d as [|[k v] d IH]; [done|]. unfold scalar_items, nested_items in *. rewrite !filter_cons. cbn [snd].
  destruct (is_table v).
  - rewrite decide_False, decide_True by done. rewrite <- Permutation_middle. by rewrite IH.
  - rewrite decide_True, decide_False by done. cbn [app]. by rewrite IH.
Qed.

(** The entries of a table after its header. *)
Lemma body_reads d p data x :
  Forall (λ kv, table_reads kv.2) d -> table_ok (VDict d) = true -> Forall (λ k, bare_ok k = true) p ->
  sc_header x = p -> put p [] data = Ok (sc_data x) -> (forall q, q ∈ sc_declared x -> ~ below p q) ->
  exists items tables y z, mapM_py item_line (scalar_items d) = Ok items /\ runs items x y /\
    mapM_py (λ kv, dump_table (p ++ [kv.1]) kv.2) (nested_items d) = Ok tables /\ runs_all tables y z /\
    put p (ordered d) data = Ok (sc_data z) /\ (forall q, q ∈ sc_declared z -> q ∈ sc_declared x \/ below p q).
Proof.
  intros Hre [Hnd%bool_decide_eq_true Hall]%andb_true_iff Hp Hh Hput Hdec.
  rewrite (ordered_items d Hall). rewrite forallb_forall in Hall.
  assert (Hkv : forall kv, kv ∈ d -> bare_ok kv.1 = true /\ (toml_ok kv.2 = true \/ table_ok kv.2 = true)).
  { intros kv Hin. apply list_elem_of_In, Hall in Hin. apply andb_true_iff in Hin as [? Ho]. split; [done|]. by apply orb_true_iff. }
  assert (Hnd2 : NoDup (dict_keys (scalar_items d ++ nested_items d))).
  { unfold dict_keys. by rewrite items_partition. }
  destruct (items_read (scalar_items d) p [] data x) as (items & y & Hi & Hr & Hhy & Hdy & Hpy); [| |done|done|].
  { apply Forall_forall. intros kv [Hk Hin]%list_elem_of_filter. destruct (Hkv kv Hin) as [? [?|Ht]]; [done|].
    by destruct (kv.2). }
  { cbn [app]. unfold dict_keys in *. rewrite fmap_app in Hnd2. by apply NoDup_app in Hnd2 as [? _]. }
  destruct (tables_read (nested_items d) p (scalar_items d) data y) as (tables & z & Ht & Hrt & Hz & Hdz); [| |done|done|done| |].
  { apply Forall_forall. intros kv [_ Hin]%list_elem_of_filter. rewrite Forall_forall in Hre. by apply Hre. }
  { apply Forall_forall. intros kv [Hk Hin]%list_elem_of_filter. destruct (Hkv kv Hin) as [? [Ho|?]]; [|done].
    apply toml_ok_kind in Ho. congruence. }
  { intros q k r Hin _ ->. rewrite Hdy in Hin. apply (Hdec _ Hin). by exists k, r. }
  exists items, tables, y, z. split_and!; try done. intros q Hin. destruct (Hdz q Hin) as [?|?]; [|by right]. left. by rewrite <- Hdy.
Qed.

Lemma all_tables_read v : table_reads v.
Proof.
  induction v as [| | | | | | | | | |d IH] using value_ind; intros d0 E Hok; try done. injection E as <-.
  intros p data x Hne Hp <- Hf Hn Hb. destruct (put_fresh p _ Hf) as (D & HD & Hput).
  destruct (body_reads d p (sc_data x) (Scan p (p :: sc_declared x) D) IH Hok Hp) as (items & tables & y & z & Hi & Hr & Ht & Hrt & Hz & Hdz);
    [done|done| |].
  { intros q [->|Hin]%elem_of_cons; [|by apply Hb]. intros (k & r & E). rewrite <- (app_nil_r p) in E at 1. by apply (inj (app p)) in E. }
  exists (with_blanks ([header_line p] ++ items) tables), z. split_and!.
  - cbn [dump_table]. rewrite Hi. cbn [mbind result_bind]. rewrite dump_tables, Ht. cbn [mbind result_bind]. by destruct p.
  - eapply runs_with_blanks; [|exact Hrt]. eapply runs_app; [|exact Hr]. by apply header_runs.
  - done.
  - intros q Hin. destruct (Hdz q Hin) as [[->|?]%elem_of_cons|?]; [by right; left|by left|by right; right].
Qed.

Lemma text_of_lines lines : lines <> [] -> join_sep newline lines ++ newline = text_of lines.
Proof.
  induction lines as [|l lines IH]; [done|]. intros _. destruct lines as [|l2 lines]; [by cbn; rewrite app_nil_r|].
  change (join_sep newline (l :: l2 :: lines)) with (l ++ newline ++ join_sep newline (l2 :: lines)).
  rewrite <- !(assoc_L (++)), IH by done. unfold text_of. rewrite (fmap_cons _ l). cbn [concat]. by rewrite <- (assoc_L (++)).
Qed.

Lemma text_of_length lines : (length lines <= length (text_of lines))%nat.
Proof.
  unfold text_of. induction lines as [|l lines IH]; [done|]. rewrite fmap_cons. cbn [concat length].
  rewrite !length_app. change (length newline) with 1%nat. lia.
Qed.

Lemma table_reads_back d :
  table_ok (VDict d) = true -> exists text, dumps d = Ok text /\ loads text = Ok (ordered d).
Proof.
  intros Hok.
  assert (Hall : Forall (λ kv : string * value, table_reads kv.2) d) by (apply Forall_forall; intros kv _; apply all_tables_read).
  destruct (body_reads d [] [] (Scan [] [] []) Hall Hok) as (items & tables & y & z & Hi & Hr & Ht & Hrt & Hz & _); [constructor|done|done| |].
  { intros q Hin. by apply not_elem_of_nil in Hin. }
  assert (Hl : _dump_table d [] = Ok (with_blanks items tables)).
  { unfold _dump_table. cbn [dump_table]. rewrite Hi. cbn [mbind result_bind]. by rewrite dump_tables, Ht. }
  injection Hz as Hz. pose proof (runs_with_blanks _ _ _ _ _ Hr Hrt) as Hrun. unfold dumps. rewrite Hl. cbn [mbind result_bind].
  eexists. split; [done|]. destruct (with_blanks items tables) as [|l lines].
  - specialize (Hrun newline 2%nat). rewrite Hz. exact Hrun.
  - rewrite text_of_lines by done. unfold loads. pose proof (text_of_length (l :: lines)) as Hlen.
    specialize (Hrun [] (S (length (text_of (l :: lines))) - length (l :: lines))%nat). rewrite app_nil_r in Hrun.
    replace (length (l :: lines) + (S (length (text_of (l :: lines))) - length (l :: lines)))%nat
      with (S (length (text_of (l :: lines)))) in Hrun by lia.
    unfold resume in Hrun at 1. cbn [sc_header sc_declared sc_data] in Hrun. rewrite Hrun.
    destruct (S (length (text_of (l :: lines))) - length (l :: lines))%nat eqn:E; [lia|]. by rewrite Hz.
Qed.

(** A configuration that is written can be read: printing any table of bare keys, numbers,
    booleans, arrays and strings of the basic plane succeeds, and parsing the text gives the
    same table, with nested tables behind the other entries. *)
Theorem toml_roundtrip d :
  table_ok (VDict d) = true -> exists text, dumps d = Ok text /\ loads text = Ok (ordered d).
Proof. apply table_reads_back. Qed.

(** ** Characters beyond the basic plane *)

Lemma astral_escape cp fuel r : is_scalar cp -> 65536 <= cp -> is_ok (string_body fuel (escape_code_point cp ++ r)) = false.
Proof.
  intros [Hcp _] Hlt. unfold escape_code_point.
  assert (short_escape cp = None) as ->.
  { unfold short_escape. repeat match goal with |- context [cp =? ?k] => rewrite (proj2 (Z.eqb_neq cp k)) by lia end. done. }
  rewrite (proj2 (andb_false_iff _ _)) by (right; apply Z.leb_gt; lia). rewrite (proj2 (Z.ltb_ge cp 65536)) by lia.
  set (hi := 55296 + (cp - 65536) / 1024). set (lo := 56320 + (cp - 65536) mod 1024).
  assert (Hhi : 55296 <= hi <= 56319) by (unfold hi; Z.to_euclidean_division_equations; lia).
  rewrite <- (assoc_L (++)), (u_escape_app hi). destruct fuel as [|fuel]; [done|]. cbn [string_body]. unfold string_char.
  match goal with |- context [hex4 ?x] => replace (hex4 x) with (Some (hi, u_escape lo ++ r)) by (symmetry; apply hex4_u_escape; lia) end.
  unfold scalar_escape, is_surrogate. rewrite (proj2 (andb_true_iff _ _)) by (rewrite !Z.leb_le; lia). reflexivity.
Qed.

Lemma astral_body cps fuel r :
  Forall is_scalar cps -> Exists (λ cp, 65536 <= cp) cps -> is_ok (string_body fuel (concat (escape_code_point <$> cps) ++ r)) = false.
Proof.
  intros Hs. revert fuel. induction Hs as [|cp cps Hcp Hs IH]; intros fuel Hex; [by apply Exists_nil in Hex|].
  rewrite fmap_cons. cbn [concat]. rewrite <- (assoc_L (++)). destruct (Z_le_gt_dec 65536 cp) as [Hle|Hgt]; [by apply astral_escape|].
  apply Exists_cons in Hex as [?|Hex]; [lia|]. destruct fuel as [|fuel]; [done|]. rewrite code_point_reads by (done || lia).
  specialize (IH fuel Hex). by destruct (string_body fuel _).
Qed.

(** A string with a character beyond the basic plane is written as a pair of surrogate
    escapes, which TOML does not allow: the file is written and can never be read. *)
Theorem astral_unreadable k s :
  bare_ok k = true -> text_ok true s = true -> Exists (λ cp, 65536 <= cp) (code_points s) ->
  exists text, dumps [(k, VStr s)] = Ok text /\ is_ok (loads text) = false.
Proof.
  intros Hk Hok Hex. exists ((lit k ++ lit " = " ++ json_string true s) ++ newline). split; [done|]. unfold loads.
  cbn [text_ok] in Hok. unfold code_points in Hex. destruct (utf8_decode (encode_utf8 s)) as [cps|] eqn:Ed; [|done].
  change (default (encode_utf8 s) (Some cps)) with cps in Hex. destruct (utf8_decode_encode _ _ (encode_utf8_bytes s) Ed) as [Hs _].
  cbn [statements]. rewrite <- !(assoc_L (++)), skip_blanks_bare by done. destruct (bare_chars k Hk) as (c & t & E & Hc & _).
  pose proof (bare_not c Hc) as (_ & H2 & H3 & H4 & _).
  remember (lit k ++ lit " = " ++ json_string true s ++ newline) as all eqn:Ea. destruct all as [|c' all]; [unfold lit in Ea at 1; by rewrite E in Ea|].
  assert (c' = c) as -> by (unfold lit in Ea at 1; rewrite E in Ea; cbn [app] in Ea; congruence).
  rewrite H2, H3, H4. cbv iota. rewrite Ea.
  change (lit " = " ++ json_string true s ++ newline) with (ascii_of_byte 32 :: (lit "= " ++ json_string true s ++ newline)).
  rewrite bare_key_reads by done. cbn [mbind result_bind].
  change (skip_blanks (ascii_of_byte 32 :: lit "= " ++ json_string true s ++ newline))
    with (ascii_of_byte 61 :: ascii_of_byte 32 :: json_string true s ++ newline).
  change (byte_of_ascii (ascii_of_byte 61) =? 61) with true. cbv iota. rewrite skip_blanks_cons by done.
  rewrite json_string_body. change (skip_blanks ((quote_char :: ?x) ++ newline)) with (quote_char :: x ++ newline).
  rewrite <- (assoc_L (++)). cbn [toml_value]. change (byte_of_ascii quote_char =? 34) with true. cbv iota.
  destruct (opens_multiline _); [done|]. unfold basic_string, json_body, code_points. rewrite Ed. change (default (encode_utf8 s) (Some cps)) with cps.
  match goal with |- context [string_body ?f (concat (escape_code_point <$> cps) ++ ?r)] =>
    pose proof (astral_body cps f r Hs Hex) as Hb; by destruct (string_body f (concat (escape_code_point <$> cps) ++ r)) end.
Qed.

(** ** Samples *)

(** The characters of a text in which every single quote stands for a double one. *)
Definition quoted_text (s : string) : chars := (λ c, if byte_of_ascii c =? 39 then quote_char else c) <$> str_chars s.

Definition sample_config : dict :=
  [("moniker", VStr "xian-node"); ("p2p", VDict [("laddr", VStr "tcp://0.0.0.0:26656"); ("libp2p", VDict [("enabled", VBool false);
    ("bootstrap_peers", VList [])]); ("max_num_inbound_peers", VInt 40)]); ("timeout", VFloat "1.5");
   ("rpc", VDict [("cors_allowed_methods", VList [VStr "HEAD"; VStr "GET"])])].

Lemma toml_roundtrip_witness : exists text, dumps sample_config = Ok text /\ loads text = Ok (ordered sample_config).
Proof. apply (toml_roundtrip sample_config). vm_compute. reflexivity. Defined.

(** The character [U+1F600]. *)
Definition astral_text : string := String.string_of_list_ascii (ascii_of_byte <$> [240; 159; 152; 128]).

Lemma astral_unreadable_witness : exists text, dumps [("moniker", VStr astral_text)] = Ok text /\ is_ok (loads text) = false.
Proof.
  apply (astral_unreadable "moniker" astral_text); [vm_compute; reflexivity..|]. apply Exists_exists. exists 128512. split; [|lia].
  vm_compute. left.
Defined.

Example toml_comment :
  loads (quoted_text "# a node
moniker = 'x' # name

[p2p]
peers = [ 'a',
  'b', ]
") = Ok [("moniker", VStr "x"); ("p2p", VDict [("peers", VList [VStr "a"; VStr "b"])])].
Proof. vm_compute. reflexivity. Qed.
