(* ===== verification/NodeConfig.v ===== *)
(** * Node configuration (src/src/xian/node_setup.py, services/bds/config.py)

    The options of a node, their validation, the two configuration files rendered from them
    and the home directory they are written to; and the settings a starting node reads from
    its configuration (xian_abci.py, services/bds/config.py).

    Options have the types of their annotations; a float is its literal, and comparing two
    floats is a parameter. *)

From S2P Require Import Prelude PyValue Json PyBuiltins Encoding FeePolicy Toml.

#[local] Notation dict := (list (string * value)).

(** ** Templates *)

Definition DEFAULT_COMETBFT_CONFIG_TOML : chars := quoted_text "version = '0.39.3'
proxy_app = 'unix:///tmp/abci.sock'
moniker = 'xian-node'
db_backend = 'goleveldb'
db_dir = 'data'
log_level = 'info'
log_format = 'plain'
genesis_file = 'config/genesis.json'
priv_validator_key_file = 'config/priv_validator_key.json'
priv_validator_state_file = 'data/priv_validator_state.json'
priv_validator_laddr = ''
node_key_file = 'config/node_key.json'
abci = 'socket'
filter_peers = false

[rpc]
laddr = 'tcp://127.0.0.1:26657'
cors_allowed_origins = [ '*',]
cors_allowed_methods = [ 'HEAD', 'GET', 'POST',]
cors_allowed_headers = [ 'Origin', 'Accept', 'Content-Type', 'X-Requested-With', 'X-Server-Time',]
grpc_laddr = ''
grpc_max_open_connections = 900
unsafe = false
max_open_connections = 900
max_subscription_clients = 100
max_subscriptions_per_client = 5
experimental_subscription_buffer_size = 200
experimental_websocket_write_buffer_size = 200
experimental_close_on_slow_client = false
timeout_broadcast_tx_commit = '10s'
max_body_bytes = 10485760
max_header_bytes = 1048576
tls_cert_file = ''
tls_key_file = ''
pprof_laddr = ''

[p2p]
laddr = 'tcp://0.0.0.0:26656'
external_address = ''
seeds = ''
persistent_peers = ''
addr_book_file = 'config/addrbook.json'
addr_book_strict = true
max_num_inbound_peers = 40
max_num_outbound_peers = 10
unconditional_peer_ids = ''
persistent_peers_max_dial_period = '0s'
flush_throttle_timeout = '100ms'
max_packet_msg_payload_size = 1024
send_rate = 5120000
recv_rate = 5120000
pex = true
seed_mode = false
private_peer_ids = ''
allow_duplicate_ip = false
handshake_timeout = '20s'
dial_timeout = '3s'

[p2p.libp2p]
enabled = false
bootstrap_peers = []

[mempool]
type = 'flood'
recheck = true
broadcast = true
wal_dir = ''
size = 5000
max_txs_bytes = 1073741824
cache_size = 10000
keep-invalid-txs-in-cache = false
max_tx_bytes = 4194304
max_batch_bytes = 0
experimental_max_gossip_connections_to_persistent_peers = 0
experimental_max_gossip_connections_to_non_persistent_peers = 0

[statesync]
enable = false
rpc_servers = ''
trust_height = 0
trust_hash = ''
trust_period = '168h0m0s'
discovery_time = '15s'
temp_dir = ''
chunk_request_timeout = '10s'
chunk_fetchers = '4'

[blocksync]
version = 'v0'
adaptive_sync = false

[consensus]
wal_file = 'data/cs.wal/wal'
timeout_propose = '3s'
timeout_propose_delta = '500ms'
timeout_prevote = '1s'
timeout_prevote_delta = '500ms'
timeout_precommit = '1s'
timeout_precommit_delta = '500ms'
timeout_commit = '1s'
double_sign_check_height = 0
skip_timeout_commit = false
create_empty_blocks = false
create_empty_blocks_interval = '0s'
peer_gossip_sleep_duration = '100ms'
peer_query_maj23_sleep_duration = '2s'

[storage]
discard_abci_responses = false

[tx_index]
indexer = 'kv'
psql-conn = ''

[instrumentation]
prometheus = true
prometheus_listen_addr = ':26660'
max_open_connections = 3
namespace = 'cometbft'".

Definition DEFAULT_XIAN_CONFIG_TOML : chars := quoted_text "bds_enabled = false
pruning_enabled = false
blocks_to_keep = 100000
metrics_enabled = true
metrics_host = '127.0.0.1'
metrics_port = 9108
metrics_bds_refresh_seconds = 5.0
transaction_trace_logging = false
app_log_level = 'INFO'
app_log_json = false
app_log_rotation_hours = 1
app_log_retention_days = 7
app_log_max_file_mb = 50
app_log_max_total_mb = 250
simulation_enabled = true
simulation_max_concurrency = 2
simulation_timeout_ms = 3000
simulation_max_chi = 1000000
tx_fee_mode = 'paid_metered'
free_tx_max_chi = 1000000
free_block_max_chi = 20000000
parallel_execution_enabled = false
parallel_execution_workers = 4
parallel_execution_min_transactions = 8
parallel_execution_max_speculative_waves = 4
parallel_execution_min_wave_acceptance_ratio = 0.25
parallel_execution_low_acceptance_min_wave_size = 8
parallel_execution_warm_workers = true
parallel_execution_access_estimates_enabled = true
pending_nonce_reservation_ttl_seconds = 60.0
max_pending_nonces_per_sender = 128

[bds]
dsn = ''
host = ''
port = 5432
database = 'xian'
user = ''
password = ''
pool_min_size = 1
pool_max_size = 10
statement_timeout_ms = 0
acquire_timeout_ms = 10000
application_name = 'xian-bds'
queue_max_size = 128
catchup_enabled = true
catchup_poll_seconds = 1.0
rpc_url = ''
spool_dir = ''
spool_warn_entries = 256
spool_warn_bytes = 536870912
disk_free_warn_bytes = 2147483648".

Definition cometbft_template : dict := Eval vm_compute in ok_or [] (Toml.loads DEFAULT_COMETBFT_CONFIG_TOML).
Definition xian_template : dict := Eval vm_compute in ok_or [] (Toml.loads DEFAULT_XIAN_CONFIG_TOML).

Lemma templates_load :
  Toml.loads DEFAULT_COMETBFT_CONFIG_TOML = Ok cometbft_template /\ Toml.loads DEFAULT_XIAN_CONFIG_TOML = Ok xian_template.
Proof. split; vm_compute; reflexivity. Qed.

(** ** Options *)

Definition SUPPORTED_BLOCK_POLICY_MODES : list string := ["on_demand"; "idle_interval"; "periodic"].
Definition SUPPORTED_APP_LOG_LEVELS : list string := ["TRACE"; "DEBUG"; "INFO"; "SUCCESS"; "WARNING"; "ERROR"; "CRITICAL"].

Record StateSyncOptions := MkStateSync {
  ss_enable : bool; ss_rpc_servers : list string; ss_trust_height : Z; ss_trust_hash : string; ss_trust_period : string }.
Record MetricsOptions := MkMetrics { mt_enabled : bool; mt_host : string; mt_port : Z; mt_bds_refresh_seconds : string }.
Record AppLoggingOptions := MkAppLogging {
  al_level : string; al_json_logging : bool; al_rotation_hours : Z; al_retention_days : Z; al_max_file_mb : Z; al_max_total_mb : Z }.
Record SimulationOptions := MkSimulation { so_enabled : bool; so_max_concurrency : Z; so_timeout_ms : Z; so_max_chi : Z }.
Record ParallelExecutionOptions := MkParallel {
  pe_enabled : bool; pe_workers : Z; pe_min_transactions : Z; pe_max_speculative_waves : Z; pe_min_wave_acceptance_ratio : string;
  pe_low_acceptance_min_wave_size : Z; pe_warm_workers : bool; pe_access_estimates_enabled : bool }.
Record BdsOptions := MkBds {
  bo_dsn : string; bo_host : string; bo_port : Z; bo_database : string; bo_user : string; bo_password : string;
  bo_pool_min_size : Z; bo_pool_max_size : Z; bo_statement_timeout_ms : Z; bo_acquire_timeout_ms : Z; bo_application_name : string;
  bo_queue_max_size : Z; bo_catchup_enabled : bool; bo_catchup_poll_seconds : string; bo_rpc_url : string; bo_spool_dir : string;
  bo_spool_warn_entries : Z; bo_spool_warn_bytes : Z; bo_disk_free_warn_bytes : Z }.
Record NodeConfigOptions := MkNodeConfig {
  nc_moniker : string; nc_p2p_seeds : list string; nc_p2p_persistent_peers : list string; nc_allow_cors : bool; nc_bds_enabled : bool;
  nc_enable_pruning : bool; nc_blocks_to_keep : Z; nc_transaction_trace_logging : bool; nc_block_policy_mode : string;
  nc_block_policy_interval : string; nc_statesync : StateSyncOptions; nc_metrics : MetricsOptions; nc_app_logging : AppLoggingOptions;
  nc_simulation : SimulationOptions; nc_tx_fee_mode : string; nc_free_tx_max_chi : Z; nc_free_block_max_chi : Z;
  nc_parallel_execution : ParallelExecutionOptions; nc_pending_nonce_reservation_ttl_seconds : string;
  nc_max_pending_nonces_per_sender : Z; nc_bds : BdsOptions; nc_proxy_app : string; nc_prometheus : bool }.

(** The defaults of the dataclasses. *)
Definition default_statesync : StateSyncOptions := MkStateSync false [] 0 "" "168h0m0s".
Definition default_metrics : MetricsOptions := MkMetrics true "127.0.0.1" 9108 "5.0".
Definition default_app_logging : AppLoggingOptions := MkAppLogging "INFO" false 1 7 50 250.
Definition default_simulation : SimulationOptions := MkSimulation true 2 3000 1000000.
Definition default_parallel : ParallelExecutionOptions := MkParallel false 4 8 4 "0.25" 8 true true.
Definition default_bds : BdsOptions :=
  MkBds "" "" 5432 "xian" "" "" 1 10 0 10000 "xian-bds" 128 true "1.0" "" "" 256 536870912 2147483648.
Definition default_options (moniker : string) : NodeConfigOptions :=
  MkNodeConfig moniker [] [] true false false 100000 false "on_demand" "0s" default_statesync default_metrics default_app_logging
    default_simulation DEFAULT_TX_FEE_MODE DEFAULT_FREE_TX_MAX_CHI DEFAULT_FREE_BLOCK_MAX_CHI default_parallel "60.0" 128 default_bds
    "unix:///tmp/abci.sock" true.

Section NodeConfig.
(** [a <= b] of two floats *)
Context (float_le : string -> string -> bool).

Definition resolve_block_policy (mode interval : string) : result (bool * string) :=
  _ ← check_py (bool_decide (mode ∈ SUPPORTED_BLOCK_POLICY_MODES)) ValueError "block_policy_mode is not supported";
  _ ← check_py (negb (bool_decide (interval = ""))) ValueError "block_policy_interval must be a non-empty string";
  if decide (mode = "on_demand") then Ok (false, "0s")
  else
    _ ← check_py (negb (bool_decide (interval = "0s"))) ValueError
          "block_policy_interval must be non-zero for idle_interval and periodic modes";
    Ok (if decide (mode = "idle_interval") then (false, interval) else (true, interval)).

Definition resolve_simulation_settings (o : SimulationOptions) : result SimulationOptions :=
  _ ← check_py (negb (so_max_concurrency o <=? 0)) ValueError "simulation_max_concurrency must be greater than zero";
  _ ← check_py (negb (so_timeout_ms o <=? 0)) ValueError "simulation_timeout_ms must be greater than zero";
  _ ← check_py (negb (so_max_chi o <=? 0)) ValueError "simulation_max_chi must be greater than zero";
  Ok o.

Definition validate_node_runtime_settings (o : NodeConfigOptions) : result unit :=
  let require (b : bool) m := check_py b ValueError m in
  let p := nc_parallel_execution o in let b := nc_bds o in
  _ ← normalize_tx_fee_mode (VStr (nc_tx_fee_mode o));
  _ ← require (negb (nc_free_tx_max_chi o <=? 0)) "free_tx_max_chi must be greater than zero";
  _ ← require (negb (nc_free_block_max_chi o <=? 0)) "free_block_max_chi must be greater than zero";
  _ ← require (negb (nc_free_block_max_chi o <? nc_free_tx_max_chi o)) "free_block_max_chi must be greater than or equal to free_tx_max_chi";
  _ ← require (negb (nc_blocks_to_keep o <=? 0)) "blocks_to_keep must be greater than zero";
  _ ← require (negb ((mt_port (nc_metrics o) <? 1) || (65535 <? mt_port (nc_metrics o)))) "metrics_port must be between 1 and 65535";
  _ ← require (negb (float_le (mt_bds_refresh_seconds (nc_metrics o)) "0.0")) "metrics_bds_refresh_seconds must be greater than zero";
  _ ← require (negb (pe_enabled p && (pe_workers p <=? 0)))
        "parallel_execution_workers must be greater than zero when parallel_execution_enabled is true";
  _ ← require (negb (pe_min_transactions p <? 1)) "parallel_execution_min_transactions must be greater than zero";
  _ ← require (negb (pe_max_speculative_waves p <? 0)) "parallel_execution_max_speculative_waves must be non-negative";
  _ ← require (float_le "0.0" (pe_min_wave_acceptance_ratio p) && float_le (pe_min_wave_acceptance_ratio p) "1.0")
        "parallel_execution_min_wave_acceptance_ratio must be between 0.0 and 1.0";
  _ ← require (negb (pe_low_acceptance_min_wave_size p <? 1)) "parallel_execution_low_acceptance_min_wave_size must be greater than zero";
  _ ← require (float_le "0.0" (nc_pending_nonce_reservation_ttl_seconds o)) "pending_nonce_reservation_ttl_seconds must be non-negative";
  _ ← require (negb (nc_max_pending_nonces_per_sender o <? 1)) "max_pending_nonces_per_sender must be greater than zero";
  _ ← require (negb ((bo_port b <? 1) || (65535 <? bo_port b))) "bds_port must be between 1 and 65535";
  _ ← require (negb (bo_pool_min_size b <? 0)) "bds_pool_min_size must be non-negative";
  _ ← require (negb (bo_pool_max_size b <? 1)) "bds_pool_max_size must be greater than zero";
  _ ← require (negb (bo_pool_max_size b <? bo_pool_min_size b)) "bds_pool_min_size must be less than or equal to bds_pool_max_size";
  _ ← require (negb (bo_statement_timeout_ms b <? 0)) "bds_statement_timeout_ms must be non-negative";
  _ ← require (negb (bo_acquire_timeout_ms b <? 0)) "bds_acquire_timeout_ms must be non-negative";
  _ ← require (negb (bo_queue_max_size b <? 1)) "bds_queue_max_size must be greater than zero";
  _ ← require (negb (float_le (bo_catchup_poll_seconds b) "0.0")) "bds_catchup_poll_seconds must be greater than zero";
  _ ← require (negb (bo_spool_warn_entries b <? 0)) "bds_spool_warn_entries must be non-negative";
  _ ← require (negb (bo_spool_warn_bytes b <? 0)) "bds_spool_warn_bytes must be non-negative";
  require (negb (bo_disk_free_warn_bytes b <? 0)) "bds_disk_free_warn_bytes must be non-negative".

Definition resolve_app_logging_settings (o : AppLoggingOptions) : result AppLoggingOptions :=
  let level := py_upper (al_level o) in
  _ ← check_py (bool_decide (level ∈ SUPPORTED_APP_LOG_LEVELS)) ValueError "app_log_level is not supported";
  _ ← check_py (negb (al_rotation_hours o <=? 0)) ValueError "app_log_rotation_hours must be a positive integer";
  _ ← check_py (negb (al_retention_days o <=? 0)) ValueError "app_log_retention_days must be a positive integer";
  _ ← check_py (negb (al_max_file_mb o <=? 0)) ValueError "app_log_max_file_mb must be a positive integer";
  _ ← check_py (negb (al_max_total_mb o <=? 0)) ValueError "app_log_max_total_mb must be a positive integer";
  _ ← check_py (negb (al_max_total_mb o <? al_max_file_mb o)) ValueError "app_log_max_total_mb must cover app_log_max_file_mb";
  Ok (MkAppLogging level (al_json_logging o) (al_rotation_hours o) (al_retention_days o) (al_max_file_mb o) (al_max_total_mb o)).

(** [",".join(l)] *)
Definition comma_join (l : list string) : string := String.string_of_list_ascii (join_sep (lit ",") (lit <$> l)).

Record statesync_settings := StateSync { st_enable : bool; st_rpc_servers : string; st_trust_height : Z; st_trust_hash : string; st_trust_period : string }.

Definition resolve_statesync_settings (o : StateSyncOptions) : result statesync_settings :=
  if negb (ss_enable o) then Ok (StateSync false "" 0 "" (ss_trust_period o))
  else
    let normalized_servers := filter (λ s, s <> "") (py_strip <$> ss_rpc_servers o) in
    _ ← check_py (negb (Z.of_nat (length normalized_servers) <? 2)) ValueError
          "statesync requires at least two RPC servers for light-client verification";
    _ ← check_py (negb (ss_trust_height o <=? 0)) ValueError "statesync_trust_height must be greater than zero";
    _ ← check_py (negb (bool_decide (ss_trust_hash o = ""))) ValueError "statesync_trust_hash must be provided when statesync is enabled";
    Ok (StateSync true (comma_join normalized_servers) (ss_trust_height o) (ss_trust_hash o) (ss_trust_period o)).

(** ** Rendering *)

(** [config[section][key] = v] *)
Definition set_in (section key : string) (v : value) (d : dict) : result dict :=
  t ← py_item section (VDict d);
  match t with
  | VDict t => Ok (dict_set section (VDict (dict_set key v t)) d)
  | _ => raise TypeError "object does not support item assignment"
  end.

Definition render_cometbft (o : NodeConfigOptions) (blocks : bool * string) (s : statesync_settings) (d : dict) : result dict :=
  let d := dict_set "moniker" (VStr (nc_moniker o)) (dict_set "proxy_app" (VStr (nc_proxy_app o)) d) in
  d ← set_in "consensus" "create_empty_blocks" (VBool blocks.1) d;
  d ← set_in "consensus" "create_empty_blocks_interval" (VStr blocks.2) d;
  d ← set_in "p2p" "seeds" (VStr (comma_join (nc_p2p_seeds o))) d;
  d ← set_in "p2p" "persistent_peers" (VStr (comma_join (nc_p2p_persistent_peers o))) d;
  d ← set_in "rpc" "cors_allowed_origins" (VList (if nc_allow_cors o then [VStr "*"] else [])) d;
  d ← set_in "instrumentation" "prometheus" (VBool (nc_prometheus o)) d;
  d ← set_in "statesync" "enable" (VBool (st_enable s)) d;
  d ← set_in "statesync" "rpc_servers" (VStr (st_rpc_servers s)) d;
  d ← set_in "statesync" "trust_height" (VInt (st_trust_height s)) d;
  d ← set_in "statesync" "trust_hash" (VStr (st_trust_hash s)) d;
  set_in "statesync" "trust_period" (VStr (st_trust_period s)) d.

Definition bds_table (b : BdsOptions) : dict :=
  [("dsn", VStr (bo_dsn b)); ("host", VStr (bo_host b)); ("port", VInt (bo_port b)); ("database", VStr (bo_database b));
   ("user", VStr (bo_user b)); ("password", VStr (bo_password b)); ("pool_min_size", VInt (bo_pool_min_size b));
   ("pool_max_size", VInt (bo_pool_max_size b)); ("statement_timeout_ms", VInt (bo_statement_timeout_ms b));
   ("acquire_timeout_ms", VInt (bo_acquire_timeout_ms b)); ("application_name", VStr (bo_application_name b));
   ("queue_max_size", VInt (bo_queue_max_size b)); ("catchup_enabled", VBool (bo_catchup_enabled b));
   ("catchup_poll_seconds", VFloat (bo_catchup_poll_seconds b)); ("rpc_url", VStr (bo_rpc_url b)); ("spool_dir", VStr (bo_spool_dir b));
   ("spool_warn_entries", VInt (bo_spool_warn_entries b)); ("spool_warn_bytes", VInt (bo_spool_warn_bytes b));
   ("disk_free_warn_bytes", VInt (bo_disk_free_warn_bytes b))].

Definition xian_updates (o : NodeConfigOptions) (l : AppLoggingOptions) (s : SimulationOptions) (mode : string) : dict :=
  let m := nc_metrics o in let p := nc_parallel_execution o in
  [("bds_enabled", VBool (nc_bds_enabled o)); ("pruning_enabled", VBool (nc_enable_pruning o)); ("blocks_to_keep", VInt (nc_blocks_to_keep o));
   ("metrics_enabled", VBool (mt_enabled m)); ("metrics_host", VStr (mt_host m)); ("metrics_port", VInt (mt_port m));
   ("metrics_bds_refresh_seconds", VFloat (mt_bds_refresh_seconds m)); ("transaction_trace_logging", VBool (nc_transaction_trace_logging o));
   ("app_log_level", VStr (al_level l)); ("app_log_json", VBool (al_json_logging l)); ("app_log_rotation_hours", VInt (al_rotation_hours l));
   ("app_log_retention_days", VInt (al_retention_days l)); ("app_log_max_file_mb", VInt (al_max_file_mb l));
   ("app_log_max_total_mb", VInt (al_max_total_mb l)); ("simulation_enabled", VBool (so_enabled s));
   ("simulation_max_concurrency", VInt (so_max_concurrency s)); ("simulation_timeout_ms", VInt (so_timeout_ms s));
   ("simulation_max_chi", VInt (so_max_chi s)); ("tx_fee_mode", VStr mode); ("free_tx_max_chi", VInt (nc_free_tx_max_chi o));
   ("free_block_max_chi", VInt (nc_free_block_max_chi o)); ("parallel_execution_enabled", VBool (pe_enabled p));
   ("parallel_execution_workers", VInt (pe_workers p)); ("parallel_execution_min_transactions", VInt (pe_min_transactions p));
   ("parallel_execution_max_speculative_waves", VInt (pe_max_speculative_waves p));
   ("parallel_execution_min_wave_acceptance_ratio", VFloat (pe_min_wave_acceptance_ratio p));
   ("parallel_execution_low_acceptance_min_wave_size", VInt (pe_low_acceptance_min_wave_size p));
   ("parallel_execution_warm_workers", VBool (pe_warm_workers p));
   ("parallel_execution_access_estimates_enabled", VBool (pe_access_estimates_enabled p));
   ("pending_nonce_reservation_ttl_seconds", VFloat (nc_pending_nonce_reservation_ttl_seconds o));
   ("max_pending_nonces_per_sender", VInt (nc_max_pending_nonces_per_sender o)); ("bds", VDict (bds_table (nc_bds o)))].

(** The pair of [config.toml] and [xian.toml]. *)
Definition render_node_configs (o : NodeConfigOptions) : result (dict * dict) :=
  _ ← validate_node_runtime_settings o;
  cometbft_config ← Toml.loads DEFAULT_COMETBFT_CONFIG_TOML; xian_config ← Toml.loads DEFAULT_XIAN_CONFIG_TOML;
  blocks ← resolve_block_policy (nc_block_policy_mode o) (nc_block_policy_interval o);
  statesync ← resolve_statesync_settings (nc_statesync o);
  app_logging ← resolve_app_logging_settings (nc_app_logging o);
  simulation ← resolve_simulation_settings (nc_simulation o);
  cometbft_config ← render_cometbft o blocks statesync cometbft_config;
  mode ← normalize_tx_fee_mode (VStr (nc_tx_fee_mode o));
  Ok (cometbft_config, dict_update xian_config (xian_updates o app_logging simulation mode)).

Definition render_cometbft_config (o : NodeConfigOptions) : result dict := fst <$> render_node_configs o.
Definition render_xian_config (o : NodeConfigOptions) : result dict := snd <$> render_node_configs o.

(** ** Key material *)

(** Public key of an Ed25519 seed, Base64, random bytes and [encode_wire] *)
Context (public_key sha256 : bytes -> bytes) (b64encode : bytes -> string) (b64decode : string -> result bytes)
        (token_bytes : bytes) (encode_wire : value -> result string).

(** [len] counts characters; a string that is not ASCII is refused by [fromhex]. *)
Definition _normalize_private_key (private_key_hex : option string) : result bytes :=
  match private_key_hex with
  | None => Ok token_bytes
  | Some s =>
    _ ← check_py (length (code_points s) =? 64)%nat ValueError "private key must be a 64-character hex string";
    match fromhex s with
    | Ok b => Ok b
    | Raise (Exn ValueError _) => raise ValueError "private key must be valid hex"
    | Raise e => Raise e
    end
  end.

(** [SigningKey] takes a seed of 32 bytes. *)
Definition _build_ed25519_key_material (seed : bytes) : result (bytes * string) :=
  _ ← check_py (length seed =? 32)%nat ValueError "The seed must be exactly 32 bytes long";
  Ok (public_key seed, b64encode (seed ++ public_key seed)).

Definition key_entry (type v : string) : value := VDict [("type", VStr type); ("value", VStr v)].

Definition build_priv_validator_key (private_key_hex : option string) : result dict :=
  seed ← _normalize_private_key private_key_hex;
  '(public_key_bytes, priv_key_b64) ← _build_ed25519_key_material seed;
  Ok [("address", VStr (py_upper (bytes_hex (take 20 (sha256 public_key_bytes)))));
      ("pub_key", key_entry "tendermint/PubKeyEd25519" (b64encode public_key_bytes));
      ("priv_key", key_entry "tendermint/PrivKeyEd25519" priv_key_b64);
      ("_private_key_hex", VStr (bytes_hex seed))].

(** Without the private key. *)
Definition public_part (key : dict) : dict := filter (λ kv, kv.1 <> "_private_key_hex") key.

Definition generate_validator_material (private_key_hex : option string) : result dict :=
  seed ← _normalize_private_key private_key_hex;
  priv_validator_key ← build_priv_validator_key (Some (bytes_hex seed));
  pub ← py_item "pub_key" (VDict priv_validator_key); v ← py_item "value" pub;
  public_key_bytes ← match v with VStr s => b64decode s | _ => raise AttributeError "object has no attribute 'encode'" end;
  private ← py_item "_private_key_hex" (VDict priv_validator_key);
  Ok [("validator_private_key_hex", private); ("validator_public_key_hex", VStr (bytes_hex public_key_bytes));
      ("priv_validator_key", VDict (public_part priv_validator_key))].

Definition build_node_key (private_key_hex : option string) : result dict :=
  seed ← _normalize_private_key private_key_hex;
  '(public_key_bytes, priv_key_b64) ← _build_ed25519_key_material seed;
  Ok [("node_id", VStr (py_upper (bytes_hex (take 20 (sha256 public_key_bytes)))));
      ("priv_key", key_entry "tendermint/PrivKeyEd25519" priv_key_b64)].

Definition build_priv_validator_state : dict := [("height", VStr "0"); ("round", VInt 0); ("step", VInt 0)].

(** ** The home directory *)

(** The files below the home, by their path. *)
#[local] Notation files := (gmap string chars).

(** Opening a file for writing empties it before its text is computed. *)
Definition write_file (path : string) (overwrite : bool) (text : result chars) : stM files unit := λ fs,
  if bool_decide (is_Some (fs !! path)) && negb overwrite then (raise FileExistsError (path +:+ " already exists"), fs)
  else match text with
       | Ok t => (Ok tt, <[path := t]> fs)
       | Raise e => (Raise e, <[path := []]> fs)
       end.

Definition write_json (path : string) (payload : dict) (overwrite : bool) : stM files unit :=
  write_file path overwrite (s ← encode_wire (VDict payload); Ok (str_chars s ++ newline)).
Definition write_toml (path : string) (payload : dict) (overwrite : bool) : stM files unit :=
  write_file path overwrite (Toml.dumps payload).

(** Write a file unless it is there. *)
Definition write_missing (path : string) (payload : result dict) : stM files unit := λ fs,
  if bool_decide (is_Some (fs !! path)) then (Ok tt, fs) else (d ← lift_res payload; write_json path d false) fs.

Definition node_key_file : string := "config/node_key.json".
Definition priv_validator_state_file : string := "data/priv_validator_state.json".

Definition materialize_cometbft_home (config xian_config genesis priv_validator_key : dict) (node_key : option dict) (overwrite : bool)
  : stM files unit :=
  _ ← write_toml "config/config.toml" config overwrite;
  _ ← write_toml "config/xian.toml" xian_config overwrite;
  _ ← write_json "config/genesis.json" genesis overwrite;
  _ ← write_json "config/priv_validator_key.json" (public_part priv_validator_key) overwrite;
  _ ← write_missing node_key_file
        (key ← match node_key with Some ((_ :: _) as k) => Ok k | _ => build_node_key None end;
         priv ← py_item "priv_key" (VDict key); Ok [("priv_key", priv)]);
  write_missing priv_validator_state_file (Ok build_priv_validator_state).

(** ** What a starting node reads *)

(** [str] of other values, [int(float)], and [float] of a value that is not a float *)
Context (py_str : value -> string) (float_trunc : string -> result Z) (float_of : value -> result string).

(** [str(v)] of a bool is "True" or "False". *)
Definition str_of_setting (v : value) : string :=
  match v with VBool b => if b then "True" else "False" | _ => to_str py_str v end.

Definition is_empty_setting (v : value) : bool := match v with VNone => true | VStr s => bool_decide (s = "") | _ => false end.

Definition _first_non_empty (values : list value) (default_value : value) : value :=
  match filter (λ v, is_empty_setting v = false) values with v :: _ => v | [] => default_value end.

Definition _coerce_int (v : value) (default_value : Z) : result Z :=
  match py_int float_trunc (_first_non_empty [v] (VInt default_value)) with
  | Ok z => Ok z
  | Raise (Exn TypeError _) | Raise (Exn ValueError _) => Ok default_value
  | Raise e => Raise e
  end.

Definition py_float (v : value) : result string := match v with VFloat r => Ok r | _ => float_of v end.

Definition _coerce_float (v : value) (default_value : string) : result string :=
  match py_float (_first_non_empty [v] (VFloat default_value)) with
  | Ok r => Ok r
  | Raise (Exn TypeError _) | Raise (Exn ValueError _) => Ok default_value
  | Raise e => Raise e
  end.

Record BdsConfig := MkBdsConfig {
  dsn : option string; host : string; port : Z; database : string; user : string; password : string; pool_min_size : Z;
  pool_max_size : Z; statement_timeout_ms : Z; acquire_timeout_ms : Z; application_name : string; queue_max_size : Z;
  catchup_enabled : bool; catchup_poll_seconds : string; rpc_url : option string; spool_dir : option string;
  spool_warn_entries : Z; spool_warn_bytes : Z; disk_free_warn_bytes : Z }.

(** The environment variable of a setting. *)
Definition env_get (environ : list (string * string)) (k : string) : value :=
  match dict_get k environ with Some s => VStr s | None => VNone end.

Definition from_runtime_settings (xian_config : option dict) (environ : list (string * string)) : result BdsConfig :=
  let runtime := default [] xian_config in
  let bds_settings := match py_get "bds" runtime (VDict []) with VDict d => d | _ => [] end in
  let setting k e default_value := _first_non_empty [py_get k bds_settings VNone; env_get environ e] default_value in
  let text k e default_value := str_of_setting (setting k e (VStr default_value)) in
  let int k e default_value := _coerce_int (setting k e VNone) default_value in
  let opt v := match v with VStr s => Some s | _ => None end in
  port ← int "port" "XIAN_BDS_PORT" 5432;
  pool_min_size ← int "pool_min_size" "XIAN_BDS_POOL_MIN_SIZE" 1;
  pool_max_size ← int "pool_max_size" "XIAN_BDS_POOL_MAX_SIZE" 10;
  statement_timeout_ms ← int "statement_timeout_ms" "XIAN_BDS_STATEMENT_TIMEOUT_MS" 0;
  acquire_timeout_ms ← int "acquire_timeout_ms" "XIAN_BDS_ACQUIRE_TIMEOUT_MS" 10000;
  queue_max_size ← int "queue_max_size" "XIAN_BDS_QUEUE_MAX_SIZE" 128;
  catchup_poll_seconds ← _coerce_float (setting "catchup_poll_seconds" "XIAN_BDS_CATCHUP_POLL_SECONDS" (VFloat "1.0")) "1.0";
  spool_warn_entries ← int "spool_warn_entries" "XIAN_BDS_SPOOL_WARN_ENTRIES" 256;
  spool_warn_bytes ← int "spool_warn_bytes" "XIAN_BDS_SPOOL_WARN_BYTES" 536870912;
  disk_free_warn_bytes ← int "disk_free_warn_bytes" "XIAN_BDS_DISK_FREE_WARN_BYTES" 2147483648;
  Ok (MkBdsConfig (opt (setting "dsn" "XIAN_BDS_DSN" VNone)) (text "host" "XIAN_BDS_HOST" "127.0.0.1") port
        (text "database" "XIAN_BDS_DATABASE" "xian") (text "user" "XIAN_BDS_USER" "xian") (text "password" "XIAN_BDS_PASSWORD" "")
        pool_min_size pool_max_size statement_timeout_ms acquire_timeout_ms
        (text "application_name" "XIAN_BDS_APPLICATION_NAME" "xian-bds") queue_max_size
        (negb (bool_decide (py_lower (str_of_setting (setting "catchup_enabled" "XIAN_BDS_CATCHUP_ENABLED" (VBool true)))
                            ∈ ["0"; "false"; "no"; "off"])))
        catchup_poll_seconds (opt (setting "rpc_url" "XIAN_BDS_RPC_URL" VNone)) (opt (setting "spool_dir" "XIAN_BDS_SPOOL_DIR" VNone))
        spool_warn_entries spool_warn_bytes disk_free_warn_bytes).

(** The bytes a transaction may have, by the mempool configuration. *)
Definition configured_max_tx_bytes (cometbft_config : dict) : result Z :=
  mempool ← match py_get "mempool" cometbft_config (VDict []) with
            | VDict d => Ok d
            | _ => raise AttributeError "object has no attribute 'get'"
            end;
  match py_int float_trunc (py_get "max_tx_bytes" mempool (VInt 4194304)) with
  | Ok z => Ok (Z.max z 1)
  | Raise (Exn TypeError _) | Raise (Exn ValueError _) => Ok 4194304
  | Raise e => Raise e
  end.

Definition level_rank (level : string) : option nat := fst <$> list_find (λ l, l = py_upper level) SUPPORTED_APP_LOG_LEVELS.

Definition log_level_includes (configured_level target_level : string) : result bool :=
  match level_rank configured_level, level_rank target_level with
  | Some configured_rank, Some target_rank => Ok (configured_rank <=? target_rank)%nat
  | _, _ => raise ValueError "log levels must be one of the supported levels"
  end.

(** [v and log_level_includes(level, target)] *)
Definition trace_at (v : value) (level target : string) : result value :=
  if truthy v then VBool <$> log_level_includes level target else Ok v.

(** What [configure_logging] takes from [xian.toml]. *)
Definition positive_limit (name : string) (v : value) : result Z :=
  match v with
  | VInt z => _ ← check_py (negb (z <=? 0)) ValueError ("app_log_" +:+ name +:+ " must be a positive integer"); Ok z
  | _ => raise ValueError ("app_log_" +:+ name +:+ " must be a positive integer")
  end.

Definition logging_settings (xian_config : dict) : result AppLoggingOptions :=
  let get k v := py_get k xian_config v in
  level ← match get "app_log_level" (VStr "INFO") with VStr s => Ok s | _ => raise ValueError "app_log_level must be a string" end;
  _ ← check_py (bool_decide (py_upper level ∈ SUPPORTED_APP_LOG_LEVELS)) ValueError "app_log_level is not supported";
  rotation_hours ← positive_limit "rotation_hours" (get "app_log_rotation_hours" (VInt 1));
  retention_days ← positive_limit "retention_days" (get "app_log_retention_days" (VInt 7));
  max_file_mb ← positive_limit "max_file_mb" (get "app_log_max_file_mb" (VInt 50));
  max_total_mb ← positive_limit "max_total_mb" (get "app_log_max_total_mb" (VInt 250));
  resolve_app_logging_settings
    (MkAppLogging level (truthy (get "app_log_json" (VBool false))) rotation_hours retention_days max_file_mb max_total_mb).

Definition metrics_settings (xian_config : dict) : result MetricsOptions :=
  let get k v := py_get k xian_config v in
  port ← py_int float_trunc (get "metrics_port" (VInt 9108));
  bds_refresh_seconds ← py_float (get "metrics_bds_refresh_seconds" (VFloat "5.0"));
  Ok (MkMetrics (truthy (get "metrics_enabled" (VBool true))) (str_of_setting (get "metrics_host" (VStr "127.0.0.1"))) port
        bds_refresh_seconds).

(** [resolve_local_rpc_url] (RpcUrl) at the URL functions of the standard library *)
Context (local_rpc_url : string -> result string).

Definition DEFAULT_RPC_LADDR : string := "tcp://127.0.0.1:26657".

Definition node_rpc_url (cometbft_config : dict) : result string :=
  match py_get "rpc" cometbft_config (VDict []) with
  | VDict rpc => local_rpc_url (str_of_setting (py_get "laddr" rpc (VStr DEFAULT_RPC_LADDR)))
  | _ => raise AttributeError "object has no attribute 'get'"
  end.

(** The spool directory and the node's own RPC address, where they are not configured. *)
Definition complete_bds_config (cometbft_config : dict) (storage_home : string) (b : BdsConfig) : result BdsConfig :=
  rpc ← match rpc_url b with Some u => Ok u | None => node_rpc_url cometbft_config end;
  Ok (MkBdsConfig (dsn b) (host b) (port b) (database b) (user b) (password b) (pool_min_size b) (pool_max_size b)
        (statement_timeout_ms b) (acquire_timeout_ms b) (application_name b) (queue_max_size b) (catchup_enabled b)
        (catchup_poll_seconds b) (Some rpc) (Some (default (storage_home +:+ "/bds-spool") (spool_dir b)))
        (spool_warn_entries b) (spool_warn_bytes b) (disk_free_warn_bytes b)).

(** The settings [Xian.__init__] takes from its two configuration files, in its order, with
    the conversions of the constructors it hands them to. *)
Record settings := Settings {
  pending_nonce_reservation_ttl : string; max_pending_nonces : Z; max_tx_bytes : Z; app_log_level : string;
  transaction_trace_logging : value; transaction_trace_debug_logging : value; transaction_trace_full_logging : value;
  tx_fee_policy : TxFeePolicy;
  simulation_enabled : value; simulation_max_concurrency : Z; simulation_timeout_ms : Z; simulation_max_chi : Z;
  bds_enabled : value; bds_config : BdsConfig; pruning : value; blocks_kept : value;
  parallel_enabled : value; parallel_workers : value; parallel_min_transactions : value; parallel_max_waves : value;
  parallel_min_ratio : value; parallel_low_wave_size : value; parallel_estimates : value; parallel_warm : value;
  metrics_config : MetricsOptions }.

Definition read_settings (cometbft_config xian_config : dict) (storage_home : string) (environ : list (string * string))
  : result settings :=
  let get k v := py_get k xian_config v in
  let at_least_one k v := (λ z, Z.max z 1) <$> py_int float_trunc (get k (VInt v)) in
  ttl ← py_float (get "pending_nonce_reservation_ttl_seconds" (VFloat "60.0"));
  max_pending ← at_least_one "max_pending_nonces_per_sender" 128;
  max_tx ← configured_max_tx_bytes cometbft_config;
  let level := py_upper (str_of_setting (get "app_log_level" (VStr "INFO"))) in
  let trace := get "transaction_trace_logging" (VBool false) in
  trace_debug ← trace_at trace level "DEBUG";
  trace_full ← trace_at trace level "TRACE";
  policy ← from_runtime_config float_trunc (Some xian_config);
  max_concurrency ← at_least_one "simulation_max_concurrency" 2;
  timeout_ms ← at_least_one "simulation_timeout_ms" 3000;
  max_chi ← at_least_one "simulation_max_chi" 1000000;
  bds ← from_runtime_settings (Some xian_config) environ;
  bds ← complete_bds_config cometbft_config storage_home bds;
  metrics ← metrics_settings xian_config;
  Ok (Settings ttl max_pending max_tx level trace trace_debug trace_full policy
        (get "simulation_enabled" (VBool true)) max_concurrency timeout_ms max_chi
        (get "bds_enabled" (VBool false)) bds (get "pruning_enabled" (VBool false))
        (get "blocks_to_keep" (VInt 100000)) (get "parallel_execution_enabled" (VBool false)) (get "parallel_execution_workers" (VInt 4))
        (get "parallel_execution_min_transactions" (VInt 8)) (get "parallel_execution_max_speculative_waves" (VInt 4))
        (get "parallel_execution_min_wave_acceptance_ratio" (VFloat "0.25"))
        (get "parallel_execution_low_acceptance_min_wave_size" (VInt 8)) (get "parallel_execution_access_estimates_enabled" (VBool true))
        (get "parallel_execution_warm_workers" (VBool true)) metrics).

(** ** A configured node runs with its options *)

(** A text option: what is left empty comes from the environment or a default. *)
Definition text_option (s : string) (environ : list (string * string)) (e default_value : string) : string :=
  if decide (s = "") then match dict_get e environ with Some t => if decide (t = "") then default_value else t | None => default_value end else s.
Definition optional_option (s : string) (environ : list (string * string)) (e : string) : option string :=
  if decide (s = "") then match dict_get e environ with Some t => if decide (t = "") then None else Some t | None => None end else Some s.

(** The settings the options ask for. *)
Definition bds_settings_of (b : BdsOptions) (environ : list (string * string)) : BdsConfig :=
  MkBdsConfig (optional_option (bo_dsn b) environ "XIAN_BDS_DSN") (text_option (bo_host b) environ "XIAN_BDS_HOST" "127.0.0.1") (bo_port b)
    (text_option (bo_database b) environ "XIAN_BDS_DATABASE" "xian") (text_option (bo_user b) environ "XIAN_BDS_USER" "xian")
    (text_option (bo_password b) environ "XIAN_BDS_PASSWORD" "") (bo_pool_min_size b) (bo_pool_max_size b) (bo_statement_timeout_ms b)
    (bo_acquire_timeout_ms b) (text_option (bo_application_name b) environ "XIAN_BDS_APPLICATION_NAME" "xian-bds") (bo_queue_max_size b)
    (bo_catchup_enabled b) (bo_catchup_poll_seconds b) (optional_option (bo_rpc_url b) environ "XIAN_BDS_RPC_URL")
    (optional_option (bo_spool_dir b) environ "XIAN_BDS_SPOOL_DIR") (bo_spool_warn_entries b) (bo_spool_warn_bytes b) (bo_disk_free_warn_bytes b).

Definition completed (b : BdsConfig) (storage_home url : string) : BdsConfig :=
  MkBdsConfig (dsn b) (host b) (port b) (database b) (user b) (password b) (pool_min_size b) (pool_max_size b)
    (statement_timeout_ms b) (acquire_timeout_ms b) (application_name b) (queue_max_size b) (catchup_enabled b)
    (catchup_poll_seconds b) (Some (default url (rpc_url b))) (Some (default (storage_home +:+ "/bds-spool") (spool_dir b)))
    (spool_warn_entries b) (spool_warn_bytes b) (disk_free_warn_bytes b).

(** Of a node whose own RPC address is [url]. *)
Definition settings_of (o : NodeConfigOptions) (storage_home url : string) (environ : list (string * string)) : settings :=
  let s := nc_simulation o in let p := nc_parallel_execution o in
  let level := py_upper (al_level (nc_app_logging o)) in let trace := nc_transaction_trace_logging o in
  Settings (nc_pending_nonce_reservation_ttl_seconds o) (nc_max_pending_nonces_per_sender o) 4194304 level
    (VBool trace) (VBool (trace && bool_decide (level ∈ ["TRACE"; "DEBUG"]))) (VBool (trace && bool_decide (level = "TRACE")))
    (if decide (py_lower (py_strip (nc_tx_fee_mode o)) = FREE_METERED) then free_metered (nc_free_tx_max_chi o) (nc_free_block_max_chi o)
     else paid_metered None None)
    (VBool (so_enabled s)) (so_max_concurrency s) (so_timeout_ms s) (so_max_chi s) (VBool (nc_bds_enabled o))
    (completed (bds_settings_of (nc_bds o) environ) storage_home url) (VBool (nc_enable_pruning o)) (VInt (nc_blocks_to_keep o))
    (VBool (pe_enabled p)) (VInt (pe_workers p)) (VInt (pe_min_transactions p)) (VInt (pe_max_speculative_waves p))
    (VFloat (pe_min_wave_acceptance_ratio p)) (VInt (pe_low_acceptance_min_wave_size p)) (VBool (pe_access_estimates_enabled p))
    (VBool (pe_warm_workers p)) (nc_metrics o).

Definition logging_of (o : NodeConfigOptions) : AppLoggingOptions :=
  let l := nc_app_logging o in
  MkAppLogging (py_upper (al_level l)) (al_json_logging l) (al_rotation_hours l) (al_retention_days l) (al_max_file_mb l) (al_max_total_mb l).

(** *** The rendered files are read back as they were *)

(** The strings and floats that end up in the two files. *)
Definition rpc_servers_text (o : StateSyncOptions) : string :=
  comma_join (filter (λ s, s <> "") (py_strip <$> ss_rpc_servers o)).
Definition option_texts (o : NodeConfigOptions) : list string :=
  let b := nc_bds o in let s := nc_statesync o in
  [nc_moniker o; nc_proxy_app o; nc_block_policy_interval o; comma_join (nc_p2p_seeds o); comma_join (nc_p2p_persistent_peers o);
   rpc_servers_text s; ss_trust_hash s; ss_trust_period s; mt_host (nc_metrics o); bo_dsn b; bo_host b; bo_database b; bo_user b;
   bo_password b; bo_application_name b; bo_rpc_url b; bo_spool_dir b].
Definition option_floats (o : NodeConfigOptions) : list string :=
  [mt_bds_refresh_seconds (nc_metrics o); pe_min_wave_acceptance_ratio (nc_parallel_execution o);
   nc_pending_nonce_reservation_ttl_seconds o; bo_catchup_poll_seconds (nc_bds o)].
Definition printable_options (o : NodeConfigOptions) : bool :=
  forallb toml_text (option_texts o) && forallb (λ r, toml_ok (VFloat r)) (option_floats o).

Definition cometbft_values (o : NodeConfigOptions) (blocks : bool * string) (s : statesync_settings) : list value :=
  [VStr (nc_proxy_app o); VStr (nc_moniker o); VBool blocks.1; VStr blocks.2; VStr (comma_join (nc_p2p_seeds o));
   VStr (comma_join (nc_p2p_persistent_peers o)); VList (if nc_allow_cors o then [VStr "*"] else []); VBool (nc_prometheus o);
   VBool (st_enable s); VStr (st_rpc_servers s); VInt (st_trust_height s); VStr (st_trust_hash s); VStr (st_trust_period s)].

Lemma andb_intro (a b : bool) : a = true -> b = true -> a && b = true.
Proof. by intros -> ->. Qed.

Lemma entries_set (p : string * value -> bool) k v d : forallb p d = true -> p (k, v) = true -> forallb p (dict_set k v d) = true.
Proof.
  intros Hd Hv. induction d as [|[k' v'] d IH]; cbn [dict_set forallb] in *; [by rewrite Hv|].
  apply andb_true_iff in Hd as [H1 H2]. case_decide; cbn [forallb]; apply andb_intro; auto.
Qed.

Lemma table_ok_set k v d :
  table_ok (VDict d) = true -> bare_ok k = true -> toml_ok v || table_ok v = true -> table_ok (VDict (dict_set k v d)) = true.
Proof.
  cbn [table_ok]. intros [Hn Hd]%andb_true_iff Hk Hv. apply andb_intro.
  - apply bool_decide_eq_true in Hn. by apply bool_decide_eq_true, dict_set_nodup.
  - apply entries_set; [done|]. by apply andb_intro.
Qed.

Lemma table_ok_entry k v d : table_ok (VDict d) = true -> dict_get k d = Some v -> toml_ok v || table_ok v = true.
Proof.
  cbn [table_ok]. intros [_ Hd]%andb_true_iff Hk. rewrite forallb_forall in Hd.
  apply dict_get_Some_elem, list_elem_of_In, Hd, andb_true_iff in Hk as [_ Hk]. done.
Qed.

Lemma set_in_ok section key v d d' :
  set_in section key v d = Ok d' -> table_ok (VDict d) = true -> bare_ok section = true -> bare_ok key = true -> toml_ok v = true ->
  table_ok (VDict d') = true.
Proof.
  unfold set_in, py_item. intros H Hd Hs Hk Hv. destruct (dict_get section d) as [t|] eqn:Et; [|done]. cbn in H.
  destruct t as [| | | | | | | | | |t]; try done. injection H as <-. apply table_ok_set; [done..|]. cbn [toml_ok orb].
  apply table_ok_set; [exact (table_ok_entry _ _ _ Hd Et)|done|by rewrite Hv].
Qed.

Lemma table_ok_update u d :
  table_ok (VDict d) = true -> forallb (λ kv, bare_ok kv.1 && (toml_ok kv.2 || table_ok kv.2)) u = true ->
  table_ok (VDict (dict_update d u)) = true.
Proof.
  unfold dict_update. revert d. induction u as [|[k v] u IH]; intros d Hd Hu; [done|]. cbn [foldl forallb] in *.
  apply andb_true_iff in Hu as [[Hk Hv]%andb_true_iff Hu]. apply IH; [|done]. by apply table_ok_set.
Qed.

(** Both templates are tables, written as they are. *)
Lemma templates_ok : table_ok (VDict cometbft_template) = true /\ table_ok (VDict xian_template) = true.
Proof. split; vm_compute; reflexivity. Qed.

Lemma cometbft_table_ok o blocks s d :
  render_cometbft o blocks s cometbft_template = Ok d -> Forall (λ v, toml_ok v = true) (cometbft_values o blocks s) ->
  table_ok (VDict d) = true.
Proof.
  unfold render_cometbft. intros H Hv. repeat (apply Forall_cons in Hv as [? Hv]).
  repeat match type of H with
    | set_in ?a ?b ?v ?x ≫= _ = Ok _ => let E := fresh "E" in destruct (set_in a b v x) eqn:E; [cbn [mbind result_bind] in H|done]
    end.
  repeat (eapply set_in_ok; [eassumption| |vm_compute; reflexivity..|done]).
  apply table_ok_set; [apply table_ok_set; [apply templates_ok|vm_compute; reflexivity|]|vm_compute; reflexivity|]; apply orb_true_iff; by left.
Qed.

Lemma cometbft_ordered o blocks s d : render_cometbft o blocks s cometbft_template = Ok d -> ordered d = d.
Proof.
  unfold render_cometbft. destruct blocks as [empty interval], s as [en rpc height hash period].
  generalize (nc_proxy_app o) (nc_moniker o) (comma_join (nc_p2p_seeds o)) (comma_join (nc_p2p_persistent_peers o)) (nc_prometheus o).
  generalize (if nc_allow_cors o then [VStr "*"] else []). clear. intros cors proxy moniker seeds peers prom Hd.
  apply (f_equal (ok_or [])) in Hd. cbn [ok_or] in Hd. subst d. vm_compute. reflexivity.
Qed.

Lemma xian_ordered o l s mode :
  ordered (dict_update xian_template (xian_updates o l s mode)) = dict_update xian_template (xian_updates o l s mode).
Proof. vm_compute. reflexivity. Qed.

Lemma xian_table_ok o l s mode :
  toml_text (al_level l) = true -> toml_text mode = true -> printable_options o = true ->
  table_ok (VDict (dict_update xian_template (xian_updates o l s mode))) = true.
Proof.
  intros Hl Hm [Ht Hf]%andb_true_iff. rewrite forallb_forall in Ht, Hf.
  assert (Ht' : forall x, x ∈ option_texts o -> toml_ok (VStr x) || table_ok (VStr x) = true).
  { intros x Hx. apply orb_true_iff. left. by apply Ht, list_elem_of_In. }
  assert (Hf' : forall x, x ∈ option_floats o -> toml_ok (VFloat x) || table_ok (VFloat x) = true).
  { intros x Hx. apply orb_true_iff. left. by apply Hf, list_elem_of_In. }
  assert (Hb : toml_ok (VDict (bds_table (nc_bds o))) || table_ok (VDict (bds_table (nc_bds o))) = true).
  { change (table_ok (VDict (dict_update [] (bds_table (nc_bds o)))) = true). apply table_ok_update; [done|]. unfold bds_table.
    cbn [forallb fst snd]; repeat (lazymatch goal with |- (bare_ok _ && _) && _ = true => apply andb_intro; [apply andb_intro; [vm_compute; reflexivity|]|] end); try reflexivity;
      first [apply Ht'|apply Hf']; repeat first [exact (list_elem_of_here _ _)|apply list_elem_of_further]. }
  apply table_ok_update; [apply templates_ok|]. unfold xian_updates.
  cbn [forallb fst snd]; repeat (lazymatch goal with |- (bare_ok _ && _) && _ = true => apply andb_intro; [apply andb_intro; [vm_compute; reflexivity|]|] end); try reflexivity; try exact Hb;
    try (apply orb_true_iff; by left); first [apply Ht'|apply Hf']; repeat first [exact (list_elem_of_here _ _)|apply list_elem_of_further].
Qed.

(** *** The settings read back are the options *)

Lemma first_text s environ e d :
  str_of_setting (_first_non_empty [VStr s; env_get environ e] (VStr d)) = text_option s environ e d.
Proof.
  unfold _first_non_empty, text_option, env_get. rewrite filter_cons. cbn [is_empty_setting]. case_decide as Hs.
  - rewrite bool_decide_eq_false in Hs. by rewrite decide_False.
  - rewrite bool_decide_eq_false in Hs. apply dec_stable in Hs. rewrite decide_True by done.
    destruct (dict_get e environ) as [t|]; rewrite filter_cons; cbn [is_empty_setting]; [|by rewrite decide_False].
    case_decide as Ht; rewrite bool_decide_eq_false in Ht; [by rewrite decide_False|]. apply dec_stable in Ht. by rewrite decide_True.
Qed.

Lemma first_optional s environ e :
  match _first_non_empty [VStr s; env_get environ e] VNone with VStr x => Some x | _ => None end = optional_option s environ e.
Proof.
  unfold _first_non_empty, optional_option, env_get. rewrite filter_cons. cbn [is_empty_setting]. case_decide as Hs.
  - rewrite bool_decide_eq_false in Hs. by rewrite decide_False.
  - rewrite bool_decide_eq_false in Hs. apply dec_stable in Hs. rewrite decide_True by done.
    destruct (dict_get e environ) as [t|]; rewrite filter_cons; cbn [is_empty_setting]; [|by rewrite decide_False].
    case_decide as Ht; rewrite bool_decide_eq_false in Ht; [by rewrite decide_False|]. apply dec_stable in Ht. by rewrite decide_True.
Qed.

Lemma first_bool b w d :
  negb (bool_decide (py_lower (str_of_setting (_first_non_empty [VBool b; w] d)) ∈ ["0"; "false"; "no"; "off"])) = b.
Proof. change (_first_non_empty [VBool b; w] d) with (VBool b). by destruct b; vm_compute. Qed.

Lemma bds_read o l s mode environ :
  from_runtime_settings (Some (dict_update xian_template (xian_updates o l s mode))) environ = Ok (bds_settings_of (nc_bds o) environ).
Proof.
  unfold from_runtime_settings. change (default [] (Some ?d)) with d.
  change (py_get "bds" _ (VDict [])) with (VDict (bds_table (nc_bds o))).
  cbv iota zeta.
  repeat match goal with |- context [py_get ?k (bds_table (nc_bds o)) VNone] =>
    let x := eval vm_compute in (py_get k (bds_table (nc_bds o)) VNone) in change (py_get k (bds_table (nc_bds o)) VNone) with x end.
  rewrite !first_text, !first_optional, first_bool. reflexivity.
Qed.

Lemma normalized_mode m mode :
  normalize_tx_fee_mode (VStr m) = Ok mode -> (mode = PAID_METERED \/ mode = FREE_METERED) /\ (mode = FREE_METERED <-> py_lower (py_strip m) = FREE_METERED).
Proof.
  unfold normalize_tx_fee_mode, py_or, truthy. destruct (decide (m = "")) as [->|Hm]; [by vm_compute; intros [= <-]; split; [left|split]|].
  rewrite bool_decide_eq_false_2 by done. cbn [negb]. set (n := py_lower _). case_bool_decide as Hn; [|done]. intros [= <-]. split; [|done].
  unfold SUPPORTED_TX_FEE_MODES in Hn. set_solver.
Qed.

(** A level the checks let through is its own upper case, with its rank in the table. *)
Lemma supported_level level : level ∈ SUPPORTED_APP_LOG_LEVELS ->
  py_upper level = level /\ log_level_includes level "DEBUG" = Ok (bool_decide (level ∈ ["TRACE"; "DEBUG"])) /\
  log_level_includes level "TRACE" = Ok (bool_decide (level = "TRACE")).
Proof.
  unfold SUPPORTED_APP_LOG_LEVELS. intros Hl.
  repeat (apply elem_of_cons in Hl as [->|Hl]; [vm_compute; done|]). by apply not_elem_of_nil in Hl.
Qed.

Lemma trace_at_bool b level target c : log_level_includes level target = Ok c -> trace_at (VBool b) level target = Ok (VBool (b && c)).
Proof. intros Hl. unfold trace_at. cbn [truthy]. by destruct b; rewrite ?Hl. Qed.

Lemma completed_config comet home b url :
  node_rpc_url comet = Ok url -> complete_bds_config comet home b = Ok (completed b home url).
Proof. intros Hu. unfold complete_bds_config, completed. rewrite Hu. by destruct (rpc_url b). Qed.

(** What the bounds of the rendered options allow. *)
Record sound_options (o : NodeConfigOptions) : Prop := {
  so_tx_chi : 0 < nc_free_tx_max_chi o; so_block_chi : 0 < nc_free_block_max_chi o;
  so_pending : 1 <= nc_max_pending_nonces_per_sender o; so_concurrency : 1 <= so_max_concurrency (nc_simulation o);
  so_timeout : 1 <= so_timeout_ms (nc_simulation o); so_chi : 1 <= so_max_chi (nc_simulation o);
  so_logging : resolve_app_logging_settings (nc_app_logging o) = Ok (logging_of o) }.

Lemma logging_level o : sound_options o -> py_upper (al_level (nc_app_logging o)) ∈ SUPPORTED_APP_LOG_LEVELS.
Proof. intros []. unfold resolve_app_logging_settings in so_logging0. destruct_result. by apply check_py_inv, bool_decide_eq_true in E. Qed.

(** Every key of the template is updated, in its order. *)
Lemma updated_template o l s mode : dict_update xian_template (xian_updates o l s mode) = xian_updates o l s mode.
Proof. vm_compute. reflexivity. Qed.

Ltac read_keys := repeat match goal with |- context [py_get ?k (xian_updates ?o ?l ?s ?m) ?v] =>
    let x := eval hnf in (py_get k (xian_updates o l s m) v) in change (py_get k (xian_updates o l s m) v) with x end.

Lemma policy_read o l s mode :
  normalize_tx_fee_mode (VStr (nc_tx_fee_mode o)) = Ok mode -> 0 < nc_free_tx_max_chi o -> 0 < nc_free_block_max_chi o ->
  from_runtime_config float_trunc (Some (dict_update xian_template (xian_updates o l s mode))) =
    Ok (if decide (py_lower (py_strip (nc_tx_fee_mode o)) = FREE_METERED) then free_metered (nc_free_tx_max_chi o) (nc_free_block_max_chi o)
        else paid_metered None None).
Proof.
  intros Hm Htx Hblock. apply normalized_mode in Hm as [Hmode Hfree].
  rewrite updated_template. unfold from_runtime_config. change (default [] (Some ?d)) with d. read_keys.
  destruct Hmode as [->| ->].
  - rewrite (decide_False (P := py_lower _ = _)) by (intros H; by apply Hfree in H). reflexivity.
  - rewrite (decide_True (P := py_lower _ = _)) by (by apply Hfree).
    change (normalize_tx_fee_mode (VStr FREE_METERED)) with (Ok FREE_METERED). cbn [mbind result_bind]. rewrite decide_False by done.
    unfold _positive_int, int_or. cbn [py_int mbind result_bind]. rewrite !(proj2 (Z.leb_gt _ _)) by done. reflexivity.
Qed.

Lemma settings_read o mode comet home url environ :
  normalize_tx_fee_mode (VStr (nc_tx_fee_mode o)) = Ok mode -> sound_options o ->
  configured_max_tx_bytes comet = Ok 4194304 -> node_rpc_url comet = Ok url ->
  read_settings comet (dict_update xian_template (xian_updates o (logging_of o) (nc_simulation o) mode)) home environ =
    Ok (settings_of o home url environ).
Proof.
  intros Hm Ho Hmax Hurl. pose proof (logging_level o Ho) as Hl. apply supported_level in Hl as (Hup & Hdebug & Htrace).
  destruct Ho as [B1 B2 B3 B4 B5 B6 _].
  pose proof (bds_read o (logging_of o) (nc_simulation o) mode environ) as Hb.
  pose proof (policy_read o (logging_of o) (nc_simulation o) mode Hm B1 B2) as Hp. rewrite updated_template in Hb, Hp |- *.
  unfold read_settings, settings_of, metrics_settings. cbv zeta. rewrite Hb, Hp. read_keys. cbn [py_float py_int str_of_setting to_str logging_of al_level].
  rewrite Hmax, Hup, (trace_at_bool _ _ _ _ Hdebug), (trace_at_bool _ _ _ _ Htrace). cbn [fmap result_fmap mbind result_bind].
  rewrite (completed_config _ _ _ _ Hurl). cbn [mbind result_bind]. rewrite !Z.max_l by done.
  by destruct (nc_metrics o) as [[] ???].
Qed.

Lemma logging_read o mode :
  sound_options o -> logging_settings (dict_update xian_template (xian_updates o (logging_of o) (nc_simulation o) mode)) = Ok (logging_of o).
Proof.
  intros Ho. pose proof (logging_level o Ho) as Hl. destruct (supported_level _ Hl) as (Hup & _).
  unfold logging_settings. rewrite updated_template. cbv zeta. read_keys. cbn [logging_of al_level al_rotation_hours al_retention_days al_max_file_mb al_max_total_mb al_json_logging mbind result_bind].
  destruct Ho as [_ _ _ _ _ _ Hr]. unfold resolve_app_logging_settings in Hr. destruct_result.
  unfold positive_limit, resolve_app_logging_settings. cbn [al_level al_rotation_hours al_retention_days al_max_file_mb al_max_total_mb al_json_logging].
  rewrite Hup. rewrite bool_decide_eq_true_2 by done. cbn [check_py mbind result_bind].
  repeat match goal with H : check_py _ _ _ = Ok _ |- _ => apply check_py_inv in H end.
  repeat (match goal with H : negb _ = true |- _ => rewrite H end; cbn [check_py mbind result_bind]).
  reflexivity.
Qed.

Lemma render_inv o comet xian :
  render_node_configs o = Ok (comet, xian) -> exists blocks st l mode,
    resolve_block_policy (nc_block_policy_mode o) (nc_block_policy_interval o) = Ok blocks /\
    resolve_statesync_settings (nc_statesync o) = Ok st /\ resolve_app_logging_settings (nc_app_logging o) = Ok l /\
    resolve_simulation_settings (nc_simulation o) = Ok (nc_simulation o) /\
    render_cometbft o blocks st cometbft_template = Ok comet /\ normalize_tx_fee_mode (VStr (nc_tx_fee_mode o)) = Ok mode /\
    xian = dict_update xian_template (xian_updates o l (nc_simulation o) mode).
Proof.
  unfold render_node_configs. rewrite (proj1 templates_load), (proj2 templates_load). intros H.
  destruct (validate_node_runtime_settings o); [|done]. cbn [mbind result_bind] in H.
  destruct (resolve_block_policy _ _) as [blocks|]; [|done]. cbn [mbind result_bind] in H.
  destruct (resolve_statesync_settings _) as [st|]; [|done]. cbn [mbind result_bind] in H.
  destruct (resolve_app_logging_settings _) as [l|]; [|done]. cbn [mbind result_bind] in H.
  destruct (resolve_simulation_settings _) as [s|] eqn:Es; [|done]. cbn [mbind result_bind] in H.
  destruct (render_cometbft _ _ _ _) as [c|] eqn:Hc; [|done]. cbn [mbind result_bind] in H.
  destruct (normalize_tx_fee_mode _) as [mode|]; [|done]. cbn [mbind result_bind] in H.
  apply Ok_inj in H. pose proof (f_equal fst H) as H1. pose proof (f_equal snd H) as H2. cbn [fst snd] in H1, H2. subst comet xian.
  assert (s = nc_simulation o) as -> by (unfold resolve_simulation_settings in Es; by destruct_result). exists blocks, st, l, mode. repeat split; assumption.
Qed.

Lemma valid_bounds o :
  validate_node_runtime_settings o = Ok tt ->
  0 < nc_free_tx_max_chi o /\ 0 < nc_free_block_max_chi o /\ 1 <= nc_max_pending_nonces_per_sender o.
Proof.
  unfold validate_node_runtime_settings. cbv zeta. intros H.
  destruct (normalize_tx_fee_mode _); [|done]. cbn [mbind result_bind] in H.
  repeat (match type of H with check_py ?b ?c ?m ≫= _ = _ => let E := fresh "E" in destruct (check_py b c m) eqn:E; [cbn [mbind result_bind] in H; apply check_py_inv in E|done] end).
  clear H. repeat match goal with H : negb (_ <=? _) = true |- _ => apply negb_true_iff, Z.leb_gt in H
                                | H : negb (_ <? _) = true |- _ => apply negb_true_iff, Z.ltb_ge in H end. done.
Qed.

Lemma rendered_sound o comet xian : render_node_configs o = Ok (comet, xian) -> sound_options o.
Proof.
  intros H. assert (Hv : validate_node_runtime_settings o = Ok tt).
  { unfold render_node_configs in H. by destruct (validate_node_runtime_settings o) as [[]|]. }
  apply valid_bounds in Hv as (Htx & Hblock & Hpend). apply render_inv in H as (blocks & st & l & mode & _ & _ & Hl & Hs & _).
  unfold resolve_simulation_settings in Hs. destruct_result.
  repeat match goal with H : check_py _ _ _ = Ok _ |- _ => apply check_py_inv, negb_true_iff, Z.leb_gt in H end.
  split; try lia. revert Hl. unfold resolve_app_logging_settings, logging_of. intros Hl. destruct_result.
  repeat match goal with H : check_py _ _ _ = Ok _ |- _ => rewrite H; clear H end. done.
Qed.

(** The rendered [config.toml] has the template's mempool and its RPC address. *)
Lemma cometbft_sections o blocks s d :
  render_cometbft o blocks s cometbft_template = Ok d ->
  configured_max_tx_bytes d = Ok 4194304 /\ node_rpc_url d = local_rpc_url DEFAULT_RPC_LADDR.
Proof.
  unfold render_cometbft. destruct blocks as [empty interval], s as [en rpc height hash period].
  generalize (nc_proxy_app o) (nc_moniker o) (comma_join (nc_p2p_seeds o)) (comma_join (nc_p2p_persistent_peers o)) (nc_prometheus o).
  generalize (if nc_allow_cors o then [VStr "*"] else []). intros cors proxy moniker seeds peers prom Hd.
  apply (f_equal (ok_or [])) in Hd. cbn [ok_or] in Hd. subst d. unfold configured_max_tx_bytes, node_rpc_url.
  split; vm_compute; reflexivity.
Qed.

Lemma resolved_texts o blocks st l :
  printable_options o = true -> resolve_block_policy (nc_block_policy_mode o) (nc_block_policy_interval o) = Ok blocks ->
  resolve_statesync_settings (nc_statesync o) = Ok st -> resolve_app_logging_settings (nc_app_logging o) = Ok l ->
  toml_text (al_level l) = true /\ Forall (λ v, toml_ok v = true) (cometbft_values o blocks st).
Proof.
  intros [Ht _]%andb_true_iff Hb Hs Hl. unfold option_texts in Ht. cbn [forallb] in Ht.
  repeat (apply andb_true_iff in Ht as [? Ht]). split.
  - unfold resolve_app_logging_settings in Hl. destruct_result. cbn [al_level]. apply check_py_inv, bool_decide_eq_true in E.
    unfold SUPPORTED_APP_LOG_LEVELS in E. revert E. generalize (py_upper (al_level (nc_app_logging o))). intros s Hs'.
    repeat (apply elem_of_cons in Hs' as [->|Hs']; [vm_compute; reflexivity|]). by apply not_elem_of_nil in Hs'.
  - assert (Hi : toml_text blocks.2 = true).
    { unfold resolve_block_policy in Hb. destruct_result. case_decide; destruct_result; [vm_compute; reflexivity|]. by destruct (decide (nc_block_policy_mode o = "idle_interval")). }
    assert (Hst : toml_text (st_rpc_servers st) = true /\ toml_text (st_trust_hash st) = true /\ toml_text (st_trust_period st) = true).
    { unfold resolve_statesync_settings in Hs. destruct (ss_enable _); cbn [negb] in Hs; destruct_result; cbn; [done|].
      split_and!; [vm_compute; reflexivity..|done]. }
    destruct Hst as (? & ? & ?). unfold cometbft_values. repeat constructor; try done. by destruct (nc_allow_cors o).
Qed.

(** What was rendered is printed and read back, and gives a starting node its options. *)
Lemma rendered_reads o comet xian :
  render_node_configs o = Ok (comet, xian) -> printable_options o = true ->
  (exists t, Toml.dumps comet = Ok t /\ Toml.loads t = Ok comet) /\ (exists t, Toml.dumps xian = Ok t /\ Toml.loads t = Ok xian).
Proof.
  intros H Hp. apply render_inv in H as (blocks & st & l & mode & Hb & Hs & Hl & _ & Hc & Hm & ->).
  destruct (resolved_texts o blocks st l Hp Hb Hs Hl) as [Hlevel Hvals].
  assert (Hmode : toml_text mode = true).
  { destruct (normalized_mode _ _ Hm) as [[->| ->] _]; vm_compute; reflexivity. }
  split.
  - pose proof (table_reads_back _ (cometbft_table_ok _ _ _ _ Hc Hvals)) as R. by rewrite (cometbft_ordered _ _ _ _ Hc) in R.
  - pose proof (table_reads_back _ (xian_table_ok o l (nc_simulation o) mode Hlevel Hmode Hp)) as R. by rewrite xian_ordered in R.
Qed.

(** [config] is the rendered [config.toml] or one with the same mempool. *)
Lemma rendered_settings o comet xian config home url environ :
  render_node_configs o = Ok (comet, xian) -> py_get "mempool" config (VDict []) = py_get "mempool" comet (VDict []) ->
  node_rpc_url config = Ok url ->
  read_settings config xian home environ = Ok (settings_of o home url environ) /\ logging_settings xian = Ok (logging_of o).
Proof.
  intros H Hmem Hurl. pose proof (rendered_sound _ _ _ H) as Ho.
  apply render_inv in H as (blocks & st & l & mode & _ & _ & Hl & _ & Hc & Hm & ->).
  rewrite (so_logging _ Ho) in Hl. injection Hl as <-. split; [|by apply logging_read]. apply settings_read; [done..| |done].
  unfold configured_max_tx_bytes. rewrite Hmem. apply (cometbft_sections o blocks st comet Hc).
Qed.

Lemma rendered_rpc_url o comet xian : render_node_configs o = Ok (comet, xian) -> node_rpc_url comet = local_rpc_url DEFAULT_RPC_LADDR.
Proof. intros (blocks & st & l & mode & _ & _ & _ & _ & Hc & _)%render_inv. by apply (cometbft_sections o blocks st). Qed.

(** *** The home directory *)

Lemma write_file_ok path overwrite text fs fs' u :
  write_file path overwrite text fs = (Ok u, fs') -> exists t, text = Ok t /\ fs' = <[path := t]> fs.
Proof. unfold write_file. destruct (_ && _); [done|]. destruct text as [t|]; [|done]. intros [= _ <-]. by exists t. Qed.

(** A step that does not change the content of a file. *)
Definition file_kept (p : string) (t : chars) (fs fs' : files) : Prop := fs !! p = Some t -> fs' !! p = Some t.

#[local] Instance file_kept_preorder p t : PreOrder (file_kept p t).
Proof. split; [by intros ??|]. unfold file_kept. auto. Qed.

Lemma keeps_write p t path overwrite text : p <> path \/ overwrite = false -> keeps (file_kept p t) (write_file path overwrite text).
Proof.
  intros Hp fs Ht. unfold write_file. case_bool_decide as Hs; [destruct Hp as [Hp| ->]; [|done]; destruct overwrite; [|done]|].
  - cbn [andb negb]. destruct text; cbn; by rewrite lookup_insert_ne.
  - assert (p <> path) by (intros ->; apply Hs; by exists t). cbn [andb]. destruct text; cbn; by rewrite lookup_insert_ne.
Qed.
Lemma keeps_missing p t path payload : keeps (file_kept p t) (write_missing path payload).
Proof.
  assert (Hk : keeps (file_kept p t) (d ← lift_res payload; write_json path d false)).
  { apply keeps_bind; [apply _|by intros fs|]. intros d. apply keeps_write. by right. }
  intros fs Ht. unfold write_missing. case_bool_decide; [done|]. by apply Hk.
Qed.

Lemma keeps_run {A} p t (m : stM files A) fs r fs' : m fs = (r, fs') -> keeps (file_kept p t) m -> fs !! p = Some t -> fs' !! p = Some t.
Proof. intros E Hm Hp. specialize (Hm fs Hp). by rewrite E in Hm. Qed.

Ltac keeps_all tac := repeat (apply keeps_bind; [apply _|first [apply keeps_missing|apply keeps_write; tac]|intros _]); apply keeps_missing.

(** Whatever happens, the node key and the signing state that are there stay, and so does
    every file when nothing is to be overwritten. *)
Theorem materialize_keeps_identity config xian_config genesis key node_key overwrite fs p t :
  fs !! p = Some t -> p ∈ [node_key_file; priv_validator_state_file] \/ overwrite = false ->
  (materialize_cometbft_home config xian_config genesis key node_key overwrite fs).2 !! p = Some t.
Proof.
  intros Hp Hcase. assert (Hw : forall path, path ∉ [node_key_file; priv_validator_state_file] -> p <> path \/ overwrite = false).
  { intros path Hn. destruct Hcase as [Hin|]; [left; by intros ->|by right]. }
  apply (keeps_run _ _ _ _ _ _ (surjective_pairing _)); [|done]. unfold materialize_cometbft_home, write_toml, write_json.
  keeps_all ltac:(apply Hw; by apply (bool_decide_unpack _)).
Qed.

(** Claim C24. When the texts and floats of the options can be printed in TOML
    ([printable_options]), both files of a new home are read back as they were rendered, and
    a node that starts from them runs with the options it was configured with: its settings
    are those of the options (an address or text left empty comes from the environment or a
    default), and so are the limits of its log. *)
Theorem configured_node o home environ comet xian genesis key node_key overwrite fs fs' url :
  render_node_configs o = Ok (comet, xian) -> printable_options o = true -> local_rpc_url DEFAULT_RPC_LADDR = Ok url ->
  materialize_cometbft_home comet xian genesis key node_key overwrite fs = (Ok tt, fs') ->
  (exists t, fs' !! "config/config.toml" = Some t /\ Toml.loads t = Ok comet) /\
  (exists t, fs' !! "config/xian.toml" = Some t /\ Toml.loads t = Ok xian) /\
  read_settings comet xian home environ = Ok (settings_of o home url environ) /\ logging_settings xian = Ok (logging_of o).
Proof.
  intros Hr Hp Hu Hm. destruct (rendered_reads o comet xian Hr Hp) as ((t1 & Hd1 & Hl1) & (t2 & Hd2 & Hl2)).
  pose proof (rendered_settings o comet xian comet home url environ Hr eq_refl ltac:(by rewrite (rendered_rpc_url o comet xian Hr))) as Hs.
  unfold materialize_cometbft_home in Hm. apply stM_bind_inv in Hm as ([] & fs1 & H1 & Hm). apply stM_bind_inv in Hm as ([] & fs2 & H2 & Hm).
  apply write_file_ok in H1 as (? & E1 & ->). apply write_file_ok in H2 as (? & E2 & ->). rewrite Hd1 in E1. rewrite Hd2 in E2.
  injection E1 as <-. injection E2 as <-. split_and!; [exists t1|exists t2|apply Hs..]; (split; [|done]); (apply (keeps_run _ _ _ _ _ _ Hm);
    [keeps_all ltac:(by left)|first [by rewrite lookup_insert_eq|by rewrite lookup_insert_ne, lookup_insert_eq by done]]).
Qed.

End NodeConfig.

(** ** Samples *)

(** Order of the non-negative floats of the sample options. *)
Definition sample_float_le (a b : string) : bool :=
  let rank := λ s : string, if decide (s = "0.0") then 0 else if decide (s = "0.25") then 1 else if decide (s = "1.0") then 2 else 3 in
  rank a <=? rank b.

Definition sample_options : NodeConfigOptions := default_options "validator-1".
Definition sample_wire : value -> result string := λ _, Ok "{}".
Definition sample_key : bytes := repeat 7 32.
Definition sample_rpc : string -> result string := λ _, Ok "http://127.0.0.1:26657".
Definition sample_rendered : list (string * value) * list (string * value) :=
  Eval vm_compute in ok_or ([], []) (render_node_configs sample_float_le sample_options).
Definition sample_home : gmap string chars :=
  (materialize_cometbft_home (λ b, b) (λ b, b) (λ _, "key") sample_key sample_wire sample_rendered.1 sample_rendered.2 []
     [("priv_key", VStr "k")] None false ∅).2.

Lemma configured_node_witness :
  (exists t, sample_home !! "config/xian.toml" = Some t /\ Toml.loads t = Ok sample_rendered.2) /\
  read_settings (λ _, "") (λ _, Ok 0) (λ _, Ok "0.0") sample_rpc sample_rendered.1 sample_rendered.2 "/home" [] =
    Ok (settings_of sample_options "/home" "http://127.0.0.1:26657" []).
Proof.
  destruct (configured_node sample_float_le (λ b, b) (λ b, b) (λ _, "key") (λ _, Ok []) sample_key sample_wire (λ _, "") (λ _, Ok 0)
    (λ _, Ok "0.0") sample_rpc sample_options "/home" [] sample_rendered.1 sample_rendered.2 [] [("priv_key", VStr "k")] None false ∅ sample_home
    "http://127.0.0.1:26657") as (_ & H1 & H2 & _); [vm_compute; reflexivity..|]. split; [exact H1|exact H2].
Defined.

Lemma materialize_keeps_identity_witness :
  (materialize_cometbft_home (λ b, b) (λ b, b) (λ _, "key") sample_key sample_wire [] [] [] [] None true
     {[ node_key_file := lit "old" ]}).2 !! node_key_file = Some (lit "old").
Proof. apply (materialize_keeps_identity (λ b, b) (λ b, b) (λ _, "key") sample_key sample_wire); [vm_compute; reflexivity|]. left. left. Defined.
