(* ===== verification/RpcUrl.v ===== *)
(** * Addresses of RPC endpoints

    The address helpers of utils/cometbft.py: hosts and ports, with IPv6 hosts in
    brackets, and the normal form of an RPC URL.  The standard library's URL parser
    and printer and its IP address parser are arguments. *)
From Stdlib Require Import Ascii String.
From stdpp Require Import base list strings.
From S2P Require Import Prelude Json PyValue PyBuiltins Encoding.
#[local] Open Scope Z_scope.

(** ** Strings *)

Definition text_of (l : chars) : string := String.string_of_list_ascii l.

(** [s.split(c, 1)] on characters: before and after the first [c] *)
Fixpoint cut (c : Ascii.ascii) (l : chars) : option (chars * chars) :=
  match l with
  | [] => None
  | x :: l => if decide (x = c) then Some ([], l) else '(a, b) ← cut c l; Some (x :: a, b)
  end.
(** [s.rsplit(c, 1)] *)
Definition rcut (c : Ascii.ascii) (l : chars) : option (chars * chars) :=
  '(a, b) ← cut c (rev l); Some (rev b, rev a).
Definition occurrences (c : Ascii.ascii) (l : chars) : nat := length (filter (λ x, x = c) l).

(** [s.isdigit()]: superscripts and other digits outside ASCII count too. *)
Definition ascii_digits (l : chars) : bool := negb (bool_decide (l = [])) && forallb is_digit l.

Section RpcUrl.
(** [ip_address(s).version], None when it raises *)
Context (ip_version : string -> option Z).
(** [urlsplit(url)], with scheme, netloc, path, query and fragment, and [urlunsplit] *)
Context (urlsplit : string -> result (string * string * string * string * string))
        (urlunsplit : string * string * string * string * string -> string).
(** [isdigit] of a text with characters outside ASCII *)
Context (other_digits : string -> bool).

Definition isdigit (s : string) : bool :=
  if forallb (λ b, b <? 128) (encode_utf8 s) then ascii_digits (str_chars s) else other_digits s.

Definition _strip_host_brackets (host : string) : string :=
  if startswith "[" host && endswith "]" host then text_of (removelast (tail (str_chars host))) else host.

Definition _is_ipv6_literal (host : string) : bool := bool_decide (ip_version (_strip_host_brackets host) = Some 6).

(** The part of [split_host_port] for a host without brackets. *)
Definition split_plain (host_port : string) : string * option string :=
  match rcut ":"%char (str_chars host_port) with
  | None => (host_port, None)
  | Some (host, port) =>
    if (occurrences ":"%char (str_chars host_port) =? 1)%nat then (text_of host, Some (text_of port))
    else if isdigit (text_of port) && _is_ipv6_literal (text_of host) then (text_of host, Some (text_of port))
    else (host_port, None)
  end.

Definition split_host_port (v : string) : string * option string :=
  let host_port := py_strip v in
  match str_chars host_port with
  | "["%char :: rest =>
    match cut "]"%char rest with
    | Some (host, remainder) =>
      match remainder with
      | ":"%char :: port => (text_of host, Some (text_of port))
      | _ => (text_of host, None)
      end
    | None => split_plain host_port
    end
  | _ => split_plain host_port
  end.

Definition format_url_netloc (host : string) (port : option string) : string :=
  let normalized_host := _strip_host_brackets (py_strip host) in
  let netloc := if _is_ipv6_literal normalized_host then "[" +:+ normalized_host +:+ "]" else normalized_host in
  match port with None => netloc | Some p => netloc +:+ ":" +:+ p end.

Definition _normalize_url_netloc (netloc : string) : string :=
  match rcut "@"%char (str_chars netloc) with
  | Some (userinfo, host_port) => let '(host, port) := split_host_port (text_of host_port) in text_of userinfo +:+ "@" +:+ format_url_netloc host port
  | None => let '(host, port) := split_host_port netloc in format_url_netloc host port
  end.

(** [s.split("://", 1)] *)
Fixpoint cut_scheme (l : chars) : option (chars * chars) :=
  match l with
  | [] => None
  | c :: r => match l with
              | ":"%char :: "/"%char :: "/"%char :: rest => Some ([], rest)
              | _ => '(a, b) ← cut_scheme r; Some (c :: a, b)
              end
  end.
(** [s.rstrip("/")] *)
Fixpoint drop_slashes (l : chars) : chars := match l with "/"%char :: l => drop_slashes l | _ => l end.
Definition rstrip_slashes (s : string) : string := text_of (rev (drop_slashes (rev (str_chars s)))).

Definition normalize_rpc_url (address : string) : result string :=
  let normalized := py_strip address in
  let '(scheme, rest) := match cut_scheme (str_chars normalized) with
                         | Some (raw_scheme, rest) =>
                           let raw_scheme := py_lower (text_of raw_scheme) in
                           (if bool_decide (raw_scheme ∈ ["http"; "https"]) then raw_scheme else "http", text_of rest)
                         | None => ("http", normalized)
                         end in
  '(_, netloc, path, query, fragment) ← urlsplit (scheme +:+ "://" +:+ rest);
  let netloc := if bool_decide (netloc = "") then "" else _normalize_url_netloc netloc in
  Ok (rstrip_slashes (urlunsplit (scheme, netloc, path, query, fragment))).

(** [parts.hostname] and [parts.port], which raises for a port that is no port number *)
Context (hostname : string -> option string) (port_of : string -> result (option Z)).

Definition resolve_local_rpc_url (address default_host : string) (default_ipv6_host : option string) (default_port : Z) : result string :=
  normalized ← normalize_rpc_url address;
  '(scheme, netloc, path, _, _) ← urlsplit normalized;
  let host := match hostname normalized with Some h => if bool_decide (h = "") then default_host else h | None => default_host end in
  let local_host := if bool_decide (host = "0.0.0.0") then Some default_host
                    else if bool_decide (host = "::") then
                      Some (match default_ipv6_host with Some h => if bool_decide (h = "") then default_host else h | None => default_host end)
                    else None in
  match local_host with
  | Some h =>
    port ← port_of normalized;
    let port := match port with Some p => if p =? 0 then default_port else p | None => default_port end in
    Ok (urlunsplit (if bool_decide (scheme = "") then "http" else scheme, format_url_netloc h (Some (py_int_str port)), path, "", ""))
  | None => Ok normalized
  end.

(** ** Formatting and splitting *)

(** Printable ASCII without spaces. *)
Definition visible (s : string) : Prop := Forall (λ b, 33 <= b <= 126) (encode_utf8 s).

Lemma visible_app s t : visible (s +:+ t) <-> visible s /\ visible t.
Proof. unfold visible, encode_utf8. by rewrite str_chars_app, fmap_app, Forall_app. Qed.

Lemma drop_spaces_visible l : Forall (λ b, 33 <= b <= 126) l -> drop_spaces l = l.
Proof.
  destruct 1 as [|b l Hb Hl]; [done|]. cbn. replace (is_unicode_space b) with false; [done|].
  unfold is_unicode_space. symmetry. repeat (apply orb_false_iff; split); apply andb_false_iff || apply Z.eqb_neq; lia.
Qed.

Lemma py_strip_visible s : visible s -> py_strip s = s.
Proof.
  intros Hv. unfold py_strip, code_points.
  assert (Ha : utf8_decode (encode_utf8 s) = Some (encode_utf8 s)).
  { apply utf8_decode_ascii. eapply Forall_impl; [exact Hv|]. cbn. lia. }
  rewrite Ha. change (default (encode_utf8 s) (Some (encode_utf8 s))) with (encode_utf8 s). rewrite (drop_spaces_visible _ Hv). rewrite drop_spaces_visible by (apply Forall_reverse; exact Hv). rewrite reverse_involutive.
  unfold string_of_cps. rewrite <-(string_of_bytes_encode s) at 2. unfold string_of_bytes. f_equal.
  unfold visible in Hv. clear Ha. induction Hv as [|b l Hb Hl IH]; [done|]. rewrite !fmap_cons. cbn [concat]. rewrite IH.
  unfold utf8_encode_cp. by rewrite (proj2 (Z.ltb_lt b 128)) by lia.
Qed.

Definition has_char (c : Ascii.ascii) (s : string) : bool := bool_decide (c ∈ str_chars s).

Lemma cut_app c a b : c ∉ a -> cut c (a ++ c :: b) = Some (a, b).
Proof.
  induction a as [|x a IH]; intros Hn; cbn; [by rewrite decide_True|]. apply not_elem_of_cons in Hn as [Hx Hn].
  by rewrite decide_False, IH by done.
Qed.

Lemma rcut_app c a b : c ∉ b -> rcut c (a ++ c :: b) = Some (a, b).
Proof.
  intros Hn. unfold rcut. rewrite rev_app_distr. cbn [rev]. rewrite <-(assoc_L app). cbn [app].
  rewrite cut_app by (by rewrite <-list_elem_of_In, <-in_rev, list_elem_of_In || by rewrite list_elem_of_In, <-in_rev, <-list_elem_of_In).
  cbn. by rewrite !rev_involutive.
Qed.

Lemma text_of_chars s : text_of (str_chars s) = s.
Proof. apply String.string_of_list_ascii_of_string. Qed.

Lemma occurrences_app c a b : occurrences c (a ++ b) = (occurrences c a + occurrences c b)%nat.
Proof. unfold occurrences. by rewrite filter_app, length_app. Qed.
Lemma occurrences_none c a : c ∉ a -> occurrences c a = 0%nat.
Proof.
  unfold occurrences. induction a as [|x a IH]; intros Hn; [done|]. apply not_elem_of_cons in Hn as [Hx Hn].
  rewrite filter_cons_False by congruence. by apply IH.
Qed.

Lemma strip_brackets_none host : "["%char ∉ str_chars host -> _strip_host_brackets host = host.
Proof.
  intros Hn. unfold _strip_host_brackets. destruct host as [|c host]; [done|].
  destruct (startswith "[" (String c host)) eqn:E; [|done].
  unfold startswith in E. cbn in E. case_decide as Hc; [|done]. subst c. exfalso. apply Hn. left.
Qed.

(** A host and a port come back from the netloc they are formatted to: IPv6 hosts through
    their brackets, other hosts when they have no colon. *)
Theorem split_format_netloc host port :
  visible host -> visible port -> "["%char ∉ str_chars host -> "]"%char ∉ str_chars host -> ":"%char ∉ str_chars port ->
  (ip_version host = Some 6 \/ (ip_version host <> Some 6 /\ ":"%char ∉ str_chars host)) ->
  split_host_port (format_url_netloc host (Some port)) = (host, Some port).
Proof.
  intros Hh Hp Ho Hc Hcolon Hcase. unfold format_url_netloc, _is_ipv6_literal.
  rewrite py_strip_visible, !strip_brackets_none by (rewrite ?strip_brackets_none; done).
  assert (Hcolon_v : visible ":") by (repeat constructor; done).
  destruct Hcase as [H6|[H6 Hn]].
  - rewrite bool_decide_eq_true_2 by done. unfold split_host_port.
    rewrite py_strip_visible by (rewrite !visible_app; split_and!; try done; repeat constructor; done).
    rewrite !str_chars_app. cbn [str_chars String.list_ascii_of_string app]. rewrite <-(assoc_L app). cbn [app].
    fold (str_chars host) (str_chars port). rewrite cut_app by done. by rewrite !text_of_chars.
  - rewrite bool_decide_eq_false_2 by done. unfold split_host_port.
    rewrite py_strip_visible by (rewrite !visible_app; done).
    assert (Hplain : split_plain (host +:+ ":" +:+ port) = (host, Some port)).
    { unfold split_plain. rewrite !str_chars_app. cbn [str_chars String.list_ascii_of_string app]. fold (str_chars host) (str_chars port).
      rewrite rcut_app by done. change (":"%char :: str_chars port) with ([":"%char] ++ str_chars port).
      rewrite !occurrences_app, !(occurrences_none _ (str_chars _)) by done. cbn. by rewrite !text_of_chars. }
    destruct (str_chars (host +:+ ":" +:+ port)) as [|x rest] eqn:E; [done|].
    rewrite str_chars_app in E. destruct (decide (x = "["%char)) as [->|Hx].
    + exfalso. destruct (str_chars host) as [|y l] eqn:Eh; cbn in E; [discriminate|]. injection E as -> _. apply Ho. left.
    + destruct x as [[] [] [] [] [] [] [] []]; try done; exact Hplain.
Qed.
End RpcUrl.
