(* ===== verification/Startup.v ===== *)
(** * Starting a node, and the chain across crashes (src/src/xian/xian_abci.py)

    [boot] is [Xian.__init__]: the checks of configuration, genesis and persisted policy, the
    native runtime, the driver over the storage directory, the latest-block marker, the runtime
    features, the state-root cache built from the driver, the settings with the conversions of
    the constructors they are handed to, and the patch bundles.  A running node is the [node] of
    FinalizeBlock with what the start decided; a stopped one is its storage directory and the
    latest-block file.

    The storage directory belongs to the contracting package: the class [StorageOps], with
    what the node relies on as [StorageLaws]; the native runtime's report and the standard
    library's URL functions are the class [NodeLibrary].  The worker processes a start may warm
    up are not modelled. *)

From S2P Require Import Prelude PyValue Json PyBuiltins Driver Encoding ExecutionPolicy FeePolicy StateRoot Nonce TxValidation Block Proposal Validators StateExport RuntimeFeatures StatePatches Engine Rewards Processor App FinalizeBlock NodeConfig RpcUrl.

#[local] Notation dict := (list (string * value)).

(** ** The storage directory *)

Class StorageOps (S D : Type) := {
  (** the LMDB entries of a storage directory *)
  raw_entries : S -> lmdb_state;
  (** the directory after its policy entry was written *)
  with_entries : lmdb_state -> S -> S;
  (** [ContractingClient(storage_home).raw_driver] *)
  open_driver : S -> D;
  (** what a driver has made durable *)
  storage_of : D -> S;
}.

Class StorageLaws (S D : Type) `{DriverOps D} `{!StorageOps S D} := {
  with_same_entries (s : S) : with_entries (raw_entries s) s = s;
  open_pending (s : S) : drv_pending_writes (open_driver s : D) = [];
  (** a directory that holds anything has entries, and the driver's policy is the stored one *)
  stored_entries (d : D) q : drv_value_from_disk d q <> VNone -> default [] (raw_entries (storage_of d : S)) <> [];
  stored_policy (d : D) : drv_value_from_disk d EXECUTION_POLICY_KEY = VDict current_execution_policy ->
    validate_persisted_execution_policy (raw_entries (storage_of d : S)) = Ok true;
  open_stored (d : D) q : drv_value_from_disk (open_driver (storage_of d : S) : D) q = drv_value_from_disk d q;
}.

(** ** [Xian.__init__] *)

(** What the native runtime reports, or the failure to load it, and the functions of the
    standard library that [resolve_local_rpc_url] uses. *)
Class NodeLibrary := {
  vm_bindings : result (dict * (string -> string -> bool));
  ip_version_of : string -> option Z;
  url_split : string -> result (string * string * string * string * string);
  url_unsplit : string * string * string * string * string -> string;
  unicode_digits : string -> bool;
  url_hostname : string -> option string;
  url_port : string -> result (option Z);
}.

Definition local_rpc_url `{NodeLibrary} (address : string) : result string :=
  resolve_local_rpc_url ip_version_of url_split url_unsplit unicode_digits url_hostname url_port address "127.0.0.1" None 26657.

Record startup := Startup {
  su_config : app_config; su_patches : StatePatchManager; su_settings : settings; su_features : dict }.

(** What [Xian] reads from the file system before it touches the state. *)
Record start_files := StartFiles { sf_cometbft : dict; sf_xian : dict; sf_genesis : dict }.

(** What else it finds: the environment, the bundle directory if it is there, and where the
    storage directory is. *)
Record surroundings := Surroundings {
  sr_environ : list (string * string); sr_patch_files : option (list (string * string)); sr_storage_home : string }.

Section Startup.
Context {S D : Type} `{DriverOps D} `{PyArith} `{!Runtime D} `{!FeatureOps D} `{!StorageOps S D} `{Library : NodeLibrary}.
Context (sha256 : bytes -> bytes) (py_str : value -> string) (float_trunc : string -> result Z) (float_of : value -> result string)
        (zk_available : bool).

Definition system_exit {A} : result A := raise OtherError "SystemExit".

Definition _require_zk_verifier_if_enabled (runtime_features : dict) : result unit :=
  if truthy (py_get "zk" runtime_features (VBool false)) && negb zk_available then system_exit else Ok tt.

(** [PerfTracker.from_env]: how many blocks the profiler keeps, when it is switched on. *)
Definition perf_from_env (environ : list (string * string)) : result (option Z) :=
  if bool_decide (py_lower (py_strip (default "" (dict_get "XIAN_PERF_ENABLED" environ))) ∈ ["1"; "true"; "yes"; "on"])
  then Some <$> int_of_str (default "32" (dict_get "XIAN_PERF_RECENT_BLOCKS" environ))
  else Ok None.

(** Resolution that fails with a [ValueError] ends the process. *)
Definition start_features (d : D) (genesis : dict) : result RuntimeFeatureResolution :=
  match resolve_runtime_features (Some d) (Some (VDict genesis)) with
  | Raise (Exn ValueError _) => system_exit
  | r => r
  end.

(** The checks before anything is written. *)
Definition check_files (files : result start_files) (storage : S) : result start_files :=
  f ← match files with Ok f => Ok f | Raise _ => system_exit end;
  _ ← validate_vm_execution_config (Some (sf_xian f));
  _ ← validate_genesis_execution_policy (sf_genesis f);
  _ ← validate_persisted_execution_policy (raw_entries storage);
  bindings ← vm_bindings;
  _ ← build_vm_runtime bindings.1 bindings.2;
  Ok f.

(** What the files and the surroundings alone decide, after the cache was built. *)
Definition configure (f : start_files) (w : surroundings) (features : dict) : result startup :=
  chain_id ← match py_get "chain_id" (sf_genesis f) VNone with
             | VNone => raise ValueError "No value set for 'chain_id' in genesis block"
             | v => Ok (to_str py_str v)
             end;
  _ ← perf_from_env (sr_environ w);
  settings ← read_settings py_str float_trunc float_of local_rpc_url (sf_cometbft f) (sf_xian f) (sr_storage_home w) (sr_environ w);
  _ ← check_py (negb (is_none (py_get "abci_genesis" (sf_genesis f) VNone))) ValueError
        "No value set for 'abci_genesis' in Tendermint genesis.json";
  patches ← match load_patches sha256 (sr_patch_files w) (PatchManager (Some chain_id) DEFAULT_GOVERNANCE_CONTRACT [] false) with
            | (Ok _, p) => Ok p
            | (Raise e, _) => Raise e
            end;
  Ok (Startup (AppConfig chain_id (max_tx_bytes settings) (tx_fee_policy settings)) patches settings features).

(** [files] is what loading the three files gives; the storage directory and the mirror are
    changed even when the start fails later. *)
Definition boot (files : result start_files) (w : surroundings) (io_ok : bool) : stM (S * mirror) (startup * node (D := D)) := λ st,
  let '(storage, m) := st in
  match check_files files storage with
  | Raise e => (Raise e, st)
  | Ok f =>
    let '(r, entries) := initialize_execution_policy (raw_entries storage) in
    let storage := with_entries entries storage in
    match r with
    | Raise e => (Raise e, (storage, m))
    | Ok _ =>
      let d := open_driver storage in
      match reconcile_latest_block py_str float_trunc io_ok d m with
      | (Raise e, m) => (Raise e, (storage, m))
      | (Ok _, m) =>
        ((resolution ← start_features d (sf_genesis f);
          let '(features, d) := install_driver_runtime_features d resolution in
          _ ← _require_zk_verifier_if_enabled features;
          cache ← new_cache sha256 (drv_items d);
          su ← configure f w features;
          Ok (su, Node (App (MkNonceStorage d ∅ 0) cache None None None m) VNone [])), (storage, m))
      end
    end
  end.

(** ** What a start establishes *)

Context `{!DriverLaws D} `{!RuntimeLaws D} `{!FeatureLaws D} `{!StorageLaws S D}.


Lemma new_cache_synced (a : app (D := D)) :
  drv_pending_writes (raw_driver a) = [] -> new_cache sha256 (drv_items (raw_driver a)) = Ok (state_root_cache a) -> synced sha256 a.
Proof.
  intros Hp Hc. apply new_cache_tracks in Hc as [Ht Hs]; [|apply drv_items_nodup]. split; [done|].
  exists (drv_items (raw_driver a)). split; [done|]. intros q. by apply drv_items_spec.
Qed.

Lemma configure_loads f w features su :
  configure f w features = Ok su -> exists m0, load_patches sha256 (sr_patch_files w) m0 = (Ok tt, su_patches su).
Proof.
  unfold configure. intros Hc. destruct_result. cbn [su_patches].
  match goal with E : match load_patches _ _ ?m0 with _ => _ end = Ok _ |- _ => exists m0; by destruct (load_patches _ _ m0) as [[[]|] ?]; simplify_eq end.
Qed.

(** A node that starts on a directory with entries has the state of that directory, with a
    cache that agrees with it, and nothing pending or staged. *)
Lemma boot_started files w io_ok storage m su n st' :
  default [] (raw_entries storage) <> [] -> boot files w io_ok (storage, m) = (Ok (su, n), st') ->
  (forall q, disk (n_app n) q = drv_value_from_disk (open_driver storage : D) q) /\ drv_pending_writes (raw_driver (n_app n)) = [] /\
  _pending_commit_driver_state (n_app n) = None /\ synced sha256 (n_app n) /\
  (exists m0, load_patches sha256 (sr_patch_files w) m0 = (Ok tt, su_patches su)) /\
  exists f features, files = Ok f /\ check_files files storage = Ok f /\ configure f w features = Ok su.
Proof.
  intros Hne Hb. unfold boot in Hb. destruct (check_files files storage) as [f|] eqn:Ec; [|done].
  assert (Hf : files = Ok f) by (unfold check_files in Ec; by destruct files; destruct_result).
  destruct (initialize_execution_policy (raw_entries storage)) as [r entries] eqn:Ei.
  apply initialize_execution_policy_correct in Ei as [_ Hsame]. rewrite (Hsame Hne), with_same_entries in Hb.
  destruct r as [[]|]; [|done]. destruct (reconcile_latest_block _ _ _ _ _) as [[b|] m1]; [|done].
  injection Hb as Hb <-. destruct_result.
  destruct (install_driver_runtime_features (open_driver storage) a) as [features d] eqn:Ed. destruct_result.
  pose proof (install_pending (open_driver storage : D) (rf_features a)) as Hp.
  pose proof (install_disk (open_driver storage : D) (rf_features a)) as Hd.
  unfold install_driver_runtime_features in Ed. rewrite Ed in Hp, Hd. cbn [snd] in Hp, Hd. rewrite open_pending in Hp.
  injection Hb as <- <-. cbn [n_app]. split_and!; try done.
  - by apply new_cache_synced.
  - eapply configure_loads; eassumption.
  - by eexists _, _.
Qed.

(** ** The chain across crashes *)

Context (float_le_zero : string -> bool) (verify_message : string -> string -> string -> result bool)
        (is_safe_contract_name : value -> bool) (fuel : nat) (handler : option (rewards_handler (D := D)))
        (monotonic : nat -> Z) (reservation_ttl_seconds : Z) (pruning_enabled : bool) (blocks_to_keep : Z).

(** A running process, with a block that waits for Commit or not, or what a stopped one left. *)
Inductive system :=
  | Running (su : startup) (n : node (D := D)) (waiting : bool)
  | Stopped (s : S) (m : mirror).

Definition halted (n : node (D := D)) : system := Stopped (storage_of (raw_driver (n_app n))) (latest_block_mirror (n_app n)).

Inductive event :=
  | Finalized (height : Z) (app_hash : bytes)
  | Committed
  | CommitFailed
  | Crashed
  | Started
  | StartFailed.

Definition run_finalize (su : startup) (req : RequestFinalizeBlock) : stM (node (D := D)) ResponseFinalizeBlock :=
  finalize_block_method sha256 py_str float_trunc float_le_zero verify_message is_safe_contract_name fuel (su_config su)
    (su_patches su) handler serial req.
Definition run_commit (commit_ok io_ok : bool) : stM (app (D := D)) Z :=
  App.commit monotonic reservation_ttl_seconds pruning_enabled blocks_to_keep commit_ok io_ok.

(** No two keys of the state share a priority hash. *)
Definition no_collision (a : app (D := D)) : Prop := distinct_priorities sha256 (dict_keys (_leaf_hashes (state_root_cache a))).

(** CometBFT calls FinalizeBlock and Commit in turn, retries a Commit that raised or stops;
    an exception in FinalizeBlock stops the process, and it can stop at any other moment. *)
Inductive sys_step : system -> event -> system -> Prop :=
  | finalizes su req n resp n' :
      run_finalize su req n = (Ok resp, n') -> no_collision (n_app n') ->
      sys_step (Running su n false) (Finalized (rq_height req) (rs_app_hash resp)) (Running su n' true)
  | finalize_raises su req n e n' :
      run_finalize su req n = (Raise e, n') -> sys_step (Running su n false) Crashed (halted n')
  | commits su n commit_ok io_ok r a :
      run_commit commit_ok io_ok (n_app n) = (Ok r, a) ->
      sys_step (Running su n true) Committed (Running su (Node a (n_chi_cost n) (n_prepared n)) false)
  | commit_raises su n commit_ok io_ok e a :
      run_commit commit_ok io_ok (n_app n) = (Raise e, a) ->
      sys_step (Running su n true) CommitFailed (Running su (Node a (n_chi_cost n) (n_prepared n)) true)
  | crashes su n w : sys_step (Running su n w) Crashed (halted n)
  | starts files w io_ok s m su n st' :
      boot files w io_ok (s, m) = (Ok (su, n), st') -> sys_step (Stopped s m) Started (Running su n false)
  | start_raises files w io_ok s m e st' :
      boot files w io_ok (s, m) = (Raise e, st') -> sys_step (Stopped s m) StartFailed (Stopped st'.1 st'.2).

(** *** The specification *)

(** A ledger: the last durable block and the one that waits, each a height with its app hash. *)
Record ledger := Ledger { last : Z * bytes; waits : option (Z * bytes); up : bool }.

(** A Commit that raised has happened or not; a crash forgets the block that waits and
    nothing else. *)
Inductive ledger_step : ledger -> event -> ledger -> Prop :=
  | l_finalized b h r : ledger_step (Ledger b None true) (Finalized h r) (Ledger b (Some (h, r)) true)
  | l_committed b w : ledger_step (Ledger b (Some w) true) Committed (Ledger w None true)
  | l_failed_before b w : ledger_step (Ledger b (Some w) true) CommitFailed (Ledger b (Some w) true)
  | l_failed_after b w : ledger_step (Ledger b (Some w) true) CommitFailed (Ledger w (Some w) true)
  | l_crashed b w : ledger_step (Ledger b w true) Crashed (Ledger b None false)
  | l_started b : ledger_step (Ledger b None false) Started (Ledger b None true)
  | l_not_started b : ledger_step (Ledger b None false) StartFailed (Ledger b None false).

(** *** The relation *)

(** A durable state whose marker names the block [b] and whose root is the app hash of [b],
    or the state of a chain before its first block. *)
Definition durable (v : string -> value) (b : Z * bytes) : Prop :=
  exists c items, tracks sha256 c items /\ (forall q, v q = value_at items q) /\
    ((b = (0, []) /\ v LATEST_BLOCK_KEY = VNone) \/
     (exists nanos, v LATEST_BLOCK_KEY = latest_block_value (LatestBlock (bytes_hex b.2) b.1 nanos)) /\ Forall is_byte b.2 /\
     distinct_priorities sha256 (dict_keys (_leaf_hashes c)) /\ b.2 = root_hash sha256 c).

#[global] Instance durable_proper : Proper (pointwise_relation _ (=) ==> (=) ==> iff) durable.
Proof.
  intros v v' Hv b ? <-. unfold durable.
  split; intros (c & items & Ht & Hq & Hb); exists c, items; (split; [done|]); (split; [intros q|]);
    [rewrite <- (Hv q)|rewrite <- (Hv LATEST_BLOCK_KEY)|rewrite (Hv q)|rewrite (Hv LATEST_BLOCK_KEY)]; done.
Qed.

(** A finalized block that Commit can make durable. *)
Definition ready (a : app (D := D)) (b : Z * bytes) : Prop :=
  exists m, current_block_meta a = Some m /\ bm_height m = b.1 /\ merkle_root_hash a = Some b.2 /\
    cache_ok sha256 (state_root_cache a) /\ no_collision a /\ b.2 = root_hash sha256 (state_root_cache a) /\
    (forall q, leaf (state_root_cache a) q = leaf_of sha256 q (view a q)) /\
    (forall q, encodable sha256 (q, view a q) = true).

Definition policy_stored (v : string -> value) : Prop := v EXECUTION_POLICY_KEY = VDict current_execution_policy.

Definition su_ok (su : startup) : Prop := exists files m0, load_patches sha256 files m0 = (Ok tt, su_patches su).

Inductive refines : system -> ledger -> Prop :=
  | refines_idle su n b :
      su_ok su -> policy_is (VDict current_execution_policy) n -> durable (disk (n_app n)) b -> synced sha256 (n_app n) ->
      _pending_commit_driver_state (n_app n) = None -> refines (Running su n false) (Ledger b None true)
  | refines_waiting su n b w :
      su_ok su -> policy_is (VDict current_execution_policy) n -> durable (disk (n_app n)) b -> ready (n_app n) w ->
      refines (Running su n true) (Ledger b (Some w) true)
  | refines_stopped s m b :
      default [] (raw_entries s) <> [] -> policy_stored (drv_value_from_disk (open_driver s : D)) ->
      validate_persisted_execution_policy (raw_entries s) = Ok true ->
      durable (drv_value_from_disk (open_driver s : D)) b -> refines (Stopped s m) (Ledger b None false).

(** *** Each step *)

Context (handler_fine : handler_ok handler) (sha_bytes : forall b, Forall is_byte (sha256 b)).

Lemma stage_disk (a a' : app (D := D)) r q : _stage_pending_commit_driver_state a = (r, a') -> disk a' q = disk a q.
Proof.
  unfold _stage_pending_commit_driver_state. destruct (_pending_commit_driver_state a); [by intros [= _ <-]|].
  destruct (drv_detach_spec (raw_driver a)) as (_ & _ & D3). destruct (drv_detach (raw_driver a)) as [w d]. intros [= _ <-]. apply D3.
Qed.

(** Values that are encodable in a tracked state. *)
Lemma value_encodable c items q : tracks sha256 c items -> encodable sha256 (q, value_at items q) = true.
Proof.
  intros Ht. unfold value_at. destruct (dict_get q items) as [v|] eqn:E; [|done]. apply dict_get_Some_elem in E.
  pose proof (tr_enc _ _ _ Ht) as He. rewrite Forall_forall in He. by apply (He (q, v)).
Qed.

Lemma finalize_ready su req n resp n' :
  su_ok su -> synced sha256 (n_app n) -> _pending_commit_driver_state (n_app n) = None -> run_finalize su req n = (Ok resp, n') ->
  no_collision (n_app n') -> ready (n_app n') (rq_height req, rs_app_hash resp) /\ (forall q, disk (n_app n') q = disk (n_app n) q).
Proof.
  intros Hsu [Hy1 (items & Ht & Hdisk)] Hst Hf Hd. unfold run_finalize, finalize_block_method in Hf.
  destruct (finalize_block _ _ _ _ _ _ _ _ _ _ _ _ _) as [[resp0|] n0] eqn:Ef; [|done]. injection Hf as -> ->.
  destruct (finalize_run _ _ _ _ _ _ _ _ _ _ handler_fine Hsu serial req n resp n' keeps_serial Ef)
    as (n1 & n2 & n3 & meta & _ & _ & [B2 _] & Hmeta & Hm & Hr & Hs & Hh).
  destruct B2 as [Bd Bc Bs _].
  destruct (prepare_root_spec sha256 (n_app n2) (n_app n3) items) as (Ha3 & Hok & Hew & Hleaf);
    [by rewrite Bc|by rewrite Bc|intros q; rewrite Bd; apply Hdisk|done|].
  destruct (stage_view _ _ Hs) as (Hview & _ & M3 & R3 & C3).
  assert (Hd3 : raw_driver (n_app n3) = raw_driver (n_app n2)) by (by rewrite Ha3). rewrite Hd3 in Hview.
  rewrite R3, Ha3 in Hh. cbn in Hh. split.
  - exists meta. rewrite M3, R3, C3. unfold no_collision in *. rewrite C3 in Hd |- *. split_and!; try done.
    + rewrite Ha3. cbn. exact Hm.
    + by rewrite Hmeta.
    + rewrite Ha3. cbn. by rewrite Hh.
    + intros q. rewrite Hview. apply Hleaf.
    + intros q. rewrite Hview, drv_get_spec. destruct (dict_get q (drv_pending_writes (raw_driver (n_app n2)))) as [v|] eqn:Eg.
      * apply dict_get_Some_elem in Eg. rewrite Forall_forall in Hew. by apply (Hew (q, v)).
      * change (drv_value_from_disk (raw_driver (n_app n2)) q) with (disk (n_app n2) q). rewrite Bd.
        change (disk (n_app (_initialize_block (su_config su) req n).2) q) with (disk (n_app n) q). rewrite Hdisk. by apply (value_encodable (state_root_cache (n_app n))).
  - intros q. rewrite (stage_disk _ _ _ q Hs). unfold disk. rewrite Hd3. apply Bd.
Qed.

(** What happens before a block is staged leaves the disk alone. *)
Definition disk_frame (n n' : node (D := D)) : Prop := forall q, disk (n_app n') q = disk (n_app n) q.

#[global] Instance disk_frame_preorder : PreOrder disk_frame.
Proof. split; [done|]. intros a b c H1 H2 q. by rewrite H2. Qed.

Lemma keeps_disk {A} (m : stM (node (D := D)) A) : keeps frame m -> keeps disk_frame m.
Proof. intros Hm n q. apply Hm. Qed.

Lemma keeps_root_disk : keeps disk_frame (on_app (prepare_root sha256)).
Proof. intros [a k c] q. unfold on_app, prepare_root. cbn [n_app]. by destruct (prepare sha256 _ _) as [[h|] c']. Qed.

#[local] Hint Resolve keeps_disk keeps_root_disk keeps_validators keeps_patches : keeps.

Lemma finalize_disk su req n : su_ok su -> forall q, disk (n_app (run_finalize su req n).2) q = disk (n_app n) q.
Proof.
  intros Hsu q. unfold run_finalize, finalize_block_method, finalize_block.
  set (n0 := (_initialize_block (su_config su) req n).2).
  change (_initialize_block (su_config su) req n) with ((_initialize_block (su_config su) req n).1, n0).
  destruct (_initialize_block (su_config su) req n).1 as [nanos bh].
  assert (Hp : keeps disk_frame (finalize_prefix sha256 py_str float_trunc float_le_zero verify_message is_safe_contract_name fuel (su_config su)
                 (su_patches su) handler serial req nanos bh)).
  { unfold finalize_prefix, _prepare_commit_boundary.
    pose proof (λ meta, keeps_disk _ (keeps_execute_block sha256 py_str float_trunc verify_message is_safe_contract_name fuel
                                        (su_config su) handler handler_fine req meta serial keeps_serial)).
    keep. }
  specialize (Hp n0 q). change (disk (n_app n0) q) with (disk (n_app n) q) in Hp. unfold finalize_block_body. unfold mbind at 1, stM_bind at 1.
  destruct (finalize_prefix _ _ _ _ _ _ _ _ _ _ _ _ _ _ n0) as [[[txs ups]|e] n1]; cbn [snd] in Hp; cycle 1.
  { etransitivity; [|exact Hp]. done. }
  unfold mbind at 1, stM_bind at 1, on_app.
  destruct (_stage_pending_commit_driver_state (n_app n1)) as [r a] eqn:Es. pose proof (stage_disk _ _ _ q Es) as Hd.
  destruct r as [[]|e]; cbn [snd n_app]; (etransitivity; [|exact Hp]); (etransitivity; [|exact Hd]); done.
Qed.

(** ** Commit *)

(** What a Commit that raised keeps. *)
Lemma commit_raised commit_ok io_ok (a : app (D := D)) e a' :
  run_commit commit_ok io_ok a = (Raise e, a') ->
  current_block_meta a' = current_block_meta a /\ merkle_root_hash a' = merkle_root_hash a /\
  (state_root_cache a' = state_root_cache a \/ state_root_cache a' = StateRoot.commit (state_root_cache a)).
Proof.
  unfold run_commit, App.commit. cbv zeta. destruct (restore_fields a) as (R1 & R2 & R3 & R4).
  set (a0 := _restore_pending_commit_driver_state a) in *. rewrite <- R1, <- R2, <- R3.
  destruct (current_block_meta a0) as [m|] eqn:Em; [|intros [= _ <-]; auto].
  destruct (merkle_root_hash a0) as [h|] eqn:Eh; [|intros [= _ <-]; auto].
  destruct (stage_latest_block _ _ _ _) as [latest d]. destruct (drv_hard_apply commit_ok d) as [[[]|e'] d1].
  - unfold mbind at 1, stM_bind at 1, on_nonces. destruct (reconcile_pending _ _ _) as [[[]|e'] ns]; [done|].
    intros [= _ <-]. cbn. auto.
  - intros [= _ <-]. cbn. auto.
Qed.

Lemma commit_ready commit_ok io_ok (a : app (D := D)) b r a' :
  ready a b -> run_commit commit_ok io_ok a = (r, a') ->
  (durable (disk a') b /\ synced sha256 a' /\ _pending_commit_driver_state a' = None) \/
  (is_ok r = false /\ forall q, disk a' q = disk a q).
Proof.
  intros (m & Hm & Hheight & Hh & Hok & Hd & Hroot & Hleaf & Henc) Hc. destruct b as [height h]. cbn [fst snd] in *.
  destruct (commit_spec _ _ _ _ _ _ _ _ _ _ _ Hm Hh Hc) as [(H1 & H2 & H3 & H4)|((e & ->) & H2 & _)]; [left|by right].
  assert (Hv : forall q, value_at (drv_items (raw_driver a')) q = target a h m q).
  { intros q. unfold value_at. rewrite <- (drv_items_spec _ q H2). apply H1. }
  assert (Hcons : forall q, leaf_of sha256 q (target a h m q) = leaf_of sha256 q (view a q) /\ encodable sha256 (q, target a h m q) = true).
  { intros q. unfold target. destruct (decide (q = LATEST_BLOCK_KEY)) as [->|Hq]; [|by split].
    unfold leaf_of, encodable. cbn [fst snd]. by rewrite marker_not_consensus, !orb_true_r. }
  assert (Ht : tracks sha256 (state_root_cache a') (drv_items (raw_driver a'))).
  { rewrite H3. apply tracks_values; [by apply StateRoot.commit_ok|apply drv_items_nodup| |].
    - apply Forall_forall. intros [k v] Hin. assert (v = target a h m k) as ->; [|apply Hcons].
      rewrite <- Hv. unfold value_at. by rewrite (dict_get_elem k v) by (done || apply drv_items_nodup).
    - intros q. rewrite Hv. change (leaf (StateRoot.commit (state_root_cache a)) q) with (leaf (state_root_cache a) q).
      rewrite Hleaf. symmetry. apply Hcons. }
  split_and!; [|split; [by rewrite H3|]; exists (drv_items (raw_driver a')); split; [done|]; intros q; by rewrite H1, Hv|done].
  exists (state_root_cache a'), (drv_items (raw_driver a')). split; [done|]. split; [intros q; by rewrite H1, Hv|]. right.
  cbn [fst snd]. split_and!.
  - exists (bm_nanos m). rewrite H1. unfold target. rewrite decide_True by done. unfold marker. by rewrite Hheight.
  - rewrite Hroot. by apply root_hash_bytes.
  - by rewrite H3.
  - by rewrite H3.
Qed.

Lemma commit_still_ready commit_ok io_ok (a : app (D := D)) b e a' : ready a b -> run_commit commit_ok io_ok a = (Raise e, a') -> ready a' b.
Proof.
  intros (m & Hm & Hheight & Hh & Hok & Hd & Hroot & Hleaf & Henc) Hc.
  destruct (commit_raised _ _ _ _ _ Hc) as (M & R & C). exists m. rewrite M, R.
  assert (Hview : forall q, view a' q = target a b.2 m q).
  { destruct (commit_spec _ _ _ _ _ _ _ _ _ _ _ Hm Hh Hc) as [(H1 & H2 & _ & H4)|(_ & _ & H3 & _)]; [|done].
    intros q. rewrite view_unstaged, drv_get_spec, H2 by done. apply H1. }
  assert (Hcons : forall q, leaf_of sha256 q (view a' q) = leaf_of sha256 q (view a q) /\ encodable sha256 (q, view a' q) = true).
  { intros q. rewrite Hview. unfold target. destruct (decide (q = LATEST_BLOCK_KEY)) as [->|Hq]; [|by split].
    unfold leaf_of, encodable. cbn [fst snd]. by rewrite marker_not_consensus, !orb_true_r. }
  assert (Hc' : cache_ok sha256 (state_root_cache a') /\ _root (state_root_cache a') = _root (state_root_cache a) /\
               _leaf_hashes (state_root_cache a') = _leaf_hashes (state_root_cache a)).
  { destruct C as [-> | ->]; split_and!; try done. by apply StateRoot.commit_ok. }
  destruct Hc' as (Hok' & Hroot' & Hl'). unfold no_collision, root_hash, leaf in *. rewrite Hroot', Hl'. split_and!; try done.
  - intros q. rewrite Hleaf. symmetry. apply Hcons.
  - intros q. apply Hcons.
Qed.

(** *** The simulation *)

Lemma durable_marker (d : D) b :
  durable (drv_value_from_disk d) b -> exists nanos, get_committed_latest_block py_str float_trunc d = Ok (LatestBlock (bytes_hex b.2) b.1 nanos).
Proof.
  intros (_ & _ & _ & _ & [[-> Hv]|((nanos & Hv) & Hb & _)]).
  - exists 0. unfold get_committed_latest_block, _load_committed_latest_block. by rewrite Hv.
  - exists nanos. apply committed_marker; [|done]. cbn [lb_hash]. by rewrite fromhex_bytes_hex.
Qed.

Lemma durable_root (d : D) b :
  drv_pending_writes d = [] -> durable (drv_value_from_disk d) b ->
  b = (0, []) \/ merkle_root_from_items sha256 (drv_items d) = Ok b.2.
Proof.
  intros Hp (c & items & Ht & Hv & [[-> _]|(_ & _ & Hd & ->)]); [by left|right]. apply tracks_root; [|done].
  apply (tracks_same_values _ _ items); [done|apply drv_items_nodup|]. intros q _. unfold value_at at 1.
  by rewrite <- (drv_items_spec d q Hp), Hv.
Qed.

Lemma halted_refines n b :
  policy_is (VDict current_execution_policy) n -> durable (disk (n_app n)) b -> refines (halted n) (Ledger b None false).
Proof.
  intros [Hp _ _] Hd. unfold disk in *.
  assert (Hs : pointwise_relation _ (=) (drv_value_from_disk (open_driver (storage_of (raw_driver (n_app n)) : S) : D))
                 (drv_value_from_disk (raw_driver (n_app n)))) by (intros q; apply open_stored).
  apply refines_stopped.
  - apply (stored_entries (raw_driver (n_app n)) EXECUTION_POLICY_KEY). by rewrite Hp.
  - unfold policy_stored. rewrite (Hs EXECUTION_POLICY_KEY). done.
  - by apply stored_policy.
  - rewrite Hs. done.
Qed.

Lemma durable_disk (a a' : app (D := D)) b : (forall q, disk a' q = disk a q) -> durable (disk a) b -> durable (disk a') b.
Proof. intros Hq. assert (pointwise_relation _ (=) (disk a') (disk a)) as -> by exact Hq. done. Qed.

Lemma boot_keeps files w io_ok s m e st' :
  default [] (raw_entries s) <> [] -> boot files w io_ok (s, m) = (Raise e, st') -> st'.1 = s.
Proof.
  intros Hne Hb. unfold boot in Hb. destruct (check_files files s) as [f|]; [|by injection Hb as _ <-].
  destruct (initialize_execution_policy (raw_entries s)) as [r entries] eqn:Ei.
  apply initialize_execution_policy_correct in Ei as [_ Hsame]. rewrite (Hsame Hne), with_same_entries in Hb.
  destruct r as [[]|]; [|by injection Hb as _ <-].
  by destruct (reconcile_latest_block _ _ _ _ _) as [[b|] m1]; injection Hb as _ <-.
Qed.

Lemma step_refines s l e s' : refines s l -> sys_step s e s' -> exists l', ledger_step l e l' /\ refines s' l'.
Proof.
  intros Hr Hs. destruct Hs as [su req n resp n' Hf Hd|su req n e n' Hf|su n ok io r a Hc|su n ok io e a Hc|su n w
    |files w io s m su n st' Hb|files w io s m e st' Hb]; inversion Hr; subst; clear Hr.
  - destruct (finalize_ready su req n resp n') as [Hw Hq]; [done..|]. eexists. split; [constructor|].
    constructor; [done| |by apply (durable_disk (n_app n))|done]. unfold run_finalize in Hf. by eapply finalize_policy.
  - eexists. split; [constructor|]. apply halted_refines; [unfold run_finalize in Hf; by eapply finalize_policy|].
    apply (durable_disk (n_app n)); [|done]. intros q. pose proof (finalize_disk su req n) as Hq. rewrite Hf in Hq. by apply Hq.
  - destruct (commit_ready ok io (n_app n) w (Ok r) a) as [(Ha & Hb & Hc1)|[? _]]; [done..| |done].
    eexists. split; [constructor|]. constructor; [done| |done..]. by eapply commit_policy.
  - assert (Hp : policy_is (VDict current_execution_policy) (Node a (n_chi_cost n) (n_prepared n))) by (by eapply commit_policy).
    assert (Hw : ready a w) by (by eapply commit_still_ready).
    destruct (commit_ready ok io (n_app n) w (Raise e) a) as [(Ha & _)|[_ Hq]]; [done..| |].
    + eexists. split; [apply l_failed_after|]. by constructor.
    + eexists. split; [apply l_failed_before|]. constructor; [done|done| |done]. by apply (durable_disk (n_app n)).
  - eexists. split; [constructor|]. by apply halted_refines.
  - eexists. split; [constructor|]. by apply halted_refines.
  - destruct (boot_started files w io s m su n st') as (Hd & Hp & Hn & Hy & (m0 & Hl) & _); [done..|]. eexists. split; [constructor|].
    assert (Hq : pointwise_relation _ (=) (disk (n_app n)) (drv_value_from_disk (open_driver s : D))) by exact Hd.
    assert (Hg : drv_get (raw_driver (n_app n)) EXECUTION_POLICY_KEY = VDict current_execution_policy).
    { rewrite drv_get_spec, Hp. change (disk (n_app n) EXECUTION_POLICY_KEY = VDict current_execution_policy). rewrite Hd. done. }
    constructor; [by exists (sr_patch_files w), m0| |by rewrite Hq|done|done]. split; [by rewrite Hd|done|]. by rewrite view_unstaged.
  - eexists. split; [constructor|]. rewrite (boot_keeps _ _ _ _ _ _ _ ltac:(eassumption) Hb). by constructor.
Qed.

(** Runs of either machine. *)
Inductive traces {A} (step : A -> event -> A -> Prop) : A -> list event -> A -> Prop :=
  | traces_nil s : traces step s [] s
  | traces_cons s e s1 tr s' : step s e s1 -> traces step s1 tr s' -> traces step s (e :: tr) s'.

(** What can be seen of a system: the answer of Info and the root of what is on disk. *)
Definition observed (s : system) (l : ledger) : Prop :=
  match s with
  | Running _ n _ =>
      (forall io_ok, is_ok (read_mirror py_str float_trunc io_ok (latest_block_mirror (n_app n))) = true ->
        (info py_str float_trunc io_ok (n_app n)).1 = Ok (Info (last l).1 (last l).2)) /\
      (last l = (0, []) \/
       merkle_root_from_items sha256 (drv_items (open_driver (storage_of (raw_driver (n_app n)) : S) : D)) = Ok (last l).2)
  | Stopped s _ => last l = (0, []) \/ merkle_root_from_items sha256 (drv_items (open_driver s : D)) = Ok (last l).2
  end.

Lemma running_observed su n w l : durable (disk (n_app n)) (last l) -> observed (Running su n w) l.
Proof.
  intros Hd. split.
  - intros io_ok Hm. unfold info, reconcile_latest_block. destruct (durable_marker (raw_driver (n_app n)) (last l) Hd) as [nanos ->].
    destruct (read_mirror _ _ _ _) as [mir|]; [|done]. cbn [fst lb_hash lb_height].
    rewrite fromhex_bytes_hex; [done|]. destruct Hd as (_ & _ & _ & _ & [[-> _]|(_ & Hb & _)]); [constructor|done].
  - apply durable_root; [apply open_pending|]. assert (pointwise_relation _ (=) (drv_value_from_disk
      (open_driver (storage_of (raw_driver (n_app n)) : S) : D)) (disk (n_app n))) as -> by (intros q; apply open_stored). done.
Qed.

Lemma refines_observed s l : refines s l -> observed s l.
Proof.
  destruct 1; [by apply running_observed..|]. apply durable_root; [apply open_pending|done].
Qed.

Lemma trace_refines s l tr s' : refines s l -> traces sys_step s tr s' -> exists l', traces ledger_step l tr l' /\ refines s' l'.
Proof.
  intros Hr Ht. revert l Hr. induction Ht as [s|s e s1 tr s' Hs _ IH]; intros l Hr; [exists l; by split; [constructor|]|].
  destruct (step_refines s l e s1 Hr Hs) as (l1 & Hl & Hr1). destruct (IH l1 Hr1) as (l' & Hl' & H1).
  exists l'. split; [by econstructor|done].
Qed.

(** Claim C1. A node is a ledger that survives crashes: every run of a node, with blocks finalized and
    committed, Commits that fail and are retried, and crashes and restarts between any two
    calls, is a run of the specification, in which a block counts from the moment its Commit
    took place and a crash loses nothing but the block that waits.  At every moment Info
    answers with the last block of the ledger, and the root of the state on disk, from
    scratch, is the app hash FinalizeBlock answered for it. *)
Theorem node_refines_ledger s l tr s' :
  refines s l -> traces sys_step s tr s' -> exists l', traces ledger_step l tr l' /\ refines s' l' /\ observed s' l'.
Proof.
  intros Hr Ht. destruct (trace_refines _ _ _ _ Hr Ht) as (l' & Hl & Hs). exists l'. split_and!; [done..|by apply refines_observed].
Qed.

(** Run again what is known to return. *)
Ltac rebind := repeat match goal with E : ?m = Ok _ |- mbind _ ?m = _ => rewrite E; cbn [mbind result_bind] end.

(** A directory that refines the ledger passes the checks another directory passed. *)
Lemma check_files_again files s0 s f :
  check_files files s0 = Ok f -> validate_persisted_execution_policy (raw_entries s) = Ok true -> check_files files s = Ok f.
Proof. unfold check_files. intros Hf Hv. destruct_result. rebind. done. Qed.

(** What is installed does not matter to the rest of the configuration. *)
Lemma configure_again f w features features' su :
  configure f w features = Ok su ->
  configure f w features' = Ok (Startup (su_config su) (su_patches su) (su_settings su) features').
Proof. unfold configure. intros Hc. destruct_result. rebind. done. Qed.

(** The cache can be built from a durable state. *)
Lemma durable_cache (d : D) v b :
  drv_pending_writes d = [] -> (forall q, drv_value_from_disk d q = v q) -> durable v b -> exists c, new_cache sha256 (drv_items d) = Ok c.
Proof.
  intros Hp Hd (c & items & Ht & Hv & _). assert (Ht' : tracks sha256 c (drv_items d)).
  { apply (tracks_same_values _ _ items); [done|apply drv_items_nodup|]. intros q _. unfold value_at at 1.
    by rewrite <- (drv_items_spec d q Hp), Hd, Hv. }
  apply tracks_new_cache; apply Ht'.
Qed.

Lemma boot_again files w io_ok s0 f su0 features0 s m b resolution :
  refines (Stopped s m) (Ledger b None false) -> check_files files s0 = Ok f -> configure f w features0 = Ok su0 ->
  is_ok (read_mirror py_str float_trunc io_ok m) = true -> start_features (open_driver s : D) (sf_genesis f) = Ok resolution ->
  _require_zk_verifier_if_enabled (set_driver_runtime_features (open_driver s : D) (rf_features resolution)).1 = Ok tt ->
  exists su n st', boot files w io_ok (s, m) = (Ok (su, n), st') /\
    su_config su = su_config su0 /\ su_patches su = su_patches su0 /\ su_settings su = su_settings su0.
Proof.
  intros Hr Hc Hcfg Hm Hf Hz. inversion Hr as [| |s1 m1 b1 Hne Hpol Hval Hd]; subst s1 m1 b1.
  unfold boot. rewrite (check_files_again _ _ s _ Hc Hval). unfold initialize_execution_policy. rewrite Hval, with_same_entries.
  unfold reconcile_latest_block. destruct (durable_marker (open_driver s : D) b Hd) as [nanos ->].
  destruct (read_mirror _ _ _ _) as [mir|]; [|done]. rewrite Hf. cbn [mbind result_bind]. unfold install_driver_runtime_features.
  pose proof (install_pending (open_driver s : D) (rf_features resolution)) as Ip.
  pose proof (install_disk (open_driver s : D) (rf_features resolution)) as Id. rewrite open_pending in Ip.
  destruct (set_driver_runtime_features (open_driver s) (rf_features resolution)) as [features d]. cbn [fst snd] in *. rewrite Hz. cbn [mbind result_bind].
  destruct (durable_cache d _ b Ip Id Hd) as [c ->]. cbn [mbind result_bind]. rewrite (configure_again _ _ _ _ _ Hcfg). cbn [mbind result_bind].
  by do 3 eexists.
Qed.

(** Claim C8. A node that started once starts again with the same files, whatever happened between
    the two starts: blocks, Commits that failed, failed starts and crashes at any moment never
    leave a directory that the policy check, the latest-block marker or the building of the
    state-root cache refuses, and the node that starts has the configuration of the first
    start and the last block of the ledger.  What the start still depends on are the
    latest-block file, which it must be able to read, and the runtime features stored in the
    state: they must resolve, and the verifier they ask for must be there. *)
Theorem restart_succeeds files w io_ok s0 m0 su0 n0 st0 b0 tr s m io_ok' resolution :
  refines (Stopped s0 m0) (Ledger b0 None false) -> boot files w io_ok (s0, m0) = (Ok (su0, n0), st0) ->
  traces sys_step (Running su0 n0 false) tr (Stopped s m) -> is_ok (read_mirror py_str float_trunc io_ok' m) = true ->
  (forall f, files = Ok f -> start_features (open_driver s : D) (sf_genesis f) = Ok resolution) ->
  _require_zk_verifier_if_enabled (set_driver_runtime_features (open_driver s : D) (rf_features resolution)).1 = Ok tt ->
  exists b su n st', boot files w io_ok' (s, m) = (Ok (su, n), st') /\
    traces ledger_step (Ledger b0 None true) tr (Ledger b None false) /\ refines (Running su n false) (Ledger b None true) /\
    su_config su = su_config su0 /\ su_patches su = su_patches su0 /\ su_settings su = su_settings su0.
Proof.
  intros Hr Hb Ht Hm Hf Hz. inversion Hr as [| |s1 m1 b1 Hne _ _ _]; subst s1 m1 b1.
  destruct (boot_started _ _ _ _ _ _ _ _ Hne Hb) as (_ & _ & _ & _ & _ & f & features & -> & Hc & Hcfg).
  assert (Hrun : refines (Running su0 n0 false) (Ledger b0 None true)).
  { destruct (step_refines (Stopped s0 m0) (Ledger b0 None false) Started (Running su0 n0 false)) as (l & Hl & Hrun); [done|by econstructor|].
    by inversion Hl; subst. }
  destruct (trace_refines _ _ _ _ Hrun Ht) as (l & Hl & Hs). assert (exists b, l = Ledger b None false) as [b ->] by (inversion Hs; by eexists).
  destruct (boot_again (Ok f) w io_ok' s0 f su0 features s m b resolution Hs Hc Hcfg Hm (Hf f eq_refl) Hz) as (su & n & st' & Hb' & Hsame).
  exists b, su, n, st'. split_and!; [done|done| |apply Hsame..].
  destruct (step_refines (Stopped s m) (Ledger b None false) Started (Running su n false)) as (l & Hl' & Hrun'); [done|by econstructor|].
  by inversion Hl'; subst.
Qed.
End Startup.

(** ** A sample on the in-memory driver *)

#[local] Existing Instance int_arith.

Definition mem_raw (m : mem_driver) : lmdb_state := Some ((λ kv, (kv.1, encode_utf8 (ok_or "" (dumps true kv.2)))) <$> mem_disk (`m)).

#[global] Instance mem_storage : StorageOps mem_driver mem_driver := {|
  raw_entries := mem_raw;
  with_entries e s := if decide (mem_raw s = e) then s else mem_commit (mem_set s EXECUTION_POLICY_KEY (VDict current_execution_policy));
  open_driver := mem_rollback;
  storage_of := mem_rollback;
|}.

Lemma dict_get_map {A B} (f : A -> B) (d : list (string * A)) k : dict_get k ((λ kv, (kv.1, f kv.2)) <$> d) = f <$> dict_get k d.
Proof. induction d as [|[k' v] d IH]; [done|]. cbn. case_decide; [done|apply IH]. Qed.

#[global] Instance mem_storage_laws : StorageLaws mem_driver mem_driver.
Proof.
  split; try done.
  - intros s. cbn. by rewrite decide_True.
  - intros d q Hq. cbn in *. unfold disk_get in Hq. by destruct (mem_disk (`d)).
  - intros d Hp. cbn in *. unfold disk_get in Hp. unfold mem_raw. cbn. destruct (dict_get EXECUTION_POLICY_KEY (mem_disk (`d))) as [v|] eqn:E; [|done].
    subst v. cbn [validate_persisted_execution_policy]. rewrite decide_False; [|by destruct (mem_disk (`d))].
    rewrite (dict_get_map (λ v, encode_utf8 (ok_or "" (dumps true v)))), E. vm_compute. reflexivity.
Qed.

Definition start_genesis : list (string * value) :=
  [("chain_id", VStr "xian-1"); ("abci_genesis", VDict [("genesis", VList [VDict [("key", VStr EXECUTION_POLICY_KEY);
     ("value", VDict current_execution_policy)]])])].
Definition start_sample : start_files := StartFiles [] [] start_genesis.

(** A native runtime with the node's policy, and URL functions for the address of the sample. *)
#[global] Instance sample_library : NodeLibrary := {|
  vm_bindings := Ok ([("execution_revision", VStr VM_EXECUTION_REVISION); ("set_codec", VStr SET_CODEC); ("vm_profile", VStr VM_EXECUTION_MODE)],
                     λ bytecode gas, bool_decide (bytecode = VM_BYTECODE_VERSION) && bool_decide (gas = VM_GAS_SCHEDULE));
  ip_version_of s := None;
  url_split u := Ok ("http", "127.0.0.1:26657", "", "", "");
  url_unsplit parts := let '(scheme, netloc, path, _, _) := parts in scheme +:+ "://" +:+ netloc +:+ path;
  unicode_digits _ := false;
  url_hostname _ := Some "127.0.0.1";
  url_port _ := Ok (Some 26657);
|}.

Definition sample_place : surroundings := Surroundings [("XIAN_PERF_ENABLED", " Yes ")] None "/storage".

Definition sample_settings : settings :=
  Settings "60.0" 128 4194304 "INFO" (VBool false) (VBool false) (VBool false) (paid_metered None None) (VBool true) 2 3000 1000000
    (VBool false) (completed (bds_settings_of default_bds []) "/storage" "http://127.0.0.1:26657") (VBool false) (VInt 100000)
    (VBool false) (VInt 4) (VInt 8) (VInt 4) (VFloat "0.25") (VInt 8) (VBool true) (VBool true) default_metrics.

(** An empty [xian.toml] gives the defaults. *)
Example default_settings :
  read_settings (λ _, "") no_floats (λ _, Ok "0.0") local_rpc_url [] [] "/storage" [] = Ok sample_settings.
Proof. vm_compute. reflexivity. Qed.

Definition chain_startup : startup :=
  Startup chain_config chain_patches sample_settings [].

(** The sample node after a Commit the database refused, and after the retry. *)
Definition chain_refused : app := (App.commit ticks 60 true 2 false true (n_app chain_finalized)).2.
Definition chain_refused_node : node := Node chain_refused (n_chi_cost chain_finalized) (n_prepared chain_finalized).
Definition chain_retried : app := (App.commit ticks 60 true 2 true true (n_app chain_refused_node)).2.
Definition chain_retried_node : node := Node chain_retried (n_chi_cost chain_refused_node) (n_prepared chain_refused_node).
#[local] Notation chain_restart :=
  (boot toy_sha (λ _, "") no_floats (λ _, Ok "0.0") true (Ok start_sample) sample_place true
    (storage_of (raw_driver (n_app chain_retried_node)) : mem_driver, latest_block_mirror (n_app chain_retried_node))).

Lemma chain_refines : refines (S := mem_driver) toy_sha (Running chain_startup chain_node false) (Ledger (0, []) None true).
Proof.
  constructor; [exact chain_loaded|by split; vm_compute| |exact chain_synced|done].
  destruct chain_synced as [_ (items & Ht & Hv)]. exists (state_root_cache (n_app chain_node)), items. split_and!; [done..|]. by left.
Qed.

Lemma chain_restarts :
  match (chain_restart).1 with
  | Ok (_, n) => is_ok (read_mirror (λ _, "") no_floats true (latest_block_mirror (n_app n)))
  | Raise _ => false
  end = true.
Proof. vm_compute. reflexivity. Qed.

Lemma chain_refused_run :
  run_commit ticks 60 true 2 false true (n_app chain_finalized) = (Raise (Exn OSError "lmdb: write failed"), chain_refused).
Proof. vm_compute. reflexivity. Qed.
Lemma chain_retried_run : run_commit ticks 60 true 2 true true (n_app chain_refused_node) = (Ok 5, chain_retried).
Proof. vm_compute. reflexivity. Qed.

Lemma sample_trace b h r l :
  traces ledger_step (Ledger b None true) [Finalized h r; CommitFailed; Committed; Crashed; Started] l -> last l = (h, r).
Proof.
  intros Ht. repeat match goal with H : traces _ _ _ _ |- _ => inversion H; subst; clear H | H : ledger_step _ _ _ |- _ => inversion H; subst; clear H end;
    done.
Qed.

Lemma chain_first : run_finalize toy_sha (λ _, "") no_floats (λ _, false) toy_verify toy_safe 3 chain_handler chain_startup chain_request chain_node
  = (Ok chain_response, chain_finalized).
Proof. unfold run_finalize, finalize_block_method, chain_startup. cbn [su_config su_patches]. by rewrite chain_run. Qed.

Lemma chain_distinct : no_collision toy_sha (n_app chain_finalized).
Proof. unfold no_collision, distinct_priorities. nodup_by_compute. Qed.

Lemma chain_trace su n st' :
  chain_restart = (Ok (su, n), st') ->
  traces (sys_step (S := mem_driver) toy_sha (λ _, "") no_floats (λ _, Ok "0.0") true (λ _, false) toy_verify toy_safe 3 chain_handler ticks 60 true 2)
    (Running chain_startup chain_node false)
    [Finalized 7 (rs_app_hash chain_response); CommitFailed; Committed; Crashed; Started] (Running su n false).
Proof.
  intros Es.
  apply (traces_cons _ _ _ (Running chain_startup chain_finalized true)).
  { exact (finalizes _ _ _ _ _ _ _ _ _ _ _ _ _ _ chain_startup chain_request chain_node chain_response chain_finalized chain_first chain_distinct). }
  apply (traces_cons _ _ _ (Running chain_startup chain_refused_node true)).
  { exact (commit_raises _ _ _ _ _ _ _ _ _ _ _ _ _ _ chain_startup chain_finalized false true _ chain_refused chain_refused_run). }
  apply (traces_cons _ _ _ (Running chain_startup chain_retried_node false)).
  { exact (commits _ _ _ _ _ _ _ _ _ _ _ _ _ _ chain_startup chain_refused_node true true 5 chain_retried chain_retried_run). }
  apply (traces_cons _ _ _ (halted chain_retried_node)); [apply crashes|].
  apply (traces_cons _ _ _ (Running su n false)); [|constructor].
  exact (starts _ _ _ _ _ _ _ _ _ _ _ _ _ _ (Ok start_sample) sample_place true _ _ su n st' Es).
Qed.

(** A block finalized, refused once, committed, and a crash and a restart after it. *)
Lemma node_refines_ledger_witness :
  exists su n, (chain_restart).1 = Ok (su, n) /\
    (info (λ _, "") no_floats true (n_app n)).1 = Ok (Info 7 (rs_app_hash chain_response)).
Proof.
  destruct (chain_restart) as [[[su n]|e] st'] eqn:Es; pose proof chain_restarts as Hm; rewrite Es in Hm; [|done].
  exists su, n. split; [done|].
  destruct (node_refines_ledger (S := mem_driver) toy_sha (λ _, "") no_floats (λ _, Ok "0.0") true (λ _, false) toy_verify toy_safe 3
    chain_handler ticks 60 true 2 (reward_handler_ok toy_str) (λ b, to_bytes_big_bytes _ _)
    (Running chain_startup chain_node false) (Ledger (0, []) None true)
    [Finalized 7 (rs_app_hash chain_response); CommitFailed; Committed; Crashed; Started] (Running su n false)) as (l & Hl & _ & Hobs & _).
  - exact chain_refines.
  - exact (chain_trace su n st' Es).
  - pose proof (sample_trace _ _ _ _ Hl) as E.
    rewrite E in Hobs. by apply (Hobs true).
Defined.

(** A first start on the directory of the sample node, a block, and a crash after its Commit
    was refused. *)
#[local] Notation first_boot :=
  (boot toy_sha (λ _, "") no_floats (λ _, Ok "0.0") true (Ok start_sample) sample_place true
    (storage_of (raw_driver (n_app chain_node)) : mem_driver, Missing)).
Definition first_startup : startup := match (first_boot).1 with Ok (su, _) => su | Raise _ => chain_startup end.
Definition first_node : node := match (first_boot).1 with Ok (_, n) => n | Raise _ => chain_node end.
#[local] Notation first_finalize :=
  (run_finalize toy_sha (λ _, "") no_floats (λ _, false) toy_verify toy_safe 3 chain_handler first_startup chain_request first_node).
Definition first_finalized : node := (first_finalize).2.
Definition first_response : ResponseFinalizeBlock := ok_or chain_response (first_finalize).1.
Definition first_refused : app := (App.commit ticks 60 true 2 false true (n_app first_finalized)).2.
Definition first_crashed : node := Node first_refused (n_chi_cost first_finalized) (n_prepared first_finalized).
#[local] Notation first_storage := (storage_of (raw_driver (n_app first_crashed)) : mem_driver).
Definition restart_resolution : RuntimeFeatureResolution :=
  Eval vm_compute in ok_or (Resolution [] "") (start_features (open_driver first_storage : mem_driver) start_genesis).

Lemma first_boot_run : first_boot = (Ok (first_startup, first_node), (first_boot).2).
Proof. vm_compute. reflexivity. Qed.
Lemma first_finalize_run : first_finalize = (Ok first_response, first_finalized).
Proof. vm_compute. reflexivity. Qed.
Lemma first_commit_run :
  run_commit ticks 60 true 2 false true (n_app first_finalized) = (Raise (Exn OSError "lmdb: write failed"), first_refused).
Proof. vm_compute. reflexivity. Qed.
Lemma first_distinct : no_collision toy_sha (n_app first_finalized).
Proof. unfold no_collision, distinct_priorities. nodup_by_compute. Qed.

Lemma restart_succeeds_witness :
  exists su n st', boot toy_sha (λ _, "") no_floats (λ _, Ok "0.0") true (Ok start_sample) sample_place true
    (first_storage, latest_block_mirror (n_app first_crashed)) = (Ok (su, n), st') /\ su_settings su = su_settings first_startup.
Proof.
  destruct (restart_succeeds (S := mem_driver) toy_sha (λ _, "") no_floats (λ _, Ok "0.0") true (λ _, false) toy_verify toy_safe 3
    chain_handler ticks 60 true 2 (reward_handler_ok toy_str) (λ b, to_bytes_big_bytes _ _) (Ok start_sample) sample_place true
    (storage_of (raw_driver (n_app chain_node))) Missing first_startup first_node (first_boot).2 (0, [])
    [Finalized 7 (rs_app_hash first_response); CommitFailed; Crashed] first_storage (latest_block_mirror (n_app first_crashed)) true
    restart_resolution) as (b & su & n & st' & Hb & _ & _ & _ & _ & Hs).
  - pose proof chain_refines as Hr. inversion Hr; subst. by apply (halted_refines (S := mem_driver) toy_sha chain_node).
  - exact first_boot_run.
  - apply (traces_cons _ _ _ (Running first_startup first_finalized true)).
    { exact (finalizes _ _ _ _ _ _ _ _ _ _ _ _ _ _ first_startup chain_request first_node first_response first_finalized first_finalize_run first_distinct). }
    apply (traces_cons _ _ _ (Running first_startup first_crashed true)).
    { exact (commit_raises _ _ _ _ _ _ _ _ _ _ _ _ _ _ first_startup first_finalized false true _ first_refused first_commit_run). }
    apply (traces_cons _ _ _ (halted first_crashed)); [apply crashes|constructor].
  - vm_compute. reflexivity.
  - intros f [= <-]. vm_compute. reflexivity.
  - vm_compute. reflexivity.
  - exists su, n, st'. split; [exact Hb|exact Hs].
Defined.

(** A block replayed to a node that still runs gets another answer: while the first run's
    writes wait for Commit the second call raises, but that call has put its writes into the
    driver, and a third call of the same block answers with the same app hash and refuses the
    transaction the first accepted. *)
Definition replay (n : node (D := mem_driver)) : result ResponseFinalizeBlock * node :=
  finalize_block_method toy_sha (λ _, "") no_floats (λ _, false) toy_verify toy_safe 3 chain_config chain_patches chain_handler serial
    chain_request n.

Theorem replay_without_restart :
  let r1 := replay chain_node in let r2 := replay r1.2 in let r3 := replay r2.2 in
  ((λ r, tx_code <$> rs_tx_results r) <$> r1.1) = Ok [0; 1] /\ is_ok r2.1 = false /\
  ((λ r, tx_code <$> rs_tx_results r) <$> r3.1) = Ok [1; 1] /\ (rs_app_hash <$> r3.1) = (rs_app_hash <$> r1.1).
Proof. vm_compute. done. Qed.
