(* ===== verification/NodeAdmin.v ===== *)
(** * Administration of a node's home (src/src/xian/node_admin.py)

    Replacing the application data by a signed remote snapshot, and configuring a home that
    CometBFT has initialised.  The snapshot goes through [SnapshotRestore], the configuration
    through [NodeConfig] and [Toml].

    Parameters: Ed25519 keys and signatures, SHA-256, what the network answers ([fetch_json],
    [download]), the tar format ([is_tarfile], [members_of]), and the peers found by asking
    seed nodes. *)

From S2P Require Import Prelude PyValue Json PyBuiltins Encoding ExecutionPolicy FeePolicy Toml SnapshotRestore NodeConfig.

#[local] Notation dict := (list (string * value)).

Section Snapshots.
Context (is_valid_ed25519_key : string -> bool) (verify_message : string -> string -> string -> result bool)
        (sha256 : bytes -> bytes) (fetch_json : string -> result value) (download : string -> result bytes)
        (is_tarfile : bytes -> bool) (members_of : bytes -> list member) (archive_name : string -> string).

(** ** Signed manifests *)

Definition _normalize_snapshot_manifest_public_keys (public_keys : option (list value)) : result (list string) :=
  mapM_py (λ v, match v with
                | VStr s => let key := py_strip s in
                            if is_valid_ed25519_key key then Ok key else raise ValueError "invalid snapshot signing key"
                | _ => raise ValueError "trusted snapshot signing keys must be hex strings"
                end) (default [] public_keys).

(** What [_verify_snapshot_manifest] returns. *)
Record manifest := Manifest {
  mf_version : Z; mf_chain_id : string; mf_height : Z; mf_snapshot_url : string; mf_snapshot_sha256 : string;
  mf_signing_public_key : string; mf_signature : string }.

Definition signed_fields (m : manifest) : value :=
  VDict [("manifest_version", VInt (mf_version m)); ("chain_id", VStr (mf_chain_id m)); ("height", VInt (mf_height m));
         ("snapshot_url", VStr (mf_snapshot_url m)); ("snapshot_sha256", VStr (mf_snapshot_sha256 m));
         ("signing_public_key", VStr (mf_signing_public_key m))].
Definition _canonical_snapshot_manifest_payload (m : manifest) : result string := Json.dumps true (sort_keys (signed_fields m)).

(** An [int] that is no [bool]. *)
Definition strict_int (v : value) (e : string) : result Z := match v with VInt z => Ok z | _ => raise ValueError e end.
Definition strict_str (v : value) (ok : string -> bool) (e : string) : result string :=
  match v with VStr s => if ok s then Ok s else raise ValueError e | _ => raise ValueError e end.
Definition nonempty (s : string) : bool := negb (bool_decide (s = "")).

Definition _verify_snapshot_manifest (v : value) (trusted_manifest_public_keys : list string) (expected_chain_id : option string)
  : result manifest :=
  d ← match v with VDict d => Ok d | _ => raise ValueError "snapshot manifest must be a JSON object" end;
  let get k := py_get k d VNone in
  manifest_version ← strict_int (get "manifest_version") "snapshot manifest_version must be an integer";
  _ ← check_py (manifest_version =? 1) ValueError "unsupported snapshot manifest_version";
  chain_id ← strict_str (get "chain_id") nonempty "snapshot manifest chain_id must be a string";
  _ ← check_py (match expected_chain_id with Some c => bool_decide (chain_id = c) | None => true end) ValueError
        "snapshot manifest chain_id mismatch";
  height ← strict_int (get "height") "snapshot manifest height must be a positive integer";
  _ ← check_py (negb (height <=? 0)) ValueError "snapshot manifest height must be a positive integer";
  snapshot_url ← strict_str (get "snapshot_url") nonempty "snapshot manifest snapshot_url must be a string";
  let bad_sha := "snapshot manifest snapshot_sha256 must be a 64-character hex string" in
  snapshot_sha256 ← strict_str (get "snapshot_sha256") (λ s, (length (code_points s) =? 64)%nat) bad_sha;
  _ ← match fromhex snapshot_sha256 with Raise (Exn ValueError _) => raise ValueError bad_sha | r => r end;
  let snapshot_sha256 := py_lower snapshot_sha256 in
  signing_public_key ← strict_str (get "signing_public_key") is_valid_ed25519_key
        "snapshot manifest signing_public_key must be a valid Ed25519 hex key";
  _ ← check_py (bool_decide (signing_public_key ∈ trusted_manifest_public_keys)) ValueError "snapshot manifest signer is not trusted";
  signature ← strict_str (get "signature") nonempty "snapshot manifest signature must be a hex string";
  let m := Manifest manifest_version chain_id height snapshot_url snapshot_sha256 signing_public_key signature in
  payload ← _canonical_snapshot_manifest_payload m;
  ok ← verify_message signing_public_key payload signature;
  _ ← check_py ok ValueError "snapshot manifest signature verification failed";
  Ok m.

(** ** Restoring a remote archive *)

Context (fold_name : string -> string) (home_path : path) (path_is_dir : path -> bool) (io : nat -> io_event)
        (read_lmdb : tree -> lmdb_state).

(** Everything before the archive is touched: its name, the archive and what [restore_application_archive] reads in it. *)
Definition fetch_archive (snapshot_url : string) (expected_sha256 : option string) (trusted_manifest_public_keys : option (list value))
    (expected_chain_id : option string) : result (string * list member) :=
  trusted_keys ← _normalize_snapshot_manifest_public_keys trusted_manifest_public_keys;
  '(effective_snapshot_url, effective_sha256) ←
    match expected_sha256 with
    | Some h => Ok (snapshot_url, h)
    | None =>
      _ ← check_py (negb (bool_decide (trusted_keys = []))) ValueError
            "remote snapshot restore requires expected_sha256 or trusted snapshot signing keys";
      manifest ← fetch_json snapshot_url;
      verified_manifest ← _verify_snapshot_manifest manifest trusted_keys expected_chain_id;
      Ok (mf_snapshot_url verified_manifest, mf_snapshot_sha256 verified_manifest)
    end;
  archive ← download effective_snapshot_url;
  _ ← check_py (is_tarfile archive) ValueError "snapshot archive must be a .tar or .tar.gz file";
  _ ← check_py (bool_decide (py_lower (bytes_hex (sha256 archive)) = py_lower effective_sha256)) ValueError "snapshot archive sha256 mismatch";
  Ok (archive_name effective_snapshot_url, members_of archive).

Definition apply_snapshot_archive (snapshot_url : string) (expected_sha256 : option string)
    (trusted_manifest_public_keys : option (list value)) (expected_chain_id : option string)
    (locked : bool) (config : result dict) : ioM string := λ w,
  match fetch_archive snapshot_url expected_sha256 trusted_manifest_public_keys expected_chain_id with
  | Raise e => (Failed e, w)
  | Ok (name, members) =>
    match restore_application_archive fold_name home_path path_is_dir io read_lmdb locked members config w with
    | (Done _, w) => (Done name, w)
    | (Failed e, w) => (Failed e, w)
    | (Crashed, w) => (Crashed, w)
    end
  end.

(** ** Only authentic archives are restored *)

(** An archive the operator named by its hash, or one whose hash a trusted key has signed,
    together with the chain, the height and the address it was downloaded from. *)
Definition authentic (snapshot_url : string) (expected_sha256 : option string) (trusted : option (list value))
    (expected_chain_id : option string) (archive : bytes) : Prop :=
  match expected_sha256 with
  | Some h => download snapshot_url = Ok archive /\ py_lower (bytes_hex (sha256 archive)) = py_lower h
  | None => exists m payload,
      (exists key, VStr key ∈ default [] trusted /\ mf_signing_public_key m = py_strip key) /\
      _canonical_snapshot_manifest_payload m = Ok payload /\
      verify_message (mf_signing_public_key m) payload (mf_signature m) = Ok true /\
      (forall c, expected_chain_id = Some c -> mf_chain_id m = c) /\ 0 < mf_height m /\
      download (mf_snapshot_url m) = Ok archive /\ py_lower (bytes_hex (sha256 archive)) = py_lower (mf_snapshot_sha256 m)
  end.

Lemma normalized_keys ks keys key :
  _normalize_snapshot_manifest_public_keys ks = Ok keys -> key ∈ keys -> exists k, VStr k ∈ default [] ks /\ key = py_strip k.
Proof.
  unfold _normalize_snapshot_manifest_public_keys. generalize (default [] ks) as l. clear ks. intros l. revert keys.
  induction l as [|v l IH]; intros keys Hm Hin; cbn [mapM_py] in Hm; [injection Hm as <-; by apply not_elem_of_nil in Hin|].
  destruct v; try done. destruct (is_valid_ed25519_key (py_strip s)); [|done]. cbn [mbind result_bind] in Hm. destruct_result.
  apply elem_of_cons in Hin as [->|Hin].
  - exists s. split; [left|done].
  - destruct (IH _ E Hin) as (k & Hk & ->). exists k. split; [by right|done].
Qed.

Lemma strict_str_inv v ok e s : strict_str v ok e = Ok s -> ok s = true.
Proof. destruct v; try done. cbn. destruct (ok s0) eqn:E; [|done]. by intros [= <-]. Qed.

Lemma verified_manifest v keys chain m :
  _verify_snapshot_manifest v keys chain = Ok m ->
  mf_signing_public_key m ∈ keys /\ (forall c, chain = Some c -> mf_chain_id m = c) /\ 0 < mf_height m /\
  exists payload, _canonical_snapshot_manifest_payload m = Ok payload /\
    verify_message (mf_signing_public_key m) payload (mf_signature m) = Ok true.
Proof.
  unfold _verify_snapshot_manifest. intros Hm. destruct v; try done. cbn [mbind result_bind] in Hm. cbv zeta in Hm. destruct_result.
  repeat match goal with E : check_py _ _ _ = Ok _ |- _ => apply check_py_inv in E end.
  cbn [mf_signing_public_key mf_chain_id mf_height mf_signature]. split_and!.
  - by eapply bool_decide_eq_true.
  - intros c ->. by eapply bool_decide_eq_true.
  - match goal with E : negb (_ <=? 0) = true |- _ => apply negb_true_iff, Z.leb_gt in E; exact E end.
  - eexists. split; [eassumption|]. match goal with E : ?ok = true |- _ = Ok true => subst ok; eassumption end.
Qed.

Lemma fetched_authentic url expected trusted chain name members :
  fetch_archive url expected trusted chain = Ok (name, members) ->
  exists archive, members = members_of archive /\ authentic url expected trusted chain archive.
Proof.
  unfold fetch_archive, authentic. intros Hf. apply result_bind_inv in Hf as (keys & Hk & Hf).
  apply result_bind_inv in Hf as ([eurl esha] & He & Hf). apply result_bind_inv in Hf as (archive & Hd & Hf).
  apply result_bind_inv in Hf as ([] & _ & Hf). apply result_bind_inv in Hf as ([] & Hs & Hf). injection Hf as _ <-.
  apply check_py_inv, bool_decide_eq_true in Hs. exists archive. split; [done|]. destruct expected as [h|].
  - by injection He as <- <-.
  - apply result_bind_inv in He as ([] & _ & He). apply result_bind_inv in He as (v & _ & He).
    apply result_bind_inv in He as (m & Hm & He). injection He as <- <-.
    destruct (verified_manifest _ _ _ _ Hm) as (Hkey & Hc & Hh & payload & Hp & Hv). exists m, payload.
    destruct (normalized_keys _ _ _ Hk Hkey) as (k & ? & ?). split_and!; try done. by exists k.
Qed.

(** Claim C25. Whatever the network, the archive and the file system do, the home is untouched unless
    the archive is authentic; then, if the restore finished, it published exactly this
    archive, and otherwise the old data are published over or recoverable. *)
Theorem remote_restore_authentic url expected trusted chain locked config w :
  match apply_snapshot_archive url expected trusted chain locked config w with
  | (r, w') => w' = w \/ exists archive, authentic url expected trusted chain archive /\
      (published fold_name home_path path_is_dir read_lmdb (members_of archive) config w w' \/
       (forall name, r <> Done name) /\ recoverable (home w) w')
  end.
Proof.
  unfold apply_snapshot_archive. destruct (fetch_archive _ _ _ _) as [[name members]|] eqn:Ef; [|by left].
  apply fetched_authentic in Ef as (archive & -> & Ha). unfold restore_application_archive. destruct locked; [by left|].
  pose proof (restore_outcome fold_name home_path path_is_dir io read_lmdb (members_of archive) config w) as Ho. unfold wp in Ho.
  destruct (_restore_application_archive _ _ _ _ _ _ _ w) as [[[]|e|] w']; right; exists archive; split; try done.
  - left. apply Ho.
  - destruct Ho as [[?|?] _]; [by left|by right].
  - destruct Ho as [[?|?] _]; [by left|by right].
Qed.
End Snapshots.

(** ** An existing home *)

Definition _ROOT_CONFIG_KEYS_TO_PRESERVE : list string :=
  ["db_backend"; "db_dir"; "genesis_file"; "priv_validator_key_file"; "priv_validator_state_file"; "node_key_file"; "abci"; "log_level";
   "log_format"; "version"].
Definition _NESTED_CONFIG_KEYS_TO_PRESERVE : list (string * string) := [("rpc", "laddr"); ("p2p", "laddr")].

Definition preserve_root (existing_config config : dict) (key : string) : result dict :=
  v ← py_item key (VDict existing_config); Ok (dict_set key v config).
Definition preserve_nested (existing_config config : dict) (sk : string * string) : result dict :=
  v ← (t ← py_item sk.1 (VDict existing_config); py_item sk.2 t); set_in sk.1 sk.2 v config.

Definition preserve_runtime_config (rendered_config existing_config : dict) : result dict :=
  config ← foldM_py (preserve_root existing_config) rendered_config _ROOT_CONFIG_KEYS_TO_PRESERVE;
  foldM_py (preserve_nested existing_config) config _NESTED_CONFIG_KEYS_TO_PRESERVE.

(** What the caller asks for: the peers as they were resolved, the outcome of the snapshot
    restore if there is one, and the genesis as a payload or as a file. *)
Record ExistingHomeOptions := MkExistingHome {
  eh_moniker : string; eh_validator_private_key_hex : option string; eh_p2p_seeds : result (list string);
  eh_p2p_persistent_peers : list string; eh_snapshot : option (result string); eh_genesis_payload : option dict;
  eh_genesis_source : option (result chars); eh_node_config : option NodeConfigOptions }.

Definition with_peers (seeds peers : list string) (o : NodeConfigOptions) : NodeConfigOptions :=
  MkNodeConfig (nc_moniker o) seeds peers (nc_allow_cors o) (nc_bds_enabled o) (nc_enable_pruning o) (nc_blocks_to_keep o)
    (nc_transaction_trace_logging o) (nc_block_policy_mode o) (nc_block_policy_interval o) (nc_statesync o) (nc_metrics o)
    (nc_app_logging o) (nc_simulation o) (nc_tx_fee_mode o) (nc_free_tx_max_chi o) (nc_free_block_max_chi o) (nc_parallel_execution o)
    (nc_pending_nonce_reservation_ttl_seconds o) (nc_max_pending_nonces_per_sender o) (nc_bds o) (nc_proxy_app o) (nc_prometheus o).

Section Home.
Context (float_le : string -> string -> bool) (public_key sha256 : bytes -> bytes) (b64encode : bytes -> string) (token_bytes : bytes)
        (encode_wire : value -> result string).

#[local] Notation files := (gmap string chars).

Definition config_file : string := "config/config.toml".
Definition xian_config_file : string := "config/xian.toml".

Definition load_existing_cometbft_config (fs : files) : result dict :=
  match fs !! config_file with
  | None => raise FileNotFoundError "initialize CometBFT first"
  | Some text => Toml.loads text
  end.

(** A file named by the configuration; a file below the home is keyed by its relative path. *)
Definition resolve_home_relative_path (config : dict) (key : string) : result string :=
  v ← py_item key (VDict config);
  match v with VStr s => Ok s | _ => raise TypeError "argument should be a str or an os.PathLike object" end.

Definition write_genesis (r : ExistingHomeOptions) (config : dict) : stM files unit :=
  match eh_genesis_payload r, eh_genesis_source r with
  | Some payload, _ => target ← lift_res (resolve_home_relative_path config "genesis_file"); write_json encode_wire target payload true
  | None, Some source =>
      target ← lift_res (resolve_home_relative_path config "genesis_file");
      text ← lift_res source; modify_st (λ fs : files, <[target := text]> fs)
  | None, None => mret tt
  end.

Definition write_validator_key (r : ExistingHomeOptions) (config : dict) : stM files unit :=
  match eh_validator_private_key_hex r with
  | Some hex =>
      target ← lift_res (resolve_home_relative_path config "priv_validator_key_file");
      key ← lift_res (build_priv_validator_key public_key sha256 b64encode token_bytes (Some hex));
      write_json encode_wire target (dict_pop "_private_key_hex" key) true
  | None => mret tt
  end.

(** What is computed before the first file is written: the configuration and xian's. *)
Definition prepare_home (r : ExistingHomeOptions) (fs : files) : result (dict * dict) :=
  let node_config := default (default_options (eh_moniker r)) (eh_node_config r) in
  existing_config ← load_existing_cometbft_config fs;
  p2p_seeds ← eh_p2p_seeds r;
  '(rendered_config, xian_config) ← render_node_configs float_le (with_peers p2p_seeds (eh_p2p_persistent_peers r) node_config);
  config ← preserve_runtime_config rendered_config existing_config;
  _ ← match eh_snapshot r with Some res => _ ← res; Ok tt | None => Ok tt end;
  Ok (config, xian_config).

Definition configure_existing_home (r : ExistingHomeOptions) : stM files unit := λ fs,
  match prepare_home r fs with
  | Raise e => (Raise e, fs)
  | Ok (config, xian_config) =>
    (_ ← write_genesis r config;
     _ ← write_validator_key r config;
     _ ← write_toml config_file config true;
     write_toml xian_config_file xian_config true) fs
  end.

(** *** What is preserved *)

Lemma fold_root_get ex ks c c' q :
  foldM_py (preserve_root ex) c ks = Ok c' ->
  dict_get q c' = if decide (q ∈ ks) then dict_get q ex else dict_get q c.
Proof.
  revert c. induction ks as [|k ks IH]; intros c Hf; [by injection Hf as <-|]. cbn [foldM_py] in Hf.
  apply result_bind_inv in Hf as (c1 & H1 & Hf). unfold preserve_root in H1. apply result_bind_inv in H1 as (v & Hv & [= <-]).
  rewrite (IH _ Hf). unfold py_item in Hv. destruct (dict_get k ex) as [v'|] eqn:Ek; [|done]. injection Hv as ->.
  destruct (decide (q = k)) as [->|Hne].
  - rewrite (decide_True (P := k ∈ k :: ks)) by left. case_decide; [done|]. by rewrite dict_get_set_eq.
  - case_decide as Hin; [by rewrite decide_True by (by right)|]. rewrite decide_False by (by intros [?|?]%elem_of_cons).
    by rewrite dict_get_set_ne.
Qed.

Lemma set_in_get section key v d d' q :
  set_in section key v d = Ok d' -> q <> section -> dict_get q d' = dict_get q d.
Proof.
  unfold set_in, py_item. destruct (dict_get section d) as [t|]; [|done]. cbn [mbind result_bind]. destruct t; try done.
  intros [= <-] Hq. by rewrite dict_get_set_ne.
Qed.

Lemma preserve_root_keys rendered existing config q :
  preserve_runtime_config rendered existing = Ok config -> q <> "rpc" -> q <> "p2p" ->
  dict_get q config = dict_get q (if decide (q ∈ _ROOT_CONFIG_KEYS_TO_PRESERVE) then existing else rendered).
Proof.
  unfold preserve_runtime_config. intros H Hr Hp. apply result_bind_inv in H as (c & H1 & H).
  cbn [foldM_py _NESTED_CONFIG_KEYS_TO_PRESERVE] in H. apply result_bind_inv in H as (c1 & H2 & H).
  apply result_bind_inv in H as (c2 & H3 & [= <-]). unfold preserve_nested in H2, H3.
  apply result_bind_inv in H2 as (v2 & _ & H2). apply result_bind_inv in H3 as (v3 & _ & H3).
  rewrite (set_in_get _ _ _ _ _ q H3 Hp), (set_in_get _ _ _ _ _ q H2 Hr), (fold_root_get _ _ _ _ q H1). by case_decide.
Qed.

(** The values kept from the existing configuration can be written. *)
Definition preserved_values (existing : dict) : list value :=
  omap (λ k, dict_get k existing) _ROOT_CONFIG_KEYS_TO_PRESERVE ++
  omap (λ sk, match dict_get sk.1 existing with Some (VDict t) => dict_get sk.2 t | _ => None end) _NESTED_CONFIG_KEYS_TO_PRESERVE.

Lemma fold_root_ok ex ks c c' :
  foldM_py (preserve_root ex) c ks = Ok c' -> table_ok (VDict c) = true -> forallb bare_ok ks = true ->
  (forall k v, k ∈ ks -> dict_get k ex = Some v -> toml_ok v = true) -> table_ok (VDict c') = true.
Proof.
  revert c. induction ks as [|k ks IH]; intros c Hf Hc Hk Hv; [by injection Hf as <-|]. cbn [foldM_py forallb] in *.
  apply andb_true_iff in Hk as [Hk1 Hk]. apply result_bind_inv in Hf as (c1 & H1 & Hf).
  unfold preserve_root in H1. apply result_bind_inv in H1 as (v & Hg & [= <-]).
  unfold py_item in Hg. destruct (dict_get k ex) as [v'|] eqn:Ek; [|done]. injection Hg as ->.
  apply (IH _ Hf); [|done|intros; eapply Hv; [by right|done]].
  apply table_ok_set; [done..|]. rewrite (Hv k v); [done|left|done].
Qed.

Lemma preserved_ok rendered existing config :
  preserve_runtime_config rendered existing = Ok config -> table_ok (VDict rendered) = true ->
  Forall (λ v, toml_ok v = true) (preserved_values existing) -> table_ok (VDict config) = true.
Proof.
  unfold preserve_runtime_config. intros H Hr Hv. apply Forall_app in Hv as [Hv1 Hv2]. apply result_bind_inv in H as (c & H1 & H).
  assert (Hc : table_ok (VDict c) = true).
  { apply (fold_root_ok _ _ _ _ H1); [done|vm_compute; reflexivity|]. intros k v Hk Hg. rewrite Forall_forall in Hv1. apply Hv1.
    apply list_elem_of_omap. by exists k. }
  assert (Hn : forall sk v, sk ∈ _NESTED_CONFIG_KEYS_TO_PRESERVE ->
            (t ← py_item sk.1 (VDict existing); py_item sk.2 t) = Ok v -> toml_ok v = true).
  { intros sk v Hsk Hg. rewrite Forall_forall in Hv2. apply Hv2, list_elem_of_omap. exists sk. split; [done|].
    unfold py_item in Hg. destruct (dict_get sk.1 existing) as [t|]; [|done]. cbn [mbind result_bind] in Hg. destruct t; try done.
    destruct (dict_get sk.2 d); [|done]. by injection Hg as ->. }
  cbn [foldM_py _NESTED_CONFIG_KEYS_TO_PRESERVE] in H. apply result_bind_inv in H as (c1 & H2 & H).
  apply result_bind_inv in H as (c2 & H3 & [= <-]). unfold preserve_nested in H2, H3.
  apply result_bind_inv in H2 as (v2 & G2 & H2). apply result_bind_inv in H3 as (v3 & G3 & H3).
  eapply set_in_ok; [exact H3| |vm_compute; reflexivity..|eapply Hn; [|exact G3]; by right; left].
  eapply set_in_ok; [exact H2|done|vm_compute; reflexivity..|eapply Hn; [|exact G2]; by left].
Qed.

Lemma rendered_table o comet xian :
  render_node_configs float_le o = Ok (comet, xian) -> printable_options o = true -> table_ok (VDict comet) = true.
Proof.
  intros H Hp. apply render_inv in H as (blocks & st & l & mode & Hb & Hs & Hl & _ & Hc & _).
  destruct (resolved_texts o blocks st l Hp Hb Hs Hl) as [_ Hv]. by apply (cometbft_table_ok o blocks st).
Qed.

(** *** The files that are written *)

Definition targets (config : dict) : list string :=
  omap (λ k, match dict_get k config with Some (VStr s) => Some s | _ => None end) ["genesis_file"; "priv_validator_key_file"].

(** A step that leaves a file as it is, there or not. *)
Definition leaves (p : string) (fs fs' : files) : Prop := fs' !! p = fs !! p.
#[local] Instance leaves_preorder p : PreOrder (leaves p).
Proof. split; [done|]. unfold leaves. intros ??? H1 H2. by rewrite H2. Qed.

Lemma keeps_insert p path (text : chars) : p <> path -> keeps (leaves p) (modify_st (λ fs : files, <[path := text]> fs)).
Proof. intros Hp fs. unfold leaves, modify_st. cbn. by rewrite lookup_insert_ne. Qed.
Lemma keeps_other p path overwrite text : p <> path -> keeps (leaves p) (write_file path overwrite text).
Proof.
  intros Hp fs. unfold leaves, write_file. destruct (_ && _); [done|]. destruct text; cbn; by rewrite lookup_insert_ne.
Qed.
Lemma keeps_pure {A} p (m : result A) : keeps (leaves p) (lift_res m).
Proof. by intros fs. Qed.

Lemma not_target p config key t :
  p ∉ targets config -> key ∈ ["genesis_file"; "priv_validator_key_file"] -> resolve_home_relative_path config key = Ok t -> p <> t.
Proof.
  intros Hp Hk Ht ->. apply Hp, list_elem_of_omap. exists key. split; [done|]. unfold resolve_home_relative_path, py_item in Ht.
  destruct (dict_get key config) as [v|]; [|done]. cbn [mbind result_bind] in Ht. by destruct v; simplify_eq.
Qed.

Lemma keeps_target {A} p config key (f : string -> stM files A) :
  p ∉ targets config -> key ∈ ["genesis_file"; "priv_validator_key_file"] -> (forall t, p <> t -> keeps (leaves p) (f t)) ->
  keeps (leaves p) (target ← lift_res (resolve_home_relative_path config key); f target).
Proof.
  intros Hp Hk Hf fs. unfold mbind, stM_bind, lift_res. destruct (resolve_home_relative_path config key) as [t|] eqn:E; [|done].
  apply Hf. by apply (not_target p config key).
Qed.

Lemma keeps_genesis p r config : p ∉ targets config -> keeps (leaves p) (write_genesis r config).
Proof.
  intros Hp. unfold write_genesis. destruct (eh_genesis_payload r) as [d|]; [|destruct (eh_genesis_source r) as [src|]; [|by intros fs]].
  - apply keeps_target; [done|left|]. intros t Ht. by apply keeps_other.
  - apply keeps_target; [done|left|]. intros t Ht. apply keeps_bind; [apply _|apply keeps_pure|]. intros text. by apply keeps_insert.
Qed.
Lemma keeps_key p r config : p ∉ targets config -> keeps (leaves p) (write_validator_key r config).
Proof.
  intros Hp. unfold write_validator_key. destruct (eh_validator_private_key_hex r) as [h|]; [|by intros fs].
  apply keeps_target; [done|right; left|]. intros t Ht. apply keeps_bind; [apply _|apply keeps_pure|]. intros key. by apply keeps_other.
Qed.

Context (py_str : value -> string) (float_trunc : string -> result Z) (float_of : value -> result string)
        (local_rpc_url : string -> result string).

(** A home is reconfigured as a whole or the call raises: afterwards the configuration that
    is read back is the rendered one with the home's own files, ports and database settings,
    the settings of the node are the options with its own RPC address, and no file is changed but the two
    configurations and the genesis and validator key files the home names. *)
Theorem reconfigured_home r home environ fs fs' existing seeds :
  let o := with_peers seeds (eh_p2p_persistent_peers r) (default (default_options (eh_moniker r)) (eh_node_config r)) in
  load_existing_cometbft_config fs = Ok existing -> eh_p2p_seeds r = Ok seeds -> printable_options o = true ->
  Forall (λ v, toml_ok v = true) (preserved_values existing) ->
  configure_existing_home r fs = (Ok tt, fs') ->
  exists rendered config xian t1 t2, render_node_configs float_le o = Ok (rendered, xian) /\
    fs' !! config_file = Some t1 /\ Toml.loads t1 = Ok (ordered config) /\
    fs' !! xian_config_file = Some t2 /\ Toml.loads t2 = Ok xian /\
    (forall url, node_rpc_url py_str local_rpc_url config = Ok url ->
      read_settings py_str float_trunc float_of local_rpc_url config xian home environ = Ok (settings_of o home url environ)) /\
    (forall q, q <> "rpc" -> q <> "p2p" ->
      dict_get q config = dict_get q (if decide (q ∈ _ROOT_CONFIG_KEYS_TO_PRESERVE) then existing else rendered)) /\
    (forall p, p ∉ config_file :: xian_config_file :: targets existing -> fs' !! p = fs !! p).
Proof.
  intros o He Hseeds Hp Hv Hc. unfold configure_existing_home, prepare_home in Hc. fold o in Hc. rewrite He, Hseeds in Hc.
  cbn [mbind result_bind] in Hc. fold o in Hc. destruct (render_node_configs float_le o) as [[rendered xian]|] eqn:Er; [|done].
  cbn [mbind result_bind] in Hc. destruct (preserve_runtime_config rendered existing) as [config|] eqn:Ec; [|done].
  cbn [mbind result_bind] in Hc.
  destruct (match eh_snapshot r with Some res => _ | None => _ end) as [[]|]; [|done]. cbn [mbind result_bind] in Hc.
  assert (Hok : table_ok (VDict config) = true) by (eapply preserved_ok; [exact Ec|by eapply rendered_table|done]).
  assert (Htg : targets config = targets existing).
  { unfold targets. cbn [omap list_omap]. by rewrite !(preserve_root_keys _ _ _ _ Ec) by done. }
  destruct (table_reads_back config Hok) as (t1 & Hd1 & Hl1).
  destruct (rendered_reads float_le public_key sha256 b64encode (λ _, Ok []) token_bytes float_trunc local_rpc_url o rendered xian Er Hp) as (_ & (t2 & Hd2 & Hl2)).
  apply stM_bind_inv in Hc as ([] & fs1 & H1 & Hc). apply stM_bind_inv in Hc as ([] & fs2 & H2 & Hc).
  apply stM_bind_inv in Hc as ([] & fs3 & H3 & Hc). apply write_file_ok in H3 as (x1 & E1 & ->). apply write_file_ok in Hc as (x2 & E2 & ->).
  rewrite Hd1 in E1. rewrite Hd2 in E2. injection E1 as <-. injection E2 as <-.
  exists rendered, config, xian, t1, t2. split_and!; try done.
  - by rewrite lookup_insert_ne, lookup_insert_eq by done.
  - by rewrite lookup_insert_eq.
  - intros url Hu. apply (rendered_settings float_le public_key sha256 b64encode (λ _, Ok []) token_bytes py_str float_trunc float_of local_rpc_url
      o rendered); [done| |done]. unfold py_get. by rewrite (preserve_root_keys _ _ _ _ Ec), decide_False by (done || by apply (bool_decide_unpack _)).
  - intros q H4 H5. by apply preserve_root_keys.
  - intros p Hn. apply not_elem_of_cons in Hn as [N1 Hn]. apply not_elem_of_cons in Hn as [N2 Hn]. rewrite !lookup_insert_ne by done.
    rewrite <- Htg in Hn. pose proof (keeps_genesis p r config Hn fs) as K1. pose proof (keeps_key p r config Hn fs1) as K2.
    rewrite H1 in K1. rewrite H2 in K2. unfold leaves in *. cbn [snd] in *. congruence.
Qed.
End Home.

(** ** Samples *)

(** A home as CometBFT leaves it: the template with another port. *)
Definition old_config : dict :=
  Eval vm_compute in ok_or [] (set_in "rpc" "laddr" (VStr "tcp://127.0.0.1:36657") (dict_set "log_level" (VStr "debug") cometbft_template)).
Definition old_text : chars := ok_or [] (Toml.dumps old_config).
Definition old_home : gmap string chars := {[ config_file := old_text; "config/node_key.json" := lit "{}" ]}.
Definition sample_request : ExistingHomeOptions :=
  MkExistingHome "validator-1" None (Ok ["id@10.0.0.1:26656"]) [] None (Some [("chain_id", VStr "xian-1")]) None None.
Definition new_home : gmap string chars :=
  (configure_existing_home sample_float_le (λ b, b) (λ b, b) (λ _, "key") sample_key sample_wire sample_request old_home).2.

Lemma old_home_loads : load_existing_cometbft_config old_home = Ok old_config.
Proof. vm_compute. reflexivity. Qed.
Lemma new_home_run :
  configure_existing_home sample_float_le (λ b, b) (λ b, b) (λ _, "key") sample_key sample_wire sample_request old_home = (Ok tt, new_home).
Proof. vm_compute. reflexivity. Qed.

Lemma reconfigured_home_witness :
  exists config t, new_home !! config_file = Some t /\ Toml.loads t = Ok (ordered config) /\ dict_get "log_level" config = Some (VStr "debug") /\
    new_home !! "config/node_key.json" = Some (lit "{}").
Proof.
  destruct (reconfigured_home sample_float_le (λ b, b) (λ b, b) (λ _, "key") sample_key sample_wire (λ _, "") (λ _, Ok 0) (λ _, Ok "0.0") sample_rpc
    sample_request "/home" [] old_home new_home old_config ["id@10.0.0.1:26656"])
    as (rendered & config & xian & t1 & t2 & _ & H1 & H2 & _ & _ & _ & Hk & Hf).
  - exact old_home_loads.
  - reflexivity.
  - vm_compute. reflexivity.
  - repeat constructor.
  - exact new_home_run.
  - exists config, t1. split_and!; [done|done| |].
    + rewrite Hk by done. rewrite decide_True by (by apply (bool_decide_unpack _)). vm_compute. reflexivity.
    + rewrite Hf by (by apply (bool_decide_unpack _)). vm_compute. reflexivity.
Defined.

(** A snapshot signed by another key than the trusted one is refused, whatever it holds. *)
Example untrusted_signer :
  is_ok (_verify_snapshot_manifest (λ _, true) (λ _ _ _, Ok true)
    (VDict [("manifest_version", VInt 1); ("chain_id", VStr "xian-1"); ("height", VInt 9); ("snapshot_url", VStr "http://x/s.tar");
            ("snapshot_sha256", VStr (bytes_hex sample_key)); ("signing_public_key", VStr "bb"); ("signature", VStr "00")]) ["aa"] None) = false /\
  is_ok (_verify_snapshot_manifest (λ _, true) (λ _ _ _, Ok true)
    (VDict [("manifest_version", VInt 1); ("chain_id", VStr "xian-1"); ("height", VInt 9); ("snapshot_url", VStr "http://x/s.tar");
            ("snapshot_sha256", VStr (bytes_hex sample_key)); ("signing_public_key", VStr "aa"); ("signature", VStr "00")]) ["aa"] None) = true.
Proof. by vm_compute. Qed.
