(* ===== verification/Logging.v ===== *)
(** * The log directory and log records (src/src/xian/log_retention.py, log_safety.py)

    [BoundedLogSink]: processes that share a log directory append to one active file, rotate
    it and delete the oldest segments, each under the directory's lock, so an operation is one
    step.  The directory is the list of its regular files in the order [iterdir] gives; an
    [unlink] may fail.  [sanitize_record]: what may enter a log record, and how long it may be.

    Times are integers (nanoseconds since the epoch, and of the monotonic clock). *)

From S2P Require Import Prelude PyValue Json PyBuiltins Encoding.
From stdpp Require Import sorting.
#[local] Open Scope Z_scope.

(** ** The sink *)

Record log_file := LogFile { lf_mtime : Z; lf_content : bytes }.
#[local] Notation directory := (list (string * log_file)).

Definition file_size (f : log_file) : Z := Z.of_nat (length (lf_content f)).
Definition total_size (d : directory) : Z := foldr (λ nf acc, file_size nf.2 + acc) 0 d.

(** [_OWNED.fullmatch(name)] *)
Definition segment_char (c : Ascii.ascii) : bool :=
  is_digit c || bool_decide (c ∈ [ascii_of_byte 95; ascii_of_byte 46; ascii_of_byte 45]).
Definition is_owned (name : string) : bool :=
  let mid s := match strip_chars (rev (lit ".log")) s with
               | Some r => match rev r with
                           | [] => true
                           | c :: d :: rest => (byte_of_ascii c =? 45) && is_digit d && forallb segment_char rest
                           | _ => false
                           end
               | None => false
               end in
  match strip_chars (lit "xian-abci") (str_chars name) with
  | Some r => match strip_chars (rev (lit ".zip")) (rev r) with
              | Some s => mid s
              | None => mid (rev r)
              end
  | None => false
  end.

Definition active : string := "xian-abci.log".

Section Sink.
Context (max_file_bytes max_total_bytes rotation_seconds retention_seconds : Z).
Definition archive_budget : Z := max_total_bytes - max_file_bytes.

Definition _owned_files (d : directory) : directory := filter (λ nf, is_owned nf.1 = true) d.

Definition expired (now : Z) (f : log_file) : bool := lf_mtime f <? now - retention_seconds.

(** The order of the tuples [(mtime, name, ...)]. *)
Definition older (a b : string * log_file) : Prop :=
  lf_mtime a.2 < lf_mtime b.2 \/ (lf_mtime a.2 = lf_mtime b.2 /\ String.leb a.1 b.1 = true).
#[local] Instance older_dec a b : Decision (older a b).
Proof. unfold older. apply _. Defined.

(** The oldest archives, as long as the rest is over the budget. *)
Fixpoint trim (size : Z) (archives : directory) : list string :=
  match archives with
  | [] => []
  | (name, f) :: rest => if size <=? archive_budget then [] else name :: trim (size - file_size f) rest
  end.

Definition archives_of (now : Z) (d : directory) : directory :=
  filter (λ nf, expired now nf.2 = false /\ nf.1 <> active) (_owned_files d).

(** The names [_cleanup] unlinks, in order. *)
Definition doomed (now : Z) (d : directory) : list string :=
  let archives := archives_of now d in
  (filter (λ nf, expired now nf.2 = true) (_owned_files d)).*1 ++ trim (total_size archives) (merge_sort older archives).

Definition without (names : list string) (d : directory) : directory := filter (λ nf, nf.1 ∉ names) d.

(** [fault]: how many files are unlinked before an [unlink] fails. *)
Definition _cleanup (now : Z) (fault : option nat) : stM directory unit := λ d,
  let names := doomed now d in
  match fault with
  | Some k => if decide (k < length names)%nat then (raise OSError "unlink failed", without (take k names) d) else (Ok tt, without names d)
  | None => (Ok tt, without names d)
  end.

(** [rename]: an older file of the destination's name is replaced. *)
Definition _rotate (now pid : Z) (d : directory) : directory :=
  match dict_get active d with
  | None => d
  | Some f => dict_set ("xian-abci-" +:+ py_int_str now +:+ "-" +:+ py_int_str pid +:+ ".log") f (dict_pop active d)
  end.

(** The longest prefix that is UTF-8: [decode('utf-8', errors='ignore')] of a cut text. *)
Fixpoint utf8_prefix (fuel : nat) (b : bytes) : bytes :=
  match fuel with
  | O => []
  | S fuel => match utf8_decode b with Some _ => b | None => utf8_prefix fuel (removelast b) end
  end.

(** The bytes a message is written as. *)
Definition bounded_data (data : bytes) : bytes :=
  if max_file_bytes <? Z.of_nat (length data)
  then let cut := take (Z.to_nat (max_file_bytes - 1)) data in utf8_prefix (S (length cut)) cut ++ [10]
  else data.

Definition active_size (d : directory) : Z := match dict_get active d with Some f => file_size f | None => 0 end.

Definition append_active (now : Z) (data : bytes) (d : directory) : directory :=
  dict_set active (LogFile now (match dict_get active d with Some f => lf_content f | None => [] end ++ data)) d.

(** [write]: [age] is the time since this process opened the active file; an [OSError] is
    reported and the message is lost. *)
Definition _write_data (now pid age : Z) (fault : option nat) (data : bytes) : stM directory unit :=
  d ← get_st;
  _ ← (if (max_file_bytes <? active_size d + Z.of_nat (length data)) || (rotation_seconds <=? age)
       then _ ← modify_st (_rotate now pid); _cleanup now fault
       else mret tt);
  modify_st (append_active now data).

Definition write (now pid age : Z) (fault : option nat) (message : bytes) (d : directory) : directory :=
  (_write_data now pid age fault (bounded_data message) d).2.

(** [__init__] on the directory. *)
Definition open_sink (now pid : Z) (fault : option nat) : stM directory unit :=
  _ ← modify_st (_rotate now pid); _cleanup now fault.

(** What any of the processes may do next; [ok] is false when an [unlink] failed. *)
Inductive log_step : bool -> directory -> directory -> Prop :=
  | step_write now pid age fault message d r d' :
      _write_data now pid age fault (bounded_data message) d = (r, d') -> log_step (is_ok r) d d'
  | step_maintain now fault d r d' : _cleanup now fault d = (r, d') -> log_step (is_ok r) d d'
  | step_open now pid fault d r d' : open_sink now pid fault d = (r, d') -> log_step (is_ok r) d d'.

(** *** The bound *)

Definition archive_files (d : directory) : directory := filter (λ nf, is_owned nf.1 = true /\ nf.1 <> active) d.

Lemma total_size_nonneg d : 0 <= total_size d.
Proof. unfold total_size, file_size. induction d as [|[n f] d IH]; cbn [foldr snd]; lia. Qed.

#[local] Instance total_size_perm : Proper ((≡ₚ) ==> (=)) total_size.
Proof. unfold total_size. induction 1 as [|[n f] l l' _ IH|[n f] [n' f'] l|l l' l'' _ IH1 _ IH2]; cbn [foldr snd]; [done|lia|lia|congruence]. Qed.

Lemma total_size_mono (P Q : string * log_file -> Prop) `{!forall x, Decision (P x), !forall x, Decision (Q x)} d :
  (forall nf, nf ∈ d -> P nf -> Q nf) -> total_size (filter P d) <= total_size (filter Q d).
Proof.
  induction d as [|nf d IH]; intros Hpq; [done|]. rewrite !filter_cons.
  assert (IH' : total_size (filter P d) <= total_size (filter Q d)) by (apply IH; intros; apply Hpq; [by right|done]).
  case_decide as Hp; case_decide as Hq; [| |unfold total_size, file_size in *; cbn [foldr]; lia|done]; [unfold total_size in *; cbn [foldr]; lia|]. exfalso. apply Hq, Hpq; [left|done].
Qed.

Lemma trim_spec (l : directory) :
  0 <= archive_budget -> NoDup l.*1 -> total_size (filter (λ nf, nf.1 ∉ trim (total_size l) l) l) <= archive_budget.
Proof.
  intros Hb. induction l as [|[n f] l IH]; intros Hnd; [done|]. cbn [trim]. change (total_size ((n, f) :: l)) with (file_size f + total_size l).
  destruct (Z.leb_spec (file_size f + total_size l) archive_budget) as [Hle|Hgt].
  - etransitivity; [|exact Hle]. change (file_size f + total_size l) with (total_size ((n, f) :: l)).
    etransitivity; [apply (total_size_mono _ (λ _, True)); done|].
    assert (forall d : directory, filter (λ _, True) d = d) as -> by (clear; induction d as [|x d IH]; [done|rewrite filter_cons, decide_True by done; by rewrite IH]).
    done.
  - apply NoDup_cons in Hnd as [Hn Hnd]. replace (file_size f + total_size l - file_size f) with (total_size l) by lia.
    rewrite filter_cons, decide_False by (intros Hin; apply Hin; left). etransitivity; [|by apply IH].
    apply total_size_mono. intros nf _ Hin Ht. apply Hin. by right.
Qed.

Lemma without_get names (d : directory) k : dict_get k (without names d) = if decide (k ∈ names) then None else dict_get k d.
Proof.
  unfold without. induction d as [|[n f] d IH]; [by case_decide|]. rewrite filter_cons. cbn [fst].
  destruct (decide (n ∉ names)) as [Hn|Hn]; cbn [dict_get].
  - destruct (decide (k = n)) as [->|Hne]; [|done]. by destruct (decide (n ∈ names)).
  - apply dec_stable in Hn. rewrite IH. destruct (decide (k = n)) as [->|Hne]; [|done]. by destruct (decide (n ∈ names)).
Qed.

Lemma without_nodup names (d : directory) : NoDup d.*1 -> NoDup (without names d).*1.
Proof.
  unfold without. induction d as [|[n f] d IH]; intros Hnd; [done|]. apply NoDup_cons in Hnd as [Hn Hnd]. rewrite filter_cons.
  case_decide; [|by apply IH]. cbn. apply NoDup_cons. split; [|by apply IH]. intros (nf & -> & Hin)%list_elem_of_fmap.
  apply Hn. apply list_elem_of_filter in Hin as [_ Hin]. apply list_elem_of_fmap. by exists nf.
Qed.

Lemma sub_nodup (P : string * log_file -> Prop) `{!forall x, Decision (P x)} (d : directory) : NoDup d.*1 -> NoDup (filter P d).*1.
Proof.
  induction d as [|[n f] d IH]; intros Hnd; [done|]. apply NoDup_cons in Hnd as [Hn Hnd]. rewrite filter_cons.
  case_decide; [|by apply IH]. cbn. apply NoDup_cons. split; [|by apply IH]. intros (nf & -> & Hin)%list_elem_of_fmap.
  apply Hn. apply list_elem_of_filter in Hin as [_ Hin]. apply list_elem_of_fmap. by exists nf.
Qed.

Context (files_fit : 0 < max_file_bytes <= max_total_bytes).

Lemma cleaned_archives now d : NoDup d.*1 -> total_size (archive_files (without (doomed now d) d)) <= archive_budget.
Proof.
  intros Hnd. set (sorted := merge_sort older (archives_of now d)).
  assert (Hs : sorted ≡ₚ archives_of now d) by apply merge_sort_Permutation.
  assert (Hns : NoDup sorted.*1).
  { rewrite Hs. by apply sub_nodup, sub_nodup. }
  pose proof (trim_spec sorted ltac:(unfold archive_budget; lia) Hns) as Ht.
  rewrite (total_size_perm _ _ Hs) in Ht.
  assert (Hd : doomed now d = (filter (λ nf, expired now nf.2 = true) (_owned_files d)).*1 ++ trim (total_size (archives_of now d)) sorted) by done.
  revert Ht Hd. generalize (trim (total_size (archives_of now d)) sorted) as T. intros T Ht Hd.
  assert (Hf : total_size (filter (λ nf, nf.1 ∉ T) sorted) = total_size (filter (λ nf, nf.1 ∉ T) (archives_of now d)))
    by (apply total_size_perm; by rewrite Hs).
  rewrite Hf in Ht. etransitivity; [|exact Ht]. unfold archive_files, without, archives_of, _owned_files. rewrite !list_filter_filter.
  apply total_size_mono. intros nf Hin ((Ho & Ha) & Hn). rewrite Hd, not_elem_of_app in Hn. destruct Hn as [He Hn].
  assert (Hx : expired now nf.2 = false).
  { apply not_true_iff_false. intros Hx. apply He, list_elem_of_fmap. exists nf. split; [done|].
    unfold _owned_files. rewrite !list_elem_of_filter. done. }
  done.
Qed.

(** What holds of the directory whatever fails, and what holds of it otherwise. *)
Record tidy (d : directory) : Prop := { td_nodup : NoDup d.*1; td_active : active_size d <= max_file_bytes }.
Definition bounded (d : directory) : Prop := tidy d /\ total_size (archive_files d) <= archive_budget.

Lemma active_without names d : active_size (without names d) <= active_size d.
Proof. unfold active_size. rewrite without_get. case_decide; [|done]. destruct (dict_get active d); [unfold file_size; lia|done]. Qed.

Lemma cleanup_tidy now fault d r d' :
  _cleanup now fault d = (r, d') -> tidy d -> tidy d' /\ (is_ok r = true -> bounded d').
Proof.
  intros Hc [Hn Ha]. assert (Ht : forall names, tidy (without names d)).
  { intros names. split; [by apply without_nodup|]. etransitivity; [apply active_without|done]. }
  unfold _cleanup in Hc. destruct fault as [k|]; [case_decide|]; injection Hc as <- <-; (split; [apply Ht|]); try done;
    intros _; (split; [apply Ht|by apply cleaned_archives]).
Qed.

Lemma rotated_name now pid : "xian-abci-" +:+ py_int_str now +:+ "-" +:+ py_int_str pid +:+ ".log" <> active.
Proof. intros H. apply (f_equal (String.get 9)) in H. discriminate H. Qed.

Lemma rotate_tidy now pid d : NoDup d.*1 -> tidy (_rotate now pid d) /\ active_size (_rotate now pid d) = 0.
Proof.
  intros Hn. unfold _rotate. destruct (dict_get active d) as [f|] eqn:E.
  - assert (Ha : active_size (dict_set ("xian-abci-" +:+ py_int_str now +:+ "-" +:+ py_int_str pid +:+ ".log") f (dict_pop active d)) = 0).
    { unfold active_size. rewrite dict_get_set_ne by (intros H; by apply (rotated_name now pid)). by rewrite dict_get_pop_eq. }
    split; [|done]. split; [|rewrite Ha; lia]. by apply dict_set_nodup, dict_pop_nodup.
  - assert (active_size d = 0) by (unfold active_size; by rewrite E). split; [split; [done|lia]|done].
Qed.

Lemma utf8_prefix_length fuel b : (length (utf8_prefix fuel b) <= length b)%nat.
Proof.
  revert b. induction fuel as [|fuel IH]; intros b; cbn [utf8_prefix]; [cbn; lia|]. destruct (utf8_decode b); [done|].
  etransitivity; [apply IH|]. destruct b as [|x b] using rev_ind; [done|]. rewrite removelast_last, length_app. lia.
Qed.

Lemma bounded_data_length data : Z.of_nat (length (bounded_data data)) <= max_file_bytes.
Proof.
  unfold bounded_data. destruct (Z.ltb_spec max_file_bytes (Z.of_nat (length data))); [|lia]. rewrite length_app. cbn [length].
  set (cut := take _ data). pose proof (utf8_prefix_length (S (length cut)) cut) as Hl.
  assert (length cut <= Z.to_nat (max_file_bytes - 1))%nat by (unfold cut; rewrite length_take; lia). lia.
Qed.

Lemma append_archives now data d : archive_files (append_active now data d) = archive_files d.
Proof.
  unfold append_active, archive_files. generalize (LogFile now (match dict_get active d with Some f => lf_content f | None => [] end ++ data)) as f.
  intros f. induction d as [|[n g] d IH]; cbn [dict_set].
  - rewrite filter_cons, decide_False by (by intros [_ ?]). done.
  - case_decide as Hn; [subst n; by rewrite !filter_cons, !decide_False by (by intros [_ ?])|]. rewrite !filter_cons. case_decide; by rewrite IH.
Qed.

Lemma append_size now data d : active_size (append_active now data d) = active_size d + Z.of_nat (length data).
Proof.
  unfold active_size, append_active. rewrite dict_get_set_eq. unfold file_size. cbn [lf_content]. rewrite length_app.
  destruct (dict_get active d); cbn; lia.
Qed.

Lemma append_tidy now data d :
  tidy d -> active_size d + Z.of_nat (length data) <= max_file_bytes -> tidy (append_active now data d).
Proof. intros [Hn _] Hl. split; [by apply dict_set_nodup|]. by rewrite append_size. Qed.

Lemma write_tidy now pid age fault message d r d' :
  _write_data now pid age fault (bounded_data message) d = (r, d') -> tidy d ->
  tidy d' /\ (is_ok r = true -> bounded d -> bounded d') /\
  (is_ok r = true -> exists before f, dict_get active d' = Some f /\ lf_content f = before ++ bounded_data message).
Proof.
  intros Hw Ht. pose proof (bounded_data_length message) as Hl. set (data := bounded_data message) in *.
  assert (Happ : forall d1, exists before f, dict_get active (append_active now data d1) = Some f /\ lf_content f = before ++ data).
  { intros d1. unfold append_active. rewrite dict_get_set_eq. by do 2 eexists. }
  unfold _write_data in Hw. unfold mbind at 1, stM_bind at 1, get_st in Hw.
  destruct ((max_file_bytes <? active_size d + Z.of_nat (length data)) || (rotation_seconds <=? age)) eqn:Ec.
  - destruct (rotate_tidy now pid d (td_nodup _ Ht)) as [Hrt Hr0].
    unfold mbind, stM_bind, modify_st in Hw. destruct (_cleanup now fault (_rotate now pid d)) as [[[]|e] d1] eqn:Ecl; injection Hw as <- <-.
    + destruct (cleanup_tidy _ _ _ _ _ Ecl Hrt) as [H1 H2]. specialize (H2 eq_refl).
      assert (Ha : active_size d1 <= 0).
      { rewrite <- Hr0. unfold _cleanup in Ecl. destruct fault; [case_decide|]; simplify_eq; apply active_without. }
      assert (Ht1 : tidy (append_active now data d1)) by (apply append_tidy; [done|lia]).
      split; [done|]. split; [|by intros _]. intros _ _. split; [done|]. rewrite append_archives. apply H2.
    + destruct (cleanup_tidy _ _ _ _ _ Ecl Hrt) as [H1 _]. by split_and!.
  - unfold mbind, stM_bind, mret, stM_ret, modify_st in Hw. injection Hw as <- <-. apply orb_false_iff in Ec as [Ec _].
    apply Z.ltb_ge in Ec. assert (Ht1 : tidy (append_active now data d)) by (by apply append_tidy).
    split; [done|]. split; [|by intros _]. intros _ [_ Hb]. split; [done|]. by rewrite append_archives.
Qed.

Lemma step_tidy ok d d' : log_step ok d d' -> tidy d -> tidy d' /\ (ok = true -> bounded d -> bounded d').
Proof.
  intros Hs Ht. destruct Hs as [now pid age fault message d r d' Hw|now fault d r d' Hc|now pid fault d r d' Ho].
  - destruct (write_tidy _ _ _ _ _ _ _ _ Hw Ht) as (H1 & H2 & _). done.
  - destruct (cleanup_tidy _ _ _ _ _ Hc Ht) as [H1 H2]. auto.
  - unfold open_sink, mbind, stM_bind, modify_st in Ho. destruct (rotate_tidy now pid d (td_nodup _ Ht)) as [Hrt _].
    destruct (cleanup_tidy _ _ _ _ _ Ho Hrt) as [H1 H2]. auto.
Qed.

Lemma bounded_total d : bounded d -> total_size (_owned_files d) <= max_total_bytes.
Proof.
  intros [[Hn Ha] Hb]. unfold archive_budget in Hb.
  assert (Hsplit : total_size (_owned_files d) = total_size (archive_files d) + active_size d); [|lia].
  clear Ha Hb. unfold _owned_files, archive_files, active_size. induction d as [|[n f] d IH]; [done|].
  apply NoDup_cons in Hn as [Hn Hnd]. specialize (IH Hnd). rewrite !filter_cons. cbn [fst snd dict_get].
  destruct (decide (n = active)) as [->|Hne].
  - rewrite decide_True by done. rewrite decide_False by (by intros [_ ?]). rewrite decide_True by done.
    assert (dict_get active d = None) as E by (by apply dict_get_None). rewrite E in IH. unfold total_size in *. cbn [foldr snd]. lia.
  - rewrite (decide_False (P := active = n)) by done.
    destruct (decide (is_owned n = true)) as [Ho|Ho]; [rewrite decide_True by done|rewrite decide_False by (by intros [? _])]; [|done].
    unfold total_size in *. cbn [foldr snd]. lia.
Qed.

(** Claim C39. The log directory keeps within its budget.  Whatever a directory holds, once a sink has
    been opened on it, any interleaving of writes, rotations, clean-ups and openings by any
    number of processes leaves the sink's files within the total budget; if files could not
    be deleted meanwhile, the active file still keeps within its own limit, and the next
    clean-up that succeeds restores the budget. *)
Theorem log_directory_bounded now pid d0 d1 d2 :
  NoDup d0.*1 -> open_sink now pid None d0 = (Ok tt, d1) ->
  (rtc (log_step true) d1 d2 -> total_size (_owned_files d2) <= max_total_bytes) /\
  (rtc (λ d d', exists ok, log_step ok d d') d1 d2 -> active_size d2 <= max_file_bytes /\
     forall now' d3, _cleanup now' None d2 = (Ok tt, d3) -> total_size (_owned_files d3) <= max_total_bytes).
Proof.
  intros Hn Ho. unfold open_sink, mbind, stM_bind, modify_st in Ho. destruct (rotate_tidy now pid d0 Hn) as [Hrt _].
  destruct (cleanup_tidy _ _ _ _ _ Ho Hrt) as [H1 H2]. specialize (H2 eq_refl). split.
  - intros Hr. apply bounded_total. clear Ho. induction Hr as [|d1 d2 d3 Hs _ IH]; [done|].
    destruct (step_tidy _ _ _ Hs H1) as [H3 H4]. auto.
  - intros Hr. assert (Ht : tidy d2).
    { clear Ho H2. induction Hr as [|d1 d2 d3 [ok Hs] _ IH]; [done|]. apply IH. by destruct (step_tidy ok d1 d2 Hs H1). }
    split; [apply Ht|]. intros now' d3 Hc. apply bounded_total. by destruct (cleanup_tidy _ _ _ _ _ Hc Ht) as [_ Hb]; apply Hb.
Qed.
End Sink.

(** ** Records *)

(** Texts are lists of code points. *)
#[local] Notation text := (list Z).
Definition txt (s : string) : text := byte_of_ascii <$> str_chars s.

(** The values of a record, with the name of the type of what is none of the others. *)
Inductive log_value :=
  | LNone
  | LBool (b : bool)
  | LInt (z : Z)
  | LFloat (finite : bool) (repr : text)
  | LStr (s : text)
  | LOther (type_name : text).

Definition MAX_MESSAGE : nat := 2048.
Definition MAX_VALUE : nat := 256.
Definition MAX_FIELDS : nat := 24.

Definition _SENSITIVE : list text :=
  txt <$> ["password"; "passphrase"; "secret"; "private_key"; "signing_key"; "private"; "credential"; "mnemonic"; "seed"; "authorization";
           "token"; "api_key"; "signature"; "payload"; "kwargs"; "raw_tx"; "transaction"; "state"; "result"; "headers"; "url"].
Definition _CONTEXT_ORDER : list text :=
  txt <$> ["stage"; "block_height"; "block_hash"; "tx_index"; "tx_hash"; "raw_tx_hash"; "sender"; "contract"; "function"; "nonce"; "status"].
Definition priority : list text := (txt <$> ["error_type"; "errno"; "stack"; "service"; "pid"]) ++ _CONTEXT_ORDER.

Section Records.
(** [unicodedata.category(c).startswith("C")] and [str.lower] *)
Context (is_control : Z -> bool) (lower : text -> text).

Fixpoint hex_text (digits : nat) (n : Z) : text :=
  match digits with
  | O => []
  | S k => hex_text k (n / 16) ++ [let d := n mod 16 in if d <? 10 then 48 + d else 87 + d]
  end.

(** [c.encode("unicode_escape")] *)
Definition unicode_escape (c : Z) : text :=
  if c =? 9 then txt "\t" else if c =? 10 then txt "\n" else if c =? 13 then txt "\r" else if c =? 92 then txt "\\"
  else if (32 <=? c) && (c <=? 126) then [c]
  else if c <? 256 then txt "\x" ++ hex_text 2 c
  else if c <? 65536 then txt "\u" ++ hex_text 4 c
  else txt "\U" ++ hex_text 8 c.

Definition safe_char (c : Z) : text := if is_control c || bool_decide (c ∈ [8232; 8233]) then unicode_escape c else [c].

Definition safe_text (v : text) (limit : nat) : text :=
  let t := concat (safe_char <$> take limit v) in
  take limit t ++ (if decide (limit < length v \/ limit < length t)%nat then [8230] else []).

(** [value.bit_length() <= 64] *)
Definition fits_64 (z : Z) : bool := Z.abs z <? 2 ^ 64.

Definition safe_value (v : log_value) : log_value :=
  match v with
  | LStr s => LStr (safe_text s MAX_VALUE)
  | LNone | LBool _ => v
  | LInt z => if fits_64 z then v else LStr (txt "<large integer>")
  | LFloat finite r => if finite then v else LStr r
  | LOther name => LStr (txt "<" ++ safe_text name 64 ++ txt ">")
  end.

#[local] Notation fields := (list (text * log_value)).

Fixpoint field_get (k : text) (d : fields) : option log_value :=
  match d with [] => None | (k', v) :: d => if decide (k = k') then Some v else field_get k d end.
Fixpoint field_set (k : text) (v : log_value) (d : fields) : fields :=
  match d with
  | [] => [(k, v)]
  | (k', v') :: d => if decide (k = k') then (k, v) :: d else (k', v') :: field_set k v d
  end.

Definition _field_candidates (d : fields) : fields :=
  omap (λ k, (λ v, (k, v)) <$> field_get k d) priority ++ filter (λ kv, kv.1 ∉ priority) (take MAX_FIELDS d).

Fixpoint split_words (s : text) : list text :=
  match s with
  | [] => [[]]
  | c :: s => if c =? 95 then [] :: split_words s
              else match split_words s with w :: ws => (c :: w) :: ws | [] => [[c]] end
  end.

Definition ends_with (suffix s : text) : bool :=
  bool_decide (drop (length s - length suffix) s = suffix /\ (length suffix <= length s)%nat).

Definition _sensitive_field (key : text) (v : log_value) : bool :=
  let count := match v with LInt _ => ends_with (txt "_count") key || ends_with (txt "_bytes") key | _ => false end in
  let normalized := (λ c, if c =? 45 then 95 else c) <$> lower key in
  negb count && (bool_decide (normalized ∈ _SENSITIVE) || bool_decide (Exists (λ w, w ∈ _SENSITIVE) (split_words normalized))).

Definition redacted : log_value := LStr (txt "[redacted]").

Definition clean_field (result : fields) (kv : text * log_value) : fields :=
  let '(key, v) := kv in
  if bool_decide (key = txt "context") || (match v with LNone => true | _ => false end) then result
  else let key := safe_text key 64 in field_set key (if _sensitive_field key v then redacted else safe_value v) result.

Definition clean_fields (d : fields) : fields := foldl clean_field [] (take MAX_FIELDS (_field_candidates d)).

(** *** What a cleaned record holds *)

Definition value_bounded (v : log_value) : Prop :=
  match v with
  | LStr s => (length s <= MAX_VALUE + 1)%nat
  | LInt z => fits_64 z = true
  | LFloat finite _ => finite = true
  | LBool _ => True
  | LNone | LOther _ => False
  end.

Lemma safe_text_length v limit : (length (safe_text v limit) <= limit + 1)%nat.
Proof. unfold safe_text. rewrite length_app, length_take. case_decide; cbn [length]; lia. Qed.

(** A printable text within the limit is kept as it is. *)
Lemma safe_text_short v limit : (length v <= limit)%nat -> forallb (λ c, negb (is_control c || bool_decide (c ∈ [8232; 8233]))) v = true -> safe_text v limit = v.
Proof.
  intros Hl Hv. unfold safe_text. rewrite (take_ge v) by done.
  assert (concat (safe_char <$> v) = v) as ->.
  { clear Hl. induction v as [|c v IH]; [done|]. cbn [forallb] in Hv. apply andb_true_iff in Hv as [Hc Hv].
    apply negb_true_iff in Hc. change (concat (safe_char <$> c :: v)) with (safe_char c ++ concat (safe_char <$> v)).
    rewrite IH by done. unfold safe_char. by rewrite Hc. }
  rewrite (take_ge v), decide_False by lia. by rewrite app_nil_r.
Qed.

Lemma field_set_elem k v d x : x ∈ field_set k v d -> x = (k, v) \/ x ∈ d.
Proof.
  induction d as [|[k' v'] d IH]; cbn [field_set]; [intros Hx; apply list_elem_of_singleton in Hx; by left|].
  case_decide; intros Hx; apply elem_of_cons in Hx as [->|Hx]; [by left|right; by right|right; left|].
  destruct (IH Hx); [by left|right; by right].
Qed.
Lemma field_set_length k v d : (length (field_set k v d) <= S (length d))%nat.
Proof. induction d as [|[k' v'] d IH]; cbn [field_set length]; [lia|]. case_decide; cbn [length]; lia. Qed.

Lemma field_get_elem k v d : field_get k d = Some v -> (k, v) ∈ d.
Proof.
  induction d as [|[k' v'] d IH]; cbn [field_get]; [done|]. case_decide; [intros [= ->]; subst; left|]. intros Hv. right. auto.
Qed.

Lemma candidate_elem d kv : kv ∈ _field_candidates d -> kv ∈ d.
Proof.
  unfold _field_candidates. intros [Hin|Hin]%elem_of_app.
  - apply list_elem_of_omap in Hin as (k & _ & Hk). destruct (field_get k d) as [v|] eqn:E; [|done]. injection Hk as <-.
    by apply field_get_elem.
  - apply list_elem_of_filter in Hin as [_ Hin]. apply elem_of_take in Hin as (i & Hi & _). by eapply list_elem_of_lookup_2.
Qed.

Definition cleaned (d : fields) (kv : text * log_value) : Prop :=
  exists k v, (k, v) ∈ d /\ v <> LNone /\ kv.1 = safe_text k 64 /\ kv.2 = if _sensitive_field kv.1 v then redacted else safe_value v.

Lemma clean_fold d l acc :
  (forall kv, kv ∈ l -> kv ∈ d) -> (forall kv, kv ∈ acc -> cleaned d kv) -> forall kv, kv ∈ foldl clean_field acc l -> cleaned d kv.
Proof.
  revert acc. induction l as [|[k v] l IH]; intros acc Hl Ha; [done|]. cbn [foldl]. apply IH; [intros; apply Hl; by right|].
  intros kv. unfold clean_field. destruct (_ || _) eqn:E; [apply Ha|]. intros [->|Hin]%field_set_elem; [|by apply Ha].
  exists k, v. cbn [fst snd]. split_and!; [apply Hl; left| |done..]. intros ->. by rewrite orb_true_r in E.
Qed.

Lemma clean_length l acc : (length (foldl clean_field acc l) <= length acc + length l)%nat.
Proof.
  revert acc. induction l as [|[k v] l IH]; intros acc; cbn [foldl length]; [lia|]. etransitivity; [apply IH|].
  unfold clean_field. destruct (_ || _); [lia|].
  pose proof (field_set_length (safe_text k 64) (if _sensitive_field (safe_text k 64) v then redacted else safe_value v) acc). lia.
Qed.

Lemma safe_value_bounded v : v <> LNone -> (forall r, v = LFloat false r -> (length r <= MAX_VALUE)%nat) -> value_bounded (safe_value v).
Proof.
  intros Hn Hf. destruct v as [| |z|f r|s|name]; cbn [safe_value]; try done.
  - destruct (fits_64 z) eqn:E; [done|]. cbn. unfold MAX_VALUE. lia.
  - destruct f; [done|]. specialize (Hf r eq_refl). cbn [value_bounded]. lia.
  - apply safe_text_length.
  - cbn [value_bounded]. rewrite !length_app. pose proof (safe_text_length name 64). unfold MAX_VALUE. change (length (txt "<")) with 1%nat. change (length (txt ">")) with 1%nat. lia.
Qed.

(** A record holds at most 24 fields besides its context, every key is at most 65 characters
    and every value bounded, and the value of a field whose name in the record is sensitive
    is never the one that was logged.  The names of the non-finite floats are short. *)
Theorem records_are_bounded d :
  (forall k r, (k, LFloat false r) ∈ d -> (length r <= MAX_VALUE)%nat) ->
  (length (clean_fields d) <= MAX_FIELDS)%nat /\
  forall k v, (k, v) ∈ clean_fields d ->
    (length k <= 65)%nat /\ value_bounded v /\
    exists k0 v0, (k0, v0) ∈ d /\ k = safe_text k0 64 /\ v = if _sensitive_field k v0 then redacted else safe_value v0.
Proof.
  intros Hf. split.
  - unfold clean_fields. etransitivity; [apply clean_length|]. rewrite length_take. cbn [length]. lia.
  - intros k v Hin. unfold clean_fields in Hin.
    destruct (clean_fold d (take MAX_FIELDS (_field_candidates d)) []) with (kv := (k, v)) as (k0 & v0 & H1 & H2 & H3 & H4); [| |done|].
    + intros kv Hkv. apply elem_of_take in Hkv as (i & Hi & _). by eapply candidate_elem, list_elem_of_lookup_2.
    + intros kv Hkv. by apply not_elem_of_nil in Hkv.
    + cbn [fst snd] in H3, H4. split_and!; [| |by exists k0, v0].
      * rewrite H3. apply (safe_text_length k0 64).
      * rewrite H4. destruct (_sensitive_field k v0); [cbn; unfold MAX_VALUE; lia|].
        apply safe_value_bounded; [done|]. intros r ->. by apply (Hf k0).
Qed.
End Records.

(** ** Samples *)

Definition sample_dir : list (string * log_file) :=
  [("xian-abci.log", LogFile 5 [1; 2; 3; 4]); ("xian-abci-1-7.log", LogFile 1 [1; 2; 3; 4; 5]); ("other.txt", LogFile 1 [1; 2; 3; 4; 5; 6; 7; 8; 9]);
   ("xian-abci-3-7.log", LogFile 3 [1; 2; 3])].
Definition opened_dir : list (string * log_file) := (open_sink 4 12 100 9 9 None sample_dir).2.
Definition written_dir : list (string * log_file) := write 4 12 50 100 10 9 2 None [65; 66; 67; 68; 69; 70] opened_dir.

Lemma log_directory_bounded_witness : total_size (_owned_files written_dir) <= 12.
Proof.
  apply (log_directory_bounded 4 12 50 100 ltac:(lia) 9 9 sample_dir opened_dir written_dir).
  - apply (bool_decide_unpack _). vm_compute. done.
  - vm_compute. reflexivity.
  - apply rtc_once. change true with (is_ok (Ok tt)).
    apply (step_write 4 12 50 100 10 9 2 None [65; 66; 67; 68; 69; 70]). vm_compute. reflexivity.
Defined.

Example owned_names :
  is_owned "xian-abci.log" = true /\ is_owned "xian-abci-1700-12.log" = true /\ is_owned "xian-abci-1.log.zip" = true /\
  is_owned "xian-abci-x.log" = false /\ is_owned "xian-abci.log.1" = false.
Proof. by vm_compute. Qed.

Definition no_controls (c : Z) : bool := c <? 32.
Definition sample_record : list (list Z * log_value) :=
  [(txt "db_password", LStr (txt "hunter2")); (txt "height", LInt 7); (txt "error", LStr (txt "x"))].

Lemma records_are_bounded_witness : (length (clean_fields no_controls id sample_record) <= 24)%nat.
Proof.
  apply (records_are_bounded no_controls id sample_record). intros k r Hin. exfalso. unfold sample_record in Hin.
  repeat (apply elem_of_cons in Hin as [Hin|Hin]; [done|]). by apply not_elem_of_nil in Hin.
Defined.

(** Names of several words are only recognised when they are the whole key, and a key is cut
    to 64 characters before it is looked at: neither value is redacted. *)
Example unredacted :
  (field_get (txt "db_password") (clean_fields no_controls id [(txt "db_password", LStr (txt "x"))]) = Some redacted) /\
  (field_get (txt "node_api_key") (clean_fields no_controls id [(txt "node_api_key", LStr (txt "x"))]) = Some (LStr (txt "x"))) /\
  (snd <$> clean_fields no_controls id [(repeat 97 60 ++ txt "_password", LStr (txt "x"))]) = [LStr (txt "x")].
Proof. by vm_compute. Qed.
