(* ===== verification/DashboardLimits.v ===== *)
(** * The limits of the dashboard's HTTP server

    [DashboardRateLimiter], [DashboardConcurrencyLimiter] and
    [dashboard_security_middleware] of dashboard/app.py: a token bucket per client
    and group of routes, a bounded number of buckets, and a bounded number of
    requests in progress.  Python's floats are a type with its operations; the
    theorem on rates assumes that they are exact, the others assume nothing of
    them.  Requests run concurrently: a request enters the middleware, its handler
    runs while others enter and leave, and it leaves when the handler returns or
    raises. *)
From Stdlib Require Import QArith Lqa.
From stdpp Require Import base list strings.
From S2P Require Import Prelude.
#[local] Open Scope Z_scope.

(** ** Floats *)

Class FloatOps (F : Type) := {
  f_of_Z : Z -> F;
  f_literal : Q -> F;
  f_add : F -> F -> F; f_sub : F -> F -> F; f_mul : F -> F -> F; f_div : F -> F -> F;
  f_lt : F -> F -> bool; f_le : F -> F -> bool;
  f_trunc : F -> Z }.

(** Arithmetic without rounding, overflow or nan, through the value [val] of a float. *)
Class ExactFloats (F : Type) `{FloatOps F} (val : F -> Q) := {
  val_of_Z z : (val (f_of_Z z) == inject_Z z)%Q;
  val_literal q : (val (f_literal q) == q)%Q;
  val_add a b : (val (f_add a b) == val a + val b)%Q;
  val_sub a b : (val (f_sub a b) == val a - val b)%Q;
  val_mul a b : (val (f_mul a b) == val a * val b)%Q;
  val_div a b : (0 < val b)%Q -> (val (f_div a b) * val b == val a)%Q;
  f_lt_val a b : f_lt a b = true <-> (val a < val b)%Q;
  f_le_val a b : f_le a b = true <-> (val a <= val b)%Q }.

(** [min(a, b)] and [max(a, b)] return their first argument on a tie. *)
Definition f_min {F} `{FloatOps F} (a b : F) : F := if f_lt b a then b else a.
Definition f_max {F} `{FloatOps F} (a b : F) : F := if f_lt a b then b else a.

(** ** Requests *)

Inductive peername := PeerTuple (parts : list string) | PeerText (text : string) | NoPeer.
Record request := Request { rq_path : string; rq_remote : option string; rq_transport : option peername }.

Definition _dashboard_client_key (r : request) : string :=
  let unnamed := match rq_transport r with
                 | Some (PeerTuple (host :: _)) => host
                 | Some (PeerText s) => if bool_decide (s = "") then "unknown" else s
                 | _ => "unknown"
                 end in
  match rq_remote r with
  | Some s => if bool_decide (s = "") then unnamed else s
  | None => unnamed
  end.

Definition _EXPENSIVE_API_EXACT_PATHS : list string :=
  ["/api/addresses"; "/api/blockchain"; "/api/consensus"; "/api/contracts"; "/api/monitoring"; "/api/net_info";
   "/api/recent_events"; "/api/unconfirmed_txs"; "/api/validator_dashboard"; "/api/validators"].
Definition _EXPENSIVE_API_PREFIXES : list string :=
  ["/api/abci_query/"; "/api/address/"; "/api/block/"; "/api/block_results/"; "/api/contract/"; "/api/tx/"].

Definition _route_group (path : string) : option string :=
  if bool_decide (path = "/ws") then Some "websocket"
  else if negb (startswith "/api/" path) then None
  else if bool_decide (path ∈ _EXPENSIVE_API_EXACT_PATHS) then Some "expensive"
  else if existsb (λ prefix, startswith prefix path) _EXPENSIVE_API_PREFIXES then Some "expensive"
  else Some "api".

Definition _normalized_positive_int (value minimum : Z) : Z := Z.max value minimum.

(** The key of a request's bucket: client and group of routes. *)
#[local] Notation bkey := (string * string)%type.
Definition bucket_key (r : request) : option bkey :=
  group ← _route_group (rq_path r); Some (_dashboard_client_key r, group).

Section Limits.
Context {F : Type} `{FloatOps F}.

(** ** Token buckets *)

Definition _normalized_positive_float (value : F) : F := f_max value (f_literal (1 # 1000)).

Record _DashboardTokenBucket := TokenBucket { rate_per_second : F; capacity : F; tokens : F; updated_at : F }.

(** The bucket at a later time. *)
Definition refill (now : F) (b : _DashboardTokenBucket) : _DashboardTokenBucket :=
  if f_lt (updated_at b) now then
    TokenBucket (rate_per_second b) (capacity b)
      (f_min (capacity b) (f_add (tokens b) (f_mul (f_sub now (updated_at b)) (rate_per_second b)))) now
  else b.

(** None: admitted; Some: the time to wait *)
Definition consume (now : F) (b : _DashboardTokenBucket) : option F * _DashboardTokenBucket :=
  let cost := f_of_Z 1 in
  let b := refill now b in
  if f_le cost (tokens b) then
    (None, TokenBucket (rate_per_second b) (capacity b) (f_sub (tokens b) cost) (updated_at b))
  else (Some (f_div (f_sub cost (tokens b)) (rate_per_second b)), b).

(** ** The dictionary of buckets, in insertion order *)

#[local] Notation buckets := (list (bkey * _DashboardTokenBucket)).

Fixpoint bucket_get (k : bkey) (d : buckets) : option _DashboardTokenBucket :=
  match d with [] => None | (k', b) :: d => if decide (k = k') then Some b else bucket_get k d end.
Fixpoint bucket_set (k : bkey) (b : _DashboardTokenBucket) (d : buckets) : buckets :=
  match d with
  | [] => [(k, b)]
  | (k', b') :: d => if decide (k = k') then (k, b) :: d else (k', b') :: bucket_set k b d
  end.
Definition bucket_pop (k : bkey) (d : buckets) : buckets := filter (λ kb, kb.1 <> k) d.

Record DashboardRateLimiter := RateLimiter {
  _rest_rate_limit_per_second : F; _rest_rate_limit_burst : Z;
  _expensive_rest_rate_limit_per_second : F; _expensive_rest_rate_limit_burst : Z;
  _max_keys : Z; _buckets : buckets }.

Definition new_rate_limiter (rest_rate : F) (rest_burst : Z) (expensive_rate : F) (expensive_burst max_keys : Z) : DashboardRateLimiter :=
  RateLimiter (_normalized_positive_float rest_rate) (_normalized_positive_int rest_burst 1)
    (_normalized_positive_float expensive_rate) (_normalized_positive_int expensive_burst 1) (_normalized_positive_int max_keys 1) [].
Definition with_buckets (d : buckets) (l : DashboardRateLimiter) : DashboardRateLimiter :=
  RateLimiter (_rest_rate_limit_per_second l) (_rest_rate_limit_burst l) (_expensive_rest_rate_limit_per_second l)
    (_expensive_rest_rate_limit_burst l) (_max_keys l) d.

Definition bucket_count (l : DashboardRateLimiter) : Z := Z.of_nat (length (_buckets l)).

Definition _policy (l : DashboardRateLimiter) (group : string) : F * Z :=
  if bool_decide (group = "expensive") then (_expensive_rest_rate_limit_per_second l, _expensive_rest_rate_limit_burst l)
  else (_rest_rate_limit_per_second l, _rest_rate_limit_burst l).

Definition _new_bucket (l : DashboardRateLimiter) (group : string) (now : F) : _DashboardTokenBucket :=
  let '(rate, burst) := _policy l group in TokenBucket rate (f_of_Z burst) (f_of_Z burst) now.

(** [min(self._buckets, key=...)]: the first of the least recently used keys *)
Fixpoint oldest (best : bkey * _DashboardTokenBucket) (d : buckets) : bkey :=
  match d with
  | [] => best.1
  | kb :: d => oldest (if f_lt (updated_at kb.2) (updated_at best.2) then kb else best) d
  end.

(** The loop that makes room for one bucket; each turn removes one at least. *)
Fixpoint evict (fuel : nat) (max_keys : Z) (d : buckets) : buckets :=
  match fuel, d with
  | S fuel, kb :: r => if max_keys <=? Z.of_nat (length d) then evict fuel max_keys (bucket_pop (oldest kb r) d) else d
  | _, _ => d
  end.

Definition _prune (now : F) (l : DashboardRateLimiter) : DashboardRateLimiter :=
  let stale_before := f_sub now (f_of_Z 3600) in
  let d := filter (λ kb, f_lt (updated_at kb.2) stale_before = false) (_buckets l) in
  with_buckets (evict (length d) (_max_keys l) d) l.

(** The answer to a request over its rate: the time to wait, and the header. *)
Record limited := Limited { retry_after : F; retry_header : Z }.

Definition check (now : F) (r : request) (l : DashboardRateLimiter) : option limited * DashboardRateLimiter :=
  match _route_group (rq_path r) with
  | None => (None, l)
  | Some group =>
    let key := (_dashboard_client_key r, group) in
    let '(bucket, l) :=
      match bucket_get key (_buckets l) with
      | Some bucket => (bucket, l)
      | None => let l := if _max_keys l <=? bucket_count l then _prune now l else l in (_new_bucket l group now, l)
      end in
    let '(refused, bucket) := consume now bucket in
    let l := with_buckets (bucket_set key bucket (_buckets l)) l in
    match refused with
    | None => (None, l)
    | Some retry => (Some (Limited retry (Z.max 1 (f_trunc (f_add retry (f_literal (999 # 1000)))))), l)
    end
  end.

(** ** Concurrency and the middleware *)

Record DashboardConcurrencyLimiter := Concurrency { limit : Z; active : Z }.
Definition new_concurrency (n : Z) : DashboardConcurrencyLimiter := Concurrency (_normalized_positive_int n 1) 0.

Definition try_acquire (c : DashboardConcurrencyLimiter) : bool * DashboardConcurrencyLimiter :=
  if limit c <=? active c then (false, c) else (true, Concurrency (limit c) (active c + 1)).
Definition release (c : DashboardConcurrencyLimiter) : DashboardConcurrencyLimiter :=
  if 0 <? active c then Concurrency (limit c) (active c - 1) else c.

(** The middleware's part of the application's state. *)
Record dashboard := Dashboard { rate_limiter : option DashboardRateLimiter; rest_concurrency_limiter : option DashboardConcurrencyLimiter }.

Inductive decision := TooManyRequests (l : limited) | Busy | Handle (counted : bool).

(** [dashboard_security_middleware] up to the call of the handler, ... *)
Definition enter (now : F) (r : request) (a : dashboard) : decision * dashboard :=
  let '(refused, a) := match rate_limiter a with
                       | Some l => let '(refused, l) := check now r l in (refused, Dashboard (Some l) (rest_concurrency_limiter a))
                       | None => (None, a)
                       end in
  match refused with
  | Some x => (TooManyRequests x, a)
  | None =>
    if bool_decide (rq_path r = "/ws") || negb (startswith "/api/" (rq_path r)) then (Handle false, a)
    else match rest_concurrency_limiter a with
         | None => (Handle false, a)
         | Some c => let '(ok, c) := try_acquire c in
                     let a := Dashboard (rate_limiter a) (Some c) in
                     if ok then (Handle true, a) else (Busy, a)
         end
  end.
(** ... and its [finally]. *)
Definition leave (counted : bool) (a : dashboard) : dashboard :=
  if counted then Dashboard (rate_limiter a) (release <$> rest_concurrency_limiter a) else a.

(** The server: the shared state, the requests being handled and those answered. *)
Record server := Server { sv_app : dashboard; sv_running : list (nat * bool); sv_answered : list nat }.

Inductive serve : server -> server -> Prop :=
  | serve_enter id now r a run ans d a' :
      enter now r a = (d, a') -> id ∉ run.*1 -> id ∉ ans ->
      serve (Server a run ans)
            (match d with Handle counted => Server a' ((id, counted) :: run) ans | _ => Server a' run (id :: ans) end)
  | serve_leave id counted a run1 run2 ans :
      serve (Server a (run1 ++ (id, counted) :: run2) ans) (Server (leave counted a) (run1 ++ run2) (id :: ans)).

(** [create_app]'s middleware. *)
Definition create_dashboard (rest_rate : F) (rest_burst : Z) (expensive_rate : F) (expensive_burst max_keys max_rest_concurrency : Z) : dashboard :=
  Dashboard (Some (new_rate_limiter rest_rate rest_burst expensive_rate expensive_burst max_keys))
    (Some (new_concurrency max_rest_concurrency)).

(** ** Bounds of the shared state *)

Lemma bucket_get_None k (d : buckets) : bucket_get k d = None -> k ∉ d.*1.
Proof.
  induction d as [|[k' b] d IH]; cbn; [intros _; apply not_elem_of_nil|]. case_decide as E; [done|].
  intros Hn [->|Hin]%elem_of_cons; [done|by apply IH].
Qed.

Lemma bucket_set_keys k b (d : buckets) : (bucket_set k b d).*1 = if decide (k ∈ d.*1) then d.*1 else d.*1 ++ [k].
Proof.
  induction d as [|[k' b'] d IH]; cbn; [done|]. destruct (decide (k = k')) as [<-|E].
  - by rewrite decide_True by left.
  - rewrite fmap_cons, IH. cbn. destruct (decide (k ∈ d.*1)) as [Hin|Hin].
    + by rewrite decide_True by (by right).
    + by rewrite decide_False by (by intros [?|?]%elem_of_cons).
Qed.

Lemma bucket_get_set k b (d : buckets) k' : bucket_get k' (bucket_set k b d) = if decide (k' = k) then Some b else bucket_get k' d.
Proof.
  induction d as [|[k0 b0] d IH]; cbn; [done|]. destruct (decide (k = k0)) as [->|Hne]; cbn.
  - by destruct (decide (k' = k0)).
  - destruct (decide (k' = k0)) as [->|]; [|done]. by rewrite decide_False by congruence.
Qed.

Lemma oldest_in kb (d : buckets) : oldest kb d ∈ (kb :: d).*1.
Proof.
  revert kb. induction d as [|x d IH]; intros kb; cbn; [left|]. case_match.
  - right. apply (IH x).
  - specialize (IH kb). cbn in IH. apply elem_of_cons in IH as [->|Hin]; [left|by right; right].
Qed.

Lemma bucket_pop_length k (d : buckets) : k ∈ d.*1 -> (length (bucket_pop k d) < length d)%nat.
Proof.
  intros Hk. apply list_elem_of_fmap in Hk as ([k' b] & -> & Hin). apply list_elem_of_split in Hin as (d1 & d2 & ->).
  unfold bucket_pop. rewrite filter_app, filter_cons_False by (cbn; naive_solver). rewrite !length_app. cbn [length].
  pose proof (length_filter (λ kb : bkey * _DashboardTokenBucket, kb.1 <> k') d1). pose proof (length_filter (λ kb : bkey * _DashboardTokenBucket, kb.1 <> k') d2).
  cbn in *. lia.
Qed.

Lemma evict_length fuel m (d : buckets) : 1 <= m -> (length d <= fuel)%nat -> Z.of_nat (length (evict fuel m d)) < m.
Proof.
  intros Hm. revert d. induction fuel as [|fuel IH]; intros [|kb d] Hl; cbn -[bucket_pop length Z.of_nat]; try (cbn in *; lia).
  case_match; [|lia]. apply IH. pose proof (bucket_pop_length (oldest kb d) (kb :: d) (oldest_in kb d)). lia.
Qed.

Lemma prune_length now l : 1 <= _max_keys l -> bucket_count (_prune now l) < _max_keys l.
Proof. intros Hm. by apply evict_length. Qed.

(** What the limiter's state keeps: its settings, and room for its buckets. *)
Definition limiter_bounded (m : Z) (l : DashboardRateLimiter) : Prop := _max_keys l = m /\ 1 <= m /\ bucket_count l <= m.

Lemma bucket_set_length k b (d : buckets) : Z.of_nat (length (bucket_set k b d)) <= Z.of_nat (length d) + 1
  /\ (is_Some (bucket_get k d) -> length (bucket_set k b d) = length d).
Proof.
  induction d as [|[k' b'] d [IH1 IH2]]; cbn -[Z.of_nat]; [split; [lia|by intros []]|]. case_decide; cbn -[Z.of_nat]; [split; [lia|done]|].
  split; [lia|]. intros Hs. by rewrite IH2.
Qed.

Lemma check_bounded m now r l : limiter_bounded m l -> limiter_bounded m (check now r l).2.
Proof.
  intros (Hk & Hm & Hc). unfold check. destruct (_route_group (rq_path r)) as [g|]; [|done].
  set (key := (_dashboard_client_key r, g)). destruct (bucket_get key (_buckets l)) as [b|] eqn:Eb.
  - destruct (consume now b) as [[x|] b']; cbn; (split_and!; [done|done|]); unfold bucket_count; cbn;
      rewrite (proj2 (bucket_set_length key b' (_buckets l))) by (rewrite Eb; by eexists); done.
  - set (l1 := if _max_keys l <=? bucket_count l then _prune now l else l).
    assert (Hl1 : _max_keys l1 = m /\ bucket_count l1 < m).
    { unfold l1. case_match eqn:E; [|split; [done|lia]]. split; [done|]. pose proof (prune_length now l). lia. }
    destruct Hl1 as [Hk1 Hc1]. destruct (consume now (_new_bucket l1 g now)) as [[x|] b']; cbn; (split_and!; [done|done|]);
      unfold bucket_count in *; cbn; pose proof (proj1 (bucket_set_length key b' (_buckets l1))); lia.
Qed.

(** The requests that hold a place of the concurrency limiter. *)
Fixpoint places (run : list (nat * bool)) : Z := match run with [] => 0 | x :: run => (if x.2 then 1 else 0) + places run end.
Definition counted_running (s : server) : Z := places (sv_running s).

Lemma places_app run1 run2 : places (run1 ++ run2) = places run1 + places run2.
Proof. induction run1; cbn; lia. Qed.
Lemma places_nonneg run : 0 <= places run.
Proof. induction run; cbn; [lia|case_match; lia]. Qed.

Record within_limits (m n : Z) (s : server) : Prop := {
  wl_state : exists l c, sv_app s = Dashboard (Some l) (Some c) /\ limiter_bounded m l /\ limit c = n /\ active c = counted_running s;
  wl_limit : counted_running s <= n;
  wl_once : NoDup ((sv_running s).*1 ++ sv_answered s) }.

(** The decision takes a place of the concurrency limiter. *)
Definition takes_place (d : decision) : bool := match d with Handle b => b | _ => false end.

Lemma enter_cases m n now r a d a' k :
  (exists l c, a = Dashboard (Some l) (Some c) /\ limiter_bounded m l /\ limit c = n /\ active c = k) -> k <= n ->
  enter now r a = (d, a') ->
  exists l c, a' = Dashboard (Some l) (Some c) /\ limiter_bounded m l /\ limit c = n
    /\ active c = (if takes_place d then k + 1 else k) /\ active c <= n /\ (d = Busy -> k = n).
Proof.
  intros (l & c & -> & Hl & Hlim & Hact) Hk. unfold enter. cbn [rate_limiter rest_concurrency_limiter].
  pose proof (check_bounded m now r l Hl) as Hb. destruct (check now r l) as [refused l']. cbn in Hb.
  destruct refused as [x|]; [intros [= <- <-]; exists l', c; split_and!; [done..|lia|done]|].
  destruct (bool_decide (rq_path r = "/ws") || _); [intros [= <- <-]; exists l', c; split_and!; [done..|lia|done]|].
  cbn. unfold try_acquire. destruct (limit c <=? active c) eqn:E; intros [= <- <-].
  - exists l', c. split_and!; [done..|lia|lia].
  - eexists l', _. split_and!; [done|done|done|cbn; by rewrite Hact|cbn; lia|done].
Qed.

Lemma serve_within m n s s' : within_limits m n s -> serve s s' -> within_limits m n s'.
Proof.
  intros [Hs Hl Ho] Hstep. destruct Hstep as [id now r a run ans d a' He Hr Ha|id counted a run1 run2 ans].
  - pose proof (enter_cases m n now r a d a' _ Hs Hl He) as (l & c & -> & Hlb & Hlim & Hact & Hle & _). cbn in Ho.
    assert (Hnew : NoDup (id :: (run.*1 ++ ans))) by (constructor; [by intros [?|?]%elem_of_app|done]).
    destruct d as [x| |counted]; cbn [takes_place] in Hact.
    1-2: split; cbn; [by exists l, c|done|by rewrite <-(Permutation_middle run.*1 ans id)].
    destruct counted; (split; unfold counted_running in *; cbn in *; [exists l, c; split_and!; [done..|lia]|lia|done]).
  - cbn in Ho. destruct Hs as (l & c & [= ->] & Hlb & Hlim & Hact). unfold counted_running in *. cbn in *.
    assert (Hperm : (run1 ++ (id, counted) :: run2).*1 ++ ans ≡ₚ (run1 ++ run2).*1 ++ id :: ans).
    { rewrite !fmap_app, fmap_cons. cbn. rewrite <-!Permutation_middle. cbn. by rewrite <-?app_assoc. }
    pose proof (places_nonneg run1). pose proof (places_nonneg run2). rewrite places_app in Hact, Hl. cbn in Hact, Hl.
    destruct counted; cbn in *; (split; cbn; [|unfold counted_running; cbn; rewrite places_app; lia|by rewrite <-Hperm]).
    + exists l, (release c). unfold release, counted_running. cbn. rewrite places_app.
      destruct (0 <? active c) eqn:E; cbn; split_and!; try done; lia.
    + exists l, c. unfold counted_running. cbn. rewrite places_app. split_and!; try done; lia.
Qed.

(** ** Rates *)

Section Rates.
Context (val : F -> Q) `{!ExactFloats F val}.
#[local] Open Scope Q_scope.

Lemma f_min_val a b : val (f_min a b) <= val a /\ val (f_min a b) <= val b.
Proof.
  unfold f_min. destruct (f_lt b a) eqn:E; [apply f_lt_val in E; lra|].
  assert (~ val b < val a) as Hn by (intros Hlt; apply f_lt_val in Hlt; congruence). lra.
Qed.

(** The tokens a request spends. *)
Definition spent (refused : option F) : Q := match refused with None => 1 | Some _ => 0 end.

Lemma consume_exact now b refused b' :
  consume now b = (refused, b') -> 0 <= val (tokens b) <= val (capacity b) -> 0 <= val (rate_per_second b) ->
  val (updated_at b) <= val now ->
  rate_per_second b' = rate_per_second b /\ capacity b' = capacity b /\ val (updated_at b') == val now /\ 0 <= val (tokens b')
  /\ val (tokens b') + spent refused <= val (capacity b)
  /\ val (tokens b') + spent refused <= val (tokens b) + val (rate_per_second b) * (val now - val (updated_at b)).
Proof.
  intros Hc Ht Hrate Hu.
  assert (Hr : rate_per_second (refill now b) = rate_per_second b /\ capacity (refill now b) = capacity b
    /\ val (updated_at (refill now b)) == val now /\ 0 <= val (tokens (refill now b)) <= val (capacity b)
    /\ val (tokens (refill now b)) <= val (tokens b) + val (rate_per_second b) * (val now - val (updated_at b))).
  { unfold refill. destruct (f_lt (updated_at b) now) eqn:E; cbn.
    - destruct (f_min_val (capacity b) (f_add (tokens b) (f_mul (f_sub now (updated_at b)) (rate_per_second b)))) as [H1 H2].
      assert (H0 : 0 <= val (f_min (capacity b) (f_add (tokens b) (f_mul (f_sub now (updated_at b)) (rate_per_second b))))).
      { unfold f_min. apply f_lt_val in E. case_match; [rewrite val_add, val_mul, val_sub; nra|lra]. }
      rewrite val_add, val_mul, val_sub in H2. split_and!; [done..|lra|done|done|lra].
    - assert (val (updated_at b) == val now) as Heq.
      { assert (~ val (updated_at b) < val now) as Hn by (intros Hlt; apply f_lt_val in Hlt; congruence). lra. }
      split_and!; [done|done|done|lra|lra|]. rewrite Heq. lra. }
  destruct Hr as (Hr1 & Hr2 & Hr3 & Hr4 & Hr5). unfold consume in Hc.
  destruct (f_le (f_of_Z 1) (tokens (refill now b))) eqn:E; injection Hc as <- <-; cbn.
  - apply f_le_val in E. rewrite val_of_Z in E. split_and!; [done..| | |]; rewrite val_sub, val_of_Z; unfold inject_Z in *; lra.
  - split_and!; [done..|lra|lra|lra].
Qed.

(** Waiting for the time the answer names is enough. *)
Lemma retry_after_suffices now b wait b' later :
  consume now b = (Some wait, b') -> 0 <= val (tokens b) <= val (capacity b) -> val (updated_at b) <= val now ->
  0 < val (rate_per_second b) -> 1 <= val (capacity b) -> val now + val wait <= val later ->
  (consume later b').1 = None.
Proof.
  intros Hc Ht Hu Hrate Hcap Hlater. pose proof (consume_exact now b _ _ Hc Ht (Qlt_le_weak _ _ Hrate) Hu) as (Hr & Hcp & Hup & _).
  unfold consume in Hc. destruct (f_le (f_of_Z 1) (tokens (refill now b))) eqn:E; [done|].
  injection Hc as <- Hb'. rewrite Hb' in *.
  assert (Hshort : val (tokens b') < 1).
  { apply Qnot_le_lt. intros Hle. rewrite (proj2 (f_le_val _ _)) in E; [done|]. rewrite val_of_Z. apply Hle. }
  pose proof (val_div (f_sub (f_of_Z 1) (tokens b')) (rate_per_second b')) as Hd. rewrite Hr in Hd. specialize (Hd Hrate).
  rewrite Hr in Hlater. set (w := val (f_div (f_sub (f_of_Z 1) (tokens b')) (rate_per_second b))) in *.
  rewrite val_sub, val_of_Z in Hd. change (inject_Z 1) with 1 in Hd.
  assert (Hw : 0 < w) by (apply Qnot_le_lt; intros Hle; assert (w * val (rate_per_second b) <= 0) by nra; lra).
  assert (Hfull : f_le (f_of_Z 1) (tokens (refill later b')) = true).
  { apply f_le_val. rewrite val_of_Z. change (inject_Z 1) with 1. unfold refill.
    rewrite (proj2 (f_lt_val (updated_at b') later)) by lra. cbn. unfold f_min. case_match.
    - rewrite val_add, val_mul, val_sub, Hr. assert (w * val (rate_per_second b) <= (val later - val (updated_at b')) * val (rate_per_second b)) by nra. lra.
    - rewrite Hcp. lra. }
  unfold consume. by rewrite Hfull.
Qed.

(** The requests under a key that a sequence of checks admits, and the limiter after them. *)
Definition counts_for (k : bkey) (r : request) (refused : option limited) : Q :=
  if decide (bucket_key r = Some k) then spent (retry_after <$> refused) else 0.
Fixpoint admitted (k : bkey) (reqs : list (F * request)) (l : DashboardRateLimiter) : Q :=
  match reqs with
  | [] => 0
  | (now, r) :: reqs => let '(refused, l) := check now r l in counts_for k r refused + admitted k reqs l
  end.
Definition checks (reqs : list (F * request)) (l : DashboardRateLimiter) : DashboardRateLimiter :=
  foldl (λ l x, (check x.1 x.2 l).2) l reqs.

(** The clock does not go back, and lies between two times. *)
Fixpoint clocked (now : Q) (reqs : list (F * request)) : Prop :=
  match reqs with [] => True | (t, _) :: reqs => now <= val t /\ clocked (val t) reqs end.

Definition request_keys (reqs : list (F * request)) : list bkey := omap (λ x, bucket_key x.2) reqs.

(** What holds between two checks of a run in which no bucket had to be dropped. *)
Record sound_limiter (l0 : DashboardRateLimiter) (seen : list bkey) (now : Q) (l : DashboardRateLimiter) : Prop := {
  sl_settings : l = with_buckets (_buckets l) l0;
  sl_nodup : NoDup (_buckets l).*1;
  sl_seen : (_buckets l).*1 ⊆ seen;
  sl_buckets k b : bucket_get k (_buckets l) = Some b ->
    rate_per_second b = (_policy l0 k.2).1 /\ capacity b = f_of_Z (_policy l0 k.2).2
    /\ 0 <= val (tokens b) <= val (capacity b) /\ val (updated_at b) <= now }.

(** What [n] admitted requests since [t0] leave in the bucket of [k]. *)
Definition quota (l : DashboardRateLimiter) (k : bkey) (t0 n : Q) : Prop :=
  match bucket_get k (_buckets l) with
  | None => n == 0
  | Some b => n == 0 \/ n + val (tokens b) <= val (capacity b) + val (rate_per_second b) * (val (updated_at b) - t0)
  end.

(** A check that drops no bucket. *)
Lemma check_without_prune now r l k :
  bucket_key r = Some k -> (is_Some (bucket_get k (_buckets l)) \/ (bucket_count l < _max_keys l)%Z) ->
  exists b refused b', default (_new_bucket l k.2 now) (bucket_get k (_buckets l)) = b /\ consume now b = (refused, b')
    /\ retry_after <$> (check now r l).1 = refused /\ (check now r l).2 = with_buckets (bucket_set k b' (_buckets l)) l.
Proof.
  unfold bucket_key, check. intros Hk Hroom. destruct (_route_group (rq_path r)) as [g|] eqn:Eg; [|done]. injection Hk as <-. cbn [snd].
  destruct (bucket_get _ (_buckets l)) as [b|] eqn:Eb.
  - destruct (consume now b) as [refused b'] eqn:Ec. exists b, refused, b'. by destruct refused.
  - destruct Hroom as [[? ?]|Hroom]; [done|]. replace (_max_keys l <=? bucket_count l)%Z with false by lia. cbn.
    destruct (consume now (_new_bucket l g now)) as [refused b'] eqn:Ec. exists (_new_bucket l g now), refused, b'. by destruct refused.
Qed.

Lemma check_other now r l : bucket_key r = None -> check now r l = (None, l).
Proof. unfold bucket_key, check. by destruct (_route_group (rq_path r)). Qed.

(** There is room for a new bucket as long as few keys were seen. *)
Lemma room_left l0 seen now l k :
  sound_limiter l0 seen now l -> k ∈ seen -> (Z.of_nat (length (remove_dups seen)) <= _max_keys l0)%Z ->
  bucket_get k (_buckets l) = None -> (bucket_count l < _max_keys l)%Z.
Proof.
  intros [Hset Hnd Hseen _] Hk Hroom Hn. rewrite Hset. cbn. unfold bucket_count. cbn.
  assert (Hle : (length (k :: (_buckets l).*1) <= length (remove_dups seen))%nat).
  { apply NoDup_incl_length.
    - apply NoDup_ListNoDup. constructor; [by apply bucket_get_None|done].
    - intros x Hx%list_elem_of_In. apply list_elem_of_In. apply elem_of_remove_dups. apply elem_of_cons in Hx as [->|Hx]; [done|by apply Hseen]. }
  cbn in Hle. rewrite length_fmap in Hle. lia.
Qed.

(** Rates and bursts are not negative. *)
Definition usable (l : DashboardRateLimiter) : Prop := forall g, 0 <= val (_policy l g).1 /\ (0 <= (_policy l g).2)%Z.

Lemma check_sound l0 seen now t r l k t0 n :
  sound_limiter l0 seen now l -> now <= val t -> t0 <= val t -> usable l0 ->
  (forall k', bucket_key r = Some k' -> k' ∈ seen) -> (Z.of_nat (length (remove_dups seen)) <= _max_keys l0)%Z -> quota l k t0 n ->
  sound_limiter l0 seen (val t) (check t r l).2 /\ quota (check t r l).2 k t0 (n + counts_for k r (check t r l).1).
Proof.
  intros Hs Ht Ht0 Hrate Hseen Hroom Hq. unfold counts_for. destruct (bucket_key r) as [kr|] eqn:Ek.
  2: { rewrite check_other by done. rewrite decide_False by done. cbn. split.
       - destruct Hs as [? ? ? Hb]. split; try done. intros k' b Hg. destruct (Hb k' b Hg) as (? & ? & ? & ?). split_and!; try done; lra.
       - unfold quota in *. case_match; lra. }
  assert (Hfree : is_Some (bucket_get kr (_buckets l)) \/ (bucket_count l < _max_keys l)%Z).
  { destruct (bucket_get kr (_buckets l)) eqn:E; [left; by eexists|right; eapply room_left; eauto]. }
  destruct (check_without_prune t r l kr Ek Hfree) as (b & refused & b' & Hb & Hc & Href & Hl). rewrite Href, Hl. clear Href Hl.
  assert (Hbok : rate_per_second b = (_policy l0 kr.2).1 /\ capacity b = f_of_Z (_policy l0 kr.2).2
                 /\ 0 <= val (tokens b) <= val (capacity b) /\ val (updated_at b) <= val t).
  { subst b. destruct (bucket_get kr (_buckets l)) as [b|] eqn:E; cbn.
    - destruct (sl_buckets _ _ _ _ Hs kr b E) as (? & ? & ? & ?). split_and!; try done; lra.
    - rewrite (sl_settings _ _ _ _ Hs). destruct (Hrate kr.2) as [_ Hburst]. unfold _new_bucket. change (_policy (with_buckets _ l0) kr.2) with (_policy l0 kr.2).
      destruct (_policy l0 kr.2) as [rate burst]. cbn in *. assert (0 <= val (f_of_Z burst)) by (rewrite val_of_Z; change 0 with (inject_Z 0); by rewrite <-Zle_Qle).
      split_and!; try done; lra. }
  destruct Hbok as (Hb1 & Hb2 & Hb3 & Hb4). pose proof (proj1 (Hrate kr.2)) as Hrk. rewrite <-Hb1 in Hrk.
  pose proof (consume_exact t b refused b' Hc Hb3 Hrk Hb4) as (Hr & Hcap & Hup & Hpos & Hc1 & Hc2).
  assert (Hspent : 0 <= spent refused) by (destruct refused; cbn; lra). split.
  - destruct Hs as [Hset Hnd Hsn Hbs]. split.
    + cbn. by rewrite Hset.
    + cbn. rewrite bucket_set_keys. case_decide as Hin; [done|]. apply NoDup_app. split_and!; [done| |apply NoDup_singleton].
      by intros x Hx ->%list_elem_of_singleton.
    + cbn. rewrite bucket_set_keys. case_decide as Hin; [done|]. apply list_subseteq_app_iff_l. split; [done|].
      intros x ->%list_elem_of_singleton. by apply Hseen.
    + cbn. intros k' b0. rewrite bucket_get_set. case_decide as E.
      * intros [= <-]. subst k'. rewrite Hr, Hcap. split_and!; try done; lra.
      * intros Hg. destruct (Hbs k' b0 Hg) as (? & ? & ? & ?). split_and!; try done; lra.
  - unfold quota in *. cbn. rewrite bucket_get_set. destruct (decide (k = kr)) as [->|Hne].
    + rewrite decide_True by done. right. rewrite Hr, Hcap, Hup.
      rewrite Hb1 in *. destruct (bucket_get kr (_buckets l)) as [b0|] eqn:E; cbn in Hb; subst b.
      * destruct Hq as [Hn|Hq]; [nra|]. rewrite Hb1 in Hq. nra.
      * nra.
    + rewrite decide_False by congruence. case_match; [destruct Hq as [?|?]; [left; lra|right; lra]|lra].
Qed.

Lemma quota_none l k t0 : quota l k t0 0.
Proof. unfold quota. case_match; [by left|done]. Qed.

Lemma checks_sound l0 seen now reqs l :
  sound_limiter l0 seen now l -> usable l0 -> clocked now reqs -> request_keys reqs ⊆ seen ->
  (Z.of_nat (length (remove_dups seen)) <= _max_keys l0)%Z -> exists now', sound_limiter l0 seen now' (checks reqs l) /\ forall rest, clocked now (reqs ++ rest) -> clocked now' rest.
Proof.
  intros Hs Hu Hc Hk Hroom. revert now l Hs Hc. induction reqs as [|[t r] reqs IH]; intros now l Hs Hc; [by exists now|].
  destruct Hc as [Ht Hc]. assert (Hr : forall k', bucket_key r = Some k' -> k' ∈ seen).
  { intros k' Hk'. apply Hk. unfold request_keys. cbn. rewrite Hk'. left. }
  destruct (check_sound l0 seen now t r l ("", "") (val t) 0 Hs Ht (Qle_refl _) Hu Hr Hroom (quota_none _ _ _)) as [Hs' _].
  destruct (IH (λ x Hx, Hk x ltac:(unfold request_keys in *; cbn; case_match; [by right|done])) (val t) _ Hs' Hc) as (now' & Hs'' & Hrest).
  exists now'. split; [done|]. intros rest [_ Hcr]. by apply Hrest.
Qed.

Lemma admitted_bound l0 seen now reqs l k t0 t1 n :
  sound_limiter l0 seen now l -> usable l0 -> clocked now reqs -> request_keys reqs ⊆ seen ->
  (Z.of_nat (length (remove_dups seen)) <= _max_keys l0)%Z -> Forall (λ x, t0 <= val x.1 <= t1) reqs -> quota l k t0 n -> t0 <= t1 ->
  (reqs = [] -> now <= t1 \/ n == 0) ->
  n + admitted k reqs l <= inject_Z (_policy l0 k.2).2 + val (_policy l0 k.2).1 * (t1 - t0).
Proof.
  intros Hs Hu Hc Hk Hroom Hw Hq Ht01. pose proof (Hu k.2) as [Hrate Hburst].
  assert (Hb0 : 0 <= inject_Z (_policy l0 k.2).2) by (change 0 with (inject_Z 0); by rewrite <-Zle_Qle).
  revert now l n Hs Hc Hq. induction reqs as [|[t r] reqs IH]; intros now l n Hs Hc Hq Hlast.
  - cbn. unfold quota in Hq. destruct (bucket_get k (_buckets l)) as [b|] eqn:E; [|nra].
    destruct (Hlast eq_refl) as [Hnow|Hn]; [|nra]. destruct Hq as [Hn|Hq]; [nra|].
    destruct (sl_buckets _ _ _ _ Hs k b E) as (Hb1 & Hb2 & Hb3 & Hb4). rewrite Hb1, Hb2, val_of_Z in Hq. nra.
  - destruct Hc as [Ht Hc]. apply Forall_cons in Hw as [Hwt Hw]. cbn in Hwt. assert (Hr : forall k', bucket_key r = Some k' -> k' ∈ seen).
    { intros k' Hk'. apply Hk. unfold request_keys. cbn. rewrite Hk'. left. }
    destruct (check_sound l0 seen now t r l k t0 n Hs Ht (proj1 Hwt) Hu Hr Hroom Hq) as [Hs' Hq'].
    cbn [admitted]. destruct (check t r l) as [refused l']. cbn in Hs', Hq'.
    specialize (IH (λ x Hx, Hk x ltac:(unfold request_keys in *; cbn; case_match; [by right|done])) Hw (val t) l' _ Hs' Hc Hq' (λ _, or_introl (proj2 Hwt))). lra.
Qed.

Lemma new_limiter_usable r1 b1 r2 b2 m : usable (new_rate_limiter r1 b1 r2 b2 m).
Proof.
  intros g. assert (Hpos : forall x, 0 <= val (_normalized_positive_float x)).
  { intros x. unfold _normalized_positive_float, f_max. destruct (f_lt x _) eqn:E; [rewrite val_literal; done|].
    apply Qnot_lt_le. intros Hlt. assert (f_lt x (f_literal (1 # 1000)) = true) as Hb; [|congruence].
    apply f_lt_val. rewrite val_literal. apply (Qlt_trans _ 0); [done|reflexivity]. }
  unfold _policy, new_rate_limiter, _normalized_positive_int. cbn. case_match; cbn; (split; [apply Hpos|lia]).
Qed.

(** Claim C38. With exact floats and a clock that does not go back, and as long as no more
    than [max_keys] clients and groups of routes have been seen, the requests of one client and
    group admitted in any time window are at most the burst plus the rate times the length of
    the window, whatever was admitted before it. *)
Theorem rate_limit_enforced (rest_rate : F) (rest_burst : Z) (expensive_rate : F) (expensive_burst max_keys : Z)
    (before window : list (F * request)) (k : bkey) (start t0 t1 : Q) :
  let l := new_rate_limiter rest_rate rest_burst expensive_rate expensive_burst max_keys in
  clocked start (before ++ window) -> Forall (λ x, t0 <= val x.1 <= t1) window -> t0 <= t1 ->
  (Z.of_nat (length (remove_dups (request_keys (before ++ window)))) <= Z.max max_keys 1)%Z ->
  admitted k window (checks before l) <= inject_Z (_policy l k.2).2 + val (_policy l k.2).1 * (t1 - t0).
Proof.
  intros l Hc Hw Ht Hroom. assert (Hk : forall x, x ∈ request_keys before \/ x ∈ request_keys window -> x ∈ request_keys (before ++ window)).
  { intros x Hx. unfold request_keys. rewrite omap_app. by apply elem_of_app. }
  assert (Hs : sound_limiter l (request_keys (before ++ window)) start l) by (split; [done|constructor|apply list_subseteq_nil|done]).
  assert (Hcb : clocked start before).
  { clear -Hc. revert start Hc. induction before as [|[t r] b IH]; intros start Hc; [done|]. destruct Hc as [? Hc]. split; [done|by apply IH]. }
  destruct (checks_sound l _ start before l Hs (new_limiter_usable _ _ _ _ _) Hcb (λ x Hx, Hk x (or_introl Hx)) Hroom) as (now' & Hs' & Hrest).
  pose proof (admitted_bound l _ now' window _ k t0 t1 0 Hs' (new_limiter_usable _ _ _ _ _) (Hrest _ Hc) (λ x Hx, Hk x (or_intror Hx)) Hroom Hw (quota_none _ _ _) Ht
    (λ _, or_intror (Qeq_refl 0))) as Hbound. lra.
Qed.

End Rates.

(** Whatever requests enter and leave in whatever order, the places taken in the
    concurrency limiter are those of the requests in progress and never exceed the limit, the
    limiter never keeps more buckets than it may, every request is in progress or answered, once,
    and a request is turned away as busy only when every place is taken. *)
Theorem served_within_limits (rest_rate : F) (rest_burst : Z) (expensive_rate : F) (expensive_burst max_keys max_rest_concurrency : Z) (s : server) :
  rtc serve (Server (create_dashboard rest_rate rest_burst expensive_rate expensive_burst max_keys max_rest_concurrency) [] []) s ->
  within_limits (Z.max max_keys 1) (Z.max max_rest_concurrency 1) s
  /\ (forall now r a', enter now r (sv_app s) = (Busy, a') -> counted_running s = Z.max max_rest_concurrency 1).
Proof.
  intros Hr. assert (Hw : within_limits (Z.max max_keys 1) (Z.max max_rest_concurrency 1) s).
  { assert (H0 : within_limits (Z.max max_keys 1) (Z.max max_rest_concurrency 1)
                   (Server (create_dashboard rest_rate rest_burst expensive_rate expensive_burst max_keys max_rest_concurrency) [] [])).
    { split; cbn; [do 2 eexists; split_and!; [done| |done|done]|unfold counted_running; cbn; lia|constructor].
      split_and!; [done|apply Z.le_max_r|unfold bucket_count; cbn -[Z.max]; lia]. }
    revert H0. induction Hr as [|x y z Hxy _ IH]; intros H0; [done|]. apply IH. by apply (serve_within _ _ x). }
  split; [done|]. intros now r a' He. destruct Hw as [Hs Hl _].
  by destruct (enter_cases _ _ now r _ _ _ _ Hs Hl He) as (? & ? & _ & _ & _ & _ & _ & Hbusy); apply Hbusy.
Qed.
End Limits.

(** ** Examples *)

#[local] Instance rational_ops : FloatOps Q := {|
  f_of_Z := inject_Z; f_literal q := q; f_add := Qplus; f_sub := Qminus; f_mul := Qmult; f_div := Qdiv;
  f_lt a b := negb (Qle_bool b a); f_le := Qle_bool; f_trunc q := Z.quot (Qnum q) (Z.pos (Qden q)) |}.

#[local] Instance rational_exact : ExactFloats Q (λ q, q).
Proof.
  split; try done.
  - intros a b Hb. cbn. field. lra.
  - intros a b. cbn. rewrite negb_true_iff. split; [intros Hf; apply Qnot_le_lt; intros Hle; apply Qle_bool_iff in Hle; congruence|].
    intros Hlt. destruct (Qle_bool b a) eqn:E; [|done]. apply Qle_bool_iff in E. lra.
  - intros a b. cbn. apply Qle_bool_iff.
Qed.

Definition from_client (host path : string) : request := Request path (Some host) None.
(** Two requests at once, the third half a second later, at one request per second and a burst of two. *)
Definition sample_window : list (Q * request) :=
  [(1%Q, from_client "a" "/api/status"); (1%Q, from_client "a" "/api/status"); ((3 # 2)%Q, from_client "a" "/api/status")].

Lemma rate_limit_enforced_witness :
  let l := new_rate_limiter 1%Q 2 1%Q 2 10 in
  let k := ("a", "api") in
  let before := [(0%Q, from_client "b" "/api/tx/00")] in
  clocked (λ q, q) 0%Q (before ++ sample_window) /\ (admitted k sample_window (checks before l) == 2)%Q
  /\ (admitted k sample_window (checks before l) <= inject_Z (_policy l k.2).2 + (_policy l k.2).1 * ((3 # 2) - 1))%Q.
Proof.
  cbv zeta. split; [by cbn; split_and!; vm_compute|]. split; [reflexivity|].
  apply (rate_limit_enforced (λ q, q) 1%Q 2 1%Q 2 10 [(0%Q, from_client "b" "/api/tx/00")] sample_window ("a", "api") 0%Q 1%Q (3 # 2)%Q).
  - cbn. split_and!; by vm_compute.
  - repeat (constructor; [split; by vm_compute|]). constructor.
  - by vm_compute.
  - by vm_compute.
Defined.

(** With more clients than buckets the oldest bucket is dropped and its client starts afresh:
    three of its requests are admitted at once although the burst is two. *)
Example dropped_bucket_refills :
  let l := new_rate_limiter 1%Q 2 1%Q 2 1 in
  let a := from_client "a" "/api/status" in
  (admitted ("a", "api") [(0%Q, a); (0%Q, a); (0%Q, a)] l == 2)%Q
  /\ (admitted ("a", "api") [(0%Q, a); (0%Q, a); (0%Q, from_client "b" "/api/status"); (0%Q, a)] l == 3)%Q.
Proof. by vm_compute. Qed.

Definition served_app : dashboard := create_dashboard 1%Q 2 1%Q 2 10 1.
Definition served_once : dashboard := (enter 0%Q (from_client "a" "/api/status") served_app).2.
Definition served_twice : dashboard := (enter 1%Q (from_client "b" "/api/status") served_once).2.
Definition busy_server : server := Server served_twice [(0%nat, true)] [1%nat].

Lemma served_within_limits_witness :
  counted_running busy_server = 1 /\ within_limits 10 1 busy_server.
Proof.
  split; [reflexivity|]. apply (served_within_limits 1%Q 2 1%Q 2 10 1 busy_server).
  apply rtc_l with (Server served_once [(0%nat, true)] []).
  - refine (serve_enter 0 0%Q (from_client "a" "/api/status") served_app [] [] (Handle true) served_once _ _ _); [by vm_compute|apply not_elem_of_nil|apply not_elem_of_nil].
  - apply rtc_once.
    refine (serve_enter 1 1%Q (from_client "b" "/api/status") served_once [(0%nat, true)] [] Busy served_twice _ _ _); [by vm_compute| |apply not_elem_of_nil].
    apply (bool_decide_unpack _). by vm_compute.
Defined.
