(* ===== verification/DashboardEvents.v ===== *)
(** * What the dashboard tells its clients

    The subscriptions of dashboard/app.py and the routing of CometBFT's messages:
    [SubscriptionManager], [_handle_tx_event] and [_handle_new_block].  The standard
    library's [fnmatch] and the lenient [base64.b64decode] the routing calls are
    modelled too.  A WebSocket is its name, a message that is queued is the object
    that is printed as JSON, and Python's equality on JSON values other than strings
    is an argument. *)
From stdpp Require Import base list strings.
From S2P Require Import Prelude PyValue PyBuiltins Driver Json Encoding Processor Genesis FinalizeBlock.
#[local] Open Scope Z_scope.

(** ** [base64.b64decode] *)

Definition b64_value (c : Z) : option Z :=
  if (65 <=? c) && (c <=? 90) then Some (c - 65)
  else if (97 <=? c) && (c <=? 122) then Some (c - 71)
  else if (48 <=? c) && (c <=? 57) then Some (c + 4)
  else if c =? 43 then Some 62
  else if c =? 47 then Some 63
  else None.

(** Characters outside the alphabet are skipped; enough padding ends the input. *)
Fixpoint a2b_base64 (quad left pads : Z) (s : bytes) : result bytes :=
  match s with
  | [] => if quad =? 0 then Ok [] else raise ValueError "Incorrect padding"
  | c :: s =>
    if c =? 61 then
      if 2 <=? quad then (if 4 <=? quad + (pads + 1) then Ok [] else a2b_base64 quad left (pads + 1) s)
      else a2b_base64 quad left pads s
    else match b64_value c with
         | None => a2b_base64 quad left pads s
         | Some v =>
           if quad =? 0 then a2b_base64 1 v 0 s
           else if quad =? 1 then cons (Z.lor (Z.shiftl left 2) (Z.shiftr v 4)) <$> a2b_base64 2 (Z.land v 15) 0 s
           else if quad =? 2 then cons (Z.lor (Z.shiftl left 4) (Z.shiftr v 2)) <$> a2b_base64 3 (Z.land v 3) 0 s
           else cons (Z.lor (Z.shiftl left 6) v) <$> a2b_base64 0 0 0 s
         end
  end.

Definition b64decode (s : string) : result bytes :=
  _ ← check_py (forallb (λ b, b <? 128) (encode_utf8 s)) ValueError "string argument should contain only ASCII characters";
  a2b_base64 0 0 0 (encode_utf8 s).

Definition _decode_b64 (val : string) : result string := b ← b64decode val; decode_utf8 b.

(** [try: x = base64.b64decode(x).decode() except Exception: pass] *)
Definition decode_attr (s : string) : string := ok_or s (_decode_b64 s).

(** ** [fnmatch.fnmatch] *)

Inductive glob := GStar | GAny | GChar (c : Z) | GSet (negated : bool) (ranges : list (Z * Z)).

(** The text up to the closing bracket, and the rest; a bracket right after the opening one, or
    after its exclamation mark, does not close it. *)
Fixpoint until_bracket (l : list Z) : option (list Z * list Z) :=
  match l with
  | [] => None
  | c :: l => if c =? 93 then Some ([], l) else '(a, b) ← until_bracket l; Some (c :: a, b)
  end.
Definition bracket (l : list Z) : option (list Z * list Z) :=
  let '(p1, l) := match l with 33 :: l => ([33], l) | _ => ([], l) end in
  let '(p2, l) := match l with 93 :: l => ([93], l) | _ => ([], l) end in
  '(a, b) ← until_bracket l; Some (p1 ++ p2 ++ a, b).

(** [pat.find('-', k, j)] from the start of a chunk *)
Fixpoint find_hyphen (k : nat) (s : list Z) : option nat :=
  match s, k with
  | [], _ => None
  | _ :: s, S k => S <$> find_hyphen k s
  | c :: s, O => if c =? 45 then Some O else S <$> find_hyphen O s
  end.
Fixpoint chunks (fuel k : nat) (s : list Z) : list (list Z) :=
  match fuel, find_hyphen k s with
  | S fuel, Some p => take p s :: chunks fuel 2 (drop (S p) s)
  | _, _ => [s]
  end.
(** A hyphen at the end is a literal one. *)
Fixpoint close_chunks (cs : list (list Z)) : list (list Z) :=
  match cs with
  | [c; []] => [c ++ [45]]
  | c :: cs => c :: close_chunks cs
  | [] => []
  end.
(** Empty ranges are removed. *)
Fixpoint drop_empty (cs : list (list Z)) : list (list Z) :=
  match cs with
  | [] => []
  | c :: cs =>
    match drop_empty cs with
    | d :: ds => if default 0 (head d) <? default 0 (last c) then (take (length c - 1) c ++ tail d) :: ds else c :: d :: ds
    | [] => [c]
    end
  end.
Fixpoint ranges_of (cs : list (list Z)) : list (Z * Z) :=
  match cs with
  | [] => []
  | c :: cs => ((λ x, (x, x)) <$> c)
               ++ match cs with d :: _ => [(default 0 (last c), default 0 (head d))] | [] => [] end ++ ranges_of cs
  end.
Definition set_of (stuff : list Z) : glob :=
  let k := match stuff with 33 :: _ => 2%nat | _ => 1%nat end in
  match drop_empty (close_chunks (chunks (length stuff) k stuff)) with
  | (33 :: c) :: cs => GSet true (ranges_of (c :: cs))
  | cs => GSet false (ranges_of cs)
  end.

Fixpoint translate (fuel : nat) (pat : list Z) : list glob :=
  match fuel, pat with
  | S fuel, c :: pat =>
    if c =? 42 then GStar :: translate fuel pat
    else if c =? 63 then GAny :: translate fuel pat
    else if c =? 91 then match bracket pat with
                         | Some (stuff, rest) => set_of stuff :: translate fuel rest
                         | None => GChar 91 :: translate fuel pat
                         end
    else GChar c :: translate fuel pat
  | _, _ => []
  end.

Definition in_ranges (x : Z) (rs : list (Z * Z)) : bool := existsb (λ r, (r.1 <=? x) && (x <=? r.2)) rs.

Fixpoint glob_match (g : list glob) (s : list Z) : bool :=
  match g with
  | [] => match s with [] => true | _ => false end
  | GStar :: g => (fix star (s : list Z) : bool := glob_match g s || match s with [] => false | _ :: s => star s end) s
  | GAny :: g => match s with [] => false | _ :: s => glob_match g s end
  | GChar c :: g => match s with [] => false | x :: s => (x =? c) && glob_match g s end
  | GSet neg rs :: g => match s with [] => false | x :: s => xorb neg (in_ranges x rs) && glob_match g s end
  end.

Definition pattern_matches (name pat : string) : bool :=
  glob_match (translate (length (code_points pat)) (code_points pat)) (code_points name).

(** [os.path.normcase] raises for a pattern that is no string. *)
Definition fnmatch (name : string) (pat : value) : result bool :=
  match pat with VStr p => Ok (pattern_matches name p) | _ => raise TypeError "expected str, bytes or os.PathLike object" end.

(** ** Subscriptions *)

(** An entry of the event list: contract and event. *)
#[local] Notation entry := (value * value)%type.

Record SubscriptionManager := Subscriptions {
  _state_subs : list (string * list value); _event_subs : list (string * list entry);
  _max_state_subscriptions_per_client : Z; _max_event_subscriptions_per_client : Z }.

Definition with_state_subs (d : list (string * list value)) (m : SubscriptionManager) : SubscriptionManager :=
  Subscriptions d (_event_subs m) (_max_state_subscriptions_per_client m) (_max_event_subscriptions_per_client m).
Definition with_event_subs (d : list (string * list entry)) (m : SubscriptionManager) : SubscriptionManager :=
  Subscriptions (_state_subs m) d (_max_state_subscriptions_per_client m) (_max_event_subscriptions_per_client m).

Definition new_subscriptions (max_state max_event : Z) : SubscriptionManager := Subscriptions [] [] (Z.max max_state 1) (Z.max max_event 1).

Definition add_client (ws : string) (m : SubscriptionManager) : SubscriptionManager :=
  with_event_subs (dict_set ws [] (_event_subs m)) (with_state_subs (dict_set ws [] (_state_subs m)) m).
Definition remove_client (ws : string) (m : SubscriptionManager) : SubscriptionManager :=
  with_event_subs (dict_pop ws (_event_subs m)) (with_state_subs (dict_pop ws (_state_subs m)) m).

(** Lists and dicts cannot be members of a set. *)
Definition hashable (v : value) : bool := match v with VList _ | VDict _ => false | _ => true end.

Section Subscribe.
Context (py_eq : value -> value -> bool) (py_str : value -> string) (sorted_values : list value -> result (list value)).

Definition set_mem (x : value) (s : list value) : bool := existsb (py_eq x) s.
Definition entry_eq (a b : entry) : bool := py_eq a.1 b.1 && py_eq a.2 b.2.
Definition entry_mem (x : entry) (l : list entry) : bool := existsb (entry_eq x) l.
(** [subs.remove(entry)]: the first equal one *)
Fixpoint entry_remove (x : entry) (l : list entry) : list entry :=
  match l with [] => [] | y :: l => if entry_eq x y then l else y :: entry_remove x l end.

Definition error_response (m : string) : value := VDict [("status", VStr "error"); ("message", VStr m)].
Definition unknown (what : string) (v : value) : value := error_response ("unknown " +:+ what +:+ ": " +:+ str_of_value py_str v).
Definition state_response (action : string) (key : value) : value :=
  VDict [("status", VStr "ok"); ("action", VStr action); ("type", VStr "state"); ("key", key)].
Definition event_response (action : string) (e : entry) : value :=
  VDict [("status", VStr "ok"); ("action", VStr action); ("type", VStr "event"); ("contract", e.1); ("event", e.2)].
Definition entry_of (data : list (string * value)) : entry := (py_get "contract" data (VStr "*"), py_get "event" data VNone).

Definition _subscribe (ws : string) (data : list (string * value)) : stM SubscriptionManager value := λ m,
  let sub_type := py_get "type" data VNone in
  if bool_decide (sub_type = VStr "state") then
    let key := py_get "key" data (VStr "") in
    if negb (truthy key) then (Ok (error_response "missing key"), m)
    else
      let subs := default [] (dict_get ws (_state_subs m)) in
      let m := with_state_subs (dict_set ws subs (_state_subs m)) m in
      if negb (hashable key) then (raise TypeError "unhashable type", m)
      else if negb (set_mem key subs) && (_max_state_subscriptions_per_client m <=? Z.of_nat (length subs)) then
        (Ok (error_response "state subscription limit reached"), m)
      else (Ok (state_response "subscribe" key),
            with_state_subs (dict_set ws (if set_mem key subs then subs else subs ++ [key]) (_state_subs m)) m)
  else if bool_decide (sub_type = VStr "event") then
    let e := entry_of data in
    let subs := default [] (dict_get ws (_event_subs m)) in
    let m := with_event_subs (dict_set ws subs (_event_subs m)) m in
    if negb (entry_mem e subs) && (_max_event_subscriptions_per_client m <=? Z.of_nat (length subs)) then
      (Ok (error_response "event subscription limit reached"), m)
    else (Ok (event_response "subscribe" e),
          with_event_subs (dict_set ws (if entry_mem e subs then subs else subs ++ [e]) (_event_subs m)) m)
  else (Ok (unknown "type" sub_type), m).

(** [d.get(ws, empty)] then a change of what it holds: nothing happens for an unknown client. *)
Definition change_subs {A} (ws : string) (f : A -> A) (d : list (string * A)) : list (string * A) :=
  match dict_get ws d with Some x => dict_set ws (f x) d | None => d end.

Definition _unsubscribe (ws : string) (data : list (string * value)) : stM SubscriptionManager value := λ m,
  let sub_type := py_get "type" data VNone in
  if bool_decide (sub_type = VStr "state") then
    let key := py_get "key" data (VStr "") in
    if negb (hashable key) then (raise TypeError "unhashable type", m)
    else (Ok (state_response "unsubscribe" key),
          with_state_subs (change_subs ws (filter (λ x, py_eq key x = false)) (_state_subs m)) m)
  else if bool_decide (sub_type = VStr "event") then
    let e := entry_of data in
    (Ok (event_response "unsubscribe" e), with_event_subs (change_subs ws (entry_remove e) (_event_subs m)) m)
  else (Ok (unknown "type" sub_type), m).

Definition handle_message (ws : string) (data : value) : stM SubscriptionManager value := λ m,
  match data with
  | VDict data =>
    let action := py_get "action" data VNone in
    if bool_decide (action = VStr "subscribe") then _subscribe ws data m
    else if bool_decide (action = VStr "unsubscribe") then _unsubscribe ws data m
    else if bool_decide (action = VStr "unsubscribe_all") then
      (Ok (VDict [("status", VStr "ok"); ("action", VStr "unsubscribe_all")]),
       with_event_subs (change_subs ws (λ _, []) (_event_subs m)) (with_state_subs (change_subs ws (λ _, []) (_state_subs m)) m))
    else if bool_decide (action = VStr "list") then
      (state ← sorted_values (default [] (dict_get ws (_state_subs m)));
       Ok (VDict [("status", VStr "ok"); ("action", VStr "list"); ("state", VList state);
                  ("events", VList ((λ e, VDict [("contract", e.1); ("event", e.2)]) <$> default [] (dict_get ws (_event_subs m))))]), m)
    else (Ok (unknown "action" action), m)
  | _ => (raise AttributeError "object has no attribute 'get'", m)
  end.
End Subscribe.

(** [for ws, subs in ...: for sub in subs: if test(sub): matched.append(ws); break] *)
Fixpoint any_match {A} (test : A -> result bool) (subs : list A) : result bool :=
  match subs with
  | [] => Ok false
  | s :: subs => b ← test s; if (b : bool) then Ok true else any_match test subs
  end.
Fixpoint matching {A} (test : A -> result bool) (d : list (string * list A)) : result (list string) :=
  match d with
  | [] => Ok []
  | (ws, subs) :: d => b ← any_match test subs; rest ← matching test d; Ok (if (b : bool) then ws :: rest else rest)
  end.

Definition match_state (key : string) (m : SubscriptionManager) : result (list string) := matching (fnmatch key) (_state_subs m).

Definition event_test (contract event : string) (sub : entry) : result bool :=
  b ← fnmatch contract sub.1;
  if (b : bool) then (match sub.2 with VNone => Ok true | pat => fnmatch event pat end) else Ok false.
Definition match_event (contract event : string) (m : SubscriptionManager) : result (list string) :=
  matching (event_test contract event) (_event_subs m).

(** ** Routing *)

(** [key.replace("__", ":").replace("_", ".")] *)
Fixpoint colons (s : list Z) : list Z :=
  match s with
  | 95 :: 95 :: s => 58 :: colons s
  | c :: s => c :: colons s
  | [] => []
  end.
Definition reverse_translation (raw_key : string) : string :=
  string_of_bytes ((λ c, if c =? 95 then 46 else c) <$> colons (encode_utf8 raw_key)).

Definition state_change_message (key val : string) : value :=
  VDict [("type", VStr "state_change"); ("key", VStr key); ("value", VStr val)].

(** One message for every matching client. *)
Definition sent_to (msg : value) (matched : list string) : list (string * value) := (λ ws, (ws, msg)) <$> matched.

Definition route_attribute (m : SubscriptionManager) (a : EventAttribute) : result (list (string * value)) :=
  let raw_key := decode_attr (at_key a) in
  let raw_value := decode_attr (at_value a) in
  let state_key := reverse_translation raw_key in
  matched ← match_state state_key m;
  Ok (sent_to (state_change_message state_key raw_value) matched).

Definition decoded_attrs (attributes : list EventAttribute) : list (string * string) :=
  foldl (λ d a, dict_set (decode_attr (at_key a)) (decode_attr (at_value a)) d) [] attributes.

Definition contract_event_message (event_name contract : string) (attrs : list (string * string)) : value :=
  VDict [("type", VStr "contract_event"); ("event", VStr event_name); ("contract", VStr contract);
         ("data", VDict ((λ kv, (kv.1, VStr kv.2)) <$> filter (λ kv, kv.1 ∉ ["contract"; "signer"; "caller"]) attrs));
         ("signer", VStr (default "" (dict_get "signer" attrs))); ("caller", VStr (default "" (dict_get "caller" attrs)))].

(** What an event's attributes, or the event, are sent out as; each is matched on its own. *)
Definition route_event (m : SubscriptionManager) (e : Event) : list (result (list (string * value))) :=
  if bool_decide (ev_type e = "StateChange") then route_attribute m <$> ev_attributes e
  else
    let attrs := decoded_attrs (ev_attributes e) in
    let contract := default "" (dict_get "contract" attrs) in
    let event_name := decode_attr (ev_type e) in
    [matched ← match_event contract event_name m;
     Ok (sent_to (contract_event_message event_name contract attrs) matched)].

(** The messages queued, in order, up to the first that cannot be routed. *)
Fixpoint deliver (routes : list (result (list (string * value)))) : result unit * list (string * value) :=
  match routes with
  | [] => (Ok tt, [])
  | Raise ex :: _ => (Raise ex, [])
  | Ok msgs :: routes => let '(r, rest) := deliver routes in (r, msgs ++ rest)
  end.

Definition _handle_tx_event (m : SubscriptionManager) (events : list Event) : result unit * list (string * value) :=
  deliver (concat (route_event m <$> events)).

(** ** New blocks *)

Section Blocks.
Context (sha256 : bytes -> bytes) (float_trunc : string -> result Z).

Definition _decode_tx_bytes (b64 : string) : option value :=
  match (hex_str ← _decode_b64 b64; b ← fromhex hex_str; json_str ← decode_utf8 b; Json.loads json_str) with
  | Ok v => Some v
  | Raise _ => None
  end.

Definition _decode_block_tx_entry (b64 : string) : value :=
  let entry := match _decode_tx_bytes b64 with
               | Some v => py_or v (VDict [("raw", VStr b64)])
               | None => VDict [("raw", VStr b64)]
               end in
  match entry, b64decode b64 with
  | VDict d, Ok raw_bytes => VDict (dict_set "tx_hash" (VStr (upper_hex (sha256 raw_bytes))) d)
  | _, _ => entry
  end.

(** The line of a transaction in the message; a transaction without a payload has none. *)
Definition block_tx_line (b64 : string) : result (option value) :=
  let tx := _decode_block_tx_entry b64 in
  payload ← py_dot_get tx "payload" (VDict []);
  if negb (truthy payload) then Ok None
  else
    tx_hash ← py_dot_get tx "tx_hash" VNone;
    contract ← py_dot_get payload "contract" VNone; function ← py_dot_get payload "function" VNone;
    sender ← py_dot_get payload "sender" VNone; chi_supplied ← py_dot_get payload "chi_supplied" VNone;
    Ok (Some (VDict [("tx_hash", tx_hash); ("contract", contract); ("function", function); ("sender", sender);
                     ("chi_supplied", chi_supplied)])).

(** The header's fields, the block's hash and its transactions, as base64. *)
Definition _handle_new_block (header block_id : list (string * value)) (txs_raw : list string) : result value :=
  decoded ← mapM_py block_tx_line txs_raw;
  height ← py_int float_trunc (py_get "height" header (VInt 0));
  Ok (VDict [("type", VStr "new_block"); ("height", VInt height); ("hash", py_get "hash" block_id (VStr ""));
             ("time", py_get "time" header (VStr "")); ("num_txs", VInt (Z.of_nat (length txs_raw)));
             ("proposer", py_get "proposer_address" header (VStr "")); ("txs", VList (omap id decoded))]).
End Blocks.

(** ** The lenient decoder inverts the encoder *)

Lemma b64_value_char v : 0 <= v < 64 -> b64_value (byte_of_ascii (b64_char v)) = Some v /\ byte_of_ascii (b64_char v) =? 61 = false
  /\ byte_of_ascii (b64_char v) <? 128 = true.
Proof.
  intros Hv. assert (Hin : v ∈ seqZ 0 64) by (apply elem_of_seqZ; lia). clear Hv.
  assert (Hall : forallb (λ v, bool_decide (b64_value (byte_of_ascii (b64_char v)) = Some v) && negb (byte_of_ascii (b64_char v) =? 61)
    && (byte_of_ascii (b64_char v) <? 128)) (seqZ 0 64) = true) by (vm_compute; reflexivity).
  rewrite forallb_forall in Hall. specialize (Hall v (proj1 (list_elem_of_In _ _) Hin)).
  rewrite !andb_true_iff, bool_decide_eq_true, negb_true_iff in Hall. naive_solver.
Qed.

(** One character of the alphabet. *)
Lemma a2b_char v quad left pads s :
  0 <= v < 64 ->
  a2b_base64 quad left pads (byte_of_ascii (b64_char v) :: s) =
    if quad =? 0 then a2b_base64 1 v 0 s
    else if quad =? 1 then cons (Z.lor (Z.shiftl left 2) (Z.shiftr v 4)) <$> a2b_base64 2 (Z.land v 15) 0 s
    else if quad =? 2 then cons (Z.lor (Z.shiftl left 4) (Z.shiftr v 2)) <$> a2b_base64 3 (Z.land v 3) 0 s
    else cons (Z.lor (Z.shiftl left 6) v) <$> a2b_base64 0 0 0 s.
Proof. intros Hv. destruct (b64_value_char v Hv) as (Hval & Hp & _). cbn [a2b_base64]. by rewrite Hp, Hval. Qed.

Lemma lor_shiftl a b n : 0 <= n -> 0 <= b < 2 ^ n -> Z.lor (Z.shiftl a n) b = a * 2 ^ n + b.
Proof.
  intros Hn Hb. rewrite <-Z.shiftl_mul_pow2 by done.
  assert (Hl : Z.land (Z.shiftl a n) b = 0).
  { apply Z.bits_inj'. intros m Hm. rewrite Z.land_spec, Z.bits_0. destruct (Z.ltb_spec m n).
    - by rewrite Z.shiftl_spec_low.
    - replace b with (b mod 2 ^ n) by (apply Z.mod_small; lia). rewrite Z.mod_pow2_bits_high by lia. apply andb_false_r. }
  by rewrite <-Z.lxor_lor, <-Z.add_nocarry_lxor.
Qed.

(** The sextets of three bytes, and the bytes of the sextets. *)
Lemma sextets x y z :
  is_byte x -> is_byte y -> is_byte z ->
  let a := Z.shiftr x 2 in let b := Z.lor (Z.shiftl (Z.land x 3) 4) (Z.shiftr y 4) in
  let c := Z.lor (Z.shiftl (Z.land y 15) 2) (Z.shiftr z 6) in let d := Z.land z 63 in
  (0 <= a < 64 /\ 0 <= b < 64 /\ 0 <= c < 64 /\ 0 <= d < 64)
  /\ Z.lor (Z.shiftl a 2) (Z.shiftr b 4) = x /\ Z.lor (Z.shiftl (Z.land b 15) 4) (Z.shiftr c 2) = y
  /\ Z.lor (Z.shiftl (Z.land c 3) 6) d = z.
Proof.
  unfold is_byte. intros Hx Hy Hz. cbv zeta.
  change 3 with (Z.ones 2). change 15 with (Z.ones 4). change 63 with (Z.ones 6).
  rewrite !Z.land_ones, !Z.shiftr_div_pow2 by lia. change (2 ^ 2) with 4. change (2 ^ 4) with 16. change (2 ^ 6) with 64.
  rewrite (lor_shiftl (x mod 4) (y / 16)), (lor_shiftl (y mod 16) (z / 64)) by (try change (2 ^ 4) with 16; try change (2 ^ 2) with 4; Z.to_euclidean_division_equations; lia).
  change (2 ^ 4) with 16. change (2 ^ 2) with 4.
  rewrite !lor_shiftl by (try change (2 ^ 4) with 16; try change (2 ^ 2) with 4; try change (2 ^ 6) with 64; Z.to_euclidean_division_equations; lia).
  change (2 ^ 4) with 16. change (2 ^ 2) with 4. change (2 ^ 6) with 64.
  split_and!; Z.to_euclidean_division_equations; lia.
Qed.

Lemma a2b_b64encode b : Forall is_byte b -> a2b_base64 0 0 0 (byte_of_ascii <$> b64encode b) = Ok b.
Proof.
  remember (length b) as n eqn:Hn. revert b Hn. induction n as [n IH] using lt_wf_ind. intros b -> Hb.
  destruct b as [|x [|y [|z r]]]; [done| | |].
  - apply Forall_cons in Hb as [Hx _].
    destruct (sextets x 0 0 Hx ltac:(done) ltac:(done)) as ((Ha & Hb & Hc & Hd) & E1 & _).
    cbv zeta in *. change (Z.shiftr 0 4) with 0 in *. rewrite Z.lor_0_r in *.
    cbn [b64encode app fmap list_fmap]. rewrite !a2b_char by done. cbn -[Z.lor Z.shiftl Z.shiftr Z.land]. by rewrite E1.
  - apply Forall_cons in Hb as [Hx Hb]. apply Forall_cons in Hb as [Hy _].
    destruct (sextets x y 0 Hx Hy ltac:(done)) as ((Ha & Hb & Hc & Hd) & E1 & E2 & _).
    cbv zeta in *. change (Z.shiftr 0 6) with 0 in *. rewrite (Z.lor_0_r (Z.shiftl (Z.land y 15) 2)) in *.
    cbn [b64encode app fmap list_fmap]. rewrite !a2b_char by done. cbn -[Z.lor Z.shiftl Z.shiftr Z.land]. by rewrite E1, E2.
  - apply Forall_cons in Hb as [Hx Hb]. apply Forall_cons in Hb as [Hy Hb]. apply Forall_cons in Hb as [Hz Hr].
    destruct (sextets x y z Hx Hy Hz) as ((Ha & Hb & Hc & Hd) & E1 & E2 & E3). cbv zeta in *.
    cbn [b64encode app fmap list_fmap]. rewrite !a2b_char by done. cbn -[Z.lor Z.shiftl Z.shiftr Z.land b64encode].
    rewrite (IH (length r)) by (cbn; try lia; done). cbn -[Z.lor Z.shiftl Z.shiftr Z.land]. by rewrite E1, E2, E3.
Qed.

Lemma b64encode_ascii b : Forall is_byte b -> Forall (λ x, x < 128) (byte_of_ascii <$> b64encode b).
Proof.
  assert (Hc : forall v, 0 <= v < 64 -> byte_of_ascii (b64_char v) < 128) by (intros v Hv; apply Z.ltb_lt, (b64_value_char v Hv)).
  remember (length b) as n eqn:Hn. revert b Hn. induction n as [n IH] using lt_wf_ind. intros b -> Hb.
  destruct b as [|x [|y [|z r]]]; [constructor| | |]; apply Forall_cons in Hb as [Hx Hb].
  - destruct (sextets x 0 0 Hx ltac:(done) ltac:(done)) as ((Ha & Hb' & _) & _). cbv zeta in *. change (Z.shiftr 0 4) with 0 in *. rewrite Z.lor_0_r in *.
    cbn [b64encode app fmap list_fmap]. repeat (constructor; [apply Hc; done|]). by repeat constructor.
  - apply Forall_cons in Hb as [Hy _]. destruct (sextets x y 0 Hx Hy ltac:(done)) as ((Ha & Hb' & Hc' & _) & _). cbv zeta in *.
    change (Z.shiftr 0 6) with 0 in *. rewrite (Z.lor_0_r (Z.shiftl (Z.land y 15) 2)) in *.
    cbn [b64encode app fmap list_fmap]. repeat (constructor; [apply Hc; done|]). by repeat constructor.
  - apply Forall_cons in Hb as [Hy Hb]. apply Forall_cons in Hb as [Hz Hr].
    destruct (sextets x y z Hx Hy Hz) as ((Ha & Hb' & Hc' & Hd) & _). cbv zeta in *.
    cbn [b64encode app fmap list_fmap]. repeat (constructor; [apply Hc; done|]). apply (IH (length r)); [cbn; lia|done|done].
Qed.

Definition b64_text (b : bytes) : string := String.string_of_list_ascii (b64encode b).

Lemma b64decode_text b : Forall is_byte b -> b64decode (b64_text b) = Ok b.
Proof.
  intros Hb. unfold b64decode, b64_text, encode_utf8. rewrite str_chars_of_list.
  assert (Ha : forallb (λ x, x <? 128) (byte_of_ascii <$> b64encode b) = true).
  { apply forallb_forall. intros x Hx%list_elem_of_In. pose proof (proj1 (Forall_forall _ _) (b64encode_ascii b Hb) x Hx). by apply Z.ltb_lt. }
  rewrite Ha. cbn. by apply a2b_b64encode.
Qed.

Lemma decode_attr_text s : valid_str s = true -> decode_attr (b64_text (encode_utf8 s)) = s.
Proof.
  intros Hv. unfold decode_attr, _decode_b64. rewrite b64decode_text by apply encode_utf8_bytes. cbn. by rewrite decode_utf8_valid.
Qed.

(** ** Keys *)

(** The bytes of [translate_key]. *)
Definition translated (b : bytes) : bytes := concat ((λ c, if c =? 46 then [95] else if c =? 58 then [95; 95] else [c]) <$> b).

Lemma translate_key_bytes s : encode_utf8 (translate_key s) = translated (encode_utf8 s).
Proof.
  induction s as [|c s IH]; [done|]. cbn [translate_key].
  change (encode_utf8 (String c s)) with (byte_of_ascii c :: encode_utf8 s). unfold translated in *. rewrite fmap_cons. cbn [concat].
  destruct (decide (c = ascii_of_byte 46)) as [->|H1]; [change (byte_of_ascii (ascii_of_byte 46)) with 46; cbn; by rewrite <-IH|].
  destruct (decide (c = ascii_of_byte 58)) as [->|H2]; [change (byte_of_ascii (ascii_of_byte 58)) with 58; cbn; by rewrite <-IH|].
  assert (H1' : byte_of_ascii c =? 46 = false) by (apply Z.eqb_neq; intros E; apply H1; by rewrite <-E, ascii_of_byte_of_ascii).
  assert (H2' : byte_of_ascii c =? 58 = false) by (apply Z.eqb_neq; intros E; apply H2; by rewrite <-E, ascii_of_byte_of_ascii).
  rewrite H1', H2'. cbn. by rewrite <-IH.
Qed.

(** Keys that come back from the translation: no underscore, no dot before a dot or a colon. *)
Fixpoint reversible (b : bytes) : bool :=
  match b with
  | [] => true
  | c :: r => negb (c =? 95)
              && (if c =? 46 then match r with c' :: _ => negb ((c' =? 46) || (c' =? 58)) | [] => true end else true)
              && reversible r
  end.

Lemma colons_single c s : (c <> 95 \/ head s <> Some 95) -> colons (c :: s) = c :: colons s.
Proof.
  intros Hc. destruct (decide (c = 95)) as [->|Hne].
  - destruct Hc as [?|Hc]; [done|]. destruct s as [|c' s]; [done|]. cbn in Hc.
    destruct (decide (c' = 95)) as [->|Hne]; [done|]. cbn. repeat case_match; done.
  - cbn. repeat case_match; done.
Qed.

Lemma colons_translated b : reversible b = true -> (λ c, if c =? 95 then 46 else c) <$> colons (translated b) = b.
Proof.
  induction b as [|c r IH]; [done|]. cbn [reversible]. rewrite !andb_true_iff, negb_true_iff. intros [[Hu Hd] Hr].
  specialize (IH Hr). unfold translated in *. rewrite fmap_cons. cbn [concat]. set (t := concat _) in *.
  destruct (c =? 46) eqn:E1; [|destruct (c =? 58) eqn:E2].
  - cbn [app]. rewrite colons_single.
    + rewrite fmap_cons, IH. f_equal. cbn. lia.
    + right. unfold t. destruct r as [|c' r]; [done|]. rewrite fmap_cons. cbn [concat]. apply negb_true_iff, orb_false_iff in Hd as [Hd1 Hd2].
      rewrite Hd1, Hd2. cbn. cbn in Hr. intros [= ->]. done.
  - cbn [app]. change (colons (95 :: 95 :: t)) with (58 :: colons t). rewrite fmap_cons, IH. f_equal. cbn. lia.
  - cbn [app]. rewrite colons_single by (left; lia). rewrite fmap_cons, IH. by rewrite Hu.
Qed.

Lemma reverse_translate_key k : reversible (encode_utf8 k) = true -> reverse_translation (translate_key k) = k.
Proof. intros Hr. unfold reverse_translation. rewrite translate_key_bytes, colons_translated by done. apply string_of_bytes_encode. Qed.

(** ** Patterns without special characters *)

Definition plain_char (c : Z) : bool := negb ((c =? 42) || (c =? 63) || (c =? 91)).
Definition literal (p : string) : bool := forallb plain_char (code_points p).

Lemma translate_plain l : forallb plain_char l = true -> translate (length l) l = GChar <$> l.
Proof.
  induction l as [|c l IH]; [done|]. cbn [forallb length translate]. rewrite andb_true_iff. intros [Hc Hl].
  unfold plain_char in Hc. rewrite negb_true_iff, !orb_false_iff in Hc. destruct Hc as [[H1 H2] H3].
  by rewrite H1, H2, H3, (IH Hl).
Qed.

Lemma glob_match_plain l s : glob_match (GChar <$> l) s = bool_decide (s = l).
Proof.
  revert s. induction l as [|c l IH]; intros [|x s]; try done. cbn. rewrite IH.
  destruct (Z.eqb_spec x c) as [->|Hne]; cbn.
  - apply bool_decide_ext. split; congruence.
  - symmetry. apply bool_decide_eq_false. congruence.
Qed.

Lemma pattern_matches_literal name p : literal p = true -> pattern_matches name p = bool_decide (code_points name = code_points p).
Proof. intros Hp. unfold pattern_matches. by rewrite translate_plain, glob_match_plain. Qed.

(** An underscore is one code point and one byte. *)
Lemma underscore_cp cp : is_scalar cp -> ascii_of_byte 95 ∈ utf8_encode_cp cp -> cp = 95.
Proof.
  intros [Hcp _] Hin. unfold utf8_encode_cp in Hin.
  assert (Hb : forall x, is_byte x -> ascii_of_byte 95 = ascii_of_byte x -> x = 95).
  { intros x Hx E. apply (f_equal byte_of_ascii) in E. rewrite byte_of_ascii_of_byte in E by done. by rewrite byte_of_ascii_of_byte in E. }
  unfold is_byte in Hb.
  repeat case_match; rewrite ?Z.ltb_lt, ?Z.ltb_ge in *;
    repeat (apply elem_of_cons in Hin as [Hin|Hin]; [apply Hb in Hin; Z.to_euclidean_division_equations; lia|]); by apply not_elem_of_nil in Hin.
Qed.

Lemma underscore_bytes s : 95 ∈ encode_utf8 s <-> 95 ∈ code_points s.
Proof.
  unfold code_points. destruct (utf8_decode (encode_utf8 s)) as [cps|] eqn:Ed; [|done]. cbn.
  destruct (utf8_decode_encode _ _ (encode_utf8_bytes s) Ed) as [Hs Hc].
  assert (Hb : forall b, Forall is_byte b -> 95 ∈ b <-> ascii_of_byte 95 ∈ ascii_of_byte <$> b).
  { intros b Hb. split; [intros Hin; by apply (list_elem_of_fmap_2 ascii_of_byte)|].
    intros (x & E & Hx)%list_elem_of_fmap. apply (f_equal byte_of_ascii) in E.
    rewrite !byte_of_ascii_of_byte in E; [by subst x|by eapply Forall_forall in Hb; [exact Hb|]|done]. }
  rewrite (Hb _ (encode_utf8_bytes s)), <-Hc. clear Ed Hc Hb. induction Hs as [|cp cps Hcp Hs IH]; [cbn; by rewrite !elem_of_nil|].
  rewrite fmap_cons. cbn [concat]. rewrite elem_of_app, elem_of_cons, IH. split; [|intros [<-|?]; [left; left|by right]].
  intros [Hu|?]; [left; symmetry; by apply underscore_cp|by right].
Qed.

(** What subscribers are told never has an underscore in its key. *)
Lemma reversed_no_underscore raw : 95 ∉ encode_utf8 (reverse_translation raw).
Proof.
  unfold reverse_translation. intros Hin. rewrite encode_string_of_bytes in Hin.
  - apply list_elem_of_fmap in Hin as (x & E & _). case_match; lia.
  - apply Forall_fmap, Forall_forall. intros x Hx.
    assert (Hb : forall l, Forall is_byte l -> Forall is_byte (colons l)).
    { clear. intros l. remember (length l) as n eqn:Hn. revert l Hn. induction n as [n IH] using lt_wf_ind. intros [|c l] -> Hl; [constructor|].
      apply Forall_cons in Hl as [Hc Hl]. destruct (decide (c = 95 /\ head l = Some 95)) as [[-> Hh]|Hn].
      - destruct l as [|c' l]; [done|]. injection Hh as ->. apply Forall_cons in Hl as [_ Hl].
        change (colons (95 :: 95 :: l)) with (58 :: colons l). constructor; [done|]. apply (IH (length l)); [cbn; lia|done|done].
      - rewrite colons_single by (destruct (decide (c = 95)); [right; naive_solver|by left]). constructor; [done|].
        apply (IH (length l)); [cbn; lia|done|done]. }
    pose proof (proj1 (Forall_forall _ _) (Hb _ (encode_utf8_bytes raw)) x Hx) as Hxb. unfold is_byte in *. cbn. case_match; lia.
Qed.

(** ** Who is told *)

Definition wants (key : string) (pat : value) : bool := match pat with VStr p => pattern_matches key p | _ => false end.
Definition subscribers (key : string) (m : SubscriptionManager) : list string :=
  (filter (λ c, existsb (wants key) c.2 = true) (_state_subs m)).*1.
Definition string_patterns (m : SubscriptionManager) : Prop := Forall (λ c, Forall (λ p, is_str p = true) c.2) (_state_subs m).

Lemma any_match_strings key pats : Forall (λ p, is_str p = true) pats -> any_match (fnmatch key) pats = Ok (existsb (wants key) pats).
Proof.
  induction 1 as [|p pats Hp Hps IH]; [done|]. destruct p; try done. cbn. destruct (pattern_matches key s); [done|]. by rewrite IH.
Qed.

Lemma match_state_strings key m : string_patterns m -> match_state key m = Ok (subscribers key m).
Proof.
  unfold match_state, subscribers, string_patterns. induction 1 as [|[ws pats] d Hp Hd IH]; [done|]. cbn [matching].
  rewrite any_match_strings by done. cbn [mbind result_bind]. rewrite IH. cbn [mbind result_bind]. rewrite filter_cons. cbn [snd].
  destruct (existsb (wants key) pats); [by rewrite decide_True|by rewrite decide_False].
Qed.

Lemma deliver_all {A} (f : A -> result (list (string * value))) (g : A -> list (string * value)) l :
  Forall (λ a, f a = Ok (g a)) l -> deliver (f <$> l) = (Ok tt, concat (g <$> l)).
Proof. induction 1 as [|a l Ha Hl IH]; [done|]. rewrite !fmap_cons. cbn [deliver concat]. by rewrite Ha, IH. Qed.

(** A write whose key survives the translation and whose texts are not taken for base64. *)
Definition legible (py_str : value -> string) (w : string * value) : Prop :=
  reversible (encode_utf8 w.1) = true /\ decode_attr (translate_key w.1) = translate_key w.1
  /\ decode_attr (str_of_value py_str w.2) = str_of_value py_str w.2.

(** Claim C28. When every state pattern is a string and the receipt's keys and values are
    legible, the StateChange event FinalizeBlock builds from a receipt tells, write by write,
    exactly the clients with a pattern that matches the key the contract wrote, with that key and
    its value. *)
Theorem state_change_notified (py_str : value -> string) (m : SubscriptionManager) (r : tx_receipt) :
  string_patterns m -> Forall (legible py_str) (r_state r) ->
  _handle_tx_event m (option_list (_state_change_event py_str r)) =
    (Ok tt, concat ((λ w, sent_to (state_change_message w.1 (str_of_value py_str w.2)) (subscribers w.1 m)) <$> r_state r)).
Proof.
  intros Hm Hl. unfold _handle_tx_event, _state_change_event. destruct (r_state r) as [|w0 ws] eqn:Er; [done|]. rewrite <-Er in *. clear Er w0 ws.
  unfold option_list. simpl. rewrite app_nil_r. unfold route_event. cbn [ev_type ev_attributes].
  rewrite bool_decide_eq_true_2 by done. rewrite <-list_fmap_compose. apply deliver_all. eapply Forall_impl; [exact Hl|].
  intros w (Hr & Hk & Hv). cbn. unfold route_attribute. cbn [at_key at_value]. rewrite Hk, Hv, reverse_translate_key by done.
  by rewrite match_state_strings.
Qed.

(** Claim C40. A client whose patterns name keys with an underscore, as those of every contract
    named con_..., is told of no state change: the key in the message never has one. *)
Theorem underscore_never_notified (m : SubscriptionManager) (ws : string) (e : Event) :
  string_patterns m -> ev_type e = "StateChange" ->
  Forall (λ c, c.1 = ws -> Forall (λ p, exists s, p = VStr s /\ literal s = true /\ 95 ∈ encode_utf8 s) c.2) (_state_subs m) ->
  (deliver (route_event m e)).1 = Ok tt /\ ws ∉ (deliver (route_event m e)).2.*1.
Proof.
  intros Hm He Hu. unfold route_event. rewrite bool_decide_eq_true_2 by done.
  set (g := λ a, sent_to (state_change_message (reverse_translation (decode_attr (at_key a))) (decode_attr (at_value a)))
                   (subscribers (reverse_translation (decode_attr (at_key a))) m)).
  rewrite (deliver_all _ g) by (apply Forall_true; intros a; unfold route_attribute; by rewrite match_state_strings).
  split; [done|]. cbn [snd]. intros ([ws' msg] & Hws & Hin)%list_elem_of_fmap. cbn in Hws. subst ws'.
  apply list_elem_of_In, in_concat in Hin as (l & Hl%list_elem_of_In & Hin%list_elem_of_In). apply list_elem_of_fmap in Hl as (a & -> & _). unfold g, sent_to in Hin.
  apply list_elem_of_fmap in Hin as (ws' & [= <- _] & Hws). unfold subscribers in Hws.
  apply list_elem_of_fmap in Hws as ([ws' pats] & Hws & Hin). cbn in Hws. subst ws'. apply list_elem_of_filter in Hin as [Hex Hin].
  pose proof (proj1 (Forall_forall _ _) Hu _ Hin eq_refl) as Hpats. cbn in Hpats, Hex.
  apply existsb_exists in Hex as (p & Hp%list_elem_of_In & Hw). destruct (proj1 (Forall_forall _ _) Hpats p Hp) as (s & -> & Hlit & Hs).
  cbn in Hw. rewrite pattern_matches_literal, bool_decide_eq_true in Hw by done.
  apply (reversed_no_underscore (decode_attr (at_key a))). apply underscore_bytes. rewrite Hw. by apply underscore_bytes.
Qed.

(** ** Block messages *)

Lemma b64_hex_roundtrip text :
  valid_str text = true -> _decode_tx_bytes (b64_text (encode_transaction_bytes text)) = match Json.loads text with Ok v => Some v | Raise _ => None end.
Proof.
  intros Hv. unfold _decode_tx_bytes, _decode_b64, encode_transaction_bytes.
  rewrite b64decode_text by apply encode_utf8_bytes. cbn [mbind result_bind]. rewrite decode_utf8_hex by apply encode_utf8_bytes.
  cbn [mbind result_bind]. rewrite fromhex_bytes_hex by apply encode_utf8_bytes. cbn [mbind result_bind]. by rewrite decode_utf8_valid.
Qed.

(** A transaction as it was submitted is listed with its hash and the fields of its payload. *)
Lemma block_tx_line_correct sha256 text d p :
  valid_str text = true -> Json.loads text = Ok (VDict d) -> dict_get "payload" d = Some (VDict p) -> p <> [] ->
  block_tx_line sha256 (b64_text (encode_transaction_bytes text)) =
    Ok (Some (VDict [("tx_hash", VStr (upper_hex (sha256 (encode_transaction_bytes text)))); ("contract", py_get "contract" p VNone);
                     ("function", py_get "function" p VNone); ("sender", py_get "sender" p VNone);
                     ("chi_supplied", py_get "chi_supplied" p VNone)])).
Proof.
  intros Hv Hl Hp Hne. unfold block_tx_line, _decode_block_tx_entry. rewrite b64_hex_roundtrip, Hl by done.
  rewrite b64decode_text by apply encode_utf8_bytes. unfold py_or. cbn [truthy]. rewrite bool_decide_eq_false_2 by (intros ->; done). cbn [negb].
  set (d' := dict_set _ _ d).
  assert (H1 : py_get "payload" d' (VDict []) = VDict p) by (unfold py_get, d'; rewrite dict_get_set_ne by discriminate; by rewrite Hp).
  assert (H2 : py_get "tx_hash" d' VNone = VStr (upper_hex (sha256 (encode_transaction_bytes text)))) by (unfold py_get, d'; by rewrite dict_get_set_eq).
  cbn [py_dot_get]. rewrite H1, H2. cbn [mbind result_bind truthy]. by rewrite bool_decide_eq_false_2 by done.
Qed.

(** ** Limits of the subscriptions *)

Definition subs_bounded (m : SubscriptionManager) : Prop :=
  Forall (λ c, Z.of_nat (length c.2) <= _max_state_subscriptions_per_client m) (_state_subs m)
  /\ Forall (λ c, Z.of_nat (length c.2) <= _max_event_subscriptions_per_client m) (_event_subs m).

Lemma change_subs_keys {A} ws (f : A -> A) d : dict_keys (change_subs ws f d) = dict_keys d.
Proof.
  unfold change_subs. destruct (dict_get ws d) as [x|] eqn:E; [|done]. rewrite dict_keys_set. unfold dict_mem. by rewrite E.
Qed.

Lemma change_subs_bounded {A} (n : Z) ws (f : list A -> list A) d :
  (forall l, (length (f l) <= length l)%nat) ->
  Forall (λ c, Z.of_nat (length c.2) <= n) d -> Forall (λ c, Z.of_nat (length c.2) <= n) (change_subs ws f d).
Proof.
  intros Hf Hd. unfold change_subs. destruct (dict_get ws d) as [x|] eqn:E; [|done]. apply dict_set_Forall; [|done]. cbn.
  apply dict_get_Some_elem in E. pose proof (proj1 (Forall_forall _ _) Hd _ E) as Hx. cbn in Hx. specialize (Hf x). lia.
Qed.

Lemma default_bounded {A} (n : Z) ws (d : list (string * list A)) :
  0 <= n -> Forall (λ c, Z.of_nat (length c.2) <= n) d -> Z.of_nat (length (default [] (dict_get ws d))) <= n.
Proof.
  intros Hn Hd. destruct (dict_get ws d) as [x|] eqn:E; [|done]. cbn.
  by apply (proj1 (Forall_forall _ _) Hd _ (dict_get_Some_elem _ _ _ E)).
Qed.

Section Bounded.
Context (py_eq : value -> value -> bool) (py_str : value -> string) (sorted_values : list value -> result (list value)).
#[local] Notation handle := (handle_message py_eq py_str sorted_values).

Lemma entry_remove_length x l : (length (entry_remove py_eq x l) <= length l)%nat.
Proof. induction l as [|y l IH]; cbn; [lia|]. case_match; cbn; lia. Qed.

Lemma subscribe_bounded ws data m :
  1 <= _max_state_subscriptions_per_client m -> 1 <= _max_event_subscriptions_per_client m -> subs_bounded m ->
  subs_bounded (_subscribe py_eq py_str ws data m).2.
Proof.
  intros H1 H2 [Hs He]. unfold _subscribe.
  assert (Hds : Z.of_nat (length (default [] (dict_get ws (_state_subs m)))) <= _max_state_subscriptions_per_client m) by (apply default_bounded; [lia|done]).
  assert (Hde : Z.of_nat (length (default [] (dict_get ws (_event_subs m)))) <= _max_event_subscriptions_per_client m) by (apply default_bounded; [lia|done]).
  assert (Hgrow : forall A (n : Z) (b : bool) (l : list A) x, Z.of_nat (length l) <= n -> negb b && (n <=? Z.of_nat (length l)) = false ->
                  Z.of_nat (length (if b then l else l ++ [x])) <= n).
  { intros A n [] l x Hl Hb; [done|]. cbn in Hb. rewrite length_app. cbn. lia. }
  destruct (bool_decide (py_get "type" data VNone = VStr "state")).
  - destruct (negb (truthy _)); [done|]. cbv zeta. destruct (negb (hashable _)); [split; cbn; [by apply dict_set_Forall|done]|].
    destruct (negb _ && _) eqn:E; (split; cbn; [|done]); [by apply dict_set_Forall|].
    apply dict_set_Forall; [cbn; by apply Hgrow|by apply dict_set_Forall].
  - destruct (bool_decide _); [|done]. cbv zeta. destruct (negb _ && _) eqn:E; (split; cbn; [done|]); [by apply dict_set_Forall|].
    apply dict_set_Forall; [cbn; by apply Hgrow|by apply dict_set_Forall].
Qed.

Lemma handle_message_bounded ws data m :
  1 <= _max_state_subscriptions_per_client m -> 1 <= _max_event_subscriptions_per_client m -> subs_bounded m ->
  subs_bounded (handle ws data m).2.
Proof.
  intros H1 H2 Hm. unfold handle_message. destruct data; try done.
  case_match; [by apply subscribe_bounded|]. destruct Hm as [Hs He].
  case_match; [unfold _unsubscribe; repeat case_match; try done|repeat case_match; try done]; split; cbn; try done.
  all: apply change_subs_bounded; try done; intros l; cbn; try lia.
  - apply length_filter.
  - apply entry_remove_length.
Qed.

Lemma dict_pop_set {A} ws (v : A) d : dict_pop ws (dict_set ws v d) = dict_pop ws d.
Proof.
  unfold dict_pop. induction d as [|[k x] d IH]; cbn [dict_set].
  - by rewrite filter_cons_False by (cbn; naive_solver).
  - case_decide as E; [subst k; by rewrite !filter_cons_False by (cbn; naive_solver)|]. rewrite !filter_cons, IH. done.
Qed.

Lemma dict_pop_change {A} ws (f : A -> A) d : dict_pop ws (change_subs ws f d) = dict_pop ws d.
Proof. unfold change_subs. case_match; [apply dict_pop_set|done]. Qed.

(** A client's message changes that client's entries only. *)
Lemma handle_message_local ws data m : remove_client ws (handle ws data m).2 = remove_client ws m.
Proof.
  unfold handle_message, _subscribe, _unsubscribe, remove_client, with_state_subs, with_event_subs.
  repeat case_match; cbn -[dict_pop]; rewrite ?dict_pop_set, ?dict_pop_change; done.
Qed.

Lemma dict_keys_set_mem {A} ws (v : A) d : dict_mem ws d = true -> dict_keys (dict_set ws v d) = dict_keys d.
Proof. intros Hm. by rewrite dict_keys_set, Hm. Qed.
Lemma dict_mem_set {A} ws (v : A) d : dict_mem ws (dict_set ws v d) = true.
Proof. unfold dict_mem. by rewrite dict_get_set_eq. Qed.

Lemma handle_message_keys ws data m :
  dict_mem ws (_state_subs m) = true -> dict_mem ws (_event_subs m) = true ->
  dict_keys (_state_subs (handle ws data m).2) = dict_keys (_state_subs m)
  /\ dict_keys (_event_subs (handle ws data m).2) = dict_keys (_event_subs m).
Proof.
  intros Hs He. unfold handle_message, _subscribe, _unsubscribe, with_state_subs, with_event_subs.
  repeat case_match; cbn -[dict_keys]; rewrite ?change_subs_keys, ?dict_keys_set_mem by (try done; apply dict_mem_set); done.
Qed.

Lemma handle_message_limits ws data m :
  _max_state_subscriptions_per_client (handle ws data m).2 = _max_state_subscriptions_per_client m
  /\ _max_event_subscriptions_per_client (handle ws data m).2 = _max_event_subscriptions_per_client m.
Proof. unfold handle_message, _subscribe, _unsubscribe, with_state_subs, with_event_subs. repeat case_match; done. Qed.
End Bounded.

(** ** Examples *)

Definition sample_py_str (v : value) : string := ok_or "" (dumps true v).
Definition sample_eq (a b : value) : bool := bool_decide (a = b).
Definition subscribed (l : list (string * value)) : SubscriptionManager :=
  foldl (λ m c, (_subscribe sample_eq sample_py_str c.1 [("type", VStr "state"); ("key", c.2)] (add_client c.1 m)).2) (new_subscriptions 2 2) l.

Definition sample_subs : SubscriptionManager := subscribed [("a", VStr "currency.balances:*"); ("b", VStr "currency.balances:bob"); ("c", VStr "con_token.*")].
Definition receipt_of (state : list (string * value)) : tx_receipt := TxReceipt "" 0 state [] 0 VNone VNone VNone.
Definition sample_receipt : tx_receipt := receipt_of [("currency.balances:bob", VInt 1000); ("currency.balances:carol", VInt 7)].

Lemma state_change_notified_witness :
  (_handle_tx_event sample_subs (option_list (_state_change_event sample_py_str sample_receipt))).2.*1 = ["a"; "b"; "a"]
  /\ _handle_tx_event sample_subs (option_list (_state_change_event sample_py_str sample_receipt)) =
     (Ok tt, concat ((λ w, sent_to (state_change_message w.1 (str_of_value sample_py_str w.2)) (subscribers w.1 sample_subs)) <$> r_state sample_receipt)).
Proof.
  split; [by vm_compute|]. apply (state_change_notified sample_py_str sample_subs sample_receipt).
  - repeat constructor.
  - repeat constructor; by vm_compute.
Defined.

Lemma underscore_never_notified_witness :
  let m := subscribed [("c", VStr "con_token.balances:bob")] in
  let e := MkEvent "StateChange" [Attribute (translate_key "con_token.balances:bob") "7" false] in
  (deliver (route_event m e)).1 = Ok tt /\ "c" ∉ (deliver (route_event m e)).2.*1.
Proof.
  cbv zeta. apply (underscore_never_notified (subscribed [("c", VStr "con_token.balances:bob")]) "c"); [repeat constructor|done|].
  constructor; [|constructor]. intros _. constructor; [|constructor]. eexists. split; [done|]. split; [by vm_compute|].
  apply (bool_decide_unpack _). by vm_compute.
Defined.

(** A number that is also base64 of valid UTF-8 reaches the subscribers as other text. *)
Example number_taken_for_base64 :
  let told n := (_handle_tx_event sample_subs (option_list (_state_change_event sample_py_str (receipt_of [("currency.balances:carol", VInt n)])))).2 in
  told 1000 = [("a", state_change_message "currency.balances:carol" "1000")]
  /\ told 1448 <> [("a", state_change_message "currency.balances:carol" "1448")].
Proof. split; [by vm_compute|]. intros E%(f_equal (λ l, bool_decide (l = [("a", state_change_message "currency.balances:carol" "1448")]))). by vm_compute in E. Qed.

(** One client that subscribes to a number stops the state changes of every client. *)
Example number_pattern_stops_all :
  let m := subscribed [("x", VInt 5); ("a", VStr "currency.balances:*")] in
  _handle_tx_event m (option_list (_state_change_event sample_py_str sample_receipt)) =
    (raise TypeError "expected str, bytes or os.PathLike object", []).
Proof. by vm_compute. Qed.

(** A contract event named StateChange is routed as state changes: a transaction that writes
    nothing tells the subscribers of a balance that it changed. *)
Example event_named_state_change :
  let r := TxReceipt "" 0 [] [VDict [("contract", VStr "con_x"); ("event", VStr "StateChange"); ("signer", VStr "s"); ("caller", VStr "s");
                                     ("data_indexed", VDict []); ("data", VDict [("currency_balances__bob", VInt 1000)])]] 0 VNone VNone VNone in
  let told := (_handle_tx_event sample_subs (ok_or [] (_build_tx_events sample_py_str r))).2 in
  r_state r = [] /\ ("b", state_change_message "currency.balances:bob" "1000") ∈ told.
Proof. split; [done|]. apply (bool_decide_unpack _). by vm_compute. Qed.
