(* ===== verification/DashboardWs.v ===== *)
(** * The dashboard's WebSocket clients

    [handle_ws], [_close_dashboard_ws_client], [_queue_dashboard_ws_message] and
    [_dashboard_ws_sender] of dashboard/app.py.  The event loop runs each stretch of
    code between two awaits at once, so a step is such a stretch: a handler up to
    [await ws.prepare], the registration after it, the handling of one message, the
    end of a handler, one message sent, one message fanned out, and the closing of a
    client by another task (the pruning of closed clients, the sender after a failed
    send, a full queue, the shutdown).  Closing may happen at any time. *)
From Stdlib Require Import String.
From stdpp Require Import base list strings.
From S2P Require Import Prelude PyValue Driver Json StateRoot DashboardEvents.
#[local] Open Scope Z_scope.
#[local] Arguments dict_keys : simpl never.
#[local] Arguments dict_pop : simpl never.

Record _DashboardWsClientState := ClientState { outbound_queue : list value; client_key : string }.

(** [waiting]: handlers before the end of [ws.prepare], with what they read before it;
    [handlers]: handlers reading messages. *)
Record ws_app := WsApp {
  ws_clients : list string;
  ws_client_counts : list (string * Z);
  ws_client_states : list (string * _DashboardWsClientState);
  subscriptions : SubscriptionManager;
  waiting : list (string * (string * Z));
  handlers : list string }.

Definition with_states (d : list (string * _DashboardWsClientState)) (a : ws_app) : ws_app :=
  WsApp (ws_clients a) (ws_client_counts a) d (subscriptions a) (waiting a) (handlers a).
Definition with_subscriptions (m : SubscriptionManager) (a : ws_app) : ws_app :=
  WsApp (ws_clients a) (ws_client_counts a) (ws_client_states a) m (waiting a) (handlers a).
Definition with_waiting (w : list (string * (string * Z))) (a : ws_app) : ws_app :=
  WsApp (ws_clients a) (ws_client_counts a) (ws_client_states a) (subscriptions a) w (handlers a).
Definition with_handlers (h : list string) (a : ws_app) : ws_app :=
  WsApp (ws_clients a) (ws_client_counts a) (ws_client_states a) (subscriptions a) (waiting a) h.

Section Ws.
Context (max_ws_clients max_ws_clients_per_client max_ws_outbound_queue : Z).
Context (py_eq : value -> value -> bool) (py_str : value -> string) (sorted_values : list value -> result (list value)).

Definition count_of (key : string) (a : ws_app) : Z := default 0 (dict_get key (ws_client_counts a)).

(** [_close_dashboard_ws_client] up to its first await. *)
Definition _close_dashboard_ws_client (ws : string) (a : ws_app) : ws_app :=
  let counts := match dict_get ws (ws_client_states a) with
                | Some state =>
                  let client_count := count_of (client_key state) a in
                  if client_count <=? 1 then dict_pop (client_key state) (ws_client_counts a)
                  else dict_set (client_key state) (client_count - 1) (ws_client_counts a)
                | None => ws_client_counts a
                end in
  WsApp (filter (λ x, x <> ws) (ws_clients a)) counts (dict_pop ws (ws_client_states a)) (remove_client ws (subscriptions a))
    (waiting a) (handlers a).

(** True when the message is in the client's queue. *)
Definition _queue_dashboard_ws_message (ws : string) (message : value) (a : ws_app) : bool * ws_app :=
  match dict_get ws (ws_client_states a) with
  | None => (false, a)
  | Some state =>
    if Z.of_nat (length (outbound_queue state)) <? max_ws_outbound_queue then
      (true, with_states (dict_set ws (ClientState (outbound_queue state ++ [message]) (client_key state)) (ws_client_states a)) a)
    else (false, a)
  end.

Definition notify (msgs : list (string * value)) (a : ws_app) : ws_app :=
  foldl (λ a m, (_queue_dashboard_ws_message m.1 m.2 a).2) a msgs.
Definition _broadcast (message : value) (a : ws_app) : ws_app := notify (sent_to message (ws_clients a)) a.

(** [handle_ws] up to [await ws.prepare]: refused, or the count it read. *)
Definition may_connect (key : string) (a : ws_app) : option Z :=
  if max_ws_clients <=? Z.of_nat (length (ws_clients a)) then None
  else if max_ws_clients_per_client <=? count_of key a then None
  else Some (count_of key a).

(** [handle_ws] after it. *)
Definition register (ws key : string) (client_count : Z) (a : ws_app) : ws_app :=
  WsApp (ws_clients a ++ [ws]) (dict_set key (client_count + 1) (ws_client_counts a))
    (dict_set ws (ClientState [] key) (ws_client_states a)) (add_client ws (subscriptions a)) (waiting a) (ws :: handlers a).

(** ["action" in data] *)
Definition has_action (data : value) : result bool :=
  match data with
  | VDict d => Ok (dict_mem "action" d)
  | VList l => Ok (existsb (py_eq (VStr "action")) l)
  | VStr s => Ok (match String.index 0 "action" s with Some _ => true | None => false end)
  | _ => raise TypeError "argument is not iterable"
  end.

(** A message of a client: the response, if there is one, and the subscriptions. *)
Definition answer_text (ws text : string) (m : SubscriptionManager) : option value * SubscriptionManager :=
  match Json.loads text with
  | Raise _ => (Some (error_response "invalid JSON"), m)
  | Ok data =>
    match has_action data with
    | Raise e => (Some (error_response (exn_msg e)), m)
    | Ok false => (None, m)
    | Ok true => match handle_message py_eq py_str sorted_values ws data m with
                 | (Ok response, m) => (Some response, m)
                 | (Raise e, m) => (Some (error_response (exn_msg e)), m)
                 end
    end
  end.

(** The end of a handler: [finally]. *)
Definition finish (ws : string) (a : ws_app) : ws_app :=
  _close_dashboard_ws_client ws (with_handlers (filter (λ x, x <> ws) (handlers a)) a).

(** One message: the handler stops when its response cannot be queued. *)
Definition receive (ws text : string) (a : ws_app) : ws_app :=
  let '(response, m) := answer_text ws text (subscriptions a) in
  let a := with_subscriptions m a in
  match response with
  | None => a
  | Some r => let '(queued, a) := _queue_dashboard_ws_message ws r a in if (queued : bool) then a else finish ws a
  end.

(** [_dashboard_ws_sender] takes the first message. *)
Definition send (ws : string) (a : ws_app) : ws_app :=
  match dict_get ws (ws_client_states a) with
  | Some (ClientState (_ :: q) key) => with_states (dict_set ws (ClientState q key) (ws_client_states a)) a
  | _ => a
  end.

Inductive ws_step : ws_app -> ws_app -> Prop :=
  | step_admit ws key n a :
      may_connect key a = Some n -> ws ∉ ws_clients a -> ws ∉ handlers a -> ws ∉ dict_keys (waiting a) ->
      ws_step a (with_waiting ((ws, (key, n)) :: waiting a) a)
  | step_prepared ws key n w1 w2 a :
      waiting a = w1 ++ (ws, (key, n)) :: w2 -> ws_step a (register ws key n (with_waiting (w1 ++ w2) a))
  | step_prepare_fails ws key n w1 w2 a :
      waiting a = w1 ++ (ws, (key, n)) :: w2 -> ws_step a (with_waiting (w1 ++ w2) a)
  | step_receive ws text a : ws ∈ handlers a -> ws_step a (receive ws text a)
  | step_finish ws a : ws ∈ handlers a -> ws_step a (finish ws a)
  | step_close ws a : ws_step a (_close_dashboard_ws_client ws a)
  | step_send ws a : ws_step a (send ws a)
  | step_notify msgs a : ws_step a (notify msgs a).

(** [_on_startup] *)
Definition on_startup (max_state max_event : Z) : ws_app := WsApp [] [] [] (new_subscriptions max_state max_event) [] [].

(** ** What every interleaving keeps *)

Record ws_ok (ms me : Z) (a : ws_app) : Prop := {
  ok_states : dict_keys (ws_client_states a) = ws_clients a;
  ok_state_subs : dict_keys (_state_subs (subscriptions a)) = ws_clients a;
  ok_event_subs : dict_keys (_event_subs (subscriptions a)) = ws_clients a;
  ok_nodup : NoDup (ws_clients a);
  ok_handled : ws_clients a ⊆ handlers a;
  ok_waiting : NoDup (dict_keys (waiting a)) /\ forall ws, ws ∈ dict_keys (waiting a) -> ws ∉ handlers a;
  ok_queues : Forall (λ c, Z.of_nat (length (outbound_queue c.2)) <= max_ws_outbound_queue) (ws_client_states a);
  ok_limits : _max_state_subscriptions_per_client (subscriptions a) = ms /\ _max_event_subscriptions_per_client (subscriptions a) = me;
  ok_bounded : subs_bounded (subscriptions a) }.

Lemma keys_pop {A} ws (d : list (string * A)) : dict_keys (dict_pop ws d) = filter (λ x, x <> ws) (dict_keys d).
Proof.
  unfold dict_keys, dict_pop. induction d as [|[k x] d IH]; [done|]. rewrite fmap_cons, !filter_cons. cbn. case_decide; cbn; by rewrite IH.
Qed.

Lemma close_ok ms me ws a : ws_ok ms me a -> ws_ok ms me (_close_dashboard_ws_client ws a).
Proof.
  intros [H1 H2 H3 H4 H5 H6 H7 H8 [H9 H10]]. split; cbn.
  - by rewrite keys_pop, H1.
  - by rewrite keys_pop, H2.
  - by rewrite keys_pop, H3.
  - by apply NoDup_filter.
  - intros x [_ Hx]%list_elem_of_filter. by apply H5.
  - done.
  - by apply dict_pop_Forall.
  - done.
  - split; cbn; by apply dict_pop_Forall.
Qed.

Lemma with_handlers_ok ms me h a :
  ws_ok ms me a -> ws_clients a ⊆ h -> (forall x, x ∈ h -> x ∈ handlers a) -> ws_ok ms me (with_handlers h a).
Proof. intros [H1 H2 H3 H4 H5 [H6 H6'] H7 H8 H9] Hc Hh. split; try done. split; [done|]. intros ws Hw Hin. by apply (H6' ws Hw), Hh. Qed.

(** A handler that ends removes its client. *)
Lemma close_drops_handler ms me ws a :
  ws_ok ms me a -> ws_ok ms me (finish ws a).
Proof.
  intros Ha. pose proof (close_ok ms me ws a Ha) as Hc.
  apply (with_handlers_ok ms me (filter (λ x, x <> ws) (handlers a)) _ Hc).
  - cbn. intros x [Hne Hx]%list_elem_of_filter. apply list_elem_of_filter. split; [done|]. by apply (ok_handled _ _ _ Ha).
  - cbn. by intros x [_ Hx]%list_elem_of_filter.
Qed.

Lemma set_state_ok ms me ws s a :
  is_Some (dict_get ws (ws_client_states a)) -> Z.of_nat (length (outbound_queue s)) <= max_ws_outbound_queue ->
  ws_ok ms me a -> ws_ok ms me (with_states (dict_set ws s (ws_client_states a)) a).
Proof.
  intros [s0 Hs] Hq [H1 H2 H3 H4 H5 H6 H7 H8 H9]. split; try done; cbn.
  - by rewrite dict_keys_set_mem by (unfold dict_mem; by rewrite Hs).
  - by apply dict_set_Forall.
Qed.

Lemma queue_ok ms me ws msg a : ws_ok ms me a -> ws_ok ms me (_queue_dashboard_ws_message ws msg a).2.
Proof.
  intros Ha. unfold _queue_dashboard_ws_message. destruct (dict_get ws (ws_client_states a)) as [s|] eqn:E; [|done].
  destruct (Z.of_nat (length (outbound_queue s)) <? max_ws_outbound_queue) eqn:El; [|done]. cbn.
  apply set_state_ok; [by eexists|cbn; rewrite length_app; cbn; lia|done].
Qed.

Lemma notify_ok ms me msgs a : ws_ok ms me a -> ws_ok ms me (notify msgs a).
Proof. revert a. induction msgs as [|m msgs IH]; intros a Ha; [done|]. by apply IH, queue_ok. Qed.

Lemma send_ok ms me ws a : ws_ok ms me a -> ws_ok ms me (send ws a).
Proof.
  intros Ha. unfold send. destruct (dict_get ws (ws_client_states a)) as [[[|x q] k]|] eqn:E; try done.
  apply set_state_ok; [by eexists| |done]. cbn.
  pose proof (proj1 (Forall_forall _ _) (ok_queues _ _ _ Ha) _ (dict_get_Some_elem _ _ _ E)) as Hq. cbn in Hq. lia.
Qed.

Lemma answer_text_cases ws text m :
  (answer_text ws text m).2 = m \/ exists data, (answer_text ws text m).2 = (handle_message py_eq py_str sorted_values ws data m).2
                                             /\ is_Some (answer_text ws text m).1.
Proof.
  unfold answer_text. destruct (Json.loads text) as [data|]; [|by left]. destruct (has_action data) as [[]|]; [|by left..].
  right. exists data. by destruct (handle_message _ _ _ _ _ _) as [[] ?].
Qed.

(** A client's message that is not answered in its queue ends the handler, whatever it changed. *)
Lemma close_after_message ws m a :
  remove_client ws m = remove_client ws (subscriptions a) -> finish ws (with_subscriptions m a) = finish ws a.
Proof. intros Hr. unfold finish, _close_dashboard_ws_client. cbn. by rewrite Hr. Qed.

Lemma receive_ok ms me ws text a : 1 <= ms -> 1 <= me -> ws_ok ms me a -> ws_ok ms me (receive ws text a).
Proof.
  intros Hms Hme Ha. unfold receive. pose proof (answer_text_cases ws text (subscriptions a)) as Hcases.
  destruct (answer_text ws text (subscriptions a)) as [response m]. cbn in Hcases.
  assert (Hlocal : remove_client ws m = remove_client ws (subscriptions a)) by (destruct Hcases as [->|(data & -> & _)]; [done|apply handle_message_local]).
  destruct (dict_get ws (ws_client_states a)) as [s|] eqn:Es.
  - assert (Hm : ws_ok ms me (with_subscriptions m a)).
    { destruct Hcases as [->|(data & -> & _)]; [by destruct a|]. destruct (ok_limits _ _ _ Ha) as [Hl1 Hl2].
      assert (Hin : ws ∈ ws_clients a) by (rewrite <-(ok_states _ _ _ Ha); apply dict_get_Some_elem in Es; by apply (list_elem_of_fmap_2 fst) in Es).
      assert (Hmem : forall A (d : list (string * A)), dict_keys d = ws_clients a -> dict_mem ws d = true).
      { intros A d Hd. unfold dict_mem. destruct (dict_get ws d) eqn:Eg; [done|]. apply dict_get_None in Eg. rewrite Hd in Eg. done. }
      destruct (handle_message_keys py_eq py_str sorted_values ws data (subscriptions a)) as [Hk1 Hk2]; [apply Hmem, Ha|apply Hmem, Ha|].
      destruct (handle_message_limits py_eq py_str sorted_values ws data (subscriptions a)) as [Hm1 Hm2].
      destruct Ha as [H1 H2 H3 H4 H5 H6 H7 H8 H9]. split; try done; cbn; [congruence|congruence|split; congruence|].
      by apply handle_message_bounded; [rewrite Hl1|rewrite Hl2|]. }
    destruct response as [r|]; [|done]. pose proof (queue_ok ms me ws r _ Hm) as Hq.
    destruct (_queue_dashboard_ws_message ws r (with_subscriptions m a)) as [[] a']; [done|by apply close_drops_handler].
  - destruct response as [r|].
    + unfold _queue_dashboard_ws_message. cbn. rewrite Es, close_after_message by done. by apply close_drops_handler.
    + destruct Hcases as [->|(data & _ & Hs)]; [by destruct a|by destruct Hs].
Qed.

Lemma register_ok ms me ws key n a :
  0 <= max_ws_outbound_queue -> 0 <= ms -> 0 <= me -> ws_ok ms me a -> ws ∉ handlers a -> ws ∉ dict_keys (waiting a) ->
  ws_ok ms me (register ws key n a).
Proof.
  intros Hq Hms Hme [H1 H2 H3 H4 H5 [H6 H6'] H7 [H8 H8'] [H9 H9']] Hh Hw.
  assert (Hnew : ws ∉ ws_clients a) by (intros Hin; by apply Hh, H5).
  assert (Hkeys : forall A (d : list (string * A)) v, dict_keys d = ws_clients a -> dict_keys (dict_set ws v d) = ws_clients a ++ [ws]).
  { intros A d v Hd. rewrite dict_keys_set. unfold dict_mem. destruct (dict_get ws d) eqn:E; [|by rewrite Hd].
    apply dict_get_Some_elem in E. apply (list_elem_of_fmap_2 fst) in E. change (d.*1) with (dict_keys d) in E. by rewrite Hd in E. }
  split; cbn; try (by apply Hkeys).
  - apply NoDup_app. split_and!; [done| |apply NoDup_singleton]. by intros x Hx ->%list_elem_of_singleton.
  - intros x [Hx| ->%list_elem_of_singleton]%elem_of_app; [right; by apply H5|left].
  - split; [done|]. intros x Hx [->|Hin]%elem_of_cons; [done|by apply (H6' x)].
  - by apply dict_set_Forall.
  - done.
  - split; cbn; (apply dict_set_Forall; [cbn; lia|done]).
Qed.

Lemma keys_app {A} (d1 d2 : list (string * A)) : dict_keys (d1 ++ d2) = dict_keys d1 ++ dict_keys d2.
Proof. apply fmap_app. Qed.

(** A handler that leaves the wait. *)
Lemma leave_wait_ok ms me ws x w1 w2 a :
  ws_ok ms me a -> waiting a = w1 ++ (ws, x) :: w2 ->
  ws_ok ms me (with_waiting (w1 ++ w2) a) /\ ws ∉ handlers a /\ ws ∉ dict_keys (w1 ++ w2).
Proof.
  intros [H1 H2 H3 H4 H5 [H6 H6'] H7 H8 H9] Hw. rewrite Hw, keys_app in H6, H6'. cbn in H6, H6'.
  change (dict_keys ((ws, x) :: w2)) with (ws :: dict_keys w2) in *.
  assert (Hp : NoDup (ws :: dict_keys (w1 ++ w2))) by (rewrite keys_app; by rewrite Permutation_middle).
  apply NoDup_cons in Hp as [Hni Hnd].
  split_and!; [split; try done; cbn; split; [done|]| |done].
  - intros y Hy. apply H6'. rewrite keys_app in Hy. apply elem_of_app in Hy as [Hy|Hy]; apply elem_of_app; [by left|right; by right].
  - apply H6'. apply elem_of_app. right. left.
Qed.

Lemma ws_step_ok ms me a a' : 0 <= max_ws_outbound_queue -> 1 <= ms -> 1 <= me -> ws_ok ms me a -> ws_step a a' -> ws_ok ms me a'.
Proof.
  intros Hq Hms Hme Ha Hstep. destruct Hstep as [ws key n a Had Hc Hh Hw|ws key n w1 w2 a Hw|ws key n w1 w2 a Hw|ws text a Hin|ws a Hin|ws a|ws a|msgs a].
  - destruct Ha as [H1 H2 H3 H4 H5 [H6 H6'] H7 H8 H9]. split; try done. cbn. change (dict_keys ((ws, (key, n)) :: waiting a)) with (ws :: dict_keys (waiting a)).
    split; [by constructor|]. by intros x [->|Hx]%elem_of_cons; [|apply H6'].
  - destruct (leave_wait_ok ms me ws _ w1 w2 a Ha Hw) as (Hok & Hh & Hk). apply register_ok; [done|lia|lia|done|done|done].
  - apply (leave_wait_ok ms me ws _ w1 w2 a Ha Hw).
  - by apply receive_ok.
  - by apply close_drops_handler.
  - by apply close_ok.
  - by apply send_ok.
  - by apply notify_ok.
Qed.

(** Claim C27. In every state the event loop can reach, whatever the order of connections,
    messages, notifications and closings: the registered clients are exactly those with a queue
    and with subscriptions, each once, each with its handler still running; no queue is longer
    than its bound and no client has more subscriptions than allowed. *)
Theorem ws_state_consistent (max_state max_event : Z) (a : ws_app) :
  1 <= max_ws_outbound_queue -> rtc ws_step (on_startup max_state max_event) a -> ws_ok (Z.max max_state 1) (Z.max max_event 1) a.
Proof.
  intros Hq Hr. assert (H0 : ws_ok (Z.max max_state 1) (Z.max max_event 1) (on_startup max_state max_event)).
  { split; try done; try constructor; try done; try constructor. by intros ws ?%not_elem_of_nil. }
  revert H0. induction Hr as [|x y z Hxy _ IH]; intros H0; [done|]. apply IH. by apply (ws_step_ok _ _ x); [lia|lia|lia| |].
Qed.

(** ** Limits when connections are not interrupted *)

(** The clients of an address. *)
Fixpoint held (key : string) (d : list (string * _DashboardWsClientState)) : Z :=
  match d with [] => 0 | (_, s) :: d => (if decide (client_key s = key) then 1 else 0) + held key d end.

(** [ws.prepare] returns before another task runs. *)
Inductive calm_step : ws_app -> ws_app -> Prop :=
  | calm_connect ws key n a :
      may_connect key a = Some n -> ws ∉ handlers a -> ws ∉ dict_keys (waiting a) -> calm_step a (register ws key n a)
  | calm_other a a' : ws_step a a' -> waiting a' = [] -> calm_step a a'.

Record calm_ok (a : ws_app) : Prop := {
  ca_waiting : waiting a = [];
  ca_counts key : count_of key a = held key (ws_client_states a);
  ca_per_client key : count_of key a <= max_ws_clients_per_client;
  ca_clients : Z.of_nat (length (ws_clients a)) <= max_ws_clients }.

Lemma held_nonneg key d : 0 <= held key d.
Proof. induction d as [|[k s] d IH]; cbn; [lia|case_decide; lia]. Qed.

Lemma held_set_new key ws s d : dict_get ws d = None -> held key (dict_set ws s d) = held key d + (if decide (client_key s = key) then 1 else 0).
Proof.
  induction d as [|[k x] d IH]; cbn [dict_get dict_set held]; intros Hn; [lia|].
  destruct (decide (ws = k)); [done|]. cbn [held]. rewrite IH by done. lia.
Qed.

Lemma held_set_same key ws s s0 d : dict_get ws d = Some s0 -> client_key s = client_key s0 -> held key (dict_set ws s d) = held key d.
Proof.
  induction d as [|[k x] d IH]; [done|]. cbn [dict_get dict_set]. intros Hs Hk. destruct (decide (ws = k)).
  - injection Hs as ->. cbn [held]. by rewrite Hk.
  - cbn [held]. by rewrite IH.
Qed.

Lemma held_pop key ws d : NoDup (dict_keys d) ->
  held key (dict_pop ws d) = held key d - match dict_get ws d with Some s => if decide (client_key s = key) then 1 else 0 | None => 0 end.
Proof.
  induction d as [|[k x] d IH]; [done|]. change (dict_keys ((k, x) :: d)) with (k :: dict_keys d). intros [Hni Hnd]%NoDup_cons.
  cbn [dict_get held]. unfold dict_pop. rewrite filter_cons. cbn [fst]. destruct (decide (ws = k)) as [->|Hne].
  - rewrite decide_False by naive_solver. change (filter _ d) with (dict_pop k d). rewrite dict_pop_absent by exact Hni. lia.
  - rewrite decide_True by done. cbn [held]. change (filter _ d) with (dict_pop ws d). rewrite IH by done. lia.
Qed.

Lemma states_calm a d :
  (forall key, held key d = held key (ws_client_states a)) -> calm_ok a -> calm_ok (with_states d a).
Proof. intros Hd [H1 H2 H3 H4]. split; try done. intros key. cbn. rewrite Hd. apply H2. Qed.

Lemma queue_calm ws msg a : calm_ok a -> calm_ok (_queue_dashboard_ws_message ws msg a).2.
Proof.
  intros Ha. unfold _queue_dashboard_ws_message. destruct (dict_get ws (ws_client_states a)) as [s|] eqn:E; [|done].
  case_match; [|done]. cbn. apply states_calm; [|done]. intros key. by apply (held_set_same _ _ _ s).
Qed.

Lemma notify_calm msgs a : calm_ok a -> calm_ok (notify msgs a).
Proof. revert a. induction msgs as [|m msgs IH]; intros a Ha; [done|]. by apply IH, queue_calm. Qed.

Lemma send_calm ws a : calm_ok a -> calm_ok (send ws a).
Proof.
  intros Ha. unfold send. destruct (dict_get ws (ws_client_states a)) as [[[|x q] k]|] eqn:E; try done.
  apply states_calm; [|done]. intros key. by eapply held_set_same.
Qed.

Lemma subs_calm m h a : calm_ok a -> calm_ok (with_handlers h (with_subscriptions m a)).
Proof. by intros [H1 H2 H3 H4]; split. Qed.

Lemma close_calm ws a : NoDup (dict_keys (ws_client_states a)) -> calm_ok a -> calm_ok (_close_dashboard_ws_client ws a).
Proof.
  intros Hnd [H1 H2 H3 H4].
  assert (Hc : forall key, count_of key (_close_dashboard_ws_client ws a) = held key (dict_pop ws (ws_client_states a))).
  { intros key. rewrite held_pop by done. unfold count_of at 1. unfold _close_dashboard_ws_client. cbn [ws_client_counts].
    destruct (dict_get ws (ws_client_states a)) as [s|] eqn:E; [|rewrite Z.sub_0_r; apply H2].
    assert (Hs : 1 <= held (client_key s) (ws_client_states a)).
    { pose proof (held_pop (client_key s) ws (ws_client_states a) Hnd) as Hp. rewrite E, decide_True in Hp by done.
      pose proof (held_nonneg (client_key s) (dict_pop ws (ws_client_states a))). lia. }
    pose proof (H2 (client_key s)) as Hk. destruct (count_of (client_key s) a <=? 1) eqn:El.
    - destruct (decide (client_key s = key)) as [<-|Hne].
      + rewrite dict_get_pop_eq. cbn. lia.
      + rewrite dict_get_pop_ne by done. rewrite Z.sub_0_r. apply H2.
    - destruct (decide (client_key s = key)) as [<-|Hne].
      + rewrite dict_get_set_eq. cbn. lia.
      + rewrite dict_get_set_ne by done. rewrite Z.sub_0_r. apply H2. }
  split; [done|exact Hc| |].
  - intros key. rewrite Hc, held_pop, <-H2 by done. specialize (H3 key). case_match; [case_decide|]; lia.
  - cbn. pose proof (length_filter (λ x, x <> ws) (ws_clients a)). lia.
Qed.

Lemma receive_calm ws text a : NoDup (dict_keys (ws_client_states a)) -> calm_ok a -> calm_ok (receive ws text a).
Proof.
  intros Hnd Ha. unfold receive. destruct (answer_text ws text (subscriptions a)) as [[r|] m].
  2: { by apply (subs_calm m (handlers a)). }
  pose proof (queue_calm ws r (with_subscriptions m a) (subs_calm m (handlers a) a Ha)) as Hq.
  assert (Hk : dict_keys (ws_client_states (_queue_dashboard_ws_message ws r (with_subscriptions m a)).2) = dict_keys (ws_client_states a)).
  { unfold _queue_dashboard_ws_message. cbn. destruct (dict_get ws (ws_client_states a)) eqn:E; [|done]. case_match; [|done]. cbn.
    by rewrite dict_keys_set_mem by (unfold dict_mem; by rewrite E). }
  destruct (_queue_dashboard_ws_message ws r (with_subscriptions m a)) as [[] a']; [done|]. cbn in Hq, Hk.
  apply close_calm; [cbn; by rewrite Hk|]. by destruct Hq.
Qed.

Lemma register_calm ws key n a :
  dict_get ws (ws_client_states a) = None -> may_connect key a = Some n -> calm_ok a -> calm_ok (register ws key n a).
Proof.
  unfold may_connect. intros Hnew Had [H1 H2 H3 H4]. destruct (max_ws_clients <=? _) eqn:E1; [done|].
  destruct (max_ws_clients_per_client <=? _) eqn:E2; [done|]. injection Had as <-.
  assert (Hc : forall k, count_of k (register ws key (count_of key a) a) = held k (dict_set ws (ClientState [] key) (ws_client_states a))
                         /\ count_of k (register ws key (count_of key a) a) <= max_ws_clients_per_client).
  { intros k. rewrite held_set_new by done. unfold count_of at 1 3, register. cbn [ws_client_counts]. cbn [client_key].
    destruct (decide (key = k)) as [<-|Hne].
    - rewrite dict_get_set_eq. cbn [default]. rewrite H2 in *. cbn. lia.
    - rewrite dict_get_set_ne by done. change (default 0 (dict_get k (ws_client_counts a))) with (count_of k a). rewrite Z.add_0_r. split; [apply H2|apply H3]. }
  split; [done|intros k; apply Hc|intros k; apply Hc|]. cbn. rewrite length_app. cbn. lia.
Qed.

Lemma calm_step_ok ms me a a' :
  0 <= max_ws_outbound_queue -> 1 <= ms -> 1 <= me -> ws_ok ms me a /\ calm_ok a -> calm_step a a' -> ws_ok ms me a' /\ calm_ok a'.
Proof.
  intros Hq Hms Hme [Hok Hca] Hstep. assert (Hnd : NoDup (dict_keys (ws_client_states a))) by (rewrite (ok_states _ _ _ Hok); apply Hok).
  destruct Hstep as [ws key n a Had Hh Hw|a a' Hstep Hwait].
  - split; [apply register_ok; try done; lia|]. apply register_calm; try done.
    apply dict_get_None. rewrite (ok_states _ _ _ Hok). intros Hin. by apply Hh, (ok_handled _ _ _ Hok).
  - split; [by apply (ws_step_ok ms me a)|].
    destruct Hstep as [ws key n a Had Hc Hh Hw|ws key n w1 w2 a Hw|ws key n w1 w2 a Hw|ws text a Hin|ws a Hin|ws a|ws a|msgs a]; try done.
    + rewrite (ca_waiting _ Hca) in Hw. by destruct w1.
    + rewrite (ca_waiting _ Hca) in Hw. by destruct w1.
    + by apply receive_calm.
    + apply close_calm; [done|]. by destruct Hca.
    + by apply close_calm.
    + by apply send_calm.
    + by apply notify_calm.
Qed.

(** As long as no task runs while a connection waits for [ws.prepare], the count kept
    for an address is the number of its clients, and neither limit on clients is exceeded. *)
Theorem ws_limits_hold (max_state max_event : Z) (a : ws_app) :
  1 <= max_ws_clients -> 1 <= max_ws_clients_per_client -> 1 <= max_ws_outbound_queue ->
  rtc calm_step (on_startup max_state max_event) a -> calm_ok a.
Proof.
  intros Hm1 Hm2 Hq Hr.
  assert (H0 : ws_ok (Z.max max_state 1) (Z.max max_event 1) (on_startup max_state max_event) /\ calm_ok (on_startup max_state max_event)).
  { split; [|split; cbn; try done; try lia; intros key; cbn; lia]. split; try done; try constructor; try done; try constructor. by intros ws ?%not_elem_of_nil. }
  apply (proj2 (A := ws_ok (Z.max max_state 1) (Z.max max_event 1) a)). revert H0.
  induction Hr as [|x y z Hxy _ IH]; intros H0; [done|]. apply IH. by apply (calm_step_ok _ _ x); [lia|lia|lia| |].
Qed.
End Ws.

(** ** Examples *)

Section Examples.
(** Ten clients, two per address, queues of one message. *)
#[local] Notation step := (ws_step 10 2 1 sample_eq sample_py_str Ok).
#[local] Notation calm := (calm_step 10 2 1 sample_eq sample_py_str Ok).
#[local] Notation start := (on_startup 1 1).

Definition reg (ws key : string) (n : Z) (a : ws_app) : ws_app := register ws key n (with_waiting [] a).
Definition one_client : ws_app := reg "A" "ip" 0 (with_waiting [("A", ("ip", 0))] start).

Lemma one_client_reached : rtc step start one_client.
Proof.
  apply rtc_l with (with_waiting [("A", ("ip", 0))] start).
  - refine (step_admit 10 2 1 sample_eq sample_py_str Ok "A" "ip" 0 start _ _ _ _); [done|apply not_elem_of_nil..].
  - apply rtc_once. exact (step_prepared 10 2 1 sample_eq sample_py_str Ok "A" "ip" 0 [] [] (with_waiting [("A", ("ip", 0))] start) eq_refl).
Qed.

Definition subscribe_text : string := ok_or "" (dumps true (VDict [("action", VStr "subscribe"); ("type", VStr "state"); ("key", VStr "*")])).
Definition subscribed_client : ws_app := receive 1 sample_eq sample_py_str Ok "A" subscribe_text one_client.

Lemma ws_state_consistent_witness :
  dict_get "A" (_state_subs (subscriptions subscribed_client)) = Some [VStr "*"]
  /\ ws_ok 1 1 1 subscribed_client.
Proof.
  split; [by vm_compute|].
  apply (ws_state_consistent 10 2 1 sample_eq sample_py_str Ok 1 1 subscribed_client); [done|].
  apply rtc_r with one_client; [exact one_client_reached|].
  apply (step_receive 10 2 1 sample_eq sample_py_str Ok "A" subscribe_text one_client). left.
Defined.

Lemma ws_limits_hold_witness :
  let a := register "B" "ip" 1 (register "A" "ip" 0 start) in
  may_connect 10 2 "ip" a = None /\ calm_ok 10 2 a.
Proof.
  cbv zeta. split; [by vm_compute|].
  apply (ws_limits_hold 10 2 1 sample_eq sample_py_str Ok 1 1); [done..|].
  apply rtc_l with (register "A" "ip" 0 start).
  - apply (calm_connect 10 2 1 sample_eq sample_py_str Ok "A" "ip" 0 start); [done|apply not_elem_of_nil..].
  - apply rtc_once. apply (calm_connect 10 2 1 sample_eq sample_py_str Ok "B" "ip" 1); [by vm_compute| |apply not_elem_of_nil].
    apply (bool_decide_unpack _). by vm_compute.
Defined.

Definition three_waiting : list (string * (string * Z)) := [("C", ("ip", 0)); ("B", ("ip", 0)); ("A", ("ip", 0))].
Definition three_clients : ws_app :=
  reg "C" "ip" 0 (register "B" "ip" 0 (with_waiting [("C", ("ip", 0))] (register "A" "ip" 0 (with_waiting [("C", ("ip", 0)); ("B", ("ip", 0))] (with_waiting three_waiting start))))).

(** A task that runs during [ws.prepare] voids the limits: three connections that wait together
    are all registered under a limit of two with a count of one; and a client that closes while
    another of its address waits leaves a count of one with no client. *)
Theorem prepare_race :
  (rtc step start three_clients /\ held "ip" (ws_client_states three_clients) = 3 /\ count_of "ip" three_clients = 1)
  /\ exists a, rtc step start a /\ ws_clients a = [] /\ count_of "ip" a = 1.
Proof.
  assert (Hfresh : forall (x : string) (l : list string), bool_decide (x ∉ l) -> x ∉ l) by (intros x l Hb; exact (bool_decide_unpack _ Hb)).
  split; [split; [|by vm_compute]|].
  - apply rtc_l with (with_waiting [("A", ("ip", 0))] start); [apply (step_admit 10 2 1 sample_eq sample_py_str Ok "A" "ip" 0 start); [done|by apply Hfresh..]|].
    apply rtc_l with (with_waiting [("B", ("ip", 0)); ("A", ("ip", 0))] start);
      [apply (step_admit 10 2 1 sample_eq sample_py_str Ok "B" "ip" 0 (with_waiting [("A", ("ip", 0))] start)); [done|by apply Hfresh..]|].
    apply rtc_l with (with_waiting three_waiting start);
      [apply (step_admit 10 2 1 sample_eq sample_py_str Ok "C" "ip" 0 (with_waiting [("B", ("ip", 0)); ("A", ("ip", 0))] start)); [done|by apply Hfresh..]|].
    eapply rtc_l; [apply (step_prepared 10 2 1 sample_eq sample_py_str Ok "A" "ip" 0 [("C", ("ip", 0)); ("B", ("ip", 0))] []); reflexivity|].
    eapply rtc_l; [apply (step_prepared 10 2 1 sample_eq sample_py_str Ok "B" "ip" 0 [("C", ("ip", 0))] []); reflexivity|].
    eapply rtc_once. apply (step_prepared 10 2 1 sample_eq sample_py_str Ok "C" "ip" 0 [] []). reflexivity.
  - eexists. split.
    + transitivity one_client; [exact one_client_reached|].
      eapply rtc_l; [apply (step_admit 10 2 1 sample_eq sample_py_str Ok "B" "ip" 1 one_client); [by vm_compute|by apply Hfresh; vm_compute..]|].
      eapply rtc_l; [apply (step_finish 10 2 1 sample_eq sample_py_str Ok "A"); left|].
      eapply rtc_l; [apply (step_prepared 10 2 1 sample_eq sample_py_str Ok "B" "ip" 1 [] []); reflexivity|].
      eapply rtc_once. apply (step_finish 10 2 1 sample_eq sample_py_str Ok "B"). left.
    + by vm_compute.
Qed.
End Examples.
