(* ===== verification/DashboardApi.v ===== *)
(** * The dashboard's REST handlers

    The handlers of dashboard/app.py that forward a request to CometBFT's RPC
    endpoint, and the choice of that endpoint.  A handler is a program that asks the
    network: the answers are an oracle of the number of questions asked before, and
    every question is recorded, those included that aiohttp asks on its own when the
    answer is a redirect.  Coroutines that
    [asyncio.gather] runs together are run one after the other.  A connection error
    (aiohttp.ClientError) is told apart from other exceptions, as the handlers do. *)
From stdpp Require Import base list strings.
From S2P Require Import Prelude PyValue PyBuiltins Json RpcUrl DashboardEvents.
#[local] Open Scope Z_scope.

(** ** Programs that ask the network *)

Inductive api_error := ClientError (m : string) | PyError (e : exn) | HTTPBadRequest (text : string).

(** A request of the dashboard, and one that follows a redirect to its location. *)
Inductive question := Ask (url path : string) (params : list (string * string)) | Follow (location : string).
(** A JSON document, an exception, or a redirect to an address; a redirect aiohttp refuses to
    follow is an exception. *)
Inductive net_answer := Document (v : value) | Failure (e : api_error) | Moved (location : string).

#[local] Notation trace := (list question).
Definition api (A : Type) : Type := trace -> (A + api_error) * trace.

#[global] Instance api_ret : MRet api := λ A a t, (inl a, t).
#[global] Instance api_bind : MBind api := λ A B f m t,
  match m t with (inl a, t) => f a t | (inr e, t) => (inr e, t) end.

Definition api_raise {A} (e : api_error) : api A := λ t, (inr e, t).
Definition lift_py {A} (r : result A) : api A := λ t, match r with Ok a => (inl a, t) | Raise e => (inr (PyError e), t) end.

Record response := Response { rs_status : Z; rs_body : value }.
Definition ok_response (v : value) : response := Response 200 v.
Definition error_body (m : string) : value := VDict [("error", VStr m)].

(** [except aiohttp.ClientError ... except Exception ...] *)
Definition guarded (m : api response) : api response := λ t,
  match m t with
  | (inr (ClientError x), t) => (inl (Response 502 (error_body ("CometBFT RPC unavailable: " +:+ x))), t)
  | (inr (PyError e), t) => (inl (Response 500 (error_body (exn_msg e))), t)
  | (inr (HTTPBadRequest x), t) => (inl (Response 500 (error_body x)), t)
  | r => r
  end.

(** [except Exception: return x] *)
Definition or_else {A} (m : api A) (x : api_error -> A) : api A := λ t,
  match m t with (inr e, t) => (inl (x e), t) | r => r end.
Definition error_text (e : api_error) : string := match e with ClientError m | HTTPBadRequest m => m | PyError e => exn_msg e end.

Record api_request := ApiRequest { aq_query : list (string * string); aq_match : string }.

Section Api.
(** What the network answers a question with. *)
Context (net : nat -> question -> net_answer).
Context (sha256 : bytes -> bytes).
(** The standard library's functions on addresses, as in [RpcUrl] *)
Context (ip_version : string -> option Z) (urlsplit : string -> result (string * string * string * string * string))
        (urlunsplit : string * string * string * string * string -> string) (other_digits : string -> bool)
        (hostname : string -> option string) (port_of : string -> result (option Z)).
(** [socket.getaddrinfo], None when it raises; the value of a text of decimal digits *)
Context (getaddrinfo : string -> Z -> option (list string)) (decimal_value : string -> option Z).

#[local] Notation normalize_rpc_url := (RpcUrl.normalize_rpc_url ip_version urlsplit urlunsplit other_digits).
(** [urlunsplit((parsed.scheme or "http", format_url_netloc(host, port), "", "", ""))] *)
Definition make_url (scheme host : string) (port : Z) : string :=
  urlunsplit (if bool_decide (scheme = "") then "http" else scheme, format_url_netloc ip_version host (Some (py_int_str port)), "", "", "").
(** [urlsplit(url).scheme] *)
Definition scheme_of (url : string) : result string := '(scheme, _, _, _, _) ← urlsplit url; Ok scheme.

Definition get (v : value) (k : string) (d : value) : api value := lift_py (py_dot_get v k d).
(** [v[k] = x] *)
Definition set_item (v : value) (k : string) (x : value) : api value :=
  match v with VDict d => mret (VDict (dict_set k x d)) | _ => lift_py (raise TypeError "object does not support item assignment") end.

(** [session.get] and [resp.json()]: redirects are followed, and the tenth raises. *)
Definition MAX_FOLLOWED : nat := 9.
Fixpoint fetch (redirects : nat) (q : question) : api value := λ t,
  match net (length t) q with
  | Document data => (inl data, t ++ [q])
  | Failure e => (inr e, t ++ [q])
  | Moved location =>
    match redirects with
    | O => (inr (ClientError "too many redirects"), t ++ [q])
    | S redirects => fetch redirects (Follow location) (t ++ [q])
    end
  end.

Definition _raw_rpc (rpc_url path : string) (params : list (string * string)) : api value :=
  data ← fetch MAX_FOLLOWED (Ask rpc_url path params);
  get data "result" data.

Definition _proxy (rpc_url path : string) (params : list (string * string)) : api response :=
  guarded (result ← _raw_rpc rpc_url path params; mret (ok_response result)).

Definition _decode_abci_value (b64 : string) : value :=
  match _decode_b64 b64 with
  | Ok raw => match Json.loads raw with Ok v => v | Raise _ => VStr raw end
  | Raise _ => VNone
  end.
Definition decode_abci (v : value) : value := match v with VStr s => _decode_abci_value s | _ => VNone end.

Definition quoted_path (query_path : string) : list (string * string) :=
  [("path", String (ascii_of_byte 34) ("/" +:+ query_path +:+ String (ascii_of_byte 34) ""))].

Definition _abci_query (rpc_url query_path : string) : api value :=
  result ← _raw_rpc rpc_url "abci_query" (quoted_path query_path);
  response ← get result "response" (VDict []);
  val ← get response "value" VNone;
  if truthy val then mret (decode_abci val) else mret VNone.

(** ** The choice of the endpoint *)

Definition LOCALNET_PORT_STRIDE : Z := 100.

Definition _validator_pubkey_hex (status : value) : option string :=
  let field v k := match v with VDict d => py_get k d (VDict []) | _ => VDict [] end in
  match (match field (field status "validator_info") "pub_key" with VDict d => py_get "value" d VNone | _ => VNone end) with
  | VStr s => if bool_decide (s = "") then None else match b64decode s with Ok b => Some (Encoding.bytes_hex b) | Raise _ => None end
  | _ => None
  end.

Definition _normalize_peer_rpc_url (peer : value) : result (option string) :=
  let node_info := match peer with VDict d => py_get "node_info" d (VDict []) | _ => VDict [] end in
  let other := match node_info with VDict d => py_get "other" d (VDict []) | _ => VDict [] end in
  rpc_address ← py_dot_get other "rpc_address" VNone;
  match rpc_address with
  | VStr a =>
    if bool_decide (py_strip a = "") then Ok None
    else
      normalized ← normalize_rpc_url a;
      scheme ← scheme_of normalized;
      let host := default "" (hostname normalized) in
      host ← (if bool_decide (host ∈ ["0.0.0.0"; "::"; "127.0.0.1"; "localhost"]) then
                remote_ip ← py_dot_get peer "remote_ip" VNone;
                match remote_ip with
                | VStr ip => Ok (if bool_decide (py_strip ip = "") then host else py_strip ip)
                | _ => Ok host
                end
              else Ok host);
      if bool_decide (host = "") then Ok None
      else
        port ← port_of normalized;
        match port with
        | None => Ok None
        | Some p => Ok (Some (make_url scheme host p))
        end
  | _ => Ok None
  end.

(** [re.fullmatch(r"node-(\d+)", moniker.strip())] *)
Definition _node_index_from_moniker (moniker : value) : option Z :=
  match moniker with
  | VStr s => rest ← strip_prefix "node-" (py_strip s); decimal_value rest
  | _ => None
  end.

Definition _loopback_host (host : option string) : bool :=
  match host with Some h => bool_decide (h ∈ ["127.0.0.1"; "localhost"; "::1"]) | None => false end.

Definition _localnet_rpc_variants (base_rpc_url : string) (current_moniker peer_moniker : value) : result (list string) :=
  scheme ← scheme_of base_rpc_url;
  base_port ← port_of base_rpc_url;
  match base_port, _node_index_from_moniker current_moniker, _node_index_from_moniker peer_moniker with
  | Some base_port, Some current_index, Some peer_index =>
    if negb (_loopback_host (hostname base_rpc_url)) then Ok []
    else
      let port := base_port + (peer_index - current_index) * LOCALNET_PORT_STRIDE in
      if port <=? 0 then Ok []
      else Ok ((λ host, make_url scheme host port)
               <$> (if bool_decide (hostname base_rpc_url = Some "::1") then ["::1"; "localhost"] else ["127.0.0.1"; "localhost"]))
  | _, _, _ => Ok []
  end.

Definition _resolved_rpc_url_variants (rpc_url : string) : result (list string) :=
  scheme ← scheme_of rpc_url;
  port ← port_of rpc_url;
  match hostname rpc_url, port with
  | Some host, Some port =>
    if bool_decide (host = "") then Ok []
    else Ok ((λ h, make_url scheme h port)
             <$> filter (λ h, h <> "" /\ h <> host) (default [] (getaddrinfo host port)))
  | _, _ => Ok []
  end.

(** The addresses a peer of the node stands for. *)
Definition peer_urls (rpc_url : string) (current_moniker peer : value) : result (list string) :=
  peer_rpc_url ← _normalize_peer_rpc_url peer;
  peer_moniker ← match peer with VDict d => py_dot_get (py_get "node_info" d (VDict [])) "moniker" VNone | _ => Ok VNone end;
  variants ← _localnet_rpc_variants rpc_url current_moniker peer_moniker;
  Ok (match peer_rpc_url with Some u => if bool_decide (u = "") then [] else [u] | None => [] end ++ variants).

Definition _allowed_rpc_urls (rpc_url : string) : api (list string) :=
  resolved ← lift_py (_resolved_rpc_url_variants rpc_url);
  let allowed := rpc_url :: resolved in
  answers ← or_else (status ← _raw_rpc rpc_url "status" []; net_info ← _raw_rpc rpc_url "net_info" []; mret (Some (status, net_info)))
                    (λ _, None);
  match answers with
  | None => mret allowed
  | Some (status, net_info) =>
    current_moniker ← match status with
                      | VDict d => node_info ← mret (py_get "node_info" d (VDict [])); get node_info "moniker" VNone
                      | _ => mret VNone
                      end;
    peers ← get net_info "peers" (VList []);
    peers ← lift_py (py_iter (py_or peers (VList [])));
    urls ← lift_py (mapM_py (peer_urls rpc_url current_moniker) peers);
    mret (allowed ++ concat urls)
  end.

Definition _request_rpc_url (default_rpc_url : string) (r : api_request) : api string :=
  match dict_get "rpc" (aq_query r) with
  | None => mret default_rpc_url
  | Some requested =>
    if bool_decide (requested = "") then mret default_rpc_url
    else
      normalized ← lift_py (normalize_rpc_url requested);
      if bool_decide (normalized = default_rpc_url) then mret default_rpc_url
      else
        allowed ← _allowed_rpc_urls default_rpc_url;
        if bool_decide (normalized ∈ allowed) then mret normalized
        else api_raise (HTTPBadRequest ("Unsupported rpc target: " +:+ normalized))
  end.

(** ** The handlers *)

Context (default_rpc_url : string).
#[local] Notation endpoint r := (_request_rpc_url default_rpc_url r).

Definition proxied (path : string) (r : api_request) : api response := rpc ← endpoint r; _proxy rpc path [].
Definition handle_status := proxied "status".
Definition handle_net_info := proxied "net_info".
Definition handle_validators := proxied "validators".
Definition handle_consensus := proxied "consensus_state".
Definition handle_unconfirmed := proxied "unconfirmed_txs".
Definition handle_config (r : api_request) : api response := mret (ok_response (VDict [("default_rpc_url", VStr default_rpc_url)])).

Definition query_param (r : api_request) (name : string) (param : string) : list (string * string) :=
  match dict_get name (aq_query r) with Some v => [(param, v)] | None => [] end.
Definition handle_blockchain (r : api_request) : api response :=
  let params := query_param r "min_height" "minHeight" ++ query_param r "max_height" "maxHeight" in
  rpc ← endpoint r; _proxy rpc "blockchain" params.

Definition only_if (test : value -> bool) (d v : value) : value := if test v then v else d.

Definition handle_validator_dashboard (r : api_request) : api response :=
  rpc ← endpoint r;
  guarded (
    status ← _raw_rpc rpc "status" [];
    let local_account := _validator_pubkey_hex status in
    policy ← _abci_query rpc "validators_policy";
    active_validators ← _abci_query rpc "validators_active";
    pending_candidates ← _abci_query rpc "validators_candidates";
    open_votes ← _abci_query rpc "validators_open_votes/limit=25/offset=0";
    local ← match local_account with
            | Some account =>
              local_validator ← _abci_query rpc ("validators_validator/" +:+ account);
              local_pending_unbonds ← _abci_query rpc ("validators_pending_unbonds/" +:+ account);
              mret (local_validator, local_pending_unbonds)
            | None => mret (VNone, VList [])
            end;
    mret (ok_response (VDict [
      ("local_account", match local_account with Some a => VStr a | None => VNone end);
      ("policy", only_if is_dict VNone policy); ("active_validators", only_if is_list (VList []) active_validators);
      ("pending_candidates", only_if is_list (VList []) pending_candidates); ("open_votes", only_if is_list (VList []) open_votes);
      ("local_validator", only_if is_dict VNone local.1); ("local_pending_unbonds", only_if is_list (VList []) local.2)]))).

Definition decode_entry (raw_tx : value) : value :=
  match raw_tx with VStr s => _decode_block_tx_entry sha256 s | _ => VDict [("raw", raw_tx)] end.

Definition handle_block (r : api_request) : api response :=
  rpc ← endpoint r;
  guarded (
    result ← _raw_rpc rpc "block" [("height", aq_match r)];
    block ← get result "block" (VDict []);
    data ← get block "data" VNone;
    txs ← get (py_or data (VDict [])) "txs" VNone;
    txs_raw ← lift_py (py_iter (py_or txs (VList [])));
    result ← set_item result "decoded_txs" (VList (decode_entry <$> txs_raw));
    mret (ok_response result)).

(** [if x.get("data"): ... x["data_decoded"] = decoded] *)
Definition decode_data (x : value) : api value :=
  data ← get x "data" VNone;
  if truthy data then
    match decode_abci data with VNone => mret x | decoded => set_item x "data_decoded" decoded end
  else mret x.
Fixpoint decode_each (l : list value) : api (list value) :=
  match l with [] => mret [] | x :: l => y ← decode_data x; ys ← decode_each l; mret (y :: ys) end.

Definition handle_block_results (r : api_request) : api response :=
  rpc ← endpoint r;
  guarded (
    result ← _raw_rpc rpc "block_results" [("height", aq_match r)];
    txs_results ← get result "txs_results" VNone;
    match txs_results with
    | VList l => l ← decode_each l; result ← set_item result "txs_results" (VList l); mret (ok_response result)
    | v => l ← lift_py (py_iter (py_or v (VList []))); _ ← decode_each l; mret (ok_response result)
    end).

Definition handle_tx (r : api_request) : api response :=
  let tx_hash := if startswith "0x" (aq_match r) then aq_match r else "0x" +:+ aq_match r in
  rpc ← endpoint r;
  guarded (
    result ← _raw_rpc rpc "tx" [("hash", tx_hash)];
    tx ← get result "tx" VNone;
    result ← match tx with
             | VStr s => match _decode_tx_bytes s with
                         | Some decoded => if truthy decoded then set_item result "tx_decoded" decoded else mret result
                         | None => mret result
                         end
             | _ => mret result
             end;
    tx_result ← get result "tx_result" (VDict []);
    decoded ← decode_data tx_result;
    result ← match result with
             | VDict d => if dict_mem "tx_result" d then set_item result "tx_result" decoded else mret result
             | _ => mret result
             end;
    mret (ok_response result)).

Definition handle_contract (r : api_request) : api response :=
  let name := aq_match r in
  rpc ← endpoint r;
  guarded (
    source ← _abci_query rpc ("contract_source/" +:+ name);
    methods ← _abci_query rpc ("contract_methods/" +:+ name);
    variables ← _abci_query rpc ("contract_vars/" +:+ name);
    metadata ← _abci_query rpc ("contract_info/" +:+ name);
    summary ← _abci_query rpc ("contract_summary/" +:+ name);
    mret (ok_response (VDict [
      ("name", VStr name); ("source", source); ("has_original_source", VBool (negb (is_none source)));
      ("metadata", py_or metadata (VDict [])); ("summary", summary);
      ("methods", match methods with VDict d => py_get "methods" d methods | v => v end); ("variables", variables)]))).

Definition _request_int (r : api_request) (key : string) (d : Z) : Z :=
  match dict_get key (aq_query r) with
  | None => d
  | Some raw => match int_of_str raw with Ok z => Z.max 0 z | Raise _ => d end
  end.
Definition page_of (r : api_request) (default_limit : Z) : Z * Z := (Z.min (_request_int r "limit" default_limit) 500, _request_int r "offset" 0).
Definition page_path (path : string) (limit offset : Z) : string :=
  path +:+ "/limit=" +:+ py_int_str limit +:+ "/offset=" +:+ py_int_str offset.
Definition full_page (l : list value) (limit : Z) : value := VBool ((limit <=? Z.of_nat (length l)) && (0 <? limit)).

Definition handle_address (r : api_request) : api response :=
  let address := aq_match r in
  rpc ← endpoint r;
  let '(limit, offset) := page_of r 50 in
  guarded (
    transactions ← _abci_query rpc (page_path ("txs_by_sender/" +:+ address) limit offset);
    rewards ← _abci_query rpc ("developer_rewards/" +:+ address);
    mret (ok_response (VDict [
      ("address", VStr address); ("available", VBool (is_list transactions)); ("transactions", only_if is_list (VList []) transactions);
      ("limit", VInt limit); ("offset", VInt offset);
      ("has_more", match transactions with VList l => full_page l limit | _ => VBool false end);
      ("developer_rewards", only_if is_dict VNone rewards)]))).

(** [len(v)] *)
Definition len_of (v : value) : result (list value) :=
  match v with VInt _ | VBool _ | VNone | VFloat _ => raise TypeError "object has no len()" | v => py_iter v end.

Definition handle_addresses (r : api_request) : api response :=
  rpc ← endpoint r;
  let '(limit, offset) := page_of r 50 in
  guarded (
    payload ← _abci_query rpc (page_path "addresses" limit offset);
    match payload with
    | VDict d =>
      let items := py_get "items" d (VList []) in
      l ← lift_py (len_of items);
      mret (ok_response (VDict [("available", VBool (truthy (py_get "available" d (VBool true)))); ("items", items);
                                ("limit", VInt limit); ("offset", VInt offset); ("has_more", full_page l limit)]))
    | _ => mret (ok_response (VDict [("available", VBool false); ("items", VList []); ("limit", VInt limit); ("offset", VInt offset);
                                     ("has_more", VBool false)]))
    end).

Definition handle_contracts (r : api_request) : api response :=
  rpc ← endpoint r;
  let '(limit, offset) := page_of r 100 in
  let sort := default "submitted_at" (dict_get "sort" (aq_query r)) in
  let order := default "desc" (dict_get "order" (aq_query r)) in
  guarded (
    payload ← _abci_query rpc (page_path "contracts" limit offset +:+ "/sort=" +:+ sort +:+ "/order=" +:+ order);
    mret (ok_response (match payload with
                       | VDict _ => payload
                       | _ => VDict [("items", py_or payload (VList [])); ("limit", VInt limit); ("offset", VInt offset);
                                     ("sort", VStr sort); ("order", VStr order)]
                       end))).

Definition handle_recent_events (r : api_request) : api response :=
  rpc ← endpoint r;
  let '(limit, offset) := page_of r 50 in
  guarded (
    payload ← _abci_query rpc (page_path "recent_events" limit offset);
    mret (ok_response (match payload with
                       | VDict _ => payload
                       | _ => VDict [("available", VBool false); ("items", VList []); ("limit", VInt limit); ("offset", VInt offset)]
                       end))).

Definition handle_abci_query (r : api_request) : api response :=
  rpc ← endpoint r;
  guarded (
    result ← _raw_rpc rpc "abci_query" (quoted_path (aq_match r));
    response ← get result "response" (VDict []);
    val ← get response "value" VNone;
    response ← (if truthy val then match decode_abci val with VNone => mret response | d => set_item response "value" d end
                else mret response);
    key ← get response "key" VNone;
    response ← (if truthy key then
                  match key with
                  | VStr s => match _decode_b64 s with Ok k => set_item response "key" (VStr k) | Raise _ => mret response end
                  | _ => mret response
                  end
                else mret response);
    result ← match result with
             | VDict d => if dict_mem "response" d then set_item result "response" response else mret result
             | _ => mret result
             end;
    mret (ok_response result)).

(** [fetch_decoded_query]: code and value *)
Definition fetch_decoded_query (rpc path : string) : api (value * value) :=
  result ← _raw_rpc rpc "abci_query" (quoted_path path);
  response ← get result "response" (VDict []);
  val ← get response "value" VNone;
  code ← get response "code" VNone;
  mret (code, if truthy val then decode_abci val else VNone).
Definition code_zero (code : value) : bool := match code with VInt z => z =? 0 | VBool b => negb b | VFloat r => negb (truthy code) | _ => false end.
Definition disabled : value := VDict [("enabled", VBool false)].

Definition fetch_perf (rpc : string) : api value :=
  or_else (
    q ← fetch_decoded_query rpc "perf_status";
    if negb (code_zero q.1) || is_none q.2 then mret disabled
    else enabled ← get q.2 "enabled" (VBool false); mret (VDict [("enabled", VBool (truthy enabled)); ("snapshot", q.2)]))
  (λ e, VDict [("enabled", VBool false); ("error", VStr (error_text e))]).
Definition fetch_bds (rpc : string) : api value :=
  or_else (
    q ← fetch_decoded_query rpc "bds_status";
    if negb (code_zero q.1) || negb (is_dict q.2) then mret disabled else mret (VDict [("enabled", VBool true); ("status", q.2)]))
  (λ _, disabled).
Definition fetch_unconfirmed (rpc : string) : api value := or_else (_raw_rpc rpc "unconfirmed_txs" []) (λ e, error_body (error_text e)).

Definition handle_monitoring (r : api_request) : api response :=
  rpc ← endpoint r;
  perf ← fetch_perf rpc; bds ← fetch_bds rpc; unconfirmed ← fetch_unconfirmed rpc;
  mret (ok_response (VDict [("perf", perf); ("bds", bds); ("unconfirmed_txs", unconfirmed)])).

(** The routes under /api. *)
Definition handlers : list (string * (api_request -> api response)) :=
  [("/api/config", handle_config); ("/api/status", handle_status); ("/api/net_info", handle_net_info); ("/api/validators", handle_validators);
   ("/api/validator_dashboard", handle_validator_dashboard); ("/api/consensus", handle_consensus); ("/api/blockchain", handle_blockchain);
   ("/api/block/{height}", handle_block); ("/api/block_results/{height}", handle_block_results); ("/api/tx/{hash}", handle_tx);
   ("/api/unconfirmed_txs", handle_unconfirmed); ("/api/monitoring", handle_monitoring); ("/api/contract/{name}", handle_contract);
   ("/api/address/{address}", handle_address); ("/api/addresses", handle_addresses); ("/api/contracts", handle_contracts);
   ("/api/recent_events", handle_recent_events); ("/api/abci_query/{path:.+}", handle_abci_query)].

(** ** Whom the handlers ask *)

(** The addresses the dashboard may ask: its own node, the names that resolve to it, and what
    the node itself answers about its peers. *)
Inductive permitted : string -> Prop :=
  | permit_default : permitted default_rpc_url
  | permit_resolved u l : _resolved_rpc_url_variants default_rpc_url = Ok l -> u ∈ l -> permitted u
  | permit_peer u t data net_info peers l moniker peer urls :
      (fetch MAX_FOLLOWED (Ask default_rpc_url "net_info" []) t).1 = inl data -> py_dot_get data "result" data = Ok net_info ->
      py_dot_get net_info "peers" (VList []) = Ok peers -> py_iter (py_or peers (VList [])) = Ok l -> peer ∈ l ->
      peer_urls default_rpc_url moniker peer = Ok urls -> u ∈ urls -> permitted u.

(** The questions that may be asked: at a permitted address, or where the answer to such a
    question redirects to. *)
Inductive justified : question -> Prop :=
  | justified_ask url path params : permitted url -> justified (Ask url path params)
  | justified_follow n q location : justified q -> net n q = Moved location -> justified (Follow location).

(** A program asks justified questions only, and returns what satisfies [Q]. *)
Definition asks {A} (Q : A -> Prop) (m : api A) : Prop := forall t,
  (exists l, (m t).2 = t ++ l /\ Forall justified l) /\ match (m t).1 with inl a => Q a | inr _ => True end.

Lemma asks_ret {A} (Q : A -> Prop) a : Q a -> asks Q (mret a).
Proof. intros Ha t. split; [|done]. exists []. by rewrite app_nil_r. Qed.
Lemma asks_lift {A} (r : result A) : asks (λ a, r = Ok a) (lift_py r).
Proof. intros t. destruct r; (split; [exists []; by rewrite app_nil_r|done]). Qed.
Lemma asks_raise {A} (Q : A -> Prop) e : asks Q (api_raise e).
Proof. intros t. split; [|done]. exists []. by rewrite app_nil_r. Qed.

Lemma asks_bind {A B} (Q : A -> Prop) (R : B -> Prop) (m : api A) (f : A -> api B) :
  asks Q m -> (forall a, Q a -> asks R (f a)) -> asks R (m ≫= f).
Proof.
  intros Hm Hf t. destruct (Hm t) as [(l & Hl & Hp) Hq]. unfold mbind, api_bind. destruct (m t) as [[a|e] t1]; cbn in *; [|by split; [exists l|]].
  destruct (Hf a Hq t1) as [(l' & Hl' & Hp') Hr]. split; [|done]. exists (l ++ l'). rewrite Hl', Hl, (assoc_L app). split; [done|]. by apply Forall_app.
Qed.

Lemma asks_weaken {A} (Q R : A -> Prop) (m : api A) : (forall a, Q a -> R a) -> asks Q m -> asks R m.
Proof. intros HQR Hm t. destruct (Hm t) as [Hl Hq]. split; [done|]. destruct ((m t).1); auto. Qed.

Lemma asks_or_else {A} (Q : A -> Prop) (m : api A) x : asks Q m -> (forall e, Q (x e)) -> asks Q (or_else m x).
Proof. intros Hm Hx t. destruct (Hm t) as [Hl Hq]. unfold or_else. destruct (m t) as [[a|e] t1]; (split; [exact Hl|]); [exact Hq|apply Hx]. Qed.

Lemma asks_guarded (m : api response) :
  asks (λ v, rs_status v = 200) m -> asks (λ v, rs_status v ∈ [200; 500; 502]) (guarded m).
Proof.
  intros Hm t. destruct (Hm t) as [Hl Hq]. unfold guarded.
  destruct (m t) as [[a|[x|e|x]] t1]; cbn in *; (split; [done|]); rewrite ?Hq; apply (bool_decide_unpack _); done.
Qed.

Lemma asks_get v k d : asks (λ x, py_dot_get v k d = Ok x) (get v k d).
Proof. apply asks_lift. Qed.
Lemma asks_set_item v k x : asks (λ _, True) (set_item v k x).
Proof. unfold set_item. case_match; first [by apply asks_ret|exact (asks_weaken _ _ _ (λ _ _, I) (asks_lift _))]. Qed.

Lemma asks_fetch redirects q : justified q -> asks (λ _, True) (fetch redirects q).
Proof.
  revert q. induction redirects as [|redirects IH]; intros q Hq t; cbn [fetch];
    assert (Hl : exists l, t ++ [q] = t ++ l /\ Forall justified l) by (exists [q]; split; [done|by repeat constructor]);
    destruct (net (length t) q) as [data|e|location] eqn:E; try (by split).
  destruct (IH (Follow location) (justified_follow _ _ _ Hq E) (t ++ [q])) as [(l & Hl' & Hf) Ht]. split; [|done].
  exists (q :: l). rewrite Hl', <- (assoc_L (++)). split; [done|]. by constructor.
Qed.

Lemma asks_raw_rpc url path params :
  permitted url ->
  asks (λ v, exists t data, (fetch MAX_FOLLOWED (Ask url path params) t).1 = inl data /\ py_dot_get data "result" data = Ok v) (_raw_rpc url path params).
Proof.
  intros Hp. unfold _raw_rpc. apply (asks_bind (λ data, exists t, (fetch MAX_FOLLOWED (Ask url path params) t).1 = inl data)).
  - intros t. destruct (asks_fetch MAX_FOLLOWED _ (justified_ask url path params Hp) t) as [Hl _]. split; [done|].
    destruct (fetch MAX_FOLLOWED (Ask url path params) t).1 eqn:E; [by exists t|done].
  - intros data [t Ht]. eapply asks_weaken; [|apply asks_get]. intros v Hv. by exists t, data.
Qed.
Lemma asks_raw_rpc_any url path params : permitted url -> asks (λ _, True) (_raw_rpc url path params).
Proof. intros Hp. exact (asks_weaken _ _ _ (λ _ _, I) (asks_raw_rpc _ _ _ Hp)). Qed.
Lemma asks_get_any v k d : asks (λ _, True) (get v k d).
Proof. exact (asks_weaken _ _ _ (λ _ _, I) (asks_get _ _ _)). Qed.
Lemma asks_lift_any {A} (r : result A) : asks (λ _, True) (lift_py r).
Proof. exact (asks_weaken _ _ _ (λ _ _, I) (asks_lift _)). Qed.

(** Programs put together from questions to permitted addresses. *)
#[local] Hint Resolve asks_raw_rpc_any asks_get_any asks_lift_any asks_set_item asks_raise : asks.
Ltac asks_steps :=
  repeat match goal with
         | |- asks _ (mbind _ _) => eapply (asks_bind (λ _, True)); [|intros ? _]
         | |- asks _ (mret _) => by apply asks_ret
         | |- asks _ (or_else _ _) => apply asks_or_else; [|done]
         | |- asks _ (let '(_, _) := ?p in _) => destruct p
         | |- asks _ (match ?v with _ => _ end) => destruct v
         | |- asks _ _ => solve [eauto with asks]
         end.

Lemma asks_abci_query url path : permitted url -> asks (λ _, True) (_abci_query url path).
Proof. intros Hp. unfold _abci_query. asks_steps. Qed.
Lemma asks_decode_data x : asks (λ _, True) (decode_data x).
Proof. unfold decode_data. asks_steps. Qed.
#[local] Hint Resolve asks_abci_query asks_decode_data : asks.
Lemma asks_decode_each l : asks (λ _, True) (decode_each l).
Proof. induction l as [|x l IH]; cbn [decode_each]; asks_steps. Qed.
#[local] Hint Resolve asks_decode_each : asks.
Lemma asks_fetch_decoded_query url path : permitted url -> asks (λ _, True) (fetch_decoded_query url path).
Proof. intros Hp. unfold fetch_decoded_query. asks_steps. Qed.
#[local] Hint Resolve asks_fetch_decoded_query : asks.
Lemma asks_fetch_perf url : permitted url -> asks (λ _, True) (fetch_perf url).
Proof. intros Hp. unfold fetch_perf. asks_steps. Qed.
Lemma asks_fetch_bds url : permitted url -> asks (λ _, True) (fetch_bds url).
Proof. intros Hp. unfold fetch_bds. asks_steps. Qed.
Lemma asks_fetch_unconfirmed url : permitted url -> asks (λ _, True) (fetch_unconfirmed url).
Proof. intros Hp. unfold fetch_unconfirmed. asks_steps. Qed.
Lemma asks_proxy url path params : permitted url -> asks (λ v, rs_status v ∈ [200; 500; 502]) (_proxy url path params).
Proof. intros Hp. apply asks_guarded. asks_steps. Qed.

Lemma asks_allowed_rpc_urls : asks (Forall permitted) (_allowed_rpc_urls default_rpc_url).
Proof.
  unfold _allowed_rpc_urls. eapply asks_bind; [apply asks_lift|]. intros resolved Hr.
  assert (Hbase : Forall permitted (default_rpc_url :: resolved)) by (apply Forall_cons; split; [apply permit_default|]; apply Forall_forall; intros u Hu; exact (permit_resolved u resolved Hr Hu)).
  eapply (asks_bind (λ o, match o with
                          | Some sn => exists t data, (fetch MAX_FOLLOWED (Ask default_rpc_url "net_info" []) t).1 = inl data /\
                                         py_dot_get data "result" data = Ok sn.2
                          | None => True
                          end)).
  { apply asks_or_else; [|done]. eapply asks_bind; [apply asks_raw_rpc_any, permit_default|]. intros status _.
    eapply asks_bind; [apply asks_raw_rpc, permit_default|]. intros net_info Hn. by apply asks_ret. }
  intros [[status net_info]|] Hs; [|by apply asks_ret]. destruct Hs as (n & data & Hn & Hd). cbn in Hd.
  eapply (asks_bind (λ _, True)); [asks_steps|]. intros moniker _. eapply asks_bind; [apply asks_get|]. intros peers Hp.
  eapply asks_bind; [apply asks_lift|]. intros l Hl. eapply asks_bind; [apply asks_lift|]. intros urls Hu. apply asks_ret. apply Forall_app. split; [done|].
  apply Forall_forall. intros u Hin. apply list_elem_of_In, in_concat in Hin as (us & Hus%list_elem_of_In & Hin%list_elem_of_In).
  destruct (mapM_py_elem _ _ _ _ Hu Hus) as (peer & Hpeer & Hpu). exact (permit_peer u n data net_info peers l moniker peer us Hn Hd Hp Hl Hpeer Hpu Hin).
Qed.

Lemma asks_endpoint r : asks permitted (_request_rpc_url default_rpc_url r).
Proof.
  unfold _request_rpc_url. destruct (dict_get "rpc" (aq_query r)) as [requested|]; [|apply asks_ret, permit_default].
  destruct (bool_decide (requested = "")); [apply asks_ret, permit_default|]. eapply asks_bind; [apply asks_lift|]. intros u Hu.
  destruct (bool_decide (u = default_rpc_url)); [apply asks_ret, permit_default|]. eapply asks_bind; [apply asks_allowed_rpc_urls|]. intros allowed Ha.
  destruct (bool_decide (u ∈ allowed)) eqn:E; [|apply asks_raise]. apply bool_decide_eq_true in E. apply asks_ret. by apply (proj1 (Forall_forall _ _) Ha).
Qed.

Lemma handler_asks path h r : (path, h) ∈ handlers -> asks (λ v, rs_status v ∈ [200; 500; 502]) (h r).
Proof.
  intros Hin.
  assert (Hok : forall v, rs_status (ok_response v) ∈ [200; 500; 502]) by (intros v; left).
  apply list_elem_of_In in Hin. cbn in Hin.
  repeat (destruct Hin as [Hin|Hin]; [injection Hin as <- <-|]); [..|done].
  all: unfold handle_config, handle_status, handle_net_info, handle_validators, handle_validator_dashboard, handle_consensus, handle_blockchain,
    handle_block, handle_block_results, handle_tx, handle_unconfirmed, handle_monitoring, handle_contract, handle_address, handle_addresses,
    handle_contracts, handle_recent_events, handle_abci_query, proxied; try (by apply asks_ret, Hok).
  all: eapply asks_bind; [apply asks_endpoint|]; intros rpc Hrpc; try (by apply asks_proxy).
  all: try (destruct (page_of _ _)); try (apply asks_guarded; asks_steps).
  eapply (asks_bind (λ _, True)); [by apply asks_fetch_perf|]. intros perf _. eapply (asks_bind (λ _, True)); [by apply asks_fetch_bds|]. intros bds _.
  eapply (asks_bind (λ _, True)); [by apply asks_fetch_unconfirmed|]. intros u _. apply asks_ret, Hok.
Qed.

Lemma justified_direct q : (forall n q location, net n q <> Moved location) -> justified q -> exists url path params, q = Ask url path params /\ permitted url.
Proof. intros Hn [url path params Hp|n q' location _ E]; [by exists url, path, params|by apply Hn in E]. Qed.

(** ** Every request is answered *)

(** A program that cannot raise. *)
Definition returns {A} (m : api A) : Prop := forall t, exists a, (m t).1 = inl a.

Lemma returns_guarded m : returns (guarded m).
Proof. intros t. unfold guarded. destruct (m t) as [[a|[x|e|x]] t1]; cbn; eauto. Qed.
Lemma returns_or_else {A} (m : api A) x : returns (or_else m x).
Proof. intros t. unfold or_else. destruct (m t) as [[a|e] t1]; cbn; eauto. Qed.
Lemma returns_bind {A B} (m : api A) (f : A -> api B) : returns m -> (forall a, returns (f a)) -> returns (m ≫= f).
Proof. intros Hm Hf t. unfold mbind, api_bind. destruct (Hm t) as [a Ha]. destruct (m t) as [[b|e] t1]; [apply Hf|done]. Qed.
Lemma returns_ret {A} (a : A) : returns (mret a).
Proof. intros t. by exists a. Qed.

Lemma handler_returns path h r : (path, h) ∈ handlers -> dict_get "rpc" (aq_query r) = None -> returns (h r).
Proof.
  intros Hin Hr.
  assert (He : returns (_request_rpc_url default_rpc_url r)) by (unfold _request_rpc_url; rewrite Hr; apply returns_ret).
  apply list_elem_of_In in Hin. cbn in Hin.
  repeat (destruct Hin as [Hin|Hin]; [injection Hin as <- <-|]); [..|done].
  all: unfold handle_config, handle_status, handle_net_info, handle_validators, handle_validator_dashboard, handle_consensus, handle_blockchain,
    handle_block, handle_block_results, handle_tx, handle_unconfirmed, handle_monitoring, handle_contract, handle_address, handle_addresses,
    handle_contracts, handle_recent_events, handle_abci_query, proxied; try apply returns_ret.
  all: apply returns_bind; [done|]; intros rpc; try (destruct (page_of _ _)); try apply returns_guarded.
  all: repeat (apply returns_bind; [apply returns_or_else|]; intros ?). apply returns_ret.
Qed.

(** Claim C26. Whatever address a request names and whatever the network answers, the requests a REST
    handler makes go to permitted addresses only: the dashboard's own node, the names that resolve
    to it and the peers the node reports.  Any other address is asked only because such a request
    was answered by a redirect, which the HTTP client follows; without redirects every address
    asked is permitted.  A request that names no address is answered, with one of the statuses
    200, 500 and 502. *)
Theorem handlers_contained (path : string) (h : api_request -> api response) (r : api_request) (t : trace) :
  (path, h) ∈ handlers ->
  (exists l, (h r t).2 = t ++ l /\ Forall justified l
     /\ ((forall n q location, net n q <> Moved location) ->
         Forall (λ q, exists url path params, q = Ask url path params /\ permitted url) l))
  /\ (forall v, (h r t).1 = inl v -> rs_status v ∈ [200; 500; 502])
  /\ (dict_get "rpc" (aq_query r) = None -> exists v, (h r t).1 = inl v).
Proof.
  intros Hin. destruct (handler_asks path h r Hin t) as [(l & Hl & Hf) Hs]. split_and!.
  - exists l. split_and!; [done|done|]. intros Hn. apply (Forall_impl _ _ _ Hf). intros q. by apply justified_direct.
  - intros v Hv. by rewrite Hv in Hs.
  - intros Hr. apply (handler_returns path h r Hin Hr t).
Qed.
End Api.

(** ** Examples *)

Section Examples.
(** A node with two peers, of which the second names a port that is no port number. *)
Definition peer_at (address : string) : value := VDict [("node_info", VDict [("other", VDict [("rpc_address", VStr address)])])].
Definition toy_net (peers : list value) (n : nat) (q : question) : net_answer :=
  match q with
  | Ask url "net_info" _ => Document (VDict [("result", VDict [("peers", VList peers)])])
  | Ask url _ _ | Follow url => Document (VDict [("result", VDict [("from", VStr url)])])
  end.
(** The same, but the peer answers a status request with a redirect. *)
Definition redirecting_net (peers : list value) (n : nat) (q : question) : net_answer :=
  match q with
  | Ask "http://a:80" "status" _ => Moved "http://10.0.0.7:9200/secret"
  | q => toy_net peers n q
  end.
(** Addresses of the form scheme://host. *)
Definition toy_split (url : string) : result (string * string * string * string * string) :=
  match cut_scheme (str_chars url) with Some (s, r) => Ok (text_of s, text_of r, "", "", "") | None => Ok ("", "", "", "", "") end.
Definition toy_unsplit (p : string * string * string * string * string) : string := let '(s, n, _, _, _) := p in s +:+ "://" +:+ n.
Definition toy_host (url : string) : option string :=
  match toy_split url with Ok (_, n, _, _, _) => Some (split_host_port (λ _, None) (λ _, false) n).1 | Raise _ => None end.
Definition toy_port (url : string) : result (option Z) := if bool_decide (url = "http://b:99999") then raise ValueError "Port out of range 0-65535" else Ok (Some 80).
Definition toy_status (net : nat -> question -> net_answer) : api_request -> api response :=
  handle_status net (λ _, None) toy_split toy_unsplit (λ _, false) toy_host toy_port (λ _ _, None) (λ _, None) "http://node".
Definition asking (rpc : string) : api_request := ApiRequest [("rpc", rpc)] "".

Lemma handlers_contained_witness :
  let net := redirecting_net [peer_at "http://a:80"] in let h := toy_status net in
  exists l, (h (asking "http://a:80") []).2 = [] ++ l
    /\ Forall (justified net (λ _, None) toy_split toy_unsplit (λ _, false) toy_host toy_port (λ _ _, None) (λ _, None) "http://node") l.
Proof.
  cbv zeta.
  destruct (handlers_contained (redirecting_net [peer_at "http://a:80"]) (λ b, b) (λ _, None) toy_split toy_unsplit (λ _, false) toy_host toy_port
           (λ _ _, None) (λ _, None) "http://node"
           "/api/status" (toy_status (redirecting_net [peer_at "http://a:80"])) (asking "http://a:80") []) as [(l & Hl & Hj & _) _].
  - right. left.
  - by exists l.
Defined.

(** A permitted peer that answers with a redirect makes the dashboard ask an address that is
    not permitted, and its answer is passed on. *)
Theorem redirect_leaves_permitted :
  let r := toy_status (redirecting_net [peer_at "http://a:80"]) (asking "http://a:80") [] in
  r.2 = [Ask "http://node" "status" []; Ask "http://node" "net_info" []; Ask "http://a:80" "status" []; Follow "http://10.0.0.7:9200/secret"]
  /\ r.1 = inl (ok_response (VDict [("from", VStr "http://10.0.0.7:9200/secret")])).
Proof. by vm_compute. Qed.

(** A peer whose address has a port out of range makes every request that names an endpoint
    raise, also one that names another peer. *)
Example peer_port_blocks_selection :
  (toy_status (toy_net [peer_at "http://a:80"; peer_at "http://b:99999"]) (asking "http://a:80") []).1 =
    inr (PyError (Exn ValueError "Port out of range 0-65535")).
Proof. by vm_compute. Qed.
End Examples.
